(* ===== verification/_CoqProject ===== *)
-Q . S2P
Prelude.v
StateM.v
Fifo.v
RingBuf.v
BleTrsmitr.v
BubbleSort.v
F32.v
GkSensor.v
GkUser.v
GkGui.v
TuyaList.v
Queue.v
SwTimer.v
Crc.v
HashMap.v
Tools.v
MixMethod.v
Memory.v
MemHeap.v
MemHeapInv.v
MemHeapFree.v
MemHeapSpec.v
MemHeapProps.v
DpSchema.v
DpProps.v
DpReport.v
DpRecv.v
BleCrypt.v
BlePacket.v
BleDp.v
Protocol.v
Lan.v
LanApp.v
Mqtt.v
TimeService.v
Event.v
WorkQueue.v
BleMgr.v
BlePeer.v
BleChannel.v
NetCfg.v
BleNetcfg.v
NetMgr.v
NetMgrProps.v
