(* ===== verification/Prelude.v ===== *)
(** * TuyaOpen / gk-bag: verification library

    ** The program

    The repository is the TuyaOpen device SDK with an application, a boxing bag (src/apps/gk_bag).
    A device runs one binary: an application on services (data points, BLE, cloud), on system
    services (timers, events, time), on utilities (lists, maps, buffers, checksums, a heap). The
    library models the code that the repository itself contributes, from the utilities up to the
    application; vendored libraries and the kernel layer of a platform are parameters.

    How the parts interact: a report of the application goes through the data points (DpSchema) to
    the BLE text of values (BleDp), into a packet with serial number, checksum and encryption
    (BlePacket, BleCrypt, Crc), into subpackages (BleTrsmitr); a command comes back the same way, to
    the sessions of the BLE manager (BleMgr), which pairs, answers and advertises. A message of a
    phone to the device itself goes over the channel (BleChannel) to the network configuration
    (BleNetcfg, NetCfg), which answers from the work queue (WorkQueue): a queue of messages (Queue)
    and works that a timer delays. An app in the local network opens a session with a handshake and
    sends commands in encrypted frames (Protocol, Lan). Timers (SwTimer) live on linked lists (TuyaList); memory comes
    from the heap (MemHeap).

    ** How code becomes definitions

    Each function is a Rocq function with the source's name. State is a record that is passed and
    returned; the errors of the source are its codes (Z). A value [None] of an operation is
    undefined behaviour: an access outside an array ([zget], [mread], [mwrite], [memcpy]), an
    unmapped byte, a signed overflow; a theorem that an operation returns [Some] therefore says
    that it is safe. Integers are Z with the wrap-around of their width written out ([wrap],
    [swrap]); [float] is IEEE binary32. What the environment decides is an argument: the result of
    an allocation, the clock, random numbers, callbacks. A mutex or a critical section around an
    operation makes it one step.

    ** Files

    Prelude: machine integers, buffers, C strings, tactics ([ub_step], [guards], [wraps]) and hints.

    Utilities (src/tools/porting/adapter/utilities/src and src/src/common/utilities)
    - Fifo, RingBuf: tuya_ringbuf.c; Fifo is the contract (a class), RingBuf the instance: a bounded
      byte queue. [ring_refines_fifo], [ring_stream].
    - TuyaList: tuya_list.c and the loops of tuya_list.h on a store of next and prev fields;
      [list_ops_refine]: sequence operations.
    - Queue: tuya_queue.c on TuyaList's pointers; [queue_refines]: a bounded sequence of messages.
    - HashMap: tuya_hashmap.c; [hashmap_refines]: a finite map; the traversal.
    - Crc: crc32i.c, crc_16.c; table-driven and bit-serial forms agree.
    - StateM: programs with state and undefined behaviour; relations that they keep, rules for total
      and partial correctness.
    - Tools, MixMethod, BubbleSort: tuya_tools.c and mix_method.c; round trips of hexadecimal, numbers
      and addresses, order of strings, versions; BubbleSort is the sorting loop that two files write.
    - Memory, MemHeap, MemHeapInv, MemHeapFree, MemHeapSpec, MemHeapProps: tuya_mem_heap.c on a byte
      memory. Inv: blocks tile the region; Free: joining of neighbours; Spec: the heaps refine a set
      of objects with contents; Props: no two objects overlap, a request fails only without a
      fitting block, nothing is lost to fragmentation, double frees, the self-check.

    System services (src/src/tal_system/src)
    - SwTimer: tal_sw_timer.c; the invariant (both lists, sorted by expiry, one entry per timer), every
      due timer fires in order and the dispatch loop ends.
    - TimeService: tal_time_serivce.c; the calendar is the Gregorian one and inverse to seconds, the
      running time is exact, the calendar clock loses the second overflow of the counter.
    - Event: tal_event.c; [event_refines]: a board of ordered subscriptions.
    - WorkQueue: tal_workqueue.c and tal_workq_service.c on SwTimer; no work is lost or run twice, a
      delayed work runs once its time has come, a work that is already queued escapes its cancellation.

    Data points (src/src/tuya_cloud_service/schema)
    - DpSchema (definitions), DpProps, DpReport, DpRecv: dp_schema.c; values keep the type of the
      schema, a report has exactly the values that changed and fits its memory, an acknowledged
      report is not repeated, a command is delivered in order.

    BLE (src/src/tuya_cloud_service/ble)
    - BleTrsmitr: ble_trsmitr.c and its callers in ble_mgr.c; fragmentation and reassembly are inverse.
    - BleCrypt: ble_cryption.c and the AES wrappers of tal_symmetry.c, on the class [Cipher].
    - BlePacket: ble_packet_encode and ble_packet_recv of ble_mgr.c; a packet arrives unchanged through
      all the layers, none is delivered twice, a packet in plain text is accepted from anyone.
    - BleDp: ble_dp.c; the text of values and its parser, reports, commands, queries.
    - BleMgr: the handlers of ble_mgr.c as programs on the manager's state (StateM) with a trace of
      effects: connections, pairing, requests, sending, advertising, start and end. Only the right
      identifier pairs, a connection that does not pair is closed, the advertising data is well formed.
    - BlePeer: what a peer's bytes do, through all layers: reset, crash and overflow by single writes
      in plain text, replay after a reconnection; what is sent is encrypted; the start is all or nothing.
    - BleChannel: ble_channel.c; a transfer in subpackages arrives whole, the length is not checked.

    Network configuration (src/src/tuya_cloud_service/netcfg and ble)
    - NetCfg: netcfg.c on WorkQueue; the list of configuration types, their start, stop and result.
    - BleNetcfg: ble_netcfg.c on BleChannel and NetCfg; a phone's network and token are delivered once.

    Network manager (src/src/tuya_cloud_service/netmgr)
    - NetMgr: netmgr.c, netconn_wifi.c and netconn_wired.c as programs on the manager with a trace.
    - NetMgrProps: the manager refines a directory of links, Wi-Fi goes on trying; requests and
      retries that are lost.

    Local network and cloud channel (src/src/tuya_cloud_service: protocol, lan, cloud)
    - Protocol: tuya_protocol.c on cipher_wrapper.c, whose authenticated cipher is the class [Gcm];
      frames and packets are parsed back, a frame without the key is not accepted, short messages
      underflow.
    - Lan: tuya_lan.c as programs on the manager with a trace, the hash is the class [Mac]; commands
      only come from proved peers, silent sessions end, the loop over frames ends.
    - LanApp: what an app does with the service, through Protocol and Lan: the handshake, a command;
      and what any peer can do to it.
    - Mqtt: mqtt_service.c and mqtt_client_wrapper.c as programs on the service with a trace: no
      message that waits for its acknowledgement is lost or reported twice, a cloud message reaches
      exactly the handlers of its protocol; a last message out of time crashes the loop.

    Application (src/apps/gk_bag/src)
    - F32, GkSensor: force_sensor.c in binary32; the window and the median of the samples, the point of
      a hit, the counters. [rest_counts_hits]: the offset has the wrong sign.
    - GkUser: user_auth.c; terminated strings and ranges of the user data.
    - GkGui: gui_main.c, gui_graphics.c as a trace of LVGL calls; navigation and drawing bounds.

    ** Theorems

    Refinements and round trips state what a component promises; invariants and safety theorems that
    every reachable state keeps it and that no operation is undefined; error theorems show, on the
    code as it is, where it does not do what it means to (each is a finding of the manifest). A
    theorem with hypotheses has a witness [<name>_witness] that applies it to a concrete input.

    ** Bounds and fuel

    Loops over data are structural or have fuel from the data: the number of timers or nodes
    ([list_fuel]), of blocks ([heap_fuel]), the length of a text ([klv_read]). [tal_time_gmtime_r]
    has 140 rounds for years, 2^32 seconds are 136 years; the loop over received frames has two more
    rounds than bytes. The theorems prove that the fuel is enough.
    Lengths are below 2^31 or 2^32 where the source stores them in such a type.

    ** Not modelled

    Vendored code (mbedtls, lwIP, LVGL, coreHTTP, coreMQTT, cJSON, NimBLE, littlefs, the QR code
    generator): parameters, or interfaces with laws, of the parts that call it. Wrappers of the
    kernel layer (threads, files, logs, radio and network devices), cloud services over HTTP, the
    loop of sockets, TLS, configuration over Wi-Fi, peripheral drivers, boards, build tools and
    other applications: input and output, tables and glue. Interleavings inside an operation,
    between its critical sections, and callbacks that call back into the service that runs them
    are not modelled. *)
From stdpp Require Export base gmap strings list numbers list_numbers.
From Stdlib Require Export ZArith Lia.

#[global] Open Scope Z_scope.

#[global] Arguments Z.pow : simpl never.
#[global] Arguments Z.modulo : simpl never.
#[global] Arguments Z.div : simpl never.
#[global] Arguments Z.sub : simpl never.
#[global] Arguments Z.add : simpl never.
#[global] Arguments Z.mul : simpl never.
#[global] Arguments Z.of_nat : simpl never.
#[global] Arguments Z.to_nat : simpl never.

(** ** Machine integers

    A C integer of width [w] is a [Z]; the conversion that C performs on
    assignment is written out with [wrap] (unsigned) or [swrap] (signed, two's
    complement, the conversion every supported compiler performs). *)

Definition wrap (w z : Z) : Z := z `mod` 2 ^ w.
Definition swrap (w z : Z) : Z := (z + 2 ^ (w - 1)) `mod` 2 ^ w - 2 ^ (w - 1).

Abbreviation u8 := (wrap 8).
Abbreviation u16 := (wrap 16).
Abbreviation u32 := (wrap 32).
Abbreviation u64 := (wrap 64).
Abbreviation i8 := (swrap 8).
Abbreviation i16 := (swrap 16).
Abbreviation i32 := (swrap 32).

(** [in_u w z]: [z] is a value of the unsigned type of width [w]. *)
Definition in_u (w z : Z) : Prop := 0 <= z < 2 ^ w.
Definition in_s (w z : Z) : Prop := - 2 ^ (w - 1) <= z < 2 ^ (w - 1).

Abbreviation is_byte := (in_u 8).
Abbreviation bytes := (list Z).
Definition bytes_ok (l : bytes) : Prop := Forall (fun b => in_u 8 b) l.

Lemma wrap_range w z : 0 <= w -> in_u w (wrap w z).
Proof. intros. unfold in_u, wrap. apply Z.mod_pos_bound. lia. Qed.

Lemma wrap_small w z : in_u w z -> wrap w z = z.
Proof. unfold in_u, wrap. intros. by apply Z.mod_small. Qed.

Lemma wrap_wrap w z : 0 <= w -> wrap w (wrap w z) = wrap w z.
Proof. intros. by apply wrap_small, wrap_range. Qed.

Lemma swrap_range w z : 0 < w -> in_s w (swrap w z).
Proof.
  intros. unfold in_s, swrap.
  pose proof (Z.mod_pos_bound (z + 2 ^ (w - 1)) (2 ^ w) ltac:(lia)).
  assert (2 ^ w = 2 * 2 ^ (w - 1)).
  { replace w with (Z.succ (w - 1)) at 1 by lia. apply Z.pow_succ_r. lia. }
  lia.
Qed.

Lemma swrap_small w z : 0 < w -> in_s w z -> swrap w z = z.
Proof.
  unfold in_s, swrap. intros Hw Hz.
  assert (2 ^ w = 2 * 2 ^ (w - 1)).
  { replace w with (Z.succ (w - 1)) at 1 by lia. apply Z.pow_succ_r. lia. }
  rewrite Z.mod_small; lia.
Qed.

Lemma wrap_narrow w w' z : 0 <= w <= w' -> wrap w (wrap w' z) = wrap w z.
Proof.
  intros Hw. unfold wrap. symmetry. apply Znumtheory.Zmod_div_mod; [lia|lia|].
  exists (2 ^ (w' - w)). rewrite <- Z.pow_add_r by lia. f_equal. lia.
Qed.

Lemma i32_u32 z : i32 (u32 z) = i32 z.
Proof.
  unfold i32, u32, swrap, wrap. f_equal. apply Zplus_mod_idemp_l.
Qed.

Lemma wrap_add_l w a b : wrap w (wrap w a + b) = wrap w (a + b).
Proof. apply Zplus_mod_idemp_l. Qed.

(** ** Buffers

    A C array is the list of its cells. An access outside the array is
    undefined behaviour, the value [None] of the [option] monad; a theorem that
    a function returns [Some _] says that it stays inside its buffers. *)

Definition zlen {A} (l : list A) : Z := Z.of_nat (length l).

Definition zget {A} (l : list A) (i : Z) : option A :=
  if bool_decide (0 <= i) then l !! Z.to_nat i else None.

Definition zset {A} (l : list A) (i : Z) (x : A) : option (list A) :=
  if bool_decide (0 <= i < zlen l) then Some (<[Z.to_nat i := x]> l) else None.

(** [mread l off n]: the source side of [memcpy(_, &l[off], n)]. *)
Definition mread {A} (l : list A) (off n : Z) : option (list A) :=
  if bool_decide (0 <= off /\ 0 <= n /\ off + n <= zlen l)
  then Some (take (Z.to_nat n) (drop (Z.to_nat off) l)) else None.

(** [mwrite l off src]: the array after [memcpy(&l[off], src, sizeof src)]. *)
Definition mwrite {A} (l : list A) (off : Z) (src : list A) : option (list A) :=
  if bool_decide (0 <= off /\ off + zlen src <= zlen l)
  then Some (take (Z.to_nat off) l ++ src ++ drop (Z.to_nat (off + zlen src)) l)
  else None.

(** [memcpy(&dst[doff], &src[soff], n)]: the destination afterwards. *)
Definition memcpy {A} (dst : list A) (doff : Z) (src : list A) (soff n : Z)
    : option (list A) :=
  s ← mread src soff n; mwrite dst doff s.

Section zlists.
Context {A : Type}.
Implicit Types (l src : list A) (i off n : Z).

Lemma zlen_nonneg l : 0 <= zlen l.
Proof. unfold zlen. lia. Qed.

Lemma zlen_nil : zlen (@nil A) = 0.
Proof. done. Qed.

Lemma zlen_cons x l : zlen (x :: l) = 1 + zlen l.
Proof. unfold zlen. simpl. lia. Qed.

Lemma zlen_app l1 l2 : zlen (l1 ++ l2) = zlen l1 + zlen l2.
Proof. unfold zlen. rewrite length_app. lia. Qed.

Lemma zlen_snoc l x : zlen (l ++ [x]) = zlen l + 1.
Proof. unfold zlen. rewrite length_app. simpl. lia. Qed.

Lemma zlen_take l n : 0 <= n -> zlen (take (Z.to_nat n) l) = n `min` zlen l.
Proof. unfold zlen. rewrite length_take. lia. Qed.

Lemma zlen_drop l n : 0 <= n -> zlen (drop (Z.to_nat n) l) = 0 `max` (zlen l - n).
Proof. unfold zlen. rewrite length_drop. lia. Qed.

Lemma zlen_to_nat l : Z.to_nat (zlen l) = length l.
Proof. unfold zlen. lia. Qed.

Lemma zget_inv l i x : zget l i = Some x -> 0 <= i < zlen l.
Proof.
  unfold zget, zlen. case_bool_decide; [|done].
  intros ?%lookup_lt_Some. lia.
Qed.

Lemma zget_is_Some l i : 0 <= i < zlen l -> is_Some (zget l i).
Proof.
  intros. unfold zget, zlen in *. rewrite bool_decide_true by lia.
  apply lookup_lt_is_Some. lia.
Qed.

Lemma zget_None l i : i < 0 \/ zlen l <= i -> zget l i = None.
Proof.
  intros. unfold zget, zlen in *. case_bool_decide; [|done].
  apply lookup_ge_None. lia.
Qed.

Lemma zget_nat l (k : nat) : zget l (Z.of_nat k) = l !! k.
Proof. unfold zget. rewrite bool_decide_true by lia. by rewrite Nat2Z.id. Qed.

Lemma zget_app_l l1 l2 i : i < zlen l1 -> zget (l1 ++ l2) i = zget l1 i.
Proof.
  intros. unfold zget, zlen in *. case_bool_decide; [|done].
  apply lookup_app_l. lia.
Qed.

Lemma zget_app_r l1 l2 i :
  zlen l1 <= i -> zget (l1 ++ l2) i = zget l2 (i - zlen l1).
Proof.
  intros. unfold zget, zlen in *. rewrite !bool_decide_true by lia.
  rewrite lookup_app_r by lia. f_equal. lia.
Qed.

Lemma zget_cons_0 x l : zget (x :: l) 0 = Some x.
Proof. done. Qed.

Lemma zget_cons_pos x l i : 0 < i -> zget (x :: l) i = zget l (i - 1).
Proof.
  intros. unfold zget. rewrite !bool_decide_true by lia.
  replace (Z.to_nat i) with (S (Z.to_nat (i - 1))) by lia. done.
Qed.

Lemma zget_take l n i : 0 <= i < n -> zget (take (Z.to_nat n) l) i = zget l i.
Proof.
  intros. unfold zget. rewrite bool_decide_true by lia.
  rewrite lookup_take. rewrite decide_True by lia. done.
Qed.

Lemma zget_drop l n i :
  0 <= n -> 0 <= i -> zget (drop (Z.to_nat n) l) i = zget l (n + i).
Proof.
  intros. unfold zget. rewrite !bool_decide_true by lia.
  rewrite lookup_drop. f_equal. lia.
Qed.

Lemma zget_middle (h x t : list A) off i :
  off = zlen h -> 0 <= i < zlen x -> zget (h ++ x ++ t) (off + i) = zget x i.
Proof.
  intros -> ?. rewrite zget_app_r by lia. rewrite zget_app_l by lia. f_equal. lia.
Qed.

(** Two arrays with the same cells are equal. *)
Lemma zlist_eq l1 l2 :
  zlen l1 = zlen l2 ->
  (forall i, 0 <= i < zlen l1 -> zget l1 i = zget l2 i) -> l1 = l2.
Proof.
  intros Hlen Heq. apply list_eq. intros k.
  destruct (decide (k < length l1)%nat) as [?|?].
  - rewrite <- !zget_nat. apply Heq. unfold zlen. lia.
  - unfold zlen in Hlen.
    rewrite (proj2 (lookup_ge_None l1 k)) by lia.
    by rewrite (proj2 (lookup_ge_None l2 k)) by lia.
Qed.

Lemma mread_Some l off n :
  0 <= off -> 0 <= n -> off + n <= zlen l ->
  mread l off n = Some (take (Z.to_nat n) (drop (Z.to_nat off) l)).
Proof. intros. unfold mread. by rewrite bool_decide_true. Qed.

Lemma mread_inv l off n r :
  mread l off n = Some r ->
  0 <= off /\ 0 <= n /\ off + n <= zlen l /\ zlen r = n /\
  forall i, 0 <= i < n -> zget r i = zget l (off + i).
Proof.
  unfold mread. case_bool_decide as Hb; [|done]. intros [= <-].
  destruct Hb as (?&?&?). split_and!; try done.
  - rewrite zlen_take, zlen_drop by lia. lia.
  - intros. rewrite zget_take, zget_drop by lia. done.
Qed.

Lemma mread_is_Some l off n :
  0 <= off -> 0 <= n -> off + n <= zlen l -> exists r, mread l off n = Some r.
Proof. intros. rewrite mread_Some by done. eauto. Qed.

Lemma mwrite_is_Some l off src :
  0 <= off -> off + zlen src <= zlen l -> exists r, mwrite l off src = Some r.
Proof. intros. unfold mwrite. rewrite bool_decide_true by done. eauto. Qed.

Lemma mwrite_inv l off src r :
  mwrite l off src = Some r ->
  0 <= off /\ off + zlen src <= zlen l /\ zlen r = zlen l /\
  forall i, 0 <= i < zlen l ->
    zget r i = if bool_decide (off <= i < off + zlen src)
               then zget src (i - off) else zget l i.
Proof.
  unfold mwrite. case_bool_decide as Hb; [|done]. intros [= <-].
  destruct Hb as [Ho Hl]. pose proof (zlen_nonneg src).
  split_and!; try done.
  - rewrite !zlen_app, zlen_take, zlen_drop by lia. lia.
  - intros i Hi.
    assert (Ht : zlen (take (Z.to_nat off) l) = off)
      by (rewrite zlen_take by lia; lia).
    case_bool_decide as Hin.
    + rewrite zget_app_r, Ht by lia. by rewrite zget_app_l by lia.
    + destruct (decide (i < off)).
      * rewrite zget_app_l, zget_take by lia. done.
      * rewrite zget_app_r, Ht by lia. rewrite zget_app_r by lia.
        rewrite zget_drop by lia. f_equal. lia.
Qed.

Lemma memcpy_ok dst doff src soff n :
  0 <= n -> 0 <= soff -> soff + n <= zlen src -> 0 <= doff ->
  doff + n <= zlen dst ->
  exists r, memcpy dst doff src soff n = Some r /\ zlen r = zlen dst /\
    forall i, 0 <= i < zlen dst ->
      zget r i = if bool_decide (doff <= i < doff + n)
                 then zget src (soff + (i - doff)) else zget dst i.
Proof.
  intros. unfold memcpy.
  destruct (mread_is_Some src soff n) as [s Hs]; [lia..|]. rewrite Hs. simpl.
  apply mread_inv in Hs as (_&_&_&Hl&Hs). subst n.
  destruct (mwrite_is_Some dst doff s) as [r Hr]; [lia..|].
  exists r. split; [done|]. apply mwrite_inv in Hr as (_&_&Hl&Hr).
  split; [done|]. intros i Hi. rewrite Hr by done.
  case_bool_decide; [|done]. apply Hs. lia.
Qed.

Lemma zset_inv l i x r :
  zset l i x = Some r ->
  0 <= i < zlen l /\ zlen r = zlen l /\ zget r i = Some x /\
  forall j, j <> i -> zget r j = zget l j.
Proof.
  unfold zset. case_bool_decide as Hb; [|done]. intros [= <-].
  split_and!; try lia.
  - unfold zlen. by rewrite length_insert.
  - unfold zget. rewrite bool_decide_true by lia.
    apply list_lookup_insert_eq. unfold zlen in Hb. lia.
  - intros j ?. unfold zget. case_bool_decide; [|done].
    rewrite list_lookup_insert_ne by lia. done.
Qed.

Lemma zset_is_Some l i x : 0 <= i < zlen l -> exists r, zset l i x = Some r.
Proof. intros. unfold zset. rewrite bool_decide_true by done. eauto. Qed.
End zlists.

Lemma bytes_ok_app l1 l2 : bytes_ok (l1 ++ l2) <-> bytes_ok l1 /\ bytes_ok l2.
Proof. apply Forall_app. Qed.

Lemma bytes_ok_take n l : bytes_ok l -> bytes_ok (take n l).
Proof. apply Forall_take. Qed.

Lemma bytes_ok_drop n l : bytes_ok l -> bytes_ok (drop n l).
Proof. apply Forall_drop. Qed.

(** ** Return codes (src/common/include/tuya_error_code.h) *)
Definition OPRT_OK : Z := 0.
Definition OPRT_COM_ERROR : Z := -1.
Definition OPRT_INVALID_PARM : Z := -2.
Definition OPRT_MALLOC_FAILED : Z := -3.
Definition OPRT_NOT_SUPPORTED : Z := -4.
Definition OPRT_NOT_FOUND : Z := -6.
Definition OPRT_CJSON_PARSE_ERR : Z := -8.
Definition OPRT_CJSON_GET_ERR : Z := -9.
Definition OPRT_EXCEED_UPPER_LIMIT : Z := -24.

(** ** Automation *)

(** Open the [option] monad of a hypothesis [m = Some _] step by step. *)
Ltac ub_inv :=
  repeat match goal with
  | H : (_ ≫= _) = Some _ |- _ =>
      apply bind_Some in H; destruct H as (? & ? & H); simpl in H
  | H : Some _ = Some _ |- _ => injection H as H
  | H : None = Some _ |- _ => discriminate H
  | H : mbind _ _ = Some _ |- _ =>
      apply bind_Some in H; destruct H as (? & ? & H); simpl in H
  end.

(** Run the next step of the [option] monad, and nothing else. *)
Ltac ub_step := unfold mbind, option_bind; cbv beta iota.

(** Case analysis on the boolean guards of the translated code, closing the
    branches that arithmetic excludes. *)
Ltac guards :=
  repeat (case_bool_decide; try lia).

(** Remove the wrap-arounds that the bounds in the context exclude, innermost
    first. *)
Ltac wraps :=
  repeat match goal with
  | |- context [wrap ?w ?z] => rewrite (wrap_small w z) by (unfold in_u; lia)
  | H : context [wrap ?w ?z] |- _ =>
      rewrite (wrap_small w z) in H by (unfold in_u; lia)
  end.

(** Equality of two cells given by guarded index expressions. *)
Ltac cells :=
  guards; first [done | f_equal; lia | f_equal; guards; lia].

Create HintDb clib discriminated.
#[export] Hint Resolve zlen_nonneg wrap_range : clib.
#[export] Hint Rewrite @zlen_nil @zlen_cons @zlen_app @zlen_to_nat : zlen.

Lemma zlen_fmap {A B} (f : A -> B) (l : list A) : zlen (f <$> l) = zlen l.
Proof. unfold zlen. by rewrite length_fmap. Qed.

Lemma zlen_seqZ m n : 0 <= n -> zlen (seqZ m n) = n.
Proof. intros. unfold zlen. rewrite length_seqZ. lia. Qed.

Lemma zget_fmap_seqZ {B} (f : Z -> B) m n i :
  0 <= i < n -> zget (f <$> seqZ m n) i = Some (f (m + i)).
Proof.
  intros. unfold zget. rewrite bool_decide_true by lia.
  rewrite list_lookup_fmap, lookup_seqZ_lt by lia. simpl. do 2 f_equal. lia.
Qed.

Lemma zget_default {A} (d : A) (l : list A) i :
  0 <= i < zlen l -> zget l i = Some (default d (zget l i)).
Proof. intros. by destruct (zget_is_Some l i) as [x ->]. Qed.

Lemma mwrite_nil {A} (l : list A) off :
  0 <= off <= zlen l -> mwrite l off [] = Some l.
Proof.
  intros. unfold mwrite. rewrite (@zlen_nil A), Z.add_0_r, bool_decide_true by lia.
  simpl. by rewrite take_drop.
Qed.

Lemma mwrite_cons {A} (l l1 l2 : list A) off x xs :
  zset l off x = Some l1 -> mwrite l1 (off + 1) xs = Some l2 ->
  mwrite l off (x :: xs) = Some l2.
Proof.
  intros (?&?&?&Hz)%zset_inv (?&?&Hl2&Hm)%mwrite_inv.
  destruct (mwrite_is_Some l off (x :: xs)) as [r Hr]; rewrite ?zlen_cons; [lia..|].
  rewrite Hr. f_equal. apply mwrite_inv in Hr as (_&_&Hlr&Hr).
  apply zlist_eq; [lia|]. intros i Hi. rewrite Hr, Hm by lia. rewrite zlen_cons.
  destruct (decide (i = off)) as [->|].
  - rewrite bool_decide_true, bool_decide_false by (pose proof (zlen_nonneg xs); lia).
    replace (off - off) with 0 by lia. done.
  - guards; [|by rewrite Hz].
    rewrite zget_cons_pos by lia. f_equal. lia.
Qed.

Lemma mwrite_app {A} (l l1 l2 : list A) off xs ys :
  mwrite l off xs = Some l1 -> mwrite l1 (off + zlen xs) ys = Some l2 ->
  mwrite l off (xs ++ ys) = Some l2.
Proof.
  intros (?&?&Hl1&H1)%mwrite_inv (?&?&Hl2&H2)%mwrite_inv.
  pose proof (zlen_nonneg xs). pose proof (zlen_nonneg ys).
  destruct (mwrite_is_Some l off (xs ++ ys)) as [r Hr]; rewrite ?zlen_app; [lia..|].
  rewrite Hr. f_equal. apply mwrite_inv in Hr as (_&_&Hlr&Hr).
  apply zlist_eq; [lia|]. intros i Hi. rewrite Hr, H2, H1 by lia. rewrite zlen_app.
  destruct (decide (i - off < zlen xs)).
  - guards; by rewrite ?zget_app_l by lia.
  - guards; rewrite ?zget_app_r by lia; f_equal; lia.
Qed.

Lemma mwrite_take {A} (l r : list A) src :
  mwrite l 0 src = Some r -> take (Z.to_nat (zlen src)) r = src.
Proof.
  unfold mwrite. case_bool_decide; [|done]. intros [= <-].
  rewrite zlen_to_nat. apply take_app_length.
Qed.

Lemma memcpy_mwrite {A} (dst : list A) doff src soff n :
  0 <= n -> 0 <= soff -> soff + n <= zlen src ->
  memcpy dst doff src soff n =
  mwrite dst doff (take (Z.to_nat n) (drop (Z.to_nat soff) src)).
Proof. intros. unfold memcpy. by rewrite mread_Some. Qed.

(** A boolean property of the first [n] integers, checked by evaluation. *)
Lemma below_forallb (P : Z -> bool) n :
  forallb P (seqZ 0 n) = true -> forall d, 0 <= d < n -> P d = true.
Proof.
  intros Hall d Hd. rewrite forallb_forall in Hall. apply Hall.
  apply list_elem_of_In, elem_of_seqZ. lia.
Qed.

(** A row computed cell by cell. *)
Lemma mapM_seqZ {B} (f : Z -> option B) n :
  0 <= n -> (forall i, 0 <= i < n -> is_Some (f i)) ->
  exists r, mapM f (seqZ 0 n) = Some r /\ zlen r = n /\
    forall i, 0 <= i < n -> zget r i = f i.
Proof.
  intros Hn Hf. destruct (mapM_is_Some_2 f (seqZ 0 n)) as [r Hr].
  { apply Forall_forall. intros i Hi%elem_of_seqZ. apply Hf. lia. }
  exists r. split; [done|]. apply mapM_Some in Hr.
  assert (Hlen : zlen r = n)
    by (unfold zlen; rewrite <- (Forall2_length _ _ _ Hr), length_seqZ; lia).
  split; [done|]. intros i Hi. destruct (zget_is_Some r i) as [x Hx]; [lia|].
  rewrite Hx. unfold zget in Hx. rewrite bool_decide_true in Hx by lia.
  destruct (Forall2_lookup_r _ _ _ _ _ Hr Hx) as (j & Hj & Hfj).
  apply lookup_seqZ in Hj as [-> _]. by replace i with (0 + Z.of_nat (Z.to_nat i)) by lia.
Qed.

(** ** C strings

    A string value is the list of its bytes without the terminator. *)
Definition c_str (s : string) : bytes :=
  map (fun a => Z.of_N (Ascii.N_of_ascii a)) (String.list_ascii_of_string s).

(** The string that starts at the head of an array: the cells before the first 0. *)
Fixpoint c_string (a : bytes) : bytes :=
  match a with
  | [] => []
  | b :: a => if bool_decide (b = 0) then [] else b :: c_string a
  end.

(** No 0 inside. *)
Definition no_nul (s : bytes) : Prop := Forall (fun b => b <> 0) s.

Definition strncpy (dst src : bytes) (n : Z) : option bytes :=
  let s := take (Z.to_nat n) src in
  mwrite dst 0 (s ++ replicate (Z.to_nat (n - zlen s)) 0).

Definition strcpy (dst src : bytes) : option bytes := mwrite dst 0 (src ++ [0]).

Lemma c_string_nul s rest : no_nul s -> c_string (s ++ 0 :: rest) = s.
Proof.
  induction 1 as [|b s Hb _ IH]; [done|]. simpl. rewrite bool_decide_false by done. by rewrite IH.
Qed.

Lemma no_nul_take n s : no_nul s -> no_nul (take n s).
Proof. apply Forall_take. Qed.

Lemma mwrite_0 {A} (dst src : list A) :
  zlen src <= zlen dst ->
  mwrite dst 0 src = Some (src ++ drop (Z.to_nat (zlen src)) dst).
Proof.
  intros. unfold mwrite. rewrite bool_decide_true by (pose proof (zlen_nonneg src); lia). done.
Qed.

(** [strncpy(dst, src, sizeof(dst) - 1)] into an array that ends in 0 truncates. *)
Lemma strncpy_ok dst src n :
  0 <= n -> zlen dst = n + 1 -> zget dst n = Some 0 -> no_nul src ->
  exists dst', strncpy dst src n = Some dst' /\ zlen dst' = n + 1 /\
    zget dst' n = Some 0 /\ c_string dst' = take (Z.to_nat n) src.
Proof.
  intros Hn Hd Hz Hs. unfold strncpy. set (s := take (Z.to_nat n) src).
  assert (Hsl : zlen s <= n) by (unfold s; rewrite zlen_take; lia).
  pose proof (zlen_nonneg s) as Hs0.
  set (pad := replicate (Z.to_nat (n - zlen s)) 0).
  assert (Hp : zlen pad = n - zlen s) by (unfold pad, zlen at 1; rewrite length_replicate; lia).
  assert (Hw : zlen (s ++ pad) = n) by (rewrite zlen_app; lia).
  rewrite mwrite_0 by lia. rewrite Hw.
  assert (Hdrop : drop (Z.to_nat n) dst = [0]).
  { apply zlist_eq; [rewrite zlen_drop by lia; change (zlen [0]) with 1; lia|].
    rewrite zlen_drop by lia. intros i Hi. replace i with 0 by lia.
    by rewrite zget_drop, Z.add_0_r by lia. }
  rewrite Hdrop. eexists. split; [done|].
  split; [rewrite zlen_snoc; lia|]. split.
  { rewrite zget_app_r, Hw, Z.sub_diag by lia. done. }
  rewrite <- app_assoc.
  destruct (Z.to_nat (n - zlen s)) as [|k] eqn:Hk; unfold pad.
  - apply (c_string_nul _ []). by apply no_nul_take.
  - simpl. apply c_string_nul. by apply no_nul_take.
Qed.

Lemma strcpy_ok dst src n :
  zlen dst = n + 1 -> zget dst n = Some 0 -> zlen src <= n -> no_nul src ->
  exists dst', strcpy dst src = Some dst' /\ zlen dst' = n + 1 /\
    zget dst' n = Some 0 /\ c_string dst' = src.
Proof.
  intros Hd Hz Hl Hs. unfold strcpy. pose proof (zlen_nonneg src).
  destruct (mwrite_is_Some dst 0 (src ++ [0])) as [r Hr]; rewrite ?zlen_snoc; [lia..|].
  exists r. split; [done|]. pose proof Hr as Hm. apply mwrite_inv in Hr as (_ & _ & Hl' & Hr).
  split; [lia|]. split.
  - rewrite Hr by lia. rewrite zlen_snoc. case_bool_decide; [|done].
    rewrite Z.sub_0_r. replace n with (zlen src) by lia.
    by rewrite zget_app_r, Z.sub_diag by lia.
  - rewrite mwrite_0 in Hm by (rewrite zlen_snoc; lia). injection Hm as <-.
    rewrite <- app_assoc. by apply c_string_nul.
Qed.

(** A string in an array: without a terminating 0 the reader runs over its end. *)
Definition c_read (a : bytes) : option bytes := if bool_decide (0 ∈ a) then Some (c_string a) else None.

(** The string in an array whose last cell is 0. *)
Lemma c_read_last (a : bytes) n : zlen a = n + 1 -> zget a n = Some 0 -> exists t, c_read a = Some t /\ zlen t <= n /\ no_nul t.
Proof.
  intros Hl Hz. unfold c_read. assert (H0 : 0 ∈ a) by (unfold zget in Hz; case_bool_decide; [by eapply list_elem_of_lookup_2|done]).
  rewrite bool_decide_true by done. exists (c_string a). split; [done|].
  apply list_elem_of_split in H0 as (a1 & a2 & ->). clear Hz. revert n Hl.
  induction a1 as [|b a1 IH]; intros n Hl; cbn [app c_string].
  - rewrite bool_decide_true by done. change (zlen (@nil Z)) with 0. split; [|constructor].
    rewrite app_nil_l, zlen_cons in Hl. pose proof (zlen_nonneg a2). lia.
  - rewrite <- app_comm_cons, zlen_cons in Hl. destruct (IH (n - 1)) as [Hn Hf]; [lia|].
    case_bool_decide; [split; [|constructor]; change (zlen (@nil Z)) with 0; pose proof (zlen_nonneg (a1 ++ 0 :: a2)); lia|].
    rewrite zlen_cons. split; [lia|]. by constructor.
Qed.

Lemma memcpy_last (d a : bytes) n k : zlen d = n + 1 -> zget d n = Some 0 -> zlen a = n + 1 -> 0 <= k <= n ->
  exists r, memcpy d 0 a 0 k = Some r /\ zlen r = n + 1 /\ zget r n = Some 0.
Proof.
  intros Hd Hz Ha Hk. unfold memcpy, mread. rewrite bool_decide_true by lia. ub_step.
  set (t := take (Z.to_nat k) (drop (Z.to_nat 0) a)). assert (Ht : zlen t = k) by (unfold t; rewrite zlen_take, drop_0, Ha; lia).
  rewrite mwrite_0 by lia. eexists. split; [done|]. rewrite zlen_app, zlen_drop by lia. split; [lia|].
  rewrite zget_app_r by lia. rewrite Ht. unfold zget in Hz |- *. rewrite bool_decide_true in Hz by lia. rewrite bool_decide_true by lia.
  rewrite lookup_drop. by replace (Z.to_nat k + Z.to_nat (n - k))%nat with (Z.to_nat n) by lia.
Qed.

Lemma strcpy_last (d t : bytes) n : zlen d = n + 1 -> zget d n = Some 0 -> zlen t <= n ->
  exists r, strcpy d t = Some r /\ zlen r = n + 1 /\ zget r n = Some 0.
Proof.
  intros Hd Hz Ht. pose proof (zlen_nonneg t). assert (Hl : zlen (t ++ [0]) = zlen t + 1) by apply zlen_snoc.
  unfold strcpy. rewrite mwrite_0 by lia. eexists. split; [done|]. split; [rewrite zlen_app, zlen_drop by lia; lia|].
  destruct (decide (zlen t = n)) as [He|].
  - rewrite zget_app_l by lia. rewrite zget_app_r by lia. by rewrite He, Z.sub_diag.
  - rewrite zget_app_r by lia. rewrite Hl. unfold zget in Hz |- *. rewrite bool_decide_true in Hz by lia. rewrite bool_decide_true by lia.
    rewrite lookup_drop. by replace (Z.to_nat (zlen t + 1) + Z.to_nat (n - (zlen t + 1)))%nat with (Z.to_nat n) by lia.
Qed.

Lemma mwrite_full {A} (l src : list A) : zlen l = zlen src -> mwrite l 0 src = Some src.
Proof.
  intros Hl. unfold mwrite. rewrite bool_decide_true by lia. rewrite Z.add_0_l, <- Hl, zlen_to_nat, drop_all.
  by rewrite app_nil_r.
Qed.

Lemma mwrite_mid {A} (a b c b' : list A) off :
  off = zlen a -> zlen b' = zlen b -> mwrite (a ++ b ++ c) off b' = Some (a ++ b' ++ c).
Proof.
  intros -> Hl. pose proof (zlen_nonneg a). pose proof (zlen_nonneg c). unfold mwrite.
  rewrite bool_decide_true by (rewrite !zlen_app; lia). rewrite Hl, zlen_to_nat, take_app_length. do 3 f_equal.
  replace (Z.to_nat (zlen a + zlen b)) with (length a + length b)%nat by (unfold zlen; lia).
  by rewrite <- drop_drop, !drop_app_length.
Qed.

Lemma mread_middle {A} (a b c : list A) off n : off = zlen a -> n = zlen b -> mread (a ++ b ++ c) off n = Some b.
Proof.
  intros -> ->. pose proof (zlen_nonneg a). pose proof (zlen_nonneg b). pose proof (zlen_nonneg c).
  rewrite mread_Some by (rewrite ?zlen_app; lia). f_equal. rewrite !zlen_to_nat, drop_app_length.
  apply take_app_length.
Qed.

Lemma mwrite_start {A} (b c b' : list A) : zlen b' = zlen b -> mwrite (b ++ c) 0 b' = Some (b' ++ c).
Proof. exact (mwrite_mid [] b c b' 0 eq_refl). Qed.

(** Adjacent reads are one read. *)
Lemma mread_join {A} (l x y : list A) off n k m :
  mread l off n = Some x -> mread l m k = Some y -> m = off + n -> mread l off (n + k) = Some (x ++ y).
Proof.
  intros Hx Hy ->. pose proof (mread_inv _ _ _ _ Hx) as (? & ? & ? & _). pose proof (mread_inv _ _ _ _ Hy) as (? & ? & ? & _).
  rewrite mread_Some in Hx, Hy |- * by lia. injection Hx as <-. injection Hy as <-. f_equal.
  rewrite !Z2Nat.inj_add by lia. by rewrite <- drop_drop, take_take_drop.
Qed.

(** Writing where the last write ended. *)
Lemma mwrite_next {A} (a rest src : list A) off :
  off = zlen a -> zlen src <= zlen rest -> mwrite (a ++ rest) off src = Some ((a ++ src) ++ drop (Z.to_nat (zlen src)) rest).
Proof.
  intros -> Hl. pose proof (zlen_nonneg a). pose proof (zlen_nonneg src). unfold mwrite.
  rewrite bool_decide_true by (rewrite zlen_app; lia). rewrite zlen_to_nat, take_app_length, <- app_assoc. do 3 f_equal.
  replace (Z.to_nat (zlen a + zlen src)) with (length a + Z.to_nat (zlen src))%nat by (unfold zlen; lia).
  by rewrite <- drop_drop, drop_app_length.
Qed.

Lemma mwrite_step {A} (a rest src : list A) off :
  off = zlen a -> zlen src <= zlen rest ->
  exists rest', mwrite (a ++ rest) off src = Some ((a ++ src) ++ rest') /\ zlen rest' = zlen rest - zlen src.
Proof.
  intros Ho Hl. pose proof (zlen_nonneg src). exists (drop (Z.to_nat (zlen src)) rest). split; [by apply mwrite_next|].
  rewrite zlen_drop; lia.
Qed.

Lemma zset_mwrite {A} (l : list A) off x : 0 <= off < zlen l -> zset l off x = mwrite l off [x].
Proof.
  intros Ho. unfold zset, mwrite. change (zlen [x]) with 1. rewrite !bool_decide_true by lia. f_equal.
  rewrite insert_take_drop by (unfold zlen in Ho; lia). cbn [app]. do 3 f_equal. lia.
Qed.

Lemma mwrite_zeros n (src : bytes) :
  zlen src <= n -> mwrite (replicate (Z.to_nat n) 0) 0 src = Some (src ++ replicate (Z.to_nat (n - zlen src)) 0).
Proof.
  intros Hl. change (replicate (Z.to_nat n) 0) with ([] ++ replicate (Z.to_nat n) 0).
  rewrite mwrite_next by (done || (unfold zlen at 2; rewrite length_replicate; lia)).
  pose proof (zlen_nonneg src). rewrite drop_replicate. do 3 f_equal. lia.
Qed.

Lemma mwrite_end {A} (a rest src : list A) off :
  off = zlen a -> zlen src = zlen rest -> mwrite (a ++ rest) off src = Some (a ++ src).
Proof. intros Ho Hl. rewrite mwrite_next by lia. by rewrite Hl, zlen_to_nat, drop_all, app_nil_r. Qed.

(** A list cut at two lengths. *)
Lemma list_cut {A} (l : list A) n k :
  0 <= n -> 0 <= k -> n + k <= zlen l ->
  exists a b c, l = a ++ b ++ c /\ zlen a = n /\ zlen b = k /\ c = drop (Z.to_nat (n + k)) l.
Proof.
  intros Hn Hk Hl. exists (take (Z.to_nat n) l), (take (Z.to_nat k) (drop (Z.to_nat n) l)), (drop (Z.to_nat (n + k)) l).
  replace (Z.to_nat (n + k)) with (Z.to_nat n + Z.to_nat k)%nat by lia.
  split; [by rewrite <- drop_drop, !take_drop|]. rewrite !zlen_take, zlen_drop by lia. split; [lia|]. split; [lia|done].
Qed.

(** ** Lists *)

Lemma filter_others {A} (P : A -> Prop) `{forall x, Decision (P x)} (l : list A) :
  filter P l = [] -> filter (fun x => ~ P x) l = l.
Proof.
  induction l as [|x l IH]; intros Hl; [done|]. rewrite filter_cons in Hl. destruct (decide (P x)); [done|].
  rewrite filter_cons_True by done. by rewrite IH.
Qed.

(** Deleting the first of at most one match. *)
Lemma delete_found {A} (P : A -> Prop) `{forall x, Decision (P x)} (l : list A) :
  (length (filter P l) <= 1)%nat ->
  filter (fun x => ~ P x) l = match fst <$> list_find P l with Some i => delete i l | None => l end.
Proof.
  induction l as [|x l IH]; intros Hl; [done|]. cbn [list_find]. rewrite filter_cons in Hl. destruct (decide (P x)) as [Hx|Hx].
  - rewrite filter_cons_False by (intros X; by apply X). cbn [length] in Hl.
    assert (He : filter P l = []) by (apply length_zero_iff_nil; lia). exact (filter_others P l He).
  - rewrite filter_cons_True by done. rewrite (IH Hl). by destruct (list_find P l) as [[i y]|].
Qed.

Lemma find_exists {A} (P : A -> Prop) `{forall x, Decision (P x)} (l : list A) :
  bool_decide (Exists P l) = match fst <$> list_find P l with Some _ => true | None => false end.
Proof.
  induction l as [|x l IH]; [apply bool_decide_eq_false; intros Hx; by apply Exists_nil in Hx|]. cbn [list_find].
  rewrite (bool_decide_ext _ (P x \/ Exists P l)) by apply Exists_cons. destruct (decide (P x)) as [Hx|Hx].
  - by apply bool_decide_eq_true; left.
  - rewrite (bool_decide_ext _ (Exists P l)) by tauto. rewrite IH. by destruct (list_find P l) as [[i y]|].
Qed.

(** ** Numbers in memory *)

Definition le32 (n : Z) : bytes := [u8 n; u8 (Z.shiftr n 8); u8 (Z.shiftr n 16); u8 (Z.shiftr n 24)].

Definition be16 (n : Z) : bytes := [u8 (Z.shiftr n 8); u8 n].
Definition be32 (n : Z) : bytes := [u8 (Z.shiftr n 24); u8 (Z.shiftr n 16); u8 (Z.shiftr n 8); u8 n].

Definition get16 (b : bytes) (i : Z) : option Z :=
  x ← zget b i; y ← zget b (i + 1); Some (u16 (u16 (Z.shiftl x 8) + y)).

Definition get32 (b : bytes) (i : Z) : option Z :=
  x ← zget b i; y ← zget b (i + 1); z ← zget b (i + 2); w ← zget b (i + 3);
  Some (u32 (u32 (u32 (u32 (Z.shiftl x 24) + Z.shiftl y 16) + Z.shiftl z 8) + w)).

Lemma be16_get b i n : in_u 16 n -> zget b i = zget (be16 n) 0 -> zget b (i + 1) = zget (be16 n) 1 ->
  get16 b i = Some n.
Proof.
  intros Hn H0 H1. unfold get16. rewrite H0, H1. unfold in_u in Hn. cbn. ub_step. f_equal.
  rewrite !Z.shiftr_div_pow2 by lia. pose proof (Z.div_mod n 256 ltac:(lia)) as Hd.
  pose proof (Z.mod_pos_bound n 256 ltac:(lia)). change (2 ^ 16) with 65536 in *. change (2 ^ 8) with 256 in *.
  assert (0 <= n / 256 < 256) by (split; [apply Z.div_pos; lia|apply Z.div_lt_upper_bound; lia]).
  rewrite Z.shiftl_mul_pow2 by lia. change (2 ^ 8) with 256.
  unfold wrap. change (2 ^ 8) with 256. change (2 ^ 16) with 65536.
  rewrite (Z.mod_small (n / 256) 256) by lia. rewrite (Z.mod_small (n / 256 * 256)) by lia.
  rewrite Z.mod_small by lia. lia.
Qed.

Lemma be32_get b i n : in_u 32 n ->
  zget b i = zget (be32 n) 0 -> zget b (i + 1) = zget (be32 n) 1 -> zget b (i + 2) = zget (be32 n) 2 ->
  zget b (i + 3) = zget (be32 n) 3 -> get32 b i = Some n.
Proof.
  intros Hn H0 H1 H2 H3. unfold get32. rewrite H0, H1, H2, H3. unfold in_u in Hn. cbn. ub_step. f_equal.
  rewrite !Z.shiftr_div_pow2, !Z.shiftl_mul_pow2 by lia. unfold wrap.
  change (2 ^ 32) with 4294967296 in *. change (2 ^ 24) with 16777216. change (2 ^ 16) with 65536.
  change (2 ^ 8) with 256.
  assert (E1 : n / 65536 = n / 16777216 * 256 + (n / 65536) `mod` 256).
  { replace (n / 16777216) with (n / 65536 / 256) by (rewrite Z.div_div by lia; done).
    pose proof (Z.div_mod (n / 65536) 256 ltac:(lia)). lia. }
  assert (E2 : n / 256 = n / 65536 * 256 + (n / 256) `mod` 256).
  { replace (n / 65536) with (n / 256 / 256) by (rewrite Z.div_div by lia; done).
    pose proof (Z.div_mod (n / 256) 256 ltac:(lia)). lia. }
  pose proof (Z.div_mod n 256 ltac:(lia)) as E3.
  pose proof (Z.mod_pos_bound n 256 ltac:(lia)). pose proof (Z.mod_pos_bound (n / 256) 256 ltac:(lia)).
  pose proof (Z.mod_pos_bound (n / 65536) 256 ltac:(lia)).
  assert (0 <= n / 16777216 < 256) by (split; [apply Z.div_pos; lia|apply Z.div_lt_upper_bound; lia]).
  rewrite (Z.mod_small (n / 16777216) 256) by lia. rewrite (Z.mod_small (n / 16777216 * 16777216)) by lia.
  set (x1 := (n / 65536) `mod` 256) in *. set (x2 := (n / 256) `mod` 256) in *. set (x3 := n `mod` 256) in *.
  rewrite (Z.mod_small (n / 16777216 * 16777216 + x1 * 65536)) by lia.
  rewrite (Z.mod_small (_ + x2 * 256)) by lia. rewrite Z.mod_small by lia. lia.
Qed.

Lemma get32_middle a n c off : off = zlen a -> in_u 32 n -> get32 (a ++ be32 n ++ c) off = Some n.
Proof.
  intros -> Hn. assert (Hz : forall i, 0 <= i < 4 -> zget (a ++ be32 n ++ c) (zlen a + i) = zget (be32 n) i)
    by (intros i Hi; by apply zget_middle).
  apply be32_get; [done|..]; [|by apply Hz..]. pose proof (Hz 0 ltac:(lia)) as H0. by rewrite Z.add_0_r in H0.
Qed.

(** ** Decimal text *)

(** The digits of [sprintf("%d")]; [fuel] bounds their number. *)
Fixpoint dec_digits (fuel : nat) (z : Z) (acc : bytes) : bytes :=
  match fuel with
  | O => acc
  | S fuel =>
      let acc := (48 + z `mod` 10) :: acc in
      if bool_decide (z / 10 = 0) then acc else dec_digits fuel (z / 10) acc
  end.

Definition dec (z : Z) : bytes :=
  if bool_decide (z < 0) then 45 :: dec_digits 20 (- z) [] else dec_digits 20 z [].

Lemma dec_digits_len fuel : forall k z acc,
  (0 < k)%nat -> 0 <= z < 10 ^ Z.of_nat k -> zlen (dec_digits fuel z acc) <= zlen acc + Z.of_nat k.
Proof.
  induction fuel as [|fuel IH]; intros k z acc Hk Hz; cbn [dec_digits]; [lia|].
  case_bool_decide as Hd; [rewrite zlen_cons; lia|].
  destruct k as [|[|k]]; [lia| |].
  - exfalso. apply Hd. apply Z.div_small. change (10 ^ Z.of_nat 1) with 10 in Hz. lia.
  - etrans; [apply (IH (S k))|rewrite zlen_cons; lia]; [lia|].
    assert (10 ^ Z.of_nat (S (S k)) = 10 * 10 ^ Z.of_nat (S k)).
    { rewrite <- Z.pow_succ_r by lia. f_equal. lia. }
    split; [apply Z.div_pos; lia|apply Z.div_lt_upper_bound; lia].
Qed.

Lemma dec_len k z : (0 < k)%nat -> - 10 ^ Z.of_nat k < z < 10 ^ Z.of_nat k ->
  zlen (dec z) <= Z.of_nat k + (if bool_decide (z < 0) then 1 else 0).
Proof.
  intros Hk Hz. unfold dec. case_bool_decide.
  - rewrite zlen_cons. pose proof (dec_digits_len 20 k (- z) [] Hk ltac:(lia)).
    change (zlen (@nil Z)) with 0 in *. lia.
  - pose proof (dec_digits_len 20 k z [] Hk ltac:(lia)). change (zlen (@nil Z)) with 0 in *. lia.
Qed.

Lemma dec_word_len z : - 2 ^ 32 <= z < 2 ^ 32 -> zlen (dec z) <= 11.
Proof.
  intros Hz. pose proof (dec_len 10 z ltac:(lia) ltac:(lia)). destruct (bool_decide (z < 0)); lia.
Qed.
