(* ===== verification/StateM.v ===== *)
(** * Programs with state

    A program that reads and changes a state, and that may be undefined: [prog S A] takes the state
    and returns the result with the new state, or [None] for undefined behaviour. The state machines
    of the services are written in it; [keeps] is the reasoning about what a program does to the
    state, whatever its result. *)
From S2P Require Import Prelude.

Definition prog (S A : Type) : Type := S -> option (A * S).

#[global] Instance prog_ret {S} : MRet (prog S) := fun A x s => Some (x, s).
#[global] Instance prog_bind {S} : MBind (prog S) := fun A B k m s =>
  match m s with Some (x, s') => k x s' | None => None end.

Section prog.
Context {S : Type}.
Implicit Types s : S.

(** Reading, changing, and an operation that may be undefined. *)
Definition gets {A} (f : S -> A) : prog S A := fun s => Some (f s, s).
Definition modify (f : S -> S) : prog S unit := fun s => Some (tt, f s).
Definition lift {A} (x : option A) : prog S A := fun s => match x with Some x => Some (x, s) | None => None end.
Definition ub {A} : prog S A := fun _ => None.

(** The loop [for (i = 0; i < n; i++)] over a list of things to do. *)
Fixpoint for_each {A} (l : list A) (body : A -> prog S unit) : prog S unit :=
  match l with
  | [] => mret tt
  | x :: l => body x;; for_each l body
  end.

(** ** What a program does to the state

    [keeps R m]: wherever [m] is defined, its start and its end are related by [R]. For a preorder
    [R] it is enough to look at the steps. *)
Definition keeps {A} (R : S -> S -> Prop) (m : prog S A) : Prop :=
  forall s x s', m s = Some (x, s') -> R s s'.

Lemma keeps_bind {A B} R (m : prog S A) (k : A -> prog S B) :
  Transitive R -> keeps R m -> (forall x, keeps R (k x)) -> keeps R (m ≫= k).
Proof.
  intros HT Hm Hk s y s' Hr. unfold mbind, prog_bind in Hr.
  destruct (m s) as [[x s1]|] eqn:H1; [|done]. transitivity s1; [by eapply Hm|by eapply Hk].
Qed.

Lemma keeps_ret {A} R (x : A) : Reflexive R -> keeps R (mret x : prog S A).
Proof. intros HR s y s' [= <- <-]. done. Qed.

Lemma keeps_gets {A} R (f : S -> A) : Reflexive R -> keeps R (gets f).
Proof. intros HR s y s' [= <- <-]. done. Qed.

Lemma keeps_lift {A} R (x : option A) : Reflexive R -> keeps R (lift x).
Proof. intros HR s y s'. unfold lift. destruct x; [|done]. by intros [= <- <-]. Qed.

Lemma keeps_modify R (f : S -> S) : (forall s, R s (f s)) -> keeps R (modify f).
Proof. intros HR s y s' [= <- <-]. done. Qed.

Lemma keeps_ub {A} R : keeps R (@ub A).
Proof. by intros s x s'. Qed.

Lemma keeps_for_each {A} R (l : list A) body :
  PreOrder R -> (forall x, keeps R (body x)) -> keeps R (for_each l body).
Proof.
  intros HR Hb. induction l as [|x l IH]; [apply keeps_ret; apply _|].
  cbn [for_each]. apply keeps_bind; [apply _|done|done].
Qed.

Lemma keeps_weaken {A} (R R' : S -> S -> Prop) (m : prog S A) :
  (forall s s', R s s' -> R' s s') -> keeps R m -> keeps R' m.
Proof. intros HR Hm s x s' Hr. by eapply HR, Hm. Qed.

Lemma keeps_run {A} R (m : prog S A) s x s' : keeps R m -> m s = Some (x, s') -> R s s'.
Proof. intros Hm. apply Hm. Qed.

(** One step of an execution that is known. *)
Lemma bind_step {A B} (m : prog S A) (k : A -> prog S B) s x s' :
  m s = Some (x, s') -> (m ≫= k) s = k x s'.
Proof. intros Hm. unfold mbind, prog_bind. by rewrite Hm. Qed.

(** The first step of a program, and its grouping. *)
Lemma bind_bind {A B C} (m : prog S A) (k : A -> prog S B) (l : B -> prog S C) s :
  ((m ≫= k) ≫= l) s = (m ≫= (fun x => k x ≫= l)) s.
Proof. unfold mbind, prog_bind. by destruct (m s) as [[x s']|]. Qed.

Lemma gets_bind {A B} (f : S -> A) (k : A -> prog S B) s : (gets f ≫= k) s = k (f s) s.
Proof. done. Qed.

Lemma modify_bind {B} (f : S -> S) (k : unit -> prog S B) s : (modify f ≫= k) s = k tt (f s).
Proof. done. Qed.

Lemma ret_bind {A B} (x : A) (k : A -> prog S B) s : ((mret x : prog S A) ≫= k) s = k x s.
Proof. done. Qed.

Lemma lift_bind {A B} (o : option A) x (k : A -> prog S B) s : o = Some x -> (lift o ≫= k) s = k x s.
Proof. by intros ->. Qed.

Lemma bind_inv {A B} (m : prog S A) (k : A -> prog S B) s y s' :
  (m ≫= k) s = Some (y, s') -> exists x s1, m s = Some (x, s1) /\ k x s1 = Some (y, s').
Proof.
  unfold mbind, prog_bind. destruct (m s) as [[x s1]|]; [|done]. intros Hk. by exists x, s1.
Qed.

(** ** Total correctness

    [total P m Q]: from a state in [P] the program is defined, and its result and end are in [Q]. *)
Definition total {A} (P : S -> Prop) (m : prog S A) (Q : A -> S -> Prop) : Prop :=
  forall s, P s -> exists x s', m s = Some (x, s') /\ Q x s'.

Lemma total_bind {A B} P (m : prog S A) R (k : A -> prog S B) Q :
  total P m R -> (forall x, total (R x) (k x) Q) -> total P (m ≫= k) Q.
Proof.
  intros Hm Hk s Hs. destruct (Hm s Hs) as (x & s1 & He & Hr). destruct (Hk x s1 Hr) as (y & s2 & Hy & Hq).
  exists y, s2. split; [|done]. by rewrite (bind_step _ _ _ _ _ He).
Qed.

Lemma total_ret {A} (P : S -> Prop) (x : A) (Q : A -> S -> Prop) : (forall s, P s -> Q x s) -> total P (mret x) Q.
Proof. intros HQ s Hs. exists x, s. split; [done|by apply HQ]. Qed.

Lemma total_gets {A} (P : S -> Prop) (f : S -> A) (Q : A -> S -> Prop) : (forall s, P s -> Q (f s) s) -> total P (gets f) Q.
Proof. intros HQ s Hs. exists (f s), s. split; [done|by apply HQ]. Qed.

Lemma total_modify (P : S -> Prop) (f : S -> S) (Q : unit -> S -> Prop) : (forall s, P s -> Q tt (f s)) -> total P (modify f) Q.
Proof. intros HQ s Hs. exists tt, (f s). split; [done|by apply HQ]. Qed.

Lemma total_lift {A} (P : S -> Prop) (o : option A) (Q : A -> S -> Prop) :
  (forall s, P s -> exists x, o = Some x /\ Q x s) -> total P (lift o) Q.
Proof. intros HQ s Hs. destruct (HQ s Hs) as (x & -> & Hq). by exists x, s. Qed.

Lemma total_for_each {A} (I : S -> Prop) (l : list A) body :
  (forall x, x ∈ l -> total I (body x) (fun _ => I)) -> total I (for_each l body) (fun _ => I).
Proof.
  induction l as [|x l IH]; intros Hb; [by apply total_ret|]. cbn [for_each].
  eapply total_bind; [apply Hb; left|]. intros ?. apply IH. intros y Hy. apply Hb. by right.
Qed.

Lemma total_weaken {A} (P P' : S -> Prop) (m : prog S A) (Q Q' : A -> S -> Prop) :
  total P m Q -> (forall s, P' s -> P s) -> (forall x s, Q x s -> Q' x s) -> total P' m Q'.
Proof. intros Hm HP HQ s Hs. destruct (Hm s (HP s Hs)) as (x & s' & He & Hq). exists x, s'. split; [done|by apply HQ]. Qed.

(** A fact that does not depend on the state. *)
Lemma total_pure {A} (F : Prop) P (m : prog S A) Q : (F -> total P m Q) -> total (fun s => P s /\ F) m Q.
Proof. intros Hm s [Hs HF]. by apply Hm. Qed.

Lemma total_run {A} P (m : prog S A) Q s : total P m Q -> P s -> exists x s', m s = Some (x, s') /\ Q x s'.
Proof. intros Hm. apply Hm. Qed.

(** ** Partial correctness

    [hoare P m Q]: where the program is defined from a state in [P], its result and end are in [Q]. *)
Definition hoare {A} (P : S -> Prop) (m : prog S A) (Q : A -> S -> Prop) : Prop :=
  forall s x s', P s -> m s = Some (x, s') -> Q x s'.

Lemma hoare_bind {A B} P (m : prog S A) R (k : A -> prog S B) Q :
  hoare P m R -> (forall x, hoare (R x) (k x) Q) -> hoare P (m ≫= k) Q.
Proof. intros Hm Hk s y s' Hs Hr. apply bind_inv in Hr as (x & s1 & Hx & Hr). by eapply Hk, Hr; eapply Hm, Hx. Qed.

Lemma hoare_ret {A} (P : S -> Prop) (x : A) (Q : A -> S -> Prop) : (forall s, P s -> Q x s) -> hoare P (mret x) Q.
Proof. intros HQ s y s' Hs [= <- <-]. by apply HQ. Qed.

Lemma hoare_gets {A} (P : S -> Prop) (f : S -> A) : hoare P (gets f) (fun x s => P s /\ x = f s).
Proof. by intros s y s' Hs [= <- <-]. Qed.

Lemma hoare_modify (P : S -> Prop) (f : S -> S) (Q : unit -> S -> Prop) : (forall s, P s -> Q tt (f s)) -> hoare P (modify f) Q.
Proof. intros HQ s y s' Hs [= <- <-]. by apply HQ. Qed.

Lemma hoare_lift {A} (P : S -> Prop) (o : option A) : hoare P (lift o) (fun x s => P s /\ o = Some x).
Proof. intros s y s' Hs. unfold lift. destruct o; [|done]. by intros [= <- <-]. Qed.

Lemma hoare_ub {A} (P : S -> Prop) (Q : A -> S -> Prop) : hoare P ub Q.
Proof. by intros s y s'. Qed.

Lemma hoare_weaken {A} (P P' : S -> Prop) (m : prog S A) (Q Q' : A -> S -> Prop) :
  hoare P m Q -> (forall s, P' s -> P s) -> (forall x s, Q x s -> Q' x s) -> hoare P' m Q'.
Proof. intros Hm HP HQ s x s' Hs Hr. eapply HQ, Hm, Hr. by apply HP. Qed.

Lemma hoare_pre {A} (P P' : S -> Prop) (m : prog S A) Q : hoare P m Q -> (forall s, P' s -> P s) -> hoare P' m Q.
Proof. intros Hm HP s x s' Hs. apply Hm. by apply HP. Qed.

Lemma hoare_run {A} (P : S -> Prop) (m : prog S A) (Q : A -> S -> Prop) :
  (forall s, P s -> exists x s', m s = Some (x, s') /\ Q x s') -> hoare P m Q.
Proof. intros Hm s x s' Hs Hr. destruct (Hm s Hs) as (y & t & Hr' & Hq). rewrite Hr in Hr'. by injection Hr' as -> ->. Qed.

Lemma hoare_pure {A} (F : Prop) (P : S -> Prop) (m : prog S A) Q : (F -> hoare P m Q) -> hoare (fun s => P s /\ F) m Q.
Proof. intros Hm s x s' [Hs HF]. by apply Hm. Qed.

Lemma hoare_for_each {A} (I : S -> Prop) (l : list A) body :
  (forall x, x ∈ l -> hoare I (body x) (fun _ => I)) -> hoare I (for_each l body) (fun _ => I).
Proof.
  induction l as [|x l IH]; intros Hb; [by apply hoare_ret|]. cbn [for_each].
  eapply hoare_bind; [apply Hb; left|]. intros ?. apply IH. intros y Hy. apply Hb. by right.
Qed.

(** The loop [for (i = m; i < m + n; i++)] with an invariant that knows how far it is. *)
Lemma hoare_for_seqZ (I : Z -> S -> Prop) (body : Z -> prog S unit) m n :
  0 <= n -> (forall i, m <= i < m + n -> hoare (I i) (body i) (fun _ => I (i + 1))) ->
  hoare (I m) (for_each (seqZ m n) body) (fun _ => I (m + n)).
Proof.
  intros Hn Hb. replace n with (Z.of_nat (Z.to_nat n)) in * by lia. clear Hn. revert m Hb.
  induction (Z.to_nat n) as [|k IH]; intros m Hb.
  - cbn. apply hoare_ret. intros s. by rewrite Z.add_0_r.
  - rewrite seqZ_cons by lia. cbn [for_each]. eapply hoare_bind; [apply Hb; lia|]. intros ?.
    replace (Z.pred (Z.of_nat (Datatypes.S k))) with (Z.of_nat k) by lia.
    eapply hoare_weaken; [apply (IH (Z.succ m))|by intros s; rewrite <- Z.add_1_r|].
    + intros i Hi. apply Hb. lia.
    + intros ? s. by replace (Z.succ m + Z.of_nat k) with (m + Z.of_nat (Datatypes.S k)) by lia.
Qed.
End prog.

Create HintDb prog.
#[export] Hint Resolve keeps_ret keeps_gets keeps_lift keeps_ub : prog.

(** Follow the structure of a program; what is left are its changes of the state and the calls
    whose lemma is not in the database. *)
Ltac keep_step :=
  match goal with
  | |- keeps _ (_ ≫= _) => apply keeps_bind; [try apply _| |intros ?]
  | |- keeps _ (match ?x with _ => _ end) => destruct x
  | |- keeps _ (let _ := _ in _) => cbv zeta
  end.
Ltac keep := repeat first [keep_step | solve [eauto with prog typeclass_instances]].
