(* ===== verification/Fifo.v ===== *)
(** * Bounded byte FIFO: the contract of a byte buffer

    The abstract machine (a list of bytes and a capacity) that a byte buffer
    promises to its clients, the interface [ByteFifo] that states the promise,
    and the theorems that clients use, proved once against the interface. *)
From S2P Require Import Prelude.

(** ** The abstract machine *)
Definition spec_write (cap : Z) (q data : bytes) (len : Z) : Z * bytes :=
  let n := Z.min len (cap - zlen q) in (n, q ++ take (Z.to_nat n) data).

Definition spec_read (q dst : bytes) (len : Z) : Z * bytes * bytes :=
  let n := Z.min len (zlen q) in
  (n, take (Z.to_nat n) q ++ drop (Z.to_nat n) dst, drop (Z.to_nat n) q).

Inductive fifo_op :=
  | OpWrite (data : bytes) (len : Z)
  | OpRead (dst : bytes) (len : Z)
  | OpPeek (dst : bytes) (len : Z).

(** A call within its contract: a 32-bit count and a buffer that holds it. *)
Definition op_ok (o : fifo_op) : Prop :=
  match o with
  | OpWrite b len | OpRead b len | OpPeek b len => in_u 32 len /\ len <= zlen b
  end.

(** What one call tells its caller: the count, and the caller's buffer. *)
Abbreviation observation := (Z * bytes)%type.

Definition spec_step (cap : Z) (o : fifo_op) (q : bytes) : observation * bytes :=
  match o with
  | OpWrite data len => let '(n, q') := spec_write cap q data len in ((n, data), q')
  | OpRead dst len => let '(n, dst', q') := spec_read q dst len in ((n, dst'), q')
  | OpPeek dst len => let '(n, dst', _) := spec_read q dst len in ((n, dst'), q)
  end.

Fixpoint spec_run (cap : Z) (os : list fifo_op) (q : bytes)
    : list observation * bytes :=
  match os with
  | [] => ([], q)
  | o :: os =>
      let '(x, q) := spec_step cap o q in
      let '(xs, q) := spec_run cap os q in (x :: xs, q)
  end.

(** The bytes a run accepted from its writers, and delivered to its readers. *)
Fixpoint accepted (os : list fifo_op) (xs : list observation) : bytes :=
  match os, xs with
  | OpWrite data _ :: os, (n, _) :: xs => take (Z.to_nat n) data ++ accepted os xs
  | _ :: os, _ :: xs => accepted os xs
  | _, _ => []
  end.

Fixpoint delivered (os : list fifo_op) (xs : list observation) : bytes :=
  match os, xs with
  | OpRead _ _ :: os, (n, dst) :: xs => take (Z.to_nat n) dst ++ delivered os xs
  | _ :: os, _ :: xs => delivered os xs
  | _, _ => []
  end.

Lemma spec_read_delivers q dst len :
  0 <= len ->
  let '(n, dst', q') := spec_read q dst len in
  take (Z.to_nat n) dst' ++ q' = q.
Proof.
  intros. unfold spec_read. rewrite take_app_le.
  - rewrite take_take, Nat.min_id. apply take_drop.
  - rewrite length_take. unfold zlen. lia.
Qed.

(** No byte is lost, duplicated or reordered. *)
Lemma spec_run_stream cap os q :
  Forall op_ok os ->
  let '(xs, q') := spec_run cap os q in
  q ++ accepted os xs = delivered os xs ++ q'.
Proof.
  revert q. induction os as [|o os IH]; intros q Hok; simpl.
  { by rewrite app_nil_r. }
  apply Forall_cons in Hok as [Ho Hok]. destruct o as [data len|dst len|dst len]; simpl.
  - specialize (IH (q ++ take (Z.to_nat (Z.min len (cap - zlen q))) data) Hok).
    destruct (spec_run _ _ _) as [xs q']. by rewrite app_assoc.
  - pose proof (spec_read_delivers q dst len ltac:(apply Ho)) as Hd.
    unfold spec_read in *. simpl in *.
    specialize (IH (drop (Z.to_nat (Z.min len (zlen q))) q) Hok).
    destruct (spec_run _ _ _) as [xs q'].
    rewrite <- app_assoc, <- IH. by rewrite app_assoc, Hd.
  - specialize (IH q Hok). by destruct (spec_run _ _ _) as [xs q'].
Qed.

(** ** The interface *)
Class ByteFifo (St : Type) := {
  fifo_inv : St -> Prop;
  fifo_contents : St -> bytes;
  fifo_capacity : St -> Z;
  fifo_write : St -> bytes -> Z -> option (Z * St);
  fifo_read : St -> bytes -> Z -> option (Z * bytes * St);
  fifo_peek : St -> bytes -> Z -> option (Z * bytes);

  fifo_write_law s data len :
    fifo_inv s -> in_u 32 len -> len <= zlen data ->
    let '(n, q) := spec_write (fifo_capacity s) (fifo_contents s) data len in
    exists s', fifo_write s data len = Some (n, s') /\ fifo_inv s' /\
      fifo_contents s' = q /\ fifo_capacity s' = fifo_capacity s;
  fifo_read_law s dst len :
    fifo_inv s -> in_u 32 len -> len <= zlen dst ->
    let '(n, dst', q) := spec_read (fifo_contents s) dst len in
    exists s', fifo_read s dst len = Some (n, dst', s') /\ fifo_inv s' /\
      fifo_contents s' = q /\ fifo_capacity s' = fifo_capacity s;
  fifo_peek_law s dst len :
    fifo_inv s -> in_u 32 len -> len <= zlen dst ->
    let '(n, dst', _) := spec_read (fifo_contents s) dst len in
    fifo_peek s dst len = Some (n, dst') }.

Section client.
Context `{F : ByteFifo St}.

Definition fifo_step (o : fifo_op) (s : St) : option (observation * St) :=
  match o with
  | OpWrite data len => '(n, s') ← fifo_write s data len; Some ((n, data), s')
  | OpRead dst len => '(n, dst', s') ← fifo_read s dst len; Some ((n, dst'), s')
  | OpPeek dst len => '(n, dst') ← fifo_peek s dst len; Some ((n, dst'), s)
  end.

Fixpoint fifo_run (os : list fifo_op) (s : St) : option (list observation * St) :=
  match os with
  | [] => Some ([], s)
  | o :: os =>
      '(x, s) ← fifo_step o s; '(xs, s) ← fifo_run os s; Some (x :: xs, s)
  end.

Lemma fifo_step_refines o s :
  fifo_inv s -> op_ok o ->
  exists s', fifo_step o s =
      Some ((spec_step (fifo_capacity s) o (fifo_contents s)).1, s') /\
    fifo_inv s' /\ fifo_capacity s' = fifo_capacity s /\
    fifo_contents s' = (spec_step (fifo_capacity s) o (fifo_contents s)).2.
Proof.
  intros Hs Hok. destruct o as [data len|dst len|dst len]; destruct Hok; simpl.
  - destruct (fifo_write_law s data len) as (s' & -> & ? & ? & ?); [done..|].
    exists s'. by split_and!.
  - destruct (fifo_read_law s dst len) as (s' & -> & ? & ? & ?); [done..|].
    exists s'. by split_and!.
  - pose proof (fifo_peek_law s dst len) as Hp. simpl in Hp.
    rewrite Hp by done. exists s. by split_and!.
Qed.

(** Every run of calls within contract behaves like the abstract machine. *)
Lemma fifo_run_refines os s :
  fifo_inv s -> Forall op_ok os ->
  exists s', fifo_run os s =
      Some ((spec_run (fifo_capacity s) os (fifo_contents s)).1, s') /\
    fifo_inv s' /\ fifo_capacity s' = fifo_capacity s /\
    fifo_contents s' = (spec_run (fifo_capacity s) os (fifo_contents s)).2.
Proof.
  revert s. induction os as [|o os IH]; intros s Hs Hok; simpl.
  { exists s. by split_and!. }
  apply Forall_cons in Hok as [Ho Hok].
  destruct (fifo_step_refines o s Hs Ho) as (s1 & -> & Hs1 & Hc1 & Hq1).
  destruct (IH s1 Hs1 Hok) as (s2 & Hr & Hs2 & Hc2 & Hq2). simpl. rewrite Hr.
  rewrite Hc1, Hq1 in *. simpl. destruct (spec_step _ _ _) as [x q]. simpl in *.
  destruct (spec_run _ _ _) as [xs q']. simpl in *. exists s2. split_and!; congruence.
Qed.

Lemma fifo_run_stream os s xs s' :
  fifo_inv s -> Forall op_ok os -> fifo_run os s = Some (xs, s') ->
  fifo_contents s ++ accepted os xs = delivered os xs ++ fifo_contents s'.
Proof.
  intros Hs Hok Hrun. destruct (fifo_run_refines os s Hs Hok) as (s2 & Hr & _ & _ & Hq).
  pose proof (spec_run_stream (fifo_capacity s) os (fifo_contents s) Hok) as Hstream.
  destruct (spec_run _ _ _) as [ys q]. simpl in *. congruence.
Qed.
End client.
