(* ===== verification/RingBuf.v ===== *)
(** * Ring buffer

    The byte ring buffer of tools/porting/adapter/utilities/src/tuya_ringbuf.c.
    A handle is an [option ringbuff] ([None] is the NULL handle); the flexible
    array [buff[]] is the list [rb_buff]. *)
From S2P Require Import Prelude Fifo.

Inductive ringbuff_type := OVERFLOW_STOP_TYPE | OVERFLOW_COVERAGE_TYPE.

#[export] Instance ringbuff_type_eq_dec : EqDecision ringbuff_type.
Proof. solve_decision. Defined.

Record ringbuff := Ringbuff {
  rb_type : ringbuff_type;
  rb_in : Z;
  rb_out : Z;
  rb_len : Z;
  rb_buff : bytes }.

Definition GET_MIN (x y : Z) : Z := if bool_decide (x < y) then x else y.

Definition RINGBUFF_SIZE : Z := 16.

Definition ringbuff_init (r : ringbuff) (len : Z) : ringbuff :=
  Ringbuff (rb_type r) 0 0 len (rb_buff r).

(** [malloc n] is the block [tkl_system_malloc] returns (with whatever bytes
    it holds), [size_w] the width of [size_t]; [out] says that the caller's
    handle pointer is not NULL. *)
Definition tuya_ring_buff_create (malloc : Z -> option bytes) (size_w : Z)
    (len : Z) (type : ringbuff_type) (out : bool) : Z * option ringbuff :=
  if bool_decide (type = OVERFLOW_COVERAGE_TYPE) then (OPRT_NOT_SUPPORTED, None)
  else if negb out || bool_decide (len = 0) then (OPRT_INVALID_PARM, None)
  else match malloc (wrap size_w (RINGBUFF_SIZE + len)) with
       | None => (OPRT_MALLOC_FAILED, None)
       | Some block =>
           let rbuff := Ringbuff type 0 0 0 (drop (Z.to_nat RINGBUFF_SIZE) block) in
           (OPRT_OK, Some (ringbuff_init rbuff len))
       end.

(** The handle after [free] is dangling: the model forgets it. *)
Definition tuya_ring_buff_free (h : option ringbuff) : Z * option ringbuff :=
  match h with
  | None => (OPRT_INVALID_PARM, None)
  | Some _ => (OPRT_OK, None)
  end.

Definition tuya_ring_buff_reset (h : option ringbuff) : Z * option ringbuff :=
  match h with
  | None => (OPRT_INVALID_PARM, None)
  | Some r => (OPRT_OK, Some (ringbuff_init r (rb_len r)))
  end.

Definition tuya_ring_buff_free_size_get (h : option ringbuff) : Z :=
  match h with
  | None => 0
  | Some r =>
      let size :=
        if bool_decide (rb_in r = rb_out r) then rb_len r
        else if bool_decide (rb_out r > rb_in r) then u32 (rb_out r - rb_in r)
        else u32 (rb_len r - u32 (rb_in r - rb_out r)) in
      u32 (size - 1)
  end.

Definition tuya_ring_buff_used_size_get (h : option ringbuff) : Z :=
  match h with
  | None => 0
  | Some r =>
      if bool_decide (rb_in r = rb_out r) then 0
      else if bool_decide (rb_in r > rb_out r) then u32 (rb_in r - rb_out r)
      else u32 (rb_len r - u32 (rb_out r - rb_in r))
  end.

(** Result: the returned count and the buffer. *)
Definition tuya_ring_buff_write (h : option ringbuff) (data : option bytes)
    (len : Z) : option (Z * option ringbuff) :=
  match h, data with
  | Some r, Some pdata =>
      if bool_decide (len = 0) then Some (0, h) else
      let free_len := tuya_ring_buff_free_size_get h in
      let len := GET_MIN free_len len in
      if bool_decide (len = 0) then Some (0, h) else
      (* write data to remaining buff *)
      let tmp_len := GET_MIN (u32 (rb_len r - rb_in r)) len in
      buff ← memcpy (rb_buff r) (rb_in r) pdata 0 tmp_len;
      let in1 := u32 (rb_in r + tmp_len) in
      let len := u32 (len - tmp_len) in
      (* write remaining data to beginning of buffer *)
      '(buff, in2) ←
        (if bool_decide (len > 0) then
           buff ← memcpy buff 0 pdata tmp_len len;
           Some (buff, len)
         else Some (buff, in1));
      (* buff loopback check *)
      let in3 := if bool_decide (in2 >= rb_len r) then 0 else in2 in
      Some (u32 (tmp_len + len),
            Some (Ringbuff (rb_type r) in3 (rb_out r) (rb_len r) buff))
  | _, _ => Some (0, h)
  end.

(** The copy that [read] and [peek] share: [len] bytes from position [out] into
    the caller's buffer; the result also carries the lengths of the two parts. *)
Definition ring_copy_out (r : ringbuff) (pdata : bytes) (len : Z)
    : option (bytes * Z * Z) :=
  let tmp_len := GET_MIN (u32 (rb_len r - rb_out r)) len in
  pdata ← memcpy pdata 0 (rb_buff r) (rb_out r) tmp_len;
  let len := u32 (len - tmp_len) in
  pdata ←
    (if bool_decide (len > 0) then
       memcpy pdata tmp_len (rb_buff r) 0 len
     else Some pdata);
  Some (pdata, tmp_len, len).

(** Result: the returned count, the caller's buffer and the ring buffer. *)
Definition tuya_ring_buff_read (h : option ringbuff) (data : option bytes)
    (len : Z) : option (Z * option bytes * option ringbuff) :=
  match h, data with
  | Some r, Some pdata =>
      if bool_decide (len = 0) then Some (0, data, h) else
      let used_len := tuya_ring_buff_used_size_get h in
      let len := GET_MIN used_len len in
      if bool_decide (len = 0) then Some (0, data, h) else
      '(pdata, tmp_len, len) ← ring_copy_out r pdata len;
      let out1 := u32 (rb_out r + tmp_len) in
      let out2 := if bool_decide (len > 0) then len else out1 in
      (* check end of buffer *)
      let out3 := if bool_decide (out2 >= rb_len r) then 0 else out2 in
      Some (u32 (tmp_len + len), Some pdata,
            Some (Ringbuff (rb_type r) (rb_in r) out3 (rb_len r) (rb_buff r)))
  | _, _ => Some (0, data, h)
  end.

Definition tuya_ring_buff_peek (h : option ringbuff) (data : option bytes)
    (len : Z) : option (Z * option bytes) :=
  match h, data with
  | Some r, Some pdata =>
      if bool_decide (len = 0) then Some (0, data) else
      let used_len := tuya_ring_buff_used_size_get h in
      let len := GET_MIN len used_len in
      if bool_decide (len = 0) then Some (0, data) else
      '(pdata, tmp_len, len) ← ring_copy_out r pdata len;
      Some (u32 (tmp_len + len), Some pdata)
  | _, _ => Some (0, data)
  end.

(** ** Invariant and contents *)

Definition ring_inv (r : ringbuff) : Prop :=
  0 < rb_len r < 2 ^ 32 /\ 0 <= rb_in r < rb_len r /\
  0 <= rb_out r < rb_len r /\ zlen (rb_buff r) = rb_len r /\
  rb_type r = OVERFLOW_STOP_TYPE.

Definition ring_used (r : ringbuff) : Z :=
  if bool_decide (rb_out r <= rb_in r) then rb_in r - rb_out r
  else rb_len r - (rb_out r - rb_in r).

(** Index in the array of the [i]-th unread byte. *)
Definition ring_pos (r : ringbuff) (i : Z) : Z :=
  if bool_decide (rb_out r + i < rb_len r) then rb_out r + i
  else rb_out r + i - rb_len r.

(** The unread bytes, oldest first. *)
Definition ring_contents (r : ringbuff) : bytes :=
  (fun i => default 0 (zget (rb_buff r) (ring_pos r i))) <$> seqZ 0 (ring_used r).

Definition ring_capacity (r : ringbuff) : Z := rb_len r - 1.

Section ring.
Implicit Types (r : ringbuff).

Lemma ring_used_range r : ring_inv r -> 0 <= ring_used r <= ring_capacity r.
Proof. unfold ring_inv, ring_used, ring_capacity. intros. guards. Qed.

Lemma used_size_get_ok r :
  ring_inv r -> tuya_ring_buff_used_size_get (Some r) = ring_used r.
Proof.
  unfold ring_inv, ring_used. simpl. intros.
  guards; wraps; lia.
Qed.

Lemma free_size_get_ok r :
  ring_inv r ->
  tuya_ring_buff_free_size_get (Some r) = ring_capacity r - ring_used r.
Proof.
  unfold ring_inv, ring_used, ring_capacity. simpl. intros.
  guards; wraps; lia.
Qed.

Lemma ring_pos_range r i :
  ring_inv r -> 0 <= i < rb_len r -> 0 <= ring_pos r i < rb_len r.
Proof. unfold ring_inv, ring_pos. intros. guards. Qed.

Lemma ring_inv_len r : ring_inv r -> zlen (rb_buff r) = rb_len r.
Proof. by intros (?&?&?&?&?). Qed.

Lemma zlen_ring_contents r : ring_inv r -> zlen (ring_contents r) = ring_used r.
Proof.
  intros H%ring_used_range. unfold ring_contents.
  rewrite zlen_fmap, zlen_seqZ; lia.
Qed.

Lemma zget_ring_contents r i :
  ring_inv r -> 0 <= i < ring_used r ->
  zget (ring_contents r) i = zget (rb_buff r) (ring_pos r i).
Proof.
  intros Hr Hi. unfold ring_contents. rewrite zget_fmap_seqZ by lia.
  pose proof (ring_used_range r Hr). symmetry. apply zget_default.
  unfold ring_capacity in *. rewrite ring_inv_len by done.
  apply ring_pos_range; [done|lia].
Qed.

(** What the two [memcpy] of [write] leave in memory: the cell of unread index
    [used + k] holds byte [k] of the data, the unread cells keep theirs. *)
Definition ring_filled r (n : Z) (pdata buff' : bytes) : Prop :=
  zlen buff' = rb_len r /\
  forall i, 0 <= i < ring_used r + n ->
    zget buff' (ring_pos r i) =
      if bool_decide (i < ring_used r) then zget (rb_buff r) (ring_pos r i)
      else zget pdata (i - ring_used r).

Lemma ring_filled_contents r n pdata buff' in' :
  let r' := Ringbuff (rb_type r) in' (rb_out r) (rb_len r) buff' in
  ring_inv r -> ring_inv r' -> 0 <= n <= zlen pdata ->
  ring_used r' = ring_used r + n -> ring_filled r n pdata buff' ->
  ring_contents r' = ring_contents r ++ take (Z.to_nat n) pdata.
Proof.
  intros r' Hr Hr' Hn Hu [Hlen Hcells].
  assert (Hl : zlen (ring_contents r) = ring_used r) by by apply zlen_ring_contents.
  pose proof (ring_used_range r Hr).
  apply zlist_eq.
  - rewrite zlen_app, Hl, zlen_take, zlen_ring_contents by (done || lia). lia.
  - rewrite zlen_ring_contents, Hu by done. intros i Hi.
    rewrite zget_ring_contents by (done || lia).
    change (ring_pos r' i) with (ring_pos r i). simpl. rewrite Hcells by lia.
    case_bool_decide.
    + rewrite zget_app_l, zget_ring_contents by (done || lia). done.
    + rewrite zget_app_r, Hl, zget_take by lia. done.
Qed.

Lemma ring_write_raw r pdata len :
  ring_inv r -> 0 < len <= ring_capacity r - ring_used r -> len <= zlen pdata ->
  len < 2 ^ 32 ->
  exists r', tuya_ring_buff_write (Some r) (Some pdata) len = Some (len, Some r') /\
    ring_inv r' /\ rb_len r' = rb_len r /\ rb_out r' = rb_out r /\
    ring_used r' = ring_used r + len /\ ring_filled r len pdata (rb_buff r').
Proof.
  intros Hr Hlen Hp Hl32. pose proof (ring_used_range r Hr) as Hu.
  unfold tuya_ring_buff_write. rewrite free_size_get_ok by done.
  unfold GET_MIN. rewrite (bool_decide_false (len = 0)) by lia.
  replace (if bool_decide (_ - _ < len) then _ else len) with len by guards.
  rewrite (bool_decide_false (len = 0)) by lia.
  destruct r as [ty i o L b]. unfold ring_inv, ring_capacity in *. simpl in *.
  rewrite (wrap_small 32 (L - i)) by (unfold in_u; lia).
  destruct (decide (L - i < len)) as [Hw|Hw].
  - rewrite !(bool_decide_true (L - i < len)) by done.
    destruct (memcpy_ok b i pdata 0 (L - i)) as (b1 & -> & Hl1 & Hb1); [lia..|].
    simpl. rewrite (wrap_small 32 (len - _)) by (unfold in_u; lia).
    rewrite bool_decide_true by lia.
    destruct (memcpy_ok b1 0 pdata (L - i) (len - (L - i))) as (b2 & -> & Hl2 & Hb2);
      [lia..|]. simpl.
    eexists. split; [by wraps; do 2 f_equal; lia|].
    unfold ring_used, ring_filled, ring_pos in *. simpl in *.
    split_and!; [guards; tauto..|].
    unfold ring_used. simpl. intros k Hk.
    rewrite Hb2 by guards. rewrite ?Hb1 by guards. cells.
  - rewrite !(bool_decide_false (L - i < len)) by lia.
    destruct (memcpy_ok b i pdata 0 len) as (b1 & -> & Hl1 & Hb1); [lia..|].
    simpl. rewrite (wrap_small 32 (len - _)) by (unfold in_u; lia).
    rewrite bool_decide_false by lia. simpl.
    eexists. split; [by wraps; do 2 f_equal; lia|]. wraps.
    unfold ring_used, ring_filled, ring_pos in *. simpl in *.
    split_and!; [guards; tauto..|].
    unfold ring_used. simpl. intros k Hk. rewrite Hb1 by guards. cells.
Qed.

(** The caller's buffer after [read]/[peek] of [n] bytes. *)
Lemma ring_copy_out_ok r dst n :
  ring_inv r -> 0 < n <= ring_used r -> n <= zlen dst ->
  exists dst' t, ring_copy_out r dst n = Some (dst', t, n - t) /\
    0 < t <= n /\ t = Z.min (rb_len r - rb_out r) n /\
    dst' = take (Z.to_nat n) (ring_contents r) ++ drop (Z.to_nat n) dst.
Proof.
  intros Hr Hn Hd. pose proof (zlen_ring_contents r Hr) as Hlc.
  assert (Hc : forall i, 0 <= i < n -> zget (ring_contents r) i =
             zget (rb_buff r) (ring_pos r i))
    by (intros; apply zget_ring_contents; [done|lia]).
  pose proof (ring_used_range r Hr) as Hu.
  unfold ring_copy_out, GET_MIN, ring_inv, ring_pos, ring_capacity in *.
  wraps. set (t := if bool_decide (rb_len r - rb_out r < n) then _ else _).
  assert (Ht : t = Z.min (rb_len r - rb_out r) n) by (unfold t; guards).
  destruct (memcpy_ok dst 0 (rb_buff r) (rb_out r) t) as (d1 & -> & Hl1 & Hd1);
    [lia..|]. simpl. wraps.
  assert (Hres : forall d2, zlen d2 = zlen dst ->
    (forall i, 0 <= i < zlen dst -> zget d2 i =
      if bool_decide (i < n) then zget (ring_contents r) i else zget dst i) ->
    d2 = take (Z.to_nat n) (ring_contents r) ++ drop (Z.to_nat n) dst).
  { intros d2 Hl Hcell. apply zlist_eq.
    - rewrite zlen_app, zlen_take, zlen_drop by lia. lia.
    - intros i Hi. rewrite Hcell by lia. case_bool_decide.
      + rewrite zget_app_l, zget_take; [done|lia|rewrite zlen_take; lia].
      + rewrite zget_app_r; rewrite zlen_take by lia; [|lia].
        rewrite zget_drop by lia. f_equal; lia. }
  case_bool_decide as Hw.
  - destruct (memcpy_ok d1 t (rb_buff r) 0 (n - t)) as (d2 & -> & Hl2 & Hd2);
      [lia..|]. simpl. do 2 eexists. split_and!; [done|lia..|].
    apply Hres; [lia|]. intros i Hi. rewrite Hd2, Hd1 by lia.
    guards; rewrite ?Hc by lia; cells.
  - simpl. do 2 eexists. split_and!; [done|lia..|].
    apply Hres; [lia|]. intros i Hi. rewrite Hd1 by lia.
    guards; rewrite ?Hc by lia; cells.
Qed.

Lemma ring_write_ok r pdata len :
  ring_inv r -> in_u 32 len -> len <= zlen pdata ->
  let n := Z.min len (ring_capacity r - ring_used r) in
  exists r', tuya_ring_buff_write (Some r) (Some pdata) len = Some (n, Some r') /\
    ring_inv r' /\ rb_len r' = rb_len r /\
    ring_contents r' = ring_contents r ++ take (Z.to_nat n) pdata.
Proof.
  intros Hr [Hl0 Hl32] Hp n. pose proof (ring_used_range r Hr).
  destruct (decide (n = 0)) as [Hn|Hn].
  - exists r. rewrite Hn, app_nil_r. split_and!; try done.
    unfold tuya_ring_buff_write, GET_MIN. rewrite free_size_get_ok by done.
    guards; try done; lia.
  - destruct (ring_write_raw r pdata n) as (r' & Hw & Hr' & HL & Ho & Hu & Hf);
      [done|lia..|].
    exists r'. split_and!; try done.
    + rewrite <- Hw. unfold tuya_ring_buff_write.
      rewrite free_size_get_ok by done.
      replace (GET_MIN (_ - _) len) with n by (unfold GET_MIN; guards).
      replace (GET_MIN (_ - ring_used r) n) with n by (unfold GET_MIN; guards).
      rewrite !(bool_decide_false (_ = 0)) by lia. done.
    + destruct r' as [ty' i' o' L' b']. simpl in *. subst.
      destruct Hr as (?&?&?&?&?), Hr' as (?&?&?&?&?). simpl in *.
      replace ty' with (rb_type r) in * by congruence.
      eapply ring_filled_contents; unfold ring_inv; simpl; try done; lia.
Qed.

(** The state after [n] bytes are taken out. *)
Lemma ring_advance r n out' :
  ring_inv r -> 0 < n <= ring_used r ->
  out' = (if bool_decide (rb_out r + n >= rb_len r) then rb_out r + n - rb_len r
          else rb_out r + n) ->
  let r' := Ringbuff (rb_type r) (rb_in r) out' (rb_len r) (rb_buff r) in
  ring_inv r' /\ ring_contents r' = drop (Z.to_nat n) (ring_contents r).
Proof.
  intros Hr Hn Ho r'. pose proof (ring_used_range r Hr).
  assert (Hu' : ring_used r' = ring_used r - n /\ ring_inv r').
  { unfold r', ring_inv, ring_used, ring_capacity in *. simpl.
    destruct Hr as (?&?&?&?&?). split; [guards|split_and!; guards; done]. }
  destruct Hu' as [Hu' Hr']. split; [done|].
  pose proof (zlen_ring_contents r Hr). apply zlist_eq.
  - rewrite zlen_drop, zlen_ring_contents by (done || lia). lia.
  - rewrite zlen_ring_contents by done. intros k Hk.
    rewrite zget_drop by lia. rewrite !zget_ring_contents by (done || lia).
    unfold r', ring_pos, ring_used, ring_inv, ring_capacity in *. simpl in *. cells.
Qed.

Lemma ring_read_ok r dst len :
  ring_inv r -> in_u 32 len -> len <= zlen dst ->
  let n := Z.min len (ring_used r) in
  let dst' := take (Z.to_nat n) (ring_contents r) ++ drop (Z.to_nat n) dst in
  (exists r', tuya_ring_buff_read (Some r) (Some dst) len =
                Some (n, Some dst', Some r') /\
    ring_inv r' /\ rb_len r' = rb_len r /\
    ring_contents r' = drop (Z.to_nat n) (ring_contents r)) /\
  tuya_ring_buff_peek (Some r) (Some dst) len = Some (n, Some dst').
Proof.
  intros Hr [Hl0 Hl32] Hp n dst'. pose proof (ring_used_range r Hr).
  unfold tuya_ring_buff_read, tuya_ring_buff_peek.
  rewrite used_size_get_ok by done. subst dst'.
  replace (GET_MIN (ring_used r) len) with n by (unfold GET_MIN; guards).
  replace (GET_MIN len (ring_used r)) with n by (unfold GET_MIN; guards).
  destruct (decide (n = 0)) as [Hn|Hn].
  - rewrite Hn. split; [exists r; split_and!|]; guards; done.
  - rewrite !(bool_decide_false (_ = 0)) by lia.
    destruct (ring_copy_out_ok r dst n) as (d & t & -> & Ht & Htm & ->);
      [done|lia..|]. simpl.
    assert (Hn32 : u32 (t + (n - t)) = n).
    { rewrite wrap_small; unfold in_u; lia. }
    rewrite Hn32. split; [|done]. eexists. split; [done|].
    match goal with |- context [Ringbuff _ _ ?o _ _] =>
      destruct (ring_advance r n o) as [??]; [done|lia| |done] end.
    unfold ring_inv, ring_capacity, ring_used in *. wraps. guards.
Qed.

Lemma ring_create_inv malloc size_w len type :
  (forall n m, 0 <= n -> malloc n = Some m -> zlen m = n) ->
  in_u 32 len -> 0 <= size_w -> RINGBUFF_SIZE + len < 2 ^ size_w ->
  forall r, tuya_ring_buff_create malloc size_w len type true = (OPRT_OK, Some r) ->
  ring_inv r /\ ring_contents r = [] /\ ring_capacity r = len - 1.
Proof.
  intros Hm Hl Hw Hs r. unfold tuya_ring_buff_create. simpl.
  case_bool_decide as Ht; [done|]. case_bool_decide; [done|].
  unfold in_u, RINGBUFF_SIZE in *. rewrite wrap_small by (unfold in_u; lia).
  destruct (malloc _) as [block|] eqn:Hb; [|done]. intros [= <-].
  apply Hm in Hb; [|lia]. split; [|done]. unfold ring_inv. simpl.
  rewrite zlen_drop by lia. split_and!; try lia. by destruct type.
Qed.
End ring.

(** ** The ring buffer is a bounded FIFO *)

#[export, refine] Instance ring_fifo : ByteFifo ringbuff := {
  fifo_inv := ring_inv;
  fifo_contents := ring_contents;
  fifo_capacity := ring_capacity;
  fifo_write_law := _; fifo_read_law := _; fifo_peek_law := _;
  fifo_write r data len :=
    '(n, h) ← tuya_ring_buff_write (Some r) (Some data) len;
    r' ← h; Some (n, r');
  fifo_read r dst len :=
    '(n, d, h) ← tuya_ring_buff_read (Some r) (Some dst) len;
    d' ← d; r' ← h; Some (n, d', r');
  fifo_peek r dst len :=
    '(n, d) ← tuya_ring_buff_peek (Some r) (Some dst) len;
    d' ← d; Some (n, d') }.
Proof.
  - intros r data len Hr Hl Hp. unfold spec_write.
    rewrite zlen_ring_contents by done.
    destruct (ring_write_ok r data len) as (r' & -> & ? & HL & ?); [done..|].
    exists r'. unfold ring_capacity. rewrite HL. by split_and!.
  - intros r dst len Hr Hl Hp. unfold spec_read. rewrite zlen_ring_contents by done.
    destruct (ring_read_ok r dst len) as [(r' & -> & ? & HL & ?) _]; [done..|].
    exists r'. unfold ring_capacity. rewrite HL. by split_and!.
  - intros r dst len Hr Hl Hp. unfold spec_read. rewrite zlen_ring_contents by done.
    by destruct (ring_read_ok r dst len) as [_ ->].
Defined.

(** Writing [len] bytes to a well-formed ring buffer never leaves its
    array, accepts as many bytes as are free (the capacity is [len - 1] cells)
    and appends exactly those to the unread bytes. *)
Theorem ring_write_appends r data len :
  ring_inv r -> in_u 32 len -> len <= zlen data ->
  let n := Z.min len (ring_capacity r - zlen (ring_contents r)) in
  exists r', tuya_ring_buff_write (Some r) (Some data) len = Some (n, Some r') /\
    ring_inv r' /\ ring_capacity r' = ring_capacity r /\
    ring_contents r' = ring_contents r ++ take (Z.to_nat n) data.
Proof.
  intros Hr Hl Hd. cbv zeta. rewrite zlen_ring_contents by done.
  destruct (ring_write_ok r data len) as (r' & -> & ? & HL & ?); [done..|].
  exists r'. unfold ring_capacity. rewrite HL. by split_and!.
Qed.

(** A buffer of 5 cells whose unread bytes wrap around the end. *)
Definition ring_demo : ringbuff := Ringbuff OVERFLOW_STOP_TYPE 1 3 5 [10; 0; 0; 8; 9].

Lemma ring_write_appends_witness :
  exists r', tuya_ring_buff_write (Some ring_demo) (Some [1; 2; 3]) 3 = Some (1, Some r') /\
    ring_inv r' /\ ring_capacity r' = 4 /\ ring_contents r' = [8; 9; 10; 1].
Proof.
  apply (ring_write_appends ring_demo [1; 2; 3] 3);
    [by vm_compute | by vm_compute | done].
Defined.

(** Any sequence of [write], [read] and [peek] calls with 32-bit counts and
    buffers that hold them returns the counts and the bytes that the abstract
    bounded FIFO returns, and never leaves an array. *)
Theorem ring_refines_fifo os r :
  ring_inv r -> Forall op_ok os ->
  exists r', fifo_run os r =
      Some ((spec_run (ring_capacity r) os (ring_contents r)).1, r') /\
    ring_inv r' /\
    ring_contents r' = (spec_run (ring_capacity r) os (ring_contents r)).2.
Proof.
  intros Hr Hok. destruct (fifo_run_refines (F := ring_fifo) os r Hr Hok) as (r' & ? & ? & _ & ?).
  by exists r'.
Qed.

Lemma ring_refines_fifo_witness :
  exists r', fifo_run [OpWrite [1; 2; 3] 3; OpRead [0; 0] 2; OpPeek [0; 0; 0] 3] ring_demo =
      Some ([(1, [1; 2; 3]); (2, [8; 9]); (2, [10; 1; 0])], r') /\
    ring_inv r' /\ ring_contents r' = [10; 1].
Proof.
  apply (ring_refines_fifo [OpWrite [1; 2; 3] 3; OpRead [0; 0] 2; OpPeek [0; 0; 0] 3] ring_demo).
  - by vm_compute.
  - repeat constructor; by vm_compute.
Defined.

(** Over any such run, the unread bytes followed by the accepted ones are
    the delivered bytes followed by what is left: nothing is lost, duplicated or
    reordered. *)
Theorem ring_stream os r xs r' :
  ring_inv r -> Forall op_ok os -> fifo_run os r = Some (xs, r') ->
  ring_contents r ++ accepted os xs = delivered os xs ++ ring_contents r'.
Proof. apply (fifo_run_stream (F := ring_fifo)). Qed.

Lemma ring_stream_witness :
  exists xs r', fifo_run [OpWrite [1; 2] 2; OpRead [0; 0] 2] ring_demo = Some (xs, r') /\
    ring_contents ring_demo ++ accepted [OpWrite [1; 2] 2; OpRead [0; 0] 2] xs =
    delivered [OpWrite [1; 2] 2; OpRead [0; 0] 2] xs ++ ring_contents r'.
Proof.
  eexists _, _. split; [vm_compute; reflexivity|].
  apply ring_stream; [by vm_compute| |by vm_compute].
  repeat constructor; by vm_compute.
Defined.

(** A freshly created buffer is well-formed, empty, and holds one byte less
    than the requested length, provided the allocation size does not wrap in
    [size_t]. *)
Theorem ring_create_ok malloc size_w len type r :
  (forall n m, 0 <= n -> malloc n = Some m -> zlen m = n) ->
  in_u 32 len -> 0 <= size_w -> RINGBUFF_SIZE + len < 2 ^ size_w ->
  tuya_ring_buff_create malloc size_w len type true = (OPRT_OK, Some r) ->
  ring_inv r /\ ring_contents r = [] /\
  tuya_ring_buff_free_size_get (Some r) = len - 1.
Proof.
  intros Hm Hl Hw Hs Hc. destruct (ring_create_inv _ _ _ _ Hm Hl Hw Hs r Hc) as (Hr & Hq & Hcap).
  split_and!; [done..|]. rewrite free_size_get_ok by done.
  rewrite <- zlen_ring_contents, Hq, Hcap, (@zlen_nil Z) by done. lia.
Qed.

Lemma ring_create_ok_witness :
  exists r, tuya_ring_buff_create (fun n => Some (replicate (Z.to_nat n) 0)) 32 8
              OVERFLOW_STOP_TYPE true = (OPRT_OK, Some r) /\
    ring_inv r /\ ring_contents r = [] /\
    tuya_ring_buff_free_size_get (Some r) = 7.
Proof.
  eexists. split; [vm_compute; reflexivity|].
  apply (ring_create_ok (fun n => Some (replicate (Z.to_nat n) 0)) 32 8 OVERFLOW_STOP_TYPE);
    try by vm_compute.
  intros n m Hn [= <-]. unfold zlen. rewrite length_replicate. lia.
Defined.
