(* ===== verification/BleTrsmitr.v ===== *)
(** * BLE frame transmitter

    Fragmentation of a message into BLE subpackages and its reassembly:
    src/tuya_cloud_service/ble/ble_trsmitr.c, the sending loop of
    [ble_packet_resp] and the receiving [ble_packet_trsmitr] of ble_mgr.c. *)
From S2P Require Import Prelude.

Definition OPRT_SVC_BT_API_TRSMITR_CONTINUE : Z := -7936.
Definition OPRT_SVC_BT_API_TRSMITR_ERROR : Z := -7937.

Definition BLE_FRAME_SEQ_LMT : Z := 16.
Definition BLE_FRAME_PKG_INIT : Z := 0.
Definition BLE_FRAME_PKG_FIRST : Z := 1.
Definition BLE_FRAME_PKG_MIDDLE : Z := 2.
Definition BLE_FRAME_PKG_END : Z := 3.

Record ble_frame_trsmitr := Trsmitr {
  tr_total : Z;
  tr_version : Z;
  tr_seq : Z;
  tr_pkg_desc : Z;
  tr_subpkg_num : Z;
  tr_pkg_trsmitr_cnt : Z;
  tr_subpkg_len : Z;
  tr_subpkg : bytes }.

(** The file's static variables. *)
Record ble_statics := Statics { s_ble_frame_seq : Z; s_ble_frame_packet_len : Z }.

Definition ble_statics_init : ble_statics := Statics 0 1024.

Definition ble_frame_packet_len_get (g : ble_statics) : Z := s_ble_frame_packet_len g.

Definition ble_frame_packet_len_set (g : ble_statics) (len : Z) : ble_statics :=
  Statics (s_ble_frame_seq g) len.

(** [malloc1], [malloc2] say whether the two allocations succeed; both blocks
    are cleared by [memset]. *)
Definition ble_frame_trsmitr_create (g : ble_statics) (malloc1 malloc2 : bool)
    : option ble_frame_trsmitr :=
  if malloc1 && malloc2
  then Some (Trsmitr 0 0 0 0 0 0 0
               (replicate (Z.to_nat (ble_frame_packet_len_get g)) 0))
  else None.

Definition ble_frame_subpacket_len_get (t : ble_frame_trsmitr) : Z := tr_subpkg_len t.
Definition ble_frame_subpacket_get (t : ble_frame_trsmitr) : bytes := tr_subpkg t.

Definition ble_frame_seq_get (g : ble_statics) : Z * ble_statics :=
  if bool_decide (s_ble_frame_seq g >= BLE_FRAME_SEQ_LMT) then (0, g)
  else (s_ble_frame_seq g,
        Statics (u8 (s_ble_frame_seq g + 1)) (s_ble_frame_packet_len g)).

(** The 4-round loop that writes [tmp] in base 128, least significant digit
    first, bit 7 marking that digits follow. *)
Fixpoint num_encode (rounds : nat) (subpkg : bytes) (off tmp : Z)
    : option (bytes * Z) :=
  match rounds with
  | O => Some (subpkg, off)
  | S rounds =>
      let d := tmp `mod` 0x80 in
      let d := if bool_decide (tmp `div` 0x80 <> 0) then Z.lor d 0x80 else d in
      subpkg ← zset subpkg off d;
      let off := u8 (off + 1) in
      let tmp := tmp `div` 0x80 in
      if bool_decide (tmp = 0) then Some (subpkg, off)
      else num_encode rounds subpkg off tmp
  end.

(** The 4-round loop that reads such a number. *)
Fixpoint num_decode (rounds : nat) (raw : bytes) (off multiplier num : Z)
    : option (Z * Z) :=
  match rounds with
  | O => Some (num, off)
  | S rounds =>
      digit ← zget raw off;
      let off := u8 (off + 1) in
      let num := u32 (num + u32 (Z.land digit 0x7f * multiplier)) in
      let multiplier := u32 (multiplier * 0x80) in
      if bool_decide (Z.land digit 0x80 = 0) then Some (num, off)
      else num_decode rounds raw off multiplier num
  end.

(** The header that the sender writes: the subpackage number and, in the first
    subpackage, the total length and the version and sequence byte. *)
Definition header_encode (t : ble_frame_trsmitr) (len : Z) : option (bytes * Z) :=
  (* subpackage num encode *)
  '(subpkg, off) ← num_encode 4 (tr_subpkg t) 0 (tr_subpkg_num t);
  (* the first package includes the frame total len *)
  if bool_decide (tr_subpkg_num t = 0) then
    '(subpkg, off) ← num_encode 4 subpkg off len;
    (* frame type and frame seq *)
    subpkg ← zset subpkg off
      (u8 (Z.lor (Z.shiftl (tr_version t) 4) (Z.land (tr_seq t) 0x0f)));
    Some (subpkg, u8 (off + 1))
  else Some (subpkg, off).

(** The sender after the parameter check and the start of a new package. *)
Definition send_pkg_core (g : ble_statics) (t : ble_frame_trsmitr) (buf : bytes)
    (len : Z) : option (Z * ble_frame_trsmitr) :=
  if bool_decide (tr_subpkg_num t >= 0x10000000 \/ len >= 0x10000000)
  then Some (OPRT_COM_ERROR, t)
  else
    '(subpkg, off) ← header_encode t len;
    (* frame data transfer *)
    let send_data := u16 (ble_frame_packet_len_get g - off) in
    let rest := u32 (len - tr_pkg_trsmitr_cnt t) in
    let send_data := if bool_decide (rest < send_data) then u16 rest else send_data in
    subpkg ← memcpy subpkg off buf (tr_pkg_trsmitr_cnt t) send_data;
    let subpkg_len := off + send_data in
    let cnt := u32 (tr_pkg_trsmitr_cnt t + send_data) in
    let desc := if bool_decide (tr_subpkg_num t = 0) then BLE_FRAME_PKG_FIRST
                else BLE_FRAME_PKG_MIDDLE in
    if bool_decide (cnt < tr_total t) then
      Some (OPRT_SVC_BT_API_TRSMITR_CONTINUE,
            Trsmitr (tr_total t) (tr_version t) (tr_seq t) desc
              (u32 (tr_subpkg_num t + 1)) cnt subpkg_len subpkg)
    else
      Some (OPRT_OK,
            Trsmitr (tr_total t) (tr_version t) (tr_seq t) BLE_FRAME_PKG_END
              (tr_subpkg_num t) cnt subpkg_len subpkg).

(** Result: the return code, the transmitter and the statics. *)
Definition ble_frame_trsmitr_send_pkg_encode (g : ble_statics)
    (h : option ble_frame_trsmitr) (version : Z) (buf : bytes) (len : Z)
    : option (Z * option ble_frame_trsmitr * ble_statics) :=
  match h with
  | None => Some (OPRT_INVALID_PARM, None, g)
  | Some t =>
      let '(t, g) :=
        if bool_decide (tr_pkg_desc t = BLE_FRAME_PKG_INIT) then
          let '(seq, g) := ble_frame_seq_get g in
          (Trsmitr len version seq (tr_pkg_desc t) 0 0 (tr_subpkg_len t) (tr_subpkg t), g)
        else (t, g) in
      '(rt, t) ← send_pkg_core g t buf len;
      Some (rt, Some t, g)
  end.

(** In the first subpackage the receiver decodes the total length and the version
    and sequence byte; the flag reports a length that is too large. *)
Definition header_decode (t : ble_frame_trsmitr) (raw_data : bytes) (off : Z)
    : option (ble_frame_trsmitr * Z * bool) :=
  if bool_decide (tr_subpkg_num t = 0) then
    (* frame len decode *)
    '(total, off) ← num_decode 4 raw_data off 1 (tr_total t);
    if bool_decide (total >= 0x10000000) then
      Some (Trsmitr total (tr_version t) (tr_seq t) (tr_pkg_desc t) (tr_subpkg_num t)
              (tr_pkg_trsmitr_cnt t) (tr_subpkg_len t) (tr_subpkg t), off, true)
    else
      (* frame type and frame seq decode *)
      b ← zget raw_data off;
      Some (Trsmitr total (Z.shiftr (Z.land b 0xf0) 4) (Z.land b 0x0f) (tr_pkg_desc t)
              (tr_subpkg_num t) (tr_pkg_trsmitr_cnt t) (tr_subpkg_len t) (tr_subpkg t),
            u8 (off + 1), false)
  else Some (t, off, false).

(** The receiver's part after the package number has been accepted. *)
Definition ble_frame_recv_body (t : ble_frame_trsmitr) (raw_data : bytes)
    (raw_data_len off : Z) : option (Z * ble_frame_trsmitr) :=
  '(t, off, err) ← header_decode t raw_data off;
  if (err : bool) then Some (OPRT_COM_ERROR, t)
  else
    let recv_data := u16 (raw_data_len - off) in
    let rest := u32 (tr_total t - tr_pkg_trsmitr_cnt t) in
    let recv_data := if bool_decide (rest < recv_data) then u16 rest else recv_data in
    (* decode data cp to transmitter subpackage buf *)
    subpkg ← memcpy (tr_subpkg t) 0 raw_data off recv_data;
    let cnt := u32 (tr_pkg_trsmitr_cnt t + recv_data) in
    if bool_decide (cnt < tr_total t) then
      Some (OPRT_SVC_BT_API_TRSMITR_CONTINUE,
            Trsmitr (tr_total t) (tr_version t) (tr_seq t) (tr_pkg_desc t)
              (tr_subpkg_num t) cnt recv_data subpkg)
    else
      Some (OPRT_OK,
            Trsmitr (tr_total t) (tr_version t) (tr_seq t) BLE_FRAME_PKG_END
              (tr_subpkg_num t) cnt recv_data subpkg).

(** A receiver in its initial state clears the package fields. *)
Definition recv_start (t : ble_frame_trsmitr) : ble_frame_trsmitr :=
  if bool_decide (tr_pkg_desc t = BLE_FRAME_PKG_INIT) then
    Trsmitr 0 0 0 (tr_pkg_desc t) (tr_subpkg_num t) 0 (tr_subpkg_len t) (tr_subpkg t)
  else t.

(** Subpackage 0 starts a package, every other one continues it. *)
Definition recv_number (t : ble_frame_trsmitr) (subpkg_num : Z) : ble_frame_trsmitr :=
  if bool_decide (subpkg_num = 0) then
    Trsmitr 0 0 0 BLE_FRAME_PKG_FIRST (tr_subpkg_num t) 0 (tr_subpkg_len t) (tr_subpkg t)
  else
    Trsmitr (tr_total t) (tr_version t) (tr_seq t) BLE_FRAME_PKG_MIDDLE
      (tr_subpkg_num t) (tr_pkg_trsmitr_cnt t) (tr_subpkg_len t) (tr_subpkg t).

Definition ble_frame_trsmitr_recv_pkg_decode (h : option ble_frame_trsmitr)
    (raw : option bytes) (raw_data_len : Z)
    : option (Z * option ble_frame_trsmitr) :=
  match raw, h with
  | Some raw_data, Some t =>
      let t := recv_start t in
      (* Package number *)
      '(subpkg_num, off) ← num_decode 4 raw_data 0 1 0;
      let t := recv_number t subpkg_num in
      if bool_decide (tr_subpkg_num t >= 0x10000000) then Some (OPRT_COM_ERROR, Some t)
      else if bool_decide (tr_pkg_desc t <> BLE_FRAME_PKG_FIRST /\ subpkg_num < tr_subpkg_num t)
      then Some (OPRT_SVC_BT_API_TRSMITR_ERROR, Some t)
      else if bool_decide (tr_pkg_desc t <> BLE_FRAME_PKG_FIRST /\ subpkg_num = tr_subpkg_num t)
      then Some (OPRT_SVC_BT_API_TRSMITR_CONTINUE, Some t)
      else if bool_decide (tr_pkg_desc t <> BLE_FRAME_PKG_FIRST /\
                           u32 (subpkg_num - tr_subpkg_num t) > 1)
      then Some (OPRT_SVC_BT_API_TRSMITR_ERROR, Some t)
      else
        let t := Trsmitr (tr_total t) (tr_version t) (tr_seq t) (tr_pkg_desc t)
                   subpkg_num (tr_pkg_trsmitr_cnt t) (tr_subpkg_len t) (tr_subpkg t) in
        '(rt, t) ← ble_frame_recv_body t raw_data raw_data_len off;
        Some (rt, Some t)
  | _, _ => Some (OPRT_INVALID_PARM, h)
  end.

(** ** Numbers in base 128 *)

(** The digits of [v], at most [rounds] of them. *)
Fixpoint num_bytes (rounds : nat) (v : Z) : bytes :=
  match rounds with
  | O => []
  | S rounds =>
      if bool_decide (v `div` 0x80 = 0) then [v `mod` 0x80]
      else Z.lor (v `mod` 0x80) 0x80 :: num_bytes rounds (v `div` 0x80)
  end.

Lemma zlen_num_bytes rounds v :
  0 <= zlen (num_bytes rounds v) <= Z.of_nat rounds.
Proof.
  revert v. induction rounds as [|r IH]; intros v; simpl; [done|].
  case_bool_decide; rewrite zlen_cons, ?(@zlen_nil Z); [lia|].
  specialize (IH (v `div` 0x80)). lia.
Qed.

Lemma zlen_num_bytes_pos rounds v : 0 < zlen (num_bytes (S rounds) v).
Proof.
  cbn [num_bytes]. pose proof (zlen_num_bytes rounds (v `div` 0x80)).
  case_bool_decide; rewrite zlen_cons, ?(@zlen_nil Z); lia.
Qed.

Lemma num_encode_ok rounds subpkg off tmp :
  (0 < rounds)%nat -> 0 <= off -> off + Z.of_nat rounds <= 255 ->
  off + Z.of_nat rounds <= zlen subpkg ->
  exists subpkg', num_encode rounds subpkg off tmp =
      Some (subpkg', off + zlen (num_bytes rounds tmp)) /\
    mwrite subpkg off (num_bytes rounds tmp) = Some subpkg'.
Proof.
  revert subpkg off tmp. induction rounds as [|r IH]; intros subpkg off tmp Hr H0 Hoff Hl; [lia|].
  cbn [num_encode num_bytes].
  set (d := if bool_decide _ then _ else _).
  destruct (zset_is_Some subpkg off d) as [s1 Hs1]; [lia|]. rewrite Hs1. simpl.
  rewrite (wrap_small 8) by (unfold in_u; lia).
  destruct (zset_inv _ _ _ _ Hs1) as (_&Hl1&_&_).
  case_bool_decide as Hd.
  - exists s1. rewrite zlen_cons, (@zlen_nil Z). split; [do 2 f_equal; lia|].
    eapply mwrite_cons; [|apply mwrite_nil; lia].
    unfold d in Hs1. by rewrite bool_decide_false in Hs1 by lia.
  - unfold d in Hs1. rewrite bool_decide_true in Hs1 by lia.
    destruct r as [|r].
    + exists s1. cbn [num_encode num_bytes]. rewrite zlen_cons, (@zlen_nil Z).
      split; [do 2 f_equal; lia|]. eapply mwrite_cons; [done|apply mwrite_nil; lia].
    + destruct (IH s1 (off + 1) (tmp `div` 0x80)) as (s2 & -> & Hm); [lia..|].
      exists s2. rewrite zlen_cons. split; [do 2 f_equal; lia|].
      by eapply mwrite_cons.
Qed.

Lemma land_low_digit d : 0 <= d < 0x80 ->
  Z.land d 0x7f = d /\ Z.land d 0x80 = 0 /\
  Z.land (Z.lor d 0x80) 0x7f = d /\ Z.land (Z.lor d 0x80) 0x80 = 0x80.
Proof.
  intros Hd.
  pose proof (below_forallb (fun d => (Z.land d 0x7f =? d) && (Z.land d 0x80 =? 0) &&
    (Z.land (Z.lor d 0x80) 0x7f =? d) && (Z.land (Z.lor d 0x80) 0x80 =? 0x80)) 0x80
    ltac:(by vm_compute) d Hd) as H.
  cbv beta in H. lia.
Qed.

(** Where the digits of [v] are at [off], the decoder reads [v] back. *)
Lemma num_decode_ok rounds raw off mult num v :
  (0 < rounds)%nat -> 0 <= off -> off + Z.of_nat rounds <= 255 -> 0 < mult -> 0 <= num ->
  0 <= v < 0x80 ^ Z.of_nat rounds -> mult * 0x80 ^ Z.of_nat rounds <= 2 ^ 31 ->
  num + v * mult < 2 ^ 32 ->
  (forall i, 0 <= i < zlen (num_bytes rounds v) ->
     zget raw (off + i) = zget (num_bytes rounds v) i) ->
  num_decode rounds raw off mult num =
    Some (num + v * mult, off + zlen (num_bytes rounds v)).
Proof.
  revert off mult num v.
  induction rounds as [|r IH]; intros off mult num v Hr Ho Hoff Hmult Hnum Hv Hp Hnv Hraw; [lia|].
  rewrite Nat2Z.inj_succ, Z.pow_succ_r in Hv, Hp by lia.
  pose proof (Z.pow_pos_nonneg 0x80 (Z.of_nat r) ltac:(lia) ltac:(lia)) as Hpow.
  pose proof (Z.mod_pos_bound v 0x80 ltac:(lia)) as Hm.
  pose proof (Z.div_mod v 0x80 ltac:(lia)) as Hdm.
  pose proof (Z.div_pos v 0x80 ltac:(lia) ltac:(lia)) as Hdp.
  assert (Hq : v `div` 0x80 < 0x80 ^ Z.of_nat r) by (apply Z.div_lt_upper_bound; lia).
  destruct (land_low_digit _ Hm) as (L1 & L2 & L3 & L4).
  assert (Hdig : 0 <= v `mod` 0x80 * mult /\ v `mod` 0x80 * mult <= v * mult /\
    mult * 0x80 <= 2 ^ 31 /\ v * mult = v `div` 0x80 * (mult * 0x80) + v `mod` 0x80 * mult /\
    0 <= v `div` 0x80 * (mult * 0x80)) by nia.
  cbn [num_decode num_bytes] in *. case_bool_decide as Hz.
  - specialize (Hraw 0). rewrite zlen_cons, (@zlen_nil Z), !Z.add_0_r in Hraw.
    rewrite Hraw by lia. simpl. rewrite L1, L2. simpl. wraps.
    rewrite zlen_cons, (@zlen_nil Z). do 2 f_equal; lia.
  - rewrite zlen_cons in Hraw. pose proof (zlen_num_bytes r (v `div` 0x80)) as Hnb.
    pose proof (Hraw 0) as H0. rewrite !Z.add_0_r in H0. rewrite H0 by lia. simpl.
    rewrite L3, L4. simpl.
    destruct r as [|r].
    { change (Z.of_nat 0) with 0 in *. rewrite Z.pow_0_r in *. lia. }
    rewrite (wrap_small 8), (wrap_small 32 (mult * _)),
      (wrap_small 32 (v `mod` _ * _)), wrap_small by (unfold in_u; lia).
    rewrite (IH _ _ _ (v `div` 0x80)); try lia.
    + rewrite zlen_cons. do 2 f_equal; lia.
    + intros i Hi. specialize (Hraw (1 + i)). replace (off + 1 + i) with (off + (1 + i)) by lia.
      rewrite Hraw, zget_cons_pos by lia. f_equal. lia.
Qed.

#[local] Arguments num_encode : simpl never.
#[local] Arguments num_decode : simpl never.
#[local] Arguments num_bytes : simpl never.

(** ** One subpackage *)

(** The byte that carries the version and the sequence number. *)
Definition version_seq_byte (version seq : Z) : Z :=
  u8 (Z.lor (Z.shiftl version 4) (Z.land seq 0x0f)).

(** The header of subpackage [k] of a message of [len] bytes. *)
Definition frame_header (len vs k : Z) : bytes :=
  if bool_decide (k = 0) then num_bytes 4 0 ++ num_bytes 4 len ++ [vs]
  else num_bytes 4 k.

Lemma zlen_frame_header len vs k : 0 <= zlen (frame_header len vs k) <= 6.
Proof.
  unfold frame_header. pose proof (zlen_num_bytes 4 k). pose proof (zlen_num_bytes 4 len).
  case_bool_decide; rewrite ?zlen_app, ?zlen_cons, ?(@zlen_nil Z); [|lia].
  change (zlen (num_bytes 4 0)) with 1. lia.
Qed.

Lemma header_encode_ok t len :
  6 <= zlen (tr_subpkg t) ->
  let vs := version_seq_byte (tr_version t) (tr_seq t) in
  exists subpkg',
    header_encode t len =
      Some (subpkg', zlen (frame_header len vs (tr_subpkg_num t))) /\
    mwrite (tr_subpkg t) 0 (frame_header len vs (tr_subpkg_num t)) = Some subpkg'.
Proof.
  intros Hl vs. unfold header_encode.
  destruct (num_encode_ok 4 (tr_subpkg t) 0 (tr_subpkg_num t)) as (s1 & -> & H1); [lia..|].
  ub_step. unfold frame_header. case_bool_decide as Hk; [|by exists s1].
  rewrite Hk in *. change (zlen (num_bytes 4 0)) with 1 in *.
  pose proof (mwrite_inv _ _ _ _ H1) as (_ & _ & Hl1 & _).
  pose proof (zlen_num_bytes 4 len).
  destruct (num_encode_ok 4 s1 (0 + 1) len) as (s2 & -> & H2); [lia..|]. ub_step.
  pose proof (mwrite_inv _ _ _ _ H2) as (_ & _ & Hl2 & _).
  destruct (zset_is_Some s2 (0 + 1 + zlen (num_bytes 4 len)) vs) as [s3 H3]; [lia|].
  unfold vs, version_seq_byte in *. rewrite H3. ub_step.
  destruct (zset_inv _ _ _ _ H3) as (_ & Hl3 & _).
  exists s3. rewrite (wrap_small 8 (_ + 1)) by (unfold in_u; lia). split.
  - rewrite !zlen_app, zlen_cons, (@zlen_nil Z). change (zlen (num_bytes 4 0)) with 1.
    do 2 f_equal. lia.
  - eapply mwrite_app; [done|]. eapply mwrite_app; [done|].
    eapply mwrite_cons; [done|]. apply mwrite_nil.
    change (zlen (num_bytes 4 0)) with 1. lia.
Qed.

(** The payload bytes that go into subpackage [k] when [c] of [len] are gone. *)
Definition chunk_len (L len vs k c : Z) : Z :=
  Z.min (L - zlen (frame_header len vs k)) (len - c).

Definition frame (L : Z) (buf : bytes) (len vs k c : Z) : bytes :=
  frame_header len vs k ++
  take (Z.to_nat (chunk_len L len vs k c)) (drop (Z.to_nat c) buf).

Lemma send_pkg_core_ok g t buf len :
  let L := ble_frame_packet_len_get g in
  let vs := version_seq_byte (tr_version t) (tr_seq t) in
  let k := tr_subpkg_num t in
  let c := tr_pkg_trsmitr_cnt t in
  let n := chunk_len L len vs k c in
  6 <= L < 2 ^ 16 -> zlen (tr_subpkg t) = L -> tr_total t = len ->
  0 <= k < 0x10000000 -> 0 <= c <= len -> len < 0x10000000 -> len <= zlen buf ->
  exists t', send_pkg_core g t buf len =
      Some (if bool_decide (c + n < len) then OPRT_SVC_BT_API_TRSMITR_CONTINUE
            else OPRT_OK, t') /\
    take (Z.to_nat (tr_subpkg_len t')) (tr_subpkg t') = frame L buf len vs k c /\
    tr_subpkg_len t' = zlen (frame L buf len vs k c) /\
    zlen (tr_subpkg t') = L /\ tr_total t' = len /\
    tr_version t' = tr_version t /\ tr_seq t' = tr_seq t /\
    tr_pkg_desc t' <> BLE_FRAME_PKG_INIT /\ tr_pkg_trsmitr_cnt t' = c + n /\
    (c + n < len -> tr_subpkg_num t' = k + 1).
Proof.
  intros L vs k c n HL Hs Ht Hk Hc Hlen Hbuf.
  pose proof (zlen_frame_header len vs k) as Hh.
  unfold send_pkg_core. rewrite bool_decide_false by lia.
  destruct (header_encode_ok t len) as (s1 & He & Hm); [lia|].
  rewrite He. ub_step. fold vs k in Hm |- *.
  set (h := frame_header len vs k) in *.
  pose proof (mwrite_inv _ _ _ _ Hm) as (_ & _ & Hl1 & _).
  change (tr_pkg_trsmitr_cnt t) with c. fold L.
  rewrite (wrap_small 32 (len - c)), (wrap_small 16 (L - zlen h)) by (unfold in_u; lia).
  replace (if bool_decide (len - c < L - zlen h) then u16 (len - c) else L - zlen h) with n.
  2: { unfold n, chunk_len. fold h. case_bool_decide; [rewrite wrap_small by (unfold in_u; lia)|]; lia. }
  assert (Hn : 0 <= n /\ n <= len - c /\ zlen h + n <= L)
    by (unfold n, chunk_len; fold h; lia).
  rewrite memcpy_mwrite by lia. set (chunk := take (Z.to_nat n) (drop (Z.to_nat c) buf)).
  assert (Hcl : zlen chunk = n) by (unfold chunk; rewrite zlen_take, zlen_drop; lia).
  destruct (mwrite_is_Some s1 (zlen h) chunk) as [s2 H2]; [lia..|]. rewrite H2. ub_step.
  rewrite (wrap_small 32 (c + n)) by (unfold in_u; lia). rewrite Ht.
  assert (Hf : frame L buf len vs k c = h ++ chunk) by done.
  assert (Hfw : mwrite (tr_subpkg t) 0 (h ++ chunk) = Some s2)
    by (eapply mwrite_app; [done|]; by rewrite Z.add_0_l).
  pose proof (mwrite_inv _ _ _ _ Hfw) as (_ & _ & Hl2 & _).
  pose proof (mwrite_take _ _ _ Hfw) as Htake. rewrite zlen_app, Hcl in Htake.
  assert (HfL : zlen (frame L buf len vs k c) = zlen h + n) by (rewrite Hf, zlen_app; lia).
  case_bool_decide; eexists; (split; [done|]); simpl; rewrite HfL, Hf;
    (split_and!; try done; try lia).
  - case_bool_decide; done.
  - fold k. intros _. by rewrite wrap_small by (unfold in_u; lia).
Qed.

(** The payload of a subpackage, as bytes. *)
Definition chunk (L : Z) (buf : bytes) (len vs k c : Z) : bytes :=
  take (Z.to_nat (chunk_len L len vs k c)) (drop (Z.to_nat c) buf).

(** A receiver that expects subpackage [k] with [c] of [len] bytes received. *)
Definition expects (t : ble_frame_trsmitr) (len k c : Z) : Prop :=
  0 <= tr_subpkg_num t < 0x10000000 /\
  (k = 0 -> c = 0) /\
  (k <> 0 -> tr_subpkg_num t = k - 1 /\ tr_total t = len /\ tr_pkg_trsmitr_cnt t = c /\
     tr_pkg_desc t <> BLE_FRAME_PKG_INIT).

Lemma zget_prefix (h x : bytes) i :
  0 <= i < zlen h -> zget (h ++ x) (0 + i) = zget h i.
Proof. intros. by rewrite Z.add_0_l, zget_app_l by lia. Qed.

Lemma recv_body_ok t x off h len vs c :
  let k := tr_subpkg_num t in
  let n := zlen x in
  h = frame_header len vs k -> off = zlen (num_bytes 4 k) ->
  0 <= k -> 0 <= c <= len -> len < 0x10000000 -> 0 <= n <= len - c ->
  n + zlen h < 2 ^ 16 -> n <= zlen (tr_subpkg t) ->
  (if bool_decide (k = 0) then tr_total t = 0 else tr_total t = len) ->
  tr_pkg_trsmitr_cnt t = c ->
  exists version seq desc subpkg',
    ble_frame_recv_body t (h ++ x) (zlen (h ++ x)) off =
      Some (if bool_decide (c + n < len) then OPRT_SVC_BT_API_TRSMITR_CONTINUE
            else OPRT_OK,
            Trsmitr len version seq desc k (c + n) n subpkg') /\
    desc = (if bool_decide (c + n < len) then tr_pkg_desc t else BLE_FRAME_PKG_END) /\
    (k = 0 -> version = Z.shiftr (Z.land vs 0xf0) 4 /\ seq = Z.land vs 0x0f) /\
    (k <> 0 -> version = tr_version t /\ seq = tr_seq t) /\
    zlen subpkg' = zlen (tr_subpkg t) /\ take (Z.to_nat n) subpkg' = x.
Proof.
  intros k n Hh Hoff Hk Hc Hlen Hn Hn16 Hs Htot Hcnt.
  assert (Hbody : exists version seq,
    header_decode t (h ++ x) off =
    Some (Trsmitr len version seq (tr_pkg_desc t) k c (tr_subpkg_len t) (tr_subpkg t),
          zlen h, false) /\
    (k = 0 -> version = Z.shiftr (Z.land vs 0xf0) 4 /\ seq = Z.land vs 0x0f) /\
    (k <> 0 -> version = tr_version t /\ seq = tr_seq t)).
  { unfold header_decode. fold k. unfold frame_header in Hh. case_bool_decide as Hk0.
    - rewrite Hk0 in *. change (zlen (num_bytes 4 0)) with 1 in *.
      change (num_bytes 4 0) with [0] in Hh. pose proof (zlen_num_bytes 4 len).
      rewrite Htot, Hoff, Hh.
      rewrite (num_decode_ok 4 _ 1 1 0 len); try lia; [|intros i Hi].
      2: { rewrite <- !app_assoc. by apply zget_middle. }
      ub_step. rewrite bool_decide_false by lia.
      rewrite <- app_assoc, <- (app_assoc _ [vs]), app_assoc.
      rewrite <- (Z.add_0_r (1 + _)), zget_middle, zget_cons_0 by (rewrite ?zlen_app; done).
      ub_step.
      do 2 eexists. rewrite Hcnt. split; [|done]. do 2 f_equal.
      rewrite wrap_small by (unfold in_u; lia). rewrite !zlen_app. change (zlen [vs]) with 1.
      change (zlen [0]) with 1. f_equal; [f_equal|]; lia.
    - exists (tr_version t), (tr_seq t). split; [|done].
      rewrite Hoff, Hh. destruct t; simpl in *; subst; done. }
  destruct Hbody as (version & seq & Hbody & Hv0 & Hv1).
  unfold ble_frame_recv_body. rewrite Hbody. ub_step. simpl.
  rewrite zlen_app. fold n. replace (zlen h + n - zlen h) with n by lia.
  pose proof (zlen_frame_header len vs k). subst h.
  rewrite (wrap_small 16 n), (wrap_small 32 (len - c)) by (unfold in_u; lia).
  rewrite bool_decide_false by lia.
  rewrite memcpy_mwrite by (rewrite ?zlen_app; fold n; lia).
  rewrite zlen_to_nat, drop_app_length.
  unfold n at 1. rewrite zlen_to_nat, firstn_all.
  destruct (mwrite_is_Some (tr_subpkg t) 0 x) as [s' Hs']; [lia..|]. rewrite Hs'. ub_step.
  rewrite (wrap_small 32 (c + n)) by (unfold in_u; lia).
  pose proof (mwrite_inv _ _ _ _ Hs') as (_&_&?&_). pose proof (mwrite_take _ _ _ Hs').
  clear Htot. case_bool_decide; do 4 eexists; (split; [reflexivity|]); by split_and!.
Qed.

Lemma recv_start_same t :
  tr_subpkg_num (recv_start t) = tr_subpkg_num t /\ tr_subpkg (recv_start t) = tr_subpkg t.
Proof. unfold recv_start. by case_bool_decide. Qed.

Lemma recv_number_same t k :
  tr_subpkg_num (recv_number t k) = tr_subpkg_num t /\
  tr_subpkg (recv_number t k) = tr_subpkg t.
Proof. unfold recv_number. by case_bool_decide. Qed.

Lemma recv_start_id t : tr_pkg_desc t <> BLE_FRAME_PKG_INIT -> recv_start t = t.
Proof. intros. unfold recv_start. by rewrite bool_decide_false. Qed.

(** Decoding subpackage [k] of a message: the receiver that expects it accepts
    it, stores its payload and expects the next one. *)
Lemma recv_pkg_ok t L buf len vs k c :
  let n := chunk_len L len vs k c in
  6 <= L < 2 ^ 16 -> L <= zlen (tr_subpkg t) -> expects t len k c ->
  0 <= k < 0x10000000 -> 0 <= c <= len -> len < 0x10000000 -> len <= zlen buf ->
  exists t', ble_frame_trsmitr_recv_pkg_decode (Some t) (Some (frame L buf len vs k c))
        (zlen (frame L buf len vs k c)) =
      Some (if bool_decide (c + n < len) then OPRT_SVC_BT_API_TRSMITR_CONTINUE
            else OPRT_OK, Some t') /\
    expects t' len (k + 1) (c + n) /\
    tr_subpkg_num t' = k /\ tr_subpkg_len t' = n /\
    zlen (tr_subpkg t') = zlen (tr_subpkg t) /\
    take (Z.to_nat n) (tr_subpkg t') = chunk L buf len vs k c /\
    (k = 0 -> tr_version t' = Z.shiftr (Z.land vs 0xf0) 4) /\
    (k <> 0 -> tr_version t' = tr_version t) /\
    tr_pkg_desc t' = (if bool_decide (c + n < len) then
                        if bool_decide (k = 0) then BLE_FRAME_PKG_FIRST
                        else BLE_FRAME_PKG_MIDDLE
                      else BLE_FRAME_PKG_END).
Proof.
  intros n HL Hs (Hnum & Hexp0 & Hexp) Hk Hc Hlen Hbuf.
  pose proof (zlen_frame_header len vs k) as Hh.
  assert (Hn : 0 <= n /\ n <= len - c /\ zlen (frame_header len vs k) + n <= L)
    by (unfold n, chunk_len; lia).
  assert (Hcl : zlen (chunk L buf len vs k c) = n)
    by (unfold chunk; fold n; rewrite zlen_take, zlen_drop; lia).
  assert (Hnd : num_decode 4 (frame L buf len vs k c) 0 1 0 =
                Some (k, zlen (num_bytes 4 k))).
  { rewrite (num_decode_ok 4 _ 0 1 0 k); try lia; [do 2 f_equal; lia|].
    intros i Hi. unfold frame, frame_header. case_bool_decide as Hk0.
    - rewrite <- app_assoc, Hk0 in *. by apply zget_prefix.
    - by apply zget_prefix. }
  unfold ble_frame_trsmitr_recv_pkg_decode. rewrite Hnd. ub_step.
  set (t2 := recv_number (recv_start t) k).
  destruct (recv_number_same (recv_start t) k) as [Hn2 Hs2].
  destruct (recv_start_same t) as [Hn1 Hs1]. rewrite Hn1 in Hn2. rewrite Hs1 in Hs2.
  fold t2 in Hn2, Hs2. rewrite Hn2.
  rewrite (bool_decide_false (_ >= _)) by lia.
  assert (Hexp2 : tr_pkg_desc t2 <> BLE_FRAME_PKG_FIRST -> tr_subpkg_num t = k - 1).
  { unfold t2, recv_number. case_bool_decide; [done|]. by destruct Hexp. }
  rewrite (bool_decide_false (_ /\ k < _)) by (intros [? ?]; specialize (Hexp2 ltac:(done)); lia).
  rewrite (bool_decide_false (_ /\ k = _)) by (intros [? ?]; specialize (Hexp2 ltac:(done)); lia).
  rewrite (bool_decide_false (_ /\ u32 _ > _)).
  2: { intros [? ?]. specialize (Hexp2 ltac:(done)).
       rewrite wrap_small in * by (unfold in_u; lia). lia. }
  set (t3 := Trsmitr _ _ _ _ k _ _ _).
  destruct (recv_body_ok t3 (chunk L buf len vs k c) (zlen (num_bytes 4 k))
    (frame_header len vs k) len vs c) as (v & q & d & s' & Hb & Hd & Hv0 & Hv1 & Hl & Ht);
    try done; simpl; rewrite ?Hcl, ?Hs2; try lia.
  { unfold t2, recv_number. case_bool_decide as Hk0; [done|].
    rewrite recv_start_id; naive_solver. }
  { unfold t2, recv_number. case_bool_decide as Hk0; [simpl; naive_solver|].
    rewrite recv_start_id; naive_solver. }
  change (frame_header len vs k ++ chunk L buf len vs k c) with (frame L buf len vs k c) in Hb.
  rewrite Hb, Hcl. ub_step. eexists. split; [reflexivity|]. simpl.
  assert (Hdesc : tr_pkg_desc t2 = if bool_decide (k = 0) then BLE_FRAME_PKG_FIRST
     else BLE_FRAME_PKG_MIDDLE) by (unfold t2, recv_number; by repeat case_bool_decide).
  simpl in *. rewrite Hdesc in Hd. rewrite Hcl in *. split_and!; try done; try tauto.
  - split_and!; simpl; try lia. intros _. split_and!; try lia.
    rewrite Hd. by repeat case_bool_decide.
  - by rewrite Hl, Hs2.
  - intros Hk0. destruct (Hv1 Hk0) as [-> _]. unfold t2, recv_number.
    rewrite bool_decide_false by done. by rewrite recv_start_id by naive_solver.
Qed.

(** ** Receiving and sending whole messages *)

Definition TUYA_BLE_AIR_FRAME_MAX : Z := 1024.
Definition TUYA_BLE_PROTOCOL_VERSION_HIGN : Z := 4.

Record ble_packet_recv_t := PacketRecv {
  pr_trsmitr : ble_frame_trsmitr;
  pr_raw_len : Z;
  pr_raw_buf : bytes;
  pr_dec_len : Z;
  pr_dec_buf : bytes }.

Definition zero_frame : bytes := replicate (Z.to_nat TUYA_BLE_AIR_FRAME_MAX) 0.

(** Reassembly of the received subpackages (the counter [pack_no], which is only
    printed, is left out). *)
Definition ble_packet_trsmitr (p : ble_packet_recv_t) (buf : bytes) (len : Z)
    : option (Z * ble_packet_recv_t) :=
  '(rt, h) ← ble_frame_trsmitr_recv_pkg_decode (Some (pr_trsmitr p)) (Some buf) (u16 len);
  t ← h;
  if bool_decide (OPRT_OK <> rt /\ OPRT_SVC_BT_API_TRSMITR_CONTINUE <> rt) then
    (* decode error *)
    Some (rt, PacketRecv t 0 zero_frame (pr_dec_len p) (pr_dec_buf p))
  else
    let clear := bool_decide (BLE_FRAME_PKG_FIRST = tr_pkg_desc t \/
                   (BLE_FRAME_PKG_END = tr_pkg_desc t /\ 0 = tr_subpkg_num t)) in
    let raw_len := if clear then 0 else pr_raw_len p in
    let raw_buf := if clear then zero_frame else pr_raw_buf p in
    let subpkg_len := ble_frame_subpacket_len_get t in
    '(rt, raw_buf) ←
      (if bool_decide (u32 (raw_len + subpkg_len) <= TUYA_BLE_AIR_FRAME_MAX) then
         raw_buf ← memcpy raw_buf raw_len (ble_frame_subpacket_get t) 0 subpkg_len;
         Some (rt, raw_buf)
       else Some (OPRT_INVALID_PARM, raw_buf));
    Some (rt, PacketRecv t (u32 (raw_len + subpkg_len)) raw_buf (pr_dec_len p) (pr_dec_buf p)).

(** The sending loop of [ble_packet_resp]. [TUYA_CALL_ERR_GOTO] assigns the
    return code of [tal_ble_server_common_send] to [rt], the variable that the
    loop condition tests. Result: the return code, the statics and the data handed to
    the radio. *)
Fixpoint ble_packet_resp_loop (fuel : nat) (tal_ble_server_common_send : bytes -> Z)
    (g : ble_statics) (t : ble_frame_trsmitr) (pbuf outbuf : bytes) (outlen : Z)
    (sent : list bytes) : option (Z * ble_statics * list bytes) :=
  match fuel with
  | O => None
  | S fuel =>
      '(rt, h, g) ← ble_frame_trsmitr_send_pkg_encode g (Some t)
                      TUYA_BLE_PROTOCOL_VERSION_HIGN outbuf outlen;
      t ← h;
      if bool_decide (OPRT_OK <> rt /\ OPRT_SVC_BT_API_TRSMITR_CONTINUE <> rt)
      then Some (rt, g, sent)
      else
        let send_len := ble_frame_subpacket_len_get t in
        pbuf ← memcpy pbuf 0 (ble_frame_subpacket_get t) 0 send_len;
        let p_data := take (Z.to_nat send_len) pbuf in
        let rt := tal_ble_server_common_send p_data in
        if bool_decide (OPRT_OK <> rt) then Some (rt, g, sent ++ [p_data])
        else if bool_decide (rt = OPRT_SVC_BT_API_TRSMITR_CONTINUE)
             then ble_packet_resp_loop fuel tal_ble_server_common_send g t pbuf
                    outbuf outlen (sent ++ [p_data])
             else Some (rt, g, sent ++ [p_data])
  end.

(** The documented protocol of the encoder: call it again while it answers
    [OPRT_SVC_BT_API_TRSMITR_CONTINUE], and send each subpackage. *)
Fixpoint send_all (fuel : nat) (g : ble_statics) (t : ble_frame_trsmitr)
    (version : Z) (buf : bytes) (len : Z) : option (list bytes) :=
  match fuel with
  | O => None
  | S fuel =>
      '(rt, h, g) ← ble_frame_trsmitr_send_pkg_encode g (Some t) version buf len;
      t ← h;
      let pkg := take (Z.to_nat (ble_frame_subpacket_len_get t)) (ble_frame_subpacket_get t) in
      if bool_decide (rt = OPRT_SVC_BT_API_TRSMITR_CONTINUE) then
        pkgs ← send_all fuel g t version buf len; Some (pkg :: pkgs)
      else if bool_decide (rt = OPRT_OK) then Some [pkg] else None
  end.

(** Feed the subpackages, in order, to the receiver. *)
Fixpoint recv_all (p : ble_packet_recv_t) (pkgs : list bytes)
    : option (list Z * ble_packet_recv_t) :=
  match pkgs with
  | [] => Some ([], p)
  | pkg :: pkgs =>
      '(rt, p) ← ble_packet_trsmitr p pkg (zlen pkg);
      '(rts, p) ← recv_all p pkgs; Some (rt :: rts, p)
  end.

(** The receiver's buffer holds the first [c] bytes of the message. *)
Definition holds (p : ble_packet_recv_t) (buf : bytes) (c : Z) : Prop :=
  pr_raw_len p = c /\ zlen (pr_raw_buf p) = TUYA_BLE_AIR_FRAME_MAX /\
  take (Z.to_nat c) (pr_raw_buf p) = take (Z.to_nat c) buf.

Lemma take_add_drop {A} (l : list A) (c n : Z) :
  0 <= c -> 0 <= n ->
  take (Z.to_nat (c + n)) l =
  take (Z.to_nat c) l ++ take (Z.to_nat n) (drop (Z.to_nat c) l).
Proof.
  intros. rewrite Z2Nat.inj_add by lia. rewrite <- (take_take_drop l). done.
Qed.

Lemma holds_extend (raw buf x : bytes) c (raw' : bytes) :
  take (Z.to_nat c) raw = take (Z.to_nat c) buf -> 0 <= c ->
  take (Z.to_nat (zlen x)) (drop (Z.to_nat c) buf) = x ->
  mwrite raw c x = Some raw' ->
  take (Z.to_nat (c + zlen x)) raw' = take (Z.to_nat (c + zlen x)) buf.
Proof.
  intros Hc H0 Hx Hw. pose proof (zlen_nonneg x). rewrite !take_add_drop by lia.
  unfold mwrite in Hw. case_bool_decide; [|done]. injection Hw as <-.
  assert (Hl : length (take (Z.to_nat c) raw) = Z.to_nat c)
    by (unfold zlen in *; rewrite length_take; lia).
  rewrite take_app_length', drop_app_length', Hc, Hx by done.
  f_equal. rewrite zlen_to_nat. apply take_app_length.
Qed.

Lemma chunk_len_bounds L len vs k c :
  6 <= L -> c <= len ->
  0 <= chunk_len L len vs k c <= len - c /\
  zlen (frame_header len vs k) + chunk_len L len vs k c <= L /\
  (7 <= L -> c < len -> 0 < chunk_len L len vs k c).
Proof. intros. pose proof (zlen_frame_header len vs k). unfold chunk_len. lia. Qed.

(** Receiving the expected subpackage appends its payload to the buffer. *)
Lemma packet_trsmitr_ok p L buf len vs k c :
  let n := chunk_len L len vs k c in
  6 <= L < 2 ^ 16 -> L <= zlen (tr_subpkg (pr_trsmitr p)) ->
  expects (pr_trsmitr p) len k c -> (k <> 0 -> holds p buf c) ->
  0 <= k < 0x10000000 -> 0 <= c <= len -> len <= TUYA_BLE_AIR_FRAME_MAX ->
  len <= zlen buf ->
  exists p', ble_packet_trsmitr p (frame L buf len vs k c) (zlen (frame L buf len vs k c)) =
      Some (if bool_decide (c + n < len) then OPRT_SVC_BT_API_TRSMITR_CONTINUE
            else OPRT_OK, p') /\
    expects (pr_trsmitr p') len (k + 1) (c + n) /\ holds p' buf (c + n) /\
    zlen (tr_subpkg (pr_trsmitr p')) = zlen (tr_subpkg (pr_trsmitr p)) /\
    (k = 0 -> tr_version (pr_trsmitr p') = Z.shiftr (Z.land vs 0xf0) 4) /\
    (k <> 0 -> tr_version (pr_trsmitr p') = tr_version (pr_trsmitr p)).
Proof.
  intros n HL Hs He Hh Hk Hc Hlen Hbuf. unfold TUYA_BLE_AIR_FRAME_MAX in Hlen.
  destruct (chunk_len_bounds L len vs k c) as (Hn & Hhn & _); [lia..|].
  fold n in Hn, Hhn.
  destruct (recv_pkg_ok (pr_trsmitr p) L buf len vs k c)
    as (t' & Hd & He' & Hnum & Hsl & Hzl & Htake & Hv0 & Hv1 & Hdesc); try done; [lia|].
  fold n in Hd, He', Hsl, Htake, Hdesc.
  assert (Hfl : 0 <= zlen (frame L buf len vs k c) <= L).
  { unfold frame. rewrite zlen_app. fold n. rewrite zlen_take by lia.
    pose proof (zlen_nonneg (drop (Z.to_nat c) buf)).
    pose proof (zlen_frame_header len vs k). lia. }
  unfold ble_packet_trsmitr. rewrite (wrap_small 16) by (unfold in_u; lia).
  rewrite Hd. ub_step. set (code := if bool_decide (c + n < len) then _ else _).
  assert (Hcode : ~ (OPRT_OK <> code /\ OPRT_SVC_BT_API_TRSMITR_CONTINUE <> code))
    by (unfold code; case_bool_decide; tauto).
  rewrite (bool_decide_false _ Hcode).
  set (clear := bool_decide (BLE_FRAME_PKG_FIRST = _ \/ _)).
  assert (Hclear : clear = bool_decide (k = 0)).
  { unfold clear. apply bool_decide_ext. rewrite Hdesc, Hnum.
    unfold BLE_FRAME_PKG_FIRST, BLE_FRAME_PKG_MIDDLE, BLE_FRAME_PKG_END.
    destruct (decide (k = 0)), (decide (c + n < len));
      rewrite ?(bool_decide_true (k = 0)), ?(bool_decide_false (k = 0)),
        ?(bool_decide_true (c + n < len)), ?(bool_decide_false (c + n < len)) by done; lia. }
  rewrite Hclear. clear clear Hclear.
  unfold ble_frame_subpacket_len_get, ble_frame_subpacket_get. rewrite Hsl.
  set (raw := if bool_decide (k = 0) then zero_frame else pr_raw_buf p).
  set (rl := if bool_decide (k = 0) then 0 else pr_raw_len p).
  assert (Hraw : rl = c /\ zlen raw = 1024 /\ take (Z.to_nat c) raw = take (Z.to_nat c) buf).
  { unfold rl, raw. destruct He as (_ & He0 & _). destruct (decide (k = 0)) as [Hk0|Hk0].
    - rewrite !bool_decide_true, (He0 Hk0) by done. done.
    - rewrite !bool_decide_false by done. destruct (Hh Hk0) as (?&?&?). done. }
  destruct Hraw as (-> & Hrl & Hrt).
  rewrite (wrap_small 32) by (unfold in_u; lia).
  rewrite (bool_decide_true (c + n <= TUYA_BLE_AIR_FRAME_MAX)) by (unfold TUYA_BLE_AIR_FRAME_MAX; lia).
  pose proof (zlen_frame_header len vs k).
  rewrite memcpy_mwrite by lia. rewrite drop_0, Htake.
  assert (Hcl : zlen (chunk L buf len vs k c) = n)
    by (unfold chunk; fold n; rewrite zlen_take, zlen_drop; lia).
  destruct (mwrite_is_Some raw c (chunk L buf len vs k c)) as [raw' Hw]; [lia..|].
  rewrite Hw. ub_step. eexists. split; [reflexivity|]. simpl.
  pose proof (mwrite_inv _ _ _ _ Hw) as (_ & _ & Hl' & _).
  split_and!; try done. split_and!; simpl; [done|by rewrite Hl'|].
  rewrite <- Hcl. eapply holds_extend; try done; [lia|]. rewrite Hcl. done.
Qed.

Lemma zlen_frame L buf len vs k c :
  6 <= L -> 0 <= c <= len -> len <= zlen buf -> 0 < zlen (frame L buf len vs k c) <= L.
Proof.
  intros HL Hc Hb. destruct (chunk_len_bounds L len vs k c) as (Hn & Hhn & _); [lia..|].
  unfold frame. rewrite zlen_app, zlen_take, zlen_drop by lia.
  pose proof (zlen_num_bytes_pos 3) as Hpos.
  assert (0 < zlen (frame_header len vs k)); [|lia].
  unfold frame_header. pose proof (Hpos k). pose proof (zlen_nonneg (num_bytes 4 len ++ [vs])).
  case_bool_decide; [rewrite zlen_app; specialize (Hpos 0)|]; lia.
Qed.

Lemma version_seq_byte_version version seq :
  0 <= version < 16 ->
  Z.shiftr (Z.land (version_seq_byte version seq) 0xf0) 4 = version.
Proof.
  intros Hv. unfold version_seq_byte.
  assert (Hs : 0 <= Z.land seq 0x0f < 16).
  { change 0x0f with (Z.ones 4). rewrite Z.land_ones by lia. apply Z.mod_pos_bound. lia. }
  generalize dependent (Z.land seq 0x0f). intros s Hs.
  pose proof (below_forallb (fun v => forallb (fun s =>
    Z.shiftr (Z.land (u8 (Z.lor (Z.shiftl v 4) s)) 0xf0) 4 =? v) (seqZ 0 16)) 16
    ltac:(by vm_compute) version Hv) as H.
  cbv beta in H. apply Z.eqb_eq. exact (below_forallb (fun s =>
    Z.shiftr (Z.land (u8 (Z.lor (Z.shiftl version 4) s)) 0xf0) 4 =? version) 16 H s Hs).
Qed.

(** A sender about to emit subpackage [k] of a message, [c] bytes of which are
    gone: the encoder runs [send_pkg_core] on [t1] with the statics [g1]. *)
Record sending (g : ble_statics) (t : ble_frame_trsmitr) (version : Z) (buf : bytes)
    (len : Z) (g1 : ble_statics) (t1 : ble_frame_trsmitr) (k c : Z) : Prop := {
  sd_encode : ble_frame_trsmitr_send_pkg_encode g (Some t) version buf len =
    ('(rt, t') ← send_pkg_core g1 t1 buf len; Some (rt, Some t', g1));
  sd_len : ble_frame_packet_len_get g1 = ble_frame_packet_len_get g;
  sd_subpkg : zlen (tr_subpkg t1) = ble_frame_packet_len_get g;
  sd_version : tr_version t1 = version;
  sd_total : tr_total t1 = len;
  sd_num : tr_subpkg_num t1 = k;
  sd_cnt : tr_pkg_trsmitr_cnt t1 = c }.

Lemma sending_start g t version buf len :
  tr_pkg_desc t = BLE_FRAME_PKG_INIT -> zlen (tr_subpkg t) = ble_frame_packet_len_get g ->
  exists g1 t1, sending g t version buf len g1 t1 0 0.
Proof.
  intros Hd Hl. destruct (ble_frame_seq_get g) as [seq g1] eqn:Hseq.
  exists g1, (Trsmitr len version seq (tr_pkg_desc t) 0 0 (tr_subpkg_len t) (tr_subpkg t)).
  split; try done.
  - unfold ble_frame_trsmitr_send_pkg_encode. rewrite bool_decide_true, Hseq by done. done.
  - unfold ble_frame_seq_get in Hseq. case_bool_decide; by injection Hseq as <- <-.
Qed.

Lemma sending_next g t version buf len k c :
  tr_pkg_desc t <> BLE_FRAME_PKG_INIT -> zlen (tr_subpkg t) = ble_frame_packet_len_get g ->
  tr_version t = version -> tr_total t = len -> tr_subpkg_num t = k ->
  tr_pkg_trsmitr_cnt t = c -> sending g t version buf len g t k c.
Proof.
  intros. split; try done. unfold ble_frame_trsmitr_send_pkg_encode.
  by rewrite bool_decide_false.
Qed.

(** The codes of a reception whose last subpackage completes the message. *)
Definition codes (n : nat) : list Z :=
  replicate n OPRT_SVC_BT_API_TRSMITR_CONTINUE ++ [OPRT_OK].

Lemma send_recv_from fuel : forall g t version buf len g1 t1 k c,
  let L := ble_frame_packet_len_get g in
  sending g t version buf len g1 t1 k c ->
  7 <= L < 2 ^ 16 -> 0 <= version < 16 -> len <= TUYA_BLE_AIR_FRAME_MAX -> len <= zlen buf ->
  0 <= k <= c -> c <= len -> len - c < Z.of_nat fuel ->
  exists pkgs, send_all fuel g t version buf len = Some pkgs /\
    Forall (fun pkg => 0 < zlen pkg <= L) pkgs /\ pkgs <> [] /\
    forall p, L <= zlen (tr_subpkg (pr_trsmitr p)) -> expects (pr_trsmitr p) len k c ->
      (k <> 0 -> holds p buf c /\ tr_version (pr_trsmitr p) = version) ->
      exists p', recv_all p pkgs = Some (codes (pred (length pkgs)), p') /\
        holds p' buf len /\ tr_version (pr_trsmitr p') = version.
Proof.
  induction fuel as [|fuel IH]; intros g t version buf len g1 t1 k c L HS HL Hv Hlen Hbuf Hk Hc Hf;
    [lia|].
  destruct HS as [He Hg Hs Hver Htot Hnum Hcnt]. pose proof Hlen as Hlen'.
  unfold TUYA_BLE_AIR_FRAME_MAX in Hlen'. destruct (send_pkg_core_ok g1 t1 buf len) as
    (t' & Hcore & Hpkg & Hpl & Hsz & Htot' & Hv' & Hq' & Hd' & Hc' & Hn');
    rewrite ?Hg, ?Hnum, ?Hcnt; try done; [lia..|].
  rewrite Hg, Hnum, Hcnt, Hver in *. fold L in Hcore, Hpkg, Hpl, Hc', Hn', Hsz.
  set (vs := version_seq_byte version (tr_seq t1)) in *.
  set (n := chunk_len L len vs k c) in *.
  destruct (chunk_len_bounds L len vs k c) as (Hn & Hhn & Hpos); [lia..|]. fold n in Hn, Hhn, Hpos.
  pose proof (zlen_frame L buf len vs k c ltac:(lia) ltac:(lia) Hbuf) as Hfl.
  cbn [send_all]. rewrite He, Hcore. ub_step. unfold ble_frame_subpacket_len_get,
    ble_frame_subpacket_get. rewrite Hpkg.
  destruct (decide (c + n < len)) as [Hmore|Hlast].
  - rewrite (bool_decide_true (c + n < len)) by done. rewrite bool_decide_true by done.
    destruct (IH g1 t' version buf len g1 t' (k + 1) (c + n)) as (pkgs & Hsend & Hall & Hne & Hrecv);
      rewrite ?Hg; try lia.
    { apply sending_next; rewrite ?Hg; naive_solver. }
    rewrite Hg in Hall, Hrecv. fold L in Hall, Hrecv.
    rewrite Hsend. eexists. split; [done|]. split; [by constructor|]. split; [done|].
    intros p Hps Hexp Hh.
    destruct (packet_trsmitr_ok p L buf len vs k c) as (p1 & Hr & Hexp1 & Hh1 & Hs1 & Hv0 & Hv1);
      [lia|done|done|intros Hk0; apply (Hh Hk0)|lia|lia|done|done|].
    destruct (Hrecv p1) as (p2 & Hall2 & Hh2 & Hv2); [lia|done| |].
    { intros _. split; [done|]. destruct (decide (k = 0)) as [Hk0|Hk0].
      - rewrite Hv0 by done. by apply version_seq_byte_version.
      - rewrite Hv1 by done. by apply Hh. }
    exists p2. cbn [recv_all]. rewrite Hr. ub_step. rewrite Hall2. ub_step.
    rewrite bool_decide_true by done. split; [|done]. by destruct pkgs.
  - rewrite (bool_decide_false (c + n < len)) by done. rewrite bool_decide_false by done.
    rewrite bool_decide_true by done.
    eexists. split; [done|]. split; [by constructor|]. split; [done|].
    intros p Hps Hexp Hh.
    destruct (packet_trsmitr_ok p L buf len vs k c) as (p1 & Hr & Hexp1 & Hh1 & Hs1 & Hv0 & Hv1);
      [lia|done|done|intros Hk0; apply (Hh Hk0)|lia|lia|done|done|].
    fold n in Hr, Hh1. replace (c + n) with len in Hh1 by lia.
    exists p1. cbn [recv_all]. rewrite Hr. ub_step. rewrite bool_decide_false by done.
    split; [done|]. split; [done|]. destruct (decide (k = 0)) as [Hk0|Hk0].
    + rewrite Hv0 by done. by apply version_seq_byte_version.
    + rewrite Hv1 by done. by apply Hh.
Qed.

(** C14. Fragmentation and reassembly: encoding a message of at most 1024 bytes
    from a fresh sender with subpackages of [7 <= L < 65536] bytes terminates with
    subpackages of at most [L] bytes, and a receiver in any state that accepts them in
    order answers CONTINUE for all but the last, OK for the last, and then holds the
    message and the version of the sender. *)
Theorem ble_fragment_roundtrip g t p version buf len :
  let L := ble_frame_packet_len_get g in
  tr_pkg_desc t = BLE_FRAME_PKG_INIT -> zlen (tr_subpkg t) = L ->
  7 <= L < 2 ^ 16 -> 0 <= version < 16 ->
  0 <= len <= TUYA_BLE_AIR_FRAME_MAX -> len <= zlen buf ->
  L <= zlen (tr_subpkg (pr_trsmitr p)) -> 0 <= tr_subpkg_num (pr_trsmitr p) < 0x10000000 ->
  exists pkgs p',
    send_all (S (Z.to_nat len)) g t version buf len = Some pkgs /\
    Forall (fun pkg => 0 < zlen pkg <= L) pkgs /\
    recv_all p pkgs = Some (codes (pred (length pkgs)), p') /\
    pr_raw_len p' = len /\
    take (Z.to_nat len) (pr_raw_buf p') = take (Z.to_nat len) buf /\
    tr_version (pr_trsmitr p') = version.
Proof.
  intros L Hd Hs HL Hv Hlen Hbuf Hp Hnum.
  destruct (sending_start g t version buf len Hd Hs) as (g1 & t1 & HS).
  destruct (send_recv_from (S (Z.to_nat len)) g t version buf len g1 t1 0 0)
    as (pkgs & Hsend & Hall & Hne & Hrecv); try done; [lia..|].
  destruct (Hrecv p) as (p' & Hr & (Hl & _ & Htake) & Hver); try done.
  exists pkgs, p'. done.
Qed.

Definition demo_sender : ble_frame_trsmitr := Trsmitr 0 0 0 0 0 0 0 (replicate 20 0).
Definition demo_receiver : ble_packet_recv_t :=
  PacketRecv (Trsmitr 7 1 3 2 5 4 0 (replicate 32 0)) 9 zero_frame 0 zero_frame.
Definition demo_message : bytes := seqZ 100 50.

Lemma ble_fragment_roundtrip_witness :
  exists pkgs p',
    send_all 51 (Statics 3 20) demo_sender 4 demo_message 50 = Some pkgs /\
    Forall (fun pkg => 0 < zlen pkg <= 20) pkgs /\
    recv_all demo_receiver pkgs = Some (codes (pred (length pkgs)), p') /\
    pr_raw_len p' = 50 /\
    take 50 (pr_raw_buf p') = demo_message /\
    tr_version (pr_trsmitr p') = 4.
Proof.
  apply (ble_fragment_roundtrip (Statics 3 20) demo_sender demo_receiver 4 demo_message 50);
    vm_compute; done || (split; done).
Defined.

(** One round of the sending loop, whatever the radio answers (its codes are not CONTINUE). *)
Lemma resp_loop_first fuel send g t pbuf outbuf outlen :
  let L := ble_frame_packet_len_get g in
  let vs := version_seq_byte TUYA_BLE_PROTOCOL_VERSION_HIGN (fst (ble_frame_seq_get g)) in
  tr_pkg_desc t = BLE_FRAME_PKG_INIT -> zlen (tr_subpkg t) = L -> zlen pbuf = L ->
  6 <= L < 2 ^ 16 -> 0 <= outlen < 0x10000000 -> outlen <= zlen outbuf ->
  send (frame L outbuf outlen vs 0 0) <> OPRT_SVC_BT_API_TRSMITR_CONTINUE ->
  ble_packet_resp_loop (S fuel) send g t pbuf outbuf outlen [] =
    Some (send (frame L outbuf outlen vs 0 0), snd (ble_frame_seq_get g), [frame L outbuf outlen vs 0 0]).
Proof.
  intros L vs Hd Hs Hp HL Hlen Hb Hsend. cbn [ble_packet_resp_loop].
  unfold ble_frame_trsmitr_send_pkg_encode. rewrite bool_decide_true by done.
  destruct (ble_frame_seq_get g) as [seq g1] eqn:Hseq.
  assert (Hg1 : ble_frame_packet_len_get g1 = L).
  { unfold ble_frame_seq_get in Hseq. case_bool_decide; by injection Hseq as <- <-. }
  destruct (send_pkg_core_ok g1 (Trsmitr outlen TUYA_BLE_PROTOCOL_VERSION_HIGN seq (tr_pkg_desc t)
    0 0 (tr_subpkg_len t) (tr_subpkg t)) outbuf outlen) as (t' & Hcore & Hpkg & Hpl & Hsz & _);
    rewrite ?Hg1; simpl; try done; [lia..|].
  rewrite Hcore. rewrite Hg1 in Hpkg, Hpl, Hsz. ub_step. clear Hcore.
  rewrite (bool_decide_false (OPRT_OK <> _ /\ _)) by (case_bool_decide; tauto).
  fold L in Hpkg, Hpl. unfold vs. simpl in *.
  unfold ble_frame_subpacket_len_get, ble_frame_subpacket_get.
  assert (Hf : 0 <= tr_subpkg_len t' <= L).
  { rewrite Hpl. pose proof (zlen_frame L outbuf outlen
      (version_seq_byte TUYA_BLE_PROTOCOL_VERSION_HIGN seq) 0 0 ltac:(lia) ltac:(lia) Hb). lia. }
  rewrite memcpy_mwrite, drop_0, Hpkg by lia.
  destruct (mwrite_is_Some pbuf 0 (take (Z.to_nat (tr_subpkg_len t')) (tr_subpkg t')))
    as [pb Hpb]; [lia|rewrite Hpkg; lia|]. rewrite Hpkg in Hpb. rewrite Hpb. ub_step.
  apply mwrite_take in Hpb. rewrite Hpl, Hpb. unfold vs in Hsend. cbn [fst snd] in *.
  rewrite (bool_decide_false (_ = OPRT_SVC_BT_API_TRSMITR_CONTINUE)) by done. by case_bool_decide.
Qed.

(** The sending loop of [ble_packet_resp] hands exactly one subpackage to the
    radio, the first, and answers OPRT_OK whenever the radio accepts it, however long the
    message is: the macro that calls the radio overwrites the encoder's return code. *)
Theorem ble_resp_sends_first_only fuel send g t pbuf outbuf outlen :
  let L := ble_frame_packet_len_get g in
  let vs := version_seq_byte TUYA_BLE_PROTOCOL_VERSION_HIGN (fst (ble_frame_seq_get g)) in
  tr_pkg_desc t = BLE_FRAME_PKG_INIT -> zlen (tr_subpkg t) = L -> zlen pbuf = L ->
  6 <= L < 2 ^ 16 -> 0 <= outlen < 0x10000000 -> outlen <= zlen outbuf ->
  (forall x, send x = OPRT_OK) ->
  ble_packet_resp_loop (S fuel) send g t pbuf outbuf outlen [] =
    Some (OPRT_OK, snd (ble_frame_seq_get g), [frame L outbuf outlen vs 0 0]).
Proof.
  intros L vs Hd Hs Hp HL Hlen Hb Hsend. fold L vs in Hsend |- *.
  pose proof (resp_loop_first fuel send g t pbuf outbuf outlen Hd Hs Hp HL Hlen Hb) as Hr.
  cbv zeta in Hr. fold L vs in Hr. rewrite Hsend in Hr. by apply Hr.
Qed.

Lemma ble_resp_sends_first_only_witness :
  ble_packet_resp_loop 9 (fun _ => OPRT_OK) (Statics 3 20) demo_sender (replicate 20 0)
    demo_message 50 [] =
  Some (OPRT_OK, Statics 4 20, [frame 20 demo_message 50 (version_seq_byte 4 3) 0 0]) /\
  zlen (frame 20 demo_message 50 (version_seq_byte 4 3) 0 0) = 20.
Proof.
  split; [|by vm_compute].
  apply (ble_resp_sends_first_only 8 (fun _ => OPRT_OK) (Statics 3 20) demo_sender
    (replicate 20 0) demo_message 50); vm_compute; done || (split; done).
Defined.

(** A repeated subpackage is answered CONTINUE by the decoder, which leaves the
    previous payload in place, and the reassembly appends that payload a second time. *)
Theorem ble_duplicate_appended p pkg k off :
  let t := pr_trsmitr p in
  num_decode 4 pkg 0 1 0 = Some (k, off) -> zlen pkg < 2 ^ 16 ->
  k = tr_subpkg_num t -> 0 < k < 0x10000000 -> tr_pkg_desc t <> BLE_FRAME_PKG_INIT ->
  zlen (pr_raw_buf p) = TUYA_BLE_AIR_FRAME_MAX -> 0 <= pr_raw_len p ->
  0 <= tr_subpkg_len t <= zlen (tr_subpkg t) ->
  pr_raw_len p + tr_subpkg_len t <= TUYA_BLE_AIR_FRAME_MAX ->
  exists p', ble_packet_trsmitr p pkg (zlen pkg) =
      Some (OPRT_SVC_BT_API_TRSMITR_CONTINUE, p') /\
    pr_raw_len p' = pr_raw_len p + tr_subpkg_len t /\
    take (Z.to_nat (pr_raw_len p')) (pr_raw_buf p') =
      take (Z.to_nat (pr_raw_len p)) (pr_raw_buf p) ++
      take (Z.to_nat (tr_subpkg_len t)) (tr_subpkg t).
Proof.
  intros t Hnum Hpkg Hk Hk0 Hd Hbuf Hr Hs Hfit.
  unfold ble_packet_trsmitr, ble_frame_trsmitr_recv_pkg_decode. fold t.
  pose proof (zlen_nonneg pkg). rewrite (wrap_small 16) by (unfold in_u; lia).
  rewrite recv_start_id by done. rewrite Hnum. ub_step.
  unfold recv_number. rewrite (bool_decide_false (k = 0)) by lia. simpl.
  rewrite (bool_decide_false (_ >= _)) by lia.
  rewrite (bool_decide_false (_ /\ k < _)) by lia.
  rewrite (bool_decide_true (_ /\ k = _)) by done. simpl.
  unfold TUYA_BLE_AIR_FRAME_MAX in *.
  rewrite (wrap_small 32) by (unfold in_u; lia). rewrite bool_decide_true by lia.
  rewrite memcpy_mwrite by lia. rewrite drop_0.
  set (x := take (Z.to_nat (tr_subpkg_len t)) (tr_subpkg t)).
  assert (Hx : zlen x = tr_subpkg_len t) by (unfold x; rewrite zlen_take; lia).
  destruct (mwrite_is_Some (pr_raw_buf p) (pr_raw_len p) x) as [raw' Hw]; [lia..|].
  rewrite Hw. ub_step. eexists. split; [done|]. simpl. split; [done|].
  unfold mwrite in Hw. case_bool_decide; [|done]. injection Hw as <-.
  rewrite app_assoc. apply take_app_length'. rewrite length_app, length_take.
  unfold zlen in *. lia.
Qed.

Lemma ble_duplicate_appended_witness :
  exists p', ble_packet_trsmitr demo_receiver [5] 1 = Some (OPRT_SVC_BT_API_TRSMITR_CONTINUE, p') /\
    pr_raw_len p' = 9 + 0 /\
    take (Z.to_nat (pr_raw_len p')) (pr_raw_buf p') = take 9 zero_frame ++ [].
Proof.
  apply (ble_duplicate_appended demo_receiver [5] 5 1); vm_compute; done || (split; done).
Defined.

(** The statics after [n] messages. *)
Fixpoint seq_after (n : nat) (g : ble_statics) : ble_statics :=
  match n with
  | O => g
  | S n => snd (ble_frame_seq_get (seq_after n g))
  end.

Lemma seq_after_value n g :
  in_u 8 (s_ble_frame_seq g) ->
  s_ble_frame_seq (seq_after n g) =
    Z.max (s_ble_frame_seq g) (Z.min 16 (s_ble_frame_seq g + Z.of_nat n)).
Proof.
  unfold in_u. intros Hg. induction n as [|n IH]; simpl; [lia|].
  unfold ble_frame_seq_get, BLE_FRAME_SEQ_LMT. rewrite IH.
  case_bool_decide; simpl; [lia|]. rewrite wrap_small by (unfold in_u; lia). lia.
Qed.

(** The sequence number that is given to a new message runs from 0 to 15 and
    then stays at 0: the static counter is never reset once it has reached 16. *)
Theorem ble_seq_stuck n g :
  in_u 8 (s_ble_frame_seq g) ->
  fst (ble_frame_seq_get (seq_after n g)) =
    if bool_decide (s_ble_frame_seq g + Z.of_nat n < 16)
    then s_ble_frame_seq g + Z.of_nat n else 0.
Proof.
  intros Hg. unfold ble_frame_seq_get, BLE_FRAME_SEQ_LMT. rewrite seq_after_value by done.
  unfold in_u in Hg. destruct (decide (s_ble_frame_seq g + Z.of_nat n < 16)).
  - rewrite bool_decide_false, bool_decide_true by lia. simpl. lia.
  - rewrite bool_decide_true, bool_decide_false by lia. done.
Qed.

Lemma ble_seq_stuck_witness :
  fst (ble_frame_seq_get (seq_after 5 ble_statics_init)) = 5 /\
  fst (ble_frame_seq_get (seq_after 20 ble_statics_init)) = 0.
Proof.
  split; [apply (ble_seq_stuck 5 ble_statics_init)|apply (ble_seq_stuck 20 ble_statics_init)];
    vm_compute; split; done.
Defined.
