(* ===== verification/BubbleSort.v ===== *)
(** * In-place bubble sort

    The two loops that src/apps/gk_bag/src/force_sensor.c ([calculate_median]) and
    src/tools/porting/adapter/utilities/src/tuya_tools.c ([tuya_byte_sort]) write out,
    over any element type and any comparison that asks for a swap. *)
From Stdlib Require Export Sorting.Sorted.
From S2P Require Import Prelude.

Section loops.
Context {A : Type} (gt : A -> A -> bool).

(** One round: indices [j .. j + n - 1] are compared with their successors. *)
Fixpoint bubble_inner (n : nat) (j : Z) (a : list A) : option (list A) :=
  match n with
  | O => Some a
  | S n =>
      x ← zget a j;
      y ← zget a (j + 1);
      a ← (if gt x y then a ← zset a j y; zset a (j + 1) x else Some a);
      bubble_inner n (j + 1) a
  end.

(** Rounds of [n], [n - 1], ..., 1 comparisons. *)
Fixpoint bubble_outer (n : nat) (a : list A) : option (list A) :=
  match n with
  | O => Some a
  | S n' => a ← bubble_inner n 0 a; bubble_outer n' a
  end.

(** The array [a] after sorting its first [count] cells. *)
Definition bubble_sort (count : Z) (a : list A) : option (list A) :=
  bubble_outer (Z.to_nat (count - 1)) a.

(** The same on lists. *)
Fixpoint bubble_pass (n : nat) (l : list A) : list A :=
  match n, l with
  | S n, x :: y :: l =>
      if gt x y then y :: bubble_pass n (x :: l) else x :: bubble_pass n (y :: l)
  | _, _ => l
  end.

Fixpoint bubble_passes (n : nat) (l : list A) : list A :=
  match n with
  | O => l
  | S n' => bubble_passes n' (bubble_pass n l)
  end.

Lemma bubble_pass_perm n l : bubble_pass n l ≡ₚ l.
Proof.
  revert l. induction n as [|n IH]; intros [|x [|y l]]; try done. simpl.
  destruct (gt x y); rewrite IH; [apply Permutation_swap|done].
Qed.

Lemma bubble_passes_perm n l : bubble_passes n l ≡ₚ l.
Proof.
  revert l. induction n as [|n IH]; intros l; [done|].
  cbn [bubble_passes]. by rewrite IH, bubble_pass_perm.
Qed.

Lemma zget_length (l1 : list A) x l2 : zget (l1 ++ x :: l2) (zlen l1) = Some x.
Proof. unfold zlen. rewrite zget_nat. by apply list_lookup_middle. Qed.

Lemma zset_length (l1 : list A) x y l2 :
  zset (l1 ++ x :: l2) (zlen l1) y = Some (l1 ++ y :: l2).
Proof.
  unfold zset. rewrite bool_decide_true.
  - rewrite zlen_to_nat. f_equal. by rewrite insert_app_r_alt, Nat.sub_diag by lia.
  - rewrite zlen_app, zlen_cons. pose proof (zlen_nonneg l1). pose proof (zlen_nonneg l2). lia.
Qed.

Lemma bubble_inner_pass n : forall l1 l,
  (n < length l)%nat ->
  bubble_inner n (zlen l1) (l1 ++ l) = Some (l1 ++ bubble_pass n l).
Proof.
  induction n as [|n IH]; intros l1 l Hn; [done|].
  destruct l as [|x [|y l]]; simpl in Hn; [lia..|]. cbn [bubble_inner bubble_pass].
  assert (Hy : forall (x y : A) l, l1 ++ x :: y :: l = (l1 ++ [x]) ++ y :: l)
    by (intros; by rewrite <- app_assoc).
  assert (Hl : forall x : A, zlen l1 + 1 = zlen (l1 ++ [x]))
    by (intros; rewrite zlen_app; done).
  assert (Hzy : forall x y l, zget (l1 ++ x :: y :: l) (zlen l1 + 1) = Some y)
    by (intros x0 y0 l0; rewrite (Hl x0), Hy; apply zget_length).
  assert (Hsy : forall x y z l,
    zset (l1 ++ x :: y :: l) (zlen l1 + 1) z = Some (l1 ++ x :: z :: l))
    by (intros x0 y0 z0 l0; rewrite (Hl x0), Hy, zset_length, <- app_assoc; done).
  rewrite zget_length. ub_step. rewrite Hzy. ub_step. destruct (gt x y).
  - rewrite zset_length. ub_step. rewrite Hsy. ub_step.
    rewrite (Hl y), Hy, IH by (simpl; lia). by rewrite <- app_assoc.
  - rewrite (Hl x), Hy, IH by (simpl; lia). by rewrite <- app_assoc.
Qed.

Lemma bubble_outer_passes n l :
  (n < length l)%nat -> bubble_outer n l = Some (bubble_passes n l).
Proof.
  revert l. induction n as [|n IH]; intros l Hn; [done|].
  cbn [bubble_outer bubble_passes].
  pose proof (bubble_inner_pass (S n) [] l Hn) as Hi. simpl ([] ++ _) in Hi.
  change (zlen (@nil A)) with 0 in Hi. rewrite Hi. ub_step.
  apply IH. rewrite (Permutation_length (bubble_pass_perm (S n) l)). lia.
Qed.

(** ** The result is sorted *)
Section sorted.
Variable le : A -> A -> Prop.
Variable ok : A -> Prop.
Hypothesis le_trans : forall x y z, ok x -> ok y -> ok z -> le x y -> le y z -> le x z.
Hypothesis gt_le : forall x y, ok x -> ok y -> gt x y = true -> le y x.
Hypothesis ngt_le : forall x y, ok x -> ok y -> gt x y = false -> le x y.

Lemma bubble_pass_max n : forall l,
  length l = S n -> Forall ok l ->
  exists l' m, bubble_pass n l = l' ++ [m] /\ length l' = n /\ Forall (fun x => le x m) l' /\
    Forall ok l' /\ ok m.
Proof.
  induction n as [|n IH]; intros l Hl Hok.
  - destruct l as [|x [|y l]]; try done. exists [], x. inversion Hok. done.
  - destruct l as [|x [|y l]]; simpl in Hl; try lia.
    inversion Hok as [|? ? Hx Hok']; subst. inversion Hok' as [|? ? Hy Hok'']; subst.
    cbn [bubble_pass].
    destruct (gt x y) eqn:Hg.
    + destruct (IH (x :: l)) as (l' & m & Hp & Hl' & Hm & Ho & Hom); [simpl; lia|by constructor|].
      exists (y :: l'), m. rewrite Hp. simpl. split_and!; try done; [lia| |by constructor].
      constructor; [|done].
      assert (Hin : x ∈ l' ++ [m]) by (rewrite <- Hp, bubble_pass_perm; left).
      apply elem_of_app in Hin as [Hin|Hin]; [|apply list_elem_of_singleton in Hin as ->; by apply gt_le].
      rewrite Forall_forall in Hm. apply (le_trans y x m); auto.
    + destruct (IH (y :: l)) as (l' & m & Hp & Hl' & Hm & Ho & Hom); [simpl; lia|by constructor|].
      exists (x :: l'), m. rewrite Hp. simpl. split_and!; try done; [lia| |by constructor].
      constructor; [|done].
      assert (Hin : y ∈ l' ++ [m]) by (rewrite <- Hp, bubble_pass_perm; left).
      apply elem_of_app in Hin as [Hin|Hin]; [|apply list_elem_of_singleton in Hin as ->; by apply ngt_le].
      rewrite Forall_forall in Hm. apply (le_trans x y m); auto.
Qed.

Lemma bubble_pass_app n l1 l2 :
  (n < length l1)%nat -> bubble_pass n (l1 ++ l2) = bubble_pass n l1 ++ l2.
Proof.
  revert l1. induction n as [|n IH]; intros l1 Hn; [done|].
  destruct l1 as [|x [|y l1]]; simpl in *; try lia.
  destruct (gt x y); simpl; f_equal; rewrite <- IH by (simpl; lia); done.
Qed.

Lemma bubble_passes_sorted n : forall l1 l2,
  length l1 = S n -> Forall ok l1 -> StronglySorted le l2 ->
  Forall (fun x => Forall (le x) l2) l1 ->
  StronglySorted le (bubble_passes n (l1 ++ l2)).
Proof.
  induction n as [|n IH]; intros l1 l2 Hl Hok Hs Hle.
  - destruct l1 as [|x [|y l]]; try done. simpl. inversion Hle. by constructor.
  - cbn [bubble_passes]. rewrite bubble_pass_app by lia.
    destruct (bubble_pass_max (S n) l1) as (l' & m & Hp & Hl' & Hm & Ho & Hom); [done..|].
    assert (Hp' : l' ++ [m] ≡ₚ l1) by (rewrite <- Hp; apply bubble_pass_perm).
    rewrite <- Hp', Forall_app in Hle. destruct Hle as [Hle1 Hle2]. inversion Hle2.
    rewrite Hp, <- app_assoc. apply IH; [done..| |].
    + simpl. by constructor.
    + rewrite Forall_forall in Hle1, Hm |- *. intros z Hz. simpl. auto.
Qed.

(** Sorting the whole array: the result is a sorted permutation. *)
Lemma bubble_sort_sorted l :
  Forall ok l ->
  exists l', bubble_sort (zlen l) l = Some l' /\ l' ≡ₚ l /\ StronglySorted le l'.
Proof.
  intros Hok. unfold bubble_sort. destruct l as [|x l].
  { exists []. split_and!; try done. constructor. }
  rewrite zlen_cons. replace (Z.to_nat (1 + zlen l - 1)) with (length l) by (unfold zlen; lia).
  rewrite bubble_outer_passes by (simpl; lia). eexists. split; [done|].
  split; [apply bubble_passes_perm|].
  pose proof (bubble_passes_sorted (length l) (x :: l) []) as H. rewrite app_nil_r in H.
  apply H; try done; [constructor|]. apply Forall_forall. intros ? _. constructor.
Qed.
End sorted.
End loops.
