(* ===== verification/F32.v ===== *)
(** * C floating point

    [float] and [double] are the binary32 and binary64 numbers of the Standard
    Library's [SpecFloat], with round-to-nearest-even at every operation. *)
From Stdlib Require Export Floats.SpecFloat.
From S2P Require Import Prelude.

Abbreviation float := spec_float.

Definition fadd : float -> float -> float := SFadd 24 128.
Definition fsub : float -> float -> float := SFsub 24 128.
Definition fmul : float -> float -> float := SFmul 24 128.
Definition fdiv : float -> float -> float := SFdiv 24 128.
Definition fneg : float -> float := SFopp.
Definition sqrtf : float -> float := SFsqrt 24 128.
Definition flt : float -> float -> bool := SFltb.
Definition fle : float -> float -> bool := SFleb.
Definition fgt (x y : float) : bool := SFltb y x.
Definition fge (x y : float) : bool := SFleb y x.

(** [(float)z] for an integer [z]. *)
Definition f32_of_Z (z : Z) : float := binary_normalize 24 128 z 0 false.

(** A decimal literal [n / d] with [n] and [d] below 2^24: correctly rounded, as
    the division of the two exact integers is. *)
Definition f32 (n d : Z) : float := fdiv (f32_of_Z n) (f32_of_Z d).

(** C99 [fminf] and [fmaxf]: a NaN argument is ignored. *)
Definition fminf (x y : float) : float :=
  match x, y with
  | S754_nan, _ => y
  | _, S754_nan => x
  | _, _ => if flt y x then y else x
  end.

Definition fmaxf (x y : float) : float :=
  match x, y with
  | S754_nan, _ => y
  | _, S754_nan => x
  | _, _ => if flt x y then y else x
  end.

(** [(int)x]: truncation towards zero; a NaN, an infinity or a value that does not
    fit is undefined behaviour. *)
Definition int_of_float (x : float) : option Z :=
  match x with
  | S754_zero _ => Some 0
  | S754_finite s m e =>
      let v := if bool_decide (0 <= e) then Z.shiftl (Zpos m) e else Z.shiftr (Zpos m) (- e) in
      let v := if s then - v else v in
      if bool_decide (- 2 ^ 31 <= v < 2 ^ 31) then Some v else None
  | _ => None
  end.

Definition dmul : float -> float -> float := SFmul 53 1024.
Definition dadd : float -> float -> float := SFadd 53 1024.
Definition ddiv : float -> float -> float := SFdiv 53 1024.

Definition to_format (prec emax : Z) (x : float) : float :=
  match x with
  | S754_finite s m e => binary_normalize prec emax (if s then Zneg m else Zpos m) e false
  | _ => x
  end.

(** Conversions between the two formats. *)
Definition f64_of_f32 : float -> float := to_format 53 1024.
Definition f32_of_f64 : float -> float := to_format 24 128.
Definition f64_of_Z (z : Z) : float := binary_normalize 53 1024 z 0 false.

(** The double nearest to 3.14159265358979323846. *)
Definition M_PI : float := S754_finite false 7074237752028440 (-51).

#[global] Arguments fadd : simpl never.
#[global] Arguments fsub : simpl never.
#[global] Arguments fmul : simpl never.
#[global] Arguments fdiv : simpl never.
#[global] Arguments sqrtf : simpl never.
#[global] Arguments f32 : simpl never.
#[global] Arguments flt : simpl never.
#[global] Arguments fle : simpl never.
#[global] Arguments fminf : simpl never.
#[global] Arguments fmaxf : simpl never.

(** ** The order of the numbers that are not NaN *)

Definition is_nan (x : float) : bool := match x with S754_nan => true | _ => false end.

(** Sign, exponent and mantissa as integers in the order of the comparison. *)
Definition fkey (x : float) : Z * Z * Z :=
  match x with
  | S754_infinity s => (if s then -2 else 2, 0, 0)
  | S754_finite s m e => if s then (-1, - e, Zneg m) else (1, e, Zpos m)
  | _ => (0, 0, 0)
  end.

Definition key_lt (a b : Z * Z * Z) : Prop :=
  let '(a1, a2, a3) := a in
  let '(b1, b2, b3) := b in
  a1 < b1 \/ (a1 = b1 /\ (a2 < b2 \/ (a2 = b2 /\ a3 < b3))).

Definition f_le (x y : float) : Prop := ~ key_lt (fkey y) (fkey x).

Lemma key_lt_irrefl a : ~ key_lt a a.
Proof. destruct a as [[? ?] ?]. simpl. lia. Qed.

Lemma key_lt_trans a b c : key_lt a b -> key_lt b c -> key_lt a c.
Proof. destruct a as [[? ?] ?], b as [[? ?] ?], c as [[? ?] ?]. simpl. lia. Qed.

Lemma f_le_trans x y z : f_le x y -> f_le y z -> f_le x z.
Proof.
  unfold f_le. destruct (fkey x) as [[? ?] ?], (fkey y) as [[? ?] ?], (fkey z) as [[? ?] ?].
  simpl. lia.
Qed.

Lemma f_le_total x y : f_le x y \/ f_le y x.
Proof.
  unfold f_le. destruct (fkey x) as [[? ?] ?], (fkey y) as [[? ?] ?]. simpl. lia.
Qed.

Lemma flt_key x y :
  is_nan x = false -> is_nan y = false -> flt x y = true <-> key_lt (fkey x) (fkey y).
Proof.
  destruct x as [|sx| |sx mx ex], y as [|sy| |sy my ey]; try done; intros _ _;
    unfold flt, SFltb, SFcompare, fkey; try destruct sx; try destruct sy; simpl;
    try (split; [done|lia]); try (split; [lia|done]); try (split; lia).
  all: destruct (Z.compare_spec ex ey);
    try (split; [done|lia]); try (split; [lia|done]);
    change (Pos.compare_cont Eq mx my) with (mx ?= my)%positive;
    destruct (Pos.compare_spec mx my); simpl; split; done || lia.
Qed.

Lemma fle_f_le x y : is_nan x = false -> is_nan y = false -> fle x y = true <-> f_le x y.
Proof.
  intros Hx Hy. unfold f_le. rewrite <- (flt_key y x) by done.
  destruct x as [|sx| |sx mx ex], y as [|sy| |sy my ey]; try done;
    unfold fle, flt, SFleb, SFltb, SFcompare; try destruct sx; try destruct sy; simpl;
    try (split; done); try naive_solver;
    rewrite (Z.compare_antisym ey ex); destruct (ey ?= ex)%Z; simpl;
    try (split; done); try naive_solver;
    change (Pos.compare_cont Eq mx my) with (mx ?= my)%positive;
    change (Pos.compare_cont Eq my mx) with (my ?= mx)%positive;
    rewrite (Pos.compare_antisym mx my); destruct (mx ?= my)%positive; naive_solver.
Qed.

Lemma fgt_le x y :
  is_nan x = false -> is_nan y = false -> fgt x y = true -> f_le y x.
Proof.
  unfold fgt, f_le. intros Hx Hy Hg. apply (flt_key y x) in Hg; [|done..].
  intros H. eapply key_lt_irrefl, key_lt_trans; eassumption.
Qed.

Lemma not_fgt_le x y :
  is_nan x = false -> is_nan y = false -> fgt x y = false -> f_le x y.
Proof.
  unfold fgt, f_le. intros Hx Hy Hg H. apply (flt_key y x) in H; [|done..].
  unfold flt in H. congruence.
Qed.

(** Limiting any float, a NaN too, between two bounds gives a float between them. *)
Lemma clamp_range lo hi x :
  is_nan lo = false -> is_nan hi = false -> fle lo hi = true ->
  let r := fmaxf lo (fminf hi x) in
  is_nan r = false /\ fle lo r = true /\ fle r hi = true.
Proof.
  intros Hlo Hhi Hle r.
  assert (Hm : is_nan (fminf hi x) = false /\ f_le (fminf hi x) hi).
  { unfold fminf. destruct (is_nan x) eqn:Hx.
    - destruct x; try done. destruct hi; try done; (split; [done|]); apply key_lt_irrefl.
    - replace (match hi with S754_nan => x | _ => _ end)
        with (if flt x hi then x else hi) by (by destruct hi, x).
      destruct (flt x hi) eqn:Hl; (split; [done|]); [|apply key_lt_irrefl].
      apply fgt_le; done. }
  destruct Hm as [Hm1 Hm2]. revert Hm1 Hm2. unfold r. generalize (fminf hi x). intros y Hy Hyhi.
  unfold fmaxf.
  replace (match lo with S754_nan => y | _ => _ end)
    with (if flt lo y then y else lo) by (by destruct lo, y).
  destruct (flt lo y) eqn:Hl; (split; [done|]).
  - split; apply fle_f_le; try done. by apply fgt_le.
  - split; [|done]. apply fle_f_le; try done. apply key_lt_irrefl.
Qed.

Lemma int_of_float_range x v : int_of_float x = Some v -> - 2 ^ 31 <= v < 2 ^ 31.
Proof.
  destruct x as [|sx| |sx mx ex]; try done; simpl; [intros [= <-]; lia|].
  case_bool_decide; [|done]. intros [= <-]. done.
Qed.
