(* ===== verification/GkSensor.v ===== *)
(** * GK bag: force sensor

    src/apps/gk_bag/src/force_sensor.c: calibration, the median and moving-average
    filters over the last five samples, the computation of the hit point and the
    session statistics; the sensor part of the main loop of src/apps/gk_bag/src/main.c.
    A raw sample, which the code simulates, is an argument. *)
From S2P Require Import Prelude BubbleSort F32.

Definition FORCE_THRESHOLD : float := f32 5 1.

(** Offsets and scales in the order fx, fy, fz, mx, my, mz. *)
Record sensor_cal := SensorCal {
  cal_offset : list float;
  cal_scale : list float;
  is_calibrated : bool }.

Record gk_force_data_t := ForceData {
  fx : float; fy : float; fz : float;
  mx : float; my : float; mz : float;
  fd_timestamp : Z }.

Record gk_hit_point_t := HitPoint {
  hp_x : float;
  hp_y : float;
  hp_force : float;
  hp_residual : float;
  hp_timestamp : Z }.

Record sensor_state := SensorState {
  last_data : gk_force_data_t;
  filtered_data : gk_force_data_t;
  is_initialized : bool;
  hit_count : Z;
  max_force_session : float;
  history : list (list float);
  smoothed_history : list (list float);
  history_index : Z;
  history_count : Z }.

Definition f0 : float := S754_zero false.
Definition zero_data : gk_force_data_t := ForceData f0 f0 f0 f0 f0 f0 0.
Definition zero_history : list (list float) := replicate 5 (replicate 6 f0).

Definition zero_state (init : bool) : sensor_state :=
  SensorState zero_data zero_data init 0 f0 zero_history zero_history 0 0.

Definition gk_sensor_init : Z * sensor_cal * sensor_state :=
  (OPRT_OK,
   SensorCal [f0; f0; f32 981 100; f0; f0; f0] (replicate 6 (f32 1 1)) true,
   zero_state true).

(** The first [count] values are copied to a scratch array and sorted there. *)
Definition calculate_median (values : list float) (count : Z) : option float :=
  if bool_decide (count <= 5) then
    temp_array ← mread values 0 count;
    temp_array ← bubble_sort fgt count temp_array;
    zget temp_array (count `quot` 2)
  else None.

(** [m\[i\]\[c\]] *)
Definition cell (m : list (list float)) (i c : Z) : option float :=
  row ← zget m i; zget row c.

(** The values of channel [c] in the rows [0 .. count - 1]. *)
Definition channel (m : list (list float)) (count c : Z) : option (list float) :=
  mapM (fun i => cell m i c) (seqZ 0 count).

Definition calibrate_channel (cal : sensor_cal) (raw : list float) (i : Z) : option float :=
  r ← zget raw i; o ← zget (cal_offset cal) i; s ← zget (cal_scale cal) i;
  Some (fmul (fsub r o) s).

Definition median_channel (hist : list (list float)) (count c : Z) : option float :=
  values ← channel hist count c; calculate_median values count.

Definition smooth_channel (smoothed : list (list float)) (count c : Z) : option float :=
  values ← channel smoothed count c;
  Some (fdiv (foldl fadd f0 values) (f32_of_Z count)).

(** One row per function of the channel. *)
Definition row6 (f : Z -> option float) : option (list float) := mapM f (seqZ 0 6).

(** [read_raw_sensor_data] is given by its return code and the row that it writes;
    [now] is [tal_time_get_posix()]. The result: code, state, data written. *)
Definition gk_sensor_read_data (cal : sensor_cal) (st : sensor_state) (data_null : bool)
    (raw_rc : Z) (raw_data : list float) (now : Z)
    : option (Z * sensor_state * option gk_force_data_t) :=
  if negb (is_initialized st) || data_null then Some (OPRT_INVALID_PARM, st, None)
  else if bool_decide (raw_rc <> OPRT_OK) then Some (OPRT_COM_ERROR, st, None)
  else
    calibrated_data ← row6 (calibrate_channel cal raw_data);
    (* step 1: history buffer *)
    let idx := Z.rem (history_index st) 5 in
    hist ← zset (history st) idx calibrated_data;
    if bool_decide (2 ^ 31 <= history_index st + 1) then None else
    let history_index := history_index st + 1 in
    let count := if bool_decide (history_count st < 5) then history_count st + 1
                 else history_count st in
    (* step 2: median *)
    median_filtered ← row6 (median_channel hist count);
    (* step 3: moving average *)
    let smooth_idx := Z.rem (history_index - 1) 5 in
    smoothed ← zset (smoothed_history st) smooth_idx median_filtered;
    let smooth_count := if bool_decide (count < 5) then count else 5 in
    smoothed_data ← row6 (smooth_channel smoothed smooth_count);
    match smoothed_data with
    | [a; b; c; d; e; f] =>
        let data := ForceData a b c d e f (u32 now) in
        Some (OPRT_OK,
              SensorState data data (is_initialized st) (hit_count st)
                (max_force_session st) hist smoothed history_index count,
              Some data)
    | _ => None
    end.

Definition eps : float := f32 1 1000000.

(** The parameter k1 of the hit point: the solution of the quadratic equation. *)
Definition solve_k1 (F0 F1 F2 g0 g1 g2 : float) : float :=
  let radius := f32 1 10 in
  let a := fadd (fmul F0 F0) (fmul F1 F1) in
  let b := fmul (f32 2 1) (fadd (fmul F0 g0) (fmul F1 g1)) in
  let c := fsub (fadd (fmul g0 g0) (fmul g1 g1)) (fmul radius radius) in
  if flt a eps then fdiv (fneg (fmul F2 g2)) (fadd (fmul F2 F2) eps)
  else
    let discriminant := fsub (fmul b b) (fmul (fmul (f32 4 1) a) c) in
    if fge discriminant f0 then
      let sqrt_disc := sqrtf discriminant in
      fdiv (fsub (fneg b) sqrt_disc) (fmul (f32 2 1) a)
    else fdiv (fneg (fadd (fmul F0 g0) (fmul F1 g1))) a.

Definition clamp15 (x : float) : float := fmaxf (fneg (f32 15 1)) (fminf (f32 15 1) x).

Definition force_norm_sq (d : gk_force_data_t) : float :=
  fadd (fadd (fmul (fx d) (fx d)) (fmul (fy d) (fy d))) (fmul (fz d) (fz d)).

(** The position of the hit, before it is limited to the bag. *)
Definition hit_position (d : gk_force_data_t) : float * float :=
  let F0 := fx d in let F1 := fy d in let F2 := fz d in
  let tau0 := fadd (mx d) (fmul F1 (f32 20 100)) in
  let tau1 := fadd (my d) (fmul F0 (f32 15 100)) in
  let tau2 := mz d in
  let n := force_norm_sq d in
  let g0 := fdiv (fsub (fmul F1 tau2) (fmul F2 tau1)) n in
  let g1 := fdiv (fsub (fmul F2 tau0) (fmul F0 tau2)) n in
  let g2 := fdiv (fsub (fmul F0 tau1) (fmul F1 tau0)) n in
  let k1 := solve_k1 F0 F1 F2 g0 g1 g2 in
  (fmul (fadd (fmul k1 F1) g1) (f32 100 1), fmul (fadd (fmul k1 F0) g0) (f32 100 1)).

(** [None] arguments are null pointers. The result: code, state, hit point. *)
Definition gk_calculate_hit_point (st : sensor_state) (force_data : option gk_force_data_t)
    (hit_point : option gk_hit_point_t) : Z * sensor_state * option gk_hit_point_t :=
  match force_data, hit_point with
  | Some d, Some h =>
      let n := force_norm_sq d in
      let force_magnitude := sqrtf n in
      if flt force_magnitude FORCE_THRESHOLD || flt n eps
      then (OPRT_COM_ERROR, st, Some h)
      else
        let '(x, y) := hit_position d in
        (OPRT_OK,
         SensorState (last_data st) (filtered_data st) (is_initialized st)
           (u32 (hit_count st + 1))
           (if fgt force_magnitude (max_force_session st) then force_magnitude
            else max_force_session st)
           (history st) (smoothed_history st) (history_index st) (history_count st),
         Some (HitPoint (clamp15 x) (clamp15 y) force_magnitude (hp_residual h)
                 (fd_timestamp d)))
  | _, _ => (OPRT_INVALID_PARM, st, hit_point)
  end.

Definition gk_sensor_get_hit_count (st : sensor_state) : Z := hit_count st.
Definition gk_sensor_get_max_force_session (st : sensor_state) : float := max_force_session st.

Definition gk_sensor_reset_session_stats (st : sensor_state) : sensor_state :=
  SensorState (last_data st) (filtered_data st) (is_initialized st) 0 f0
    (history st) (smoothed_history st) (history_index st) (history_count st).

(** The sums of the samples that were read without error. *)
Definition add_sample (sums : list float) (sample : Z * list float) : option (list float) :=
  let '(rc, raw_data) := sample in
  if bool_decide (rc = OPRT_OK)
  then row6 (fun i => s ← zget sums i; r ← zget raw_data i; Some (fadd s r))
  else Some sums.

Fixpoint add_samples (sums : list float) (samples : list (Z * list float))
    : option (list float) :=
  match samples with
  | [] => Some sums
  | s :: samples => sums ← add_sample sums s; add_samples sums samples
  end.

(** [samples]: the 100 results of [read_raw_sensor_data]. *)
Definition gk_sensor_calibrate (cal : sensor_cal) (samples : list (Z * list float))
    : option (Z * sensor_cal) :=
  let cal_samples := f32_of_Z 100 in
  sums ← add_samples (replicate 6 f0) samples;
  offsets ← row6 (fun i =>
    s ← zget sums i;
    let m := fdiv s cal_samples in
    Some (if bool_decide (i = 2) then fsub m (fneg (f32 981 100)) else m));
  Some (OPRT_OK, SensorCal offsets (cal_scale cal) true).

(** One round of the main loop, without the drawing: code of the hit computation and
    the hit point when there is one. [undef] is the uninitialised local hit point. *)
Definition gk_bag_step (cal : sensor_cal) (st : sensor_state) (undef : gk_hit_point_t)
    (raw_rc : Z) (raw_data : list float) (now : Z)
    : option (sensor_state * option gk_hit_point_t) :=
  '(rc, st, data) ← gk_sensor_read_data cal st false raw_rc raw_data now;
  if bool_decide (rc = OPRT_OK) then
    let '(rc, st, hit) := gk_calculate_hit_point st data (Some undef) in
    Some (st, if bool_decide (rc = OPRT_OK) then hit else None)
  else Some (st, None).

(** ** The median *)

Lemma bubble_sort_count l :
  0 < zlen l -> exists l', bubble_sort fgt (zlen l) l = Some l' /\ zlen l' = zlen l.
Proof.
  intros Hl. unfold bubble_sort. rewrite bubble_outer_passes by (unfold zlen in *; lia).
  eexists. split; [done|]. unfold zlen. by rewrite bubble_passes_perm.
Qed.

Lemma calculate_median_is_Some values :
  0 < zlen values <= 5 -> is_Some (calculate_median values (zlen values)).
Proof.
  intros Hl. unfold calculate_median. rewrite bool_decide_true by lia.
  rewrite mread_Some by lia. rewrite drop_0, zlen_to_nat, firstn_all. ub_step.
  destruct (bubble_sort_count values) as (l' & -> & Hl'); [lia|]. ub_step.
  apply zget_is_Some. rewrite Z.quot_div_nonneg by lia. rewrite Hl'.
  pose proof (Z.div_lt (zlen values) 2). pose proof (Z.div_pos (zlen values) 2). lia.
Qed.

(** C31. The median of one to five values none of which is a NaN is the element in
    the middle of a sorted rearrangement of the values; the sort stays inside the
    scratch array. *)
Theorem calculate_median_ok values :
  0 < zlen values <= 5 -> Forall (fun x => is_nan x = false) values ->
  exists s m, calculate_median values (zlen values) = Some m /\
    s ≡ₚ values /\ StronglySorted f_le s /\ zget s (zlen values `div` 2) = Some m.
Proof.
  intros Hl Hnan. destruct (calculate_median_is_Some values Hl) as [m Hm].
  unfold calculate_median in *. rewrite bool_decide_true in * by lia.
  rewrite mread_Some in * by lia. rewrite drop_0, zlen_to_nat, firstn_all in *.
  destruct (bubble_sort_sorted fgt f_le (fun x => is_nan x = false)
    (fun x y z _ _ _ => f_le_trans x y z) fgt_le not_fgt_le values Hnan)
    as (s & Hs & Hp & Hsort).
  exists s, m. split; [done|]. split_and!; try done.
  unfold mbind, option_bind in Hm. rewrite Hs, Z.quot_div_nonneg in Hm by lia. done.
Qed.

Lemma calculate_median_ok_witness :
  exists s m, calculate_median [f32 7 1; f32 1 10; f32 3 1; fneg (f32 2 1)] 4 = Some m /\
    s ≡ₚ [f32 7 1; f32 1 10; f32 3 1; fneg (f32 2 1)] /\ StronglySorted f_le s /\
    zget s 2 = Some m.
Proof.
  apply (calculate_median_ok [f32 7 1; f32 1 10; f32 3 1; fneg (f32 2 1)]);
    [split; vm_compute; done|repeat constructor].
Defined.

(** ** The filter *)

Definition matrix_ok (m : list (list float)) : Prop :=
  zlen m = 5 /\ Forall (fun row => zlen row = 6) m.

Definition sensor_ok (st : sensor_state) : Prop :=
  matrix_ok (history st) /\ matrix_ok (smoothed_history st) /\
  0 <= history_index st < 2 ^ 31 /\ history_count st = Z.min 5 (history_index st).

Definition cal_ok (cal : sensor_cal) : Prop :=
  zlen (cal_offset cal) = 6 /\ zlen (cal_scale cal) = 6.

Lemma row6_ok f :
  (forall i, 0 <= i < 6 -> is_Some (f i)) ->
  exists r, row6 f = Some r /\ zlen r = 6 /\ forall i, 0 <= i < 6 -> zget r i = f i.
Proof. apply mapM_seqZ. lia. Qed.

Lemma matrix_row m i :
  matrix_ok m -> 0 <= i < 5 -> exists row, zget m i = Some row /\ zlen row = 6.
Proof.
  intros [Hm Hr] Hi. destruct (zget_is_Some m i) as [row Hrow]; [lia|].
  exists row. split; [done|]. rewrite Forall_lookup in Hr.
  unfold zget in Hrow. rewrite bool_decide_true in Hrow by lia. by eapply Hr.
Qed.

Lemma matrix_zset m i row m' :
  matrix_ok m -> zlen row = 6 -> zset m i row = Some m' -> matrix_ok m'.
Proof.
  intros [Hm Hr] Hrow Hs. split; [by apply zset_inv in Hs as (_ & ? & _); lia|].
  unfold zset in Hs. case_bool_decide; [|done]. injection Hs as <-.
  by apply Forall_insert.
Qed.

Lemma channel_ok m count c :
  matrix_ok m -> 0 <= count <= 5 -> 0 <= c < 6 ->
  exists vs, channel m count c = Some vs /\ zlen vs = count /\
    forall i, 0 <= i < count -> zget vs i = cell m i c.
Proof.
  intros Hm Hcount Hc. apply mapM_seqZ; [lia|]. intros i Hi. unfold cell.
  destruct (matrix_row m i Hm) as (row & -> & Hl); [lia|]. ub_step. apply zget_is_Some. lia.
Qed.

Lemma channel_rows_at l1 l2 l3 c :
  mapM (fun i => cell (l1 ++ l2 ++ l3) i c) (seqZ (zlen l1) (zlen l2)) =
  mapM (fun r => zget r c) l2.
Proof.
  revert l1. induction l2 as [|r l2 IH]; intros l1; [done|].
  rewrite zlen_cons, seqZ_cons by (pose proof (zlen_nonneg l2); lia).
  cbn [mapM]. simpl ((r :: l2) ++ l3).
  replace (cell (l1 ++ r :: l2 ++ l3) (zlen l1) c) with (zget r c)
    by (unfold cell; by rewrite zget_length).
  specialize (IH (l1 ++ [r])). rewrite zlen_snoc, <- app_assoc in IH. simpl in IH.
  replace (Z.pred (1 + zlen l2)) with (zlen l2) by lia.
  replace (Z.succ (zlen l1)) with (zlen l1 + 1) by lia. by rewrite IH.
Qed.

Lemma channel_rows m count c :
  0 <= count <= zlen m ->
  channel m count c = mapM (fun r => zget r c) (take (Z.to_nat count) m).
Proof.
  intros Hc.
  pose proof (channel_rows_at [] (take (Z.to_nat count) m) (drop (Z.to_nat count) m) c) as H.
  rewrite zlen_take in H by lia. rewrite Z.min_l in H by lia.
  simpl in H. rewrite take_drop in H. exact H.
Qed.

(** The calibrated samples seen so far: the history holds the last five, sample
    [j] in slot [j mod 5]. *)
Definition window (st : sensor_state) (samples : list (list float)) : Prop :=
  history_index st = zlen samples /\
  forall j, 0 <= j -> zlen samples - 5 <= j < zlen samples ->
    zget (history st) (j `mod` 5) = zget samples j.

Definition last5 (samples : list (list float)) : list (list float) :=
  drop (length samples - 5) samples.

Lemma list5 (m : list (list float)) :
  zlen m = 5 ->
  exists a b c d e, m = [a; b; c; d; e].
Proof.
  unfold zlen. intros H. destruct m as [|a [|b [|c [|d [|e [|f m]]]]]]; simpl in H; try lia.
  eauto 10.
Qed.

Lemma zget_last5 samples i :
  0 <= i -> zget (last5 samples) i = zget samples (Z.max 0 (zlen samples - 5) + i).
Proof.
  intros. unfold last5.
  replace (length samples - 5)%nat with (Z.to_nat (Z.max 0 (zlen samples - 5)))
    by (unfold zlen; lia).
  apply zget_drop; lia.
Qed.

(** The rows in use are the last five samples, in some order. *)
Lemma window_perm m n samples :
  zlen m = 5 -> n = Z.min 5 (zlen samples) ->
  (forall j, 0 <= j -> zlen samples - 5 <= j < zlen samples ->
    zget m (j `mod` 5) = zget samples j) ->
  take (Z.to_nat n) m ≡ₚ last5 samples.
Proof.
  intros Hm Hn Hw. pose proof (zlen_nonneg samples).
  assert (Hl5 : zlen (last5 samples) = n) by (unfold last5, zlen in *; rewrite length_drop; lia).
  destruct (decide (zlen samples <= 5)).
  - assert (take (Z.to_nat n) m = last5 samples) as ->; [|done].
    apply zlist_eq; [rewrite zlen_take; lia|]. rewrite zlen_take by lia. intros i Hi.
    rewrite zget_take, zget_last5 by lia. rewrite <- (Z.mod_small i 5) at 1 by lia.
    rewrite Z.max_l by lia. apply Hw; lia.
  - replace (Z.to_nat n) with (length m) by (unfold zlen in *; lia). rewrite firstn_all.
    set (s := zlen samples - 5) in *.
    assert (Hslot : forall i, 0 <= i < 5 ->
      zget m ((s + i) `mod` 5) = zget (last5 samples) i).
    { intros i Hi. rewrite Hw, zget_last5, Z.max_r by lia. done. }
    destruct (list5 m Hm) as (a & b & c & d & e & ->).
    destruct (list5 (last5 samples)) as (a' & b' & c' & d' & e' & H5); [lia|].
    rewrite H5 in *.
    pose proof (Z.mod_pos_bound s 5 ltac:(lia)) as Hs.
    assert (Hmod : forall i, (s + i) `mod` 5 = (s `mod` 5 + i) `mod` 5)
      by (intros; by rewrite Zplus_mod_idemp_l).
    assert (Hr : s `mod` 5 = 0 \/ s `mod` 5 = 1 \/ s `mod` 5 = 2 \/ s `mod` 5 = 3 \/
      s `mod` 5 = 4) by lia.
    pose proof (Hslot 0 ltac:(lia)) as E0. pose proof (Hslot 1 ltac:(lia)) as E1.
    pose proof (Hslot 2 ltac:(lia)) as E2. pose proof (Hslot 3 ltac:(lia)) as E3.
    pose proof (Hslot 4 ltac:(lia)) as E4. rewrite Hmod in E0, E1, E2, E3, E4.
    destruct Hr as [Hr|[Hr|[Hr|[Hr|Hr]]]]; rewrite Hr in *;
      vm_compute in E0, E1, E2, E3, E4; simplify_eq;
      first [done | apply (Permutation_app_comm [_] [_; _; _; _])
        | apply (Permutation_app_comm [_; _] [_; _; _])
        | apply (Permutation_app_comm [_; _; _] [_; _])
        | apply (Permutation_app_comm [_; _; _; _] [_])].
Qed.

(** The fields of a sample in channel order. *)
Definition data_row (d : gk_force_data_t) : list float := [fx d; fy d; fz d; mx d; my d; mz d].

Lemma history_store st samples row hist :
  sensor_ok st -> window st samples -> zlen row = 6 ->
  zset (history st) (history_index st `mod` 5) row = Some hist ->
  matrix_ok hist /\
  forall j, 0 <= j -> zlen (samples ++ [row]) - 5 <= j < zlen (samples ++ [row]) ->
    zget hist (j `mod` 5) = zget (samples ++ [row]) j.
Proof.
  intros (Hh & _ & Hi & _) [Hlen Hw] Hrow Hz. split; [by eapply matrix_zset|].
  apply zset_inv in Hz as (_ & _ & Hnew & Hold).
  rewrite zlen_snoc. intros j Hj0 Hj.
  destruct (decide (j = zlen samples)) as [->|Hne].
  - rewrite <- Hlen, Hnew. rewrite zget_app_r, Hlen, Z.sub_diag by lia. done.
  - rewrite zget_app_l by lia. rewrite Hold, Hw; [done|lia..|]. rewrite Hlen. intros Heq.
    pose proof (Z.div_mod j 5 ltac:(lia)). pose proof (Z.div_mod (zlen samples) 5 ltac:(lia)). lia.
Qed.


Definition rest_sample : list float := [f0; f0; fneg (f32 981 100); f0; f0; f0].


(** ** Hit points *)

Lemma clamp15_range x :
  is_nan (clamp15 x) = false /\ fle (fneg (f32 15 1)) (clamp15 x) = true /\
  fle (clamp15 x) (f32 15 1) = true.
Proof. by apply clamp_range. Qed.

(** C5. Computing a hit point either rejects the sample and changes nothing, or
    counts one more hit, keeps the largest force of the session and delivers a point
    whose coordinates are numbers between -15 and 15 cm whatever the sample is (also
    with NaN or infinite components) and whose force is the magnitude of the sample,
    not below the threshold. *)
Theorem hit_point_ok st d h :
  let mag := sqrtf (force_norm_sq d) in
  match gk_calculate_hit_point st (Some d) (Some h) with
  | (rc, st', Some h') =>
      (rc = OPRT_COM_ERROR /\ st' = st /\ h' = h /\
       (flt mag FORCE_THRESHOLD = true \/ flt (force_norm_sq d) eps = true)) \/
      (rc = OPRT_OK /\ flt mag FORCE_THRESHOLD = false /\
       hit_count st' = u32 (hit_count st + 1) /\
       max_force_session st' =
         (if fgt mag (max_force_session st) then mag else max_force_session st) /\
       history st' = history st /\ smoothed_history st' = smoothed_history st /\
       history_index st' = history_index st /\ history_count st' = history_count st /\
       hp_force h' = mag /\ hp_timestamp h' = fd_timestamp d /\
       fle (fneg (f32 15 1)) (hp_x h') = true /\ fle (hp_x h') (f32 15 1) = true /\
       fle (fneg (f32 15 1)) (hp_y h') = true /\ fle (hp_y h') (f32 15 1) = true)
  | _ => False
  end.
Proof.
  intros mag. unfold gk_calculate_hit_point. fold mag.
  destruct (flt mag FORCE_THRESHOLD) eqn:Hm; [left; by auto|].
  destruct (flt (force_norm_sq d) eps) eqn:He; [left; by auto|].
  cbn [orb]. destruct (hit_position d) as [x y]. cbn. right.
  destruct (clamp15_range x) as (_ & ? & ?), (clamp15_range y) as (_ & ? & ?).
  by split_and!.
Qed.

(** Run the main loop's step over a list of raw samples. *)
Fixpoint run_steps (cal : sensor_cal) (st : sensor_state) (undef : gk_hit_point_t)
    (raws : list (list float)) : option (sensor_state * list (option gk_hit_point_t)) :=
  match raws with
  | [] => Some (st, [])
  | raw :: raws =>
      '(st, h) ← gk_bag_step cal st undef OPRT_OK raw 0;
      '(st, hs) ← run_steps cal st undef raws;
      Some (st, h :: hs)
  end.

Definition no_hit : gk_hit_point_t := HitPoint f0 f0 f0 f0 0.

(** The hits counted and the hit points shown over [n] rounds at rest. *)
Definition rest_hits (n : nat) (cal : sensor_cal) (st : sensor_state) : option (Z * Z) :=
  '(st, hs) ← run_steps cal st no_hit (replicate n rest_sample);
  Some (gk_sensor_get_hit_count st, zlen (omap id hs)).

(** A bag at rest, where the sensor reads gravity alone, (0, 0, -9.81 N), registers
    a hit at every round of the main loop: the offset of 9.81 is subtracted from -9.81, and
    19.62 N is above the threshold. After [gk_sensor_calibrate] with 100 such samples the
    residual gravity, 9.81 N, still is. *)
Theorem rest_counts_hits :
  let '(_, cal, st) := gk_sensor_init in
  rest_hits 60 cal st = Some (60, 60) /\
  ('(rc, cal) ← gk_sensor_calibrate cal (replicate 100 (OPRT_OK, rest_sample));
   hits ← rest_hits 60 cal st; Some (rc, hits)) = Some (OPRT_OK, (60, 60)).
Proof. by vm_compute. Qed.
