(* ===== verification/GkUser.v ===== *)
(** * GK bag: user information

    src/apps/gk_bag/src/user_auth.c. The JSON library is a parameter: a parser and
    the two accessors that the code uses. *)
From S2P Require Import Prelude.

Record gk_user_info_t := UserInfo {
  user_id : bytes;       (* char[64] *)
  username : bytes;      (* char[32] *)
  height : Z;
  weight : Z;
  gender : Z;
  is_logged_in : bool }.

(** [gk_user_auth_init] clears the whole record. *)
Definition gk_user_auth_init : Z * gk_user_info_t :=
  (OPRT_OK, UserInfo (replicate 64 0) (replicate 32 0) 0 0 0 false).

(** The eight lower-case hexadecimal digits of [printf("%08x")]. *)
Definition hex_digit (d : Z) : Z := if bool_decide (d < 10) then 48 + d else 87 + d.
Definition hex8 (t : Z) : bytes :=
  map (fun i => hex_digit (Z.land (Z.shiftr t (4 * i)) 0xf)) [7; 6; 5; 4; 3; 2; 1; 0].

Section json.
Context {cJSON : Type}.
Variable cJSON_Parse : bytes -> option cJSON.
Variable cJSON_GetObjectItem : cJSON -> bytes -> option cJSON.
(** [None]: the null pointer that is returned for an item that is not a string. *)
Variable cJSON_GetStringValue : cJSON -> option bytes.

(** [token_valid] is the constant [true] in the code. Passing the null pointer to
    [strncpy] is undefined. *)
Definition gk_user_login (g : gk_user_info_t) (qr_code_data : option bytes)
    : option (Z * gk_user_info_t) :=
  match qr_code_data with
  | None | Some [] => Some (OPRT_INVALID_PARM, g)
  | Some qr =>
      match cJSON_Parse qr with
      | None => Some (OPRT_CJSON_PARSE_ERR, g)
      | Some json =>
          match cJSON_GetObjectItem json (c_str "user_id"),
                cJSON_GetObjectItem json (c_str "username"),
                cJSON_GetObjectItem json (c_str "token") with
          | Some id, Some name, Some _ =>
              id ← cJSON_GetStringValue id;
              user_id ← strncpy (user_id g) id (64 - 1);
              name ← cJSON_GetStringValue name;
              username ← strncpy (username g) name (32 - 1);
              Some (OPRT_OK, UserInfo user_id username (height g) (weight g) (gender g) true)
          | _, _, _ => Some (OPRT_INVALID_PARM, g)
          end
      end
  end.

(** [now] is [tal_time_get_posix()]. *)
Definition gk_user_register (g : gk_user_info_t) (qr_code_data : option bytes) (now : Z)
    : option (Z * gk_user_info_t) :=
  match qr_code_data with
  | None | Some [] => Some (OPRT_INVALID_PARM, g)
  | Some qr =>
      match cJSON_Parse qr with
      | None => Some (OPRT_CJSON_PARSE_ERR, g)
      | Some json =>
          match cJSON_GetObjectItem json (c_str "reg_token"),
                cJSON_GetObjectItem json (c_str "username") with
          | Some _, Some name =>
              user_id ← strcpy (user_id g) (c_str "gk_user_" ++ hex8 (u32 now));
              name ← cJSON_GetStringValue name;
              username ← strncpy (username g) name (32 - 1);
              Some (OPRT_OK, UserInfo user_id username 0 0 0 true)
          | _, _ => Some (OPRT_INVALID_PARM, g)
          end
      end
  end.

Definition gk_user_update_info (g : gk_user_info_t) (h w s : Z) : Z * gk_user_info_t :=
  if negb (is_logged_in g) then (OPRT_COM_ERROR, g)
  else if bool_decide (h < 100 \/ h > 220) then (OPRT_INVALID_PARM, g)
  else if bool_decide (w < 30 \/ w > 200) then (OPRT_INVALID_PARM, g)
  else if bool_decide (s < 0 \/ s > 1) then (OPRT_INVALID_PARM, g)
  else (OPRT_OK, UserInfo (user_id g) (username g) h w s (is_logged_in g)).

Definition gk_get_user_info (g : gk_user_info_t) : gk_user_info_t := g.

Definition gk_set_default_user_info (g : gk_user_info_t) : option gk_user_info_t :=
  id ← strcpy (user_id g) (c_str "default_user");
  name ← strcpy (username g) (c_str "Demo User");
  Some (UserInfo id name 175 70 0 true).

(** ** Well-formed records *)

(** Both arrays are terminated, and the measures are unset or in range. *)
Definition user_ok (g : gk_user_info_t) : Prop :=
  zlen (user_id g) = 63 + 1 /\ zget (user_id g) 63 = Some 0 /\
  zlen (username g) = 31 + 1 /\ zget (username g) 31 = Some 0 /\
  (height g = 0 \/ 100 <= height g <= 220) /\ (weight g = 0 \/ 30 <= weight g <= 200) /\
  0 <= gender g <= 1.

(** The operations of the module, on any input. *)
Inductive user_step (g : gk_user_info_t) : gk_user_info_t -> Prop :=
  | step_login qr rc g' : gk_user_login g qr = Some (rc, g') -> user_step g g'
  | step_register qr now rc g' : gk_user_register g qr now = Some (rc, g') -> user_step g g'
  | step_update h w s rc g' : gk_user_update_info g h w s = (rc, g') -> user_step g g'
  | step_default g' : gk_set_default_user_info g = Some g' -> user_step g g'
  | step_init : user_step g (snd gk_user_auth_init).

(** The strings of the JSON library hold no 0. *)
Hypothesis string_no_nul : forall j s, cJSON_GetStringValue j = Some s -> no_nul s.

Lemma hex8_no_nul t : no_nul (hex8 t).
Proof.
  assert (Hd : forall z, hex_digit (Z.land z 0xf) <> 0).
  { intros z. change 0xf with (Z.ones 4). rewrite Z.land_ones by lia.
    pose proof (Z.mod_pos_bound z (2 ^ 4) ltac:(lia)). unfold hex_digit.
    case_bool_decide; lia. }
  unfold hex8. repeat constructor; apply Hd.
Qed.

Lemma c_str_no_nul s : forallb (fun b => negb (b =? 0)) (c_str s) = true -> no_nul (c_str s).
Proof.
  intros H. apply Forall_forall. intros b Hb.
  apply list_elem_of_In in Hb. rewrite forallb_forall in H.
  specialize (H b Hb). lia.
Qed.

(** On well-formed user data every sign-in with string fields succeeds, stores the
    identifier truncated to 63 bytes and the name truncated to 31, marks the user as logged
    in and keeps the measures; every rejected sign-in changes nothing. *)
Theorem user_login_ok g qr json id name token :
  user_ok g -> qr <> [] -> cJSON_Parse qr = Some json ->
  cJSON_GetObjectItem json (c_str "user_id") = Some id ->
  cJSON_GetObjectItem json (c_str "username") = Some name ->
  (forall sid sname, cJSON_GetObjectItem json (c_str "token") = Some token ->
     cJSON_GetStringValue id = Some sid -> cJSON_GetStringValue name = Some sname ->
     exists g', gk_user_login g (Some qr) = Some (OPRT_OK, g') /\
       c_string (user_id g') = take 63 sid /\ c_string (username g') = take 31 sname /\
       is_logged_in g' = true /\ height g' = height g /\ weight g' = weight g /\
       gender g' = gender g) /\
  (cJSON_GetObjectItem json (c_str "token") = None ->
     gk_user_login g (Some qr) = Some (OPRT_INVALID_PARM, g)).
Proof.
  intros (Hi & Hiz & Hn & Hnz & _) Hqr Hp Hid Hname. unfold gk_user_login.
  destruct qr as [|b qr]; [done|]. rewrite Hp, Hid, Hname. split.
  - intros sid sname -> Hsid Hsname. rewrite Hsid. ub_step.
    destruct (strncpy_ok (user_id g) sid 63) as (d & Hd & _ & _ & Hc); try done; [by eapply string_no_nul|].
    change (64 - 1) with 63. rewrite Hd, Hsname. ub_step.
    destruct (strncpy_ok (username g) sname 31) as (e & He & _ & _ & Hce); try done; [by eapply string_no_nul|].
    change (32 - 1) with 31. rewrite He. ub_step.
    eexists. split; [done|]. simpl. by rewrite Hc, Hce.
  - by intros ->.
Qed.

Lemma user_login_keeps g qr rc g' :
  gk_user_login g qr = Some (rc, g') -> user_ok g ->
  user_ok g' /\ (rc <> OPRT_OK -> g' = g).
Proof.
  intros Hl Hg. unfold gk_user_login in Hl.
  destruct qr as [[|b qr]|]; [by injection Hl as <- <-| |by injection Hl as <- <-].
  destruct (cJSON_Parse _) as [json|]; [|by injection Hl as <- <-].
  destruct (cJSON_GetObjectItem json (c_str "user_id")) as [id|]; [|by injection Hl as <- <-].
  destruct (cJSON_GetObjectItem json (c_str "username")) as [name|]; [|by injection Hl as <- <-].
  destruct (cJSON_GetObjectItem json (c_str "token")) as [tok|]; [|by injection Hl as <- <-].
  destruct (cJSON_GetStringValue id) as [sid|] eqn:Hsid; [|done].
  destruct Hg as (Hi & Hiz & Hn & Hnz & Hrest).
  destruct (strncpy_ok (user_id g) sid 63) as (d & Hd & ? & ? & _); try done; [by eapply string_no_nul|].
  unfold mbind, option_bind in Hl. change (64 - 1) with 63 in Hl. rewrite Hd in Hl.
  destruct (cJSON_GetStringValue name) as [sname|] eqn:Hsn; [|done].
  destruct (strncpy_ok (username g) sname 31) as (e & He & ? & ? & _); try done; [by eapply string_no_nul|].
  change (32 - 1) with 31 in Hl. rewrite He in Hl. injection Hl as <- <-.
  by split_and!.
Qed.

Lemma user_register_keeps g qr now rc g' :
  gk_user_register g qr now = Some (rc, g') -> user_ok g ->
  user_ok g' /\ (rc <> OPRT_OK -> g' = g) /\
  (rc = OPRT_OK -> c_string (user_id g') = c_str "gk_user_" ++ hex8 (u32 now) /\
     is_logged_in g' = true).
Proof.
  intros Hl Hg. unfold gk_user_register in Hl.
  destruct qr as [[|b qr]|]; [by injection Hl as <- <-| |by injection Hl as <- <-].
  destruct (cJSON_Parse _) as [json|]; [|by injection Hl as <- <-].
  destruct (cJSON_GetObjectItem json (c_str "reg_token")) as [tok|]; [|by injection Hl as <- <-].
  destruct (cJSON_GetObjectItem json (c_str "username")) as [name|]; [|by injection Hl as <- <-].
  destruct Hg as (Hi & Hiz & Hn & Hnz & Hrest).
  destruct (strcpy_ok (user_id g) (c_str "gk_user_" ++ hex8 (u32 now)) 63)
    as (d & Hd & ? & ? & Hc); try done.
  { apply Forall_app. split; [by apply c_str_no_nul|apply hex8_no_nul]. }
  unfold mbind, option_bind in Hl. rewrite Hd in Hl.
  destruct (cJSON_GetStringValue name) as [sname|] eqn:Hsn; [|done].
  destruct (strncpy_ok (username g) sname 31) as (e & He & ? & ? & _); try done; [by eapply string_no_nul|].
  change (32 - 1) with 31 in Hl. rewrite He in Hl. injection Hl as <- <-.
  unfold user_ok. split_and!; simpl; try done; lia.
Qed.

(** Updating the measures succeeds exactly for a logged-in user and measures in
    range, stores them then, and changes nothing otherwise. *)
Theorem user_update_ok g h w s :
  gk_user_update_info g h w s =
    if bool_decide (is_logged_in g = true /\ 100 <= h <= 220 /\ 30 <= w <= 200 /\ 0 <= s <= 1)
    then (OPRT_OK, UserInfo (user_id g) (username g) h w s true)
    else (if is_logged_in g then OPRT_INVALID_PARM else OPRT_COM_ERROR, g).
Proof.
  unfold gk_user_update_info. destruct (is_logged_in g) eqn:Hg; simpl.
  - repeat (case_bool_decide; try lia); done.
  - done.
Qed.

Lemma user_default_keeps g g' :
  gk_set_default_user_info g = Some g' -> user_ok g ->
  user_ok g' /\ c_string (user_id g') = c_str "default_user" /\
  c_string (username g') = c_str "Demo User".
Proof.
  intros Hl (Hi & Hiz & Hn & Hnz & _). unfold gk_set_default_user_info in Hl.
  destruct (strcpy_ok (user_id g) (c_str "default_user") 63) as (d & Hd & ? & ? & ?);
    try done; [by apply c_str_no_nul|].
  destruct (strcpy_ok (username g) (c_str "Demo User") 31) as (e & He & ? & ? & ?);
    try done; [by apply c_str_no_nul|].
  unfold mbind, option_bind in Hl. rewrite Hd, He in Hl. injection Hl as <-.
  unfold user_ok; split_and!; simpl; done || lia.
Qed.

(** From the cleared record, any sequence of operations, on any input, keeps both
    strings terminated inside their arrays and the measures unset or in range. *)
Theorem user_invariant g :
  rtc user_step (snd gk_user_auth_init) g -> user_ok g.
Proof.
  assert (H0 : user_ok (snd gk_user_auth_init)) by (unfold user_ok; split_and!; simpl; done || lia).
  revert H0. generalize (snd gk_user_auth_init) as g0. intros g0 H0 H.
  induction H as [g0|g0 g1 g2 Hstep _ IH]; [done|]. apply IH. clear IH.
  destruct Hstep as [qr rc g1 Hl|qr now rc g1 Hl|h w s rc g1 Hu|g1 Hd|].
  - by apply user_login_keeps in Hl as [? _].
  - by apply user_register_keeps in Hl as [? _].
  - unfold gk_user_update_info in Hu.
    destruct (is_logged_in g0); simpl in Hu; [|by injection Hu as <- <-].
    repeat (case_bool_decide; [by injection Hu as <- <-|]).
    injection Hu as <- <-. destruct H0 as (?&?&?&?&?&?&?).
    unfold user_ok; split_and!; simpl; done || lia.
  - by apply user_default_keeps in Hd as [? _].
  - unfold user_ok; split_and!; simpl; done || lia.
Qed.
End json.

(** ** A concrete JSON library *)

Definition demo_json : Type := list (bytes * bytes) + bytes.

(** Any text is the same sign-in code. *)
Definition demo_parse (_ : bytes) : option demo_json :=
  Some (inl [(c_str "user_id", c_str "u-1"); (c_str "username", c_str "Ada");
             (c_str "token", c_str "t")]).

Definition demo_item (j : demo_json) (name : bytes) : option demo_json :=
  match j with
  | inl fields => p ← List.find (fun p => bool_decide (p.1 = name)) fields; Some (inr p.2)
  | inr _ => None
  end.

Definition demo_string (j : demo_json) : option bytes :=
  match j with
  | inr s => if forallb (fun b => negb (b =? 0)) s then Some s else None
  | inl _ => None
  end.

Lemma demo_string_no_nul j s : demo_string j = Some s -> no_nul s.
Proof.
  destruct j as [|t]; [done|]. simpl. destruct (forallb _ t) eqn:H; [|done]. intros [= <-].
  apply Forall_forall. intros b Hb. apply list_elem_of_In in Hb.
  rewrite forallb_forall in H. specialize (H b Hb). lia.
Qed.

Lemma user_login_ok_witness :
  exists g', gk_user_login demo_parse demo_item demo_string (snd gk_user_auth_init) (Some [123]) =
      Some (OPRT_OK, g') /\
    c_string (user_id g') = take 63 (c_str "u-1") /\
    c_string (username g') = take 31 (c_str "Ada") /\
    is_logged_in g' = true /\ height g' = 0 /\ weight g' = 0 /\ gender g' = 0.
Proof.
  destruct (user_login_ok demo_parse demo_item demo_string demo_string_no_nul
    (snd gk_user_auth_init) [123]
    (inl [(c_str "user_id", c_str "u-1"); (c_str "username", c_str "Ada");
          (c_str "token", c_str "t")])
    (inr (c_str "u-1")) (inr (c_str "Ada")) (inr (c_str "t"))) as [H _].
  - unfold user_ok; split_and!; simpl; done || lia.
  - done.
  - done.
  - done.
  - done.
  - apply (H (c_str "u-1") (c_str "Ada")); done.
Defined.

Lemma user_invariant_witness :
  user_ok (snd (gk_user_update_info
    (default (snd gk_user_auth_init) (gk_set_default_user_info (snd gk_user_auth_init)))
    180 80 1)).
Proof.
  apply (user_invariant demo_parse demo_item demo_string demo_string_no_nul).
  eapply rtc_l; [apply step_default; by vm_compute|].
  apply rtc_once. eapply (step_update _ _ _ _ 180 80 1). by vm_compute.
Defined.
