(* ===== verification/GkGui.v ===== *)
(** * GK bag: user interface

    src/apps/gk_bag/src/gui_main.c and gui_graphics.c. The LVGL library is not modelled:
    every call that creates a widget, shows or hides it, empties it, installs an event
    handler or draws is an entry of a trace, in order; styling calls and label texts are
    left out. [cos] and [sin] are parameters. *)
From S2P Require Import Prelude StateM F32 GkSensor GkUser.

Inductive widget := Obj | Label | Button | Canvas.

(** The event handlers of gui_main.c. *)
Inductive handler := nav_to_hit_visual_cb | nav_to_training_cb | training_mode_select_cb.

Definition point : Type := Z * Z.

Inductive draw :=
  | FillBg
  | DrawRect (x1 y1 x2 y2 : Z)
  | DrawArc (center : point) (radius start_angle end_angle : Z)
  | DrawLine (p1 p2 : point)
  | DrawTriangle (p1 p2 p3 : point)
  | DrawLabel (x1 y1 x2 y2 : Z) (value : option Z).

Inductive lv_call :=
  | LvCreate (w : widget) (parent id : Z)
  | LvAddHidden (id : Z)
  | LvClearHidden (id : Z)
  | LvClean (id : Z)
  | LvEventCb (id : Z) (cb : handler)
  | LvDraw (canvas : Z) (d : draw).

Definition GK_PAGE_MAIN_STATS : Z := 0.
Definition GK_PAGE_HIT_VISUAL : Z := 1.
Definition GK_PAGE_TRAINING : Z := 2.
Definition GK_PAGE_MAX : Z := 3.

Record gk_combat_stats_t := CombatStats {
  speed : Z; power : Z; endurance : Z; accuracy : Z; technique : Z }.

(** The static variables of both files, the next fresh widget and the trace. *)
Record gui := Gui {
  g_pages : list (option Z);
  g_current_page : Z;
  g_hit_canvas : option Z;
  g_stats_labels : option (list Z);
  g_combat_stats_canvas : option Z;
  g_stick_figure_canvas : option Z;
  g_current_stats : gk_combat_stats_t;
  next_id : Z;
  trace : list lv_call }.

Definition scr : Z := 0.

Definition gui_start : gui :=
  Gui [None; None; None] GK_PAGE_MAIN_STATS None None None None
    (CombatStats 50 50 50 50 50) 1 [].

(** ** Code that runs on the variables *)

Notation M := (prog gui).

Definition get : M gui := fun g => Some (g, g).

Definition call (c : lv_call) : M unit := fun g =>
  Some (tt, Gui (g_pages g) (g_current_page g) (g_hit_canvas g) (g_stats_labels g)
              (g_combat_stats_canvas g) (g_stick_figure_canvas g) (g_current_stats g)
              (next_id g) (trace g ++ [c])).

Definition create (w : widget) (parent : Z) : M Z := fun g =>
  let id := next_id g in
  Some (id, Gui (g_pages g) (g_current_page g) (g_hit_canvas g) (g_stats_labels g)
              (g_combat_stats_canvas g) (g_stick_figure_canvas g) (g_current_stats g)
              (id + 1) (trace g ++ [LvCreate w parent id])).

Definition set_page (page id : Z) : M unit := fun g =>
  pages ← zset (g_pages g) page (Some id);
  Some (tt, Gui pages (g_current_page g) (g_hit_canvas g) (g_stats_labels g)
              (g_combat_stats_canvas g) (g_stick_figure_canvas g) (g_current_stats g)
              (next_id g) (trace g)).

Definition set_current (page : Z) : M unit := fun g =>
  Some (tt, Gui (g_pages g) page (g_hit_canvas g) (g_stats_labels g)
              (g_combat_stats_canvas g) (g_stick_figure_canvas g) (g_current_stats g)
              (next_id g) (trace g)).

Definition set_hit_canvas (c : Z) : M unit := fun g =>
  Some (tt, Gui (g_pages g) (g_current_page g) (Some c) (g_stats_labels g)
              (g_combat_stats_canvas g) (g_stick_figure_canvas g) (g_current_stats g)
              (next_id g) (trace g)).

Definition set_labels (l : list Z) : M unit := fun g =>
  Some (tt, Gui (g_pages g) (g_current_page g) (g_hit_canvas g) (Some l)
              (g_combat_stats_canvas g) (g_stick_figure_canvas g) (g_current_stats g)
              (next_id g) (trace g)).

Definition set_combat_canvas (c : Z) : M unit := fun g =>
  Some (tt, Gui (g_pages g) (g_current_page g) (g_hit_canvas g) (g_stats_labels g)
              (Some c) (g_stick_figure_canvas g) (g_current_stats g)
              (next_id g) (trace g)).

Definition set_stick_canvas (c : Z) : M unit := fun g =>
  Some (tt, Gui (g_pages g) (g_current_page g) (g_hit_canvas g) (g_stats_labels g)
              (g_combat_stats_canvas g) (Some c) (g_current_stats g)
              (next_id g) (trace g)).

Definition set_stats (s : gk_combat_stats_t) : M unit := fun g =>
  Some (tt, Gui (g_pages g) (g_current_page g) (g_hit_canvas g) (g_stats_labels g)
              (g_combat_stats_canvas g) (g_stick_figure_canvas g) s
              (next_id g) (trace g)).

Fixpoint calls (cs : list lv_call) : M unit :=
  match cs with
  | [] => mret tt
  | c :: cs => call c;; calls cs
  end.

(** ** gui_main.c *)

Definition gk_gui_show_page (page : Z) : M unit :=
  if bool_decide (page >= GK_PAGE_MAX) then mret tt
  else
    g ← get;
    (* hide all pages *)
    calls (LvAddHidden <$> omap id (g_pages g));;
    (* show the target page *)
    p ← lift (zget (g_pages g) page);
    match p with
    | Some id => call (LvClearHidden id);; set_current page
    | None => mret tt
    end.

(** A handler, for an event that is or is not LV_EVENT_CLICKED. *)
Definition run_handler (cb : handler) (clicked : bool) : M unit :=
  match cb with
  | nav_to_hit_visual_cb => if clicked then gk_gui_show_page GK_PAGE_HIT_VISUAL else mret tt
  | nav_to_training_cb => if clicked then gk_gui_show_page GK_PAGE_TRAINING else mret tt
  | training_mode_select_cb => mret tt
  end.

Definition gk_create_main_stats_page : M unit :=
  page ← create Obj scr;
  set_page GK_PAGE_MAIN_STATS page.

(** A button with a handler and a label. *)
Definition button (parent : Z) (cb : handler) : M unit :=
  b ← create Button parent;
  call (LvEventCb b cb);;
  _ ← create Label b;
  mret tt.

Definition gk_create_hit_visual_page : M unit :=
  page ← create Obj scr;
  set_page GK_PAGE_HIT_VISUAL page;;
  (* title *)
  _ ← create Label page;
  (* area of the bag *)
  sandbag_area ← create Obj page;
  _ ← create Label sandbag_area;
  (* panel *)
  stats_panel ← create Obj page;
  _ ← create Label stats_panel;
  _ ← create Label stats_panel;
  _ ← create Label stats_panel;
  _ ← create Label stats_panel;
  _ ← create Label stats_panel;
  (* navigation: back, next *)
  button page nav_to_hit_visual_cb;;
  button page nav_to_training_cb.

Definition gk_create_training_page : M unit :=
  page ← create Obj scr;
  set_page GK_PAGE_TRAINING page;;
  _ ← create Label page;
  (* strength, speed, accuracy, endurance, combo *)
  button page training_mode_select_cb;;
  button page training_mode_select_cb;;
  button page training_mode_select_cb;;
  button page training_mode_select_cb;;
  button page training_mode_select_cb;;
  _ ← create Label page;
  (* back *)
  button page nav_to_hit_visual_cb.

Definition gk_gui_init : M Z :=
  gk_create_main_stats_page;;
  gk_create_hit_visual_page;;
  gk_create_training_page;;
  gk_gui_show_page GK_PAGE_MAIN_STATS;;
  mret OPRT_OK.

Section drawing.
Variables cos sin : float -> float.     (* double *)
Variables cosf sinf : float -> float.

Definition draw_all (canvas : Z) (ds : list draw) : M unit := calls (LvDraw canvas <$> ds).

(** The lines that radiate from the hit point, one every 45 degrees. *)
Definition force_line (cx cy force_radius angle : Z) : option draw :=
  let rad := f32_of_f64 (ddiv (dmul (f64_of_Z angle) M_PI) (f64_of_Z 180)) in
  dx ← int_of_float (fmul (f32_of_Z force_radius) (cosf rad));
  dy ← int_of_float (fmul (f32_of_Z force_radius) (sinf rad));
  Some (DrawLine (cx, cy) (cx + dx, cy + dy)).

Definition hit_drawing (h : gk_hit_point_t) : option (list draw) :=
  dx ← int_of_float (fmul (hp_x h) (f32 2 1));
  dy ← int_of_float (fmul (hp_y h) (f32 2 1));
  let hit_canvas_x := 150 + dx in
  let hit_canvas_y := 200 - dy in
  hit_radius ← int_of_float (fadd (f32_of_Z 5) (fmul (hp_force h) (f32 20 100)));
  lines ← (if fgt (hp_force h) (f32 10 1)
           then mapM (force_line hit_canvas_x hit_canvas_y (hit_radius + 10))
                  [0; 45; 90; 135; 180; 225; 270; 315]
           else Some []);
  Some ([FillBg; DrawRect 120 50 180 350; DrawArc (150, 60) 30 0 360;
         DrawArc (150, 340) 30 0 360;
         DrawArc (hit_canvas_x, hit_canvas_y) hit_radius 0 360] ++ lines).

Definition gk_gui_update_hit_visual (hit_point : option gk_hit_point_t) : M unit :=
  g ← get;
  page ← lift (zget (g_pages g) GK_PAGE_HIT_VISUAL);
  match hit_point, page with
  | Some h, Some page =>
      (* create the canvas when there is none *)
      canvas ← (match g_hit_canvas g with
                | Some c => mret c
                | None => c ← create Canvas page; set_hit_canvas c;; mret c
                end);
      ds ← lift (hit_drawing h);
      draw_all canvas ds;;
      (* the labels of the statistics *)
      match g_stats_labels g with
      | Some _ => mret tt
      | None =>
          a ← create Label page; b ← create Label page;
          c ← create Label page; d ← create Label page;
          set_labels [a; b; c; d]
      end
  | _, _ => mret tt
  end.

(** ** gui_graphics.c *)

(** The lengths of the figure: head radius, torso, arms, legs and line width. *)
Definition stick_lengths (height weight : Z) : option (Z * Z * Z * Z * Z) :=
  let height_scale := fdiv (f32_of_Z height) (f32 170 1) in
  let weight_scale := fdiv (f32_of_Z weight) (f32 70 1) in
  head_radius ← int_of_float (fmul (f32_of_Z 15) height_scale);
  torso_length ← int_of_float (fmul (f32_of_Z 80) height_scale);
  arm_length ← int_of_float (fmul (f32_of_Z 60) height_scale);
  leg_length ← int_of_float (fmul (f32_of_Z 90) height_scale);
  line_width ← int_of_float (fadd (f32_of_Z 2) (fmul weight_scale (f32_of_Z 2)));
  Some (head_radius, torso_length, arm_length, leg_length, line_width).

Definition stick_drawing (height weight gender : Z) : option (list draw) :=
  '(head_radius, torso_length, arm_length, leg_length, _) ← stick_lengths height weight;
  let center_x := 100 in
  let start_y := 50 in
  let torso_start := start_y + head_radius * 2 in
  let torso_end := start_y + head_radius * 2 + torso_length in
  let arm_y := start_y + head_radius * 2 + torso_length `quot` 3 in
  let leg_y := start_y + head_radius * 2 + torso_length + leg_length in
  let skirt_y := start_y + head_radius * 2 + (torso_length * 2) `quot` 3 in
  Some ([FillBg;
    DrawArc (center_x, start_y + head_radius) head_radius 0 360;
    DrawLine (center_x, torso_start) (center_x, torso_end);
    DrawLine (center_x - arm_length, arm_y - 10) (center_x, arm_y);
    DrawLine (center_x, arm_y) (center_x + arm_length, arm_y - 10);
    DrawLine (center_x, torso_end) (center_x - 30, leg_y);
    DrawLine (center_x, torso_end) (center_x + 30, leg_y)] ++
    if bool_decide (gender = 1) then
      [DrawArc (center_x, start_y + head_radius - 5) (head_radius + 5) 180 360;
       DrawTriangle (center_x - 25, skirt_y) (center_x + 25, skirt_y) (center_x, torso_end)]
    else []).

Definition gk_gui_draw_stick_figure (parent height weight gender : Z) : M unit :=
  g ← get;
  canvas ← (match g_stick_figure_canvas g with
            | Some c => mret c
            | None => c ← create Canvas parent; set_stick_canvas c;; mret c
            end);
  ds ← lift (stick_drawing height weight gender);
  draw_all canvas ds.

(** [angle] of corner [i], as the float that the code stores. *)
Definition corner_angle (i : Z) : float :=
  f32_of_f64 (dadd (ddiv (fneg M_PI) (f64_of_Z 2))
    (ddiv (dmul (dmul (f64_of_Z 2) M_PI) (f64_of_Z i)) (f64_of_Z 5))).

(** The point at [radius], a double, from the centre in the direction of corner [i]. *)
Definition corner (radius : float) (i : Z) : option point :=
  let angle := f64_of_f32 (corner_angle i) in
  dx ← int_of_float (dmul radius (cos angle));
  dy ← int_of_float (dmul radius (sin angle));
  Some (200 + dx, 150 + dy).

(** The six points of a closed pentagon whose corner [i] is at [radius i]. *)
Definition pentagon (radius : Z -> float) : option (list point) :=
  mapM (fun i => corner (f64_of_f32 (radius (Z.rem i 5))) (Z.rem i 5)) (seqZ 0 6).

Fixpoint polyline (ps : list point) : list draw :=
  match ps with
  | p :: ((q :: _) as ps') => DrawLine p q :: polyline ps'
  | _ => []
  end.

Fixpoint fan (center : point) (ps : list point) : list draw :=
  match ps with
  | p :: ((q :: _) as ps') => DrawTriangle center p q :: fan center ps'
  | _ => []
  end.

Definition max_radius : Z := 100.

Definition level_radius (level _ : Z) : float :=
  fdiv (f32_of_Z (max_radius * level)) (f32 5 1).

Definition stats_values (s : gk_combat_stats_t) : list Z :=
  [speed s; power s; endurance s; accuracy s; technique s].

Definition stats_radius (s : gk_combat_stats_t) (i : Z) : float :=
  fdiv (f32_of_Z (max_radius * default 0 (zget (stats_values s) i))) (f32 100 1).

Definition stat_label (s : gk_combat_stats_t) (i : Z) : option (list draw) :=
  '(lx, ly) ← corner (f64_of_Z (max_radius + 20)) i;
  v ← zget (stats_values s) i;
  let x := lx - 20 in
  let y := ly - 7 in
  Some [DrawLabel x y (x + 40) (y + 14) None;
        DrawLabel (x + 5) (y + 16) (x + 35) (y + 28) (Some v)].

(** Everything drawn for [s]; the product of the radius and a value is an int. *)
Definition combat_drawing (s : gk_combat_stats_t) : option (list draw) :=
  if forallb (fun v => bool_decide (in_s 32 (max_radius * v))) (stats_values s) then
    grid ← mapM (fun level => pentagon (level_radius level)) [1; 2; 3; 4; 5];
    axes ← mapM (fun i => p ← corner (f64_of_Z max_radius) i;
                          Some (DrawLine (200, 150) p)) (seqZ 0 5);
    stats_points ← pentagon (stats_radius s);
    labels ← mapM (stat_label s) (seqZ 0 5);
    Some ([FillBg] ++ concat (polyline <$> grid) ++ axes ++ polyline stats_points ++
          fan (200, 150) stats_points ++ concat labels)
  else None.

Definition gk_gui_update_combat_stats (stats : option gk_combat_stats_t) : M unit :=
  match stats with Some s => set_stats s | None => mret tt end;;
  g ← get;
  match g_combat_stats_canvas g with
  | None => mret tt
  | Some canvas =>
      ds ← lift (combat_drawing (g_current_stats g));
      draw_all canvas ds
  end.

Definition gk_gui_update_main_stats_page (user_info : gk_user_info_t) : M unit :=
  g ← get;
  page ← lift (zget (g_pages g) GK_PAGE_MAIN_STATS);
  match page with
  | None => mret tt
  | Some page =>
      call (LvClean page);;
      _ ← create Label page;
      gk_gui_draw_stick_figure page (height user_info) (weight user_info) (gender user_info);;
      g ← get;
      match g_combat_stats_canvas g with
      | Some _ => mret tt
      | None => c ← create Canvas page; set_combat_canvas c
      end;;
      gk_gui_update_combat_stats None;;
      _ ← create Label page;
      mret tt
  end.
End drawing.

(** ** Running the code *)

(** Open a run [m g = Some _] step by step. *)
Ltac run_inv :=
  repeat match goal with
  | H : (_ ≫= _) _ = Some (_, _) |- _ =>
      apply bind_inv in H; destruct H as (? & ? & ? & H)
  | H : mret _ _ = Some (_, _) |- _ => injection H as <- <-
  | H : get _ = Some (_, _) |- _ => injection H as <- <-
  | H : call _ _ = Some (_, _) |- _ => injection H as <- <-
  end.

(** ** Pages *)

(** Whether the last call on the hidden flag of [id] hid it. *)
Definition flag_step (id : Z) (hidden : bool) (c : lv_call) : bool :=
  match c with
  | LvAddHidden i => if bool_decide (i = id) then true else hidden
  | LvClearHidden i => if bool_decide (i = id) then false else hidden
  | _ => hidden
  end.

Definition hidden_in (tr : list lv_call) (id : Z) : bool := foldl (flag_step id) false tr.

Lemma hidden_snoc tr c id : hidden_in (tr ++ [c]) id = flag_step id (hidden_in tr id) c.
Proof. unfold hidden_in. by rewrite foldl_app. Qed.

(** Page [p] is the only one that is not hidden. *)
Definition only_visible (g : gui) (p : Z) : Prop :=
  forall q id, zget (g_pages g) q = Some (Some id) ->
    hidden_in (trace g) id = negb (bool_decide (q = p)).

Lemma calls_run cs g :
  calls cs g = Some (tt, Gui (g_pages g) (g_current_page g) (g_hit_canvas g)
    (g_stats_labels g) (g_combat_stats_canvas g) (g_stick_figure_canvas g)
    (g_current_stats g) (next_id g) (trace g ++ cs)).
Proof.
  revert g. induction cs as [|c cs IH]; intros g.
  - rewrite app_nil_r. by destruct g.
  - simpl. unfold mbind, prog_bind, call. rewrite IH. simpl.
    by rewrite <- app_assoc.
Qed.

Lemma hidden_show tr ids x id :
  id ∈ ids -> hidden_in ((tr ++ (LvAddHidden <$> ids)) ++ [LvClearHidden x]) id =
    negb (bool_decide (x = id)).
Proof.
  intros Hid. rewrite hidden_snoc. simpl. case_bool_decide; [done|]. simpl.
  unfold hidden_in. rewrite foldl_app. generalize (foldl (flag_step id) false tr).
  assert (Hkeep : forall l, foldl (flag_step id) true (LvAddHidden <$> l) = true).
  { induction l as [|i l IH]; [done|]. simpl. by case_bool_decide. }
  induction ids as [|i ids IH]; intros b; [by apply not_elem_of_nil in Hid|]. simpl.
  case_bool_decide; [apply Hkeep|]. apply IH. apply elem_of_cons in Hid as [->|?]; done.
Qed.

(** Once the three pages exist, showing a page succeeds, makes it the current page
    and the only one that is not hidden; showing an invalid page changes nothing. *)
Theorem show_page_ok g a b c page :
  g_pages g = [Some a; Some b; Some c] -> NoDup [a; b; c] -> 0 <= page ->
  exists g', gk_gui_show_page page g = Some (tt, g') /\
    (3 <= page -> g' = g) /\
    (page < 3 -> g_current_page g' = page /\ only_visible g' page /\
       g_pages g' = g_pages g).
Proof.
  intros Hp Hnd Hpage. unfold gk_gui_show_page, GK_PAGE_MAX. case_bool_decide as Hge.
  { exists g. split; [done|]. split; [done|]. lia. }
  unfold mbind, prog_bind, get. rewrite calls_run. rewrite Hp.
  change (omap id [Some a; Some b; Some c]) with [a; b; c].
  destruct (zget_is_Some [Some a; Some b; Some c] page) as [p Hpg];
    [change (zlen [Some a; Some b; Some c]) with 3; lia|].
  unfold lift. rewrite Hpg.
  assert (exists x, p = Some x) as [x ->].
  { unfold zget in Hpg. rewrite bool_decide_true in Hpg by lia.
    assert (page = 0 \/ page = 1 \/ page = 2) as [-> | [-> | ->]] by lia; injection Hpg as <-; eauto. }
  eexists. split; [done|]. split; [lia|]. intros _. split; [done|]. split; [|done].
  intros q id Hq. cbn [trace g_pages] in Hq |- *. rewrite hidden_show.
  - f_equal. apply bool_decide_ext. split; [intros ->|intros ->; by simplify_eq].
    unfold zget in Hq, Hpg. case_bool_decide; [|done]. rewrite bool_decide_true in Hpg by lia.
    assert (Hinj : NoDup [Some a; Some b; Some c])
      by (apply (NoDup_fmap_2 Some [a; b; c]); done).
    pose proof (NoDup_lookup _ _ _ _ Hinj Hq Hpg). lia.
  - unfold zget in Hq. case_bool_decide; [|done].
    apply list_elem_of_lookup_2 in Hq. set_solver.
Qed.

Lemma show_page_ok_witness :
  exists g', gk_gui_show_page 2 (Gui [Some 4; Some 5; Some 6] 0 None None None None
      (CombatStats 1 2 3 4 5) 7 []) = Some (tt, g') /\
    (3 <= 2 -> g' = Gui [Some 4; Some 5; Some 6] 0 None None None None
      (CombatStats 1 2 3 4 5) 7 []) /\
    (2 < 3 -> g_current_page g' = 2 /\ only_visible g' 2 /\
       g_pages g' = [Some 4; Some 5; Some 6]).
Proof.
  apply (show_page_ok (Gui [Some 4; Some 5; Some 6] 0 None None None None
    (CombatStats 1 2 3 4 5) 7 []) 4 5 6 2); [done| |lia].
  apply (bool_decide_eq_true_1 (NoDup [4; 5; 6])). by vm_compute.
Defined.

(** ** Reachable pages *)

(** The user clicks a button of a page that is not hidden, or the main loop shows a
    hit. *)
Inductive gui_step (cosf sinf : float -> float) (g : gui) : gui -> Prop :=
  | step_click p page btn cb g' :
      zget (g_pages g) p = Some (Some page) -> hidden_in (trace g) page = false ->
      LvCreate Button page btn ∈ trace g -> LvEventCb btn cb ∈ trace g ->
      run_handler cb true g = Some (tt, g') -> gui_step cosf sinf g g'
  | step_hit h g' :
      gk_gui_update_hit_visual cosf sinf (Some h) g = Some (tt, g') ->
      gui_step cosf sinf g g'.

(** Entries that create no button and show or hide nothing. *)
Definition quiet_call (c : lv_call) : bool :=
  match c with
  | LvCreate Button _ _ | LvAddHidden _ | LvClearHidden _ => false
  | _ => true
  end.

(** [g'] is [g] after quiet calls. *)
Definition quiet (g g' : gui) : Prop :=
  g_pages g' = g_pages g /\ g_current_page g' = g_current_page g /\
  exists tr, trace g' = trace g ++ tr /\ forallb quiet_call tr = true.

#[export] Instance quiet_preorder : PreOrder quiet.
Proof.
  split.
  - intros g. split; [done|]. split; [done|]. exists []. by rewrite app_nil_r.
  - intros g1 g2 g3 (Hp1 & Hc1 & t1 & Ht1 & Hq1) (Hp2 & Hc2 & t2 & Ht2 & Hq2).
    split; [congruence|]. split; [congruence|]. exists (t1 ++ t2).
    rewrite Ht2, Ht1, app_assoc, forallb_app, Hq1. done.
Qed.

Notation quiet_run := (keeps quiet).

Lemma quiet_call_run c : quiet_call c = true -> quiet_run (call c).
Proof.
  intros Hc g y g' [= <- <-]. split; [done|]. split; [done|]. exists [c]. simpl.
  by rewrite Hc.
Qed.

Lemma quiet_create w parent : w <> Button -> quiet_run (create w parent).
Proof.
  intros Hw g y g' [= <- <-]. split; [done|]. split; [done|].
  eexists. split; [done|]. by destruct w.
Qed.

Lemma quiet_draw_all canvas ds : quiet_run (draw_all canvas ds).
Proof.
  unfold draw_all. induction ds as [|d ds IH]; [apply keeps_ret; apply _|].
  apply keeps_bind; [apply _|by apply quiet_call_run|done].
Qed.

Lemma quiet_same {A} (m : M A) :
  (forall g x g', m g = Some (x, g') -> g_pages g' = g_pages g /\
     g_current_page g' = g_current_page g /\ trace g' = trace g) -> quiet_run m.
Proof.
  intros Hm g x g' (? & ? & ?)%Hm. split; [done|]. split; [done|]. exists [].
  by rewrite app_nil_r.
Qed.

#[local] Hint Resolve quiet_draw_all quiet_call_run quiet_create : prog.
#[local] Hint Extern 2 (quiet_run _) => by apply quiet_same; intros ? ? ? [= <- <-] : prog.

Lemma quiet_hit_visual cosf sinf h : quiet_run (gk_gui_update_hit_visual cosf sinf h).
Proof. unfold gk_gui_update_hit_visual. keep. Qed.

Lemma quiet_hidden g g' id : quiet g g' -> hidden_in (trace g') id = hidden_in (trace g) id.
Proof.
  intros (_ & _ & tr & -> & Hq). unfold hidden_in. rewrite foldl_app.
  generalize (foldl (flag_step id) false (trace g)).
  induction tr as [|c tr IH]; intros b; [done|]. simpl in *.
  apply andb_true_iff in Hq as [Hc Hq]. rewrite IH by done. by destruct c.
Qed.

Lemma quiet_buttons g g' p b :
  quiet g g' -> LvCreate Button p b ∈ trace g' -> LvCreate Button p b ∈ trace g.
Proof.
  intros (_ & _ & tr & -> & Hq) [?|Hin]%elem_of_app; [done|].
  apply list_elem_of_In in Hin. rewrite forallb_forall in Hq. by specialize (Hq _ Hin).
Qed.

(** The application's start: [gk_gui_init], then the main task shows the first page. *)
Definition gui_boot : M unit := gk_gui_init;; gk_gui_show_page GK_PAGE_MAIN_STATS.

(** However the user clicks and whatever hits are shown, the application stays on
    the main page: the hit page and the training page are hidden for ever, because the main
    page has no button and nothing else calls the navigation. *)
Theorem gui_stays_on_main cosf sinf g0 g :
  gui_boot gui_start = Some (tt, g0) -> rtc (gui_step cosf sinf) g0 g ->
  g_current_page g = GK_PAGE_MAIN_STATS /\ only_visible g GK_PAGE_MAIN_STATS.
Proof.
  intros Hboot Hrun.
  assert (Hinv : g_pages g0 = [Some 1; Some 2; Some 16] /\
    g_current_page g0 = GK_PAGE_MAIN_STATS /\ only_visible g0 GK_PAGE_MAIN_STATS /\
    forall b, LvCreate Button 1 b ∉ trace g0).
  { vm_compute in Hboot. injection Hboot as <-. split; [done|]. split; [done|]. split.
    - intros q id Hq. pose proof (zget_inv _ _ _ Hq) as Hr. simpl in Hq, Hr.
      change (zlen [Some 1; Some 2; Some 16]) with 3 in Hr.
      assert (q = 0 \/ q = 1 \/ q = 2) as [-> | [-> | ->]] by lia; injection Hq as <-; done.
    - intros b Hin. simpl in Hin.
      repeat (apply elem_of_cons in Hin as [Hin|Hin]; [discriminate Hin|]).
      by apply not_elem_of_nil in Hin. }
  clear Hboot. revert Hinv. induction Hrun as [g|g g1 g2 Hs _ IH]; [naive_solver|].
  intros (Hp & Hc & Hv & Hb). apply IH. clear IH. destruct Hs as [p page btn cb g1 Hpg Hh Hbtn _ _|h g1 Hhit].
  - exfalso. rewrite (Hv p page Hpg) in Hh. apply negb_false_iff, bool_decide_eq_true in Hh as ->.
    rewrite Hp in Hpg. injection Hpg as <-. by apply (Hb btn).
  - pose proof (quiet_hit_visual _ _ _ _ _ _ Hhit) as Hq. pose proof Hq as (Hp' & Hc' & _).
    split; [congruence|]. split; [congruence|]. split.
    + intros q id Hid. rewrite Hp' in Hid. by rewrite (quiet_hidden _ _ _ Hq), (Hv q id Hid).
    + intros b Hin. by apply (Hb b), (quiet_buttons _ _ _ _ Hq).
Qed.

Lemma gui_stays_on_main_witness :
  let g0 := default gui_start (snd <$> gui_boot gui_start) in
  exists g, rtc (gui_step (fun x => x) (fun x => x)) g0 g /\ g_hit_canvas g = Some 31 /\
    g_current_page g = GK_PAGE_MAIN_STATS /\ only_visible g GK_PAGE_MAIN_STATS.
Proof.
  set (g0 := default gui_start (snd <$> gui_boot gui_start)).
  set (g1 := default gui_start (snd <$> gk_gui_update_hit_visual (fun x => x) (fun x => x)
    (Some (HitPoint (f32 3 1) (f32 4 1) (f32 6 1) f0 0)) g0)).
  assert (Hrun : rtc (gui_step (fun x => x) (fun x => x)) g0 g1).
  { apply rtc_once. eapply (step_hit _ _ _ (HitPoint (f32 3 1) (f32 4 1) (f32 6 1) f0 0)).
    vm_compute. reflexivity. }
  exists g1. split; [exact Hrun|]. split; [by vm_compute|].
  apply (gui_stays_on_main (fun x => x) (fun x => x) g0 g1); [by vm_compute|exact Hrun].
Defined.

(** ** Drawings *)

(** All of [d] is inside a canvas of [w] by [h] pixels. *)
Definition in_box (w h x y : Z) : bool := bool_decide (0 <= x < w /\ 0 <= y < h).

Definition draw_inside (w h : Z) (d : draw) : bool :=
  match d with
  | FillBg => true
  | DrawRect x1 y1 x2 y2 | DrawLabel x1 y1 x2 y2 _ => in_box w h x1 y1 && in_box w h x2 y2
  | DrawArc (x, y) r _ _ => in_box w h (x - r) (y - r) && in_box w h (x + r) (y + r)
  | DrawLine (x1, y1) (x2, y2) => in_box w h x1 y1 && in_box w h x2 y2
  | DrawTriangle (x1, y1) (x2, y2) (x3, y3) =>
      in_box w h x1 y1 && in_box w h x2 y2 && in_box w h x3 y3
  end.

Definition line_width (weight : Z) : option Z :=
  int_of_float (fadd (f32_of_Z 2) (fmul (fdiv (f32_of_Z weight) (f32 70 1)) (f32_of_Z 2))).

Lemma stick_drawing_weight h w w' s :
  is_Some (line_width w) -> is_Some (line_width w') -> stick_drawing h w s = stick_drawing h w' s.
Proof.
  intros [lw Hw] [lw' Hw']. unfold stick_drawing, stick_lengths.
  unfold line_width in Hw, Hw'. rewrite Hw, Hw'.
  repeat match goal with |- context [int_of_float ?x ≫= _] => destruct (int_of_float x); [|done] end.
  done.
Qed.

(** For every height, weight and gender that [gk_user_update_info] accepts the
    stick figure is drawn without undefined conversions, and it is inside its canvas of 200 by
    300 pixels exactly up to a height of 214 cm: the legs of taller users leave it. *)
Theorem stick_figure_fits h w s :
  100 <= h <= 220 -> 30 <= w <= 200 -> 0 <= s <= 1 ->
  exists ds, stick_drawing h w s = Some ds /\
    forallb (draw_inside 200 300) ds = bool_decide (h <= 214).
Proof.
  intros Hh Hw Hs. rewrite (stick_drawing_weight h w 70).
  - pose proof (below_forallb (fun i => forallb (fun s =>
      match stick_drawing (100 + i) 70 s with
      | Some ds => eqb (forallb (draw_inside 200 300) ds) (bool_decide (100 + i <= 214))
      | None => false
      end) [0; 1]) 121 ltac:(by vm_compute) (h - 100) ltac:(lia)) as H.
    cbv beta in H. rewrite forallb_forall in H. specialize (H s).
    replace (100 + (h - 100)) with h in H by lia.
    destruct (stick_drawing h 70 s) as [ds|].
    + exists ds. split; [done|]. apply eqb_prop, H. simpl. lia.
    + discriminate H. simpl. lia.
  - pose proof (below_forallb (fun i => match line_width (30 + i) with Some _ => true | None => false end)
      171 ltac:(by vm_compute) (w - 30) ltac:(lia)) as H.
    cbv beta in H. replace (30 + (w - 30)) with w in H by lia. by destruct (line_width w).
  - vm_compute; eauto.
Qed.

Lemma stick_figure_fits_witness :
  (exists ds, stick_drawing 175 70 0 = Some ds /\ forallb (draw_inside 200 300) ds = true) /\
  (exists ds, stick_drawing 219 90 1 = Some ds /\ forallb (draw_inside 200 300) ds = false).
Proof. split; [apply (stick_figure_fits 175 70 0)|apply (stick_figure_fits 219 90 1)]; lia. Defined.

(** Consecutive lines, each starting where the one before ends. *)
Fixpoint connected (start : point) (ds : list draw) (finish : point) : Prop :=
  match ds with
  | [] => start = finish
  | DrawLine p q :: ds => p = start /\ connected q ds finish
  | _ => False
  end.

Lemma mapM_6 {B} (f : Z -> option B) ps :
  mapM f (seqZ 0 6) = Some ps ->
  exists a b c d e z, ps = [a; b; c; d; e; z] /\ f 0 = Some a /\ f 5 = Some z.
Proof.
  change (seqZ 0 6) with [0; 1; 2; 3; 4; 5]. intros H%mapM_Some.
  repeat match goal with
  | H : Forall2 _ (_ :: _) _ |- _ => inversion H; clear H; subst
  | H : Forall2 _ [] _ |- _ => inversion H; clear H; subst
  end. eauto 12.
Qed.

(** Whatever the statistics and the trigonometric functions are, each pentagon is
    drawn as five connected lines that return to their start. *)
Theorem pentagon_closed cos sin radius ps :
  pentagon cos sin radius = Some ps ->
  exists p, head ps = Some p /\ connected p (polyline ps) p /\ zlen (polyline ps) = 5.
Proof.
  intros H. unfold pentagon in H. apply mapM_6 in H as (a & b & c & d & e & z & -> & H0 & H5).
  change (Z.rem 5 5) with (Z.rem 0 5) in H5. rewrite H0 in H5. injection H5 as ->.
  exists z. by split_and!.
Qed.

Lemma pentagon_closed_witness :
  let one := f64_of_Z 1 in
  exists ps p, pentagon (fun _ => one) (fun x => x) (stats_radius (CombatStats 90 20 40 70 10)) = Some ps /\
    head ps = Some p /\ connected p (polyline ps) p /\ zlen (polyline ps) = 5.
Proof.
  intros one.
  destruct (pentagon (fun _ => one) (fun x => x) (stats_radius (CombatStats 90 20 40 70 10))) as [ps|] eqn:E;
    [|vm_compute in E; discriminate].
  destruct (pentagon_closed (fun _ => one) (fun x => x) _ ps E) as (p & H). exists ps, p. split; [reflexivity|exact H].
Defined.

(** ** The main page's content *)

Lemma quiet_stick parent h w s : quiet_run (gk_gui_draw_stick_figure parent h w s).
Proof. unfold gk_gui_draw_stick_figure. keep. Qed.

Lemma quiet_combat cos sin s : quiet_run (gk_gui_update_combat_stats cos sin s).
Proof. unfold gk_gui_update_combat_stats. keep. Qed.

Lemma quiet_in g g' c : quiet g g' -> c ∈ trace g -> c ∈ trace g'.
Proof. intros (_ & _ & tr & -> & _) ?. apply elem_of_app. by left. Qed.

(** Runs after which the canvas of the stick figure is the one before. *)
Definition same_stick (g g' : gui) : Prop := g_stick_figure_canvas g' = g_stick_figure_canvas g.
#[export] Instance same_stick_preorder : PreOrder same_stick.
Proof. split; [done|]. intros g1 g2 g3 H1 H2. unfold same_stick in *. congruence. Qed.

Notation keeps_stick := (keeps same_stick).

Lemma keeps_draw_all canvas ds : keeps_stick (draw_all canvas ds).
Proof.
  intros g x g' H. unfold draw_all in H. rewrite calls_run in H. by injection H as <- <-.
Qed.

#[local] Hint Resolve keeps_draw_all : prog.
#[local] Hint Extern 2 (keeps_stick _) => by intros ? ? ? [= <- <-] : prog.

Lemma keeps_combat cos sin s : keeps_stick (gk_gui_update_combat_stats cos sin s).
Proof. unfold gk_gui_update_combat_stats. keep. Qed.
#[local] Hint Resolve keeps_combat quiet_combat : prog.

(** Drawing the figure leaves its canvas in the variable; the canvas either was there or
    has just been created on [parent], and it is drawn on. *)
Lemma draw_stick_run parent h w s g g' :
  gk_gui_draw_stick_figure parent h w s g = Some (tt, g') ->
  exists c, g_stick_figure_canvas g' = Some c /\ LvDraw c FillBg ∈ trace g' /\
    match g_stick_figure_canvas g with
    | Some c0 => c = c0 /\ exists tr, trace g' = trace g ++ tr /\ LvDraw c FillBg ∈ tr
    | None => LvCreate Canvas parent c ∈ trace g'
    end.
Proof.
  unfold gk_gui_draw_stick_figure. intros H. run_inv.
  rename x1 into c. rename x3 into ds.
  assert (Hds : ds = FillBg :: tail ds /\ x4 = x2).
  { unfold lift in *. destruct (stick_drawing h w s) as [ds'|] eqn:E; [|done].
    unfold stick_drawing in E. destruct (stick_lengths h w) as [[[[[? ?] ?] ?] ?]|]; [|done].
    simpl in E. injection E as <-. by injection H2 as <- <-. }
  destruct Hds as [Hds ->]. clear H2.
  unfold draw_all in H. rewrite calls_run in H. injection H as <-. cbn [trace g_stick_figure_canvas].
  assert (Hfill : LvDraw c FillBg ∈ (LvDraw c <$> ds)) by (rewrite Hds; left).
  exists c. destruct (g_stick_figure_canvas g) as [c0|] eqn:Hc.
  - injection H1 as <- <-. split; [done|]. split; [by apply elem_of_app; right|].
    split; [done|]. eauto.
  - apply bind_inv in H1 as (c1 & g3 & Hcr & H1). apply bind_inv in H1 as ([] & g4 & Hset & H1).
    injection Hcr as <- <-. injection Hset as <-. injection H1 as <- <-. cbn. split; [done|].
    split; [by apply elem_of_app; right|]. apply elem_of_app; left. apply elem_of_app; right. left.
Qed.

(** A run of the update: the page is emptied, the figure drawn, and the rest only adds to
    the trace. *)
Lemma main_stats_run cos sin u g page g' :
  zget (g_pages g) GK_PAGE_MAIN_STATS = Some (Some page) ->
  gk_gui_update_main_stats_page cos sin u g = Some (tt, g') ->
  exists ga gb, g_stick_figure_canvas ga = g_stick_figure_canvas g /\
    (exists id, trace ga = trace g ++ [LvClean page; LvCreate Label page id]) /\
    gk_gui_draw_stick_figure page (height u) (weight u) (gender u) ga = Some (tt, gb) /\
    quiet gb g' /\ g_stick_figure_canvas g' = g_stick_figure_canvas gb /\
    g_pages g' = g_pages g.
Proof.
  intros Hpage H. unfold gk_gui_update_main_stats_page in H.
  apply bind_inv in H as (x & g1 & Hget & H). injection Hget as <- <-.
  apply bind_inv in H as (p & g2 & Hp & H). unfold lift in Hp. rewrite Hpage in Hp.
  injection Hp as <- <-.
  apply bind_inv in H as ([] & g3 & Hclean & H). injection Hclean as <-.
  apply bind_inv in H as (l & ga & Hlabel & H). injection Hlabel as <- <-.
  apply bind_inv in H as ([] & gb & Hstick & H).
  eexists _, gb. split; [|split; [|split; [exact Hstick|]]]; [done|cbn; eexists; by rewrite <- app_assoc|].
  match type of H with ?m _ = _ => assert (Hq : quiet_run m /\ keeps_stick m) end.
  { split; keep. }
  destruct Hq as [Hq Hk]. specialize (Hq _ _ _ H). split; [done|]. split; [by eapply Hk|].
  destruct Hq as (-> & _). apply quiet_stick in Hstick as (-> & _). done.
Qed.

(** Filling the main page a second time draws on a widget that it has just deleted:
    the canvas of the figure was created as a child of the page by the first call, and the
    second call empties the page with [lv_obj_clean] before drawing on that canvas again. *)
Theorem main_stats_draws_on_deleted cos sin u1 u2 g page g1 g2 :
  zget (g_pages g) GK_PAGE_MAIN_STATS = Some (Some page) -> g_stick_figure_canvas g = None ->
  gk_gui_update_main_stats_page cos sin u1 g = Some (tt, g1) ->
  gk_gui_update_main_stats_page cos sin u2 g1 = Some (tt, g2) ->
  exists c before after, trace g2 = before ++ LvClean page :: after /\
    LvCreate Canvas page c ∈ before /\ LvDraw c FillBg ∈ after.
Proof.
  intros Hpage Hnone H1 H2. 
  apply main_stats_run with (page := page) in H1 as (ga & gb & Ha & _ & Hs1 & Hq1 & Hk1 & Hp1); [|done].
  apply main_stats_run with (page := page) in H2 as (gc & gd & Hc & [id Htc] & Hs2 & Hq2 & _);
    [|by rewrite Hp1].
  apply draw_stick_run in Hs1 as (c & Hcb & _ & Hcr). rewrite Ha, Hnone in Hcr.
  apply draw_stick_run in Hs2 as (c' & _ & _ & Hd). rewrite Hc, Hk1, Hcb in Hd.
  destruct Hd as (-> & tr & Htd & Hin). destruct Hq2 as (_ & _ & tr2 & Htr2 & _).
  exists c, (trace g1), (LvCreate Label page id :: tr ++ tr2). split_and!.
  - rewrite Htr2, Htd, Htc, <- !app_assoc. done.
  - by eapply quiet_in.
  - right. apply elem_of_app. by left.
Qed.

Lemma main_stats_draws_on_deleted_witness :
  let g0 := default gui_start (snd <$> gui_boot gui_start) in
  let u := UserInfo [] [] 175 70 0 true in
  let one := f64_of_Z 1 in
  let up := gk_gui_update_main_stats_page (fun _ => one) (fun _ => one) u in
  let g1 := default g0 (snd <$> up g0) in
  let g2 := default g0 (snd <$> up g1) in
  exists c before after, trace g2 = before ++ LvClean 1 :: after /\
    LvCreate Canvas 1 c ∈ before /\ LvDraw c FillBg ∈ after.
Proof.
  intros g0 u one up g1 g2.
  apply (main_stats_draws_on_deleted (fun _ => one) (fun _ => one) u u g0 1 g1 g2);
    vm_compute; reflexivity.
Defined.
