(* ===== verification/TuyaList.v ===== *)
(** * Circular doubly linked lists

    src/tools/porting/adapter/utilities/src/tuya_list.c and the loops of tuya_list.h on an
    explicit store: a node is an address and the store maps it to its [next] and [prev]
    fields. The lemmas relate every operation to an operation on the sequence of nodes. *)
From S2P Require Import Prelude.

Record links := Links { nxt : gmap Z Z; prv : gmap Z Z }.

Definition set_next (h : links) (a b : Z) : links := Links (<[a := b]> (nxt h)) (prv h).
Definition set_prev (h : links) (a b : Z) : links := Links (nxt h) (<[a := b]> (prv h)).

(** Reading a field of an address that holds no node is undefined. *)
Definition get_next (h : links) (a : Z) : option Z := nxt h !! a.
Definition get_prev (h : links) (a : Z) : option Z := prv h !! a.

Definition INIT_LIST_HEAD (h : links) (ptr : Z) : links :=
  set_prev (set_next h ptr ptr) ptr ptr.

Definition list_add_ (h : links) (pNew pPrev pNext : Z) : links :=
  let h := set_prev h pNext pNew in
  let h := set_next h pNew pNext in
  let h := set_prev h pNew pPrev in
  set_next h pPrev pNew.

Definition list_del_ (h : links) (pPrev pNext : Z) : links :=
  let h := set_prev h pNext pPrev in
  set_next h pPrev pNext.

Definition tuya_list_empty (h : links) (pHead : Z) : option bool :=
  n ← get_next h pHead; Some (bool_decide (n = pHead)).

Definition tuya_list_add (h : links) (pNew pHead : Z) : option links :=
  n ← get_next h pHead; Some (list_add_ h pNew pHead n).

Definition tuya_list_add_tail (h : links) (pNew pHead : Z) : option links :=
  p ← get_prev h pHead; Some (list_add_ h pNew p pHead).

Definition tuya_list_del (h : links) (pEntry : Z) : option links :=
  p ← get_prev h pEntry; n ← get_next h pEntry; Some (list_del_ h p n).

Definition tuya_list_del_init (h : links) (pEntry : Z) : option links :=
  h ← tuya_list_del h pEntry; Some (INIT_LIST_HEAD h pEntry).

Definition tuya_list_splice (h : links) (pList pHead : Z) : option links :=
  pFirst ← get_next h pList;
  if bool_decide (pFirst <> pList) then
    pLast ← get_prev h pList;
    pAt ← get_next h pHead;
    let h := set_prev h pFirst pHead in
    let h := set_next h pHead pFirst in
    let h := set_next h pLast pAt in
    Some (set_prev h pAt pLast)
  else Some h.

(** [tuya_list_for_each], up to the first node that satisfies [stop], which may be
    undefined on a node: that node, or the head when the loop runs out. *)
Fixpoint for_each_until (fuel : nat) (h : links) (head p : Z) (stop : Z -> option bool)
    : option Z :=
  match fuel with
  | O => None
  | S fuel =>
      if bool_decide (p = head) then Some head
      else
        b ← stop p;
        if (b : bool) then Some p
        else n ← get_next h p; for_each_until fuel h head n stop
  end.

(** ** Sequences of nodes *)

Definition link (h : links) (a b : Z) : Prop := nxt h !! a = Some b /\ prv h !! b = Some a.

(** From [a] through [l] to [b]. *)
Fixpoint chain (h : links) (a : Z) (l : list Z) (b : Z) : Prop :=
  match l with
  | [] => link h a b
  | x :: l => link h a x /\ chain h x l b
  end.

(** The list with head [head] has the nodes [l]. *)
Definition dll (h : links) (head : Z) (l : list Z) : Prop :=
  chain h head l head /\ NoDup (head :: l).

(** [h'] has the same fields as [h] on the nodes [ns]. *)
Definition same_on (h h' : links) (ns : list Z) : Prop :=
  forall a, a ∈ ns -> nxt h' !! a = nxt h !! a /\ prv h' !! a = prv h !! a.

Lemma chain_app h a l1 x l2 b :
  chain h a (l1 ++ x :: l2) b <-> chain h a l1 x /\ chain h x l2 b.
Proof.
  revert a. induction l1 as [|y l1 IH]; intros a; simpl; [done|]. rewrite IH. tauto.
Qed.

Lemma chain_same h h' a l b :
  chain h a l b ->
  (forall x, x ∈ a :: l -> nxt h' !! x = nxt h !! x) ->
  (forall x, x ∈ l ++ [b] -> prv h' !! x = prv h !! x) ->
  chain h' a l b.
Proof.
  revert a. induction l as [|y l IH]; intros a; simpl.
  - intros [Hn Hp] H1 H2. split; [rewrite H1|rewrite H2]; set_solver.
  - intros [[Hn Hp] Hc] H1 H2. split; [split; [rewrite H1|rewrite H2]; set_solver|].
    apply IH; set_solver.
Qed.

Lemma dll_same h h' head l : dll h head l -> same_on h h' (head :: l) -> dll h' head l.
Proof.
  intros [Hc Hnd] Hs. split; [|done].
  eapply chain_same; [done| |]; intros x Hx; apply Hs; set_solver.
Qed.

Lemma INIT_LIST_HEAD_ok h head : dll (INIT_LIST_HEAD h head) head [].
Proof.
  split; [|apply NoDup_singleton]. split; simpl; by rewrite lookup_insert_eq.
Qed.

Lemma INIT_LIST_HEAD_other h head ns :
  head ∉ ns -> same_on h (INIT_LIST_HEAD h head) ns.
Proof.
  intros Hn a Ha. simpl. by rewrite !lookup_insert_ne by set_solver.
Qed.

(** The node before position [l1] and after it, in a list with head [head]. *)
Definition before (head : Z) (l1 : list Z) : Z := default head (last l1).
Definition after (head : Z) (l2 : list Z) : Z := hd head l2.

Lemma before_snoc head l x : before head (l ++ [x]) = x.
Proof. unfold before. by rewrite last_snoc. Qed.

Lemma add_chain h x p l e :
  chain h p l e -> p ∉ l -> x ∉ p :: l ++ [e] -> after e l ∉ tail (l ++ [e]) ->
  chain (list_add_ h x p (after e l)) p (x :: l) e.
Proof.
  intros Hc Hp Hx Hq.
  assert (Hlinks : link (list_add_ h x p (after e l)) p x /\
    link (list_add_ h x p (after e l)) x (after e l)).
  { assert (x <> p /\ x <> after e l) as [? ?] by (destruct l; set_solver).
    split; split; simpl; rewrite ?(lookup_insert_ne _ p x), ?(lookup_insert_ne _ x (after e l))
      by done; by rewrite lookup_insert_eq. }
  destruct l as [|q l]; [done|]. destruct Hlinks as [H1 H2]. split; [done|]. split; [done|].
  destruct Hc as [_ Hc]. simpl in *.
  eapply chain_same; [done| |]; intros y Hy; simpl;
    by rewrite !lookup_insert_ne by set_solver.
Qed.

Lemma dll_split h head l1 l2 :
  dll h head (l1 ++ l2) ->
  chain h (before head l1) l2 head /\
  forall h', (forall a, a ∈ head :: l1 -> a <> before head l1 -> nxt h' !! a = nxt h !! a) ->
    (forall a, a ∈ l1 -> prv h' !! a = prv h !! a) ->
    forall l, chain h' (before head l1) l head -> NoDup (head :: l1 ++ l) -> dll h' head (l1 ++ l).
Proof.
  intros [Hc Hnd]. destruct l1 as [|p l1 _] using rev_ind.
  { split; [done|]. intros h' _ _ l Hl Hn. done. }
  rewrite before_snoc. rewrite <- app_assoc in *. simpl in Hc. apply chain_app in Hc as [Hc1 Hc2].
  split; [done|]. intros h' H1 H2 l Hl Hn. rewrite <- app_assoc in *. split; [|done].
  simpl. apply chain_app. split; [|done]. eapply chain_same; [done| |].
  - intros x Hx. apply H1; [set_solver|]. intros ->. rewrite !NoDup_cons, NoDup_app in Hnd. 
    set_solver.
  - intros x Hx. apply H2. set_solver.
Qed.

(** Linking [x] in after [l1]. *)
Lemma list_add_ok h x l1 l2 head :
  dll h head (l1 ++ l2) -> x ∉ head :: l1 ++ l2 ->
  dll (list_add_ h x (before head l1) (after head l2)) head (l1 ++ x :: l2).
Proof.
  intros Hd Hx. pose proof Hd as [_ Hnd]. destruct (dll_split _ _ _ _ Hd) as [Hc Hback].
  assert (Hb : before head l1 ∈ head :: l1).
  { destruct l1 as [|p l1 _] using rev_ind; [left|]. rewrite before_snoc. set_solver. }
  assert (Ha : after head l2 ∈ l2 ++ [head]) by (destruct l2; set_solver).
  assert (Hnd' : head ∉ l1 /\ head ∉ l2 /\ NoDup l1 /\ NoDup l2 /\ forall a, a ∈ l1 -> a ∉ l2)
    by (rewrite NoDup_cons, NoDup_app in Hnd; set_solver).
  destruct Hnd' as (? & ? & ? & Hn2 & Hdis).
  assert (Ha' : after head l2 ∉ l1)
    by (destruct l2 as [|q l2]; simpl; [done|]; intros Hq; apply (Hdis q Hq); left).
  assert (Hb' : before head l1 ∉ l2)
    by (apply elem_of_cons in Hb as [-> | Hb]; [done|by apply Hdis]).
  apply Hback.
  - intros a Ha1 Hne. simpl. rewrite !lookup_insert_ne by set_solver. done.
  - intros a Ha1. simpl. rewrite !lookup_insert_ne by set_solver. done.
  - apply add_chain; [done|set_solver|set_solver|].
    destruct l2 as [|q l2]; simpl; [set_solver|]. apply NoDup_cons in Hn2. set_solver.
  - rewrite NoDup_cons, NoDup_app, NoDup_cons. set_solver.
Qed.

Lemma list_add_other h x p q ns :
  x ∉ ns -> p ∉ ns -> q ∉ ns -> same_on h (list_add_ h x p q) ns.
Proof. intros ? ? ? a Ha. simpl. by rewrite !lookup_insert_ne by set_solver. Qed.

(** Taking [x] out. *)
Lemma list_del_ok h x l1 l2 head :
  dll h head (l1 ++ x :: l2) ->
  dll (list_del_ h (before head l1) (after head l2)) head (l1 ++ l2) /\
  prv h !! x = Some (before head l1) /\ nxt h !! x = Some (after head l2).
Proof.
  intros Hd. pose proof Hd as [_ Hnd]. destruct (dll_split _ _ _ _ Hd) as [Hc Hback].
  assert (Hnd' : head ∉ l1 /\ head ∉ l2 /\ NoDup l1 /\ NoDup l2 /\ (forall a, a ∈ l1 -> a ∉ l2) /\
    x <> head /\ x ∉ l1 /\ x ∉ l2)
    by (rewrite NoDup_cons, NoDup_app, NoDup_cons in Hnd; set_solver).
  assert (Hb : before head l1 ∈ head :: l1).
  { destruct l1 as [|p l1 _] using rev_ind; [left|]. rewrite before_snoc. set_solver. }
  destruct Hnd' as (? & ? & ? & Hn2 & Hdis & ? & ? & ?).
  assert (Ha' : after head l2 ∉ l1)
    by (destruct l2 as [|q l2]; simpl; [done|]; intros Hq; apply (Hdis q Hq); left).
  assert (Hb' : before head l1 ∉ l2)
    by (apply elem_of_cons in Hb as [-> | Hb]; [done|by apply Hdis]).
  assert (Ha : after head l2 ∈ l2 ++ [head]) by (destruct l2; set_solver).
  destruct Hc as [[Hpx Hxp] Hc]. split; [|split; [done|]].
  - apply Hback.
    + intros a Ha1 Hne. simpl. rewrite !lookup_insert_ne by set_solver. done.
    + intros a Ha1. simpl. rewrite !lookup_insert_ne by set_solver. done.
    + assert (Hl : link (list_del_ h (before head l1) (after head l2)) (before head l1) (after head l2))
        by (split; simpl; by rewrite lookup_insert_eq).
      destruct l2 as [|q l2]; [done|]. split; [done|]. destruct Hc as [_ Hc]. simpl in *.
      apply NoDup_cons in Hn2.
      eapply chain_same; [done| |]; intros y Hy; simpl; by rewrite lookup_insert_ne by set_solver.
    + rewrite NoDup_cons, NoDup_app. set_solver.
  - destruct l2 as [|q l2]; [by destruct Hc|]. by destruct Hc as [[? _] _].
Qed.

Lemma list_del_other h p q ns : p ∉ ns -> q ∉ ns -> same_on h (list_del_ h p q) ns.
Proof. intros ? ? a Ha. simpl. by rewrite !lookup_insert_ne by set_solver. Qed.

(** ** The operations on sequences *)

Lemma dll_next h head l1 l2 :
  dll h head (l1 ++ l2) -> get_next h (before head l1) = Some (after head l2).
Proof.
  intros Hd. destruct (dll_split _ _ _ _ Hd) as [Hc _]. unfold get_next.
  destruct l2 as [|x l2]; [by destruct Hc|by destruct Hc as [[? _] _]].
Qed.

Lemma dll_prev h head l1 l2 :
  dll h head (l1 ++ l2) -> get_prev h (after head l2) = Some (before head l1).
Proof.
  intros Hd. destruct (dll_split _ _ _ _ Hd) as [Hc _]. unfold get_prev.
  destruct l2 as [|x l2]; [by destruct Hc|by destruct Hc as [[_ ?] _]].
Qed.

Lemma before_in head l1 : before head l1 ∈ head :: l1.
Proof. destruct l1 as [|p l1 _] using rev_ind; [left|]. rewrite before_snoc. set_solver. Qed.

Lemma after_in head l2 : after head l2 ∈ head :: l2.
Proof. destruct l2; set_solver. Qed.

Lemma tuya_list_empty_ok h head l :
  dll h head l -> tuya_list_empty h head = Some (bool_decide (l = [])).
Proof.
  intros Hd. unfold tuya_list_empty.
  replace (get_next h head) with (Some (after head l)) by (symmetry; by apply (dll_next h head [] l)).
  ub_step. f_equal. apply bool_decide_ext. destruct Hd as [_ Hnd].
  destruct l as [|x l]; simpl; [done|]. apply NoDup_cons in Hnd. set_solver.
Qed.

(** Adding after a node. *)
Lemma tuya_list_add_at h x head l1 l2 :
  dll h head (l1 ++ l2) -> x ∉ head :: l1 ++ l2 ->
  exists h', tuya_list_add h x (before head l1) = Some h' /\ dll h' head (l1 ++ x :: l2) /\
    forall ns, x ∉ ns -> (forall a, a ∈ head :: l1 ++ l2 -> a ∉ ns) -> same_on h h' ns.
Proof.
  intros Hd Hx. unfold tuya_list_add. rewrite (dll_next _ _ _ _ Hd). ub_step.
  eexists. split; [done|]. split; [by apply list_add_ok|]. intros ns Hn Hns.
  apply list_add_other; [done|apply Hns..].
  - pose proof (before_in head l1). set_solver.
  - pose proof (after_in head l2). set_solver.
Qed.

Lemma tuya_list_add_ok h x head l :
  dll h head l -> x ∉ head :: l ->
  exists h', tuya_list_add h x head = Some h' /\ dll h' head (x :: l) /\
    forall ns, x ∉ ns -> (forall a, a ∈ head :: l -> a ∉ ns) -> same_on h h' ns.
Proof. intros Hd Hx. by apply (tuya_list_add_at h x head [] l). Qed.

Lemma tuya_list_add_tail_ok h x head l :
  dll h head l -> x ∉ head :: l ->
  exists h', tuya_list_add_tail h x head = Some h' /\ dll h' head (l ++ [x]) /\
    forall ns, x ∉ ns -> (forall a, a ∈ head :: l -> a ∉ ns) -> same_on h h' ns.
Proof.
  intros Hd Hx. unfold tuya_list_add_tail. rewrite <- (app_nil_r l) in Hd.
  pose proof (dll_prev _ _ _ _ Hd) as Hp. simpl in Hp. rewrite Hp. ub_step.
  eexists. split; [done|]. split.
  - apply (list_add_ok h x l [] head Hd). by rewrite app_nil_r.
  - intros ns Hn Hns. apply list_add_other; [done|apply Hns..]; [|left].
    apply before_in.
Qed.

Lemma tuya_list_del_ok h x head l1 l2 :
  dll h head (l1 ++ x :: l2) ->
  exists h', tuya_list_del h x = Some h' /\ dll h' head (l1 ++ l2) /\
    forall ns, (forall a, a ∈ head :: l1 ++ l2 -> a ∉ ns) -> same_on h h' ns.
Proof.
  intros Hd. destruct (list_del_ok _ _ _ _ _ Hd) as (Hd' & Hp & Hn).
  unfold tuya_list_del, get_prev, get_next. rewrite Hp, Hn. ub_step.
  eexists. split; [done|]. split; [done|]. intros ns Hns.
  apply list_del_other; apply Hns.
  - pose proof (before_in head l1). set_solver.
  - pose proof (after_in head l2). set_solver.
Qed.

(** The loop finds the first node that satisfies the test. *)
Lemma for_each_until_ok fuel h head l1 l2 stop f :
  dll h head (l1 ++ l2) -> (length l2 < fuel)%nat ->
  (forall x, x ∈ l2 -> stop x = Some (f x)) ->
  for_each_until fuel h head (after head l2) stop = Some (default head (List.find f l2)).
Proof.
  revert fuel l1. induction l2 as [|x l2 IH]; intros fuel l1 Hd Hf Hs;
    (destruct fuel as [|fuel]; [simpl in Hf; lia|]); simpl.
  - by rewrite bool_decide_true.
  - assert (x <> head) by (destruct Hd as [_ Hnd]; apply NoDup_cons in Hnd; set_solver).
    rewrite bool_decide_false by done. rewrite Hs by left. ub_step.
    destruct (f x); [done|]. rewrite cons_middle, app_assoc in Hd.
    pose proof (dll_next _ _ _ _ Hd) as Hn. rewrite before_snoc in Hn. rewrite Hn. ub_step.
    apply (IH fuel (l1 ++ [x])); [done|simpl in Hf; lia|]. intros y Hy. apply Hs. by right.
Qed.

Lemma for_each_until_stops fuel h head l0 l1 x l2 stop :
  dll h head (l0 ++ l1 ++ x :: l2) -> (length l1 < fuel)%nat ->
  (forall z, z ∈ l1 -> stop z = Some false) -> stop x = Some true ->
  for_each_until fuel h head (after head (l1 ++ x :: l2)) stop = Some x.
Proof.
  revert fuel l0. induction l1 as [|z l1 IH]; intros fuel l0 Hd Hf Hl1 Hx;
    (destruct fuel as [|fuel]; [simpl in Hf; lia|]); simpl.
  - rewrite bool_decide_false, Hx; [done|]. destruct Hd as [_ Hnd]. apply NoDup_cons in Hnd.
    set_solver.
  - assert (z <> head) by (destruct Hd as [_ Hnd]; apply NoDup_cons in Hnd; set_solver).
    rewrite bool_decide_false by done. rewrite Hl1 by left. ub_step.
    simpl in Hd. rewrite cons_middle, app_assoc in Hd.
    pose proof (dll_next _ _ _ _ Hd) as Hn. rewrite before_snoc in Hn. rewrite Hn. ub_step.
    apply (IH fuel (l0 ++ [z])); try done; [simpl in Hf; lia|]. intros w Hw. apply Hl1. by right.
Qed.

(** A list up to its first element that passes a test. *)
Lemma find_split (f : Z -> bool) l :
  match List.find f l with
  | Some x => exists l1 l2, l = l1 ++ x :: l2 /\ f x = true /\ Forall (fun y => f y = false) l1
  | None => Forall (fun y => f y = false) l
  end.
Proof.
  induction l as [|y l IH]; simpl; [done|]. destruct (f y) eqn:Hf.
  - exists [], l. done.
  - destruct (List.find f l) as [x|].
    + destruct IH as (l1 & l2 & -> & ? & ?). exists (y :: l1), l2. split_and!; [done..|by constructor].
    + by constructor.
Qed.

(** The list operations on the store implement the operations on sequences, leave the
    fields of all other nodes alone, and never follow an undefined field: emptiness test, insertion after the head
    and at the tail, deletion and traversal. *)
Theorem list_ops_refine h head l1 l2 x y :
  dll h head (l1 ++ x :: l2) -> y ∉ head :: l1 ++ x :: l2 ->
  tuya_list_empty h head = Some false /\
  (exists h', tuya_list_add h y head = Some h' /\ dll h' head (y :: l1 ++ x :: l2)) /\
  (exists h', tuya_list_add_tail h y head = Some h' /\ dll h' head (l1 ++ x :: l2 ++ [y])) /\
  (exists h', tuya_list_del h x = Some h' /\ dll h' head (l1 ++ l2) /\
     forall ns, (forall a, a ∈ head :: l1 ++ l2 -> a ∉ ns) -> same_on h h' ns) /\
  (exists h', tuya_list_del_init h x = Some h' /\ dll h' head (l1 ++ l2) /\ dll h' x []) /\
  forall stop fuel, (length (l1 ++ x :: l2) < fuel)%nat ->
    (forall z, z ∈ l1 -> stop z = Some false) -> stop x = Some true ->
    for_each_until fuel h head (after head (l1 ++ x :: l2)) stop = Some x.
Proof.
  intros Hd Hy. split_and!.
  - rewrite (tuya_list_empty_ok _ _ _ Hd), bool_decide_false; [done|]. by destruct l1.
  - destruct (tuya_list_add_ok h y head _ Hd Hy) as (h' & ? & ? & _). eauto.
  - destruct (tuya_list_add_tail_ok h y head _ Hd Hy) as (h' & ? & Hd' & _).
    exists h'. split; [done|]. by rewrite <- app_assoc in Hd'.
  - by apply tuya_list_del_ok.
  - destruct (tuya_list_del_ok h x head l1 l2 Hd) as (h' & Hdel & Hd' & _).
    unfold tuya_list_del_init. rewrite Hdel. ub_step. eexists. split; [done|].
    split; [|apply INIT_LIST_HEAD_ok]. eapply dll_same; [done|]. apply INIT_LIST_HEAD_other.
    destruct Hd as [_ Hnd]. rewrite NoDup_cons, NoDup_app, NoDup_cons in Hnd. set_solver.
  - intros stop fuel Hf Hl1 Hx.
    apply (for_each_until_stops fuel h head [] l1 x l2 stop); try done.
    rewrite length_app in Hf. lia.
Qed.

Definition demo_list : links :=
  default (INIT_LIST_HEAD (Links ∅ ∅) 1)
    (h ← tuya_list_add_tail (INIT_LIST_HEAD (Links ∅ ∅) 1) 5 1;
     h ← tuya_list_add_tail h 6 1; tuya_list_add_tail h 7 1).

Lemma demo_list_ok : dll demo_list 1 [5; 6; 7].
Proof.
  split; [repeat split; vm_compute; done|]. apply (bool_decide_eq_true_1 (NoDup [1; 5; 6; 7])).
  by vm_compute.
Qed.

Lemma list_ops_refine_witness :
  tuya_list_empty demo_list 1 = Some false /\
  (exists h', tuya_list_add demo_list 9 1 = Some h' /\ dll h' 1 [9; 5; 6; 7]) /\
  (exists h', tuya_list_add_tail demo_list 9 1 = Some h' /\ dll h' 1 [5; 6; 7; 9]) /\
  (exists h', tuya_list_del demo_list 6 = Some h' /\ dll h' 1 [5; 7] /\
     forall ns, (forall a, a ∈ [1; 5; 7] -> a ∉ ns) -> same_on demo_list h' ns) /\
  (exists h', tuya_list_del_init demo_list 6 = Some h' /\ dll h' 1 [5; 7] /\ dll h' 6 []) /\
  forall stop fuel, (3 < fuel)%nat ->
    (forall z, z ∈ [5] -> stop z = Some false) -> stop 6 = Some true ->
    for_each_until fuel demo_list 1 5 stop = Some 6.
Proof.
  apply (list_ops_refine demo_list 1 [5] [7] 6 9); [exact demo_list_ok|].
  apply (bool_decide_eq_true_1 (9 ∉ [1; 5; 6; 7])). by vm_compute.
Defined.
