(* ===== verification/Queue.v ===== *)
(** * Bounded queues

    src/tools/porting/adapter/utilities/src/tuya_queue.c on the linked lists of TuyaList: an item is a
    node with a copy of a value of [A] ([item_size] bytes). A handle is [None] for NULL. The mutex makes
    every operation one step. The allocator chooses the address of a new item ([place], which knows the
    addresses in use) and may fail. *)
From S2P Require Import Prelude TuyaList.

Definition POLICY_SEND_TO_BACK : Z := 0.
Definition POLICY_SEND_TO_FRONT : Z := 1.
Definition POLICY_MAX : Z := 2.

Record TUYA_QUEUE_T (A : Type) := Queue {
  item_size : Z; queue_len : Z; queue_free : Z;
  q_head : Z; q_nodes : links; q_data : gmap Z A }.
Arguments Queue {A}.
Arguments item_size {A}.
Arguments queue_len {A}.
Arguments queue_free {A}.
Arguments q_head {A}.
Arguments q_nodes {A}.
Arguments q_data {A}.

Section queue.
Context {A : Type} (place : gset Z -> Z).
Notation queue := (TUYA_QUEUE_T A).
Implicit Types q : queue.

Definition in_use q : gset Z := {[q_head q]} ∪ dom (q_data q).

Definition with_nodes q (free : Z) (h : links) (d : gmap Z A) : queue :=
  Queue (item_size q) (queue_len q) free (q_head q) h d.

(** [tkl_system_free] of an item: its fields and its value are gone. *)
Definition item_free (h : links) (a : Z) : links := Links (delete a (nxt h)) (delete a (prv h)).

Definition __enqueue (handle : option queue) (item : option A) (policy : Z) (alloc : bool) : option (Z * option queue) :=
  match handle, item with
  | Some q, Some x =>
      if bool_decide (policy >= POLICY_MAX) then Some (OPRT_INVALID_PARM, handle)
      else if negb alloc then Some (OPRT_MALLOC_FAILED, handle)
      else
        let a := place (in_use q) in
        let h := INIT_LIST_HEAD (q_nodes q) a in
        let d := <[a := x]> (q_data q) in
        if bool_decide (queue_free q > 0) then
          h ← (if bool_decide (POLICY_SEND_TO_BACK = policy) then tuya_list_add_tail h a (q_head q)
               else if bool_decide (POLICY_SEND_TO_FRONT = policy) then tuya_list_add h a (q_head q)
               else Some h);
          Some (OPRT_OK, Some (with_nodes q (u32 (queue_free q - 1)) h d))
        else Some (OPRT_EXCEED_UPPER_LIMIT, Some (with_nodes q (queue_free q) (item_free h a) (delete a d)))
  | _, _ => Some (OPRT_INVALID_PARM, handle)
  end.

(** [lock]: the result of the creation of the mutex; [head]: the address of the list head. *)
Definition tuya_queue_create (len size : Z) (alloc : bool) (lock : Z) (head : Z) : Z * option queue :=
  if bool_decide (len = 0) || bool_decide (size = 0) then (OPRT_INVALID_PARM, None)
  else if negb alloc then (OPRT_MALLOC_FAILED, None)
  else if bool_decide (OPRT_OK <> lock) then (OPRT_COM_ERROR, None)
  else (OPRT_OK, Some (Queue size len len head (INIT_LIST_HEAD (Links ∅ ∅) head) ∅)).

Definition tuya_queue_input (handle : option queue) (item : option A) (alloc : bool) : option (Z * option queue) :=
  __enqueue handle item POLICY_SEND_TO_BACK alloc.

Definition tuya_queue_input_instant (handle : option queue) (item : option A) (alloc : bool) : option (Z * option queue) :=
  __enqueue handle item POLICY_SEND_TO_FRONT alloc.

(** [want]: the buffer is not NULL. The code, what is copied and the queue. *)
Definition tuya_queue_output (handle : option queue) (want : bool) : option (Z * option A * option queue) :=
  match handle with
  | None => Some (OPRT_INVALID_PARM, None, None)
  | Some q =>
      if bool_decide (queue_free q < queue_len q) then
        a ← get_next (q_nodes q) (q_head q);
        x ← (if want then x ← q_data q !! a; Some (Some x) else Some None);
        h ← tuya_list_del (q_nodes q) a;
        Some (OPRT_OK, x, Some (with_nodes q (u32 (queue_free q + 1)) (item_free h a) (delete a (q_data q))))
      else Some (OPRT_NOT_FOUND, None, handle)
  end.

Definition tuya_queue_peek (handle : option queue) (want : bool) : option (Z * option A) :=
  match handle with
  | None => Some (OPRT_INVALID_PARM, None)
  | Some q =>
      if negb want then Some (OPRT_INVALID_PARM, None)
      else if bool_decide (queue_free q < queue_len q) then
        a ← get_next (q_nodes q) (q_head q);
        x ← q_data q !! a;
        Some (OPRT_OK, Some x)
      else Some (OPRT_NOT_FOUND, None)
  end.

(** [tuya_list_for_each] with a callback that may change the item in place and the context. *)
Fixpoint traverse_loop {C} (fuel : nat) (h : links) (head p : Z) (cb : A -> C -> bool * A * C) (d : gmap Z A) (ctx : C)
    : option (gmap Z A * C) :=
  match fuel with
  | O => None
  | S fuel =>
      if bool_decide (p = head) then Some (d, ctx)
      else
        x ← d !! p;
        let '(go, x, ctx) := cb x ctx in
        let d := <[p := x]> d in
        if (go : bool) then n ← get_next h p; traverse_loop fuel h head n cb d ctx else Some (d, ctx)
  end.

Definition queue_fuel q : nat := S (size (q_data q)).

Definition tuya_queue_traverse {C} (handle : option queue) (cb : option (A -> C -> bool * A * C)) (ctx : C)
    : option (Z * option queue * C) :=
  match handle, cb with
  | Some q, Some cb =>
      p ← get_next (q_nodes q) (q_head q);
      r ← traverse_loop (queue_fuel q) (q_nodes q) (q_head q) p cb (q_data q) ctx;
      Some (OPRT_OK, Some (with_nodes q (queue_free q) (q_nodes q) (fst r)), snd r)
  | _, _ => Some (OPRT_INVALID_PARM, handle, ctx)
  end.

(** [tuya_list_for_each_safe]: the next node is read before the item goes. *)
Fixpoint clear_loop (fuel : nat) (h : links) (head p : Z) (d : gmap Z A) : option (links * gmap Z A) :=
  match fuel with
  | O => None
  | S fuel =>
      n ← get_next h p;
      if bool_decide (p = head) then Some (h, d)
      else h ← tuya_list_del h p; clear_loop fuel (item_free h p) head n (delete p d)
  end.

Definition tuya_queue_clear (handle : option queue) : option (Z * option queue) :=
  match handle with
  | None => Some (OPRT_INVALID_PARM, None)
  | Some q =>
      p ← get_next (q_nodes q) (q_head q);
      r ← clear_loop (queue_fuel q) (q_nodes q) (q_head q) p (q_data q);
      Some (OPRT_OK, Some (with_nodes q (queue_len q) (fst r) (snd r)))
  end.

(** The counters [index] and [count]; the items written so far are [items]. *)
Fixpoint batch_loop (fuel : nat) (h : links) (head p : Z) (d : gmap Z A) (start num index : Z) (items : list A)
    : option (Z * list A) :=
  match fuel with
  | O => None
  | S fuel =>
      if bool_decide (p = head) then Some (index, items)
      else if bool_decide (index < start) then
        n ← get_next h p; batch_loop fuel h head n d start num (u32 (index + 1)) items
      else if bool_decide (zlen items >= num) then Some (index, items)
      else
        x ← d !! p;
        n ← get_next h p;
        batch_loop fuel h head n d start num index (items ++ [x])
  end.

Definition tuya_queue_get_batch (handle : option queue) (start : Z) (items : bool) (num : Z) : option (Z * list A) :=
  match handle with
  | None => Some (OPRT_INVALID_PARM, [])
  | Some q =>
      if negb items || bool_decide (0 = num) then Some (OPRT_INVALID_PARM, [])
      else
        p ← get_next (q_nodes q) (q_head q);
        r ← batch_loop (queue_fuel q) (q_nodes q) (q_head q) p (q_data q) start num 0 [];
        let '(index, out) := r in
        Some (if bool_decide (index <> start) || bool_decide (zlen out <> num) then OPRT_NOT_FOUND else OPRT_OK, out)
  end.

Fixpoint delete_loop (count : nat) (handle : option queue) (op_ret : Z) : option (Z * option queue) :=
  match count with
  | O => Some (op_ret, handle)
  | S count =>
      if bool_decide (OPRT_OK = op_ret) then
        r ← tuya_queue_output handle false;
        let '(op_ret, _, handle) := r in delete_loop count handle op_ret
      else Some (op_ret, handle)
  end.

Definition tuya_queue_delete_batch (handle : option queue) (num : Z) : option (Z * option queue) :=
  match handle with
  | None => Some (OPRT_INVALID_PARM, handle)
  | Some _ => if bool_decide (0 = num) then Some (OPRT_INVALID_PARM, handle) else delete_loop (Z.to_nat num) handle OPRT_OK
  end.

Definition tuya_queue_get_free_num (handle : option queue) : Z :=
  match handle with None => 0 | Some q => queue_free q end.
Definition tuya_queue_get_used_num (handle : option queue) : Z :=
  match handle with None => 0 | Some q => u32 (queue_len q - queue_free q) end.
Definition tuya_queue_get_max_num (handle : option queue) : Z :=
  match handle with None => 0 | Some q => queue_len q end.

(** [unlock]: the result of the release of the mutex. *)
Definition tuya_queue_release (handle : option queue) (unlock : Z) : option (Z * option queue) :=
  match handle with
  | None => Some (OPRT_INVALID_PARM, None)
  | Some _ => r ← tuya_queue_clear handle; Some (unlock, None)
  end.

(** ** The contract: a bounded list of values *)

Inductive queue_op :=
  | Input (x : A) (alloc : bool)
  | InputInstant (x : A) (alloc : bool)
  | Output (want : bool)
  | Peek
  | Traverse (cb : A -> bool * A)
  | Clear
  | GetBatch (start num : Z)
  | DeleteBatch (num : Z)
  | GetNums.

(** The code and the items that are handed out. *)
Notation result := (Z * list A)%type.

Fixpoint traverse_spec (cb : A -> bool * A) (l : list A) : list A :=
  match l with
  | [] => []
  | x :: l => let '(go, x) := cb x in x :: (if go : bool then traverse_spec cb l else l)
  end.

Definition spec_step (cap : Z) (op : queue_op) (l : list A) : result * list A :=
  match op with
  | Input x alloc | InputInstant x alloc =>
      if negb alloc then (OPRT_MALLOC_FAILED, [], l)
      else if bool_decide (zlen l = cap) then (OPRT_EXCEED_UPPER_LIMIT, [], l)
      else (OPRT_OK, [], match op with Input _ _ => l ++ [x] | _ => x :: l end)
  | Output want =>
      match l with
      | [] => (OPRT_NOT_FOUND, [], [])
      | x :: l => (OPRT_OK, if want then [x] else [], l)
      end
  | Peek => match l with [] => (OPRT_NOT_FOUND, [], []) | x :: l => (OPRT_OK, [x], x :: l) end
  | Traverse cb => (OPRT_OK, [], traverse_spec cb l)
  | Clear => (OPRT_OK, [], [])
  | GetBatch start num =>
      let out := take (Z.to_nat num) (drop (Z.to_nat start) l) in
      if bool_decide (num = 0) then (OPRT_INVALID_PARM, [], l)
      else if bool_decide (start + num <= zlen l) then (OPRT_OK, out, l)
      else (OPRT_NOT_FOUND, out, l)
  | DeleteBatch num =>
      if bool_decide (num = 0) then (OPRT_INVALID_PARM, [], l)
      else (if bool_decide (num <= zlen l) then OPRT_OK else OPRT_NOT_FOUND, [], drop (Z.to_nat num) l)
  | GetNums => (cap - zlen l, [], l)
  end.

Definition queue_step (op : queue_op) (q : queue) : option (result * queue) :=
  match op with
  | Input x alloc => r ← tuya_queue_input (Some q) (Some x) alloc; q ← snd r; Some (fst r, [], q)
  | InputInstant x alloc => r ← tuya_queue_input_instant (Some q) (Some x) alloc; q ← snd r; Some (fst r, [], q)
  | Output want => r ← tuya_queue_output (Some q) want; q ← snd r; Some (fst (fst r), option_list (snd (fst r)), q)
  | Peek => r ← tuya_queue_peek (Some q) true; Some (fst r, option_list (snd r), q)
  | Traverse cb =>
      r ← tuya_queue_traverse (Some q) (Some (fun x (u : unit) => let '(go, x) := cb x in (go, x, u))) tt;
      q ← snd (fst r); Some (fst (fst r), [], q)
  | Clear => r ← tuya_queue_clear (Some q); q ← snd r; Some (fst r, [], q)
  | GetBatch start num => r ← tuya_queue_get_batch (Some q) start true num; Some (fst r, snd r, q)
  | DeleteBatch num => r ← tuya_queue_delete_batch (Some q) num; q ← snd r; Some (fst r, [], q)
  | GetNums =>
      if bool_decide (tuya_queue_get_used_num (Some q) + tuya_queue_get_free_num (Some q) = tuya_queue_get_max_num (Some q))
      then Some (tuya_queue_get_free_num (Some q), [], q) else None
  end.

Fixpoint queue_run (ops : list queue_op) (q : queue) : option (list result * queue) :=
  match ops with
  | [] => Some ([], q)
  | op :: ops => r ← queue_step op q; s ← queue_run ops (snd r); Some (fst r :: fst s, snd s)
  end.

Fixpoint spec_run (cap : Z) (ops : list queue_op) (l : list A) : list result * list A :=
  match ops with
  | [] => ([], l)
  | op :: ops => let '(x, l) := spec_step cap op l in let '(xs, l) := spec_run cap ops l in (x :: xs, l)
  end.

Definition op_ok (op : queue_op) : Prop :=
  match op with
  | GetBatch start num => in_u 32 start /\ in_u 32 num
  | DeleteBatch num => in_u 32 num
  | _ => True
  end.

(** ** The list in memory *)

Definition holds (d : gmap Z A) (addrs : list Z) (l : list A) : Prop := Forall2 (fun a x => d !! a = Some x) addrs l.

Record rep (q : queue) (l : list A) (addrs : list Z) : Prop := {
  rep_dll : dll (q_nodes q) (q_head q) addrs;
  rep_data : holds (q_data q) addrs l;
  rep_dom : dom (q_data q) = list_to_set addrs;
  rep_free : queue_free q = queue_len q - zlen l;
  rep_len : 0 < queue_len q < 2 ^ 32;
  rep_fits : zlen l <= queue_len q }.

Lemma rep_fuel q l addrs : rep q l addrs -> (length addrs < queue_fuel q)%nat.
Proof.
  intros [[_ Hnd] _ Hd _ _ _]. unfold queue_fuel. rewrite <- size_dom, Hd, size_list_to_set; [lia|].
  by apply NoDup_cons in Hnd as [_ ?].
Qed.

Lemma rep_zlen q l addrs : rep q l addrs -> zlen addrs = zlen l.
Proof. intros [_ Hd _ _ _ _]. unfold zlen. by rewrite (Forall2_length _ _ _ Hd). Qed.

Lemma dll_next_head h head addrs : dll h head addrs -> get_next h head = Some (after head addrs).
Proof. apply (dll_next h head []). Qed.

Lemma holds_same (d d' : gmap Z A) addrs l :
  (forall a, a ∈ addrs -> d' !! a = d !! a) -> holds d addrs l -> holds d' addrs l.
Proof.
  intros Hs Hd. induction Hd as [|a x addrs l Ha Hd IH]; constructor.
  - by rewrite Hs by left.
  - apply IH. intros b Hb. apply Hs. by right.
Qed.

Definition fresh_place : Prop := forall s, place s ∉ s.

Lemma rep_fresh q l addrs : fresh_place -> rep q l addrs -> place (in_use q) ∉ q_head q :: addrs.
Proof. intros place_fresh [_ _ Hd _ _ _]. pose proof (place_fresh (in_use q)) as Hf. unfold in_use in *. set_solver. Qed.

(** An item comes in, at one of the ends. *)
Lemma enqueue_ok q l addrs x policy alloc :
  fresh_place -> rep q l addrs -> policy = POLICY_SEND_TO_BACK \/ policy = POLICY_SEND_TO_FRONT ->
  exists q', __enqueue (Some q) (Some x) policy alloc =
      Some (if negb alloc then OPRT_MALLOC_FAILED
            else if bool_decide (zlen l = queue_len q) then OPRT_EXCEED_UPPER_LIMIT else OPRT_OK, Some q') /\
    queue_len q' = queue_len q /\
    exists addrs', rep q' (if alloc && negb (bool_decide (zlen l = queue_len q))
      then if bool_decide (policy = POLICY_SEND_TO_BACK) then l ++ [x] else x :: l else l) addrs'.
Proof.
  intros Hpl Hr Hp. pose proof (rep_fresh _ _ _ Hpl Hr) as Hf. pose proof Hr as [Hd Hh Hdom Hfree Hlen Hfit].
  unfold __enqueue. rewrite bool_decide_false by (unfold POLICY_SEND_TO_BACK, POLICY_SEND_TO_FRONT, POLICY_MAX in *; lia). destruct alloc; cbn [negb andb]; [|eauto 6].
  set (a := place (in_use q)) in *. set (h := INIT_LIST_HEAD (q_nodes q) a).
  assert (Hd' : dll h (q_head q) addrs) by (eapply dll_same; [done|by apply INIT_LIST_HEAD_other]).
  pose proof (zlen_nonneg l). destruct (bool_decide_reflect (queue_free q > 0)) as [Hc|Hc].
  - rewrite (bool_decide_false (zlen l = _)) by lia. cbn [negb].
    assert (Hrep : forall h' addrs' l', dll h' (q_head q) addrs' -> addrs' ≡ₚ a :: addrs -> holds (<[a:=x]> (q_data q)) addrs' l' ->
      rep (with_nodes q (u32 (queue_free q - 1)) h' (<[a:=x]> (q_data q))) l' addrs').
    { intros h' addrs' l' Hd1 Hperm Hh1. assert (Hz : zlen l' = zlen l + 1).
      { unfold zlen in *. rewrite <- (Forall2_length _ _ _ Hh1), Hperm. cbn [length]. rewrite (Forall2_length _ _ _ Hh). lia. }
      split; cbn; try done; try lia; [|rewrite wrap_small by (unfold in_u; lia); lia].
      rewrite dom_insert_L, Hdom, Hperm. set_solver. }
    assert (Hsame : holds (<[a:=x]> (q_data q)) addrs l).
    { eapply holds_same; [|done]. intros b Hb. rewrite lookup_insert_ne; [done|set_solver]. }
    destruct Hp as [-> | ->].
    + rewrite !(bool_decide_true (POLICY_SEND_TO_BACK = POLICY_SEND_TO_BACK)) by done.
      destruct (tuya_list_add_tail_ok h a (q_head q) addrs Hd' Hf) as (h' & -> & Hd1 & _). ub_step.
      eexists. split; [reflexivity|]. split; [done|]. exists (addrs ++ [a]). apply Hrep; [done|by rewrite Permutation_app_comm|].
      apply Forall2_app; [done|]. constructor; [|constructor]. apply lookup_insert_eq.
    + rewrite (bool_decide_false (POLICY_SEND_TO_BACK = POLICY_SEND_TO_FRONT)) by done.
      rewrite (bool_decide_false (POLICY_SEND_TO_FRONT = POLICY_SEND_TO_BACK)) by done.
      rewrite (bool_decide_true (POLICY_SEND_TO_FRONT = POLICY_SEND_TO_FRONT)) by done.
      destruct (tuya_list_add_ok h a (q_head q) addrs Hd' Hf) as (h' & -> & Hd1 & _). ub_step.
      eexists. split; [reflexivity|]. split; [done|]. exists (a :: addrs). apply Hrep; [done|done|].
      constructor; [apply lookup_insert_eq|done].
  - rewrite (bool_decide_true (zlen l = _)) by lia. cbn [negb].
    eexists. split; [reflexivity|]. split; [done|]. exists addrs. split; cbn; try done.
    + eapply dll_same; [exact Hd'|]. intros b Hb. cbn. rewrite !lookup_delete_ne by set_solver. done.
    + eapply holds_same; [|done]. intros b Hb. rewrite lookup_delete_ne, lookup_insert_ne by set_solver. done.
    + rewrite dom_delete_L, dom_insert_L, Hdom. set_solver.
Qed.

(** The first item leaves. *)
Lemma rep_del q x l a addrs :
  rep q (x :: l) (a :: addrs) ->
  exists h, tuya_list_del (q_nodes q) a = Some h /\
    rep (with_nodes q (u32 (queue_free q + 1)) (item_free h a) (delete a (q_data q))) l addrs.
Proof.
  intros [Hd Hh Hdom Hfree Hlen Hfit]. pose proof Hd as [_ Hnd]. rewrite !NoDup_cons in Hnd.
  destruct (tuya_list_del_ok (q_nodes q) a (q_head q) [] addrs Hd) as (h & -> & Hd' & _).
  exists h. split; [done|]. apply Forall2_cons in Hh as [Ha Hh]. rewrite zlen_cons in *. pose proof (zlen_nonneg l).
  split; cbn; try done; try lia.
  - eapply dll_same; [exact Hd'|]. intros b Hb. cbn. rewrite !lookup_delete_ne by set_solver. done.
  - eapply holds_same; [|done]. intros b Hb. rewrite lookup_delete_ne by set_solver. done.
  - rewrite dom_delete_L, Hdom. set_solver.
  - rewrite wrap_small by (unfold in_u; lia). lia.
Qed.

Lemma rep_cons q x l addrs :
  rep q (x :: l) addrs -> exists a addrs', addrs = a :: addrs' /\ q_data q !! a = Some x /\
    get_next (q_nodes q) (q_head q) = Some a /\ queue_free q < queue_len q.
Proof.
  intros [Hd Hh _ Hfree _ Hfit]. inversion Hh as [|a ? addrs' ? Ha ?]; subst. exists a, addrs'.
  rewrite (dll_next_head _ _ _ Hd). rewrite zlen_cons in *. pose proof (zlen_nonneg l). by split_and!; try lia.
Qed.

Lemma output_ok q l addrs want :
  rep q l addrs ->
  exists q', tuya_queue_output (Some q) want =
      Some (match l with [] => OPRT_NOT_FOUND | _ => OPRT_OK end, if want then head l else None, Some q') /\
    queue_len q' = queue_len q /\ exists addrs', rep q' (tail l) addrs'.
Proof.
  intros Hr. unfold tuya_queue_output. destruct l as [|x l].
  - pose proof (rep_free _ _ _ Hr) as Hf. rewrite (@zlen_nil A) in Hf. rewrite bool_decide_false by lia.
    exists q. split; [by destruct want|]. eauto.
  - destruct (rep_cons _ _ _ _ Hr) as (a & addrs' & -> & Ha & Hn & Hlt). rewrite bool_decide_true, Hn by lia. ub_step.
    rewrite Ha. destruct (rep_del _ _ _ _ _ Hr) as (h & -> & Hr'). destruct want; ub_step; eauto 8.
Qed.

Lemma peek_ok q l addrs :
  rep q l addrs ->
  tuya_queue_peek (Some q) true = Some (match l with [] => OPRT_NOT_FOUND | _ => OPRT_OK end, head l).
Proof.
  intros Hr. unfold tuya_queue_peek. cbn [negb]. destruct l as [|x l].
  - pose proof (rep_free _ _ _ Hr) as Hf. rewrite (@zlen_nil A) in Hf. by rewrite bool_decide_false by lia.
  - destruct (rep_cons _ _ _ _ Hr) as (a & addrs' & -> & Ha & Hn & Hlt). rewrite bool_decide_true, Hn by lia. ub_step. by rewrite Ha.
Qed.

(** One step of a loop over the items: the item and the next node. *)
Lemma loop_step h head l1 a l2 :
  dll h head (l1 ++ a :: l2) ->
  a <> head /\ get_next h a = Some (after head l2) /\ dll h head ((l1 ++ [a]) ++ l2).
Proof.
  intros Hd. assert (a <> head) by (destruct Hd as [_ Hnd]; apply NoDup_cons in Hnd; set_solver).
  rewrite cons_middle, app_assoc in Hd. pose proof (dll_next _ _ _ _ Hd) as Hn. by rewrite before_snoc in Hn.
Qed.

(** The list after a traversal with a context. *)
Fixpoint traverse_list {C} (cb : A -> C -> bool * A * C) (l : list A) (ctx : C) : list A * C :=
  match l with
  | [] => ([], ctx)
  | x :: l =>
      let '(go, x, ctx) := cb x ctx in
      if (go : bool) then let '(l, ctx) := traverse_list cb l ctx in (x :: l, ctx) else (x :: l, ctx)
  end.

Lemma traverse_loop_ok {C} (cb : A -> C -> bool * A * C) h head a2 : forall fuel d a1 l1 l2 ctx,
  dll h head (a1 ++ a2) -> holds d a1 l1 -> holds d a2 l2 -> (length a2 < fuel)%nat ->
  exists d', traverse_loop fuel h head (after head a2) cb d ctx = Some (d', snd (traverse_list cb l2 ctx)) /\
    holds d' (a1 ++ a2) (l1 ++ fst (traverse_list cb l2 ctx)) /\ dom d' = dom d.
Proof.
  induction a2 as [|a a2 IH]; intros fuel d a1 l1 l2 ctx Hd H1 H2 Hf; (destruct fuel as [|fuel]; [cbn in Hf; lia|]).
  - inversion H2; subst. cbn. rewrite bool_decide_true by done. exists d. rewrite !app_nil_r. done.
  - inversion H2 as [|? x ? l2' Ha H2']; subst. destruct (loop_step _ _ _ _ _ Hd) as (Hne & Hn & Hd').
    pose proof Hd as [_ Hnd]. rewrite NoDup_cons, NoDup_app, NoDup_cons in Hnd.
    cbn [traverse_loop after hd traverse_list]. rewrite bool_decide_false, Ha by done. ub_step.
    destruct (cb x ctx) as [[go x'] ctx'].
    assert (Hdom : dom (<[a:=x']> d) = dom d) by (rewrite dom_insert_L; apply elem_of_dom_2 in Ha; set_solver).
    assert (H1' : holds (<[a:=x']> d) a1 l1).
    { eapply holds_same; [|exact H1]. intros b Hb. rewrite lookup_insert_ne; [done|set_solver]. }
    assert (H2'' : holds (<[a:=x']> d) a2 l2').
    { eapply holds_same; [|exact H2']. intros b Hb. rewrite lookup_insert_ne; [done|set_solver]. }
    assert (Hx : holds (<[a:=x']> d) [a] [x']) by (constructor; [apply lookup_insert_eq|constructor]).
    destruct go.
    + rewrite Hn. ub_step.
      destruct (IH fuel (<[a:=x']> d) (a1 ++ [a]) (l1 ++ [x']) l2' ctx') as (d' & He & Hh & Hdd);
        [done|by apply Forall2_app|done|cbn in Hf; lia|].
      exists d'. rewrite He. destruct (traverse_list cb l2' ctx') as [l3 c3]. cbn [fst snd] in *.
      split; [done|]. rewrite <- !app_assoc in Hh. split; [exact Hh|congruence].
    + eexists. split; [reflexivity|]. cbn [fst]. split; [|done]. apply Forall2_app; [done|]. constructor; [apply lookup_insert_eq|done].
Qed.

Lemma traverse_list_length {C} (cb : A -> C -> bool * A * C) l ctx : length (fst (traverse_list cb l ctx)) = length l.
Proof.
  revert ctx. induction l as [|x l IH]; intros ctx; [done|]. cbn. destruct (cb x ctx) as [[go x'] c]. destruct go; [|done].
  specialize (IH c). destruct (traverse_list cb l c). cbn in *. by rewrite IH.
Qed.

Lemma traverse_ok {C} (cb : A -> C -> bool * A * C) q l addrs ctx :
  rep q l addrs ->
  exists q', tuya_queue_traverse (Some q) (Some cb) ctx = Some (OPRT_OK, Some q', snd (traverse_list cb l ctx)) /\
    queue_len q' = queue_len q /\ rep q' (fst (traverse_list cb l ctx)) addrs.
Proof.
  intros Hr. pose proof (rep_fuel _ _ _ Hr) as Hf. pose proof Hr as [Hd Hh Hdom Hfree Hlen Hfit].
  unfold tuya_queue_traverse. rewrite (dll_next_head _ _ _ Hd). ub_step.
  destruct (traverse_loop_ok cb (q_nodes q) (q_head q) addrs (queue_fuel q) (q_data q) [] [] l ctx) as (d' & -> & Hh' & Hdd);
    [done|constructor|done|done|]. ub_step. eexists. split; [reflexivity|]. split; [done|].
  assert (Hz : zlen (fst (traverse_list cb l ctx)) = zlen l) by (unfold zlen; by rewrite traverse_list_length).
  split; cbn; rewrite ?Hz; try done. by rewrite Hdd.
Qed.

Lemma clear_loop_ok h head addrs : forall fuel d,
  dll h head addrs -> (length addrs < fuel)%nat -> dom d = list_to_set addrs ->
  exists h' d', clear_loop fuel h head (after head addrs) d = Some (h', d') /\ dll h' head [] /\ dom d' = ∅.
Proof.
  revert h. induction addrs as [|a addrs IH]; intros h fuel d Hd Hf Hdom; (destruct fuel as [|fuel]; [cbn in Hf; lia|]).
  - cbn [clear_loop after hd]. rewrite (dll_next_head _ _ _ Hd). ub_step. rewrite bool_decide_true by done. eauto.
  - destruct (loop_step _ _ [] _ _ Hd) as (Hne & Hn & _). pose proof Hd as [_ Hnd]. rewrite !NoDup_cons in Hnd.
    cbn [clear_loop after hd]. rewrite Hn. ub_step. rewrite bool_decide_false by done.
    destruct (tuya_list_del_ok h a head [] addrs Hd) as (h1 & -> & Hd1 & _). ub_step. apply IH; [|cbn in Hf; lia|].
    + eapply dll_same; [exact Hd1|]. intros b Hb. cbn. rewrite !lookup_delete_ne by set_solver. done.
    + rewrite dom_delete_L, Hdom. set_solver.
Qed.

Lemma clear_ok q l addrs :
  rep q l addrs -> exists q', tuya_queue_clear (Some q) = Some (OPRT_OK, Some q') /\ queue_len q' = queue_len q /\ rep q' [] [].
Proof.
  intros Hr. pose proof (rep_fuel _ _ _ Hr) as Hf. pose proof Hr as [Hd Hh Hdom Hfree Hlen Hfit].
  unfold tuya_queue_clear. rewrite (dll_next_head _ _ _ Hd). ub_step.
  destruct (clear_loop_ok (q_nodes q) (q_head q) addrs (queue_fuel q) (q_data q)) as (h & d & -> & Hd' & Hdd); [done..|]. ub_step.
  eexists. split; [reflexivity|]. split; [done|]. split; cbn; try done; rewrite ?(@zlen_nil A); try lia. constructor.
Qed.

Lemma batch_loop_ok h head d a2 : forall fuel a1 l2 start num index items,
  dll h head (a1 ++ a2) -> holds d a2 l2 -> (length a2 < fuel)%nat -> 0 <= index <= start -> start < 2 ^ 32 ->
  (index < start -> items = []) -> zlen items <= num ->
  batch_loop fuel h head (after head a2) d start num index items =
    Some (index + (start - index) `min` zlen l2,
          items ++ take (Z.to_nat (num - zlen items)) (drop (Z.to_nat (start - index)) l2)).
Proof.
  induction a2 as [|a a2 IH]; intros fuel a1 l2 start num index items Hd H2 Hf Hi Hs Hit Hnum;
    (destruct fuel as [|fuel]; [cbn in Hf; lia|]); inversion H2 as [|? x ? l2' Ha H2']; subst; cbn [batch_loop after hd].
  - rewrite bool_decide_true by done. rewrite drop_nil, take_nil, app_nil_r, (@zlen_nil A). do 2 f_equal. lia.
  - destruct (loop_step _ _ _ _ _ Hd) as (Hne & Hn & Hd'). rewrite bool_decide_false by done. rewrite Hn, Ha. rewrite zlen_cons.
    pose proof (zlen_nonneg l2'). cbn in Hf.
    case_bool_decide as Hc; [|case_bool_decide as Hk]; ub_step.
    + rewrite wrap_small by (unfold in_u; lia). rewrite (IH fuel (a1 ++ [a]) l2'); try done; try lia; [|intros _; by apply Hit].
      do 2 f_equal; [lia|]. replace (Z.to_nat (start - index)) with (S (Z.to_nat (start - (index + 1)))) by lia. done.
    + assert (zlen items = num) as -> by lia. rewrite Z.sub_diag. change (Z.to_nat 0) with 0%nat. rewrite take_0, app_nil_r.
      do 2 f_equal. lia.
    + assert (index = start) as -> by lia. rewrite (IH fuel (a1 ++ [a]) l2'); try done; try lia; rewrite ?zlen_snoc; try lia.
      rewrite Z.sub_diag. change (Z.to_nat 0) with 0%nat. rewrite !drop_0, <- app_assoc.
      replace (Z.to_nat (num - zlen items)) with (S (Z.to_nat (num - (zlen items + 1)))) by lia. do 2 f_equal. lia.
Qed.

Lemma batch_ok q l addrs start num :
  rep q l addrs -> in_u 32 start -> 0 < num ->
  tuya_queue_get_batch (Some q) start true num =
    Some (if bool_decide (start + num <= zlen l) then OPRT_OK else OPRT_NOT_FOUND,
          take (Z.to_nat num) (drop (Z.to_nat start) l)).
Proof.
  intros Hr [Hs1 Hs2] Hnum. pose proof (rep_fuel _ _ _ Hr) as Hf. pose proof Hr as [Hd Hh Hdom Hfree Hlen Hfit].
  unfold tuya_queue_get_batch. cbn [negb orb]. rewrite bool_decide_false by lia. rewrite (dll_next_head _ _ _ Hd). ub_step.
  rewrite (batch_loop_ok (q_nodes q) (q_head q) (q_data q) addrs (queue_fuel q) [] l) by (done || lia || (rewrite (@zlen_nil A); lia)).
  ub_step. rewrite (@zlen_nil A), Z.add_0_l, !Z.sub_0_r. cbn [app].
  set (out := take _ _). assert (Ho : zlen out = num `min` (0 `max` (zlen l - start))) by (subst out; rewrite zlen_take, zlen_drop; lia).
  pose proof (zlen_nonneg l). do 2 f_equal. rewrite Ho. repeat case_bool_decide; (done || lia).
Qed.

Lemma delete_loop_ok count : forall q l addrs,
  rep q l addrs ->
  exists q', delete_loop count (Some q) OPRT_OK =
      Some (if bool_decide (Z.of_nat count <= zlen l) then OPRT_OK else OPRT_NOT_FOUND, Some q') /\
    queue_len q' = queue_len q /\ exists addrs', rep q' (drop count l) addrs'.
Proof.
  induction count as [|count IH]; intros q l addrs Hr; cbn [delete_loop].
  - exists q. pose proof (zlen_nonneg l). rewrite bool_decide_true by lia. rewrite drop_0. eauto.
  - rewrite bool_decide_true by done. destruct (output_ok _ _ _ false Hr) as (q' & -> & Hl & addrs' & Hr'). ub_step.
    destruct l as [|x l].
    + rewrite bool_decide_false by (rewrite (@zlen_nil A); lia). cbn [tail] in Hr'. rewrite drop_nil.
      exists q'. split; [|eauto]. by destruct count.
    + destruct (IH _ _ _ Hr') as (q2 & He & Hl2 & Hr2). exists q2. rewrite He, Hl2. cbn [tail drop] in *. rewrite zlen_cons.
      split; [|done]. do 2 f_equal. repeat case_bool_decide; (done || lia).
Qed.

Lemma traverse_list_spec (cb : A -> bool * A) l :
  traverse_list (fun x (u : unit) => let '(go, x) := cb x in (go, x, u)) l tt = (traverse_spec cb l, tt).
Proof.
  induction l as [|x l IH]; [done|]. cbn. destruct (cb x) as [[] x']; [|done]. by rewrite IH.
Qed.

(** ** Every operation follows the contract *)

Lemma queue_step_ok op q l addrs :
  fresh_place -> rep q l addrs -> op_ok op ->
  exists q', queue_step op q = Some (fst (spec_step (queue_len q) op l), q') /\ queue_len q' = queue_len q /\
    exists addrs', rep q' (snd (spec_step (queue_len q) op l)) addrs'.
Proof.
  intros Hpl Hr Hok. pose proof Hr as [_ _ _ Hfree Hlen Hfit]. pose proof (zlen_nonneg l).
  destruct op as [x alloc|x alloc|want| |cb| |start num|num|]; cbn [queue_step spec_step].
  - destruct (enqueue_ok q l addrs x POLICY_SEND_TO_BACK alloc Hpl Hr) as (q' & He & Hl & Hr'); [by left|].
    unfold tuya_queue_input. rewrite He. ub_step. exists q'. destruct alloc; cbn [negb andb] in *; [|done].
    by case_bool_decide.
  - destruct (enqueue_ok q l addrs x POLICY_SEND_TO_FRONT alloc Hpl Hr) as (q' & He & Hl & Hr'); [by right|].
    unfold tuya_queue_input_instant. rewrite He. ub_step. exists q'. destruct alloc; cbn [negb andb] in *; [|done].
    by case_bool_decide.
  - destruct (output_ok q l addrs want Hr) as (q' & -> & Hl & Hr'). ub_step. exists q'. by destruct l, want.
  - rewrite (peek_ok _ _ _ Hr). ub_step. exists q. destruct l; split_and!; eauto.
  - destruct (traverse_ok (fun x (u : unit) => let '(go, x) := cb x in (go, x, u)) q l addrs tt Hr) as (q' & -> & Hl & Hr').
    ub_step. rewrite traverse_list_spec in Hr'. eauto 6.
  - destruct (clear_ok _ _ _ Hr) as (q' & -> & Hl & Hr'). ub_step. eauto 6.
  - destruct Hok as [Hs Hn]. destruct (decide (num = 0)) as [->|Hn0].
    + rewrite (bool_decide_true (0 = 0)) by done. exists q. eauto 6.
    + rewrite (bool_decide_false (num = 0)) by done. unfold in_u in *. rewrite (batch_ok q l addrs) by (done || unfold in_u; lia).
      ub_step. exists q. cbn [fst snd]. case_bool_decide; eauto 6.
  - unfold tuya_queue_delete_batch. destruct (decide (num = 0)) as [->|Hn0].
    + rewrite (bool_decide_true (0 = 0)) by done. ub_step. eauto 6.
    + rewrite !bool_decide_false by lia. destruct (delete_loop_ok (Z.to_nat num) q l addrs Hr) as (q' & -> & Hl & Hr').
      ub_step. exists q'. cbn [fst snd]. unfold op_ok, in_u in Hok. rewrite Z2Nat.id by lia. eauto 6.
  - cbn [tuya_queue_get_used_num tuya_queue_get_free_num tuya_queue_get_max_num].
    rewrite wrap_small by (unfold in_u; lia). rewrite bool_decide_true by lia. exists q. rewrite Hfree. eauto 6.
Qed.

Lemma queue_run_ok ops : fresh_place -> forall q l addrs,
  rep q l addrs -> Forall op_ok ops ->
  exists q', queue_run ops q = Some (fst (spec_run (queue_len q) ops l), q') /\
    exists addrs', rep q' (snd (spec_run (queue_len q) ops l)) addrs'.
Proof.
  intros Hpl. induction ops as [|op ops IH]; intros q l addrs Hr Hok; cbn [queue_run spec_run]; [eauto|].
  apply Forall_cons in Hok as [Ho Hok]. destruct (queue_step_ok op q l addrs Hpl Hr Ho) as (q1 & -> & Hl & a1 & Hr1). ub_step.
  destruct (IH q1 _ a1 Hr1 Hok) as (q2 & He & Hr2). rewrite Hl in *. cbn [fst snd]. rewrite He. ub_step.
  destruct (spec_step (queue_len q) op l) as [x l1]. cbn [fst snd] in *.
  destruct (spec_run (queue_len q) ops l1) as [xs l2]. cbn [fst snd] in *. eauto.
Qed.

Lemma create_rep len size head :
  0 < len < 2 ^ 32 -> size <> 0 ->
  exists q, tuya_queue_create len size true OPRT_OK head = (OPRT_OK, Some q) /\ queue_len q = len /\ rep q [] [].
Proof.
  intros Hl Hs. unfold tuya_queue_create. rewrite !bool_decide_false by (lia || by intros X; apply X). cbn [orb negb].
  eexists. split; [reflexivity|]. split; [done|]. split; cbn; try done; rewrite ?(@zlen_nil A); try lia.
  - apply INIT_LIST_HEAD_ok.
  - constructor.
Qed.
End queue.

(** C24. A new queue behaves, on the pointers of the list and for every sequence of operations and
    allocation failures, like a bounded list of values: first in, first out, instant items in front, an
    item refused exactly when the queue is full, and no operation follows a pointer to freed memory. *)
Theorem queue_refines {A} (place : gset Z -> Z) len size head (ops : list (@queue_op A)) :
  fresh_place place -> 0 < len < 2 ^ 32 -> size <> 0 -> Forall op_ok ops ->
  exists q q', tuya_queue_create len size true OPRT_OK head = (OPRT_OK, Some q) /\
    queue_run place ops q = Some (fst (spec_run len ops []), q') /\
    exists addrs, rep q' (snd (spec_run len ops [])) addrs.
Proof.
  intros Hp Hl Hs Hok. destruct (create_rep (A := A) len size head Hl Hs) as (q & Hc & Hlq & Hr).
  destruct (queue_run_ok place ops Hp q [] [] Hr Hok) as (q' & Hq & Hr'). subst len. eauto 6.
Qed.

Definition demo_ops : list (@queue_op Z) :=
  [Input 1 true; Input 2 true; InputInstant 3 true; Input 4 true; GetBatch 1 2; Traverse (fun x => (true, x + 10));
   Output true; GetNums; DeleteBatch 5; Peek; Output false].

Lemma queue_refines_witness :
  exists q q', tuya_queue_create 3 4 true OPRT_OK 100 = (OPRT_OK, Some q) /\
    queue_run fresh demo_ops q =
      Some ([(0, []); (0, []); (0, []); (OPRT_EXCEED_UPPER_LIMIT, []); (0, [1; 2]); (0, []); (0, [13]); (1, []);
             (OPRT_NOT_FOUND, []); (OPRT_NOT_FOUND, []); (OPRT_NOT_FOUND, [])], q') /\
    exists addrs, rep q' [] addrs.
Proof.
  exact (queue_refines fresh 3 4 100 demo_ops is_fresh ltac:(lia) ltac:(done)
    ltac:(repeat constructor; unfold in_u; lia)).
Defined.
