(* ===== verification/SwTimer.v ===== *)
(** * Software timers

    src/src/tal_system/src/tal_sw_timer.c on the linked lists of TuyaList: timers are
    blocks whose list node comes first, so that a timer, its node and its identifier are
    one address. The mutex makes every operation atomic; times read from the clock are
    arguments, in milliseconds since boot; allocation results are arguments. *)
From Stdlib Require Import Sorting.Sorted.
From S2P Require Import Prelude TuyaList.

Inductive TIMER_TYPE := TAL_TIMER_ONCE | TAL_TIMER_CYCLE.

Definition TIMER_TYPE_eqb (a b : TIMER_TYPE) : bool :=
  match a, b with
  | TAL_TIMER_ONCE, TAL_TIMER_ONCE | TAL_TIMER_CYCLE, TAL_TIMER_CYCLE => true
  | _, _ => false
  end.

(** [cb] is the address of the callback, not 0. *)
Record TIMER_T := Timer {
  tm_cb : Z;
  tm_data : Z;
  expire_time : Z;
  interval : Z;
  is_running : bool;
  tm_type : TIMER_TYPE }.

(** The manager; the list heads are the addresses [list_active] and [list_standby]. *)
Record SW_TIMER_MGR_T := TimerMgr {
  tm_links : links;
  timers : gmap Z TIMER_T;
  total_cnt : Z;
  running_cnt : Z;
  inited : bool }.

Definition list_active : Z := 1.
Definition list_standby : Z := 2.
Definition SEM_WAIT_FOREVER : Z := 0xffffffff.

Definition mgr_start : SW_TIMER_MGR_T := TimerMgr (Links ∅ ∅) ∅ 0 0 false.

Definition set_links (m : SW_TIMER_MGR_T) (h : links) : SW_TIMER_MGR_T :=
  TimerMgr h (timers m) (total_cnt m) (running_cnt m) (inited m).

Definition set_timer (m : SW_TIMER_MGR_T) (id : Z) (t : TIMER_T) : SW_TIMER_MGR_T :=
  TimerMgr (tm_links m) (<[id := t]> (timers m)) (total_cnt m) (running_cnt m) (inited m).

Definition set_running (m : SW_TIMER_MGR_T) (n : Z) : SW_TIMER_MGR_T :=
  TimerMgr (tm_links m) (timers m) (total_cnt m) n (inited m).

(** Lists are at most as long as there are timers. *)
Definition list_fuel (m : SW_TIMER_MGR_T) : nat := S (size (timers m)).

Definition timer_attach (m : SW_TIMER_MGR_T) (id : Z) : option SW_TIMER_MGR_T :=
  t ← timers m !! id;
  h ← tuya_list_del (tm_links m) id;
  empty ← tuya_list_empty h list_active;
  if (empty : bool) then
    h ← tuya_list_add_tail h id list_active; Some (set_links m h)
  else
    first ← get_next h list_active;
    p ← for_each_until (list_fuel m) h list_active first (fun p =>
          tmp ← timers m !! p; Some (bool_decide (expire_time tmp >= expire_time t)));
    if bool_decide (p = list_active) then
      h ← tuya_list_add_tail h id list_active; Some (set_links m h)
    else
      prev ← get_prev h p;
      h ← tuya_list_add h id prev; Some (set_links m h).

(** One round of the dispatch loop at time [nowMS]: the manager, the callback that is
    called with its arguments, whether the loop goes on, and the new waiting time. *)
Record dispatch_result := Dispatched {
  ds_mgr : SW_TIMER_MGR_T;
  ds_call : option (Z * Z * Z);
  ds_again : bool;
  ds_next_expired : option Z }.

Definition timer_dispatch_round (m : SW_TIMER_MGR_T) (nowMS : Z) : option dispatch_result :=
  first ← get_next (tm_links m) list_active;
  if bool_decide (first = list_active) then Some (Dispatched m None false None)
  else
    t ← timers m !! first;
    if bool_decide (expire_time t > nowMS) then
      Some (Dispatched m None false (Some (u32 (expire_time t - nowMS))))
    else
      let called := Some (tm_cb t, first, tm_data t) in
      if TIMER_TYPE_eqb TAL_TIMER_ONCE (tm_type t) then
        let m := set_timer m first (Timer (tm_cb t) (tm_data t) (expire_time t) (interval t)
                                      false (tm_type t)) in
        let m := set_running m (u16 (running_cnt m - 1)) in
        h ← tuya_list_del (tm_links m) first;
        h ← tuya_list_add_tail h first list_standby;
        Some (Dispatched (set_links m h) called true None)
      else
        let m := set_timer m first (Timer (tm_cb t) (tm_data t) (u64 (nowMS + interval t))
                                      (interval t) (is_running t) (tm_type t)) in
        m ← timer_attach m first;
        Some (Dispatched m called true None).

Definition tal_sw_timer_init (m : SW_TIMER_MGR_T) (thread_ret : Z) : Z * SW_TIMER_MGR_T :=
  if inited m then (OPRT_OK, m)
  else
    let h := INIT_LIST_HEAD (INIT_LIST_HEAD (tm_links m) list_active) list_standby in
    (thread_ret,
     TimerMgr h (timers m) (total_cnt m) (running_cnt m)
       (if bool_decide (OPRT_OK = thread_ret) then true else inited m)).

(** [block] is the address that [tal_calloc] returns, if any. *)
Definition tal_sw_timer_create (m : SW_TIMER_MGR_T) (func arg : Z) (id_null : bool)
    (block : option Z) : option (Z * SW_TIMER_MGR_T * option Z) :=
  if bool_decide (func = 0) || id_null then Some (OPRT_INVALID_PARM, m, None)
  else
    match block with
    | None => Some (OPRT_MALLOC_FAILED, m, None)
    | Some id =>
        let t := Timer func arg 0 0 false TAL_TIMER_ONCE in
        h ← tuya_list_add_tail (tm_links m) id list_standby;
        Some (OPRT_OK,
              TimerMgr h (<[id := t]> (timers m)) (u16 (total_cnt m + 1)) (running_cnt m)
                (inited m),
              Some id)
    end.

(** An identifier of 0 is the null pointer; using a timer that does not exist is
    undefined. *)
Definition tal_sw_timer_delete (m : SW_TIMER_MGR_T) (id : Z) : option (Z * SW_TIMER_MGR_T) :=
  if bool_decide (id = 0) then Some (OPRT_INVALID_PARM, m)
  else
    t ← timers m !! id;
    h ← tuya_list_del (tm_links m) id;
    Some (OPRT_OK,
          TimerMgr h (delete id (timers m)) (u16 (total_cnt m - 1))
            (if is_running t then u16 (running_cnt m - 1) else running_cnt m) (inited m)).

Definition tal_sw_timer_stop (m : SW_TIMER_MGR_T) (id : Z) : option (Z * SW_TIMER_MGR_T) :=
  if bool_decide (id = 0) then Some (OPRT_INVALID_PARM, m)
  else
    t ← timers m !! id;
    if is_running t then
      let m := set_timer m id (Timer (tm_cb t) (tm_data t) (expire_time t) (interval t)
                                 false (tm_type t)) in
      let m := set_running m (u16 (running_cnt m - 1)) in
      h ← tuya_list_del (tm_links m) id;
      h ← tuya_list_add_tail h id list_standby;
      Some (OPRT_OK, set_links m h)
    else Some (OPRT_OK, m).

(** The result has type [BOOL_T]; 0 is false. *)
Definition tal_sw_timer_is_running (m : SW_TIMER_MGR_T) (id : Z) : option Z :=
  if bool_decide (id = 0) then Some OPRT_INVALID_PARM
  else t ← timers m !! id; Some (if is_running t then 1 else 0).

(** The result: the return code and the value written to [*remain_time], if any. *)
Definition tal_sw_timer_remain_time_get (m : SW_TIMER_MGR_T) (id : Z) (remain_null : bool)
    (nowMS : Z) : option (Z * option Z) :=
  if bool_decide (id = 0) || remain_null then Some (OPRT_INVALID_PARM, None)
  else
    t ← timers m !! id;
    if negb (is_running t) then Some (i32 (interval t), None)
    else Some (OPRT_OK,
               Some (if bool_decide (expire_time t > nowMS)
                     then u32 (expire_time t - nowMS) else 0)).

Definition tal_sw_timer_start (m : SW_TIMER_MGR_T) (id time_ms : Z) (type : TIMER_TYPE)
    (nowMS : Z) : option (Z * SW_TIMER_MGR_T) :=
  if bool_decide (id = 0) then Some (OPRT_INVALID_PARM, m)
  else
    t ← timers m !! id;
    let m := if negb (is_running t) then set_running m (u16 (running_cnt m + 1)) else m in
    let itv := if bool_decide (time_ms <> 0) then time_ms else interval t in
    let m := set_timer m id (Timer (tm_cb t) (tm_data t) (u64 (nowMS + itv)) itv true type) in
    m ← timer_attach m id;
    Some (OPRT_OK, m).

Definition tal_sw_timer_trigger (m : SW_TIMER_MGR_T) (id : Z) : option (Z * SW_TIMER_MGR_T) :=
  if bool_decide (id = 0) then Some (OPRT_INVALID_PARM, m)
  else
    t ← timers m !! id;
    let m := set_timer m id (Timer (tm_cb t) (tm_data t) 0 (interval t) (is_running t)
                               (tm_type t)) in
    if is_running t then
      h ← tuya_list_del (tm_links m) id;
      h ← tuya_list_add h id list_active;
      Some (OPRT_OK, set_links m h)
    else Some (OPRT_OK, m).

Definition tal_sw_timer_get_num (m : SW_TIMER_MGR_T) : Z := running_cnt m.

Definition tal_sw_timer_release : Z := OPRT_OK.

(** The dispatch loop: every round reads the clock, [clock n] at the [n]-th one, and runs
    the callback, [run_cb], after the manager has been released. The result: the manager, the
    callbacks in order and the time to wait. *)
Fixpoint timer_dispatch (fuel : nat) (run_cb : Z * Z * Z -> SW_TIMER_MGR_T -> option SW_TIMER_MGR_T)
    (clock : nat -> Z) (n : nat) (m : SW_TIMER_MGR_T) (next_expired : Z)
    : option (SW_TIMER_MGR_T * list (Z * Z * Z) * Z) :=
  match fuel with
  | O => None
  | S fuel =>
      r ← timer_dispatch_round m (clock n);
      let next_expired := default next_expired (ds_next_expired r) in
      m ← (match ds_call r with Some c => run_cb c (ds_mgr r) | None => Some (ds_mgr r) end);
      let calls := match ds_call r with Some c => [c] | None => [] end in
      if ds_again r then
        '(m, cs, next_expired) ← timer_dispatch fuel run_cb clock (S n) m next_expired;
        Some (m, calls ++ cs, next_expired)
      else Some (m, calls, next_expired)
  end.

(** ** The two lists *)

Definition rm (id : Z) (l : list Z) : list Z := filter (fun x => x <> id) l.

Lemma rm_not_in id l : id ∉ l -> rm id l = l.
Proof.
  intros Hid. unfold rm. induction l as [|x l IH]; [done|].
  rewrite filter_cons_True by set_solver. rewrite IH by set_solver. done.
Qed.

Lemma rm_middle id l1 l2 : NoDup (l1 ++ id :: l2) -> rm id (l1 ++ id :: l2) = l1 ++ l2.
Proof.
  rewrite NoDup_app, NoDup_cons. intros (_ & Hd & Hn & _). unfold rm.
  rewrite filter_app, filter_cons_False by naive_solver.
  fold (rm id l1) (rm id l2). rewrite !rm_not_in; [done|done|]. intros ?. apply (Hd id); [done|left].
Qed.

Lemma elem_of_rm x id l : x ∈ rm id l <-> x <> id /\ x ∈ l.
Proof. unfold rm. by rewrite list_elem_of_filter. Qed.

Definition dlls (h : links) (la ls : list Z) : Prop :=
  dll h list_active la /\ dll h list_standby ls /\
  NoDup (list_active :: list_standby :: la ++ ls).

Lemma dlls_facts h la ls :
  dlls h la ls ->
  list_active ∉ list_standby :: la ++ ls /\ list_standby ∉ la ++ ls /\ NoDup la /\ NoDup ls /\
  forall x, x ∈ la -> x ∉ ls.
Proof.
  intros (_ & _ & Hnd). rewrite !NoDup_cons, NoDup_app in Hnd.
  destruct Hnd as (? & ? & ? & ? & ?). done.
Qed.

Lemma NoDup_drop_one (x : Z) l l' : NoDup l -> l ≡ₚ x :: l' -> NoDup l'.
Proof. intros Hnd Hp. rewrite Hp in Hnd. by apply NoDup_cons in Hnd as [_ ?]. Qed.

Lemma NoDup_add_one (x : Z) l l' : NoDup l -> x ∉ l -> l' ≡ₚ x :: l -> NoDup l'.
Proof. intros Hnd Hx Hp. rewrite Hp. by apply NoDup_cons. Qed.

Lemma dlls_del h la ls id :
  dlls h la ls -> id ∈ la ++ ls ->
  exists h', tuya_list_del h id = Some h' /\ dlls h' (rm id la) (rm id ls).
Proof.
  intros Hd Hid. pose proof (dlls_facts _ _ _ Hd) as (HA & HB & Hna & Hns & Hdis).
  destruct Hd as (Ha & Hb & Hnd). apply elem_of_app in Hid as [Hid|Hid].
  - apply list_elem_of_split in Hid as (l1 & l2 & ->).
    assert (Hs : rm id ls = ls) by (apply rm_not_in, Hdis; set_solver).
    rewrite rm_middle, Hs by done.
    destruct (tuya_list_del_ok h id list_active l1 l2 Ha) as (h' & Hdel & Ha' & Hsame).
    exists h'. split; [done|]. split; [done|]. split.
    + eapply dll_same; [done|]. apply Hsame. intros x Hx Hx2.
      apply elem_of_cons in Hx2 as [-> | Hx2]; [set_solver|].
      apply elem_of_cons in Hx as [-> | Hx]; [set_solver|]. apply (Hdis x); set_solver.
    + apply (NoDup_drop_one id _ _ Hnd). solve_Permutation.
  - assert (Hs : rm id la = la) by (apply rm_not_in; intros ?; by apply (Hdis id)).
    apply list_elem_of_split in Hid as (l1 & l2 & ->).
    rewrite rm_middle, Hs by done.
    destruct (tuya_list_del_ok h id list_standby l1 l2 Hb) as (h' & Hdel & Hb' & Hsame).
    exists h'. split; [done|]. split; [|split; [done|]].
    + eapply dll_same; [done|]. apply Hsame. intros x Hx Hx2.
      apply elem_of_cons in Hx2 as [-> | Hx2]; [set_solver|].
      apply elem_of_cons in Hx as [-> | Hx]; [set_solver|]. apply (Hdis x); set_solver.
    + apply (NoDup_drop_one id _ _ Hnd). solve_Permutation.
Qed.

(** What adding to either list leaves of the other one. *)
Lemma dlls_add_active h h' la la' ls id :
  dlls h la ls -> id ∉ list_active :: list_standby :: la ++ ls -> la' ≡ₚ id :: la ->
  dll h' list_active la' ->
  (forall ns, id ∉ ns -> (forall a, a ∈ list_active :: la -> a ∉ ns) -> same_on h h' ns) ->
  dlls h' la' ls.
Proof.
  intros Hd Hid Hp Ha' Hsame. pose proof (dlls_facts _ _ _ Hd) as (HA & HB & Hna & Hns & Hdis).
  destruct Hd as (Ha & Hb & Hnd). split; [done|]. split.
  - eapply dll_same; [done|]. apply Hsame; [set_solver|]. intros x Hx Hx2.
    apply elem_of_cons in Hx2 as [-> | Hx2]; [set_solver|].
    apply elem_of_cons in Hx as [-> | Hx]; [set_solver|]. apply (Hdis x); set_solver.
  - apply (NoDup_add_one id _ _ Hnd Hid). rewrite Hp. solve_Permutation.
Qed.

Lemma dlls_add_standby h h' la ls ls' id :
  dlls h la ls -> id ∉ list_active :: list_standby :: la ++ ls -> ls' ≡ₚ id :: ls ->
  dll h' list_standby ls' ->
  (forall ns, id ∉ ns -> (forall a, a ∈ list_standby :: ls -> a ∉ ns) -> same_on h h' ns) ->
  dlls h' la ls'.
Proof.
  intros Hd Hid Hp Ha' Hsame. pose proof (dlls_facts _ _ _ Hd) as (HA & HB & Hna & Hns & Hdis).
  destruct Hd as (Ha & Hb & Hnd). split; [|split; [done|]].
  - eapply dll_same; [done|]. apply Hsame; [set_solver|]. intros x Hx Hx2.
    apply elem_of_cons in Hx2 as [-> | Hx2]; [set_solver|].
    apply elem_of_cons in Hx as [-> | Hx]; [set_solver|]. apply (Hdis x); set_solver.
  - apply (NoDup_add_one id _ _ Hnd Hid). rewrite Hp. solve_Permutation.
Qed.

Lemma fresh_after_rm h la ls id :
  dlls h la ls -> id ∈ la ++ ls ->
  id ∉ list_active :: list_standby :: rm id la ++ rm id ls.
Proof.
  intros (_ & _ & Hnd) Hid. rewrite !NoDup_cons in Hnd.
  intros Hin. rewrite !elem_of_cons, elem_of_app, !elem_of_rm in Hin. set_solver.
Qed.

(** ** The invariant *)

Definition expire (ts : gmap Z TIMER_T) (id : Z) : Z :=
  default 0 (expire_time <$> ts !! id).

Definition sorted_by_expiry (ts : gmap Z TIMER_T) (l : list Z) : Prop :=
  StronglySorted (fun a b => expire ts a <= expire ts b) l.

(** [la] are the running timers in the order of their expiry, [ls] the others. *)
Record mgr_ok (m : SW_TIMER_MGR_T) (la ls : list Z) : Prop := {
  ok_lists : dlls (tm_links m) la ls;
  ok_dom : forall id, is_Some (timers m !! id) <-> id ∈ la ++ ls;
  ok_running : forall id t, timers m !! id = Some t -> is_running t = true <-> id ∈ la;
  ok_expire : forall id t, timers m !! id = Some t -> 0 <= expire_time t;
  ok_sorted : sorted_by_expiry (timers m) la;
  ok_running_cnt : running_cnt m = u16 (zlen la);
  ok_total_cnt : total_cnt m = u16 (zlen la + zlen ls) }.

Lemma NoDup_length_size (ts : gmap Z TIMER_T) l :
  NoDup l -> (forall x, x ∈ l -> is_Some (ts !! x)) -> (length l <= size ts)%nat.
Proof.
  intros Hnd Hin. rewrite <- size_dom, <- (size_list_to_set (C := gset Z)) by done.
  apply subseteq_size. intros x Hx%elem_of_list_to_set. by apply elem_of_dom, Hin.
Qed.

(** Insertion before the first timer that does not expire earlier. *)
Lemma timer_attach_ok m la ls id t :
  dlls (tm_links m) la ls -> (forall x, x ∈ la ++ ls -> is_Some (timers m !! x)) ->
  id ∈ la ++ ls -> timers m !! id = Some t ->
  exists h' l1 l2, timer_attach m id = Some (set_links m h') /\
    rm id la = l1 ++ l2 /\ dlls h' (l1 ++ id :: l2) (rm id ls) /\
    Forall (fun x => expire (timers m) x < expire_time t) l1 /\
    match l2 with [] => True | x :: _ => expire_time t <= expire (timers m) x end.
Proof.
  intros Hd Hdom Hid Ht. destruct (dlls_del _ _ _ _ Hd Hid) as (h1 & Hdel & Hd1).
  pose proof (fresh_after_rm _ _ _ _ Hd Hid) as Hfresh.
  assert (Hina : forall x, x ∈ rm id la -> is_Some (timers m !! x))
    by (intros x [_ Hx]%elem_of_rm; apply Hdom; set_solver).
  unfold timer_attach. rewrite Ht. ub_step. rewrite Hdel. ub_step.
  set (lr := rm id la) in *. pose proof Hd1 as (Ha & _ & _).
  assert (Hfa : id ∉ list_active :: lr).
  { rewrite elem_of_cons. intros Hin. apply Hfresh. rewrite !elem_of_cons, elem_of_app. tauto. }
  assert (Htail : exists h', tuya_list_add_tail h1 id list_active = Some h' /\
    dlls h' (lr ++ [id]) (rm id ls)).
  { destruct (tuya_list_add_tail_ok h1 id list_active lr Ha) as (h' & Hadd & Ha' & Hsame);
      [done|].
    exists h'. split; [done|]. eapply dlls_add_active; [exact Hd1|done| |done|done].
    by rewrite Permutation_app_comm. }
  destruct Htail as (h' & Hadd & Hd').
  rewrite (tuya_list_empty_ok _ _ _ Ha). ub_step.
  destruct (decide (lr = [])) as [Hempty|Hne].
  { rewrite bool_decide_true by done. rewrite Hadd. exists h', lr, []. split; [done|].
    rewrite app_nil_r. split_and!; try done. by rewrite Hempty. }
  rewrite bool_decide_false by done.
  replace (get_next h1 list_active) with (Some (after list_active lr))
    by (symmetry; by apply (dll_next h1 list_active [] lr)).
  ub_step.
  set (f := fun x => bool_decide (expire (timers m) x >= expire_time t)).
  rewrite (for_each_until_ok _ h1 list_active [] lr _ f); [|done| |].
  2: { unfold list_fuel. pose proof (NoDup_length_size (timers m) lr) as Hlen.
       assert (NoDup lr) by (by apply dlls_facts in Hd1 as (_ & _ & ? & _)).
       specialize (Hlen ltac:(done) Hina). lia. }
  2: { intros x Hx. destruct (Hina x Hx) as [tx Hx2]. unfold f, expire. by rewrite Hx2. }
  ub_step. pose proof (find_split f lr) as Hfind. destruct (List.find f lr) as [x|]; simpl.
  - destruct Hfind as (l1 & l2 & Hlr & Hfx & Hl1).
    assert (Hxa : x <> list_active).
    { intros ->. destruct Ha as [_ Hnd]. apply NoDup_cons in Hnd as [Hnd _]. apply Hnd.
      rewrite Hlr. apply elem_of_app. right. left. }
    rewrite bool_decide_false by done. rewrite Hlr in Ha, Hfa.
    pose proof (dll_prev _ _ _ _ Ha) as Hprev. simpl in Hprev. rewrite Hprev. ub_step.
    destruct (tuya_list_add_at h1 id list_active l1 (x :: l2) Ha) as (h2 & Hadd2 & Ha2 & Hsame);
      [done|].
    rewrite Hadd2. exists h2, l1, (x :: l2). split; [done|]. split; [done|]. split_and!.
    + eapply dlls_add_active; [exact Hd1|done| |done|by rewrite Hlr].
      by rewrite Hlr, Permutation_middle.
    + eapply Forall_impl; [exact Hl1|]. intros y Hy. apply bool_decide_eq_false in Hy. lia.
    + apply bool_decide_eq_true in Hfx. lia.
  - rewrite Hadd. exists h', lr, []. split; [done|].
    rewrite app_nil_r. split_and!; try done.
    eapply Forall_impl; [exact Hfind|]. intros y Hy. apply bool_decide_eq_false in Hy. lia.
Qed.

(** ** Operations and the invariant *)

Lemma sorted_insert (f : Z -> Z) l1 l2 x :
  StronglySorted (fun a b => f a <= f b) (l1 ++ l2) -> Forall (fun y => f y <= f x) l1 ->
  match l2 with [] => True | y :: _ => f x <= f y end ->
  StronglySorted (fun a b => f a <= f b) (l1 ++ x :: l2).
Proof.
  induction l1 as [|y l1 IH]; simpl; intros Hs H1 H2.
  - constructor; [done|]. destruct l2 as [|y l2]; [done|]. constructor; [done|].
    inversion Hs as [|? ? _ Hall]; subst. eapply Forall_impl; [exact Hall|]. simpl. lia.
  - inversion Hs as [|? ? Hs' Hall]; inversion H1; subst. constructor; [by apply IH|].
    rewrite Forall_app in Hall |- *. destruct Hall as [Ha1 Ha2]. split; [done|].
    constructor; [done|]. done.
Qed.

Lemma StronglySorted_rm (R : Z -> Z -> Prop) id l :
  StronglySorted R l -> StronglySorted R (rm id l).
Proof.
  induction 1 as [|x l Hs IH Hall]; [constructor|]. unfold rm.
  destruct (decide (x = id)); [by rewrite filter_cons_False by naive_solver|].
  rewrite filter_cons_True by done. constructor; [done|].
  apply Forall_forall. intros y [_ Hy]%elem_of_rm. rewrite Forall_forall in Hall. auto.
Qed.

Lemma sorted_ext ts ts' l :
  sorted_by_expiry ts l -> (forall x, x ∈ l -> expire ts' x = expire ts x) ->
  sorted_by_expiry ts' l.
Proof.
  unfold sorted_by_expiry. induction 1 as [|x l Hs IH Hall]; intros Hext; constructor.
  - apply IH. intros y Hy. apply Hext. by right.
  - apply Forall_forall. intros y Hy. rewrite Forall_forall in Hall.
    rewrite !Hext by (by left || by right). by apply Hall.
Qed.

Lemma expire_insert ts id t : expire (<[id := t]> ts) id = expire_time t.
Proof. unfold expire. by rewrite lookup_insert_eq. Qed.

Lemma expire_insert_ne ts id t x : x <> id -> expire (<[id := t]> ts) x = expire ts x.
Proof. intros. unfold expire. by rewrite lookup_insert_ne by done. Qed.

Lemma zlen_rm id l : NoDup l -> zlen (rm id l) = if bool_decide (id ∈ l) then zlen l - 1 else zlen l.
Proof.
  intros Hnd. case_bool_decide as Hin; [|by rewrite rm_not_in].
  apply list_elem_of_split in Hin as (l1 & l2 & ->). rewrite rm_middle by done.
  rewrite !zlen_app, zlen_cons. lia.
Qed.

Lemma zlen_perm (l l' : list Z) : l ≡ₚ l' -> zlen l = zlen l'.
Proof. intros H. unfold zlen. by rewrite H. Qed.

(** Where a timer is and how moving it changes the lengths. *)
Lemma mgr_lengths m la ls id t :
  mgr_ok m la ls -> timers m !! id = Some t ->
  id ∈ la ++ ls /\
  zlen (rm id la) = zlen la - (if is_running t then 1 else 0) /\
  zlen (rm id ls) = zlen ls - (if is_running t then 0 else 1).
Proof.
  intros Hok Ht. pose proof (dlls_facts _ _ _ (ok_lists _ _ _ Hok)) as (_ & _ & Hna & Hns & Hdis).
  assert (Hid : id ∈ la ++ ls) by (apply (ok_dom _ _ _ Hok); eauto).
  split; [done|]. rewrite !zlen_rm by done.
  pose proof (ok_running _ _ _ Hok id t Ht) as Hrun. destruct (is_running t).
  - assert (Hla : id ∈ la) by tauto. rewrite bool_decide_true by done.
    rewrite bool_decide_false by (by apply Hdis). lia.
  - assert (Hla : id ∉ la) by (intros ?; assert (false = true) by tauto; done).
    rewrite bool_decide_false by done. apply elem_of_app in Hid as [?|?]; [done|].
    rewrite bool_decide_true by done. lia.
Qed.

(** The common part of starting a timer and rescheduling it: timer [id] becomes [t],
    running, and is attached. *)
Lemma mgr_ok_attach m la ls id t0 t n :
  mgr_ok m la ls -> timers m !! id = Some t0 -> is_running t = true -> 0 <= expire_time t ->
  n = u16 (zlen (rm id la) + 1) ->
  exists m' l1 l2, timer_attach (set_running (set_timer m id t) n) id = Some m' /\
    mgr_ok m' (l1 ++ id :: l2) (rm id ls) /\ rm id la = l1 ++ l2 /\
    timers m' = <[id := t]> (timers m) /\ inited m' = inited m.
Proof.
  intros Hok Ht0 Hrun Hexp Hn. destruct (mgr_lengths _ _ _ _ _ Hok Ht0) as (Hid & Hla & Hls).
  destruct Hok as [Hd Hdom Hr He Hs Hrc Htc].
  pose proof (dlls_facts _ _ _ Hd) as (_ & _ & Hna & Hns & Hdis).
  destruct (timer_attach_ok (set_running (set_timer m id t) n) la ls id t)
    as (h' & l1 & l2 & Hatt & Hrm & Hd' & H1 & H2); simpl; try done.
  { intros x Hx. rewrite lookup_insert_is_Some. destruct (decide (id = x)); [by left|right].
    split; [done|by apply Hdom]. }
  { by rewrite lookup_insert_eq. }
  eexists _, l1, l2. split; [exact Hatt|]. split; [|done].
  assert (Hin : forall x, x ∈ l1 \/ x ∈ l2 <-> x <> id /\ x ∈ la)
    by (intros; by rewrite <- elem_of_app, <- Hrm, elem_of_rm).
  split; simpl.
  - done.
  - intros x. rewrite lookup_insert_is_Some, Hdom.
    rewrite !elem_of_app, elem_of_cons, elem_of_rm. specialize (Hin x).
    apply elem_of_app in Hid. destruct (decide (x = id)) as [->|]; [tauto|]. intuition congruence.
  - intros x tx Hx. rewrite elem_of_app, elem_of_cons. specialize (Hin x).
    destruct (decide (x = id)) as [->|Hne].
    + rewrite lookup_insert_eq in Hx. injection Hx as <-. tauto.
    + rewrite lookup_insert_ne in Hx by done. rewrite (Hr _ _ Hx). intuition congruence.
  - intros x tx Hx. destruct (decide (x = id)) as [->|Hne].
    + rewrite lookup_insert_eq in Hx. by injection Hx as <-.
    + rewrite lookup_insert_ne in Hx by done. by eapply He.
  - apply sorted_insert.
    + eapply sorted_ext; [rewrite <- Hrm; by apply StronglySorted_rm, Hs|].
      intros x Hx. apply elem_of_app, Hin in Hx as [? _]. by apply expire_insert_ne.
    + eapply Forall_impl; [exact H1|]. intros x Hx. simpl in Hx. rewrite expire_insert. lia.
    + rewrite expire_insert. done.
  - rewrite Hn, Hrm. f_equal. rewrite !zlen_app, zlen_cons. lia.
  - rewrite Htc. f_equal. rewrite Hrm in Hla. rewrite zlen_app in Hla.
    rewrite zlen_app, zlen_cons. destruct (is_running t0); lia.
Qed.

(** The common part of stopping a timer and firing it once: [id] goes to the end of the
    standby list. *)
Lemma mgr_ok_standby m la ls id t0 t n :
  mgr_ok m la ls -> timers m !! id = Some t0 -> is_running t = false -> 0 <= expire_time t ->
  n = u16 (zlen (rm id la)) ->
  exists h h', tuya_list_del (tm_links m) id = Some h /\
    tuya_list_add_tail h id list_standby = Some h' /\
    mgr_ok (set_links (set_running (set_timer m id t) n) h') (rm id la) (rm id ls ++ [id]).
Proof.
  intros Hok Ht0 Hrun Hexp Hn. destruct (mgr_lengths _ _ _ _ _ Hok Ht0) as (Hid & Hla & Hls).
  destruct Hok as [Hd Hdom Hr He Hs Hrc Htc].
  destruct (dlls_del _ _ _ _ Hd Hid) as (h1 & Hdel & Hd1).
  pose proof (fresh_after_rm _ _ _ _ Hd Hid) as Hfresh. pose proof Hd1 as (_ & Hb & _).
  destruct (tuya_list_add_tail_ok h1 id list_standby (rm id ls) Hb) as (h2 & Hadd & Hb2 & Hsame).
  { rewrite !elem_of_cons, elem_of_app in Hfresh. rewrite elem_of_cons. tauto. }
  exists h1, h2. split; [done|]. split; [done|].
  assert (Hd2 : dlls h2 (rm id la) (rm id ls ++ [id])).
  { eapply dlls_add_standby; [exact Hd1|done| |done|done]. by rewrite Permutation_app_comm. }
  split; simpl.
  - done.
  - intros x. rewrite lookup_insert_is_Some, Hdom.
    rewrite !elem_of_app, list_elem_of_singleton, !elem_of_rm. apply elem_of_app in Hid.
    destruct (decide (x = id)) as [->|]; [tauto|]. intuition congruence.
  - intros x tx Hx. rewrite elem_of_rm. destruct (decide (x = id)) as [->|Hne].
    + rewrite lookup_insert_eq in Hx. injection Hx as <-. rewrite Hrun. naive_solver.
    + rewrite lookup_insert_ne in Hx by done. rewrite (Hr _ _ Hx). tauto.
  - intros x tx Hx. destruct (decide (x = id)) as [->|Hne].
    + rewrite lookup_insert_eq in Hx. by injection Hx as <-.
    + rewrite lookup_insert_ne in Hx by done. by eapply He.
  - eapply sorted_ext; [by apply StronglySorted_rm, Hs|].
    intros x [? _]%elem_of_rm. by apply expire_insert_ne.
  - done.
  - rewrite Htc. f_equal. rewrite zlen_snoc. destruct (is_running t0); lia.
Qed.

Lemma start_ok m la ls id t time_ms type nowMS :
  mgr_ok m la ls -> timers m !! id = Some t -> id <> 0 ->
  exists m' l1 l2, tal_sw_timer_start m id time_ms type nowMS = Some (OPRT_OK, m') /\
    mgr_ok m' (l1 ++ id :: l2) (rm id ls) /\ rm id la = l1 ++ l2 /\
    timers m' = <[id := Timer (tm_cb t) (tm_data t)
      (u64 (nowMS + (if bool_decide (time_ms <> 0) then time_ms else interval t)))
      (if bool_decide (time_ms <> 0) then time_ms else interval t) true type]> (timers m).
Proof.
  intros Hok Ht Hid. destruct (mgr_lengths _ _ _ _ _ Hok Ht) as (_ & Hla & _).
  unfold tal_sw_timer_start. rewrite bool_decide_false, Ht by done. ub_step.
  set (itv := if bool_decide (time_ms <> 0) then time_ms else interval t).
  set (t' := Timer _ _ _ itv true type).
  destruct (mgr_ok_attach m la ls id t t'
    (if negb (is_running t) then u16 (running_cnt m + 1) else running_cnt m))
    as (m' & l1 & l2 & Hatt & Hok' & Hrm & Hts & _); try done.
  { apply wrap_range. lia. }
  { rewrite (ok_running_cnt _ _ _ Hok), Hla. destruct (is_running t); simpl.
    - f_equal. lia.
    - rewrite wrap_add_l. f_equal. lia. }
  exists m', l1, l2. split; [|done].
  assert (Heq : set_timer (if negb (is_running t) then set_running m (u16 (running_cnt m + 1)) else m) id t' =
    set_running (set_timer m id t') (if negb (is_running t) then u16 (running_cnt m + 1) else running_cnt m))
    by (destruct (is_running t); simpl; [by destruct m|done]).
  rewrite Heq, Hatt. done.
Qed.

Lemma stop_ok m la ls id t :
  mgr_ok m la ls -> timers m !! id = Some t -> id <> 0 ->
  exists m', tal_sw_timer_stop m id = Some (OPRT_OK, m') /\
    mgr_ok m' (rm id la) (if is_running t then rm id ls ++ [id] else ls).
Proof.
  intros Hok Ht Hid. destruct (mgr_lengths _ _ _ _ _ Hok Ht) as (_ & Hla & _).
  unfold tal_sw_timer_stop. rewrite bool_decide_false, Ht by done. ub_step.
  pose proof (ok_running _ _ _ Hok id t Ht) as Hrun. destruct (is_running t) eqn:Hr.
  - destruct (mgr_ok_standby m la ls id t
      (Timer (tm_cb t) (tm_data t) (expire_time t) (interval t) false (tm_type t))
      (u16 (running_cnt m - 1))) as (h & h' & Hdel & Hadd & Hok'); try done.
    { by apply (ok_expire _ _ _ Hok id t). }
    { rewrite (ok_running_cnt _ _ _ Hok), Hla. rewrite <- Z.add_opp_r, wrap_add_l. f_equal. }
    simpl. rewrite Hdel. ub_step. rewrite Hadd. ub_step. eauto.
  - exists m. split; [done|]. rewrite rm_not_in; [done|]. intros ?. assert (false = true) by tauto. done.
Qed.

Lemma delete_ok m la ls id t :
  mgr_ok m la ls -> timers m !! id = Some t -> id <> 0 ->
  exists m', tal_sw_timer_delete m id = Some (OPRT_OK, m') /\
    mgr_ok m' (rm id la) (rm id ls) /\ timers m' = delete id (timers m).
Proof.
  intros Hok Ht Hid0. destruct (mgr_lengths _ _ _ _ _ Hok Ht) as (Hid & Hla & Hls).
  destruct Hok as [Hd Hdom Hr He Hs Hrc Htc].
  destruct (dlls_del _ _ _ _ Hd Hid) as (h1 & Hdel & Hd1).
  unfold tal_sw_timer_delete. rewrite bool_decide_false, Ht by done. ub_step. rewrite Hdel. ub_step.
  eexists. split; [done|]. split; [|done]. split; simpl.
  - done.
  - intros x. rewrite lookup_delete_is_Some, Hdom, !elem_of_app, !elem_of_rm. intuition congruence.
  - intros x tx Hx. apply lookup_delete_Some in Hx as [Hne Hx]. rewrite elem_of_rm, (Hr _ _ Hx).
    intuition congruence.
  - intros x tx Hx. apply lookup_delete_Some in Hx as [Hne Hx]. by eapply He.
  - eapply sorted_ext; [by apply StronglySorted_rm, Hs|]. intros x [? _]%elem_of_rm.
    unfold expire. by rewrite lookup_delete_ne by done.
  - rewrite Hla. destruct (is_running t).
    + rewrite Hrc. rewrite <- Z.add_opp_r, wrap_add_l. f_equal.
    + rewrite Hrc. f_equal. lia.
  - rewrite Htc. rewrite <- Z.add_opp_r, wrap_add_l. f_equal. destruct (is_running t); lia.
Qed.

Lemma trigger_ok m la ls id t :
  mgr_ok m la ls -> timers m !! id = Some t -> id <> 0 ->
  exists m', tal_sw_timer_trigger m id = Some (OPRT_OK, m') /\
    mgr_ok m' (if is_running t then id :: rm id la else la) ls /\
    timers m' = <[id := Timer (tm_cb t) (tm_data t) 0 (interval t) (is_running t) (tm_type t)]>
      (timers m).
Proof.
  intros Hok Ht Hid0. destruct (mgr_lengths _ _ _ _ _ Hok Ht) as (Hid & Hla & Hls).
  pose proof Hok as [Hd Hdom Hr He Hs Hrc Htc].
  unfold tal_sw_timer_trigger. rewrite bool_decide_false, Ht by done. ub_step.
  set (t' := Timer _ _ 0 _ _ _).
  assert (Hdom' : forall x, is_Some (<[id := t']> (timers m) !! x) <-> x ∈ la ++ ls).
  { intros x. rewrite lookup_insert_is_Some, Hdom. destruct (decide (id = x)) as [->|]; tauto. }
  assert (Hr' : forall x tx, <[id := t']> (timers m) !! x = Some tx -> is_running tx = true <-> x ∈ la).
  { intros x tx Hx. destruct (decide (x = id)) as [->|Hne].
    - rewrite lookup_insert_eq in Hx. injection Hx as <-. simpl. by apply Hr.
    - rewrite lookup_insert_ne in Hx by done. by apply Hr. }
  assert (He' : forall x tx, <[id := t']> (timers m) !! x = Some tx -> 0 <= expire_time tx).
  { intros x tx Hx. destruct (decide (x = id)) as [->|Hne].
    - rewrite lookup_insert_eq in Hx. by injection Hx as <-.
    - rewrite lookup_insert_ne in Hx by done. by eapply He. }
  pose proof (ok_running _ _ _ Hok id t Ht) as Hrun.
  destruct (is_running t) eqn:Hrt.
  - assert (Hla_in : id ∈ la) by tauto. simpl.
    destruct (dlls_del _ _ _ _ Hd Hid) as (h1 & Hdel & Hd1). rewrite Hdel. ub_step.
    pose proof (fresh_after_rm _ _ _ _ Hd Hid) as Hfresh. pose proof Hd1 as (Ha & _ & _).
    destruct (tuya_list_add_ok h1 id list_active (rm id la) Ha) as (h2 & Hadd & Ha2 & Hsame).
    { rewrite !elem_of_cons, elem_of_app in Hfresh. rewrite elem_of_cons. tauto. }
    rewrite Hadd. ub_step. eexists. split; [done|]. split; [|done].
    pose proof (dlls_facts _ _ _ Hd) as (_ & _ & Hna & Hns & Hdis).
    assert (Hrls : rm id ls = ls) by (apply rm_not_in; by apply Hdis).
    split; simpl.
    + rewrite <- Hrls at 1. eapply dlls_add_active; [exact Hd1|done|done|done|done].
    + intros x. rewrite Hdom'. simpl. rewrite elem_of_cons, !elem_of_app, elem_of_rm.
      destruct (decide (x = id)) as [->|]; tauto.
    + intros x tx Hx. rewrite (Hr' _ _ Hx), elem_of_cons, elem_of_rm.
      destruct (decide (x = id)) as [->|]; tauto.
    + done.
    + constructor.
      * eapply sorted_ext; [by apply StronglySorted_rm, Hs|]. intros x [? _]%elem_of_rm.
        by apply expire_insert_ne.
      * apply Forall_forall. intros x [Hne Hx]%elem_of_rm. rewrite expire_insert, expire_insert_ne by done.
        unfold expire. simpl. destruct (Hdom x) as [_ Hx']. destruct Hx' as [tx Htx]; [set_solver|].
        rewrite Htx. simpl. by eapply He.
    + rewrite Hrc. f_equal. rewrite zlen_cons. lia.
    + rewrite Htc. f_equal. rewrite zlen_cons. lia.
  - eexists. split; [done|]. split; [|done]. simpl. split; simpl; try done.
    eapply sorted_ext; [exact Hs|]. intros x Hx. apply expire_insert_ne. intros ->.
    assert (false = true) by tauto. done.
Qed.

Lemma create_ok m la ls func arg id :
  mgr_ok m la ls -> func <> 0 -> timers m !! id = None -> id <> list_active -> id <> list_standby ->
  exists m', tal_sw_timer_create m func arg false (Some id) = Some (OPRT_OK, m', Some id) /\
    mgr_ok m' la (ls ++ [id]) /\
    timers m' = <[id := Timer func arg 0 0 false TAL_TIMER_ONCE]> (timers m).
Proof.
  intros [Hd Hdom Hr He Hs Hrc Htc] Hf Hnew HA HB.
  assert (Hid : id ∉ la ++ ls) by (intros Hin; apply Hdom in Hin; rewrite Hnew in Hin; by destruct Hin).
  unfold tal_sw_timer_create. rewrite bool_decide_false by done. simpl.
  pose proof Hd as (_ & Hb & _). rewrite elem_of_app in Hid.
  destruct (tuya_list_add_tail_ok (tm_links m) id list_standby ls Hb) as (h2 & Hadd & Hb2 & Hsame).
  { rewrite elem_of_cons. tauto. }
  rewrite Hadd. ub_step. eexists. split; [done|]. split; [|done]. split; simpl.
  - eapply dlls_add_standby; [exact Hd| | |done|done].
    + rewrite !elem_of_cons, elem_of_app. tauto.
    + by rewrite Permutation_app_comm.
  - intros x. rewrite lookup_insert_is_Some, Hdom, !elem_of_app, list_elem_of_singleton.
    destruct (decide (x = id)) as [->|]; intuition congruence.
  - intros x tx Hx. destruct (decide (x = id)) as [->|Hne].
    + rewrite lookup_insert_eq in Hx. injection Hx as <-. simpl. naive_solver.
    + rewrite lookup_insert_ne in Hx by done. by apply Hr.
  - intros x tx Hx. destruct (decide (x = id)) as [->|Hne].
    + rewrite lookup_insert_eq in Hx. by injection Hx as <-.
    + rewrite lookup_insert_ne in Hx by done. by eapply He.
  - eapply sorted_ext; [exact Hs|]. intros x Hx. apply expire_insert_ne. intros ->. tauto.
  - done.
  - rewrite Htc, wrap_add_l. f_equal. rewrite zlen_snoc. lia.
Qed.

(** ** Dispatch *)

Lemma first_active m la ls :
  mgr_ok m la ls -> get_next (tm_links m) list_active = Some (after list_active la).
Proof. intros Hok. pose proof (ok_lists _ _ _ Hok) as (Ha & _ & _). by apply (dll_next _ _ [] la). Qed.

Lemma round_idle m ls now :
  mgr_ok m [] ls -> timer_dispatch_round m now = Some (Dispatched m None false None).
Proof.
  intros Hok. unfold timer_dispatch_round. rewrite (first_active _ _ _ Hok). ub_step. simpl. done.
Qed.

(** The first active timer exists. *)
Lemma head_timer m id la ls :
  mgr_ok m (id :: la) ls ->
  exists t, timers m !! id = Some t /\ is_running t = true /\ id <> list_active /\
    rm id (id :: la) = la /\ rm id ls = ls.
Proof.
  intros Hok. destruct (ok_dom _ _ _ Hok id) as [_ Hx]. destruct Hx as [t Ht]; [left|].
  exists t. split; [done|]. split; [apply (ok_running _ _ _ Hok id t Ht); left|].
  pose proof (dlls_facts _ _ _ (ok_lists _ _ _ Hok)) as (HA & _ & Hna & _ & Hdis).
  split; [intros ->; set_solver|]. split; [apply (rm_middle id [] la); done|].
  apply rm_not_in, Hdis. left.
Qed.

Lemma round_wait m id la ls t now :
  mgr_ok m (id :: la) ls -> timers m !! id = Some t -> now < expire_time t ->
  timer_dispatch_round m now = Some (Dispatched m None false (Some (u32 (expire_time t - now)))).
Proof.
  intros Hok Ht Hnow. destruct (head_timer _ _ _ _ Hok) as (t' & Ht' & _ & Hne & _).
  rewrite Ht in Ht'. injection Ht' as <-.
  unfold timer_dispatch_round. rewrite (first_active _ _ _ Hok). ub_step. simpl.
  rewrite bool_decide_false, Ht by done. ub_step. by rewrite bool_decide_true by lia.
Qed.

Lemma round_fire m id la ls t now :
  mgr_ok m (id :: la) ls -> timers m !! id = Some t -> expire_time t <= now ->
  exists m', timer_dispatch_round m now =
      Some (Dispatched m' (Some (tm_cb t, id, tm_data t)) true None) /\
    match tm_type t with
    | TAL_TIMER_ONCE =>
        mgr_ok m' la (ls ++ [id]) /\
        timers m' = <[id := Timer (tm_cb t) (tm_data t) (expire_time t) (interval t) false
          (tm_type t)]> (timers m)
    | TAL_TIMER_CYCLE =>
        (exists l1 l2, la = l1 ++ l2 /\ mgr_ok m' (l1 ++ id :: l2) ls) /\
        timers m' = <[id := Timer (tm_cb t) (tm_data t) (u64 (now + interval t)) (interval t)
          true (tm_type t)]> (timers m)
    end.
Proof.
  intros Hok Ht Hnow. destruct (head_timer _ _ _ _ Hok) as (t' & Ht' & Hrun & Hne & Hrm & Hrs).
  rewrite Ht in Ht'. injection Ht' as <-.
  destruct (mgr_lengths _ _ _ _ _ Hok Ht) as (_ & Hla & _). rewrite Hrun, Hrm in Hla.
  unfold timer_dispatch_round. rewrite (first_active _ _ _ Hok). ub_step. simpl.
  rewrite bool_decide_false, Ht by done. ub_step. rewrite bool_decide_false by lia.
  pose proof (ok_running_cnt _ _ _ Hok) as Hrc.
  destruct (tm_type t) eqn:Hty; simpl.
  - destruct (mgr_ok_standby m (id :: la) ls id t
      (Timer (tm_cb t) (tm_data t) (expire_time t) (interval t) false TAL_TIMER_ONCE)
      (u16 (running_cnt m - 1))) as (h & h' & Hdel & Hadd & Hok'); try done.
    { by apply (ok_expire _ _ _ Hok id t). }
    { rewrite Hrc, Hrm, Hla. rewrite <- Z.add_opp_r, wrap_add_l. f_equal. }
    rewrite Hdel. ub_step. rewrite Hadd. ub_step. eexists. split; [done|].
    rewrite Hrm, Hrs in Hok'. done.
  - rewrite Hrun.
    destruct (mgr_ok_attach m (id :: la) ls id t
      (Timer (tm_cb t) (tm_data t) (u64 (now + interval t)) (interval t) true TAL_TIMER_CYCLE)
      (running_cnt m)) as (m' & l1 & l2 & Hatt & Hok' & Hsplit & Hts & _); try done.
    { apply wrap_range. lia. }
    { rewrite Hrc, Hrm, Hla. f_equal. lia. }
    rewrite Hrm in Hsplit. rewrite Hrs in Hok'.
    replace (set_running _ (running_cnt m)) with
      (set_timer m id (Timer (tm_cb t) (tm_data t) (u64 (now + interval t)) (interval t) true
        TAL_TIMER_CYCLE)) in Hatt by (by destruct m).
    rewrite Hatt. ub_step. eexists. split; [done|]. split; [|done]. by exists l1, l2.
Qed.

Definition due (ts : gmap Z TIMER_T) (now : Z) (l : list Z) : list Z :=
  filter (fun x => expire ts x <= now) l.

Definition call_of (ts : gmap Z TIMER_T) (id : Z) : Z * Z * Z :=
  (default 0 (tm_cb <$> ts !! id), id, default 0 (tm_data <$> ts !! id)).

Definition waiting (ts : gmap Z TIMER_T) (now next : Z) (l : list Z) : Z :=
  match l with [] => next | x :: _ => u32 (expire ts x - now) end.

(** Periods are at least a millisecond and the clock is far from its end. *)
Definition periods_ok (ts : gmap Z TIMER_T) (now : Z) : Prop :=
  forall id t, ts !! id = Some t -> 0 < interval t /\ now + interval t < 2 ^ 64.

Lemma due_none ts now x l :
  sorted_by_expiry ts (x :: l) -> now < expire ts x -> due ts now (x :: l) = [].
Proof.
  intros Hs Hx. unfold due. inversion Hs as [|? ? _ Hall]; subst.
  rewrite filter_cons_False by lia. rewrite Forall_forall in Hall.
  induction l as [|y l IH]; [done|]. rewrite filter_cons_False.
  - apply IH; [|intros z Hz; apply Hall; by right].
    inversion Hs as [|? ? Hs' Ha]; inversion Hs'; inversion Ha; subst. by constructor.
  - specialize (Hall y ltac:(left)). simpl in Hall. lia.
Qed.

Lemma due_ext ts ts' now l :
  (forall x, x ∈ l -> expire ts' x = expire ts x) -> due ts' now l = due ts now l.
Proof.
  intros Hext. unfold due. induction l as [|x l IH]; [done|].
  assert (Hx : expire ts' x = expire ts x) by (apply Hext; left).
  assert (Hl : filter (fun x => expire ts' x <= now) l = filter (fun x => expire ts x <= now) l)
    by (apply IH; intros y Hy; apply Hext; by right).
  destruct (decide (expire ts x <= now)).
  - rewrite !filter_cons_True by lia. by rewrite Hl.
  - rewrite !filter_cons_False by lia. done.
Qed.

Lemma due_insert ts now id t l1 l2 :
  id ∉ l1 ++ l2 -> now < expire_time t ->
  due (<[id := t]> ts) now (l1 ++ id :: l2) = due ts now (l1 ++ l2).
Proof.
  intros Hid Ht. rewrite <- (due_ext ts (<[id := t]> ts) now (l1 ++ l2)).
  - unfold due. rewrite !filter_app, filter_cons_False by (rewrite expire_insert; lia). done.
  - intros x Hx. apply expire_insert_ne. by intros ->.
Qed.

Lemma calls_ext ts ts' (l : list Z) :
  (forall x, x ∈ l -> call_of ts' x = call_of ts x) -> call_of ts' <$> l = call_of ts <$> l.
Proof. intros Hext. apply list_fmap_ext. intros i x Hx. apply Hext. by eapply list_elem_of_lookup_2. Qed.

Lemma timer_dispatch_fire fuel run_cb clock n m next m1 c m2 :
  timer_dispatch_round m (clock n) = Some (Dispatched m1 (Some c) true None) ->
  run_cb c m1 = Some m2 ->
  timer_dispatch (S fuel) run_cb clock n m next =
    ('(m, cs, next_expired) ← timer_dispatch fuel run_cb clock (S n) m2 next;
     Some (m, c :: cs, next_expired)).
Proof. intros Hr Hc. cbn [timer_dispatch]. rewrite Hr. ub_step. simpl. rewrite Hc. done. Qed.

(** Callbacks that leave the timers alone. *)
Definition no_effect : Z * Z * Z -> SW_TIMER_MGR_T -> option SW_TIMER_MGR_T := fun _ m => Some m.


Lemma init_ok : mgr_ok (snd (tal_sw_timer_init mgr_start OPRT_OK)) [] [].
Proof.
  split; simpl; try done.
  - split; [|split].
    + eapply dll_same; [apply INIT_LIST_HEAD_ok|]. by apply INIT_LIST_HEAD_other; apply (bool_decide_eq_true_1 (2 ∉ [1])).
    + apply INIT_LIST_HEAD_ok.
    + by apply (bool_decide_eq_true_1 (NoDup [list_active; list_standby])).
  - intros id. rewrite lookup_empty. split; [by intros [? ?]|]. intros H. by apply elem_of_nil in H.
  - constructor.
Qed.

(** Everything that happens to the manager: the API on any identifier for which it is
    defined, new blocks that are not in use, and rounds of the dispatch loop. *)
Inductive mgr_step (m : SW_TIMER_MGR_T) : SW_TIMER_MGR_T -> Prop :=
  | step_create func arg id_null block rc m' out :
      (forall id, block = Some id -> timers m !! id = None /\ id <> list_active /\ id <> list_standby) ->
      tal_sw_timer_create m func arg id_null block = Some (rc, m', out) -> mgr_step m m'
  | step_delete id rc m' : tal_sw_timer_delete m id = Some (rc, m') -> mgr_step m m'
  | step_stop id rc m' : tal_sw_timer_stop m id = Some (rc, m') -> mgr_step m m'
  | step_start id time_ms type now rc m' :
      tal_sw_timer_start m id time_ms type now = Some (rc, m') -> mgr_step m m'
  | step_trigger id rc m' : tal_sw_timer_trigger m id = Some (rc, m') -> mgr_step m m'
  | step_round now r : timer_dispatch_round m now = Some r -> mgr_step m (ds_mgr r).

Lemma mgr_step_ok m m' la ls :
  mgr_step m m' -> mgr_ok m la ls -> exists la' ls', mgr_ok m' la' ls'.
Proof.
  intros Hs Hok. destruct Hs as [func arg id_null block rc m' out Hb Hc|id rc m' Hc|id rc m' Hc|
    id time_ms type now rc m' Hc|id rc m' Hc|now r Hr].
  - destruct (bool_decide (func = 0) || id_null) eqn:Hg.
    { unfold tal_sw_timer_create in Hc. rewrite Hg in Hc. injection Hc as <- <- <-. eauto. }
    apply orb_false_iff in Hg as [Hf ->]. apply bool_decide_eq_false in Hf.
    destruct block as [id|].
    + destruct (Hb id eq_refl) as (? & ? & ?).
      destruct (create_ok m la ls func arg id Hok) as (m1 & Hc' & Hok' & _); try done.
      rewrite Hc' in Hc. injection Hc as <- <- <-. eauto.
    + unfold tal_sw_timer_create in Hc. rewrite bool_decide_false in Hc by done.
      injection Hc as <- <- <-. eauto.
  - destruct (decide (id = 0)) as [->|Hid]; [by injection Hc as <- <-; eauto|].
    destruct (timers m !! id) as [t|] eqn:Ht.
    + destruct (delete_ok _ _ _ _ _ Hok Ht Hid) as (m1 & Hc' & Hok' & _).
      rewrite Hc' in Hc. injection Hc as <- <-. eauto.
    + unfold tal_sw_timer_delete in Hc. rewrite bool_decide_false, Ht in Hc by done. done.
  - destruct (decide (id = 0)) as [->|Hid]; [by injection Hc as <- <-; eauto|].
    destruct (timers m !! id) as [t|] eqn:Ht.
    + destruct (stop_ok _ _ _ _ _ Hok Ht Hid) as (m1 & Hc' & Hok').
      rewrite Hc' in Hc. injection Hc as <- <-. eauto.
    + unfold tal_sw_timer_stop in Hc. rewrite bool_decide_false, Ht in Hc by done. done.
  - destruct (decide (id = 0)) as [->|Hid]; [by injection Hc as <- <-; eauto|].
    destruct (timers m !! id) as [t|] eqn:Ht.
    + destruct (start_ok _ _ _ _ _ time_ms type now Hok Ht Hid) as (m1 & l1 & l2 & Hc' & Hok' & _).
      rewrite Hc' in Hc. injection Hc as <- <-. eauto.
    + unfold tal_sw_timer_start in Hc. rewrite bool_decide_false, Ht in Hc by done. done.
  - destruct (decide (id = 0)) as [->|Hid]; [by injection Hc as <- <-; eauto|].
    destruct (timers m !! id) as [t|] eqn:Ht.
    + destruct (trigger_ok _ _ _ _ _ Hok Ht Hid) as (m1 & Hc' & Hok' & _).
      rewrite Hc' in Hc. injection Hc as <- <-. eauto.
    + unfold tal_sw_timer_trigger in Hc. rewrite bool_decide_false, Ht in Hc by done. done.
  - destruct la as [|id la].
    { rewrite (round_idle _ _ _ Hok) in Hr. injection Hr as <-. eauto. }
    destruct (head_timer _ _ _ _ Hok) as (t & Ht & _).
    destruct (decide (expire_time t <= now)) as [Hd|Hd].
    + destruct (round_fire _ _ _ _ _ _ Hok Ht Hd) as (m1 & Hr' & Hcase).
      rewrite Hr' in Hr. injection Hr as <-. simpl. destruct (tm_type t).
      * destruct Hcase as [? _]. eauto.
      * destruct Hcase as [(l1 & l2 & _ & ?) _]. eauto.
    + rewrite (round_wait _ _ _ _ _ _ Hok Ht) in Hr by lia. injection Hr as <-. eauto.
Qed.

(** C8. From the initialised manager, any sequence of API calls and dispatch rounds keeps
    the manager consistent: two disjoint well-formed lists that together hold the existing
    timers, the active one exactly the running timers, sorted by expiry, and both counters
    the lengths of the lists. *)
Theorem timer_invariant m :
  rtc mgr_step (snd (tal_sw_timer_init mgr_start OPRT_OK)) m -> exists la ls, mgr_ok m la ls.
Proof.
  intros Hrun. assert (H0 : exists la ls, mgr_ok (snd (tal_sw_timer_init mgr_start OPRT_OK)) la ls)
    by (exists [], []; apply init_ok).
  revert H0. induction Hrun as [m|m m1 m2 Hs _ IH]; [done|].
  intros (la & ls & Hok). apply IH. by eapply mgr_step_ok.
Qed.

(** On a consistent manager every operation on an existing timer is defined, with all
    its list operations, and answers OPRT_OK. *)
Theorem timer_ops_defined m la ls id time_ms type now :
  mgr_ok m la ls -> id ∈ la ++ ls -> id <> 0 ->
  (exists m', tal_sw_timer_start m id time_ms type now = Some (OPRT_OK, m')) /\
  (exists m', tal_sw_timer_stop m id = Some (OPRT_OK, m')) /\
  (exists m', tal_sw_timer_trigger m id = Some (OPRT_OK, m')) /\
  (exists m', tal_sw_timer_delete m id = Some (OPRT_OK, m')) /\
  tal_sw_timer_is_running m id = Some (if bool_decide (id ∈ la) then 1 else 0) /\
  is_Some (timer_dispatch_round m now).
Proof.
  intros Hok Hin Hid. pose proof Hin as [t Ht]%(ok_dom _ _ _ Hok).
  split_and!.
  - destruct (start_ok _ _ _ _ _ time_ms type now Hok Ht Hid) as (m' & ? & ? & ? & _). eauto.
  - destruct (stop_ok _ _ _ _ _ Hok Ht Hid) as (m' & ? & _). eauto.
  - destruct (trigger_ok _ _ _ _ _ Hok Ht Hid) as (m' & ? & _). eauto.
  - destruct (delete_ok _ _ _ _ _ Hok Ht Hid) as (m' & ? & _). eauto.
  - unfold tal_sw_timer_is_running. rewrite bool_decide_false, Ht by done. ub_step. f_equal.
    pose proof (ok_running _ _ _ Hok id t Ht) as Hr. destruct (is_running t).
    + by rewrite bool_decide_true by tauto.
    + rewrite bool_decide_false; [done|]. intros ?. assert (false = true) by tauto. done.
  - destruct la as [|i la]; [by rewrite (round_idle _ _ _ Hok)|].
    destruct (head_timer _ _ _ _ Hok) as (ti & Hti & _).
    destruct (decide (expire_time ti <= now)) as [Hd|Hd].
    + by destruct (round_fire _ _ _ _ _ _ Hok Hti Hd) as (m1 & -> & _).
    + by rewrite (round_wait _ _ _ _ _ _ Hok Hti) by lia.
Qed.

(** A due cyclic timer whose interval is 0, which [tal_sw_timer_start] accepts for a
    timer that has never been started with another one, keeps the dispatch loop busy for
    ever, however the clock advances. *)
Theorem zero_interval_livelock fuel clock k m la ls id t next :
  mgr_ok m la ls -> id ∈ la -> timers m !! id = Some t -> tm_type t = TAL_TIMER_CYCLE ->
  interval t = 0 -> expire_time t <= clock k -> 0 <= clock 0%nat ->
  (forall i, clock i <= clock (S i)) -> (forall i, clock i < 2 ^ 64) ->
  timer_dispatch fuel no_effect clock k m next = None.
Proof.
  intros Hok Hin Ht Hty Hitv Hexp H0 Hmono Hmax. revert k m la ls t next Hok Hin Ht Hty Hitv Hexp.
  assert (Hpos : forall i, 0 <= clock i) by (induction i as [|i IHi]; [done|specialize (Hmono i); lia]).
  induction fuel as [|fuel IH]; intros k m la ls t next Hok Hin Ht Hty Hitv Hexp; [done|].
  destruct la as [|i la]; [by apply elem_of_nil in Hin|].
  destruct (head_timer _ _ _ _ Hok) as (ti & Hti & _).
  assert (Hdue : expire_time ti <= clock k).
  { pose proof (ok_sorted _ _ _ Hok) as Hs. inversion Hs as [|? ? _ Hall]; subst.
    apply elem_of_cons in Hin as [->|Hin]; [rewrite Ht in Hti; by injection Hti as <-|].
    rewrite Forall_forall in Hall. specialize (Hall id Hin). unfold expire in Hall.
    rewrite Ht, Hti in Hall. simpl in Hall. lia. }
  destruct (round_fire _ _ _ _ _ _ Hok Hti Hdue) as (m1 & Hround & Hcase).
  rewrite (timer_dispatch_fire _ _ _ _ _ _ m1 (tm_cb ti, i, tm_data ti) m1) by done.
  assert (Hgo : exists la1 ls1 t1, mgr_ok m1 la1 ls1 /\ id ∈ la1 /\ timers m1 !! id = Some t1 /\
    tm_type t1 = TAL_TIMER_CYCLE /\ interval t1 = 0 /\ expire_time t1 <= clock (S k)).
  { specialize (Hmono k). destruct (decide (i = id)) as [->|Hne].
    - rewrite Ht in Hti. injection Hti as <-. rewrite Hty in Hcase.
      destruct Hcase as [(l1 & l2 & _ & Hok1) Hts]. eexists _, _, _. split; [exact Hok1|].
      split; [set_solver|]. split; [by rewrite Hts, lookup_insert_eq|]. simpl.
      split; [done|]. split; [done|]. specialize (Hpos k). specialize (Hmax k).
      rewrite Hitv, wrap_small by (unfold in_u; lia). lia.
    - apply elem_of_cons in Hin as [?|Hin]; [done|]. destruct (tm_type ti).
      + destruct Hcase as [Hok1 Hts]. exists la, (ls ++ [i]), t.
        rewrite Hts, lookup_insert_ne by done. split_and!; try done. lia.
      + destruct Hcase as [(l1 & l2 & -> & Hok1) Hts]. exists (l1 ++ i :: l2), ls, t.
        rewrite Hts, lookup_insert_ne by done. split_and!; try done; [set_solver|lia]. }
  destruct Hgo as (la1 & ls1 & t1 & Hok1 & Hin1 & Ht1 & Hty1 & Hitv1 & Hexp1).
  by rewrite (IH (S k) m1 la1 ls1 t1 next Hok1 Hin1 Ht1 Hty1 Hitv1 Hexp1).
Qed.

(** For a timer that is not running [tal_sw_timer_remain_time_get] answers the
    interval in the place of a return code and writes nothing; for a running timer it
    writes the time left. The null identifier counts as running: [tal_sw_timer_is_running]
    answers the error code -2, which is true. *)
Theorem remain_time_codes m id t now :
  timers m !! id = Some t -> id <> 0 -> 0 <= interval t < 2 ^ 31 ->
  0 <= expire_time t - now < 2 ^ 32 ->
  tal_sw_timer_remain_time_get m id false now =
    Some (if is_running t then (OPRT_OK, Some (expire_time t - now)) else (interval t, None)) /\
  tal_sw_timer_is_running m 0 = Some (-2).
Proof.
  intros Ht Hid Hitv Hexp. split; [|done].
  unfold tal_sw_timer_remain_time_get. rewrite bool_decide_false, Ht by done. ub_step. simpl.
  destruct (is_running t); simpl.
  - case_bool_decide; [by rewrite wrap_small by (unfold in_u; lia)|]. do 3 f_equal. lia.
  - by rewrite swrap_small by (unfold in_s; lia).
Qed.

(** ** A manager with one running timer *)

Lemma demo_mgr time_ms type now :
  exists m, mgr_ok m [10] [] /\
    timers m = {[10 := Timer 7 8 (u64 (now + time_ms)) time_ms true type]} /\
    rtc mgr_step (snd (tal_sw_timer_init mgr_start OPRT_OK)) m.
Proof.
  destruct (create_ok _ [] [] 7 8 10 init_ok) as (m1 & Hc & Hok1 & Hts1); try done.
  destruct (start_ok m1 [] [10] 10 (Timer 7 8 0 0 false TAL_TIMER_ONCE) time_ms type now)
    as (m2 & l1 & l2 & Hs & Hok2 & Hnil & Hts2); try done.
  { by rewrite Hts1. }
  change (rm 10 []) with (@nil Z) in Hnil. symmetry in Hnil. apply app_eq_nil in Hnil as [-> ->].
  exists m2. split; [exact Hok2|]. split.
  - rewrite Hts2, Hts1. simpl. rewrite insert_insert_eq.
    destruct (decide (time_ms = 0)) as [->|]; [by rewrite bool_decide_false by naive_solver|].
    by rewrite bool_decide_true.
  - eapply rtc_l; [eapply (step_create _ 7 8 false (Some 10)); [|exact Hc]|].
    + intros id [= <-]. done.
    + apply rtc_once. by eapply step_start.
Qed.

Lemma timer_invariant_witness :
  exists m, rtc mgr_step (snd (tal_sw_timer_init mgr_start OPRT_OK)) m /\
    tal_sw_timer_is_running m 10 = Some 1 /\ exists la ls, mgr_ok m la ls.
Proof.
  destruct (demo_mgr 100 TAL_TIMER_CYCLE 5) as (m & Hok & Hts & Hrun).
  exists m. split; [exact Hrun|]. split; [|apply (timer_invariant m Hrun)].
  unfold tal_sw_timer_is_running. by rewrite Hts.
Defined.

Lemma timer_ops_defined_witness :
  exists m, mgr_ok m [10] [] /\
    (exists m', tal_sw_timer_start m 10 50 TAL_TIMER_ONCE 9 = Some (OPRT_OK, m')) /\
    (exists m', tal_sw_timer_stop m 10 = Some (OPRT_OK, m')) /\
    (exists m', tal_sw_timer_trigger m 10 = Some (OPRT_OK, m')) /\
    (exists m', tal_sw_timer_delete m 10 = Some (OPRT_OK, m')) /\
    tal_sw_timer_is_running m 10 = Some 1 /\ is_Some (timer_dispatch_round m 9).
Proof.
  destruct (demo_mgr 100 TAL_TIMER_CYCLE 5) as (m & Hok & Hts & Hrun).
  exists m. split; [exact Hok|].
  apply (timer_ops_defined m [10] [] 10 50 TAL_TIMER_ONCE 9 Hok); [left|done].
Defined.


Lemma zero_interval_livelock_witness :
  exists m, mgr_ok m [10] [] /\
    forall fuel, timer_dispatch fuel no_effect (fun i => Z.min (5 + Z.of_nat i) 999) 0 m SEM_WAIT_FOREVER = None.
Proof.
  destruct (demo_mgr 0 TAL_TIMER_CYCLE 5) as (m & Hok & Hts & Hrun).
  exists m. split; [exact Hok|]. intros fuel.
  apply (zero_interval_livelock fuel _ 0 m [10] [] 10 (Timer 7 8 (u64 (5 + 0)) 0 true TAL_TIMER_CYCLE));
    [exact Hok|left|by rewrite Hts|done|done|by vm_compute|done|intros i; lia|intros i; lia].
Defined.

Lemma remain_time_codes_witness :
  exists m, tal_sw_timer_remain_time_get m 10 false 9 = Some (OPRT_OK, Some 96) /\
    tal_sw_timer_is_running m 0 = Some (-2).
Proof.
  destruct (demo_mgr 100 TAL_TIMER_CYCLE 5) as (m & Hok & Hts & Hrun).
  exists m. apply (remain_time_codes m 10 (Timer 7 8 105 100 true TAL_TIMER_CYCLE) 9);
    [by rewrite Hts|done|simpl; lia..].
Defined.
