(* ===== verification/Crc.v ===== *)
(** * Cyclic redundancy checks

    The table of src/src/common/utilities/crc32i.c (and, with the same numbers, of
    src/tools/porting/adapter/utilities/src/tuya_hashmap.c), the table-driven CRC-32 of both
    files and the bit-serial CRC-16 of src/src/common/utilities/crc_16.c, with the bit-serial
    definition of a reflected CRC as their reference. *)
From S2P Require Import Prelude.

Definition crc32_tab : list Z := [
    0x00000000; 0x77073096; 0xee0e612c; 0x990951ba; 0x076dc419; 0x706af48f;
    0xe963a535; 0x9e6495a3; 0x0edb8832; 0x79dcb8a4; 0xe0d5e91e; 0x97d2d988;
    0x09b64c2b; 0x7eb17cbd; 0xe7b82d07; 0x90bf1d91; 0x1db71064; 0x6ab020f2;
    0xf3b97148; 0x84be41de; 0x1adad47d; 0x6ddde4eb; 0xf4d4b551; 0x83d385c7;
    0x136c9856; 0x646ba8c0; 0xfd62f97a; 0x8a65c9ec; 0x14015c4f; 0x63066cd9;
    0xfa0f3d63; 0x8d080df5; 0x3b6e20c8; 0x4c69105e; 0xd56041e4; 0xa2677172;
    0x3c03e4d1; 0x4b04d447; 0xd20d85fd; 0xa50ab56b; 0x35b5a8fa; 0x42b2986c;
    0xdbbbc9d6; 0xacbcf940; 0x32d86ce3; 0x45df5c75; 0xdcd60dcf; 0xabd13d59;
    0x26d930ac; 0x51de003a; 0xc8d75180; 0xbfd06116; 0x21b4f4b5; 0x56b3c423;
    0xcfba9599; 0xb8bda50f; 0x2802b89e; 0x5f058808; 0xc60cd9b2; 0xb10be924;
    0x2f6f7c87; 0x58684c11; 0xc1611dab; 0xb6662d3d; 0x76dc4190; 0x01db7106;
    0x98d220bc; 0xefd5102a; 0x71b18589; 0x06b6b51f; 0x9fbfe4a5; 0xe8b8d433;
    0x7807c9a2; 0x0f00f934; 0x9609a88e; 0xe10e9818; 0x7f6a0dbb; 0x086d3d2d;
    0x91646c97; 0xe6635c01; 0x6b6b51f4; 0x1c6c6162; 0x856530d8; 0xf262004e;
    0x6c0695ed; 0x1b01a57b; 0x8208f4c1; 0xf50fc457; 0x65b0d9c6; 0x12b7e950;
    0x8bbeb8ea; 0xfcb9887c; 0x62dd1ddf; 0x15da2d49; 0x8cd37cf3; 0xfbd44c65;
    0x4db26158; 0x3ab551ce; 0xa3bc0074; 0xd4bb30e2; 0x4adfa541; 0x3dd895d7;
    0xa4d1c46d; 0xd3d6f4fb; 0x4369e96a; 0x346ed9fc; 0xad678846; 0xda60b8d0;
    0x44042d73; 0x33031de5; 0xaa0a4c5f; 0xdd0d7cc9; 0x5005713c; 0x270241aa;
    0xbe0b1010; 0xc90c2086; 0x5768b525; 0x206f85b3; 0xb966d409; 0xce61e49f;
    0x5edef90e; 0x29d9c998; 0xb0d09822; 0xc7d7a8b4; 0x59b33d17; 0x2eb40d81;
    0xb7bd5c3b; 0xc0ba6cad; 0xedb88320; 0x9abfb3b6; 0x03b6e20c; 0x74b1d29a;
    0xead54739; 0x9dd277af; 0x04db2615; 0x73dc1683; 0xe3630b12; 0x94643b84;
    0x0d6d6a3e; 0x7a6a5aa8; 0xe40ecf0b; 0x9309ff9d; 0x0a00ae27; 0x7d079eb1;
    0xf00f9344; 0x8708a3d2; 0x1e01f268; 0x6906c2fe; 0xf762575d; 0x806567cb;
    0x196c3671; 0x6e6b06e7; 0xfed41b76; 0x89d32be0; 0x10da7a5a; 0x67dd4acc;
    0xf9b9df6f; 0x8ebeeff9; 0x17b7be43; 0x60b08ed5; 0xd6d6a3e8; 0xa1d1937e;
    0x38d8c2c4; 0x4fdff252; 0xd1bb67f1; 0xa6bc5767; 0x3fb506dd; 0x48b2364b;
    0xd80d2bda; 0xaf0a1b4c; 0x36034af6; 0x41047a60; 0xdf60efc3; 0xa867df55;
    0x316e8eef; 0x4669be79; 0xcb61b38c; 0xbc66831a; 0x256fd2a0; 0x5268e236;
    0xcc0c7795; 0xbb0b4703; 0x220216b9; 0x5505262f; 0xc5ba3bbe; 0xb2bd0b28;
    0x2bb45a92; 0x5cb36a04; 0xc2d7ffa7; 0xb5d0cf31; 0x2cd99e8b; 0x5bdeae1d;
    0x9b64c2b0; 0xec63f226; 0x756aa39c; 0x026d930a; 0x9c0906a9; 0xeb0e363f;
    0x72076785; 0x05005713; 0x95bf4a82; 0xe2b87a14; 0x7bb12bae; 0x0cb61b38;
    0x92d28e9b; 0xe5d5be0d; 0x7cdcefb7; 0x0bdbdf21; 0x86d3d2d4; 0xf1d4e242;
    0x68ddb3f8; 0x1fda836e; 0x81be16cd; 0xf6b9265b; 0x6fb077e1; 0x18b74777;
    0x88085ae6; 0xff0f6a70; 0x66063bca; 0x11010b5c; 0x8f659eff; 0xf862ae69;
    0x616bffd3; 0x166ccf45; 0xa00ae278; 0xd70dd2ee; 0x4e048354; 0x3903b3c2;
    0xa7672661; 0xd06016f7; 0x4969474d; 0x3e6e77db; 0xaed16a4a; 0xd9d65adc;
    0x40df0b66; 0x37d83bf0; 0xa9bcae53; 0xdebb9ec5; 0x47b2cf7f; 0x30b5ffe9;
    0xbdbdf21c; 0xcabac28a; 0x53b39330; 0x24b4a3a6; 0xbad03605; 0xcdd70693;
    0x54de5729; 0x23d967bf; 0xb3667a2e; 0xc4614ab8; 0x5d681b02; 0x2a6f2b94;
    0xb40bbe37; 0xc30c8ea1; 0x5a05df1b; 0x2d02ef8d].

Definition s_crc32 : list Z := crc32_tab.

(** One byte of the table-driven CRC; [None]: an index outside the table. *)
Definition crc32_byte (tab : list Z) (crc b : Z) : option Z :=
  t ← zget tab (Z.land (Z.lxor crc b) 0xff);
  Some (Z.lxor t (Z.shiftr crc 8)).

Fixpoint crc32_loop (tab : list Z) (crc : Z) (s : bytes) : option Z :=
  match s with
  | [] => Some crc
  | b :: s => crc ← crc32_byte tab crc b; crc32_loop tab crc s
  end.

(** [__crc32_hashmap] of the hash map. *)
Definition crc32_hashmap (s : bytes) : option Z := crc32_loop crc32_tab 0 s.

Definition hash_crc32i_init : Z := 0xFFFFFFFF.
Definition hash_crc32i_update (hash : Z) (data : bytes) : option Z := crc32_loop s_crc32 hash data.
Definition hash_crc32i_finish (hash : Z) : Z := Z.lxor hash 0xFFFFFFFF.
Definition hash_crc32i_total (data : bytes) : option Z :=
  hash ← hash_crc32i_update hash_crc32i_init data; Some (hash_crc32i_finish hash).

(** The inner loop of [get_crc_16], [n] rounds. *)
Fixpoint crc16_bits (n : nat) (crc ds : Z) : option Z :=
  match n with
  | O => Some crc
  | S n =>
      p ← zget [0; 0xa001] (Z.land (Z.lxor crc ds) 1);
      crc16_bits n (u16 (Z.lxor (Z.shiftr crc 1) p)) (Z.shiftr ds 1)
  end.

Fixpoint crc16_loop (crc : Z) (data : bytes) {struct data} : option Z :=
  match data with
  | [] => Some crc
  | ds :: data =>
      crc ← crc16_bits 8 crc ds; crc16_loop crc data
  end.

(** The checksum of the first [size] bytes. *)
Definition get_crc_16 (data : bytes) (size : Z) : option Z :=
  d ← mread data 0 size; crc16_loop 0xffff d.

(** ** The reference: shift out one bit at a time *)

Definition crc_step (poly x : Z) : Z :=
  Z.lxor (Z.shiftr x 1) (if Z.testbit x 0 then poly else 0).

Fixpoint crc_steps (poly : Z) (n : nat) (x : Z) : Z :=
  match n with O => x | S n => crc_steps poly n (crc_step poly x) end.

Definition crc_ref (poly crc : Z) (s : bytes) : Z :=
  foldl (fun crc b => crc_steps poly 8 (Z.lxor crc b)) crc s.

Lemma crc_step_lxor poly x y :
  crc_step poly (Z.lxor x y) = Z.lxor (crc_step poly x) (crc_step poly y).
Proof.
  unfold crc_step. rewrite Z.shiftr_lxor, Z.lxor_spec.
  set (a := Z.shiftr x 1). set (b := Z.shiftr y 1).
  destruct (Z.testbit x 0), (Z.testbit y 0); simpl; rewrite ?Z.lxor_0_r;
    apply Z.bits_inj'; intros n _; rewrite ?Z.lxor_spec;
    destruct (Z.testbit a n), (Z.testbit b n), (Z.testbit poly n); done.
Qed.

Lemma crc_steps_lxor poly n : forall x y,
  crc_steps poly n (Z.lxor x y) = Z.lxor (crc_steps poly n x) (crc_steps poly n y).
Proof. induction n as [|n IH]; intros x y; simpl; [done|]. by rewrite crc_step_lxor, IH. Qed.

(** Bits above the ones that are shifted out only move down. *)
Lemma crc_steps_high poly n : forall x,
  0 <= x -> crc_steps poly n (Z.shiftl x (Z.of_nat n)) = x.
Proof.
  induction n as [|n IH]; intros x Hx; [by rewrite Z.shiftl_0_r|].
  simpl. replace (crc_step poly (Z.shiftl x (Z.of_nat (S n)))) with (Z.shiftl x (Z.of_nat n));
    [by apply IH|].
  unfold crc_step. rewrite Z.shiftl_spec_low by lia. rewrite Z.lxor_0_r, Z.shiftr_shiftl_l by lia.
  f_equal. lia.
Qed.

Lemma low_high x : 0 <= x -> x = Z.lxor (Z.land x 0xff) (Z.shiftl (Z.shiftr x 8) 8).
Proof.
  intros Hx. change 0xff with (Z.ones 8). apply Z.bits_inj'. intros n Hn.
  rewrite Z.lxor_spec, Z.land_spec. destruct (decide (n < 8)).
  - rewrite Z.ones_spec_low, Z.shiftl_spec_low by lia. by destruct (Z.testbit x n).
  - rewrite Z.ones_spec_high, Z.shiftl_spec_high, Z.shiftr_spec by lia.
    rewrite andb_false_r. simpl. f_equal. lia.
Qed.

Lemma land_ff_range x : 0 <= Z.land x 0xff < 256.
Proof. change 0xff with (Z.ones 8). rewrite Z.land_ones by lia. apply Z.mod_pos_bound. lia. Qed.

Lemma lxor_in_u w x y : 0 <= w -> in_u w x -> in_u w y -> in_u w (Z.lxor x y).
Proof.
  unfold in_u. intros Hw [Hx0 Hx] [Hy0 Hy].
  assert (0 <= Z.lxor x y) by (apply Z.lxor_nonneg; lia). split; [done|].
  destruct (decide (Z.lxor x y = 0)) as [->|Hne]; [lia|].
  apply Z.log2_lt_pow2; [lia|]. pose proof (Z.log2_lxor x y Hx0 Hy0) as Hl.
  destruct (decide (x = 0)) as [->|Hx1].
  { rewrite Z.lxor_0_l in *. by apply Z.log2_lt_pow2; lia. }
  destruct (decide (y = 0)) as [->|Hy1].
  { rewrite Z.lxor_0_r in *. by apply Z.log2_lt_pow2; lia. }
  assert (Z.log2 x < w) by (apply Z.log2_lt_pow2; lia).
  assert (Z.log2 y < w) by (apply Z.log2_lt_pow2; lia). lia.
Qed.

(** Entry [i] of the table is what eight steps make of [i]. *)
Lemma crc32_tab_ok i :
  0 <= i < 256 -> zget crc32_tab i = Some (crc_steps 0xEDB88320 8 i).
Proof.
  intros Hi. pose proof (below_forallb (fun i => match zget crc32_tab i with
    | Some t => t =? crc_steps 0xEDB88320 8 i | None => false end) 256 ltac:(by vm_compute) i Hi) as H.
  cbv beta in H. destruct (zget crc32_tab i) as [t|]; [|done]. f_equal. lia.
Qed.

Lemma crc32_byte_ok crc b :
  0 <= crc -> 0 <= b < 256 ->
  crc32_byte crc32_tab crc b = Some (crc_steps 0xEDB88320 8 (Z.lxor crc b)).
Proof.
  intros Hc Hb. unfold crc32_byte. rewrite crc32_tab_ok by apply land_ff_range. ub_step. f_equal.
  assert (Hx : 0 <= Z.lxor crc b) by (apply Z.lxor_nonneg; lia).
  rewrite (low_high (Z.lxor crc b)) at 2 by done. rewrite crc_steps_lxor. f_equal.
  rewrite (crc_steps_high _ 8) by (apply Z.shiftr_nonneg; done).
  rewrite Z.shiftr_lxor. replace (Z.shiftr b 8) with 0; [by rewrite Z.lxor_0_r|].
  rewrite Z.shiftr_div_pow2 by lia. symmetry. apply Z.div_small. lia.
Qed.

Lemma crc_step_range poly x w :
  1 <= w -> in_u w poly -> in_u w x -> in_u w (crc_step poly x).
Proof.
  intros Hw Hp Hx. unfold crc_step. apply lxor_in_u; [lia| |].
  - unfold in_u in *. rewrite Z.shiftr_div_pow2 by lia. change (2 ^ 1) with 2.
    pose proof (Z.div_pos x 2). pose proof (Z.div_le_upper_bound x 2 x). lia.
  - destruct (Z.testbit x 0); [done|]. unfold in_u in *. lia.
Qed.

Lemma crc_steps_range poly w n : forall x,
  1 <= w -> in_u w poly -> in_u w x -> in_u w (crc_steps poly n x).
Proof.
  induction n as [|n IH]; intros x Hw Hp Hx; [done|]. apply IH; try done. by apply crc_step_range.
Qed.

Lemma byte_in_u w b : 8 <= w -> in_u 8 b -> in_u w b.
Proof.
  unfold in_u. intros Hw Hb. pose proof (Z.pow_le_mono_r 2 8 w). lia.
Qed.

Lemma crc_ref_range poly w s : forall crc,
  8 <= w -> in_u w poly -> in_u w crc -> bytes_ok s -> in_u w (crc_ref poly crc s).
Proof.
  induction s as [|b s IH]; intros crc Hw Hp Hc Hs; [done|]. inversion Hs; subst.
  apply IH; try done. apply crc_steps_range; [lia|done|]. apply lxor_in_u; [lia|done|].
  by apply byte_in_u.
Qed.

Lemma crc32_loop_ok s : forall crc,
  in_u 32 crc -> bytes_ok s ->
  crc32_loop crc32_tab crc s = Some (crc_ref 0xEDB88320 crc s).
Proof.
  induction s as [|b s IH]; intros crc Hc Hs; [done|]. inversion Hs as [|? ? Hb Hs']; subst.
  cbn [crc32_loop]. unfold in_u in Hc, Hb. rewrite crc32_byte_ok by lia. ub_step.
  apply IH; [|done]. apply crc_steps_range; [lia|by unfold in_u|].
  apply lxor_in_u; [lia|by unfold in_u|]. by apply byte_in_u.
Qed.

Lemma crc16_bits_ok n : forall crc ds,
  in_u 16 crc -> in_u 16 ds ->
  crc16_bits n crc ds =
    Some (Z.lxor (crc_steps 0xa001 n (Z.lxor crc ds)) (Z.shiftr ds (Z.of_nat n))).
Proof.
  induction n as [|n IH]; intros crc ds Hc Hd.
  - simpl. rewrite Z.shiftr_0_r. f_equal. rewrite Z.lxor_assoc, Z.lxor_nilpotent, Z.lxor_0_r. done.
  - cbn [crc16_bits crc_steps].
    assert (Hbit : zget [0; 0xa001] (Z.land (Z.lxor crc ds) 1) =
      Some (if Z.testbit (Z.lxor crc ds) 0 then 0xa001 else 0)).
    { change 1 with (Z.ones 1) at 1. rewrite Z.land_ones by lia.
      rewrite Z.bit0_odd. change (2 ^ 1) with 2. rewrite Zmod_odd.
      by destruct (Z.odd (Z.lxor crc ds)). }
    rewrite Hbit. ub_step. set (p := if Z.testbit _ 0 then 0xa001 else 0).
    assert (Hp : in_u 16 p) by (unfold p; destruct (Z.testbit _ 0); by vm_compute).
    assert (Hhalf : forall x, in_u 16 x -> in_u 16 (Z.shiftr x 1)).
    { unfold in_u. intros x Hx. rewrite Z.shiftr_div_pow2 by lia. change (2 ^ 1) with 2.
      pose proof (Z.div_pos x 2). pose proof (Z.div_le_upper_bound x 2 x). lia. }
    rewrite wrap_small by (apply lxor_in_u; auto with lia).
    rewrite IH; [|apply lxor_in_u; auto with lia|auto].
    f_equal. f_equal.
    + f_equal. unfold crc_step. fold p. rewrite Z.shiftr_lxor.
      rewrite !Z.lxor_assoc. f_equal. apply Z.lxor_comm.
    + rewrite Z.shiftr_shiftr by lia. f_equal. lia.
Qed.

Lemma crc16_loop_ok s : forall crc,
  in_u 16 crc -> bytes_ok s -> crc16_loop crc s = Some (crc_ref 0xa001 crc s).
Proof.
  induction s as [|b s IH]; intros crc Hc Hs; [done|]. inversion Hs as [|? ? Hb Hs']; subst.
  cbn [crc16_loop]. pose proof (byte_in_u 16 b ltac:(lia) Hb) as Hb16.
  rewrite crc16_bits_ok by done. ub_step.
  replace (Z.shiftr b (Z.of_nat 8)) with 0.
  2: { unfold in_u in Hb. rewrite Z.shiftr_div_pow2 by lia. symmetry. apply Z.div_small. done. }
  rewrite Z.lxor_0_r. apply IH; [|done]. apply crc_steps_range; [lia|by unfold in_u|].
  by apply lxor_in_u.
Qed.

(** The table-driven CRC-32 of both files is the bit-serial CRC with the polynomial
    0xEDB88320: for any bytes it never leaves the table, its value is a 32-bit number, and
    feeding the bytes in two parts gives the same. *)
Theorem crc32_is_bitwise hash s1 s2 :
  in_u 32 hash -> bytes_ok s1 -> bytes_ok s2 ->
  crc32_hashmap s1 = Some (crc_ref 0xEDB88320 0 s1) /\
  hash_crc32i_update hash s1 = Some (crc_ref 0xEDB88320 hash s1) /\
  hash_crc32i_total s1 = Some (Z.lxor (crc_ref 0xEDB88320 0xFFFFFFFF s1) 0xFFFFFFFF) /\
  in_u 32 (crc_ref 0xEDB88320 hash s1) /\
  (h ← hash_crc32i_update hash s1; hash_crc32i_update h s2) =
    hash_crc32i_update hash (s1 ++ s2).
Proof.
  intros Hh H1 H2.
  assert (Hr : in_u 32 (crc_ref 0xEDB88320 hash s1)) by (apply crc_ref_range; by try lia).
  unfold crc32_hashmap, hash_crc32i_total, hash_crc32i_update, s_crc32.
  rewrite !crc32_loop_ok by (done || by apply bytes_ok_app). ub_step.
  rewrite crc32_loop_ok by done. split_and!; try done.
  unfold crc_ref. by rewrite foldl_app.
Qed.

Lemma crc32_is_bitwise_witness :
  let s := c_str "1234" in let t := c_str "56789" in
  crc32_hashmap s = Some (crc_ref 0xEDB88320 0 s) /\
  hash_crc32i_update 0xFFFFFFFF s = Some (crc_ref 0xEDB88320 0xFFFFFFFF s) /\
  hash_crc32i_total s = Some (Z.lxor (crc_ref 0xEDB88320 0xFFFFFFFF s) 0xFFFFFFFF) /\
  in_u 32 (crc_ref 0xEDB88320 0xFFFFFFFF s) /\
  (h ← hash_crc32i_update 0xFFFFFFFF s; hash_crc32i_update h t) =
    hash_crc32i_update 0xFFFFFFFF (s ++ t).
Proof.
  apply (crc32_is_bitwise 0xFFFFFFFF (c_str "1234") (c_str "56789"));
    [vm_compute; split; done|repeat constructor; vm_compute; done..].
Defined.

(** [get_crc_16] is the bit-serial CRC with the polynomial 0xa001 and initial value
    0xffff of the first [size] bytes, a 16-bit number. *)
Theorem crc16_is_bitwise data size :
  bytes_ok data -> 0 <= size <= zlen data ->
  get_crc_16 data size = Some (crc_ref 0xa001 0xffff (take (Z.to_nat size) data)) /\
  in_u 16 (crc_ref 0xa001 0xffff (take (Z.to_nat size) data)).
Proof.
  intros Hd Hs. assert (Ht : bytes_ok (take (Z.to_nat size) data)) by (by apply bytes_ok_take).
  split.
  - unfold get_crc_16. rewrite mread_Some by lia. rewrite drop_0. ub_step.
    apply crc16_loop_ok; [by vm_compute|done].
  - apply crc_ref_range; [lia|by vm_compute|by vm_compute|done].
Qed.

Lemma crc16_is_bitwise_witness :
  get_crc_16 (c_str "123456789+") 9 = Some (crc_ref 0xa001 0xffff (c_str "123456789")) /\
  crc_ref 0xa001 0xffff (c_str "123456789") = 0x4B37.
Proof.
  split; [|by vm_compute].
  apply (crc16_is_bitwise (c_str "123456789+") 9); [repeat constructor; vm_compute; done|vm_compute; split; done].
Defined.
