(* ===== verification/HashMap.v ===== *)
(** * Hash map

    src/tools/porting/adapter/utilities/src/tuya_hashmap.c: a table of singly linked
    buckets. A bucket is the list of its elements from the head; an element is named by the
    address of its block. Keys are stored by reference and compared as strings. *)
From S2P Require Import Prelude Crc.

Definition MAP_MISSING : Z := -2.
Definition MAP_OMEM : Z := -1.
Definition MAP_OK : Z := 0.

Record HASHMAP_ELEMENT_T := Element {
  el_addr : Z;
  el_key : bytes;
  el_data : Z }.

Record HASHMAP_T := HashMap {
  hm_size : Z;
  hm_table_size : Z;
  hm_list : list (list HASHMAP_ELEMENT_T) }.

(** Robert Jenkins' 32 bit mix function and Knuth's multiplicative method. *)
Definition mix (key : Z) : Z :=
  let key := u32 (key + u32 (Z.shiftl key 12)) in
  let key := Z.lxor key (Z.shiftr key 22) in
  let key := u32 (key + u32 (Z.shiftl key 4)) in
  let key := Z.lxor key (Z.shiftr key 9) in
  let key := u32 (key + u32 (Z.shiftl key 10)) in
  let key := Z.lxor key (Z.shiftr key 2) in
  let key := u32 (key + u32 (Z.shiftl key 7)) in
  let key := Z.lxor key (Z.shiftr key 12) in
  u32 (Z.shiftr key 3 * 2654435761).

(** A remainder by zero is undefined. *)
Definition hashmap_hash_int (m : HASHMAP_T) (keystring : bytes) : option Z :=
  key ← crc32_hashmap keystring;
  if bool_decide (u32 (hm_table_size m) = 0) then None
  else Some (mix key `mod` u32 (hm_table_size m)).

(** [strlen(a) == strlen(b) && strcmp(a, b) == 0] on string values. *)
Definition key_eq (a b : bytes) : bool := bool_decide (zlen a = zlen b) && bool_decide (a = b).

(** The first element of a bucket with this key. *)
Fixpoint find_key (key : bytes) (l : list HASHMAP_ELEMENT_T) : option HASHMAP_ELEMENT_T :=
  match l with
  | [] => None
  | e :: l => if key_eq key (el_key e) then Some e else find_key key l
  end.

Definition hash_find (m : HASHMAP_T) (key : bytes) : option (option HASHMAP_ELEMENT_T) :=
  curr ← hashmap_hash_int m key;
  l ← zget (hm_list m) (i32 curr);
  Some (find_key key l).

(** The elements after the one at address [a]. *)
Fixpoint after_addr (a : Z) (l : list HASHMAP_ELEMENT_T) : option (list HASHMAP_ELEMENT_T) :=
  match l with
  | [] => None
  | e :: l => if bool_decide (el_addr e = a) then Some l else after_addr a l
  end.

(** Following the element at [a] leads through the bucket that it is in. *)
Fixpoint elements_after (a : Z) (ls : list (list HASHMAP_ELEMENT_T))
    : option (list HASHMAP_ELEMENT_T) :=
  match ls with
  | [] => None
  | l :: ls => match after_addr a l with Some r => Some r | None => elements_after a ls end
  end.

Definition find_addr (a : Z) (ls : list (list HASHMAP_ELEMENT_T)) : option HASHMAP_ELEMENT_T :=
  List.find (fun e => bool_decide (el_addr e = a)) (concat ls).

Definition hash_find_next_element (m : HASHMAP_T) (curr : Z)
    : option (option HASHMAP_ELEMENT_T) :=
  e ← find_addr curr (hm_list m);
  r ← elements_after curr (hm_list m);
  Some (find_key (el_key e) r).

(** [malloc1], [malloc2]: whether the two allocations succeed. *)
Definition tuya_hashmap_new (table_size : Z) (malloc1 malloc2 : bool) : option HASHMAP_T :=
  if bool_decide (0 = table_size) then None
  else if malloc1 && malloc2
  then Some (HashMap 0 (i32 table_size) (replicate (Z.to_nat table_size) []))
  else None.

(** [block]: the address of the new element, if there is memory. *)
Definition tuya_hashmap_put (m : HASHMAP_T) (key : bytes) (data : Z) (block : option Z)
    : option (Z * HASHMAP_T) :=
  match block with
  | None => Some (MAP_OMEM, m)
  | Some a =>
      curr ← hashmap_hash_int m key;
      l ← zget (hm_list m) (i32 curr);
      list ← zset (hm_list m) (i32 curr) (Element a key data :: l);
      if bool_decide (hm_size m + 1 < 2 ^ 31)
      then Some (MAP_OK, HashMap (hm_size m + 1) (hm_table_size m) list)
      else None
  end.

(** The result: the code and the value written to [*arg]. *)
Definition tuya_hashmap_get (m : HASHMAP_T) (key : bytes) : option (Z * Z) :=
  e ← hash_find m key;
  Some (match e with Some e => (MAP_OK, el_data e) | None => (MAP_MISSING, 0) end).

(** [it] and the result: the element that the iterator points into, if any. *)
Definition tuya_hashmap_data_traversal (m : HASHMAP_T) (key : bytes) (it : option Z)
    : option (Z * option Z) :=
  e ← (match it with
       | None => hash_find m key
       | Some a => hash_find_next_element m a
       end);
  Some (match e with Some e => (MAP_OK, Some (el_addr e)) | None => (MAP_MISSING, None) end).

(** The loop of the removal: [tmp_element] is the last element that the loop has visited when
    it ends, whether by [break] or at the end of the bucket; the result is its position. *)
Fixpoint remove_scan (key : bytes) (data : Z) (l : list HASHMAP_ELEMENT_T) (pos : nat)
    (tmp_element : option nat) : option nat :=
  match l with
  | [] => tmp_element
  | e :: l =>
      if key_eq key (el_key e) && (bool_decide (0 = data) || bool_decide (el_data e = data))
      then Some pos
      else remove_scan key data l (S pos) (Some pos)
  end.

Definition tuya_hashmap_remove (m : HASHMAP_T) (key : bytes) (data : Z)
    : option (Z * HASHMAP_T) :=
  curr ← hashmap_hash_int m key;
  l ← zget (hm_list m) (i32 curr);
  match l with
  | [] => Some (MAP_MISSING, m)
  | _ =>
      match remove_scan key data l 0 None with
      | None => Some (MAP_MISSING, m)
      | Some pos =>
          list ← zset (hm_list m) (i32 curr) (delete pos l);
          Some (MAP_OK, HashMap (hm_size m - 1) (hm_table_size m) list)
      end
  end.

Definition tuya_hashmap_length (m : option HASHMAP_T) : Z :=
  match m with Some m => hm_size m | None => 0 end.

(** ** Well-formed maps *)

#[local] Opaque mix crc_ref crc32_loop.

Definition key_ok (k : bytes) : Prop := bytes_ok k.

(** The bucket number of a key in a table of [n] buckets. *)
Definition bucket (n : Z) (key : bytes) : Z := mix (crc_ref 0xEDB88320 0 key) `mod` n.

Record map_ok (m : HASHMAP_T) : Prop := {
  mo_table : 0 < hm_table_size m < 2 ^ 31;
  mo_list : zlen (hm_list m) = hm_table_size m;
  mo_keys : forall b l e, zget (hm_list m) b = Some l -> e ∈ l ->
    key_ok (el_key e) /\ bucket (hm_table_size m) (el_key e) = b;
  mo_addr : NoDup (el_addr <$> concat (hm_list m));
  mo_size : hm_size m = zlen (concat (hm_list m)) }.

(** What the map holds for a key: its data, the most recent first. *)
Definition with_key (key : bytes) (l : list HASHMAP_ELEMENT_T) : list HASHMAP_ELEMENT_T :=
  filter (fun e => el_key e = key) l.

Definition contents (m : HASHMAP_T) (key : bytes) : list Z :=
  el_data <$> with_key key (concat (hm_list m)).

Lemma key_eq_spec a b : key_eq a b = bool_decide (a = b).
Proof.
  unfold key_eq. destruct (decide (a = b)) as [->|Hne].
  - by rewrite !bool_decide_true.
  - rewrite (bool_decide_false (a = b)) by done. apply andb_false_r.
Qed.

Lemma find_key_with_key key l : find_key key l = head (with_key key l).
Proof.
  induction l as [|e l IH]; [done|]. simpl. rewrite key_eq_spec. unfold with_key.
  destruct (decide (el_key e = key)) as [<-|Hne].
  - by rewrite bool_decide_true, filter_cons_True by done.
  - rewrite bool_decide_false, filter_cons_False by naive_solver. apply IH.
Qed.

Lemma with_key_app key l1 l2 : with_key key (l1 ++ l2) = with_key key l1 ++ with_key key l2.
Proof. apply filter_app. Qed.

Lemma with_key_none key l : (forall e, e ∈ l -> el_key e <> key) -> with_key key l = [].
Proof.
  intros H. unfold with_key. induction l as [|e l IH]; [done|].
  rewrite filter_cons_False by (apply H; left). apply IH. intros x Hx. apply H. by right.
Qed.

Lemma with_key_concat key ls :
  (forall l, l ∈ ls -> with_key key l = []) -> with_key key (concat ls) = [].
Proof.
  induction ls as [|lj ls IH]; intros Hls; [done|]. simpl. rewrite with_key_app.
  rewrite (Hls lj) by left. apply IH. intros x Hx. apply Hls. by right.
Qed.

Lemma bucket_range n key : 0 < n -> 0 <= bucket n key < n.
Proof. intros. by apply Z.mod_pos_bound. Qed.

(** The hash of a key is the number of its bucket. *)
Lemma hash_ok m key :
  map_ok m -> key_ok key -> hashmap_hash_int m key = Some (bucket (hm_table_size m) key).
Proof.
  intros Hm Hk. unfold hashmap_hash_int, crc32_hashmap.
  rewrite crc32_loop_ok; [|unfold in_u; lia|exact Hk]. ub_step. pose proof (mo_table _ Hm).
  rewrite (wrap_small 32) by (unfold in_u; lia). by rewrite bool_decide_false by lia.
Qed.

Lemma i32_bucket m key :
  map_ok m -> i32 (bucket (hm_table_size m) key) = bucket (hm_table_size m) key.
Proof.
  intros Hm. pose proof (mo_table _ Hm).
  pose proof (bucket_range _ key (proj1 (mo_table _ Hm))).
  apply swrap_small; unfold in_s; lia.
Qed.

(** The buckets around the one of a key: no other bucket has the key. *)
Lemma bucket_split m key :
  map_ok m -> key_ok key ->
  exists l1 l l2, hm_list m = l1 ++ l :: l2 /\
    with_key key (concat l1) = [] /\ with_key key (concat l2) = [] /\
    zlen l1 = bucket (hm_table_size m) key /\
    zget (hm_list m) (i32 (bucket (hm_table_size m) key)) = Some l /\
    forall l', zset (hm_list m) (i32 (bucket (hm_table_size m) key)) l' = Some (l1 ++ l' :: l2).
Proof.
  intros Hm Hk. set (b := bucket (hm_table_size m) key). pose proof (mo_table _ Hm) as Ht.
  pose proof (bucket_range (hm_table_size m) key (proj1 Ht)) as Hb. fold b in Hb.
  replace (i32 b) with b by (symmetry; by apply i32_bucket).
  destruct (zget_is_Some (hm_list m) b) as [l Hl]; [rewrite (mo_list _ Hm); lia|].
  pose proof Hl as Hl'. unfold zget in Hl'. rewrite bool_decide_true in Hl' by lia.
  apply list_elem_of_split_length in Hl' as (l1 & l2 & Heq & Hlen).
  assert (Hz : zlen l1 = b) by (unfold zlen; lia).
  assert (Hother : forall j lj, zget (hm_list m) j = Some lj -> j <> b -> with_key key lj = []).
  { intros j lj Hj Hne. apply with_key_none. intros e He Hek.
    destruct (mo_keys _ Hm j lj e Hj He) as [_ Hbk]. rewrite Hek in Hbk. by subst j. }
  exists l1, l, l2. split; [done|]. split_and!; try done.
  - apply with_key_concat. intros lj [j Hj]%list_elem_of_lookup.
    pose proof (lookup_lt_Some _ _ _ Hj).
    apply (Hother (Z.of_nat j)); [|lia]. rewrite zget_nat, Heq. by apply lookup_app_l_Some.
  - apply with_key_concat. intros lj [j Hj]%list_elem_of_lookup.
    apply (Hother (Z.of_nat (length l1 + S j))); [|lia].
    rewrite zget_nat, Heq, lookup_app_r by lia.
    by replace (length l1 + S j - length l1)%nat with (S j) by lia.
  - intros l'. unfold zset. rewrite bool_decide_true by (rewrite (mo_list _ Hm); lia).
    f_equal. rewrite Hlen, Heq, insert_app_r_alt, Nat.sub_diag by lia. done.
Qed.

(** What a map whose buckets are [l1 ++ l :: l2] holds. *)
Lemma contents_split m l1 l l2 k :
  hm_list m = l1 ++ l :: l2 ->
  contents m k = el_data <$>
    (with_key k (concat l1) ++ with_key k l ++ with_key k (concat l2)).
Proof. intros Hl. unfold contents. by rewrite Hl, concat_app, concat_cons, !with_key_app. Qed.

(** Replacing a bucket by one whose elements belong there. *)
Lemma set_bucket_ok m l1 l l2 l' :
  map_ok m -> hm_list m = l1 ++ l :: l2 ->
  (forall e, e ∈ l' -> key_ok (el_key e) /\ bucket (hm_table_size m) (el_key e) = zlen l1) ->
  NoDup (el_addr <$> concat (l1 ++ l' :: l2)) ->
  map_ok (HashMap (hm_size m + (zlen l' - zlen l)) (hm_table_size m) (l1 ++ l' :: l2)).
Proof.
  intros Hm Hl Hl' Hnd. constructor; cbn [hm_size hm_table_size hm_list].
  - apply Hm.
  - rewrite <- (mo_list _ Hm), Hl, !zlen_app, !zlen_cons. done.
  - intros b lb e Hb He. destruct (decide (b = zlen l1)) as [->|Hne].
    + rewrite zget_app_r, Z.sub_diag, zget_cons_0 in Hb by lia. injection Hb as <-. by apply Hl'.
    + apply (mo_keys _ Hm b lb e); [|done]. rewrite <- Hb, Hl.
      destruct (decide (b < zlen l1)); [by rewrite !zget_app_l by lia|].
      rewrite !zget_app_r by lia. rewrite !zget_cons_pos by lia. done.
  - done.
  - rewrite (mo_size _ Hm), Hl, !concat_app, !concat_cons, !zlen_app. lia.
Qed.

(** ** The operations on the contents *)

Lemma concat_insert (l1 l2 : list (list HASHMAP_ELEMENT_T)) p e q :
  concat (l1 ++ (p ++ e :: q) :: l2) ≡ₚ e :: concat (l1 ++ (p ++ q) :: l2).
Proof.
  rewrite !concat_app, !concat_cons, <- !app_assoc. cbn [app].
  rewrite !(app_assoc (concat l1)). symmetry. apply Permutation_middle.
Qed.

Lemma contents_bucket m key :
  map_ok m -> key_ok key ->
  exists l, zget (hm_list m) (i32 (bucket (hm_table_size m) key)) = Some l /\
    with_key key (concat (hm_list m)) = with_key key l.
Proof.
  intros Hm Hk. destruct (bucket_split m key Hm Hk) as (l1&l&l2&Hl&H1&H2&_&Hg&_).
  exists l. split; [done|]. by rewrite Hl, concat_app, concat_cons, !with_key_app, H1, H2, app_nil_r.
Qed.

Lemma hash_find_ok m key :
  map_ok m -> key_ok key -> hash_find m key = Some (head (with_key key (concat (hm_list m)))).
Proof.
  intros Hm Hk. destruct (contents_bucket m key Hm Hk) as (l & Hl & ->).
  unfold hash_find. rewrite hash_ok by done. ub_step. rewrite Hl. ub_step.
  by rewrite find_key_with_key.
Qed.

Lemma hashmap_new_ok n :
  0 < n < 2 ^ 31 ->
  exists m, tuya_hashmap_new n true true = Some m /\ map_ok m /\
    hm_size m = 0 /\ forall k, contents m k = [].
Proof.
  intros Hn. unfold tuya_hashmap_new. rewrite bool_decide_false by lia. cbn [andb].
  rewrite swrap_small by (unfold in_s; lia).
  assert (Hc : forall j : nat, concat (replicate j (@nil HASHMAP_ELEMENT_T)) = [])
    by (induction j; done).
  eexists. split; [done|]. split; [|split; [done|]].
  - constructor; cbn [hm_size hm_table_size hm_list].
    + done.
    + unfold zlen. rewrite length_replicate. lia.
    + intros b l e Hb He. unfold zget in Hb. case_bool_decide; [|done].
      apply lookup_replicate in Hb as [-> _]. by apply not_elem_of_nil in He.
    + rewrite Hc. apply NoDup_nil_2.
    + by rewrite Hc.
  - intros k. unfold contents. cbn [hm_list]. by rewrite Hc.
Qed.

Lemma hashmap_put_ok m key data a :
  map_ok m -> key_ok key -> a ∉ el_addr <$> concat (hm_list m) -> hm_size m + 1 < 2 ^ 31 ->
  exists m', tuya_hashmap_put m key data (Some a) = Some (MAP_OK, m') /\ map_ok m' /\
    hm_size m' = hm_size m + 1 /\ contents m' key = data :: contents m key /\
    forall k, k <> key -> contents m' k = contents m k.
Proof.
  intros Hm Hk Ha Hs. destruct (bucket_split m key Hm Hk) as (l1&l&l2&Hl&H1&H2&Hz&Hg&Hset).
  unfold tuya_hashmap_put. rewrite hash_ok by done. ub_step. rewrite Hg. ub_step.
  rewrite Hset. ub_step. rewrite bool_decide_true by done.
  eexists. split; [done|]. split; [|split; [done|split]].
  - replace (hm_size m + 1) with (hm_size m + (zlen (Element a key data :: l) - zlen l))
      by (rewrite zlen_cons; lia).
    apply set_bucket_ok; try done.
    + intros e [->|He]%elem_of_cons; [done|]. rewrite Hz.
      apply (mo_keys _ Hm _ l); [|done]. by rewrite i32_bucket in Hg by done.
    + pose proof (concat_insert l1 l2 [] (Element a key data) l) as Hp. cbn [app] in Hp.
      rewrite Hp, <- Hl. apply NoDup_cons_2; [done|apply Hm].
  - rewrite (contents_split _ l1 (Element a key data :: l) l2) by done.
    rewrite (contents_split m l1 l l2) by done. rewrite H1, H2.
    unfold with_key. by rewrite filter_cons_True by done.
  - intros k Hne. rewrite (contents_split _ l1 (Element a key data :: l) l2) by done.
    rewrite (contents_split m l1 l l2) by done. do 3 f_equal.
    unfold with_key at 1. by rewrite filter_cons_False by (cbn; congruence).
Qed.

(** The elements that a removal looks for. *)
Definition hits (key : bytes) (data : Z) (e : HASHMAP_ELEMENT_T) : Prop :=
  el_key e = key /\ (data = 0 \/ el_data e = data).

(** The data left after the removal of the first that is [data], or of the first at all. *)
Fixpoint drop_first (data : Z) (ds : list Z) : list Z :=
  match ds with
  | [] => []
  | d :: ds => if bool_decide (data = 0) || bool_decide (d = data) then ds
               else d :: drop_first data ds
  end.

Lemma hit_test key data e :
  key_eq key (el_key e) && (bool_decide (0 = data) || bool_decide (el_data e = data)) =
  bool_decide (hits key data e).
Proof.
  rewrite key_eq_spec. apply eq_bool_prop_intro. rewrite andb_True, orb_True, !bool_decide_spec.
  unfold hits. naive_solver.
Qed.

Lemma first_hit key data l :
  (exists p e q, l = p ++ e :: q /\ Forall (fun x => ~ hits key data x) p /\ hits key data e) \/
  Forall (fun x => ~ hits key data x) l.
Proof.
  induction l as [|x l IH]; [by right|]. destruct (decide (hits key data x)) as [Hx|Hx].
  - left. by exists [], x, l.
  - destruct IH as [(p & e & q & -> & Hp & He)|Hl]; [left|right; by constructor].
    exists (x :: p), e, q. split; [done|]. split; [by constructor|done].
Qed.

Lemma remove_scan_hit key data p e q : forall pos tmp,
  Forall (fun x => ~ hits key data x) p -> hits key data e ->
  remove_scan key data (p ++ e :: q) pos tmp = Some (pos + length p)%nat.
Proof.
  induction p as [|x p IH]; intros pos tmp Hp He; cbn [remove_scan app]; rewrite hit_test.
  - rewrite bool_decide_true by done. simpl. by rewrite Nat.add_0_r.
  - inversion Hp; subst. rewrite bool_decide_false by done. rewrite IH by done.
    simpl. f_equal. lia.
Qed.

Lemma remove_scan_miss key data l x : forall pos tmp,
  Forall (fun x => ~ hits key data x) (l ++ [x]) ->
  remove_scan key data (l ++ [x]) pos tmp = Some (pos + length l)%nat.
Proof.
  induction l as [|y l IH]; intros pos tmp Hp; cbn [remove_scan app]; rewrite hit_test;
    inversion Hp; subst; rewrite bool_decide_false by done.
  - simpl. by rewrite Nat.add_0_r.
  - rewrite IH by done. simpl. f_equal. lia.
Qed.

Lemma drop_first_hit key data p e q :
  Forall (fun x => ~ hits key data x) p -> hits key data e ->
  el_data <$> with_key key (p ++ q) = drop_first data (el_data <$> with_key key (p ++ e :: q)).
Proof.
  unfold with_key. intros Hp [<- He]. induction Hp as [|x p Hx Hp IH]; cbn [app].
  - rewrite filter_cons_True by done. cbn [fmap list_fmap drop_first].
    destruct He as [-> | He]; [done|].
    by rewrite (bool_decide_true (el_data e = data)), orb_true_r by done.
  - destruct (decide (el_key x = el_key e)) as [Hk|Hk];
      [rewrite !filter_cons_True by done|by rewrite !filter_cons_False by done].
    cbn [fmap list_fmap drop_first]. unfold hits in Hx.
    rewrite !bool_decide_false by naive_solver. simpl. by f_equal.
Qed.

(** Taking the element at [length p] out of the bucket of a key. *)
Lemma remove_at_ok m key data p e q :
  map_ok m -> key_ok key ->
  zget (hm_list m) (i32 (bucket (hm_table_size m) key)) = Some (p ++ e :: q) ->
  remove_scan key data (p ++ e :: q) 0 None = Some (length p) ->
  exists m' l1 l2, tuya_hashmap_remove m key data = Some (MAP_OK, m') /\ map_ok m' /\
    hm_size m' = hm_size m - 1 /\
    hm_list m = l1 ++ (p ++ e :: q) :: l2 /\ hm_list m' = l1 ++ (p ++ q) :: l2 /\
    (forall k, bucket (hm_table_size m) k = bucket (hm_table_size m) key -> key_ok k ->
      with_key k (concat l1) = [] /\ with_key k (concat l2) = []).
Proof.
  intros Hm Hk Hl0 Hscan. destruct (bucket_split m key Hm Hk) as (l1&l&l2&Hl&_&_&Hz&Hg&Hset).
  rewrite Hl0 in Hg. injection Hg as <-.
  unfold tuya_hashmap_remove. rewrite hash_ok by done. ub_step. rewrite Hl0. ub_step.
  destruct (p ++ e :: q) as [|x0 r0] eqn:Hpq; [by destruct p|]. rewrite Hscan. ub_step.
  rewrite <- Hpq in *. rewrite delete_middle, Hset.
  eexists _, l1, l2. split; [done|]. split; [|split; [done|split; [done|split; [done|]]]].
  - replace (hm_size m - 1) with (hm_size m + (zlen (p ++ q) - zlen (p ++ e :: q)))
      by (rewrite !zlen_app, zlen_cons; lia).
    apply set_bucket_ok; try done.
    + intros x Hx. rewrite Hz. apply (mo_keys _ Hm _ (p ++ e :: q)).
      * by rewrite i32_bucket in Hl0 by done.
      * rewrite !elem_of_app, elem_of_cons in *. tauto.
    + pose proof (mo_addr _ Hm) as Hnd. rewrite Hl, concat_insert in Hnd.
      cbn [fmap list_fmap] in Hnd. by apply NoDup_cons_1_2 in Hnd.
  - intros k Hb Hkk. destruct (bucket_split m k Hm Hkk) as (k1&kl&k2&Hl'&H1&H2&Hz'&_&_).
    rewrite Hl in Hl'. assert (length l1 = length k1) by (unfold zlen in *; lia).
    apply app_inj_1 in Hl' as [-> [= _ ->]]; [|done]. done.
Qed.

Lemma hashmap_remove_hit m key data :
  map_ok m -> key_ok key -> Exists (fun d => data = 0 \/ d = data) (contents m key) ->
  exists m', tuya_hashmap_remove m key data = Some (MAP_OK, m') /\ map_ok m' /\
    hm_size m' = hm_size m - 1 /\
    contents m' key = drop_first data (contents m key) /\
    forall k, k <> key -> contents m' k = contents m k.
Proof.
  intros Hm Hk Hex. destruct (contents_bucket m key Hm Hk) as (l & Hl & Hc).
  assert (Hhit : exists p e q, l = p ++ e :: q /\
    Forall (fun x => ~ hits key data x) p /\ hits key data e).
  { destruct (first_hit key data l) as [?|Hno]; [done|]. exfalso.
    apply Exists_exists in Hex as (d & Hd & Hdd). unfold contents in Hd. rewrite Hc in Hd.
    apply list_elem_of_fmap in Hd as (e & -> & [He1 He2]%list_elem_of_filter).
    rewrite Forall_forall in Hno. by apply (Hno e). }
  destruct Hhit as (p & e & q & -> & Hp & He).
  destruct (remove_at_ok m key data p e q) as (m'&l1&l2&Hr&Hm'&Hs&Hlm&Hlm'&Hother); try done.
  { by rewrite (remove_scan_hit _ _ _ _ _ 0). }
  exists m'. split; [done|]. split; [done|]. split; [done|].
  rewrite (contents_split m' l1 (p ++ q) l2), (contents_split m l1 (p ++ e :: q) l2) by done.
  destruct (Hother key) as [-> ->]; [done..|]. rewrite !app_nil_r. split.
  - by apply (drop_first_hit key).
  - intros k Hne. rewrite (contents_split m' l1 (p ++ q) l2) by done.
    rewrite (contents_split m l1 (p ++ e :: q) l2) by done. do 3 f_equal.
    destruct He as [He _]. rewrite !with_key_app. f_equal. unfold with_key at 2.
    by rewrite filter_cons_False by congruence.
Qed.


(** A map with 4 buckets after two insertions under "a" and one under "e". *)
Definition demo_map : HASHMAP_T :=
  let put k d a om := match om with
    | Some m => match tuya_hashmap_put m k d (Some a) with
                | Some (_, m) => Some m | None => None end
    | None => None end in
  default (HashMap 0 1 [[]])
    (put (c_str "e") 30 3 (put (c_str "a") 20 2 (put (c_str "a") 10 1
      (tuya_hashmap_new 4 true true)))).


Lemma demo_map_ok : map_ok demo_map.
Proof.
  constructor.
  - change (hm_table_size demo_map) with 4. lia.
  - by vm_compute.
  - intros b l e Hb He. assert (Hr := zget_inv _ _ _ Hb). change (zlen _) with 4 in Hr.
    assert (b = 0 \/ b = 1 \/ b = 2 \/ b = 3) as [->|[->|[->| ->]]] by lia;
      vm_compute in Hb; injection Hb as <-; try by apply not_elem_of_nil in He.
    repeat (apply elem_of_cons in He as [->|He];
      [split; [repeat constructor; vm_compute; done|by vm_compute]|]).
    by apply not_elem_of_nil in He.
  - apply (bool_decide_unpack _). by vm_compute.
  - by vm_compute.
Qed.


(** Removing a key that the map does not hold (or not with this data) is answered
    MAP_MISSING only when the bucket is empty; otherwise the last element of the bucket,
    which belongs to another key or has other data, is removed, with the answer MAP_OK. *)
Theorem hashmap_remove_absent m key data :
  map_ok m -> key_ok key -> Forall (fun d => ~ (data = 0 \/ d = data)) (contents m key) ->
  (zget (hm_list m) (bucket (hm_table_size m) key) = Some [] ->
   tuya_hashmap_remove m key data = Some (MAP_MISSING, m)) /\
  (forall l e, zget (hm_list m) (bucket (hm_table_size m) key) = Some (l ++ [e]) ->
   exists m', tuya_hashmap_remove m key data = Some (MAP_OK, m') /\ map_ok m' /\
     hm_size m' = hm_size m - 1 /\
     contents m (el_key e) = contents m' (el_key e) ++ [el_data e]).
Proof.
  intros Hm Hk Hno. split.
  - intros Hl. unfold tuya_hashmap_remove. rewrite hash_ok by done. ub_step.
    rewrite i32_bucket by done. by rewrite Hl.
  - intros l e Hl. rewrite <- (i32_bucket m key Hm) in Hl.
    assert (Hmiss : Forall (fun x => ~ hits key data x) (l ++ [e])).
    { apply Forall_forall. intros x Hx [Hxk Hxd].
      destruct (contents_bucket m key Hm Hk) as (l' & Hl' & Hc). rewrite Hl in Hl'.
      injection Hl' as <-. unfold contents in Hno. rewrite Hc in Hno.
      rewrite Forall_forall in Hno. apply (Hno (el_data x)); [|naive_solver].
      apply list_elem_of_fmap_2, list_elem_of_filter. done. }
    destruct (remove_at_ok m key data l e []) as (m'&l1&l2&Hr&Hm'&Hs&Hlm&Hlm'&Hother); try done.
    { by rewrite (remove_scan_miss _ _ _ _ 0). }
    exists m'. split; [done|]. split; [done|]. split; [done|].
    assert (He : key_ok (el_key e) /\
      bucket (hm_table_size m) (el_key e) = bucket (hm_table_size m) key).
    { rewrite i32_bucket in Hl by done. apply (mo_keys _ Hm _ (l ++ [e])); [done|].
      rewrite elem_of_app. right. by left. }
    rewrite (contents_split m' l1 (l ++ []) l2), (contents_split m l1 (l ++ [e]) l2) by done.
    destruct (Hother (el_key e)) as [-> ->]; [apply He..|].
    rewrite !app_nil_r. cbn [app]. rewrite with_key_app, fmap_app. f_equal. unfold with_key.
    by rewrite filter_cons_True by done.
Qed.

Lemma hashmap_remove_absent_witness :
  exists m', tuya_hashmap_remove demo_map (c_str "d") 0 = Some (MAP_OK, m') /\
    contents demo_map (c_str "a") = [20; 10] /\ contents m' (c_str "a") = [20].
Proof.
  destruct (hashmap_remove_absent demo_map (c_str "d") 0 demo_map_ok) as [_ H].
  - repeat constructor; by vm_compute.
  - change (contents demo_map (c_str "d")) with (@nil Z). constructor.
  - destruct (H [Element 3 (c_str "e") 30; Element 2 (c_str "a") 20] (Element 1 (c_str "a") 10))
      as (m' & Hr & _); [by vm_compute|].
    exists m'. split; [exact Hr|]. vm_compute in Hr. injection Hr as <-. by vm_compute.
Defined.

Lemma after_addr_ok p e r :
  el_addr e ∉ el_addr <$> p -> after_addr (el_addr e) (p ++ e :: r) = Some r.
Proof.
  induction p as [|x p IH]; intros Hp; cbn [after_addr app fmap list_fmap] in *.
  - by rewrite bool_decide_true.
  - apply not_elem_of_cons in Hp as [Hx Hp]. rewrite bool_decide_false by congruence. by apply IH.
Qed.

Lemma after_addr_none a l : a ∉ el_addr <$> l -> after_addr a l = None.
Proof.
  induction l as [|x l IH]; intros Hl; cbn [after_addr fmap list_fmap] in *; [done|].
  apply not_elem_of_cons in Hl as [Hx Hl]. rewrite bool_decide_false by congruence. by apply IH.
Qed.

Lemma elements_after_ok l1 p e r l2 :
  el_addr e ∉ el_addr <$> concat l1 -> el_addr e ∉ el_addr <$> p ->
  elements_after (el_addr e) (l1 ++ (p ++ e :: r) :: l2) = Some r.
Proof.
  intros H1 Hp. induction l1 as [|l l1 IH]; cbn [elements_after app].
  - by rewrite after_addr_ok.
  - cbn [concat] in H1. rewrite fmap_app, elem_of_app in H1.
    rewrite after_addr_none by tauto. apply IH. tauto.
Qed.

Lemma find_addr_ok l e :
  NoDup (el_addr <$> l) -> e ∈ l ->
  List.find (fun x => bool_decide (el_addr x = el_addr e)) l = Some e.
Proof.
  induction l as [|x l IH]; intros Hnd He; [by apply not_elem_of_nil in He|].
  cbn [fmap list_fmap] in Hnd. apply NoDup_cons in Hnd as [Hx Hnd]. cbn [List.find].
  apply elem_of_cons in He as [->|He]; [by rewrite bool_decide_true|].
  rewrite bool_decide_false; [by apply IH|]. intros Heq. apply Hx. rewrite Heq.
  by apply list_elem_of_fmap_2.
Qed.

(** Traversing a key visits exactly its elements, in the order of [contents]: the first
    step gives the first, a step from the [i]-th gives the next one, and MAP_MISSING with a
    null iterator ends it. *)
Theorem hashmap_traversal m key :
  map_ok m -> key_ok key ->
  let es := with_key key (concat (hm_list m)) in
  let answer e := match e with
    | Some e => (MAP_OK, Some (el_addr e)) | None => (MAP_MISSING, None) end in
  el_data <$> es = contents m key /\
  tuya_hashmap_data_traversal m key None = Some (answer (es !! 0%nat)) /\
  forall i e, es !! i = Some e ->
    tuya_hashmap_data_traversal m key (Some (el_addr e)) = Some (answer (es !! S i)).
Proof.
  intros Hm Hk es answer. split; [done|]. split.
  { unfold tuya_hashmap_data_traversal. rewrite hash_find_ok by done. ub_step. fold es.
    by destruct es. }
  intros i e Hi.
  destruct (bucket_split m key Hm Hk) as (l1&l&l2&Hl&H1&H2&_).
  assert (Hes : es = with_key key l)
    by (unfold es; by rewrite Hl, concat_app, concat_cons, !with_key_app, H1, H2, app_nil_r).
  assert (Hel : e ∈ es) by (by eapply list_elem_of_lookup_2).
  pose proof Hel as Hel'. rewrite Hes in Hel'.
  apply list_elem_of_filter in Hel' as [Hek Hin].
  apply list_elem_of_split in Hin as (p & r & ->).
  pose proof (mo_addr _ Hm) as Hnd.
  assert (Hfresh : forall x, x ∈ concat (l1 ++ (p ++ r) :: l2) -> el_addr x <> el_addr e).
  { intros x Hx Heq. rewrite Hl, concat_insert in Hnd. cbn [fmap list_fmap] in Hnd.
    apply NoDup_cons in Hnd as [Hne _]. apply Hne. rewrite <- Heq. by apply list_elem_of_fmap_2. }
  rewrite concat_app, concat_cons in Hfresh.
  assert (Hnot : forall l', l' ⊆ concat l1 ++ (p ++ r) ++ concat l2 ->
    el_addr e ∉ el_addr <$> l').
  { intros l' Hsub (x & Hx & Hxl)%list_elem_of_fmap. by apply (Hfresh x); [apply Hsub|]. }
  unfold tuya_hashmap_data_traversal, hash_find_next_element, find_addr.
  rewrite (find_addr_ok _ e Hnd).
  2: { rewrite Hl, concat_app, concat_cons, !elem_of_app, elem_of_cons. tauto. }
  ub_step. rewrite Hl, elements_after_ok.
  2, 3: apply Hnot; intros x; rewrite !elem_of_app; tauto.
  ub_step. rewrite find_key_with_key, Hek.
  assert (Hsplit : es = with_key key p ++ e :: with_key key r).
  { rewrite Hes, with_key_app. unfold with_key at 2. by rewrite filter_cons_True. }
  replace (es !! S i) with (head (with_key key r)); [by destruct (head _)|].
  rewrite Hsplit in *. clear Hsplit Hes. assert (i = length (with_key key p)) as ->.
  { destruct (lt_eq_lt_dec i (length (with_key key p))) as [[Hlt|?]|Hgt]; [|done|]; exfalso.
    - rewrite lookup_app_l in Hi by done. apply list_elem_of_lookup_2, list_elem_of_filter in Hi.
      apply (Hfresh e); [|done]. rewrite !elem_of_app. tauto.
    - rewrite lookup_app_r in Hi by lia. destruct (i - _)%nat as [|j] eqn:Hj; [lia|].
      cbn [lookup list_lookup] in Hi.
      apply list_elem_of_lookup_2, list_elem_of_filter in Hi.
      apply (Hfresh e); [|done]. rewrite !elem_of_app. tauto. }
  rewrite lookup_app_r by lia.
  replace (S (length (with_key key p)) - length (with_key key p))%nat with 1%nat by lia.
  by destruct (with_key key r).
Qed.

Lemma hashmap_traversal_witness :
  tuya_hashmap_data_traversal demo_map (c_str "a") None = Some (MAP_OK, Some 2) /\
  tuya_hashmap_data_traversal demo_map (c_str "a") (Some 2) = Some (MAP_OK, Some 1) /\
  tuya_hashmap_data_traversal demo_map (c_str "a") (Some 1) = Some (MAP_MISSING, None).
Proof.
  destruct (hashmap_traversal demo_map (c_str "a") demo_map_ok) as (_ & H0 & Hs).
  - repeat constructor; by vm_compute.
  - split; [exact H0|]. split.
    + exact (Hs 0%nat (Element 2 (c_str "a") 20) eq_refl).
    + exact (Hs 1%nat (Element 1 (c_str "a") 10) eq_refl).
Defined.
