(* ===== verification/Tools.v ===== *)
(** * String and byte utilities

    src/tools/porting/adapter/utilities/src/tuya_tools.c and
    src/src/common/utilities/mix_method.c. Several functions are written twice, once in each
    file with the same body; they are translated once and named twice. A C string is an array
    of bytes that holds its terminator; characters are their byte values. *)
From S2P Require Import Prelude BubbleSort.

(** ** Definitions *)

(** The library functions behind the three wrappers. *)
Definition tuya_strlen (str : bytes) : Z := zlen (c_string str).
Definition tuya_strcpy (dst src : bytes) : option bytes := strcpy dst (c_string src).
Definition tuya_strcat (dst src : bytes) : option bytes :=
  mwrite dst (zlen (c_string dst)) (c_string src ++ [0]).

Definition tolower (c : Z) : Z :=
  if bool_decide (65 <= c) && bool_decide (c <= 90) then c - 65 + 97 else c.

(** The loop of [tuya_strncasecmp] on the rests of the two strings. *)
Fixpoint strncasecmp_loop (p1 p2 : bytes) (cnt n : Z) : option Z :=
  match p1, p2 with
  | c1 :: p1, c2 :: p2 =>
      let result := tolower c1 - tolower c2 in
      if negb (bool_decide (result = 0)) then Some result
      else if bool_decide (cnt + 1 >= n) then Some result
      else if bool_decide (c1 = 0) then Some (-1)
      else if bool_decide (c2 = 0) then Some 1
      else strncasecmp_loop p1 p2 (cnt + 1) n
  | _, _ => None
  end.

(** [same]: the two pointers are equal. *)
Definition tuya_strncasecmp (same : bool) (s1 s2 : bytes) (n : Z) : option Z :=
  if same then Some 0 else strncasecmp_loop s1 s2 0 n.

Fixpoint strcmp_loop (src dst : bytes) : option Z :=
  match src, dst with
  | s :: src, d :: dst =>
      let ret := s - d in
      if bool_decide (ret = 0) && negb (bool_decide (d = 0)) then strcmp_loop src dst
      else Some ret
  | _, _ => None
  end.

Definition uni_strcmp (src dst : bytes) : option Z :=
  ret ← strcmp_loop src dst;
  Some (if bool_decide (ret < 0) then -1 else if bool_decide (ret > 0) then 1 else ret).

Definition tuya_strcmp : bytes -> bytes -> option Z := uni_strcmp.

Definition asc2hex (asccode : Z) : Z :=
  if bool_decide (48 <= asccode) && bool_decide (asccode <= 57) then u8 (asccode - 48)
  else if bool_decide (97 <= asccode) && bool_decide (asccode <= 102) then u8 (asccode - 97 + 10)
  else if bool_decide (65 <= asccode) && bool_decide (asccode <= 70) then u8 (asccode - 65 + 10)
  else 0.

Definition tuya_asc2hex : Z -> Z := asc2hex.

(** [n] rounds from [i = 2k] on. *)
Fixpoint ascs2hex_loop (n : nat) (k : Z) (hex ascs : bytes) : option bytes :=
  match n with
  | O => Some hex
  | S n =>
      h4 ← zget ascs (2 * k);
      l4 ← zget ascs (2 * k + 1);
      hex ← zset hex k (u8 (Z.shiftl (asc2hex h4) 4 + asc2hex l4));
      ascs2hex_loop n (k + 1) hex ascs
  end.

Definition ascs2hex (hex ascs : bytes) (srclen : Z) : option bytes :=
  let lenstr := if bool_decide (Z.rem srclen 2 <> 0) then srclen - Z.rem srclen 2 else srclen in
  if bool_decide (lenstr = 0) then Some hex
  else ascs2hex_loop (Z.to_nat (lenstr / 2)) 0 hex ascs.

Definition tuya_ascs2hex : bytes -> bytes -> Z -> option bytes := ascs2hex.

(** The two characters of a byte in [hex2str] (upper case) and [byte2str]. *)
Definition hex_char (d : Z) : Z := let dd := 48 + d in if bool_decide (dd > 57) then dd + 7 else dd.
Definition hex2str_byte (b : Z) : option (Z * Z) := Some (hex_char (b / 16), hex_char (b `mod` 16)).

Definition to_lower : bytes := [48; 49; 50; 51; 52; 53; 54; 55; 56; 57; 97; 98; 99; 100; 101; 102].
Definition to_upper : bytes := [48; 49; 50; 51; 52; 53; 54; 55; 56; 57; 65; 66; 67; 68; 69; 70].
Definition byte2str_byte (upper : bool) (b : Z) : option (Z * Z) :=
  let tmp := if upper then to_upper else to_lower in
  h ← zget tmp (Z.shiftr (Z.land b 0xF0) 4);
  l ← zget tmp (Z.land b 0x0F);
  Some (h, l).

(** The loop of both functions, [n] rounds from [i] on. *)
Fixpoint to_str_loop (conv : Z -> option (Z * Z)) (n : nat) (i : Z) (str hex : bytes)
    : option bytes :=
  match n with
  | O => Some str
  | S n =>
      b ← zget hex i;
      d ← conv b;
      str ← zset str (i * 2) (fst d);
      str ← zset str (i * 2 + 1) (snd d);
      to_str_loop conv n (i + 1) str hex
  end.

Definition hex2str (str hex : bytes) (hexlen : Z) : option bytes :=
  str ← to_str_loop hex2str_byte (Z.to_nat hexlen) 0 str hex;
  zset str (hexlen * 2) 0.

Definition tuya_hex2str : bytes -> bytes -> Z -> option bytes := hex2str.

Definition byte2str (pbDest pbSrc : bytes) (nLen : Z) (upper : bool) : option bytes :=
  pbDest ← to_str_loop (byte2str_byte upper) (Z.to_nat nLen) 0 pbDest pbSrc;
  zset pbDest (nLen * 2) 0.

(** [n] rounds from [i] on; the result is [None] inside when a character is no digit. *)
Fixpoint str2num_loop (n : nat) (i value : Z) (str : bytes) : option (option Z) :=
  match n with
  | O => Some (Some value)
  | S n =>
      c ← zget str i;
      if bool_decide (c >= 48) && bool_decide (c <= 57)
      then str2num_loop n (i + 1) (u32 (value * 10 + (c - 48))) str
      else Some None
  end.

(** The return value and [*number] afterwards. *)
Definition tuya_str2num (number : Z) (str : bytes) (len : Z) : option (bool * Z) :=
  r ← str2num_loop (Z.to_nat len) 0 0 str;
  Some (match r with Some v => (true, v) | None => (false, number) end).

(** The loop with its 8-bit counter; [Some None]: it still runs after [fuel] rounds. *)
Fixpoint intArray2int_loop (fuel : nat) (i bound num : Z) (intArray : bytes)
    : option (option Z) :=
  if bool_decide (i < bound) then
    match fuel with
    | O => Some None
    | S fuel =>
        d ← zget intArray i;
        intArray2int_loop fuel (u8 (i + 1)) bound (u32 (u32 (num * 10) + d)) intArray
    end
  else Some (Some num).

Definition tuya_intArray2int (fuel : nat) (intArray : bytes) (index len : Z)
    : option (option Z) :=
  if bool_decide (index >= len) then Some (Some (u32 (-1)))
  else intArray2int_loop fuel (u8 index) (u32 (index + len)) 0 intArray.

Fixpoint buff_reverse_loop (n : nat) (i len : Z) (buf : bytes) : option bytes :=
  match n with
  | O => Some buf
  | S n =>
      tmp ← zget buf i;
      x ← zget buf (len - 1 - i);
      buf ← zset buf i x;
      buf ← zset buf (len - 1 - i) tmp;
      buff_reverse_loop n (i + 1) len buf
  end.

Definition tuya_buff_reverse (buf : bytes) (len : Z) : option bytes :=
  buff_reverse_loop (Z.to_nat (len / 2)) 0 len buf.

(** [do { tmp /= 10; i++; } while (tmp != 0);] A 32-bit number has at most 10 digits. *)
Fixpoint count_digits (fuel : nat) (tmp i : Z) : option Z :=
  match fuel with
  | O => None
  | S fuel =>
      let tmp := tmp / 10 in
      let i := u8 (i + 1) in
      if bool_decide (tmp <> 0) then count_digits fuel tmp i else Some i
  end.

Fixpoint put_digits (fuel : nat) (tmp i : Z) (intArray : bytes) : option (Z * bytes) :=
  if bool_decide (tmp <> 0) then
    match fuel with
    | O => None
    | S fuel =>
        intArray ← zset intArray i (tmp `mod` 10);
        put_digits fuel (tmp / 10) (u8 (i + 1)) intArray
    end
  else Some (i, intArray).

(** The return value and the array. *)
Definition tuya_int2intArray (num : Z) (intArray : bytes) (len : Z) : option (Z * bytes) :=
  i ← count_digits 10 num 0;
  if bool_decide (len < i) then Some (0, intArray)
  else
    r ← put_digits 10 num 0 intArray;
    intArray ← tuya_buff_reverse (snd r) (fst r);
    Some (fst r, intArray).

(** [dst] and [src] are different arrays; [n] rounds from [i] on. *)
Fixpoint data_reverse_loop (n : nat) (i max_len : Z) (dst src : bytes) : option bytes :=
  match n with
  | O => Some dst
  | S n =>
      x ← zget src (max_len - 1);
      dst ← zset dst i x;
      data_reverse_loop n (i + 1) (max_len - 1) dst src
  end.

Definition tuya_data_reverse (dst src : bytes) (srclen : Z) : option bytes :=
  data_reverse_loop (Z.to_nat srclen) 0 srclen dst src.

(** The search from [i = n - 1] down to 0. *)
Fixpoint revr_find_loop (n : nat) (str : bytes) (ch : Z) : option Z :=
  match n with
  | O => Some (-2)
  | S n =>
      c ← zget str (Z.of_nat n);
      if bool_decide (c = ch) then Some (Z.of_nat n) else revr_find_loop n str ch
  end.

Definition str_revr_find_ch (str : option bytes) (revr_index ch : Z) : option Z :=
  match str with
  | None => Some (-1)
  | Some str =>
      let len := zlen (c_string str) in
      if bool_decide (revr_index >= len) then Some (-1)
      else revr_find_loop (Z.to_nat (len - revr_index)) str ch
  end.

Definition tuya_find_char_with_reverse_idx : option bytes -> Z -> Z -> option Z :=
  str_revr_find_ch.

Definition byte_gt (is_ascend : bool) (x y : Z) : bool :=
  if is_ascend then bool_decide (x > y) else bool_decide (x < y).

Definition byte_sort (is_ascend : bool) (buf : bytes) (buf_cnt : Z) : option bytes :=
  bubble_sort (byte_gt is_ascend) buf_cnt buf.

Definition tuya_byte_sort : bool -> bytes -> Z -> option bytes := byte_sort.

(** The loop clears one bit in each round: 32 rounds are enough. *)
Fixpoint bit1_loop (fuel : nat) (num count : Z) : option Z :=
  if bool_decide (num = 0) then Some count
  else match fuel with
       | O => None
       | S fuel => bit1_loop fuel (Z.land num (u32 (num - 1))) (u32 (count + 1))
       end.

Definition tuya_bit1_count (num : Z) : option Z := bit1_loop 32 num 0.

Fixpoint leading_loop (fuel : nat) (temp count : Z) : option Z :=
  if bool_decide (Z.land temp 0x80000000 <> 0) then
    match fuel with
    | O => None
    | S fuel => leading_loop fuel (u32 (Z.shiftl temp 1)) (u32 (count + 1))
    end
  else Some count.

Definition tuya_leading_zeros_count (num : Z) : option Z :=
  leading_loop 32 (u32 (Z.lnot num)) 0.

Definition tuya_check_sum8 (buf : bytes) (len : Z) : option Z :=
  d ← mread buf 0 len; Some (foldl (fun sum b => u8 (sum + b)) 0 d).

Definition tuya_check_sum16 (buf : bytes) (len : Z) : option Z :=
  d ← mread buf 0 len; Some (foldl (fun sum b => u16 (sum + b)) 0 d).

(** ** Comparison *)

(** The lexicographic order of two strings. *)
Fixpoint lex (s t : bytes) : Z :=
  match s, t with
  | [], [] => 0
  | [], _ :: _ => -1
  | _ :: _, [] => 1
  | a :: s, b :: t => if bool_decide (a < b) then -1 else if bool_decide (b < a) then 1 else lex s t
  end.

Lemma lex_eq s : forall t, lex s t = 0 <-> s = t.
Proof.
  induction s as [|a s IH]; intros [|b t]; simpl; try (split; [done|done]).
  repeat case_bool_decide; try (split; [lia|intros [=]; lia]).
  rewrite IH. split; [intros ->|intros [=]; done]. f_equal. lia.
Qed.

Lemma lex_antisym s : forall t, lex t s = - lex s t.
Proof.
  induction s as [|a s IH]; intros [|b t]; simpl; try done.
  repeat case_bool_decide; try lia. apply IH.
Qed.

Definition string_ok (s : bytes) : Prop := bytes_ok s /\ no_nul s.

Lemma string_ok_cons c s : string_ok (c :: s) -> 0 < c < 256 /\ string_ok s.
Proof.
  intros [H1 H2]. inversion H1; inversion H2; subst. unfold in_u in *.
  split; [lia|done].
Qed.

Lemma strcmp_loop_ok s : forall t x y,
  string_ok s -> string_ok t ->
  exists r, strcmp_loop (s ++ 0 :: x) (t ++ 0 :: y) = Some r /\ Z.sgn r = lex s t.
Proof.
  induction s as [|a s IH]; intros [|b t] x y Hs Ht; cbn [strcmp_loop app lex].
  - by exists 0.
  - apply string_ok_cons in Ht as [Hb Ht]. rewrite bool_decide_false by lia. simpl.
    eexists. split; [done|]. lia.
  - apply string_ok_cons in Hs as [Ha Hs]. rewrite bool_decide_false by lia. simpl.
    eexists. split; [done|]. lia.
  - apply string_ok_cons in Hs as [Ha Hs]. apply string_ok_cons in Ht as [Hb Ht].
    rewrite (bool_decide_false (b = 0)) by lia. rewrite andb_true_r.
    repeat case_bool_decide; try lia; try by apply IH.
    all: eexists; split; [done|]; lia.
Qed.

(** ** Case-insensitive comparison *)

Lemma strncasecmp_skip p1 : forall p2 s t cnt n,
  tolower <$> p1 = tolower <$> p2 -> no_nul p1 -> no_nul p2 -> cnt + zlen p1 < n ->
  strncasecmp_loop (p1 ++ s) (p2 ++ t) cnt n = strncasecmp_loop s t (cnt + zlen p1) n.
Proof.
  induction p1 as [|c1 p1 IH]; intros [|c2 p2] s t cnt n Hl H1 H2 Hn; try done; cbn [app].
  - by rewrite zlen_nil, Z.add_0_r.
  - injection Hl as Hc Hl. inversion H1; inversion H2; subst. rewrite zlen_cons in *.
    pose proof (zlen_nonneg p1). cbn [strncasecmp_loop].
    rewrite (bool_decide_true (_ = 0)) by lia. cbn [negb].
    rewrite !bool_decide_false by lia. rewrite IH by (done || lia). f_equal. lia.
Qed.

Lemma strncasecmp_zero s : forall t x y cnt n,
  tolower <$> s = tolower <$> t -> no_nul s -> no_nul t -> n <= cnt + zlen s + 1 ->
  strncasecmp_loop (s ++ 0 :: x) (t ++ 0 :: y) cnt n = Some 0.
Proof.
  induction s as [|c1 s IH]; intros [|c2 t] x y cnt n Hl H1 H2 Hn; try done;
    cbn [app strncasecmp_loop].
  - rewrite zlen_nil in Hn. by rewrite (bool_decide_true (cnt + 1 >= n)) by lia.
  - injection Hl as Hc Hl. inversion H1; inversion H2; subst. rewrite zlen_cons in *.
    rewrite (bool_decide_true (_ = 0)) by lia. cbn [negb].
    case_bool_decide; [f_equal; lia|]. rewrite !bool_decide_false by done.
    apply IH; try done. lia.
Qed.

(** [tuya_strncasecmp]: two strings that differ, apart from case, within the first [n]
    characters give the difference of the lower-case characters at the first such place;
    two strings that are equal apart from case give 0 only for an [n] of at most their length
    plus one: with a larger [n] the result is -1, which the header reads as "s2 longer". *)
Theorem strncasecmp_codes p1 p2 n :
  no_nul p1 -> no_nul p2 -> tolower <$> p1 = tolower <$> p2 ->
  (forall c1 c2 s t, tolower c1 <> tolower c2 -> zlen p1 < n ->
     tuya_strncasecmp false (p1 ++ c1 :: s) (p2 ++ c2 :: t) n = Some (tolower c1 - tolower c2)) /\
  (forall x y, n <= zlen p1 + 1 ->
     tuya_strncasecmp false (p1 ++ 0 :: x) (p2 ++ 0 :: y) n = Some 0) /\
  (forall x y, zlen p1 + 1 < n ->
     tuya_strncasecmp false (p1 ++ 0 :: x) (p2 ++ 0 :: y) n = Some (-1)).
Proof.
  intros H1 H2 Hl. unfold tuya_strncasecmp. split_and!.
  - intros c1 c2 s t Hne Hn. rewrite strncasecmp_skip by (done || lia).
    cbn [strncasecmp_loop]. by rewrite bool_decide_false by lia.
  - intros x y Hn. by apply strncasecmp_zero.
  - intros x y Hn. rewrite strncasecmp_skip by (done || lia). cbn [strncasecmp_loop].
    by rewrite (bool_decide_false (0 + zlen p1 + 1 >= n)) by lia.
Qed.

Lemma strncasecmp_codes_witness :
  tuya_strncasecmp false (c_str "GET x" ++ [0]) (c_str "get x" ++ [0]) 5 = Some 0 /\
  tuya_strncasecmp false (c_str "GET x" ++ [0]) (c_str "get x" ++ [0]) 10 = Some (-1).
Proof.
  destruct (strncasecmp_codes (c_str "GET x") (c_str "get x") 5) as (_ & H0 & _);
    [repeat constructor; done..|by vm_compute|].
  destruct (strncasecmp_codes (c_str "GET x") (c_str "get x") 10) as (_ & _ & H1);
    [repeat constructor; done..|by vm_compute|].
  split; [by apply H0|by apply H1].
Defined.

(** [uni_strcmp] and [tuya_strcmp] are the lexicographic order of two strings: -1, 0 or
    1, 0 exactly for equal strings, with the opposite sign for the strings exchanged. *)
Theorem strcmp_is_lex s t x y :
  string_ok s -> string_ok t ->
  uni_strcmp (s ++ 0 :: x) (t ++ 0 :: y) = Some (lex s t) /\
  tuya_strcmp (t ++ 0 :: y) (s ++ 0 :: x) = Some (- lex s t) /\
  (lex s t = 0 <-> s = t).
Proof.
  intros Hs Ht. unfold tuya_strcmp, uni_strcmp.
  assert (Hsgn : forall r, (if bool_decide (r < 0) then -1
    else if bool_decide (r > 0) then 1 else r) = Z.sgn r) by (intros r; guards).
  split; [|split; [|apply lex_eq]].
  - destruct (strcmp_loop_ok s t x y Hs Ht) as (r & -> & <-). ub_step. by rewrite Hsgn.
  - destruct (strcmp_loop_ok t s y x Ht Hs) as (r & -> & Hr). ub_step.
    by rewrite Hsgn, Hr, lex_antisym.
Qed.

Lemma strcmp_is_lex_witness :
  uni_strcmp (c_str "on" ++ [0]) (c_str "off" ++ [0]) = Some 1.
Proof.
  destruct (strcmp_is_lex (c_str "on") (c_str "off") [] []) as (H & _ & _);
    [repeat constructor; done..|]. exact H.
Defined.

(** ** Hexadecimal strings *)

(** The characters of [h], two per byte. *)
Definition spell (f : Z -> Z * Z) (h : bytes) : bytes :=
  concat (map (fun b => [fst (f b); snd (f b)]) h).

Lemma spell_cons f b h : spell f (b :: h) = fst (f b) :: snd (f b) :: spell f h.
Proof. done. Qed.

Lemma zlen_spell f h : zlen (spell f h) = 2 * zlen h.
Proof. induction h as [|b h IH]; [done|]. rewrite spell_cons, !zlen_cons, IH. lia. Qed.

Lemma zset_at {A} (l1 : list A) x y l2 k :
  k = zlen l1 -> zset (l1 ++ x :: l2) k y = Some (l1 ++ y :: l2).
Proof. intros ->. apply zset_length. Qed.

Lemma zget_at {A} (l1 : list A) x l2 k : k = zlen l1 -> zget (l1 ++ x :: l2) k = Some x.
Proof. intros ->. apply zget_length. Qed.

Lemma snoc_cons {A} (l : list A) x r : l ++ x :: r = (l ++ [x]) ++ r.
Proof. by rewrite <- app_assoc. Qed.

Lemma to_str_loop_ok conv f :
  (forall b, in_u 8 b -> conv b = Some (f b)) ->
  forall h2 h1 l rest, bytes_ok h2 -> zlen l = 2 * zlen h1 -> 2 * zlen h2 <= zlen rest ->
  to_str_loop conv (length h2) (zlen h1) (l ++ rest) (h1 ++ h2) =
    Some (l ++ spell f h2 ++ drop (2 * length h2) rest).
Proof.
  intros Hconv h2. induction h2 as [|b h2 IH]; intros h1 l rest Hb Hl Hr.
  - done.
  - inversion Hb as [|? ? Hb1 Hb2]; subst. rewrite zlen_cons in Hr. pose proof (zlen_nonneg h2).
    destruct rest as [|r1 [|r2 rest]]; rewrite ?zlen_cons, ?zlen_nil in Hr; try lia.
    cbn [length to_str_loop]. rewrite zget_length. ub_step. rewrite Hconv by done. ub_step.
    rewrite zset_at by lia. ub_step.
    rewrite (snoc_cons l). rewrite zset_at by (rewrite zlen_snoc; lia). ub_step.
    rewrite (snoc_cons h1), (snoc_cons (l ++ _)).
    replace (zlen h1 + 1) with (zlen (h1 ++ [b])) by apply zlen_snoc. rewrite IH; [|done|rewrite !zlen_snoc; lia|lia].
    rewrite <- !app_assoc. do 2 f_equal. rewrite spell_cons. cbn [app]. do 3 f_equal.
    by replace (2 * S (length h2))%nat with (S (S (2 * length h2))) by lia.
Qed.

(** The two characters read back as the byte. *)
Definition spells (f : Z -> Z * Z) : Prop :=
  forall b, in_u 8 b ->
    u8 (Z.shiftl (asc2hex (fst (f b))) 4 + asc2hex (snd (f b))) = b /\
    fst (f b) <> 0 /\ snd (f b) <> 0.

Definition upper_hex (b : Z) : Z * Z := (hex_char (b / 16), hex_char (b `mod` 16)).
Definition lower_hex (b : Z) : Z * Z :=
  let c d := if bool_decide (d < 10) then 48 + d else 87 + d in (c (b / 16), c (b `mod` 16)).
Definition hex_of (upper : bool) : Z -> Z * Z := if upper then upper_hex else lower_hex.

Definition spells_at (f : Z -> Z * Z) (b : Z) : bool :=
  (u8 (Z.shiftl (asc2hex (fst (f b))) 4 + asc2hex (snd (f b))) =? b) &&
  negb (fst (f b) =? 0) && negb (snd (f b) =? 0).

Lemma hex_of_spells upper : spells (hex_of upper).
Proof.
  intros b Hb. assert (H : spells_at (hex_of upper) b = true).
  { apply (below_forallb (spells_at (hex_of upper)) 256); [|done].
    destruct upper; by vm_compute. }
  unfold spells_at in H. lia.
Qed.

Lemma byte2str_byte_ok upper b :
  in_u 8 b -> byte2str_byte upper b = Some (hex_of upper b).
Proof.
  intros Hb. pose proof (below_forallb
    (fun b => bool_decide (byte2str_byte upper b = Some (hex_of upper b))) 256
    ltac:(destruct upper; by vm_compute) b Hb) as H.
  cbv beta in H. by apply bool_decide_eq_true in H.
Qed.

Lemma to_str_ok conv f str h n :
  (forall b, in_u 8 b -> conv b = Some (f b)) -> bytes_ok h -> n = zlen h ->
  2 * n + 1 <= zlen str ->
  (s ← to_str_loop conv (Z.to_nat n) 0 str h; zset s (n * 2) 0) =
    Some (spell f h ++ 0 :: drop (Z.to_nat (2 * n + 1)) str).
Proof.
  intros Hconv Hh -> Hs. pose proof (zlen_nonneg h). rewrite zlen_to_nat.
  pose proof (to_str_loop_ok conv f Hconv h [] [] str Hh eq_refl ltac:(lia)) as Hloop.
  cbn [app] in Hloop. change (zlen []) with 0 in Hloop. rewrite Hloop. ub_step. set (r := drop (2 * length h) str).
  assert (Hr : zlen r = zlen str - 2 * zlen h)
    by (unfold r, zlen in *; rewrite length_drop; lia).
  destruct r as [|c r0] eqn:Hrr; [rewrite zlen_nil in Hr; lia|].
  rewrite zset_at by (rewrite zlen_spell; lia). do 3 f_equal.
  replace (Z.to_nat (2 * zlen h + 1)) with (2 * length h + 1)%nat by (unfold zlen; lia).
  rewrite <- drop_drop. fold r. by rewrite Hrr.
Qed.

Lemma ascs2hex_loop_ok f : spells f -> forall h2 h1 rest tail,
  bytes_ok h2 -> zlen h2 <= zlen rest ->
  ascs2hex_loop (length h2) (zlen h1) (h1 ++ rest) (spell f h1 ++ spell f h2 ++ tail) =
    Some (h1 ++ h2 ++ drop (length h2) rest).
Proof.
  intros Hf h2. induction h2 as [|b h2 IH]; intros h1 rest tail Hb Hr; [done|].
  inversion Hb as [|? ? Hb1 Hb2]; subst. rewrite zlen_cons in Hr. pose proof (zlen_nonneg h2).
  destruct rest as [|r rest]; rewrite ?zlen_cons, ?zlen_nil in Hr; [lia|].
  cbn [length ascs2hex_loop]. rewrite spell_cons. cbn [app].
  rewrite (zget_at _ _ _ (2 * zlen h1)) by (rewrite zlen_spell; lia). ub_step.
  rewrite (snoc_cons (spell f h1)), zget_at by (rewrite zlen_snoc, zlen_spell; lia). ub_step.
  rewrite zset_length. ub_step. rewrite (proj1 (Hf b Hb1)).
  assert (Hsp : spell f (h1 ++ [b]) = (spell f h1 ++ [fst (f b)]) ++ [snd (f b)]).
  { unfold spell. rewrite map_app, concat_app. simpl. by rewrite <- app_assoc. }
  rewrite (snoc_cons (_ ++ [_])), <- Hsp, (snoc_cons h1 b rest), <- (zlen_snoc h1 b).
  rewrite IH by (done || lia). by rewrite <- app_assoc.
Qed.

Lemma ascs2hex_ok f hex h tail odd :
  spells f -> bytes_ok h -> zlen h <= zlen hex -> odd = 0 \/ odd = 1 ->
  ascs2hex hex (spell f h ++ tail) (2 * zlen h + odd) = Some (h ++ drop (length h) hex).
Proof.
  intros Hf Hh Hl Hodd. pose proof (zlen_nonneg h). unfold ascs2hex.
  assert (Hrem : Z.rem (2 * zlen h + odd) 2 = odd).
  { replace (2 * zlen h + odd) with (odd + zlen h * 2) by lia.
    rewrite Z.rem_mod_nonneg, Z_mod_plus_full by lia. apply Z.mod_small. lia. }
  rewrite Hrem.
  assert (Hlen : (if bool_decide (odd <> 0) then 2 * zlen h + odd - odd else 2 * zlen h + odd) =
    2 * zlen h) by (case_bool_decide; lia).
  rewrite Hlen. clear Hlen Hrem. case_bool_decide as H0.
  - destruct h as [|b h]; [done|]. rewrite zlen_cons in *. pose proof (zlen_nonneg h). lia.
  - replace (Z.to_nat (2 * zlen h / 2)) with (length h)
      by (rewrite Z.mul_comm, Z.div_mul by lia; unfold zlen; lia).
    apply (ascs2hex_loop_ok f Hf h [] hex tail); done.
Qed.

Lemma no_nul_spell f h : spells f -> bytes_ok h -> no_nul (spell f h).
Proof.
  intros Hf. induction 1 as [|b h Hb Hh IH]; [constructor|]. rewrite spell_cons.
  repeat constructor; [apply (Hf b Hb)..|done].
Qed.

(** Writing bytes as hexadecimal digits and reading them back: [hex2str] and [byte2str]
    (either case) write two digits per byte and the terminator and nothing after it, and
    [ascs2hex] of that string gives the bytes again, also with a length that is one too
    large; the rest of its output array is unchanged. *)
Theorem hex_roundtrip h str out upper odd :
  bytes_ok h -> 2 * zlen h + 1 <= zlen str -> zlen h <= zlen out -> odd = 0 \/ odd = 1 ->
  exists s1 s2,
    hex2str str h (zlen h) = Some s1 /\ byte2str str h (zlen h) upper = Some s2 /\
    zlen (c_string s1) = 2 * zlen h /\ zlen (c_string s2) = 2 * zlen h /\
    (upper = true -> s1 = s2) /\
    drop (Z.to_nat (2 * zlen h + 1)) s1 = drop (Z.to_nat (2 * zlen h + 1)) str /\
    ascs2hex out s1 (2 * zlen h + odd) = Some (h ++ drop (length h) out) /\
    ascs2hex out s2 (2 * zlen h + odd) = Some (h ++ drop (length h) out).
Proof.
  intros Hh Hs Ho Hodd. pose proof (zlen_nonneg h).
  exists (spell upper_hex h ++ 0 :: drop (Z.to_nat (2 * zlen h + 1)) str),
         (spell (hex_of upper) h ++ 0 :: drop (Z.to_nat (2 * zlen h + 1)) str).
  split; [by apply to_str_ok|]. split; [by apply to_str_ok; [apply byte2str_byte_ok|..]|].
  rewrite !c_string_nul by (apply no_nul_spell; [apply (hex_of_spells true) || apply hex_of_spells|done]).
  rewrite !zlen_spell. split; [done|]. split; [done|]. split; [by intros ->|]. split.
  - rewrite snoc_cons, drop_app_length'; [done|].
    apply Nat2Z.inj. rewrite Z2Nat.id by lia. fold (zlen (spell upper_hex h ++ [0])).
    rewrite zlen_snoc, zlen_spell. lia.
  - split; apply ascs2hex_ok; try done; [apply (hex_of_spells true)|apply hex_of_spells].
Qed.

Lemma hex_roundtrip_witness :
  exists s, hex2str (replicate 8 7) [0; 171; 255] 3 = Some s /\
    c_string s = c_str "00ABFF" /\ ascs2hex [1; 2; 3; 4] s 6 = Some [0; 171; 255; 4].
Proof.
  destruct (hex_roundtrip [0; 171; 255] (replicate 8 7) [1; 2; 3; 4] true 0)
    as (s1 & s2 & H1 & _ & _ & _ & _ & _ & H2 & _).
  - repeat constructor; by vm_compute.
  - by vm_compute.
  - by vm_compute.
  - by left.
  - exists s1. split; [exact H1|]. split; [|exact H2].
    vm_compute in H1. injection H1 as <-. by vm_compute.
Defined.

(** ** Numbers *)

(** The value of decimal digits, the most significant first. *)
Definition decimal (v : Z) (ds : bytes) : Z := foldl (fun v d => v * 10 + d) v ds.

Lemma wrap_mul_add w v d : wrap w (wrap w v * 10 + d) = wrap w (v * 10 + d).
Proof.
  unfold wrap. rewrite <- (Zplus_mod_idemp_l (v `mod` 2 ^ w * 10)), Zmult_mod_idemp_l.
  apply Zplus_mod_idemp_l.
Qed.

Lemma decimal_wrap v ds : u32 (decimal (u32 v) ds) = u32 (decimal v ds).
Proof.
  revert v. induction ds as [|d ds IH]; intros v; [by apply wrap_wrap|]. simpl.
  rewrite <- (IH (u32 v * 10 + d)), wrap_mul_add. apply IH.
Qed.

Lemma str2num_loop_ok ds : forall l r v,
  Forall (fun d => 0 <= d < 10) ds ->
  str2num_loop (length ds) (zlen l) (u32 v) (l ++ ((fun d => 48 + d) <$> ds) ++ r) =
    Some (Some (u32 (decimal v ds))).
Proof.
  induction ds as [|d ds IH]; intros l r v Hd; [done|]. inversion Hd; subst.
  cbn [length str2num_loop fmap list_fmap app]. rewrite zget_length. ub_step.
  rewrite !bool_decide_true by lia. cbn [andb].
  replace (u32 v * 10 + (48 + d - 48)) with (u32 v * 10 + d) by lia.
  rewrite wrap_mul_add, snoc_cons, <- (zlen_snoc l (48 + d)). by apply IH.
Qed.

Lemma str2num_loop_bad ds : forall l c r v,
  Forall (fun d => 0 <= d < 10) ds -> c < 48 \/ 57 < c ->
  forall n, str2num_loop (length ds + S n) (zlen l) v
    (l ++ ((fun d => 48 + d) <$> ds) ++ c :: r) = Some None.
Proof.
  induction ds as [|d ds IH]; intros l c r v Hd Hc n.
  - cbn [length Nat.add str2num_loop fmap list_fmap app]. rewrite zget_length. ub_step.
    destruct (bool_decide (c >= 48)) eqn:H1; [|done].
    apply bool_decide_eq_true in H1. by rewrite bool_decide_false by lia.
  - inversion Hd; subst. cbn [length Nat.add str2num_loop fmap list_fmap app].
    rewrite zget_length. ub_step. rewrite !bool_decide_true by lia. cbn [andb].
    rewrite snoc_cons, <- (zlen_snoc l (48 + d)). by apply IH.
Qed.

(** [tuya_str2num] of decimal digits is their value modulo 2^32, whatever follows them;
    a character that is no digit makes it fail and leaves the number as it was. *)
Theorem str2num_decimal number ds c r n :
  Forall (fun d => 0 <= d < 10) ds -> c < 48 \/ 57 < c -> zlen ds < n ->
  let str := (fun d => 48 + d) <$> ds in
  tuya_str2num number (str ++ c :: r) (zlen ds) = Some (true, u32 (decimal 0 ds)) /\
  tuya_str2num number (str ++ c :: r) n = Some (false, number).
Proof.
  intros Hd Hc Hn str. subst str. pose proof (zlen_nonneg ds). unfold tuya_str2num. split.
  - rewrite zlen_to_nat. pose proof (str2num_loop_ok ds [] (c :: r) 0 Hd) as H0.
    cbn [app] in H0. change (zlen []) with 0 in H0. change (u32 0) with 0 in H0.
    by rewrite H0.
  - pose proof (str2num_loop_bad ds [] c r 0 Hd Hc (Z.to_nat n - S (length ds))%nat) as H0.
    replace (length ds + S _)%nat with (Z.to_nat n) in H0 by (unfold zlen in *; lia).
    cbn [app] in H0. change (zlen []) with 0 in H0. by rewrite H0.
Qed.

Lemma str2num_decimal_witness :
  tuya_str2num 5 (c_str "4294967299.") 10 = Some (true, 3) /\
  tuya_str2num 5 (c_str "4294967299.") 11 = Some (false, 5).
Proof.
  apply (str2num_decimal 5 [4; 2; 9; 4; 9; 6; 7; 2; 9; 9] 46 [] 11);
    [repeat constructor; lia|by left|by vm_compute].
Defined.

(** ** Reversal *)

Lemma zget_reverse {A} (l : list A) i :
  0 <= i < zlen l -> zget (reverse l) i = zget l (zlen l - 1 - i).
Proof.
  intros Hi. unfold zget, zlen in *. rewrite !bool_decide_true by lia.
  rewrite reverse_lookup by lia. f_equal. lia.
Qed.

Lemma zlen_reverse {A} (l : list A) : zlen (reverse l) = zlen l.
Proof. unfold zlen. by rewrite length_reverse. Qed.

Lemma buff_reverse_loop_ok n : forall i len buf,
  0 <= i -> i + Z.of_nat n = len / 2 -> len <= zlen buf ->
  exists buf', buff_reverse_loop n i len buf = Some buf' /\ zlen buf' = zlen buf /\
    forall j, 0 <= j < zlen buf ->
      zget buf' j = zget buf (if bool_decide (i <= j <= len - 1 - i) then len - 1 - j else j).
Proof.
  induction n as [|n IH]; intros i len buf Hi Hn Hl.
  - exists buf. split; [done|]. split; [done|]. intros j Hj. f_equal.
    case_bool_decide; [|done]. pose proof (Z.div_mod len 2). pose proof (Z.mod_pos_bound len 2). lia.
  - cbn [buff_reverse_loop]. pose proof (Z.div_mod len 2). pose proof (Z.mod_pos_bound len 2).
    destruct (zget_is_Some buf i) as [x Hx]; [lia|]. rewrite Hx. ub_step.
    destruct (zget_is_Some buf (len - 1 - i)) as [y Hy]; [lia|]. rewrite Hy. ub_step.
    destruct (zset_is_Some buf i y) as [b1 Hb1]; [lia|]. rewrite Hb1. ub_step.
    apply zset_inv in Hb1 as (_ & Hl1 & Hg1 & Ho1).
    destruct (zset_is_Some b1 (len - 1 - i) x) as [b2 Hb2]; [lia|]. rewrite Hb2. ub_step.
    apply zset_inv in Hb2 as (_ & Hl2 & Hg2 & Ho2).
    destruct (IH (i + 1) len b2) as (b3 & -> & Hl3 & Hg3); [lia..|].
    exists b3. split; [done|]. split; [lia|]. intros j Hj. rewrite Hg3 by lia.
    destruct (decide (i <= j <= len - 1 - i)) as [Hin|Hout].
    + rewrite (bool_decide_true (i <= j <= _)) by done.
      destruct (decide (j = i)) as [->|]; [|destruct (decide (j = len - 1 - i)) as [->|]].
      * rewrite bool_decide_false, Ho2, Hg1 by lia. done.
      * rewrite bool_decide_false, Hg2 by lia. by replace (len - 1 - (len - 1 - i)) with i by lia.
      * rewrite bool_decide_true, Ho2, Ho1 by lia. done.
    + rewrite !bool_decide_false by lia. by rewrite Ho2, Ho1 by lia.
Qed.

Lemma buff_reverse_ok ds r :
  tuya_buff_reverse (ds ++ r) (zlen ds) = Some (reverse ds ++ r).
Proof.
  unfold tuya_buff_reverse. pose proof (zlen_nonneg ds). pose proof (zlen_nonneg r).
  pose proof (Z.div_pos (zlen ds) 2).
  destruct (buff_reverse_loop_ok (Z.to_nat (zlen ds / 2)) 0 (zlen ds) (ds ++ r))
    as (b & -> & Hl & Hg); [done|lia|rewrite zlen_app; lia|].
  f_equal. apply zlist_eq; [rewrite Hl, !zlen_app, zlen_reverse; done|].
  intros i Hi. rewrite Hg by lia. rewrite zlen_app in Hl.
  destruct (decide (i < zlen ds)).
  - rewrite bool_decide_true by lia. rewrite !zget_app_l by (rewrite ?zlen_reverse; lia).
    symmetry. apply zget_reverse. lia.
  - rewrite bool_decide_false by lia. by rewrite !zget_app_r, zlen_reverse by (rewrite ?zlen_reverse; lia).
Qed.

Lemma data_reverse_loop_ok src2 : forall l d src1,
  zlen src2 <= zlen d ->
  data_reverse_loop (length src2) (zlen l) (zlen src2) (l ++ d) (src2 ++ src1) =
    Some (l ++ reverse src2 ++ drop (length src2) d).
Proof.
  induction src2 as [|x src2 IH] using rev_ind; intros l d src1 Hd; [done|].
  rewrite length_app, Nat.add_1_r. cbn [data_reverse_loop].
  rewrite zlen_snoc in *. pose proof (zlen_nonneg src2).
  destruct d as [|y d]; [rewrite zlen_nil in Hd; lia|].
  rewrite <- app_assoc. cbn [app]. replace (zlen src2 + 1 - 1) with (zlen src2) by lia.
  rewrite zget_length. ub_step. rewrite zset_length. ub_step.
  rewrite snoc_cons, <- (zlen_snoc l x). rewrite zlen_cons in Hd.
  rewrite (IH _ d) by lia. rewrite reverse_app, <- !app_assoc. done.
Qed.

(** [tuya_buff_reverse] reverses the first [len] bytes in place and [tuya_data_reverse]
    copies them reversed; the bytes after them stay. *)
Theorem reverse_ok ds r dst :
  zlen ds <= zlen dst ->
  tuya_buff_reverse (ds ++ r) (zlen ds) = Some (reverse ds ++ r) /\
  tuya_data_reverse dst (ds ++ r) (zlen ds) = Some (reverse ds ++ drop (length ds) dst).
Proof.
  intros Hd. split; [apply buff_reverse_ok|]. unfold tuya_data_reverse. rewrite zlen_to_nat.
  by apply (data_reverse_loop_ok ds [] dst r).
Qed.

Lemma reverse_ok_witness :
  tuya_buff_reverse [1; 2; 3; 4] 3 = Some [3; 2; 1; 4] /\
  tuya_data_reverse [7; 7; 7; 7] [1; 2; 3; 4] 3 = Some [3; 2; 1; 7].
Proof. apply (reverse_ok [1; 2; 3] [4] [7; 7; 7; 7]). by vm_compute. Defined.

(** ** Numbers as arrays of digits *)

(** The decimal digits of [num], the least significant first. *)
Fixpoint digits_le (fuel : nat) (num : Z) : bytes :=
  match fuel with
  | O => []
  | S fuel => if bool_decide (num <> 0) then num `mod` 10 :: digits_le fuel (num / 10) else []
  end.

Lemma decimal_snoc v ds d : decimal v (ds ++ [d]) = decimal v ds * 10 + d.
Proof. unfold decimal. by rewrite foldl_app. Qed.

Lemma digits_value fuel : forall num,
  0 <= num < 10 ^ Z.of_nat fuel -> decimal 0 (reverse (digits_le fuel num)) = num.
Proof.
  induction fuel as [|fuel IH]; intros num Hn; cbn [digits_le].
  - change (10 ^ Z.of_nat 0) with 1 in Hn. change (0 = num). lia.
  - rewrite Nat2Z.inj_succ, Z.pow_succ_r in Hn by lia. case_bool_decide; [|change (0 = num); lia].
    rewrite reverse_cons, decimal_snoc, IH.
    + pose proof (Z.div_mod num 10). lia.
    + split; [apply Z.div_pos; lia|apply Z.div_lt_upper_bound; lia].
Qed.

Lemma digits_range fuel : forall num,
  0 <= num -> Forall (fun d => 0 <= d < 10) (digits_le fuel num).
Proof.
  induction fuel as [|fuel IH]; intros num Hn; cbn [digits_le]; [constructor|].
  case_bool_decide; [|constructor]. constructor; [apply Z.mod_pos_bound; lia|].
  apply IH, Z.div_pos; lia.
Qed.

Lemma digits_length fuel num : zlen (digits_le fuel num) <= Z.of_nat fuel.
Proof.
  revert num. induction fuel as [|fuel IH]; intros num; cbn [digits_le]; [by vm_compute|].
  case_bool_decide; [rewrite zlen_cons; specialize (IH (num / 10)); lia|rewrite zlen_nil; lia].
Qed.

Lemma count_digits_ok fuel : forall num i,
  0 < num < 10 ^ Z.of_nat fuel -> 0 <= i -> i + Z.of_nat fuel < 256 ->
  count_digits fuel num i = Some (i + zlen (digits_le fuel num)).
Proof.
  induction fuel as [|fuel IH]; intros num i Hn Hi Hb; cbn [count_digits digits_le].
  - change (10 ^ Z.of_nat 0) with 1 in Hn. lia.
  - rewrite Nat2Z.inj_succ, Z.pow_succ_r in Hn by lia. rewrite (bool_decide_true (num <> 0)) by lia.
    rewrite wrap_small by (unfold in_u; lia). rewrite zlen_cons.
    assert (Hd : 0 <= num / 10 < 10 ^ Z.of_nat fuel).
    { split; [apply Z.div_pos; lia|apply Z.div_lt_upper_bound; lia]. }
    case_bool_decide as H0.
    + rewrite IH by lia. f_equal. lia.
    + replace (num / 10) with 0 by lia. destruct fuel; cbn [digits_le];
        change (zlen []) with 0; f_equal; lia.
Qed.

Lemma put_digits_ok fuel : forall num l rest,
  0 <= num < 10 ^ Z.of_nat fuel -> zlen l + Z.of_nat fuel < 256 ->
  zlen (digits_le fuel num) <= zlen rest ->
  put_digits fuel num (zlen l) (l ++ rest) =
    Some (zlen l + zlen (digits_le fuel num),
          l ++ digits_le fuel num ++ drop (length (digits_le fuel num)) rest).
Proof.
  induction fuel as [|fuel IH]; intros num l rest Hn Hb Hr; cbn [put_digits digits_le] in *.
  - change (10 ^ Z.of_nat 0) with 1 in Hn. rewrite bool_decide_false by lia.
    change (zlen []) with 0. by rewrite Z.add_0_r.
  - rewrite Nat2Z.inj_succ, Z.pow_succ_r in Hn by lia. pose proof (zlen_nonneg l).
    destruct (decide (num = 0)) as [->|Hne].
    { rewrite !bool_decide_false by lia. change (zlen []) with 0. by rewrite Z.add_0_r. }
    rewrite !bool_decide_true in * by lia. rewrite zlen_cons in Hr.
    pose proof (zlen_nonneg (digits_le fuel (num / 10))).
    destruct rest as [|x rest]; [rewrite zlen_nil in Hr; lia|]. rewrite zlen_cons in Hr.
    rewrite zset_length. ub_step. rewrite wrap_small by (unfold in_u; lia).
    rewrite snoc_cons, <- (zlen_snoc l (num `mod` 10)), IH.
    + rewrite zlen_cons, zlen_snoc, <- app_assoc. cbn [app length drop]. do 2 f_equal. lia.
    + split; [apply Z.div_pos; lia|apply Z.div_lt_upper_bound; lia].
    + rewrite zlen_snoc. lia.
    + lia.
Qed.

Lemma intArray2int_loop_ok ds : forall fuel l r num,
  (length ds <= fuel)%nat -> zlen l + zlen ds < 256 ->
  intArray2int_loop fuel (zlen l) (zlen l + zlen ds) (u32 num) (l ++ ds ++ r) =
    Some (Some (u32 (decimal num ds))).
Proof.
  induction ds as [|d ds IH]; intros fuel l r num Hf Hb.
  - destruct fuel; cbn [intArray2int_loop];
      by rewrite bool_decide_false by (rewrite zlen_nil; lia).
  - destruct fuel as [|fuel]; [simpl in Hf; lia|]. rewrite zlen_cons in *.
    pose proof (zlen_nonneg l). pose proof (zlen_nonneg ds). cbn [intArray2int_loop].
    rewrite bool_decide_true by lia. cbn [app]. rewrite zget_length. ub_step.
    rewrite (wrap_small 8) by (unfold in_u; lia).
    rewrite (snoc_cons l), <- (zlen_snoc l d).
    replace (zlen l + (1 + zlen ds)) with (zlen (l ++ [d]) + zlen ds) by (rewrite zlen_snoc; lia).
    rewrite wrap_add_l, wrap_mul_add.
    apply IH; [simpl in Hf; lia|rewrite zlen_snoc; lia].
Qed.

Lemma digits_fit n : forall fuel num,
  0 <= num < 10 ^ Z.of_nat fuel ->
  zlen (digits_le fuel num) <= Z.of_nat n <-> num < 10 ^ Z.of_nat n.
Proof.
  induction n as [|n IH]; intros fuel num Hn.
  - change (10 ^ Z.of_nat 0) with 1. destruct fuel as [|fuel]; cbn [digits_le].
    + change (10 ^ Z.of_nat 0) with 1 in Hn. change (zlen []) with 0. lia.
    + case_bool_decide; [|change (zlen []) with 0; lia]. rewrite zlen_cons.
      pose proof (zlen_nonneg (digits_le fuel (num / 10))). lia.
  - rewrite (Nat2Z.inj_succ n), Z.pow_succ_r by lia. destruct fuel as [|fuel]; cbn [digits_le].
    + change (10 ^ Z.of_nat 0) with 1 in Hn. change (zlen []) with 0. lia.
    + rewrite Nat2Z.inj_succ, Z.pow_succ_r in Hn by lia.
      case_bool_decide; [|change (zlen []) with 0; lia]. rewrite zlen_cons.
      assert (Hd : 0 <= num / 10 < 10 ^ Z.of_nat fuel).
      { split; [apply Z.div_pos; lia|apply Z.div_lt_upper_bound; lia]. }
      pose proof (Z.div_mod num 10). pose proof (Z.mod_pos_bound num 10). split; intros Hle.
      * assert (num / 10 < 10 ^ Z.of_nat n) by (apply (IH fuel); [done|lia]). lia.
      * assert (zlen (digits_le fuel (num / 10)) <= Z.of_nat n); [|lia].
        apply IH; [done|]. apply Z.div_lt_upper_bound; lia.
Qed.

(** [tuya_int2intArray] writes the decimal digits of a positive number at the start of
    the array and returns how many there are, 0 when they do not fit; [tuya_intArray2int] from
    index 0 reads the number back, whatever the fuel above 10. The number 0 has no digits: 0 is
    returned as for an array that is too small, and reading it back gives the error value. *)
Theorem int_array_roundtrip num arr len fuel :
  0 < num < 2 ^ 32 -> 1 <= len <= 255 -> len <= zlen arr -> (10 <= fuel)%nat ->
  (10 ^ len <= num -> tuya_int2intArray num arr len = Some (0, arr)) /\
  (num < 10 ^ len ->
   exists ds, Forall (fun d => 0 <= d < 10) ds /\ decimal 0 ds = num /\ 1 <= zlen ds <= len /\
     tuya_int2intArray num arr len = Some (zlen ds, ds ++ drop (length ds) arr) /\
     tuya_intArray2int fuel (ds ++ drop (length ds) arr) 0 (zlen ds) = Some (Some num)) /\
  tuya_int2intArray 0 arr len = Some (0, arr) /\
  tuya_intArray2int fuel arr 0 0 = Some (Some 0xFFFFFFFF).
Proof.
  intros Hnum Hlen Harr Hfuel.
  assert (H10 : 0 < num < 10 ^ Z.of_nat 10) by (change (10 ^ Z.of_nat 10) with 10000000000; lia).
  pose proof (digits_fit (Z.to_nat len) 10 num ltac:(lia)) as Hfit.
  rewrite Z2Nat.id in Hfit by lia.
  pose proof (digits_length 10 num) as Hl10. pose proof (zlen_nonneg (digits_le 10 num)).
  assert (Hpos : 1 <= zlen (digits_le 10 num)).
  { cbn [digits_le]. rewrite bool_decide_true by lia. rewrite zlen_cons.
    apply (Z.add_le_mono_l 0 _ 1), zlen_nonneg. }
  split; [|split; [|split]].
  - intros Hbig. unfold tuya_int2intArray. rewrite count_digits_ok by lia. ub_step.
    by rewrite bool_decide_true by lia.
  - intros Hsmall. exists (reverse (digits_le 10 num)). rewrite zlen_reverse.
    split; [apply Forall_reverse, digits_range; lia|]. split; [apply digits_value; lia|].
    split; [lia|]. rewrite length_reverse. split.
    + unfold tuya_int2intArray. rewrite count_digits_ok by lia. ub_step.
      rewrite bool_decide_false by lia.
      pose proof (put_digits_ok 10 num [] arr) as Hp. change (zlen []) with 0 in Hp.
      cbn [app] in Hp. rewrite Hp by lia. ub_step. cbn [fst snd].
      by rewrite Z.add_0_l, buff_reverse_ok.
    + unfold tuya_intArray2int. rewrite bool_decide_false by lia.
      rewrite (wrap_small 32) by (unfold in_u; lia). change (u8 0) with (zlen (@nil Z)).
      change 0 with (u32 0) at 2. rewrite <- (zlen_reverse (digits_le 10 num)).
      change 0 with (zlen (@nil Z)) at 1.
      pose proof (intArray2int_loop_ok (reverse (digits_le 10 num)) fuel []
        (drop (length (digits_le 10 num)) arr) 0) as Hi.
      cbn [app] in Hi. rewrite Hi.
      * rewrite digits_value by lia. by rewrite wrap_small by (unfold in_u; lia).
      * rewrite length_reverse. unfold zlen in Hl10. lia.
      * change (zlen []) with 0. rewrite zlen_reverse. lia.
  - unfold tuya_int2intArray. change (count_digits 10 0 0) with (Some 1). ub_step.
    rewrite bool_decide_false by lia. cbn [put_digits]. rewrite bool_decide_false by lia.
    done.
  - done.
Qed.

Lemma int_array_roundtrip_witness :
  tuya_int2intArray 1205 [9; 9; 9; 9; 9; 9] 5 = Some (4, [1; 2; 0; 5; 9; 9]) /\
  tuya_int2intArray 1205 [9; 9; 9; 9; 9; 9] 3 = Some (0, [9; 9; 9; 9; 9; 9]).
Proof.
  destruct (int_array_roundtrip 1205 [9; 9; 9; 9; 9; 9] 5 10) as (_ & H & _);
    [lia|lia|by vm_compute|lia|].
  destruct (int_array_roundtrip 1205 [9; 9; 9; 9; 9; 9] 3 10) as (H' & _);
    [lia|lia|by vm_compute|lia|].
  split.
  - destruct H as (ds & _ & _ & _ & H & _); [by vm_compute|].
    vm_compute in H |- *. reflexivity.
  - apply H'. by vm_compute.
Defined.

(** [tuya_intArray2int] with a start index reads [len] digits from there, so [index]
    digits after an array of [len]: undefined for an array of that size, and when
    [index + len] reaches 256 its 8-bit counter never does: it runs for ever. *)
Theorem int_array_index fuel arr index len :
  0 < index < len -> len <= 255 -> (255 < fuel)%nat ->
  (zlen arr = len -> index + len < 256 -> tuya_intArray2int fuel arr index len = None) /\
  (zlen arr = 256 -> 256 <= index + len ->
   tuya_intArray2int fuel arr index len = Some None).
Proof.
  intros Hi Hl Hf. unfold tuya_intArray2int. rewrite bool_decide_false by lia.
  rewrite (wrap_small 32), (wrap_small 8) by (unfold in_u; lia). split.
  - intros Ha Hsum. set (bound := index + len).
    assert (Hgo : forall n i num, index <= i <= len -> len - i < Z.of_nat n ->
      intArray2int_loop n i bound num arr = None).
    { induction n as [|n IH]; intros i num Hi' Hn; [lia|]. cbn [intArray2int_loop].
      rewrite bool_decide_true by (unfold bound; lia). destruct (decide (i = len)) as [->|Hne].
      - by rewrite zget_None by lia.
      - destruct (zget_is_Some arr i) as [d ->]; [lia|]. ub_step.
        rewrite wrap_small by (unfold in_u; lia). apply IH; lia. }
    apply Hgo; lia.
  - intros Ha Hsum.
    assert (Hgo : forall n i num, in_u 8 i ->
      intArray2int_loop n i (index + len) num arr = Some None).
    { induction n as [|n IH]; intros i num Hi'; cbn [intArray2int_loop]; unfold in_u in Hi';
        rewrite bool_decide_true by lia; [done|].
      destruct (zget_is_Some arr i) as [d ->]; [lia|]. ub_step. apply IH, wrap_range. lia. }
    apply Hgo. unfold in_u. lia.
Qed.

Lemma int_array_index_witness :
  tuya_intArray2int 300 [1; 2; 3; 4] 1 4 = None /\
  tuya_intArray2int 300 (replicate 256 1) 100 200 = Some None.
Proof.
  destruct (int_array_index 300 [1; 2; 3; 4] 1 4) as [H _]; [lia|lia|lia|].
  destruct (int_array_index 300 (replicate 256 1) 100 200) as [_ H']; [lia|lia|lia|].
  split; [apply H; [by vm_compute|lia]|apply H'; [by vm_compute|lia]].
Defined.

(** ** Searching and sorting *)

Lemma c_string_prefix a : forall i, 0 <= i < zlen (c_string a) -> zget a i = zget (c_string a) i.
Proof.
  induction a as [|b a IH]; intros i Hi; [done|]. cbn [c_string] in *.
  case_bool_decide; [by change (zlen []) with 0 in Hi; lia|]. rewrite zlen_cons in Hi.
  destruct (decide (i = 0)) as [->|Hne]; [done|]. rewrite !zget_cons_pos by lia. apply IH. lia.
Qed.

Lemma revr_find_loop_ok str ch n :
  (forall i, 0 <= i < Z.of_nat n -> is_Some (zget str i)) ->
  exists p, revr_find_loop n str ch = Some p /\
    ((0 <= p < Z.of_nat n /\ zget str p = Some ch /\
      forall j, p < j < Z.of_nat n -> zget str j <> Some ch) \/
     (p = -2 /\ forall j, 0 <= j < Z.of_nat n -> zget str j <> Some ch)).
Proof.
  induction n as [|n IH]; intros Hs; cbn [revr_find_loop].
  - exists (-2). split; [done|]. right. split; [done|lia].
  - destruct (Hs (Z.of_nat n)) as [c Hc]; [lia|]. rewrite Hc. ub_step. case_bool_decide as Heq.
    + exists (Z.of_nat n). split; [done|]. left. rewrite Hc, Heq. split; [lia|]. split; [done|lia].
    + destruct IH as (p & -> & Hp); [intros; apply Hs; lia|]. exists p. split; [done|].
      destruct Hp as [(Hp & Hg & Hno)|[-> Hno]]; [left|right].
      * split; [lia|]. split; [done|]. intros j Hj.
        destruct (decide (j = Z.of_nat n)) as [->|]; [congruence|apply Hno; lia].
      * split; [done|]. intros j Hj.
        destruct (decide (j = Z.of_nat n)) as [->|]; [congruence|apply Hno; lia].
Qed.

(** [str_revr_find_ch] finds the last occurrence of a character that is at least
    [revr_index] places before the end of the string; it gives -1 for an index that is not
    in the string (or no string) and -2 when the character is not there. *)
Theorem revr_find_ok a revr_index ch :
  0 <= revr_index ->
  let s := c_string a in
  let last := zlen s - revr_index in
  (zlen s <= revr_index -> str_revr_find_ch (Some a) revr_index ch = Some (-1)) /\
  (revr_index < zlen s -> exists p, str_revr_find_ch (Some a) revr_index ch = Some p /\
     ((0 <= p < last /\ zget s p = Some ch /\ forall j, p < j < last -> zget s j <> Some ch) \/
      (p = -2 /\ forall j, 0 <= j < last -> zget s j <> Some ch))).
Proof.
  intros Hr s last. unfold str_revr_find_ch. fold s. split; intros Hl.
  - by rewrite bool_decide_true by lia.
  - rewrite bool_decide_false by lia.
    assert (Hpre : forall j, 0 <= j < last -> zget a j = zget s j).
    { intros j Hj. apply c_string_prefix. unfold last in Hj. fold s. lia. }
    destruct (revr_find_loop_ok a ch (Z.to_nat last)) as (p & Hp & Hcase).
    { intros i Hi. rewrite Hpre by lia. apply zget_is_Some. unfold last in Hi. lia. }
    exists p. split; [done|]. rewrite Z2Nat.id in Hcase by (unfold last; lia).
    destruct Hcase as [(Hp1 & Hg & Hno)|[-> Hno]]; [left|right].
    + rewrite <- Hpre by lia. split; [lia|]. split; [done|]. intros j Hj.
      rewrite <- Hpre by lia. apply Hno. lia.
    + split; [done|]. intros j Hj. rewrite <- Hpre by lia. by apply Hno.
Qed.

Lemma revr_find_ok_witness :
  exists p, str_revr_find_ch (Some (c_str "a.b.c" ++ [0])) 2 46 = Some p /\ p = 1.
Proof.
  destruct (revr_find_ok (c_str "a.b.c" ++ [0]) 2 46) as [_ H]; [lia|].
  destruct H as (p & Hp & _); [by vm_compute|]. exists p. split; [exact Hp|].
  vm_compute in Hp. congruence.
Defined.

(** [byte_sort] and [tuya_byte_sort] leave a rearrangement of the bytes in ascending or
    descending order. *)
Theorem byte_sort_ok is_ascend buf :
  exists buf', byte_sort is_ascend buf (zlen buf) = Some buf' /\
    tuya_byte_sort is_ascend buf (zlen buf) = Some buf' /\ buf' ≡ₚ buf /\
    StronglySorted (if is_ascend then Z.le else Z.ge) buf'.
Proof.
  destruct (bubble_sort_sorted (byte_gt is_ascend) (if is_ascend then Z.le else Z.ge)
    (fun _ => True)) with (l := buf) as (b & Hb & Hp & Hs).
  - intros x y z _ _ _. destruct is_ascend; lia.
  - intros x y _ _. unfold byte_gt. destruct is_ascend; intros H%bool_decide_eq_true; lia.
  - intros x y _ _. unfold byte_gt. destruct is_ascend; intros H%bool_decide_eq_false; lia.
  - by apply Forall_forall.
  - exists b. done.
Qed.

(** ** Bits and sums *)

(** The number of bits that are 1. *)
Fixpoint pos_ones (p : positive) : Z :=
  match p with xH => 1 | xO p => pos_ones p | xI p => 1 + pos_ones p end.
Definition ones (z : Z) : Z := match z with Zpos p => pos_ones p | _ => 0 end.

Lemma ones_double z : 0 <= z -> ones (2 * z) = ones z.
Proof. by destruct z. Qed.

Lemma ones_double1 z : 0 <= z -> ones (2 * z + 1) = 1 + ones z.
Proof. by destruct z. Qed.

(** [n & (n - 1)] has one bit less. *)
Lemma ones_clear p : ones (Z.land (Zpos p) (Zpos p - 1)) = pos_ones p - 1 /\
  0 <= Z.land (Zpos p) (Zpos p - 1) < Zpos p.
Proof.
  induction p as [p IH|p IH|]; [| |by vm_compute].
  - replace (Z.land (Z.pos p~1) (Z.pos p~1 - 1)) with (2 * Zpos p).
    + cbn [pos_ones]. rewrite ones_double by lia. split; [|lia].
      replace (1 + pos_ones p - 1) with (pos_ones p) by lia. done.
    + replace (Z.pos p~1 - 1) with (2 * Zpos p) by lia.
      change (Z.pos p~1) with (2 * Zpos p + 1).
      apply Z.bits_inj'. intros [|n|n] Hn; try lia.
      * by rewrite Z.land_spec, !Z.testbit_even_0, andb_false_r.
      * replace (Zpos n) with (Z.succ (Zpos n - 1)) by lia.
        rewrite Z.land_spec, !Z.testbit_even_succ, Z.testbit_odd_succ by lia.
        symmetry. apply andb_diag.
  - destruct IH as [IH1 IH2]. set (x := Z.land (Zpos p) (Zpos p - 1)) in *.
    replace (Z.land (Z.pos p~0) (Z.pos p~0 - 1)) with (2 * x).
    + cbn [pos_ones]. rewrite ones_double by lia. lia.
    + replace (Z.pos p~0 - 1) with (2 * (Zpos p - 1) + 1) by lia.
      change (Z.pos p~0) with (2 * Zpos p). unfold x.
      apply Z.bits_inj'. intros [|n|n] Hn; try lia.
      * rewrite Z.land_spec, !Z.testbit_even_0. done.
      * replace (Zpos n) with (Z.succ (Zpos n - 1)) by lia.
        rewrite Z.land_spec, !Z.testbit_even_succ, Z.testbit_odd_succ, Z.land_spec by lia. done.
Qed.

Lemma pos_ones_le p : 1 <= pos_ones p.
Proof. induction p; cbn [pos_ones]; lia. Qed.

Lemma bit1_loop_ok fuel : forall num count,
  0 <= num < 2 ^ 32 -> ones num <= Z.of_nat fuel -> 0 <= count ->
  count + ones num < 2 ^ 32 ->
  bit1_loop fuel num count = Some (count + ones num).
Proof.
  induction fuel as [|fuel IH]; intros num count Hn Hf Hc Hb; cbn [bit1_loop].
  - destruct num as [|p|p]; [|pose proof (pos_ones_le p); simpl in Hf; lia|lia].
    rewrite bool_decide_true by done. f_equal. simpl. lia.
  - destruct num as [|p|p]; [|cbn [ones] in *|lia].
    + rewrite bool_decide_true by done. f_equal. simpl. lia.
    + rewrite bool_decide_false by done. pose proof (pos_ones_le p).
      rewrite !(wrap_small 32) by (unfold in_u; lia).
      destruct (ones_clear p) as [H1 H2]. rewrite IH by lia. rewrite H1. f_equal. lia.
Qed.

Lemma pos_ones_bound p : forall n, 0 <= n -> Zpos p < 2 ^ n -> pos_ones p <= n.
Proof.
  induction p as [p IH|p IH|]; intros n Hn Hp; cbn [pos_ones].
  - assert (n <> 0) by (intros ->; change (2 ^ 0) with 1 in Hp; lia).
    replace n with (Z.succ (n - 1)) in Hp by lia. rewrite Z.pow_succ_r in Hp by lia.
    specialize (IH (n - 1)). lia.
  - assert (n <> 0) by (intros ->; change (2 ^ 0) with 1 in Hp; lia).
    replace n with (Z.succ (n - 1)) in Hp by lia. rewrite Z.pow_succ_r in Hp by lia.
    specialize (IH (n - 1)). lia.
  - assert (n <> 0) by (intros ->; change (2 ^ 0) with 1 in Hp; lia). lia.
Qed.

Lemma ones_bound num : in_u 32 num -> ones num <= 32.
Proof.
  unfold in_u. intros Hn. destruct num as [|p|p]; [by vm_compute| |lia].
  apply pos_ones_bound; lia.
Qed.

(** The mask that the loop tests is bit 31. *)
Lemma top_bit x : in_u 32 x -> bool_decide (Z.land x 0x80000000 <> 0) = Z.testbit x 31.
Proof.
  intros Hx. change 0x80000000 with (2 ^ 31).
  destruct (Z.testbit x 31) eqn:Hb.
  - apply bool_decide_true. intros H0.
    assert (Z.testbit (Z.land x (2 ^ 31)) 31 = false) by (rewrite H0; apply Z.bits_0).
    rewrite Z.land_spec, Hb, Z.pow2_bits_true in H by lia. done.
  - apply bool_decide_false. intros Hne. apply Hne. apply Z.bits_inj'. intros n Hn.
    rewrite Z.land_spec, Z.bits_0, Z.pow2_bits_eqb by lia.
    destruct (Z.eqb_spec 31 n) as [<-|]; [by rewrite Hb|apply andb_false_r].
Qed.

Lemma testbit_wrap w x i : 0 <= i < w -> Z.testbit (wrap w x) i = Z.testbit x i.
Proof. intros. unfold wrap. apply Z.mod_pow2_bits_low. lia. Qed.

Definition shifted (num : Z) (k : Z) : Z := u32 (Z.shiftl (Z.lnot num) k).

Lemma shifted_next num k : 0 <= k -> u32 (Z.shiftl (shifted num k) 1) = shifted num (k + 1).
Proof.
  intros Hk. unfold shifted, wrap. rewrite <- Z.shiftl_shiftl, !Z.shiftl_mul_pow2 by lia.
  apply Zmult_mod_idemp_l.
Qed.

Lemma shifted_top num k : 0 <= k <= 31 ->
  bool_decide (Z.land (shifted num k) 0x80000000 <> 0) = negb (Z.testbit num (31 - k)).
Proof.
  intros Hk. rewrite top_bit by (apply wrap_range; lia). unfold shifted.
  by rewrite testbit_wrap, Z.shiftl_spec, Z.lnot_spec by lia.
Qed.

Lemma leading_loop_ok n : forall k fuel,
  k + Z.of_nat n = 32 -> 0 <= k -> (n <= fuel)%nat -> forall num, in_u 32 num ->
  num < 2 ^ (32 - k) ->
  leading_loop fuel (shifted num k) k =
    Some (if bool_decide (num = 0) then 32 else 31 - Z.log2 num).
Proof.
  induction n as [|n IH]; intros k fuel Hk H0 Hf num Hnum Hlt.
  - replace k with 32 in * by lia. change (2 ^ (32 - 32)) with 1 in Hlt. unfold in_u in Hnum.
    replace num with 0 by lia. destruct fuel; by vm_compute.
  - destruct fuel as [|fuel]; [lia|]. cbn [leading_loop]. rewrite shifted_top by lia.
    destruct (Z.testbit num (31 - k)) eqn:Hb; cbn [negb].
    + assert (num <> 0) by (intros ->; by rewrite Z.bits_0 in Hb).
      rewrite bool_decide_false by done. f_equal. unfold in_u in Hnum.
      assert (Z.log2 num < 32 - k) by (apply Z.log2_lt_pow2; lia).
      assert (31 - k <= Z.log2 num); [|lia].
      destruct (Z.le_gt_cases (31 - k) (Z.log2 num)) as [|Hgt]; [done|].
      by rewrite Z.bits_above_log2 in Hb by lia.
    + rewrite shifted_next, (wrap_small 32) by (unfold in_u; lia).
      apply IH; [lia..|done|]. unfold in_u in Hnum. destruct (decide (num = 0)) as [->|].
      { apply Z.pow_pos_nonneg; lia. }
      apply Z.log2_lt_pow2; [lia|].
      assert (Z.log2 num < 32 - k) by (apply Z.log2_lt_pow2; lia).
      destruct (decide (Z.log2 num = 31 - k)) as [He|]; [|lia].
      rewrite <- He, Z.bit_log2 in Hb by lia. done.
Qed.

(** Both counting loops end within 32 rounds on every 32-bit number:
    [tuya_bit1_count] counts the bits that are 1 and [tuya_leading_zeros_count] the zeros
    above the highest of them, 32 for the number 0. *)
Theorem bit_counts num :
  in_u 32 num ->
  tuya_bit1_count num = Some (ones num) /\ 0 <= ones num <= 32 /\
  tuya_leading_zeros_count num =
    Some (if bool_decide (num = 0) then 32 else 31 - Z.log2 num).
Proof.
  intros Hnum. pose proof (ones_bound num Hnum) as Hb. split; [|split].
  - unfold tuya_bit1_count. by rewrite bit1_loop_ok by (unfold in_u in Hnum; lia).
  - split; [|done]. destruct num; simpl; [lia|pose proof (pos_ones_le p); lia|lia].
  - unfold tuya_leading_zeros_count.
    replace (u32 (Z.lnot num)) with (shifted num 0) by (unfold shifted; by rewrite Z.shiftl_0_r).
    apply (leading_loop_ok 32); [lia..|done|]. unfold in_u in Hnum. lia.
Qed.

Lemma bit_counts_witness :
  tuya_bit1_count 0x00F01000 = Some 5 /\ 0 <= ones 0x00F01000 <= 32 /\
  tuya_leading_zeros_count 0x00F01000 = Some 8.
Proof. apply (bit_counts 0x00F01000). by vm_compute. Defined.

Lemma foldl_wrap_sum w d : forall s,
  0 <= w -> foldl (fun sum b => wrap w (sum + b)) (wrap w s) d = wrap w (s + foldr Z.add 0 d).
Proof.
  induction d as [|b d IH]; intros s Hw; simpl; [by rewrite Z.add_0_r|].
  rewrite wrap_add_l, IH by done. f_equal. lia.
Qed.

(** The checksums are the sum of the first [len] bytes modulo 2^8 and 2^16. *)
Theorem check_sums buf len :
  0 <= len <= zlen buf ->
  tuya_check_sum8 buf len = Some (u8 (foldr Z.add 0 (take (Z.to_nat len) buf))) /\
  tuya_check_sum16 buf len = Some (u16 (foldr Z.add 0 (take (Z.to_nat len) buf))).
Proof.
  intros Hl. unfold tuya_check_sum8, tuya_check_sum16.
  rewrite mread_Some, drop_0 by lia. ub_step.
  pose proof (foldl_wrap_sum 8 (take (Z.to_nat len) buf) 0) as H8.
  pose proof (foldl_wrap_sum 16 (take (Z.to_nat len) buf) 0) as H16.
  change (u8 0) with 0 in H8. change (u16 0) with 0 in H16.
  by rewrite H8, H16 by lia.
Qed.

Lemma check_sums_witness :
  tuya_check_sum8 [200; 100; 9] 2 = Some 44 /\ tuya_check_sum16 [200; 100; 9] 2 = Some 300.
Proof. apply (check_sums [200; 100; 9] 2). by vm_compute. Defined.
