(* ===== verification/MixMethod.v ===== *)
(** * Versions, addresses and characters

    The rest of src/src/common/utilities/mix_method.c: [is_valid_version],
    [versionString2int], [string2mac], [mm_strdup] and the character functions. The base64
    wrappers only call mbedtls. *)
From S2P Require Import Prelude BubbleSort Tools.

Definition DOT : Z := 46.

(** ** Definitions *)

Definition tuya_isalpha (c : Z) : Z :=
  if (bool_decide (c >= 65) && bool_decide (c <= 90)) ||
     (bool_decide (c >= 97) && bool_decide (c <= 122)) then c else 0.

Definition tuya_tolower (c : Z) : Z :=
  if bool_decide (c >= 65) && bool_decide (c <= 90) then c - 65 + 97 else c.

Definition tuya_toupper (c : Z) : Z :=
  if bool_decide (c >= 97) && bool_decide (c <= 122) then c - 97 + 65 else c.

(** [block]: the memory that [tal_malloc] returns, if any. *)
Definition mm_strdup (str : option bytes) (block : option bytes) : option (option bytes) :=
  match str, block with
  | None, _ => Some None
  | Some _, None => Some None
  | Some str, Some tmp =>
      tmp ← memcpy tmp 0 str 0 (zlen (c_string str));
      tmp ← zset tmp (zlen (c_string str)) 0;
      Some (Some tmp)
  end.

(** The loop over the string from [ver] on; [last] is the character before it. *)
Fixpoint version_loop (ver : bytes) (last : option Z) (dot section_num_count : Z)
    : option bool :=
  match ver with
  | [] => None
  | c :: ver =>
      if bool_decide (c = 0) then
        Some (negb (bool_decide (last = Some DOT)))
      else if bool_decide (c = DOT) then
        if bool_decide (last = None) || bool_decide (last = Some DOT) then Some false
        else if bool_decide (dot + 1 > 2) then Some false
        else version_loop ver (Some c) (dot + 1) 0
      else if bool_decide (c >= 48) && bool_decide (c <= 57) then
        if bool_decide (section_num_count + 1 > 8) then Some false
        else version_loop ver (Some c) dot (section_num_count + 1)
      else Some false
  end.

Definition is_valid_version (ver : option bytes) : option bool :=
  match ver with
  | None => Some false
  | Some ver =>
      let n := zlen (c_string ver) in
      if bool_decide (n > 10) || bool_decide (n = 0) then Some false
      else version_loop ver None 0 0
  end.

(** [6 - i] rounds. *)
Fixpoint string2mac_loop (n : nat) (i count len : Z) (str mac : bytes) : option bytes :=
  match n with
  | O => Some mac
  | S n =>
      h ← zget str count;
      l ← zget str (count + 1);
      mac ← zset mac i (u8 (Z.land (Z.shiftl (asc2hex h) 4) 0xF0 + Z.land (asc2hex l) 0x0F));
      let count := count + 2 in
      let count := if bool_decide (len = 17) then count + 1 else count in
      string2mac_loop n (i + 1) count len str mac
  end.

(** The result and [mac]. *)
Definition string2mac (str mac : bytes) : option (Z * bytes) :=
  let len := zlen (c_string str) in
  if bool_decide (12 <> len) && bool_decide (17 <> len) then Some (-1, mac)
  else mac ← string2mac_loop 6 0 0 len str mac; Some (0, mac).

(** The loop from character [i] on ([s] starts there); a left shift that overflows is
    undefined. *)
Fixpoint version_int_loop (s : bytes) (v intOfString : Z) : option Z :=
  match s with
  | [] => None
  | c :: s =>
      if bool_decide (c = 0) then Some intOfString
      else if bool_decide (c = DOT) then
        if bool_decide (0 <= intOfString < 2 ^ 23)
        then version_int_loop s 0 (Z.shiftl intOfString 8) else None
      else
        let v := u8 (v * 10 + asc2hex c) in
        next ← head s;
        version_int_loop s v
          (if bool_decide (next = DOT) || bool_decide (next = 0) then Z.lor intOfString v
           else intOfString)
  end.

(** The static [v] is 0 at every call, because each call ends by resetting it. *)
Definition versionString2int (versionString : bytes) : option Z :=
  let len := zlen (c_string versionString) in
  if bool_decide (len <= 0) then Some OPRT_INVALID_PARM
  else version_int_loop versionString 0 0.

(** ** Sections of a version *)

Definition digit (c : Z) : Prop := 48 <= c <= 57.
Definition section (p : bytes) : Prop := p <> [] /\ zlen p <= 8 /\ Forall digit p.

(** The pieces between the dots. *)
Fixpoint split_dot (s : bytes) : list bytes :=
  match s with
  | [] => [[]]
  | c :: s =>
      if bool_decide (c = DOT) then [] :: split_dot s
      else match split_dot s with p :: ps => (c :: p) :: ps | [] => [] end
  end.

Lemma split_dot_cons s : exists p ps, split_dot s = p :: ps.
Proof.
  induction s as [|c s IH]; simpl; [by eexists _, _|].
  case_bool_decide; [by eexists _, _|]. destruct IH as (p & ps & ->). by eexists _, _.
Qed.

(** What the rest of a version must look like after [num] digits of its current section. *)
Definition rest_ok (s : bytes) (dot num : Z) : Prop :=
  match split_dot s with
  | [] => False
  | p :: ps => Forall digit p /\ 1 <= num + zlen p <= 8 /\ dot + zlen ps <= 2 /\
               Forall section ps
  end.

Lemma rest_ok_digit c s dot num :
  digit c -> 0 <= num -> rest_ok (c :: s) dot num <-> num < 8 /\ rest_ok s dot (num + 1).
Proof.
  unfold rest_ok, digit, DOT. intros Hc Hn. cbn [split_dot]. rewrite bool_decide_false by (unfold DOT; lia).
  destruct (split_dot_cons s) as (p & ps & ->). rewrite zlen_cons, Forall_cons.
  pose proof (zlen_nonneg p). unfold digit. naive_solver lia.
Qed.

Lemma rest_ok_dot s dot num :
  rest_ok (DOT :: s) dot num <-> 1 <= num <= 8 /\ dot < 2 /\ rest_ok s (dot + 1) 0.
Proof.
  unfold rest_ok. cbn [split_dot]. rewrite bool_decide_true by done.
  destruct (split_dot_cons s) as (p & ps & Hps). rewrite Hps, zlen_nil, zlen_cons, Forall_cons.
  pose proof (zlen_nonneg ps). unfold section.
  assert (Forall digit []) by constructor.
  destruct p as [|c p]; [change (zlen (@nil Z)) with 0|rewrite zlen_cons; pose proof (zlen_nonneg p)];
    naive_solver lia.
Qed.

Lemma version_loop_ok s : forall x last dot num,
  no_nul s -> 0 <= dot <= 2 -> 0 <= num <= 8 ->
  (num = 0 -> last = None \/ last = Some DOT) -> (0 < num -> exists d, last = Some d /\ d <> DOT) ->
  (s = [] -> last <> None) ->
  exists b, version_loop (s ++ 0 :: x) last dot num = Some b /\
    (b = true <-> rest_ok s dot num).
Proof.
  induction s as [|c s IH]; intros x last dot num Hs Hd Hn H0 H1 Hnil; cbn [version_loop app].
  - rewrite bool_decide_true by done. eexists. split; [done|].
    unfold rest_ok. cbn [split_dot]. rewrite (@zlen_nil Z), (@zlen_nil bytes).
    destruct (decide (num = 0)) as [->|Hne].
    + destruct (H0 eq_refl) as [->| ->]; [by destruct Hnil|].
      rewrite bool_decide_true by done. split; [done|]. intros (_ & ? & _). lia.
    + destruct H1 as (d & -> & Hdot); [lia|]. rewrite bool_decide_false by naive_solver.
      split; [|done]. intros _. split; [constructor|]. split; [lia|]. split; [lia|constructor].
  - inversion Hs as [|? ? Hc Hs']; subst. rewrite bool_decide_false by done.
    destruct (decide (c = DOT)) as [->|Hcd].
    + rewrite (bool_decide_true (DOT = DOT)) by done. pose proof (rest_ok_dot s dot num) as Hrest.
      destruct (decide (num = 0)) as [->|Hne].
      { exists false. rewrite Hrest. split; [|split; [done|lia]].
        destruct (H0 eq_refl) as [->| ->]; [done|].
        by rewrite (bool_decide_true (Some DOT = Some DOT)), orb_true_r by done. }
      destruct H1 as (d & -> & Hdot); [lia|]. rewrite !(bool_decide_false (Some d = _)) by naive_solver.
      cbn [orb].
      case_bool_decide as H2; [exists false; rewrite Hrest; split; [done|split; [done|lia]]|].
      destruct s as [|c' s].
      { cbn [app version_loop]. rewrite bool_decide_true by done. eexists. split; [done|].
        rewrite Hrest, bool_decide_true by done. split; [done|]. intros (_ & _ & (_ & ? & _)).
        change (zlen (@nil Z)) with 0 in *. lia. }
      destruct (IH x (Some DOT) (dot + 1) 0) as (b & -> & Hb);
        [done|lia|lia|by right|lia|done|].
      exists b. split; [done|]. rewrite Hb, Hrest. split; [intros; split; [lia|split; [lia|done]]|tauto].
    + rewrite (bool_decide_false (c = DOT)) by done.
      destruct (decide (digit c)) as [Hdig|Hno].
      * unfold digit in Hdig. rewrite !bool_decide_true by lia. cbn [andb].
        pose proof (rest_ok_digit c s dot num Hdig ltac:(lia)) as Hrest.
        case_bool_decide as H2; [exists false; rewrite Hrest; split; [done|split; [done|lia]]|].
        destruct (IH x (Some c) dot (num + 1)) as (b & -> & Hb);
          [done|lia|lia|lia|by exists c|done|].
        exists b. split; [done|]. rewrite Hb, Hrest. split; [intros; split; [lia|done]|tauto].
      * exists false. split.
        { unfold digit in Hno. destruct (bool_decide (c >= 48)) eqn:Hge; [|done].
          apply bool_decide_eq_true in Hge. by rewrite bool_decide_false by lia. }
        split; [done|]. unfold rest_ok. cbn [split_dot]. rewrite bool_decide_false by done.
        destruct (split_dot_cons s) as (p & ps & ->). rewrite Forall_cons. tauto.
Qed.

(** [is_valid_version] accepts a string exactly when it has 1 to 10 characters and is one
    to three sections of 1 to 8 decimal digits separated by dots; it never reads past the
    terminator. *)
Theorem valid_version_spec s x :
  no_nul s ->
  exists b, is_valid_version (Some (s ++ 0 :: x)) = Some b /\
    (b = true <-> 1 <= zlen s <= 10 /\ zlen (split_dot s) <= 3 /\ Forall section (split_dot s)).
Proof.
  intros Hs. unfold is_valid_version. rewrite c_string_nul by done.
  pose proof (zlen_nonneg s).
  destruct (decide (1 <= zlen s <= 10)) as [Hl|Hl].
  - rewrite !bool_decide_false by lia. cbn [orb].
    destruct (version_loop_ok s x None 0 0 Hs) as (b & -> & Hb); [lia..|by left|lia| |].
    { intros ->. rewrite zlen_nil in Hl. lia. }
    exists b. split; [done|]. rewrite Hb. unfold rest_ok.
    destruct (split_dot_cons s) as (p & ps & ->). rewrite zlen_cons, Forall_cons.
    unfold section at 2. pose proof (zlen_nonneg p).
    destruct p as [|c p]; [change (zlen (@nil Z)) with 0|rewrite zlen_cons; pose proof (zlen_nonneg p)];
      naive_solver lia.
  - exists false. split; [|split; [done|lia]].
    destruct (decide (zlen s = 0)) as [->|]; [done|]. by rewrite (bool_decide_true (zlen s > 10)) by lia.
Qed.

Lemma valid_version_spec_witness :
  exists b, is_valid_version (Some (c_str "1.0.12" ++ [0])) = Some b /\ b = true.
Proof.
  destruct (valid_version_spec (c_str "1.0.12") []) as (b & Hb & _).
  - repeat constructor; done.
  - exists b. split; [exact Hb|]. vm_compute in Hb. congruence.
Defined.

(** ** Versions as numbers *)

Definition chars (ds : bytes) : bytes := (fun d => 48 + d) <$> ds.

Fixpoint dotted (ps : list bytes) : bytes :=
  match ps with
  | [] => []
  | [p] => chars p
  | p :: ps => chars p ++ DOT :: dotted ps
  end.

Definition numeral (p : bytes) : Prop := p <> [] /\ Forall (fun d => 0 <= d < 10) p.

(** Each section takes one byte. *)
Definition version_value (acc : Z) (ps : list bytes) : Z :=
  foldl (fun a p => a * 256 + u8 (decimal 0 p)) acc ps.

Lemma asc2hex_digit d : 0 <= d < 10 -> asc2hex (48 + d) = d.
Proof.
  intros Hd. unfold asc2hex. rewrite !bool_decide_true by lia. cbn [andb].
  rewrite wrap_small by (unfold in_u; lia). lia.
Qed.

Lemma version_int_section ds : forall v acc t r,
  Forall (fun d => 0 <= d < 10) ds -> ds <> [] -> t = DOT \/ t = 0 ->
  version_int_loop (chars ds ++ t :: r) (u8 v) acc =
    version_int_loop (t :: r) (u8 (decimal v ds)) (Z.lor acc (u8 (decimal v ds))).
Proof.
  induction ds as [|d ds IH]; intros v acc t r Hd Hne Ht; [done|].
  inversion Hd as [|? ? Hd1 Hd2]; subst. cbn [chars fmap list_fmap app version_int_loop].
  rewrite (bool_decide_false (48 + d = 0)), (bool_decide_false (48 + d = DOT)) by (unfold DOT; lia).
  rewrite asc2hex_digit, wrap_mul_add by done. destruct ds as [|d' ds].
  - cbn [fmap list_fmap app head]. ub_step.
    replace (bool_decide (t = DOT) || bool_decide (t = 0)) with true; [done|].
    destruct Ht as [->| ->]; [by rewrite bool_decide_true|done].
  - cbn [fmap list_fmap app head]. ub_step. inversion Hd2; subst.
    rewrite !bool_decide_false by (unfold DOT; lia). cbn [orb].
    exact (IH (v * 10 + d) acc t r Hd2 ltac:(done) Ht).
Qed.

Lemma lor_byte a b : 0 <= a -> in_u 8 b -> Z.lor (Z.shiftl a 8) b = a * 256 + b.
Proof.
  intros Ha Hb. unfold in_u in Hb. change 256 with (2 ^ 8).
  rewrite <- Z.shiftl_mul_pow2 by lia. symmetry. apply Z.add_nocarry_lor.
  apply Z.bits_inj'. intros n Hn. rewrite Z.land_spec, Z.bits_0.
  destruct (decide (n < 8)).
  - by rewrite Z.shiftl_spec_low.
  - assert (Z.testbit b n = false) as ->; [|apply andb_false_r].
    destruct (decide (b = 0)) as [->|]; [apply Z.bits_0|].
    apply Z.bits_above_log2; [lia|]. assert (Z.log2 b < 8) by (apply Z.log2_lt_pow2; lia). lia.
Qed.

Lemma version_int_sections ps : forall p acc x,
  Forall numeral (p :: ps) -> 0 <= acc -> acc < 2 ^ (24 - 8 * zlen (p :: ps)) ->
  version_int_loop (dotted (p :: ps) ++ 0 :: x) 0 (Z.shiftl acc 8) =
    Some (version_value acc (p :: ps)).
Proof.
  induction ps as [|q ps IH]; intros p acc x Hps Ha Hacc;
    inversion Hps as [|? ? [Hne Hd] Hps']; subst; change 0 with (u8 0) at 2.
  - cbn [dotted]. rewrite version_int_section by (done || by right).
    cbn [version_int_loop]. rewrite bool_decide_true by done.
    rewrite lor_byte by (try done; apply wrap_range; lia). done.
  - cbn [dotted]. rewrite <- app_assoc. cbn [app].
    rewrite version_int_section by (done || by left).
    rewrite lor_byte by (try done; apply wrap_range; lia). cbn [version_int_loop].
    pose proof (wrap_range 8 (decimal 0 p) ltac:(lia)) as Hb. unfold in_u in Hb.
    rewrite !zlen_cons in *. pose proof (zlen_nonneg ps).
    assert (Hstep : acc * 256 + u8 (decimal 0 p) < 2 ^ (24 - 8 * (1 + zlen ps))).
    { replace (24 - 8 * (1 + zlen ps)) with (24 - 8 * (1 + (1 + zlen ps)) + 8) by lia.
      destruct (decide (0 <= 24 - 8 * (1 + (1 + zlen ps)))).
      - rewrite Z.pow_add_r by lia. change (2 ^ 8) with 256 in *. nia.
      - rewrite (Z.pow_neg_r 2 (24 - 8 * (1 + (1 + zlen ps)))) in Hacc by lia. lia. }
    rewrite (bool_decide_false (DOT = 0)), (bool_decide_true (DOT = DOT)) by done.
    rewrite bool_decide_true.
    + apply (IH q); [done|lia|]. by rewrite zlen_cons.
    + split; [lia|]. eapply Z.lt_le_trans; [exact Hstep|]. apply Z.pow_le_mono_r; lia.
Qed.

Lemma no_nul_dotted ps : Forall numeral ps -> no_nul (dotted ps).
Proof.
  assert (Hc : forall p, numeral p -> no_nul (chars p)).
  { intros p [_ Hp]. apply Forall_fmap. eapply Forall_impl; [exact Hp|]. intros d Hd Hz. cbn in Hd, Hz. lia. }
  induction 1 as [|p ps Hp Hps IH]; [constructor|]. destruct ps as [|q ps]; [by apply Hc|].
  apply Forall_app. split; [by apply Hc|]. by constructor.
Qed.

(** [versionString2int] of one to three decimal sections is the number with one byte per
    section, the first section in the highest byte; a section above 255 is taken modulo 256;
    the empty string gives OPRT_INVALID_PARM. *)
Theorem version_int_value p ps x :
  Forall numeral (p :: ps) -> zlen ps <= 2 ->
  versionString2int (dotted (p :: ps) ++ 0 :: x) = Some (version_value 0 (p :: ps)) /\
  versionString2int (0 :: x) = Some OPRT_INVALID_PARM.
Proof.
  intros Hps Hl. split; [|done]. unfold versionString2int.
  rewrite c_string_nul by (by apply no_nul_dotted).
  assert (0 < zlen (dotted (p :: ps))).
  { inversion Hps as [|? ? [Hne _] _]; subst. destruct p as [|d p]; [done|].
    destruct ps; cbn [dotted chars fmap list_fmap app]; rewrite zlen_cons;
      (apply Z.add_pos_nonneg; [lia|apply zlen_nonneg]). }
  rewrite bool_decide_false by lia.
  apply (version_int_sections ps p 0 x Hps); [done|]. rewrite zlen_cons.
  apply Z.pow_pos_nonneg; lia.
Qed.

Lemma version_int_value_witness :
  versionString2int (c_str "1.12.300" ++ [0]) = Some (65536 + 12 * 256 + 44).
Proof.
  destruct (version_int_value [1] [[1; 2]; [3; 0; 0]] []) as [H _].
  - repeat constructor; by try lia.
  - by vm_compute.
  - exact H.
Defined.

(** ** Addresses *)

Lemma mac_byte f b : spells f -> in_u 8 b ->
  u8 (Z.land (Z.shiftl (asc2hex (fst (f b))) 4) 0xF0 + Z.land (asc2hex (snd (f b))) 0x0F) = b.
Proof.
  intros Hf Hb. destruct (Hf b Hb) as [Hv _]. rewrite <- Hv at 3. f_equal.
  assert (Hr : forall c, 0 <= asc2hex c < 16).
  { intros c. unfold asc2hex. repeat case_bool_decide; cbn [andb]; try lia;
      rewrite wrap_small by (unfold in_u; lia); lia. }
  pose proof (Hr (fst (f b))) as H1. pose proof (Hr (snd (f b))) as H2.
  pose proof (below_forallb (fun d => (Z.land (Z.shiftl d 4) 0xF0 =? Z.shiftl d 4) &&
    (Z.land d 0x0F =? d)) 16 ltac:(by vm_compute)) as Hall. cbv beta in Hall.
  pose proof (Hall _ H1). pose proof (Hall _ H2). lia.
Qed.

(** The loop over digits that are [step] places apart. *)
Lemma mac_loop_ok f str len h step :
  spells f -> bytes_ok h -> step = (if bool_decide (len = 17) then 3 else 2) ->
  (forall k b, zget h k = Some b -> zget str (k * step) = Some (fst (f b)) /\
                                    zget str (k * step + 1) = Some (snd (f b))) ->
  forall h2 h1 m, h = h1 ++ h2 -> zlen m = zlen h2 ->
  string2mac_loop (length h2) (zlen h1) (zlen h1 * step) len str (h1 ++ m) = Some h.
Proof.
  intros Hf Hh Hstep Hstr. induction h2 as [|b h2 IH]; intros h1 m Hsplit Hm.
  - destruct m as [|c m]; [by rewrite Hsplit|]. rewrite zlen_cons in Hm.
    pose proof (zlen_nonneg m). change (zlen (@nil Z)) with 0 in Hm. lia.
  - destruct m as [|c m]; rewrite ?zlen_cons in Hm;
      [pose proof (zlen_nonneg h2); change (zlen (@nil Z)) with 0 in Hm; lia|].
    destruct (Hstr (zlen h1) b) as [Hs1 Hs2]; [rewrite Hsplit; apply zget_length|].
    assert (Hb : in_u 8 b) by (rewrite Hsplit in Hh; apply Forall_app in Hh as [_ Hh]; by inversion Hh).
    cbn [length string2mac_loop]. rewrite Hs1. ub_step. rewrite Hs2. ub_step.
    rewrite mac_byte, zset_length by done. ub_step.
    rewrite (snoc_cons h1 b m), <- (zlen_snoc h1 b).
    replace (if bool_decide (len = 17) then _ else _) with (zlen (h1 ++ [b]) * step).
    + apply IH; [by rewrite <- app_assoc|lia].
    + rewrite zlen_snoc, Hstep. case_bool_decide; lia.
Qed.

(** The digits of an address with separators. *)
Fixpoint spell_colons (f : Z -> Z * Z) (h : bytes) : bytes :=
  match h with
  | [] => []
  | [b] => [fst (f b); snd (f b)]
  | b :: h => fst (f b) :: snd (f b) :: 58 :: spell_colons f h
  end.

Lemma no_nul_colons f h : spells f -> bytes_ok h -> no_nul (spell_colons f h).
Proof.
  intros Hf. induction 1 as [|b h Hb Hh IH]; [constructor|]. destruct (Hf b Hb) as (_ & H1 & H2).
  destruct h as [|b' h]; cbn [spell_colons]; [by repeat constructor|].
  constructor; [done|]. constructor; [done|]. by constructor.
Qed.

(** [string2mac] reads the six bytes back from their hexadecimal digits, written in
    either case with or without separators, and rejects any string of another length; it stays
    inside the string and the array. *)
Theorem string2mac_ok upper b0 b1 b2 b3 b4 b5 mac x :
  bytes_ok [b0; b1; b2; b3; b4; b5] -> zlen mac = 6 ->
  let h := [b0; b1; b2; b3; b4; b5] in
  string2mac (spell (hex_of upper) h ++ 0 :: x) mac = Some (0, h) /\
  string2mac (spell_colons (hex_of upper) h ++ 0 :: x) mac = Some (0, h) /\
  forall s, no_nul s -> zlen s <> 12 -> zlen s <> 17 ->
    string2mac (s ++ 0 :: x) mac = Some (-1, mac).
Proof.
  intros Hh Hmac h. pose proof (hex_of_spells upper) as Hf.
  assert (Hmac6 : exists m0 m1 m2 m3 m4 m5, mac = [m0; m1; m2; m3; m4; m5]).
  { unfold zlen in Hmac. destruct mac as [|m0 [|m1 [|m2 [|m3 [|m4 [|m5 [|m6 mac]]]]]]];
      simpl in Hmac; try lia. by eexists _, _, _, _, _, _. }
  destruct Hmac6 as (m0 & m1 & m2 & m3 & m4 & m5 & ->).
  assert (Hnul : no_nul (spell (hex_of upper) h)) by (by apply no_nul_spell).
  assert (Hcase : forall k b, zget h k = Some b -> (k = 0 /\ b = b0) \/ (k = 1 /\ b = b1) \/
    (k = 2 /\ b = b2) \/ (k = 3 /\ b = b3) \/ (k = 4 /\ b = b4) \/ (k = 5 /\ b = b5)).
  { intros k b Hk. pose proof (zget_inv _ _ _ Hk) as Hr. change (zlen h) with 6 in Hr.
    assert (k = 0 \/ k = 1 \/ k = 2 \/ k = 3 \/ k = 4 \/ k = 5) as Hks by lia.
    repeat (destruct Hks as [->|Hks]; [injection Hk as <-; tauto|]).
    subst k. injection Hk as <-. tauto. }
  split; [|split].
  - unfold string2mac. rewrite c_string_nul, zlen_spell by done. change (2 * zlen h) with 12.
    rewrite bool_decide_false by lia. cbn [andb].
    set (str := spell (hex_of upper) h ++ 0 :: x).
    assert (Hstr : forall k b, zget h k = Some b ->
      zget str (k * 2) = Some (fst (hex_of upper b)) /\
      zget str (k * 2 + 1) = Some (snd (hex_of upper b))).
    { intros k b Hk. apply Hcase in Hk.
      repeat (destruct Hk as [[-> ->]|Hk]; [by split|]). destruct Hk as [-> ->]. by split. }
    pose proof (mac_loop_ok (hex_of upper) str 12 h 2 Hf Hh eq_refl Hstr h []
      [m0; m1; m2; m3; m4; m5] eq_refl eq_refl
      : string2mac_loop 6 0 0 12 str [m0; m1; m2; m3; m4; m5] = Some h) as Hl.
    by rewrite Hl.
  - unfold string2mac. rewrite c_string_nul.
    2: by apply no_nul_colons.
    change (zlen (spell_colons (hex_of upper) h)) with 17. cbn [andb].
    rewrite andb_false_r.
    set (str := spell_colons (hex_of upper) h ++ 0 :: x).
    assert (Hstr : forall k b, zget h k = Some b ->
      zget str (k * 3) = Some (fst (hex_of upper b)) /\
      zget str (k * 3 + 1) = Some (snd (hex_of upper b))).
    { intros k b Hk. apply Hcase in Hk.
      repeat (destruct Hk as [[-> ->]|Hk]; [by split|]). destruct Hk as [-> ->]. by split. }
    pose proof (mac_loop_ok (hex_of upper) str 17 h 3 Hf Hh eq_refl Hstr h []
      [m0; m1; m2; m3; m4; m5] eq_refl eq_refl
      : string2mac_loop 6 0 0 17 str [m0; m1; m2; m3; m4; m5] = Some h) as Hl.
    by rewrite Hl.
  - intros s Hs H12 H17. unfold string2mac. rewrite c_string_nul by done.
    by rewrite !bool_decide_true by lia.
Qed.

Lemma string2mac_ok_witness :
  string2mac (c_str "68:57:2d:00:Ff:9A" ++ [0]) (replicate 6 0) =
    Some (0, [0x68; 0x57; 0x2d; 0; 0xff; 0x9a]) /\
  string2mac (c_str "68572d00ff9a" ++ [0]) (replicate 6 0) =
    Some (0, [0x68; 0x57; 0x2d; 0; 0xff; 0x9a]).
Proof.
  destruct (string2mac_ok false 0x68 0x57 0x2d 0 0xff 0x9a (replicate 6 0) []) as (H & _ & _).
  - repeat constructor; by vm_compute.
  - done.
  - split; [by vm_compute|exact H].
Defined.

(** [mm_strdup] copies a string with its terminator into a block of that size. *)
Lemma mm_strdup_ok s x tmp :
  no_nul s -> zlen tmp = zlen s + 1 ->
  mm_strdup (Some (s ++ 0 :: x)) (Some tmp) = Some (Some (s ++ [0])).
Proof.
  intros Hs Hl. unfold mm_strdup. rewrite c_string_nul by done.
  pose proof (zlen_nonneg s). pose proof (zlen_nonneg x).
  rewrite memcpy_mwrite by (rewrite ?zlen_app, ?zlen_cons; lia).
  rewrite drop_0, zlen_to_nat, take_app_length, mwrite_0 by lia. ub_step.
  set (r := drop _ tmp). assert (Hr : zlen r = 1) by (unfold r; rewrite zlen_drop by lia; lia).
  destruct r as [|c [|c' r]]; rewrite ?zlen_cons in Hr;
    [done| |pose proof (zlen_nonneg r); lia].
  by rewrite zset_length.
Qed.
