(* ===== verification/Memory.v ===== *)
(** * Byte memory

    A memory is a finite map from addresses to bytes. Words are little-endian; a load or a
    store that touches an address outside the map is undefined behaviour ([None]). *)
From S2P Require Import Prelude.

Abbreviation mem := (gmap Z Z).

Fixpoint load_le (n : nat) (m : mem) (a : Z) : option Z :=
  match n with
  | O => Some 0
  | S n => b ← m !! a; r ← load_le n m (a + 1); Some (b + 256 * r)
  end.

Definition storeb (m : mem) (a v : Z) : option mem :=
  match m !! a with Some _ => Some (<[a := v `mod` 256]> m) | None => None end.

Fixpoint store_le (n : nat) (m : mem) (a v : Z) : option mem :=
  match n with
  | O => Some m
  | S n => m ← storeb m a v; store_le n m (a + 1) (v / 256)
  end.

(** Every address of a range is in the memory. *)
Definition mapped (m : mem) (lo hi : Z) : Prop := forall x, lo <= x < hi -> is_Some (m !! x).

(** Nothing changes outside [lo, hi). *)
Definition only_in (lo hi : Z) (m m' : mem) : Prop :=
  (forall x, x < lo \/ hi <= x -> m' !! x = m !! x) /\
  (forall x, is_Some (m !! x) -> is_Some (m' !! x)).

Lemma only_in_refl lo hi m : only_in lo hi m m.
Proof. by split. Qed.

Lemma only_in_trans lo hi m1 m2 m3 :
  only_in lo hi m1 m2 -> only_in lo hi m2 m3 -> only_in lo hi m1 m3.
Proof.
  intros [H1 H1'] [H2 H2']. split; [|auto]. intros x Hx. by rewrite H2, H1.
Qed.

Lemma only_in_weaken lo hi lo' hi' m m' :
  lo' <= lo -> hi <= hi' -> only_in lo hi m m' -> only_in lo' hi' m m'.
Proof. intros Hl Hh [H1 H2]. split; [|done]. intros x Hx. apply H1. lia. Qed.

Lemma mapped_mono lo hi lo' hi' m :
  lo' <= lo -> hi <= hi' -> mapped m lo' hi' -> mapped m lo hi.
Proof. intros Hl Hh Hm x Hx. apply Hm. lia. Qed.

Lemma only_in_mapped lo hi m m' a b : only_in lo hi m m' -> mapped m a b -> mapped m' a b.
Proof. intros [_ H] Hm x Hx. by apply H, Hm. Qed.

Lemma only_in_byte lo hi m m' x : only_in lo hi m m' -> x < lo \/ hi <= x -> m' !! x = m !! x.
Proof. intros [H _]. apply H. Qed.

Lemma load_ext n m m' : forall a,
  (forall x, a <= x < a + Z.of_nat n -> m' !! x = m !! x) -> load_le n m' a = load_le n m a.
Proof.
  induction n as [|n IH]; intros a Hx; [done|]. cbn [load_le].
  rewrite Hx by lia. rewrite IH; [done|]. intros x Hr. apply Hx. lia.
Qed.

Lemma only_in_load lo hi m m' n a :
  only_in lo hi m m' -> a + Z.of_nat n <= lo \/ hi <= a -> load_le n m' a = load_le n m a.
Proof. intros [H _] Ha. apply load_ext. intros x Hx. apply H. lia. Qed.

Lemma storeb_ok m a v :
  is_Some (m !! a) ->
  exists m', storeb m a v = Some m' /\ only_in a (a + 1) m m' /\ m' !! a = Some (v `mod` 256).
Proof.
  intros [b Hb]. unfold storeb. rewrite Hb. eexists. split; [done|]. split.
  - split.
    + intros x Hx. by rewrite lookup_insert_ne by lia.
    + intros x Hx. destruct (decide (x = a)) as [->|];
        [by rewrite lookup_insert_eq|by rewrite lookup_insert_ne by done].
  - apply lookup_insert_eq.
Qed.

Lemma store_ok n : forall m a v,
  mapped m a (a + Z.of_nat n) ->
  exists m', store_le n m a v = Some m' /\ only_in a (a + Z.of_nat n) m m' /\
    load_le n m' a = Some (v `mod` 256 ^ Z.of_nat n).
Proof.
  induction n as [|n IH]; intros m a v Hm.
  - exists m. split; [done|]. split; [apply only_in_refl|].
    change (256 ^ Z.of_nat 0) with 1. by rewrite Z.mod_1_r.
  - cbn [store_le load_le]. destruct (storeb_ok m a v) as (m1 & -> & Ho1 & Hb1); [apply Hm; lia|].
    ub_step. destruct (IH m1 (a + 1) (v / 256)) as (m2 & -> & Ho2 & Hl2).
    { apply (only_in_mapped _ _ _ _ _ _ Ho1). eapply mapped_mono; [| |exact Hm]; lia. }
    exists m2. split; [done|]. split.
    { apply only_in_trans with m1; [eapply only_in_weaken; [| |exact Ho1]; lia|].
      eapply only_in_weaken; [| |exact Ho2]; lia. }
    rewrite (only_in_byte _ _ _ _ a Ho2) by lia. rewrite Hb1. ub_step. rewrite Hl2. ub_step.
    f_equal. rewrite Nat2Z.inj_succ, Z.pow_succ_r by lia.
    symmetry. apply Z.rem_mul_r; lia.
Qed.

(** Bytes that are all below 256. *)
Definition bytes_mem (m : mem) : Prop := forall x b, m !! x = Some b -> in_u 8 b.

Lemma storeb_bytes m a v m' : bytes_mem m -> storeb m a v = Some m' -> bytes_mem m'.
Proof.
  unfold storeb. intros Hm. destruct (m !! a); [|done]. intros [= <-] x b.
  rewrite lookup_insert_Some. intros [[_ <-]|[_ Hb]]; [|by eapply Hm].
  unfold in_u. apply Z.mod_pos_bound. lia.
Qed.

Lemma store_bytes n : forall m a v m',
  bytes_mem m -> store_le n m a v = Some m' -> bytes_mem m'.
Proof.
  induction n as [|n IH]; intros m a v m' Hm; cbn [store_le]; [by intros [= <-]|].
  intros Hs. ub_inv. eapply IH; [|done]. by eapply storeb_bytes.
Qed.

(** The last byte of a word that is stored is its most significant one. *)
Lemma store_last_byte n : forall m a v m',
  store_le (S n) m a v = Some m' ->
  m' !! (a + Z.of_nat n) = Some ((v / 256 ^ Z.of_nat n) `mod` 256).
Proof.
  induction n as [|n IH]; intros m a v m' Hs.
  - cbn [store_le] in Hs. ub_inv. subst. change (256 ^ Z.of_nat 0) with 1.
    rewrite Z.div_1_r, Z.add_0_r. unfold storeb in *.
    destruct (m !! a); [|done]. simplify_eq. apply lookup_insert_eq.
  - change (store_le (S (S n)) m a v) with
      (m ← storeb m a v; store_le (S n) m (a + 1) (v / 256)) in Hs.
    apply bind_Some in Hs as (m1 & _ & Hs). apply IH in Hs.
    replace (a + Z.of_nat (S n)) with (a + 1 + Z.of_nat n) by lia. rewrite Hs.
    rewrite Nat2Z.inj_succ, Z.pow_succ_r by lia. by rewrite Z.div_div by lia.
Qed.

(** A memory of zeros. *)
Definition zeros (lo : Z) (n : Z) : mem := list_to_map ((fun a => (a, 0)) <$> seqZ lo n).
