(* ===== verification/MemHeap.v ===== *)
(** * Heap allocator

    src/tools/porting/adapter/utilities/src/tuya_mem_heap.c on a byte memory. The sizes of
    [unsigned long], of a pointer and of the alignment are [W] bytes: 8 on Linux, 4 on the
    32-bit systems. The critical sections make the operations atomic; the debug output is left
    out, with [tuya_mem_heap_diagnose], which only prints. *)
From S2P Require Import Prelude Memory.

Definition MEM_BLOCK_MIN_SIZE : Z := 24.
Definition FIT_FIND_DEPTH : Z := 3.
Definition MEM_BLOCK_STAT_USE : Z := 0x55.
Definition MEM_BLOCK_STAT_FREE : Z := 0xaa.
Definition MEM_HEAP_LIST_NUM : nat := 4.

Record MEM_Heap_t := Heap {
  free_list : Z;
  base : Z;
  hp_size : Z;
  hp_free : Z;
  free_watermark : Z }.

Record mem_heaps := MemHeaps {
  mem_heap_list : list MEM_Heap_t;
  s_heap_free_size : Z;
  s_heap_free_size_watermark : Z;
  memory : mem }.

Section ops.
Context (Wn : nat).
#[local] Notation W := (Z.of_nat Wn).

(** Conversion to [unsigned long]. *)
Definition ul (z : Z) : Z := wrap (8 * W) z.

Definition ALIGN_UP (x : Z) : Z := Z.land (ul (ul x + (W - 1))) (Z.lnot (W - 1)).
Definition ALIGN_DOWN (x : Z) : Z := Z.land (ul x) (Z.lnot (W - 1)).

(** [sizeof(MEM_HeapBlock_t) - sizeof(unsigned long)]: the [next] pointer of a free block is
    in the part that the user gets. *)
Definition MEM_BLOCK_HEAD_SIZE : Z := 2 * W - W.
Definition MEM_HEAP_MIN_SIZE : Z := MEM_BLOCK_MIN_SIZE + MEM_BLOCK_HEAD_SIZE.

(** [block->size] and [block->next]. *)
Definition get_size (m : mem) (block : Z) : option Z := load_le Wn m block.
Definition get_next (m : mem) (block : Z) : option Z := load_le Wn m (block + W).
Definition set_size (m : mem) (block v : Z) : option mem := store_le Wn m block v.
Definition set_next (m : mem) (block v : Z) : option mem := store_le Wn m (block + W) v.

(** [*MEM_DOG_ADDR(block) = v]. *)
Definition MEM_DOG_ADDR (m : mem) (block : Z) : option Z :=
  s ← get_size m block; Some (block + s - 1).
Definition set_dog (m : mem) (block v : Z) : option mem :=
  a ← MEM_DOG_ADDR m block; storeb m a v.
Definition get_dog (m : mem) (block : Z) : option Z :=
  a ← MEM_DOG_ADDR m block; m !! a.

(** The heap's descriptor, the memory, the free size of all heaps; the result first. *)
Definition mem_heap_init (heap : MEM_Heap_t) (m : mem) (total ptr size : Z)
    : option (bool * MEM_Heap_t * mem * Z) :=
  let p := ALIGN_UP ptr in
  let size' := ALIGN_DOWN (ul (size - ul (p - ptr))) in
  if bool_decide (size' < MEM_HEAP_MIN_SIZE)
  then Some (false, Heap (free_list heap) ptr size (hp_free heap) (free_watermark heap), m, total)
  else
    m ← set_next m p 0;
    m ← set_size m p size';
    m ← set_dog m p MEM_BLOCK_STAT_FREE;
    Some (true, Heap p ptr size size' size', m, ul (total + size')).

(** The search for a block that fits better, [fuel] blocks at most. *)
Fixpoint fit_loop (fuel : nat) (m : mem) (size this_block pre_block pre_bak this_bak find_num : Z)
    : option (Z * Z) :=
  if bool_decide (this_bak = 0) then Some (this_block, pre_block)
  else match fuel with
  | O => None
  | S fuel =>
      bak_size ← get_size m this_bak;
      this_size ← get_size m this_block;
      let better := bool_decide (bak_size >= size) && bool_decide (bak_size <= this_size) in
      let this_block := if better then this_bak else this_block in
      let pre_block := if better then pre_bak else pre_block in
      let find_num := if better then find_num + 1 else find_num in
      if bool_decide (find_num >= FIT_FIND_DEPTH) then Some (this_block, pre_block)
      else
        next ← get_next m this_bak;
        fit_loop fuel m size this_block pre_block this_bak next find_num
  end.

(** The search for the first block that is large enough. *)
Fixpoint chunk_loop (fuel : nat) (m : mem) (size pre_block this_block : Z)
    : option (option (Z * Z)) :=
  if bool_decide (this_block = 0) then Some None
  else match fuel with
  | O => None
  | S fuel' =>
      this_size ← get_size m this_block;
      next ← get_next m this_block;
      if bool_decide (this_size >= size) then
        r ← fit_loop fuel m size this_block pre_block this_block next 0; Some (Some r)
      else chunk_loop fuel' m size this_block next
  end.

(** A heap has fewer blocks than bytes. *)
Definition heap_fuel (heap : MEM_Heap_t) : nat := Z.to_nat (hp_size heap).

Definition mem_chunk_get (heap : MEM_Heap_t) (m : mem) (size : Z)
    : option (option Z * MEM_Heap_t * mem) :=
  r ← chunk_loop (heap_fuel heap) m size 0 (free_list heap);
  match r with
  | None => Some (None, heap, m)
  | Some (this_block, pre_block) =>
      this_size ← get_size m this_block;
      if bool_decide (ul (this_size - size) >= MEM_HEAP_MIN_SIZE) then
        m ← set_size m this_block (ul (this_size - size));
        m ← set_dog m this_block MEM_BLOCK_STAT_FREE;
        rest ← get_size m this_block;
        let new_block := this_block + rest in
        m ← set_size m new_block size;
        m ← set_dog m new_block MEM_BLOCK_STAT_USE;
        Some (Some new_block, heap, m)
      else
        next ← get_next m this_block;
        r ← (if bool_decide (pre_block <> 0)
             then m ← set_next m pre_block next; Some (heap, m)
             else Some (Heap next (base heap) (hp_size heap) (hp_free heap)
                             (free_watermark heap), m));
        m ← set_dog (snd r) this_block MEM_BLOCK_STAT_USE;
        Some (Some this_block, fst r, m)
  end.

(** The size of the block for a request. *)
Definition block_size (size : Z) : Z := ul (ALIGN_UP (size + 1) + MEM_BLOCK_HEAD_SIZE).

(** [MEM_Allocate] on one heap, without the counters of all heaps: the block. *)
Definition heap_allocate (heap : MEM_Heap_t) (m : mem) (size : Z)
    : option (option Z * MEM_Heap_t * mem) :=
  if bool_decide (size = 0) then Some (None, heap, m)
  else
    let size := if bool_decide (size < 4) then 4 else size in
    let new_size := block_size size in
    if bool_decide (new_size < size) then Some (None, heap, m)
    else
      r ← mem_chunk_get heap m new_size;
      let '(block, heap, m) := r in
      match block with
      | None => Some (None, heap, m)
      | Some block =>
          s ← get_size m block;
          let free := ul (hp_free heap - s) in
          Some (Some block,
                Heap (free_list heap) (base heap) (hp_size heap) free
                  (if bool_decide (free_watermark heap > free) then free
                   else free_watermark heap), m)
      end.

(** The walk to the place of a freed block in the list. *)
Fixpoint place_loop (fuel : nat) (m : mem) (free_block pre_block next_block : Z)
    : option (Z * Z) :=
  if negb (bool_decide (next_block = 0)) && bool_decide (next_block < free_block) then
    match fuel with
    | O => None
    | S fuel => next ← get_next m next_block; place_loop fuel m free_block next_block next
    end
  else Some (pre_block, next_block).

(** [MEM_Deallocate] on one heap; [None] as block size: the pointer was rejected. *)
Definition heap_deallocate (heap : MEM_Heap_t) (m : mem) (ptr : Z)
    : option (option Z * MEM_Heap_t * mem) :=
  let free_block := ptr - MEM_BLOCK_HEAD_SIZE in
  dog ← get_dog m free_block;
  if bool_decide (dog <> MEM_BLOCK_STAT_USE) then Some (None, heap, m)
  else
    m ← set_dog m free_block MEM_BLOCK_STAT_FREE;
    s ← get_size m free_block;
    r ← place_loop (heap_fuel heap) m free_block 0 (free_list heap);
    let '(pre_block, next_block) := r in
    m ← set_next m free_block next_block;
    r ← (if bool_decide (pre_block = 0) then Some (free_block, free_block, m)
         else
           pre_size ← get_size m pre_block;
           if bool_decide (pre_block + pre_size = free_block) then
             fs ← get_size m free_block;
             m ← set_size m pre_block (ul (pre_size + fs)); Some (free_list heap, pre_block, m)
           else
             m ← set_next m pre_block free_block; Some (free_list heap, free_block, m));
    let '(first, pre_block, m) := r in
    m ← (if bool_decide (next_block <> 0) then
           pre_size ← get_size m pre_block;
           if bool_decide (pre_block + pre_size = next_block) then
             next_size ← get_size m next_block;
             m ← set_size m pre_block (ul (pre_size + next_size));
             next ← get_next m next_block;
             set_next m pre_block next
           else Some m
         else Some m);
    Some (Some s, Heap first (base heap) (hp_size heap) (ul (hp_free heap + s))
                       (free_watermark heap), m).

(** ** Operations on all heaps

    A handle is the index of its descriptor, or [None] for NULL. A heap pointer that is 0 is
    NULL. *)

Definition set_heap (st : mem_heaps) (i : nat) (heap : MEM_Heap_t) (m : mem) : mem_heaps :=
  MemHeaps (<[i := heap]> (mem_heap_list st)) (s_heap_free_size st)
           (s_heap_free_size_watermark st) m.

(** The index of the first unused descriptor. *)
Fixpoint first_unused (hs : list MEM_Heap_t) (i : nat) : option nat :=
  match hs with
  | [] => None
  | h :: hs => if bool_decide (hp_size h = 0) then Some i else first_unused hs (S i)
  end.

Definition MEM_HeapCreate (st : mem_heaps) (ptr size : Z) : option (option nat * mem_heaps) :=
  if bool_decide (ptr = 0) || bool_decide (size = 0) then Some (None, st)
  else match first_unused (mem_heap_list st) 0 with
  | None => Some (None, st)
  | Some i =>
      heap ← mem_heap_list st !! i;
      r ← mem_heap_init heap (memory st) (s_heap_free_size st) ptr size;
      let '(ok, heap, m, total) := r in
      if (ok : bool)
      then Some (Some i, MemHeaps (<[i := heap]> (mem_heap_list st)) total total m)
      else Some (None, set_heap st i (Heap (free_list heap) (base heap) 0 (hp_free heap)
                                           (free_watermark heap)) m)
  end.

Definition tuya_mem_heap_create (st : mem_heaps) (start_addr size : Z)
    : option (Z * option nat * mem_heaps) :=
  r ← MEM_HeapCreate st start_addr size;
  Some (match fst r with Some i => 0 | None => -1 end, fst r, snd r).

Definition MEM_HeapDelete (st : mem_heaps) (heap : option nat) : mem_heaps :=
  match heap with
  | None => st
  | Some i => set_heap st i (Heap 0 0 0 0 0) (memory st)
  end.

Definition tuya_mem_heap_delete (st : mem_heaps) (handle : option nat) : Z * mem_heaps :=
  (0, MEM_HeapDelete st handle).

Definition MEM_Allocate (st : mem_heaps) (i : nat) (size : Z) : option (Z * mem_heaps) :=
  heap ← mem_heap_list st !! i;
  r ← heap_allocate heap (memory st) size;
  let '(block, heap, m) := r in
  match block with
  | None => Some (0, set_heap st i heap m)
  | Some block =>
      s ← get_size m block;
      let total := ul (s_heap_free_size st - s) in
      Some (block + MEM_BLOCK_HEAD_SIZE,
            MemHeaps (<[i := heap]> (mem_heap_list st)) total
              (if bool_decide (s_heap_free_size_watermark st > total) then total
               else s_heap_free_size_watermark st) m)
  end.

(** The search of [tuya_mem_heap_malloc] over the descriptors from [i] on. *)
Fixpoint malloc_loop (alloc : mem_heaps -> nat -> Z -> option (Z * mem_heaps)) (n i : nat)
    (st : mem_heaps) (size : Z) : option (Z * mem_heaps) :=
  match n with
  | O => Some (0, st)
  | S n =>
      heap ← mem_heap_list st !! i;
      if bool_decide (hp_size heap > 0) then
        if bool_decide (hp_free heap > u32 (size + MEM_BLOCK_MIN_SIZE)) then
          r ← alloc st i size;
          if bool_decide (fst r <> 0) then Some r else malloc_loop alloc n (S i) (snd r) size
        else malloc_loop alloc n (S i) st size
      else Some (0, st)
  end.

Definition tuya_mem_heap_malloc (st : mem_heaps) (handle : option nat) (size : Z)
    : option (Z * mem_heaps) :=
  match handle with
  | Some i => MEM_Allocate st i size
  | None => malloc_loop MEM_Allocate MEM_HEAP_LIST_NUM 0 st size
  end.

(** [memset(ptr, 0, n)] and [memcpy(dst, src, n)]. *)
Fixpoint fill_zero (n : nat) (m : mem) (ptr : Z) : option mem :=
  match n with
  | O => Some m
  | S n => m ← storeb m ptr 0; fill_zero n m (ptr + 1)
  end.

Fixpoint copy_bytes (n : nat) (m : mem) (dst src : Z) : option mem :=
  match n with
  | O => Some m
  | S n => b ← m !! src; _ ← m !! dst; copy_bytes n (<[dst := b]> m) (dst + 1) (src + 1)
  end.

Definition set_memory (st : mem_heaps) (m : mem) : mem_heaps :=
  MemHeaps (mem_heap_list st) (s_heap_free_size st) (s_heap_free_size_watermark st) m.

Definition tuya_mem_heap_calloc (st : mem_heaps) (handle : option nat) (size : Z)
    : option (Z * mem_heaps) :=
  r ← tuya_mem_heap_malloc st handle size;
  if bool_decide (fst r <> 0) then
    m ← fill_zero (Z.to_nat size) (memory (snd r)) (fst r);
    Some (fst r, set_memory (snd r) m)
  else Some r.

Definition MEM_Deallocate (st : mem_heaps) (i : nat) (ptr : Z) : option mem_heaps :=
  if bool_decide (ptr = 0) then Some st
  else
    heap ← mem_heap_list st !! i;
    r ← heap_deallocate heap (memory st) ptr;
    let '(s, heap, m) := r in
    match s with
    | None => Some st
    | Some s => Some (MemHeaps (<[i := heap]> (mem_heap_list st)) (ul (s_heap_free_size st + s))
                               (s_heap_free_size_watermark st) m)
    end.

Fixpoint free_loop (n i : nat) (st : mem_heaps) (ptr : Z) : option mem_heaps :=
  match n with
  | O => Some st
  | S n =>
      heap ← mem_heap_list st !! i;
      if bool_decide (hp_size heap > 0) then
        if bool_decide (ptr > base heap) && bool_decide (ptr < base heap + hp_size heap)
        then MEM_Deallocate st i ptr
        else free_loop n (S i) st ptr
      else Some st
  end.

Definition tuya_mem_heap_free (st : mem_heaps) (handle : option nat) (ptr : Z)
    : option mem_heaps :=
  match handle with
  | Some i => MEM_Deallocate st i ptr
  | None => free_loop MEM_HEAP_LIST_NUM 0 st ptr
  end.

(** [size] is an [unsigned int]: [size + 1] wraps at 2^32. *)
Definition tuya_mem_heap_realloc (st : mem_heaps) (handle : option nat) (ptr size : Z)
    : option (Z * mem_heaps) :=
  if bool_decide (ptr = 0) then tuya_mem_heap_malloc st handle size
  else
    let old_block := ptr - MEM_BLOCK_HEAD_SIZE in
    dog ← get_dog (memory st) old_block;
    if bool_decide (dog <> MEM_BLOCK_STAT_USE) then Some (0, st)
    else
      let size := if bool_decide (size < 4) then 4 else size in
      let new_size := ul (ALIGN_UP (u32 (size + 1)) + MEM_BLOCK_HEAD_SIZE) in
      old_size ← get_size (memory st) old_block;
      if bool_decide (new_size <= old_size) then Some (ptr, st)
      else
        r ← tuya_mem_heap_malloc st handle size;
        if bool_decide (fst r = 0) then Some r
        else
          old_size ← get_size (memory (snd r)) old_block;
          m ← copy_bytes (Z.to_nat (ul (old_size - MEM_BLOCK_HEAD_SIZE)))
                (memory (snd r)) (fst r) ptr;
          st ← tuya_mem_heap_free (set_memory (snd r) m) handle ptr;
          Some (fst r, st).

(** ** Allocation with a leak record

    The record ([filename], [line], [size], [magic]) is at the end of the block, before the word
    with the state byte. *)

Definition MEM_DBG_LEAK_MAGIC : Z := 0x13572468.

(** [sizeof(MEM_DbgLeak_t)]. *)
Definition LEAK_SIZE : Z := 4 * W.

Definition MEM_LEAK_DBG_ADDR (m : mem) (block : Z) : option Z :=
  s ← get_size m block; Some (block + s - LEAK_SIZE - W).

Definition MEM_AllocateDebug (filename line : Z) (st : mem_heaps) (i : nat) (size : Z)
    : option (Z * mem_heaps) :=
  let new_size := ALIGN_UP size in
  r ← MEM_Allocate st i (ul (new_size + LEAK_SIZE));
  let '(p, st) := r in
  if bool_decide (p <> 0) then
    leak ← MEM_LEAK_DBG_ADDR (memory st) (p - MEM_BLOCK_HEAD_SIZE);
    m ← store_le Wn (memory st) leak filename;
    m ← store_le Wn m (leak + W) line;
    m ← store_le Wn m (leak + 2 * W) size;
    m ← store_le Wn m (leak + 3 * W) MEM_DBG_LEAK_MAGIC;
    Some (p, set_memory st m)
  else Some (p, st).

Definition tuya_mem_heap_debug_malloc (st : mem_heaps) (handle : option nat)
    (size filename line : Z) : option (Z * mem_heaps) :=
  match handle with
  | Some i => MEM_AllocateDebug filename line st i size
  | None => malloc_loop (MEM_AllocateDebug filename line) MEM_HEAP_LIST_NUM 0 st size
  end.

Definition tuya_mem_heap_debug_calloc (st : mem_heaps) (handle : option nat)
    (size filename line : Z) : option (Z * mem_heaps) :=
  r ← tuya_mem_heap_debug_malloc st handle size filename line;
  if bool_decide (fst r <> 0) then
    m ← fill_zero (Z.to_nat size) (memory (snd r)) (fst r);
    Some (fst r, set_memory (snd r) m)
  else Some r.

Definition tuya_mem_heap_debug_realloc (st : mem_heaps) (handle : option nat)
    (ptr size filename line : Z) : option (Z * mem_heaps) :=
  r ← tuya_mem_heap_debug_malloc st handle size filename line;
  if bool_decide (fst r = 0) then Some r
  else
    m ← copy_bytes (Z.to_nat size) (memory (snd r)) (fst r) ptr;
    st ← tuya_mem_heap_free (set_memory (snd r) m) handle ptr;
    Some (fst r, st).

Definition tuya_mem_heap_available (st : mem_heaps) (handle : option nat) : option Z :=
  match handle with
  | None => Some (i32 (s_heap_free_size st))
  | Some i => heap ← mem_heap_list st !! i; Some (i32 (hp_free heap))
  end.

(** The state that the caller passes in and gets back: total size, free size, watermark. *)
Fixpoint total_loop (n i : nat) (st : mem_heaps) (total : Z) : option Z :=
  match n with
  | O => Some total
  | S n =>
      heap ← mem_heap_list st !! i;
      if bool_decide (hp_size heap > 0)
      then total_loop n (S i) st (ul (total + hp_size heap)) else Some total
  end.

Definition tuya_mem_heap_state (st : mem_heaps) (handle : option nat) (state : Z * Z * Z)
    : option (Z * Z * Z) :=
  match handle with
  | None =>
      total ← total_loop MEM_HEAP_LIST_NUM 0 st (fst (fst state));
      Some (total, s_heap_free_size st, s_heap_free_size_watermark st)
  | Some i =>
      heap ← mem_heap_list st !! i; Some (hp_size heap, hp_free heap, free_watermark heap)
  end.

(** ** Diagnosis *)

Record MEM_HeapStatus_t := Status {
  st_size : Z; st_free : Z; st_free_largest : Z; st_valid : bool;
  st_used_block : Z; st_free_block : Z }.

(** The walk over all blocks; the debug line of a block with a leak record is left out. *)
Fixpoint status_loop (fuel : nat) (m : mem) (addr top_addr freeBlockp : Z)
    (status : MEM_HeapStatus_t) : option MEM_HeapStatus_t :=
  if bool_decide (addr < top_addr) then
    match fuel with
    | O => None
    | S fuel =>
        dog ← get_dog m addr;
        s ← get_size m addr;
        if bool_decide (dog = MEM_BLOCK_STAT_USE) then
          if bool_decide (addr = freeBlockp) then Some status
          else
            status_loop fuel m (addr + s) top_addr freeBlockp
              (Status (st_size status) (st_free status) (st_free_largest status) false
                      (st_used_block status + 1) (st_free_block status))
        else if bool_decide (dog = MEM_BLOCK_STAT_FREE) then
          if bool_decide (addr <> freeBlockp) then Some status
          else
            let thisSize := ul (s - MEM_BLOCK_HEAD_SIZE - 1) in
            next ← get_next m freeBlockp;
            status_loop fuel m (addr + s) top_addr next
              (Status (st_size status) (ul (st_free status + thisSize))
                      (if bool_decide (thisSize > st_free_largest status) then thisSize
                       else st_free_largest status) false
                      (st_used_block status) (st_free_block status + 1))
        else Some status
    end
  else
    Some (Status (st_size status) (st_free status) (st_free_largest status)
                 (bool_decide (addr = top_addr) && bool_decide (freeBlockp = 0))
                 (st_used_block status) (st_free_block status)).

Definition MEM_HeapStatus (heap : MEM_Heap_t) (m : mem) : option MEM_HeapStatus_t :=
  status_loop (heap_fuel heap) m (ALIGN_UP (base heap)) (ALIGN_DOWN (base heap + hp_size heap))
    (free_list heap) (Status (hp_size heap) 0 0 false 0 0).
End ops.
