(* ===== verification/MemHeapInv.v ===== *)
(** * Correctness of the heap allocator

    The blocks of a heap as a list that tiles its memory; every operation of MemHeap.v keeps
    this shape, gives out and takes back one block, and touches no other used block. *)
From S2P Require Import Prelude Memory MemHeap.

(** A block: its address, its size, and whether it is given out. *)
Record blk := Blk { b_addr : Z; b_size : Z; b_used : bool }.

(** The two word sizes. *)
Class WordSize (Wn : nat) : Prop := word_size : Wn = 4%nat \/ Wn = 8%nat.
#[export] Instance word_size_4 : WordSize 4 := or_introl eq_refl.
#[export] Instance word_size_8 : WordSize 8 := or_intror eq_refl.

Section shape.
Context (Wn : nat).
#[local] Notation W := (Z.of_nat Wn).
Context `{HW : !WordSize Wn}.

(** ** Shape *)

(** The blocks cover [a, top) without gaps. *)
Fixpoint tiles (a : Z) (bs : list blk) (top : Z) : Prop :=
  match bs with
  | [] => a = top
  | b :: bs => b_addr b = a /\ 2 * W <= b_size b /\ b_size b `mod` W = 0 /\
               tiles (a + b_size b) bs top
  end.

(** The size and the last byte of a block in memory. *)
Definition blk_ok (m : mem) (b : blk) : Prop :=
  get_size Wn m (b_addr b) = Some (b_size b) /\
  exists d, m !! (b_addr b + b_size b - 1) = Some d /\
    (if b_used b then d = MEM_BLOCK_STAT_USE else d <> MEM_BLOCK_STAT_USE).

(** From [p] the [next] pointers lead through the free blocks of the list to [z]. *)
Fixpoint seg (m : mem) (p : Z) (bs : list blk) (z : Z) : Prop :=
  match bs with
  | [] => p = z
  | b :: bs => if b_used b then seg m p bs z
               else p = b_addr b /\ exists n, get_next Wn m p = Some n /\ seg m n bs z
  end.

(** No two free blocks are neighbours; [u]: whether the block before is used. *)
Fixpoint coal (u : bool) (bs : list blk) : Prop :=
  match bs with
  | [] => True
  | b :: bs => (u = true \/ b_used b = true) /\ coal (b_used b) bs
  end.

Definition last_used (u : bool) (bs : list blk) : bool := foldl (fun _ b => b_used b) u bs.

(** The last free block of a list, [p] if there is none. *)
Definition last_free (p : Z) (bs : list blk) : Z :=
  foldl (fun p b => if b_used b then p else b_addr b) p bs.

Definition used (bs : list blk) : list blk := filter (fun b => b_used b = true) bs.

Definition free_sum (bs : list blk) : Z :=
  foldr (fun b s => if b_used b then s else b_size b + s) 0 bs.

Record shape (lo hi first : Z) (m : mem) (bs : list blk) : Prop := {
  sh_lo : 0 < lo;
  sh_align : lo `mod` W = 0;
  sh_hi : hi < 2 ^ (8 * W - 2);
  sh_tiles : tiles lo bs hi;
  sh_blocks : Forall (blk_ok m) bs;
  sh_seg : seg m first bs 0;
  sh_mapped : mapped m lo hi }.

(** Every byte outside the blocks of [P] is the same. *)
Definition same_but (P : blk -> Prop) (bs : list blk) (m m' : mem) : Prop :=
  forall x, (forall c, c ∈ bs -> P c -> x < b_addr c \/ b_addr c + b_size c <= x) ->
    m' !! x = m !! x.

(** ** Lists of blocks *)

Lemma W_pos : 4 <= W <= 8.
Proof. destruct word_size as [-> | ->]; lia. Qed.

Lemma tiles_app l1 l2 : forall a top,
  tiles a (l1 ++ l2) top <-> exists mid, tiles a l1 mid /\ tiles mid l2 top.
Proof.
  induction l1 as [|b l1 IH]; intros a top; cbn [tiles app].
  - split; [intros H; by exists a|by intros (mid & -> & H)].
  - rewrite IH. naive_solver.
Qed.

Lemma tiles_le bs : forall a top, tiles a bs top -> a <= top.
Proof.
  pose proof W_pos. induction bs as [|b bs IH]; intros a top; cbn [tiles]; [lia|].
  intros (_ & Hs & _ & Ht). apply IH in Ht. lia.
Qed.

Lemma tiles_bounds bs : forall a top b,
  tiles a bs top -> b ∈ bs -> a <= b_addr b /\ b_addr b + b_size b <= top /\ 2 * W <= b_size b.
Proof.
  pose proof W_pos. induction bs as [|c bs IH]; intros a top b Ht Hb;
    [by apply not_elem_of_nil in Hb|].
  cbn [tiles] in Ht. destruct Ht as (Ha & Hs & _ & Ht).
  apply elem_of_cons in Hb as [->|Hb].
  - apply tiles_le in Ht. lia.
  - destruct (IH _ _ _ Ht Hb). lia.
Qed.

Lemma tiles_length bs : forall a top, tiles a bs top -> zlen bs <= top - a.
Proof.
  pose proof W_pos. induction bs as [|b bs IH]; intros a top; cbn [tiles].
  - intros ->. change (zlen (@nil blk)) with 0. lia.
  - intros (_ & Hs & _ & Ht). apply IH in Ht. rewrite zlen_cons. lia.
Qed.

(** Two different blocks of a heap do not overlap. *)
Lemma tiles_disjoint bs : forall a top b c,
  tiles a bs top -> b ∈ bs -> c ∈ bs -> b <> c ->
  b_addr b + b_size b <= b_addr c \/ b_addr c + b_size c <= b_addr b.
Proof.
  induction bs as [|x bs IH]; intros a top b c Ht Hb Hc Hne; [by apply not_elem_of_nil in Hb|].
  cbn [tiles] in Ht. destruct Ht as (Ha & Hs & _ & Ht).
  apply elem_of_cons in Hb as [->|Hb]; apply elem_of_cons in Hc as [->|Hc]; [done| | |].
  - destruct (tiles_bounds _ _ _ _ Ht Hc). lia.
  - destruct (tiles_bounds _ _ _ _ Ht Hb). lia.
  - by apply (IH _ _ b c Ht).
Qed.

Lemma tiles_aligned bs : forall a top b,
  a `mod` W = 0 -> tiles a bs top -> b ∈ bs -> b_addr b `mod` W = 0.
Proof.
  pose proof W_pos. induction bs as [|c bs IH]; intros a top b Ha Ht Hb;
    [by apply not_elem_of_nil in Hb|].
  cbn [tiles] in Ht. destruct Ht as (Haddr & _ & Hm & Ht).
  apply elem_of_cons in Hb as [->|Hb]; [by rewrite Haddr|].
  apply (IH _ _ b) in Ht; [done| |done]. by rewrite Z.add_mod, Ha, Hm by lia.
Qed.

Lemma coal_app l1 l2 : forall u,
  coal u (l1 ++ l2) <-> coal u l1 /\ coal (last_used u l1) l2.
Proof. induction l1 as [|b l1 IH]; intros u; cbn [coal app last_used foldl]; [tauto|]. rewrite IH. tauto. Qed.

Lemma seg_app m l1 l2 : forall p z,
  seg m p (l1 ++ l2) z <-> exists q, seg m p l1 q /\ seg m q l2 z.
Proof.
  induction l1 as [|b l1 IH]; intros p z; cbn [seg app].
  - split; [intros H; by exists p|by intros (q & -> & H)].
  - destruct (b_used b); [apply IH|]. split.
    + intros (Hp & n & Hn & Hs). apply IH in Hs. naive_solver.
    + intros (q & (Hp & n & Hn & Hs) & Hq). split; [done|]. exists n. split; [done|].
      apply IH. by exists q.
Qed.

Definition all_used (bs : list blk) : Prop := Forall (fun b => b_used b = true) bs.

Lemma seg_all_used m l : forall p z, all_used l -> seg m p l z <-> p = z.
Proof.
  induction l as [|b l IH]; intros p z Hl; cbn [seg]; [done|]. inversion Hl as [|? ? Hb Hl']; subst.
  rewrite Hb. by apply IH.
Qed.

Lemma last_free_all_used l : forall p, all_used l -> last_free p l = p.
Proof.
  unfold last_free. induction l as [|b l IH]; intros p Hl; [done|].
  inversion Hl as [|? ? Hb Hl']; subst. cbn [foldl]. rewrite Hb. by apply IH.
Qed.

Lemma last_free_app p l1 l2 : last_free p (l1 ++ l2) = last_free (last_free p l1) l2.
Proof. apply foldl_app. Qed.

(** The last free block of a list, if any. *)
Lemma last_free_split l : forall p,
  (all_used l /\ last_free p l = p) \/
  exists k1 b k2, l = k1 ++ b :: k2 /\ b_used b = false /\ all_used k2 /\ last_free p l = b_addr b.
Proof.
  induction l as [|b l IH] using rev_ind; intros p; [left; by split; [constructor|]|].
  rewrite last_free_app. unfold last_free at 1 3. cbn [foldl].
  destruct (b_used b) eqn:Hb.
  - destruct (IH p) as [[Hl Hp]|(k1 & c & k2 & -> & Hc & Hk & Hp)].
    + left. split; [|done]. apply Forall_app. split; [done|]. by repeat constructor.
    + right. exists k1, c, (k2 ++ [b]). split; [by rewrite <- app_assoc|]. split; [done|].
      split; [|done]. apply Forall_app. split; [done|]. by repeat constructor.
  - right. exists l, b, []. split; [done|]. split; [done|]. by split; [constructor|].
Qed.

(** The first free block of a list, if any. *)
Lemma first_free_split m q l z :
  seg m q l z ->
  (all_used l /\ q = z) \/
  exists k1 b k2 n, l = k1 ++ b :: k2 /\ all_used k1 /\ b_used b = false /\ q = b_addr b /\
    get_next Wn m q = Some n /\ seg m n k2 z.
Proof.
  induction l as [|b l IH]; cbn [seg]; intros Hs; [left; by split; [constructor|]|].
  destruct (b_used b) eqn:Hb.
  - destruct (IH Hs) as [[Hl Hq]|(k1 & c & k2 & n & -> & Hk & Hc & Hq & Hn & Hs')].
    + left. by split; [constructor|].
    + right. exists (b :: k1), c, k2, n. split; [done|]. by split; [constructor|].
  - destruct Hs as (Hp & n & Hn & Hs). right. exists [], b, l, n. split; [done|].
    by split; [constructor|].
Qed.

Lemma free_sum_app l1 l2 : free_sum (l1 ++ l2) = free_sum l1 + free_sum l2.
Proof.
  induction l1 as [|b l1 IH]; simpl; [done|]. destruct (b_used b); rewrite IH; lia.
Qed.

Lemma free_sum_cons b l : free_sum (b :: l) = if b_used b then free_sum l else b_size b + free_sum l.
Proof. done. Qed.

Lemma used_app l1 l2 : used (l1 ++ l2) = used l1 ++ used l2.
Proof. apply filter_app. Qed.

Lemma used_cons b l : used (b :: l) = if b_used b then b :: used l else used l.
Proof.
  unfold used. destruct (b_used b) eqn:Hb;
    [by rewrite filter_cons_True|by rewrite filter_cons_False by congruence].
Qed.

Lemma elem_of_used b bs : b ∈ used bs <-> b_used b = true /\ b ∈ bs.
Proof. unfold used. by rewrite list_elem_of_filter. Qed.

(** ** Frames *)

Lemma blk_ok_frame lo hi m m' b :
  2 * W <= b_size b -> only_in lo hi m m' ->
  b_addr b + b_size b <= lo \/ hi <= b_addr b -> blk_ok m b -> blk_ok m' b.
Proof.
  pose proof W_pos. unfold blk_ok, get_size. intros Hs Ho Hd (Hl & d & Hdog & Hu).
  rewrite (only_in_load lo hi m m') by (done || lia). split; [done|]. exists d.
  by rewrite (only_in_byte lo hi m m') by (done || lia).
Qed.

Lemma blks_ok_frame lo hi m m' bs a top :
  tiles a bs top -> only_in lo hi m m' -> top <= lo \/ hi <= a ->
  Forall (blk_ok m) bs -> Forall (blk_ok m') bs.
Proof.
  intros Ht Ho Hd Hb. rewrite Forall_forall in *. intros b Hin.
  destruct (tiles_bounds _ _ _ _ Ht Hin) as (H1 & H2 & H3).
  apply (blk_ok_frame lo hi m); [done|done|lia|by apply Hb].
Qed.

Lemma seg_frame lo hi m m' bs : forall a top p z,
  tiles a bs top -> only_in lo hi m m' -> top <= lo \/ hi <= a ->
  seg m p bs z -> seg m' p bs z.
Proof.
  pose proof W_pos. induction bs as [|b bs IH]; intros a top p z Ht Ho Hd; cbn [tiles seg] in *;
    [done|]. destruct Ht as (Ha & Hs & _ & Ht). pose proof (tiles_le _ _ _ Ht).
  destruct (b_used b).
  - apply (IH _ _ _ _ Ht Ho). lia.
  - intros (-> & n & Hn & Hseg). split; [done|]. exists n. split.
    + unfold get_next. rewrite (only_in_load lo hi m m') by (done || lia). done.
    + apply (IH _ _ _ _ Ht Ho); [lia|done].
Qed.

(** ** Stores *)

Lemma word_pow : 256 ^ W = 2 ^ (8 * W).
Proof. change 256 with (2 ^ 8). rewrite <- Z.pow_mul_r by lia. done. Qed.

Lemma store_word_ok m a v :
  mapped m a (a + W) -> 0 <= v < 2 ^ (8 * W) ->
  exists m', store_le Wn m a v = Some m' /\ only_in a (a + W) m m' /\ load_le Wn m' a = Some v.
Proof.
  intros Hm Hv. destruct (store_ok Wn m a v Hm) as (m' & Hs & Ho & Hl).
  exists m'. rewrite word_pow in Hl. by rewrite Z.mod_small in Hl by lia.
Qed.

Lemma set_dog_ok m b s v :
  get_size Wn m b = Some s -> is_Some (m !! (b + s - 1)) -> 0 <= v < 256 ->
  exists m', set_dog Wn m b v = Some m' /\ only_in (b + s - 1) (b + s) m m' /\
    m' !! (b + s - 1) = Some v.
Proof.
  intros Hs Hb Hv. unfold set_dog, MEM_DOG_ADDR. rewrite Hs. ub_step.
  destruct (storeb_ok m (b + s - 1) v Hb) as (m' & -> & Ho & Hl). exists m'.
  split; [done|]. rewrite Z.mod_small in Hl by lia. split; [|done].
  by replace (b + s - 1 + 1) with (b + s) in Ho by lia.
Qed.

Lemma pow_split : 2 ^ (8 * W) = 4 * 2 ^ (8 * W - 2).
Proof.
  pose proof W_pos. change 4 with (2 ^ 2). rewrite <- Z.pow_add_r by lia. f_equal. lia.
Qed.

Lemma ul_small z : 0 <= z < 2 ^ (8 * W) -> ul Wn z = z.
Proof. intros Hz. unfold ul. by apply wrap_small. Qed.
End shape.

(** Loads and bytes of a memory that only changed elsewhere. *)
Ltac frame :=
  repeat match goal with
  | H : only_in ?lo ?hi ?m ?m' |- context [load_le ?n ?m' ?a] =>
      rewrite (only_in_load lo hi m m' n a H) by lia
  | H : only_in ?lo ?hi ?m ?m' |- context [?m' !! ?a] =>
      rewrite (only_in_byte lo hi m m' a H) by lia
  end.

Section loops.
Context (Wn : nat).
#[local] Notation W := (Z.of_nat Wn).
#[local] Notation blk_ok := (blk_ok Wn).
#[local] Notation seg := (seg Wn).

(** ** The search for a block *)

(** [t] is a free block of [l] of at least [n] bytes, and [p] the free block before it. *)
Definition fits (l : list blk) (n pre t p : Z) : Prop :=
  exists k1 b k2, l = k1 ++ b :: k2 /\ b_used b = false /\ t = b_addr b /\ n <= b_size b /\
    p = last_free pre k1.

Lemma fits_cons b l n pre t p :
  fits l n (if b_used b then pre else b_addr b) t p -> fits (b :: l) n pre t p.
Proof. intros (k1 & c & k2 & -> & H). by exists (b :: k1), c, k2. Qed.

Lemma fits_here b l n pre : b_used b = false -> n <= b_size b -> fits (b :: l) n pre (b_addr b) pre.
Proof. intros Hb Hn. by exists [], b, l. Qed.

Lemma fit_loop_ok m n l : forall fuel this s pre pre_bak bak num,
  seg m bak l 0 -> Forall (blk_ok m) l -> Forall (fun b => 0 < b_addr b) l ->
  (length l <= fuel)%nat -> get_size Wn m this = Some s -> n <= s ->
  exists t p, fit_loop Wn fuel m n this pre pre_bak bak num = Some (t, p) /\
    ((t = this /\ p = pre) \/ fits l n pre_bak t p).
Proof.
  induction l as [|b l IH]; intros fuel this s pre pre_bak bak num Hseg Hok Hpos Hf Hs Hn;
    cbn [MemHeapInv.seg] in Hseg.
  - subst bak. exists this, pre. split; [by destruct fuel|by left].
  - inversion Hok as [|? ? Hb Hok']; subst. inversion Hpos as [|? ? Hp Hpos']; subst.
    simpl in Hf. destruct (b_used b) eqn:Hu.
    + destruct (IH fuel this s pre pre_bak bak num) as (t & p & Ht & Hc); [done..|lia|done|done|].
      exists t, p. split; [done|]. destruct Hc as [Hc|Hc]; [by left|right].
      apply fits_cons. by rewrite Hu.
    + destruct Hseg as (-> & nx & Hnx & Hseg). destruct fuel as [|fuel]; [lia|].
      cbn [fit_loop]. rewrite bool_decide_false by lia.
      destruct Hb as [Hbs _]. rewrite Hbs. ub_step. rewrite Hs. ub_step.
      destruct (bool_decide (b_size b >= n) && bool_decide (b_size b <= s)) eqn:Hbet.
      * apply andb_true_iff in Hbet as [Hge%bool_decide_eq_true _].
        assert (Hhere : fits (b :: l) n pre_bak (b_addr b) pre_bak) by (apply fits_here; [done|lia]).
        case_bool_decide.
        { eexists _, _. split; [done|]. by right. }
        rewrite Hnx. ub_step.
        destruct (IH fuel (b_addr b) (b_size b) pre_bak (b_addr b) nx (num + 1))
          as (t & p & Ht & Hc); [done..|lia|done|lia|].
        exists t, p. split; [done|]. right. destruct Hc as [[-> ->]|Hc]; [done|].
        apply fits_cons. by rewrite Hu.
      * clear Hbet. case_bool_decide; [eexists _, _; split; [done|by left]|]. rewrite Hnx. ub_step.
        destruct (IH fuel this s pre (b_addr b) nx num) as (t & p & Ht & Hc); [done..|lia|done|done|].
        exists t, p. split; [done|]. destruct Hc as [Hc|Hc]; [by left|right].
        apply fits_cons. by rewrite Hu.
Qed.

Lemma chunk_loop_ok m n l : forall fuel pre this,
  seg m this l 0 -> Forall (blk_ok m) l -> Forall (fun b => 0 < b_addr b) l ->
  (length l <= fuel)%nat ->
  exists r, chunk_loop Wn fuel m n pre this = Some r /\
    match r with
    | None => Forall (fun b => b_used b = false -> b_size b < n) l
    | Some (t, p) => fits l n pre t p
    end.
Proof.
  induction l as [|b l IH]; intros fuel pre this Hseg Hok Hpos Hf; cbn [MemHeapInv.seg] in Hseg.
  - subst this. exists None. split; [by destruct fuel|constructor].
  - inversion Hok as [|? ? Hb Hok']; subst. inversion Hpos as [|? ? Hp Hpos']; subst.
    simpl in Hf. destruct (b_used b) eqn:Hu.
    + destruct (IH fuel pre this) as (r & Hr & Hc); [done..|lia|].
      exists r. split; [done|]. destruct r as [[t p]|].
      * apply fits_cons. by rewrite Hu.
      * constructor; [by rewrite Hu|done].
    + destruct Hseg as (-> & nx & Hnx & Hseg). destruct fuel as [|fuel]; [lia|].
      cbn [chunk_loop]. rewrite bool_decide_false by lia.
      destruct Hb as [Hbs _]. rewrite Hbs. ub_step. rewrite Hnx. ub_step.
      case_bool_decide as Hge.
      * destruct (fit_loop_ok m n l (S fuel) (b_addr b) (b_size b) pre (b_addr b) nx 0)
          as (t & p & -> & Hc); [done..|lia|done|lia|]. ub_step.
        eexists. split; [done|]. destruct Hc as [[-> ->]|Hc]; [apply fits_here; [done|lia]|].
        apply fits_cons. by rewrite Hu.
      * destruct (IH fuel (b_addr b) nx) as (r & Hr & Hc); [done..|lia|].
        exists r. split; [done|]. destruct r as [[t p]|].
        -- apply fits_cons. by rewrite Hu.
        -- constructor; [lia|done].
Qed.

(** The walk to the place of a block at [a]: past the free blocks before it. *)
Lemma place_loop_ok m a l1 : forall fuel pre p q,
  seg m p l1 q -> Forall (fun b => 0 < b_addr b < a) l1 -> (length l1 <= fuel)%nat ->
  q = 0 \/ a < q ->
  place_loop Wn fuel m a pre p = Some (last_free pre l1, q).
Proof.
  induction l1 as [|b l1 IH]; intros fuel pre p q Hseg Hpos Hf Hq; cbn [MemHeapInv.seg] in Hseg.
  - subst p. destruct Hq as [->|Hq].
    + by destruct fuel.
    + destruct fuel; cbn [place_loop]; by rewrite (bool_decide_false (q < a)), andb_false_r by lia.
  - inversion Hpos as [|? ? Hp Hpos']; subst. simpl in Hf. cbn [last_free foldl].
    destruct (b_used b) eqn:Hu; [apply IH; [done..|lia|done]|].
    destruct Hseg as (-> & nx & Hnx & Hseg). destruct fuel as [|fuel]; [lia|].
    cbn [place_loop]. rewrite (bool_decide_false (b_addr b = 0)), bool_decide_true by lia.
    cbn [negb andb]. rewrite Hnx. ub_step. apply IH; [done..|lia|done].
Qed.
End loops.

Section allocate.
Context (Wn : nat).
#[local] Notation W := (Z.of_nat Wn).
Context `{HW : !WordSize Wn}.
#[local] Notation blk_ok := (blk_ok Wn).
#[local] Notation seg := (seg Wn).
#[local] Notation tiles := (tiles Wn).
#[local] Notation shape := (shape Wn).

(** A piece of the list that is replaced by another one that covers the same addresses. *)
Lemma shape_mid lo hi first m l1 mid l2 :
  shape lo hi first m (l1 ++ mid ++ l2) ->
  exists a1 a2 q r, tiles lo l1 a1 /\ tiles a1 mid a2 /\ tiles a2 l2 hi /\
    seg m first l1 q /\ seg m q mid r /\ seg m r l2 0 /\ Forall (blk_ok m) mid /\
    forall m' mid', only_in a1 a2 m m' -> tiles a1 mid' a2 -> Forall (blk_ok m') mid' ->
      seg m' q mid' r -> shape lo hi first m' (l1 ++ mid' ++ l2).
Proof.
  intros Hs. pose proof (sh_tiles _ _ _ _ _ _ Hs) as Ht.
  apply tiles_app in Ht as (a1 & Ht1 & Ht). apply tiles_app in Ht as (a2 & Htm & Ht2).
  pose proof (sh_seg _ _ _ _ _ _ Hs) as Hseg.
  apply seg_app in Hseg as (q & Hs1 & Hseg). apply seg_app in Hseg as (r & Hsm & Hs2).
  pose proof (sh_blocks _ _ _ _ _ _ Hs) as Hb. rewrite !Forall_app in Hb.
  destruct Hb as (Hb1 & Hbm & Hb2).
  exists a1, a2, q, r. do 7 (split; [done|]). intros m' mid' Ho Htm' Hbm' Hsm'.
  constructor; try apply Hs.
  - apply tiles_app. exists a1. split; [done|]. apply tiles_app. by exists a2.
  - rewrite !Forall_app. split; [|split; [done|]].
    + eapply blks_ok_frame; [done..| |done]. left. lia.
    + eapply blks_ok_frame; [done..| |done]. right. lia.
  - apply seg_app. exists q. split; [eapply seg_frame; [done..| |done]; left; lia|].
    apply seg_app. exists r. split; [done|]. eapply seg_frame; [done..| |done]. right. lia.
  - eapply only_in_mapped; [exact Ho|apply Hs].
Qed.

Lemma shape_byte lo hi first m bs x : shape lo hi first m bs -> lo <= x < hi -> is_Some (m !! x).
Proof. intros Hs. apply (sh_mapped _ _ _ _ _ _ Hs). Qed.

(** Splitting a free block: the last [n] bytes are given out. *)
Lemma split_ok lo hi first m l1 b l2 n (heap : MEM_Heap_t) :
  shape lo hi first m (l1 ++ b :: l2) -> b_used b = false ->
  n `mod` W = 0 -> 2 * W <= n -> n + MEM_HEAP_MIN_SIZE Wn <= b_size b ->
  exists m',
    (m ← set_size Wn m (b_addr b) (ul Wn (b_size b - n));
     m ← set_dog Wn m (b_addr b) MEM_BLOCK_STAT_FREE;
     rest ← get_size Wn m (b_addr b);
     m ← set_size Wn m (b_addr b + rest) n;
     m ← set_dog Wn m (b_addr b + rest) MEM_BLOCK_STAT_USE;
     Some (Some (b_addr b + rest), heap, m)) = Some (Some (b_addr b + (b_size b - n)), heap, m') /\
    shape lo hi first m'
      (l1 ++ [Blk (b_addr b) (b_size b - n) false; Blk (b_addr b + (b_size b - n)) n true] ++ l2) /\
    only_in (b_addr b) (b_addr b + b_size b) m m'.
Proof.
  intros Hs Hu Hn Hn2 Hmin. pose proof (W_pos Wn) as HWp.
  unfold MEM_HEAP_MIN_SIZE, MEM_BLOCK_MIN_SIZE, MEM_BLOCK_HEAD_SIZE in Hmin.
  destruct (shape_mid lo hi first m l1 [b] l2 Hs) as (a1&a2&q&r&Ht1&Htm&Ht2&_&Hsm&_&Hb&Hmk).
  cbn [MemHeapInv.tiles] in Htm. destruct Htm as (<- & _ & Hmod & <-).
  cbn [MemHeapInv.seg] in Hsm. rewrite Hu in Hsm. destruct Hsm as (-> & nx & Hnx & <-).
  inversion Hb as [|? ? [Hbs _] _]; subst. clear Hb.
  pose proof (tiles_le _ _ _ _ Ht1). pose proof (tiles_le _ _ _ _ Ht2).
  pose proof (sh_hi _ _ _ _ _ _ Hs). pose proof (sh_lo _ _ _ _ _ _ Hs).
  pose proof (pow_split Wn) as Hpow.
  assert (Hmap : mapped m (b_addr b) (b_addr b + b_size b))
    by (intros x Hx; apply (shape_byte _ _ _ _ _ _ Hs); lia).
  set (a := b_addr b) in *. set (s := b_size b) in *. rewrite ul_small by lia.
  destruct (store_word_ok Wn m a (s - n)) as (m1 & He1 & Ho1 & Hl1);
    [eapply mapped_mono; [| |exact Hmap]; lia|lia|].
  unfold set_size. rewrite He1. ub_step.
  destruct (set_dog_ok Wn m1 a (s - n) MEM_BLOCK_STAT_FREE) as (m2 & -> & Ho2 & Hd2);
    [done|apply Ho1, Hmap; lia|done|].
  ub_step. assert (Hl2 : get_size Wn m2 a = Some (s - n)) by (unfold get_size; by frame).
  rewrite Hl2. ub_step.
  destruct (store_word_ok Wn m2 (a + (s - n)) n) as (m3 & He3 & Ho3 & Hl3);
    [intros x Hx; apply Ho2, Ho1, Hmap; lia|lia|].
  rewrite He3. ub_step.
  destruct (set_dog_ok Wn m3 (a + (s - n)) n MEM_BLOCK_STAT_USE) as (m4 & -> & Ho4 & Hd4);
    [done|apply Ho3, Ho2, Ho1, Hmap; lia|done|].
  ub_step.
  assert (Ho : only_in a (a + s) m m4).
  { apply only_in_trans with m1; [eapply only_in_weaken; [| |exact Ho1]; lia|].
    apply only_in_trans with m2; [eapply only_in_weaken; [| |exact Ho2]; lia|].
    apply only_in_trans with m3; eapply only_in_weaken; [| |exact Ho3| | |exact Ho4]; lia. }
  exists m4. split; [done|]. split; [|done]. apply Hmk; [done| | |].
  - cbn [tiles b_addr b_size]. split; [done|]. split; [lia|].
    split; [by rewrite Zminus_mod, Hmod, Hn|]. split; [done|]. split; [lia|]. split; [done|]. lia.
  - repeat constructor; unfold get_size; cbn [b_addr b_size b_used].
    + frame. exact Hl1.
    + exists MEM_BLOCK_STAT_FREE. split; [|done]. frame. exact Hd2.
    + frame. exact Hl3.
    + exists MEM_BLOCK_STAT_USE. split; [|done]. exact Hd4.
  - cbn [seg b_used b_addr]. split; [done|]. exists nx. split; [|done].
    unfold get_next in *. frame. exact Hnx.
Qed.

(** Writing the [next] pointer of a free block keeps it well formed: in the smallest blocks
    its last byte is the block's state byte, which then is no used mark because addresses are
    small. *)
Lemma set_next_ok m b z :
  blk_ok m b -> b_used b = false -> 2 * W <= b_size b ->
  mapped m (b_addr b) (b_addr b + b_size b) -> 0 <= z < 2 ^ (8 * W - 2) ->
  exists m', set_next Wn m (b_addr b) z = Some m' /\
    only_in (b_addr b + W) (b_addr b + 2 * W) m m' /\ blk_ok m' b /\
    get_next Wn m' (b_addr b) = Some z.
Proof.
  intros [Hsz (d & Hd & Hu')] Hu H2 Hmap Hz. rewrite Hu in Hu'. pose proof (W_pos Wn) as HWp.
  pose proof (pow_split Wn) as Hpow.
  destruct (store_word_ok Wn m (b_addr b + W) z) as (m' & He & Ho & Hl);
    [eapply mapped_mono; [| |exact Hmap]; lia|lia|].
  replace (b_addr b + W + W) with (b_addr b + 2 * W) in Ho by lia.
  exists m'. unfold set_next. rewrite He. split; [done|]. split; [done|]. split; [|done].
  split; [unfold get_size in *; by frame|]. rewrite Hu.
  destruct (decide (b_size b = 2 * W)) as [Heq|Hne].
  - exists ((z / 256 ^ (W - 1)) `mod` 256). split.
    + destruct (Nat.eq_dec Wn (S (pred Wn))) as [HS|]; [|lia].
      rewrite HS in He. apply store_last_byte in He. rewrite <- HS in He.
      replace (Z.of_nat (pred Wn)) with (W - 1) in He by lia.
      replace (b_addr b + b_size b - 1) with (b_addr b + W + (W - 1)) by lia. done.
    + unfold MEM_BLOCK_STAT_USE.
      assert (z / 256 ^ (W - 1) < 64).
      { apply Z.div_lt_upper_bound; [apply Z.pow_pos_nonneg; lia|].
        change 256 with (2 ^ 8). rewrite <- Z.pow_mul_r by lia. change 64 with (2 ^ 6).
        rewrite <- Z.pow_add_r by lia. replace (8 * (W - 1) + 6) with (8 * W - 2) by lia. lia. }
      assert (0 <= z / 256 ^ (W - 1)) by (apply Z.div_pos; [lia|apply Z.pow_pos_nonneg; lia]).
      rewrite Z.mod_small by lia. lia.
  - exists d. split; [|done]. by frame.
Qed.

(** Making the free block before a position, or the list head, point to [z]. *)
Lemma relink_ok m first l1 a1 lo q z :
  tiles lo l1 a1 -> 0 < lo -> mapped m lo a1 -> Forall (blk_ok m) l1 -> seg m first l1 q ->
  0 <= z < 2 ^ (8 * W - 2) ->
  (last_free 0 l1 = 0 /\ all_used l1 /\ first = q) \/
  (exists c m', c ∈ l1 /\ b_used c = false /\ last_free 0 l1 = b_addr c /\ 0 < b_addr c /\
     b_addr c + b_size c <= a1 /\ 2 * W <= b_size c /\
     (b_addr c + b_size c = a1 -> exists k, l1 = k ++ [c]) /\
     (b_addr c + b_size c <> a1 -> exists k d, l1 = k ++ [d] /\ b_used d = true) /\
     get_size Wn m (b_addr c) = Some (b_size c) /\ get_next Wn m (b_addr c) = Some q /\
     set_next Wn m (b_addr c) z = Some m' /\
     only_in (b_addr c + W) (b_addr c + 2 * W) m m' /\
     Forall (blk_ok m') l1 /\ seg m' first l1 z).
Proof.
  intros Ht Hlo Hmap Hok Hseg Hz. pose proof (W_pos Wn) as HWp.
  destruct (last_free_split l1 0) as [[Hall Hp]|(k1 & c & k2 & -> & Hc & Hk2 & Hp)].
  { left. split; [done|]. split; [done|]. by apply seg_all_used in Hseg. }
  right. apply tiles_app in Ht as (ac & Ht1 & Ht2). cbn [MemHeapInv.tiles] in Ht2.
  destruct Ht2 as (<- & H2 & Hmod & Ht2).
  apply seg_app in Hseg as (qc & Hs1 & Hs2). cbn [MemHeapInv.seg] in Hs2. rewrite Hc in Hs2.
  destruct Hs2 as (-> & n & Hn & Hs2). apply seg_all_used in Hs2; [|done]. subst n.
  rewrite Forall_app in Hok. destruct Hok as [Hok1 Hok2]. inversion Hok2 as [|? ? Hokc Hok3]; subst.
  pose proof (tiles_le _ _ _ _ Ht1). pose proof (tiles_le _ _ _ _ Ht2).
  destruct (set_next_ok m c z) as (m' & He & Ho & Hok' & Hn');
    [done..|intros x Hx; apply Hmap; lia|done|].
  exists c, m'. split; [rewrite elem_of_app, elem_of_cons; tauto|]. split; [done|]. split; [done|].
  split; [lia|]. split; [lia|]. split; [done|]. split; [|split].
  - intros Heq. exists k1. destruct k2 as [|d k2]; [done|].
    cbn [MemHeapInv.tiles] in Ht2. destruct Ht2 as (_ & ? & _ & Ht2).
    pose proof (tiles_le _ _ _ _ Ht2). lia.
  - intros Hne. destruct k2 as [|d k2] using rev_ind; [done|]. clear IHk2.
    exists (k1 ++ c :: k2), d. split; [by rewrite <- app_assoc|].
    apply Forall_app in Hk2 as [_ Hd]. by inversion Hd.
  - split; [apply Hokc|]. split; [done|]. split; [done|]. split; [done|]. split.
    + rewrite Forall_app. split.
      * eapply blks_ok_frame; [done..| |done]. left. lia.
      * constructor; [done|]. eapply blks_ok_frame; [done..| |done]. right. lia.
    + apply seg_app. exists (b_addr c). split.
      * eapply seg_frame; [done..| |done]. left. lia.
      * cbn [MemHeapInv.seg]. rewrite Hc. split; [done|]. exists z. split; [done|].
        by apply seg_all_used.
Qed.

Lemma seg_range m q l a hi :
  seg m q l 0 -> tiles a l hi -> 0 < a -> q = 0 \/ a <= q < hi.
Proof.
  pose proof (W_pos Wn). intros Hs Ht Ha.
  destruct (first_free_split _ _ _ _ _ Hs) as [[_ ->]|(k1 & b & k2 & n & -> & _ & _ & -> & _)];
    [by left|right].
  destruct (tiles_bounds _ _ _ _ b Ht) as (H1 & H2 & H3);
    [rewrite elem_of_app, elem_of_cons; tauto|]. lia.
Qed.

Lemma heap_eta h : Heap (free_list h) (base h) (hp_size h) (hp_free h) (free_watermark h) = h.
Proof. by destruct h. Qed.

(** The heap with another first free block. *)
Definition with_first (first : Z) (h : MEM_Heap_t) : MEM_Heap_t :=
  Heap first (base h) (hp_size h) (hp_free h) (free_watermark h).

(** Giving out a free block as it is. *)
Lemma whole_ok lo hi m l1 b l2 heap :
  shape lo hi (free_list heap) m (l1 ++ b :: l2) -> b_used b = false ->
  exists m' first',
    (next ← get_next Wn m (b_addr b);
     r ← (if bool_decide (last_free 0 l1 <> 0)
          then m ← set_next Wn m (last_free 0 l1) next; Some (heap, m)
          else Some (with_first next heap, m));
     m ← set_dog Wn (snd r) (b_addr b) MEM_BLOCK_STAT_USE;
     Some (Some (b_addr b), fst r, m)) = Some (Some (b_addr b), with_first first' heap, m') /\
    shape lo hi first' m' (l1 ++ [Blk (b_addr b) (b_size b) true] ++ l2) /\
    same_but (fun c => b_used c = false) (l1 ++ b :: l2) m m'.
Proof.
  intros Hs Hu. pose proof (W_pos Wn) as HWp. pose proof (sh_lo _ _ _ _ _ _ Hs) as Hlo.
  destruct (shape_mid lo hi _ m l1 [b] l2 Hs) as (a1&a2&q&r&Ht1&Htm&Ht2&Hs1&Hsm&Hs2&Hb&_).
  cbn [MemHeapInv.tiles] in Htm. destruct Htm as (<- & H2W & Hmod & <-).
  cbn [MemHeapInv.seg] in Hsm. rewrite Hu in Hsm. destruct Hsm as (-> & nx & Hnx & <-).
  inversion Hb as [|? ? Hokb _]; subst. clear Hb.
  pose proof (sh_blocks _ _ _ _ _ _ Hs) as Hok. rewrite Forall_app in Hok.
  destruct Hok as [Hok1 Hok2]. inversion Hok2 as [|? ? _ Hok3]; subst.
  pose proof (tiles_le _ _ _ _ Ht1). pose proof (tiles_le _ _ _ _ Ht2).
  pose proof (sh_hi _ _ _ _ _ _ Hs). pose proof (sh_mapped _ _ _ _ _ _ Hs) as Hmap.
  assert (Hrange : 0 <= nx < 2 ^ (8 * W - 2)).
  { destruct (seg_range _ _ _ _ _ Hs2 Ht2); lia. }
  assert (Hend : forall m1 first', only_in lo (b_addr b) m m1 -> Forall (blk_ok m1) l1 ->
    seg m1 first' l1 nx ->
    exists m', set_dog Wn m1 (b_addr b) MEM_BLOCK_STAT_USE = Some m' /\
      only_in (b_addr b) (b_addr b + b_size b) m1 m' /\
      shape lo hi first' m' (l1 ++ [Blk (b_addr b) (b_size b) true] ++ l2)).
  { intros m1 first' Ho1 Hok1' Hs1'.
    assert (Hsz : get_size Wn m1 (b_addr b) = Some (b_size b)).
    { destruct Hokb as [Hsz _]. unfold get_size in *. by frame. }
    destruct (set_dog_ok Wn m1 (b_addr b) (b_size b) MEM_BLOCK_STAT_USE) as (m' & He & Ho & Hd);
      [done|apply Ho1, Hmap; lia|done|].
    exists m'. split; [done|]. split; [eapply only_in_weaken; [| |exact Ho]; lia|].
    assert (Hall : only_in lo (b_addr b + b_size b) m m').
    { apply only_in_trans with m1; eapply only_in_weaken; [| |exact Ho1| | |exact Ho]; lia. }
    constructor; try apply Hs.
    - apply tiles_app. exists (b_addr b). split; [done|]. cbn [app MemHeapInv.tiles b_addr b_size].
      done.
    - rewrite !Forall_app. split; [|split].
      + apply (blks_ok_frame Wn _ _ m1 m' _ _ _ Ht1 Ho); [left; lia|done].
      + constructor; [|constructor]. split; cbn [b_addr b_size b_used];
          [unfold get_size; by rewrite (only_in_load _ _ m1 m' _ _ Ho) by lia|].
        by exists MEM_BLOCK_STAT_USE.
      + apply (blks_ok_frame Wn _ _ m m' _ _ _ Ht2 Hall); [right; lia|done].
    - apply seg_app. exists nx. split.
      + apply (seg_frame Wn _ _ m1 m' _ _ _ _ _ Ht1 Ho); [left; lia|done].
      + cbn [app MemHeapInv.seg b_used].
        apply (seg_frame Wn _ _ m m' _ _ _ _ _ Ht2 Hall); [right; lia|done].
    - eapply only_in_mapped; [exact Hall|done]. }
  assert (Hbin : b ∈ l1 ++ b :: l2) by (rewrite elem_of_app, elem_of_cons; tauto).
  rewrite Hnx. ub_step.
  destruct (relink_ok m (free_list heap) l1 (b_addr b) lo (b_addr b) nx)
    as [(Hp & Hall & Hfirst)|(c & m1 & Hc & Hcu & Hp & Hc0 & Hcb & Hcs & _ & _ & _ & _ & He & Ho & Hok1' & Hs1')];
    [done|done|eapply mapped_mono; [| |exact Hmap]; lia|done|done|done| |].
  - rewrite Hp, bool_decide_false by lia. ub_step. cbn [fst snd].
    destruct (Hend m nx) as (m' & -> & Ho & Hsh); [apply only_in_refl|done|by apply seg_all_used|].
    ub_step. exists m', nx. split; [done|]. split; [done|].
    intros x Hx. apply (only_in_byte _ _ _ _ _ Ho). by apply Hx.
  - rewrite Hp, bool_decide_true by lia. rewrite He. ub_step. cbn [fst snd].
    destruct (tiles_bounds _ _ _ _ _ Ht1 Hc) as (? & ? & ?).
    destruct (Hend m1 (free_list heap)) as (m' & -> & Ho' & Hsh);
      [eapply only_in_weaken; [| |exact Ho]; lia|done|done|].
    ub_step. exists m', (free_list heap). split; [unfold with_first; by rewrite heap_eta|].
    split; [done|]. intros x Hx. rewrite (only_in_byte _ _ _ _ _ Ho') by (by apply Hx).
    apply (only_in_byte _ _ _ _ _ Ho). destruct (Hx c); [rewrite elem_of_app; tauto|done|lia|lia].
Qed.
End allocate.

Section heap.
Context (Wn : nat).
#[local] Notation W := (Z.of_nat Wn).
Context `{HW : !WordSize Wn}.
#[local] Notation shape := (shape Wn).

(** A heap whose blocks are [bs]; [lo] and [hi] are the aligned ends of its memory. *)
Record heap_rep (lo hi : Z) (h : MEM_Heap_t) (m : mem) (bs : list blk) : Prop := {
  hr_shape : shape lo hi (free_list h) m bs;
  hr_coal : coal true bs;
  hr_free : hp_free h = free_sum bs;
  hr_size : hi - lo <= hp_size h }.

(** The size of the block for a request: the user's bytes and the state byte, rounded up, and
    the size field. *)
Definition need (size : Z) : Z := (Z.max 4 size + W) / W * W + W.

Lemma land_lnot y : 0 <= y -> Z.land y (Z.lnot (W - 1)) = y / W * W.
Proof.
  intros Hy. rewrite <- Z.ldiff_land.
  assert (Hk : exists k, 0 <= k /\ W = 2 ^ k /\ W - 1 = Z.ones k).
  { destruct (@word_size Wn _) as [-> | ->]; [by exists 2|by exists 3]. }
  destruct Hk as (k & Hk & Hw & ->). rewrite Z.ldiff_ones_r by done.
  by rewrite Z.shiftl_mul_pow2, Z.shiftr_div_pow2, <- Hw by done.
Qed.

Lemma need_spec size :
  0 < size -> need size `mod` W = 0 /\ Z.max 4 size + 1 + W <= need size <= Z.max 4 size + 2 * W /\
    2 * W <= need size.
Proof.
  intros Hs. pose proof (W_pos Wn). unfold need.
  pose proof (Z.div_mod (Z.max 4 size + W) W ltac:(lia)).
  pose proof (Z.mod_pos_bound (Z.max 4 size + W) W ltac:(lia)).
  split; [|split; [nia|]].
  - rewrite Z.add_mod, Z.mod_mul, Z_mod_same_full by lia. apply Z.mod_0_l. lia.
  - assert (1 <= (Z.max 4 size + W) / W) by (apply Z.div_le_lower_bound; lia). nia.
Qed.

(** The block size is right or the overflow is noticed. *)
Lemma block_size_ok size :
  4 <= size < 2 ^ (8 * W) ->
  (need size < 2 ^ (8 * W) /\ block_size Wn size = need size) \/
  (2 ^ (8 * W) <= need size /\ block_size Wn size < size).
Proof.
  intros Hs. pose proof (W_pos Wn) as HWp. pose proof (pow_split Wn) as Hpow.
  assert (Hbig : 64 < 2 ^ (8 * W - 2)).
  { change 64 with (2 ^ 6). apply Z.pow_lt_mono_r; lia. }
  assert (Hm : 2 ^ (8 * W) `mod` W = 0).
  { destruct (@word_size Wn _) as [-> | ->]; by vm_compute. }
  pose proof (Z.div_mod (2 ^ (8 * W)) W ltac:(lia)) as Hdm. rewrite Hm in Hdm.
  pose proof (need_spec size ltac:(lia)) as (_ & Hneed & _). rewrite Z.max_r in Hneed by lia.
  unfold block_size, MEM_BLOCK_HEAD_SIZE, ALIGN_UP. replace (2 * W - W) with W by lia.
  rewrite land_lnot by (apply wrap_range; lia). unfold need in *. rewrite Z.max_r in * by lia.
  assert (Hin : ul Wn (ul Wn (size + 1) + (W - 1)) = ul Wn (size + W)).
  { unfold ul. rewrite wrap_add_l. f_equal. lia. }
  rewrite Hin. set (P := 2 ^ (8 * W)) in *.
  destruct (decide (size + W < P)) as [Hlt|Hge].
  - rewrite (ul_small Wn (size + W)) by lia.
    pose proof (Z.div_mod (size + W) W ltac:(lia)). pose proof (Z.mod_pos_bound (size + W) W ltac:(lia)).
    destruct (decide ((size + W) / W * W + W < P)) as [Hok|Hov].
    + left. split; [done|]. apply ul_small. fold P. nia.
    + right. split; [lia|].
      assert (Hq : (size + W) / W + 1 = P / W) by nia.
      assert ((size + W) / W * W + W = P) as -> by nia.
      unfold ul, wrap. fold P. rewrite Z.mod_same by lia. lia.
  - right. split; [nia|].
    assert (Hw : ul Wn (size + W) = size + W - P).
    { unfold ul, wrap. fold P. rewrite <- (Z.mod_small (size + W - P) P) by lia.
      rewrite Zminus_mod, Z.mod_same, Z.sub_0_r, Z.mod_mod by lia. done. }
    rewrite Hw, (Z.div_small (size + W - P)) by lia. rewrite ul_small by (fold P; lia). lia.
Qed.

Lemma coal_weaken u l : coal u l -> coal true l.
Proof. destruct l; simpl; [done|]. tauto. Qed.

Lemma shape_pos lo hi first m bs :
  shape lo hi first m bs -> Forall (fun b => 0 < b_addr b) bs.
Proof.
  intros Hs. apply Forall_forall. intros b Hb.
  pose proof (sh_lo _ _ _ _ _ _ Hs). pose proof (sh_tiles _ _ _ _ _ _ Hs) as Ht.
  destruct (tiles_bounds _ _ _ _ _ Ht Hb). lia.
Qed.

Lemma shape_fuel lo hi first m bs n :
  shape lo hi first m bs -> hi - lo <= n -> (length bs <= Z.to_nat n)%nat.
Proof.
  intros Hs Hn. pose proof (tiles_length _ _ _ _ (sh_tiles _ _ _ _ _ _ Hs)).
  unfold zlen in *. lia.
Qed.

(** What [mem_chunk_get] gives out: a whole free block or the end of one. *)
Lemma chunk_get_ok lo hi h m bs n :
  shape lo hi (free_list h) m bs -> hi - lo <= hp_size h -> coal true bs ->
  n `mod` W = 0 -> 2 * W <= n ->
  (Forall (fun b => b_used b = false -> b_size b < n) bs /\
   mem_chunk_get Wn h m n = Some (None, h, m)) \/
  (Exists (fun b => b_used b = false /\ n <= b_size b) bs /\
   exists b' bs' first' m', mem_chunk_get Wn h m n = Some (Some (b_addr b'), with_first first' h, m') /\
     shape lo hi first' m' bs' /\ coal true bs' /\ b_used b' = true /\
     used bs' ≡ₚ b' :: used bs /\ free_sum bs' = free_sum bs - b_size b' /\
     n <= b_size b' < n + MEM_HEAP_MIN_SIZE Wn /\
     get_size Wn m' (b_addr b') = Some (b_size b') /\
     same_but (fun c => b_used c = false) bs m m').
Proof.
  intros Hs Hsize Hcoal Hn Hn2. pose proof (W_pos Wn) as HWp.
  destruct (chunk_loop_ok Wn m n bs (heap_fuel h) 0 (free_list h)) as (r & Hr & Hcase).
  { apply Hs. } { apply Hs. } { by eapply shape_pos. } { by eapply shape_fuel. }
  unfold mem_chunk_get. rewrite Hr. ub_step. destruct r as [[t p]|].
  2: { left. by split. }
  right. destruct Hcase as (l1 & b & l2 & -> & Hu & -> & Hnb & ->).
  split. { apply Exists_exists. exists b. rewrite elem_of_app, elem_of_cons. tauto. }
  pose proof (sh_blocks _ _ _ _ _ _ Hs) as Hok. rewrite Forall_app in Hok.
  destruct Hok as [_ Hok]. inversion Hok as [|? ? [Hbs _] _]; subst. rewrite Hbs. ub_step.
  assert (Hbin : b ∈ l1 ++ b :: l2) by (rewrite elem_of_app, elem_of_cons; tauto).
  destruct (tiles_bounds _ _ _ _ _ (sh_tiles _ _ _ _ _ _ Hs) Hbin) as (Hb1 & Hb2 & Hb3).
  pose proof (sh_hi _ _ _ _ _ _ Hs). pose proof (sh_lo _ _ _ _ _ _ Hs).
  pose proof (pow_split Wn) as Hpow. rewrite coal_app in Hcoal. destruct Hcoal as [Hco1 Hco2].
  cbn [coal] in Hco2. rewrite Hu in Hco2. destruct Hco2 as [Hco2 Hco3].
  rewrite (ul_small Wn (b_size b - n)) by lia.
  case_bool_decide as Hmin.
  - destruct (split_ok Wn lo hi _ m l1 b l2 n h Hs Hu Hn Hn2 ltac:(lia)) as (m' & Heq & Hs' & Ho).
    rewrite (ul_small Wn (b_size b - n)) in Heq by lia.
    exists (Blk (b_addr b + (b_size b - n)) n true),
      (l1 ++ [Blk (b_addr b) (b_size b - n) false; Blk (b_addr b + (b_size b - n)) n true] ++ l2),
      (free_list h), m'.
    split; [unfold with_first; rewrite heap_eta; exact Heq|]. split; [exact Hs'|].
    split. { rewrite coal_app. cbn [app coal b_used].
             split; [done|]. split; [tauto|]. split; [by right|]. by eapply coal_weaken. }
    split; [done|]. split.
    { cbn [app]. rewrite !used_app, !used_cons, Hu. cbn [b_used]. symmetry. apply Permutation_middle. }
    split. { cbn [app]. rewrite !free_sum_app, !free_sum_cons, Hu. cbn [b_used b_size]. lia. }
    split; [cbn [b_size]; unfold MEM_HEAP_MIN_SIZE, MEM_BLOCK_MIN_SIZE, MEM_BLOCK_HEAD_SIZE; lia|].
    split.
    { pose proof (sh_blocks _ _ _ _ _ _ Hs') as Hok'. rewrite !Forall_app in Hok'.
      destruct Hok' as (_ & Hok' & _). inversion Hok' as [|? ? _ Hok'']; subst.
      by inversion Hok'' as [|? ? [? _] _]; subst. }
    intros x Hx. apply (only_in_byte _ _ _ _ _ Ho). by apply Hx.
  - destruct (whole_ok Wn lo hi m l1 b l2 h Hs Hu) as (m' & first' & Heq & Hs' & Hsame).
    exists (Blk (b_addr b) (b_size b) true), (l1 ++ [Blk (b_addr b) (b_size b) true] ++ l2),
      first', m'.
    split; [exact Heq|]. split; [exact Hs'|].
    split. { rewrite coal_app. cbn [app coal b_used]. split; [done|].
             split; [by right|]. by eapply coal_weaken. }
    split; [done|]. split.
    { cbn [app]. rewrite !used_app, !used_cons, Hu. cbn [b_used]. symmetry. apply Permutation_middle. }
    split. { cbn [app]. rewrite !free_sum_app, !free_sum_cons, Hu. cbn [b_used b_size]. lia. }
    split; [cbn [b_size]; lia|]. split; [|done].
    pose proof (sh_blocks _ _ _ _ _ _ Hs') as Hok'. rewrite !Forall_app in Hok'.
    destruct Hok' as (_ & Hok' & _). by inversion Hok' as [|? ? [? _] _]; subst.
Qed.

Lemma free_sum_range bs : forall a top, tiles Wn a bs top -> 0 <= free_sum bs <= top - a.
Proof.
  pose proof (W_pos Wn). induction bs as [|b bs IH]; intros a top; cbn [tiles].
  - intros ->. simpl. lia.
  - intros (_ & Hs & _ & Ht). apply IH in Ht. rewrite free_sum_cons. destruct (b_used b); lia.
Qed.

(** [heap_allocate] gives out a block that is large enough whenever there is a free one. *)
Lemma heap_allocate_ok lo hi h m bs size :
  heap_rep lo hi h m bs -> 0 < size < 2 ^ (8 * W) ->
  (Forall (fun b => b_used b = false -> b_size b < need size) bs /\
   heap_allocate Wn h m size = Some (None, h, m)) \/
  (Exists (fun b => b_used b = false /\ need size <= b_size b) bs /\
   exists b' bs' h' m', heap_allocate Wn h m size = Some (Some (b_addr b'), h', m') /\
     heap_rep lo hi h' m' bs' /\ b_used b' = true /\ used bs' ≡ₚ b' :: used bs /\
     need size <= b_size b' < need size + MEM_HEAP_MIN_SIZE Wn /\
     get_size Wn m' (b_addr b') = Some (b_size b') /\ hp_free h' = hp_free h - b_size b' /\
     base h' = base h /\ hp_size h' = hp_size h /\
     same_but (fun c => b_used c = false) bs m m').
Proof.
  intros [Hs Hco Hfr Hsz] Hsize. unfold heap_allocate. rewrite bool_decide_false by lia.
  set (sz := if bool_decide (size < 4) then 4 else size).
  assert (Hsz4 : sz = Z.max 4 size) by (unfold sz; case_bool_decide; lia).
  pose proof (W_pos Wn) as HWp. pose proof (pow_split Wn) as Hpow.
  assert (Hbig : 64 < 2 ^ (8 * W - 2)).
  { change 64 with (2 ^ 6). apply Z.pow_lt_mono_r; lia. }
  assert (Hneed : need sz = need size) by (unfold need; by replace (4 `max` sz) with (4 `max` size) by lia).
  pose proof (need_spec size ltac:(lia)) as (Hn1 & Hn2 & Hn3).
  pose proof (sh_tiles _ _ _ _ _ _ Hs) as Ht. pose proof (sh_hi _ _ _ _ _ _ Hs).
  pose proof (sh_lo _ _ _ _ _ _ Hs).
  destruct (block_size_ok sz ltac:(lia)) as [[Hlt ->]|[Hov Hbs]]; rewrite Hneed in *.
  2: { left. split.
       - apply Forall_forall. intros b Hb _. destruct (tiles_bounds _ _ _ _ _ Ht Hb). lia.
       - by rewrite bool_decide_true. }
  rewrite bool_decide_false by lia.
  destruct (chunk_get_ok lo hi h m bs (need size) Hs Hsz Hco Hn1 Hn3)
    as [[Hno ->]|[Hex (b'&bs'&first'&m'&->&Hs'&Hco'&Hu'&Hused&Hsum&Hbsz&Hget&Hsame)]].
  { left. ub_step. by split. }
  right. split; [done|]. ub_step. rewrite Hget. ub_step.
  destruct (free_sum_range _ _ _ Ht). destruct (free_sum_range _ _ _ (sh_tiles _ _ _ _ _ _ Hs')).
  eexists b', bs', _, m'. split; [done|].
  cbn [free_list with_first hp_free base hp_size]. rewrite ul_small by lia.
  split; [|done]. by constructor; cbn [free_list with_first hp_free hp_size]; [..|lia|].
Qed.
End heap.
