(* ===== verification/MemHeapFree.v ===== *)
(** * Freeing in the heap allocator

    [heap_deallocate] puts the block back at its place of the address-ordered free list and joins
    it with the free blocks before and after it. *)
From S2P Require Import Prelude Memory MemHeap MemHeapInv.

Section free.
Context (Wn : nat).
#[local] Notation W := (Z.of_nat Wn).
Context `{HW : !WordSize Wn}.
#[local] Notation shape := (shape Wn).
#[local] Notation heap_rep := (heap_rep Wn).

Lemma coal_head l : coal true l -> (forall b k, l = b :: k -> b_used b = true) -> coal false l.
Proof. destruct l as [|b l]; simpl; [done|]. intros [_ H] Hh. split; [right; by eapply Hh|done]. Qed.

(** The end of the deallocation: the block is joined with a free block after it. *)
Lemma merge_ok lo hi first m x c l2 q :
  shape lo hi first m (x ++ c :: l2) -> b_used c = false ->
  get_next Wn m (b_addr c) = Some q -> coal true x -> last_used true x = true -> coal true l2 ->
  exists m' bs',
    (if bool_decide (q <> 0) then
       pre_size ← get_size Wn m (b_addr c);
       if bool_decide (b_addr c + pre_size = q) then
         next_size ← get_size Wn m q;
         m ← set_size Wn m (b_addr c) (ul Wn (pre_size + next_size));
         next ← get_next Wn m q;
         set_next Wn m (b_addr c) next
       else Some m
     else Some m) = Some m' /\
    shape lo hi first m' bs' /\ coal true bs' /\ used bs' = used x ++ used l2 /\
    free_sum bs' = free_sum x + b_size c + free_sum l2 /\
    only_in (b_addr c) (b_addr c + 2 * W) m m' /\
    exists c', c' ∈ bs' /\ b_addr c' = b_addr c /\ b_used c' = false.
Proof.
  intros Hs Hu Hq Hcx Hlx Hc2. pose proof (W_pos Wn) as HWp. pose proof (pow_split Wn) as Hpow.
  assert (Hkeep : q = 0 \/ b_addr c + b_size c <> q -> (forall b k, l2 = b :: k -> b_used b = true) ->
    exists m' bs', Some m = Some m' /\ shape lo hi first m' bs' /\ coal true bs' /\
    used bs' = used x ++ used l2 /\ free_sum bs' = free_sum x + b_size c + free_sum l2 /\
    only_in (b_addr c) (b_addr c + 2 * W) m m' /\
    exists c', c' ∈ bs' /\ b_addr c' = b_addr c /\ b_used c' = false).
  { intros _ Hh. exists m, (x ++ c :: l2). split; [done|]. split; [done|].
    split. { rewrite coal_app. cbn [coal]. rewrite Hu. split; [done|]. split; [by left|].
             by apply coal_head. }
    split; [by rewrite used_app, used_cons, Hu|].
    split; [rewrite free_sum_app, free_sum_cons, Hu; lia|]. split; [apply only_in_refl|].
    exists c. rewrite elem_of_app, elem_of_cons. tauto. }
  pose proof (sh_seg _ _ _ _ _ _ Hs) as Hseg. apply seg_app in Hseg as (qc & _ & Hseg).
  cbn [seg] in Hseg. rewrite Hu in Hseg. destruct Hseg as (-> & q' & Hq' & Hseg).
  rewrite Hq in Hq'. injection Hq' as <-.
  pose proof (sh_tiles _ _ _ _ _ _ Hs) as Ht. apply tiles_app in Ht as (ac & Ht1 & Ht2).
  cbn [tiles] in Ht2. destruct Ht2 as (<- & Hc2W & Hcm & Ht2).
  pose proof (sh_lo _ _ _ _ _ _ Hs). pose proof (sh_hi _ _ _ _ _ _ Hs).
  pose proof (tiles_le _ _ _ _ Ht1). pose proof (tiles_le _ _ _ _ Ht2).
  pose proof (sh_blocks _ _ _ _ _ _ Hs) as Hok. rewrite Forall_app in Hok.
  destruct Hok as [_ Hok]. inversion Hok as [|? ? [Hcs Hcd] Hok2]; subst.
  destruct (first_free_split _ _ _ _ _ Hseg) as [[Hall ->]|(k1&d&k2&n&->&Hk1&Hd&->&Hn&Hseg2)].
  { rewrite bool_decide_false by lia. apply Hkeep; [by left|]. intros b k ->. by inversion Hall. }
  apply tiles_app in Ht2 as (ad & Htk1 & Htd). cbn [tiles] in Htd.
  destruct Htd as (<- & Hd2W & Hdm & Ht2).
  pose proof (tiles_le _ _ _ _ Htk1). pose proof (tiles_le _ _ _ _ Ht2).
  rewrite bool_decide_true by lia. rewrite Hcs. ub_step.
  case_bool_decide as Hadj.
  2: { apply Hkeep; [by right|]. intros b k Hbk. destruct k1 as [|b1 k1].
       - cbn [tiles] in Htk1. lia.
       - injection Hbk as <- _. by inversion Hk1. }
  destruct k1 as [|b1 k1].
  2: { cbn [tiles] in Htk1. destruct Htk1 as (_ & ? & _ & Htk1).
       pose proof (tiles_le _ _ _ _ Htk1). lia. }
  cbn [app] in *. inversion Hok2 as [|? ? [Hds (dd & Hdd & Hdu)] _]; subst. rewrite Hd in Hdu.
  rewrite Hds. ub_step. rewrite ul_small by lia.
  destruct (shape_mid Wn lo hi first m x [c; d] k2) as (a1&a2&qx&r&Htx&Htm&Htk&_&Hsm&_&_&Hmk);
    [done|]. cbn [tiles] in Htm. destruct Htm as (<- & _ & _ & _ & _ & _ & <-).
  cbn [seg] in Hsm. rewrite Hu, Hd in Hsm. destruct Hsm as (-> & n1 & Hn1 & -> & n2 & Hn2 & <-).
  rewrite Hn in Hn2. injection Hn2 as <-.
  pose proof (sh_mapped _ _ _ _ _ _ Hs) as Hmap.
  set (e := Blk (b_addr c) (b_size c + b_size d) false).
  destruct (store_word_ok Wn m (b_addr c) (b_size c + b_size d)) as (m1 & He1 & Ho1 & Hl1);
    [intros y Hy; apply Hmap; lia|lia|].
  unfold set_size. rewrite He1. ub_step.
  assert (Hn' : get_next Wn m1 (b_addr d) = Some n) by (unfold get_next in *; by frame).
  rewrite Hn'. ub_step.
  assert (Hnr : 0 <= n < 2 ^ (8 * W - 2)).
  { destruct (seg_range Wn _ _ _ _ _ Hseg2 Ht2); lia. }
  destruct (set_next_ok Wn m1 e n) as (m2 & He2 & Ho2 & Hok' & Hne);
    unfold e in *; cbn [b_addr b_size b_used] in *.
  { split; [exact Hl1|]. exists dd. cbn [b_addr b_size b_used]. split; [|done].
    replace (b_addr c + (b_size c + b_size d) - 1) with (b_addr d + b_size d - 1) by lia.
    by frame. }
  { done. } { lia. } { intros y Hy. apply Ho1, Hmap. lia. } { done. }
  rewrite He2.
  assert (Ho : only_in (b_addr c) (b_addr c + 2 * W) m m2).
  { apply only_in_trans with m1; eapply only_in_weaken; [| |exact Ho1| | |exact Ho2]; lia. }
  exists m2, (x ++ [e] ++ k2). split; [done|]. split.
  { apply Hmk.
    - eapply only_in_weaken; [| |exact Ho]; lia.
    - unfold e. cbn [tiles b_addr b_size]. split; [done|]. split; [lia|].
      split; [by rewrite Z.add_mod, Hcm, Hdm by lia|lia].
    - by constructor.
    - unfold e. cbn [seg b_used b_addr]. split; [done|]. by exists n. }
  cbn [coal] in Hc2. rewrite Hd in Hc2. destruct Hc2 as [_ Hck].
  split. { rewrite coal_app. unfold e. cbn [app coal b_used]. split; [done|]. by split; [left|]. }
  split; [by rewrite !used_app, !used_cons, Hd|].
  split. { cbn [app]. rewrite free_sum_app, !free_sum_cons, Hd. unfold e. cbn [b_used b_size]. lia. }
  split; [done|]. exists e. rewrite !elem_of_app, elem_of_cons. by split; [right; left; left|].
Qed.

Lemma last_used_all_used l : all_used l -> last_used true l = true.
Proof.
  intros Hl. destruct l as [|b l _] using rev_ind; [done|].
  unfold last_used. rewrite foldl_app. simpl. apply Forall_app in Hl as [_ Hb]. by inversion Hb.
Qed.

(** The middle of the deallocation: a free block whose [next] pointer is set enters the list,
    joined with a free block right before it; [c] is the block it is in afterwards. *)
Lemma insert_ok lo hi first m l1 b l2 q :
  tiles Wn lo (l1 ++ b :: l2) hi -> 0 < lo -> lo `mod` W = 0 -> hi < 2 ^ (8 * W - 2) ->
  Forall (blk_ok Wn m) l1 -> blk_ok Wn m b -> Forall (blk_ok Wn m) l2 -> mapped m lo hi ->
  b_used b = false -> seg Wn m first l1 q -> get_next Wn m (b_addr b) = Some q ->
  seg Wn m q l2 0 -> coal true l1 ->
  exists first' c x m',
    (if bool_decide (last_free 0 l1 = 0) then Some (b_addr b, b_addr b, m)
     else
       pre_size ← get_size Wn m (last_free 0 l1);
       if bool_decide (last_free 0 l1 + pre_size = b_addr b) then
         fs ← get_size Wn m (b_addr b);
         m ← set_size Wn m (last_free 0 l1) (ul Wn (pre_size + fs));
         Some (first, last_free 0 l1, m)
       else
         m ← set_next Wn m (last_free 0 l1) (b_addr b); Some (first, b_addr b, m)) =
      Some (first', b_addr c, m') /\
    shape lo hi first' m' (x ++ c :: l2) /\ b_used c = false /\
    get_next Wn m' (b_addr c) = Some q /\ coal true x /\ last_used true x = true /\
    used x = used l1 /\ free_sum x + b_size c = free_sum l1 + b_size b /\
    same_but (fun c => b_used c = false) l1 m m' /\
    (b_addr c = b_addr b \/ exists c0, c0 ∈ l1 /\ b_used c0 = false /\ b_addr c = b_addr c0).
Proof.
  intros Ht Hlo Hal Hhi Hok1 Hokb Hok2 Hmap Hu Hs1 Hq Hs2 Hco. pose proof (W_pos Wn) as HWp.
  pose proof (pow_split Wn) as Hpow. pose proof Ht as Ht0.
  apply tiles_app in Ht as (ab & Ht1 & Ht2). cbn [tiles] in Ht2.
  destruct Ht2 as (<- & Hb2 & Hbm & Ht2).
  pose proof (tiles_le _ _ _ _ Ht1). pose proof (tiles_le _ _ _ _ Ht2).
  destruct (relink_ok Wn m first l1 (b_addr b) lo q (b_addr b)) as
    [(Hp & Hall & ->)|(c & m1 & Hc & Hcu & Hp & Hc0 & Hcb & Hc2 & Hadj & Hnadj & Hcs & Hcn & He & Ho & Hok1' & Hs1')];
    [done|done|eapply mapped_mono; [| |exact Hmap]; lia|done|done|lia| |]; rewrite Hp.
  - rewrite bool_decide_true by done. exists (b_addr b), b, l1, m.
    split; [done|]. split.
    { constructor; try done; [by rewrite Forall_app, Forall_cons|].
      apply seg_app. exists (b_addr b). split; [by apply seg_all_used|]. cbn [seg]. rewrite Hu.
      split; [done|]. by exists q. }
    do 3 (split; [done|]). split; [by apply last_used_all_used|]. by do 3 (split; [done|]); left.
  - rewrite bool_decide_false by lia. rewrite Hcs. ub_step. case_bool_decide as Ha.
    + destruct (Hadj Ha) as (k & ->). destruct Hokb as [Hbs (d & Hd & Hdu)]. rewrite Hu in Hdu.
      rewrite Hbs. ub_step. rewrite ul_small by lia.
      rewrite coal_app in Hco. cbn [coal] in Hco. rewrite Hcu in Hco. destruct Hco as (Hck & Hlast & _).
      apply tiles_app in Ht1 as (ac & Htk & Htc). cbn [tiles] in Htc. destruct Htc as (<- & _ & Hcm & _).
      pose proof (tiles_le _ _ _ _ Htk).
      destruct (store_word_ok Wn m (b_addr c) (b_size c + b_size b)) as (m' & Hst & Ho' & Hl');
        [intros y Hy; apply Hmap; lia|lia|].
      unfold set_size. rewrite Hst. ub_step.
      set (e := Blk (b_addr c) (b_size c + b_size b) false).
      exists first, e, k, m'. split; [done|]. apply Forall_app in Hok1 as [Hokk _].
      apply seg_app in Hs1 as (qc & Hsk & Hsc). cbn [seg] in Hsc. rewrite Hcu in Hsc.
      destruct Hsc as (-> & _).
      split.
      { constructor; try done.
        - apply tiles_app. exists (b_addr c). split; [done|]. unfold e. cbn [tiles b_addr b_size].
          split; [done|]. split; [lia|]. split; [by rewrite Z.add_mod, Hcm, Hbm by lia|].
          by replace (b_addr c + (b_size c + b_size b)) with (b_addr b + b_size b) by lia.
        - rewrite Forall_app, Forall_cons. split; [|split].
          + apply (blks_ok_frame Wn _ _ m m' _ _ _ Htk Ho'); [left; lia|done].
          + split; [exact Hl'|]. exists d. unfold e. cbn [b_addr b_size b_used]. split; [|done].
            replace (b_addr c + (b_size c + b_size b) - 1) with (b_addr b + b_size b - 1) by lia.
            by frame.
          + apply (blks_ok_frame Wn _ _ m m' _ _ _ Ht2 Ho'); [right; lia|done].
        - apply seg_app. exists (b_addr c). split.
          + apply (seg_frame Wn _ _ m m' _ _ _ _ _ Htk Ho'); [left; lia|done].
          + unfold e. cbn [seg b_used b_addr]. split; [done|]. exists q. split.
            * unfold get_next in *. by frame.
            * apply (seg_frame Wn _ _ m m' _ _ _ _ _ Ht2 Ho'); [right; lia|done].
        - by eapply only_in_mapped. }
      split; [done|]. split; [unfold get_next, e in *; cbn [b_addr]; by frame|].
      split; [done|]. split; [by destruct Hlast|].
      split; [rewrite used_app, used_cons, Hcu; by rewrite app_nil_r|].
      split; [rewrite free_sum_app, free_sum_cons, Hcu; unfold e; cbn [b_size free_sum foldr]; lia|].
      split.
      * intros y Hy. apply (only_in_byte _ _ _ _ _ Ho'). destruct (Hy c); [done|done|lia|lia].
      * right. by exists c.
    + destruct (Hnadj Ha) as (k & d & -> & Hd). rewrite He. ub_step.
      assert (Hbs' : blk_ok Wn m1 b).
      { apply (blk_ok_frame Wn _ _ m m1 b Hb2 Ho); [right; lia|done]. }
      exists first, b, (k ++ [d]), m1. split; [done|]. split.
      { constructor; try done.
        - rewrite Forall_app, Forall_cons. split; [done|]. split; [done|].
          apply (blks_ok_frame Wn _ _ m m1 _ _ _ Ht2 Ho); [right; lia|done].
        - apply seg_app. exists (b_addr b). split; [done|]. cbn [seg]. rewrite Hu. split; [done|].
          exists q. split; [unfold get_next in *; by frame|].
          apply (seg_frame Wn _ _ m m1 _ _ _ _ _ Ht2 Ho); [right; lia|done].
        - by eapply only_in_mapped. }
      split; [done|]. split; [unfold get_next in *; by frame|]. split; [done|].
      split; [unfold last_used; by rewrite foldl_app|]. do 2 (split; [done|]). split.
      * intros y Hy. apply (only_in_byte _ _ _ _ _ Ho). destruct (Hy c); [done|done|lia|lia].
      * by left.
Qed.

(** [heap_deallocate] takes a used block back and joins it with its free neighbours. *)
Lemma heap_deallocate_ok lo hi h m bs b :
  heap_rep lo hi h m bs -> b ∈ used bs ->
  exists h' m' bs',
    heap_deallocate Wn h m (b_addr b + W) = Some (Some (b_size b), h', m') /\
    heap_rep lo hi h' m' bs' /\ used bs ≡ₚ b :: used bs' /\
    hp_free h' = hp_free h + b_size b /\ base h' = base h /\ hp_size h' = hp_size h /\
    (exists d, get_dog Wn m' (b_addr b) = Some d /\ d <> MEM_BLOCK_STAT_USE) /\
    same_but (fun c => b_used c = false \/ c = b) bs m m'.
Proof.
  intros [Hs Hco Hfr Hsz] Hb. apply elem_of_used in Hb as [Hu Hbin].
  apply list_elem_of_split in Hbin as (l1 & l2 & ->).
  pose proof (W_pos Wn) as HWp. pose proof (pow_split Wn) as Hpow.
  destruct Hs as [Hlo Hal Hhi Ht Hok Hseg Hmap]. pose proof Ht as Ht0.
  apply seg_app in Hseg as (q & Hs1 & Hs2). cbn [seg] in Hs2. rewrite Hu in Hs2.
  rewrite Forall_app, Forall_cons in Hok. destruct Hok as (Hok1 & [Hbs (d & Hd & Hdu)] & Hok2).
  rewrite Hu in Hdu. subst d.
  apply tiles_app in Ht as (ab & Ht1 & Ht2). cbn [tiles] in Ht2.
  destruct Ht2 as (<- & Hb2 & Hbm & Ht2).
  pose proof (tiles_le _ _ _ _ Ht1). pose proof (tiles_le _ _ _ _ Ht2).
  unfold heap_deallocate, MEM_BLOCK_HEAD_SIZE.
  replace (b_addr b + W - (2 * W - W)) with (b_addr b) by lia.
  unfold get_dog at 1, MEM_DOG_ADDR. rewrite Hbs. ub_step. rewrite Hd. ub_step.
  rewrite bool_decide_false by (intros Hx; by apply Hx).
  destruct (set_dog_ok Wn m (b_addr b) (b_size b) MEM_BLOCK_STAT_FREE) as (m0 & -> & Ho0 & Hd0);
    [done|by rewrite Hd|done|]. ub_step.
  assert (Hbs0 : get_size Wn m0 (b_addr b) = Some (b_size b)) by (unfold get_size in *; by frame).
  rewrite Hbs0. ub_step.
  assert (Hs10 : seg Wn m0 (free_list h) l1 q).
  { apply (seg_frame Wn _ _ m m0 _ _ _ _ _ Ht1 Ho0); [left; lia|done]. }
  assert (Hs20 : seg Wn m0 q l2 0).
  { apply (seg_frame Wn _ _ m m0 _ _ _ _ _ Ht2 Ho0); [right; lia|done]. }
  assert (Hq : 0 <= q < 2 ^ (8 * W - 2)).
  { destruct (seg_range Wn _ _ _ _ _ Hs20 Ht2); lia. }
  rewrite (place_loop_ok Wn m0 (b_addr b) l1 (heap_fuel h) 0 (free_list h) q Hs10);
    [|apply Forall_forall; intros c Hc; destruct (tiles_bounds _ _ _ _ _ Ht1 Hc); lia
     |unfold heap_fuel; pose proof (tiles_length _ _ _ _ Ht1); unfold zlen in *; lia
     |destruct (seg_range Wn _ _ _ _ _ Hs20 Ht2); lia].
  ub_step. set (f := Blk (b_addr b) (b_size b) false).
  destruct (set_next_ok Wn m0 f q) as (m1 & He1 & Ho1 & Hokf & Hnf); unfold f in *;
    cbn [b_addr b_size b_used] in *.
  { split; [done|]. exists MEM_BLOCK_STAT_FREE. by cbn [b_addr b_size b_used]. }
  { done. } { done. } { intros x Hx. apply Ho0, Hmap. lia. } { done. }
  rewrite He1. ub_step.
  assert (Ho01 : only_in (b_addr b) (b_addr b + b_size b) m m1).
  { apply only_in_trans with m0; eapply only_in_weaken; [| |exact Ho0| | |exact Ho1]; lia. }
  apply coal_app in Hco as [Hco1 Hco2]. cbn [coal] in Hco2. rewrite Hu in Hco2.
  destruct Hco2 as [_ Hco2].
  destruct (insert_ok lo hi (free_list h) m1 l1 f l2 q)
    as (first' & c & x & m2 & He2 & Hs2' & Hcu & Hcq & Hcx & Hlx & Hux & Hfx & Hsame & Hcb);
    unfold f in *; cbn [b_addr b_size b_used] in *.
  { apply tiles_app. exists (b_addr b). by cbn [tiles b_addr b_size]. }
  { done. } { done. } { done. }
  { apply (blks_ok_frame Wn _ _ m m1 _ _ _ Ht1 Ho01); [left; lia|done]. }
  { done. }
  { apply (blks_ok_frame Wn _ _ m m1 _ _ _ Ht2 Ho01); [right; lia|done]. }
  { by eapply only_in_mapped. } { done. }
  { apply (seg_frame Wn _ _ m0 m1 _ _ _ _ _ Ht1 Ho1); [left; lia|done]. }
  { done. }
  { apply (seg_frame Wn _ _ m0 m1 _ _ _ _ _ Ht2 Ho1); [right; lia|done]. }
  { done. }
  unfold mbind, option_bind in He2. rewrite He2. ub_step.
  destruct (merge_ok lo hi first' m2 x c l2 q) as
    (m3 & bs3 & He3 & Hs3 & Hco3 & Hu3 & Hf3 & Ho3 & (c' & Hc' & Hca & Hcu')); [done..|].
  unfold mbind, option_bind in He3. rewrite He3. ub_step.
  eexists _, m3, bs3. split; [done|]. cbn [hp_free base hp_size free_list].
  assert (Hsum : free_sum (l1 ++ b :: l2) = free_sum l1 + free_sum l2)
    by (by rewrite free_sum_app, free_sum_cons, Hu).
  pose proof (free_sum_range Wn _ _ _ (sh_tiles _ _ _ _ _ _ Hs3)).
  rewrite ul_small by lia.
  split. { constructor; cbn [free_list hp_free hp_size]; [done|done|lia|done]. }
  split. { rewrite used_app, used_cons, Hu, Hu3, Hux. symmetry. apply Permutation_middle. }
  do 3 (split; [done|]).
  assert (Hcr : forall y, (forall d, d ∈ l1 ++ b :: l2 -> b_used d = false \/ d = b ->
    y < b_addr d \/ b_addr d + b_size d <= y) -> y < b_addr c \/ b_addr c + 2 * W <= y).
  { intros y Hy. destruct Hcb as [->|(c0 & Hin & Hu0 & ->)].
    - destruct (Hy b); [rewrite elem_of_app, elem_of_cons; tauto|by right|lia|lia].
    - destruct (tiles_bounds _ _ _ _ _ Ht1 Hin) as (_ & _ & ?).
      destruct (Hy c0); [rewrite elem_of_app; tauto|by left|lia|lia]. }
  split.
  - destruct Hcb as [Hcb|(c0 & Hin & Hu0 & Hcc)].
    + pose proof (sh_blocks _ _ _ _ _ _ Hs3) as Hok3. rewrite Forall_forall in Hok3.
      destruct (Hok3 c' Hc') as [Hsz' (d & Hd' & Hdu)]. rewrite Hcu' in Hdu. rewrite Hca, Hcb in *.
      exists d. split; [|done]. unfold get_dog, MEM_DOG_ADDR. by rewrite Hsz'.
    + destruct Hokf as [Hfs (d & Hfd & Hfu)]. cbn [b_addr b_size b_used] in *.
      destruct (tiles_bounds _ _ _ _ _ Ht1 Hin) as (_ & Hcend & Hc2).
      assert (Hbytes : forall y, b_addr b <= y -> m3 !! y = m1 !! y).
      { intros y Hy. rewrite (only_in_byte _ _ _ _ _ Ho3) by lia. apply Hsame.
        intros e He _. destruct (tiles_bounds _ _ _ _ _ Ht1 He). lia. }
      exists d. split; [|done]. unfold get_dog, MEM_DOG_ADDR, get_size in *.
      rewrite (load_ext Wn m1 m3) by (intros y Hy; apply Hbytes; lia). rewrite Hfs. ub_step.
      rewrite Hbytes by lia. done.
  - intros y Hy. rewrite (only_in_byte _ _ _ _ _ Ho3) by (by apply Hcr).
    rewrite Hsame; [apply (only_in_byte _ _ _ _ _ Ho01), Hy; [|by right]|].
    + rewrite elem_of_app, elem_of_cons. tauto.
    + intros e He Hue. apply Hy; [rewrite elem_of_app; tauto|by left].
Qed.
End free.
