(* ===== verification/MemHeapSpec.v ===== *)
(** * Contract of the heap allocator

    The heaps together refine a set of objects: an object is an address with its contents, and
    every call has its effect on the objects only. *)
From S2P Require Import Prelude Memory MemHeap MemHeapInv MemHeapFree.

(** The ends of a heap's blocks and the blocks. *)
Record region := Region { r_lo : Z; r_hi : Z; r_blocks : list blk }.

(** An allocated object: its address and its contents. *)
Record obj := Obj { o_ptr : Z; o_bytes : list Z }.

Section spec.
Context (Wn : nat).
#[local] Notation W := (Z.of_nat Wn).
Context `{HW : !WordSize Wn}.
#[local] Notation shape := (shape Wn).
#[local] Notation heap_rep := (heap_rep Wn).

(** ** The invariant *)

(** A descriptor is unused or describes a well-formed heap. *)
Definition desc_ok (m : mem) (h : MEM_Heap_t) (r : option region) : Prop :=
  match r with
  | None => hp_size h = 0
  | Some r => 0 < hp_size h /\ base h <= r_lo r /\ r_hi r <= base h + hp_size h /\
              heap_rep (r_lo r) (r_hi r) h m (r_blocks r)
  end.

(** The memory that two heaps were given does not overlap. *)
Definition apart (h k : MEM_Heap_t) : Prop :=
  base h + hp_size h <= base k \/ base k + hp_size k <= base h.

Definition disjoint_heaps (hs : list MEM_Heap_t) : Prop :=
  forall i j h k, i <> j -> hs !! i = Some h -> hs !! j = Some k ->
    hp_size h <> 0 -> hp_size k <> 0 -> apart h k.

Definition region_used (r : option region) : list blk :=
  match r with Some r => used (r_blocks r) | None => [] end.

Definition all_blocks (rs : list (option region)) : list blk := rs ≫= region_used.

(** The object is in the block: after the size field and before the state byte. *)
Definition in_block (m : mem) (o : obj) (b : blk) : Prop :=
  o_ptr o = b_addr b + W /\ zlen (o_bytes o) + W + 1 <= b_size b /\
  forall k, 0 <= k < zlen (o_bytes o) -> m !! (o_ptr o + k) = o_bytes o !! Z.to_nat k.

Definition total_free (hs : list MEM_Heap_t) : Z :=
  foldr (fun h s => hp_free h + s) 0 (filter (fun h => hp_size h <> 0) hs).

Record heaps_inv (st : mem_heaps) (os : list obj) (rs : list (option region)) (us : list blk)
    : Prop := {
  hi_num : length (mem_heap_list st) = MEM_HEAP_LIST_NUM;
  hi_desc : Forall2 (desc_ok (memory st)) (mem_heap_list st) rs;
  hi_disj : disjoint_heaps (mem_heap_list st);
  hi_prefix : forall i j h k, (i <= j)%nat -> mem_heap_list st !! i = Some h ->
    mem_heap_list st !! j = Some k -> hp_size h = 0 -> hp_size k = 0;
  hi_blocks : us ≡ₚ all_blocks rs;
  hi_objs : Forall2 (in_block (memory st)) os us;
  hi_total : s_heap_free_size st = ul Wn (total_free (mem_heap_list st)) }.

(** The heaps hold the objects [os], in the blocks [us]. *)
Definition holds (st : mem_heaps) (os : list obj) (us : list blk) : Prop :=
  exists rs, heaps_inv st os rs us.

(** ** Frames *)

Lemma shape_frame lo hi first m bs a b m' :
  shape lo hi first m bs -> only_in a b m m' -> hi <= a \/ b <= lo -> shape lo hi first m' bs.
Proof.
  intros Hs Ho Hd. constructor; try apply Hs.
  - apply (blks_ok_frame Wn _ _ m m' _ _ _ (sh_tiles _ _ _ _ _ _ Hs) Ho); [lia|apply Hs].
  - apply (seg_frame Wn _ _ m m' _ _ _ _ _ (sh_tiles _ _ _ _ _ _ Hs) Ho); [lia|apply Hs].
  - eapply only_in_mapped; [exact Ho|apply Hs].
Qed.

Lemma heap_frame lo hi h m bs a b m' :
  heap_rep lo hi h m bs -> only_in a b m m' -> hi <= a \/ b <= lo -> heap_rep lo hi h m' bs.
Proof. intros [Hs Hc Hf Hz] Ho Hd. constructor; [by eapply shape_frame|done..]. Qed.

(** An operation on a heap changes bytes between the ends of the heap only. *)
Lemma same_but_only_in lo hi first first' m m' bs bs' P :
  shape lo hi first m bs -> shape lo hi first' m' bs' -> same_but P bs m m' -> only_in lo hi m m'.
Proof.
  intros Hs Hs' Hsame. assert (Hout : forall x, x < lo \/ hi <= x -> m' !! x = m !! x).
  { intros x Hx. apply Hsame. intros c Hc _.
    destruct (tiles_bounds _ _ _ _ _ (sh_tiles _ _ _ _ _ _ Hs) Hc). lia. }
  split; [done|]. intros x Hx. destruct (decide (lo <= x < hi)) as [Hin|Hin].
  - by apply (sh_mapped _ _ _ _ _ _ Hs').
  - rewrite Hout by lia. done.
Qed.

Lemma rep_lo_hi lo hi h m bs : heap_rep lo hi h m bs -> lo <= hi.
Proof. intros [Hs _ _ _]. apply (tiles_le Wn _ _ _ (sh_tiles _ _ _ _ _ _ Hs)). Qed.

Lemma all_blocks_insert rs i r :
  rs !! i = Some r ->
  exists rest, all_blocks rs ≡ₚ region_used r ++ rest /\
    forall r', all_blocks (<[i := r']> rs) ≡ₚ region_used r' ++ rest.
Proof.
  intros Hi. exists (all_blocks (delete i rs)). unfold all_blocks. split.
  - by rewrite (delete_Permutation rs i r Hi) at 1.
  - intros r'. assert (Hr' : <[i := r']> rs !! i = Some r')
      by (apply list_lookup_insert_eq; by eapply lookup_lt_Some).
    rewrite (delete_Permutation _ i r' Hr') at 1. by rewrite !delete_take_drop, take_insert_ge, drop_insert_lt by lia.
Qed.

Lemma total_free_insert hs i h h' :
  hs !! i = Some h -> hp_size h <> 0 -> hp_size h' <> 0 ->
  total_free (<[i := h']> hs) = total_free hs - hp_free h + hp_free h'.
Proof.
  unfold total_free. revert i. induction hs as [|k hs IH]; intros [|i] Hi Hh Hh'; simplify_eq/=.
  - rewrite !filter_cons_True by done. simpl. lia.
  - rewrite !filter_cons. case_decide; simpl; rewrite (IH i) by done; lia.
Qed.

Lemma Forall2_in {A B} (P Q : A -> B -> Prop) l k :
  Forall2 P l k -> (forall x y, y ∈ k -> P x y -> Q x y) -> Forall2 Q l k.
Proof.
  induction 1 as [|x y l k Hxy _ IH]; intros Hi; constructor.
  - apply Hi; [by rewrite elem_of_cons; left|done].
  - apply IH. intros a b Hb. apply Hi. by rewrite elem_of_cons; right.
Qed.

Lemma elem_of_rest rs i b :
  b ∈ all_blocks (delete i rs) ->
  exists j r, j <> i /\ rs !! j = Some (Some r) /\ b ∈ used (r_blocks r).
Proof.
  unfold all_blocks. intros (r & Hb & Hr)%list_elem_of_bind.
  destruct r as [r|]; [|by apply not_elem_of_nil in Hb].
  apply list_elem_of_lookup in Hr as [j Hj]. destruct (decide (j < i)%nat) as [Hlt|Hge].
  - rewrite list_lookup_delete_lt in Hj by done. exists j, r. split; [lia|done].
  - rewrite list_lookup_delete_ge in Hj by lia. exists (S j), r. split; [lia|done].
Qed.

Section update.
Context (st : mem_heaps) (os : list obj) (rs : list (option region)) (us : list blk).
Context (Hinv : heaps_inv st os rs us).
Context (i : nat) (h : MEM_Heap_t) (r : region).
Context (Hh : mem_heap_list st !! i = Some h) (Hr : rs !! i = Some (Some r)).

Lemma region_ok : desc_ok (memory st) h (Some r).
Proof.
  pose proof (Forall2_lookup_lr _ _ _ _ _ _ (hi_desc _ _ _ _ Hinv) Hh Hr). done.
Qed.

(** The ends of two heaps do not overlap. *)
Lemma region_apart j r' :
  j <> i -> rs !! j = Some (Some r') -> r_hi r' <= r_lo r \/ r_hi r <= r_lo r'.
Proof.
  intros Hj Hr'. destruct (Forall2_lookup_r _ _ _ _ _ (hi_desc _ _ _ _ Hinv) Hr') as (h' & Hh' & Hd').
  destruct region_ok as (Hp & Hb & He & _). destruct Hd' as (Hp' & Hb' & He' & _).
  destruct (hi_disj _ _ _ _ Hinv i j h h'); [done..|lia|lia|lia|lia].
Qed.

(** The used blocks are those of the heap and those of the others. *)
Lemma us_split : us ≡ₚ used (r_blocks r) ++ all_blocks (delete i rs).
Proof.
  rewrite (hi_blocks _ _ _ _ Hinv). unfold all_blocks.
  by rewrite (delete_Permutation _ _ _ Hr) at 1.
Qed.

(** Objects in other blocks keep their contents. *)
Lemma object_frame P m' b o :
  same_but P (r_blocks r) (memory st) m' ->
  b ∈ used (r_blocks r) /\ (forall c, P c -> c <> b) \/ b ∈ all_blocks (delete i rs) ->
  in_block (memory st) o b -> in_block m' o b.
Proof.
  pose proof (W_pos Wn). intros Hsame Hb (Hp & Hs & Hc). split; [done|]. split; [done|].
  intros k Hk. rewrite <- Hc by done. apply Hsame. intros c Hcin HP.
  destruct region_ok as (_ & _ & _ & Hrep).
  pose proof (sh_tiles _ _ _ _ _ _ (hr_shape _ _ _ _ _ _ Hrep)) as Ht.
  destruct (tiles_bounds _ _ _ _ _ Ht Hcin) as (Hc1 & Hc2 & Hc3).
  destruct Hb as [[Hb Hne]|Hb].
  - apply elem_of_used in Hb as [_ Hb].
    destruct (tiles_disjoint _ _ _ _ _ _ Ht Hcin Hb); [by apply Hne|lia|lia].
  - apply elem_of_rest in Hb as (j & r' & Hj & Hr' & Hb). apply elem_of_used in Hb as [_ Hb].
    destruct (Forall2_lookup_r _ _ _ _ _ (hi_desc _ _ _ _ Hinv) Hr') as (h' & Hh' & Hd').
    destruct Hd' as (_ & _ & _ & Hrep').
    pose proof (sh_tiles _ _ _ _ _ _ (hr_shape _ _ _ _ _ _ Hrep')) as Ht'.
    destruct (tiles_bounds _ _ _ _ _ Ht' Hb) as (Hb1 & Hb2 & Hb3).
    destruct (region_apart j r' Hj Hr'); lia.
Qed.

(** A heap whose blocks changed, between its ends. *)
Lemma heap_update h' m' bs' os' us' wm total :
  heap_rep (r_lo r) (r_hi r) h' m' bs' -> base h' = base h -> hp_size h' = hp_size h ->
  only_in (r_lo r) (r_hi r) (memory st) m' ->
  total = ul Wn (s_heap_free_size st - hp_free h + hp_free h') ->
  us' ≡ₚ used bs' ++ all_blocks (delete i rs) ->
  Forall2 (in_block m') os' us' ->
  heaps_inv (MemHeaps (<[i := h']> (mem_heap_list st)) total wm m') os'
    (<[i := Some (Region (r_lo r) (r_hi r) bs')]> rs) us'.
Proof.
  intros Hrep Hbase Hsize Ho -> Hus Hobjs. destruct region_ok as (Hp & Hb & He & _).
  pose proof (lookup_lt_Some _ _ _ Hh) as Hlt. pose proof (lookup_lt_Some _ _ _ Hr) as Hlr.
  assert (Hold : forall j k, <[i := h']> (mem_heap_list st) !! j = Some k ->
    exists k0, mem_heap_list st !! j = Some k0 /\ base k = base k0 /\ hp_size k = hp_size k0).
  { intros j k [(<- & <- & _)|[_ Hk]]%list_lookup_insert_Some; [by exists h|by exists k]. }
  constructor; cbn [mem_heap_list s_heap_free_size memory].
  - rewrite length_insert. apply Hinv.
  - apply Forall2_same_length_lookup. split.
    { rewrite !length_insert. eapply Forall2_length, Hinv. }
    intros j k rk Hj Hrj. apply list_lookup_insert_Some in Hj as [(<- & <- & _)|[Hji Hj]].
    + rewrite list_lookup_insert_eq in Hrj by done. injection Hrj as <-. simpl.
      rewrite Hbase, Hsize. done.
    + rewrite list_lookup_insert_ne in Hrj by done.
      pose proof (Forall2_lookup_lr _ _ _ _ _ _ (hi_desc _ _ _ _ Hinv) Hj Hrj) as Hd.
      destruct rk as [rk|]; [|done]. destruct Hd as (? & ? & ? & Hrepk).
      do 3 (split; [done|]). eapply heap_frame; [exact Hrepk|exact Ho|].
      apply (region_apart j); [done|done].
  - intros j1 j2 k1 k2 Hne (k1' & Hk1 & Hb1 & Hs1)%Hold (k2' & Hk2 & Hb2 & Hs2)%Hold H1 H2.
    unfold apart. rewrite Hb1, Hs1, Hb2, Hs2 in *. by apply (hi_disj _ _ _ _ Hinv j1 j2).
  - intros j1 j2 k1 k2 Hle (k1' & Hk1 & Hb1 & Hs1)%Hold (k2' & Hk2 & Hb2 & Hs2)%Hold.
    rewrite Hs1, Hs2. by apply (hi_prefix _ _ _ _ Hinv j1 j2).
  - rewrite Hus. destruct (all_blocks_insert rs i _ Hr) as (rest & Hall & Hins).
    unfold all_blocks in *.
    rewrite (delete_Permutation (<[i := _]> rs) i (Some (Region (r_lo r) (r_hi r) bs')))
      by (by apply list_lookup_insert_eq).
    by rewrite !delete_take_drop, take_insert_ge, drop_insert_lt by lia.
  - done.
  - rewrite (total_free_insert _ _ h) by (done || lia). rewrite (hi_total _ _ _ _ Hinv).
    rewrite <- (Z.add_opp_r (ul Wn _)), <- Z.add_assoc. unfold ul, wrap.
    rewrite Zplus_mod_idemp_l. f_equal. lia.
Qed.
End update.

(** ** Allocation *)

(** [n] bytes of the memory from [p] on. *)
Definition contents (m : mem) (p n : Z) : list Z := (fun k => m !!! (p + k)) <$> seqZ 0 n.

Lemma contents_len m p n : 0 <= n -> zlen (contents m p n) = n.
Proof. intros Hn. unfold contents, zlen. rewrite length_fmap, length_seqZ. lia. Qed.

Lemma contents_lookup m p n k :
  mapped m p (p + n) -> 0 <= k < n -> m !! (p + k) = contents m p n !! Z.to_nat k.
Proof.
  intros Hm Hk. unfold contents. rewrite list_lookup_fmap, lookup_seqZ_lt by lia. simpl.
  replace (0 + Z.of_nat (Z.to_nat k)) with k by lia. destruct (Hm (p + k)) as [v Hv]; [lia|].
  by rewrite (lookup_total_correct m (p + k) v Hv).
Qed.

Lemma set_heap_id st i h :
  mem_heap_list st !! i = Some h -> set_heap st i h (memory st) = st.
Proof. intros Hh. unfold set_heap. rewrite list_insert_id by done. by destruct st. Qed.

(** The memory that the heaps were given. *)
Definition extents (st : mem_heaps) : list (Z * Z) :=
  (fun h => (base h, hp_size h)) <$> mem_heap_list st.

Lemma extents_insert st i h h' :
  mem_heap_list st !! i = Some h -> base h' = base h -> hp_size h' = hp_size h ->
  (fun h => (base h, hp_size h)) <$> <[i := h']> (mem_heap_list st) = extents st.
Proof.
  intros Hh Hb Hs. unfold extents. rewrite list_fmap_insert. apply list_insert_id.
  rewrite list_lookup_fmap, Hh. simpl. by rewrite Hb, Hs.
Qed.

Lemma MEM_Allocate_ok st os us i h size :
  holds st os us -> mem_heap_list st !! i = Some h -> hp_size h <> 0 ->
  0 <= size < 2 ^ (8 * W) ->
  MEM_Allocate Wn st i size = Some (0, st) \/
  exists p st' bs b, MEM_Allocate Wn st i size = Some (p, st') /\ 0 < p /\ zlen bs = size /\
    holds st' (Obj p bs :: os) (b :: us) /\ extents st' = extents st.
Proof.
  intros (rs & Hinv) Hh Hne Hsize. unfold MEM_Allocate. rewrite Hh. ub_step.
  destruct (decide (size = 0)) as [->|Hpos].
  { left. unfold heap_allocate. rewrite bool_decide_true by done. by rewrite set_heap_id. }
  destruct (Forall2_lookup_l _ _ _ _ _ (hi_desc _ _ _ _ Hinv) Hh) as (r & Hr & Hd).
  destruct r as [r|]; [|done]. destruct Hd as (Hsz & Hb & He & Hrep).
  destruct (heap_allocate_ok Wn _ _ h (memory st) (r_blocks r) size Hrep ltac:(lia))
    as [[_ ->]|(_ & b & bs' & h' & m' & -> & Hrep' & Hbu & Hused & Hsz' & Hget & Hfree & Hbase & Hsize' & Hsame)].
  { left. by rewrite set_heap_id. }
  right. rewrite Hget. ub_step. pose proof (W_pos Wn) as HWp.
  pose proof (need_spec Wn size ltac:(lia)) as (_ & Hneed & _).
  assert (Hbin : b ∈ bs').
  { assert (b ∈ used bs') as Hbi by (rewrite Hused, elem_of_cons; by left).
    by apply elem_of_used in Hbi as [_ ?]. }
  pose proof (hr_shape _ _ _ _ _ _ Hrep') as Hs'. pose proof (sh_lo _ _ _ _ _ _ Hs') as Hlo.
  destruct (tiles_bounds _ _ _ _ _ (sh_tiles _ _ _ _ _ _ Hs') Hbin) as (Hb1 & Hb2 & Hb3).
  assert (Ho : only_in (r_lo r) (r_hi r) (memory st) m').
  { eapply same_but_only_in; [apply Hrep|exact Hs'|exact Hsame]. }
  eexists _, _, (contents m' (b_addr b + W) size), b. split; [done|].
  unfold MEM_BLOCK_HEAD_SIZE. replace (2 * W - W) with W by lia.
  split; [lia|]. split; [apply contents_len; lia|].
  split; [|by apply (extents_insert st i h)]. eexists.
  apply (heap_update st os rs us Hinv i h r Hh Hr h' m' bs');
    [done|done|done|done|f_equal; lia| |].
  - rewrite (us_split _ _ _ _ Hinv i r Hr), Hused. reflexivity.
  - constructor.
    + split; [done|]. cbn [o_ptr o_bytes]. rewrite contents_len by lia. split; [lia|].
      intros k Hk. apply contents_lookup; [|done]. intros x Hx.
      apply (sh_mapped _ _ _ _ _ _ Hs'). lia.
    + eapply Forall2_in; [apply Hinv|]. intros o c Hc Ho'.
      rewrite (us_split _ _ _ _ Hinv i r Hr) in Hc. apply elem_of_app in Hc.
      eapply (object_frame st os rs us Hinv i h r Hh Hr); [exact Hsame| |exact Ho'].
      destruct Hc as [Hc|Hc]; [left|by right]. split; [done|]. intros d Hd ->.
      apply elem_of_used in Hc as [Hc _]. congruence.
Qed.

Lemma malloc_loop_ok st os us size : forall n i,
  holds st os us -> 0 <= size < 2 ^ (8 * W) -> (n + i = MEM_HEAP_LIST_NUM)%nat ->
  malloc_loop (MEM_Allocate Wn) n i st size = Some (0, st) \/
  exists p st' bs b, malloc_loop (MEM_Allocate Wn) n i st size = Some (p, st') /\ 0 < p /\
    zlen bs = size /\ holds st' (Obj p bs :: os) (b :: us) /\ extents st' = extents st.
Proof.
  induction n as [|n IH]; intros i Hhold Hsize Hn; cbn [malloc_loop]; [by left|].
  pose proof Hhold as (rs & Hinv).
  destruct (lookup_lt_is_Some_2 (mem_heap_list st) i) as [h Hh].
  { rewrite (hi_num _ _ _ _ Hinv). lia. }
  rewrite Hh. ub_step. case_bool_decide; [|by left].
  destruct (IH (S i) Hhold Hsize ltac:(lia)) as [Hnext|Hnext].
  all: case_bool_decide; [|by (left + right)].
  all: destruct (MEM_Allocate_ok st os us i h size Hhold Hh ltac:(lia) Hsize)
    as [->|(p & st' & bs & b & -> & Hp & Hbs & Hst' & Hext)]; cbn [fst snd];
    [rewrite bool_decide_false by (by intros []); by (left + right)|].
  all: right; exists p, st', bs, b; by rewrite bool_decide_true by lia.
Qed.

(** A handle: the index of a descriptor in use, or NULL. *)
Definition handle_ok (st : mem_heaps) (handle : option nat) : Prop :=
  match handle with
  | None => True
  | Some i => exists h, mem_heap_list st !! i = Some h /\ hp_size h <> 0
  end.

Lemma tuya_mem_heap_malloc_ok st os us handle size :
  holds st os us -> handle_ok st handle -> 0 <= size < 2 ^ (8 * W) ->
  tuya_mem_heap_malloc Wn st handle size = Some (0, st) \/
  exists p st' bs b, tuya_mem_heap_malloc Wn st handle size = Some (p, st') /\ 0 < p /\
    zlen bs = size /\ holds st' (Obj p bs :: os) (b :: us) /\ extents st' = extents st.
Proof.
  intros Hhold Hh Hsize. destruct handle as [i|]; cbn [tuya_mem_heap_malloc].
  - destruct Hh as (h & Hh & Hne). by eapply MEM_Allocate_ok.
  - by apply malloc_loop_ok.
Qed.

(** ** Freeing *)

Lemma tiles_NoDup bs : forall a top, tiles Wn a bs top -> NoDup bs.
Proof.
  pose proof (W_pos Wn). induction bs as [|b bs IH]; intros a top Ht; [constructor|].
  cbn [tiles] in Ht. destruct Ht as (Ha & Hs & _ & Ht). constructor; [|by eapply IH].
  intros Hb. destruct (tiles_bounds _ _ _ _ _ Ht Hb). lia.
Qed.

Lemma used_NoDup bs a top : tiles Wn a bs top -> NoDup (used bs).
Proof. intros Ht. unfold used. apply NoDup_filter. by eapply tiles_NoDup. Qed.

(** The heap that a block is in. *)
Lemma block_home st os rs b us :
  heaps_inv st os rs (b :: us) ->
  exists i h r, mem_heap_list st !! i = Some h /\ rs !! i = Some (Some r) /\
    b ∈ used (r_blocks r) /\ 0 < hp_size h /\ base h <= r_lo r /\ r_hi r <= base h + hp_size h /\
    heap_rep (r_lo r) (r_hi r) h (memory st) (r_blocks r) /\
    0 < r_lo r <= b_addr b /\ b_addr b + b_size b <= r_hi r /\ 2 * W <= b_size b /\
    (forall c, c ∈ us -> c ∈ used (r_blocks r) /\ c <> b \/ c ∈ all_blocks (delete i rs)).
Proof.
  intros Hinv. assert (Hin : b ∈ all_blocks rs).
  { rewrite <- (hi_blocks _ _ _ _ Hinv), elem_of_cons. by left. }
  apply list_elem_of_bind in Hin as (r & Hb & Hr). apply list_elem_of_lookup in Hr as [i Hr].
  destruct r as [r|]; [|by apply not_elem_of_nil in Hb]. simpl in Hb.
  destruct (Forall2_lookup_r _ _ _ _ _ (hi_desc _ _ _ _ Hinv) Hr) as (h & Hh & Hd).
  pose proof Hd as (Hsz & Hbase & Hend & Hrep).
  pose proof (hr_shape _ _ _ _ _ _ Hrep) as Hs. pose proof (sh_lo _ _ _ _ _ _ Hs) as Hlo.
  pose proof (sh_tiles _ _ _ _ _ _ Hs) as Ht. pose proof Hb as [_ Hbin]%elem_of_used.
  destruct (tiles_bounds _ _ _ _ _ Ht Hbin) as (Hb1 & Hb2 & Hb3).
  exists i, h, r. do 10 (split; [done|]). intros c Hc.
  destruct (proj1 (elem_of_Permutation (used (r_blocks r)) b) Hb) as (k & Hk).
  assert (Hus : us ≡ₚ k ++ all_blocks (delete i rs)).
  { apply (Permutation_cons_inv (a := b)). rewrite (us_split _ _ _ _ Hinv i r Hr), Hk.
    reflexivity. }
  rewrite Hus, elem_of_app in Hc. destruct Hc as [Hc|Hc]; [left|by right]. split.
  - rewrite Hk, elem_of_cons. by right.
  - intros ->. pose proof (used_NoDup _ _ _ Ht) as Hnd. rewrite Hk in Hnd.
    by inversion Hnd.
Qed.

(** The heap that an object is in. *)
Lemma object_heap st o os b us :
  holds st (o :: os) (b :: us) ->
  exists i h, mem_heap_list st !! i = Some h /\ hp_size h <> 0 /\
    base h < o_ptr o < base h + hp_size h /\ 0 < o_ptr o /\
    exists st', MEM_Deallocate Wn st i (o_ptr o) = Some st' /\ holds st' os us.
Proof.
  intros (rs & Hinv). pose proof (hi_objs _ _ _ _ Hinv) as Hobjs.
  apply Forall2_cons_1 in Hobjs as [Hb Hobjs].
  pose proof (W_pos Wn) as HWp. destruct Hb as (Hptr & Hlen & _).
  destruct (block_home _ _ _ _ _ Hinv)
    as (i & h & r & Hh & Hr & Hb & Hsz & Hbase & Hend & Hrep & Hlo & Hb2 & Hb3 & Hothers).
  exists i, h. rewrite Hptr. split; [done|]. split; [lia|]. split; [lia|]. split; [lia|].
  destruct (heap_deallocate_ok Wn _ _ h (memory st) (r_blocks r) b Hrep Hb)
    as (h' & m' & bs' & Heq & Hrep' & Hused & Hfree & Hbase' & Hsize' & _ & Hsame).
  unfold MEM_Deallocate. rewrite bool_decide_false by lia. rewrite Hh. ub_step. rewrite Heq.
  eexists. split; [done|]. eexists.
  apply (heap_update st (o :: os) rs (b :: us) Hinv i h r Hh Hr h' m' bs');
    [done|done|done| |f_equal; lia| |].
  - eapply same_but_only_in; [apply Hrep|apply Hrep'|exact Hsame].
  - apply (Permutation_cons_inv (a := b)). rewrite (us_split _ _ _ _ Hinv i r Hr), Hused.
    reflexivity.
  - eapply Forall2_in; [exact Hobjs|]. intros o' c Hc Ho'.
    eapply (object_frame st _ rs _ Hinv i h r Hh Hr); [exact Hsame| |exact Ho'].
    destruct (Hothers c Hc) as [[Hcu Hne]|Hcr]; [left|by right]. split; [done|].
    intros d [Hu|Hu] ->; [apply elem_of_used in Hcu as [Hcu _]; congruence|congruence].
Qed.

(** The handle is NULL or that of the heap that [ptr] is in. *)
Definition owner (st : mem_heaps) (handle : option nat) (ptr : Z) : Prop :=
  match handle with
  | None => True
  | Some i => exists h, mem_heap_list st !! i = Some h /\ hp_size h <> 0 /\
                base h < ptr < base h + hp_size h
  end.

Lemma owner_unique st os us i j h k ptr :
  holds st os us -> mem_heap_list st !! i = Some h -> mem_heap_list st !! j = Some k ->
  hp_size h <> 0 -> hp_size k <> 0 -> base h < ptr < base h + hp_size h ->
  base k < ptr < base k + hp_size k -> i = j.
Proof.
  intros (rs & Hinv) Hh Hk Hh0 Hk0 Hp Hp'. destruct (decide (i = j)) as [|Hne]; [done|].
  destruct (hi_disj _ _ _ _ Hinv i j h k); [done..|lia|lia].
Qed.

Lemma hp_size_nonneg st os us i h :
  holds st os us -> mem_heap_list st !! i = Some h -> hp_size h <> 0 -> 0 < hp_size h.
Proof.
  intros (rs & Hinv) Hh Hne.
  destruct (Forall2_lookup_l _ _ _ _ _ (hi_desc _ _ _ _ Hinv) Hh) as ([r|] & Hr & Hd); [|done].
  by destruct Hd.
Qed.

Lemma free_loop_ok st os us i h ptr :
  holds st os us -> mem_heap_list st !! i = Some h -> hp_size h <> 0 ->
  base h < ptr < base h + hp_size h ->
  forall n j, (j <= i)%nat -> (i < n + j)%nat ->
  free_loop Wn n j st ptr = MEM_Deallocate Wn st i ptr.
Proof.
  intros Hhold Hh Hne Hp. pose proof Hhold as (rs & Hinv).
  induction n as [|n IH]; intros j Hj Hn; [lia|]. cbn [free_loop].
  destruct (lookup_lt_is_Some_2 (mem_heap_list st) j) as [k Hk].
  { apply lookup_lt_Some in Hh. lia. }
  rewrite Hk. ub_step.
  assert (Hk0 : hp_size k <> 0) by (intros Hz; by apply Hne, (hi_prefix _ _ _ _ Hinv j i k h)).
  pose proof (hp_size_nonneg _ _ _ _ _ Hhold Hk Hk0). rewrite bool_decide_true by lia.
  destruct (decide (i = j)) as [<-|Hij].
  - rewrite Hh in Hk. injection Hk as <-. by rewrite !bool_decide_true by lia.
  - destruct (bool_decide (ptr > base k) && bool_decide (ptr < base k + hp_size k)) eqn:Hb.
    + apply andb_true_iff in Hb as [?%bool_decide_eq_true ?%bool_decide_eq_true].
      destruct Hij. apply (owner_unique st os us i j h k ptr); try done; lia.
    + apply IH; lia.
Qed.

Lemma tuya_mem_heap_free_ok st handle o os b us :
  holds st (o :: os) (b :: us) -> owner st handle (o_ptr o) ->
  exists st', tuya_mem_heap_free Wn st handle (o_ptr o) = Some st' /\ holds st' os us.
Proof.
  intros Hhold Hown. destruct (object_heap _ _ _ _ _ Hhold) as (i & h & Hh & Hne & Hp & _ & Hd).
  destruct handle as [j|]; cbn [tuya_mem_heap_free].
  - destruct Hown as (k & Hk & Hk0 & Hp').
    by rewrite (owner_unique _ _ _ j i k h (o_ptr o) Hhold).
  - pose proof Hhold as (rs & Hinv). rewrite (free_loop_ok st (o :: os) (b :: us) i h); [done..|lia|].
    apply lookup_lt_Some in Hh. rewrite (hi_num _ _ _ _ Hinv) in Hh. lia.
Qed.

(** ** Use of an object *)

(** A user writes between the size field and the state byte of a used block. *)
Lemma shape_user_write lo hi first m bs b a e m' :
  shape lo hi first m bs -> b ∈ used bs -> only_in a e m m' ->
  b_addr b + W <= a -> e <= b_addr b + b_size b - 1 -> shape lo hi first m' bs.
Proof.
  intros Hs Hb Ho Ha He. apply elem_of_used in Hb as [Hu Hin].
  apply list_elem_of_split in Hin as (l1 & l2 & ->). pose proof (W_pos Wn) as HWp.
  destruct (shape_mid Wn lo hi first m l1 [b] l2 Hs) as (a1&a2&q&r&_&Htm&_&_&Hsm&_&Hb&Hmk).
  cbn [tiles] in Htm. destruct Htm as (<- & H2W & Hmod & <-).
  cbn [seg] in Hsm. rewrite Hu in Hsm. subst r.
  inversion Hb as [|? ? [Hsz (d & Hd & Hdu)] _]; subst.
  apply (Hmk m' [b]).
  - eapply only_in_weaken; [| |exact Ho]; lia.
  - done.
  - constructor; [|constructor]. split; [unfold get_size in *; by frame|].
    exists d. split; [by frame|done].
  - cbn [seg]. by rewrite Hu.
Qed.

(** The user writes into an object or uses more or less of its block. *)
Lemma user_write st o os b us a e m' bs' :
  holds st (o :: os) (b :: us) -> only_in a e (memory st) m' ->
  b_addr b + W <= a -> e <= b_addr b + b_size b - 1 -> zlen bs' + W + 1 <= b_size b ->
  (forall k, 0 <= k < zlen bs' -> m' !! (o_ptr o + k) = bs' !! Z.to_nat k) ->
  holds (set_memory st m') (Obj (o_ptr o) bs' :: os) (b :: us).
Proof.
  intros (rs & Hinv) Ho Ha He Hlen Hbs. pose proof (hi_objs _ _ _ _ Hinv) as Hobjs.
  apply Forall2_cons_1 in Hobjs as [Hb Hobjs]. destruct Hb as (Hptr & _ & _).
  destruct (block_home _ _ _ _ _ Hinv)
    as (i & h & r & Hh & Hr & Hb & Hsz & Hbase & Hend & Hrep & Hlo & Hb2 & Hb3 & Hothers).
  pose proof (W_pos Wn) as HWp.
  assert (Hrep' : heap_rep (r_lo r) (r_hi r) h m' (r_blocks r)).
  { constructor; try apply Hrep. eapply shape_user_write; [apply Hrep|done..]. }
  exists (<[i := Some (Region (r_lo r) (r_hi r) (r_blocks r))]> rs).
  replace (set_memory st m') with
    (MemHeaps (<[i := h]> (mem_heap_list st)) (s_heap_free_size st)
       (s_heap_free_size_watermark st) m')
    by (by rewrite list_insert_id).
  apply (heap_update st (o :: os) rs (b :: us) Hinv i h r Hh Hr h m' (r_blocks r));
    [done|done|done| | | |].
  - eapply only_in_weaken; [| |exact Ho]; lia.
  - rewrite (hi_total _ _ _ _ Hinv). unfold ul, wrap.
    rewrite Z.sub_simpl_r. by rewrite Zmod_mod.
  - apply (us_split _ _ _ _ Hinv i r Hr).
  - constructor; [by split|]. eapply Forall2_in; [exact Hobjs|]. intros o' c Hc Ho'.
    apply (object_frame st _ rs _ Hinv i h r Hh Hr (fun d => d = b) m' c o'); [| |exact Ho'].
    + intros x Hx. apply (only_in_byte _ _ _ _ _ Ho).
      apply elem_of_used in Hb as [_ Hb]. destruct (Hx b Hb eq_refl); lia.
    + destruct (Hothers c Hc) as [[Hcu Hne]|Hcr]; [left|by right]. split; [done|].
      intros d -> Heq. by apply Hne.
Qed.

(** What memory holds at the block of an object. *)
Lemma block_facts st o os b us :
  holds st (o :: os) (b :: us) ->
  in_block (memory st) o b /\ get_size Wn (memory st) (b_addr b) = Some (b_size b) /\
  (memory st) !! (b_addr b + b_size b - 1) = Some MEM_BLOCK_STAT_USE /\
  mapped (memory st) (b_addr b) (b_addr b + b_size b) /\
  0 < b_addr b /\ b_addr b + b_size b < 2 ^ (8 * W - 2) /\ 2 * W <= b_size b /\
  b_size b `mod` W = 0 /\ b_addr b `mod` W = 0.
Proof.
  intros (rs & Hinv). pose proof (hi_objs _ _ _ _ Hinv) as Hobjs.
  apply Forall2_cons_1 in Hobjs as [Hb _]. split; [done|].
  destruct (block_home _ _ _ _ _ Hinv)
    as (i & h & r & Hh & Hr & Hbu & _ & _ & _ & Hrep & Hlo & Hb2 & Hb3 & _).
  pose proof (hr_shape _ _ _ _ _ _ Hrep) as Hs. apply elem_of_used in Hbu as [Hu Hbin].
  pose proof (sh_blocks _ _ _ _ _ _ Hs) as Hok. rewrite Forall_forall in Hok.
  destruct (Hok b Hbin) as [Hsz (d & Hd & Hdu)]. rewrite Hu in Hdu. subst d.
  pose proof (sh_tiles _ _ _ _ _ _ Hs) as Ht. pose proof (sh_hi _ _ _ _ _ _ Hs).
  do 2 (split; [done|]). split. { intros x Hx. apply (sh_mapped _ _ _ _ _ _ Hs). lia. }
  split; [lia|]. split; [lia|]. split; [done|].
  split; [|apply (tiles_aligned Wn _ _ _ _ (sh_align _ _ _ _ _ _ Hs) Ht Hbin)].
  apply list_elem_of_split in Hbin as (l1 & l2 & Heq). rewrite Heq in Ht.
  apply tiles_app in Ht as (mid & _ & Ht). cbn [tiles] in Ht. apply Ht.
Qed.

Lemma fill_zero_ok n : forall m p,
  mapped m p (p + Z.of_nat n) ->
  exists m', fill_zero n m p = Some m' /\ only_in p (p + Z.of_nat n) m m' /\
    forall k, 0 <= k < Z.of_nat n -> m' !! (p + k) = Some 0.
Proof.
  induction n as [|n IH]; intros m p Hm; cbn [fill_zero].
  - exists m. split; [done|]. split; [apply only_in_refl|]. lia.
  - destruct (storeb_ok m p 0) as (m1 & -> & Ho1 & Hl1); [apply Hm; lia|]. ub_step.
    destruct (IH m1 (p + 1)) as (m2 & -> & Ho2 & Hl2); [intros x Hx; apply Ho1, Hm; lia|].
    exists m2. split; [done|]. split.
    + apply only_in_trans with m1; eapply only_in_weaken; [| |exact Ho1| | |exact Ho2]; lia.
    + intros k Hk. destruct (decide (k = 0)) as [->|Hne].
      * rewrite (only_in_byte _ _ _ _ _ Ho2) by lia. by rewrite Z.add_0_r.
      * replace (p + k) with (p + 1 + (k - 1)) by lia. apply Hl2. lia.
Qed.

(** [memcpy] between ranges that do not overlap. *)
Lemma copy_bytes_ok n : forall m d s,
  mapped m d (d + Z.of_nat n) -> mapped m s (s + Z.of_nat n) ->
  d + Z.of_nat n <= s \/ s + Z.of_nat n <= d ->
  exists m', copy_bytes n m d s = Some m' /\ only_in d (d + Z.of_nat n) m m' /\
    forall k, 0 <= k < Z.of_nat n -> m' !! (d + k) = m !! (s + k).
Proof.
  induction n as [|n IH]; intros m d s Hd Hs Hdis; cbn [copy_bytes].
  - exists m. split; [done|]. split; [apply only_in_refl|]. lia.
  - destruct (Hs s) as [v Hv]; [lia|]. rewrite Hv. ub_step.
    destruct (Hd d) as [v' Hv']; [lia|]. rewrite Hv'. ub_step.
    assert (Ho1 : only_in d (d + 1) m (<[d := v]> m)).
    { split; [intros x Hx; by rewrite lookup_insert_ne by lia|].
      intros x Hx. destruct (decide (x = d)) as [->|Hne];
        [by rewrite lookup_insert_eq|by rewrite lookup_insert_ne]. }
    destruct (IH (<[d := v]> m) (d + 1) (s + 1)) as (m2 & -> & Ho2 & Hl2);
      [intros x Hx; apply Ho1, Hd; lia|intros x Hx; apply Ho1, Hs; lia|lia|].
    exists m2. split; [done|]. split.
    + apply only_in_trans with (<[d := v]> m);
        eapply only_in_weaken; [| |exact Ho1| | |exact Ho2]; lia.
    + intros k Hk. destruct (decide (k = 0)) as [->|Hne].
      * rewrite (only_in_byte _ _ _ _ _ Ho2) by lia. by rewrite !Z.add_0_r, lookup_insert_eq, Hv.
      * replace (d + k) with (d + 1 + (k - 1)) by lia. rewrite Hl2 by lia.
        rewrite lookup_insert_ne by lia. f_equal. lia.
Qed.

Lemma holds_blocks_disjoint st o1 o2 os b1 b2 us :
  holds st (o1 :: o2 :: os) (b1 :: b2 :: us) ->
  b_addr b1 + b_size b1 <= b_addr b2 \/ b_addr b2 + b_size b2 <= b_addr b1.
Proof.
  intros (rs & Hinv). destruct (block_home _ _ _ _ _ Hinv)
    as (i & h & r & Hh & Hr & Hb & _ & _ & _ & Hrep & Hlo & Hb2 & Hb3 & Hothers).
  pose proof (sh_tiles _ _ _ _ _ _ (hr_shape _ _ _ _ _ _ Hrep)) as Ht.
  apply elem_of_used in Hb as [_ Hb].
  destruct (Hothers b2) as [[Hc Hne]|Hc]; [rewrite elem_of_cons; by left| |].
  - apply elem_of_used in Hc as [_ Hc].
    destruct (tiles_disjoint _ _ _ _ _ _ Ht Hb Hc); [congruence|by left|by right].
  - apply elem_of_rest in Hc as (j & r' & Hj & Hr' & Hc). apply elem_of_used in Hc as [_ Hc].
    destruct (Forall2_lookup_r _ _ _ _ _ (hi_desc _ _ _ _ Hinv) Hr') as (h' & Hh' & Hd').
    destruct Hd' as (_ & _ & _ & Hrep').
    pose proof (sh_tiles _ _ _ _ _ _ (hr_shape _ _ _ _ _ _ Hrep')) as Ht'.
    destruct (tiles_bounds _ _ _ _ _ Ht' Hc) as (Hc1 & Hc2 & Hc3).
    destruct (region_apart _ _ _ _ Hinv i h r Hh Hr j r' Hj Hr'); lia.
Qed.

Lemma holds_swap st o1 o2 os b1 b2 us :
  holds st (o1 :: o2 :: os) (b1 :: b2 :: us) -> holds st (o2 :: o1 :: os) (b2 :: b1 :: us).
Proof.
  intros (rs & [? ? ? ? Hus Hobjs ?]). exists rs. constructor; [done..| | |done].
  - rewrite <- Hus. constructor.
  - apply Forall2_cons_1 in Hobjs as [H1 Hobjs]. apply Forall2_cons_1 in Hobjs as [H2 Hobjs].
    by do 2 (constructor; [done|]).
Qed.

(** ** Composed operations *)

Lemma tuya_mem_heap_calloc_ok st os us handle size :
  holds st os us -> handle_ok st handle -> 0 <= size < 2 ^ (8 * W) ->
  tuya_mem_heap_calloc Wn st handle size = Some (0, st) \/
  exists p st' b, tuya_mem_heap_calloc Wn st handle size = Some (p, st') /\ 0 < p /\
    holds st' (Obj p (replicate (Z.to_nat size) 0) :: os) (b :: us).
Proof.
  intros Hhold Hh Hsize. unfold tuya_mem_heap_calloc.
  destruct (tuya_mem_heap_malloc_ok st os us handle size Hhold Hh Hsize)
    as [->|(p & st' & bs & b & -> & Hp & Hbs & Hst' & _)]; ub_step; cbn [fst snd]; [by left|right].
  rewrite bool_decide_true by lia.
  destruct (block_facts _ _ _ _ _ Hst') as ((Hptr & Hlen & _) & _ & _ & Hmap & Hb & _ & Hb2 & _).
  cbn [o_ptr o_bytes] in *.
  destruct (fill_zero_ok (Z.to_nat size) (memory st') p) as (m' & -> & Ho & Hz);
    [intros x Hx; apply Hmap; lia|]. ub_step.
  exists p, (set_memory st' m'), b. split; [done|]. split; [done|].
  eapply (user_write st' (Obj p bs)); [exact Hst'|exact Ho|lia|lia| |].
  - unfold zlen. rewrite length_replicate. lia.
  - unfold zlen. rewrite length_replicate. intros k Hk. cbn [o_ptr]. rewrite Hz by lia.
    symmetry. apply lookup_replicate. split; [done|]. lia.
Qed.

Lemma owner_extents st st' handle ptr :
  extents st' = extents st -> owner st handle ptr -> owner st' handle ptr.
Proof.
  destruct handle as [i|]; [|done]. intros He (h & Hh & Hne & Hp).
  assert (Hl : extents st' !! i = Some (base h, hp_size h)).
  { rewrite He. unfold extents. by rewrite list_lookup_fmap, Hh. }
  unfold extents in Hl. rewrite list_lookup_fmap in Hl.
  destruct (mem_heap_list st' !! i) as [h'|] eqn:Hh'; [|done]. simpl in Hl.
  injection Hl as Hb Hs. exists h'. rewrite Hb, Hs. done.
Qed.

Lemma owner_handle st handle ptr : owner st handle ptr -> handle_ok st handle.
Proof. destruct handle as [i|]; [|done]. intros (h & ? & ? & _). by exists h. Qed.

(** The block size for a resize. *)
Lemma realloc_size size :
  4 <= size <= 2 ^ 32 - 16 ->
  ul Wn (ALIGN_UP Wn (u32 (size + 1)) + MEM_BLOCK_HEAD_SIZE Wn) = need Wn size.
Proof.
  intros Hs. assert (H32 : 2 ^ 32 <= 2 ^ (8 * W)).
  { pose proof (W_pos Wn). apply Z.pow_le_mono_r; lia. }
  rewrite (wrap_small 32 (size + 1)) by (split; [lia|]; change (2 ^ 32) with 4294967296 in *; lia). pose proof (W_pos Wn).
  pose proof (need_spec Wn size ltac:(lia)) as (_ & Hn & _).
  destruct (block_size_ok Wn size ltac:(lia)) as [[_ Hok]|[Hov _]]; [exact Hok|].
  exfalso. destruct (@word_size Wn _) as [-> | ->]; [lia|].
  change (2 ^ (8 * Z.of_nat 8)) with (2 ^ 32 * 2 ^ 32) in Hov. lia.
Qed.

Lemma contents_prefix m p n bs :
  mapped m p (p + n) -> 0 <= n ->
  (forall k, 0 <= k < zlen bs -> k < n -> m !! (p + k) = bs !! Z.to_nat k) ->
  forall k, (k < length bs)%nat -> Z.of_nat k < n -> contents m p n !! k = bs !! k.
Proof.
  intros Hm Hn Hbs k Hk Hkn. specialize (Hbs (Z.of_nat k) ltac:(unfold zlen; lia) Hkn).
  rewrite (contents_lookup m p n (Z.of_nat k) Hm) in Hbs by lia. by rewrite !Nat2Z.id in Hbs.
Qed.

(** A resized object keeps its contents as far as both sizes go. *)
Definition resized (bs bs' : list Z) (size : Z) : Prop :=
  zlen bs' = Z.max 4 size /\
  forall k, (k < length bs)%nat -> (k < length bs')%nat -> bs' !! k = bs !! k.

Lemma tuya_mem_heap_realloc_ok st o os b us handle size :
  holds st (o :: os) (b :: us) -> owner st handle (o_ptr o) -> 0 <= size <= 2 ^ 32 - 16 ->
  exists p st', tuya_mem_heap_realloc Wn st handle (o_ptr o) size = Some (p, st') /\
    (p = 0 /\ st' = st \/
     exists bs b', 0 < p /\ resized (o_bytes o) bs size /\ holds st' (Obj p bs :: os) (b' :: us)).
Proof.
  intros Hhold Hown Hsize. pose proof (W_pos Wn) as HWp.
  destruct (block_facts _ _ _ _ _ Hhold)
    as ((Hptr & Hlen & Hbytes) & Hget & Hdog & Hmap & Hb0 & Hbhi & Hb2 & Hbm & _).
  unfold tuya_mem_heap_realloc. rewrite bool_decide_false by lia.
  replace (o_ptr o - MEM_BLOCK_HEAD_SIZE Wn) with (b_addr b) by (unfold MEM_BLOCK_HEAD_SIZE; lia).
  unfold get_dog at 1, MEM_DOG_ADDR. rewrite Hget. ub_step. rewrite Hdog. ub_step.
  rewrite bool_decide_false by (intros Hx; by apply Hx).
  set (sz := if bool_decide (size < 4) then 4 else size).
  assert (Hsz : sz = Z.max 4 size) by (unfold sz; case_bool_decide; lia).
  rewrite realloc_size by lia. pose proof (need_spec Wn sz ltac:(lia)) as (Hnm & Hn & _).
  case_bool_decide as Hfit.
  - exists (o_ptr o), st. split; [done|]. right. exists (contents (memory st) (o_ptr o) sz), b.
    assert (Hm : mapped (memory st) (o_ptr o) (o_ptr o + sz)) by (intros x Hx; apply Hmap; lia).
    split; [lia|]. split.
    { split; [rewrite contents_len; lia|]. intros k Hk Hk'. apply contents_prefix; [done|lia| |done|].
      - intros j Hj _. by apply Hbytes.
      - rewrite <- (contents_len (memory st) (o_ptr o) sz) by lia. unfold zlen. lia. }
    replace st with (set_memory st (memory st)) at 1 by (by destruct st).
    eapply (user_write st o os b us (b_addr b + W) (b_addr b + W));
      [exact Hhold|apply only_in_refl|lia|lia|rewrite contents_len; lia|].
    rewrite contents_len by lia. intros k Hk. by apply contents_lookup.
  - assert (2 ^ 32 <= 2 ^ (8 * W)) by (apply Z.pow_le_mono_r; lia).
    destruct (tuya_mem_heap_malloc_ok st (o :: os) (b :: us) handle sz Hhold)
      as [->|(p & st1 & bs & c & -> & Hp & Hbs & Hst1 & Hext)]; [by eapply owner_handle|lia| |];
      ub_step; cbn [fst snd].
    { exists 0, st. rewrite bool_decide_true by done. split; [done|by left]. }
    rewrite bool_decide_false by lia.
    pose proof (holds_swap _ _ _ _ _ _ _ Hst1) as Hst1'.
    destruct (block_facts _ _ _ _ _ Hst1)
      as ((Hptr1 & Hlen1 & _) & _ & _ & Hmap1 & Hc0 & Hchi & Hc2 & _).
    destruct (block_facts _ _ _ _ _ Hst1')
      as ((_ & _ & Hbytes') & Hget' & _ & Hmap' & _ & Hbhi' & _).
    pose proof (holds_blocks_disjoint _ _ _ _ _ _ _ Hst1) as Hdis. cbn [o_ptr o_bytes] in *.
    rewrite Hget'. ub_step. unfold MEM_BLOCK_HEAD_SIZE. replace (2 * W - W) with W by lia.
    pose proof (pow_split Wn). rewrite ul_small by lia.
    assert (Hgap : b_size b - W <= sz).
    { apply Z.mod_divide in Hnm as [x Hx]; [|lia]. apply Z.mod_divide in Hbm as [y Hy]; [|lia].
      rewrite Hx, Hy in *. assert (y < x) by nia. nia. }
    destruct (copy_bytes_ok (Z.to_nat (b_size b - W)) (memory st1) p (o_ptr o))
      as (m2 & -> & Ho & Hcopy);
      [intros x Hx; apply Hmap1; lia|intros x Hx; apply Hmap'; lia|lia|]. ub_step.
    assert (Hm2 : mapped m2 p (p + sz)) by (intros x Hx; apply Ho, Hmap1; lia).
    pose proof (user_write st1 (Obj p bs) (o :: os) c (b :: us) _ _ m2 (contents m2 p sz) Hst1 Ho
      ltac:(lia) ltac:(lia)) as Hst2. rewrite contents_len in Hst2 by lia. cbn [o_ptr] in Hst2.
    destruct (tuya_mem_heap_free_ok (set_memory st1 m2) handle o (Obj p (contents m2 p sz) :: os)
      b (c :: us)) as (st3 & -> & Hst3).
    { apply holds_swap, Hst2; [lia|]. intros k Hk. by apply contents_lookup. }
    { by apply (owner_extents st1), (owner_extents st). }
    ub_step. exists p, st3. split; [done|]. right. exists (contents m2 p sz), c.
    split; [done|]. split; [|done]. split; [rewrite contents_len; lia|].
    intros k Hk Hk'. apply contents_prefix; [done|lia| |done|].
    + intros j Hj _. rewrite Hcopy by lia. by apply Hbytes'.
    + rewrite <- (contents_len m2 p sz) by lia. unfold zlen. lia.
Qed.

(** ** Creation *)

Lemma align_up_ok x :
  0 < x < 2 ^ (8 * W - 2) ->
  ALIGN_UP Wn x `mod` W = 0 /\ x <= ALIGN_UP Wn x < x + W.
Proof.
  intros Hx. pose proof (W_pos Wn). pose proof (pow_split Wn).
  assert (64 <= 2 ^ (8 * W - 2)).
  { change 64 with (2 ^ 6). apply Z.pow_le_mono_r; lia. }
  unfold ALIGN_UP. rewrite (ul_small Wn x), ul_small by lia. rewrite (land_lnot Wn) by lia.
  pose proof (Z.div_mod (x + (W - 1)) W ltac:(lia)).
  pose proof (Z.mod_pos_bound (x + (W - 1)) W ltac:(lia)).
  split; [apply Z_mod_mult|lia].
Qed.

Lemma align_down_ok x :
  0 <= x < 2 ^ (8 * W) -> ALIGN_DOWN Wn x `mod` W = 0 /\ x - W < ALIGN_DOWN Wn x <= x.
Proof.
  intros Hx. pose proof (W_pos Wn). unfold ALIGN_DOWN. rewrite ul_small by lia.
  rewrite (land_lnot Wn) by lia.
  pose proof (Z.div_mod x W ltac:(lia)). pose proof (Z.mod_pos_bound x W ltac:(lia)).
  split; [apply Z_mod_mult|lia].
Qed.

(** A new heap is one free block. *)
Lemma mem_heap_init_ok h m total ptr size :
  0 < ptr -> W <= size -> ptr + size < 2 ^ (8 * W - 2) -> mapped m ptr (ptr + size) ->
  (exists h', mem_heap_init Wn h m total ptr size = Some (false, h', m, total)) \/
  exists lo s h' m', mem_heap_init Wn h m total ptr size = Some (true, h', m', ul Wn (total + s)) /\
    ptr <= lo < ptr + W /\ size - 2 * W < s /\ lo + s <= ptr + size /\
    heap_rep lo (lo + s) h' m' [Blk lo s false] /\
    base h' = ptr /\ hp_size h' = size /\ hp_free h' = s /\ free_watermark h' = s /\
    only_in ptr (ptr + size) m m'.
Proof.
  intros Hp Hs Hhi Hm. pose proof (W_pos Wn) as HWp. pose proof (pow_split Wn) as Hpow.
  destruct (align_up_ok ptr ltac:(lia)) as [Hlom Hlo].
  unfold mem_heap_init. set (lo := ALIGN_UP Wn ptr) in *.
  rewrite (ul_small Wn (lo - ptr)), (ul_small Wn (size - (lo - ptr))) by lia.
  destruct (align_down_ok (size - (lo - ptr)) ltac:(lia)) as [Hsm Hsr].
  set (s := ALIGN_DOWN Wn (size - (lo - ptr))) in *.
  unfold MEM_HEAP_MIN_SIZE, MEM_BLOCK_HEAD_SIZE, MEM_BLOCK_MIN_SIZE.
  case_bool_decide as Hmin; [left; by eexists|right].
  destruct (store_word_ok Wn m (lo + W) 0) as (m1 & He1 & Ho1 & Hl1);
    [intros x Hx; apply Hm; lia|lia|].
  unfold set_next. rewrite He1. ub_step.
  destruct (store_word_ok Wn m1 lo s) as (m2 & He2 & Ho2 & Hl2);
    [intros x Hx; apply Ho1, Hm; lia|lia|].
  unfold set_size. rewrite He2. ub_step.
  destruct (set_dog_ok Wn m2 lo s MEM_BLOCK_STAT_FREE) as (m3 & -> & Ho3 & Hd3);
    [exact Hl2|apply Ho2, Ho1, Hm; lia|done|]. ub_step.
  eexists lo, s, _, m3. split; [done|]. cbn [base hp_size hp_free free_watermark].
  split; [lia|]. split; [lia|]. split; [lia|].
  assert (Ho : only_in lo (lo + s) m m3).
  { apply only_in_trans with m1; [eapply only_in_weaken; [| |exact Ho1]; lia|].
    apply only_in_trans with m2; [eapply only_in_weaken; [| |exact Ho2]; lia|].
    eapply only_in_weaken; [| |exact Ho3]; lia. }
  split; [|do 4 (split; [done|]); eapply only_in_weaken; [| |exact Ho]; lia].
  constructor; cbn [free_list hp_free hp_size coal free_sum foldr b_used b_size];
    [|by split; [left|]|lia|lia].
  constructor; cbn [tiles seg b_addr b_size b_used]; [lia|done|lia|lia| | |].
  - constructor; [|constructor]. split; [unfold get_size; cbn [b_addr b_size]; by frame|].
    by exists MEM_BLOCK_STAT_FREE.
  - split; [done|]. exists 0. split; [|done]. unfold get_next. by frame.
  - intros x Hx. apply Ho, Hm. lia.
Qed.

Lemma first_unused_ok hs : forall n,
  match first_unused hs n with
  | None => Forall (fun h => hp_size h <> 0) hs
  | Some i => exists j h, i = (n + j)%nat /\ hs !! j = Some h /\ hp_size h = 0 /\
                Forall (fun h => hp_size h <> 0) (take j hs)
  end.
Proof.
  induction hs as [|h hs IH]; intros n; cbn [first_unused]; [constructor|].
  case_bool_decide as Hh.
  - exists 0%nat, h. split; [lia|]. by split.
  - specialize (IH (S n)). destruct (first_unused hs (S n)).
    + destruct IH as (j & k & -> & Hj & Hk & Hall). exists (S j), k. split; [lia|].
      split; [done|]. split; [done|]. by constructor.
    + by constructor.
Qed.

Lemma total_free_new hs i h h' :
  hs !! i = Some h -> hp_size h = 0 ->
  total_free (<[i := h']> hs) = total_free hs + if decide (hp_size h' = 0) then 0 else hp_free h'.
Proof.
  unfold total_free. revert i. induction hs as [|k hs IH]; intros [|i] Hi Hh; simplify_eq/=.
  - rewrite !filter_cons. repeat case_decide; simpl; try lia; congruence.
  - rewrite !filter_cons. repeat case_decide; simpl; rewrite (IH i) by done;
      repeat case_decide; simpl; try lia; congruence.
Qed.

(** The memory [ptr, ptr + size) is not that of another heap. *)
Definition fresh_memory (st : mem_heaps) (ptr size : Z) : Prop :=
  forall i h, mem_heap_list st !! i = Some h -> hp_size h <> 0 ->
    base h + hp_size h <= ptr \/ ptr + size <= base h.

(** A descriptor that was unused changes, and the memory of a new heap. *)
Lemma new_heap_inv st os rs us i h h' r m' wm total ptr size :
  heaps_inv st os rs us -> mem_heap_list st !! i = Some h -> hp_size h = 0 ->
  Forall (fun h => hp_size h <> 0) (take i (mem_heap_list st)) ->
  fresh_memory st ptr size -> only_in ptr (ptr + size) (memory st) m' ->
  desc_ok m' h' r -> region_used r = [] -> (hp_size h' <> 0 -> base h' = ptr /\ hp_size h' = size) ->
  total = ul Wn (s_heap_free_size st + if decide (hp_size h' = 0) then 0 else hp_free h') ->
  (hp_size h' = 0 -> forall j k, (i <= j)%nat -> mem_heap_list st !! j = Some k -> hp_size k = 0) ->
  heaps_inv (MemHeaps (<[i := h']> (mem_heap_list st)) total wm m') os (<[i := r]> rs) us.
Proof.
  intros Hinv Hh Hh0 Hbefore Hfresh Ho Hd Hused Hext -> Hzero.
  pose proof (lookup_lt_Some _ _ _ Hh) as Hlt.
  pose proof (Forall2_length _ _ _ (hi_desc _ _ _ _ Hinv)) as Hlen.
  destruct (lookup_lt_is_Some_2 rs i ltac:(lia)) as [r0 Hr0].
  assert (Hr0n : region_used r0 = []).
  { pose proof (Forall2_lookup_lr _ _ _ _ _ _ (hi_desc _ _ _ _ Hinv) Hh Hr0) as Hd0.
    destruct r0 as [r0|]; [|done]. destruct Hd0 as [? _]. lia. }
  assert (Hothers : forall j k rk, mem_heap_list st !! j = Some k -> rs !! j = Some rk ->
    desc_ok m' k rk).
  { intros j k rk Hk Hrk.
    pose proof (Forall2_lookup_lr _ _ _ _ _ _ (hi_desc _ _ _ _ Hinv) Hk Hrk) as Hdk.
    destruct rk as [rk|]; [|done]. destruct Hdk as (? & ? & ? & Hrep).
    do 3 (split; [done|]). eapply heap_frame; [exact Hrep|exact Ho|].
    destruct (Hfresh j k Hk); lia. }
  destruct (all_blocks_insert rs i r0 Hr0) as (rest & Hall & Hins).
  constructor; cbn [mem_heap_list s_heap_free_size memory].
  - rewrite length_insert. apply Hinv.
  - apply Forall2_same_length_lookup. split; [by rewrite !length_insert|].
    intros j k rk Hj Hrj. apply list_lookup_insert_Some in Hj as [(<- & <- & _)|[Hji Hj]].
    + rewrite list_lookup_insert_eq in Hrj by lia. by injection Hrj as <-.
    + rewrite list_lookup_insert_ne in Hrj by done. by apply (Hothers j).
  - intros j1 j2 k1 k2 Hne H1 H2 Hs1 Hs2.
    apply list_lookup_insert_Some in H1 as [(<- & <- & _)|[Hn1 H1]];
      apply list_lookup_insert_Some in H2 as [(<- & <- & _)|[Hn2 H2]]; [done| | |].
    + unfold apart. destruct (Hext Hs1) as [-> ->]. destruct (Hfresh j2 k2 H2 Hs2); lia.
    + unfold apart. destruct (Hext Hs2) as [-> ->]. destruct (Hfresh j1 k1 H1 Hs1); lia.
    + by apply (hi_disj _ _ _ _ Hinv j1 j2).
  - intros j1 j2 k1 k2 Hle H1 H2 Hs1.
    apply list_lookup_insert_Some in H1 as [(<- & <- & _)|[Hn1 H1]];
      apply list_lookup_insert_Some in H2 as [(Heq2 & <- & _)|[Hn2 H2]]; [done| | |].
    + by apply (Hzero Hs1 j2).
    + subst. exfalso. rewrite Forall_lookup in Hbefore.
      apply (Hbefore j1 k1); [|done]. rewrite lookup_take_lt by lia. done.
    + by apply (hi_prefix _ _ _ _ Hinv j1 j2 k1 k2).
  - rewrite (hi_blocks _ _ _ _ Hinv), Hall, (Hins r), Hr0n, Hused. done.
  - eapply Forall2_in; [apply Hinv|]. intros o b Hb (Hp & Hl & Hc). split; [done|]. split; [done|].
    intros k Hk. rewrite <- Hc by done. apply (only_in_byte _ _ _ _ _ Ho).
    rewrite (hi_blocks _ _ _ _ Hinv) in Hb. apply list_elem_of_bind in Hb as (rk & Hb & Hrk).
    apply list_elem_of_lookup in Hrk as [j Hrk]. destruct rk as [rk|];
      [|by apply not_elem_of_nil in Hb].
    destruct (Forall2_lookup_r _ _ _ _ _ (hi_desc _ _ _ _ Hinv) Hrk) as (k' & Hk' & Hd').
    destruct Hd' as (? & ? & ? & Hrep). simpl in Hb. apply elem_of_used in Hb as [_ Hb].
    pose proof (sh_tiles _ _ _ _ _ _ (hr_shape _ _ _ _ _ _ Hrep)) as Ht.
    destruct (tiles_bounds _ _ _ _ _ Ht Hb). pose proof (W_pos Wn).
    destruct (Hfresh j k' Hk'); lia.
  - rewrite (total_free_new _ _ h) by done. rewrite (hi_total _ _ _ _ Hinv).
    unfold ul, wrap. by rewrite Zplus_mod_idemp_l.
Qed.

Lemma tuya_mem_heap_create_ok st os us ptr size :
  holds st os us -> fresh_memory st ptr size ->
  0 < ptr -> W <= size -> ptr + size < 2 ^ (8 * W - 2) -> mapped (memory st) ptr (ptr + size) ->
  exists r handle st', tuya_mem_heap_create Wn st ptr size = Some (r, handle, st') /\
    holds st' os us.
Proof.
  intros (rs & Hinv) Hfresh Hp Hs Hhi Hm. pose proof (W_pos Wn) as HWp.
  unfold tuya_mem_heap_create, MEM_HeapCreate. rewrite !bool_decide_false by lia. cbn [orb].
  pose proof (first_unused_ok (mem_heap_list st) 0) as Hun.
  destruct (first_unused (mem_heap_list st) 0) as [i|];
    [|ub_step; eexists _, _, st; split; [done|by exists rs]].
  destruct Hun as (j & h & -> & Hh & Hh0 & Hbefore). rewrite Nat.add_0_l, Hh. ub_step.
  destruct (mem_heap_init_ok h (memory st) (s_heap_free_size st) ptr size)
    as [(h' & ->)|(lo & s & h' & m' & -> & Hlo & Hs2 & Hlos & Hrep & Hb & Hsz & Hfr & _ & Ho)];
    [done..| |]; ub_step; eexists _, _, _; (split; [done|]); cbn [snd].
  - exists (<[j := None]> rs). eapply (new_heap_inv st os rs us j h);
      [done|done|done|done|exact Hfresh|apply only_in_refl|done|done|done| |].
    + cbn [hp_size]. rewrite decide_True by done. rewrite Z.add_0_r, (hi_total _ _ _ _ Hinv).
      unfold ul, wrap. by rewrite Zmod_mod.
    + intros _ k hk Hk Hhk. by apply (hi_prefix _ _ _ _ Hinv j k h hk).
  - exists (<[j := Some (Region lo (lo + s) [Blk lo s false])]> rs).
    eapply (new_heap_inv st os rs us j h);
      [done|done|done|done|exact Hfresh|exact Ho| |done|done| |].
    + split; [lia|]. cbn [r_lo r_hi r_blocks]. rewrite Hb, Hsz. split; [lia|]. by split; [lia|].
    + by rewrite decide_False, Hfr by lia.
    + lia.
Qed.

(** ** The contract *)

(** The heaps hold the objects [os]. *)
Definition heaps_hold (st : mem_heaps) (os : list obj) : Prop := exists us, holds st os us.

Lemma heaps_hold_perm st os os' : os ≡ₚ os' -> heaps_hold st os -> heaps_hold st os'.
Proof.
  intros Hp (us & rs & [? ? ? ? Hus Hobjs ?]).
  destruct (Permutation_Forall2 Hp Hobjs) as (us' & Hu' & Hobjs').
  exists us', rs. constructor; [done..| |done|done]. by rewrite <- Hu'.
Qed.

Lemma holds_take st os o :
  heaps_hold st os -> o ∈ os -> exists b rest us, os ≡ₚ o :: rest /\ holds st (o :: rest) (b :: us).
Proof.
  intros Hh Ho. apply elem_of_Permutation in Ho as (rest & Hr).
  destruct (heaps_hold_perm _ _ _ Hr Hh) as (us & rs & Hinv).
  pose proof (hi_objs _ _ _ _ Hinv) as Hobjs.
  apply Forall2_cons_inv_l in Hobjs as (b & us' & _ & _ & ->).
  exists b, rest, us'. split; [done|]. by exists rs.
Qed.

Inductive call :=
  | Create (ptr size : Z)
  | Malloc (handle : option nat) (size : Z)
  | Calloc (handle : option nat) (size : Z)
  | Realloc (handle : option nat) (ptr size : Z)
  | Free (handle : option nat) (ptr : Z)
  | Write (ptr k v : Z).

(** A call; the last one is an assignment [ptr[k] = v] of the user. *)
Definition run (st : mem_heaps) (c : call) : option (Z * mem_heaps) :=
  match c with
  | Create ptr size => r ← tuya_mem_heap_create Wn st ptr size; Some (fst (fst r), snd r)
  | Malloc handle size => tuya_mem_heap_malloc Wn st handle size
  | Calloc handle size => tuya_mem_heap_calloc Wn st handle size
  | Realloc handle ptr size => tuya_mem_heap_realloc Wn st handle ptr size
  | Free handle ptr => st ← tuya_mem_heap_free Wn st handle ptr; Some (0, st)
  | Write ptr k v => m ← storeb (memory st) (ptr + k) v; Some (0, set_memory st m)
  end.

(** What a caller must respect. *)
Definition legal (st : mem_heaps) (os : list obj) (c : call) : Prop :=
  match c with
  | Create ptr size =>
      0 < ptr /\ W <= size /\ ptr + size < 2 ^ (8 * W - 2) /\ fresh_memory st ptr size /\
      mapped (memory st) ptr (ptr + size)
  | Malloc handle size | Calloc handle size => handle_ok st handle /\ 0 <= size < 2 ^ 32
  | Realloc handle ptr size =>
      (exists o, o ∈ os /\ o_ptr o = ptr) /\ owner st handle ptr /\ 0 <= size <= 2 ^ 32 - 16
  | Free handle ptr => (exists o, o ∈ os /\ o_ptr o = ptr) /\ owner st handle ptr
  | Write ptr k v => exists o, o ∈ os /\ o_ptr o = ptr /\ 0 <= k < zlen (o_bytes o)
  end.

(** The effect on the objects; an allocation may fail and then changes nothing. *)
Definition effect (os : list obj) (c : call) (r : Z) (os' : list obj) : Prop :=
  match c with
  | Create ptr size => os' = os
  | Malloc handle size =>
      r = 0 /\ os' = os \/ exists bs, 0 < r /\ zlen bs = size /\ os' = Obj r bs :: os
  | Calloc handle size =>
      r = 0 /\ os' = os \/ 0 < r /\ os' = Obj r (replicate (Z.to_nat size) 0) :: os
  | Realloc handle ptr size =>
      r = 0 /\ os' = os \/
      exists o rest bs, os ≡ₚ o :: rest /\ o_ptr o = ptr /\ 0 < r /\
        resized (o_bytes o) bs size /\ os' = Obj r bs :: rest
  | Free handle ptr => exists o, o_ptr o = ptr /\ os ≡ₚ o :: os'
  | Write ptr k v =>
      exists o rest, os ≡ₚ o :: rest /\ o_ptr o = ptr /\
        os' = Obj ptr (<[Z.to_nat k := v `mod` 256]> (o_bytes o)) :: rest
  end.

(** C3. Every call that respects the contract returns, reads and writes mapped memory only, and
    has exactly its effect on the objects: allocation adds an object, [free] removes one,
    [realloc] keeps the contents up to the smaller size, [calloc] clears; all other objects keep
    their contents, and the invariant of the heaps holds again. *)
Theorem heaps_refine st os c :
  heaps_hold st os -> legal st os c ->
  exists r st' os', run st c = Some (r, st') /\ effect os c r os' /\ heaps_hold st' os'.
Proof.
  intros Hh Hl. pose proof (W_pos Wn).
  assert (Hpow : 2 ^ 32 <= 2 ^ (8 * W)) by (apply Z.pow_le_mono_r; lia).
  destruct c as [ptr size|handle size|handle size|handle ptr size|handle ptr|ptr k v];
    cbn [legal run effect] in *.
  - destruct Hl as (? & ? & ? & ? & ?). destruct Hh as (us & Hh).
    destruct (tuya_mem_heap_create_ok st os us ptr size) as (r & i & st' & -> & Hh'); [done..|].
    ub_step. exists r, st', os. split; [done|]. split; [done|]. by exists us.
  - destruct Hl. destruct Hh as (us & Hh).
    destruct (tuya_mem_heap_malloc_ok st os us handle size)
      as [->|(p & st' & bs & b & -> & ? & ? & ? & _)]; [done|done|lia| |].
    + exists 0, st, os. split; [done|]. split; [by left|by exists us].
    + exists p, st', (Obj p bs :: os). split; [done|]. split; [by right; exists bs|by exists (b :: us)].
  - destruct Hl. destruct Hh as (us & Hh).
    destruct (tuya_mem_heap_calloc_ok st os us handle size)
      as [->|(p & st' & b & -> & ? & ?)]; [done|done|lia| |].
    + exists 0, st, os. split; [done|]. split; [by left|by exists us].
    + eexists p, st', _. split; [done|]. split; [by right|by exists (b :: us)].
  - destruct Hl as ((o & Ho & <-) & Hown & Hsize).
    destruct (holds_take _ _ _ Hh Ho) as (b & rest & us & Hp & Hh').
    destruct (tuya_mem_heap_realloc_ok _ _ _ _ _ handle size Hh' Hown Hsize)
      as (p & st' & -> & [[-> ->]|(bs & b' & ? & ? & ?)]).
    + exists 0, st, os. split; [done|]. by split; [left|].
    + exists p, st', (Obj p bs :: rest). split; [done|].
      split; [right; by exists o, rest, bs|by exists (b' :: us)].
  - destruct Hl as ((o & Ho & <-) & Hown).
    destruct (holds_take _ _ _ Hh Ho) as (b & rest & us & Hp & Hh').
    destruct (tuya_mem_heap_free_ok _ _ _ _ _ _ Hh' Hown) as (st' & -> & Hst').
    ub_step. exists 0, st', rest. split; [done|]. split; [by exists o|by exists us].
  - destruct Hl as (o & Ho & <- & Hk).
    destruct (holds_take _ _ _ Hh Ho) as (b & rest & us & Hp & Hh').
    destruct (block_facts _ _ _ _ _ Hh') as ((Hptr & Hlen & Hb) & _ & _ & Hmap & _).
    destruct (storeb_ok (memory st) (o_ptr o + k) v) as (m' & -> & Hom & Hv);
      [apply Hmap; lia|]. ub_step.
    eexists 0, _, _. split; [done|]. split; [by exists o, rest|]. exists (b :: us).
    eapply (user_write st o); [exact Hh'|exact Hom|lia|lia| |];
      unfold zlen in *; rewrite length_insert; [lia|]. intros j Hj.
    destruct (decide (j = k)) as [->|Hne].
    + rewrite list_lookup_insert_eq by lia. done.
    + rewrite list_lookup_insert_ne by lia. rewrite (only_in_byte _ _ _ _ _ Hom) by lia.
      by apply Hb.
Qed.
End spec.
