(* ===== verification/MemHeapProps.v ===== *)
(** * Properties of the heap allocator

    What callers see of the heaps, and the self-check. *)
From S2P Require Import Prelude Memory MemHeap MemHeapInv MemHeapFree MemHeapSpec.

Section props.
Context (Wn : nat).
#[local] Notation W := (Z.of_nat Wn).
Context `{HW : !WordSize Wn}.
#[local] Notation heap_rep := (heap_rep Wn).

(** Two objects do not overlap. *)
Definition obj_apart (o1 o2 : obj) : Prop :=
  o_ptr o1 + zlen (o_bytes o1) < o_ptr o2 \/ o_ptr o2 + zlen (o_bytes o2) < o_ptr o1.


(** C30. A request on a heap succeeds exactly if there is a free block for it: [need size] bytes,
    which is the requested size, at least 4, with the size field and the state byte, in whole
    words; the block given out has fewer than [MEM_HEAP_MIN_SIZE] bytes more. *)
Theorem heap_allocate_complete lo hi h m bs size :
  heap_rep lo hi h m bs -> 0 < size < 2 ^ (8 * W) ->
  exists r h' m', heap_allocate Wn h m size = Some (r, h', m') /\
    (r = None <-> Forall (fun b => b_used b = false -> b_size b < need Wn size) bs) /\
    forall b, r = Some b -> exists s, get_size Wn m' b = Some s /\
      need Wn size <= s < need Wn size + MEM_HEAP_MIN_SIZE Wn /\ hp_free h' = hp_free h - s.
Proof.
  intros Hr Hs. destruct (heap_allocate_ok Wn lo hi h m bs size Hr Hs)
    as [[Hno ->]|(Hex & b & bs' & h' & m' & -> & _ & _ & _ & Hsz & Hget & Hfree & _)].
  - exists None, h, m. by do 2 (split; [done|]).
  - exists (Some (b_addr b)), h', m'. split; [done|]. split.
    + split; [done|]. intros Hno. apply Exists_exists in Hex as (c & Hc & Hu & Hl).
      rewrite Forall_forall in Hno. specialize (Hno c Hc Hu). lia.
    + intros ? [= <-]. by exists (b_size b).
Qed.

(** A block that was just freed is not freed again: its state byte is no longer the mark of
    a used block, and the second call changes nothing. *)
Theorem heap_double_free lo hi h m bs b :
  heap_rep lo hi h m bs -> b ∈ used bs ->
  exists h' m', heap_deallocate Wn h m (b_addr b + W) = Some (Some (b_size b), h', m') /\
    heap_deallocate Wn h' m' (b_addr b + W) = Some (None, h', m').
Proof.
  intros Hr Hb. destruct (heap_deallocate_ok Wn lo hi h m bs b Hr Hb)
    as (h' & m' & bs' & Heq & _ & _ & _ & _ & _ & (d & Hd & Hne) & _).
  exists h', m'. split; [done|]. unfold heap_deallocate, MEM_BLOCK_HEAD_SIZE.
  replace (b_addr b + W - (2 * W - W)) with (b_addr b) by lia. rewrite Hd. ub_step.
  by rewrite bool_decide_true.
Qed.

Lemma coal_all_free bs :
  coal true bs -> used bs = [] -> bs = [] \/ exists b, bs = [b] /\ b_used b = false.
Proof.
  intros Hc Hu. destruct bs as [|b bs]; [by left|right].
  rewrite used_cons in Hu. destruct (b_used b) eqn:Hb; [done|].
  destruct bs as [|c bs]; [by exists b|]. rewrite used_cons in Hu.
  cbn [coal] in Hc. rewrite Hb in Hc. destruct (b_used c); [done|]. by destruct Hc as (_ & [] & _).
Qed.


(** ** Self-check *)

Definition free_blocks (bs : list blk) : list blk := filter (fun b => b_used b = false) bs.

(** The bytes of a free block that count as free. *)
Definition free_bytes (b : blk) : Z := b_size b - W - 1.

Definition sum_free (bs : list blk) : Z := foldr (fun b s => free_bytes b + s) 0 (free_blocks bs).

Definition largest_free (z : Z) (bs : list blk) : Z :=
  foldl (fun z b => Z.max z (free_bytes b)) z (free_blocks bs).

Lemma free_blocks_cons b bs :
  free_blocks (b :: bs) = if b_used b then free_blocks bs else b :: free_blocks bs.
Proof.
  unfold free_blocks. destruct (b_used b) eqn:Hb;
    [by rewrite filter_cons_False by congruence|by rewrite filter_cons_True].
Qed.

Lemma sum_free_range bs : forall a top, tiles Wn a bs top -> 0 <= sum_free bs <= top - a.
Proof.
  pose proof (W_pos Wn). induction bs as [|b bs IH]; intros a top; cbn [tiles].
  - intros ->. cbn. lia.
  - intros (_ & Hs & _ & Ht). apply IH in Ht. unfold sum_free in *. rewrite free_blocks_cons.
    destruct (b_used b); [lia|]. cbn [foldr]. unfold free_bytes at 1 3. lia.
Qed.

Lemma status_loop_ok m hi bs : forall fuel a p st,
  tiles Wn a bs hi -> 0 < a -> hi < 2 ^ (8 * W - 2) -> Forall (blk_ok Wn m) bs ->
  seg Wn m p bs 0 -> (length bs <= fuel)%nat ->
  Forall (fun b => b_used b = false -> get_dog Wn m (b_addr b) = Some MEM_BLOCK_STAT_FREE) bs ->
  0 <= st_free st -> st_free st + sum_free bs < 2 ^ (8 * W) ->
  status_loop Wn fuel m a hi p st =
    Some (Status (st_size st) (st_free st + sum_free bs) (largest_free (st_free_largest st) bs) true
            (st_used_block st + zlen (used bs)) (st_free_block st + zlen (free_blocks bs))).
Proof.
  pose proof (W_pos Wn) as HWp. pose proof (pow_split Wn) as Hpow.
  induction bs as [|b bs IH]; intros fuel a p st Ht Ha Hhi Hok Hs Hf Hdog H0 Hsum.
  - cbn [tiles seg] in *. subst. destruct fuel; cbn [status_loop];
      rewrite bool_decide_false by lia; rewrite !bool_decide_true by done; cbn [andb];
      unfold sum_free, largest_free; cbn [free_blocks used filter foldr foldl];
      change (zlen (@nil blk)) with 0; rewrite !Z.add_0_r; done.
  - pose proof Ht as Ht0. cbn [tiles] in Ht. destruct Ht as (Hba & Hb2 & _ & Ht).
    pose proof (tiles_le Wn _ _ _ Ht). destruct fuel as [|fuel]; [simpl in Hf; lia|].
    simpl in Hf. inversion Hok as [|? ? [Hsz (d & Hd & Hdu)] Hok']; subst.
    inversion Hdog as [|? ? Hdb Hdog']; subst.
    cbn [status_loop]. rewrite bool_decide_true by lia.
    assert (Hgd : get_dog Wn m (b_addr b) = Some d).
    { unfold get_dog, MEM_DOG_ADDR. by rewrite Hsz. }
    rewrite Hgd. ub_step. rewrite Hsz. ub_step. cbn [seg] in Hs.
    pose proof (sum_free_range _ _ _ Ht).
    assert (Hsf : sum_free (b :: bs) = if b_used b then sum_free bs else free_bytes b + sum_free bs).
    { unfold sum_free. rewrite free_blocks_cons. by destruct (b_used b). }
    assert (Hlf : forall z, largest_free z (b :: bs) =
      if b_used b then largest_free z bs else largest_free (Z.max z (free_bytes b)) bs).
    { intros z. unfold largest_free. rewrite free_blocks_cons. by destruct (b_used b). }
    rewrite Hsf, Hlf, used_cons, free_blocks_cons. rewrite Hsf in Hsum. destruct (b_used b) eqn:Hu.
    + subst d. rewrite bool_decide_true by done.
      assert (Hpa : b_addr b <> p) by (destruct (seg_range Wn _ _ _ _ _ Hs Ht); lia).
      rewrite (bool_decide_false (b_addr b = p)) by done.
      rewrite IH; [|done|lia|done|done|done|lia|done|done|done]. cbn. rewrite zlen_cons.
      do 2 f_equal; lia.
    + destruct Hs as (-> & n & Hn & Hs). rewrite Hdb in Hgd by done. injection Hgd as <-.
      rewrite (bool_decide_false (MEM_BLOCK_STAT_FREE = _)) by done.
      rewrite bool_decide_true by done.
      rewrite (bool_decide_false (b_addr b <> b_addr b)) by (intros Hx; by apply Hx).
      rewrite Hn. ub_step.
      assert (Hfb : ul Wn (b_size b - MEM_BLOCK_HEAD_SIZE Wn - 1) = free_bytes b).
      { unfold MEM_BLOCK_HEAD_SIZE, free_bytes. rewrite ul_small by lia. lia. }
      rewrite Hfb. assert (0 <= free_bytes b) by (unfold free_bytes; lia).
      rewrite ul_small by lia.
      rewrite IH; cbn [st_free st_size st_free_largest st_used_block st_free_block];
        [|done|lia|done|done|done|lia|done|lia|lia].
      rewrite zlen_cons. do 2 f_equal; [lia| |lia].
      f_equal. case_bool_decide; lia.
Qed.

(** The self-check accepts a well-formed heap whose state bytes are intact, and reports the
    number of used and free blocks, the free bytes and the largest free block. *)
Theorem MEM_HeapStatus_ok lo hi h m bs :
  heap_rep lo hi h m bs -> ALIGN_UP Wn (base h) = lo -> ALIGN_DOWN Wn (base h + hp_size h) = hi ->
  Forall (fun b => b_used b = false -> get_dog Wn m (b_addr b) = Some MEM_BLOCK_STAT_FREE) bs ->
  MEM_HeapStatus Wn h m =
    Some (Status (hp_size h) (sum_free bs) (largest_free 0 bs) true
            (zlen (used bs)) (zlen (free_blocks bs))).
Proof.
  intros [Hs _ _ Hsz] Hlo Hhi Hdog. pose proof (W_pos Wn). pose proof (pow_split Wn).
  unfold MEM_HeapStatus. rewrite Hlo, Hhi. pose proof (sh_tiles _ _ _ _ _ _ Hs) as Ht.
  pose proof (sum_free_range _ _ _ Ht). pose proof (sh_lo _ _ _ _ _ _ Hs).
  pose proof (sh_hi _ _ _ _ _ _ Hs).
  rewrite (status_loop_ok m hi bs);
    [done|done|done|done|apply Hs|apply Hs|by eapply shape_fuel|done|done|cbn [st_free]; lia].
Qed.

(** ** Limits *)

(** [realloc] to the largest [unsigned int] size wraps: the block is returned as it is,
    although it is too small. *)
Theorem tuya_mem_heap_realloc_wraps st os handle o :
  heaps_hold Wn st os -> o ∈ os ->
  tuya_mem_heap_realloc Wn st handle (o_ptr o) (2 ^ 32 - 1) = Some (o_ptr o, st).
Proof.
  intros Hh Ho. destruct (holds_take Wn _ _ _ Hh Ho) as (b & rest & us & _ & Hb).
  pose proof (W_pos Wn) as HWp.
  destruct (block_facts Wn _ _ _ _ _ Hb) as ((Hp & _) & Hget & Hdog & _ & H0 & _ & H2 & _).
  unfold tuya_mem_heap_realloc. rewrite bool_decide_false by lia.
  replace (o_ptr o - MEM_BLOCK_HEAD_SIZE Wn) with (b_addr b) by (unfold MEM_BLOCK_HEAD_SIZE; lia).
  unfold get_dog, MEM_DOG_ADDR. rewrite Hget. ub_step. rewrite Hdog. ub_step.
  rewrite (bool_decide_false (_ <> _)) by (intros Hx; by apply Hx).
  rewrite (bool_decide_false (2 ^ 32 - 1 < 4)) by done.
  rewrite bool_decide_true; [done|].
  assert (Hw : ul Wn (ALIGN_UP Wn (u32 (2 ^ 32 - 1 + 1)) + MEM_BLOCK_HEAD_SIZE Wn) = W).
  { destruct (@word_size Wn _) as [-> | ->]; by vm_compute. }
  rewrite Hw. lia.
Qed.

(** The descriptors are searched up to the first unused one: after the first heap was
    deleted, allocation without a handle fails and [free] without a handle does nothing. *)
Theorem tuya_mem_heap_hole st h size ptr :
  mem_heap_list st !! 0%nat = Some h -> hp_size h = 0 ->
  tuya_mem_heap_malloc Wn st None size = Some (0, st) /\
  tuya_mem_heap_free Wn st None ptr = Some st.
Proof.
  intros Hh H0. cbn [tuya_mem_heap_malloc tuya_mem_heap_free MEM_HEAP_LIST_NUM malloc_loop free_loop].
  rewrite Hh. ub_step. by rewrite !bool_decide_false by lia.
Qed.

(** ** Leak records *)

Lemma aligned_gap a b : a `mod` W = 0 -> b `mod` W = 0 -> a < b -> a + W <= b.
Proof.
  pose proof (W_pos Wn). intros Ha Hb Hab.
  apply Z.mod_divide in Ha as [x ->]; [|lia]. apply Z.mod_divide in Hb as [y ->]; [|lia].
  assert (x < y) by nia. nia.
Qed.

(** Four words in a row. *)
Lemma store_words_ok m a v1 v2 v3 v4 :
  mapped m a (a + 4 * W) ->
  exists m', (m ← store_le Wn m a v1; m ← store_le Wn m (a + W) v2;
              m ← store_le Wn m (a + 2 * W) v3; store_le Wn m (a + 3 * W) v4) = Some m' /\
    only_in a (a + 4 * W) m m'.
Proof.
  intros Hm. destruct (store_ok Wn m a v1) as (m1 & -> & Ho1 & _); [intros x Hx; apply Hm; lia|].
  ub_step. destruct (store_ok Wn m1 (a + W) v2) as (m2 & -> & Ho2 & _);
    [intros x Hx; apply Ho1, Hm; lia|]. ub_step.
  destruct (store_ok Wn m2 (a + 2 * W) v3) as (m3 & -> & Ho3 & _);
    [intros x Hx; apply Ho2, Ho1, Hm; lia|]. ub_step.
  destruct (store_ok Wn m3 (a + 3 * W) v4) as (m4 & -> & Ho4 & _);
    [intros x Hx; apply Ho3, Ho2, Ho1, Hm; lia|].
  exists m4. split; [done|]. apply only_in_trans with m1; [eapply only_in_weaken; [| |exact Ho1]; lia|].
  apply only_in_trans with m2; [eapply only_in_weaken; [| |exact Ho2]; lia|].
  apply only_in_trans with m3; eapply only_in_weaken; [| |exact Ho3| | |exact Ho4]; lia.
Qed.

(** An allocation with a leak record gives out the requested bytes: the record does not
    overlap the object, the state byte or another object. *)
Theorem MEM_AllocateDebug_ok st os i h filename line size :
  heaps_hold Wn st os -> mem_heap_list st !! i = Some h -> hp_size h <> 0 ->
  0 <= size <= 2 ^ 32 - 64 ->
  exists p st', MEM_AllocateDebug Wn filename line st i size = Some (p, st') /\
    (p = 0 /\ st' = st \/ exists bs, zlen bs = size /\ heaps_hold Wn st' (Obj p bs :: os)).
Proof.
  intros (us & Hh) Hl Hne Hsize. pose proof (W_pos Wn) as HWp. pose proof (pow_split Wn) as Hpow.
  assert (H32 : 2 ^ 32 <= 2 ^ (8 * W)) by (apply Z.pow_le_mono_r; lia).
  set (sa := ALIGN_UP Wn size).
  assert (Hsa : sa `mod` W = 0 /\ size <= sa < size + W).
  { unfold sa, ALIGN_UP. rewrite (ul_small Wn size), ul_small by lia.
    rewrite (land_lnot Wn) by lia. pose proof (Z.div_mod (size + (W - 1)) W ltac:(lia)).
    pose proof (Z.mod_pos_bound (size + (W - 1)) W ltac:(lia)). split; [apply Z_mod_mult|lia]. }
  destruct Hsa as [Ham Hsa]. unfold MEM_AllocateDebug. fold sa. unfold LEAK_SIZE at 1.
  rewrite ul_small by lia.
  destruct (MEM_Allocate_ok Wn st os us i h (sa + 4 * W) Hh Hl Hne ltac:(lia))
    as [->|(p & st' & bs & b & -> & Hp & Hbs & Hh' & _)]; ub_step.
  { exists 0, st. rewrite bool_decide_false by (intros Hx; by apply Hx). split; [done|by left]. }
  rewrite bool_decide_true by lia.
  destruct (block_facts Wn _ _ _ _ _ Hh')
    as ((Hptr & Hlen & Hc) & Hget & _ & Hmap & H0 & Hhi & H2 & Hbm & _). cbn [o_ptr o_bytes] in *.
  assert (Hgap : sa + 5 * W + W <= b_size b).
  { apply aligned_gap; [|done|lia]. rewrite Z.add_mod, Ham, Z_mod_mult by lia. by apply Z.mod_0_l; lia. }
  unfold MEM_LEAK_DBG_ADDR, MEM_BLOCK_HEAD_SIZE.
  replace (p - (2 * W - W)) with (b_addr b) by lia. rewrite Hget. ub_step. unfold LEAK_SIZE.
  set (leak := b_addr b + b_size b - 4 * W - W).
  destruct (store_words_ok (memory st') leak filename line size MEM_DBG_LEAK_MAGIC) as (m' & He & Ho);
    [unfold leak; intros x Hx; apply Hmap; lia|].
  exists p, (set_memory st' m'). split.
  { unfold mbind, option_bind in He.
    destruct (store_le Wn (memory st') leak filename) as [m1|]; [|done].
    destruct (store_le Wn m1 (leak + W) line) as [m2|]; [|done].
    destruct (store_le Wn m2 (leak + 2 * W) size) as [m3|]; [|done]. by rewrite He. }
  right. exists (take (Z.to_nat size) bs). assert (Htl : zlen (take (Z.to_nat size) bs) = size).
  { unfold zlen in *. rewrite length_take. lia. }
  split; [done|]. exists (b :: us).
  eapply (user_write Wn st' (Obj p bs)); [exact Hh'|exact Ho|unfold leak; lia|unfold leak; lia|lia|].
  rewrite Htl. intros k Hk. cbn [o_ptr]. rewrite lookup_take_lt by lia.
  rewrite (only_in_byte _ _ _ _ _ Ho) by (unfold leak; lia). apply Hc. lia.
Qed.

(** [tuya_mem_heap_debug_realloc] copies from the old pointer without a check: with a NULL
    pointer, which [realloc] takes as an allocation, it reads from address 0. *)
Theorem debug_realloc_null st handle size filename line p st' :
  0 < size -> tuya_mem_heap_debug_malloc Wn st handle size filename line = Some (p, st') ->
  p <> 0 -> memory st' !! 0 = None ->
  tuya_mem_heap_debug_realloc Wn st handle 0 size filename line = None.
Proof.
  intros Hs Hm Hp H0. unfold tuya_mem_heap_debug_realloc. rewrite Hm. ub_step. cbn [fst snd].
  rewrite bool_decide_false by done. replace (Z.to_nat size) with (S (pred (Z.to_nat size))) by lia.
  cbn [copy_bytes]. by rewrite H0.
Qed.
End props.

(** ** A heap of 256 bytes on a 64-bit system *)

Lemma mapped_dec m lo hi :
  forallb (fun x => bool_decide (is_Some (m !! x))) (seqZ lo (hi - lo)) = true -> mapped m lo hi.
Proof.
  rewrite forallb_forall. intros Hf x Hx.
  specialize (Hf x). rewrite bool_decide_eq_true in Hf. apply Hf.
  apply list_elem_of_In, elem_of_seqZ. lia.
Qed.

Definition demo0 : mem_heaps :=
  MemHeaps (replicate MEM_HEAP_LIST_NUM (Heap 0 0 0 0 0)) 0 0 (zeros 4096 256).

Definition demo1 : MEM_Heap_t * mem :=
  match mem_heap_init 8 (Heap 0 0 0 0 0) (zeros 4096 256) 0 4096 256 with
  | Some (_, h, m, _) => (h, m)
  | None => (Heap 0 0 0 0 0, ∅)
  end.

Definition demo2 : MEM_Heap_t * mem :=
  match heap_allocate 8 (fst demo1) (snd demo1) 20 with
  | Some (_, h, m) => (h, m)
  | None => (Heap 0 0 0 0 0, ∅)
  end.

Ltac demo_rep :=
  constructor; [constructor|vm_compute; intuition congruence|by vm_compute|by vm_compute];
  [done|done|done|by vm_compute
  |repeat (apply Forall_cons; split;
      [split; [by vm_compute|eexists; split; [by vm_compute|by vm_compute]]|]); by apply Forall_nil
  |split; [by vm_compute|]; eexists; split; by vm_compute|by apply mapped_dec; vm_compute].

Lemma demo1_rep : heap_rep 8 4096 4352 (fst demo1) (snd demo1) [Blk 4096 256 false].
Proof. demo_rep. Qed.

Lemma demo2_rep :
  heap_rep 8 4096 4352 (fst demo2) (snd demo2) [Blk 4096 224 false; Blk 4320 32 true].
Proof. demo_rep. Qed.

Lemma demo0_holds : heaps_hold 8 demo0 [].
Proof.
  exists [], (replicate 4 None). constructor.
  - done.
  - by repeat constructor.
  - intros i j h k _ Hh _ Hne. apply lookup_replicate in Hh as [-> _]. by destruct Hne.
  - intros i j h k _ _ Hk _. by apply lookup_replicate in Hk as [-> _].
  - done.
  - constructor.
  - by vm_compute.
Qed.

Definition demo_state (p : MEM_Heap_t * mem) : mem_heaps :=
  MemHeaps (fst p :: replicate 3 (Heap 0 0 0 0 0)) (hp_free (fst p)) (hp_free (fst p)) (snd p).

Lemma demo_state_holds p lo hi bs us os :
  heap_rep 8 lo hi (fst p) (snd p) bs -> us = used bs -> Forall2 (in_block 8 (snd p)) os us ->
  base (fst p) <= lo -> hi <= base (fst p) + hp_size (fst p) -> 0 < hp_size (fst p) ->
  ul 8 (hp_free (fst p)) = hp_free (fst p) ->
  heaps_hold 8 (demo_state p) os.
Proof.
  intros Hr -> Hos Hlo Hhi Hsz Hul. exists (used bs), (Some (Region lo hi bs) :: replicate 3 None).
  constructor; cbn [demo_state mem_heap_list memory s_heap_free_size].
  - done.
  - constructor; [by simpl|by repeat constructor].
  - intros i j h k Hij Hh Hk Hh0 Hk0. destruct i as [|i], j as [|j]; [done| | |]; exfalso.
    + apply (lookup_replicate 3) in Hk as [-> _]. by apply Hk0.
    + apply (lookup_replicate 3) in Hh as [-> _]. by apply Hh0.
    + apply (lookup_replicate 3) in Hk as [-> _]. by apply Hk0.
  - intros i j h k Hij Hh Hk H0. destruct j as [|j].
    + replace i with 0%nat in Hh by lia. simpl in Hh, Hk. congruence.
    + by apply (lookup_replicate 3) in Hk as [-> _].
  - unfold all_blocks. simpl. by rewrite app_nil_r.
  - done.
  - unfold total_free. rewrite filter_cons_True by lia. cbn. rewrite Z.add_0_r. done.
Qed.

(** The object of [demo2]. *)
Definition demo_obj : obj := Obj 4328 (replicate 20 0).

Lemma demo2_holds : heaps_hold 8 (demo_state demo2) [demo_obj].
Proof.
  eapply demo_state_holds; [exact demo2_rep|done| |done|done|done|by vm_compute].
  constructor; [|constructor]. split; [done|]. split; [done|]. intros k Hk.
  change (zlen (o_bytes demo_obj)) with 20 in Hk.
  assert (Hall : forallb (fun k => bool_decide (snd demo2 !! (4328 + k) = Some 0)) (seqZ 0 20) = true)
    by by vm_compute.
  rewrite forallb_forall in Hall. change (o_ptr demo_obj) with 4328.
  specialize (Hall k). rewrite bool_decide_eq_true in Hall.
  rewrite Hall by (apply list_elem_of_In, elem_of_seqZ; lia).
  symmetry. apply lookup_replicate. split; [done|lia].
Qed.

Lemma heaps_refine_witness :
  legal 8 demo0 [] (Create 4096 256) /\
  (exists r st' os', run 8 demo0 (Create 4096 256) = Some (r, st') /\ heaps_hold 8 st' os') /\
  (exists r st' os', run 8 (demo_state demo2) (Realloc None 4328 64) = Some (r, st') /\
     effect [demo_obj] (Realloc None 4328 64) r os' /\ heaps_hold 8 st' os') /\
  option_map fst (run 8 (demo_state demo2) (Realloc None 4328 64)) = Some 4248.
Proof.
  assert (Hl : legal 8 demo0 [] (Create 4096 256)).
  { split; [done|]. split; [done|]. split; [done|]. split; [|by apply mapped_dec; vm_compute].
    intros i h Hh Hne. apply lookup_replicate in Hh as [-> _]. by destruct Hne. }
  split; [exact Hl|]. split.
  { destruct (heaps_refine 8 demo0 [] _ demo0_holds Hl) as (r & st' & os' & ? & _ & ?).
    exists r, st', os'. split; assumption. }
  split; [|by vm_compute].
  apply (heaps_refine 8 _ _ (Realloc None 4328 64) demo2_holds).
  split; [exists demo_obj; split; [apply elem_of_cons; by left|done]|]. by split.
Defined.


Lemma heap_allocate_complete_witness :
  exists h' m', heap_allocate 8 (fst demo1) (snd demo1) 300 = Some (None, h', m').
Proof.
  destruct (heap_allocate_complete 8 _ _ _ _ _ 300 demo1_rep ltac:(done))
    as (r & h' & m' & He & [_ Hno] & _).
  exists h', m'. rewrite Hno in He; [exact He|]. constructor; [by intros _|constructor].
Defined.

Lemma heap_double_free_witness :
  exists h' m', heap_deallocate 8 (fst demo2) (snd demo2) 4328 = Some (Some 32, h', m') /\
    heap_deallocate 8 h' m' 4328 = Some (None, h', m').
Proof.
  apply (heap_double_free 8 _ _ _ _ _ (Blk 4320 32 true) demo2_rep).
  apply elem_of_cons. by left.
Defined.


Lemma MEM_HeapStatus_ok_witness :
  MEM_HeapStatus 8 (fst demo2) (snd demo2) = Some (Status 256 215 215 true 1 1).
Proof.
  apply (MEM_HeapStatus_ok 8 _ _ _ _ _ demo2_rep); [by vm_compute|by vm_compute|].
  apply Forall_cons. split; [intros _; by vm_compute|]. by apply Forall_cons.
Defined.

Lemma tuya_mem_heap_realloc_wraps_witness :
  tuya_mem_heap_realloc 8 (demo_state demo2) None 4328 (2 ^ 32 - 1) =
    Some (4328, demo_state demo2).
Proof.
  apply (tuya_mem_heap_realloc_wraps 8 _ _ None demo_obj demo2_holds).
  apply elem_of_cons. by left.
Defined.

Lemma tuya_mem_heap_hole_witness :
  tuya_mem_heap_malloc 8 demo0 None 16 = Some (0, demo0) /\ tuya_mem_heap_free 8 demo0 None 4328 = Some demo0.
Proof. by apply (tuya_mem_heap_hole 8 demo0 (Heap 0 0 0 0 0) 16 4328). Defined.

(** Three blocks of 16 bytes; the middle one, then the first is freed: the [next] pointer of the
    second free block overwrites its state byte. *)
Definition demo_small : option MEM_HeapStatus_t :=
  let alloc p := r ← heap_allocate 8 (fst p) (snd p) 4; Some (snd (fst r), snd r) in
  p ← alloc demo1; p ← alloc p; p ← alloc p;
  r ← heap_deallocate 8 (fst p) (snd p) 4328;
  MEM_HeapStatus 8 (snd (fst r)) (snd r).

(** On 64-bit systems the [next] pointer of a free block of the smallest size takes the place
    of its state byte: the self-check reports a heap as damaged in which such a block was freed,
    although the heap is well formed and goes on working. *)
Theorem small_free_block_reported : st_valid <$> demo_small = Some false.
Proof. by vm_compute. Qed.

Lemma MEM_AllocateDebug_ok_witness :
  exists p st', MEM_AllocateDebug 8 1000 7 (demo_state demo2) 0 20 = Some (p, st') /\
    (p = 0 /\ st' = demo_state demo2 \/
     exists bs, zlen bs = 20 /\ heaps_hold 8 st' [Obj p bs; demo_obj]).
Proof.
  apply (MEM_AllocateDebug_ok 8 _ _ 0 (fst demo2) 1000 7 20 demo2_holds);
    [reflexivity|vm_compute; discriminate|lia].
Defined.

Lemma debug_realloc_null_witness :
  tuya_mem_heap_debug_realloc 8 (demo_state demo2) None 0 20 1000 7 = None.
Proof.
  destruct (tuya_mem_heap_debug_malloc 8 (demo_state demo2) None 20 1000 7) as [[p st]|] eqn:He;
    [|vm_compute in He; discriminate].
  assert (Hc : match tuya_mem_heap_debug_malloc 8 (demo_state demo2) None 20 1000 7 with
    | Some (p, st) => p <> 0 /\ memory st !! 0 = None | None => False end)
    by (vm_compute; split; [discriminate|reflexivity]).
  rewrite He in Hc. destruct Hc as [Hp H0].
  exact (debug_realloc_null 8 (demo_state demo2) None 20 1000 7 p st ltac:(done) He Hp H0).
Defined.
