(* ===== verification/DpSchema.v ===== *)
(** * Data points

    src/src/tuya_cloud_service/schema/dp_schema.c: the data points of a device with their types,
    the check and the text of a report, the commands that the cloud sends, the status of the
    cached values. The JSON library (cJSON) and base64 are parameters; a string is the list of its
    bytes without the terminator; a mutex makes each operation on a schema atomic. *)
From S2P Require Import Prelude.

Definition OPRT_CR_CJSON_ERR : Z := -7.
Definition OPRT_CR_MUTEX_ERR : Z := -10.
Definition OPRT_SVC_DP_ID_NOT_FOUND : Z := -3585.
Definition OPRT_SVC_DP_TP_NOT_MATCH : Z := -3586.
Definition OPRT_SVC_DP_TYPE_PROP_ILLEGAL : Z := -3588.
Definition OPRT_SVC_DEVOS_SCMA_INVALID : Z := -7169.
Definition OPRT_SVC_DEVOS_DEV_DP_CNT_INVALID : Z := -7170.

(** ** Data *)

Definition PROP_BOOL : Z := 0.
Definition PROP_VALUE : Z := 1.
Definition PROP_STR : Z := 2.
Definition PROP_ENUM : Z := 3.
Definition PROP_BITMAP : Z := 4.

Definition T_OBJ_REPT : Z := 0.
Definition T_RAW_REPT : Z := 1.
Definition T_STAT_REPT : Z := 2.
Definition T_RE_TRANS_REPT : Z := 10.

Definition T_OBJ : Z := 0.
Definition T_RAW : Z := 1.
Definition T_FILE : Z := 2.

Definition M_RW : Z := 0.
Definition M_WR : Z := 1.
Definition M_RO : Z := 2.

Definition TRIG_PULSE : Z := 0.
Definition TRIG_DIRECT : Z := 1.

Definition PSV_FALSE : Z := 0.
Definition PSV_TRUE : Z := 1.
Definition PSV_F_ONCE : Z := 2.

Definition DST_NONE : Z := 0.
Definition DST_INC : Z := 1.
Definition DST_TOTAL : Z := 2.

Definition ROUTE_DEFAULT : Z := 0.
Definition ROUTE_BLE_FIRST : Z := 1.
Definition ROUTE_FORCE_BT : Z := 2.

Definition PV_STAT_INVALID : Z := 0.
Definition PV_STAT_LOCAL : Z := 1.
Definition PV_STAT_CLOUD : Z := 3.

Definition DP_REPT_NO_FILTER_FLAG : Z := 1.
Definition DP_DUMP_STAT_LOCAL_FLAG : Z := 2.
Definition DP_APPEND_HEADER_FLAG : Z := 4.
Definition MAX_ITEM_LEN : Z := 1024.
Definition DEV_ID_LEN : Z := 25.

(** The union of a value: its first four bytes as a word, and the pointer. *)
Record dp_value_t := Value { dp_word : Z; dp_str : option bytes }.
Definition dp_value (v : dp_value_t) : Z := i32 (dp_word v).
Definition dp_bool (v : dp_value_t) : Z := u8 (dp_word v).
Definition dp_enum (v : dp_value_t) : Z := u32 (dp_word v).
Definition dp_bitmap (v : dp_value_t) : Z := u32 (dp_word v).

Record dp_obj_t := Dp { dp_id : Z; dp_type : Z; dp_val : dp_value_t; dp_time : Z }.

Record dp_desc_t := Desc {
  d_id : Z; d_mode : Z; d_passive : Z; d_type : Z; d_trig : Z; d_stat : Z; d_route : Z }.

(** The property and the cached value; a string value has room for [cur_len] characters. *)
Inductive dp_prop :=
  | PropBool (value : Z)
  | PropInt (min max scale value : Z)
  | PropStr (max_len cur_len : Z) (value : option bytes)
  | PropEnum (cnt : Z) (pp_enum : list bytes) (value : Z)
  | PropBitmap (max_len value : Z).

Definition prop_tp (p : dp_prop) : Z :=
  match p with
  | PropBool _ => PROP_BOOL
  | PropInt _ _ _ _ => PROP_VALUE
  | PropStr _ _ _ => PROP_STR
  | PropEnum _ _ _ => PROP_ENUM
  | PropBitmap _ _ => PROP_BITMAP
  end.

Record dp_node_t := Node { desc : dp_desc_t; prop : dp_prop; pv_stat : Z; time_stamp : Z }.

Record dp_schema_t := Schema { devid : bytes; preprocess : bool; nodes : list dp_node_t }.

(** The registered schemas; there is room for one. *)
Record dp_schema_mgr_t := Mgr { schema_num : Z; schema_list : list (option dp_schema_t) }.

(** ** Lookup *)

Definition dp_node_find (ns : list dp_node_t) (id : Z) : option (nat * dp_node_t) :=
  list_find (fun n => d_id (desc n) = id) ns.

Fixpoint schema_find (l : list (option dp_schema_t)) (id : bytes) (i : nat)
    : option (nat * dp_schema_t) :=
  match l with
  | [] => None
  | Some s :: l => if bool_decide (id = devid s) then Some (i, s) else schema_find l id (S i)
  | None :: l => schema_find l id (S i)
  end.

Definition dp_schema_find (g : dp_schema_mgr_t) (id : bytes) : option (nat * dp_schema_t) :=
  schema_find (schema_list g) id 0.

Definition dp_node_find_by_devid (g : dp_schema_mgr_t) (dev : bytes) (id : Z)
    : option (nat * dp_node_t) :=
  match dp_schema_find g dev with
  | None => None
  | Some (_, s) => dp_node_find (nodes s) id
  end.

Definition set_stat (n : dp_node_t) (st : Z) : dp_node_t :=
  Node (desc n) (prop n) st (time_stamp n).

Definition dp_pv_stat_get (ns : list dp_node_t) (id : Z) : Z :=
  match dp_node_find ns (u8 id) with Some (_, n) => pv_stat n | None => PV_STAT_INVALID end.

Definition dp_pv_stat_set (ns : list dp_node_t) (id st : Z) : list dp_node_t :=
  match dp_node_find ns (u8 id) with
  | Some (i, n) => <[i := set_stat n (u8 st)]> ns
  | None => ns
  end.

(** ** Reports *)

(** The new property, and whether the value must be sent; [alloc]: the result of the allocation
    for a longer string. *)
Definition update_prop (rept_type : Z) (v : dp_value_t) (p : dp_prop) (need alloc : bool)
    : option (bool * dp_prop) :=
  match p with
  | PropBool value =>
      let need := need || negb (bool_decide (value = dp_bool v)) in
      Some (need, PropBool (if need then dp_bool v else value))
  | PropInt min max scale value =>
      let need := need || negb (bool_decide (value = dp_value v)) in
      Some (need, PropInt min max scale (if need then dp_value v else value))
  | PropStr max_len cur_len value =>
      s ← match value with None => Some [] | Some _ => dp_str v end;
      let need := need || match value with None => true | Some x => negb (bool_decide (x = s)) end in
      if need then
        s ← dp_str v;
        if match value with None => true | Some _ => bool_decide (cur_len < zlen s) end then
          Some (alloc, PropStr max_len (zlen s) (if (alloc : bool) then Some s else None))
        else Some (true, PropStr max_len cur_len (Some s))
      else Some (false, p)
  | PropEnum cnt pp_enum value =>
      if bool_decide (dp_enum v >= cnt) then Some (need, p)
      else
        let need := need || negb (bool_decide (value = dp_enum v)) in
        Some (need, PropEnum cnt pp_enum (if need then dp_enum v else value))
  | PropBitmap max_len value =>
      let need := need || negb (bool_decide (value = dp_bitmap v)) in
      Some (need, PropBitmap max_len (if need then dp_bitmap v else value))
  end.

(** The value must be sent whether it changed or not. *)
Definition forced (rept_type : Z) (n : dp_node_t) (flags : Z) : bool :=
  bool_decide (pv_stat n = PV_STAT_INVALID) || bool_decide (pv_stat n = PV_STAT_LOCAL) ||
  bool_decide (d_trig (desc n) = TRIG_DIRECT) || bool_decide (rept_type = T_STAT_REPT) ||
  negb (bool_decide (Z.land DP_REPT_NO_FILTER_FLAG flags = 0)).

(** The time stamp of a string is recorded before its allocation result is known; a report of
    statistics is always sent. *)
Definition str_time (rept_type : Z) (dp : dp_obj_t) (n : dp_node_t) : Z :=
  match prop n with
  | PropStr _ _ _ => if bool_decide (rept_type = T_STAT_REPT) then dp_time dp else time_stamp n
  | _ => time_stamp n
  end.

(** [true]: nothing has to be sent. *)
Definition dp_rept_update (rept_type : Z) (dp : dp_obj_t) (n : dp_node_t) (flags : Z) (alloc : bool)
    : option (bool * dp_node_t) :=
  r ← (if bool_decide (d_type (desc n) = T_OBJ) then
         r ← update_prop rept_type (dp_val dp) (prop n) (forced rept_type n flags) alloc;
         Some (fst r, Node (desc n) (snd r) (pv_stat n) (str_time rept_type dp n))
       else if bool_decide (d_type (desc n) = T_RAW) then Some (true, set_stat n PV_STAT_LOCAL)
       else Some (false, n));
  let '(need, n) := r in
  if (need : bool) then
    Some (false, Node (desc n) (prop n) PV_STAT_LOCAL
                      (if bool_decide (rept_type = T_STAT_REPT) then dp_time dp else time_stamp n))
  else Some (true, n).

(** ** The check of a report

    The type code of a JSON number, which the code compares with the type of a bitmap, is a
    parameter. *)
Section number.
Context (cJSON_Number : Z).

Definition dp_type_check (rept_type : Z) (dp : dp_obj_t) (n : dp_node_t) : option bool :=
  let type := d_type (desc n) in
  if bool_decide (d_mode (desc n) = M_WR) ||
     bool_decide (type <> T_OBJ) && bool_decide (rept_type = T_OBJ_REPT) ||
     bool_decide (type <> T_RAW) && bool_decide (rept_type = T_RAW_REPT)
  then Some false
  else if bool_decide (type = T_OBJ) then
    match prop n with
    | PropBool _ =>
        Some (bool_decide (dp_bool (dp_val dp) = 1) || bool_decide (dp_bool (dp_val dp) = 0))
    | PropInt min max _ _ =>
        Some (negb (bool_decide (dp_value (dp_val dp) > max) ||
                    bool_decide (dp_value (dp_val dp) < min)))
    | PropStr max_len _ _ =>
        s ← dp_str (dp_val dp); Some (negb (bool_decide (zlen s > u64 max_len)))
    | PropEnum cnt _ _ => Some (negb (bool_decide (dp_enum (dp_val dp) >= cnt)))
    | PropBitmap _ _ => Some (bool_decide (dp_type dp = cJSON_Number))
    end
  else Some (bool_decide (type = T_RAW)).

(** The identifiers that a report contains, the room for its text and for the time stamps. *)
Record dp_rept_valid_t := Valid { v_len : Z; v_timelen : Z; v_dpid : list Z }.

Record dp_rept_in_t := ReptIn { rept_type : Z; rept_flags : Z; dps : list dp_obj_t }.

(** The room for one entry; [inr]: an error code. *)
Definition entry_len (dp : dp_obj_t) (n : dp_node_t) (len : Z) : option (Z + Z) :=
  if bool_decide (dp_type dp = PROP_BOOL) || bool_decide (dp_type dp = PROP_VALUE) ||
     bool_decide (dp_type dp = PROP_BITMAP) then Some (inl (u16 (len + 20)))
  else match prop n with
  | PropStr _ _ _ => s ← dp_str (dp_val dp); Some (inl (u16 (len + (2 * zlen s + 15))))
  | PropEnum cnt pp_enum _ =>
      if bool_decide (dp_enum (dp_val dp) >= cnt) then Some (inr OPRT_SVC_DP_TYPE_PROP_ILLEGAL)
      else
        name ← zget pp_enum (dp_enum (dp_val dp));
        Some (inl (u16 (len + (zlen name + 15))))
  | _ => Some (inr OPRT_COM_ERROR)
  end.

(** The loop over the data points of a report; [allocs] holds the results of the allocations. *)
Fixpoint valid_loop (rt flags : Z) (pre : bool) (dps : list dp_obj_t) (allocs : nat -> bool)
    (k : nat) (ns : list dp_node_t) (out : dp_rept_valid_t)
    : option (Z * list dp_node_t * dp_rept_valid_t) :=
  match dps with
  | [] => Some (OPRT_OK, ns, out)
  | dp :: dps =>
      match dp_node_find ns (dp_id dp) with
      | None => valid_loop rt flags pre dps allocs (S k) ns out
      | Some (i, n) =>
          if bool_decide (dp_type dp <> prop_tp (prop n)) then
            Some (OPRT_SVC_DP_TP_NOT_MATCH, ns, out)
          else
            r ← (if bool_decide (rt <> T_RE_TRANS_REPT) then
                   ok ← dp_type_check rt dp n;
                   if negb ok then Some (true, ns)
                   else if pre && bool_decide (d_passive (desc n) = PSV_TRUE) then Some (true, ns)
                   else r ← dp_rept_update rt dp n flags (allocs k);
                        Some (fst r, <[i := snd r]> ns)
                 else Some (false, ns));
            let '(skip, ns) := r in
            if (skip : bool) then valid_loop rt flags pre dps allocs (S k) ns out
            else
              n ← ns !! i;
              e ← entry_len dp n (v_len out);
              match e with
              | inr code => Some (code, ns, out)
              | inl len =>
                  valid_loop rt flags pre dps allocs (S k) ns
                    (Valid len (if bool_decide (dp_time dp <> 0) then u16 (v_timelen out + 30)
                                else v_timelen out) (v_dpid out ++ [dp_id dp]))
              end
      end
  end.

Definition dp_rept_valid_check (s : dp_schema_t) (dpin : dp_rept_in_t) (allocs : nat -> bool)
    (out : dp_rept_valid_t) : option (Z * dp_schema_t * dp_rept_valid_t) :=
  r ← valid_loop (rept_type dpin) (rept_flags dpin) (preprocess s) (dps dpin) allocs 0 (nodes s) out;
  let '(code, ns, out) := r in
  let s := Schema (devid s) (preprocess s) ns in
  if bool_decide (code <> OPRT_OK) then Some (code, s, out)
  else if bool_decide (zlen (v_dpid out) = 0) then Some (OPRT_SVC_DP_ID_NOT_FOUND, s, out)
  else Some (OPRT_OK, s, out).
End number.

(** ** The text of a report *)

(** [offset += sprintf(buf + offset, ...)] of [text], with its terminator. *)
Definition emit (buf : bytes) (offset : Z) (text : bytes) : option (bytes * Z) :=
  buf ← mwrite buf offset (text ++ [0]); Some (buf, u16 (offset + zlen text)).

Section output.
(** [cJSON_PrintUnformatted] of a string, which may be NULL. *)
Context (print_string : option bytes -> option bytes).

Definition quote : bytes := [34].

(** The text of one entry; [None]: nothing is written. *)
Definition entry_text (dp : dp_obj_t) (n : dp_node_t) : option (option bytes) :=
  let key := quote ++ dec (dp_id dp) ++ quote ++ c_str ":" in
  let v := dp_val dp in
  if bool_decide (dp_type dp = PROP_BOOL) then
    Some (Some (key ++ (if bool_decide (dp_bool v = 1) then c_str "true," else c_str "false,")))
  else if bool_decide (dp_type dp = PROP_VALUE) then Some (Some (key ++ dec (dp_value v) ++ c_str ","))
  else if bool_decide (dp_type dp = PROP_BITMAP) then Some (Some (key ++ dec (dp_bitmap v) ++ c_str ","))
  else match prop n with
  | PropStr _ _ _ =>
      Some (match print_string (dp_str v) with Some s => Some (key ++ s ++ c_str ",") | None => None end)
  | PropEnum _ pp_enum _ =>
      name ← zget pp_enum (dp_enum v); Some (Some (key ++ quote ++ name ++ quote ++ c_str ","))
  | _ => Some None
  end.

(** The loop over the identifiers of the report; [inr]: an error code. *)
Fixpoint output_loop (ids : list Z) (dps : list dp_obj_t) (ns : list dp_node_t) (is_need_time : bool)
    (buf : bytes) (offset : Z) (tbuf : bytes) (toffset : Z)
    : option ((bytes * Z * bytes * Z) + Z) :=
  match ids with
  | [] => Some (inl (buf, offset, tbuf, toffset))
  | id :: ids =>
      match list_find (fun dp => id = dp_id dp) dps with
      | None => Some (inr OPRT_SVC_DP_ID_NOT_FOUND)
      | Some (_, dp) =>
          match dp_node_find ns (dp_id dp) with
          | None => Some (inr OPRT_SVC_DP_ID_NOT_FOUND)
          | Some (_, n) =>
              if bool_decide (dp_type dp <> prop_tp (prop n)) then Some (inr OPRT_SVC_DP_TP_NOT_MATCH)
              else
                text ← entry_text dp n;
                r ← match text with Some t => emit buf offset t | None => Some (buf, offset) end;
                rt ← (if is_need_time && bool_decide (dp_time dp <> 0) then
                        emit tbuf toffset (quote ++ dec (dp_id dp) ++ quote ++ c_str ":" ++
                                           dec (dp_time dp) ++ c_str ",")
                      else Some (tbuf, toffset));
                output_loop ids dps ns is_need_time (fst r) (snd r) (fst rt) (snd rt)
          end
      end
  end.

(** [str]: what [tal_malloc] returns for the text, [tstr] for the time stamps; [want_time]: the
    caller's [timejson] is not NULL. The arrays afterwards. *)
Definition dp_rept_json_output (s : dp_schema_t) (dpin : dp_rept_in_t) (valid : dp_rept_valid_t)
    (str tstr : option bytes) (want_time : bool) : option (Z * option bytes * option bytes) :=
  match str with
  | None => Some (OPRT_MALLOC_FAILED, None, None)
  | Some buf =>
      let need := bool_decide (rept_type dpin = T_STAT_REPT) &&
                  negb (bool_decide (v_timelen valid = 0)) && want_time in
      match (if need then tstr else Some []) with
      | None => Some (OPRT_MALLOC_FAILED, None, None)
      | Some tbuf =>
          buf ← zset buf 0 123;
          tbuf ← (if need then zset tbuf 0 123 else Some tbuf);
          r ← output_loop (v_dpid valid) (dps dpin) (nodes s) need buf 1 tbuf (if need then 1 else 0);
          match r with
          | inr code => Some (code, None, None)
          | inl (buf, offset, tbuf, toffset) =>
              buf ← zset buf (offset - 1) 125;
              buf ← zset buf offset 0;
              if need then
                tbuf ← zset tbuf (toffset - 1) 125;
                tbuf ← zset tbuf toffset 0;
                Some (OPRT_OK, Some buf, Some tbuf)
              else Some (OPRT_OK, Some buf, None)
          end
      end
  end.
End output.

(** [block]: what [tal_malloc] returns for a length, cleared. The outer text of a report. *)
Definition dp_rept_json_append (dev : bytes) (data : bytes) (time type : option bytes) (rept_seq : Z)
    (block : Z -> option bytes) : option (Z * option bytes) :=
  let len := match time with None => zlen data + 128 | Some t => zlen data + zlen t + 128 end in
  match block len with
  | None => Some (OPRT_MALLOC_FAILED, None)
  | Some tmp =>
      let put tmp offset text := tmp ← mwrite tmp offset (text ++ [0]); Some (tmp, offset + zlen text) in
      r ← put tmp 0 (c_str "{" ++ quote ++ c_str "dps" ++ quote ++ c_str ":" ++ data ++ c_str "," ++
                     quote ++ c_str "devId" ++ quote ++ c_str ":" ++ quote ++ dev ++ quote);
      r ← match time with
          | Some t => put (fst r) (snd r) (c_str "," ++ quote ++ c_str "t" ++ quote ++ c_str ":" ++ t)
          | None => Some r
          end;
      r ← (if bool_decide (rept_seq > 0) then
             put (fst r) (snd r) (c_str "," ++ quote ++ c_str "seq" ++ quote ++ c_str ":" ++ quote ++
                                  dec rept_seq ++ quote)
           else Some r);
      r ← match type with
          | Some t => put (fst r) (snd r) (c_str "," ++ quote ++ c_str "type" ++ quote ++ c_str ":" ++
                                           quote ++ t ++ quote)
          | None => Some r
          end;
      tmp ← zset (fst r) (snd r) 125;
      Some (OPRT_OK, Some tmp)
  end.

(** ** Dumps

    A JSON object that is built is the list of its members in order. *)

Inductive jval := JBool (b : Z) | JNumber (z : Z) | JString (s : bytes).

(** The member, if any, and the length that is counted for it. *)
Definition dp_obj_json_create (root : list (bytes * jval)) (n : dp_node_t)
    : option (list (bytes * jval) * Z) :=
  let dpid := dec (d_id (desc n)) in
  match prop n with
  | PropBool value => Some (root ++ [(dpid, JBool value)], 10)
  | PropInt _ _ _ value => Some (root ++ [(dpid, JNumber value)], 10)
  | PropStr _ _ (Some value) => Some (root ++ [(dpid, JString value)], 10 + zlen value)
  | PropStr _ _ None => Some (root, 0)
  | PropEnum _ pp_enum value =>
      name ← zget pp_enum value; Some (root ++ [(dpid, JString name)], 10 + zlen name)
  | PropBitmap _ value => Some (root ++ [(dpid, JNumber value)], 10)
  end.

(** The object is in the cloud already. *)
Definition in_cloud (n : dp_node_t) : bool :=
  bool_decide (d_type (desc n) = T_OBJ) && bool_decide (pv_stat n = PV_STAT_CLOUD).

Fixpoint count_local (ns : list dp_node_t) (num : Z) : Z :=
  match ns with
  | [] => num
  | n :: ns =>
      count_local ns (if bool_decide (d_type (desc n) = T_OBJ) &&
                         negb (bool_decide (pv_stat n = PV_STAT_CLOUD)) then u8 (num + 1) else num)
  end.

Fixpoint dump_loop (ns : list dp_node_t) (num : Z) (ids : list Z) (root : list (bytes * jval))
    (length : Z) : option (list Z * list (bytes * jval) * Z) :=
  match ns with
  | [] => Some (ids, root, length)
  | n :: ns =>
      if in_cloud n then dump_loop ns num ids root length
      else if bool_decide (zlen ids < num) then
        r ← dp_obj_json_create root n;
        dump_loop ns num (ids ++ [d_id (desc n)]) (fst r) (length + snd r)
      else dump_loop ns num ids root length
  end.

Fixpoint dump_all_loop (ns : list dp_node_t) (flags : Z) (root : list (bytes * jval)) (length : Z)
    : option (list (bytes * jval) * Z) :=
  match ns with
  | [] => Some (root, length)
  | n :: ns =>
      if negb (bool_decide (Z.land DP_DUMP_STAT_LOCAL_FLAG flags = 0)) && in_cloud n
      then dump_all_loop ns flags root length
      else
        r ← dp_obj_json_create root n; dump_all_loop ns flags (fst r) (length + snd r)
  end.

Section print.
Context (print_object : list (bytes * jval) -> option bytes).
Context (block : Z -> option bytes).

(** The text with the outer object around it; the result of [dp_rept_json_append] is not checked. *)
Definition add_header (dev text : bytes) (flags : Z) (other : option bytes) : option (option bytes) :=
  if bool_decide (Z.land flags DP_APPEND_HEADER_FLAG = 0) then Some (Some text)
  else
    r ← dp_rept_json_append dev text None None 0 block;
    Some (match snd r with
          | Some t => Some (c_string t)
          | None => other
          end).

(** [alloc]: the result for the list of identifiers. The code, the identifiers, the text. *)
Definition dp_obj_dump_stat_local_json (g : dp_schema_mgr_t) (dev : bytes) (flags : Z) (alloc : bool)
    : option (Z * option (list Z) * option bytes) :=
  r ← dp_schema_find g dev;
  let s := snd r in
  let num := count_local (nodes s) 0 in
  if bool_decide (num = 0) then Some (OPRT_OK, None, None)
  else if negb alloc then Some (OPRT_MALLOC_FAILED, None, None)
  else
    r ← dump_loop (nodes s) num [] [] 0;
    let '(ids, root, length) := r in
    if bool_decide (length = 0) then Some (OPRT_SVC_DP_ID_NOT_FOUND, None, None)
    else match print_object root with
    | None => Some (OPRT_CR_CJSON_ERR, None, None)
    | Some text => t ← add_header (devid s) text flags None; Some (OPRT_OK, Some ids, t)
    end.

(** When the header cannot be added the text stays as it is. *)
Definition dp_obj_dump_all_json (g : dp_schema_mgr_t) (dev : bytes) (flags : Z)
    : option (option bytes) :=
  match dp_schema_find g dev with
  | None => Some None
  | Some (_, s) =>
      r ← dump_all_loop (nodes s) flags [] 0;
      if bool_decide (snd r = 0) then Some None
      else match print_object (fst r) with
      | None => Some None
      | Some text => add_header (devid s) text flags (Some text)
      end
  end.
End print.

(** ** Parsing a schema *)

(** The positions of the objects at the top level; [pos]: the array, [n] the number found. *)
Fixpoint pos_loop (text : bytes) (pos : list (Z * Z)) (pos_num i brace n : Z)
    : option (Z * list (Z * Z)) :=
  match text with
  | [] => Some (n, pos)
  | c :: text =>
      if bool_decide (c = 123) then
        pos ← (if bool_decide (brace = 0) then p ← zget pos n; zset pos n (u16 i, snd p) else Some pos);
        pos_loop text pos pos_num (i + 1) (brace + 1) n
      else if bool_decide (c = 125) then
        let brace := brace - 1 in
        if bool_decide (brace = 0) then
          p ← zget pos n;
          pos ← zset pos n (fst p, u16 i);
          if bool_decide (n + 1 >= pos_num) then Some (n + 1, pos)
          else pos_loop text pos pos_num (i + 1) brace (n + 1)
        else if bool_decide (n >= pos_num) then Some (n, pos)
        else pos_loop text pos pos_num (i + 1) brace n
      else pos_loop text pos pos_num (i + 1) brace n
  end.

Definition dp_node_pos_decode (schema_json : option bytes) (pos : list (Z * Z)) (pos_num : Z)
    : option (Z * list (Z * Z)) :=
  match schema_json with
  | None => Some (0, pos)
  | Some text => pos_loop text pos pos_num 0 0 0
  end.

(** [atoi]. *)
Definition is_space (c : Z) : bool := bool_decide (c = 32) || bool_decide (9 <= c <= 13).

Fixpoint atoi_digits (s : bytes) (v : Z) : Z :=
  match s with
  | c :: s => if bool_decide (48 <= c <= 57) then atoi_digits s (10 * v + (c - 48)) else v
  | [] => v
  end.

Fixpoint atoi (s : bytes) : Z :=
  match s with
  | [] => 0
  | c :: s' =>
      if is_space c then atoi s'
      else if bool_decide (c = 45) then - atoi_digits s' 0
      else if bool_decide (c = 43) then atoi_digits s' 0
      else atoi_digits s 0
  end.

Section json.
(** cJSON: the parser and the fields and accessors that the code uses. *)
Context {cJSON : Type}.
Context (cJSON_Parse : bytes -> option cJSON).
Context (cJSON_GetObjectItem : cJSON -> bytes -> option cJSON).
Context (cJSON_GetArraySize : cJSON -> Z) (cJSON_GetArrayItem : cJSON -> Z -> option cJSON).
Context (item_type valueint : cJSON -> Z) (valuestring item_name : cJSON -> option bytes).
Context (item_child : cJSON -> list cJSON).
Context (cJSON_String cJSON_Number cJSON_True : Z) (cJSON_IsBool : cJSON -> bool).
(** Whether the allocation for string [j] of the enumeration of object [k] succeeds; index 0 is
    the array of pointers. *)
Context (enum_alloc : nat -> nat -> bool) (mutex_ok : nat -> bool).

(** [strcmp(item->valuestring, s) == 0]; a NULL string is undefined behaviour. *)
Definition is_string (item : cJSON) (s : string) : option bool :=
  v ← valuestring item; Some (bool_decide (v = c_str s)).

(** A chain of [strcmp]: the value of the first that matches. *)
Fixpoint string_case {A} (item : cJSON) (cases : list (string * A)) (other : A) : option A :=
  match cases with
  | [] => Some other
  | (s, a) :: cases =>
      eq ← is_string item s; if (eq : bool) then Some a else string_case item cases other
  end.

(** An attribute with a default. *)
Definition attr (js : cJSON) (key : string) (dflt : Z) (f : cJSON -> option Z) : option Z :=
  match cJSON_GetObjectItem js (c_str key) with None => Some dflt | Some item => f item end.

Fixpoint enum_loop (k : nat) (child : cJSON) (n : nat) (i : nat) (acc : list bytes)
    : option (list bytes + Z) :=
  match n with
  | O => Some (inl acc)
  | S n =>
      match cJSON_GetArrayItem child (Z.of_nat i) with
      | None => Some (inr OPRT_CJSON_GET_ERR)
      | Some c =>
          match valuestring c with
          | Some s => if enum_alloc k (S i) then enum_loop k child n (S i) (acc ++ [s])
                      else Some (inr OPRT_MALLOC_FAILED)
          | None => Some (inr OPRT_MALLOC_FAILED)
          end
      end
  end.

(** The property of object [k]; [inr]: an error code. *)
Definition prop_parse (k : nat) (item child : cJSON) : option (dp_prop + Z) :=
  ty ← string_case child
    [("bool", PROP_BOOL); ("value", PROP_VALUE); ("string", PROP_STR); ("enum", PROP_ENUM);
     ("bitmap", PROP_BITMAP)]%string (-1);
  if bool_decide (ty = PROP_BOOL) then Some (inl (PropBool 0))
  else if bool_decide (ty = PROP_VALUE) then
    match cJSON_GetObjectItem item (c_str "max"), cJSON_GetObjectItem item (c_str "min") with
    | Some max, Some min =>
        Some (inl (PropInt (valueint min) (valueint max)
          match cJSON_GetObjectItem item (c_str "scale") with
          | Some scale => u16 (valueint scale)
          | None => 0
          end 0))
    | _, _ => Some (inr OPRT_CJSON_GET_ERR)
    end
  else if bool_decide (ty = PROP_STR) then
    match cJSON_GetObjectItem item (c_str "maxlen") with
    | None => Some (inr OPRT_CJSON_GET_ERR)
    | Some c => if mutex_ok k then Some (inl (PropStr (valueint c) 0 None))
                else Some (inr OPRT_CR_MUTEX_ERR)
    end
  else if bool_decide (ty = PROP_ENUM) then
    match cJSON_GetObjectItem item (c_str "range") with
    | None => Some (inr OPRT_CJSON_GET_ERR)
    | Some c =>
        let num := cJSON_GetArraySize c in
        if bool_decide (num = 0) then Some (inr OPRT_CJSON_GET_ERR)
        else if negb (enum_alloc k 0) then Some (inr OPRT_MALLOC_FAILED)
        else
          r ← enum_loop k c (Z.to_nat num) 0 [];
          Some (match r with inl names => inl (PropEnum num names 0) | inr code => inr code end)
    end
  else if bool_decide (ty = PROP_BITMAP) then
    match cJSON_GetObjectItem item (c_str "maxlen") with
    | None => Some (inr OPRT_CJSON_GET_ERR)
    | Some c => Some (inl (PropBitmap (u32 (valueint c)) 0))
    end
  else Some (inr OPRT_SVC_DEVOS_SCMA_INVALID).

(** One object of the schema: the node, and whether it sets [preprocess]. *)
Definition node_parse (k : nat) (js : cJSON) : option ((dp_node_t * bool) + Z) :=
  match cJSON_GetObjectItem js (c_str "id") with
  | None => Some (inr OPRT_CJSON_GET_ERR)
  | Some id =>
  id ← (if bool_decide (item_type id = cJSON_String)
        then v ← valuestring id; Some (u8 (atoi v)) else Some (u8 (valueint id)));
  match cJSON_GetObjectItem js (c_str "mode") with
  | None => Some (inr OPRT_CJSON_GET_ERR)
  | Some mode =>
      mode ← string_case mode [("rw", M_RW); ("ro", M_RO)]%string M_WR;
      let pre := match cJSON_GetObjectItem js (c_str "passive") with Some _ => true | None => false end in
      trig ← attr js "trigger" TRIG_PULSE
        (fun item => string_case item [("pulse", TRIG_PULSE)]%string TRIG_DIRECT);
      route ← attr js "route" ROUTE_DEFAULT (fun item =>
        Some (if bool_decide (valueint item = 2) then ROUTE_FORCE_BT
              else if bool_decide (valueint item = 1) then ROUTE_BLE_FIRST else ROUTE_DEFAULT));
      stat ← attr js "stat" DST_NONE
        (fun item => string_case item [("total", DST_TOTAL)]%string DST_INC);
      type ← attr js "type" T_OBJ
        (fun item => string_case item [("obj", T_OBJ); ("raw", T_RAW)]%string T_FILE);
      let desc := Desc id mode PSV_FALSE type trig stat route in
      if bool_decide (type <> T_OBJ)
      then Some (inl (Node desc (PropBool 0) PV_STAT_INVALID 0, pre))
      else match cJSON_GetObjectItem js (c_str "property") with
      | None => Some (inr OPRT_CJSON_GET_ERR)
      | Some item =>
          match cJSON_GetObjectItem item (c_str "type") with
          | None => Some (inr OPRT_CJSON_GET_ERR)
          | Some child =>
              r ← prop_parse k item child;
              Some (match r with
                    | inl p => inl (Node desc p PV_STAT_INVALID 0, pre)
                    | inr code => inr code
                    end)
          end
      end
  end
  end.

(** Each object is copied to a buffer of [MAX_ITEM_LEN] bytes and parsed from there. *)
Fixpoint nodes_parse (schema_json : bytes) (pos : list (Z * Z)) (k : nat) (acc : list dp_node_t)
    (pre : bool) : option (list dp_node_t * bool + Z) :=
  match pos with
  | [] => Some (inl (acc, pre))
  | p :: pos =>
      pBuf ← memcpy (replicate (Z.to_nat MAX_ITEM_LEN) 0) 0 (schema_json ++ [0]) (fst p)
               (snd p - fst p + 1);
      if bool_decide (zlen (c_string pBuf) = MAX_ITEM_LEN) then None
      else match cJSON_Parse (c_string pBuf) with
      | None => Some (inr OPRT_CJSON_PARSE_ERR)
      | Some js =>
          r ← node_parse k js;
          match r with
          | inr code => Some (inr code)
          | inl (n, p) => nodes_parse schema_json pos (S k) (acc ++ [n]) (pre || p)
          end
      end
  end.

(** [buf_alloc]: the result for the buffer. *)
Definition dp_node_parse (schema_json : bytes) (pos : list (Z * Z)) (buf_alloc : bool)
    : option (list dp_node_t * bool + Z) :=
  if buf_alloc then nodes_parse schema_json pos 0 [] false else Some (inr OPRT_COM_ERROR).

(** The results of the allocations: the positions, which are not cleared, the schema, the buffer;
    [mutex]: the result of the creation of the mutex. *)
Definition dp_schema_create (g : dp_schema_mgr_t) (dev : bytes) (schema_json : option bytes)
    (nodepos : option (list (Z * Z))) (schema_alloc : bool) (mutex : Z) (buf_alloc : bool)
    : option (Z * option dp_schema_t * dp_schema_mgr_t) :=
  match nodepos with
  | None => Some (OPRT_MALLOC_FAILED, None, g)
  | Some pos =>
      r ← dp_node_pos_decode schema_json pos 255;
      let '(nodenum, pos) := r in
      if bool_decide (nodenum = 0) || bool_decide (nodenum >= 255)
      then Some (OPRT_SVC_DEVOS_DEV_DP_CNT_INVALID, None, g)
      else if negb schema_alloc then Some (OPRT_MALLOC_FAILED, None, g)
      else if bool_decide (mutex <> OPRT_OK) then Some (mutex, None, g)
      else
        r ← dp_node_parse (default [] schema_json) (take (Z.to_nat nodenum) pos) buf_alloc;
        match r with
        | inr code => Some (code, None, g)
        | inl (ns, pre) =>
            let s := Schema (take (Z.to_nat DEV_ID_LEN) dev) pre ns in
            Some (OPRT_OK, Some s,
                  if bool_decide (schema_num g < 1)
                  then Mgr (u8 (schema_num g + 1)) (<[Z.to_nat (schema_num g) := Some s]> (schema_list g))
                  else g)
        end
  end.

Definition dp_schema_delete (g : dp_schema_mgr_t) (dev : bytes) : Z * dp_schema_mgr_t :=
  match dp_schema_find g dev with
  | Some (i, _) => (OPRT_OK, Mgr (u8 (schema_num g - 1)) (<[i := None]> (schema_list g)))
  | None => (OPRT_OK, g)
  end.

(** ** Commands from the cloud *)

(** What the callback gets: the raw data of one data point, or the array of the others. *)
Inductive dp_event :=
  | RecvRaw (id len : Z) (data : bytes)
  | RecvObj (dps : list dp_obj_t).

Context (base64_decode : bytes -> bytes).

(** The first loop: the number of objects among the items; passive objects are answered once. *)
Fixpoint count_loop (items : list cJSON) (pre : bool) (ns : list dp_node_t) (cnt : Z)
    : option (list dp_node_t * Z) :=
  match items with
  | [] => Some (ns, cnt)
  | item :: items =>
      name ← item_name item;
      match dp_node_find ns (atoi name) with
      | None => count_loop items pre ns cnt
      | Some (i, n) =>
          let d := desc n in
          let ns := if pre && bool_decide (d_passive d = PSV_TRUE)
                    then <[i := Node (Desc (d_id d) (d_mode d) PSV_F_ONCE (d_type d) (d_trig d)
                                           (d_stat d) (d_route d))
                                     (prop n) (pv_stat n) (time_stamp n)]> ns else ns in
          count_loop items pre ns (if bool_decide (d_type d = T_OBJ) then u16 (cnt + 1) else cnt)
      end
  end.

(** The value of an item for a property; [None]: the item is skipped. *)
Definition item_value (item : cJSON) (p : dp_prop) (old : dp_value_t)
    : option (option dp_value_t) :=
  match p with
  | PropBool _ =>
      if cJSON_IsBool item
      then Some (Some (Value (dp_word old - dp_bool old +
                              (if bool_decide (item_type item = cJSON_True) then 1 else 0)) (dp_str old)))
      else Some None
  | PropInt _ _ _ _ =>
      if bool_decide (item_type item = cJSON_Number)
      then Some (Some (Value (u32 (valueint item)) (dp_str old))) else Some None
  | PropStr _ _ _ =>
      if bool_decide (item_type item = cJSON_String)
      then Some (Some (Value (dp_word old) (valuestring item))) else Some None
  | PropEnum cnt pp_enum _ =>
      if bool_decide (item_type item = cJSON_String) then
        v ← valuestring item;
        match list_find (fun s => s = v) (take (Z.to_nat cnt) pp_enum) with
        | Some (j, _) => Some (Some (Value (Z.of_nat j) (dp_str old)))
        | None => Some None
        end
      else Some (Some old)
  | PropBitmap _ _ => Some (Some (Value (u32 (valueint item)) (dp_str old)))
  end.

(** The second loop. [dpobj]: the cleared array of the objects, if there is one; [i]: the next
    free entry; [raw_alloc]: the results of the allocations for raw data; [inr]: the events when
    the function was left early. *)
Fixpoint recv_loop (items : list cJSON) (has_cb : bool) (now : Z) (raw_alloc : nat -> bool) (k : nat)
    (ns : list dp_node_t) (dpobj : option (list dp_obj_t)) (i : Z) (evs : list dp_event)
    : option (list dp_node_t * list dp_event * option (option (list dp_obj_t))) :=
  match items with
  | [] => Some (ns, evs, Some dpobj)
  | item :: items =>
      name ← item_name item;
      match dp_node_find ns (atoi name) with
      | None => recv_loop items has_cb now raw_alloc (S k) ns dpobj i evs
      | Some (x, n) =>
          if bool_decide (d_type (desc n) = T_RAW) && bool_decide (item_type item = cJSON_String) then
            v ← valuestring item;
            if raw_alloc k then
              let data := base64_decode v in
              let evs := if has_cb then evs ++ [RecvRaw (d_id (desc n)) (u16 (zlen data)) data] else evs in
              recv_loop items has_cb now raw_alloc (S k) ns dpobj i evs
            else Some (ns, evs, None)
          else
            let ns := <[x := set_stat n PV_STAT_LOCAL]> ns in
            old ← (match dpobj with Some d => Some (zget d i) | None => Some None end);
            v ← item_value item (prop n) (default (Value 0 None) (dp_val <$> old));
            match v with
            | None => recv_loop items has_cb now raw_alloc (S k) ns dpobj i evs
            | Some v =>
                d ← dpobj;
                d ← zset d i (Dp (d_id (desc n)) (prop_tp (prop n)) v now);
                recv_loop items has_cb now raw_alloc (S k) ns (Some d) (i + 1) evs
            end
      end
  end.

(** [now]: the time; [obj_alloc]: the result for the array. The code, the registered schemas and
    the events. *)
Definition dp_data_recv_parse (g : dp_schema_mgr_t) (dev : bytes) (data_js : cJSON) (has_cb : bool)
    (now : Z) (obj_alloc : bool) (raw_alloc : nat -> bool)
    : option (Z * dp_schema_mgr_t * list dp_event) :=
  match dp_schema_find g dev, cJSON_GetObjectItem data_js (c_str "dps") with
  | Some (x, s), Some dps_js =>
      let put ns := Mgr (schema_num g) (<[x := Some (Schema (devid s) (preprocess s) ns)]> (schema_list g)) in
      r ← count_loop (item_child dps_js) (preprocess s) (nodes s) 0;
      let '(ns, cnt) := r in
      if negb (bool_decide (cnt = 0)) && negb obj_alloc then Some (OPRT_MALLOC_FAILED, put ns, [])
      else
        let dpobj := if bool_decide (cnt = 0) then None
                     else Some (replicate (Z.to_nat cnt) (Dp 0 0 (Value 0 None) 0)) in
        r ← recv_loop (item_child dps_js) has_cb now raw_alloc 0 ns dpobj 0 [];
        let '(ns, evs, rest) := r in
        let evs := match rest with
                   | Some (Some d) => if has_cb then evs ++ [RecvObj d] else evs
                   | _ => evs
                   end in
        Some (OPRT_OK, put ns, evs)
  | _, _ => Some (OPRT_COM_ERROR, g, [])
  end.
End json.

(** ** The answer of the cloud *)

(** [dp_sync_cb] of tuya_iot_dp.c for a report that arrived. *)
Definition dp_sync_ok (ns : list dp_node_t) (ids : list Z) : list dp_node_t :=
  foldl (fun ns id => dp_pv_stat_set ns id PV_STAT_CLOUD) ns ids.
