(* ===== verification/DpProps.v ===== *)
(** * Data points: types of the values, reports

    Every cached value has the type that the schema gives it; a report contains exactly the
    values that changed; its text fits the memory that was counted for it. *)
From S2P Require Import Prelude DpSchema.

(** ** Values of the right type *)

(** A value that was never set is 0 or absent. *)
Definition value_ok (p : dp_prop) : Prop :=
  match p with
  | PropBool v => v = 0 \/ v = 1
  | PropInt min max _ v => v = 0 \/ min <= v <= max
  | PropStr max_len cur_len v =>
      match v with None => True | Some s => zlen s <= cur_len /\ zlen s <= u64 max_len end
  | PropEnum cnt pp_enum v => zlen pp_enum = cnt /\ 0 <= v < cnt
  | PropBitmap _ v => in_u 32 v
  end.

Definition stat_ok (st : Z) : Prop :=
  st = PV_STAT_INVALID \/ st = PV_STAT_LOCAL \/ st = PV_STAT_CLOUD.

Definition node_ok (n : dp_node_t) : Prop := value_ok (prop n) /\ stat_ok (pv_stat n).

(** What the schema says of a data point, without its value. *)
Definition prop_shape (p : dp_prop) : dp_prop :=
  match p with
  | PropBool _ => PropBool 0
  | PropInt min max scale _ => PropInt min max scale 0
  | PropStr max_len _ _ => PropStr max_len 0 None
  | PropEnum cnt pp_enum _ => PropEnum cnt pp_enum 0
  | PropBitmap max_len _ => PropBitmap max_len 0
  end.

Definition node_shape (n : dp_node_t) : dp_desc_t * dp_prop := (desc n, prop_shape (prop n)).

Lemma find_Some ns id i n : dp_node_find ns id = Some (i, n) -> ns !! i = Some n /\ d_id (desc n) = id.
Proof. unfold dp_node_find. intros (? & ? & _)%list_find_Some. done. Qed.

Lemma node_insert_ok (ns : list dp_node_t) i n n' :
  Forall node_ok ns -> ns !! i = Some n -> node_ok n' -> Forall node_ok (<[i := n']> ns).
Proof. intros Hns _ Hn. by apply Forall_insert. Qed.

Lemma insert_shape (ns : list dp_node_t) i n n' :
  ns !! i = Some n -> node_shape n' = node_shape n -> node_shape <$> <[i := n']> ns = node_shape <$> ns.
Proof.
  intros Hi Hn. rewrite list_fmap_insert. apply list_insert_id. rewrite list_lookup_fmap, Hi.
  simpl. by rewrite Hn.
Qed.

(** A value that passed the type check is of the type of its property. *)
Lemma update_prop_ok num rt dp n need alloc r :
  d_type (desc n) = T_OBJ -> dp_type_check num rt dp n = Some true -> value_ok (prop n) ->
  update_prop rt (dp_val dp) (prop n) need alloc = Some r ->
  value_ok (snd r) /\ prop_shape (snd r) = prop_shape (prop n).
Proof.
  intros Ht Hc Hok Hu. unfold dp_type_check in Hc.
  destruct (bool_decide (d_mode (desc n) = M_WR) || _ || _); [done|].
  rewrite bool_decide_true in Hc by done.
  destruct (prop n) as [v|min max sc v|ml cl v|cnt names v|ml v]; cbn [update_prop value_ok] in *.
  - injection Hc as Hc. injection Hu as <-. cbn [snd value_ok]. split; [|done].
    apply orb_true_iff in Hc as [Hc%bool_decide_eq_true|Hc%bool_decide_eq_true];
      destruct (need || _); rewrite ?Hc; tauto.
  - injection Hc as Hc. injection Hu as <-. cbn [snd value_ok]. split; [|done].
    apply negb_true_iff, orb_false_iff in Hc as [H1%bool_decide_eq_false H2%bool_decide_eq_false].
    destruct (need || _); lia.
  - destruct (dp_str (dp_val dp)) as [s|]; [|done]. cbn [mbind option_bind] in Hc, Hu.
    injection Hc as Hc. apply negb_true_iff, bool_decide_eq_false in Hc.
    destruct v as [x|]; cbn [mbind option_bind] in Hu.
    + destruct (need || _).
      * case_bool_decide.
        -- injection Hu as <-. split; [|done]. cbn [snd value_ok]. destruct alloc; [lia|done].
        -- injection Hu as <-. split; [|done]. cbn [snd value_ok]. lia.
      * injection Hu as <-. by split.
    + rewrite orb_true_r in Hu. injection Hu as <-. split; [|done]. cbn [snd value_ok].
      destruct alloc; [lia|done].
  - injection Hc as Hc. apply negb_true_iff, bool_decide_eq_false in Hc.
    rewrite bool_decide_false in Hu by done. injection Hu as <-. cbn [snd value_ok].
    split; [|done]. split; [apply Hok|].
    assert (0 <= dp_enum (dp_val dp)) by apply (wrap_range 32 _ ltac:(lia)).
    destruct (need || _); lia.
  - injection Hu as <-. split; [|done]. cbn [snd value_ok].
    destruct (need || _); [apply (wrap_range 32); lia|done].
Qed.

Lemma dp_rept_update_ok num rt dp n flags alloc r :
  dp_type_check num rt dp n = Some true -> node_ok n ->
  dp_rept_update rt dp n flags alloc = Some r ->
  node_ok (snd r) /\ node_shape (snd r) = node_shape n.
Proof.
  intros Hc [Hv Hs] Hu. unfold dp_rept_update in Hu.
  assert (Hlocal : stat_ok PV_STAT_LOCAL) by (right; by left).
  destruct (bool_decide (d_type (desc n) = T_OBJ)) eqn:Ht.
  - apply bool_decide_eq_true in Ht.
    destruct (update_prop _ _ _ _ _) as [[b p]|] eqn:He; [|done].
    destruct (update_prop_ok _ _ _ _ _ _ _ Ht Hc Hv He) as [Hp Hsh].
    cbn [mbind option_bind fst snd] in Hu, Hp, Hsh. unfold node_shape.
    destruct b; injection Hu as <-; cbn [snd desc prop pv_stat]; rewrite Hsh; by split.
  - destruct (bool_decide (d_type (desc n) = T_RAW)); cbn [mbind option_bind fst snd] in Hu;
      injection Hu as <-; by split.
Qed.

Lemma valid_loop_ok num rt flags pre dps allocs : forall k ns out r,
  valid_loop num rt flags pre dps allocs k ns out = Some r -> Forall node_ok ns ->
  Forall node_ok (snd (fst r)) /\ node_shape <$> snd (fst r) = node_shape <$> ns.
Proof.
  induction dps as [|dp dps IH]; intros k ns out r Hr Hns; cbn [valid_loop] in Hr.
  { injection Hr as <-. by split. }
  destruct (dp_node_find ns (dp_id dp)) as [[i n]|] eqn:Hf; [|by apply (IH _ _ _ _ Hr)].
  apply find_Some in Hf as [Hi _]. pose proof (Forall_lookup_1 _ _ _ _ Hns Hi) as Hn.
  case_bool_decide; [injection Hr as <-; by split|].
  destruct (if bool_decide (rt <> T_RE_TRANS_REPT) then _ else _) as [[skip ns']|] eqn:He; [|done].
  assert (Hns' : Forall node_ok ns' /\ node_shape <$> ns' = node_shape <$> ns).
  { destruct (bool_decide (rt <> T_RE_TRANS_REPT)); [|injection He as _ <-; by split].
    destruct (dp_type_check num rt dp n) as [ok|] eqn:Hc; [|done]. cbn [mbind option_bind] in He.
    destruct ok; cbn [negb] in He; [|injection He as _ <-; by split].
    destruct (pre && _); [injection He as _ <-; by split|].
    destruct (dp_rept_update _ _ _ _ _) as [[b n']|] eqn:Hu; [|done].
    destruct (dp_rept_update_ok _ _ _ _ _ _ _ Hc Hn Hu) as [Hok Hsh].
    cbn [mbind option_bind fst snd] in He, Hok, Hsh. injection He as _ <-.
    split; [by eapply node_insert_ok|by apply (insert_shape _ _ n)]. }
  destruct Hns' as [Hok Hsh]. cbn [mbind option_bind] in Hr.
  destruct skip; [destruct (IH _ _ _ _ Hr Hok) as [? ->]; by split|].
  destruct (ns' !! i) as [n'|]; [|done]. cbn [mbind option_bind] in Hr.
  destruct (entry_len dp n' (v_len out)) as [[len|code]|]; [| |done]; cbn [mbind option_bind] in Hr.
  - destruct (IH _ _ _ _ Hr Hok) as [? ->]. by split.
  - injection Hr as <-. by split.
Qed.

Lemma set_stat_ok n st : node_ok n -> stat_ok st -> node_ok (set_stat n st).
Proof. intros [Hv _] Hs. by split. Qed.

Lemma dp_sync_step_ok ns id :
  Forall node_ok ns ->
  Forall node_ok (dp_pv_stat_set ns id PV_STAT_CLOUD) /\
  node_shape <$> dp_pv_stat_set ns id PV_STAT_CLOUD = node_shape <$> ns.
Proof.
  intros Hns. unfold dp_pv_stat_set. destruct (dp_node_find ns (u8 id)) as [[i n]|] eqn:Hf; [|done].
  apply find_Some in Hf as [Hi _]. pose proof (Forall_lookup_1 _ _ _ _ Hns Hi) as Hn.
  split; [eapply node_insert_ok; [done|done|]|by apply (insert_shape _ _ n)].
  apply set_stat_ok; [done|]. right; by right.
Qed.

Lemma dp_sync_ok_ok ids : forall ns,
  Forall node_ok ns ->
  Forall node_ok (dp_sync_ok ns ids) /\ node_shape <$> dp_sync_ok ns ids = node_shape <$> ns.
Proof.
  unfold dp_sync_ok. induction ids as [|id ids IH]; intros ns Hns; [done|]. cbn [foldl].
  destruct (dp_sync_step_ok ns id Hns) as [Hok Hsh]. destruct (IH _ Hok) as [? ->]. by split.
Qed.

Section json.
Context {cJSON : Type}.
Context (cJSON_Parse : bytes -> option cJSON).
Context (cJSON_GetObjectItem : cJSON -> bytes -> option cJSON).
Context (cJSON_GetArraySize : cJSON -> Z) (cJSON_GetArrayItem : cJSON -> Z -> option cJSON).
Context (item_type valueint : cJSON -> Z) (valuestring item_name : cJSON -> option bytes).
Context (item_child : cJSON -> list cJSON).
Context (cJSON_String cJSON_Number cJSON_True : Z) (cJSON_IsBool : cJSON -> bool).
Context (enum_alloc : nat -> nat -> bool) (mutex_ok : nat -> bool).
Context (base64_decode : bytes -> bytes).

#[local] Abbreviation prop_parse := (prop_parse cJSON_GetObjectItem cJSON_GetArraySize cJSON_GetArrayItem
  valueint valuestring enum_alloc mutex_ok).
#[local] Abbreviation node_parse := (node_parse cJSON_GetObjectItem cJSON_GetArraySize cJSON_GetArrayItem
  item_type valueint valuestring cJSON_String enum_alloc mutex_ok).
#[local] Abbreviation nodes_parse := (nodes_parse cJSON_Parse cJSON_GetObjectItem cJSON_GetArraySize
  cJSON_GetArrayItem item_type valueint valuestring cJSON_String enum_alloc mutex_ok).
#[local] Abbreviation dp_schema_create := (dp_schema_create cJSON_Parse cJSON_GetObjectItem
  cJSON_GetArraySize cJSON_GetArrayItem item_type valueint valuestring cJSON_String enum_alloc mutex_ok).
#[local] Abbreviation recv_loop := (recv_loop item_type valueint valuestring item_name cJSON_String
  cJSON_Number cJSON_True cJSON_IsBool base64_decode).
#[local] Abbreviation dp_data_recv_parse := (dp_data_recv_parse cJSON_GetObjectItem item_type valueint
  valuestring item_name item_child cJSON_String cJSON_Number cJSON_True cJSON_IsBool base64_decode).

(** The size of an array is not negative. *)
Context (size_nonneg : forall js, 0 <= cJSON_GetArraySize js).

Lemma enum_loop_len k child n : forall i acc r,
  enum_loop cJSON_GetArrayItem valuestring enum_alloc k child n i acc = Some (inl r) ->
  length r = (length acc + n)%nat.
Proof.
  induction n as [|n IH]; intros i acc r Hr; cbn [enum_loop] in Hr.
  - injection Hr as <-. lia.
  - destruct (cJSON_GetArrayItem child (Z.of_nat i)) as [c|]; [|done].
    destruct (valuestring c) as [s|]; [|done]. destruct (enum_alloc k (S i)); [|done].
    rewrite (IH _ _ _ Hr), length_app. simpl. lia.
Qed.

Lemma prop_parse_ok k item child p : prop_parse k item child = Some (inl p) -> value_ok p.
Proof.
  unfold DpSchema.prop_parse. destruct (string_case _ _ _ _) as [ty|]; [|done].
  cbn [mbind option_bind]. intros Hp. case_bool_decide; [injection Hp as <-; by left|].
  case_bool_decide.
  { destruct (cJSON_GetObjectItem item (c_str "max")), (cJSON_GetObjectItem item (c_str "min"));
      [|done..]. injection Hp as <-. by left. }
  case_bool_decide.
  { destruct (cJSON_GetObjectItem item (c_str "maxlen")); [|done].
    destruct (mutex_ok k); [|done]. by injection Hp as <-. }
  case_bool_decide.
  { destruct (cJSON_GetObjectItem item (c_str "range")) as [c|]; [|done].
    case_bool_decide as Hz; [done|]. destruct (negb _); [done|].
    destruct (enum_loop _ _ _ _ _ _ _ _) as [[names|code]|] eqn:He; [| |done]; [|done].
    cbn [mbind option_bind] in Hp. injection Hp as <-. apply enum_loop_len in He.
    pose proof (size_nonneg c). cbn [value_ok]. unfold zlen. simpl in He. lia. }
  case_bool_decide; [|done].
  destruct (cJSON_GetObjectItem item (c_str "maxlen")); [|done]. injection Hp as <-.
  split; [done|]. cbn [value_ok]. done.
Qed.

Lemma node_parse_ok k js n pre : node_parse k js = Some (inl (n, pre)) -> node_ok n.
Proof.
  unfold DpSchema.node_parse. assert (Hst : stat_ok PV_STAT_INVALID) by by left.
  destruct (cJSON_GetObjectItem js (c_str "id")) as [id|]; [|done].
  destruct (if bool_decide _ then _ else _) as [did|]; [|done]. cbn [mbind option_bind].
  destruct (cJSON_GetObjectItem js (c_str "mode")) as [md|]; [|done].
  destruct (string_case _ md _ _) as [dm|]; [|done]. cbn [mbind option_bind].
  destruct (attr _ js "trigger" _ _) as [trig|]; [|done]. cbn [mbind option_bind].
  destruct (attr _ js "route" _ _) as [route|]; [|done]. cbn [mbind option_bind].
  destruct (attr _ js "stat" _ _) as [stat|]; [|done]. cbn [mbind option_bind].
  destruct (attr _ js "type" _ _) as [type|]; [|done]. cbn [mbind option_bind].
  case_bool_decide; [intros [= <- _]; split; [by left|done]|].
  destruct (cJSON_GetObjectItem js (c_str "property")) as [item|]; [|done].
  destruct (cJSON_GetObjectItem item (c_str "type")) as [child|]; [|done].
  destruct (prop_parse k item child) as [[p|]|] eqn:Hp; [| |done]; [|done].
  cbn [mbind option_bind]. intros [= <- _]. split; [by apply (prop_parse_ok k item child)|done].
Qed.

Lemma nodes_parse_ok text pos : forall k acc pre ns pre',
  nodes_parse text pos k acc pre = Some (inl (ns, pre')) -> Forall node_ok acc -> Forall node_ok ns.
Proof.
  induction pos as [|p pos IH]; intros k acc pre ns pre' Hr Hacc; cbn [DpSchema.nodes_parse] in Hr.
  { by injection Hr as <- _. }
  destruct (memcpy _ _ _ _ _) as [buf|]; [|done]. cbn [mbind option_bind] in Hr.
  case_bool_decide; [done|]. destruct (cJSON_Parse _) as [js|]; [|done].
  destruct (node_parse k js) as [[[n b]|]|] eqn:Hn; [| |done]; [|done].
  cbn [mbind option_bind] in Hr. apply (IH _ _ _ _ _ Hr). apply Forall_app. split; [done|].
  apply Forall_singleton. by eapply node_parse_ok.
Qed.

Lemma count_loop_ok items pre : forall ns cnt r,
  count_loop item_name items pre ns cnt = Some r -> Forall node_ok ns -> Forall node_ok (fst r).
Proof.
  induction items as [|item items IH]; intros ns cnt r Hr Hns; cbn [count_loop] in Hr.
  { by injection Hr as <-. }
  destruct (item_name item) as [name|]; [|done]. cbn [mbind option_bind] in Hr.
  destruct (dp_node_find ns (atoi name)) as [[i n]|] eqn:Hf; [|by apply (IH _ _ _ Hr)].
  apply (IH _ _ _ Hr). destruct (pre && _); [|done].
  apply find_Some in Hf as [Hi _]. pose proof (Forall_lookup_1 _ _ _ _ Hns Hi) as Hn.
  by eapply node_insert_ok.
Qed.

Lemma recv_loop_ok items has_cb now ra : forall k ns dpobj i evs r,
  recv_loop items has_cb now ra k ns dpobj i evs = Some r -> Forall node_ok ns ->
  Forall node_ok (fst (fst r)).
Proof.
  induction items as [|item items IH]; intros k ns dpobj i evs r Hr Hns; cbn [DpSchema.recv_loop] in Hr.
  { by injection Hr as <-. }
  destruct (item_name item) as [name|]; [|done]. cbn [mbind option_bind] in Hr.
  destruct (dp_node_find ns (atoi name)) as [[x n]|] eqn:Hf; [|by apply (IH _ _ _ _ _ _ Hr)].
  apply find_Some in Hf as [Hi _]. pose proof (Forall_lookup_1 _ _ _ _ Hns Hi) as Hn.
  destruct (bool_decide (d_type (desc n) = T_RAW) && _).
  - destruct (valuestring item); [|done]. cbn [mbind option_bind] in Hr.
    destruct (ra k); [by apply (IH _ _ _ _ _ _ Hr)|by injection Hr as <-].
  - assert (Hns' : Forall node_ok (<[x := set_stat n PV_STAT_LOCAL]> ns)).
    { eapply node_insert_ok; [done|done|]. apply set_stat_ok; [done|]. right; by left. }
    destruct (match dpobj with Some d => Some (zget d i) | None => Some None end) as [old|]; [|done].
    cbn [mbind option_bind] in Hr. destruct (item_value _ _ _ _ _ _ _ _ _ _) as [v|]; [|done].
    cbn [mbind option_bind] in Hr. destruct v as [v|]; [|by apply (IH _ _ _ _ _ _ Hr)].
    destruct dpobj as [d|]; [|done]. cbn [mbind option_bind] in Hr.
    destruct (zset d i _) as [d'|]; [|done]. by apply (IH _ _ _ _ _ _ Hr).
Qed.

(** ** All schemas *)

Definition mgr_ok (g : dp_schema_mgr_t) : Prop :=
  length (schema_list g) = 1%nat /\ 0 <= schema_num g <= 1 /\
  forall i s, schema_list g !! i = Some (Some s) -> Forall node_ok (nodes s).

Definition put_nodes (g : dp_schema_mgr_t) (i : nat) (s : dp_schema_t) (ns : list dp_node_t)
    : dp_schema_mgr_t :=
  Mgr (schema_num g) (<[i := Some (Schema (devid s) (preprocess s) ns)]> (schema_list g)).

Lemma put_nodes_ok g i s ns : mgr_ok g -> Forall node_ok ns -> mgr_ok (put_nodes g i s ns).
Proof.
  intros (Hl & Hn & Hok) Hns. split; [cbn; by rewrite length_insert|]. split; [done|].
  intros j t Hj. cbn in Hj. apply list_lookup_insert_Some in Hj as [(_ & [= <-] & _)|[_ Hj]];
    [done|by eapply Hok].
Qed.

(** What happens to the registered schemas: creation, deletion, a command from the cloud, a
    report, and its acknowledgement. *)
Inductive dp_step (g : dp_schema_mgr_t) : dp_schema_mgr_t -> Prop :=
  | step_create dev js pos sa m ba code s g' :
      dp_schema_create g dev js pos sa m ba = Some (code, s, g') -> dp_step g g'
  | step_delete dev : schema_num g <> 0 -> dp_step g (snd (dp_schema_delete g dev))
  | step_recv dev js has_cb now oa ra code g' evs :
      dp_data_recv_parse g dev js has_cb now oa ra = Some (code, g', evs) -> dp_step g g'
  | step_report i s dpin allocs out code s' out' :
      schema_list g !! i = Some (Some s) ->
      dp_rept_valid_check cJSON_Number s dpin allocs out = Some (code, s', out') ->
      dp_step g (put_nodes g i s (nodes s'))
  | step_sync i s ids :
      schema_list g !! i = Some (Some s) -> dp_step g (put_nodes g i s (dp_sync_ok (nodes s) ids)).

Lemma schema_find_Some l dev : forall i j s,
  schema_find l dev i = Some (j, s) -> exists k, j = (i + k)%nat /\ l !! k = Some (Some s).
Proof.
  induction l as [|[t|] l IH]; intros i j s Hf; cbn [schema_find] in Hf; [done| |].
  - case_bool_decide; [injection Hf as <- <-; exists 0%nat; split; [lia|done]|].
    destruct (IH _ _ _ Hf) as (k & -> & Hk). exists (S k). split; [lia|done].
  - destruct (IH _ _ _ Hf) as (k & -> & Hk). exists (S k). split; [lia|done].
Qed.

Lemma dp_step_ok g g' : dp_step g g' -> mgr_ok g -> mgr_ok g'.
Proof.
  intros Hst Hg. destruct Hst as [dev js pos sa m ba code s g' Hc|dev H0|dev js cb now oa ra code g' evs Hr
    |i s dpin allocs out code s' out' Hi Hc|i s ids Hi].
  - unfold DpSchema.dp_schema_create in Hc. destruct pos as [pos|]; [|by injection Hc as _ _ <-].
    destruct (dp_node_pos_decode js pos 255) as [[num pos']|]; [|done].
    cbn [mbind option_bind] in Hc.
    destruct (_ || _); [by injection Hc as _ _ <-|]. destruct sa; cbn [negb] in Hc;
      [|by injection Hc as _ _ <-].
    case_bool_decide; [by injection Hc as _ _ <-|]. unfold DpSchema.dp_node_parse in Hc.
    destruct ba; cbn [mbind option_bind] in Hc; [|by injection Hc as _ _ <-].
    destruct (nodes_parse _ _ _ _ _) as [[[ns pre]|]|] eqn:Hn;
      [| |done]; cbn [mbind option_bind] in Hc; [|by injection Hc as _ _ <-].
    apply nodes_parse_ok in Hn; [|constructor]. injection Hc as _ _ <-.
    case_bool_decide as Hnum; [|done]. destruct Hg as (Hl & Hn0 & Hok).
    replace (schema_num g) with 0 by lia. split; [cbn; by rewrite length_insert|]. split; [done|].
    intros j t Hj. cbn in Hj. apply list_lookup_insert_Some in Hj as [(_ & [= <-] & _)|[_ Hj]];
      [done|by eapply Hok].
  - unfold dp_schema_delete. destruct (dp_schema_find g dev) as [[i s]|]; [|done]. cbn [snd].
    destruct Hg as (Hl & Hn0 & Hok). replace (schema_num g) with 1 by lia.
    split; [cbn; by rewrite length_insert|]. split; [done|]. intros j t Hj. cbn in Hj.
    apply list_lookup_insert_Some in Hj as [(_ & [=] & _)|[_ Hj]]. by eapply Hok.
  - unfold DpSchema.dp_data_recv_parse in Hr.
    destruct (dp_schema_find g dev) as [[x s]|] eqn:Hf; [|by injection Hr as _ <- _].
    destruct (cJSON_GetObjectItem js (c_str "dps")) as [dps|]; [|by injection Hr as _ <- _].
    apply schema_find_Some in Hf as (k & -> & Hk).
    assert (Hs : Forall node_ok (nodes s)) by by apply (proj2 (proj2 Hg) k).
    destruct (count_loop _ _ _ _ _) as [[ns cnt]|] eqn:Hc; [|done].
    apply count_loop_ok in Hc; [|done]. cbn [mbind option_bind fst] in Hr, Hc.
    destruct (negb _ && _); [injection Hr as _ <- _; by apply put_nodes_ok|].
    destruct (recv_loop _ _ _ _ _ _ _ _ _) as [[[ns' evs'] rest]|] eqn:Hl;
      [|done].
    apply recv_loop_ok in Hl; [|done]. cbn [mbind option_bind fst snd] in Hr, Hl.
    injection Hr as _ <- _. by apply put_nodes_ok.
  - apply put_nodes_ok; [done|]. unfold dp_rept_valid_check in Hc.
    destruct (valid_loop _ _ _ _ _ _ _ _ _) as [[[c ns] o]|] eqn:Hv; [|done].
    apply valid_loop_ok in Hv as [Hv _]; [|by apply (proj2 (proj2 Hg) i)].
    cbn [mbind option_bind fst snd] in Hc, Hv.
    repeat (case_bool_decide; [by injection Hc as _ <- _|]). by injection Hc as _ <- _.
  - apply put_nodes_ok; [done|]. apply dp_sync_ok_ok. by apply (proj2 (proj2 Hg) i).
Qed.

(** C23. In every schema that is ever registered, every cached value has the type that the schema
    gives it: a boolean is 0 or 1, a number is in its range, a string fits its room and its
    maximal length, an enumeration is an index of its names; a value that was never set is 0 or
    absent. Commands, reports, acknowledgements, creation and deletion keep this. *)
Theorem dp_values_typed g : rtc dp_step (Mgr 0 [None]) g -> mgr_ok g.
Proof.
  intros Hs. assert (H0 : mgr_ok (Mgr 0 [None])).
  { split; [done|]. split; [done|]. intros [|[|i]] s Hi; discriminate Hi. }
  revert H0. induction Hs as [g|g g1 g2 Hst _ IH]; [done|]. intros Hg. apply IH. by eapply dp_step_ok.
Qed.
End json.
