(* ===== verification/DpReport.v ===== *)
(** * Reports of data points

    Which values a report contains, that its text fits the memory that the check counted, and
    that an acknowledged report is not repeated. *)
From S2P Require Import Prelude DpSchema DpProps.

(** ** Lookup after a change *)

Lemma find_insert_eq (ns : list dp_node_t) id i n n' :
  dp_node_find ns id = Some (i, n) -> d_id (desc n') = d_id (desc n) ->
  dp_node_find (<[i := n']> ns) id = Some (i, n').
Proof.
  unfold dp_node_find. intros (Hi & Hid & Hmin)%list_find_Some Hd. apply list_find_Some.
  split; [by apply list_lookup_insert_eq; eapply lookup_lt_Some|]. split; [by rewrite Hd|].
  intros j m Hj Hlt. rewrite list_lookup_insert_ne in Hj by lia. by apply (Hmin j).
Qed.

Lemma find_insert_ne (ns : list dp_node_t) id i n n' :
  ns !! i = Some n -> d_id (desc n') = d_id (desc n) -> d_id (desc n) <> id ->
  dp_node_find (<[i := n']> ns) id = dp_node_find ns id.
Proof.
  unfold dp_node_find. revert i. induction ns as [|m ns IH]; intros [|i] Hi Hd Hne; simplify_eq/=.
  - rewrite !decide_False by congruence. done.
  - case_decide; [done|]. by rewrite IH.
Qed.

(** ** Lists with distinct identifiers *)

Lemma ids_unique (l : list dp_obj_t) j j' d dp :
  NoDup (dp_id <$> l) -> l !! j = Some dp -> l !! j' = Some d -> dp_id d = dp_id dp -> j' = j.
Proof.
  intros Hnd Hj Hj' Heq. eapply (NoDup_lookup (dp_id <$> l));
    [done|rewrite list_lookup_fmap, Hj'; cbn; by rewrite Heq|by rewrite list_lookup_fmap, Hj].
Qed.

Lemma find_self (l : list dp_obj_t) dp :
  NoDup (dp_id <$> l) -> dp ∈ l ->
  exists j, list_find (fun d => dp_id d = dp_id dp) l = Some (j, dp) /\
            list_find (fun d => dp_id dp = dp_id d) l = Some (j, dp).
Proof.
  intros Hnd [j Hj]%list_elem_of_lookup. exists j.
  split; apply list_find_Some; (split; [done|]; split; [done|]); intros j' d Hj' Hlt Heq;
    pose proof (ids_unique l j j' d dp Hnd Hj Hj' ltac:(done)); lia.
Qed.

(** ** The decision *)

(** The value differs from the cached one. *)
Definition changed (p : dp_prop) (v : dp_value_t) : bool :=
  match p with
  | PropBool x => negb (bool_decide (x = dp_bool v))
  | PropInt _ _ _ x => negb (bool_decide (x = dp_value v))
  | PropStr _ _ x => negb (bool_decide (x = dp_str v))
  | PropEnum _ _ x => negb (bool_decide (x = dp_enum v))
  | PropBitmap _ x => negb (bool_decide (x = dp_bitmap v))
  end.

(** The property with the value. *)
Definition with_value (p : dp_prop) (v : dp_value_t) : dp_prop :=
  match p with
  | PropBool _ => PropBool (dp_bool v)
  | PropInt min max scale _ => PropInt min max scale (dp_value v)
  | PropStr max_len cur_len x =>
      let len := zlen (default [] (dp_str v)) in
      PropStr max_len (if match x with None => true | Some _ => bool_decide (cur_len < len) end
                       then len else cur_len) (dp_str v)
  | PropEnum cnt pp_enum _ => PropEnum cnt pp_enum (dp_enum v)
  | PropBitmap max_len _ => PropBitmap max_len (dp_bitmap v)
  end.

Lemma with_value_unchanged p v : changed (with_value p v) v = false.
Proof. destruct p; cbn; by rewrite bool_decide_true. Qed.

Section report.
Context (num : Z).

(** A report of objects contains the value. *)
Definition sends (flags : Z) (pre : bool) (dp : dp_obj_t) (n : dp_node_t) : bool :=
  bool_decide (dp_type_check num T_OBJ_REPT dp n = Some true) &&
  negb (pre && bool_decide (d_passive (desc n) = PSV_TRUE)) &&
  (forced T_OBJ_REPT n flags || changed (prop n) (dp_val dp)).

Definition sent (flags : Z) (pre : bool) (ns : list dp_node_t) (dp : dp_obj_t) : bool :=
  match dp_node_find ns (dp_id dp) with Some (_, n) => sends flags pre dp n | None => false end.

Definition sent_node (dp : dp_obj_t) (n : dp_node_t) : dp_node_t :=
  Node (desc n) (with_value (prop n) (dp_val dp)) PV_STAT_LOCAL (time_stamp n).

(** The type code and, for a string, the pointer are right. *)
Definition dp_fits (dp : dp_obj_t) (n : dp_node_t) : Prop :=
  dp_type dp = prop_tp (prop n) /\ (dp_type dp = PROP_STR -> is_Some (dp_str (dp_val dp))).

Definition dp_wf (ns : list dp_node_t) (dp : dp_obj_t) : Prop :=
  match dp_node_find ns (dp_id dp) with Some (_, n) => dp_fits dp n | None => True end.

(** The room for the entry of a value. *)
Definition share (dp : dp_obj_t) (n : dp_node_t) : Z :=
  match prop n with
  | PropStr _ _ _ => 2 * zlen (default [] (dp_str (dp_val dp))) + 15
  | PropEnum _ pp_enum _ => zlen (default [] (zget pp_enum (dp_enum (dp_val dp)))) + 15
  | _ => 20
  end.

Lemma type_check_obj dp n :
  dp_type_check num T_OBJ_REPT dp n = Some true -> d_type (desc n) = T_OBJ.
Proof.
  unfold dp_type_check. destruct (decide (d_type (desc n) = T_OBJ)) as [|Hne]; [done|].
  rewrite (bool_decide_true (_ <> T_OBJ)) by done.
  rewrite (bool_decide_true (T_OBJ_REPT = T_OBJ_REPT)) by done.
  rewrite orb_true_r. done.
Qed.

Lemma type_check_defined dp n : dp_fits dp n -> is_Some (dp_type_check num T_OBJ_REPT dp n).
Proof.
  intros [Ht Hs]. unfold dp_type_check. destruct (_ || _ || _); [by eexists|].
  case_bool_decide; [|by eexists].
  destruct (prop n) as [| |ml cl x| |]; try (by eexists).
  destruct (Hs Ht) as [s ->]. by eexists.
Qed.

(** One step of the check, when allocations succeed. *)
Lemma rept_update_eq dp n flags :
  dp_fits dp n -> dp_type_check num T_OBJ_REPT dp n = Some true ->
  dp_rept_update T_OBJ_REPT dp n flags true =
    if forced T_OBJ_REPT n flags || changed (prop n) (dp_val dp)
    then Some (false, sent_node dp n) else Some (true, n).
Proof.
  intros [Ht Hs] Hc. pose proof (type_check_obj _ _ Hc) as Hobj. unfold dp_rept_update.
  rewrite (bool_decide_true (d_type (desc n) = T_OBJ)) by done.
  unfold str_time. rewrite (bool_decide_false (T_OBJ_REPT = T_STAT_REPT)) by done.
  assert (Hup : update_prop T_OBJ_REPT (dp_val dp) (prop n) (forced T_OBJ_REPT n flags) true =
    if forced T_OBJ_REPT n flags || changed (prop n) (dp_val dp)
    then Some (true, with_value (prop n) (dp_val dp)) else Some (false, prop n)).
  { destruct n as [d p st ts]. unfold dp_type_check in Hc. cbn [desc prop] in *.
    destruct (bool_decide (d_mode d = M_WR) || _ || _); [done|].
    rewrite bool_decide_true in Hc by done.
    destruct p as [v|min max sc v|ml cl v|cnt names v|ml v]; cbn [update_prop changed with_value] in *.
    - destruct (forced _ _ _ || _) eqn:Hf; done.
    - destruct (forced _ _ _ || _) eqn:Hf; done.
    - destruct (Hs Ht) as [s Hds]. rewrite Hds in *. destruct v as [x|]; cbn [mbind option_bind].
      + destruct (decide (x = s)) as [->|Hne].
        * rewrite !(bool_decide_true (_ = _)) by done. cbn [negb]. rewrite orb_false_r.
          destruct (forced _ _ _); [|done]. change (default [] (Some s)) with s. by case_bool_decide.
        * rewrite !(bool_decide_false (_ = _)) by congruence. cbn [negb]. rewrite orb_true_r.
          change (default [] (Some s)) with s. by case_bool_decide.
      + rewrite !orb_true_r. done.
    - injection Hc as Hc. apply negb_true_iff, bool_decide_eq_false in Hc.
      rewrite bool_decide_false by done. destruct (forced _ _ _ || _) eqn:Hf; done.
    - destruct (forced _ _ _ || _) eqn:Hf; done. }
  rewrite Hup. destruct (forced _ _ _ || _); cbn [mbind option_bind fst snd].
  - unfold sent_node. cbn [desc prop]. do 3 f_equal. by destruct (prop n).
  - do 2 f_equal. destruct n as [d p st ts]. cbn. by destruct p.
Qed.

Definition sent_list (flags : Z) (pre : bool) (ns : list dp_node_t) (l : list dp_obj_t)
    : list dp_obj_t := filter (fun dp => sent flags pre ns dp = true) l.

Definition share_of (ns : list dp_node_t) (dp : dp_obj_t) : Z :=
  match dp_node_find ns (dp_id dp) with Some (_, n) => share dp n | None => 0 end.

(** The room for all entries, as the code adds it up. *)
Definition room (ns : list dp_node_t) (l : list dp_obj_t) (len : Z) : Z :=
  foldl (fun len dp => u16 (len + share_of ns dp)) len l.

(** The node of a data point after a report. *)
Definition after (flags : Z) (pre : bool) (ns : list dp_node_t) (l : list dp_obj_t) (id : Z)
    : option (nat * dp_node_t) :=
  match dp_node_find ns id with
  | Some (i, n) =>
      match list_find (fun dp => dp_id dp = id) l with
      | Some (_, dp) => Some (i, if sends flags pre dp n then sent_node dp n else n)
      | None => Some (i, n)
      end
  | None => None
  end.

Lemma entry_len_ok dp n len :
  dp_fits dp n -> value_ok (prop n) -> dp_type_check num T_OBJ_REPT dp n = Some true ->
  entry_len dp (sent_node dp n) len = Some (inl (u16 (len + share dp n))).
Proof.
  intros [Ht Hs] Hv Hc. pose proof (type_check_obj _ _ Hc) as Hobj.
  unfold entry_len, share, sent_node, dp_type_check in *. rewrite Ht in *.
  rewrite (bool_decide_true (d_type (desc n) = T_OBJ)) in Hc by done.
  destruct (bool_decide (d_mode (desc n) = M_WR) || _ || _); [done|].
  destruct (prop n) as [v|min max sc v|ml cl v|cnt names v|ml v]; try done.
  - destruct (Hs eq_refl) as [s ->]. done.
  - injection Hc as Hc. apply negb_true_iff in Hc. cbn [with_value prop prop_tp].
    rewrite Hc. apply bool_decide_eq_false in Hc. cbn [value_ok] in Hv.
    assert (0 <= dp_enum (dp_val dp)) by apply (wrap_range 32 _ ltac:(lia)).
    rewrite (zget_default [] names) by lia. done.
Qed.

Lemma filter_none (f : dp_obj_t -> bool) l :
  Forall (fun dp => f dp = false) l -> filter (fun dp => f dp = true) l = [].
Proof. induction 1 as [|dp l Hf _ IH]; [done|]. rewrite filter_cons_False; [done|congruence]. Qed.

Lemma sent_list_ext flags pre ns ns' l :
  (forall dp, dp ∈ l -> dp_node_find ns' (dp_id dp) = dp_node_find ns (dp_id dp)) ->
  sent_list flags pre ns' l = sent_list flags pre ns l.
Proof.
  unfold sent_list. induction l as [|dp l IH]; intros He; [done|]. rewrite !filter_cons.
  rewrite IH by (intros d Hd; apply He; rewrite elem_of_cons; by right).
  assert (Hdp : sent flags pre ns' dp = sent flags pre ns dp).
  { unfold sent. by rewrite (He dp) by (rewrite elem_of_cons; by left). }
  by rewrite Hdp.
Qed.

Lemma room_ext ns ns' l : forall len,
  (forall dp, dp ∈ l -> dp_node_find ns' (dp_id dp) = dp_node_find ns (dp_id dp)) ->
  room ns' l len = room ns l len.
Proof.
  unfold room. induction l as [|dp l IH]; intros len He; [done|]. cbn [foldl].
  rewrite IH by (intros d Hd; apply He; rewrite elem_of_cons; by right).
  assert (Hdp : share_of ns' dp = share_of ns dp).
  { unfold share_of. by rewrite (He dp) by (rewrite elem_of_cons; by left). }
  by rewrite Hdp.
Qed.

Lemma sends_check flags pre dp n :
  sends flags pre dp n = true -> dp_type_check num T_OBJ_REPT dp n = Some true.
Proof. unfold sends. intros ((H & _)%andb_true_iff & _)%andb_true_iff. by apply bool_decide_eq_true in H. Qed.

Lemma sent_node_ok dp n flags :
  dp_fits dp n -> dp_type_check num T_OBJ_REPT dp n = Some true -> node_ok n ->
  forced T_OBJ_REPT n flags || changed (prop n) (dp_val dp) = true -> node_ok (sent_node dp n).
Proof.
  intros Hf Hc Hn Hs. pose proof (rept_update_eq dp n flags Hf Hc) as Hu. rewrite Hs in Hu.
  by apply (dp_rept_update_ok num _ _ _ _ _ _ Hc Hn) in Hu as [Hu _].
Qed.

(** The step of the loop for one data point. *)
Lemma valid_step flags pre dp l k ns out i n :
  dp_node_find ns (dp_id dp) = Some (i, n) -> dp_fits dp n -> node_ok n ->
  valid_loop num T_OBJ_REPT flags pre (dp :: l) (fun _ => true) k ns out =
    if sends flags pre dp n then
      valid_loop num T_OBJ_REPT flags pre l (fun _ => true) (S k) (<[i := sent_node dp n]> ns)
        (Valid (u16 (v_len out + share dp n))
               (if bool_decide (dp_time dp <> 0) then u16 (v_timelen out + 30) else v_timelen out)
               (v_dpid out ++ [dp_id dp]))
    else valid_loop num T_OBJ_REPT flags pre l (fun _ => true) (S k) ns out.
Proof.
  intros Hf Hfit Hn. cbn [valid_loop]. rewrite Hf. pose proof (find_Some _ _ _ _ Hf) as [Hi _].
  rewrite (bool_decide_false (dp_type dp <> _)) by (intros Hx; by apply Hx, Hfit).
  rewrite (bool_decide_true (T_OBJ_REPT <> T_RE_TRANS_REPT)) by done.
  destruct (type_check_defined dp n Hfit) as [ok Hok]. unfold sends. rewrite Hok.
  cbn [mbind option_bind]. destruct ok; cbn [negb]; [|by rewrite (bool_decide_false (Some false = Some true)) by done].
  rewrite (bool_decide_true (Some true = Some true)) by done. cbn [andb].
  destruct (pre && _); [done|]. cbn [negb andb]. rewrite (rept_update_eq dp n flags Hfit Hok).
  destruct (forced _ _ _ || _) eqn:Hs; cbn [mbind option_bind fst snd].
  - rewrite list_lookup_insert_eq by (by eapply lookup_lt_Some). cbn [mbind option_bind].
    rewrite (entry_len_ok dp n _ Hfit (proj1 Hn) Hok). done.
  - by rewrite list_insert_id.
Qed.

Lemma valid_loop_exact flags pre l : forall k ns out,
  Forall node_ok ns -> NoDup (dp_id <$> l) -> Forall (dp_wf ns) l ->
  exists ns' tl,
    valid_loop num T_OBJ_REPT flags pre l (fun _ => true) k ns out =
      Some (OPRT_OK, ns', Valid (room ns (sent_list flags pre ns l) (v_len out)) tl
                                (v_dpid out ++ (dp_id <$> sent_list flags pre ns l))) /\
    forall id, dp_node_find ns' id = after flags pre ns l id.
Proof.
  induction l as [|dp l IH]; intros k ns out Hns Hnd Hwf.
  { exists ns, (v_timelen out). cbn. rewrite app_nil_r. split; [by destruct out|].
    intros id. unfold after. destruct (dp_node_find ns id) as [[i n]|]; done. }
  inversion Hnd as [|? ? Hnot Hnd']; subst. inversion Hwf as [|? ? Hdp Hwf']; subst.
  assert (Hid : forall d, d ∈ l -> dp_id d <> dp_id dp).
  { intros d Hd He. apply Hnot. rewrite <- He. by apply list_elem_of_fmap_2. }
  assert (Hskip : (forall i n, dp_node_find ns (dp_id dp) = Some (i, n) ->
      sends flags pre dp n = false) ->
    sent_list flags pre ns (dp :: l) = sent_list flags pre ns l /\
    forall id, after flags pre ns (dp :: l) id = after flags pre ns l id).
  { intros Hno. split.
    - unfold sent_list. rewrite filter_cons_False; [done|]. unfold sent.
      destruct (dp_node_find ns (dp_id dp)) as [[i n]|]; [|done]. by rewrite (Hno i n).
    - intros id. unfold after. destruct (dp_node_find ns id) as [[i n]|] eqn:Hf; [|done].
      cbn [list_find]. destruct (decide (dp_id dp = id)) as [<-|Hne].
      + rewrite (Hno i n) by done. destruct (list_find _ l) as [[j d]|] eqn:Hl; [|done].
        apply list_find_Some in Hl as (Hj & Heq & _). apply list_elem_of_lookup_2 in Hj.
        by destruct (Hid d Hj).
      + by destruct (list_find _ l) as [[j d]|]. }
  unfold dp_wf in Hdp. destruct (dp_node_find ns (dp_id dp)) as [[i n]|] eqn:Hf.
  2: { destruct (Hskip ltac:(done)) as [-> Haft]. destruct (IH (S k) ns out Hns Hnd' Hwf')
         as (ns' & tl & He & Hfind). exists ns', tl. cbn [valid_loop]. rewrite Hf.
       split; [done|]. intros id. by rewrite Haft. }
  pose proof (find_Some _ _ _ _ Hf) as [Hi Hidn]. pose proof (Forall_lookup_1 _ _ _ _ Hns Hi) as Hn.
  rewrite (valid_step flags pre dp l k ns out i n Hf Hdp Hn).
  destruct (sends flags pre dp n) eqn:Hs.
  2: { destruct (Hskip ltac:(by intros ? ? [= <- <-])) as [-> Haft].
       destruct (IH (S k) ns out Hns Hnd' Hwf') as (ns' & tl & He & Hfind). exists ns', tl.
       split; [done|]. intros id. by rewrite Haft. }
  clear Hskip. pose proof (sends_check _ _ _ _ Hs) as Hc.
  assert (Hn' : node_ok (sent_node dp n)).
  { apply (sent_node_ok dp n flags Hdp Hc Hn). unfold sends in Hs.
    by apply andb_true_iff in Hs as [_ Hs]. }
  assert (Hother : forall id, id <> dp_id dp ->
    dp_node_find (<[i := sent_node dp n]> ns) id = dp_node_find ns id).
  { intros id Hne. apply (find_insert_ne ns id i n); [done|done|congruence]. }
  assert (Hext : forall d, d ∈ l ->
    dp_node_find (<[i := sent_node dp n]> ns) (dp_id d) = dp_node_find ns (dp_id d)).
  { intros d Hd. by apply Hother, Hid. }
  destruct (IH (S k) (<[i := sent_node dp n]> ns)
    (Valid (u16 (v_len out + share dp n))
       (if bool_decide (dp_time dp <> 0) then u16 (v_timelen out + 30) else v_timelen out)
       (v_dpid out ++ [dp_id dp])))
    as (ns' & tl & He & Hfind); [by eapply node_insert_ok|done| |].
  { rewrite Forall_forall in *. intros d Hd. unfold dp_wf. rewrite Hext by done. by apply Hwf'. }
  exists ns', tl. cbn [v_len v_dpid] in He. split.
  - rewrite He, (sent_list_ext _ _ ns _ l Hext). rewrite (room_ext ns).
    2: { intros d Hd. apply Hext. unfold sent_list in Hd. by apply list_elem_of_filter in Hd as [_ Hd]. }
    unfold sent_list. rewrite filter_cons_True by (unfold sent; by rewrite Hf).
    cbn [fmap list_fmap room foldl]. unfold share_of at 2. rewrite Hf, <- app_assoc. done.
  - intros id. rewrite Hfind. unfold after. cbn [list_find].
    destruct (decide (dp_id dp = id)) as [<-|Hne].
    + rewrite (find_insert_eq ns _ i n _ Hf) by done. rewrite Hf, Hs.
      destruct (list_find _ l) as [[j d]|] eqn:Hl; [|done].
      apply list_find_Some in Hl as (Hj & Heq & _). apply list_elem_of_lookup_2 in Hj.
      by destruct (Hid d Hj).
    + rewrite Hother by done. destruct (dp_node_find ns id) as [[j m]|]; [|done].
      by destruct (list_find _ l) as [[x d]|].
Qed.

Lemma valid_check_exact s flags l :
  Forall node_ok (nodes s) -> NoDup (dp_id <$> l) -> Forall (dp_wf (nodes s)) l ->
  exists ns' tl,
    dp_rept_valid_check num s (ReptIn T_OBJ_REPT flags l) (fun _ => true) (Valid 0 0 []) =
      Some (if bool_decide (sent_list flags (preprocess s) (nodes s) l = [])
            then OPRT_SVC_DP_ID_NOT_FOUND else OPRT_OK,
            Schema (devid s) (preprocess s) ns',
            Valid (room (nodes s) (sent_list flags (preprocess s) (nodes s) l) 0) tl
                  (dp_id <$> sent_list flags (preprocess s) (nodes s) l)) /\
    (forall id, dp_node_find ns' id = after flags (preprocess s) (nodes s) l id) /\
    Forall node_ok ns' /\ node_shape <$> ns' = node_shape <$> nodes s.
Proof.
  intros Hns Hnd Hwf.
  destruct (valid_loop_exact flags (preprocess s) l 0 (nodes s) (Valid 0 0 []) Hns Hnd Hwf)
    as (ns' & tl & He & Hf). exists ns', tl. unfold dp_rept_valid_check.
  cbn [rept_type rept_flags dps]. rewrite He. cbn [mbind option_bind v_dpid v_len app].
  rewrite bool_decide_false by (intros Hx; by apply Hx).
  apply valid_loop_ok in He as [Hok Hsh]; [|done]. split; [|by split].
  set (L := sent_list flags (preprocess s) (nodes s) l). destruct L as [|d L]; [done|].
  rewrite bool_decide_false; [by rewrite bool_decide_false|].
  cbn [fmap list_fmap]. rewrite zlen_cons. pose proof (zlen_nonneg (dp_id <$> L)). lia.
Qed.


(** ** Acknowledgement *)

Lemma sync_find ids : forall ns id,
  Forall (in_u 8) ids ->
  dp_node_find (dp_sync_ok ns ids) id =
    match dp_node_find ns id with
    | Some (i, n) => Some (i, if bool_decide (id ∈ ids) then set_stat n PV_STAT_CLOUD else n)
    | None => None
    end.
Proof.
  unfold dp_sync_ok. induction ids as [|a ids IH]; intros ns id Hids; cbn [foldl].
  { destruct (dp_node_find ns id) as [[i n]|]; [|done].
    rewrite bool_decide_false; [done|apply not_elem_of_nil]. }
  inversion Hids as [|? ? Ha Hids']; subst. rewrite IH by done.
  unfold dp_pv_stat_set at 1. rewrite (wrap_small 8 a Ha).
  destruct (dp_node_find ns a) as [[j m]|] eqn:Hfa.
  - pose proof (find_Some _ _ _ _ Hfa) as [Hj Hm]. destruct (decide (a = id)) as [->|Hne].
    + rewrite (find_insert_eq ns id j m _ Hfa) by done. rewrite Hfa.
      rewrite (bool_decide_true (id ∈ id :: ids)) by (rewrite elem_of_cons; by left).
      by case_bool_decide.
    + rewrite (find_insert_ne ns id j m) by (done || congruence).
      destruct (dp_node_find ns id) as [[i n]|]; [|done]. do 2 f_equal.
      rewrite (bool_decide_ext (id ∈ a :: ids) (id ∈ ids)); [done|].
      rewrite elem_of_cons. naive_solver.
  - destruct (dp_node_find ns id) as [[i n]|] eqn:Hfi; [|done]. do 2 f_equal.
    rewrite (bool_decide_ext (id ∈ a :: ids) (id ∈ ids)); [done|].
    rewrite elem_of_cons. naive_solver.
Qed.

Lemma shape_find ns ns' id :
  node_shape <$> ns' = node_shape <$> ns ->
  match dp_node_find ns id, dp_node_find ns' id with
  | Some (i, n), Some (j, n') => i = j /\ node_shape n' = node_shape n
  | None, None => True
  | _, _ => False
  end.
Proof.
  revert ns'. unfold dp_node_find. induction ns as [|n ns IH]; intros [|n' ns'] Hs; try done.
  injection Hs as Hd Hp Hs. cbn [list_find]. rewrite Hd. case_decide; [by split; [|unfold node_shape; f_equal]|].
  specialize (IH ns' Hs). destruct (list_find _ ns) as [[i m]|], (list_find _ ns') as [[j m']|];
    cbn; try done. by destruct IH as [-> ?].
Qed.

Lemma dp_wf_shape ns ns' dp : node_shape <$> ns' = node_shape <$> ns -> dp_wf ns dp -> dp_wf ns' dp.
Proof.
  intros Hs. unfold dp_wf. pose proof (shape_find ns ns' (dp_id dp) Hs) as Hf.
  destruct (dp_node_find ns (dp_id dp)) as [[i n]|], (dp_node_find ns' (dp_id dp)) as [[j n']|]; try done.
  destruct Hf as [_ [= _ Hp]]. intros [Ht Hstr]. split; [|done]. rewrite Ht.
  by destruct (prop n), (prop n').
Qed.

(** Once a report was acknowledged, the same report finds nothing to send, unless it is forced
    by its flags or by a data point that is always sent. *)
Theorem report_acknowledged s flags l s1 code out :
  Forall node_ok (nodes s) -> NoDup (dp_id <$> l) -> Forall (dp_wf (nodes s)) l ->
  Forall (fun dp => in_u 8 (dp_id dp)) l -> Z.land DP_REPT_NO_FILTER_FLAG flags = 0 ->
  (forall n, n ∈ nodes s -> d_trig (desc n) <> TRIG_DIRECT) ->
  dp_rept_valid_check num s (ReptIn T_OBJ_REPT flags l) (fun _ => true) (Valid 0 0 []) =
    Some (code, s1, out) ->
  exists s2 out2,
    dp_rept_valid_check num (Schema (devid s) (preprocess s) (dp_sync_ok (nodes s1) (v_dpid out)))
      (ReptIn T_OBJ_REPT flags l) (fun _ => true) (Valid 0 0 []) =
      Some (OPRT_SVC_DP_ID_NOT_FOUND, s2, out2) /\ v_dpid out2 = [].
Proof.
  intros Hns Hnd Hwf Hids Hflags Htrig Hc.
  destruct (valid_check_exact s flags l Hns Hnd Hwf) as (ns' & tl & He & Hf & Hok & Hsh).
  rewrite He in Hc. injection Hc as _ <- <-. cbn [nodes v_dpid].
  set (L := sent_list flags (preprocess s) (nodes s) l) in *.
  destruct (dp_sync_ok_ok (dp_id <$> L) ns' Hok) as [Hok2 Hsh2].
  destruct (valid_check_exact (Schema (devid s) (preprocess s) (dp_sync_ok ns' (dp_id <$> L))) flags l)
    as (ns2 & tl2 & He2 & _); cbn [nodes preprocess devid].
  { done. } { done. }
  { rewrite Forall_forall in *. intros dp Hdp. apply (dp_wf_shape (nodes s)); [by rewrite Hsh2|by apply Hwf]. }
  cbn [nodes preprocess devid] in He2.
  assert (Hnone : sent_list flags (preprocess s) (dp_sync_ok ns' (dp_id <$> L)) l = []).
  { apply filter_none. rewrite Forall_forall in *. intros dp Hdp.
    unfold sent. rewrite sync_find.
    2: { apply Forall_forall. intros a Ha. apply list_elem_of_fmap in Ha as (d & -> & Hd).
         apply Hids. unfold L, sent_list in Hd. by apply list_elem_of_filter in Hd as [_ Hd]. }
    rewrite Hf. unfold after. destruct (dp_node_find (nodes s) (dp_id dp)) as [[i n]|] eqn:Hfn; [|done].
    pose proof (find_Some _ _ _ _ Hfn) as [Hin Hidn].
    destruct (find_self l dp Hnd Hdp) as (j & -> & _).
    assert (HL : dp_id dp ∈ dp_id <$> L <-> sends flags (preprocess s) dp n = true).
    { rewrite list_elem_of_fmap. unfold L, sent_list. split.
      - intros (d & Heq & Hd). apply list_elem_of_filter in Hd as [Hs Hd].
        apply list_elem_of_lookup in Hd as [x Hx], Hdp as [y Hy].
        rewrite (ids_unique l y x d dp Hnd Hy Hx ltac:(done)) in Hx.
        assert (d = dp) as -> by congruence. unfold sent in Hs. by rewrite Hfn in Hs.
      - intros Hs. exists dp. split; [done|]. apply list_elem_of_filter. split; [|done].
        unfold sent. by rewrite Hfn. }
    destruct (sends flags (preprocess s) dp n) eqn:Hs.
    - rewrite bool_decide_true by tauto. unfold sends.
      cbn [set_stat sent_node desc prop pv_stat]. rewrite with_value_unchanged.
      unfold forced. cbn [set_stat sent_node desc prop pv_stat].
      rewrite (bool_decide_false (d_trig _ = _)) by (apply Htrig; by eapply list_elem_of_lookup_2).
      rewrite Hflags. rewrite !andb_false_r. done.
    - rewrite bool_decide_false by (rewrite HL; done). by rewrite Hs. }
  rewrite Hnone in He2. eexists _, _. split; [exact He2|]. done.
Qed.

(** A bitmap is never reported: the check compares its type code with the type code of a JSON
    number, which is another one. *)
Theorem bitmap_never_reported s rt flags dp allocs i n ml v :
  dp_node_find (nodes s) (dp_id dp) = Some (i, n) -> d_type (desc n) = T_OBJ ->
  prop n = PropBitmap ml v -> dp_type dp = PROP_BITMAP -> rt <> T_RE_TRANS_REPT ->
  num <> PROP_BITMAP ->
  dp_rept_valid_check num s (ReptIn rt flags [dp]) allocs (Valid 0 0 []) =
    Some (OPRT_SVC_DP_ID_NOT_FOUND, s, Valid 0 0 []).
Proof.
  intros Hf Ht Hp Hdt Hrt Hnum. unfold dp_rept_valid_check. cbn [rept_type rept_flags dps valid_loop].
  rewrite Hf, Hp. cbn [prop_tp]. rewrite (bool_decide_false (dp_type dp <> _)) by (intros Hx; by apply Hx).
  rewrite (bool_decide_true (rt <> _)) by done.
  assert (Hc : dp_type_check num rt dp n = Some false).
  { unfold dp_type_check. destruct (_ || _ || _); [done|]. rewrite bool_decide_true by done.
    rewrite Hp, bool_decide_false; [done|congruence]. }
  rewrite Hc. cbn. by destruct s.
Qed.

(** ** The text *)

Lemma dec_id_len z : in_u 8 z -> zlen (dec z) <= 3.
Proof.
  intros Hz. unfold in_u in Hz. pose proof (dec_len 3 z ltac:(lia) ltac:(lia)) as Hl.
  rewrite bool_decide_false in Hl by lia. lia.
Qed.

Section text.
Context (print_string : option bytes -> option bytes).

(** Every character of the string takes at most two in JSON. *)
Definition prints (dp : dp_obj_t) : Prop :=
  match dp_str (dp_val dp) with
  | Some x => exists t, print_string (Some x) = Some t /\ zlen t <= 2 * zlen x + 2
  | None => True
  end.

Lemma key_len id : in_u 8 id -> zlen (quote ++ dec id ++ quote ++ c_str ":") <= 6.
Proof.
  intros Hid. pose proof (dec_id_len id Hid). rewrite !zlen_app.
  change (zlen quote) with 1. change (zlen (c_str ":")) with 1. lia.
Qed.

(** The text of an entry leaves two bytes of its room. *)
Lemma entry_text_len dp n :
  dp_fits dp n -> value_ok (prop n) -> dp_type_check num T_OBJ_REPT dp n = Some true ->
  in_u 8 (dp_id dp) -> prints dp ->
  exists t, entry_text print_string dp (sent_node dp n) = Some (Some (t ++ [44])) /\
    zlen (t ++ [44]) + 2 <= share dp n.
Proof.
  intros [Ht Hs] Hv Hc Hid Hpr. pose proof (type_check_obj _ _ Hc) as Hobj. pose proof (key_len _ Hid) as Hk.
  unfold entry_text, share, sent_node, dp_type_check, prints in *. rewrite Ht in *. cbn [prop].
  rewrite (bool_decide_true (d_type (desc n) = T_OBJ)) in Hc by done.
  destruct (bool_decide (d_mode (desc n) = M_WR) || _ || _); [done|].
  set (key := quote ++ dec (dp_id dp) ++ quote ++ c_str ":") in *.
  assert (Hsnoc : forall t, zlen (t ++ [44]) = zlen t + 1) by (intros t; apply zlen_snoc).
  destruct (prop n) as [v|min max sc v|ml cl v|cnt names v|ml v]; cbn [with_value prop_tp] in *.
  - exists (key ++ if bool_decide (dp_bool (dp_val dp) = 1) then c_str "true" else c_str "false").
    split; [rewrite <- app_assoc; by case_bool_decide|]. rewrite Hsnoc, zlen_app.
    assert (zlen (c_str "true") = 4 /\ zlen (c_str "false") = 5) by done. case_bool_decide; lia.
  - exists (key ++ dec (dp_value (dp_val dp))). split; [by rewrite <- app_assoc|].
    rewrite Hsnoc, zlen_app. pose proof (swrap_range 32 (dp_word (dp_val dp)) ltac:(lia)) as Hr.
    unfold in_s in Hr. pose proof (dec_word_len (dp_value (dp_val dp)) ltac:(unfold dp_value; lia)). lia.
  - destruct (Hs eq_refl) as [x Hx]. rewrite Hx in *. destruct Hpr as (t & Hpt & Hl). rewrite Hpt.
    exists (key ++ t). split; [by rewrite <- app_assoc|]. rewrite Hsnoc, zlen_app.
    change (default [] (Some x)) with x. lia.
  - injection Hc as Hc. apply negb_true_iff, bool_decide_eq_false in Hc. cbn [value_ok] in Hv.
    assert (0 <= dp_enum (dp_val dp)) by apply (wrap_range 32 _ ltac:(lia)).
    rewrite (zget_default [] names) by lia. cbn [mbind option_bind].
    set (name := default [] (zget names (dp_enum (dp_val dp)))).
    exists (key ++ quote ++ name ++ quote). split; [by rewrite <- !app_assoc|].
    rewrite Hsnoc, !zlen_app. change (zlen quote) with 1. change (default [] (Some name)) with name. lia.
  - exists (key ++ dec (dp_bitmap (dp_val dp))). split; [by rewrite <- app_assoc|].
    rewrite Hsnoc, zlen_app. pose proof (wrap_range 32 (dp_word (dp_val dp)) ltac:(lia)) as Hr.
    unfold in_u in Hr. pose proof (dec_word_len (dp_bitmap (dp_val dp)) ltac:(unfold dp_bitmap; lia)). lia.
Qed.

Lemma zset_mid {A} (h : list A) x t y i :
  i = zlen h -> zset (h ++ x :: t) i y = Some (h ++ y :: t).
Proof.
  intros ->. unfold zset. pose proof (zlen_nonneg h). pose proof (zlen_nonneg t).
  rewrite bool_decide_true by (rewrite zlen_app, zlen_cons; lia). f_equal.
  rewrite zlen_to_nat. rewrite insert_app_r_alt by lia. by rewrite Nat.sub_diag.
Qed.

Lemma emit_ok h r t :
  zlen t < zlen r -> zlen h + zlen t < 2 ^ 16 ->
  exists r', emit (h ++ r) (zlen h) t = Some ((h ++ t) ++ r', zlen (h ++ t)) /\
    zlen r' = zlen r - zlen t.
Proof.
  intros Hl Hu. pose proof (zlen_nonneg h). pose proof (zlen_nonneg t).
  exists (0 :: drop (Z.to_nat (zlen t + 1)) r). unfold emit, mwrite.
  rewrite bool_decide_true by (rewrite zlen_snoc, zlen_app; lia). ub_step.
  rewrite wrap_small by (unfold in_u; lia). rewrite (zlen_app h t), zlen_snoc. split.
  - do 2 f_equal. rewrite zlen_to_nat, take_app_length, <- !app_assoc. do 2 f_equal.
    cbn [app]. f_equal. rewrite drop_app_ge by (unfold zlen; lia). f_equal. unfold zlen. lia.
  - rewrite zlen_cons, zlen_drop by lia. lia.
Qed.

(** [t]: the text of the entry that the output finds for [dp]. *)
Definition entry_is (l : list dp_obj_t) (ns : list dp_node_t) (dp : dp_obj_t) (t : bytes) : Prop :=
  exists j i m, list_find (fun d => dp_id dp = dp_id d) l = Some (j, dp) /\
    dp_node_find ns (dp_id dp) = Some (i, m) /\ dp_type dp = prop_tp (prop m) /\
    entry_text print_string dp m = Some (Some t).

Lemma output_loop_ok l ns tb toff L ts :
  Forall2 (entry_is l ns) L ts -> forall h r,
  zlen (concat ts) < zlen r -> zlen h + zlen (concat ts) < 2 ^ 16 ->
  exists r', output_loop print_string (dp_id <$> L) l ns false (h ++ r) (zlen h) tb toff =
      Some (inl ((h ++ concat ts) ++ r', zlen (h ++ concat ts), tb, toff)) /\
    zlen r' = zlen r - zlen (concat ts).
Proof.
  induction 1 as [|dp t L ts (j & i & m & Hl & Hf & Ht & He) _ IH]; intros h r Hr Hu.
  { exists r. cbn [fmap list_fmap output_loop concat] in *. rewrite app_nil_r. split; [done|].
    change (zlen (@nil Z)) with 0. lia. }
  cbn [concat] in *. rewrite zlen_app in Hr, Hu. pose proof (zlen_nonneg (concat ts)).
  cbn [fmap list_fmap output_loop]. rewrite Hl, Hf.
  rewrite (bool_decide_false (dp_type dp <> _)) by (intros Hx; by apply Hx). rewrite He.
  cbn [mbind option_bind andb].
  destruct (emit_ok h r t ltac:(lia) ltac:(lia)) as (r1 & -> & Hr1). cbn [mbind option_bind fst snd].
  destruct (IH (h ++ t) r1) as (r2 & -> & Hr2); [lia|rewrite zlen_app; lia|].
  exists r2. rewrite <- (app_assoc h t), zlen_app. split; [done|]. rewrite (zlen_app t). lia.
Qed.

Lemma room_sum ns L : forall len,
  0 <= len -> Forall (fun dp => 0 <= share_of ns dp) L ->
  len + foldr Z.add 0 (share_of ns <$> L) < 2 ^ 16 ->
  room ns L len = len + foldr Z.add 0 (share_of ns <$> L).
Proof.
  unfold room. induction L as [|dp L IH]; intros len H0 Hs Hl; cbn [foldl fmap list_fmap foldr] in *; [lia|].
  inversion Hs as [|? ? Hd Hs']; subst.
  assert (Hnn : forall l, Forall (fun dp => 0 <= share_of ns dp) l ->
    0 <= foldr Z.add 0 (share_of ns <$> l)).
  { clear. induction 1; cbn [fmap list_fmap foldr]; [lia|lia]. }
  pose proof (Hnn L Hs'). change (list_fmap _ _ (share_of ns) L) with (share_of ns <$> L) in *.
  rewrite wrap_small by (unfold in_u; lia). rewrite IH by (done || lia). lia.
Qed.

(** The entries that the output writes are those that the check counted. *)
Lemma sent_entries flags pre ns ns' l :
  Forall node_ok ns -> NoDup (dp_id <$> l) -> Forall (dp_wf ns) l ->
  Forall (fun dp => in_u 8 (dp_id dp) /\ prints dp) l ->
  (forall id, dp_node_find ns' id = after flags pre ns l id) ->
  exists ts, Forall2 (fun dp t => entry_is l ns' dp (t ++ [44]) /\
    zlen (t ++ [44]) + 2 <= share_of ns dp) (sent_list flags pre ns l) ts.
Proof.
  intros Hns Hnd Hwf Hids Hf. apply Forall_exists_Forall2_l. apply Forall_forall.
  intros dp Hdp. unfold sent_list in Hdp. apply list_elem_of_filter in Hdp as [Hs Hdp].
  rewrite Forall_forall in Hids, Hwf. rewrite Forall_forall in Hns. destruct (Hids dp Hdp) as [Hid Hpr].
  pose proof (Hwf dp Hdp) as Hw. unfold sent in Hs. unfold dp_wf in Hw. unfold share_of.
  destruct (dp_node_find ns (dp_id dp)) as [[i n]|] eqn:Hfn; [|done].
  pose proof (find_Some _ _ _ _ Hfn) as [Hi _]. pose proof (sends_check _ _ _ _ Hs) as Hc.
  destruct (entry_text_len dp n Hw) as (t & Ht & Hl);
    [apply Hns; by eapply list_elem_of_lookup_2|done|done|done|].
  exists t. split; [|done]. destruct (find_self l dp Hnd Hdp) as (j & Hj1 & Hj2).
  exists j, i, (sent_node dp n). split; [done|].
  split; [|split; [cbn [sent_node prop]; rewrite (proj1 Hw); by destruct (prop n)|done]].
  rewrite Hf. unfold after. by rewrite Hfn, Hj1, Hs.
Qed.

Lemma entries_text l ns' ns L ts :
  Forall2 (fun dp t => entry_is l ns' dp (t ++ [44]) /\ zlen (t ++ [44]) + 2 <= share_of ns dp) L ts ->
  exists ts', Forall2 (entry_is l ns') L ts' /\ Forall (fun dp => 0 <= share_of ns dp) L /\
    zlen (concat ts') + 2 * zlen L <= foldr Z.add 0 (share_of ns <$> L) /\
    (L <> [] -> exists body, concat ts' = body ++ [44]).
Proof.
  induction 1 as [|dp t L ts [He Hl] _ (ts' & Hts & Hnn & Hsum & Hbody)].
  { exists []. split; [constructor|]. split; [constructor|]. split; [done|]. done. }
  exists ((t ++ [44]) :: ts'). pose proof (zlen_nonneg (t ++ [44])). split; [by constructor|].
  split; [constructor; [lia|done]|]. cbn [concat fmap list_fmap foldr].
  change (list_fmap _ _ (share_of ns) L) with (share_of ns <$> L).
  split; [rewrite zlen_app, zlen_cons; lia|]. intros _. destruct L as [|d L].
  - inversion Hts; subst. exists t. cbn [concat]. by rewrite app_nil_r.
  - destruct (Hbody ltac:(done)) as (body & ->). exists ((t ++ [44]) ++ body).
    by rewrite <- !app_assoc.
Qed.

End text.
End report.

(** ** Limits *)

(** A schema with a boolean, a number from 0 to 100, a string of up to 8 characters, an
    enumeration, a bitmap and raw data. *)
Definition demo_desc (id type : Z) : dp_desc_t := Desc id M_RW PSV_FALSE type TRIG_PULSE DST_NONE ROUTE_DEFAULT.

Definition demo_schema : dp_schema_t :=
  Schema (c_str "dev") false
    [Node (demo_desc 1 T_OBJ) (PropBool 0) PV_STAT_CLOUD 0;
     Node (demo_desc 2 T_OBJ) (PropInt 0 100 0 0) PV_STAT_INVALID 0;
     Node (demo_desc 3 T_OBJ) (PropStr 8 0 None) PV_STAT_INVALID 0;
     Node (demo_desc 4 T_OBJ) (PropEnum 2 [c_str "off"; c_str "on"] 0) PV_STAT_CLOUD 0;
     Node (demo_desc 5 T_OBJ) (PropBitmap 8 0) PV_STAT_INVALID 0;
     Node (demo_desc 6 T_RAW) (PropBool 0) PV_STAT_INVALID 0].

Definition demo_print (s : option bytes) : option bytes :=
  match s with Some s => Some (quote ++ s ++ quote) | None => None end.

Definition demo_report : list dp_obj_t :=
  [Dp 1 PROP_BOOL (Value 0 None) 0; Dp 2 PROP_VALUE (Value 200 None) 0;
   Dp 3 PROP_STR (Value 0 (Some (c_str "hi"))) 0; Dp 4 PROP_ENUM (Value 1 None) 0;
   Dp 9 PROP_BOOL (Value 0 None) 0].

Lemma demo_ok : Forall node_ok (nodes demo_schema).
Proof.
  repeat (apply Forall_cons; split; [split; [by vm_compute; intuition congruence|
    by (by left) || (right; by (by left) || right)]|]). by apply Forall_nil.
Qed.

Lemma demo_report_wf : NoDup (dp_id <$> demo_report) /\ Forall (dp_wf (nodes demo_schema)) demo_report.
Proof.
  split; [by vm_compute; repeat (constructor; [set_solver|]); constructor|].
  repeat (apply Forall_cons; split;
    [first [exact I | split; [done|intros Hx; first [discriminate Hx | by eexists]]]|]).
  by apply Forall_nil.
Qed.

(** The check and the text of a report of objects. *)
Definition report_of (s : dp_schema_t) (l : list dp_obj_t) : option (Z * option bytes) :=
  match dp_rept_valid_check 8 s (ReptIn T_OBJ_REPT 0 l) (fun _ => true) (Valid 0 0 []) with
  | Some (code, s, out) =>
      match dp_rept_json_output demo_print s (ReptIn T_OBJ_REPT 0 l) out
              (Some (replicate (Z.to_nat (v_len out)) 0)) None false with
      | Some (_, Some text, _) => Some (code, Some (c_string text))
      | Some (_, None, _) => Some (code, None)
      | None => None
      end
  | None => None
  end.

Example demo_report_text :
  report_of demo_schema demo_report =
    Some (OPRT_OK, Some (c_str "{" ++ quote ++ c_str "3" ++ quote ++ c_str ":" ++ quote ++ c_str "hi" ++
      quote ++ c_str "," ++ quote ++ c_str "4" ++ quote ++ c_str ":" ++ quote ++ c_str "on" ++ quote ++
      c_str "}")).
Proof. by vm_compute. Qed.

(** If an identifier occurs twice in a report and the first value is rejected, the room is
    counted for the second value and the text is written for the first: it is written past the
    end of its memory. *)
Theorem report_duplicate_overflow :
  dp_rept_valid_check 8 demo_schema
    (ReptIn T_OBJ_REPT 0 [Dp 3 PROP_STR (Value 0 (Some (replicate 20 97))) 0;
                          Dp 3 PROP_STR (Value 0 (Some [98])) 0]) (fun _ => true) (Valid 0 0 [])
    ≫= (fun r => Some (v_len (snd r))) = Some 17 /\
  report_of demo_schema [Dp 3 PROP_STR (Value 0 (Some (replicate 20 97))) 0;
                         Dp 3 PROP_STR (Value 0 (Some [98])) 0] = None.
Proof. by vm_compute. Qed.


Lemma demo_trig n : n ∈ nodes demo_schema -> d_trig (desc n) <> TRIG_DIRECT.
Proof.
  assert (Hall : Forall (fun n => d_trig (desc n) <> TRIG_DIRECT) (nodes demo_schema)).
  { repeat (apply Forall_cons; split; [done|]). by apply Forall_nil. }
  rewrite Forall_forall in Hall. apply Hall.
Qed.

Lemma demo_ids : Forall (fun dp => in_u 8 (dp_id dp)) demo_report.
Proof. repeat (apply Forall_cons; split; [done|]). by apply Forall_nil. Qed.

Lemma report_acknowledged_witness :
  exists s1 code out s2 out2,
    dp_rept_valid_check 8 demo_schema (ReptIn T_OBJ_REPT 0 demo_report) (fun _ => true) (Valid 0 0 []) =
      Some (code, s1, out) /\
    dp_rept_valid_check 8 (Schema (c_str "dev") false (dp_sync_ok (nodes s1) (v_dpid out)))
      (ReptIn T_OBJ_REPT 0 demo_report) (fun _ => true) (Valid 0 0 []) =
      Some (OPRT_SVC_DP_ID_NOT_FOUND, s2, out2).
Proof.
  destruct (dp_rept_valid_check 8 demo_schema (ReptIn T_OBJ_REPT 0 demo_report) (fun _ => true)
    (Valid 0 0 [])) as [[[code s1] out]|] eqn:He; [|vm_compute in He; discriminate].
  destruct (report_acknowledged 8 demo_schema 0 demo_report s1 code out demo_ok
    (proj1 demo_report_wf) (proj2 demo_report_wf) demo_ids eq_refl demo_trig He)
    as (s2 & out2 & H2 & _).
  exists s1, code, out, s2, out2. split; [reflexivity|exact H2].
Defined.

Lemma bitmap_never_reported_witness :
  dp_rept_valid_check 8 demo_schema (ReptIn T_OBJ_REPT 1 [Dp 5 PROP_BITMAP (Value 3 None) 0])
    (fun _ => true) (Valid 0 0 []) = Some (OPRT_SVC_DP_ID_NOT_FOUND, demo_schema, Valid 0 0 []).
Proof.
  apply (bitmap_never_reported 8 demo_schema T_OBJ_REPT 1 (Dp 5 PROP_BITMAP (Value 3 None) 0) (fun _ => true) 4
    (Node (demo_desc 5 T_OBJ) (PropBitmap 8 0) PV_STAT_INVALID 0) 8 0); by vm_compute.
Defined.

