(* ===== verification/DpRecv.v ===== *)
(** * Schemas and commands of data points

    The objects of a schema text are cut out where they are; the values of a command reach the
    application in order; what happens to commands that do not fit the schema. *)
From S2P Require Import Prelude DpSchema DpProps DpReport.

(** ** The objects of a schema *)

Definition no_brace (t : bytes) : Prop := Forall (fun c => c <> 123 /\ c <> 125) t.

(** The braces match; [d]: how many are open. *)
Fixpoint balanced (d : Z) (t : bytes) : Prop :=
  match t with
  | [] => d = 0
  | c :: t =>
      if bool_decide (c = 123) then balanced (d + 1) t
      else if bool_decide (c = 125) then 0 < d /\ balanced (d - 1) t
      else balanced d t
  end.

(** The text with an object [{body}] after each separator. *)
Definition piece (p : bytes * bytes) : bytes := fst p ++ [123] ++ snd p ++ [125].
Definition text_of (ps : list (bytes * bytes)) (tail : bytes) : bytes := concat (map piece ps) ++ tail.

Definition pieces_ok (ps : list (bytes * bytes)) : Prop :=
  Forall (fun p => no_brace (fst p) /\ balanced 0 (snd p)) ps.

(** First and last position of each object. *)
Fixpoint spans (i : Z) (ps : list (bytes * bytes)) : list (Z * Z) :=
  match ps with
  | [] => []
  | (sep, body) :: ps =>
      (i + zlen sep, i + zlen sep + zlen body + 1) :: spans (i + zlen sep + zlen body + 2) ps
  end.

Lemma scan_sep sep rest pos N i n :
  no_brace sep -> pos_loop (sep ++ rest) pos N i 0 n = pos_loop rest pos N (i + zlen sep) 0 n.
Proof.
  intros Hs. revert i. induction Hs as [|c sep [H1 H2] _ IH]; intros i.
  { change (zlen (@nil Z)) with 0. by rewrite Z.add_0_r. }
  cbn [app pos_loop]. rewrite !bool_decide_false by done. rewrite IH, zlen_cons. f_equal. lia.
Qed.

Lemma scan_body body rest pos N n : forall d i,
  balanced d body -> 0 <= d -> n < N ->
  pos_loop (body ++ rest) pos N i (1 + d) n = pos_loop rest pos N (i + zlen body) 1 n.
Proof.
  induction body as [|c body IH]; intros d i Hb Hd Hn; cbn [balanced] in Hb.
  { subst d. change (zlen (@nil Z)) with 0. by rewrite !Z.add_0_r. }
  cbn [app pos_loop]. rewrite zlen_cons. case_bool_decide.
  - rewrite bool_decide_false by lia. ub_step. replace (1 + d + 1) with (1 + (d + 1)) by lia.
    rewrite IH by (done || lia). f_equal. lia.
  - case_bool_decide.
    + destruct Hb as [Hd0 Hb]. rewrite !bool_decide_false by lia.
      replace (1 + d - 1) with (1 + (d - 1)) by lia. rewrite IH by (done || lia). f_equal. lia.
    + rewrite IH by (done || lia). f_equal. lia.
Qed.

Lemma scan_piece p rest pos N i n :
  no_brace (fst p) -> balanced 0 (snd p) -> 0 <= n < N -> zlen pos = N -> 0 <= i ->
  i + zlen (piece p) <= 2 ^ 16 ->
  exists pos', zlen pos' = N /\
    zget pos' n = Some (i + zlen (fst p), i + zlen (fst p) + zlen (snd p) + 1) /\
    (forall j, j <> n -> zget pos' j = zget pos j) /\
    pos_loop (piece p ++ rest) pos N i 0 n =
      if bool_decide (n + 1 >= N) then Some (n + 1, pos')
      else pos_loop rest pos' N (i + zlen (piece p)) 0 (n + 1).
Proof.
  destruct p as [sep body]. cbn [fst snd]. intros Hs Hb Hn Hpos Hi Hlen. unfold piece in *.
  cbn [fst snd] in *. rewrite !zlen_app in Hlen. change (zlen [123]) with 1 in Hlen.
  change (zlen [125]) with 1 in Hlen. pose proof (zlen_nonneg sep). pose proof (zlen_nonneg body).
  rewrite <- !app_assoc, scan_sep by done. cbn [app pos_loop].
  rewrite (bool_decide_true (123 = 123)), (bool_decide_true (0 = 0)) by done.
  destruct (zget_is_Some pos n) as [q Hq]; [lia|]. rewrite Hq. ub_step.
  rewrite (wrap_small 16) by (unfold in_u; lia).
  destruct (zset_is_Some pos n (i + zlen sep, snd q)) as [pos1 Hp1]; [lia|]. rewrite Hp1.
  apply zset_inv in Hp1 as (_ & Hl1 & Hg1 & Ho1).
  replace (0 + 1) with (1 + 0) by lia. rewrite scan_body by (done || lia).
  cbn [pos_loop]. rewrite (bool_decide_false (125 = 123)), (bool_decide_true (125 = 125)) by done.
  rewrite (bool_decide_true (1 - 1 = 0)) by done. rewrite Hg1. ub_step. cbn [fst].
  rewrite (wrap_small 16) by (unfold in_u; lia).
  destruct (zset_is_Some pos1 n (i + zlen sep, i + zlen sep + 1 + zlen body)) as [pos2 Hp2]; [lia|].
  rewrite Hp2. apply zset_inv in Hp2 as (_ & Hl2 & Hg2 & Ho2). exists pos2.
  split; [lia|]. split; [rewrite Hg2; do 2 f_equal; lia|].
  split; [intros j Hj; by rewrite Ho2, Ho1|]. case_bool_decide; [done|].
  replace (1 - 1) with 0 by lia. f_equal. rewrite !zlen_app, zlen_cons, zlen_app.
  change (zlen [125]) with 1. lia.
Qed.

Lemma pos_loop_ok tail N ps : forall pos i n,
  pieces_ok ps -> no_brace tail -> 0 <= n -> n + zlen ps <= N -> (ps = [] -> n < N) -> zlen pos = N -> 0 <= i ->
  i + zlen (text_of ps tail) <= 2 ^ 16 ->
  exists pos', pos_loop (text_of ps tail) pos N i 0 n = Some (n + zlen ps, pos') /\ zlen pos' = N /\
    (forall j, 0 <= j < zlen ps -> zget pos' (n + j) = zget (spans i ps) j) /\
    (forall j, j < n -> zget pos' j = zget pos j).
Proof.
  induction ps as [|[sep body] ps IH]; intros pos i n Hps Htail Hn HN Hnil Hpos Hi Hlen.
  - exists pos. unfold text_of. cbn [map concat app].
    replace tail with (tail ++ []) by apply app_nil_r. rewrite scan_sep by done. cbn [pos_loop].
    change (zlen (@nil (bytes * bytes))) with 0. rewrite Z.add_0_r. split; [done|]. split; [done|].
    split; [lia|done].
  - inversion Hps as [|? ? [Hs Hb] Hps']; subst. rewrite zlen_cons in HN. pose proof (zlen_nonneg ps).
    unfold text_of in *. cbn [map concat] in *. rewrite <- app_assoc in *. rewrite zlen_app in Hlen.
    pose proof (zlen_nonneg (concat (map piece ps) ++ tail)) as Hrest. cbn [fst snd] in *.
    destruct (scan_piece (sep, body) (concat (map piece ps) ++ tail) pos (zlen pos) i n Hs Hb ltac:(lia) eq_refl Hi
      ltac:(lia)) as (pos1 & Hl1 & Hg1 & Ho1 & He). cbn [fst snd] in Hg1. rewrite He. clear He.
    assert (Hplen : zlen (piece (sep, body)) = zlen sep + zlen body + 2).
    { unfold piece. cbn [fst snd]. rewrite !zlen_app. change (zlen [123]) with 1.
      change (zlen [125]) with 1. lia. }
    pose proof (zlen_nonneg sep). pose proof (zlen_nonneg body).
    case_bool_decide as Hfull.
    + destruct ps as [|p ps]; [|rewrite zlen_cons in *; pose proof (zlen_nonneg ps); lia].
      exists pos1. change (zlen [(sep, body)]) with 1. split; [done|]. split; [done|].
      split; [|intros j Hj; apply Ho1; lia]. intros j Hj. replace j with 0 by lia.
      by rewrite Z.add_0_r.
    + destruct (IH pos1 (i + zlen (piece (sep, body))) (n + 1)) as (pos2 & -> & Hl2 & Hg2 & Ho2);
        [done|done|lia|lia|lia|done|lia|lia|].
      exists pos2. rewrite zlen_cons. split; [do 2 f_equal; lia|]. split; [lia|]. split.
      * intros j Hj. cbn [spans]. destruct (decide (j = 0)) as [->|Hj0].
        -- rewrite Z.add_0_r, Ho2 by lia. by rewrite Hg1.
        -- rewrite zget_cons_pos by lia. replace (n + j) with (n + 1 + (j - 1)) by lia.
           rewrite Hg2 by lia. do 2 f_equal. lia.
      * intros j Hj. rewrite Ho2 by lia. apply Ho1. lia.
Qed.

Lemma spans_cut ps tail : forall before j p,
  zget (spans (zlen before) ps) j = Some p ->
  exists q, zget ps j = Some q /\
    mread (before ++ text_of ps tail) (fst p) (snd p - fst p + 1) = Some ([123] ++ snd q ++ [125]).
Proof.
  induction ps as [|[sep body] ps IH]; intros before j p Hp; cbn [spans] in Hp.
  { apply zget_inv in Hp. change (zlen (@nil (Z * Z))) with 0 in Hp. lia. }
  pose proof (zlen_nonneg before). pose proof (zlen_nonneg sep). pose proof (zlen_nonneg body).
  destruct (decide (j = 0)) as [->|Hj].
  - injection Hp as <-. exists (sep, body). split; [done|]. cbn [fst snd].
    unfold text_of. cbn [map concat]. unfold piece at 1. cbn [fst snd].
    replace (before ++ ((sep ++ [123] ++ body ++ [125]) ++ concat (map piece ps)) ++ tail)
      with ((before ++ sep) ++ ([123] ++ body ++ [125]) ++ (concat (map piece ps) ++ tail))
      by (by rewrite <- !app_assoc).
    set (o := [123] ++ body ++ [125]). set (r := concat (map piece ps) ++ tail).
    assert (Ho : zlen o = zlen body + 2).
    { unfold o. rewrite !zlen_app. change (zlen [123]) with 1. change (zlen [125]) with 1. lia. }
    pose proof (zlen_nonneg r). rewrite mread_Some by (rewrite ?zlen_app; lia). f_equal.
    rewrite drop_app_ge by (rewrite length_app; unfold zlen; lia).
    replace (Z.to_nat (zlen before + zlen sep) - length (before ++ sep))%nat with 0%nat
      by (rewrite length_app; unfold zlen; lia).
    rewrite drop_0, take_app_le by (unfold zlen in *; lia). apply take_ge. unfold zlen in *. lia.
  - pose proof (zget_inv _ _ _ Hp) as Hr. rewrite zget_cons_pos in Hp by lia.
    destruct (IH (before ++ piece (sep, body)) (j - 1) p) as (q & Hq & Hm).
    { rewrite zlen_app. unfold piece. cbn [fst snd]. rewrite !zlen_app. change (zlen [123]) with 1.
      change (zlen [125]) with 1. rewrite <- Hp. f_equal. f_equal. lia. }
    exists q. split; [by rewrite zget_cons_pos by lia|]. rewrite <- Hm. f_equal.
    unfold text_of. cbn [map concat]. by rewrite <- !app_assoc.
Qed.

(** In a text of up to 65536 characters with at most [N] objects whose braces match, every
    object is found, in order, and cut out exactly from brace to brace. *)
Theorem dp_node_pos_decode_ok ps tail pos N :
  pieces_ok ps -> no_brace tail -> zlen ps <= N -> 0 < N -> zlen pos = N ->
  zlen (text_of ps tail) <= 2 ^ 16 ->
  exists pos', dp_node_pos_decode (Some (text_of ps tail)) pos N = Some (zlen ps, pos') /\
    forall j q, zget ps j = Some q -> exists p, zget pos' j = Some p /\
      mread (text_of ps tail) (fst p) (snd p - fst p + 1) = Some ([123] ++ snd q ++ [125]).
Proof.
  intros Hps Ht HN H0 Hpos Hlen. cbn [dp_node_pos_decode].
  destruct (pos_loop_ok tail N ps pos 0 0 Hps Ht) as (pos' & -> & Hl & Hg & _); [lia|lia|done|done|lia|lia|].
  exists pos'. split; [done|]. intros j q Hq. pose proof (zget_inv _ _ _ Hq) as Hj.
  assert (Hsl : forall i, zlen (spans i ps) = zlen ps).
  { clear. induction ps as [|[sep body] ps IH]; intros i; [done|]. cbn [spans]. by rewrite !zlen_cons, IH. }
  destruct (zget_is_Some (spans 0 ps) j) as [p Hp]; [by rewrite Hsl|].
  exists p. split; [by rewrite <- Hp, <- (Hg j Hj)|].
  destruct (spans_cut ps tail [] j p Hp) as (q' & Hq' & Hm). by rewrite Hq in Hq'; injection Hq' as <-.
Qed.

(** ** Commands *)

Section json.
Context {cJSON : Type}.
Context (cJSON_GetObjectItem : cJSON -> bytes -> option cJSON).
Context (item_type valueint : cJSON -> Z) (valuestring item_name : cJSON -> option bytes).
Context (item_child : cJSON -> list cJSON).
Context (cJSON_String cJSON_Number cJSON_True : Z) (cJSON_IsBool : cJSON -> bool).
Context (base64_decode : bytes -> bytes).

#[local] Abbreviation item_value := (item_value item_type valueint valuestring cJSON_String cJSON_Number
  cJSON_True cJSON_IsBool).
#[local] Abbreviation count_loop := (count_loop item_name).
#[local] Abbreviation recv_loop := (recv_loop item_type valueint valuestring item_name cJSON_String
  cJSON_Number cJSON_True cJSON_IsBool base64_decode).
#[local] Abbreviation dp_data_recv_parse := (dp_data_recv_parse cJSON_GetObjectItem item_type valueint
  valuestring item_name item_child cJSON_String cJSON_Number cJSON_True cJSON_IsBool base64_decode).

(** The data point that an item names. *)
Definition item_node (ns : list dp_node_t) (item : cJSON) : option (nat * dp_node_t) :=
  name ← item_name item; dp_node_find ns (atoi name).

(** The items that the code can handle: they have a name; the data point is unknown, raw with a
    string, or an object for whose property the item can be read. *)
Definition item_fits (ns : list dp_node_t) (item : cJSON) : Prop :=
  is_Some (item_name item) /\
  match item_node ns item with
  | None => True
  | Some (_, n) =>
      d_type (desc n) = T_RAW /\ item_type item = cJSON_String /\ is_Some (valuestring item) \/
      d_type (desc n) = T_OBJ /\ is_Some (item_value item (prop n) (Value 0 None))
  end.

(** What an item delivers. *)
Definition item_raw (ns : list dp_node_t) (item : cJSON) : option dp_event :=
  '(_, n) ← item_node ns item;
  if bool_decide (d_type (desc n) = T_RAW) then
    v ← valuestring item;
    Some (RecvRaw (d_id (desc n)) (u16 (zlen (base64_decode v))) (base64_decode v))
  else None.

Definition item_obj (now : Z) (ns : list dp_node_t) (item : cJSON) : option dp_obj_t :=
  '(_, n) ← item_node ns item;
  if bool_decide (d_type (desc n) = T_OBJ) then
    v ← item_value item (prop n) (Value 0 None);
    v ← v;
    Some (Dp (d_id (desc n)) (prop_tp (prop n)) v now)
  else None.

Definition is_obj (ns : list dp_node_t) (item : cJSON) : bool :=
  match item_node ns item with
  | Some (_, n) => bool_decide (d_type (desc n) = T_OBJ)
  | None => false
  end.

(** The objects of a command are marked as known here and not yet in the cloud. *)
Definition mark (ns : list dp_node_t) (item : cJSON) : list dp_node_t :=
  match item_node ns item with
  | Some (x, n) => if bool_decide (d_type (desc n) = T_OBJ) then <[x := set_stat n PV_STAT_LOCAL]> ns else ns
  | None => ns
  end.

Definition raws (ns : list dp_node_t) (items : list cJSON) : list dp_event := omap (item_raw ns) items.
Definition objs (now : Z) (ns : list dp_node_t) (items : list cJSON) : list dp_obj_t :=
  omap (item_obj now ns) items.
Definition obj_count (ns : list dp_node_t) (items : list cJSON) : nat :=
  length (List.filter (is_obj ns) items).
Definition zeros (n : nat) : list dp_obj_t := replicate n (Dp 0 0 (Value 0 None) 0).

Lemma obj_count_cons ns item items :
  obj_count ns (item :: items) = if is_obj ns item then S (obj_count ns items) else obj_count ns items.
Proof. unfold obj_count. cbn [List.filter]. by destruct (is_obj ns item). Qed.

Lemma count_loop_exact pre ns items : forall cnt,
  Forall (fun n => d_passive (desc n) <> PSV_TRUE) ns ->
  Forall (fun item => is_Some (item_name item)) items -> 0 <= cnt ->
  cnt + Z.of_nat (obj_count ns items) < 2 ^ 16 ->
  count_loop items pre ns cnt = Some (ns, cnt + Z.of_nat (obj_count ns items)).
Proof.
  induction items as [|item items IH]; intros cnt Hps Hit Hcnt Hb; cbn [DpSchema.count_loop].
  { by rewrite Z.add_0_r. }
  inversion Hit as [|? ? [name Hname] Hit']; subst. rewrite Hname. cbn [mbind option_bind].
  assert (Hn : item_node ns item = dp_node_find ns (atoi name)).
  { unfold item_node. by rewrite Hname. }
  rewrite obj_count_cons in *. unfold is_obj in *. rewrite Hn in *. destruct (dp_node_find ns (atoi name)) as [[i n]|] eqn:Hf; [|by apply IH].
  apply find_Some in Hf as [Hi _]. pose proof (Forall_lookup_1 _ _ _ _ Hps Hi) as Hp.
  rewrite (bool_decide_false (d_passive (desc n) = PSV_TRUE)) by done. rewrite andb_false_r.
  case_bool_decide; [|by apply IH].
  rewrite (wrap_small 16) by (unfold in_u; lia). rewrite IH by (done || lia). do 2 f_equal. lia.
Qed.

(** Only the shape of the data points matters. *)
Lemma item_value_shape item p p' old : prop_shape p' = prop_shape p -> item_value item p' old = item_value item p old.
Proof. by destruct p, p'; intros [=]; subst. Qed.

Lemma item_node_shape ns ns' item :
  node_shape <$> ns' = node_shape <$> ns ->
  match item_node ns item, item_node ns' item with
  | Some (i, n), Some (j, n') => i = j /\ node_shape n' = node_shape n
  | None, None => True
  | _, _ => False
  end.
Proof.
  intros Hs. unfold item_node. destruct (item_name item) as [name|]; [|done]. by apply shape_find.
Qed.

Lemma mark_shape ns ns' item :
  node_shape <$> ns' = node_shape <$> ns -> node_shape <$> mark ns' item = node_shape <$> ns.
Proof.
  intros Hs. unfold mark. destruct (item_node ns' item) as [[x n]|] eqn:Hf; [|done].
  case_bool_decide; [|done]. rewrite <- Hs. unfold item_node in Hf.
  destruct (item_name item); [|done]. apply find_Some in Hf as [Hx _]. by apply (insert_shape _ _ n).
Qed.

Lemma zset_next d i n x :
  zlen d = i -> zset (d ++ zeros (S n)) i x = Some ((d ++ [x]) ++ zeros n) /\
  zget (d ++ zeros (S n)) i = Some (Dp 0 0 (Value 0 None) 0).
Proof.
  intros <-. unfold zeros. cbn [replicate]. split; [rewrite <- app_assoc; by apply zset_mid|].
  by rewrite zget_app_r, Z.sub_diag by lia.
Qed.

Lemma raws_cons ns item items :
  raws ns (item :: items) = match item_raw ns item with Some e => e :: raws ns items | None => raws ns items end.
Proof. done. Qed.

Lemma objs_cons now ns item items :
  objs now ns (item :: items) =
    match item_obj now ns item with Some e => e :: objs now ns items | None => objs now ns items end.
Proof. done. Qed.

Lemma recv_loop_exact has_cb now ns items : forall k ns' d n i evs,
  node_shape <$> ns' = node_shape <$> ns -> Forall (item_fits ns) items -> zlen d = i ->
  (obj_count ns items <= n)%nat ->
  recv_loop items has_cb now (fun _ => true) k ns' (Some (d ++ zeros n)) i evs =
    Some (foldl mark ns' items, evs ++ (if has_cb then raws ns items else []),
          Some (Some ((d ++ objs now ns items) ++ zeros (n - length (objs now ns items))))).
Proof.
  induction items as [|item items IH]; intros k ns' d n i evs Hs Hfit Hd Hn; cbn [DpSchema.recv_loop].
  { cbn [foldl raws objs omap list_omap length]. rewrite !app_nil_r, Nat.sub_0_r.
    by destruct has_cb; rewrite app_nil_r. }
  inversion Hfit as [|? ? [[name Hname] Hit] Hfit']; subst. rewrite Hname. cbn [mbind option_bind].
  pose proof (mark_shape ns ns' item Hs) as Hm. pose proof (item_node_shape ns ns' item Hs) as Hns.
  rewrite obj_count_cons in Hn. unfold is_obj in Hn.
  cbn [foldl]. rewrite raws_cons, objs_cons. unfold item_raw, item_obj.
  pose proof (eq_refl (mark ns' item)) as Hmark. unfold mark in Hmark at 2. rewrite Hmark in *.
  assert (Hf' : dp_node_find ns' (atoi name) = item_node ns' item) by (unfold item_node; by rewrite Hname).
  rewrite Hf'. destruct (item_node ns item) as [[x m]|] eqn:Hf, (item_node ns' item) as [[x' m']|]; try done;
    [|cbn [mbind option_bind]; by apply IH].
  destruct Hns as [-> [= Hdesc Hprop]]. rewrite Hdesc in *. cbn [mbind option_bind].
  destruct Hit as [(Hraw & Hty & v & Hv)|(Hobj & v & Hv)].
  - rewrite Hraw, Hty, Hv in *. rewrite !(bool_decide_true) by done. cbn [andb mbind option_bind].
    rewrite bool_decide_false in * by done. rewrite IH by done. destruct has_cb; [|done].
    by rewrite <- app_assoc.
  - rewrite Hobj in *. rewrite (bool_decide_false (T_OBJ = T_RAW)), (bool_decide_true (T_OBJ = T_OBJ)) in * by done.
    cbn [andb mbind option_bind]. destruct n as [|n]; [lia|].
    destruct (zset_next d (zlen d) n (Dp (d_id (desc m)) (prop_tp (prop m)) (default (Value 0 None) v) now) eq_refl)
      as [Hz Hg].
    rewrite Hg. cbn [fmap option_fmap option_map default dp_val].
    cbn [id]. rewrite (item_value_shape item (prop m) (prop m') (Value 0 None)), Hv by done. cbn [mbind option_bind].
    assert (Htp : prop_tp (prop m') = prop_tp (prop m)) by (by destruct (prop m), (prop m')).
    destruct v as [v|]; cbn [mbind option_bind default id] in *.
    + rewrite Htp, Hz. cbn [mbind option_bind]. rewrite IH; [|done|done| |lia].
      * cbn [length]. rewrite <- !app_assoc. done.
      * by rewrite zlen_app.
    + rewrite IH by (done || lia). done.
Qed.

(** Without objects there is no array. *)
Lemma recv_loop_none has_cb now ns items : forall k evs,
  Forall (item_fits ns) items -> obj_count ns items = 0%nat ->
  recv_loop items has_cb now (fun _ => true) k ns None 0 evs =
    Some (foldl mark ns items, evs ++ (if has_cb then raws ns items else []), Some None).
Proof.
  induction items as [|item items IH]; intros k evs Hfit Hn; cbn [DpSchema.recv_loop].
  { cbn [foldl raws omap list_omap]. by destruct has_cb; rewrite app_nil_r. }
  inversion Hfit as [|? ? [[name Hname] Hit] Hfit']; subst. rewrite Hname. cbn [mbind option_bind].
  rewrite obj_count_cons in Hn. unfold is_obj in Hn. cbn [foldl]. rewrite raws_cons. unfold item_raw.
  pose proof (eq_refl (mark ns item)) as Hmark. unfold mark in Hmark at 2. rewrite Hmark in *.
  assert (Hf' : dp_node_find ns (atoi name) = item_node ns item) by (unfold item_node; by rewrite Hname).
  rewrite Hf'. destruct (item_node ns item) as [[x m]|]; [|by apply IH]. cbn [mbind option_bind].
  destruct Hit as [(Hraw & Hty & v & Hv)|(Hobj & _)]; [|by rewrite bool_decide_true in Hn].
  rewrite Hraw, Hty, Hv in *. rewrite !(bool_decide_true) by done. cbn [andb mbind option_bind].
  rewrite (bool_decide_false (T_RAW = T_OBJ)) in * by done. rewrite IH by done. destruct has_cb; [|done].
  by rewrite <- app_assoc.
Qed.

(** The registered schemas after the data points of a device changed. *)
Definition with_nodes (g : dp_schema_mgr_t) (x : nat) (s : dp_schema_t) (ns : list dp_node_t) : dp_schema_mgr_t :=
  Mgr (schema_num g) (<[x := Some (Schema (devid s) (preprocess s) ns)]> (schema_list g)).


(** A command that gives a boolean for a raw data point and names no object is undefined
    behaviour: the value is stored through the pointer of the array that was not allocated. *)
Theorem recv_raw_null g dev data_js dps_js x s has_cb now alloc item name i n v :
  dp_schema_find g dev = Some (x, s) -> cJSON_GetObjectItem data_js (c_str "dps") = Some dps_js ->
  item_child dps_js = [item] -> item_name item = Some name ->
  preprocess s = false -> dp_node_find (nodes s) (atoi name) = Some (i, n) ->
  d_type (desc n) = T_RAW -> prop n = PropBool v ->
  item_type item <> cJSON_String -> cJSON_IsBool item = true ->
  dp_data_recv_parse g dev data_js has_cb now alloc (fun _ => true) = None.
Proof.
  intros Hs Hj Hc Hn Hp Hf Hr Hv Ht Hb. unfold DpSchema.dp_data_recv_parse. rewrite Hs, Hj, Hc.
  cbn [DpSchema.count_loop]. rewrite Hn. cbn [mbind option_bind]. rewrite Hf, Hr, Hp.
  rewrite (bool_decide_false (T_RAW = T_OBJ)) by done. cbn [andb DpSchema.count_loop mbind option_bind].
  rewrite bool_decide_true by done. cbn [negb andb DpSchema.recv_loop]. rewrite Hn.
  cbn [mbind option_bind]. rewrite Hf, Hr, Hv. rewrite (bool_decide_false (item_type item = cJSON_String)) by done.
  rewrite andb_false_r. cbn [mbind option_bind DpSchema.item_value]. by rewrite Hb.
Qed.
End json.

(** ** Examples *)

(** A JSON value as the library presents it. *)
Inductive demo_json := Item (name : bytes) (type valueint : Z) (str : option bytes) (child : list demo_json).

Definition j_name (j : demo_json) : option bytes := match j with Item n _ _ _ _ => Some n end.
Definition j_type (j : demo_json) : Z := match j with Item _ t _ _ _ => t end.
Definition j_int (j : demo_json) : Z := match j with Item _ _ v _ _ => v end.
Definition j_str (j : demo_json) : option bytes := match j with Item _ _ _ s _ => s end.
Definition j_child (j : demo_json) : list demo_json := match j with Item _ _ _ _ c => c end.
Definition j_get (j : demo_json) (key : bytes) : option demo_json :=
  List.find (fun c => bool_decide (j_name c = Some key)) (j_child j).
Definition j_bool (j : demo_json) : bool := bool_decide (j_type j = 1) || bool_decide (j_type j = 2).
Definition demo_recv := dp_data_recv_parse j_get j_type j_int j_str j_name j_child 16 8 2 j_bool (fun s => rev s).

Definition j_dps (items : list demo_json) : demo_json := Item [] 64 0 None [Item (c_str "dps") 64 0 None items].

Definition demo_mgr : dp_schema_mgr_t := Mgr 1 [Some demo_schema].

(** A boolean, a number, an unknown name of the enumeration, raw data, an unknown data point. *)
Definition demo_items : list demo_json :=
  [Item (c_str "1") 2 0 None []; Item (c_str "2") 8 55 None []; Item (c_str "4") 16 0 (Some (c_str "none")) [];
   Item (c_str "6") 16 0 (Some (c_str "ab")) []; Item (c_str "77") 8 1 None []].

Lemma demo_items_fit :
  Forall (item_fits j_type j_int j_str j_name 16 8 2 j_bool (nodes demo_schema)) demo_items.
Proof.
  repeat (apply Forall_cons; split;
    [split; [by eexists|]; vm_compute;
     first [exact I | left; split; [reflexivity|split; [reflexivity|by eexists]]
           | right; split; [reflexivity|by eexists]]|]). by apply Forall_nil.
Qed.


Lemma recv_raw_null_witness :
  demo_recv demo_mgr (c_str "dev") (j_dps [Item (c_str "6") 2 0 None []]) true 9 true (fun _ => true) = None.
Proof.
  apply (recv_raw_null j_get j_type j_int j_str j_name j_child 16 8 2 j_bool (fun s => rev s)
    demo_mgr (c_str "dev") (j_dps [Item (c_str "6") 2 0 None []])
    (Item (c_str "dps") 64 0 None [Item (c_str "6") 2 0 None []]) 0 demo_schema true 9 true
    (Item (c_str "6") 2 0 None []) (c_str "6") 5 (Node (demo_desc 6 T_RAW) (PropBool 0) PV_STAT_INVALID 0) 0);
    by vm_compute.
Defined.

Lemma dp_node_pos_decode_ok_witness :
  let ps := [(c_str "[", c_str "a"); (c_str ",", c_str "{b}")] in
  exists pos', dp_node_pos_decode (Some (c_str "[{a},{{b}}]")) (replicate 5 (7, 7)) 5 = Some (2, pos') /\
    exists p, zget pos' 1 = Some p /\ mread (c_str "[{a},{{b}}]") (fst p) (snd p - fst p + 1) = Some (c_str "{{b}}").
Proof.
  intros ps.
  destruct (dp_node_pos_decode_ok ps (c_str "]") (replicate 5 (7, 7)) 5) as (pos' & H1 & H2);
    [| |done|done|done|done|].
  - unfold pieces_ok, ps, no_brace. repeat constructor; cbn; lia.
  - unfold no_brace. repeat constructor; cbn; lia.
  - exists pos'. split; [exact H1|].
    destruct (H2 1 (c_str ",", c_str "{b}") eq_refl) as (p & Hp & Hm). exists p. by split.
Defined.

(** A schema of one number is registered, a command is delivered, a value is reported and
    acknowledged: the values have their types. *)
Definition j_s (name v : string) : demo_json := Item (c_str name) 16 0 (Some (c_str v)) [].
Definition j_n (name : string) (v : Z) : demo_json := Item (c_str name) 8 v None [].
Definition demo_parse (t : bytes) : option demo_json :=
  if bool_decide (t = c_str "{5}") then
    Some (Item [] 64 0 None [j_n "id" 5; j_s "mode" "rw"; j_s "type" "obj";
            Item (c_str "property") 64 0 None [j_s "type" "value"; j_n "min" (-10); j_n "max" 60; j_n "scale" 1]])
  else None.
Definition demo_create := dp_schema_create demo_parse j_get (fun j => zlen (j_child j))
  (fun j i => zget (j_child j) i) j_type j_int j_str 16 (fun _ _ => true) (fun _ => true).
Definition demo_steps := dp_step demo_parse j_get (fun j => zlen (j_child j)) (fun j i => zget (j_child j) i)
  j_type j_int j_str j_name j_child 16 8 2 j_bool (fun _ _ => true) (fun _ => true) (fun s => rev s).

Definition demo_g (v st : Z) : dp_schema_mgr_t :=
  Mgr 1 [Some (Schema (c_str "dev") false
    [Node (Desc 5 M_RW PSV_FALSE T_OBJ TRIG_PULSE DST_NONE ROUTE_DEFAULT) (PropInt (-10) 60 1 v) st 0])].

Example demo_created :
  option_map snd (demo_create (Mgr 0 [None]) (c_str "dev") (Some (c_str "[{5}]")) (Some (replicate 255 (0, 0)))
                    true 0 true) = Some (demo_g 0 PV_STAT_INVALID).
Proof. by vm_compute. Qed.

Lemma dp_values_typed_witness : rtc demo_steps (Mgr 0 [None]) (demo_g 42 PV_STAT_CLOUD) /\
  mgr_ok (demo_g 42 PV_STAT_CLOUD).
Proof.
  assert (H : rtc demo_steps (Mgr 0 [None]) (demo_g 42 PV_STAT_CLOUD)).
  { eapply rtc_l.
    { eapply step_create with (dev := c_str "dev") (js := Some (c_str "[{5}]"))
        (pos := Some (replicate 255 (0, 0))) (sa := true) (m := 0) (ba := true). vm_compute. reflexivity. }
    eapply rtc_l.
    { eapply step_report with (i := 0%nat) (dpin := ReptIn T_OBJ_REPT 0 [Dp 5 PROP_VALUE (Value 42 None) 0])
        (allocs := fun _ => true) (out := Valid 0 0 []); vm_compute; reflexivity. }
    eapply rtc_l; [|apply rtc_refl].
    apply (step_sync _ _ _ _ _ _ _ _ _ _ _ _ _ _ _ _ (demo_g 42 PV_STAT_LOCAL) 0
      (Schema (c_str "dev") false
        [Node (Desc 5 M_RW PSV_FALSE T_OBJ TRIG_PULSE DST_NONE ROUTE_DEFAULT) (PropInt (-10) 60 1 42) PV_STAT_LOCAL 0])
      [5]). reflexivity. }
  split; [exact H|]. eapply dp_values_typed; [|exact H]. intros js. apply zlen_nonneg.
Defined.
