(* ===== verification/BleCrypt.v ===== *)
(** * Encryption of BLE packets

    src/src/tuya_cloud_service/ble/ble_cryption.c and the AES wrappers of
    src/src/tal_security/src/tal_symmetry.c that it calls. The hash and the block cipher are an
    interface, the class [Cipher], with the laws of [CipherLaws]. *)
From S2P Require Import Prelude Tools.

Definition ENCRYPTION_MODE_NONE : Z := 0.
Definition ENCRYPTION_MODE_KEY_11 : Z := 11.
Definition ENCRYPTION_MODE_KEY_12 : Z := 12.
Definition ENCRYPTION_MODE_KEY_14 : Z := 14.
Definition ENCRYPTION_MODE_SESSION_KEY15 : Z := 15.
Definition ENCRYPTION_MODE_KEY_16 : Z := 16.
Definition ENCRYPTION_MODE_MAX : Z := 17.

Definition AUTH_KEY_LEN : Z := 32.
Definition LOGIN_KEY_LEN_16 : Z := 16.
Definition SECRET_KEY_LEN : Z := 16.
Definition PAIR_RANDOM_LEN : Z := 6.
Definition KEY_IN_BUFFER_LEN_MAX : Z := 64.
Definition MAX_LENGTH_SECKEY : Z := 16.

(** ** Hash and cipher

    [aes_create], [aes_free]: the results of the functions that create and release a context;
    [aes_cbc encrypt key iv data] and [aes_ecb key data]: the output, [None] for an error of the
    key set-up or of the cipher. *)
Class Cipher := {
  md5 : bytes -> bytes;
  aes_create : Z;
  aes_free : Z;
  aes_cbc : bool -> bytes -> bytes -> bytes -> option bytes;
  aes_ecb : bytes -> bytes -> option bytes }.

Class CipherLaws `{Cipher} : Prop := {
  md5_len s : zlen (md5 s) = 16;
  aes_create_ok : aes_create = OPRT_OK;
  aes_free_ok : aes_free = OPRT_OK;
  aes_ecb_len key data : zlen key = 16 -> zlen data `mod` 16 = 0 ->
    exists c, aes_ecb key data = Some c /\ zlen c = zlen data;
  aes_cbc_inv key iv data : zlen key = 16 -> zlen iv = 16 -> zlen data `mod` 16 = 0 ->
    exists c, aes_cbc true key iv data = Some c /\ zlen c = zlen data /\
              aes_cbc false key iv c = Some data }.

Section cipher.
Context `{Cipher}.

(** The wrappers release the context at their only exit and answer with the result of that. The
    output goes to [out] at [off]. *)
Definition aes_raw (result : option bytes) (out : bytes) (off : Z) : option (Z * bytes) :=
  if bool_decide (aes_create <> OPRT_OK) then Some (aes_create, out)
  else match result with
       | Some c => out ← mwrite out off c; Some (aes_free, out)
       | None => Some (aes_free, out)
       end.

Definition tal_aes128_cbc_encode_raw (data : bytes) (len : Z) (key iv out : bytes) (off : Z)
    : option (Z * bytes) :=
  d ← mread data 0 len; aes_raw (aes_cbc true key iv d) out off.

Definition tal_aes128_cbc_decode_raw (data : bytes) (soff len : Z) (key iv out : bytes) (off : Z)
    : option (Z * bytes) :=
  d ← mread data soff len; aes_raw (aes_cbc false key iv d) out off.

Definition tal_aes128_ecb_encode_raw (data : bytes) (len : Z) (out : bytes) (off : Z) (key : bytes)
    : option (Z * bytes) :=
  k ← mread key 0 16; d ← mread data 0 len; aes_raw (aes_ecb k d) out off.

(** ** Keys *)

(** The memory behind each pointer. *)
Record ble_crypto_param_t := Crypto {
  auth_key : bytes;
  login_key : bytes;
  sec_key : bytes;
  uuid : bytes;
  pair_rand : bytes }.

(** [service_rand] and [key_out_key11]. *)
Record key_statics := KeyStatics { service_rand : bytes; key_out_key11 : bytes }.

Definition key_statics_init : key_statics := KeyStatics (replicate 16 0) (replicate 16 0).

(** A sequence of [memcpy(key_in_buffer + len, src, n); len += n]. *)
Fixpoint key_fill (buf : bytes) (len : Z) (parts : list (bytes * Z)) : option (bytes * Z) :=
  match parts with
  | [] => Some (buf, len)
  | (src, n) :: parts => buf ← memcpy buf len src 0 n; key_fill buf (len + n) parts
  end.

Definition key_parts (p : ble_crypto_param_t) (ks : key_statics) (mode : Z) : list (bytes * Z) :=
  if bool_decide (mode = ENCRYPTION_MODE_KEY_11) then
    [(auth_key p, AUTH_KEY_LEN); (uuid p, 16); (service_rand ks, 16)]
  else if bool_decide (mode = ENCRYPTION_MODE_KEY_12) then
    [(key_out_key11 ks, 16); (pair_rand p, PAIR_RANDOM_LEN)]
  else if bool_decide (mode = ENCRYPTION_MODE_KEY_14) then
    [(login_key p, LOGIN_KEY_LEN_16); (sec_key p, SECRET_KEY_LEN)]
  else if bool_decide (mode = ENCRYPTION_MODE_SESSION_KEY15) then
    [(login_key p, LOGIN_KEY_LEN_16); (sec_key p, SECRET_KEY_LEN); (pair_rand p, PAIR_RANDOM_LEN)]
  else if bool_decide (mode = ENCRYPTION_MODE_KEY_16) then
    [(auth_key p, AUTH_KEY_LEN); (md5 (take 16 (uuid p)), 16); (service_rand ks, 16)]
  else [].

(** The result, the key ([None]: [key_out] is not written) and the statics. *)
Definition ble_key_generate (p : ble_crypto_param_t) (ks : key_statics) (mode : Z)
    : option (bool * option bytes * key_statics) :=
  if bool_decide (mode >= ENCRYPTION_MODE_MAX) then Some (false, None, ks)
  else if bool_decide (mode = ENCRYPTION_MODE_NONE) then Some (true, None, ks)
  else
    buf ← memcpy (replicate (Z.to_nat KEY_IN_BUFFER_LEN_MAX) 0) 0 (auth_key p) 0 AUTH_KEY_LEN;
    _ ← (if bool_decide (mode = ENCRYPTION_MODE_KEY_16) then mread (uuid p) 0 16 else Some []);
    r ← key_fill buf 0 (key_parts p ks mode);
    let '(buf, len) := r in
    if bool_decide (len = 0) then Some (false, None, ks)
    else
      let key := md5 (take (Z.to_nat len) buf) in
      Some (true, Some key,
            if bool_decide (ENCRYPTION_MODE_KEY_11 = mode) then KeyStatics (service_rand ks) key else ks).

(** Padding in place; the buffer is extended inside its allocation. *)
Definition ble_add_pkcs (p : bytes) (len : Z) : option (bytes * Z) :=
  if bool_decide (len `mod` 16 = 0) then Some (p, len)
  else
    let cz := 16 - len `mod` 16 in
    p ← mwrite p len (replicate (Z.to_nat cz) cz);
    Some (p, u16 (len + cz)).

(** ** Identifiers *)

Definition tuya_ble_register_key_generate (ks : key_statics) (output : bytes) (off : Z) (auth_key : bytes)
    : option (bool * bytes) :=
  r ← tal_aes128_ecb_encode_raw (service_rand ks) 16 output off auth_key;
  Some (bool_decide (fst r = OPRT_OK), snd r).

(** [aes_buf]: the allocated memory, which is not cleared. *)
Definition tuya_ble_adv_id_encrypt (key in_buf : bytes) (in_len : Z) (aes_buf : option bytes)
    (out_buf : bytes) (off : Z) : option (Z * bytes) :=
  let bufsize := 57 in
  if bool_decide (in_len * 2 + 1 > bufsize - 16) then Some (OPRT_INVALID_PARM, out_buf)
  else match aes_buf with
  | None => Some (OPRT_MALLOC_FAILED, out_buf)
  | Some aes_buf =>
      k ← mread key 0 MAX_LENGTH_SECKEY;
      aes_buf ← hex2str aes_buf in_buf in_len;
      r ← ble_add_pkcs aes_buf (in_len * 2 + 1);
      let '(aes_buf, pkcslen) := r in
      if bool_decide (pkcslen > bufsize * 2) then Some (OPRT_COM_ERROR, out_buf)
      else
        r ← tal_aes128_ecb_encode_raw aes_buf pkcslen aes_buf bufsize (md5 k);
        let '(rt, aes_buf) := r in
        if bool_decide (OPRT_OK = rt) then
          out_buf ← memcpy out_buf off aes_buf bufsize MAX_LENGTH_SECKEY; Some (rt, out_buf)
        else Some (rt, out_buf)
  end.

Definition tuya_ble_rsp_id_encrypt (key : bytes) (koff key_len : Z) (in_buf : bytes) (in_len : Z)
    (out_buf : bytes) (off : Z) : option (Z * bytes) :=
  k ← mread key koff key_len;
  tal_aes128_cbc_encode_raw in_buf in_len (md5 k) (md5 k) out_buf off.

(** The 6-bit value of a character; other characters leave [temp] as it is. *)
Definition id_value (c old : Z) : Z :=
  if bool_decide (0x30 <= c <= 0x39) then c - 0x30
  else if bool_decide (0x41 <= c <= 0x5A) then c - 0x41 + 36
  else if bool_decide (0x61 <= c <= 0x7A) then c - 0x61 + 10
  else old.

(** One round: four characters to three bytes; the result keeps [temp]. *)
Definition id_group (in_buf : bytes) (i : Z) (temp : Z * Z * Z * Z)
    : option (bytes * (Z * Z * Z * Z)) :=
  let '(t0, t1, t2, t3) := temp in
  a ← zget in_buf (i * 4);
  b ← zget in_buf (i * 4 + 1);
  c ← zget in_buf (i * 4 + 2);
  d ← zget in_buf (i * 4 + 3);
  let t0 := id_value a t0 in
  let t1 := id_value b t1 in
  let t2 := id_value c t2 in
  let t3 := id_value d t3 in
  Some ([Z.lor (u8 (Z.shiftl (Z.land t0 0x3F) 2)) (Z.land (Z.shiftr t1 4) 0x03);
         Z.lor (u8 (Z.shiftl (Z.land t1 0x0F) 4)) (Z.land (Z.shiftr t2 2) 0x0F);
         Z.lor (u8 (Z.shiftl (Z.land t2 0x03) 6)) (Z.land t3 0x3F)], (t0, t1, t2, t3)).

Fixpoint id_groups (in_buf : bytes) (n : nat) (i : Z) (temp : Z * Z * Z * Z) : option bytes :=
  match n with
  | O => Some []
  | S n =>
      r ← id_group in_buf i temp;
      rest ← id_groups in_buf n (i + 1) (snd r);
      Some (fst r ++ rest)
  end.

(** [temp]: the uninitialised array. *)
Definition tuya_ble_id_compress (in_buf out : bytes) (temp : Z * Z * Z * Z) : option bytes :=
  r ← id_groups in_buf 5 0 temp;
  mwrite out 0 (r ++ [0xFF]).

(** ** Packets *)

(** The code, the padded input, the length and the output at [off]. *)
Definition tuya_ble_encryption (p : ble_crypto_param_t) (ks : key_statics) (mode : Z) (iv in_buf : bytes)
    (in_len : Z) (out_len : Z) (out_buf : bytes) (off : Z)
    : option (Z * bytes * Z * bytes * key_statics) :=
  if bool_decide (mode >= ENCRYPTION_MODE_MAX) then Some (2, in_buf, out_len, out_buf, ks)
  else if bool_decide (mode = ENCRYPTION_MODE_NONE) then
    out_buf ← memcpy out_buf off in_buf 0 in_len;
    Some (0, in_buf, in_len, out_buf, ks)
  else
    r ← ble_add_pkcs in_buf (u16 in_len);
    let '(in_buf, len) := r in
    g ← ble_key_generate p ks mode;
    let '(ok, key, ks) := g in
    if (ok : bool) then
      r ← tal_aes128_cbc_encode_raw in_buf len (default (replicate 16 0) key) iv out_buf off;
      Some (if bool_decide (fst r = OPRT_OK) then 0 else 3, in_buf, len, snd r, ks)
    else Some (4, in_buf, out_len, out_buf, ks).

(** The code, the length, the output and the statics. *)
Definition tuya_ble_decryption (p : ble_crypto_param_t) (ks : key_statics) (in_buf : bytes) (in_len : Z)
    (out_len : Z) (out_buf : bytes) : option (Z * Z * bytes * key_statics) :=
  if bool_decide (in_len < 17) then Some (1, out_len, out_buf, ks)
  else
    mode ← zget in_buf 0;
    if bool_decide (mode >= ENCRYPTION_MODE_MAX) then Some (2, out_len, out_buf, ks)
    else if bool_decide (mode = ENCRYPTION_MODE_NONE) then
      let len := u16 (in_len - 1) in
      out_buf ← memcpy out_buf 0 in_buf 1 len;
      Some (0, len, out_buf, ks)
    else
      let len := u16 (in_len - 17) in
      iv ← mread in_buf 1 16;
      let ks := if bool_decide (mode = ENCRYPTION_MODE_KEY_11) || bool_decide (mode = ENCRYPTION_MODE_KEY_16)
                then KeyStatics iv (key_out_key11 ks) else ks in
      g ← ble_key_generate p ks mode;
      let '(ok, key, ks) := g in
      if (ok : bool) then
        r ← tal_aes128_cbc_decode_raw in_buf 17 len (default (replicate 16 0) key) iv out_buf 0;
        Some (if bool_decide (fst r = OPRT_OK) then 0 else 3, len, snd r, ks)
      else Some (4, out_len, out_buf, ks).
End cipher.

(** ** Keys are well defined *)

Definition usable (p : ble_crypto_param_t) (ks : key_statics) : Prop :=
  32 <= zlen (auth_key p) /\ 16 <= zlen (login_key p) /\ 16 <= zlen (sec_key p) /\
  16 <= zlen (uuid p) /\ 6 <= zlen (pair_rand p) /\
  zlen (service_rand ks) = 16 /\ zlen (key_out_key11 ks) = 16.

Definition keyed (mode : Z) : Prop :=
  mode = ENCRYPTION_MODE_KEY_11 \/ mode = ENCRYPTION_MODE_KEY_12 \/ mode = ENCRYPTION_MODE_KEY_14 \/
  mode = ENCRYPTION_MODE_SESSION_KEY15 \/ mode = ENCRYPTION_MODE_KEY_16.

(** The bytes of the parts. *)
Definition parts_text (parts : list (bytes * Z)) : bytes :=
  concat (map (fun q => take (Z.to_nat (snd q)) (fst q)) parts).

Lemma key_fill_ok parts : forall buf len,
  Forall (fun q => 0 <= snd q <= zlen (fst q)) parts -> 0 <= len ->
  len + zlen (parts_text parts) <= zlen buf ->
  exists buf', key_fill buf len parts = Some (buf', len + zlen (parts_text parts)) /\
    zlen buf' = zlen buf /\
    take (Z.to_nat (len + zlen (parts_text parts))) buf' = take (Z.to_nat len) buf ++ parts_text parts.
Proof.
  induction parts as [|[src n] parts IH]; intros buf len Hp Hlen Hfit.
  { exists buf. cbn [key_fill parts_text map concat]. change (zlen (@nil Z)) with 0.
    rewrite Z.add_0_r, app_nil_r. done. }
  inversion Hp as [|? ? Hn Hp']; subst. cbn [fst snd] in Hn.
  unfold parts_text in *. cbn [map concat fst snd] in *. set (t := take (Z.to_nat n) src) in *.
  assert (Ht : zlen t = n) by (unfold t; rewrite zlen_take by lia; lia).
  rewrite zlen_app, Ht in Hfit. pose proof (zlen_nonneg (concat (map (fun q => take (Z.to_nat (snd q)) (fst q)) parts))).
  cbn [key_fill]. rewrite memcpy_mwrite by lia. rewrite drop_0. fold t.
  destruct (mwrite_is_Some buf len t) as [b1 Hb1]; [lia|lia|]. rewrite Hb1. ub_step.
  pose proof (mwrite_inv _ _ _ _ Hb1) as (_ & _ & Hl1 & _).
  destruct (IH b1 (len + n)) as (b2 & He & Hl2 & Htk); [done|lia|lia|].
  exists b2. rewrite He, zlen_app, Ht. split; [do 2 f_equal; lia|]. split; [lia|].
  replace (len + (n + _)) with (len + n + zlen (concat (map (fun q => take (Z.to_nat (snd q)) (fst q)) parts))) by lia.
  rewrite Htk. rewrite app_assoc. f_equal. unfold mwrite in Hb1. case_bool_decide; [|done].
  injection Hb1 as <-. rewrite app_assoc. apply take_app_length'.
  rewrite length_app, length_take. unfold zlen in *. lia.
Qed.

Lemma keyed_range mode : keyed mode -> ~ mode >= ENCRYPTION_MODE_MAX /\ mode <> ENCRYPTION_MODE_NONE.
Proof. unfold keyed. intros [->|[->|[->|[->| ->]]]]; (split; [intros X; by apply X|done]). Qed.

Section laws.
Context `{CL : CipherLaws}.

Definition key_of (p : ble_crypto_param_t) (ks : key_statics) (mode : Z) : bytes :=
  md5 (parts_text (key_parts p ks mode)).

Lemma key_parts_ok p ks mode :
  usable p ks -> keyed mode ->
  Forall (fun q => 0 <= snd q <= zlen (fst q)) (key_parts p ks mode) /\
  0 < zlen (parts_text (key_parts p ks mode)) <= 64.
Proof.
  intros (H1 & H2 & H3 & H4 & H5 & H6 & H7) Hm. pose proof (md5_len (take 16 (uuid p))) as Hmd.
  unfold keyed in Hm. unfold key_parts.
  destruct Hm as [->|[->|[->|[->| ->]]]];
    repeat (first [rewrite bool_decide_true by done | rewrite bool_decide_false by done]);
    (split; [repeat constructor; cbn [fst snd]; unfold AUTH_KEY_LEN, LOGIN_KEY_LEN_16, SECRET_KEY_LEN, PAIR_RANDOM_LEN; lia|]);
    unfold parts_text; cbn [map concat fst snd]; rewrite ?zlen_app, ?zlen_take by (unfold AUTH_KEY_LEN, LOGIN_KEY_LEN_16, SECRET_KEY_LEN, PAIR_RANDOM_LEN; lia);
    change (zlen (@nil Z)) with 0; unfold AUTH_KEY_LEN, LOGIN_KEY_LEN_16, SECRET_KEY_LEN, PAIR_RANDOM_LEN; lia.
Qed.

Lemma ble_key_generate_ok p ks mode :
  usable p ks -> keyed mode ->
  ble_key_generate p ks mode =
    Some (true, Some (key_of p ks mode),
          if bool_decide (ENCRYPTION_MODE_KEY_11 = mode) then KeyStatics (service_rand ks) (key_of p ks mode) else ks).
Proof.
  intros Hu Hm. destruct (key_parts_ok p ks mode Hu Hm) as [Hp Hl].
  destruct Hu as (H1 & H2 & H3 & H4 & H5 & H6 & H7). unfold ble_key_generate.
  destruct (keyed_range mode Hm) as [Hm1 Hm2]. rewrite !bool_decide_false by done.
  destruct (memcpy_ok (replicate (Z.to_nat KEY_IN_BUFFER_LEN_MAX) 0) 0 (auth_key p) 0 AUTH_KEY_LEN)
    as (b & Hb & Hlb & _); [done|done|unfold AUTH_KEY_LEN; lia|done|done|].
  rewrite Hb. ub_step. change (zlen (replicate (Z.to_nat KEY_IN_BUFFER_LEN_MAX) 0)) with 64 in Hlb.
  assert (Hu : exists x, (if bool_decide (mode = ENCRYPTION_MODE_KEY_16) then mread (uuid p) 0 16 else Some []) = Some x).
  { case_bool_decide; [|by eexists]. apply mread_is_Some; lia. }
  destruct Hu as [x ->]. cbv beta iota.
  destruct (key_fill_ok (key_parts p ks mode) b 0 Hp) as (b' & -> & _ & Ht); [done|lia|].
  cbv beta iota. rewrite Z.add_0_l in *. rewrite bool_decide_false by lia.
  rewrite Ht. change (take (Z.to_nat 0) b) with (@nil Z). done.
Qed.

Lemma key_of_len p ks mode : zlen (key_of p ks mode) = 16.
Proof. apply md5_len. Qed.

(** Padding to whole blocks. *)
Definition padded (len : Z) : Z := if bool_decide (len `mod` 16 = 0) then len else len + (16 - len `mod` 16).

Lemma padded_range len : 0 <= len -> len <= padded len < len + 16 /\ padded len `mod` 16 = 0.
Proof.
  intros Hl. unfold padded. pose proof (Z.mod_pos_bound len 16 ltac:(lia)). case_bool_decide; [lia|].
  split; [lia|]. pose proof (Z.div_mod len 16 ltac:(lia)) as Hd.
  replace (len + (16 - len `mod` 16)) with (0 + (len `div` 16 + 1) * 16) by lia. rewrite Z.mod_add by lia. done.
Qed.

Lemma ble_add_pkcs_ok p len :
  0 <= len -> padded len <= zlen p -> len + 16 <= 2 ^ 16 ->
  exists p', ble_add_pkcs p len = Some (p', padded len) /\ zlen p' = zlen p /\
    take (Z.to_nat len) p' = take (Z.to_nat len) p.
Proof.
  intros Hl Hp Hb. pose proof (padded_range len Hl) as [Hr _]. unfold ble_add_pkcs, padded in *.
  pose proof (Z.mod_pos_bound len 16 ltac:(lia)).
  case_bool_decide; [by exists p|]. set (cz := 16 - len `mod` 16) in *.
  assert (Hz : zlen (replicate (Z.to_nat cz) cz) = cz) by (unfold zlen; rewrite length_replicate; lia).
  destruct (mwrite_is_Some p len (replicate (Z.to_nat cz) cz)) as [p' Hp']; [lia|lia|]. rewrite Hp'. ub_step.
  exists p'. rewrite wrap_small by (unfold in_u; lia). split; [done|].
  pose proof (mwrite_inv _ _ _ _ Hp') as (_ & _ & Hl' & _). split; [done|].
  unfold mwrite in Hp'. case_bool_decide; [|done]. injection Hp' as <-.
  apply take_app_length'. rewrite length_take. unfold zlen in *. lia.
Qed.

Lemma aes_raw_ok c out off :
  0 <= off -> off + zlen c <= zlen out ->
  exists out', aes_raw (Some c) out off = Some (OPRT_OK, out') /\ mwrite out off c = Some out'.
Proof.
  intros H1 H2. destruct (mwrite_is_Some out off c H1 H2) as [out' Ho]. exists out'.
  unfold aes_raw. rewrite aes_create_ok, bool_decide_false by (intros X; apply X; done).
  rewrite Ho. ub_step. by rewrite aes_free_ok.
Qed.

(** The statics after a packet with the initialisation vector [iv] was decrypted. *)
Definition rand_of (ks : key_statics) (mode : Z) (iv : bytes) : key_statics :=
  if bool_decide (mode = ENCRYPTION_MODE_KEY_11) || bool_decide (mode = ENCRYPTION_MODE_KEY_16)
  then KeyStatics iv (key_out_key11 ks) else ks.

(** What the encryption writes, and that decryption with the same key reads it back: the frame and
    its padding. *)
Lemma crypt_ok p ks mode iv frame len out off ol :
  usable p ks -> keyed mode -> zlen iv = 16 -> 0 <= len -> padded len <= zlen frame ->
  len + 16 <= 2 ^ 16 -> 0 <= off -> off + padded len <= zlen out ->
  exists frame' out' c,
    tuya_ble_encryption p ks mode iv frame len ol out off =
      Some (0, frame', padded len, out',
            if bool_decide (ENCRYPTION_MODE_KEY_11 = mode) then KeyStatics (service_rand ks) (key_of p ks mode) else ks) /\
    mwrite out off c = Some out' /\ zlen c = padded len /\
    zlen frame' = zlen frame /\ take (Z.to_nat len) frame' = take (Z.to_nat len) frame /\
    aes_cbc false (key_of p ks mode) iv c = Some (take (Z.to_nat (padded len)) frame').
Proof.
  intros Hu Hm Hiv Hl Hp Hb Ho Hout. pose proof (padded_range len Hl) as [Hr Hmod].
  unfold tuya_ble_encryption.
  destruct (keyed_range mode Hm) as [Hm1 Hm2].
  rewrite (bool_decide_false (mode >= _)), (bool_decide_false (mode = _)) by done.
  rewrite (wrap_small 16 len) by (unfold in_u; lia).
  destruct (ble_add_pkcs_ok frame len Hl Hp Hb) as (f' & -> & Hlf & Htk). ub_step.
  rewrite (ble_key_generate_ok p ks mode Hu Hm). cbv beta iota. cbn [default from_option id].
  unfold tal_aes128_cbc_encode_raw. rewrite mread_Some by lia. ub_step. rewrite drop_0.
  set (d := take (Z.to_nat (padded len)) f').
  assert (Hd : zlen d = padded len) by (unfold d; rewrite zlen_take by lia; lia).
  destruct (aes_cbc_inv (key_of p ks mode) iv d (key_of_len _ _ _) Hiv) as (c & Hc & Hlc & Hdc); [by rewrite Hd|].
  rewrite Hc. destruct (aes_raw_ok c out off Ho) as (out' & -> & Hw); [lia|].
  cbn [fst snd]. rewrite bool_decide_true by done.
  exists f', out', c. split; [done|]. split; [done|]. split; [lia|]. by split_and!.
Qed.

Lemma decrypt_ok p ks mode iv c d out ol in_buf :
  usable p (rand_of ks mode iv) -> keyed mode -> zlen iv = 16 -> zlen c = zlen d -> zlen d < 2 ^ 16 ->
  zlen d <= zlen out -> take (Z.to_nat (17 + zlen d)) in_buf = [mode] ++ iv ++ c ->
  aes_cbc false (key_of p (rand_of ks mode iv) mode) iv c = Some d ->
  exists out' ks',
    tuya_ble_decryption p ks in_buf (17 + zlen d) ol out = Some (0, zlen d, out', ks') /\
    mwrite out 0 d = Some out'.
Proof.
  intros Hu Hm Hiv Hc Hd Hout Hin Hdec. pose proof (zlen_nonneg d).
  assert (Hlen : 17 + zlen d <= zlen in_buf).
  { assert (Hz : zlen (take (Z.to_nat (17 + zlen d)) in_buf) = 17 + zlen d)
      by (rewrite Hin, !zlen_app, Hiv, Hc; change (zlen [mode]) with 1; lia).
    rewrite zlen_take in Hz by lia. lia. }
  assert (Hsplit : in_buf = ([mode] ++ iv ++ c) ++ drop (Z.to_nat (17 + zlen d)) in_buf)
    by (rewrite <- Hin; by rewrite take_drop).
  set (tl := drop _ in_buf) in Hsplit.
  unfold tuya_ble_decryption. rewrite bool_decide_false by lia. rewrite Hsplit.
  rewrite <- !app_assoc. change (zget ([mode] ++ iv ++ c ++ tl) 0) with (Some mode). ub_step.
  destruct (keyed_range mode Hm) as [Hm1 Hm2].
  rewrite (bool_decide_false (mode >= _)), (bool_decide_false (mode = _)) by done.
  rewrite mread_Some by (rewrite ?zlen_app, ?Hiv; change (zlen [mode]) with 1; pose proof (zlen_nonneg (c ++ tl)); rewrite ?zlen_app in *; lia).
  cbv beta iota. change (drop (Z.to_nat 1) ([mode] ++ iv ++ c ++ tl)) with (iv ++ c ++ tl).
  rewrite take_app_length' by (unfold zlen in *; lia).
  fold (rand_of ks mode iv). rewrite (ble_key_generate_ok p (rand_of ks mode iv) mode Hu Hm).
  cbv beta iota. cbn [default from_option id]. unfold tal_aes128_cbc_decode_raw.
  replace (u16 (17 + zlen d - 17)) with (zlen d) by (rewrite wrap_small; [lia|unfold in_u; lia]).
  rewrite mread_Some by (rewrite ?zlen_app, ?Hiv; change (zlen [mode]) with 1; pose proof (zlen_nonneg tl); lia).
  ub_step. rewrite app_assoc, drop_app_length' by (rewrite length_app; unfold zlen in Hiv; cbn [length]; lia).
  rewrite take_app_length' by (unfold zlen in *; lia). rewrite Hdec.
  destruct (aes_raw_ok d out 0) as (out' & -> & Hw); [lia|lia|]. cbn [fst snd].
  rewrite bool_decide_true by done. eexists. eexists. split; [reflexivity|done].
Qed.
End laws.

(** ** Compressed identifiers *)

Definition id_char (c : Z) : bool :=
  bool_decide (0x30 <= c <= 0x39) || bool_decide (0x41 <= c <= 0x5A) || bool_decide (0x61 <= c <= 0x7A).

Definition value_char (v : Z) : Z :=
  if bool_decide (v < 10) then v + 0x30 else if bool_decide (v < 36) then v - 10 + 0x61 else v - 36 + 0x41.

(** The inverse: six bits per character. *)
Fixpoint id_expand (b : bytes) : bytes :=
  match b with
  | x :: y :: z :: b =>
      value_char (Z.shiftr x 2) ::
      value_char (Z.lor (Z.shiftl (Z.land x 3) 4) (Z.shiftr y 4)) ::
      value_char (Z.lor (Z.shiftl (Z.land y 0xF) 2) (Z.shiftr z 6)) ::
      value_char (Z.land z 0x3F) :: id_expand b
  | _ => []
  end.

Lemma id_value_ok c old : id_char c = true -> 0 <= id_value c old < 64 /\ value_char (id_value c old) = c.
Proof. unfold id_char, id_value, value_char. intros Hc. guards; simpl in Hc; try discriminate Hc; lia. Qed.

Lemma six_bits t0 t1 t2 t3 :
  0 <= t0 < 64 -> 0 <= t1 < 64 -> 0 <= t2 < 64 -> 0 <= t3 < 64 ->
  let x := Z.lor (u8 (Z.shiftl (Z.land t0 0x3F) 2)) (Z.land (Z.shiftr t1 4) 0x03) in
  let y := Z.lor (u8 (Z.shiftl (Z.land t1 0x0F) 4)) (Z.land (Z.shiftr t2 2) 0x0F) in
  let z := Z.lor (u8 (Z.shiftl (Z.land t2 0x03) 6)) (Z.land t3 0x3F) in
  Z.shiftr x 2 = t0 /\ Z.lor (Z.shiftl (Z.land x 3) 4) (Z.shiftr y 4) = t1 /\
  Z.lor (Z.shiftl (Z.land y 0xF) 2) (Z.shiftr z 6) = t2 /\ Z.land z 0x3F = t3.
Proof.
  intros H0 H1 H2 H3 x y z.
  assert (Hx : Z.shiftr x 2 = t0 /\ Z.land x 3 = Z.shiftr t1 4).
  { pose proof (below_forallb (fun a => forallb (fun b =>
      let x := Z.lor (u8 (Z.shiftl (Z.land a 0x3F) 2)) (Z.land (Z.shiftr b 4) 0x03) in
      (Z.shiftr x 2 =? a) && (Z.land x 3 =? Z.shiftr b 4)) (seqZ 0 64)) 64 ltac:(by vm_compute) t0 H0) as H.
    apply (below_forallb _ 64) with (d := t1) in H; [|done]. cbv zeta in H. fold x in H. lia. }
  assert (Hy : Z.shiftr y 4 = Z.land t1 0xF /\ Z.land y 0xF = Z.shiftr t2 2).
  { pose proof (below_forallb (fun a => forallb (fun b =>
      let y := Z.lor (u8 (Z.shiftl (Z.land a 0x0F) 4)) (Z.land (Z.shiftr b 2) 0x0F) in
      (Z.shiftr y 4 =? Z.land a 0xF) && (Z.land y 0xF =? Z.shiftr b 2)) (seqZ 0 64)) 64 ltac:(by vm_compute) t1 H1) as H.
    apply (below_forallb _ 64) with (d := t2) in H; [|done]. cbv zeta in H. fold y in H. lia. }
  assert (Hz : Z.shiftr z 6 = Z.land t2 3 /\ Z.land z 0x3F = t3).
  { pose proof (below_forallb (fun a => forallb (fun b =>
      let z := Z.lor (u8 (Z.shiftl (Z.land a 0x03) 6)) (Z.land b 0x3F) in
      (Z.shiftr z 6 =? Z.land a 3) && (Z.land z 0x3F =? b)) (seqZ 0 64)) 64 ltac:(by vm_compute) t2 H2) as H.
    apply (below_forallb _ 64) with (d := t3) in H; [|done]. cbv zeta in H. fold z in H. lia. }
  destruct Hx as [Hx0 Hx1], Hy as [Hy0 Hy1], Hz as [Hz0 Hz1]. rewrite Hx1, Hy0, Hy1, Hz0.
  split; [done|]. split; [|split; [|done]].
  - pose proof (below_forallb (fun a => Z.lor (Z.shiftl (Z.shiftr a 4) 4) (Z.land a 0xF) =? a) 64
      ltac:(by vm_compute) t1 H1) as H. cbv beta in H. lia.
  - pose proof (below_forallb (fun a => Z.lor (Z.shiftl (Z.shiftr a 2) 2) (Z.land a 3) =? a) 64
      ltac:(by vm_compute) t2 H2) as H. cbv beta in H. lia.
Qed.

Lemma id_groups_ok n : forall h s i temp,
  zlen h = i * 4 -> zlen s = Z.of_nat n * 4 -> Forall (fun c => id_char c = true) s ->
  exists r, id_groups (h ++ s) n i temp = Some r /\ zlen r = Z.of_nat n * 3 /\ id_expand r = s.
Proof.
  induction n as [|n IH]; intros h s i temp Hh Hs Hc.
  { exists []. destruct s; [done|]. exfalso. rewrite zlen_cons in Hs. pose proof (zlen_nonneg s). cbn in Hs. lia. }
  destruct s as [|a [|b [|c [|d s]]]];
    [change (zlen (@nil Z)) with 0 in Hs; lia|change (zlen [a]) with 1 in Hs; lia|
     change (zlen [a; b]) with 2 in Hs; lia|change (zlen [a; b; c]) with 3 in Hs; lia|].
  rewrite !zlen_cons in Hs. inversion_clear Hc as [|? ? Ha Hc1]. inversion_clear Hc1 as [|? ? Hb Hc2].
  inversion_clear Hc2 as [|? ? Hc' Hc3]. inversion_clear Hc3 as [|? ? Hd Hc4].
  destruct temp as [[[t0 t1] t2] t3]. cbn [id_groups id_group].
  assert (Hg : forall k, 0 <= k -> zget (h ++ a :: b :: c :: d :: s) (i * 4 + k) = zget (a :: b :: c :: d :: s) k).
  { intros k Hk. rewrite zget_app_r by lia. f_equal. lia. }
  pose proof (Hg 0 ltac:(lia)) as Hg0. rewrite Z.add_0_r in Hg0.
  rewrite Hg0, (Hg 1), (Hg 2), (Hg 3) by lia.
  change (zget (a :: b :: c :: d :: s) 0) with (Some a). change (zget (a :: b :: c :: d :: s) 1) with (Some b).
  change (zget (a :: b :: c :: d :: s) 2) with (Some c). change (zget (a :: b :: c :: d :: s) 3) with (Some d).
  ub_step. cbn [fst snd].
  destruct (id_value_ok a t0 Ha) as [Ra Va], (id_value_ok b t1 Hb) as [Rb Vb],
    (id_value_ok c t2 Hc') as [Rc Vc], (id_value_ok d t3 Hd) as [Rd Vd].
  destruct (IH (h ++ [a; b; c; d]) s (i + 1) (id_value a t0, id_value b t1, id_value c t2, id_value d t3))
    as (r & Hr & Hlr & Her); [rewrite zlen_app; change (zlen [a; b; c; d]) with 4; lia|lia|done|].
  rewrite <- app_assoc in Hr. cbn [app] in Hr. rewrite Hr. cbv beta iota.
  eexists. split; [reflexivity|]. split; [rewrite zlen_app, !zlen_cons, Hlr, (@zlen_nil Z); lia|].
  destruct (six_bits _ _ _ _ Ra Rb Rc Rd) as (E0 & E1 & E2 & E3). cbn [app id_expand].
  rewrite E0, E1, E2, E3, Va, Vb, Vc, Vd, Her. done.
Qed.

(** The compression of an identifier of 20 letters and digits loses nothing, whatever the
    uninitialised memory holds: the 15 bytes expand to the identifier. *)
Theorem id_compress_roundtrip id out temp :
  zlen id = 20 -> Forall (fun c => id_char c = true) id -> 16 <= zlen out ->
  exists r out', tuya_ble_id_compress id out temp = Some out' /\
    take 16 out' = r ++ [0xFF] /\ id_expand r = id.
Proof.
  intros Hl Hc Ho. destruct (id_groups_ok 5 [] id 0 temp) as (r & Hr & Hlr & He); [done|lia|done|].
  unfold tuya_ble_id_compress. cbn [app] in Hr. rewrite Hr. ub_step.
  assert (Hz : zlen (r ++ [0xFF]) = 16) by (rewrite zlen_snoc; lia).
  destruct (mwrite_is_Some out 0 (r ++ [0xFF])) as [out' Hw]; [lia|lia|]. rewrite Hw.
  exists r, out'. split; [done|]. split; [|done]. apply mwrite_take in Hw. by rewrite Hz in Hw.
Qed.

Lemma id_compress_roundtrip_witness :
  exists r out', tuya_ble_id_compress (c_str "tuya0123456789ABCDxz") (replicate 17 7) (1, 2, 3, 4) = Some out' /\
    take 16 out' = r ++ [0xFF] /\ id_expand r = c_str "tuya0123456789ABCDxz".
Proof.
  apply (id_compress_roundtrip (c_str "tuya0123456789ABCDxz")); [done| |done].
  apply Forall_forall. intros c Hc. apply list_elem_of_In in Hc. revert c Hc. apply forallb_forall. by vm_compute.
Defined.
