(* ===== verification/BlePacket.v ===== *)
(** * BLE packets

    Packets with serial numbers, checksum and encryption: [ble_packet_encode] and
    [ble_packet_recv] of src/src/tuya_cloud_service/ble/ble_mgr.c, on the frame transmitter
    (BleTrsmitr), the checksum (Crc) and the encryption (BleCrypt). *)
From S2P Require Import Prelude BleTrsmitr Crc BleCrypt.
From Stdlib Require Import Sorting.Sorted.

Definition BLE_PACKET_SN_IND : Z := 0.
Definition BLE_PACKET_CMD_IND : Z := 8.
Definition BLE_PACKET_DLEN_IND : Z := 10.
Definition BLE_PACKET_DATA_IND : Z := 12.
Definition BLE_PACKET_CRC16_IND : Z := 12.
Definition BLE_PACKET_MIN_LEN : Z := 14.

(** [p_data]: [None] for NULL. *)
Record ble_packet_t := Packet { p_sn : Z; p_type : Z; p_len : Z; p_data : option bytes; p_mode : Z }.

Definition packet_header (send_sn : Z) (packet : ble_packet_t) : bytes :=
  be32 send_sn ++ be32 (p_sn packet) ++ be16 (p_type packet) ++ be16 (p_len packet).

Section cipher.
Context `{Cipher}.

(** The frame in the allocated buffer [f], which is not cleared. *)
Definition packet_frame (send_sn : Z) (packet : ble_packet_t) (f : bytes) : option bytes :=
  f ← mwrite f 0 (packet_header send_sn packet);
  f ← (match p_data packet with Some d => memcpy f BLE_PACKET_DATA_IND d 0 (p_len packet) | None => Some f end);
  let frame_len := BLE_PACKET_DATA_IND + p_len packet in
  crc16 ← get_crc_16 f (u16 frame_len);
  mwrite f frame_len (be16 crc16).

(** [ble_frame], [enc]: the allocated buffers; [iv]: the random bytes. The code, the message and
    its length, the next serial number and the key statics. *)
Definition ble_packet_encode (p : ble_crypto_param_t) (ks : key_statics) (send_sn : Z)
    (packet : ble_packet_t) (ble_frame enc : option bytes) (iv : bytes)
    : option (Z * option (bytes * Z) * Z * key_statics) :=
  match ble_frame, enc with
  | Some f, Some enc =>
      let sn' := u32 (send_sn + 1) in
      f ← packet_frame send_sn packet f;
      let frame_len := BLE_PACKET_DATA_IND + p_len packet + 2 in
      enc ← zset enc 0 (p_mode packet);
      let padding_len := if bool_decide (frame_len `mod` 16 <> 0) then 17 + (16 - frame_len `mod` 16) else 17 in
      if bool_decide (frame_len + padding_len > TUYA_BLE_AIR_FRAME_MAX) then Some (OPRT_COM_ERROR, None, sn', ks)
      else
        enc ← memcpy enc 1 iv 0 16;
        r ← tuya_ble_encryption p ks (p_mode packet) iv f frame_len 0 enc 17;
        let '(code, _, enc_len, enc, ks) := r in
        if bool_decide (code = 0) then Some (OPRT_OK, Some (enc, enc_len + 17), sn', ks)
        else Some (OPRT_COM_ERROR, None, sn', ks)
  | _, _ => Some (OPRT_COM_ERROR, None, send_sn, ks)
  end.

(** The receiver: the reassembly and decryption buffers, the last serial number, the statics. *)
Record ble_link := Link { l_recv : ble_packet_recv_t; l_recv_sn : Z; l_ks : key_statics }.

(** The checks of the decrypted buffer: the code, the new serial number, whether the connection is
    closed, and the packet. [alloc]: the result of the allocation for the data. *)
Definition packet_parse (dec : bytes) (mode recv_sn : Z) (alloc : bool)
    : option (Z * Z * bool * option ble_packet_t) :=
  data_len ← get16 dec BLE_PACKET_DLEN_IND;
  if bool_decide (data_len + BLE_PACKET_MIN_LEN > TUYA_BLE_AIR_FRAME_MAX)
  then Some (OPRT_INVALID_PARM, recv_sn, false, None)
  else
    our_crc ← get16 dec (BLE_PACKET_CRC16_IND + data_len);
    his_crc ← get_crc_16 dec (data_len + BLE_PACKET_DATA_IND);
    if bool_decide (our_crc <> his_crc) then Some (OPRT_INVALID_PARM, recv_sn, false, None)
    else
      sn ← get32 dec BLE_PACKET_SN_IND;
      if bool_decide (sn <= recv_sn) then Some (OPRT_INVALID_PARM, recv_sn, true, None)
      else
        type ← get16 dec BLE_PACKET_CMD_IND;
        if bool_decide (0 <> data_len) then
          if alloc then
            d ← mread dec BLE_PACKET_DATA_IND data_len;
            Some (OPRT_OK, sn, false, Some (Packet sn type data_len (Some d) mode))
          else Some (OPRT_MALLOC_FAILED, sn, false, None)
        else Some (OPRT_OK, sn, false, Some (Packet sn type data_len None mode)).

(** After the reassembly. *)
Definition packet_open (p : ble_crypto_param_t) (l : ble_link) (alloc : bool)
    : option (Z * ble_link * bool * option ble_packet_t) :=
  let pr := l_recv l in
  if bool_decide (pr_raw_len pr > TUYA_BLE_AIR_FRAME_MAX) then Some (OPRT_INVALID_PARM, l, false, None)
  else if bool_decide (tr_version (pr_trsmitr pr) < 2) then Some (OPRT_INVALID_PARM, l, false, None)
  else
    d ← tuya_ble_decryption p (l_ks l) (pr_raw_buf pr) (pr_raw_len pr) (pr_dec_len pr) (pr_dec_buf pr);
    let '(code, dec_len, dec, ks) := d in
    let pr := PacketRecv (pr_trsmitr pr) (pr_raw_len pr) (pr_raw_buf pr) dec_len dec in
    if bool_decide (code <> 0) then Some (OPRT_INVALID_PARM, Link pr (l_recv_sn l) ks, false, None)
    else
      mode ← zget (pr_raw_buf pr) 0;
      r ← packet_parse dec mode (l_recv_sn l) alloc;
      let '(rt, sn, disconnect, packet) := r in
      Some (rt, Link pr sn ks, disconnect, packet).

(** [buf], [len]: the subpackage. The code, the receiver, whether the connection is closed, the
    packet. *)
Definition ble_packet_recv (p : ble_crypto_param_t) (l : ble_link) (buf : bytes) (len : Z) (alloc : bool)
    : option (Z * ble_link * bool * option ble_packet_t) :=
  r ← ble_packet_trsmitr (l_recv l) buf len;
  let '(rt, pr) := r in
  let l := Link pr (l_recv_sn l) (l_ks l) in
  if bool_decide (OPRT_OK <> rt) then Some (rt, l, false, None) else packet_open p l alloc.

(** A sequence of subpackages: the codes and the packets that are delivered. *)
Fixpoint link_run (p : ble_crypto_param_t) (l : ble_link) (pkgs : list bytes)
    : option (list Z * ble_link * list ble_packet_t) :=
  match pkgs with
  | [] => Some ([], l, [])
  | pkg :: pkgs =>
      r ← ble_packet_recv p l pkg (zlen pkg) true;
      let '(rt, l, _, packet) := r in
      r ← link_run p l pkgs;
      let '(rts, l, packets) := r in
      Some (rt :: rts, l, match packet with Some x => x :: packets | None => packets end)
  end.
End cipher.

(** ** The frame of a packet *)

Definition packet_body (packet : ble_packet_t) : bytes :=
  take (Z.to_nat (p_len packet)) (default [] (p_data packet)).
Definition crc_text (t : bytes) : bytes := t ++ be16 (crc_ref 0xa001 0xffff t).
Definition packet_text (send_sn : Z) (packet : ble_packet_t) : bytes :=
  crc_text (packet_header send_sn packet ++ packet_body packet).

(** A packet that the caller may send: the data are there and every field has its width. *)
Record packet_ok (packet : ble_packet_t) : Prop := {
  po_sn : in_u 32 (p_sn packet);
  po_type : in_u 16 (p_type packet);
  po_len : 0 <= p_len packet;
  po_data : exists d, p_data packet = Some d /\ bytes_ok d /\ p_len packet <= zlen d }.

Lemma packet_body_len packet : packet_ok packet -> zlen (packet_body packet) = p_len packet.
Proof.
  intros [_ _ Hl (d & Hd & _ & Hle)]. unfold packet_body. rewrite Hd. cbn [default from_option id].
  rewrite zlen_take by lia. lia.
Qed.

Lemma packet_header_len sn packet : zlen (packet_header sn packet) = 12.
Proof. done. Qed.

Lemma packet_text_len sn packet : packet_ok packet -> zlen (packet_text sn packet) = 14 + p_len packet.
Proof.
  intros Hp. unfold packet_text, crc_text. rewrite !zlen_app, (packet_body_len _ Hp), packet_header_len.
  change (zlen (be16 _)) with 2. lia.
Qed.

Lemma be_bytes_ok n : bytes_ok (be16 n) /\ bytes_ok (be32 n).
Proof. split; repeat constructor; apply wrap_range; lia. Qed.

Lemma packet_text_bytes sn packet : packet_ok packet -> bytes_ok (packet_header sn packet ++ packet_body packet).
Proof.
  intros [_ _ _ (d & Hd & Hb & _)]. unfold packet_header, packet_body. rewrite Hd, !bytes_ok_app.
  repeat split; try apply be_bytes_ok. by apply bytes_ok_take.
Qed.

Lemma get_crc_16_ok data size :
  bytes_ok (take (Z.to_nat size) data) -> 0 <= size <= zlen data ->
  get_crc_16 data size = Some (crc_ref 0xa001 0xffff (take (Z.to_nat size) data)) /\
  in_u 16 (crc_ref 0xa001 0xffff (take (Z.to_nat size) data)).
Proof.
  intros Hb Hs. unfold get_crc_16. rewrite mread_Some by lia. rewrite drop_0. ub_step.
  split; [by apply crc16_loop_ok; [vm_compute|]|]. by apply crc_ref_range; [lia|vm_compute|vm_compute|].
Qed.

Lemma packet_frame_ok sn packet f :
  packet_ok packet -> zlen f = TUYA_BLE_AIR_FRAME_MAX -> 14 + p_len packet <= TUYA_BLE_AIR_FRAME_MAX ->
  exists f', packet_frame sn packet f = Some f' /\ zlen f' = zlen f /\
    take (Z.to_nat (14 + p_len packet)) f' = packet_text sn packet.
Proof.
  intros Hp Hf Hfit. pose proof (po_len _ Hp) as Hn0. pose proof (packet_body_len _ Hp) as Hbl.
  unfold TUYA_BLE_AIR_FRAME_MAX in *. set (n := p_len packet) in *.
  unfold packet_frame. fold n. set (h := packet_header sn packet).
  assert (Hh : zlen h = 12) by done.
  destruct (mwrite_is_Some f 0 h) as [f1 Hf1]; [lia|lia|]. rewrite Hf1. ub_step.
  destruct (po_data _ Hp) as (d & Hd & Hbd & Hle). fold n in Hle. rewrite Hd.
  pose proof (mwrite_inv _ _ _ _ Hf1) as (_ & _ & Hl1 & _).
  unfold BLE_PACKET_DATA_IND. rewrite memcpy_mwrite by lia. rewrite drop_0.
  assert (Hb : take (Z.to_nat n) d = packet_body packet) by (unfold packet_body; by rewrite Hd).
  rewrite Hb. destruct (mwrite_is_Some f1 12 (packet_body packet)) as [f2 Hf2]; [lia|lia|]. rewrite Hf2. ub_step.
  pose proof (mwrite_inv _ _ _ _ Hf2) as (_ & _ & Hl2 & _).
  assert (Hw2 : mwrite f 0 (h ++ packet_body packet) = Some f2) by (eapply mwrite_app; [exact Hf1|exact Hf2]).
  pose proof (mwrite_take _ _ _ Hw2) as Ht2. rewrite zlen_app, Hh, Hbl in Ht2.
  rewrite (wrap_small 16) by (unfold in_u; lia).
  destruct (get_crc_16_ok f2 (12 + n)) as [-> Hcrc]; [rewrite Ht2; by apply packet_text_bytes|lia|].
  rewrite Ht2 in *. ub_step. set (crc := crc_ref _ _ _) in *.
  destruct (mwrite_is_Some f2 (12 + n) (be16 crc)) as [f3 Hf3]; [lia|change (zlen (be16 crc)) with 2; lia|].
  rewrite Hf3. ub_step. pose proof (mwrite_inv _ _ _ _ Hf3) as (_ & _ & Hl3 & _).
  assert (Hw3 : mwrite f 0 (packet_text sn packet) = Some f3).
  { unfold packet_text, crc_text. eapply mwrite_app; [exact Hw2|]. rewrite zlen_app. fold h. by rewrite Hh, Hbl. }
  pose proof (mwrite_take _ _ _ Hw3) as Ht3. rewrite (packet_text_len _ _ Hp) in Ht3. fold n in Ht3.
  exists f3. split; [done|]. split; [lia|done].
Qed.

Section laws.
Context `{CL : CipherLaws}.

Lemma encode_ok p ks sn packet f enc iv :
  usable p ks -> keyed (p_mode packet) -> packet_ok packet -> zlen iv = 16 ->
  zlen f = TUYA_BLE_AIR_FRAME_MAX -> zlen enc = TUYA_BLE_AIR_FRAME_MAX ->
  17 + padded (14 + p_len packet) <= TUYA_BLE_AIR_FRAME_MAX ->
  exists enc' c d ks',
    ble_packet_encode p ks sn packet (Some f) (Some enc) iv =
      Some (OPRT_OK, Some (enc', 17 + padded (14 + p_len packet)), u32 (sn + 1), ks') /\
    zlen enc' = TUYA_BLE_AIR_FRAME_MAX /\
    take (Z.to_nat (17 + padded (14 + p_len packet))) enc' = [p_mode packet] ++ iv ++ c /\
    zlen c = padded (14 + p_len packet) /\ zlen d = padded (14 + p_len packet) /\
    aes_cbc false (key_of p ks (p_mode packet)) iv c = Some d /\
    take (Z.to_nat (14 + p_len packet)) d = packet_text sn packet.
Proof.
  intros Hu Hm Hp Hiv Hf He Hfit. pose proof (po_len _ Hp) as Hn0. pose proof (packet_body_len _ Hp) as Hbl.
  unfold TUYA_BLE_AIR_FRAME_MAX in *. set (n := p_len packet) in *.
  destruct (padded_range (14 + n) ltac:(lia)) as [Hpr Hpm].
  destruct (packet_frame_ok sn packet f Hp Hf) as (f3 & Hf3 & Hl3 & Ht3); [unfold TUYA_BLE_AIR_FRAME_MAX; lia|].
  fold n in Ht3. unfold ble_packet_encode. rewrite Hf3. fold n. ub_step. unfold BLE_PACKET_DATA_IND.
  destruct (zset_is_Some enc 0 (p_mode packet)) as [e1 He1]; [lia|]. rewrite He1. ub_step.
  replace (12 + n + 2) with (14 + n) by lia.
  set (pad := if bool_decide ((14 + n) `mod` 16 <> 0) then _ else _).
  assert (Hpad : 14 + n + pad = 17 + padded (14 + n)) by (unfold pad, padded; guards).
  rewrite (bool_decide_false (14 + n + pad > 1024)) by lia.
  pose proof (zset_inv _ _ _ _ He1) as (_ & Hle1 & _ & _).
  rewrite memcpy_mwrite by lia. rewrite drop_0. rewrite take_ge by (unfold zlen in Hiv; lia).
  destruct (mwrite_is_Some e1 1 iv) as [e2 He2]; [lia|lia|]. rewrite He2. ub_step.
  pose proof (mwrite_inv _ _ _ _ He2) as (_ & _ & Hle2 & _).
  destruct (crypt_ok p ks (p_mode packet) iv f3 (14 + n) e2 17 0) as (f4 & e3 & c & -> & Hwc & Hlc & Hlf & Htk & Hdec);
    [done|done|done|lia|lia|lia|lia|lia|].
  rewrite bool_decide_true by done. exists e3, c, (take (Z.to_nat (padded (14 + n))) f4).
  eexists. split; [rewrite (Z.add_comm (padded _) 17); reflexivity|].
  pose proof (mwrite_inv _ _ _ _ Hwc) as (_ & _ & Hle3 & _).
  assert (Hwe : mwrite enc 0 ([p_mode packet] ++ iv ++ c) = Some e3).
  { cbn [app]. eapply mwrite_cons; [exact He1|]. eapply mwrite_app; [exact He2|]. rewrite Hiv. exact Hwc. }
  split; [lia|]. split.
  { apply mwrite_take in Hwe. rewrite !zlen_app, Hiv, Hlc in Hwe. change (zlen [p_mode packet]) with 1 in Hwe.
    replace (17 + padded (14 + n)) with (1 + (16 + padded (14 + n))) by lia. done. }
  split; [done|]. split; [rewrite zlen_take by lia; lia|]. split; [done|].
  rewrite take_take. replace (Z.to_nat (14 + n) `min` Z.to_nat (padded (14 + n)))%nat with (Z.to_nat (14 + n)) by lia.
  by rewrite Htk.
Qed.
End laws.

(** ** What the receiver reads *)

Lemma text_cell (dec t : bytes) i k :
  take (Z.to_nat k) dec = t -> zlen t = k -> 0 <= i < k -> zget dec i = zget t i.
Proof. intros Ht Hk Hi. rewrite <- Ht, zget_take by lia. done. Qed.

(** The packet as the application gets it. *)
Definition delivered (sn : Z) (packet : ble_packet_t) : ble_packet_t :=
  Packet sn (p_type packet) (p_len packet)
    (if bool_decide (p_len packet = 0) then None else Some (packet_body packet)) (p_mode packet).

Lemma packet_parse_ok dec sn recv_sn packet :
  packet_ok packet -> zlen dec = TUYA_BLE_AIR_FRAME_MAX -> in_u 32 sn -> recv_sn < sn ->
  14 + p_len packet <= TUYA_BLE_AIR_FRAME_MAX ->
  take (Z.to_nat (14 + p_len packet)) dec = packet_text sn packet ->
  packet_parse dec (p_mode packet) recv_sn true = Some (OPRT_OK, sn, false, Some (delivered sn packet)).
Proof.
  intros Hp Hdl Hsn Hlt Hfit Ht. pose proof (po_len _ Hp) as Hn0. pose proof (packet_body_len _ Hp) as Hbl.
  unfold TUYA_BLE_AIR_FRAME_MAX in *. pose proof (packet_text_len sn _ Hp) as Htl.
  assert (Hc : forall i, 0 <= i < 14 + p_len packet -> zget dec i = zget (packet_text sn packet) i)
    by (intros i Hi; by apply (text_cell dec _ i (14 + p_len packet))).
  set (hb := packet_header sn packet ++ packet_body packet) in *.
  assert (Hhb : zlen hb = 12 + p_len packet) by (unfold hb; rewrite zlen_app, Hbl; done).
  assert (Hh : forall i, 0 <= i < 12 -> zget dec i = zget (packet_header sn packet) i).
  { intros i Hi. rewrite Hc by lia. unfold packet_text, crc_text. fold hb. rewrite zget_app_l by lia.
    unfold hb. by rewrite zget_app_l by (rewrite packet_header_len; lia). }
  assert (Hcr : forall i, 0 <= i < 2 ->
    zget dec (12 + p_len packet + i) = zget (be16 (crc_ref 0xa001 0xffff hb)) i).
  { intros i Hi. rewrite Hc by lia. unfold packet_text, crc_text. fold hb.
    rewrite zget_app_r by lia. f_equal. lia. }
  assert (Htake : take (Z.to_nat (12 + p_len packet)) dec = hb).
  { transitivity (take (Z.to_nat (12 + p_len packet)) (packet_text sn packet)).
    - rewrite <- Ht, take_take. f_equal. lia.
    - unfold packet_text, crc_text. fold hb. rewrite <- Hhb, zlen_to_nat. apply take_app_length. }
  unfold packet_parse. unfold BLE_PACKET_DLEN_IND, BLE_PACKET_CRC16_IND, BLE_PACKET_SN_IND, BLE_PACKET_CMD_IND,
    BLE_PACKET_DATA_IND, BLE_PACKET_MIN_LEN.
  rewrite (be16_get dec 10 (p_len packet)); [|unfold in_u; lia|by rewrite (Hh 10) by lia|by rewrite (Hh (10 + 1)) by lia].
  ub_step. rewrite bool_decide_false by (unfold TUYA_BLE_AIR_FRAME_MAX; lia).
  replace (p_len packet + 12) with (12 + p_len packet) by lia.
  destruct (get_crc_16_ok dec (12 + p_len packet)) as [-> Hcrc];
    [rewrite Htake; by apply packet_text_bytes|lia|]. rewrite Htake in *.
  rewrite (be16_get dec (12 + p_len packet) (crc_ref 0xa001 0xffff hb));
    [|done|rewrite <- (Hcr 0) by lia; f_equal; lia|by rewrite <- (Hcr 1) by lia].
  cbv beta iota. rewrite bool_decide_false by (intros X; by apply X).
  rewrite (be32_get dec 0 sn); [|done|by rewrite (Hh 0) by lia|by rewrite (Hh (0 + 1)) by lia
    |by rewrite (Hh (0 + 2)) by lia|by rewrite (Hh (0 + 3)) by lia].
  cbv beta iota. rewrite bool_decide_false by lia.
  rewrite (be16_get dec 8 (p_type packet)); [|apply Hp|by rewrite (Hh 8) by lia|by rewrite (Hh (8 + 1)) by lia].
  cbv beta iota. unfold delivered. destruct (decide (p_len packet = 0)) as [H0|H0].
  - rewrite (bool_decide_false (0 <> _)) by lia. by rewrite bool_decide_true.
  - rewrite (bool_decide_true (0 <> _)) by lia. rewrite (bool_decide_false (p_len packet = 0)) by done.
    rewrite mread_Some by lia. cbv beta iota. do 5 f_equal.
    assert (Hd : take (Z.to_nat (p_len packet)) (drop (Z.to_nat 12) dec) = drop (Z.to_nat 12) hb).
    { rewrite <- Htake, take_drop_commute. f_equal. f_equal. lia. }
    rewrite Hd. done.
Qed.

Section laws.
Context `{CL : CipherLaws}.

(** A message in the reassembly buffer is opened to the packet. *)
Lemma packet_open_ok p ps ks sn packet iv c d l :
  let n := padded (14 + p_len packet) in
  usable p (rand_of (l_ks l) (p_mode packet) iv) -> keyed (p_mode packet) -> packet_ok packet -> zlen iv = 16 ->
  key_of p (rand_of (l_ks l) (p_mode packet) iv) (p_mode packet) = key_of ps ks (p_mode packet) ->
  zlen c = n -> zlen d = n -> aes_cbc false (key_of ps ks (p_mode packet)) iv c = Some d ->
  take (Z.to_nat (14 + p_len packet)) d = packet_text sn packet -> in_u 32 sn -> l_recv_sn l < sn ->
  17 + n <= TUYA_BLE_AIR_FRAME_MAX ->
  zlen (pr_dec_buf (l_recv l)) = TUYA_BLE_AIR_FRAME_MAX -> 2 <= tr_version (pr_trsmitr (l_recv l)) ->
  pr_raw_len (l_recv l) = 17 + n ->
  take (Z.to_nat (17 + n)) (pr_raw_buf (l_recv l)) = [p_mode packet] ++ iv ++ c ->
  exists l', packet_open p l true = Some (OPRT_OK, l', false, Some (delivered sn packet)) /\ l_recv_sn l' = sn.
Proof.
  intros n Hu Hm Hp Hiv Hkey Hc Hd Hdec Ht Hsn Hlt Hfit Hdb Hver Hraw Hbuf. pose proof (po_len _ Hp).
  unfold TUYA_BLE_AIR_FRAME_MAX in *. pose proof (padded_range (14 + p_len packet) ltac:(lia)) as [Hpr _]. fold n in Hpr.
  unfold packet_open. rewrite bool_decide_false by (unfold TUYA_BLE_AIR_FRAME_MAX; lia).
  rewrite bool_decide_false by lia. rewrite Hraw, <- Hd in *.
  destruct (decrypt_ok p (l_ks l) (p_mode packet) iv c d (pr_dec_buf (l_recv l)) (pr_dec_len (l_recv l))
    (pr_raw_buf (l_recv l))) as (out' & ks' & -> & Hw); [done|done|done|done|lia|lia|done|by rewrite Hkey|].
  ub_step. rewrite bool_decide_false by (intros X; by apply X). cbn [pr_raw_buf].
  assert (Hmode : zget (pr_raw_buf (l_recv l)) 0 = Some (p_mode packet)).
  { rewrite (text_cell _ _ 0 (17 + zlen d) Hbuf); [done| |lia].
    rewrite !zlen_app, Hiv, Hc, Hd. change (zlen [p_mode packet]) with 1. lia. }
  rewrite Hmode. pose proof (mwrite_inv _ _ _ _ Hw) as (_ & _ & Hlo & _). apply mwrite_take in Hw.
  rewrite (packet_parse_ok out' sn (l_recv_sn l) packet); try done; unfold TUYA_BLE_AIR_FRAME_MAX; [|lia|lia|].
  - eexists. split; [reflexivity|done].
  - rewrite <- Ht, <- Hw, take_take. f_equal. lia.
Qed.

(** Subpackages that reassemble to a message deliver what the message opens to. *)
Lemma link_run_recv p pkgs : forall pr pr' sn ks rt l' x,
  recv_all pr pkgs = Some (codes (pred (length pkgs)), pr') -> pkgs <> [] ->
  packet_open p (Link pr' sn ks) true = Some (rt, l', false, Some x) ->
  link_run p (Link pr sn ks) pkgs =
    Some (replicate (pred (length pkgs)) OPRT_SVC_BT_API_TRSMITR_CONTINUE ++ [rt], l', [x]).
Proof.
  induction pkgs as [|pkg pkgs IH]; intros pr pr' sn ks rt l' x Hr Hne Ho; [done|].
  cbn [recv_all] in Hr. cbn [link_run]. unfold ble_packet_recv. cbn [l_recv l_recv_sn l_ks].
  destruct (ble_packet_trsmitr pr pkg (zlen pkg)) as [[rt1 pr1]|]; [|done].
  cbn [mbind option_bind] in Hr. destruct (recv_all pr1 pkgs) as [[rts pr2]|] eqn:Hr2; [|done].
  cbn [mbind option_bind] in Hr. injection Hr as Hcodes <-. ub_step.
  destruct pkgs as [|pkg2 pkgs].
  - cbn [length pred codes replicate app] in *. injection Hcodes as -> Hrts.
    cbn [recv_all] in Hr2. injection Hr2 as _ <-. rewrite bool_decide_false by (intros X; by apply X).
    rewrite Ho. done.
  - cbn [length pred] in *. unfold codes in Hcodes. cbn [replicate app] in Hcodes.
    injection Hcodes as -> Hrts. rewrite bool_decide_true by done.
    rewrite (IH pr1 pr2 sn ks rt l' x); [|by rewrite Hr2, Hrts|done|done]. done.
Qed.
End laws.

Lemma trsmitr_dec p buf len rt p' :
  ble_packet_trsmitr p buf len = Some (rt, p') -> pr_dec_buf p' = pr_dec_buf p /\ pr_dec_len p' = pr_dec_len p.
Proof.
  unfold ble_packet_trsmitr. destruct (ble_frame_trsmitr_recv_pkg_decode _ _ _) as [[r [t|]]|]; try done.
  cbn [mbind option_bind]. destruct (bool_decide (OPRT_OK <> r /\ _)); [by intros [= _ <-]|].
  destruct (if bool_decide (u32 _ <= TUYA_BLE_AIR_FRAME_MAX) then _ else _) as [[r2 b]|]; [|done].
  cbn [mbind option_bind]. by intros [= _ <-].
Qed.

Lemma recv_all_dec pkgs : forall p rts p',
  recv_all p pkgs = Some (rts, p') -> pr_dec_buf p' = pr_dec_buf p.
Proof.
  induction pkgs as [|pkg pkgs IH]; intros p rts p' Hr; cbn [recv_all] in Hr; [by injection Hr as _ <-|].
  destruct (ble_packet_trsmitr p pkg (zlen pkg)) as [[rt p1]|] eqn:Ht; [|done].
  cbn [mbind option_bind] in Hr. destruct (recv_all p1 pkgs) as [[rts1 p2]|] eqn:Hr2; [|done].
  cbn [mbind option_bind] in Hr. injection Hr as _ <-. apply trsmitr_dec in Ht as [Ht _].
  rewrite <- Ht. by eapply IH.
Qed.

Section laws.
Context `{CL : CipherLaws}.

(** C16. From end to end: a packet of up to 978 bytes that is encoded, encrypted with a key that the
    other side derives too, cut into subpackages and received in order by a receiver in any state
    is delivered there once, with its type, its data and the sender's serial number, if that
    number is new. *)
Theorem ble_packet_roundtrip g t ps ks sn packet f enc iv p l :
  let L := ble_frame_packet_len_get g in
  (* the sender *)
  usable ps ks -> keyed (p_mode packet) -> packet_ok packet -> p_len packet <= 978 -> zlen iv = 16 ->
  zlen f = TUYA_BLE_AIR_FRAME_MAX -> zlen enc = TUYA_BLE_AIR_FRAME_MAX -> in_u 32 sn ->
  tr_pkg_desc t = BLE_FRAME_PKG_INIT -> zlen (tr_subpkg t) = L -> 7 <= L < 2 ^ 16 ->
  (* the receiver *)
  usable p (rand_of (l_ks l) (p_mode packet) iv) ->
  key_of p (rand_of (l_ks l) (p_mode packet) iv) (p_mode packet) = key_of ps ks (p_mode packet) ->
  L <= zlen (tr_subpkg (pr_trsmitr (l_recv l))) ->
  0 <= tr_subpkg_num (pr_trsmitr (l_recv l)) < 0x10000000 ->
  zlen (pr_dec_buf (l_recv l)) = TUYA_BLE_AIR_FRAME_MAX -> l_recv_sn l < sn ->
  exists msg len ks' pkgs l',
    ble_packet_encode ps ks sn packet (Some f) (Some enc) iv = Some (OPRT_OK, Some (msg, len), u32 (sn + 1), ks') /\
    send_all (S (Z.to_nat len)) g t TUYA_BLE_PROTOCOL_VERSION_HIGN msg len = Some pkgs /\
    link_run p l pkgs =
      Some (replicate (pred (length pkgs)) OPRT_SVC_BT_API_TRSMITR_CONTINUE ++ [OPRT_OK], l',
            [delivered sn packet]) /\
    l_recv_sn l' = sn.
Proof.
  intros L Hu Hm Hp Hmax Hiv Hf He Hsn Htd Hts HL Hur Hkey HpL Hpn Hdb Hlt. pose proof (po_len _ Hp).
  pose proof (padded_range (14 + p_len packet) ltac:(lia)) as [Hpr Hmod].
  set (n := padded (14 + p_len packet)) in *.
  assert (Hfit : 17 + n <= TUYA_BLE_AIR_FRAME_MAX) by (unfold TUYA_BLE_AIR_FRAME_MAX; lia).
  destruct (encode_ok ps ks sn packet f enc iv Hu Hm Hp Hiv Hf He Hfit)
    as (msg & c & d & ks' & Henc & Hlm & Htm & Hlc & Hld & Hdec & Htd').
  fold n in Henc, Htm, Hlc, Hld. unfold TUYA_BLE_AIR_FRAME_MAX in *.
  destruct (sending_start g t TUYA_BLE_PROTOCOL_VERSION_HIGN msg (17 + n) Htd Hts) as (g1 & t1 & HS).
  destruct (send_recv_from (S (Z.to_nat (17 + n))) g t TUYA_BLE_PROTOCOL_VERSION_HIGN msg (17 + n) g1 t1 0 0 HS)
    as (pkgs & Hsend & _ & Hne & Hrecv); try done; unfold TUYA_BLE_AIR_FRAME_MAX; [lia..|].
  destruct (Hrecv (l_recv l)) as (pr' & Hr & (Hrl & _ & Hrt) & Hv); try done.
  pose proof (recv_all_dec _ _ _ _ Hr) as Hdb'.
  destruct (packet_open_ok p ps ks sn packet iv c d (Link pr' (l_recv_sn l) (l_ks l))) as (l' & Ho & Hsn');
    cbn [l_recv l_recv_sn l_ks]; try done; fold n; unfold TUYA_BLE_AIR_FRAME_MAX;
    [by rewrite Hdb'|rewrite Hv; done|by rewrite Hrt|].
  exists msg, (17 + n), ks', pkgs, l'. split; [done|]. split; [done|]. split; [|done].
  destruct l as [pr sn0 ks0]. cbn [l_recv l_recv_sn l_ks] in *.
  by apply (link_run_recv p pkgs pr pr' sn0 ks0 OPRT_OK l').
Qed.
End laws.

(** ** What can be delivered *)

Lemma drop_zget (b : bytes) i x : zget b i = Some x -> drop (Z.to_nat i) b = x :: drop (Z.to_nat (i + 1)) b.
Proof.
  unfold zget. case_bool_decide; [|done]. intros Hx. rewrite (drop_S b x (Z.to_nat i)) by done.
  do 2 f_equal. lia.
Qed.

Lemma zget_byte b i x : bytes_ok b -> zget b i = Some x -> 0 <= x < 256.
Proof.
  intros Hb. unfold zget. case_bool_decide; [|done]. intros Hz. exact (Forall_lookup_1 _ _ _ _ Hb Hz).
Qed.

(** A number that was read, as the bytes at its place. *)
Lemma get16_slice b i n :
  bytes_ok b -> 0 <= i -> get16 b i = Some n ->
  in_u 16 n /\ drop (Z.to_nat i) b = be16 n ++ drop (Z.to_nat (i + 2)) b.
Proof.
  intros Hb Hi. unfold get16. destruct (zget b i) as [x|] eqn:Hx; [|done].
  destruct (zget b (i + 1)) as [y|] eqn:Hy; [|done]. cbn [mbind option_bind]. intros [= <-].
  pose proof (zget_byte _ _ _ Hb Hx). pose proof (zget_byte _ _ _ Hb Hy).
  rewrite (drop_zget b i x Hx), (drop_zget b (i + 1) y Hy). replace (i + 1 + 1) with (i + 2) by lia.
  rewrite Z.shiftl_mul_pow2 by lia. unfold be16. rewrite Z.shiftr_div_pow2 by lia.
  unfold wrap. change (2 ^ 8) with 256. change (2 ^ 16) with 65536.
  rewrite (Z.mod_small (x * 256)), (Z.mod_small (x * 256 + y)) by lia. split; [unfold in_u; lia|].
  rewrite Z.div_add_l, (Z.div_small y) by lia. rewrite Z.add_0_r, (Z.mod_small x) by lia.
  rewrite (Z.add_comm (x * 256)), Z.mod_add, Z.mod_small by lia. done.
Qed.

Lemma get32_slice b i n :
  bytes_ok b -> 0 <= i -> get32 b i = Some n -> drop (Z.to_nat i) b = be32 n ++ drop (Z.to_nat (i + 4)) b.
Proof.
  intros Hb Hi. unfold get32. destruct (zget b i) as [x|] eqn:Hx; [|done].
  destruct (zget b (i + 1)) as [y|] eqn:Hy; [|done]. destruct (zget b (i + 2)) as [z|] eqn:Hz; [|done].
  destruct (zget b (i + 3)) as [w|] eqn:Hw; [|done]. cbn [mbind option_bind]. intros [= <-].
  pose proof (zget_byte _ _ _ Hb Hx). pose proof (zget_byte _ _ _ Hb Hy).
  pose proof (zget_byte _ _ _ Hb Hz). pose proof (zget_byte _ _ _ Hb Hw).
  rewrite (drop_zget b i x Hx), (drop_zget b (i + 1) y Hy). replace (i + 1 + 1) with (i + 2) by lia.
  rewrite (drop_zget b (i + 2) z Hz). replace (i + 2 + 1) with (i + 3) by lia.
  rewrite (drop_zget b (i + 3) w Hw). replace (i + 3 + 1) with (i + 4) by lia.
  rewrite !Z.shiftl_mul_pow2 by lia. unfold be32. rewrite !Z.shiftr_div_pow2 by lia. unfold wrap.
  change (2 ^ 8) with 256. change (2 ^ 16) with 65536. change (2 ^ 24) with 16777216. change (2 ^ 32) with 4294967296.
  rewrite (Z.mod_small (x * 16777216)) by lia. rewrite (Z.mod_small (x * 16777216 + y * 65536)) by lia.
  rewrite (Z.mod_small (_ + z * 256)) by lia.
  rewrite (Z.mod_small (_ + w)) by lia.
  assert (E1 : (x * 16777216 + y * 65536 + z * 256 + w) / 16777216 = x)
    by (symmetry; apply (Z.div_unique _ _ _ (y * 65536 + z * 256 + w)); lia).
  assert (E2 : (x * 16777216 + y * 65536 + z * 256 + w) / 65536 = x * 256 + y)
    by (symmetry; apply (Z.div_unique _ _ _ (z * 256 + w)); lia).
  assert (E3 : (x * 16777216 + y * 65536 + z * 256 + w) / 256 = (x * 256 + y) * 256 + z)
    by (symmetry; apply (Z.div_unique _ _ _ w); lia).
  rewrite E1, E2, E3.
  assert (Em : forall q r, 0 <= r < 256 -> (q * 256 + r) mod 256 = r)
    by (intros q r Hr; rewrite Z.add_comm, Z.mod_add, Z.mod_small by lia; done).
  rewrite (Z.mod_small x), (Em x y), (Em (x * 256 + y) z) by lia.
  replace (x * 16777216 + y * 65536 + z * 256 + w) with ((x * 65536 + y * 256 + z) * 256 + w) by lia.
  rewrite Em by lia. done.
Qed.

Lemma packet_parse_sn dec mode recv_sn alloc rt sn b x :
  packet_parse dec mode recv_sn alloc = Some (rt, sn, b, x) ->
  recv_sn <= sn /\ (forall y, x = Some y -> p_sn y = sn /\ recv_sn < sn).
Proof.
  unfold packet_parse. intros Hr.
  repeat match type of Hr with
  | mbind ?f ?m = Some _ => destruct m; cbn [mbind option_bind] in Hr; [|discriminate Hr]
  | (if bool_decide ?P then _ else _) = Some _ => destruct (bool_decide_reflect P)
  | (if ?a then _ else _) = Some _ => destruct a
  end; injection Hr as _ <- _ <-; (split; [lia|]); intros y [= <-]; cbn [p_sn]; lia.
Qed.

Section cipher.
Context `{Cipher}.

Lemma packet_recv_sn p l buf len alloc rt l' b x :
  ble_packet_recv p l buf len alloc = Some (rt, l', b, x) ->
  l_recv_sn l <= l_recv_sn l' /\ (forall y, x = Some y -> p_sn y = l_recv_sn l' /\ l_recv_sn l < l_recv_sn l').
Proof.
  unfold ble_packet_recv, packet_open. intros Hr.
  destruct (ble_packet_trsmitr (l_recv l) buf len) as [[rt1 pr]|]; [|done]. cbn [mbind option_bind] in Hr.
  destruct (bool_decide (OPRT_OK <> rt1)); [injection Hr as _ <- _ <-; by split|].
  cbn [l_recv l_recv_sn l_ks] in Hr.
  destruct (bool_decide (pr_raw_len pr > _)); [injection Hr as _ <- _ <-; by split|].
  destruct (bool_decide (tr_version _ < 2)); [injection Hr as _ <- _ <-; by split|].
  destruct (tuya_ble_decryption _ _ _ _ _ _) as [[[[code dl] dec] ks]|]; [|done]. cbn [mbind option_bind] in Hr.
  destruct (bool_decide (code <> 0)); [injection Hr as _ <- _ <-; by split|].
  cbn [pr_raw_buf] in Hr. destruct (zget (pr_raw_buf pr) 0) as [mode|]; [|done]. cbn [mbind option_bind] in Hr.
  destruct (packet_parse dec mode (l_recv_sn l) alloc) as [[[[rt2 sn] d] x']|] eqn:Hp; [|done].
  cbn [mbind option_bind] in Hr. injection Hr as _ <- _ <-. cbn [l_recv_sn]. by apply packet_parse_sn in Hp.
Qed.

(** C33. Whatever arrives, no serial number is delivered twice or out of order: the serial numbers
    of the packets of a connection increase strictly, from the number after the last one. *)
Theorem ble_no_replay p l pkgs rts l' packets :
  link_run p l pkgs = Some (rts, l', packets) ->
  StronglySorted Z.lt (l_recv_sn l :: map p_sn packets) /\
  Forall (fun x => p_sn x <= l_recv_sn l') packets /\ l_recv_sn l <= l_recv_sn l'.
Proof.
  revert l rts packets. induction pkgs as [|pkg pkgs IH]; intros l rts packets Hr; cbn [link_run] in Hr.
  { injection Hr as _ <- <-. split; [repeat constructor|]. split; [constructor|lia]. }
  destruct (ble_packet_recv p l pkg (zlen pkg) true) as [[[[rt l1] b] x]|] eqn:H1; [|done].
  cbn [mbind option_bind] in Hr. destruct (link_run p l1 pkgs) as [[[rts1 l2] packets1]|] eqn:H2; [|done].
  cbn [mbind option_bind] in Hr. injection Hr as _ <- <-.
  apply packet_recv_sn in H1 as [Hle Hx]. destruct (IH _ _ _ H2) as (Hs & Hall & Hle2).
  apply StronglySorted_inv in Hs as [Hs Hf]. destruct x as [y|]; cbn [map].
  - destruct (Hx y eq_refl) as [Hy Hlt]. rewrite Hy. split; [|split; [by constructor; [lia|]|lia]].
    constructor; [by constructor|]. constructor; [done|].
    eapply Forall_impl; [exact Hf|]. cbn. lia.
  - split; [|split; [done|lia]]. constructor; [done|]. eapply Forall_impl; [exact Hf|]. cbn. lia.
Qed.
End cipher.

(** The parts of a frame. *)
Lemma packet_slices dec n sn ty :
  zlen dec = 1024 -> 0 <= n <= 1010 ->
  drop (Z.to_nat 0) dec = be32 sn ++ drop (Z.to_nat (0 + 4)) dec ->
  drop (Z.to_nat 8) dec = be16 ty ++ drop (Z.to_nat (8 + 2)) dec ->
  drop (Z.to_nat 10) dec = be16 n ++ drop (Z.to_nat (10 + 2)) dec ->
  take (Z.to_nat (n + 12)) dec =
    be32 sn ++ take 4 (drop 4 dec) ++ be16 ty ++ be16 n ++ take (Z.to_nat n) (drop 12 dec).
Proof.
  intros Hl Hn16 Hsn Hty Hn. set (data := take (Z.to_nat n) (drop 12 dec)). set (ack := take 4 (drop 4 dec)).
  replace (Z.to_nat (n + 12)) with (12 + Z.to_nat n)%nat by lia. rewrite <- (take_take_drop dec 12).
  fold data. rewrite !app_assoc. f_equal.
  change (Z.to_nat 0) with 0%nat in Hsn. rewrite drop_0 in Hsn. change (Z.to_nat (0 + 4)) with 4%nat in Hsn.
  assert (H4 : drop 4 dec = ack ++ be16 ty ++ be16 n ++ drop 12 dec).
  { rewrite <- (take_drop 4 (drop 4 dec)). fold ack. f_equal. rewrite drop_drop.
    change (Z.to_nat 8) with (4 + 4)%nat in Hty. rewrite Hty. f_equal.
    change (Z.to_nat (8 + 2)) with (Z.to_nat 10). rewrite Hn. done. }
  rewrite Hsn, H4. rewrite !app_assoc. apply take_app_length'.
  rewrite !length_app. unfold ack. rewrite length_take, length_drop. unfold zlen in Hl. cbn [be32 be16 length]. lia.
Qed.

(** Only checked frames are delivered: the decrypted bytes start with the header, the data and
    the checksum of exactly the packet that is delivered, its serial number is new, and its frame
    fits the buffer. *)
Theorem packet_accepted dec mode recv_sn alloc rt sn b x :
  bytes_ok dec -> zlen dec = TUYA_BLE_AIR_FRAME_MAX ->
  packet_parse dec mode recv_sn alloc = Some (rt, sn, b, Some x) ->
  rt = OPRT_OK /\ b = false /\ recv_sn < sn /\ p_mode x = mode /\ p_sn x = sn /\
  14 + p_len x <= TUYA_BLE_AIR_FRAME_MAX /\
  default [] (p_data x) = take (Z.to_nat (p_len x)) (drop 12 dec) /\
  exists ack, let t := be32 sn ++ ack ++ be16 (p_type x) ++ be16 (p_len x) ++ default [] (p_data x) in
    zlen ack = 4 /\ take (Z.to_nat (14 + p_len x)) dec = crc_text t.
Proof.
  intros Hb Hl. unfold packet_parse.
  destruct (get16 dec BLE_PACKET_DLEN_IND) as [n|] eqn:Hn; [|done]. cbn [mbind option_bind].
  destruct (bool_decide_reflect (n + BLE_PACKET_MIN_LEN > TUYA_BLE_AIR_FRAME_MAX)) as [|Hfit]; [done|].
  destruct (get16 dec (BLE_PACKET_CRC16_IND + n)) as [our|] eqn:Hour; [|done]. cbn [mbind option_bind].
  destruct (get_crc_16 dec (n + BLE_PACKET_DATA_IND)) as [his|] eqn:Hhis; [|done]. cbn [mbind option_bind].
  destruct (bool_decide_reflect (our <> his)) as [|Heq]; [done|].
  destruct (get32 dec BLE_PACKET_SN_IND) as [sn0|] eqn:Hsn; [|done]. cbn [mbind option_bind].
  destruct (bool_decide_reflect (sn0 <= recv_sn)) as [|Hlt]; [done|].
  destruct (get16 dec BLE_PACKET_CMD_IND) as [ty|] eqn:Hty; [|done]. cbn [mbind option_bind].
  unfold BLE_PACKET_DLEN_IND, BLE_PACKET_CRC16_IND, BLE_PACKET_SN_IND, BLE_PACKET_CMD_IND, BLE_PACKET_DATA_IND,
    BLE_PACKET_MIN_LEN, TUYA_BLE_AIR_FRAME_MAX in *.
  apply get16_slice in Hn as [Hn16 Hn]; [|done|lia]. apply get32_slice in Hsn; [|done|lia].
  apply get16_slice in Hty as [_ Hty]; [|done|lia]. unfold in_u in Hn16.
  apply get16_slice in Hour as [_ Hour]; [|done|lia].
  destruct (get_crc_16_ok dec (n + 12)) as [Hc _]; [by apply bytes_ok_take|lia|].
  rewrite Hhis in Hc. injection Hc as ->. assert (our = crc_ref 0xa001 0xffff (take (Z.to_nat (n + 12)) dec)) as ->
    by (destruct (decide (our = crc_ref 0xa001 0xffff (take (Z.to_nat (n + 12)) dec))); tauto).
  set (data := take (Z.to_nat n) (drop 12 dec)). set (ack := take 4 (drop 4 dec)).
  pose proof (packet_slices dec n sn0 ty Hl ltac:(lia) Hsn Hty Hn) as Hhead. fold data ack in Hhead.
  assert (Hack : zlen ack = 4) by (unfold ack, zlen in *; rewrite length_take, length_drop; lia).
  assert (Hall : take (Z.to_nat (14 + n)) dec = crc_text (be32 sn0 ++ ack ++ be16 ty ++ be16 n ++ data)).
  { unfold crc_text. rewrite <- Hhead. replace (Z.to_nat (14 + n)) with (Z.to_nat (n + 12) + 2)%nat by lia.
    rewrite <- (take_take_drop dec). f_equal. replace (12 + n) with (n + 12) in Hour by lia. by rewrite Hour. }
  case_bool_decide as H0.
  - destruct alloc; [|done]. rewrite mread_Some by lia. cbn [mbind option_bind]. intros [= <- <- <- <-].
    cbn [p_sn p_type p_len p_data p_mode default from_option id]. change (Z.to_nat 12) with 12%nat. fold data.
    split_and!; try done; try lia. by exists ack.
  - intros [= <- <- <- <-]. cbn [p_sn p_type p_len p_data p_mode default from_option id].
    assert (Hn0 : n = 0) by lia.
    assert (Hd : data = []) by (unfold data; by rewrite Hn0). rewrite Hd in Hall.
    split_and!; try done; try lia; try (by rewrite Hn0). by exists ack.
Qed.

(** ** Packets in plain text *)

Section cipher.
Context `{Cipher}.

Lemma packet_open_plain p sn packet tail l :
  let m := [0] ++ packet_text sn packet ++ tail in
  packet_ok packet -> p_mode packet = ENCRYPTION_MODE_NONE -> in_u 32 sn -> l_recv_sn l < sn ->
  17 <= zlen m <= TUYA_BLE_AIR_FRAME_MAX ->
  zlen (pr_dec_buf (l_recv l)) = TUYA_BLE_AIR_FRAME_MAX -> 2 <= tr_version (pr_trsmitr (l_recv l)) ->
  pr_raw_len (l_recv l) = zlen m -> take (Z.to_nat (zlen m)) (pr_raw_buf (l_recv l)) = m ->
  exists l', packet_open p l true = Some (OPRT_OK, l', false, Some (delivered sn packet)) /\ l_recv_sn l' = sn.
Proof.
  intros m Hp Hmode Hsn Hlt Hm Hdb Hver Hraw Hbuf. pose proof (packet_text_len sn _ Hp) as Htl. pose proof (po_len _ Hp).
  assert (Hml : zlen m = 1 + (14 + p_len packet) + zlen tail).
  { unfold m. rewrite !zlen_app, Htl. change (zlen [0]) with 1. lia. }
  pose proof (zlen_nonneg tail). unfold TUYA_BLE_AIR_FRAME_MAX in *.
  assert (Hrl : zlen m <= zlen (pr_raw_buf (l_recv l))).
  { apply (f_equal zlen) in Hbuf. rewrite zlen_take in Hbuf by lia. lia. }
  assert (Hz0 : zget (pr_raw_buf (l_recv l)) 0 = Some 0) by (rewrite (text_cell _ _ 0 (zlen m) Hbuf); [done|done|lia]).
  unfold packet_open. rewrite bool_decide_false by (unfold TUYA_BLE_AIR_FRAME_MAX; lia).
  rewrite bool_decide_false by lia. unfold tuya_ble_decryption. rewrite Hraw, Hz0.
  rewrite bool_decide_false by lia. ub_step. rewrite (bool_decide_false (0 >= _)) by (intros X; by apply X).
  rewrite (bool_decide_true (0 = _)) by done. rewrite (wrap_small 16) by (unfold in_u; lia).
  rewrite memcpy_mwrite by lia.
  assert (Hsrc : take (Z.to_nat (zlen m - 1)) (drop (Z.to_nat 1) (pr_raw_buf (l_recv l))) = packet_text sn packet ++ tail).
  { change (packet_text sn packet ++ tail) with (drop (Z.to_nat 1) m). rewrite <- Hbuf at 2.
    rewrite skipn_firstn_comm. f_equal. lia. }
  rewrite Hsrc.
  destruct (mwrite_is_Some (pr_dec_buf (l_recv l)) 0 (packet_text sn packet ++ tail)) as [out' Hw];
    [lia|rewrite zlen_app; lia|]. rewrite Hw. ub_step.
  rewrite bool_decide_false by (intros X; by apply X). cbn [pr_raw_buf]. rewrite Hz0.
  pose proof (mwrite_inv _ _ _ _ Hw) as (_ & _ & Hlo & _). apply mwrite_take in Hw.
  pose proof (packet_parse_ok out' sn (l_recv_sn l) packet) as Hparse. rewrite Hmode in Hparse.
  change ENCRYPTION_MODE_NONE with 0 in Hparse. rewrite Hparse; try done; unfold TUYA_BLE_AIR_FRAME_MAX; [|lia|lia|].
  - eexists. split; [reflexivity|done].
  - transitivity (take (Z.to_nat (14 + p_len packet)) (packet_text sn packet ++ tail)).
    + rewrite <- Hw, take_take. f_equal. rewrite zlen_app. lia.
    + rewrite <- Htl, zlen_to_nat. apply take_app_length.
Qed.

(** A packet in plain text is accepted from anyone: whatever the keys of the device are, paired
    or not, a message that starts with the mode 0 and a frame with a valid checksum and a new
    serial number is delivered to the handlers of the commands. *)
Theorem ble_plaintext_accepted g t version sn packet tail p l :
  let L := ble_frame_packet_len_get g in
  let m := [0] ++ packet_text sn packet ++ tail in
  packet_ok packet -> p_mode packet = ENCRYPTION_MODE_NONE -> in_u 32 sn -> l_recv_sn l < sn ->
  17 <= zlen m <= TUYA_BLE_AIR_FRAME_MAX -> 2 <= version < 16 ->
  tr_pkg_desc t = BLE_FRAME_PKG_INIT -> zlen (tr_subpkg t) = L -> 7 <= L < 2 ^ 16 ->
  L <= zlen (tr_subpkg (pr_trsmitr (l_recv l))) ->
  0 <= tr_subpkg_num (pr_trsmitr (l_recv l)) < 0x10000000 ->
  zlen (pr_dec_buf (l_recv l)) = TUYA_BLE_AIR_FRAME_MAX ->
  exists pkgs l',
    send_all (S (Z.to_nat (zlen m))) g t version m (zlen m) = Some pkgs /\
    link_run p l pkgs =
      Some (replicate (pred (length pkgs)) OPRT_SVC_BT_API_TRSMITR_CONTINUE ++ [OPRT_OK], l',
            [delivered sn packet]).
Proof.
  intros L m Hp Hmode Hsn Hlt Hm Hv Htd Hts HL HpL Hpn Hdb.
  destruct (sending_start g t version m (zlen m) Htd Hts) as (g1 & t1 & HS).
  destruct (send_recv_from (S (Z.to_nat (zlen m))) g t version m (zlen m) g1 t1 0 0 HS)
    as (pkgs & Hsend & _ & Hne & Hrecv); try done; try lia.
  destruct (Hrecv (l_recv l)) as (pr' & Hr & (Hrl & _ & Hrt) & Hv'); try done.
  pose proof (recv_all_dec _ _ _ _ Hr) as Hdb'.
  destruct (packet_open_plain p sn packet tail (Link pr' (l_recv_sn l) (l_ks l))) as (l' & Ho & _);
    cbn [l_recv l_recv_sn l_ks]; try done.
  - by rewrite Hdb'.
  - rewrite Hv'. lia.
  - fold m. rewrite Hrt. by rewrite zlen_to_nat, firstn_all.
  - exists pkgs, l'. split; [done|]. destruct l as [pr sn0 ks0]. cbn [l_recv l_recv_sn l_ks] in *.
    by apply (link_run_recv p pkgs pr pr' sn0 ks0 OPRT_OK l').
Qed.

(** The buffer of the encoder holds 1010 bytes of data: a longer packet is written past its
    end, as the length is checked after the data were copied. *)
Theorem ble_encode_overflow p ks sn packet f enc iv d :
  p_data packet = Some d -> 1010 < p_len packet < 2 ^ 16 -> zlen f = TUYA_BLE_AIR_FRAME_MAX ->
  ble_packet_encode p ks sn packet (Some f) (Some enc) iv = None.
Proof.
  intros Hd Hl Hf. unfold TUYA_BLE_AIR_FRAME_MAX in *. unfold ble_packet_encode, packet_frame. rewrite Hd.
  destruct (mwrite f 0 (packet_header sn packet)) as [f1|] eqn:H1; [|done]. ub_step.
  apply mwrite_inv in H1 as (_ & _ & Hl1 & _). unfold memcpy, BLE_PACKET_DATA_IND.
  destruct (mread d 0 (p_len packet)) as [s|] eqn:Hs; [|done]. ub_step.
  apply mread_inv in Hs as (_ & _ & _ & Hls & _).
  destruct (mwrite f1 12 s) as [f2|] eqn:H2; [|done]. apply mwrite_inv in H2 as (_ & Hfit & Hl2 & _).
  destruct (get_crc_16 f2 _) as [crc|]; [|done].
  assert (Hw : mwrite f2 (12 + p_len packet) (be16 crc) = None); [|by rewrite Hw].
  unfold mwrite. rewrite bool_decide_false; [done|]. change (zlen (be16 crc)) with 2. lia.
Qed.
End cipher.

(** ** Examples

    A toy cipher that satisfies the laws: the hash is the length of the text, encryption reverses
    the text. *)
Definition demo_md5 (s : bytes) : bytes := replicate 16 (u8 (zlen s)).

#[local] Instance demo_cipher : Cipher := {|
  md5 := demo_md5;
  aes_create := OPRT_OK;
  aes_free := OPRT_OK;
  aes_cbc enc key iv data := Some (rev data);
  aes_ecb key data := Some (rev data) |}.

#[local] Instance demo_laws : CipherLaws.
Proof.
  split; try done.
  - intros key data _ _. exists (rev data). split; [done|]. unfold zlen. by rewrite length_rev.
  - intros key iv data _ _ _. exists (rev data). split; [done|]. split; [unfold zlen; by rewrite length_rev|].
    cbn. by rewrite rev_involutive.
Qed.

Definition demo_crypto : ble_crypto_param_t :=
  Crypto (replicate 32 1) (replicate 16 2) (replicate 16 3) (replicate 17 4) (replicate 6 5).
Definition demo_link : ble_link := Link demo_receiver 4 key_statics_init.
Definition demo_packet (mode : Z) : ble_packet_t := Packet 9 0x27 40 (Some (seqZ 60 50)) mode.

Lemma demo_packet_ok mode : packet_ok (demo_packet mode).
Proof.
  split; [by vm_compute|by vm_compute|by vm_compute|].
  exists (seqZ 60 50). split; [done|]. split; [|by vm_compute].
  apply Forall_forall. intros x Hx%elem_of_seqZ. unfold in_u. lia.
Qed.

Lemma demo_usable ks : ks = key_statics_init -> usable demo_crypto ks.
Proof. intros ->. by vm_compute. Qed.

Lemma ble_packet_roundtrip_witness :
  exists msg len ks' pkgs l',
    ble_packet_encode demo_crypto key_statics_init 7 (demo_packet 15) (Some zero_frame) (Some zero_frame)
      (replicate 16 6) = Some (OPRT_OK, Some (msg, len), u32 (7 + 1), ks') /\
    send_all (S (Z.to_nat len)) (Statics 3 20) demo_sender TUYA_BLE_PROTOCOL_VERSION_HIGN msg len = Some pkgs /\
    link_run demo_crypto demo_link pkgs =
      Some (replicate (pred (length pkgs)) OPRT_SVC_BT_API_TRSMITR_CONTINUE ++ [OPRT_OK], l',
            [delivered 7 (demo_packet 15)]) /\
    l_recv_sn l' = 7.
Proof.
  apply (ble_packet_roundtrip (Statics 3 20) demo_sender demo_crypto key_statics_init 7 (demo_packet 15) zero_frame
    zero_frame (replicate 16 6) demo_crypto demo_link); try exact (demo_packet_ok 15); try exact (demo_usable _ eq_refl);
    try (vm_compute; done); try (vm_compute; split; done).
  right; right; right; by left.
Defined.

(** Two packets in plain text and the first one again. *)
Definition plain_message (sn : Z) : bytes := [0] ++ packet_text sn (demo_packet 0) ++ [7].
Definition plain_pkgs (sn : Z) : list bytes :=
  default [] (send_all 60 (Statics 3 20) demo_sender 4 (plain_message sn) (zlen (plain_message sn))).

Example replay_rejected :
  option_map (fun r => (p_sn <$> snd r, last (fst (fst r))))
    (link_run demo_crypto demo_link (plain_pkgs 5 ++ plain_pkgs 6 ++ plain_pkgs 5)) =
  Some ([5; 6], Some OPRT_INVALID_PARM).
Proof. by vm_compute. Qed.

Lemma ble_no_replay_witness :
  exists rts l' packets,
    link_run demo_crypto demo_link (plain_pkgs 5 ++ plain_pkgs 6 ++ plain_pkgs 5) = Some (rts, l', packets) /\
    StronglySorted Z.lt (4 :: map p_sn packets).
Proof.
  destruct (link_run demo_crypto demo_link (plain_pkgs 5 ++ plain_pkgs 6 ++ plain_pkgs 5)) as [[[rts l'] packets]|] eqn:Hr.
  - exists rts, l', packets. split; [done|]. exact (proj1 (ble_no_replay _ _ _ _ _ _ Hr)).
  - exfalso. revert Hr. vm_compute. discriminate.
Defined.

Lemma ble_plaintext_accepted_witness :
  exists pkgs l',
    send_all (S (Z.to_nat (zlen (plain_message 5)))) (Statics 3 20) demo_sender 4 (plain_message 5)
      (zlen (plain_message 5)) = Some pkgs /\
    link_run demo_crypto demo_link pkgs =
      Some (replicate (pred (length pkgs)) OPRT_SVC_BT_API_TRSMITR_CONTINUE ++ [OPRT_OK], l',
            [delivered 5 (demo_packet 0)]).
Proof.
  apply (ble_plaintext_accepted (Statics 3 20) demo_sender 4 5 (demo_packet 0) [7] demo_crypto demo_link);
    try exact (demo_packet_ok 0); try (vm_compute; done); vm_compute; split; done.
Defined.

Lemma ble_encode_overflow_witness :
  ble_packet_encode demo_crypto key_statics_init 7 (Packet 9 0x27 1011 (Some (replicate 1011 0)) 15)
    (Some zero_frame) (Some zero_frame) (replicate 16 6) = None.
Proof.
  apply (ble_encode_overflow demo_crypto key_statics_init 7 (Packet 9 0x27 1011 (Some (replicate 1011 0)) 15)
    zero_frame zero_frame (replicate 16 6) (replicate 1011 0)); [done|vm_compute; done|done].
Defined.

Lemma packet_accepted_witness :
  let dec := packet_text 5 (demo_packet 0) ++ replicate 970 7 in
  packet_parse dec 0 4 true = Some (OPRT_OK, 5, false, Some (delivered 5 (demo_packet 0))) /\
  4 < 5 /\ default [] (Some (seqZ 60 40)) = take 40 (drop 12 dec).
Proof.
  intros dec. assert (Hp : packet_parse dec 0 4 true = Some (OPRT_OK, 5, false, Some (delivered 5 (demo_packet 0))))
    by (by vm_compute).
  split; [exact Hp|]. split; [lia|].
  destruct (packet_accepted dec 0 4 true OPRT_OK 5 false (delivered 5 (demo_packet 0))) as (_ & _ & _ & _ & _ & _ & Hd & _);
    [|done|exact Hp|exact Hd].
  apply Forall_forall. intros x Hx. apply list_elem_of_In in Hx.
  assert (Hall : forallb (fun x => (0 <=? x) && (x <? 256)) dec = true) by (by vm_compute).
  rewrite forallb_forall in Hall. specialize (Hall x Hx). unfold in_u. lia.
Defined.
