(* ===== verification/BleDp.v ===== *)
(** * Data points over BLE

    src/src/tuya_cloud_service/ble/ble_dp.c: lists of identifier, type, length and value (KLV),
    their text, reports, commands and queries. A list is the Rocq list of its nodes, NULL the
    empty one; memory is little-endian. *)
From S2P Require Import Prelude DpSchema BlePacket.

Definition DT_RAW : Z := 0.
Definition DT_BOOL : Z := 1.
Definition DT_VALUE : Z := 2.
Definition DT_STRING : Z := 3.
Definition DT_ENUM : Z := 4.
Definition DT_BITMAP : Z := 5.
Definition DT_LMT : Z := 10.
Definition DT_VALUE_LEN : Z := 4.
Definition DT_BOOL_LEN : Z := 4.
Definition DT_ENUM_LEN : Z := 4.
Definition DT_BITMAP_MAX : Z := 4.

Definition FRM_STATE_QUERY : Z := 0x3.
Definition FRM_DP_CMD_SEND_V4 : Z := 0x27.
Definition FRM_DP_STAT_REPORT_V4 : Z := 0x8006.
Definition FRM_DP_STAT_REPORT_WITH_TIME_V4 : Z := 0x8007.
Definition TUYA_BLE_TRANSMISSION_MAX_DATA_LEN : Z := 995.

(** [k_data]: the allocated memory, [None] for NULL. *)
Record klv_node_s := Klv { k_id : Z; k_type : Z; k_len : Z; k_data : option bytes }.

(** A 32-bit number in memory. *)
Definition load32 (b : bytes) : option Z :=
  x ← zget b 0; y ← zget b 1; z ← zget b 2; w ← zget b 3;
  Some (x + Z.shiftl y 8 + Z.shiftl z 16 + Z.shiftl w 24).

(** [data]: the copy of the value, [None] for NULL. *)
Definition tuya_change_bt_dp_tlv (type : Z) (data : option bytes) (len : Z) : option (option bytes * Z) :=
  if bool_decide (DT_ENUM = type) then
    d ← data; v ← load32 d;
    if bool_decide (v <= 0xff) then d ← mwrite d 0 [u8 v]; Some (Some d, 1)
    else if bool_decide (v <= 0xffff) then d ← mwrite d 0 (be16 v); Some (Some d, 2)
    else d ← mwrite d 0 (be32 v); Some (Some d, 4)
  else if bool_decide (DT_BOOL = type) then
    d ← data; v ← load32 d; d ← mwrite d 0 [u8 v]; Some (Some d, 1)
  else Some (data, len).

(** [data]: the memory behind the pointer; [a1], [a2], [a3]: the results of the allocations for the
    copy, the node and its data, whose memory is not cleared ([fresh]). *)
Definition make_klv_list (l : list klv_node_s) (id type : Z) (data : option bytes) (len : Z)
    (a1 a2 a3 : bool) (fresh : bytes) : option (list klv_node_s) :=
  match data with
  | None => Some []
  | Some data =>
      if bool_decide (type >= DT_LMT) then Some []
      else if bool_decide (DT_VALUE = type /\ DT_VALUE_LEN <> len) then Some []
      else if bool_decide (DT_BITMAP = type /\ len > DT_BITMAP_MAX) then Some []
      else if bool_decide (DT_BOOL = type /\ DT_BOOL_LEN <> len) then Some []
      else if bool_decide (DT_ENUM = type /\ DT_ENUM_LEN <> len) then Some []
      else if bool_decide (len > 0) && negb a1 then Some []
      else
        p ← (if bool_decide (len > 0) then d ← mread data 0 len; Some (Some d) else Some None);
        r ← tuya_change_bt_dp_tlv type p len;
        let '(p, len) := r in
        if negb a2 then Some []
        else if bool_decide (len > 0) && negb a3 then Some []
        else
          let mem := if bool_decide (len > 0) then Some (take (Z.to_nat len) fresh) else None in
          mem ← (if bool_decide (DT_VALUE = type) || bool_decide (DT_BITMAP = type) then
                   p ← p; tmp ← load32 p; m ← mem; m ← mwrite m 0 (be32 tmp); Some (Some m)
                 else if bool_decide (len > 0) then
                   p ← p; m ← mem; m ← memcpy m 0 p 0 len; Some (Some m)
                 else Some mem);
          Some (Klv id type len mem :: l)
  end.

(** ** The text of a list *)

Fixpoint klv_write (mk : bytes) (offset : Z) (l : list klv_node_s) : option (bytes * Z) :=
  match l with
  | [] => Some (mk, offset)
  | n :: l =>
      mk ← mwrite mk offset ([k_id n; k_type n] ++ be16 (k_len n));
      mk ← (if bool_decide (k_len n > 0) then d ← k_data n; memcpy mk (offset + 4) d 0 (k_len n) else Some mk);
      klv_write mk (offset + 4 + k_len n) l
  end.

(** [rest]: the size of a node without its first pointer; the sum of the lengths. *)
Definition mk_data_len (rest : Z) (has_time : bool) (l : list klv_node_s) : Z :=
  foldl (fun a n => a + (rest + k_len n)) (7 + (if has_time then 5 else 0)) l.

(** [mk]: the allocated memory, not cleared; [sn]: the static serial number. The code, the text,
    its length and the next serial number. *)
Definition klvlist_2_data (rest : Z) (l : list klv_node_s) (time : option bytes) (query : bool) (flag sn : Z)
    (alloc : bool) (fresh : bytes) : option (Z * option (bytes * Z) * Z) :=
  match l with
  | [] => Some (OPRT_INVALID_PARM, None, sn)
  | _ =>
      if negb alloc then Some (OPRT_MALLOC_FAILED, None, sn)
      else
        let mk := take (Z.to_nat (mk_data_len rest (match time with Some _ => true | None => false end) l)) fresh in
        mk ← mwrite mk 0 ([0] ++ be32 sn ++ [if query then 1 else 0; flag]);
        r ← match time with
            | Some ts => mk ← zset mk 7 1; mk ← memcpy mk 8 ts 0 4; Some (mk, 12)
            | None => Some (mk, 7)
            end;
        r ← klv_write (fst r) (snd r) l;
        Some (OPRT_OK, Some r, u32 (sn + 1))
  end.

(** ** A list from its text *)

(** The loop from [offset] on, at most [fuel] rounds; [alloc]: the results of the allocations of
    round [k]; [inr]: an error. *)
Fixpoint klv_read (fuel : nat) (data : bytes) (len offset : Z) (alloc : nat -> bool * bool) (k : nat)
    (acc : list klv_node_s) : option (list klv_node_s + Z) :=
  match fuel with
  | O => None
  | S fuel =>
      if bool_decide (u32 (len - offset) < 4) then Some (inr OPRT_COM_ERROR)
      else if negb (fst (alloc k)) then Some (inr OPRT_MALLOC_FAILED)
      else
        id ← zget data offset;
        type ← zget data (offset + 1);
        h ← zget data (offset + 2);
        lo ← zget data (offset + 3);
        let n := u16 (Z.shiftl h 8 + lo) in
        let offset := offset + 4 in
        if bool_decide (n > 0) && negb (snd (alloc k)) then Some (inr OPRT_MALLOC_FAILED)
        else if bool_decide (n > 0) && bool_decide (u32 (len - offset) < n) then Some (inr OPRT_COM_ERROR)
        else
          mem ← (if bool_decide (n > 0) then d ← mread data offset n; Some (Some (d ++ [0])) else Some None);
          let acc := Klv id type n mem :: acc in
          let offset := offset + n in
          if bool_decide (offset < len) then klv_read fuel data len offset alloc (S k) acc
          else Some (inl acc)
  end.

Definition data_2_klvlist (data : option bytes) (len : Z) (alloc : nat -> bool * bool)
    : option (Z * list klv_node_s) :=
  match data with
  | None => Some (OPRT_INVALID_PARM, [])
  | Some data =>
      r ← klv_read (S (Z.to_nat len)) data len 0 alloc 0 [];
      Some (match r with inl l => (OPRT_OK, l) | inr code => (code, []) end)
  end.

(** ** Reports *)

Definition val_mem (v : dp_value_t) : bytes := le32 (u32 (dp_word v)).

(** Type, memory and length of a value. *)
Definition klv_source (dp : dp_obj_t) : option (option (Z * bytes * Z)) :=
  let v := dp_val dp in
  if bool_decide (dp_type dp = PROP_BOOL) then Some (Some (DT_BOOL, val_mem v, DT_BOOL_LEN))
  else if bool_decide (dp_type dp = PROP_VALUE) then Some (Some (DT_VALUE, val_mem v, DT_VALUE_LEN))
  else if bool_decide (dp_type dp = PROP_STR) then
    s ← dp_str v; Some (Some (DT_STRING, s ++ [0], u16 (zlen s)))
  else if bool_decide (dp_type dp = PROP_ENUM) then Some (Some (DT_ENUM, val_mem v, DT_ENUM_LEN))
  else if bool_decide (dp_type dp = PROP_BITMAP) then Some (Some (DT_BITMAP, val_mem v, DT_BITMAP_MAX))
  else Some None.

Section report.
(** [fresh]: the contents of allocated memory; [rest]: as above; [ble_send]: the result of
    [tuya_ble_send]. *)
Context (fresh : bytes) (rest : Z) (ble_send : Z -> bytes -> Z).

(** [allocs]: the results of the allocations of each round. *)
Fixpoint make_obj_dp_klv_list (dps : list dp_obj_t) (allocs : nat -> bool * bool * bool) (k : nat)
    (l : list klv_node_s) : option (list klv_node_s) :=
  match dps with
  | [] => Some l
  | dp :: dps =>
      src ← klv_source dp;
      match src with
      | None => make_obj_dp_klv_list dps allocs (S k) l
      | Some (type, mem, len) =>
          let '(a1, a2, a3) := allocs k in
          l ← make_klv_list l (dp_id dp) type (Some mem) len a1 a2 a3 fresh;
          make_obj_dp_klv_list dps allocs (S k) l
      end
  end.

Definition dp_data_report_data (type : Z) (data : option (bytes * Z)) : option (Z * option (Z * bytes)) :=
  match data with
  | None => Some (OPRT_INVALID_PARM, None)
  | Some (d, len) =>
      if bool_decide (len > TUYA_BLE_TRANSMISSION_MAX_DATA_LEN) || bool_decide (len = 0)
      then Some (OPRT_INVALID_PARM, None)
      else d ← mread d 0 len; Some (ble_send type d, Some (type, d))
  end.

(** The code, the command that is sent and the serial number. *)
Definition ty_bt_dp_data_report (l : list klv_node_s) (time_stamp sn : Z) (alloc : bool)
    : option (Z * option (Z * bytes) * Z) :=
  match l with
  | [] => Some (OPRT_INVALID_PARM, None, sn)
  | _ =>
      let time := if bool_decide (time_stamp > 0) then Some (be32 time_stamp) else None in
      r ← klvlist_2_data rest l time false 0 sn alloc fresh;
      let '(_, data, sn) := r in
      let type := match time with Some _ => FRM_DP_STAT_REPORT_WITH_TIME_V4 | None => FRM_DP_STAT_REPORT_V4 end in
      r ← dp_data_report_data type data;
      Some (r, sn)
  end.

(** [now]: the time. *)
Definition dp_get_time_stamp (dps : list dp_obj_t) (now : Z) : Z :=
  match dps with
  | [] => now
  | dp :: _ => if bool_decide (dp_time dp = 0) then now else dp_time dp
  end.

(** [raw]: the raw data point of the report, its identifier, its length and the memory. *)
Definition ble_dp_report (rt : Z) (dps : list dp_obj_t) (raw : Z * Z * bytes) (now sn : Z)
    (allocs : nat -> bool * bool * bool) (alloc : bool) : option (Z * option (Z * bytes) * Z) :=
  if bool_decide (rt = T_OBJ_REPT) then
    l ← make_obj_dp_klv_list dps allocs 0 [];
    ty_bt_dp_data_report l (dp_get_time_stamp dps now) sn alloc
  else if bool_decide (rt = T_STAT_REPT) then ty_bt_dp_data_report [] 0 sn alloc
  else if bool_decide (rt = T_RAW_REPT) then
    let '(id, len, mem) := raw in
    let '(a1, a2, a3) := allocs 0%nat in
    l ← make_klv_list [] id DT_RAW (Some mem) len a1 a2 a3 fresh;
    ty_bt_dp_data_report l 0 sn alloc
  else Some (OPRT_INVALID_PARM, None, sn).

(** ** Queries *)

(** Type, memory and length of a cached value. *)
Definition prop_source (p : dp_prop) : option (Z * bytes * Z) :=
  match p with
  | PropBool v => Some (DT_BOOL, le32 v, DT_BOOL_LEN)
  | PropInt _ _ _ v => Some (DT_VALUE, le32 (u32 v), DT_VALUE_LEN)
  | PropStr _ _ v => s ← v; Some (DT_STRING, s ++ [0], u16 (zlen s))
  | PropEnum _ _ v => Some (DT_ENUM, le32 (u32 v), DT_ENUM_LEN)
  | PropBitmap _ v => Some (DT_BITMAP, le32 v, DT_BITMAP_MAX)
  end.

Fixpoint query_list (ns : list dp_node_t) (allocs : nat -> bool * bool * bool) (k : nat)
    (l : list klv_node_s) : option (list klv_node_s) :=
  match ns with
  | [] => Some l
  | n :: ns =>
      if bool_decide (d_mode (desc n) = M_WR) then query_list ns allocs (S k) l
      else if bool_decide (d_type (desc n) = T_OBJ) then
        src ← prop_source (prop n);
        let '(type, mem, len) := src in
        let '(a1, a2, a3) := allocs k in
        l ← make_klv_list l (d_id (desc n)) type (Some mem) len a1 a2 a3 fresh;
        query_list ns allocs (S k) l
      else query_list ns allocs (S k) l
  end.

(** The commands that are sent: the acknowledgement with the packet's type and the report. *)
Definition ble_dp_query (schema : option dp_schema_t) (type sn : Z) (allocs : nat -> bool * bool * bool)
    (alloc : bool) : option (Z * list (Z * bytes) * Z) :=
  let ack := (type, [0]) in
  match schema with
  | None => Some (OPRT_INVALID_PARM, [ack], sn)
  | Some s =>
      l ← query_list (nodes s) allocs 0 [];
      match l with
      | [] => Some (OPRT_OK, [ack], sn)
      | _ =>
          r ← klvlist_2_data rest l None true 0 sn alloc fresh;
          let '(_, data, sn) := r in
          r ← dp_data_report_data FRM_DP_STAT_REPORT_V4 data;
          Some (OPRT_OK, ack :: (match snd r with Some c => [c] | None => [] end), sn)
      end
  end.
End report.

(** ** Commands *)

Section command.
Context (base64_encode : bytes -> bytes).

(** The member that a node adds to the object ([None]: nothing). *)
Definition klv_json (ns : list dp_node_t) (n : klv_node_s) : option (option (Z * jval)) :=
  if bool_decide (k_type n = DT_RAW) then
    d ← (if bool_decide (k_len n > 0) then d ← k_data n; mread d 0 (k_len n) else Some []);
    Some (Some (k_id n, JString (base64_encode d)))
  else if bool_decide (k_type n = DT_BOOL) then
    d ← k_data n; b ← zget d 0; Some (Some (k_id n, JBool (if bool_decide (b = 0) then 0 else 1)))
  else if bool_decide (k_type n = DT_BITMAP) || bool_decide (k_type n = DT_VALUE) then
    d ← k_data n; v ← get32 d 0; Some (Some (k_id n, JNumber (i32 v)))
  else if bool_decide (k_type n = DT_ENUM) then
    d ← k_data n; v ← zget d 0;
    match dp_node_find ns (k_id n) with
    | None => Some None
    | Some (_, node) =>
        match prop node with
        | PropEnum _ pp_enum _ => s ← zget pp_enum v; Some (Some (k_id n, JString s))
        | _ => None
        end
    end
  else if bool_decide (k_type n = DT_STRING) then
    Some (Some (k_id n, JString (match k_data n with None => [] | Some d => c_string d end)))
  else Some None.

Fixpoint klv_members (ns : list dp_node_t) (l : list klv_node_s) : option (list (Z * jval)) :=
  match l with
  | [] => Some []
  | n :: l =>
      m ← klv_json ns n;
      ms ← klv_members ns l;
      Some (match m with Some m => m :: ms | None => ms end)
  end.

(** The code, the acknowledgement and the members that go to [tuya_iot_dp_parse] with its result
    [parse_rt]; the allocations of JSON objects succeed or fail ([j1], [j2]). *)
Definition ble_dp_req (ns : list dp_node_t) (req : ble_packet_t) (j1 j2 : bool) (alloc : nat -> bool * bool)
    (parse_rt : Z) : option (Z * list (Z * bytes) * option (list (Z * jval))) :=
  if bool_decide (p_type req = FRM_DP_CMD_SEND_V4) then
    d ← p_data req;
    head ← mread d 0 5;
    let ack := [(FRM_DP_CMD_SEND_V4, head ++ [0])] in
    let len := u16 (p_len req - 5) in
    if negb j1 || negb j2 then Some (OPRT_CR_CJSON_ERR, ack, None)
    else
      r ← data_2_klvlist (Some (drop 5 d)) len alloc;
      let '(ret, l) := r in
      if bool_decide (OPRT_OK <> ret) then Some (OPRT_CJSON_PARSE_ERR, ack, None)
      else ms ← klv_members ns l; Some (parse_rt, ack, Some ms)
  else Some (OPRT_NOT_SUPPORTED, [], None).
End command.

(** ** The text of a list and back *)

Lemma be16_value n : in_u 16 n -> u16 (Z.shiftl (u8 (Z.shiftr n 8)) 8 + u8 n) = n.
Proof.
  intros Hn. pose proof (be16_get (be16 n) 0 n Hn eq_refl eq_refl) as Hb. unfold get16 in Hb.
  change (zget (be16 n) 0) with (Some (u8 (Z.shiftr n 8))) in Hb.
  change (zget (be16 n) (0 + 1)) with (Some (u8 n)) in Hb. cbn [mbind option_bind] in Hb. injection Hb as Hb.
  rewrite (wrap_small 16 (Z.shiftl _ 8)) in Hb; [done|].
  pose proof (wrap_range 8 (Z.shiftr n 8) ltac:(lia)) as Hw. unfold in_u in *.
  rewrite Z.shiftl_mul_pow2 by lia. lia.
Qed.

Record node_wf (n : klv_node_s) : Prop := {
  nw_id : in_u 8 (k_id n);
  nw_type : in_u 8 (k_type n);
  nw_len : in_u 16 (k_len n);
  nw_data : 0 < k_len n -> exists d, k_data n = Some d /\ k_len n <= zlen d }.

Definition content (n : klv_node_s) : bytes := take (Z.to_nat (k_len n)) (default [] (k_data n)).
Definition node_text (n : klv_node_s) : bytes := [k_id n; k_type n] ++ be16 (k_len n) ++ content n.
Definition list_text (l : list klv_node_s) : bytes := concat (map node_text l).

(** A node as the parser makes it: a terminator follows the data. *)
Definition parsed (n : klv_node_s) : klv_node_s :=
  Klv (k_id n) (k_type n) (k_len n) (if bool_decide (k_len n > 0) then Some (content n ++ [0]) else None).

Lemma content_len n : node_wf n -> zlen (content n) = k_len n.
Proof.
  intros [_ _ Hl Hd]. unfold in_u in Hl. unfold content. destruct (decide (0 < k_len n)) as [H0|H0].
  - destruct (Hd H0) as (d & -> & Hle). cbn [default from_option id]. rewrite zlen_take by lia. lia.
  - replace (Z.to_nat (k_len n)) with 0%nat by lia. rewrite take_0. change (zlen (@nil Z)) with 0. lia.
Qed.

Lemma node_text_len n : node_wf n -> zlen (node_text n) = 4 + k_len n.
Proof.
  intros Hn. unfold node_text. rewrite !zlen_app, (content_len n Hn).
  change (zlen [k_id n; k_type n]) with 2. change (zlen (be16 (k_len n))) with 2. lia.
Qed.

Lemma klv_write_ok l : forall mk off,
  Forall node_wf l -> 0 <= off -> off + zlen (list_text l) <= zlen mk ->
  exists mk', klv_write mk off l = Some (mk', off + zlen (list_text l)) /\ mwrite mk off (list_text l) = Some mk'.
Proof.
  induction l as [|n l IH]; intros mk off Hl Hoff Hfit.
  { exists mk. cbn [klv_write]. unfold list_text. cbn [map concat]. change (zlen (@nil Z)) with 0.
    rewrite Z.add_0_r. split; [done|]. apply mwrite_nil. change (zlen (list_text [])) with 0 in Hfit. lia. }
  inversion Hl as [|? ? Hn Hl']; subst. unfold list_text in *. cbn [map concat] in *.
  pose proof (node_text_len n Hn) as Hnl. pose proof (content_len n Hn) as Hcl.
  pose proof (zlen_nonneg (concat (map node_text l))). rewrite zlen_app, Hnl in Hfit.
  pose proof (nw_len _ Hn) as Hk. unfold in_u in Hk. cbn [klv_write].
  destruct (mwrite_is_Some mk off ([k_id n; k_type n] ++ be16 (k_len n))) as [m1 H1];
    [lia|change (zlen ([k_id n; k_type n] ++ be16 (k_len n))) with 4; lia|].
  rewrite H1. ub_step. pose proof (mwrite_inv _ _ _ _ H1) as (_ & _ & Hl1 & _).
  assert (Hcopy : exists m2, (if bool_decide (k_len n > 0) then d ← k_data n; memcpy m1 (off + 4) d 0 (k_len n)
      else Some m1) = Some m2 /\ mwrite mk off (node_text n) = Some m2).
  { case_bool_decide as H0.
    - destruct (nw_data _ Hn ltac:(lia)) as (d & Hd & Hle). rewrite Hd. ub_step.
      rewrite memcpy_mwrite by lia. rewrite drop_0.
      assert (Hc : take (Z.to_nat (k_len n)) d = content n) by (unfold content; by rewrite Hd).
      rewrite Hc. destruct (mwrite_is_Some m1 (off + 4) (content n)) as [m2 H2]; [lia|lia|].
      exists m2. split; [done|]. unfold node_text. rewrite app_assoc. eapply mwrite_app; [exact H1|exact H2].
    - exists m1. split; [done|]. assert (Hc : content n = []) by (apply length_zero_iff_nil; unfold zlen in Hcl; lia).
      unfold node_text. rewrite Hc, app_nil_r. done. }
  destruct Hcopy as (m2 & Hc2 & Hw2). unfold mbind, option_bind in Hc2. rewrite Hc2.
  pose proof (mwrite_inv _ _ _ _ Hw2) as (_ & _ & Hl2 & _).
  destruct (IH m2 (off + 4 + k_len n)) as (m3 & -> & Hw3); [done|lia|lia|].
  exists m3. split; [rewrite zlen_app, Hnl; do 2 f_equal; lia|].
  eapply mwrite_app; [exact Hw2|]. rewrite Hnl. by rewrite Z.add_assoc.
Qed.

Definition all_ok (k : nat) : bool * bool := (true, true).

Lemma klv_read_ok l : forall fuel pre rest len k acc,
  Forall node_wf l -> l <> [] -> (length l <= fuel)%nat -> len = zlen pre + zlen (list_text l) -> len < 2 ^ 32 ->
  klv_read fuel (pre ++ list_text l ++ rest) len (zlen pre) all_ok k acc =
    Some (inl (rev (map parsed l) ++ acc)).
Proof.
  induction l as [|n l IH]; intros fuel pre rest len k acc Hl Hne Hf Hlen Hmax; [done|].
  inversion Hl as [|? ? Hn Hl']; subst. destruct fuel as [|fuel]; [cbn [length] in Hf; lia|].
  unfold list_text in *. cbn [map concat] in *. pose proof (node_text_len n Hn) as Hnl.
  pose proof (content_len n Hn) as Hcl. pose proof (nw_len _ Hn) as Hk. pose proof (zlen_nonneg pre).
  pose proof (zlen_nonneg (concat (map node_text l))) as Ht0. rewrite zlen_app, Hnl in *.
  set (t := concat (map node_text l)) in *. cbn [klv_read]. unfold in_u in Hk.
  rewrite (wrap_small 32) by (unfold in_u; lia). rewrite bool_decide_false by lia. cbn [fst snd all_ok negb].
  assert (Hg : forall i, 0 <= i < 4 + k_len n ->
    zget (pre ++ (node_text n ++ t) ++ rest) (zlen pre + i) = zget (node_text n) i).
  { intros i Hi. rewrite zget_app_r by lia. rewrite <- app_assoc, zget_app_l by lia. f_equal. lia. }
  pose proof (Hg 0 ltac:(lia)) as Hg0. rewrite Z.add_0_r in Hg0.
  rewrite Hg0, (Hg 1), (Hg 2), (Hg 3) by lia.
  change (zget (node_text n) 0) with (Some (k_id n)). change (zget (node_text n) 1) with (Some (k_type n)).
  change (zget (node_text n) 2) with (Some (u8 (Z.shiftr (k_len n) 8))).
  change (zget (node_text n) 3) with (Some (u8 (k_len n))). cbv beta iota. ub_step.
  rewrite (be16_value _ Hk), andb_false_r. rewrite (wrap_small 32) by (unfold in_u; lia).
  rewrite (bool_decide_false (zlen pre + (4 + k_len n + zlen t) - (zlen pre + 4) < k_len n)) by lia.
  rewrite andb_false_r.
  assert (Hmem : (if bool_decide (k_len n > 0) then
      d ← mread (pre ++ (node_text n ++ t) ++ rest) (zlen pre + 4) (k_len n); Some (Some (d ++ [0]))
      else Some None) = Some (k_data (parsed n))).
  { unfold parsed. cbn [k_data]. case_bool_decide; [|done].
    assert (Hm : mread (pre ++ (node_text n ++ t) ++ rest) (zlen pre + 4) (k_len n) = Some (content n)); [|by rewrite Hm].
    unfold node_text.
    replace (pre ++ (([k_id n; k_type n] ++ be16 (k_len n) ++ content n) ++ t) ++ rest)
      with ((pre ++ [k_id n; k_type n] ++ be16 (k_len n)) ++ content n ++ t ++ rest) by (by rewrite <- !app_assoc).
    rewrite <- Hcl. apply mread_middle; [|done]. rewrite !zlen_app. change (zlen [k_id n; k_type n]) with 2.
    change (zlen (be16 ?x)) with 2. lia. }
  unfold mbind, option_bind in Hmem. rewrite Hmem. fold (parsed n).
  change (Klv (k_id n) (k_type n) (k_len n) (k_data (parsed n))) with (parsed n).
  destruct l as [|n2 l].
  - unfold t. cbn [map concat]. change (zlen (@nil Z)) with 0. rewrite bool_decide_false by lia. done.
  - rewrite bool_decide_true.
    2:{ inversion Hl' as [|? ? Hn2 _]; subst. unfold t. cbn [map concat]. rewrite zlen_app, (node_text_len n2 Hn2).
        pose proof (nw_len _ Hn2) as Hk2. unfold in_u in Hk2. pose proof (zlen_nonneg (concat (map node_text l))). lia. }
    specialize (IH fuel (pre ++ node_text n) rest (zlen pre + (4 + k_len n + zlen t)) (S k) (parsed n :: acc)).
    rewrite zlen_app, Hnl, <- app_assoc in IH. rewrite <- app_assoc.
    replace (zlen pre + 4 + k_len n) with (zlen pre + (4 + k_len n)) by lia.
    rewrite IH; [|done|done|cbn [length] in *; lia|lia|lia]. change (rev (parsed n :: map parsed (n2 :: l))) with (rev (map parsed (n2 :: l)) ++ [parsed n]).
    by rewrite <- app_assoc.
Qed.

(** The room that was counted is enough. *)
Lemma mk_data_room rest l (has_time : bool) :
  4 <= rest -> Forall node_wf l ->
  7 + (if has_time then 5 else 0) + zlen (list_text l) <= mk_data_len rest has_time l.
Proof.
  intros Hr. unfold mk_data_len. generalize (7 + (if has_time then 5 else 0)). intros a Hl. revert a.
  induction Hl as [|n l Hn _ IH]; intros a; cbn [foldl]; unfold list_text in *; cbn [map concat].
  { change (zlen (@nil Z)) with 0. lia. }
  rewrite zlen_app, (node_text_len n Hn). specialize (IH (a + (rest + k_len n))). lia.
Qed.

Definition list_header (sn : Z) (time : option bytes) (query : bool) (flag : Z) : bytes :=
  ([0] ++ be32 sn ++ [if query then 1 else 0; flag]) ++
  match time with Some ts => [1] ++ take 4 ts | None => [] end.

Lemma list_header_pos sn time query flag : 0 < zlen (list_header sn time query flag).
Proof. unfold list_header. cbn [app]. rewrite zlen_cons.
  match goal with |- context [zlen ?l] => pose proof (zlen_nonneg l); lia end.
Qed.

Lemma klvlist_2_data_ok rest l time query flag sn fresh :
  let n := mk_data_len rest (match time with Some _ => true | None => false end) l in
  4 <= rest -> Forall node_wf l -> l <> [] -> n <= zlen fresh ->
  (match time with Some ts => zlen ts = 4 | None => True end) ->
  exists mk, klvlist_2_data rest l time query flag sn true fresh =
      Some (OPRT_OK, Some (mk, zlen (list_header sn time query flag ++ list_text l)), u32 (sn + 1)) /\
    mread mk 0 (zlen (list_header sn time query flag ++ list_text l)) =
      Some (list_header sn time query flag ++ list_text l).
Proof.
  intros n Hr Hl Hne Hfresh Hts. pose proof (mk_data_room rest l (match time with Some _ => true | None => false end) Hr Hl) as Hroom.
  fold n in Hroom.
  assert (Hroom' : 7 + (match time with Some _ => 5 | None => 0 end) + zlen (list_text l) <= n /\
    0 <= (match time with Some _ => 5 | None => 0 end)) by (split; [by destruct time|by destruct time]).
  clear Hroom. pose proof (zlen_nonneg (list_text l)). unfold klvlist_2_data. destruct l as [|x l]; [done|].
  set (ll := x :: l) in *. cbn [negb]. fold n. set (mk := take (Z.to_nat n) fresh).
  set (h := [0] ++ be32 sn ++ [if query then 1 else 0; flag]).
  assert (Hh : zlen h = 7) by done.
  assert (Hmk : zlen mk = n) by (unfold mk; rewrite zlen_take by lia; lia).
  destruct (mwrite_is_Some mk 0 h) as [m1 H1]; [lia|lia|]. rewrite H1. ub_step.
  pose proof (mwrite_inv _ _ _ _ H1) as (_ & _ & Hl1 & _).
  assert (Htime : exists m2, (match time with
      | Some ts => match zset m1 7 1 with Some mk => match memcpy mk 8 ts 0 4 with
          | Some mk => Some (mk, 12) | None => None end | None => None end
      | None => Some (m1, 7) end) = Some (m2, zlen (list_header sn time query flag)) /\
      mwrite mk 0 (list_header sn time query flag) = Some m2).
  { unfold list_header. fold h. destruct time as [ts|].
    - destruct (zset_is_Some m1 7 1) as [m2 H2]; [lia|]. rewrite H2.
      pose proof (zset_inv _ _ _ _ H2) as (_ & Hl2 & _).
      rewrite memcpy_mwrite by lia. rewrite drop_0. change (Z.to_nat 4) with 4%nat.
      assert (Ht4 : zlen (take 4 ts) = 4) by (unfold zlen in *; rewrite length_take; lia).
      destruct (mwrite_is_Some m2 8 (take 4 ts)) as [m3 H3]; [lia|lia|]. rewrite H3. exists m3.
      split; [rewrite !zlen_app, Ht4; done|]. eapply mwrite_app; [exact H1|]. cbn [app].
      eapply mwrite_cons; [exact H2|exact H3].
    - exists m1. rewrite app_nil_r. done. }
  destruct Htime as (m2 & Hm2 & Hw2). rewrite Hm2. cbn [fst snd].
  pose proof (mwrite_inv _ _ _ _ Hw2) as (_ & _ & Hlm2 & _).
  assert (Hhl : zlen (list_header sn time query flag) = 7 + (match time with Some _ => 5 | None => 0 end)).
  { unfold list_header. fold h. rewrite zlen_app, Hh. destruct time as [ts|]; [|done].
    rewrite zlen_app. change (zlen [1]) with 1.
    assert (zlen (take 4 ts) = 4) by (unfold zlen in *; rewrite length_take; lia). lia. }
  destruct (klv_write_ok ll m2 (zlen (list_header sn time query flag)) Hl) as (m3 & -> & Hw3);
    [lia|lia|].
  exists m3. rewrite zlen_app. split; [done|].
  assert (Hw : mwrite mk 0 (list_header sn time query flag ++ list_text ll) = Some m3)
    by (eapply mwrite_app; [exact Hw2|exact Hw3]).
  pose proof (mwrite_inv _ _ _ _ Hw) as (_ & Hfit & Hlm3 & _). rewrite zlen_app in Hfit.
  rewrite mread_Some by lia. rewrite drop_0. f_equal. rewrite <- zlen_app. by apply mwrite_take in Hw.
Qed.

Lemma data_2_klvlist_ok l tail :
  Forall node_wf l -> l <> [] -> zlen (list_text l) < 2 ^ 32 ->
  data_2_klvlist (Some (list_text l ++ tail)) (zlen (list_text l)) all_ok = Some (OPRT_OK, rev (map parsed l)).
Proof.
  intros Hl Hne Hmax. unfold data_2_klvlist.
  assert (Hlen : (length l <= S (Z.to_nat (zlen (list_text l))))%nat).
  { clear -Hl. induction Hl as [|x l Hx _ IH]; [cbn; lia|]. unfold list_text in *. cbn [map concat length].
    rewrite zlen_app, (node_text_len x Hx). pose proof (nw_len _ Hx) as Hk. unfold in_u in Hk.
    pose proof (zlen_nonneg (concat (map node_text l))). lia. }
  pose proof (klv_read_ok l (S (Z.to_nat (zlen (list_text l)))) [] tail (zlen (list_text l)) 0 [] Hl Hne Hlen eq_refl
    Hmax) as Hread.
  cbn [app] in Hread. change (zlen (@nil Z)) with 0 in Hread. rewrite Hread. ub_step. by rewrite app_nil_r.
Qed.

(** The text of a list of values, and the list from the text: the room that is counted holds
    it, whatever the size of a pointer, and the parser gives the values back, in reverse order. *)
Theorem klv_roundtrip rest l time query flag sn fresh tail :
  let n := mk_data_len rest (match time with Some _ => true | None => false end) l in
  4 <= rest -> Forall node_wf l -> l <> [] -> n <= zlen fresh -> n < 2 ^ 32 ->
  (match time with Some ts => zlen ts = 4 | None => True end) ->
  exists mk, klvlist_2_data rest l time query flag sn true fresh =
      Some (OPRT_OK, Some (mk, zlen (list_header sn time query flag ++ list_text l)), u32 (sn + 1)) /\
    mread mk 0 (zlen (list_header sn time query flag ++ list_text l)) =
      Some (list_header sn time query flag ++ list_text l) /\
    data_2_klvlist (Some (list_text l ++ tail)) (zlen (list_text l)) all_ok = Some (OPRT_OK, rev (map parsed l)).
Proof.
  intros n Hr Hl Hne Hfresh Hmax Hts.
  destruct (klvlist_2_data_ok rest l time query flag sn fresh Hr Hl Hne Hfresh Hts) as (mk & H1 & H2).
  exists mk. split; [done|]. split; [done|].
  pose proof (mk_data_room rest l (match time with Some _ => true | None => false end) Hr Hl) as Hroom. fold n in Hroom.
  apply data_2_klvlist_ok; [done|done|destruct time; lia].
Qed.

(** ** The parser on any text *)

Lemma klv_read_safe data len alloc : forall fuel offset k acc,
  bytes_ok data -> 0 <= offset <= len -> len <= zlen data -> len < 2 ^ 32 -> len - offset < Z.of_nat fuel ->
  exists r, klv_read fuel data len offset alloc k acc = Some r /\
    forall l, r = inl l -> exists new, l = new ++ acc /\ new <> [] /\
      foldr (fun n a => a + (4 + k_len n)) 0 new = len - offset /\
      Forall (fun n => 0 <= k_len n /\ forall d, k_data n = Some d -> zlen d = k_len n + 1) new.
Proof.
  induction fuel as [|fuel IH]; intros offset k acc Hb Ho Hl Hmax Hf; [lia|].
  cbn [klv_read]. rewrite (wrap_small 32) by (unfold in_u; lia).
  case_bool_decide as H4; [eexists; split; [done|]; by intros ? [=]|].
  destruct (negb (fst (alloc k))); [eexists; split; [done|]; by intros ? [=]|].
  destruct (zget_is_Some data offset) as [x0 E0]; [lia|]. destruct (zget_is_Some data (offset + 1)) as [x1 E1]; [lia|].
  destruct (zget_is_Some data (offset + 2)) as [x2 E2]; [lia|]. destruct (zget_is_Some data (offset + 3)) as [x3 E3]; [lia|].
  rewrite E0, E1, E2, E3. ub_step. set (n := u16 (Z.shiftl x2 8 + x3)).
  assert (Hn : 0 <= n < 65536) by (unfold n; exact (wrap_range 16 _ ltac:(lia))).
  destruct (bool_decide (n > 0) && negb (snd (alloc k))); [eexists; split; [done|]; by intros ? [=]|].
  rewrite (wrap_small 32) by (unfold in_u; lia).
  destruct (bool_decide (n > 0) && bool_decide (len - (offset + 4) < n)) eqn:Hfit;
    [eexists; split; [done|]; by intros ? [=]|].
  assert (Hn4 : n <= len - (offset + 4)) by (apply andb_false_iff in Hfit as [?%bool_decide_eq_false|?%bool_decide_eq_false]; lia).
  assert (Hmem : exists mem, (if bool_decide (n > 0) then match mread data (offset + 4) n with
      | Some d => Some (Some (d ++ [0])) | None => None end else Some None) = Some mem /\
      forall d, mem = Some d -> zlen d = n + 1).
  { case_bool_decide; [|exists None; split; [done|by intros]].
    destruct (mread_is_Some data (offset + 4) n) as [d Hd]; [lia|lia|lia|]. rewrite Hd.
    eexists. split; [done|]. intros d' [= <-]. apply mread_inv in Hd as (_ & _ & _ & Hd & _). rewrite zlen_snoc. lia. }
  destruct Hmem as (mem & -> & Hmem). set (node := Klv x0 x1 n mem).
  assert (Hnode : 0 <= k_len node /\ forall d, k_data node = Some d -> zlen d = k_len node + 1)
    by (split; [cbn; lia|exact Hmem]).
  destruct (bool_decide_reflect (offset + 4 + n < len)) as [Hmore|Hmore].
  - destruct (IH (offset + 4 + n) (S k) (node :: acc) Hb ltac:(lia) Hl Hmax ltac:(lia)) as (r & -> & Hr).
    exists r. split; [done|]. intros l ->. destruct (Hr l eq_refl) as (new & -> & Hne & Hsum & Hall).
    exists (new ++ [node]). rewrite <- app_assoc. split; [done|]. split; [by destruct new|]. split.
    + rewrite foldr_app. cbn [foldr]. change (k_len node) with n.
      assert (Hsh : forall (m : list klv_node_s) a, foldr (fun n a => a + (4 + k_len n)) a m =
        a + foldr (fun n a => a + (4 + k_len n)) 0 m).
      { clear. induction m as [|x m IH]; intros a; cbn [foldr]; [lia|]. rewrite IH. lia. }
      rewrite Hsh. lia.
    + apply Forall_app. split; [done|]. by apply Forall_singleton.
  - eexists. split; [done|]. intros l [= <-]. exists [node]. split; [done|]. split; [done|]. split.
    + cbn [foldr]. change (k_len node) with n. lia.
    + by apply Forall_singleton.
Qed.

(** The parser never reads outside the text and always ends, whatever the text is and whatever
    allocations fail; a list that it returns is not empty and accounts for every byte of the text,
    and the memory of each value ends with a terminator. *)
Theorem klv_parse_safe data len alloc :
  bytes_ok data -> 0 <= len <= zlen data -> len < 2 ^ 32 ->
  exists rt l, data_2_klvlist (Some data) len alloc = Some (rt, l) /\
    (rt = OPRT_OK -> l <> [] /\ foldr (fun n a => a + (4 + k_len n)) 0 l = len /\
      Forall (fun n => 0 <= k_len n /\ forall d, k_data n = Some d -> zlen d = k_len n + 1) l).
Proof.
  intros Hb Hl Hmax.
  assert (Hrt : forall fuel offset k acc r, klv_read fuel data len offset alloc k acc = Some (inr r) -> r <> OPRT_OK).
  { induction fuel as [|fuel IH]; intros offset k acc r Hr; cbn [klv_read] in Hr; [done|].
    repeat match type of Hr with
    | mbind ?f ?m = Some _ => destruct m; cbn [mbind option_bind] in Hr; [|discriminate Hr]
    | (if ?a then _ else _) = Some _ => destruct a; [try (injection Hr as <-; done)|]
    end; first [exact (IH _ _ _ _ Hr)|done|discriminate Hr]. }
  unfold data_2_klvlist.
  destruct (klv_read_safe data len alloc (S (Z.to_nat len)) 0 0 [] Hb) as (r & Hr & Hl'); [lia|lia|done|lia|].
  rewrite Hr. ub_step. destruct r as [l|code].
  - exists OPRT_OK, l. split; [done|]. intros _. destruct (Hl' l eq_refl) as (new & -> & Hne & Hsum & Hall).
    rewrite app_nil_r. split; [done|]. split; [lia|done].
  - exists code, []. split; [done|]. intros Hc. by apply Hrt in Hr.
Qed.

(** ** A report, as the other side reads it *)

(** The node of a value. *)
Definition enum_text (v : Z) : bytes :=
  if bool_decide (v <= 0xff) then [u8 v] else if bool_decide (v <= 0xffff) then be16 v else be32 v.

Definition dp_klv (dp : dp_obj_t) : klv_node_s :=
  let v := dp_val dp in
  let node type d := Klv (dp_id dp) type (zlen d) (if bool_decide (zlen d > 0) then Some d else None) in
  if bool_decide (dp_type dp = PROP_BOOL) then node DT_BOOL [dp_bool v]
  else if bool_decide (dp_type dp = PROP_VALUE) then node DT_VALUE (be32 (u32 (dp_word v)))
  else if bool_decide (dp_type dp = PROP_STR) then node DT_STRING (default [] (dp_str v))
  else if bool_decide (dp_type dp = PROP_ENUM) then node DT_ENUM (enum_text (dp_enum v))
  else node DT_BITMAP (be32 (dp_bitmap v)).

(** A value that can be sent: the schema [ns] names the values of enumerations, of which the first
    256 can be read. *)
Definition dp_sendable (ns : list dp_node_t) (dp : dp_obj_t) : Prop :=
  in_u 8 (dp_id dp) /\
  (dp_type dp = PROP_BOOL \/ dp_type dp = PROP_VALUE \/ dp_type dp = PROP_BITMAP \/
   dp_type dp = PROP_STR /\ (exists s, dp_str (dp_val dp) = Some s /\ no_nul s /\ zlen s < 2 ^ 16) \/
   dp_type dp = PROP_ENUM /\ dp_enum (dp_val dp) <= 0xff /\
     exists i n cnt names old s, dp_node_find ns (dp_id dp) = Some (i, n) /\ prop n = PropEnum cnt names old /\
       zget names (dp_enum (dp_val dp)) = Some s).

(** What the other side reads. *)
Definition dp_json (ns : list dp_node_t) (dp : dp_obj_t) : Z * jval :=
  let v := dp_val dp in
  (dp_id dp,
   if bool_decide (dp_type dp = PROP_BOOL) then JBool (if bool_decide (dp_bool v = 0) then 0 else 1)
   else if bool_decide (dp_type dp = PROP_VALUE) then JNumber (dp_value v)
   else if bool_decide (dp_type dp = PROP_STR) then JString (default [] (dp_str v))
   else if bool_decide (dp_type dp = PROP_ENUM) then
     JString (match dp_node_find ns (dp_id dp) with
              | Some (_, n) => match prop n with PropEnum _ names _ => default [] (zget names (dp_enum v)) | _ => [] end
              | None => [] end)
   else JNumber (i32 (dp_bitmap v))).

Lemma load32_le n : in_u 32 n -> load32 (le32 n) = Some n.
Proof.
  intros Hn. pose proof (be32_get (rev (le32 n)) 0 n Hn eq_refl eq_refl eq_refl eq_refl) as Hg. unfold get32 in Hg.
  unfold load32. 
  change (zget (le32 n) 0) with (Some (u8 n)). change (zget (le32 n) 1) with (Some (u8 (Z.shiftr n 8))).
  change (zget (le32 n) 2) with (Some (u8 (Z.shiftr n 16))). change (zget (le32 n) 3) with (Some (u8 (Z.shiftr n 24))).
  change (zget (rev (le32 n)) 0) with (Some (u8 (Z.shiftr n 24))) in Hg.
  change (zget (rev (le32 n)) (0 + 1)) with (Some (u8 (Z.shiftr n 16))) in Hg.
  change (zget (rev (le32 n)) (0 + 2)) with (Some (u8 (Z.shiftr n 8))) in Hg.
  change (zget (rev (le32 n)) (0 + 3)) with (Some (u8 n)) in Hg. cbn [mbind option_bind] in *. injection Hg as Hg.
  pose proof (wrap_range 8 n ltac:(lia)) as R0. pose proof (wrap_range 8 (Z.shiftr n 8) ltac:(lia)) as R1.
  pose proof (wrap_range 8 (Z.shiftr n 16) ltac:(lia)) as R2. pose proof (wrap_range 8 (Z.shiftr n 24) ltac:(lia)) as R3.
  unfold in_u in *. rewrite !Z.shiftl_mul_pow2 in * by lia.
  set (a := u8 n) in *. set (b := u8 (Z.shiftr n 8)) in *. set (c := u8 (Z.shiftr n 16)) in *. set (d := u8 (Z.shiftr n 24)) in *.
  rewrite (wrap_small 32 (d * _)) in Hg by (unfold in_u; lia).
  rewrite (wrap_small 32 (_ + c * _)) in Hg by (unfold in_u; lia).
  rewrite (wrap_small 32 (_ + b * _)) in Hg by (unfold in_u; lia).
  rewrite (wrap_small 32) in Hg by (unfold in_u; lia). f_equal. lia.
Qed.

Lemma tlv_enum v : in_u 32 v ->
  exists d', tuya_change_bt_dp_tlv DT_ENUM (Some (le32 v)) 4 = Some (Some d', zlen (enum_text v)) /\
    take (length (enum_text v)) d' = enum_text v /\ zlen d' = 4.
Proof.
  intros Hv. unfold tuya_change_bt_dp_tlv. rewrite bool_decide_true by done. ub_step. rewrite (load32_le v Hv).
  unfold enum_text. guards; by eexists.
Qed.

Lemma tlv_bool v : in_u 32 v ->
  exists d', tuya_change_bt_dp_tlv DT_BOOL (Some (le32 v)) 4 = Some (Some d', 1) /\
    take 1 d' = [u8 v] /\ zlen d' = 4.
Proof.
  intros Hv. unfold tuya_change_bt_dp_tlv. rewrite bool_decide_false by done. rewrite bool_decide_true by done. ub_step.
  rewrite (load32_le v Hv). by eexists.
Qed.

(** A number of 32 bits. *)
Lemma make_klv_word l id type w fresh :
  type = DT_VALUE \/ type = DT_BITMAP -> in_u 32 w -> 4 <= zlen fresh ->
  make_klv_list l id type (Some (le32 w)) 4 true true true fresh = Some (Klv id type 4 (Some (be32 w)) :: l).
Proof.
  intros Ht Hw Hf. unfold make_klv_list.
  assert (Hfull : mwrite (take (Z.to_nat 4) fresh) 0 (be32 w) = Some (be32 w)) by (apply mwrite_full; rewrite zlen_take by lia; change (zlen (be32 w)) with 4; lia).
  destruct Ht as [-> | ->].
  all: unfold tuya_change_bt_dp_tlv, DT_VALUE, DT_BITMAP, DT_LMT, DT_VALUE_LEN, DT_BITMAP_MAX, DT_BOOL, DT_ENUM.
  all: guards; cbn [negb andb orb]; change (mread (le32 w) 0 4) with (Some (le32 w)); ub_step.
  all: change (bool_decide (4 > 0)) with true; cbv beta iota; cbn [andb]; by rewrite (load32_le w Hw), Hfull.
Qed.

(** The other types are copied as they are after the change. *)
Lemma make_klv_copy l id type mem len p len' d fresh :
  0 < len <= zlen mem -> (type = DT_ENUM \/ type = DT_BOOL -> len = 4) -> type = DT_ENUM \/ type = DT_BOOL \/ type = DT_STRING ->
  tuya_change_bt_dp_tlv type (Some (take (Z.to_nat len) mem)) len = Some (Some p, len') ->
  0 < len' -> take (Z.to_nat len') p = d -> len' <= zlen p -> len' <= zlen fresh ->
  make_klv_list l id type (Some mem) len true true true fresh = Some (Klv id type len' (Some d) :: l).
Proof.
  intros Hlen H4 Ht Htlv Hl' Hd Hp Hf. unfold make_klv_list.
  rewrite (bool_decide_false (type >= DT_LMT)) by (unfold DT_LMT, DT_ENUM, DT_BOOL, DT_STRING in *; lia).
  rewrite (bool_decide_false (DT_VALUE = type /\ _)), (bool_decide_false (DT_BITMAP = type /\ _))
    by (unfold DT_VALUE, DT_BITMAP, DT_ENUM, DT_BOOL, DT_STRING in *; lia).
  rewrite (bool_decide_false (DT_BOOL = type /\ _)), (bool_decide_false (DT_ENUM = type /\ _))
    by (intros [<- Hn]; apply Hn; symmetry; apply H4; eauto).
  rewrite (bool_decide_true (len > 0)) by lia. cbn [negb andb].
  rewrite mread_Some by lia. rewrite drop_0. ub_step. rewrite Htlv. rewrite (bool_decide_true (len' > 0)) by lia. cbn [negb andb].
  rewrite (bool_decide_false (DT_VALUE = type)), (bool_decide_false (DT_BITMAP = type)) by (unfold DT_VALUE, DT_BITMAP, DT_ENUM, DT_BOOL, DT_STRING in *; lia).
  cbn [orb]. rewrite memcpy_mwrite by lia. rewrite drop_0, Hd.
  rewrite mwrite_full; [done|]. rewrite zlen_take by lia. subst d. rewrite zlen_take by lia. lia.
Qed.

(** Decide the comparisons of constants. *)
Ltac type_case :=
  repeat match goal with
  | |- context [bool_decide (?a = ?b)] => first [rewrite (bool_decide_true (a = b)) by done | rewrite (bool_decide_false (a = b)) by done]
  end.

Lemma dp_klv_wf ns dp : dp_sendable ns dp -> node_wf (dp_klv dp).
Proof.
  intros [Hid Hdp]. unfold dp_klv.
  assert (Hn : forall type d, in_u 8 type -> zlen d < 2 ^ 16 ->
    node_wf (Klv (dp_id dp) type (zlen d) (if bool_decide (zlen d > 0) then Some d else None))).
  { intros type d Ht Hl. pose proof (zlen_nonneg d). split; cbn [k_id k_type k_len k_data]; [done|done|unfold in_u; lia|].
    intros H0. rewrite bool_decide_true by lia. exists d. split; [done|lia]. }
  destruct Hdp as [-> | [-> | [-> | [(-> & s & -> & _ & Hs) | (-> & _)]]]]; cbn -[be32 zlen].
  all: try (apply Hn; done).
  apply Hn; [done|]. unfold enum_text. by guards.
Qed.

Lemma make_klv_ok l dp fresh ns :
  dp_sendable ns dp -> 2 ^ 16 <= zlen fresh ->
  exists type mem len, klv_source dp = Some (Some (type, mem, len)) /\
  make_klv_list l (dp_id dp) type (Some mem) len true true true fresh = Some (dp_klv dp :: l).
Proof.
  intros [Hid Hdp] Hf. unfold klv_source, dp_klv. pose proof (wrap_range 32 (dp_word (dp_val dp)) ltac:(lia)) as Hw.
  destruct Hdp as [-> | [-> | [-> | [(-> & s & -> & _ & Hs) | (-> & He & _)]]]]; type_case.
  all: cbn [mbind option_bind default from_option id]; do 3 eexists; (split; [done|]).
  - destruct (tlv_bool _ Hw) as (d' & Ht & Hd & Hl). unfold dp_bool.
    rewrite (make_klv_copy _ _ _ _ _ d' 1 [u8 (u32 (dp_word (dp_val dp)))]); try done; auto; [|lia|lia].
    assert (Hb : u8 (u32 (dp_word (dp_val dp))) = u8 (dp_word (dp_val dp))) by (apply wrap_narrow; lia).
    by rewrite Hb.
  - by apply make_klv_word; [left| |lia].
  - by apply make_klv_word; [right| |lia].
  - rewrite (wrap_small 16) by (pose proof (zlen_nonneg s); unfold in_u; lia).
    destruct (decide (s = [])) as [->|Hne]; [done|].
    assert (0 < zlen s) by (destruct s; [done|rewrite zlen_cons; pose proof (zlen_nonneg s); lia]).
    rewrite bool_decide_true by lia. apply (make_klv_copy _ _ _ _ _ s); auto; rewrite ?zlen_app; try lia.
    + change (zlen [0]) with 1. lia.
    + by intros [?|?].
    + by rewrite zlen_to_nat, take_app_length.
    + rewrite zlen_to_nat. by apply take_ge.
  - destruct (tlv_enum _ Hw) as (d' & Ht & Hd & Hl).
    assert (Hel : 0 < zlen (enum_text (dp_enum (dp_val dp))) <= 4) by (unfold enum_text; by guards).
    rewrite bool_decide_true by lia.
    apply (make_klv_copy _ _ _ _ _ d'); auto; try lia; [|by rewrite zlen_to_nat]. done.
Qed.

Definition all_ok3 (k : nat) : bool * bool * bool := (true, true, true).

Lemma make_obj_list_ok ns dps fresh :
  Forall (dp_sendable ns) dps -> 2 ^ 16 <= zlen fresh -> forall k l,
  make_obj_dp_klv_list fresh dps all_ok3 k l = Some (rev (map dp_klv dps) ++ l).
Proof.
  intros Hd Hf. induction Hd as [|dp dps Hdp _ IH]; intros k l; [done|]. cbn [make_obj_dp_klv_list map].
  destruct (make_klv_ok l dp fresh ns Hdp Hf) as (type & mem & len & -> & Hmk). ub_step. cbn [all_ok3].
  rewrite Hmk, IH. change (rev (dp_klv dp :: map dp_klv dps)) with (rev (map dp_klv dps) ++ [dp_klv dp]).
  by rewrite <- app_assoc.
Qed.

Lemma klv_json_ok ns base64 dp : dp_sendable ns dp ->
  klv_json base64 ns (parsed (dp_klv dp)) = Some (Some (dp_json ns dp)).
Proof.
  intros [Hid Hdp]. unfold klv_json, dp_json, parsed, content, dp_klv.
  assert (Hg : forall n, get32 (be32 (u32 n) ++ [0]) 0 = Some (u32 n)) by (intros n; by apply be32_get; [apply wrap_range|..]).
  destruct Hdp as [-> | [-> | [-> | [(-> & s & -> & Hn & Hs) | (-> & He & i & n & cnt & names & old & s & Hfind & Hp & Hz)]]]];
    type_case; cbn [k_id k_type k_len k_data]; type_case; cbn [orb].
  - done.
  - change (zlen (be32 ?x)) with 4. change (bool_decide (4 > 0)) with true. cbv beta iota.
    change (take (Z.to_nat 4) (default [] (Some (be32 ?x)))) with (be32 x). cbn [mbind option_bind]. rewrite Hg.
    cbn [mbind option_bind]. by rewrite i32_u32.
  - change (zlen (be32 ?x)) with 4. change (bool_decide (4 > 0)) with true. cbv beta iota.
    change (take (Z.to_nat 4) (default [] (Some (be32 ?x)))) with (be32 x). unfold dp_bitmap. cbn [mbind option_bind]. by rewrite Hg.
  - cbn [default from_option id]. case_bool_decide as H0; cbn [default from_option id].
    + rewrite zlen_to_nat, take_ge by done. by rewrite c_string_nul.
    + destruct s as [|x s]; [done|]. rewrite zlen_cons in H0. pose proof (zlen_nonneg s). lia.
  - assert (Ht : enum_text (dp_enum (dp_val dp)) = [dp_enum (dp_val dp)]).
    { unfold enum_text. rewrite bool_decide_true by done. f_equal. apply wrap_small.
      pose proof (wrap_range 32 (dp_word (dp_val dp)) ltac:(lia)). unfold dp_enum, in_u in *. lia. }
    rewrite Ht. change (zlen [?x]) with 1. change (bool_decide (1 > 0)) with true. cbv beta iota.
    assert (H0 : forall x : Z, zget (take (Z.to_nat 1) (default [] (Some [x])) ++ [0]) 0 = Some x) by done.
    cbn [mbind option_bind]. rewrite H0. cbn [mbind option_bind]. by rewrite Hfind, Hp, Hz.
Qed.

Lemma klv_members_ok ns base64 dps : Forall (dp_sendable ns) dps ->
  klv_members base64 ns (map (fun dp => parsed (dp_klv dp)) dps) = Some (map (dp_json ns) dps).
Proof.
  intros Hd. induction Hd as [|dp dps Hdp _ IH]; [done|]. cbn [klv_members map].
  by rewrite (klv_json_ok ns base64 dp Hdp), IH.
Qed.

(** C36. A report of values over BLE carries them: the text that is sent is a header and the values,
    and the functions that read a command give them back, each with its identifier, in the order
    of the report. *)
Theorem ble_report_roundtrip rest ble_send base64 ns dps raw now sn fresh :
  let ts := dp_get_time_stamp dps now in
  let time := if bool_decide (ts > 0) then Some (be32 ts) else None in
  let header := list_header sn time false 0 in
  let type := if bool_decide (ts > 0) then FRM_DP_STAT_REPORT_WITH_TIME_V4 else FRM_DP_STAT_REPORT_V4 in
  let ns' := rev (map dp_klv dps) in
  4 <= rest -> dps <> [] -> Forall (dp_sendable ns) dps -> 2 ^ 16 <= zlen fresh ->
  mk_data_len rest (bool_decide (ts > 0)) ns' <= zlen fresh < 2 ^ 32 ->
  zlen (header ++ list_text ns') <= TUYA_BLE_TRANSMISSION_MAX_DATA_LEN ->
  exists text, ble_dp_report fresh rest ble_send T_OBJ_REPT dps raw now sn all_ok3 true =
      Some (ble_send type (header ++ text), Some (type, header ++ text), u32 (sn + 1)) /\
    exists l, data_2_klvlist (Some (drop (length header) (header ++ text))) (zlen text) all_ok = Some (OPRT_OK, l) /\
      klv_members base64 ns l = Some (map (dp_json ns) dps).
Proof.
  intros ts time header type ns' Hr Hne Hd Hf Hmk Hmax.
  assert (Hwf : Forall node_wf ns').
  { apply Forall_rev, Forall_map. eapply Forall_impl; [exact Hd|]. intros dp Hdp. exact (dp_klv_wf ns dp Hdp). }
  assert (Hne' : ns' <> []) by (intros E%(f_equal length); unfold ns' in E; rewrite length_rev, length_map in E; by destruct dps).
  assert (Htime : match time with Some _ => true | None => false end = bool_decide (ts > 0)) by (unfold time; by case_bool_decide).
  exists (list_text ns'). split.
  - unfold ble_dp_report. rewrite bool_decide_true by done. rewrite (make_obj_list_ok ns) by done. rewrite app_nil_r.
    ub_step. fold ns' ts. unfold ty_bt_dp_data_report. fold time.
    destruct (klvlist_2_data_ok rest ns' time false 0 sn fresh Hr Hwf Hne') as (mk & Hk & Hread);
      [rewrite Htime; lia|unfold time; by case_bool_decide|].
    destruct ns' as [|n0 ns0] eqn:En; [done|]. rewrite <- En in *. rewrite Hk. ub_step.
    unfold dp_data_report_data. fold header in Hread |- *. 
    pose proof (list_header_pos sn time false 0) as Hpos. fold header in Hpos. 
    assert (0 < zlen (header ++ list_text ns')) by (rewrite zlen_app; pose proof (zlen_nonneg (list_text ns')); lia).
    rewrite (bool_decide_false (_ > _)), (bool_decide_false (_ = 0)) by lia. cbn [orb]. rewrite Hread. ub_step.
    unfold type, time. by case_bool_decide.
  - rewrite drop_app_length. exists (map (fun dp => parsed (dp_klv dp)) dps). split; [|by apply klv_members_ok].
    replace (map (fun dp => parsed (dp_klv dp)) dps) with (rev (map parsed ns')).
    2:{ unfold ns'. by rewrite map_rev, rev_involutive, map_map. }
    rewrite <- (app_nil_r (list_text ns')) at 1. apply data_2_klvlist_ok; [done|done|].
    rewrite zlen_app in Hmax. pose proof (zlen_nonneg header). unfold TUYA_BLE_TRANSMISSION_MAX_DATA_LEN in Hmax. lia.
Qed.

(** ** What the source does not check *)

Lemma query_list_null fresh ns n m c : forall allocs k l,
  n ∈ ns -> d_mode (desc n) <> M_WR -> d_type (desc n) = T_OBJ -> prop n = PropStr m c None ->
  query_list fresh ns allocs k l = None.
Proof.
  induction ns as [|x ns IH]; intros allocs k l Hin Hmode Htype Hp; [by apply not_elem_of_nil in Hin|].
  cbn [query_list]. apply elem_of_cons in Hin as [<-|Hin].
  - rewrite bool_decide_false by done. rewrite bool_decide_true by done. by rewrite Hp.
  - case_bool_decide; [by apply IH|]. case_bool_decide; [|by apply IH].
    destruct (prop_source (prop x)) as [[[type mem] len]|]; [|done]. ub_step.
    destruct (allocs k) as [[a1 a2] a3]. destruct (make_klv_list _ _ _ _ _ _ _ _ _) as [l'|]; [|done]. by apply IH.
Qed.

(** A query while a readable string has never been set reads through a NULL pointer. *)
Theorem ble_query_null_string fresh rest ble_send s n m c type sn allocs alloc :
  n ∈ nodes s -> d_mode (desc n) <> M_WR -> d_type (desc n) = T_OBJ -> prop n = PropStr m c None ->
  ble_dp_query fresh rest ble_send (Some s) type sn allocs alloc = None.
Proof.
  intros Hin Hmode Htype Hp. unfold ble_dp_query. by rewrite (query_list_null fresh (nodes s) n m c).
Qed.

(** A command with one value of one byte. *)
Definition byte_command (head : bytes) (id type v : Z) : ble_packet_t :=
  Packet 0 FRM_DP_CMD_SEND_V4 10 (Some (head ++ [id; type; 0; 1; v])) 0.

(** A command with an enumeration whose index has no name, or with a number of one byte, reads
    outside the names or outside the value. *)
Theorem ble_command_unchecked base64 ns head id type v parse_rt :
  zlen head = 5 -> in_u 8 id ->
  (type = DT_VALUE \/ type = DT_BITMAP \/
   type = DT_ENUM /\ exists i n cnt names old, dp_node_find ns id = Some (i, n) /\
     prop n = PropEnum cnt names old /\ zlen names <= v) ->
  ble_dp_req base64 ns (byte_command head id type v) true true all_ok parse_rt = None.
Proof.
  intros Hh Hid Ht. set (n := Klv id type 1 (Some [v])).
  assert (Htext : [id; type; 0; 1; v] = list_text [n]) by done.
  assert (Hn : node_wf n).
  { split; cbn [n k_id k_type k_len k_data]; [done|unfold DT_VALUE, DT_BITMAP, DT_ENUM, in_u in *; lia|done|by exists [v]]. }
  unfold ble_dp_req, byte_command. cbn [p_type p_data p_len]. rewrite bool_decide_true by done. ub_step.
  destruct (mread_is_Some (head ++ [id; type; 0; 1; v]) 0 5) as [h Hr];
    [lia|lia|rewrite zlen_app; change (zlen [id; type; 0; 1; v]) with 5; lia|].
  rewrite Hr. cbn [negb orb]. rewrite drop_app_length' by (unfold zlen in Hh; lia).
  change (u16 (10 - 5)) with (zlen (list_text [n])). rewrite Htext, <- (app_nil_r (list_text [n])) at 1.
  rewrite data_2_klvlist_ok by (done || by apply Forall_singleton). ub_step. rewrite bool_decide_false by (intros X; by apply X).
  assert (Hk : klv_json base64 ns (parsed n) = None); [|cbn [map rev app klv_members]; by rewrite Hk].
  change (parsed n) with (Klv id type 1 (Some [v; 0])). unfold klv_json. cbn [k_type k_data k_id k_len].
  destruct Ht as [-> | [-> | (-> & i & x & cnt & names & old & -> & Hp & Hv)]]; type_case; cbn [orb mbind option_bind]; [done|done|].
  change (zget [v; 0] 0) with (Some v). cbn [mbind option_bind]. rewrite Hp.
  by rewrite zget_None by lia.
Qed.

(** ** Witnesses *)

Definition demo_enum : dp_node_t :=
  Node (Desc 2 M_RW PSV_FALSE T_OBJ TRIG_PULSE DST_NONE ROUTE_DEFAULT)
       (PropEnum 2 [c_str "off"; c_str "on"] 0) PV_STAT_INVALID 0.
Definition demo_string : dp_node_t :=
  Node (Desc 3 M_RW PSV_FALSE T_OBJ TRIG_PULSE DST_NONE ROUTE_DEFAULT) (PropStr 10 0 None) PV_STAT_INVALID 0.
Definition demo_dps : list dp_obj_t :=
  [Dp 1 PROP_VALUE (Value 4294967295 None) 7; Dp 2 PROP_ENUM (Value 1 None) 0;
   Dp 3 PROP_STR (Value 0 (Some (c_str "hi"))) 0; Dp 4 PROP_BOOL (Value 1 None) 0].
Definition demo_mem : bytes := replicate (Z.to_nat (2 ^ 16)) 0.
Lemma demo_mem_len : zlen demo_mem = 2 ^ 16.
Proof. unfold demo_mem, zlen. rewrite length_replicate. lia. Qed.

Lemma klv_roundtrip_witness :
  data_2_klvlist (Some (list_text [Klv 1 DT_STRING 2 (Some [65; 66]); Klv 2 DT_RAW 0 None] ++ [9]))
    (zlen (list_text [Klv 1 DT_STRING 2 (Some [65; 66]); Klv 2 DT_RAW 0 None])) all_ok =
    Some (OPRT_OK, [Klv 2 DT_RAW 0 None; Klv 1 DT_STRING 2 (Some [65; 66; 0])]).
Proof.
  destruct (klv_roundtrip 8 [Klv 1 DT_STRING 2 (Some [65; 66]); Klv 2 DT_RAW 0 None] None false 0 1
    (replicate 40 0) [9]) as (mk & _ & _ & H); [lia| |done|vm_compute; done|vm_compute; done|done|exact H].
  apply Forall_cons. split; [split; try done; by exists [65; 66]|]. apply Forall_singleton. split; try done; lia.
Defined.

Lemma klv_parse_safe_witness :
  exists rt l, data_2_klvlist (Some [1; 0; 0; 9; 5]) 5 all_ok = Some (rt, l) /\ rt = OPRT_COM_ERROR.
Proof.
  destruct (klv_parse_safe [1; 0; 0; 9; 5] 5 all_ok) as (rt & l & H & _); [|vm_compute; done|lia|].
  - repeat (apply Forall_cons_2; [unfold in_u; lia|]). by apply Forall_nil.
  - exists rt, l. split; [exact H|]. vm_compute in H. by injection H as <- <-.
Defined.

Lemma ble_report_roundtrip_witness :
  exists text, ble_dp_report demo_mem 8 (fun _ _ => OPRT_OK) T_OBJ_REPT demo_dps (0, 0, []) 9 1 all_ok3 true =
      Some (OPRT_OK, Some (FRM_DP_STAT_REPORT_WITH_TIME_V4, [0; 0; 0; 0; 1; 0; 0; 1; 0; 0; 0; 7] ++ text), 2) /\
    exists l, data_2_klvlist (Some text) (zlen text) all_ok = Some (OPRT_OK, l) /\
      klv_members (fun b => b) [demo_enum; demo_string] l =
        Some [(1, JNumber (-1)); (2, JString (c_str "on")); (3, JString (c_str "hi")); (4, JBool 1)].
Proof.
  destruct (ble_report_roundtrip 8 (fun _ _ => OPRT_OK) (fun b => b) [demo_enum; demo_string] demo_dps (0, 0, []) 9 1 demo_mem)
    as (text & H & l & Hl & Hj); [lia|done| |rewrite demo_mem_len; lia|rewrite demo_mem_len; vm_compute; done|vm_compute; done|].
  - repeat apply Forall_cons_2; [..|by apply Forall_nil]; (split; [by vm_compute|]).
    + right. by left.
    + do 4 right. split; [done|]. split; [vm_compute; done|]. by eexists 0%nat, demo_enum, _, _, _, _.
    + do 3 right. left. split; [done|]. eexists. split; [done|]. split; [|vm_compute; done].
      repeat apply Forall_cons_2; [done|done|by apply Forall_nil].
    + by left.
  - exists text. split; [exact H|]. exists l. split; [exact Hl|exact Hj].
Defined.

Lemma ble_query_null_string_witness :
  ble_dp_query [] 8 (fun _ _ => OPRT_OK) (Some (Schema [] false [demo_enum; demo_string])) 1 1 all_ok3 true = None.
Proof. apply (ble_query_null_string _ _ _ _ demo_string 10 0); [|done|done|done]. right. left. Defined.

Lemma ble_command_unchecked_witness :
  ble_dp_req (fun b => b) [demo_enum] (byte_command [0; 0; 0; 0; 1] 2 DT_ENUM 2) true true all_ok OPRT_OK = None.
Proof.
  apply ble_command_unchecked; [done|unfold in_u; lia|]. right. right. split; [done|].
  exists 0%nat, demo_enum, 2, [c_str "off"; c_str "on"], 0. split; [done|]. split; [done|vm_compute; done].
Defined.
