(* ===== verification/Protocol.v ===== *)
(** * Protocol frames

    src/src/tuya_cloud_service/protocol/tuya_protocol.c: the frames of the messages with the cloud (2.3)
    and with an app in the local network (3.5), on the authenticated encryption of
    src/src/libtls/src/cipher_wrapper.c and the random numbers of uni_random.c. mbedtls is the class
    [Gcm]. Built with [LITTLE_END]: numbers go out in big-endian order. *)
From S2P Require Import Prelude.

Definition OPRT_VERSION_FMT_ERR : Z := -36.

(** ** Authenticated encryption

    [cipher_setup], [cipher_setkey key]: the codes of mbedtls. [encrypt_ext key nonce ad data tag_len]
    and [decrypt_ext]: the code, [*olen] and what is written to the output. *)
Class Gcm := {
  cipher_setup : Z;
  cipher_setkey : bytes -> Z;
  encrypt_ext : bytes -> bytes -> bytes -> bytes -> Z -> Z * Z * bytes;
  decrypt_ext : bytes -> bytes -> bytes -> bytes -> Z -> Z * Z * bytes;
  (** AES-128-GCM: the ciphertext and its tag of 16 bytes. *)
  gcm_seal : bytes -> bytes -> bytes -> bytes -> bytes }.

Class GcmLaws `{Gcm} : Prop := {
  cipher_setup_ok : cipher_setup = OPRT_OK;
  cipher_setkey_ok key : zlen key = 16 -> cipher_setkey key = OPRT_OK;
  gcm_seal_len key nonce ad data : zlen (gcm_seal key nonce ad data) = zlen data + 16;
  encrypt_ext_ok key nonce ad data : zlen key = 16 ->
    encrypt_ext key nonce ad data 16 = (OPRT_OK, zlen data + 16, gcm_seal key nonce ad data);
  decrypt_ext_seal key nonce ad data : zlen key = 16 ->
    decrypt_ext key nonce ad (gcm_seal key nonce ad data) 16 = (OPRT_OK, zlen data, data);
  decrypt_ext_out key nonce ad c ret n out :
    decrypt_ext key nonce ad c 16 = (ret, n, out) -> zlen out <= 0 `max` (zlen c - 16);
  (** The decryption checks the tag. *)
  decrypt_ext_sound key nonce ad c n out : zlen key = 16 ->
    decrypt_ext key nonce ad c 16 = (OPRT_OK, n, out) -> n = zlen out /\ c = gcm_seal key nonce ad out }.

Section cipher.
Context `{Gcm}.
(** [malloc n]: the memory of an allocation of [n] bytes, with what was in it. *)
Context (malloc : Z -> option bytes).

(** The code, and the bytes for the output and for the tag when the cipher was run. *)
Definition mbedtls_cipher_auth_encrypt_wrapper (key : bytes) (key_len : Z) (nonce ad data : bytes) (tag_len : Z)
    : option (Z * option (bytes * bytes)) :=
  if bool_decide (cipher_setup <> OPRT_OK) then Some (cipher_setup, None)
  else if bool_decide (key_len * 8 <> 128) then Some (OPRT_INVALID_PARM, None)
  else
    k ← mread key 0 16;
    if bool_decide (cipher_setkey k <> OPRT_OK) then Some (cipher_setkey k, None)
    else
      enc_tmpbuf ← malloc (zlen data + tag_len);
      let '(ret, olen, tmp) := encrypt_ext k nonce ad data tag_len in
      enc_tmpbuf ← mwrite enc_tmpbuf 0 tmp;
      c ← mread enc_tmpbuf 0 (olen - tag_len);
      tag ← mread enc_tmpbuf (olen - tag_len) tag_len;
      Some (ret, Some (c, tag)).

(** [nonce], [ad], [tag]: where the caller's pointers lead, which only the cipher looks at. [olen] is 0
    when the key set-up fails, and then so is the code. *)
Definition mbedtls_cipher_auth_decrypt_wrapper (key : bytes) (nonce ad : option bytes) (data : bytes) (doff data_len : Z)
    (tag : option bytes) (tag_len : Z) : option (Z * Z * bytes) :=
  if bool_decide (cipher_setup <> OPRT_OK) then Some (cipher_setup, 0, [])
  else
    k ← mread key 0 16;
    if bool_decide (cipher_setkey k <> OPRT_OK) then Some (OPRT_OK, 0, [])
    else
      dec_tmpbuf ← malloc (data_len + tag_len);
      c ← mread data doff data_len; dec_tmpbuf ← mwrite dec_tmpbuf 0 c;
      t ← tag; dec_tmpbuf ← mwrite dec_tmpbuf data_len t;
      nonce ← nonce; ad ← ad;
      Some (decrypt_ext k nonce ad dec_tmpbuf tag_len).
End cipher.

(** ** Random numbers *)
Definition RAND_MAX : Z := 0x7fffffff.
Definition uni_random_int (output : Z) : Z := Z.land output RAND_MAX.
Definition uni_random_range (output range : Z) : Z :=
  uni_random_int output `mod` (if bool_decide (range = 0) then 0xff else range).
(** [random i]: the bytes that the i-th call draws, as a number. *)
Definition uni_random_string (random : Z -> Z) (size : Z) : bytes :=
  (fun i => default 0 (zget (c_str "0123456789abcdef") (uni_random_range (random i) 16))) <$> seqZ 0 size.

(** ** Frames of the local network *)
Definition LPV35_FRAME_HEAD : bytes := [0; 0; 0x66; 0x99].
Definition LPV35_FRAME_TAIL : bytes := [0; 0; 0x99; 0x66].
Definition LPV35_FRAME_HEAD_SIZE : Z := 4.
Definition LPV35_FRAME_NONCE_SIZE : Z := 12.
Definition LPV35_FRAME_TAG_SIZE : Z := 16.
Definition LPV35_FRAME_TAIL_SIZE : Z := 4.
Definition LPV35_AD_SIZE : Z := 14.
Definition LPV35_FRAME_MINI_SIZE : Z := 50.

Record lpv35_frame_object_t := Frame { f_sequence : Z; f_type : Z; f_data : option bytes; f_data_len : Z }.

Definition lpv35_frame_buffer_size_get (f : lpv35_frame_object_t) : Z :=
  i32 (u32 (LPV35_FRAME_HEAD_SIZE + LPV35_AD_SIZE + LPV35_FRAME_NONCE_SIZE + f_data_len f + LPV35_FRAME_TAG_SIZE + LPV35_FRAME_TAIL_SIZE)).

Definition additional_data (sequence type length : Z) : bytes := [0; 0] ++ be32 sequence ++ be32 type ++ be32 length.

(** The loop that fills the nonce. *)
Definition lpv35_nonce (random : Z -> Z) : bytes :=
  (fun i => u8 (uni_random_range (random i) 0xff)) <$> seqZ 0 LPV35_FRAME_NONCE_SIZE.

Section frames.
Context `{Gcm} (malloc : Z -> option bytes).

(** The code, the output and [*olen] when it is set. *)
Definition lpv35_frame_serialize (key : option bytes) (key_len : Z) (input : option lpv35_frame_object_t)
    (output : option bytes) (random : Z -> Z) : option (Z * option bytes * option Z) :=
  match key, input, output with
  | Some key, Some input, Some output =>
      if bool_decide (key_len = 0) then Some (OPRT_INVALID_PARM, Some output, None)
      else
        o ← mwrite output 0 LPV35_FRAME_HEAD;
        let ad := additional_data (f_sequence input) (f_type input)
                    (u32 (LPV35_FRAME_NONCE_SIZE + f_data_len input + LPV35_FRAME_TAG_SIZE)) in
        o ← mwrite o LPV35_FRAME_HEAD_SIZE ad;
        let nonce := lpv35_nonce random in
        o ← mwrite o 18 nonce;
        data ← mread (default [] (f_data input)) 0 (f_data_len input);
        r ← mbedtls_cipher_auth_encrypt_wrapper malloc key key_len nonce ad data LPV35_FRAME_TAG_SIZE;
        match r with
        | (rt, None) => Some (rt, Some o, None)
        | (rt, Some (c, tag)) =>
            o ← mwrite o 30 c;
            if bool_decide (rt <> OPRT_OK) then Some (rt, Some o, None)
            else
              o ← mwrite o (30 + zlen c) tag;
              o ← mwrite o (30 + zlen c + LPV35_FRAME_TAG_SIZE) LPV35_FRAME_TAIL;
              Some (OPRT_OK, Some o, Some (30 + zlen c + LPV35_FRAME_TAG_SIZE + LPV35_FRAME_TAIL_SIZE))
        end
  | _, _, output => Some (OPRT_INVALID_PARM, output, None)
  end.

(** [input]: the memory from the frame on. The code and the object. *)
Definition lpv35_frame_parse (key : option bytes) (key_len : Z) (input : option bytes) (ilen : Z)
    (output : lpv35_frame_object_t) : option (Z * lpv35_frame_object_t) :=
  match key, input with
  | Some key, Some input =>
      if bool_decide (key_len = 0 \/ ilen = 0) then Some (OPRT_INVALID_PARM, output)
      else
        head ← mread input 0 LPV35_FRAME_HEAD_SIZE;
        if bool_decide (head <> LPV35_FRAME_HEAD) then Some (OPRT_VERSION_FMT_ERR, output)
        else
          tail ← mread input (ilen - LPV35_FRAME_TAIL_SIZE) LPV35_FRAME_TAIL_SIZE;
          if bool_decide (tail <> LPV35_FRAME_TAIL) then Some (OPRT_VERSION_FMT_ERR, output)
          else
            sequence ← get32 input 6;
            type ← get32 input 10;
            flen ← get32 input 14;
            if bool_decide (flen <> u32 (ilen - 18 - LPV35_FRAME_TAIL_SIZE))
            then Some (OPRT_COM_ERROR, Frame sequence type (f_data output) (f_data_len output))
            else
              nonce ← mread input 18 LPV35_FRAME_NONCE_SIZE;
              let data_len := u32 (flen - LPV35_FRAME_NONCE_SIZE - LPV35_FRAME_TAG_SIZE) in
              tag ← mread input (i32 (30 + data_len)) LPV35_FRAME_TAG_SIZE;
              ad ← mread input LPV35_FRAME_HEAD_SIZE LPV35_AD_SIZE;
              match malloc (u32 (data_len + 1)) with
              | None => Some (OPRT_MALLOC_FAILED, Frame sequence type None data_len)
              | Some d =>
                  let d := replicate (length d) 0 in
                  r ← mbedtls_cipher_auth_decrypt_wrapper malloc key (Some nonce) (Some ad) input 30 data_len (Some tag) LPV35_FRAME_TAG_SIZE;
                  let '(rt, olen, out) := r in
                  d ← mwrite d 0 out;
                  if bool_decide (rt <> OPRT_OK) then Some (rt, Frame sequence type None data_len)
                  else Some (OPRT_OK, Frame sequence type (Some d) (u32 olen))
              end
  | _, _ => Some (OPRT_INVALID_PARM, output)
  end.
End frames.

(** ** Packets of the cloud and of the local network *)
Definition DP_CMD_LAN : Z := 0.
Definition DP_CMD_MQ : Z := 1.
Definition TUYA_PV23 : bytes := c_str "2.3".
Definition TUYA_LPV35 : bytes := c_str "3.5".
Definition PV_LEN_22_32 : Z := 3.
Definition CRC_OFFSET_22_32 : Z := 3.
Definition SEQ_OFFSET_22_32 : Z := 7.
Definition CMD_FROM_OFFSET_22_32 : Z := 11.
Definition DATA_OFFSET_22_32 : Z := 15.
Definition PV23_SEQ_OFFSET : Z := 3.
Definition PV23_CMD_FROM_OFFSET : Z := 7.
Definition PV23_RESERVE_OFFSET : Z := 11.
Definition PV23_NONCE_OFFSET : Z := 12.
Definition PV23_NONCE_LEN : Z := 12.
Definition PV23_DATA_OFFSET : Z := 24.
Definition PV23_TAG_LEN : Z := 16.
Definition PV23_AD_DATA_LEN : Z := 12.
Definition PV23_EXCEPT_DATA_LEN : Z := 40.

(** The static [serial_no] before and after; [random]: what is drawn when it is 0. *)
Definition tuya_pack_protocol_serial_no (serial_no random : Z) : Z :=
  u32 ((if bool_decide (serial_no = 0) then random else serial_no) + 1).

(** [offset += sprintf(buf + offset, ...)]. *)
Definition sprintf (buf : bytes) (offset : Z) (text : bytes) : option (bytes * Z) :=
  buf ← mwrite buf offset (text ++ [0]); Some (buf, offset + zlen text).

Definition json_text (pro posix : Z) (src : bytes) : bytes :=
  c_str "{" ++ [34] ++ c_str "protocol" ++ [34] ++ c_str ":" ++ dec pro ++
  c_str "," ++ [34] ++ c_str "t" ++ [34] ++ c_str ":" ++ dec (u32 posix) ++
  c_str "," ++ [34] ++ c_str "data" ++ [34] ++ c_str ":" ++ src.

Section packets.
Context `{Gcm} (malloc : Z -> option bytes).

(** The message around [src]; [None] inside: no memory. *)
Definition pack_json (pro posix : Z) (src : bytes) : option (option (bytes * Z)) :=
  match malloc (zlen src + 60) with
  | None => Some None
  | Some out =>
      r ← sprintf out 0 (json_text pro posix src);
      let '(out, offset) := r in
      out ← zset out offset 125;
      out ← zset out (offset + 1) 0;
      Some (Some (out, offset + 1))
  end.

(** The code, and the packet with its length. *)
Definition __pack_data_with_cmd_pv23 (pv src : bytes) (pro num : Z) (key : bytes) (posix : Z) (random : Z -> Z)
    : option (Z * option (bytes * Z)) :=
  j ← pack_json pro posix src;
  match j with
  | None => Some (OPRT_MALLOC_FAILED, None)
  | Some (out, offset) =>
      match malloc (offset + PV23_EXCEPT_DATA_LEN) with
      | None => Some (OPRT_MALLOC_FAILED, None)
      | Some buf =>
          let buf := replicate (length buf) 0 in
          buf ← memcpy buf 0 pv 0 PV_LEN_22_32;
          buf ← mwrite buf PV23_SEQ_OFFSET (be32 num);
          buf ← mwrite buf PV23_CMD_FROM_OFFSET (be32 1);
          buf ← zset buf PV23_RESERVE_OFFSET 0;
          buf ← mwrite buf PV23_NONCE_OFFSET (uni_random_string random PV23_NONCE_LEN);
          nonce ← mread buf PV23_NONCE_OFFSET PV23_NONCE_LEN;
          ad ← mread buf 0 PV23_AD_DATA_LEN;
          r ← mbedtls_cipher_auth_encrypt_wrapper malloc key 16 nonce ad (c_string out) PV23_TAG_LEN;
          match r with
          | (rt, None) => Some (rt, None)
          | (rt, Some (c, tag)) =>
              buf ← mwrite buf PV23_DATA_OFFSET c;
              buf ← mwrite buf (PV23_DATA_OFFSET + offset) tag;
              if bool_decide (rt <> OPRT_OK) then Some (rt, None)
              else Some (OPRT_OK, Some (buf, PV23_EXCEPT_DATA_LEN + zlen c))
          end
      end
  end.

Definition __pack_data_with_cmd_lpv35 (pv src : bytes) (pro num posix : Z) : option (Z * option (bytes * Z)) :=
  j ← pack_json pro posix src;
  match j with
  | None => Some (OPRT_MALLOC_FAILED, None)
  | Some (out, offset) =>
      match malloc (DATA_OFFSET_22_32 + offset + 16) with
      | None => Some (OPRT_MALLOC_FAILED, None)
      | Some buf =>
          let buf := replicate (length buf) 0 in
          buf ← memcpy buf DATA_OFFSET_22_32 out 0 offset;
          buf ← memcpy buf 0 pv 0 PV_LEN_22_32;
          buf ← mwrite buf CRC_OFFSET_22_32 (be32 0);
          buf ← mwrite buf SEQ_OFFSET_22_32 (be32 num);
          buf ← mwrite buf CMD_FROM_OFFSET_22_32 (be32 1);
          Some (OPRT_OK, Some (buf, DATA_OFFSET_22_32 + offset))
      end
  end.

(** The next serial number, the code and the packet. [src]: [None] for NULL. *)
Definition tuya_pack_protocol_data (cmd : Z) (src : option bytes) (pro : Z) (key : bytes)
    (serial_no draw posix : Z) (random : Z -> Z) : option (Z * Z * option (bytes * Z)) :=
  match src with
  | None => Some (serial_no, OPRT_INVALID_PARM, None)
  | Some src =>
      let num := tuya_pack_protocol_serial_no serial_no draw in
      if bool_decide (cmd = DP_CMD_LAN) then
        r ← __pack_data_with_cmd_lpv35 TUYA_LPV35 src pro num posix; Some (num, r.1, r.2)
      else if bool_decide (cmd = DP_CMD_MQ) then
        r ← __pack_data_with_cmd_pv23 TUYA_PV23 src pro num key posix random; Some (num, r.1, r.2)
      else Some (num, OPRT_COM_ERROR, None)
  end.

(** The code, and the text in its buffer when [*out_data] is set. *)
Definition __parse_data_with_pv23 (data : bytes) (len : Z) (key : bytes) : option (Z * option bytes) :=
  v ← mread data 0 3;
  if bool_decide (v <> TUYA_PV23) then Some (OPRT_VERSION_FMT_ERR, None)
  else
    _ ← get32 data PV23_SEQ_OFFSET;
    _ ← get32 data PV23_CMD_FROM_OFFSET;
    reserve ← zget data PV23_RESERVE_OFFSET;
    if bool_decide (reserve <> 0) then Some (OPRT_VERSION_FMT_ERR, None)
    else
      let data_len := u32 (len - PV23_EXCEPT_DATA_LEN) in
      match malloc (u32 (data_len + 1)) with
      | None => Some (OPRT_MALLOC_FAILED, None)
      | Some ec_data =>
          r ← mbedtls_cipher_auth_decrypt_wrapper malloc key (mread data PV23_NONCE_OFFSET PV23_NONCE_LEN)
                (mread data 0 PV23_AD_DATA_LEN) data PV23_DATA_OFFSET data_len
                (mread data (len - PV23_TAG_LEN) PV23_TAG_LEN) PV23_TAG_LEN;
          let '(rt, ec_len, out) := r in
          ec_data ← mwrite ec_data 0 out;
          if bool_decide (rt <> OPRT_OK) then Some (rt, None)
          else ec_data ← zset ec_data ec_len 0; Some (OPRT_OK, Some ec_data)
      end.

Definition __parse_data_with_lpv35 (data : bytes) (len : Z) : option (Z * option bytes) :=
  _ ← mread data 0 PV_LEN_22_32;
  _ ← get32 data SEQ_OFFSET_22_32;
  _ ← get32 data CMD_FROM_OFFSET_22_32;
  let ec_len := u32 (len - DATA_OFFSET_22_32) in
  match malloc (u32 (ec_len + 1)) with
  | None => Some (OPRT_MALLOC_FAILED, None)
  | Some ec_data =>
      ec_data ← memcpy ec_data 0 data DATA_OFFSET_22_32 ec_len;
      ec_data ← zset ec_data ec_len 0;
      Some (OPRT_OK, Some ec_data)
  end.

(** The bound has the type [size_t]: a negative length passes it. *)
Definition tuya_parse_protocol_data (cmd : Z) (data : option bytes) (len : Z) (key : bytes) : option (Z * option bytes) :=
  match data with
  | None => Some (OPRT_INVALID_PARM, None)
  | Some data =>
      if bool_decide (0 <= len < DATA_OFFSET_22_32) then Some (OPRT_INVALID_PARM, None)
      else if bool_decide (cmd = DP_CMD_LAN) then __parse_data_with_lpv35 data len
      else if bool_decide (cmd = DP_CMD_MQ) then __parse_data_with_pv23 data len key
      else Some (OPRT_COM_ERROR, None)
  end.
End packets.

(** ** The frames of the local network *)

Lemma zlen_seqZ_fmap (f : Z -> Z) n : 0 <= n -> zlen (f <$> seqZ 0 n) = n.
Proof. intros Hn. by rewrite zlen_fmap, zlen_seqZ. Qed.

(** Memory for requests up to [limit]. *)
Definition serves (malloc : Z -> option bytes) (limit : Z) : Prop :=
  forall n, 0 <= n <= limit -> exists b, malloc n = Some b /\ zlen b = n.

(** The next write of a buffer that fills from its start. *)
Ltac heads := change (zlen LPV35_FRAME_HEAD) with 4 in *; change (zlen LPV35_FRAME_TAIL) with 4 in *; change (zlen (@nil Z)) with 0 in *;
  change (zlen TUYA_PV23) with 3 in *; change (zlen TUYA_LPV35) with 3 in *;
  repeat match goal with
  | |- context [zlen (be32 ?n)] => change (zlen (be32 n)) with 4
  | |- context [zlen [?x]] => change (zlen [x]) with 1
  | H : context [zlen (be32 ?n)] |- _ => change (zlen (be32 n)) with 4 in H
  | H : context [zlen [?x]] |- _ => change (zlen [x]) with 1 in H
  end; unfold LPV35_FRAME_HEAD_SIZE in *.
Ltac next_write r :=
  match goal with |- context [mwrite (?a ++ ?rest) ?off ?src] =>
    let E := fresh in let L := fresh in
    destruct (mwrite_step a rest src off) as (r & E & L); [rewrite ?zlen_app; heads; lia..|];
    rewrite E; clear E; ub_step; heads
  end.

Section gcm.
Context `{GcmLaws} (malloc : Z -> option bytes).
Implicit Types (nonce ad data : bytes).

Lemma encrypt_wrapper_ok key k limit nonce ad data :
  serves malloc limit -> mread key 0 16 = Some k -> zlen data + 16 <= limit ->
  exists c tag, gcm_seal k nonce ad data = c ++ tag /\ zlen c = zlen data /\ zlen tag = 16 /\
    mbedtls_cipher_auth_encrypt_wrapper malloc key 16 nonce ad data 16 = Some (OPRT_OK, Some (c, tag)).
Proof.
  intros Hm Hk Hl. pose proof (zlen_nonneg data). pose proof (mread_inv _ _ _ _ Hk) as (_ & _ & _ & Hkl & _).
  destruct (list_cut (gcm_seal k nonce ad data) (zlen data) 16) as (c & tag & e & Hc & Hcl & Htl & He);
    [lia|lia|rewrite gcm_seal_len; lia|].
  assert (e = []) as ->. { subst e. apply drop_ge. pose proof (gcm_seal_len k nonce ad data). unfold zlen in *. lia. }
  rewrite app_nil_r in Hc. exists c, tag. split_and!; try done.
  unfold mbedtls_cipher_auth_encrypt_wrapper. rewrite cipher_setup_ok, bool_decide_false by naive_solver.
  change (bool_decide (16 * 8 <> 128)) with false. rewrite Hk. ub_step.
  rewrite cipher_setkey_ok, bool_decide_false by naive_solver. destruct (Hm (zlen data + 16)) as (b & -> & Hb); [lia|]. ub_step.
  rewrite encrypt_ext_ok by done. rewrite mwrite_full by (rewrite gcm_seal_len; lia). ub_step.
  rewrite Hc. rewrite <- (app_nil_r (c ++ tag)), <- app_assoc.
  replace (zlen data + 16 - 16) with (zlen c) by lia.
  rewrite (mread_middle [] c (tag ++ [])) by done. ub_step. by rewrite (mread_middle c tag []) by done.
Qed.

Lemma decrypt_wrapper_ok key k limit nonce ad data doff data_len tag c :
  serves malloc limit -> mread key 0 16 = Some k -> 0 <= data_len -> data_len + 16 <= limit ->
  mread data doff data_len = Some c -> zlen tag = 16 ->
  mbedtls_cipher_auth_decrypt_wrapper malloc key (Some nonce) (Some ad) data doff data_len (Some tag) 16 =
    Some (decrypt_ext k nonce ad (c ++ tag) 16).
Proof.
  intros Hm Hk Hd Hl Hc Ht. pose proof (mread_inv _ _ _ _ Hk) as (_ & _ & _ & Hkl & _).
  pose proof (mread_inv _ _ _ _ Hc) as (_ & _ & _ & Hcl & _).
  unfold mbedtls_cipher_auth_decrypt_wrapper. rewrite cipher_setup_ok, bool_decide_false by naive_solver. rewrite Hk. ub_step.
  rewrite cipher_setkey_ok, bool_decide_false by naive_solver. destruct (Hm (data_len + 16)) as (b & -> & Hb); [lia|]. ub_step.
  rewrite Hc. ub_step. rewrite (mwrite_next [] b) by (done || lia). ub_step.
  by rewrite mwrite_end by (rewrite ?zlen_app, ?zlen_drop by lia; change (zlen (@nil Z)) with 0; lia).
Qed.

(** The frame of an object: head, additional data, nonce, ciphertext with tag, tail. *)
Definition frame_text (k nonce : bytes) (sequence type : Z) (data : bytes) : bytes :=
  let ad := additional_data sequence type (zlen data + 28) in
  LPV35_FRAME_HEAD ++ ad ++ nonce ++ gcm_seal k nonce ad data ++ LPV35_FRAME_TAIL.

Lemma frame_text_len k nonce sequence type data : zlen nonce = 12 ->
  zlen (frame_text k nonce sequence type data) = 50 + zlen data.
Proof.
  intros Hn. unfold frame_text. rewrite !zlen_app, gcm_seal_len, Hn.
  change (zlen LPV35_FRAME_HEAD) with 4. change (zlen LPV35_FRAME_TAIL) with 4.
  change (zlen (additional_data sequence type (zlen data + 28))) with 14. lia.
Qed.

Lemma serialize_ok key k limit sequence type data random output :
  serves malloc limit -> mread key 0 16 = Some k -> zlen data + 16 <= limit -> zlen data < 2 ^ 31 - 50 ->
  let f := Frame sequence type (Some data) (zlen data) in
  zlen output = lpv35_frame_buffer_size_get f ->
  lpv35_frame_serialize malloc (Some key) 16 (Some f) (Some output) random =
    Some (OPRT_OK, Some (frame_text k (lpv35_nonce random) sequence type data), Some (50 + zlen data)).
Proof.
  intros Hm Hk Hl Hs f Ho. pose proof (zlen_nonneg data). change (2 ^ 31) with 2147483648 in Hs.
  assert (Hsz : zlen output = 50 + zlen data).
  { rewrite Ho. unfold lpv35_frame_buffer_size_get. cbn [f_data_len f].
    unfold LPV35_FRAME_HEAD_SIZE, LPV35_AD_SIZE, LPV35_FRAME_NONCE_SIZE, LPV35_FRAME_TAG_SIZE, LPV35_FRAME_TAIL_SIZE.
    wraps. rewrite swrap_small by (unfold in_s; lia). lia. }
  unfold lpv35_frame_serialize. cbn [f f_sequence f_type f_data f_data_len default]. change (bool_decide (16 = 0)) with false.
  cbv iota. change output with ([] ++ output). next_write r4. unfold LPV35_FRAME_NONCE_SIZE, LPV35_FRAME_TAG_SIZE. wraps.
  replace (12 + zlen data + 16) with (zlen data + 28) by lia.
  set (ad := additional_data _ _ _). assert (Had : zlen ad = 14) by done.
  set (nonce := lpv35_nonce random). assert (Hn : zlen nonce = 12) by (by apply zlen_seqZ_fmap).
  next_write r18. next_write r30. rewrite <- (app_nil_r data) at 1. rewrite (mread_middle [] data []) by done. ub_step.
  destruct (encrypt_wrapper_ok key k limit nonce ad data Hm Hk Hl) as (c & tag & Hseal & Hc & Ht & ->). ub_step.
  next_write rc. change (bool_decide (OPRT_OK <> OPRT_OK)) with false. cbv iota. next_write rt.
  rewrite mwrite_end by (rewrite ?zlen_app; heads; lia). ub_step.
  unfold frame_text. fold ad. rewrite Hseal, <- !app_assoc. do 2 f_equal. unfold LPV35_FRAME_TAIL_SIZE. f_equal. lia.
Qed.

(** What the parser does with a frame of the right form. *)
Lemma parse_form key k limit (v r : Z) sequence type nonce c tag rest :
  serves malloc limit -> mread key 0 16 = Some k -> zlen c + 16 <= limit -> zlen c < 2 ^ 31 - 50 ->
  in_u 32 sequence -> in_u 32 type -> zlen nonce = 12 -> zlen tag = 16 ->
  let ad := [v; r] ++ be32 sequence ++ be32 type ++ be32 (zlen c + 28) in
  let input := LPV35_FRAME_HEAD ++ ad ++ nonce ++ c ++ tag ++ LPV35_FRAME_TAIL ++ rest in
  forall output rt olen out, decrypt_ext k nonce ad (c ++ tag) 16 = (rt, olen, out) ->
  lpv35_frame_parse malloc (Some key) 16 (Some input) (50 + zlen c) output =
    Some (if bool_decide (rt <> OPRT_OK) then (rt, Frame sequence type None (zlen c))
          else (OPRT_OK, Frame sequence type (Some (out ++ replicate (Z.to_nat (zlen c + 1 - zlen out)) 0)) (u32 olen))).
Proof.
  intros Hm Hk Hl Hs Hseq Hty Hn Ht ad input output rt olen out Hdec. pose proof (zlen_nonneg c). change (2 ^ 31) with 2147483648 in Hs.
  pose proof (decrypt_ext_out _ _ _ _ _ _ _ Hdec) as Hout. rewrite zlen_app, Ht in Hout.
  assert (Had : zlen ad = 14) by done.
  assert (Hr : forall a b e off n, input = a ++ b ++ e -> off = zlen a -> n = zlen b -> mread input off n = Some b)
    by (intros a b e off n ->; apply mread_middle).
  assert (Hg : forall a n e off, input = a ++ be32 n ++ e -> off = zlen a -> in_u 32 n -> get32 input off = Some n)
    by (intros a n e off ->; apply get32_middle).
  assert (Hhead : mread input 0 4 = Some LPV35_FRAME_HEAD) by (by apply (Hr [] _ (ad ++ nonce ++ c ++ tag ++ LPV35_FRAME_TAIL ++ rest))).
  assert (Htail : mread input (50 + zlen c - 4) 4 = Some LPV35_FRAME_TAIL).
  { apply (Hr (LPV35_FRAME_HEAD ++ ad ++ nonce ++ c ++ tag) _ rest); [unfold input; by rewrite <- !app_assoc| |done].
    rewrite !zlen_app. heads. lia. }
  assert (Hsq : get32 input 6 = Some sequence) by (by apply (Hg (LPV35_FRAME_HEAD ++ [v; r]) _ (be32 type ++ be32 (zlen c + 28) ++ nonce ++ c ++ tag ++ LPV35_FRAME_TAIL ++ rest))).
  assert (Htp : get32 input 10 = Some type) by (by apply (Hg (LPV35_FRAME_HEAD ++ [v; r] ++ be32 sequence) _ (be32 (zlen c + 28) ++ nonce ++ c ++ tag ++ LPV35_FRAME_TAIL ++ rest))).
  assert (Hln : get32 input 14 = Some (zlen c + 28)).
  { apply (Hg (LPV35_FRAME_HEAD ++ [v; r] ++ be32 sequence ++ be32 type) _ (nonce ++ c ++ tag ++ LPV35_FRAME_TAIL ++ rest)); [done|done|unfold in_u; lia]. }
  assert (Hnon : mread input 18 12 = Some nonce).
  { apply (Hr (LPV35_FRAME_HEAD ++ ad) _ (c ++ tag ++ LPV35_FRAME_TAIL ++ rest)); [unfold input; by rewrite <- !app_assoc|done|lia]. }
  assert (Hc : mread input 30 (zlen c) = Some c).
  { apply (Hr (LPV35_FRAME_HEAD ++ ad ++ nonce) _ (tag ++ LPV35_FRAME_TAIL ++ rest)); [unfold input; by rewrite <- !app_assoc| |lia].
    rewrite !zlen_app. heads. lia. }
  assert (Htg : mread input (30 + zlen c) 16 = Some tag).
  { apply (Hr (LPV35_FRAME_HEAD ++ ad ++ nonce ++ c) _ (LPV35_FRAME_TAIL ++ rest)); [unfold input; by rewrite <- !app_assoc| |lia].
    rewrite !zlen_app. heads. lia. }
  assert (Hadr : mread input 4 14 = Some ad).
  { apply (Hr LPV35_FRAME_HEAD _ (nonce ++ c ++ tag ++ LPV35_FRAME_TAIL ++ rest)); [done|done|lia]. }
  clearbody input. clear Hr Hg. unfold lpv35_frame_parse. rewrite bool_decide_false by lia.
  unfold LPV35_FRAME_HEAD_SIZE, LPV35_FRAME_TAIL_SIZE, LPV35_FRAME_NONCE_SIZE, LPV35_FRAME_TAG_SIZE, LPV35_AD_SIZE.
  rewrite Hhead. ub_step. change (bool_decide (LPV35_FRAME_HEAD <> LPV35_FRAME_HEAD)) with false. cbv iota.
  rewrite Htail. ub_step. change (bool_decide (LPV35_FRAME_TAIL <> LPV35_FRAME_TAIL)) with false. cbv iota.
  rewrite Hsq, Htp, Hln. ub_step. rewrite (wrap_small 32 (50 + zlen c - 18 - 4)) by (unfold in_u; lia).
  rewrite bool_decide_false by lia. rewrite Hnon. ub_step. rewrite (wrap_small 32 (zlen c + 28 - 12 - 16)) by (unfold in_u; lia).
  replace (zlen c + 28 - 12 - 16) with (zlen c) by lia. rewrite swrap_small by (unfold in_s; lia). rewrite Htg, Hadr. ub_step.
  rewrite (wrap_small 32 (zlen c + 1)) by (unfold in_u; lia). destruct (Hm (zlen c + 1)) as (b & -> & Hb); [lia|].
  assert (Hbl : length b = Z.to_nat (zlen c + 1)) by (rewrite <- Hb; by rewrite zlen_to_nat). rewrite Hbl.
  rewrite (decrypt_wrapper_ok key k limit nonce ad input 30 (zlen c) tag c Hm Hk) by (done || lia). ub_step. rewrite Hdec.
  rewrite mwrite_zeros by lia. ub_step. by destruct (bool_decide (rt <> OPRT_OK)).
Qed.
(** What the parser takes from a frame of the right text. *)
Lemma parse_ok key k limit sequence type nonce data rest out :
  serves malloc limit -> mread key 0 16 = Some k -> zlen data + 16 <= limit -> zlen data < 2 ^ 31 - 50 ->
  in_u 32 sequence -> in_u 32 type -> zlen nonce = 12 ->
  lpv35_frame_parse malloc (Some key) 16 (Some (frame_text k nonce sequence type data ++ rest)) (50 + zlen data) out =
    Some (OPRT_OK, Frame sequence type (Some (data ++ [0])) (zlen data)).
Proof.
  intros Hm Hk' Hl Hs Hseq Hty Hn. pose proof (zlen_nonneg data). pose proof (mread_inv _ _ _ _ Hk') as (_ & _ & _ & Hkl & _).
  set (ad := additional_data sequence type (zlen data + 28)).
  destruct (encrypt_wrapper_ok key k limit nonce ad data Hm Hk' Hl) as (c & tag & Hseal & Hc & Ht & _).
  assert (Hd : decrypt_ext k nonce ad (c ++ tag) 16 = (OPRT_OK, zlen data, data)) by (rewrite <- Hseal; by apply decrypt_ext_seal).
  unfold frame_text. fold ad. rewrite Hseal. unfold ad, additional_data in *. rewrite <- Hc in Hd at 1 |- *.
  rewrite <- !app_assoc. pose proof (parse_form key k limit 0 0 sequence type nonce c tag rest Hm Hk' ltac:(lia) ltac:(lia) Hseq Hty Hn Ht out _ _ _ Hd) as Hp.
  cbv zeta in Hp. rewrite <- !app_assoc in Hp. rewrite Hp. change (bool_decide (OPRT_OK <> OPRT_OK)) with false. cbv iota.
  change (2 ^ 31) with 2147483648 in Hs. wraps. rewrite Hc. by replace (Z.to_nat (zlen data + 1 - zlen data)) with 1%nat by lia.
Qed.

(** C17. A frame of the local network that [lpv35_frame_serialize] makes for an object, in memory of the
    size that [lpv35_frame_buffer_size_get] tells, fills this memory exactly, and [lpv35_frame_parse] with
    the same key takes the same sequence, type and data from it, with a terminating 0, whatever follows. *)
Theorem lan_frame_roundtrip key limit sequence type data random output rest out :
  serves malloc limit -> 16 <= zlen key -> zlen data + 16 <= limit -> zlen data < 2 ^ 31 - 50 ->
  in_u 32 sequence -> in_u 32 type ->
  zlen output = lpv35_frame_buffer_size_get (Frame sequence type (Some data) (zlen data)) ->
  exists text,
    lpv35_frame_serialize malloc (Some key) 16 (Some (Frame sequence type (Some data) (zlen data))) (Some output) random =
      Some (OPRT_OK, Some text, Some (zlen text)) /\
    lpv35_frame_parse malloc (Some key) 16 (Some (text ++ rest)) (zlen text) out =
      Some (OPRT_OK, Frame sequence type (Some (data ++ [0])) (zlen data)).
Proof.
  intros Hm Hk Hl Hs Hseq Hty Ho. pose proof (zlen_nonneg data). destruct (mread_is_Some key 0 16) as [k Hk']; [lia..|].
  set (nonce := lpv35_nonce random). assert (Hn : zlen nonce = 12) by (by apply zlen_seqZ_fmap).
  exists (frame_text k nonce sequence type data). rewrite frame_text_len by done. split; [by eapply serialize_ok|by eapply parse_ok].
Qed.
(** [malloc] gives what was asked for. *)
Definition malloc_ok : Prop := forall n b, malloc n = Some b -> zlen b = n.

Lemma decrypt_wrapper_inv key (nonce ad : option bytes) data doff data_len (tag : option bytes) ret olen out :
  malloc_ok -> mbedtls_cipher_auth_decrypt_wrapper malloc key nonce ad data doff data_len tag 16 = Some (ret, olen, out) ->
  exists k c t n a, mread key 0 16 = Some k /\ mread data doff data_len = Some c /\ tag = Some t /\ nonce = Some n /\ ad = Some a /\
    zlen t <= 16 /\ (zlen t = 16 -> (ret, olen, out) = decrypt_ext k n a (c ++ t) 16).
Proof.
  intros Hm. unfold mbedtls_cipher_auth_decrypt_wrapper. rewrite cipher_setup_ok, bool_decide_false by naive_solver.
  destruct (mread key 0 16) as [k|] eqn:Hk; [|done]. ub_step. pose proof (mread_inv _ _ _ _ Hk) as (_ & _ & _ & Hkl & _).
  rewrite cipher_setkey_ok, bool_decide_false by naive_solver. destruct (malloc (data_len + 16)) as [b|] eqn:Hb; [|done]. ub_step.
  apply Hm in Hb. destruct (mread data doff data_len) as [c|] eqn:Hc; [|done]. ub_step.
  pose proof (mread_inv _ _ _ _ Hc) as (_ & Hd0 & _ & Hcl & _).
  change b with ([] ++ b). rewrite mwrite_next by (done || lia). ub_step. destruct tag as [t|]; [|done]. ub_step.
  rewrite Hcl. cbn [app]. destruct (mwrite (c ++ _) data_len t) as [b'|] eqn:Hw; [|done]. ub_step.
  destruct nonce as [n|]; [|done]. destruct ad as [a|]; [|done]. ub_step. intros [= Hr].
  exists k, c, t, n, a. split_and!; try done.
  - apply mwrite_inv in Hw as (_ & Hw & _). rewrite zlen_app, zlen_drop in Hw by lia. lia.
  - intros Ht. rewrite mwrite_end in Hw by (rewrite ?zlen_drop by lia; lia). by injection Hw as <-.
Qed.

(** The length of a frame is not checked from below, and neither is the tag before: a frame of 49
    bytes that announces 27 bytes of nonce, data and tag makes [lpv35_frame_parse] read 2^32 - 1 bytes of
    ciphertext, whoever sent it and whatever the key. *)
Lemma parse_underflow key (v r : Z) sequence type x rest out :
  zlen x = 27 -> zlen rest < 2 ^ 31 -> is_Some (malloc 0) ->
  lpv35_frame_parse malloc (Some key) 16
    (Some (LPV35_FRAME_HEAD ++ [v; r] ++ be32 sequence ++ be32 type ++ be32 27 ++ x ++ LPV35_FRAME_TAIL ++ rest)) 49 out = None.
Proof.
  intros Hx Hrest [b Hb]. change (2 ^ 31) with 2147483648 in Hrest. unfold lpv35_frame_parse. change (bool_decide (16 = 0 \/ 49 = 0)) with false. cbv iota.
  set (input := LPV35_FRAME_HEAD ++ _).
  assert (Hlen : zlen input = 49 + zlen rest).
  { unfold input. rewrite !zlen_app, Hx. heads. change (zlen [v; r]) with 2. change (zlen (be32 _)) with 4. lia. }
  assert (Htl : mread input (49 - LPV35_FRAME_TAIL_SIZE) LPV35_FRAME_TAIL_SIZE = Some LPV35_FRAME_TAIL).
  { unfold input. replace (LPV35_FRAME_HEAD ++ _) with ((LPV35_FRAME_HEAD ++ [v; r] ++ be32 sequence ++ be32 type ++ be32 27 ++ x) ++ LPV35_FRAME_TAIL ++ rest)
      by (by rewrite <- !app_assoc). apply mread_middle; [|done]. rewrite !zlen_app, Hx. done. }
  assert (Hfl : get32 input 14 = Some 27) by (by apply (get32_middle (LPV35_FRAME_HEAD ++ [v; r] ++ be32 sequence ++ be32 type) 27 (x ++ LPV35_FRAME_TAIL ++ rest))).
  assert (Hhd : mread input 0 LPV35_FRAME_HEAD_SIZE = Some LPV35_FRAME_HEAD) by (by apply (mread_middle [] LPV35_FRAME_HEAD)).
  clearbody input. rewrite Hhd. ub_step. rewrite bool_decide_false by naive_solver. rewrite Htl. ub_step. rewrite bool_decide_false by naive_solver.
  destruct (get32 input 6) as [sq|]; [|done]. destruct (get32 input 10) as [ty|]; [|done]. rewrite Hfl. ub_step.
  change (bool_decide (27 <> u32 (49 - 18 - LPV35_FRAME_TAIL_SIZE))) with false. cbv iota.
  destruct (mread input 18 _) as [n|]; [|done]. ub_step. destruct (mread input _ LPV35_FRAME_TAG_SIZE) as [t|]; [|done]. ub_step.
  destruct (mread input _ LPV35_AD_SIZE) as [a|]; [|done]. ub_step.
  change (u32 (u32 (27 - LPV35_FRAME_NONCE_SIZE - LPV35_FRAME_TAG_SIZE) + 1)) with 0. rewrite Hb.
  change (u32 (27 - LPV35_FRAME_NONCE_SIZE - LPV35_FRAME_TAG_SIZE)) with 4294967295.
  unfold mbedtls_cipher_auth_decrypt_wrapper. rewrite cipher_setup_ok, bool_decide_false by naive_solver.
  destruct (mread key 0 16) as [k|] eqn:Hk; [|done]. ub_step. pose proof (mread_inv _ _ _ _ Hk) as (_ & _ & _ & Hkl & _).
  rewrite cipher_setkey_ok, bool_decide_false by naive_solver. destruct (malloc (_ + LPV35_FRAME_TAG_SIZE)) as [d|]; [|done]. ub_step.
  assert (Hc : mread input 30 4294967295 = None) by (unfold mread; rewrite bool_decide_false by lia; done). rewrite Hc. reflexivity.
Qed.

End gcm.

(** ** Packets *)

Lemma json_text_len pro posix src : in_u 32 pro -> zlen (json_text pro posix src) <= zlen src + 45.
Proof.
  intros Hp. assert (Hd : forall n, in_u 32 n -> zlen (dec n) <= 10).
  { intros n Hn. unfold in_u in Hn. pose proof (dec_len 10 n ltac:(lia) ltac:(lia)) as Hl. rewrite bool_decide_false in Hl by lia. lia. }
  pose proof (Hd pro Hp). pose proof (Hd (u32 posix) (wrap_range 32 posix ltac:(lia))). unfold json_text. rewrite !zlen_app.
  change (zlen (c_str "{")) with 1. change (zlen [34]) with 1. change (zlen (c_str "protocol")) with 8. change (zlen (c_str ":")) with 1.
  change (zlen (c_str ",")) with 1. change (zlen (c_str "t")) with 1. change (zlen (c_str "data")) with 4. lia.
Qed.

(** The text of a message. *)
Definition message_text (pro posix : Z) (src : bytes) : bytes := json_text pro posix src ++ [125].

Lemma no_nul_dec_digits fuel : forall z acc, 0 <= z -> no_nul acc -> no_nul (dec_digits fuel z acc).
Proof.
  induction fuel as [|fuel IH]; intros z acc Hz Ha; cbn [dec_digits]; [done|].
  assert (no_nul (48 + z `mod` 10 :: acc)). { constructor; [|done]. pose proof (Z.mod_pos_bound z 10 ltac:(lia)). lia. }
  case_bool_decide; [done|]. apply IH; [apply Z.div_pos; lia|done].
Qed.

Lemma no_nul_dec z : no_nul (dec z).
Proof.
  unfold dec. case_bool_decide; [constructor; [done|]|]; apply no_nul_dec_digits; (lia || constructor).
Qed.

Lemma no_nul_message pro posix src : no_nul src -> no_nul (message_text pro posix src).
Proof.
  intros Hs. unfold message_text, json_text, no_nul. rewrite !Forall_app.
  assert (Hc : forall b : bytes, forallb (fun x => negb (x =? 0)) b = true -> Forall (fun x => x <> 0) b).
  { intros b. induction b as [|x b IH]; cbn [forallb]; [constructor|]. intros [Hx Hb]%andb_prop. constructor; [lia|by apply IH]. }
  split_and!; first [exact Hs | apply no_nul_dec | apply Hc; reflexivity].
Qed.

Section packets_ok.
Context `{GcmLaws} (malloc : Z -> option bytes).

Lemma pack_json_ok pro posix src limit :
  serves malloc limit -> in_u 32 pro -> zlen src + 60 <= limit ->
  exists junk, pack_json malloc pro posix src = Some (Some (message_text pro posix src ++ 0 :: junk, zlen (message_text pro posix src))).
Proof.
  intros Hm Hp Hl. pose proof (zlen_nonneg src). pose proof (json_text_len pro posix src Hp) as Hjl. unfold pack_json.
  destruct (Hm (zlen src + 60)) as (out & -> & Ho); [lia|]. set (j := json_text pro posix src) in *. pose proof (zlen_nonneg j).
  unfold sprintf. change out with ([] ++ out). destruct (mwrite_step [] out (j ++ [0]) 0) as (r & -> & Hr); [done|rewrite zlen_snoc; lia|].
  ub_step. rewrite zlen_snoc in Hr. rewrite app_nil_l, <- app_assoc. cbn [app]. rewrite Z.add_0_l.
  rewrite zset_mwrite by (rewrite zlen_app, zlen_cons; pose proof (zlen_nonneg r); lia).
  change (0 :: r) with ([0] ++ r). rewrite mwrite_mid by done. ub_step.
  rewrite zset_mwrite by (rewrite !zlen_app; change (zlen [125]) with 1; lia). rewrite app_assoc.
  destruct (mwrite_step (j ++ [125]) r [0] (zlen j + 1)) as (r' & -> & _); [by rewrite zlen_snoc|change (zlen [0]) with 1; lia|].
  ub_step. exists r'. unfold message_text. fold j. rewrite zlen_snoc, <- !app_assoc. done.
Qed.

(** The packet of a message for the cloud. *)
Definition pv23_head (num : Z) : bytes := TUYA_PV23 ++ be32 num ++ be32 1 ++ [0].
Definition pv23_packet (k nonce : bytes) (num : Z) (text : bytes) : bytes :=
  pv23_head num ++ nonce ++ gcm_seal k nonce (pv23_head num) text.

Lemma pv23_pack_ok src pro num key k posix random limit :
  serves malloc limit -> mread key 0 16 = Some k -> in_u 32 pro -> no_nul src -> zlen src + 86 <= limit ->
  let text := message_text pro posix src in
  __pack_data_with_cmd_pv23 malloc TUYA_PV23 src pro num key posix random =
    Some (OPRT_OK, Some (pv23_packet k (uni_random_string random 12) num text, 40 + zlen text)).
Proof.
  intros Hm Hk Hp Hs Hl text. pose proof (zlen_nonneg src). unfold __pack_data_with_cmd_pv23.
  destruct (pack_json_ok pro posix src limit Hm Hp ltac:(lia)) as [junk ->]. ub_step. fold text.
  assert (Htl : zlen text <= zlen src + 46) by (unfold text, message_text; rewrite zlen_snoc; pose proof (json_text_len pro posix src Hp); lia).
  pose proof (zlen_nonneg text). unfold PV23_EXCEPT_DATA_LEN, PV23_SEQ_OFFSET, PV23_CMD_FROM_OFFSET, PV23_RESERVE_OFFSET, PV23_NONCE_OFFSET,
    PV23_NONCE_LEN, PV23_DATA_OFFSET, PV23_TAG_LEN, PV23_AD_DATA_LEN, PV_LEN_22_32.
  destruct (Hm (zlen text + 40)) as (b & -> & Hb); [lia|].
  assert (Hz : zlen (replicate (length b) 0) = zlen text + 40) by (unfold zlen at 1; rewrite length_replicate; exact Hb).
  set (z := replicate (length b) 0) in *. clearbody z. rewrite memcpy_mwrite by done. change (take (Z.to_nat 3) (drop (Z.to_nat 0) TUYA_PV23)) with TUYA_PV23.
  change z with ([] ++ z). next_write r3. next_write r7. next_write r11.
  rewrite zset_mwrite by (rewrite !zlen_app; heads; change (zlen TUYA_PV23) with 3; change (zlen (be32 _)) with 4; lia).
  next_write r12. set (nonce := uni_random_string random 12). assert (Hn : zlen nonce = 12) by (by apply zlen_seqZ_fmap).
  next_write r24. set (head := _ ++ [0]). assert (Hhead : head = pv23_head num) by done. rewrite Hhead. clear Hhead head.
  assert (Hh : zlen (pv23_head num) = 12) by done.
  rewrite <- (app_assoc _ nonce r24), (mread_middle (pv23_head num) nonce r24) by done. ub_step.
  rewrite (mread_middle [] (pv23_head num) (nonce ++ r24)) by done. ub_step.
  rewrite c_string_nul by (by apply no_nul_message).
  destruct (encrypt_wrapper_ok malloc key k limit nonce (pv23_head num) text Hm Hk) as (c & tag & Hseal & Hc & Ht & ->); [lia|]. ub_step.
  rewrite app_assoc.
  next_write rc. rewrite mwrite_end by (rewrite ?zlen_app; lia). ub_step. change (bool_decide (OPRT_OK <> OPRT_OK)) with false. cbv iota.
  unfold pv23_packet. rewrite Hseal, Hc, <- !app_assoc. done.
Qed.

Lemma pv23_parse_ok key k limit num nonce text rest :
  serves malloc limit -> mread key 0 16 = Some k -> in_u 32 num -> zlen nonce = 12 -> zlen text + 16 <= limit ->
  zlen text < 2 ^ 31 -> 
  __parse_data_with_pv23 malloc (pv23_packet k nonce num text ++ rest) (40 + zlen text) key = Some (OPRT_OK, Some (text ++ [0])).
Proof.
  intros Hm Hk Hnum Hn Hl Ht. change (2 ^ 31) with 2147483648 in Ht. pose proof (zlen_nonneg text).
  destruct (encrypt_wrapper_ok malloc key k limit nonce (pv23_head num) text Hm Hk Hl) as (c & tag & Hseal & Hc & Htg & _).
  pose proof (mread_inv _ _ _ _ Hk) as (_ & _ & _ & Hkl & _).
  assert (Hd : decrypt_ext k nonce (pv23_head num) (c ++ tag) 16 = (OPRT_OK, zlen text, text)) by (rewrite <- Hseal; by apply decrypt_ext_seal).
  unfold pv23_packet. rewrite Hseal, <- !app_assoc. set (data := pv23_head num ++ _).
  assert (Hv : mread data 0 3 = Some TUYA_PV23) by (by apply (mread_middle [] TUYA_PV23)).
  assert (Hs : get32 data 3 = Some num) by (by apply (get32_middle TUYA_PV23 num)).
  assert (Hf : get32 data 7 = Some 1) by (by apply (get32_middle (TUYA_PV23 ++ be32 num) 1)).
  assert (Hrs : zget data 11 = Some 0) by done.
  assert (Had : mread data 0 12 = Some (pv23_head num)) by (by apply (mread_middle [] (pv23_head num))).
  assert (Hno : mread data 12 12 = Some nonce) by (by apply mread_middle).
  assert (Hcr : mread data 24 (zlen text) = Some c).
  { unfold data. rewrite app_assoc. apply mread_middle; [rewrite zlen_app, Hn; done|done]. }
  assert (Htr : mread data (40 + zlen text - 16) 16 = Some tag).
  { unfold data. replace (_ ++ _) with ((pv23_head num ++ nonce ++ c) ++ tag ++ rest) by (by rewrite <- !app_assoc).
    apply mread_middle; [rewrite !zlen_app, Hn, Hc; change (zlen (pv23_head num)) with 12; lia|done]. }
  clearbody data. unfold __parse_data_with_pv23, PV23_SEQ_OFFSET, PV23_CMD_FROM_OFFSET, PV23_RESERVE_OFFSET, PV23_EXCEPT_DATA_LEN,
    PV23_NONCE_OFFSET, PV23_NONCE_LEN, PV23_AD_DATA_LEN, PV23_DATA_OFFSET, PV23_TAG_LEN.
  rewrite Hv. ub_step. rewrite bool_decide_false by naive_solver. rewrite Hs, Hf, Hrs. ub_step. rewrite bool_decide_false by naive_solver.
  wraps. replace (40 + zlen text - 40) with (zlen text) by lia. destruct (Hm (zlen text + 1)) as (b & -> & Hb); [lia|].
  rewrite Hno, Had, Htr. rewrite (decrypt_wrapper_ok malloc key k limit nonce (pv23_head num) data 24 (zlen text) tag c Hm Hk) by (done || lia).
  ub_step. rewrite Hd. change b with ([] ++ b). destruct (mwrite_step [] b text 0) as (r & -> & Hr); [done|lia|]. ub_step.
  rewrite bool_decide_false by naive_solver. cbn [app]. rewrite zset_mwrite by (rewrite zlen_app; lia).
  rewrite mwrite_end by (change (zlen [0]) with 1; lia). done.
Qed.

Lemma lpv35_packet_ok src pro num posix limit rest :
  serves malloc limit -> in_u 32 pro -> in_u 32 num -> no_nul src -> zlen src + 80 <= limit -> zlen src < 2 ^ 30 ->
  let text := message_text pro posix src in
  exists pack, __pack_data_with_cmd_lpv35 malloc TUYA_LPV35 src pro num posix = Some (OPRT_OK, Some (pack, 15 + zlen text)) /\
    __parse_data_with_lpv35 malloc (pack ++ rest) (15 + zlen text) = Some (OPRT_OK, Some (text ++ [0])).
Proof.
  intros Hm Hp Hnum Hs Hl Hls text. change (2 ^ 30) with 1073741824 in Hls. pose proof (zlen_nonneg src). unfold __pack_data_with_cmd_lpv35.
  destruct (pack_json_ok pro posix src limit Hm Hp ltac:(lia)) as [junk ->]. ub_step. fold text.
  assert (Htl : zlen text <= zlen src + 46) by (unfold text, message_text; rewrite zlen_snoc; pose proof (json_text_len pro posix src Hp); lia).
  pose proof (zlen_nonneg text).
  unfold DATA_OFFSET_22_32, PV_LEN_22_32, CRC_OFFSET_22_32, SEQ_OFFSET_22_32, CMD_FROM_OFFSET_22_32.
  destruct (Hm (15 + zlen text + 16)) as (b & -> & Hb); [lia|].
  assert (Hz : zlen (replicate (length b) 0) = zlen text + 31) by (unfold zlen at 1; rewrite length_replicate; change (Z.of_nat (length b)) with (zlen b); lia).
  set (z := replicate (length b) 0) in *. clearbody z.
  rewrite memcpy_mwrite by (rewrite ?zlen_app; pose proof (zlen_nonneg (0 :: junk)); lia). rewrite drop_0, zlen_to_nat, take_app_length.
  destruct (list_cut z 15 (zlen text)) as (h & m & e & -> & Hh & Hmm & _); [lia..|]. rewrite mwrite_mid by lia. ub_step.
  rewrite memcpy_mwrite by done. change (take (Z.to_nat 3) (drop (Z.to_nat 0) TUYA_LPV35)) with TUYA_LPV35.
  destruct (list_cut h 3 12) as (h1 & h2 & h3 & -> & Hh1 & Hh2 & _); [lia..|].
  destruct (list_cut h2 4 4) as (h4 & h5 & h6 & -> & Hh4 & Hh5 & _); [lia..|].
  rewrite !zlen_app in *. assert (h3 = []) as -> by (destruct h3; [done|rewrite zlen_cons in *; pose proof (zlen_nonneg h3); lia]).
  rewrite app_nil_r, <- !app_assoc. rewrite mwrite_start by (heads; lia). ub_step.
  rewrite (mwrite_mid TUYA_LPV35 h4) by (done || (heads; lia)). ub_step.
  rewrite (app_assoc TUYA_LPV35), (mwrite_mid (TUYA_LPV35 ++ be32 0) h5) by (done || (heads; lia)). ub_step.
  rewrite (app_assoc _ (be32 num)), (mwrite_mid _ h6) by (done || (heads; lia)). ub_step. cbn [fst snd].
  eexists. split; [reflexivity|]. rewrite <- !app_assoc. set (data := TUYA_LPV35 ++ _).
  assert (Hv : mread data 0 3 = Some TUYA_LPV35) by (by apply (mread_middle [] TUYA_LPV35)).
  assert (Hsq : get32 data 7 = Some num) by (by apply (get32_middle (TUYA_LPV35 ++ be32 0) num)).
  assert (Hf : get32 data 11 = Some 1) by (by apply (get32_middle (TUYA_LPV35 ++ be32 0 ++ be32 num) 1)).
  assert (Hd : mread data 15 (zlen text) = Some text) by (by apply (mread_middle (TUYA_LPV35 ++ be32 0 ++ be32 num ++ be32 1) text)).
  clearbody data. unfold __parse_data_with_lpv35, PV_LEN_22_32, SEQ_OFFSET_22_32, CMD_FROM_OFFSET_22_32, DATA_OFFSET_22_32.
  rewrite Hv, Hsq, Hf. ub_step. wraps. replace (15 + zlen text - 15) with (zlen text) by lia. wraps.
  destruct (Hm (zlen text + 1)) as (b' & -> & Hb'); [lia|]. unfold memcpy. rewrite Hd. ub_step.
  change b' with ([] ++ b'). destruct (mwrite_step [] b' text 0) as (r & -> & Hr); [done|lia|]. ub_step. cbn [app].
  rewrite zset_mwrite by (rewrite zlen_app; lia). rewrite mwrite_end by (heads; lia). done.
Qed.

(** What [tuya_pack_protocol_data] makes of a text for the cloud or for the local network,
    [tuya_parse_protocol_data] of the same channel and key takes apart again: the message with the
    protocol number, the time and the text, terminated, and the next serial number is used. *)
Theorem packet_roundtrip cmd src pro key serial_no draw posix random limit rest :
  serves malloc limit -> 16 <= zlen key -> in_u 32 pro -> no_nul src -> zlen src + 86 <= limit -> zlen src < 2 ^ 30 ->
  cmd = DP_CMD_LAN \/ cmd = DP_CMD_MQ ->
  exists num pack len,
    tuya_pack_protocol_data malloc cmd (Some src) pro key serial_no draw posix random = Some (num, OPRT_OK, Some (pack, len)) /\
    num = tuya_pack_protocol_serial_no serial_no draw /\
    tuya_parse_protocol_data malloc cmd (Some (pack ++ rest)) len key = Some (OPRT_OK, Some (message_text pro posix src ++ [0])).
Proof.
  intros Hm Hk Hp Hs Hl Hls Hcmd. change (2 ^ 30) with 1073741824 in Hls. pose proof (zlen_nonneg src).
  set (num := tuya_pack_protocol_serial_no serial_no draw). assert (Hnum : in_u 32 num) by (apply wrap_range; lia).
  destruct (mread_is_Some key 0 16) as [k Hk']; [lia..|]. set (text := message_text pro posix src).
  assert (Htl : zlen text <= zlen src + 46) by (unfold text, message_text; rewrite zlen_snoc; pose proof (json_text_len pro posix src Hp); lia).
  pose proof (zlen_nonneg text). unfold tuya_pack_protocol_data, tuya_parse_protocol_data. fold num. destruct Hcmd as [-> | ->].
  - change (bool_decide (DP_CMD_LAN = DP_CMD_LAN)) with true. cbv iota.
    destruct (lpv35_packet_ok src pro num posix limit rest Hm Hp Hnum Hs) as (pack & -> & Hpa); [lia|lia|]. fold text in Hpa. ub_step.
    exists num, pack, (15 + zlen text). split; [done|]. split; [done|]. rewrite bool_decide_false by (unfold DATA_OFFSET_22_32; lia). exact Hpa.
  - change (bool_decide (DP_CMD_MQ = DP_CMD_LAN)) with false. change (bool_decide (DP_CMD_MQ = DP_CMD_MQ)) with true. cbv iota.
    rewrite (pv23_pack_ok src pro num key k posix random limit Hm Hk' Hp Hs) by lia. fold text. ub_step.
    eexists num, _, (40 + zlen text). split; [reflexivity|]. split; [done|]. rewrite bool_decide_false by (unfold DATA_OFFSET_22_32; lia).
    apply (pv23_parse_ok key k limit); [done|done|done|by apply zlen_seqZ_fmap|lia|lia].
Qed.

(** A message of the cloud channel with 39 bytes, the version and a reserved byte of 0 is taken for
    one with 2^32 - 1 bytes of ciphertext, which are read before the tag is checked. *)
Theorem pv23_underflow key x nonce tail rest :
  zlen x = 8 -> zlen nonce = 12 -> zlen tail = 15 -> zlen rest < 2 ^ 31 -> is_Some (malloc 0) ->
  tuya_parse_protocol_data malloc DP_CMD_MQ (Some (TUYA_PV23 ++ x ++ [0] ++ nonce ++ tail ++ rest)) 39 key = None.
Proof.
  intros Hx Hn Ht Hrest [b Hb]. change (2 ^ 31) with 2147483648 in Hrest. unfold tuya_parse_protocol_data.
  change (bool_decide (0 <= 39 < DATA_OFFSET_22_32)) with false. change (bool_decide (DP_CMD_MQ = DP_CMD_LAN)) with false.
  change (bool_decide (DP_CMD_MQ = DP_CMD_MQ)) with true. cbv iota. set (data := TUYA_PV23 ++ _).
  assert (Hlen : zlen data = 39 + zlen rest) by (unfold data; rewrite !zlen_app, Hx, Hn, Ht; heads; lia).
  assert (Hv : mread data 0 3 = Some TUYA_PV23) by (by apply (mread_middle [] TUYA_PV23)).
  assert (Hr : zget data 11 = Some 0).
  { unfold data. rewrite app_assoc. rewrite zget_app_r by (rewrite zlen_app, Hx; heads; lia). rewrite zlen_app, Hx. done. }
  clearbody data. unfold __parse_data_with_pv23. rewrite Hv. ub_step. rewrite bool_decide_false by naive_solver.
  destruct (get32 data PV23_SEQ_OFFSET) as [sq|]; [|done]. destruct (get32 data PV23_CMD_FROM_OFFSET) as [cf|]; [|done]. ub_step.
  unfold PV23_RESERVE_OFFSET. rewrite Hr. ub_step. rewrite bool_decide_false by naive_solver.
  change (u32 (39 - PV23_EXCEPT_DATA_LEN)) with 4294967295. change (u32 (4294967295 + 1)) with 0. rewrite Hb.
  unfold mbedtls_cipher_auth_decrypt_wrapper. rewrite cipher_setup_ok, bool_decide_false by naive_solver.
  destruct (mread key 0 16) as [k|] eqn:Hk; [|done]. ub_step. pose proof (mread_inv _ _ _ _ Hk) as (_ & _ & _ & Hkl & _).
  rewrite cipher_setkey_ok, bool_decide_false by naive_solver. destruct (malloc (_ + PV23_TAG_LEN)) as [d|]; [|done]. ub_step.
  assert (Hc : mread data PV23_DATA_OFFSET 4294967295 = None) by (unfold mread, PV23_DATA_OFFSET; rewrite bool_decide_false by lia; done).
  rewrite Hc. reflexivity.
Qed.
End packets_ok.

(** ** A cipher that has the laws, for the witnesses *)

(** Nothing is hidden, the tag is a sum. *)
Definition sum_tag (key nonce ad data : bytes) : bytes :=
  replicate 16 (foldr Z.add 0 (key ++ nonce ++ ad ++ data) `mod` 256).

#[export] Instance sum_gcm : Gcm := {
  cipher_setup := 0;
  cipher_setkey key := if bool_decide (zlen key = 16) then 0 else -1;
  encrypt_ext key nonce ad data tag_len := (0, zlen data + 16, data ++ sum_tag key nonce ad data);
  decrypt_ext key nonce ad c tag_len :=
    let data := take (length c - 16) c in
    if bool_decide (c = data ++ sum_tag key nonce ad data) then (0, zlen data, data) else (-1, 0, []);
  gcm_seal key nonce ad data := data ++ sum_tag key nonce ad data }.

#[export] Instance sum_gcm_laws : GcmLaws.
Proof.
  split; cbn -[sum_tag zlen]; unfold OPRT_OK.
  - done.
  - intros key Hk. by rewrite bool_decide_true.
  - intros. by rewrite zlen_app.
  - done.
  - intros key nonce ad data _. rewrite length_app. change (length (sum_tag key nonce ad data)) with 16%nat.
    replace (length data + 16 - 16)%nat with (length data) by lia. rewrite take_app_length. by rewrite bool_decide_true.
  - intros key nonce ad c ret n out. case_bool_decide as Hc; intros [= <- <- <-]; [|rewrite zlen_nil; lia].
    unfold zlen. rewrite length_take. lia.
  - intros key nonce ad c n out _. case_bool_decide as Hc; [|done]. intros [= <- <-]. split; [done|exact Hc].
Defined.

(** A heap of 4 kB that hands out memory with old contents. *)
Definition demo_malloc (n : Z) : option bytes :=
  if bool_decide (0 <= n <= 4096) then Some (replicate (Z.to_nat n) 0xAA) else None.

Lemma demo_malloc_serves : serves demo_malloc 4096.
Proof. intros n Hn. unfold demo_malloc. rewrite bool_decide_true by done. eexists. split; [done|]. unfold zlen. rewrite length_replicate. lia. Qed.

Lemma demo_malloc_ok : malloc_ok demo_malloc.
Proof. intros n b. unfold demo_malloc. case_bool_decide; [|done]. intros [= <-]. unfold zlen. rewrite length_replicate. lia. Qed.

Definition demo_key : bytes := c_str "0123456789abcdef".

Lemma lan_frame_roundtrip_witness : exists text,
  lpv35_frame_serialize demo_malloc (Some demo_key) 16 (Some (Frame 7 16 (Some (c_str "on")) 2)) (Some (replicate 52 0)) (fun i => i * 77) =
    Some (OPRT_OK, Some text, Some (zlen text)) /\
  lpv35_frame_parse demo_malloc (Some demo_key) 16 (Some (text ++ [1; 2; 3])) (zlen text) (Frame 0 0 None 0) =
    Some (OPRT_OK, Frame 7 16 (Some (c_str "on" ++ [0])) 2).
Proof.
  apply (lan_frame_roundtrip demo_malloc demo_key 4096 7 16 (c_str "on") (fun i => i * 77) (replicate 52 0) [1; 2; 3] (Frame 0 0 None 0) demo_malloc_serves);
    by vm_compute.
Defined.


Lemma packet_roundtrip_witness : exists num pack len,
  tuya_pack_protocol_data demo_malloc DP_CMD_MQ (Some (c_str "{}")) 4 demo_key 0 41 1700000000 (fun i => i) =
    Some (num, OPRT_OK, Some (pack, len)) /\
  num = tuya_pack_protocol_serial_no 0 41 /\
  tuya_parse_protocol_data demo_malloc DP_CMD_MQ (Some (pack ++ [])) len demo_key =
    Some (OPRT_OK, Some (message_text 4 1700000000 (c_str "{}") ++ [0])).
Proof.
  apply (packet_roundtrip demo_malloc DP_CMD_MQ (c_str "{}") 4 demo_key 0 41 1700000000 (fun i => i) 4096 [] demo_malloc_serves);
    [by vm_compute|by vm_compute| |by vm_compute|by vm_compute|by right]. repeat constructor; done.
Defined.

Lemma pv23_underflow_witness :
  tuya_parse_protocol_data demo_malloc DP_CMD_MQ
    (Some (TUYA_PV23 ++ replicate 8 0 ++ [0] ++ replicate 12 0 ++ replicate 15 0 ++ [])) 39 demo_key = None.
Proof.
  apply (pv23_underflow demo_malloc demo_key (replicate 8 0) (replicate 12 0) (replicate 15 0) []); [done..|]. by exists [].
Defined.
