(* ===== verification/Lan.v ===== *)
(** * The local network

    src/src/tuya_cloud_service/lan/tuya_lan.c: the sessions of apps in the local network, the frames on
    their connections, the handshake that agrees on a session key, commands and queries, and the broadcast
    that finds the device, as programs on the state of the manager (StateM) with a trace of effects. The
    frames are those of Protocol. Sockets, the clock, random numbers, JSON and the key-dependent hash are
    arguments. *)
From S2P Require Import Prelude StateM Protocol.

Definition OPRT_SVC_LAN_SOCKET_FAULT : Z := -5376.
Definition OPRT_SVC_LAN_SEND_ERR : Z := -5377.
Definition OPRT_SVC_LAN_NO_CLIENT_CONNECTED : Z := -5378.
Definition CLIENT_LMT : Z := 3.
Definition RECV_BUF_LMT : Z := 512.
Definition LAN_FRAME_MAX_LEN : Z := 4 * 1024.
Definition HEART_BEAT_TIMEOUT : Z := 30.
Definition ALLOW_NO_KEY_NUM : Z := 3.
Definition HMAC_LEN : Z := 32.
Definition RAND_LEN : Z := 16.
Definition SESSIONKEY_LEN : Z := 16.
Definition FRM_TP_CMD : Z := 0x07.
Definition FRM_TP_STAT_REPORT : Z := 0x08.
Definition FRM_TP_HB : Z := 0x09.
Definition FRM_QUERY_STAT : Z := 0x0a.
Definition FRM_TP_NEW_CMD : Z := 0x0d.
Definition FRM_QUERY_STAT_NEW : Z := 0x10.
Definition FRM_SECURITY_TYPE3 : Z := 0x03.
Definition FRM_SECURITY_TYPE4 : Z := 0x04.
Definition FRM_SECURITY_TYPE5 : Z := 0x05.
Definition FRM_TYPE_APP_UDP_BOARDCAST : Z := 0x25.
Definition FRM_TYPE_ENCRYPTION : Z := 0x13.
Definition PRO_DATA_PUSH : Z := 4.
(** The static [s_lan_cfg] does not set [sequence_err_threshold]. *)
Definition sequence_err_threshold : Z := 0.

(** ** State *)

Record lan_session_t := Session {
  active : bool; fault : bool; s_fd : Z; s_time : Z; sequence_in : Z; sequence_out : Z;
  randA : bytes; randB : bytes; s_hmac : bytes; secret_key : bytes }.

(** What [memset] and [lan_session_free] leave. *)
Definition session_zero (fd : Z) : lan_session_t :=
  Session false false fd 0 0 0 (replicate 16 0) (replicate 16 0) (replicate 32 0) (replicate 16 0).

(** HMAC-SHA256 of a message under a key. *)
Class Mac := { tal_sha256_mac : bytes -> bytes -> bytes }.
Class MacLaws `{Mac} : Prop := { tal_sha256_mac_len k m : zlen (tal_sha256_mac k m) = 32 }.

(** [J]: the data of commands. A session is named by its index. [L_proved]: the peer's proof that it
    has the local key was accepted, for which random number, and the proof. *)
Inductive lan_event {J : Type} :=
| L_opened (i fd : Z) | L_closed (i fd : Z) | L_unreg (fd : Z) | L_close_fd (fd : Z)
| L_sent (fd : Z) (data : bytes) | L_sent_to (addr : Z) (data : bytes)
| L_proved (i : Z) (localkey randB proof : bytes) | L_command (i : Z) (data : J).
Arguments lan_event : clear implicits.

(** The allocated manager, what it uses of the client, and the number of random draws so far. *)
Record lan_mgr_t {J : Type} := Lan {
  fd_num : Z; sessions : list lan_session_t;
  udp_serv_fd : Z; tcp_serv_fd : Z; serv_fd_switch : bool;
  allow_no_session_key_num : Z; recv_offset : Z; recv_buf : bytes;
  lan_activated : bool; lan_localkey : bytes; draws : Z; lan_trace : list (lan_event J) }.
Arguments lan_mgr_t : clear implicits.

(** What a text is for cJSON: nothing, an object without "data", without "dps" in it, or a command. *)
Inductive lan_json {J : Type} := NotJson | NoData | NoDps | Dps (data : J).
Arguments lan_json : clear implicits.

Section state.
Context {J : Type}.
Notation lan := (prog (lan_mgr_t J)).
Implicit Types s : lan_mgr_t J.

Definition set_sessions (n : Z) (l : list lan_session_t) s : lan_mgr_t J :=
  Lan J n l (udp_serv_fd s) (tcp_serv_fd s) (serv_fd_switch s) (allow_no_session_key_num s) (recv_offset s) (recv_buf s)
    (lan_activated s) (lan_localkey s) (draws s) (lan_trace s).
Definition set_fds (udp tcp : Z) (switch : bool) s : lan_mgr_t J :=
  Lan J (fd_num s) (sessions s) udp tcp switch (allow_no_session_key_num s) (recv_offset s) (recv_buf s)
    (lan_activated s) (lan_localkey s) (draws s) (lan_trace s).
Definition set_allow (n : Z) s : lan_mgr_t J :=
  Lan J (fd_num s) (sessions s) (udp_serv_fd s) (tcp_serv_fd s) (serv_fd_switch s) n (recv_offset s) (recv_buf s)
    (lan_activated s) (lan_localkey s) (draws s) (lan_trace s).
Definition set_recv (offset : Z) (buf : bytes) s : lan_mgr_t J :=
  Lan J (fd_num s) (sessions s) (udp_serv_fd s) (tcp_serv_fd s) (serv_fd_switch s) (allow_no_session_key_num s) offset buf
    (lan_activated s) (lan_localkey s) (draws s) (lan_trace s).
Definition add_draws (n : Z) s : lan_mgr_t J :=
  Lan J (fd_num s) (sessions s) (udp_serv_fd s) (tcp_serv_fd s) (serv_fd_switch s) (allow_no_session_key_num s) (recv_offset s) (recv_buf s)
    (lan_activated s) (lan_localkey s) (draws s + n) (lan_trace s).
Definition add_event (e : lan_event J) s : lan_mgr_t J :=
  Lan J (fd_num s) (sessions s) (udp_serv_fd s) (tcp_serv_fd s) (serv_fd_switch s) (allow_no_session_key_num s) (recv_offset s) (recv_buf s)
    (lan_activated s) (lan_localkey s) (draws s) (lan_trace s ++ [e]).

Definition log (e : lan_event J) : lan unit := modify (add_event e).
Definition get_session (i : Z) : lan lan_session_t := l ← gets sessions; lift (zget l i).
Definition put_session (i : Z) (x : lan_session_t) : lan unit :=
  l ← gets sessions; n ← gets fd_num; l ← lift (zset l i x); modify (set_sessions n l).
Definition set_fd_num (n : Z) : lan unit := l ← gets sessions; modify (set_sessions n l).

(** [n] random draws, as a stream. *)
Definition draw_random (random : Z -> Z) (n : Z) : lan (Z -> Z) :=
  d ← gets draws; modify (add_draws n);; mret (fun i => random (d + i)).

(** ** Sessions *)

Definition lan_session_close (i : Z) : lan unit :=
  n ← gets fd_num; x ← get_session i;
  if bool_decide (n = 0) || negb (active x) then mret tt
  else if bool_decide (s_fd x <> -1) then
    log (L_closed i (s_fd x));; put_session i (session_zero (-1));; set_fd_num (n - 1)
  else mret tt.

Definition lan_sesison_add (random : Z -> Z) (socket time : Z) : lan unit :=
  n ← gets fd_num; l ← gets sessions;
  if bool_decide (socket < 0 \/ n >= CLIENT_LMT) then mret tt
  else match list_find (fun x => active x = false) l with
       | None => mret tt
       | Some (k, _) =>
           r ← draw_random random 1;
           put_session (Z.of_nat k) (Session true false socket time 0 (uni_random_range (r 0) 0xFFFF)
             (replicate 16 0) (replicate 16 0) (replicate 32 0) (replicate 16 0));;
           set_fd_num (n + 1);;
           log (L_opened (Z.of_nat k) socket)
       end.

Definition lan_session_fault_set (i : Z) : lan unit :=
  n ← gets fd_num; x ← get_session i;
  if bool_decide (n = 0 \/ s_fd x < 0) || negb (active x) then mret tt
  else put_session i (Session (active x) true (s_fd x) (s_time x) (sequence_in x) (sequence_out x) (randA x) (randB x) (s_hmac x) (secret_key x)).

Definition lan_session_time_update (i time : Z) : lan unit :=
  n ← gets fd_num; x ← get_session i;
  if bool_decide (n = 0) || negb (active x) then mret tt
  else put_session i (Session (active x) (fault x) (s_fd x) time (sequence_in x) (sequence_out x) (randA x) (randB x) (s_hmac x) (secret_key x)).

Definition lan_session_close_all : lan unit :=
  tcp ← gets tcp_serv_fd; udp ← gets udp_serv_fd; sw ← gets serv_fd_switch;
  (if bool_decide (tcp <> -1) then log (L_unreg tcp) else mret tt);;
  (if bool_decide (udp <> -1) then log (L_unreg udp) else mret tt);;
  modify (set_fds (-1) (-1) sw);;
  for_each (seqZ 0 CLIENT_LMT) (fun i =>
    x ← get_session i;
    if active x then log (L_closed i (s_fd x));; put_session i (session_zero (-1)) else mret tt);;
  set_fd_num 0.

(** The body of the loop below. *)
Definition session_check (time i : Z) : lan unit :=
  x ← get_session i;
  if active x then
    let idle := u32 (time - s_time x) in
    if bool_decide (idle >= 2592000) && negb (fault x) then mret tt
    else if bool_decide (idle >= HEART_BEAT_TIMEOUT) || fault x then lan_session_close i
    else mret tt
  else mret tt.

Definition lan_session_time_check (time : Z) : lan unit :=
  n ← gets fd_num;
  if bool_decide (n = 0) then mret tt else for_each (seqZ 0 CLIENT_LMT) (session_check time).

Definition lan_session_get_by_fd (fd : Z) : lan (option Z) :=
  l ← gets sessions; mret ((fun p => Z.of_nat (fst p)) <$> list_find (fun x => s_fd x = fd) l).

Definition lan_session_active_num_get : lan Z := gets fd_num.

Definition lan_get_valid_socket_num : lan Z :=
  n ← gets fd_num; l ← gets sessions;
  mret (if bool_decide (n = 0) then 0
        else let fault_cnt := zlen (filter (fun x => active x = true /\ fault x = true) l) in
             if bool_decide (fault_cnt >= n) then 0 else n - fault_cnt).
End state.

(** ** Frames *)

(** [s[i]] of two buffers. *)
Definition xor_bytes (a b : bytes) : bytes := zip_with Z.lxor a b.

Section frames.
Context {J : Type} `{Gcm} `{Mac}.
Notation lan := (prog (lan_mgr_t J)).
Context (malloc : Z -> option bytes) (random : Z -> Z).
(** What [tal_net_send] returns and whether the error is one to try again; the second attempt. *)
Context (net_send : Z -> bytes -> Z * bool) (net_resend : Z -> bytes -> Z).
Context (cJSON_Parse : bytes -> lan_json J) (dp_obj_dump : option bytes).

(** The result and whether the connection is faulty. *)
Definition lan_transmit (i fd : Z) (buf : bytes) : lan Z :=
  log (L_sent fd buf);;
  let '(ret, again) := net_send fd buf in
  if bool_decide (ret <= 0 \/ ret <> zlen buf) then
    if again then
      let ret := net_resend fd buf in
      if bool_decide (ret <= 0 \/ ret <> zlen buf) then lan_session_fault_set i;; mret OPRT_SVC_LAN_SEND_ERR else mret OPRT_OK
    else lan_session_fault_set i;; mret OPRT_SVC_LAN_SEND_ERR
  else mret OPRT_OK.

Definition next_out (x : lan_session_t) : lan_session_t :=
  Session (active x) (fault x) (s_fd x) (s_time x) (sequence_in x) (u32 (sequence_out x + 1)) (randA x) (randB x) (s_hmac x) (secret_key x).

(** The frame number of the request is only logged. *)
Definition lan_send (i fr_type ret_code : Z) (data : bytes) : lan Z :=
  x ← get_session i;
  if negb (active x) then mret OPRT_COM_ERROR
  else if fault x then mret OPRT_SVC_LAN_SOCKET_FAULT
  else
    act ← gets lan_activated; localkey ← gets lan_localkey;
    if negb act then mret OPRT_COM_ERROR
    else
      k0 ← lift (zget (secret_key x) 0);
      let key := if bool_decide (k0 <> 0) then secret_key x else localkey in
      let plaintext := le32 ret_code ++ data in
      match malloc (zlen plaintext) with
      | None => mret OPRT_MALLOC_FAILED
      | Some _ =>
          let frame := Frame (sequence_out x) fr_type (Some plaintext) (zlen plaintext) in
          put_session i (next_out x);;
          match malloc (lpv35_frame_buffer_size_get frame) with
          | None => mret OPRT_MALLOC_FAILED
          | Some b =>
              r ← draw_random random 12;
              w ← lift (lpv35_frame_serialize malloc (Some key) 16 (Some frame) (Some (replicate (length b) 0)) r);
              match w with
              | (rt, Some out, Some olen) =>
                  if bool_decide (rt <> OPRT_OK) then mret OPRT_COM_ERROR
                  else lan_transmit i (s_fd x) (take (Z.to_nat olen) out)
              | _ => mret OPRT_COM_ERROR
              end
          end
      end.

Definition send_text (i fr_type ret_code : Z) (text : option bytes) : lan unit :=
  lan_send i fr_type ret_code (default [] text);; mret tt.

Definition with_rands (a b h : bytes) (x : lan_session_t) : lan_session_t :=
  Session (active x) (fault x) (s_fd x) (s_time x) (sequence_in x) (sequence_out x) a b h (secret_key x).
Definition with_secret_key (k : bytes) (x : lan_session_t) : lan_session_t :=
  Session (active x) (fault x) (s_fd x) (s_time x) (sequence_in x) (sequence_out x) (randA x) (randB x) (s_hmac x) k.

(** [FRM_TP_CMD] and [FRM_TP_NEW_CMD]. *)
Definition process_cmd (i : Z) (frame : lpv35_frame_object_t) : lan unit :=
  localkey ← gets lan_localkey;
  r ← lift (tuya_parse_protocol_data malloc DP_CMD_LAN (f_data frame) (i32 (f_data_len frame)) localkey);
  describe ← match r with
             | (rt, Some jsonstr) =>
                 if bool_decide (rt <> OPRT_OK) then mret (Some (c_str "parse data error"))
                 else match cJSON_Parse (c_string jsonstr) with
                      | NotJson => mret (Some (c_str "parse data error"))
                      | NoData => mret None
                      | NoDps => mret (Some (c_str "data format error"))
                      | Dps data => log (L_command i data);; mret None
                      end
             | (_, None) => mret (Some (c_str "parse data error"))
             end;
  send_text i (f_type frame) 1 describe.

(** [FRM_SECURITY_TYPE3]: the peer's random number; the answer has ours and the hash of its. *)
Definition process_type3 (i : Z) (frame : lpv35_frame_object_t) : lan unit :=
  if bool_decide (f_data_len frame < RAND_LEN) then mret tt
  else
    a ← lift (mread (default [] (f_data frame)) 0 RAND_LEN);
    localkey ← gets lan_localkey;
    let h := tal_sha256_mac (c_string localkey) a in
    r ← draw_random random RAND_LEN;
    let b := uni_random_string r RAND_LEN in
    x ← get_session i;
    put_session i (with_rands a b h x);;
    match malloc (RAND_LEN + HMAC_LEN) with
    | None => mret tt
    | Some _ => lan_send i FRM_SECURITY_TYPE4 0 (b ++ h);; mret tt
    end.

(** [FRM_SECURITY_TYPE5]: the hash of our random number; the session key. *)
Definition process_type5 (i : Z) (frame : lpv35_frame_object_t) : lan unit :=
  if bool_decide (f_data_len frame < HMAC_LEN) then mret tt
  else
    x ← get_session i;
    localkey ← gets lan_localkey;
    let h := tal_sha256_mac (c_string localkey) (randB x) in
    put_session i (with_rands (randA x) (randB x) h x);;
    o ← lift (mread (default [] (f_data frame)) 0 HMAC_LEN);
    if bool_decide (h <> o) then lan_session_fault_set i
    else
      log (L_proved i localkey (randB x) o);;
      let k := xor_bytes (randA x) (randB x) in
      put_session i (with_secret_key k (with_rands (randA x) (randB x) h x));;
      r ← lift (mbedtls_cipher_auth_encrypt_wrapper malloc localkey 16 (take 12 (randA x)) [] k LPV35_FRAME_TAG_SIZE);
      match r with
      | (rt, Some (c, _)) =>
          k ← lift (mwrite k 0 c);
          put_session i (with_secret_key k (with_rands (randA x) (randB x) h x));;
          if bool_decide (rt <> OPRT_OK) then lan_session_fault_set i else mret tt
      | (rt, None) => if bool_decide (rt <> OPRT_OK) then lan_session_fault_set i else mret tt
      end.

(** [FRM_QUERY_STAT] and [FRM_QUERY_STAT_NEW]. *)
Definition process_query (i : Z) (frame : lpv35_frame_object_t) : lan unit :=
  match cJSON_Parse (c_string (default [] (f_data frame))) with
  | NotJson => send_text i (f_type frame) 1 (Some (c_str "data format error"))
  | _ => match dp_obj_dump with
         | None => send_text i (f_type frame) 1 (Some (c_str "json obj data unvalid"))
         | Some t => send_text i (f_type frame) 0 (Some t)
         end
  end.

Definition lan_protocol_process (i : Z) (frame : lpv35_frame_object_t) : lan unit :=
  if bool_decide (f_type frame = FRM_TP_CMD \/ f_type frame = FRM_TP_NEW_CMD) then process_cmd i frame
  else if bool_decide (f_type frame = FRM_SECURITY_TYPE3) then process_type3 i frame
  else if bool_decide (f_type frame = FRM_SECURITY_TYPE5) then process_type5 i frame
  else if bool_decide (f_type frame = FRM_QUERY_STAT \/ f_type frame = FRM_QUERY_STAT_NEW) then process_query i frame
  else mret tt.

(** ** Reading *)

(** The key for a frame that came in, or the reason why it is not looked at. *)
Definition frame_key (i fr_type : Z) : lan (option bytes) :=
  act ← gets lan_activated; localkey ← gets lan_localkey; x ← get_session i;
  if negb act then lan_session_close i;; mret None
  else
    k0 ← lift (zget (secret_key x) 0);
    if bool_decide (fr_type = FRM_SECURITY_TYPE3 \/ fr_type = FRM_SECURITY_TYPE4 \/ fr_type = FRM_SECURITY_TYPE5) then
      modify (set_allow ALLOW_NO_KEY_NUM);;
      if bool_decide (k0 <> 0) then lan_session_close i;; mret None else mret (Some localkey)
    else if bool_decide (k0 = 0) then
      n ← gets allow_no_session_key_num;
      (if bool_decide (n > 0) then modify (set_allow (n - 1))
       else lan_session_close i;; modify (set_allow ALLOW_NO_KEY_NUM));;
      mret None
    else mret (Some (secret_key x)).

Definition with_seq (n : Z) (x : lan_session_t) : lan_session_t :=
  Session (active x) (fault x) (s_fd x) (s_time x) n (sequence_out x) (randA x) (randB x) (s_hmac x) (secret_key x).

(** The result of one round of the loop: go on at an offset, or leave it. [tmp]: whether a buffer for a
    long frame was allocated. *)
Inductive frame_round := Next (offset : Z) (tmp : option bytes) | Break (offset : Z) (tmp : option bytes).

(** One frame whose bytes are in [buf] from its start on. *)
Definition frame_handle (i offset : Z) (tmp : option bytes) (buf : bytes) (frame_len now : Z) : lan frame_round :=
  fr_type ← lift (get32 buf 10);
  key ← frame_key i fr_type;
  match key with
  | None => mret (Break offset tmp)
  | Some key =>
      if bool_decide (fr_type = FRM_TP_HB) then
        lan_send i FRM_TP_HB 0 [];;
        lan_session_time_update i now;;
        mret (Next (u32 (offset + frame_len)) tmp)
      else
        r ← lift (lpv35_frame_parse malloc (Some key) SESSIONKEY_LEN (Some buf) (i32 frame_len) (Frame 0 0 None 0));
        let '(rt, frame) := r in
        if bool_decide (rt <> OPRT_OK) then mret (Break offset tmp)
        else
          lan_session_time_update i now;;
          lan_protocol_process i frame;;
          mret (Next (u32 (offset + frame_len)) tmp)
  end.

(** One round of the loop over what was received. [rest]: what [tal_net_recv_nd_size] reads for the end
    of a long frame, [None] for an error. The second result is [recv_datalen]. *)
Definition frame_step (i offset recv_datalen : Z) (rest : Z -> option bytes) (now : Z) : lan (frame_round * Z) :=
  buf ← gets recv_buf;
  head ← lift (mread buf offset LPV35_FRAME_HEAD_SIZE);
  if bool_decide (head <> LPV35_FRAME_HEAD) then mret (Next (offset + 1) None, recv_datalen)
  else
    fr_sequence ← lift (get32 buf (offset + 6));
    flen ← lift (get32 buf (offset + 14));
    x ← get_session i;
    if bool_decide (fr_sequence <= sequence_in x) then
      (if bool_decide (u32 (sequence_in x - fr_sequence) >= sequence_err_threshold) then lan_session_close i else mret tt);;
      mret (Break offset None, recv_datalen)
    else
      put_session i (with_seq fr_sequence x);;
      let frame_len := u32 (22 + flen) in
      if bool_decide (frame_len > u32 (recv_datalen - offset)) then
        if bool_decide (frame_len >= LAN_FRAME_MAX_LEN) then mret (Break offset None, recv_datalen)
        else match malloc (frame_len + 1) with
             | None => mret (Break offset None, recv_datalen)
             | Some tmp =>
                 let tmp := replicate (length tmp) 0 in
                 let got := recv_datalen - offset in
                 tmp ← lift (memcpy tmp 0 buf offset got);
                 match rest (frame_len - got) with
                 | None => mret (Break 0 (Some tmp), got)
                 | Some more =>
                     tmp ← lift (mwrite tmp got more);
                     r ← frame_handle i 0 (Some tmp) tmp frame_len now;
                     mret (r, got)
                 end
             end
      else
        r ← frame_handle i offset None (drop (Z.to_nat offset) buf) frame_len now;
        mret (r, recv_datalen).

Fixpoint frame_loop (fuel : nat) (i offset recv_datalen : Z) (tmp : option bytes) (rest : Z -> option bytes) (now : Z)
    : lan (Z * Z * option bytes) :=
  match fuel with
  | O => ub
  | S fuel =>
      if bool_decide (recv_datalen >= LPV35_FRAME_MINI_SIZE + offset) && negb (bool_decide (is_Some tmp)) then
        r ← frame_step i offset recv_datalen rest now;
        match r with
        | (Next offset tmp, n) => frame_loop fuel i offset n tmp rest now
        | (Break offset tmp, n) => mret (offset, n, tmp)
        end
      else mret (offset, recv_datalen, tmp)
  end.

(** [recvs]: what each [tal_net_recv] delivers; nothing, or no more element, is an error or the end. *)
Fixpoint lan_recv_loop (i : Z) (recvs : list bytes) (rest : Z -> option bytes) (now : Z) : lan unit :=
  off ← gets recv_offset; buf ← gets recv_buf;
  match recvs with
  | [] => lan_session_fault_set i
  | data :: recvs =>
      let data := take (Z.to_nat (RECV_BUF_LMT - off)) data in
      if bool_decide (data = []) then lan_session_fault_set i
      else
        buf ← lift (mwrite buf off data);
        modify (set_recv off buf);;
        let recv_datalen := zlen data + off in
        if bool_decide (recv_datalen < LPV35_FRAME_MINI_SIZE) then mret tt
        else
          r ← frame_loop (S (S (Z.to_nat recv_datalen))) i 0 recv_datalen None rest now;
          let '(offset, recv_datalen, tmp) := r in
          if bool_decide (is_Some tmp) then mret tt
          else if bool_decide (recv_datalen <> offset) then
            buf ← gets recv_buf;
            left ← lift (mread buf offset (recv_datalen - offset));
            buf ← lift (mwrite buf 0 left);
            modify (set_recv (recv_datalen - offset) buf);;
            lan_recv_loop i recvs rest now
          else mret tt
  end.

Definition lan_tcp_client_sock_read (fd : Z) (recvs : list bytes) (rest : Z -> option bytes) (now : Z) : lan unit :=
  i ← lan_session_get_by_fd fd;
  match i with
  | None => mret tt
  | Some i =>
      x ← get_session i;
      if negb (active x) then mret tt
      else buf ← gets recv_buf; modify (set_recv 0 buf);; lan_recv_loop i recvs rest now
  end.

Definition lan_tcp_client_sock_err (fd : Z) : lan unit :=
  i ← lan_session_get_by_fd fd;
  match i with
  | None => mret tt
  | Some i => x ← get_session i; if negb (active x) then mret tt else lan_session_fault_set i
  end.

(** [cfd]: what [tal_net_accept] returns; [reg]: the code of [tuya_reg_lan_sock]. *)
Definition lan_tcp_serv_sock_read (cfd now reg : Z) : lan unit :=
  if bool_decide (cfd < 0) then mret tt
  else
    n ← lan_session_active_num_get;
    if bool_decide (n >= CLIENT_LMT) then log (L_close_fd cfd)
    else
      lan_sesison_add random cfd now;;
      if bool_decide (OPRT_OK <> reg) then log (L_close_fd cfd) else mret tt.

Definition lan_tcp_serv_sock_err : lan unit := lan_session_close_all.

Definition lan_tcp_serv_sock_pre_select (now : Z) : lan unit :=
  sw ← gets serv_fd_switch;
  (if (sw : bool) then udp ← gets udp_serv_fd; tcp ← gets tcp_serv_fd; modify (set_fds udp tcp false);; lan_session_close_all else mret tt);;
  lan_session_time_check now.

(** Reports to every app. *)
Definition report_to (i : Z) (fr_type ret_code : Z) (data : bytes) (keyed : bool) : lan unit :=
  x ← get_session i;
  k0 ← lift (zget (secret_key x) 0);
  if active x && negb (fault x) && (negb keyed || bool_decide (k0 <> 0)) then lan_send i fr_type ret_code data;; mret tt else mret tt.

Definition tuya_lan_data_report (fr_type ret_code : Z) (data : bytes) : lan Z :=
  n ← lan_session_active_num_get;
  if bool_decide (0 = n) then mret OPRT_SVC_LAN_NO_CLIENT_CONNECTED
  else for_each (seqZ 0 CLIENT_LMT) (fun i => report_to i fr_type ret_code data false);; mret OPRT_OK.

(** The serial number is a static of the protocol. *)
Definition tuya_lan_dp_report (dpstr : bytes) (serial_no drawn posix : Z) : lan Z :=
  n ← lan_session_active_num_get;
  if bool_decide (0 = n) then mret OPRT_INVALID_PARM
  else
    localkey ← gets lan_localkey;
    r ← lift (tuya_pack_protocol_data malloc DP_CMD_LAN (Some dpstr) PRO_DATA_PUSH localkey serial_no drawn posix (fun _ => 0));
    match r with
    | (_, rt, Some (out, out_len)) =>
        if bool_decide (OPRT_OK <> rt) then mret rt
        else
          data ← lift (mread out 0 out_len);
          for_each (seqZ 0 CLIENT_LMT) (fun i => report_to i FRM_TP_STAT_REPORT 0 data true);; mret OPRT_OK
    | (_, rt, None) => mret rt
    end.

Definition tuya_lan_get_connect_client_num : lan Z := lan_get_valid_socket_num.
Definition tuya_lan_disconnect_all : lan Z := lan_session_close_all;; mret OPRT_OK.
End frames.

(** ** The broadcast that finds the device *)
Section udp.
Context {J : Type} `{Gcm}.
Notation lan := (prog (lan_mgr_t J)).
Context (malloc : Z -> option bytes) (random : Z -> Z).
(** [app_key2], the hash of a constant. *)
Context (app_key2 : bytes).

Definition quoted (name : string) (value : bytes) : bytes := [34] ++ c_str name ++ [34] ++ c_str ":" ++ [34] ++ value ++ [34].
Definition number (name : string) (value : bytes) : bytes := [34] ++ c_str name ++ [34] ++ c_str ":" ++ value.

(** What the answer says: the address, the identifiers, the product and the security level. *)
Record udp_info := Info { i_ip : bytes; i_devid : bytes; i_uuid : bytes; i_productkey : bytes; i_level : Z }.

(** The text in its buffer of 256 bytes. *)
Definition udp_json (act : bool) (n : udp_info) (json_buf : bytes) : option (bytes * Z) :=
  let id := if act then i_devid n else i_uuid n in
  '(b, o) ← sprintf json_buf 0 (c_str "{" ++ quoted "ip" (i_ip n) ++ c_str "," ++ quoted "gwId" id ++ c_str "," ++ quoted "uuid" (i_uuid n));
  '(b, o) ← sprintf b o (c_str "," ++ number "active" (dec (if act then 2 else 0)) ++ c_str "," ++ number "ablilty" (c_str "0"));
  '(b, o) ← sprintf b o (c_str "," ++ number "encrypt" (c_str "true"));
  '(b, o) ← sprintf b o (c_str "," ++ quoted "productKey" (i_productkey n));
  '(b, o) ← sprintf b o (c_str "," ++ quoted "version" TUYA_LPV35);
  '(b, o) ← sprintf b o (c_str "," ++ number "sl" (dec (i_level n)));
  b ← zset b o 125;
  b ← zset b (o + 1) 0;
  Some (b, o + 1).

(** The frame, [None] for NULL. *)
Definition lan_make_udp_packets (n : udp_info) : lan (option bytes) :=
  act ← gets lan_activated;
  match malloc 256 with
  | None => mret None
  | Some b =>
      j ← lift (udp_json act n (replicate (length b) 0));
      let text := c_string (fst j) in
      let plaintext := le32 0 ++ text in
      match malloc (zlen plaintext) with
      | None => mret None
      | Some _ =>
          let frame := Frame 0 FRM_TYPE_ENCRYPTION (Some plaintext) (zlen plaintext) in
          match malloc (lpv35_frame_buffer_size_get frame) with
          | None => mret None
          | Some b =>
              r ← draw_random random 12;
              w ← lift (lpv35_frame_serialize malloc (Some app_key2) 16 (Some frame) (Some (replicate (length b) 0)) r);
              match w with
              | (rt, Some out, Some olen) => if bool_decide (rt <> OPRT_OK) then mret None else mret (Some (take (Z.to_nat olen) out))
              | _ => mret None
              end
          end
      end
  end.

Definition __udp_serv_is_in_packet_vaild (frame_buffer : bytes) (recv_datalen : Z) : option bool :=
  if bool_decide (u32 recv_datalen < LPV35_FRAME_MINI_SIZE) then Some false
  else
    head ← mread frame_buffer 0 LPV35_FRAME_HEAD_SIZE;
    if bool_decide (head <> LPV35_FRAME_HEAD) then Some false
    else
      flen ← get32 frame_buffer 14;
      tail ← mread frame_buffer (18 + flen) LPV35_FRAME_TAIL_SIZE;
      if bool_decide (tail <> LPV35_FRAME_TAIL) then Some false
      else
        fr_type ← get32 frame_buffer 10;
        Some (bool_decide (fr_type = FRM_TYPE_APP_UDP_BOARDCAST)).

(** [recv]: the datagram, [None] for an error. [addr_of]: the address in a text that is an object with
    "ip" and "from". [send_to]: whether sending fails for good. *)
Definition lan_udp_serv_sock_read (n : udp_info) (recv : option bytes) (addr_of : bytes -> option Z) : lan unit :=
  buf ← gets recv_buf; off ← gets recv_offset;
  let buf := replicate (length buf) 0 in
  match recv with
  | None => modify (set_recv off buf)
  | Some data =>
      let data := take (Z.to_nat RECV_BUF_LMT) data in
      buf ← lift (mwrite buf 0 data);
      modify (set_recv off buf);;
      ok ← lift (__udp_serv_is_in_packet_vaild buf (zlen data));
      if negb ok then mret tt
      else
        flen ← lift (get32 buf 14);
        r ← lift (lpv35_frame_parse malloc (Some app_key2) 16 (Some buf) (i32 (u32 (22 + flen))) (Frame 0 0 None 0));
        let '(rt, frame) := r in
        if bool_decide (rt <> OPRT_OK) then mret tt
        else match addr_of (c_string (default [] (f_data frame))) with
             | None => mret tt
             | Some addr =>
                 p ← lan_make_udp_packets n;
                 match p with None => mret tt | Some p => log (L_sent_to addr p) end
             end
  end.

Definition lan_udp_serv_sock_err : lan unit :=
  udp ← gets udp_serv_fd; tcp ← gets tcp_serv_fd; sw ← gets serv_fd_switch;
  if bool_decide (udp <> -1) then log (L_unreg udp);; modify (set_fds (-1) tcp sw) else mret tt.

(** A frame for other parts of the device: the code, and the frame when it was made. *)
Definition lan_msg_gcm_encrpt (data : bytes) (len : Z) (key : bytes) (frame_type : Z) (r : Z -> Z) : option (Z * option bytes) :=
  let frame := Frame 0 frame_type (Some data) len in
  match malloc (lpv35_frame_buffer_size_get frame) with
  | None => Some (OPRT_MALLOC_FAILED, None)
  | Some b =>
      w ← lpv35_frame_serialize malloc (Some key) 16 (Some frame) (Some (replicate (length b) 0)) r;
      match w with
      | (rt, Some out, Some olen) => if bool_decide (OPRT_OK = rt) then Some (rt, Some (take (Z.to_nat olen) out)) else Some (rt, None)
      | (rt, _, _) => Some (rt, None)
      end
  end.

(** ** Start and end

    The manager after its allocation; [sessions = []]: NULL. *)
Definition lan_fresh (act : bool) (localkey : bytes) : lan_mgr_t J :=
  Lan J 0 [] (-1) (-1) false ALLOW_NO_KEY_NUM 0 (replicate 512 0) act localkey 0 [].

(** What the start meets: the codes of the socket loop and of the two mutexes, the descriptors of the
    sockets and the codes of their registration. *)
Record lan_init_env := InitEnv {
  ie_loop : Z; ie_mutex : Z; ie_tcp_mutex : Z; ie_sessions : bool; ie_tcp : Z; ie_tcp_reg : Z; ie_udp : Z; ie_udp_reg : Z }.

Definition lan_tcp_create_serv_socket (e : lan_init_env) : lan Z :=
  udp ← gets udp_serv_fd; sw ← gets serv_fd_switch;
  if bool_decide (ie_tcp e < 0) then modify (set_fds udp (-1) sw);; mret (-1)
  else if bool_decide (OPRT_OK <> ie_tcp_reg e) then log (L_close_fd (ie_tcp e));; modify (set_fds udp (-1) sw);; mret (-2)
  else modify (set_fds udp (ie_tcp e) sw);; mret (ie_tcp e).

Definition lan_udp_create_serv_socket (e : lan_init_env) : lan Z :=
  udp ← gets udp_serv_fd; tcp ← gets tcp_serv_fd; sw ← gets serv_fd_switch;
  if bool_decide (udp <> -1) then mret udp
  else if bool_decide (ie_udp e < 0) then modify (set_fds (ie_udp e) tcp sw);; mret (-1)
  else if bool_decide (OPRT_OK <> ie_udp_reg e) then log (L_close_fd (ie_udp e));; modify (set_fds (-1) tcp sw);; mret (-2)
  else modify (set_fds (ie_udp e) tcp sw);; mret (ie_udp e).

(** [s_lan_mgr] afterwards. *)
Definition tuya_lan_exit (m : option (lan_mgr_t J)) : option (Z * option (lan_mgr_t J)) :=
  match m with
  | None => Some (OPRT_OK, None)
  | Some s => r ← lan_session_close_all s; Some (OPRT_OK, None)
  end.

Definition tuya_lan_init (m : option (lan_mgr_t J)) (block : bool) (e : lan_init_env) (act : bool) (localkey : bytes)
    : option (Z * option (lan_mgr_t J)) :=
  match m with
  | Some s => Some (OPRT_OK, Some s)
  | None =>
      if negb block then Some (OPRT_MALLOC_FAILED, None)
      else
        let s := lan_fresh act localkey in
        let fail rt s := r ← tuya_lan_exit (Some s); Some (rt, snd r) in
        if bool_decide (OPRT_OK <> ie_loop e) then fail (ie_loop e) s
        else if bool_decide (OPRT_OK <> ie_mutex e) then fail (ie_mutex e) s
        else if bool_decide (OPRT_OK <> ie_tcp_mutex e) then fail (ie_tcp_mutex e) s
        else if negb (ie_sessions e) then fail OPRT_OK s
        else
          let s := set_sessions 0 (replicate (Z.to_nat CLIENT_LMT) (session_zero 0)) s in
          '(fd, s) ← lan_tcp_create_serv_socket e s;
          if bool_decide (fd < 0) then fail OPRT_OK s
          else
            '(fd, s) ← lan_udp_create_serv_socket e s;
            if bool_decide (fd < 0) then fail OPRT_OK s else Some (OPRT_OK, Some s)
  end.
End udp.

(** ** Extensions: the table of handlers of frame types *)
Definition LAN_CMD_EXT_COUNT : Z := 5.
Record lan_cmd_cb_t := CmdCb { frame_type : Z; handler : option Z }.

Definition tuya_lan_register_cb (cmd_ext : list lan_cmd_cb_t) (type : Z) (h : option Z) : Z * list lan_cmd_cb_t :=
  match list_find (fun c => handler c = h /\ frame_type c = type) cmd_ext with
  | Some _ => (OPRT_OK, cmd_ext)
  | None => match list_find (fun c => handler c = None) cmd_ext with
            | Some (k, _) => (OPRT_OK, <[k := CmdCb type h]> cmd_ext)
            | None => (OPRT_EXCEED_UPPER_LIMIT, cmd_ext)
            end
  end.

Definition tuya_lan_unregister_cb (cmd_ext : list lan_cmd_cb_t) (type : Z) : Z * list lan_cmd_cb_t :=
  match list_find (fun c => frame_type c = type) cmd_ext with
  | Some (k, _) => (OPRT_OK, <[k := CmdCb 0 None]> cmd_ext)
  | None => (OPRT_NOT_FOUND, cmd_ext)
  end.

(** ** Invariant

    As many sessions are active as counted, the arrays have their sizes; a session has a key only since
    its peer proved that it has the local key, and only such a session delivered commands. *)

Section invariant.
Context {J : Type} `{Mac}.
Notation lan := (prog (lan_mgr_t J)).
Implicit Types (s : lan_mgr_t J) (x y : lan_session_t) (tr : list (lan_event J)).

(** Whether session [i] has given a valid proof and was not opened or closed since. *)
Definition keyed_step (i : Z) (b : bool) (e : lan_event J) : bool :=
  match e with
  | L_opened j _ | L_closed j _ => if bool_decide (j = i) then false else b
  | L_proved j k r o => if bool_decide (j = i /\ o = tal_sha256_mac (c_string k) r) then true else b
  | _ => b
  end.
Definition keyed tr (i : Z) : bool := foldl (keyed_step i) false tr.

#[local] Arguments keyed : simpl never.

Definition guarded tr : Prop := forall pre i d post, tr = pre ++ L_command i d :: post -> keyed pre i = true.

Definition has_key x : bool := bool_decide (zget (secret_key x) 0 <> Some 0).
Definition count_active (l : list lan_session_t) : Z := zlen (filter (fun x => active x = true) l).

Record session_wf x : Prop := {
  wf_a : zlen (randA x) = 16; wf_b : zlen (randB x) = 16; wf_h : zlen (s_hmac x) = 32; wf_k : zlen (secret_key x) = 16;
  wf_fd : active x = true -> 0 <= s_fd x }.

Record lan_ok s : Prop := {
  lo_len : zlen (sessions s) = CLIENT_LMT;
  lo_num : fd_num s = count_active (sessions s);
  lo_wf : Forall session_wf (sessions s);
  lo_key : forall i x, zget (sessions s) i = Some x -> has_key x = true -> keyed (lan_trace s) i = true;
  lo_cmd : guarded (lan_trace s);
  lo_buf : zlen (recv_buf s) = RECV_BUF_LMT }.

Lemma keyed_snoc tr e i : keyed (tr ++ [e]) i = keyed_step i (keyed tr i) e.
Proof. unfold keyed. by rewrite foldl_app. Qed.

Lemma guarded_snoc tr e :
  guarded tr -> (forall i d, e = L_command i d -> keyed tr i = true) -> guarded (tr ++ [e]).
Proof.
  intros Hg He pre i d post Ht. destruct post as [|e' post _] using rev_ind.
  - apply app_inj_tail in Ht as [-> ->]. by eapply He.
  - rewrite app_comm_cons, app_assoc in Ht. apply app_inj_tail in Ht as [-> _]. by eapply Hg.
Qed.

Lemma zget_insert (l : list lan_session_t) i j y : 0 <= i < zlen l ->
  zget (<[Z.to_nat i := y]> l) j = if bool_decide (i = j) then Some y else zget l j.
Proof.
  intros Hi. unfold zget, zlen in *. case_bool_decide as Hj.
  - case_bool_decide as He; [subst; apply list_lookup_insert_eq; lia|]. apply list_lookup_insert_ne. lia.
  - rewrite bool_decide_false by lia. done.
Qed.

Lemma count_insert (l : list lan_session_t) i x y : zget l i = Some x ->
  count_active (<[Z.to_nat i := y]> l) = count_active l - (if active x then 1 else 0) + (if active y then 1 else 0).
Proof.
  unfold zget, count_active. case_bool_decide; [|done]. intros Hx. rewrite (insert_take_drop _ _ y) by (by eapply lookup_lt_Some).
  rewrite <- (take_drop_middle l (Z.to_nat i) x Hx) at 3. rewrite !filter_app, !filter_cons, !zlen_app.
  destruct (decide (active y = true)) as [Hy|Hy], (decide (active x = true)) as [Hx'|Hx']; rewrite ?Hy, ?Hx', ?zlen_cons;
    rewrite ?(not_true_is_false _ Hy), ?(not_true_is_false _ Hx'); lia.
Qed.

Lemma get_session_ok (P : lan_mgr_t J -> Prop) i : hoare P (get_session i) (fun x s => P s /\ zget (sessions s) i = Some x).
Proof. intros s x s' Hs Hr. apply bind_inv in Hr as (l & s1 & [= <- <-] & Hr). unfold lift in Hr. destruct (zget _ i) eqn:Hz; [|done]. by injection Hr as <- <-. Qed.

Lemma put_session_run i y s r : put_session i y s = r -> r = None \/
  0 <= i < zlen (sessions s) /\ r = Some (tt, set_sessions (fd_num s) (<[Z.to_nat i := y]> (sessions s)) s).
Proof.
  intros <-. unfold put_session, mbind, prog_bind, gets, lift, modify, zset. case_bool_decide; [right|left]; done.
Qed.

(** A session that is the current one. *)
Definition at_session (i : Z) x s : Prop := lan_ok s /\ zget (sessions s) i = Some x.

Lemma put_ok i x y :
  active y = active x -> session_wf y -> (has_key y = true -> has_key x = true) ->
  hoare (at_session i x) (put_session i y) (fun _ => at_session i y).
Proof.
  intros Ha Hw Hk s [] s' [Hs Hx] Hr. apply put_session_run in Hr as [|[Hi [= ->]]]; [done|]. destruct Hs. split; [split|]; cbn.
  - unfold zlen in *. by rewrite length_insert.
  - rewrite (count_insert _ _ x y Hx), Ha. lia.
  - by apply Forall_insert.
  - intros j z. rewrite zget_insert by done. case_bool_decide; [|by apply lo_key0]. intros [= <-] Hy. subst j. by eapply lo_key0, Hk.
  - done.
  - done.
  - rewrite zget_insert by done. by rewrite bool_decide_true.
Qed.

(** The proof is recorded, then the key is set. *)
Lemma put_key_ok i x y :
  active y = active x -> session_wf y ->
  hoare (fun s => at_session i x s /\ keyed (lan_trace s) i = true) (put_session i y) (fun _ s => at_session i y s /\ keyed (lan_trace s) i = true).
Proof.
  intros Ha Hw s [] s' [[Hs Hx] Hk] Hr. apply put_session_run in Hr as [|[Hi [= ->]]]; [done|]. destruct Hs. split; [split; [split|]|]; cbn.
  - unfold zlen in *. by rewrite length_insert.
  - rewrite (count_insert _ _ x y Hx), Ha. lia.
  - by apply Forall_insert.
  - intros j z. rewrite zget_insert by done. case_bool_decide; [|by apply lo_key0]. intros _ _. by subst j.
  - done.
  - done.
  - rewrite zget_insert by done. by rewrite bool_decide_true.
  - done.
Qed.

(** Events that say nothing about keys. *)
Definition silent (e : lan_event J) : bool :=
  match e with L_unreg _ | L_close_fd _ | L_sent _ _ | L_sent_to _ _ => true | _ => false end.

Lemma keyed_silent tr e i : silent e = true -> keyed (tr ++ [e]) i = keyed tr i.
Proof. intros He. rewrite keyed_snoc. by destruct e. Qed.

Lemma add_event_ok e s : lan_ok s -> silent e = true -> lan_ok (add_event e s).
Proof.
  intros [] He. split; cbn; try done.
  - intros i x Hx Hk. rewrite keyed_silent by done. by eapply lo_key0.
  - apply guarded_snoc; [done|]. intros i d ->. done.
Qed.

(** A change that leaves the sessions, the trace and the size of the buffer. *)
Definition aside (f : lan_mgr_t J -> lan_mgr_t J) : Prop :=
  forall s, sessions (f s) = sessions s /\ fd_num (f s) = fd_num s /\ lan_trace (f s) = lan_trace s /\ recv_buf (f s) = recv_buf s.

(** What code that does not touch keys keeps. *)
Class Inert (P : lan_mgr_t J -> Prop) : Prop := {
  in_ok s : P s -> lan_ok s;
  in_aside f s : aside f -> P s -> P (f s);
  in_event e s : silent e = true -> P s -> P (add_event e s);
  in_put i x y s : zget (sessions s) i = Some x -> active y = active x -> session_wf y -> secret_key y = secret_key x -> P s ->
    P (set_sessions (fd_num s) (<[Z.to_nat i := y]> (sessions s)) s) }.

Definition proved (i : Z) s : Prop := lan_ok s /\ keyed (lan_trace s) i = true.

#[export] Instance lan_ok_inert : Inert lan_ok.
Proof.
  split; [done| | |].
  - intros f s Hf []. destruct (Hf s) as (Hs & Hn & Ht & Hb). split; by rewrite ?Hs, ?Hn, ?Ht, ?Hb.
  - intros e s He Hs. by apply add_event_ok.
  - intros i x y s Hx Ha Hw Hk Hs. pose proof (zget_inv _ _ _ Hx) as Hi.
    apply (put_ok i x y Ha Hw ltac:(unfold has_key; by rewrite Hk) s tt); [by split|].
    unfold put_session, mbind, prog_bind, gets, lift, modify, zset. by rewrite bool_decide_true.
Qed.

#[export] Instance proved_inert i : Inert (proved i).
Proof.
  split.
  - by intros s [].
  - intros f s Hf [Hs Hk]. split; [by apply in_aside|]. destruct (Hf s) as (_ & _ & -> & _). done.
  - intros e s He [Hs Hk]. split; [by apply in_event|]. cbn. by rewrite keyed_silent.
  - intros j x y s Hx Ha Hw Hk [Hs Hp]. split; [by eapply in_put|done].
Qed.

Lemma aside_draws n : aside (add_draws n). Proof. done. Qed.
Lemma aside_allow n : aside (set_allow n). Proof. done. Qed.
Lemma aside_fds a b c : aside (set_fds a b c). Proof. done. Qed.

Lemma get_session_run i s x s' : get_session i s = Some (x, s') -> s' = s /\ zget (sessions s) i = Some x.
Proof.
  intros Hr. apply bind_inv in Hr as (l & s1 & [= <- <-] & Hr). unfold lift in Hr.
  destruct (zget (sessions s) i) as [z|]; [|done]. by injection Hr as <- <-.
Qed.

Lemma session_of s i x : lan_ok s -> zget (sessions s) i = Some x -> session_wf x.
Proof. intros Hs Hx. unfold zget in Hx. case_bool_decide; [|done]. by eapply Forall_lookup_1; [apply lo_wf|]. Qed.

(** The session at hand changes in a field that is not its key. *)
Lemma inert_update P `{Inert P} i (f : lan_session_t -> lan_session_t) :
  (forall x, session_wf x -> active (f x) = active x /\ secret_key (f x) = secret_key x /\ session_wf (f x)) ->
  forall x, hoare (fun s => P s /\ zget (sessions s) i = Some x) (put_session i (f x)) (fun _ s => P s /\ zget (sessions s) i = Some (f x)).
Proof.
  intros Hf x s [] s' [Hs Hx] Hr. apply put_session_run in Hr as [|[Hi [= ->]]]; [done|].
  destruct (Hf x) as (Ha & Hk & Hw); [eapply session_of; [by apply in_ok|done]|]. split; [by eapply in_put|].
  cbn. rewrite zget_insert by done. by rewrite bool_decide_true.
Qed.

Lemma hoare_left {A} (P Q : lan_mgr_t J -> Prop) (m : lan A) R : hoare P m R -> hoare (fun s => P s /\ Q s) m R.
Proof. intros Hm. eapply hoare_weaken; [exact Hm|by intros s []|done]. Qed.

Definition set_fault x : lan_session_t :=
  Session (active x) true (s_fd x) (s_time x) (sequence_in x) (sequence_out x) (randA x) (randB x) (s_hmac x) (secret_key x).
Definition set_time (t : Z) x : lan_session_t :=
  Session (active x) (fault x) (s_fd x) t (sequence_in x) (sequence_out x) (randA x) (randB x) (s_hmac x) (secret_key x).

Lemma fault_set_ok P `{Inert P} i : hoare P (lan_session_fault_set i) (fun _ => P).
Proof.
  unfold lan_session_fault_set. eapply hoare_bind; [apply hoare_gets|]. intros n. apply hoare_left.
  eapply hoare_bind; [apply get_session_ok|]. intros x. destruct (_ || _); [apply hoare_ret; by intros s []|].
  eapply hoare_weaken; [apply (inert_update P i set_fault)|done|by intros ? s []]. intros y []. by repeat split.
Qed.

Lemma time_update_ok P `{Inert P} i time : hoare P (lan_session_time_update i time) (fun _ => P).
Proof.
  unfold lan_session_time_update. eapply hoare_bind; [apply hoare_gets|]. intros n. apply hoare_left.
  eapply hoare_bind; [apply get_session_ok|]. intros x. destruct (_ || _); [apply hoare_ret; by intros s []|].
  eapply hoare_weaken; [apply (inert_update P i (set_time time))|done|by intros ? s []]. intros y []. by repeat split.
Qed.

(** A session that ends: its event, and the cleared entry. *)
Lemma closed_ok i x s n :
  lan_ok s -> zget (sessions s) i = Some x -> active x = true -> n = fd_num s - 1 ->
  lan_ok (set_sessions n (<[Z.to_nat i := session_zero (-1)]> (sessions s)) (add_event (L_closed i (s_fd x)) s)).
Proof.
  intros [] Hx Ha ->. pose proof (zget_inv _ _ _ Hx) as Hi. split; cbn.
  - unfold zlen in *. by rewrite length_insert.
  - rewrite (count_insert _ _ x _ Hx), Ha. cbn [active session_zero]. lia.
  - by apply Forall_insert.
  - intros j z. rewrite zget_insert by done. rewrite keyed_snoc. cbn [keyed_step]. case_bool_decide; [by intros [= <-]|]. by apply lo_key0.
  - by apply guarded_snoc.
  - done.
Qed.

Lemma close_ok i : hoare lan_ok (lan_session_close i) (fun _ => lan_ok).
Proof.
  intros s [] s' Hs Hr. unfold lan_session_close in Hr. apply bind_inv in Hr as (n & s1 & [= <- <-] & Hr).
  apply bind_inv in Hr as (x & s1 & Hx & Hr). apply get_session_run in Hx as [-> Hx].
  destruct (active x) eqn:Ha; [|rewrite orb_true_r in Hr; by injection Hr as <-]. rewrite orb_false_r in Hr.
  case_bool_decide; [by injection Hr as <-|]. case_bool_decide; [|by injection Hr as <-].
  apply bind_inv in Hr as ([] & s1 & [= <-] & Hr). apply bind_inv in Hr as ([] & s1 & Hp & Hr).
  apply put_session_run in Hp as [|[Hi [= ->]]]; [done|]. injection Hr as <-. by apply (closed_ok i x s).
Qed.

Lemma add_ok random socket time : hoare lan_ok (lan_sesison_add random socket time) (fun _ => lan_ok).
Proof.
  intros s [] s' Hs Hr. unfold lan_sesison_add in Hr. apply bind_inv in Hr as (n & s1 & [= <- <-] & Hr).
  apply bind_inv in Hr as (l & s1 & [= <- <-] & Hr). case_bool_decide as Hso; [by injection Hr as <-|].
  destruct (list_find _ (sessions s)) as [[k x]|] eqn:Hk; [|by injection Hr as <-].
  apply list_find_Some in Hk as (Hk & Hx & _). apply bind_inv in Hr as (r & s1 & [= <- <-] & Hr).
  apply bind_inv in Hr as ([] & s1 & Hp & Hr). apply put_session_run in Hp as [|[Hi [= ->]]]; [done|].
  apply bind_inv in Hr as ([] & s1 & [= <-] & [= <-]). cbn in Hi.
  assert (Hz : zget (sessions s) (Z.of_nat k) = Some x) by (by rewrite zget_nat).
  destruct Hs. split; cbn.
  - unfold zlen in *. by rewrite length_insert.
  - rewrite (count_insert _ _ x _ Hz), Hx. cbn [active]. lia.
  - apply Forall_insert; [done|]. split; try done. intros _. cbn. lia.
  - intros j z. rewrite zget_insert by done. rewrite keyed_snoc. cbn [keyed_step]. case_bool_decide; [by intros [= <-]|]. by apply lo_key0.
  - by apply guarded_snoc.
  - done.
Qed.

(** The invariant with the right count of active sessions filled in. *)
Definition counted s : lan_mgr_t J := set_sessions (count_active (sessions s)) (sessions s) s.

Lemma counted_ok s : lan_ok s -> counted s = s.
Proof. intros Hs. pose proof (lo_num _ Hs) as Hn. unfold counted. rewrite <- Hn. by destruct s. Qed.

(** The sessions before [k] are not active, and the rest is as it has to be. *)
Definition idle_upto (k : Z) s : Prop :=
  lan_ok (counted s) /\ forall i x, 0 <= i < k -> zget (sessions s) i = Some x -> active x = false.

Lemma close_each_ok i :
  hoare (idle_upto i) (x ← get_session i; if active x then log (L_closed i (s_fd x));; put_session i (session_zero (-1)) else mret tt)
    (fun _ => idle_upto (i + 1)).
Proof.
  intros s [] s' [Hs Hq] Hr. apply bind_inv in Hr as (x & s1 & Hx & Hr). apply get_session_run in Hx as [-> Hx].
  destruct (active x) eqn:Ha.
  - apply bind_inv in Hr as ([] & s1 & [= <-] & Hr). apply put_session_run in Hr as [|[Hii [= ->]]]; [done|]. cbn in Hii. split.
    + unfold counted. cbn. apply (closed_ok i x (counted s)); [done|done|done|]. cbn. rewrite (count_insert _ _ x _ Hx), Ha. cbn [active session_zero]. lia.
    + intros j y Hj. cbn. rewrite zget_insert by done. case_bool_decide; [by intros [= <-]|]. apply Hq. lia.
  - injection Hr as <-. split; [done|]. intros j y Hj Hy. destruct (decide (j = i)) as [->|]; [congruence|]. apply (Hq j y); [lia|done].
Qed.

Lemma idle_all s : idle_upto 3 s -> lan_ok (set_sessions 0 (sessions s) s).
Proof.
  intros [Hs Hq]. replace (set_sessions 0 (sessions s) s) with (counted s); [done|]. unfold counted. f_equal.
  pose proof (lo_len _ Hs) as Hl. cbn in Hl. unfold count_active, CLIENT_LMT in *.
  enough (filter (fun x => active x = true) (sessions s) = []) as -> by done.
  apply elem_of_nil_inv. intros x Hx. apply list_elem_of_filter in Hx as [Ha Hx]. apply list_elem_of_lookup in Hx as [k Hk].
  pose proof (lookup_lt_Some _ _ _ Hk). unfold zlen in Hl.
  rewrite (Hq (Z.of_nat k) x) in Ha; [done|lia|by rewrite zget_nat].
Qed.

Lemma close_all_ok : hoare lan_ok lan_session_close_all (fun _ s => lan_ok s /\ fd_num s = 0).
Proof.
  unfold lan_session_close_all. eapply hoare_bind; [apply hoare_gets|]. intros tcp.
  eapply hoare_bind; [apply hoare_gets|]. intros udp. eapply hoare_bind; [apply hoare_gets|]. intros sw.
  apply (hoare_weaken lan_ok _ _ (fun _ s => lan_ok s /\ fd_num s = 0)); [|by intros s [[[Hs _] _] _]|done].
  eapply (hoare_bind _ _ (fun _ => lan_ok)).
  { case_bool_decide; [|by apply hoare_ret]. apply hoare_modify. intros s Hs. by apply add_event_ok. }
  intros _. eapply (hoare_bind _ _ (fun _ => lan_ok)).
  { case_bool_decide; [|by apply hoare_ret]. apply hoare_modify. intros s Hs. by apply add_event_ok. }
  intros _. eapply (hoare_bind _ _ (fun _ => lan_ok)); [apply hoare_modify; intros s Hs; by apply (in_aside _ s (aside_fds _ _ _))|].
  intros _. eapply (hoare_bind _ _ (fun _ => idle_upto 3)).
  - apply (hoare_weaken (idle_upto 0) _ _ (fun _ => idle_upto 3)); [|intros s Hs; split; [by rewrite counted_ok|intros; lia]|done].
    apply (hoare_for_seqZ idle_upto _ 0 3); [lia|]. intros i Hi. apply close_each_ok.
  - intros _ s [] s' Hs [= <-]. cbn. split; [by apply idle_all|done].
Qed.

Lemma time_check_ok time : hoare lan_ok (lan_session_time_check time) (fun _ => lan_ok).
Proof.
  unfold lan_session_time_check. eapply hoare_bind; [apply hoare_gets|]. intros n. apply hoare_left.
  case_bool_decide; [by apply hoare_ret|]. apply hoare_for_each. intros i _. unfold session_check.
  eapply hoare_bind; [apply get_session_ok|]. intros x. apply hoare_left. destruct (active x); [|by apply hoare_ret].
  destruct (_ && _); [by apply hoare_ret|]. destruct (_ || _); [apply close_ok|by apply hoare_ret].
Qed.
End invariant.
#[local] Arguments keyed : simpl never.

(** Follow a program that keeps [P]. *)
Ltac inert_step :=
  match goal with
  | |- hoare _ (gets _ ≫= _) _ => eapply hoare_bind; [apply hoare_gets|]; intros ?; apply hoare_left
  | |- hoare _ (lift _ ≫= _) _ => eapply hoare_bind; [apply hoare_lift|]; intros ?; apply hoare_left
  | |- hoare _ (get_session _ ≫= _) _ => eapply hoare_bind; [apply get_session_ok|]; intros ?
  | |- hoare ?P (log ?e ≫= _) (fun _ => ?P) =>
      apply (hoare_bind _ _ (fun _ => P)); [apply hoare_modify; intros ? ?; by apply in_event|]; intros _
  | |- hoare _ (log _) _ => apply hoare_modify; intros ? ?; by apply in_event
  | |- hoare _ (modify _) _ => apply hoare_modify; intros ? ?; by apply in_aside
  | |- hoare ?P (_ ≫= _) (fun _ => ?P) => apply (hoare_bind _ _ (fun _ => P)); [|intros ?]
  | |- hoare _ (mret _) _ => apply hoare_ret; solve [done | by intros ? []]
  | |- hoare _ ub _ => apply hoare_ub
  | |- hoare _ (match ?x with _ => _ end) _ => destruct x
  | |- hoare _ (let _ := _ in _) _ => cbv zeta
  end.
Create HintDb lan.
#[export] Hint Resolve fault_set_ok time_update_ok close_ok add_ok close_all_ok time_check_ok : lan.
Ltac inert := repeat first [inert_step | solve [eauto with lan typeclass_instances]].

(** ** The operations keep the invariant *)

Section kept.
Context {J : Type} `{Gcm} `{MacLaws}.
Implicit Types (s : lan_mgr_t J) (P : lan_mgr_t J -> Prop).
Context (malloc : Z -> option bytes) (random : Z -> Z).
Context (net_send : Z -> bytes -> Z * bool) (net_resend : Z -> bytes -> Z).
Context (cJSON_Parse : bytes -> lan_json J) (dp_obj_dump : option bytes).

Lemma draw_random_ok P `{Inert J P} n : hoare P (draw_random random n) (fun _ => P).
Proof. unfold draw_random. inert. Qed.
Hint Resolve draw_random_ok : lan.

Lemma transmit_ok P `{Inert J P} i fd buf : hoare P (lan_transmit net_send net_resend i fd buf) (fun _ => P).
Proof. unfold lan_transmit. inert. Qed.
Hint Resolve transmit_ok : lan.

Lemma put_kept P `{Inert J P} i (f : lan_session_t -> lan_session_t) x :
  (forall x, session_wf x -> active (f x) = active x /\ secret_key (f x) = secret_key x /\ session_wf (f x)) ->
  hoare (fun s => P s /\ zget (sessions s) i = Some x) (put_session i (f x)) (fun _ => P).
Proof. intros Hf. eapply hoare_weaken; [by apply (inert_update P i f)|done|by intros ? s []]. Qed.

Lemma next_out_kept x : session_wf x -> active (next_out x) = active x /\ secret_key (next_out x) = secret_key x /\ session_wf (next_out x).
Proof. intros []. by repeat split. Qed.

Lemma send_ok P `{Inert J P} i t c data : hoare P (lan_send malloc random net_send net_resend i t c data) (fun _ => P).
Proof.
  unfold lan_send. inert. eapply hoare_bind; [apply (put_kept P i next_out); apply next_out_kept|]. intros []. inert.
Qed.
Hint Resolve send_ok : lan.

Lemma send_text_ok P `{Inert J P} i t c text : hoare P (send_text malloc random net_send net_resend i t c text) (fun _ => P).
Proof. unfold send_text. inert. Qed.
Hint Resolve send_text_ok : lan.

Lemma command_ok i d : hoare (proved i) (log (J := J) (L_command i d)) (fun _ => proved i).
Proof.
  apply hoare_modify. intros s [[] Hk]. split; [split; cbn; try done|].
  - intros j x Hx Hh. rewrite keyed_snoc. by eapply lo_key0.
  - apply guarded_snoc; [done|]. by intros j d' [= -> _].
  - cbn. by rewrite keyed_snoc.
Qed.
Hint Resolve command_ok : lan.

Lemma cmd_ok i frame : hoare (proved i) (process_cmd malloc random net_send net_resend cJSON_Parse i frame) (fun _ => proved i).
Proof. unfold process_cmd. inert. Qed.

Lemma query_ok P `{Inert J P} i frame : hoare P (process_query malloc random net_send net_resend cJSON_Parse dp_obj_dump i frame) (fun _ => P).
Proof. unfold process_query. inert. Qed.
Hint Resolve cmd_ok query_ok : lan.

Lemma zlen_uni_random_string r n : 0 <= n -> zlen (uni_random_string r n) = n.
Proof. apply zlen_seqZ_fmap. Qed.

(** What follows knows that the session is well formed. *)
Lemma get_session_wf P `{Inert J P} {A} i (k : lan_session_t -> prog _ A) Q :
  (forall x, session_wf x -> hoare (fun s => P s /\ zget (sessions s) i = Some x) (k x) Q) -> hoare P (x ← get_session i; k x) Q.
Proof.
  intros Hk. eapply hoare_bind; [apply get_session_ok|]. intros x s y s' [Hs Hx] Hr.
  eapply (Hk x); [|by split|done]. eapply session_of; [by apply in_ok|done].
Qed.

Lemma type3_ok i frame : hoare (lan_ok (J := J)) (process_type3 malloc random net_send net_resend i frame) (fun _ => lan_ok).
Proof.
  unfold process_type3. case_bool_decide; [by apply hoare_ret|].
  eapply hoare_bind; [apply hoare_lift|]. intros a. apply hoare_pure. intros Ha. apply mread_inv in Ha as (_ & _ & _ & Ha & _).
  eapply hoare_bind; [apply hoare_gets|]. intros localkey. apply hoare_left. cbv zeta. inert.
  eapply hoare_bind; [apply (put_kept lan_ok i (with_rands _ _ _))|].
  - intros y []. split_and!; [done|done|split; [done|by apply zlen_uni_random_string|apply tal_sha256_mac_len|done|done]].
  - intros []. inert.
Qed.

Lemma zlen_xor_bytes a b : zlen (xor_bytes a b) = zlen a `min` zlen b.
Proof. unfold zlen, xor_bytes. rewrite length_zip_with. lia. Qed.

Lemma proved_ok i y k r :
  hoare (at_session (J := J) i y) (log (L_proved i k r (tal_sha256_mac (c_string k) r))) (fun _ s => at_session i y s /\ keyed (lan_trace s) i = true).
Proof.
  apply hoare_modify. intros s [[] Hy]. split; [split; [split|]|]; cbn; try done.
  - intros j x Hx Hk. rewrite keyed_snoc. cbn [keyed_step]. case_bool_decide; [done|by eapply lo_key0].
  - by apply guarded_snoc.
  - rewrite keyed_snoc. cbn [keyed_step]. by rewrite bool_decide_true.
Qed.

(** The key after the proof: of 16 bytes, whatever the cipher leaves. *)
Lemma type5_ok i frame : hoare (lan_ok (J := J)) (process_type5 malloc i frame) (fun _ => lan_ok).
Proof.
  unfold process_type5. case_bool_decide; [by apply hoare_ret|]. apply (get_session_wf lan_ok). intros x Hx.
  eapply hoare_bind; [apply hoare_gets|]. intros localkey. apply hoare_left. cbv zeta.
  set (y := with_rands _ _ _ x). assert (Hy : session_wf y) by (destruct Hx; split; [done|done|apply tal_sha256_mac_len|done|done]).
  eapply (hoare_bind _ _ (fun _ => at_session i y)); [by apply put_ok|]. intros [].
  eapply hoare_bind; [apply hoare_lift|]. intros o. apply hoare_left.
  case_bool_decide as Ho; [apply hoare_left; eauto with lan typeclass_instances|]. subst o.
  eapply (hoare_bind _ _ (fun _ s => at_session i y s /\ keyed (lan_trace s) i = true)); [apply proved_ok|]. intros [].
  eapply hoare_bind; [apply (put_key_ok i y (with_secret_key _ y)); [done|]|].
  { destruct Hy. split; try done. cbn. rewrite zlen_xor_bytes. destruct Hx. lia. }
  intros []. eapply hoare_bind; [apply hoare_lift|]. intros [rt [[c tag]|]]; apply hoare_left.
  - eapply hoare_bind; [apply hoare_lift|]. intros k. apply hoare_pure. intros Hk.
    apply mwrite_inv in Hk as (_ & _ & Hk & _). rewrite zlen_xor_bytes in Hk.
    eapply hoare_bind; [apply put_key_ok; [done|]|].
    { destruct Hy. split; try done. cbn. destruct Hx. lia. }
    intros []. apply hoare_left. apply hoare_left. case_bool_decide; inert.
  - apply hoare_left. apply hoare_left. case_bool_decide; inert.
Qed.
Hint Resolve type3_ok type5_ok : lan.

Definition is_cmd (t : Z) : bool := bool_decide (t = FRM_TP_CMD \/ t = FRM_TP_NEW_CMD).

Notation process := (lan_protocol_process malloc random net_send net_resend cJSON_Parse dp_obj_dump).
Lemma process_ok i frame :
  hoare (fun s => lan_ok s /\ (is_cmd (f_type frame) = true -> keyed (lan_trace s) i = true)) (process i frame) (fun _ => lan_ok (J := J)).
Proof.
  unfold lan_protocol_process, is_cmd. case_bool_decide.
  - eapply hoare_weaken; [apply cmd_ok|intros s [Hs Hk]; split; auto|by intros ? s []].
  - apply hoare_left. inert.
Qed.

(** A key other than that of the device is one of a proved session. *)
Lemma frame_key_ok i t :
  hoare (lan_ok (J := J)) (frame_key i t) (fun r s => lan_ok s /\ (is_Some r -> is_cmd t = true -> keyed (lan_trace s) i = true)).
Proof.
  unfold frame_key. eapply hoare_bind; [apply hoare_gets|]. intros act. apply hoare_left.
  eapply hoare_bind; [apply hoare_gets|]. intros localkey. apply hoare_left. eapply hoare_bind; [apply get_session_ok|]. intros x.
  destruct act; cbn [negb].
  - eapply hoare_bind; [apply hoare_lift|]. intros k0. case_bool_decide as Ht.
    + assert (Hc : is_cmd t = false) by (unfold is_cmd; rewrite bool_decide_false by (unfold FRM_TP_CMD, FRM_TP_NEW_CMD, FRM_SECURITY_TYPE3, FRM_SECURITY_TYPE4, FRM_SECURITY_TYPE5 in *; lia); done).
      rewrite Hc. apply (hoare_weaken lan_ok _ _ (fun _ => lan_ok)); [|by intros s [[]]|done]. inert.
    + case_bool_decide as Hk.
      * apply (hoare_weaken lan_ok _ _ (fun r s => lan_ok s /\ r = None)); [|by intros s [[]]|by intros r s [Hs ->]; split; [|intros []]].
        eapply hoare_bind; [apply hoare_gets|]. intros n. apply hoare_left.
        eapply (hoare_bind _ _ (fun _ => lan_ok)); [case_bool_decide; inert|]. intros []. by apply hoare_ret.
      * apply hoare_ret. intros s [[Hs Hx] Hz]. split; [done|]. intros _ _. eapply lo_key; [done|done|].
        unfold has_key. rewrite bool_decide_true; [done|]. congruence.
  - apply hoare_left. apply (hoare_weaken lan_ok _ _ (fun r s => lan_ok s /\ r = None)); [|done|by intros r s [Hs ->]; split; [|intros []]].
    eapply (hoare_bind _ _ (fun _ => lan_ok)); [apply close_ok|]. intros []. by apply hoare_ret.
Qed.

Lemma parse_type key key_len buf len out f :
  lpv35_frame_parse malloc key key_len (Some buf) len out = Some (OPRT_OK, f) -> get32 buf 10 = Some (f_type f).
Proof.
  unfold lpv35_frame_parse. destruct key as [key|]; [|done]. case_bool_decide; [done|].
  destruct (mread buf 0 _) as [hd|]; [|done]. ub_step. case_bool_decide; [done|].
  destruct (mread buf _ LPV35_FRAME_TAIL_SIZE) as [tl|]; [|done]. ub_step. case_bool_decide; [done|].
  destruct (get32 buf 6) as [sq|]; [|done]. destruct (get32 buf 10) as [t|]; [|done]. destruct (get32 buf 14) as [n|]; [|done]. ub_step.
  case_bool_decide; [done|]. destruct (mread buf 18 _); [|done]. ub_step. destruct (mread buf _ LPV35_FRAME_TAG_SIZE); [|done]. ub_step.
  destruct (mread buf _ LPV35_AD_SIZE); [|done]. ub_step. destruct (malloc _); [|done].
  destruct (mbedtls_cipher_auth_decrypt_wrapper _ _ _ _ _ _ _ _ _) as [[[rt n'] o]|]; [|done]. ub_step.
  destruct (mwrite _ 0 o); [|done]. ub_step. case_bool_decide; [congruence|]. by intros [= <-].
Qed.

Notation handle := (frame_handle malloc random net_send net_resend cJSON_Parse dp_obj_dump).
Lemma handle_ok i offset tmp buf len now : hoare (lan_ok (J := J)) (handle i offset tmp buf len now) (fun _ => lan_ok).
Proof.
  unfold frame_handle. eapply hoare_bind; [apply hoare_lift|]. intros t. apply hoare_pure. intros Ht.
  eapply hoare_bind; [apply frame_key_ok|]. intros [key|]; [|by apply hoare_ret; intros s []].
  case_bool_decide; [apply hoare_left; inert|].
  eapply hoare_bind; [apply hoare_lift|]. intros [rt frame]. apply hoare_pure. intros Hp.
  case_bool_decide as Hrt; [by apply hoare_ret; intros s []|]. subst rt. apply parse_type in Hp.
  rewrite Ht in Hp. injection Hp as ->.
  eapply (hoare_bind _ _ (fun _ s => lan_ok s /\ (is_cmd (f_type frame) = true -> keyed (lan_trace s) i = true))).
  - destruct (is_cmd (f_type frame)).
    + eapply hoare_weaken; [apply (time_update_ok (proved i))|intros s [Hs Hk]; split; eauto|intros [] s []; done].
    + apply hoare_left. eapply hoare_weaken; [apply (time_update_ok lan_ok)|done|done].
  - intros []. eapply hoare_bind; [apply process_ok|]. intros []. by apply hoare_ret.
Qed.
Hint Resolve handle_ok : lan.

Lemma with_seq_kept n x : session_wf x -> active (with_seq n x) = active x /\ secret_key (with_seq n x) = secret_key x /\ session_wf (with_seq n x).
Proof. intros []. by repeat split. Qed.

Notation step := (frame_step malloc random net_send net_resend cJSON_Parse dp_obj_dump).
Lemma step_ok i offset len rest now : hoare (lan_ok (J := J)) (step i offset len rest now) (fun _ => lan_ok).
Proof.
  unfold frame_step. inert; [by apply hoare_left; inert|].
  eapply hoare_bind; [apply (put_kept lan_ok i (with_seq _)); apply with_seq_kept|]. intros []. inert.
Qed.
Hint Resolve step_ok : lan.

Lemma recv_ok off buf s : lan_ok s -> zlen buf = RECV_BUF_LMT -> lan_ok (set_recv off buf s).
Proof. intros [] Hb. by split. Qed.

Lemma hoare_buf {A} (k : bytes -> prog (lan_mgr_t J) A) Q :
  (forall buf, zlen buf = RECV_BUF_LMT -> hoare lan_ok (k buf) Q) -> hoare lan_ok (buf ← gets recv_buf; k buf) Q.
Proof. intros Hk s x s' Hs Hr. apply bind_inv in Hr as (b & s1 & [= <- <-] & Hr). eapply Hk; [by apply (lo_buf _ Hs)|done|done]. Qed.

Notation loop := (frame_loop malloc random net_send net_resend cJSON_Parse dp_obj_dump).
Lemma loop_ok fuel i : forall offset len tmp rest now, hoare (lan_ok (J := J)) (loop fuel i offset len tmp rest now) (fun _ => lan_ok).
Proof. induction fuel as [|fuel IH]; intros offset len tmp rest now; cbn [frame_loop]; inert. Qed.
Hint Resolve loop_ok : lan.

(** ** The loop ends

    What a heartbeat does not change: the buffer and the number of the last frame of session [i]. *)
Definition seen (b : bytes) (i q : Z) s : Prop := recv_buf s = b /\ exists x, zget (sessions s) i = Some x /\ sequence_in x = q.

Lemma put_seen b i q x y : sequence_in y = sequence_in x ->
  hoare (fun s => seen b i q s /\ zget (sessions s) i = Some x) (put_session i y) (fun _ => seen b i q).
Proof.
  intros Hy s [] s' [[Hb (x' & Hx' & Hq)] Hx] Hr. apply put_session_run in Hr as [|[Hi [= ->]]]; [done|]. split; [done|].
  exists y. split; [cbn; rewrite zget_insert by done; by rewrite bool_decide_true|]. congruence.
Qed.

Lemma modify_seen b i q (f : lan_mgr_t J -> lan_mgr_t J) : (forall s, recv_buf (f s) = recv_buf s /\ sessions (f s) = sessions s) ->
  hoare (seen b i q) (modify f) (fun _ => seen b i q).
Proof. intros Hf. apply hoare_modify. intros s [Hb Hx]. destruct (Hf s) as [Hb' Hs']. split; [congruence|by rewrite Hs']. Qed.

Lemma fault_seen b i q : hoare (seen b i q) (lan_session_fault_set i) (fun _ => seen b i q).
Proof. unfold lan_session_fault_set. inert. by apply (put_seen b i q x0 (set_fault x0)). Qed.

Lemma time_seen b i q now : hoare (seen b i q) (lan_session_time_update i now) (fun _ => seen b i q).
Proof. unfold lan_session_time_update. inert. by apply (put_seen b i q x0 (set_time now x0)). Qed.

Lemma send_seen b i q t c data : hoare (seen b i q) (lan_send malloc random net_send net_resend i t c data) (fun _ => seen b i q).
Proof.
  assert (Hd : hoare (seen b i q) (draw_random random 12) (fun _ => seen b i q)).
  { unfold draw_random. eapply hoare_bind; [apply hoare_gets|]. intros d. apply hoare_left.
    eapply (hoare_bind _ _ (fun _ => seen b i q)); [by apply modify_seen|]. intros []. inert. }
  assert (Ht : forall fd buf, hoare (seen b i q) (lan_transmit net_send net_resend i fd buf) (fun _ => seen b i q)).
  { intros fd buf. unfold lan_transmit. eapply (hoare_bind _ _ (fun _ => seen b i q)); [by apply modify_seen|]. intros [].
    inert; apply fault_seen. }
  unfold lan_send. inert. eapply (hoare_bind _ _ (fun _ => seen b i q)); [by apply (put_seen b i q x)|]. intros []. inert.
Qed.

Lemma frame_key_seen b i q t : hoare (seen b i q) (frame_key i t) (fun r s => is_Some r -> seen b i q s).
Proof.
  assert (Hn : forall m : prog (lan_mgr_t J) unit, hoare (fun _ => True) (m;; mret None) (fun (r : option bytes) s => is_Some r -> seen b i q s)).
  { intros m s r s' _ Hr. apply bind_inv in Hr as ([] & s1 & _ & [= <- <-]). by intros []. }
  unfold frame_key. inert_step. inert_step. inert_step. apply hoare_left. destruct x; cbn [negb]; [|eapply hoare_weaken; [apply Hn|done|done]].
  eapply hoare_bind; [apply hoare_lift|]. intros k0. apply hoare_left. case_bool_decide.
  - eapply (hoare_bind _ _ (fun _ => seen b i q)); [by apply modify_seen|]. intros []. case_bool_decide; [eapply hoare_weaken; [apply Hn|done|done]|].
    by apply hoare_ret.
  - case_bool_decide; [|by apply hoare_ret]. inert_step. eapply hoare_weaken; [apply Hn|done|done].
Qed.

Lemma lift_same {A} (o : option A) (x : A) s s' : lift o s = Some (x, s') -> s' = s.
Proof. unfold lift. destruct o; [|done]. by intros [= _ <-]. Qed.

(** When the loop goes on after a frame, it is behind the frame; a frame of no length was a heartbeat. *)
Lemma handle_next b i q offset tmp buf len now :
  hoare (seen b i q) (handle i offset tmp buf len now)
    (fun r s => forall o t, r = Next o t -> o = u32 (offset + len) /\ t = tmp /\ (len = 0 -> seen b i q s)).
Proof.
  unfold frame_handle. eapply hoare_bind; [apply hoare_lift|]. intros t. apply hoare_left.
  eapply hoare_bind; [apply frame_key_seen|]. intros [key|]; [|by apply hoare_ret].
  apply (hoare_weaken (seen b i q) _ _ (fun r s => forall o t, r = Next o t -> o = u32 (offset + len) /\ t = tmp /\ (len = 0 -> seen b i q s)));
    [|intros s Hs; by apply Hs|done].
  case_bool_decide.
  - eapply (hoare_bind _ _ (fun _ => seen b i q)); [apply send_seen|]. intros ?.
    eapply (hoare_bind _ _ (fun _ => seen b i q)); [apply time_seen|]. intros []. apply hoare_ret. by intros s Hs o t' [= <- <-].
  - eapply hoare_bind; [apply hoare_lift|]. intros [rt frame]. apply hoare_pure. intros Hp. case_bool_decide as Hrt; [by apply hoare_ret|].
    subst rt. assert (Hlen : len <> 0).
    { intros ->. unfold lpv35_frame_parse in Hp. change (bool_decide (SESSIONKEY_LEN = 0 \/ i32 0 = 0)) with true in Hp. by injection Hp. }
    intros s r s' _ Hr. apply bind_inv in Hr as ([] & s1 & _ & Hr). apply bind_inv in Hr as ([] & s2 & _ & [= <- <-]). by intros o t' [= <- <-].
Qed.

(** The frame at [offset] has a number that was seen. *)
Definition stuck (i offset : Z) s : Prop :=
  exists q x, mread (recv_buf s) offset LPV35_FRAME_HEAD_SIZE = Some LPV35_FRAME_HEAD /\ get32 (recv_buf s) (offset + 6) = Some q /\
    zget (sessions s) i = Some x /\ q <= sequence_in x.

Lemma stuck_step i offset len rest now s r n s' : stuck i offset s -> step i offset len rest now s = Some ((r, n), s') ->
  exists t, r = Break offset t.
Proof.
  intros (q & x & Hh & Hq & Hx & Hle) Hr. unfold frame_step in Hr. rewrite gets_bind, (lift_bind _ _ _ _ Hh) in Hr.
  rewrite bool_decide_false in Hr by (intros E; by apply E). rewrite (lift_bind _ _ _ _ Hq) in Hr.
  apply bind_inv in Hr as (fl & s1 & Hfl & Hr). unfold lift in Hfl. destruct (get32 _ (offset + 14)); [|done]. injection Hfl as _ <-.
  apply bind_inv in Hr as (x' & s1 & Hx' & Hr). apply get_session_run in Hx' as [-> Hx']. rewrite bool_decide_true in Hr by (replace x' with x by congruence; done).
  apply bind_inv in Hr as ([] & s2 & _ & [= <- <-]). by eexists.
Qed.

(** Each round gets on, or is the last, or leads to a last one. *)
Lemma step_progress i offset len rest now s o t n s' :
  0 <= offset -> offset + LPV35_FRAME_MINI_SIZE <= len < 2 ^ 31 -> step i offset len rest now s = Some ((Next o t, n), s') ->
  is_Some t \/ t = None /\ n = len /\ (offset < o \/ o = offset /\ stuck i offset s').
Proof.
  unfold LPV35_FRAME_MINI_SIZE. change (2 ^ 31) with 2147483648. intros Ho Hlen Hr. unfold frame_step in Hr. rewrite gets_bind in Hr.
  apply bind_inv in Hr as (hd & s1 & Hhd & Hr). unfold lift in Hhd. destruct (mread _ offset _) as [hd'|] eqn:Hh; [|done]. injection Hhd as -> <-.
  case_bool_decide as Hhd; [injection Hr as <- <- <- <-; right; split; [done|split; [done|lia]]|]. subst hd.
  apply bind_inv in Hr as (q & s1 & Hq & Hr). unfold lift in Hq. destruct (get32 _ (offset + 6)) as [q'|] eqn:Hq6; [|done]. injection Hq as -> <-.
  apply bind_inv in Hr as (fl & s1 & Hfl & Hr). unfold lift in Hfl. destruct (get32 _ (offset + 14)) as [fl'|] eqn:Hf; [|done]. injection Hfl as -> <-.
  apply bind_inv in Hr as (x & s1 & Hx & Hr). apply get_session_run in Hx as [-> Hx].
  case_bool_decide as Hsq; [by apply bind_inv in Hr as ([] & s1 & _ & [=])|].
  apply bind_inv in Hr as ([] & s1 & Hp & Hr). apply put_session_run in Hp as [|[Hi [= ->]]]; [done|]. cbv zeta in Hr.
  set (s1 := set_sessions _ _ s) in *.
  assert (Hseen0 : seen (recv_buf s) i q s1) by (split; [done|exists (with_seq q x); split; [cbn; rewrite zget_insert by done; by rewrite bool_decide_true|done]]).
  set (fl' := u32 (22 + fl)) in *. assert (Hfr : 0 <= fl' < 2 ^ 32) by (apply wrap_range; lia). case_bool_decide as Hbig.
  - case_bool_decide; [done|]. destruct (malloc _) as [tmp|]; [|done]. apply bind_inv in Hr as (t1 & s2 & Hl1 & Hr). apply lift_same in Hl1 as ->.
    destruct (rest _) as [more|]; [|done]. apply bind_inv in Hr as (t2 & s3 & Hl2 & Hr). apply lift_same in Hl2 as ->. apply bind_inv in Hr as (r & s4 & Hh2 & [= -> <- <-]).
    left. destruct (handle_next (recv_buf s) i q 0 (Some t2) _ fl' now _ _ _ Hseen0 Hh2 o t eq_refl) as (_ & -> & _). by eexists.
  - apply bind_inv in Hr as (r & s4 & Hh2 & [= -> <- <-]). right.
    rewrite wrap_small in Hbig by (unfold in_u; lia).
    destruct (handle_next (recv_buf s) i q offset None _ fl' now _ _ _ Hseen0 Hh2 o t eq_refl)
      as (-> & -> & Hseen).
    rewrite wrap_small by (unfold in_u; lia). split; [done|]. split; [done|]. destruct (decide (fl' = 0)) as [E|]; [right|left; lia].
    split; [lia|]. destruct (Hseen E) as (Hb & x' & Hx' & Hq'). exists q, x'. rewrite Hb. split_and!; try done. lia.
Qed.

Lemma loop_S fuel i offset len tmp rest now s :
  loop (S fuel) i offset len tmp rest now s =
    (if bool_decide (len >= LPV35_FRAME_MINI_SIZE + offset) && negb (bool_decide (is_Some tmp)) then
       r ← step i offset len rest now;
       match r with
       | (Next offset tmp, n) => loop fuel i offset n tmp rest now
       | (Break offset tmp, n) => mret (offset, n, tmp)
       end
     else mret (offset, len, tmp)) s.
Proof. done. Qed.

Lemma loop_end fuel i offset len tmp rest now s : is_Some tmp \/ len < offset + LPV35_FRAME_MINI_SIZE ->
  loop (S fuel) i offset len tmp rest now s = Some ((offset, len, tmp), s).
Proof.
  intros Ht. cbn [frame_loop]. destruct Ht as [[t ->]|Ht].
  - rewrite (bool_decide_true (is_Some _)) by (by eexists). by rewrite andb_false_r.
  - by rewrite bool_decide_false by lia.
Qed.

Lemma loop_stuck fuel fuel' i offset len rest now s : stuck i offset s ->
  loop (S fuel) i offset len None rest now s = loop (S fuel') i offset len None rest now s.
Proof.
  intros Hs. cbn [frame_loop]. destruct (_ && _); [|done]. unfold mbind, prog_bind.
  destruct (step i offset len rest now s) as [[[r n] s']|] eqn:Hr; [|done]. by destruct (stuck_step _ _ _ _ _ _ _ _ _ Hs Hr) as [t ->].
Qed.

Lemma loop_fuel i len rest now : len < 2 ^ 31 -> forall n fuel offset s,
  0 <= offset -> len - offset < Z.of_nat n + LPV35_FRAME_MINI_SIZE ->
  loop (S n + fuel) i offset len None rest now s = loop (S n) i offset len None rest now s.
Proof.
  intros Hlen. unfold LPV35_FRAME_MINI_SIZE. induction n as [|n IH]; intros fuel offset s Ho Hn.
  - cbn [Nat.add]. rewrite !loop_end by (right; unfold LPV35_FRAME_MINI_SIZE; lia). done.
  - destruct (decide (50 + offset <= len)) as [Hc|Hc]; [|cbn [Nat.add]; rewrite !loop_end by (right; unfold LPV35_FRAME_MINI_SIZE; lia); done].
    change (S (S n) + fuel)%nat with (S (S n + fuel)). rewrite !loop_S. destruct (_ && _); [|done]. unfold mbind, prog_bind.
    destruct (step i offset len rest now s) as [[[[o t|o t] m] s']|] eqn:Hr; try done.
    apply step_progress in Hr as [Ht|(-> & -> & [Hlt|[-> Hst]])]; try (unfold LPV35_FRAME_MINI_SIZE; lia).
    + change (S n + fuel)%nat with (S (n + fuel)). rewrite !loop_end by (by left). done.
    + apply IH; lia.
    + change (S n + fuel)%nat with (S (n + fuel)). by apply loop_stuck.
Qed.

(** The loop over the frames of what was received ends: more rounds than the received bytes change
    nothing, even for frames that announce no length. *)
Theorem lan_frame_loop_ends i len rest now s fuel :
  0 <= len < 2 ^ 31 -> (S (S (Z.to_nat len)) <= fuel)%nat ->
  loop fuel i 0 len None rest now s = loop (S (S (Z.to_nat len))) i 0 len None rest now s.
Proof.
  intros Hlen Hf. replace fuel with (S (S (Z.to_nat len)) + (fuel - S (S (Z.to_nat len))))%nat by lia.
  apply loop_fuel; unfold LPV35_FRAME_MINI_SIZE; lia.
Qed.

Notation recv := (lan_recv_loop malloc random net_send net_resend cJSON_Parse dp_obj_dump).
Lemma lan_recv_loop_ok i rest now : forall recvs, hoare (lan_ok (J := J)) (recv i recvs rest now) (fun _ => lan_ok).
Proof.
  induction recvs as [|data recvs IH]; cbn [lan_recv_loop]; (eapply hoare_bind; [apply hoare_gets|]; intros off; apply hoare_left);
    apply hoare_buf; intros buf Hb; [inert|]. cbv zeta. case_bool_decide; [inert|].
  eapply hoare_bind; [apply hoare_lift|]. intros buf'. apply hoare_pure. intros Hw. apply mwrite_inv in Hw as (_ & _ & Hw & _).
  eapply (hoare_bind _ _ (fun _ => lan_ok)); [apply hoare_modify; intros s Hs; apply recv_ok; [done|lia]|]. intros [].
  case_bool_decide; [inert|]. inert_step; [inert|]. destruct x as [[offset len] tmp]. case_bool_decide; [inert|]. case_bool_decide; [|inert].
  apply hoare_buf. intros b Hb2. inert_step. eapply hoare_bind; [apply hoare_lift|]. intros buf2. apply hoare_pure. intros Hw2.
  apply mwrite_inv in Hw2 as (_ & _ & Hw2 & _).
  eapply (hoare_bind _ _ (fun _ => lan_ok)); [apply hoare_modify; intros s Hs; apply recv_ok; [done|lia]|]. intros []. apply IH.
Qed.
Hint Resolve lan_recv_loop_ok : lan.

Lemma read_ok fd recvs rest now :
  hoare (lan_ok (J := J)) (lan_tcp_client_sock_read malloc random net_send net_resend cJSON_Parse dp_obj_dump fd recvs rest now) (fun _ => lan_ok).
Proof.
  unfold lan_tcp_client_sock_read, lan_session_get_by_fd. inert_step; [inert|]. destruct x as [i|]; [|inert].
  inert_step. apply hoare_left. destruct (active x); cbn [negb]; [|inert]. apply hoare_buf. intros buf Hb.
  eapply (hoare_bind _ _ (fun _ => lan_ok)); [apply hoare_modify; intros s Hs; by apply recv_ok|]. intros []. inert.
Qed.

Lemma sock_err_ok fd : hoare (lan_ok (J := J)) (lan_tcp_client_sock_err fd) (fun _ => lan_ok).
Proof. unfold lan_tcp_client_sock_err, lan_session_get_by_fd. inert. apply hoare_left. inert. Qed.

Lemma accept_ok cfd now reg : hoare (lan_ok (J := J)) (lan_tcp_serv_sock_read random cfd now reg) (fun _ => lan_ok).
Proof. unfold lan_tcp_serv_sock_read, lan_session_active_num_get. inert. Qed.

Lemma close_all_ok' : hoare (lan_ok (J := J)) lan_session_close_all (fun _ => lan_ok).
Proof. eapply hoare_weaken; [apply close_all_ok|done|by intros ? s []]. Qed.
Hint Resolve close_all_ok' : lan.

Lemma pre_select_ok now : hoare (lan_ok (J := J)) (lan_tcp_serv_sock_pre_select now) (fun _ => lan_ok).
Proof. unfold lan_tcp_serv_sock_pre_select. inert. Qed.

Lemma report_to_ok i t c data k : hoare (lan_ok (J := J)) (report_to malloc random net_send net_resend i t c data k) (fun _ => lan_ok).
Proof. unfold report_to. inert; apply hoare_left; inert. Qed.
Hint Resolve report_to_ok : lan.

Lemma data_report_ok t c data : hoare (lan_ok (J := J)) (tuya_lan_data_report malloc random net_send net_resend t c data) (fun _ => lan_ok).
Proof. unfold tuya_lan_data_report, lan_session_active_num_get. inert. apply hoare_for_each. intros i _. inert. Qed.

Lemma dp_report_ok dpstr serial drawn posix :
  hoare (lan_ok (J := J)) (tuya_lan_dp_report malloc random net_send net_resend dpstr serial drawn posix) (fun _ => lan_ok).
Proof. unfold tuya_lan_dp_report, lan_session_active_num_get. inert. apply hoare_for_each. intros i _. inert. Qed.

Lemma disconnect_ok : hoare (lan_ok (J := J)) tuya_lan_disconnect_all (fun _ => lan_ok).
Proof. unfold tuya_lan_disconnect_all. inert. Qed.

Lemma udp_read_ok key n recv addr_of : hoare (lan_ok (J := J)) (lan_udp_serv_sock_read malloc random key n recv addr_of) (fun _ => lan_ok).
Proof.
  unfold lan_udp_serv_sock_read. apply hoare_buf. intros buf Hb. eapply hoare_bind; [apply hoare_gets|]. intros off. apply hoare_left. cbv zeta.
  assert (Hz : zlen (replicate (length buf) 0) = RECV_BUF_LMT) by (rewrite <- Hb; unfold zlen; by rewrite length_replicate).
  destruct recv as [data|]; [|apply hoare_modify; intros s Hs; by apply recv_ok].
  eapply hoare_bind; [apply hoare_lift|]. intros buf'. apply hoare_pure. intros Hw. apply mwrite_inv in Hw as (_ & _ & Hw & _).
  eapply (hoare_bind _ _ (fun _ => lan_ok)); [apply hoare_modify; intros s Hs; apply recv_ok; [done|lia]|]. intros [].
  unfold lan_make_udp_packets. inert.
Qed.

Lemma udp_err_ok : hoare (lan_ok (J := J)) lan_udp_serv_sock_err (fun _ => lan_ok).
Proof. unfold lan_udp_serv_sock_err. inert. Qed.
End kept.

(** ** The service as a whole *)

(** What the code around the service does for one event: memory, randomness, sockets, JSON. *)
Record lan_env {J : Type} := LanEnv {
  le_malloc : Z -> option bytes; le_random : Z -> Z;
  le_send : Z -> bytes -> Z * bool; le_resend : Z -> bytes -> Z;
  le_json : bytes -> lan_json J; le_dump : option bytes }.
Arguments lan_env : clear implicits.

(** The events of the socket loop and the calls of other parts. [O_client]: the device is activated or
    reset. *)
Inductive lan_op :=
| O_client (act : bool) (localkey : bytes)
| O_accept (cfd now reg : Z) | O_serv_err | O_pre_select (now : Z)
| O_read (fd : Z) (recvs : list bytes) (rest : Z -> option bytes) (now : Z) | O_err (fd : Z)
| O_udp_read (app_key2 : bytes) (n : udp_info) (recv : option bytes) (addr_of : bytes -> option Z) | O_udp_err
| O_data_report (fr_type ret_code : Z) (data : bytes) | O_dp_report (dpstr : bytes) (serial_no drawn posix : Z)
| O_disconnect.

Section service.
Context {J : Type} `{Gcm} `{Mac}.
Notation lan := (prog (lan_mgr_t J)).

Definition set_client (act : bool) (localkey : bytes) (s : lan_mgr_t J) : lan_mgr_t J :=
  Lan J (fd_num s) (sessions s) (udp_serv_fd s) (tcp_serv_fd s) (serv_fd_switch s) (allow_no_session_key_num s) (recv_offset s) (recv_buf s)
    act localkey (draws s) (lan_trace s).

Definition lan_run (e : lan_env J) (op : lan_op) : lan unit :=
  match op with
  | O_client act localkey => modify (set_client act localkey)
  | O_accept cfd now reg => lan_tcp_serv_sock_read (le_random e) cfd now reg
  | O_serv_err => lan_tcp_serv_sock_err
  | O_pre_select now => lan_tcp_serv_sock_pre_select now
  | O_read fd recvs rest now => lan_tcp_client_sock_read (le_malloc e) (le_random e) (le_send e) (le_resend e) (le_json e) (le_dump e) fd recvs rest now
  | O_err fd => lan_tcp_client_sock_err fd
  | O_udp_read key n recv addr_of => lan_udp_serv_sock_read (le_malloc e) (le_random e) key n recv addr_of
  | O_udp_err => lan_udp_serv_sock_err
  | O_data_report t c data => tuya_lan_data_report (le_malloc e) (le_random e) (le_send e) (le_resend e) t c data;; mret tt
  | O_dp_report d serial drawn posix => tuya_lan_dp_report (le_malloc e) (le_random e) (le_send e) (le_resend e) d serial drawn posix;; mret tt
  | O_disconnect => tuya_lan_disconnect_all;; mret tt
  end.

Definition lan_history (l : list (lan_env J * lan_op)) : lan unit := for_each l (fun p => lan_run (fst p) (snd p)).

(** The states the service can be in. *)
Definition lan_reachable (s : lan_mgr_t J) : Prop :=
  exists e act localkey l rt s0,
    tuya_lan_init (J := J) None true e act localkey = Some (rt, Some s0) /\ lan_history l s0 = Some (tt, s).

Context {Hmac : MacLaws}.

Lemma run_ok e op : hoare lan_ok (lan_run e op) (fun _ => lan_ok).
Proof.
  destruct op; cbn [lan_run].
  - apply hoare_modify. intros s Hs. by apply (in_aside (set_client act localkey)).
  - apply accept_ok.
  - apply close_all_ok'.
  - apply pre_select_ok.
  - apply read_ok.
  - apply sock_err_ok.
  - apply udp_read_ok.
  - apply udp_err_ok.
  - inert_step; [apply data_report_ok|inert].
  - inert_step; [apply dp_report_ok|inert].
  - inert_step; [apply disconnect_ok|inert].
Qed.

Lemma history_ok l : hoare lan_ok (lan_history l) (fun _ => lan_ok).
Proof. apply hoare_for_each. intros p _. apply run_ok. Qed.

Lemma tcp_create_run e (s : lan_mgr_t J) :
  lan_tcp_create_serv_socket e s =
    let fds fd := set_fds (udp_serv_fd s) fd (serv_fd_switch s) in
    if bool_decide (ie_tcp e < 0) then Some (-1, fds (-1) s)
    else if bool_decide (OPRT_OK <> ie_tcp_reg e) then Some (-2, fds (-1) (add_event (L_close_fd (ie_tcp e)) s))
    else Some (ie_tcp e, fds (ie_tcp e) s).
Proof. unfold lan_tcp_create_serv_socket. by repeat case_bool_decide. Qed.

Lemma udp_create_run e (s : lan_mgr_t J) : udp_serv_fd s = -1 ->
  lan_udp_create_serv_socket e s =
    let fds fd := set_fds fd (tcp_serv_fd s) (serv_fd_switch s) in
    if bool_decide (ie_udp e < 0) then Some (-1, fds (ie_udp e) s)
    else if bool_decide (OPRT_OK <> ie_udp_reg e) then Some (-2, fds (-1) (add_event (L_close_fd (ie_udp e)) s))
    else Some (ie_udp e, fds (ie_udp e) s).
Proof. intros Hu. unfold lan_udp_create_serv_socket, mbind, prog_bind, gets. rewrite Hu. by repeat case_bool_decide. Qed.

Lemma lan_init_ok e act localkey rt s : tuya_lan_init (J := J) None true e act localkey = Some (rt, Some s) -> lan_ok s /\ rt = OPRT_OK.
Proof.
  unfold tuya_lan_init, tuya_lan_exit. cbn [negb].
  assert (Hf : forall rt' (x : lan_mgr_t J), (r ← (r ← lan_session_close_all x; Some (OPRT_OK, None)); Some (rt', snd r)) = Some (rt, Some s) -> False).
  { intros rt' x. by destruct (lan_session_close_all x). }
  repeat (case_bool_decide; [by intros ?%Hf|]). destruct (ie_sessions e); [|by intros ?%Hf]. cbn [negb].
  set (s1 := set_sessions _ _ _). rewrite tcp_create_run. destruct (bool_decide (ie_tcp e < 0)) eqn:E1; [by intros ?%Hf|]. apply bool_decide_eq_false in E1.
  destruct (bool_decide (OPRT_OK <> ie_tcp_reg e)); [by intros ?%Hf|]. ub_step. rewrite bool_decide_false by done.
  rewrite udp_create_run by done. destruct (bool_decide (ie_udp e < 0)) eqn:E2; [by intros ?%Hf|]. apply bool_decide_eq_false in E2.
  destruct (bool_decide (OPRT_OK <> ie_udp_reg e)); [by intros ?%Hf|]. ub_step.
  rewrite bool_decide_false by done. intros [= <- <-]. split; [|done]. split; cbn; try done.
  - by repeat constructor.
  - intros i x Hx. unfold zget in Hx. case_bool_decide; [|done].
    by apply lookup_replicate in Hx as [-> _].
  - intros pre i d post Ht. by destruct pre.
Qed.

(** The proof behind a keyed session. *)
Lemma keyed_proof (tr : list (lan_event J)) i : keyed tr i = true ->
  exists a k r b, tr = a ++ L_proved i k r (tal_sha256_mac (c_string k) r) :: b /\
    forall fd, L_opened i fd ∉ b /\ L_closed i fd ∉ b.
Proof.
  induction tr as [|e tr IH] using rev_ind; [done|]. rewrite keyed_snoc. intros Hk.
  assert (Hcase : (exists k r, e = L_proved i k r (tal_sha256_mac (c_string k) r)) \/
    keyed tr i = true /\ forall fd, e <> L_opened i fd /\ e <> L_closed i fd).
  { destruct e; cbn [keyed_step] in Hk; try case_bool_decide as Hd; try done; try (right; split; [done|naive_solver]).
    left. destruct Hd as [-> ->]. by eexists _, _. }
  destruct Hcase as [(k & r & ->)|[Hk' He]].
  - exists tr, k, r, []. split; [done|]. intros fd. split; apply not_elem_of_nil.
  - destruct (IH Hk') as (a & k & r & b & -> & Hb). exists a, k, r, (b ++ [e]). split; [by rewrite <- app_assoc|].
    intros fd. destruct (Hb fd), (He fd). set_solver.
Qed.

Lemma reachable_ok s : lan_reachable s -> lan_ok s.
Proof. intros (e & act & k & l & rt & s0 & Hi & Hr). apply lan_init_ok in Hi as [Hs _]. exact (history_ok l _ _ _ Hs Hr). Qed.

(** C2. After any sequence of connections, received data, failures, timeouts, reports and changes of the
    client, at most three sessions are active and their count is right, and every command that was
    delivered came on a session whose peer had proved, since the session was opened, that it has the
    local key: it sent the hash under this key of the session's random number. *)
Theorem lan_commands_authenticated s :
  lan_reachable s ->
  fd_num s = count_active (sessions s) /\ fd_num s <= CLIENT_LMT /\
  forall pre i d post, lan_trace s = pre ++ L_command i d :: post ->
    exists a k r b, pre = a ++ L_proved i k r (tal_sha256_mac (c_string k) r) :: b /\
      forall fd, L_opened i fd ∉ b /\ L_closed i fd ∉ b.
Proof.
  intros Hok%reachable_ok. split_and!.
  - by apply lo_num.
  - rewrite (lo_num _ Hok), <- (lo_len _ Hok). unfold count_active, zlen. pose proof (length_filter (fun x => active x = true) (sessions s)). lia.
  - intros pre i d post Ht. apply keyed_proof. by eapply (lo_cmd _ Hok).
Qed.

(** ** Sessions that end

    A session that failed, or was silent for the time of the heartbeat; a clock that jumped by a month
    says nothing. *)
Definition ends (now : Z) (x : lan_session_t) : bool :=
  let idle := u32 (now - s_time x) in
  active x && (fault x || bool_decide (HEART_BEAT_TIMEOUT <= idle < 2592000)).
Definition expire (now : Z) (x : lan_session_t) : lan_session_t := if ends now x then session_zero (-1) else x.

Lemma zget_count_pos l i x : zget l i = Some x -> active x = true -> 0 < count_active l.
Proof.
  intros Hx Ha. unfold count_active, zlen. destruct (filter (fun x => active x = true) l) as [|y l'] eqn:Hf; [|cbn; lia].
  assert (Hin : x ∈ filter (fun x => active x = true) l).
  { apply list_elem_of_filter. split; [done|]. unfold zget in Hx. case_bool_decide; [|done]. by eapply list_elem_of_lookup_2. }
  rewrite Hf in Hin. by apply not_elem_of_nil in Hin.
Qed.

Lemma close_run i x (s : lan_mgr_t J) : lan_ok s -> zget (sessions s) i = Some x -> active x = true ->
  lan_session_close i s =
    Some (tt, set_sessions (fd_num s - 1) (<[Z.to_nat i := session_zero (-1)]> (sessions s)) (add_event (L_closed i (s_fd x)) s)).
Proof.
  intros Hs Hx Ha. pose proof (zget_count_pos _ _ _ Hx Ha) as Hc. rewrite <- (lo_num _ Hs) in Hc.
  pose proof (wf_fd _ (session_of _ _ _ Hs Hx) Ha) as Hfd. pose proof (zget_inv _ _ _ Hx) as Hi.
  unfold lan_session_close, get_session, put_session, mbind, prog_bind, gets, lift. rewrite Hx, Ha, (bool_decide_false (fd_num s = 0)) by lia.
  cbn [orb negb]. rewrite bool_decide_true by lia. cbn. unfold zset. by rewrite bool_decide_true.
Qed.

Lemma check_run now i x (s : lan_mgr_t J) : lan_ok s -> zget (sessions s) i = Some x ->
  exists s', session_check now i s = Some (tt, s') /\ lan_ok s' /\ sessions s' = <[Z.to_nat i := expire now x]> (sessions s).
Proof.
  intros Hs Hx. assert (Hid : <[Z.to_nat i := x]> (sessions s) = sessions s).
  { unfold zget in Hx. case_bool_decide; [|done]. by apply list_insert_id. }
  unfold session_check, get_session, mbind, prog_bind, gets, lift, expire, ends. rewrite Hx.
  destruct (active x) eqn:Ha; cbn [andb]; [|rewrite Hid; eauto]. cbv zeta. set (idle := u32 _).
  assert (Hclose : exists s', lan_session_close i s = Some (tt, s') /\ lan_ok s' /\ sessions s' = <[Z.to_nat i := session_zero (-1)]> (sessions s)).
  { rewrite (close_run i x s) by done. eexists. split; [done|]. split; [by apply closed_ok|done]. }
  unfold HEART_BEAT_TIMEOUT. destruct (fault x); cbn [negb orb andb]; rewrite ?andb_false_r, ?andb_true_r, ?orb_true_r, ?orb_false_r; [exact Hclose|].
  destruct (bool_decide (idle >= 2592000)) eqn:E1; [apply bool_decide_eq_true in E1; rewrite bool_decide_false by lia; rewrite Hid; eauto|].
  apply bool_decide_eq_false in E1. destruct (bool_decide (idle >= 30)) eqn:E2; [apply bool_decide_eq_true in E2|apply bool_decide_eq_false in E2].
  - rewrite bool_decide_true by lia. exact Hclose.
  - rewrite bool_decide_false by lia. rewrite Hid. eauto.
Qed.

(** C11. Each round of the socket loop ends exactly the active sessions that are faulty or were silent
    for 30 seconds (and less than 30 days), and leaves the others as they are. *)
Theorem lan_sessions_expire now s :
  lan_reachable s -> serv_fd_switch s = false ->
  exists s', lan_tcp_serv_sock_pre_select now s = Some (tt, s') /\ sessions s' = expire now <$> sessions s.
Proof.
  intros Hs%reachable_ok Hsw. unfold lan_tcp_serv_sock_pre_select, mbind at 1, prog_bind at 1, gets at 1. rewrite Hsw.
  unfold lan_session_time_check. unfold mbind at 1 2 , prog_bind at 1 2, mret, prog_ret, gets at 1.
  pose proof (lo_len _ Hs) as Hl. destruct (sessions s) as [|x0 [|x1 [|x2 [|? ?]]]] eqn:Hss; try (unfold zlen, CLIENT_LMT in Hl; cbn [length] in Hl; lia).
  case_bool_decide as Hn.
  - eexists. split; [done|]. rewrite Hss.
    assert (Hno : forall x, x ∈ sessions s -> expire now x = x).
    { intros x Hx. unfold expire, ends. destruct (active x) eqn:Ha; [exfalso|done].
      apply list_elem_of_lookup in Hx as [k Hk]. pose proof (zget_count_pos (sessions s) (Z.of_nat k) x) as Hp. rewrite zget_nat in Hp.
      specialize (Hp Hk Ha). rewrite <- (lo_num _ Hs) in Hp. lia. }
    rewrite Hss in Hno. cbn. rewrite !Hno by set_solver. done.
  - change (seqZ 0 CLIENT_LMT) with [0; 1; 2]. cbn [for_each]. unfold mbind at 1, prog_bind at 1.
    destruct (check_run now 0 x0 s Hs) as (s1 & -> & Hs1 & H1); [by rewrite Hss|].
    unfold mbind at 1, prog_bind at 1. destruct (check_run now 1 x1 s1 Hs1) as (s2 & -> & Hs2 & H2); [by rewrite H1, Hss|].
    unfold mbind at 1, prog_bind at 1. destruct (check_run now 2 x2 s2 Hs2) as (s3 & -> & Hs3 & H3); [by rewrite H2, H1, Hss|].
    eexists. split; [done|]. by rewrite H3, H2, H1, Hss.
Qed.
End service.
