(* ===== verification/LanApp.v ===== *)
(** * An app in the local network

    What the service of Lan does with the frames an app sends that has the local key: how a frame that
    was received reaches its handler, the handshake, and a command; and what it does with frames that no
    app would send. *)
From S2P Require Import Prelude StateM Protocol Lan.

Section app.
Context {J : Type} `{GcmLaws} `{MacLaws}.
Implicit Types (s : lan_mgr_t J) (x : lan_session_t).
Context (e : lan_env J) (e_malloc : serves (le_malloc e) 4096) (e_send : forall fd b, exists again, le_send e fd b = (zlen b, again)).

Notation process := (lan_protocol_process (le_malloc e) (le_random e) (le_send e) (le_resend e) (le_json e) (le_dump e)).
Notation step := (frame_step (le_malloc e) (le_random e) (le_send e) (le_resend e) (le_json e) (le_dump e)).
Notation loop := (frame_loop (le_malloc e) (le_random e) (le_send e) (le_resend e) (le_json e) (le_dump e)).
Notation send := (lan_send (le_malloc e) (le_random e) (le_send e) (le_resend e)).

Lemma bind_step_eq {A B} (m m' : prog (lan_mgr_t J) A) (k : A -> prog (lan_mgr_t J) B) s s' :
  m s = m' s' -> (m ≫= k) s = (m' ≫= k) s'.
Proof. intros Hm. unfold mbind, prog_bind. by rewrite Hm. Qed.

Lemma get_session_bind {B} i x (k : lan_session_t -> prog (lan_mgr_t J) B) s :
  zget (sessions s) i = Some x -> (get_session i ≫= k) s = k x s.
Proof. intros Hx. apply bind_step. unfold get_session, mbind, prog_bind, gets, lift. by rewrite Hx. Qed.

Definition session_set (i : Z) x s : lan_mgr_t J := set_sessions (fd_num s) (<[Z.to_nat i := x]> (sessions s)) s.

Lemma put_session_eq i x y s : zget (sessions s) i = Some x -> put_session i y s = Some (tt, session_set i y s).
Proof.
  intros Hx. pose proof (zget_inv _ _ _ Hx). unfold put_session, mbind, prog_bind, gets, lift, modify, zset.
  by rewrite bool_decide_true.
Qed.

Lemma put_session_bind {B} i x y (k : unit -> prog (lan_mgr_t J) B) s :
  zget (sessions s) i = Some x -> (put_session i y ≫= k) s = k tt (session_set i y s).
Proof. intros Hx. apply bind_step. by apply (put_session_eq i x). Qed.

Lemma session_set_get i x y s : zget (sessions s) i = Some x -> zget (sessions (session_set i y s)) i = Some y.
Proof. intros Hx. cbn. rewrite zget_insert by (by eapply zget_inv). by rewrite bool_decide_true. Qed.

Lemma session_set_set i x y s : session_set i y (session_set i x s) = session_set i y s.
Proof. unfold session_set. cbn. by rewrite list_insert_insert_eq. Qed.

(** ** Sending *)
Definition key_of (localkey : bytes) x : bytes := if bool_decide (zget (secret_key x) 0 <> Some 0) then secret_key x else localkey.

Lemma send_run i t c data x k s :
  zget (sessions s) i = Some x -> active x = true -> fault x = false -> lan_activated s = true -> 0 < zlen (secret_key x) ->
  mread (key_of (lan_localkey s) x) 0 16 = Some k -> zlen data <= 4000 ->
  send i t c data s = Some (OPRT_OK,
    add_event (L_sent (s_fd x) (frame_text k (lpv35_nonce (fun j => le_random e (draws s + j))) (sequence_out x) t (le32 c ++ data)))
      (add_draws 12 (session_set i (next_out x) s))).
Proof.
  intros Hx Ha Hf Hact Hkl Hk Hd. pose proof (zlen_nonneg data). unfold lan_send.
  rewrite (get_session_bind i x) by done. rewrite Ha, Hf. cbn [negb]. rewrite !gets_bind, Hact. cbn [negb].
  destruct (zget_is_Some (secret_key x) 0) as [k0 Hk0]; [lia|]. rewrite (lift_bind _ _ _ _ Hk0). cbv zeta.
  set (key := if bool_decide (k0 <> 0) then secret_key x else lan_localkey s). assert (Hkey : mread key 0 16 = Some k).
  { rewrite <- Hk. unfold key, key_of. rewrite Hk0. f_equal. repeat case_bool_decide; congruence. }
  set (p := le32 c ++ data). assert (Hp : zlen p = 4 + zlen data) by (unfold p; by rewrite zlen_app).
  destruct (e_malloc (zlen p)) as (b & -> & _); [lia|]. rewrite (put_session_bind i x) by done.
  set (f := Frame _ _ _ _). assert (Hsz : lpv35_frame_buffer_size_get f = 50 + zlen p).
  { unfold lpv35_frame_buffer_size_get. cbn [f_data_len f].
    unfold LPV35_FRAME_HEAD_SIZE, LPV35_AD_SIZE, LPV35_FRAME_NONCE_SIZE, LPV35_FRAME_TAG_SIZE, LPV35_FRAME_TAIL_SIZE.
    wraps. rewrite swrap_small by (unfold in_s; lia). lia. }
  destruct (e_malloc (lpv35_frame_buffer_size_get f)) as (b' & -> & Hb'); [lia|].
  unfold draw_random. rewrite bind_bind, gets_bind, bind_bind, modify_bind, ret_bind.
  rewrite (lift_bind _ _ _ _ (serialize_ok (le_malloc e) key k 4096 _ _ p _ _ e_malloc Hkey ltac:(lia) ltac:(lia)
    ltac:(unfold zlen at 1; rewrite length_replicate; exact Hb'))).
  change (bool_decide (OPRT_OK <> OPRT_OK)) with false. cbv iota. cbn [draws session_set set_sessions].
  set (text := frame_text _ _ _ _ _). assert (Ht : zlen text = 50 + zlen p) by (unfold text; apply frame_text_len; by apply zlen_seqZ_fmap).
  assert (Htake : take (Z.to_nat (50 + zlen p)) text = text) by (apply take_ge; unfold zlen in *; lia). rewrite Htake.
  unfold lan_transmit, log. rewrite modify_bind. destruct (e_send (s_fd x) text) as [again ->].
  pose proof (zlen_nonneg p). rewrite bool_decide_false by lia. done.
Qed.

(** ** The handshake *)
Notation type3 := (process_type3 (le_malloc e) (le_random e) (le_send e) (le_resend e)).

Definition randB_of s : bytes := uni_random_string (fun j => le_random e (draws s + j)) RAND_LEN.
Definition hash s (m : bytes) : bytes := tal_sha256_mac (c_string (lan_localkey s)) m.

(** The answer to the random number [a]. *)
Definition answer k a x s : bytes :=
  frame_text k (lpv35_nonce (fun j => le_random e (draws s + RAND_LEN + j))) (sequence_out x) FRM_SECURITY_TYPE4
    (le32 0 ++ randB_of s ++ hash s a).

Lemma type3_run i q t a x k s :
  zget (sessions s) i = Some x -> active x = true -> fault x = false -> lan_activated s = true -> zget (secret_key x) 0 = Some 0 ->
  mread (lan_localkey s) 0 16 = Some k -> zlen a = 16 ->
  type3 i (Frame q t (Some (a ++ [0])) 16) s = Some (tt,
    add_event (L_sent (s_fd x) (answer k a x s))
      (add_draws 12 (session_set i (next_out (with_rands a (randB_of s) (hash s a) x)) (add_draws RAND_LEN s)))).
Proof.
  intros Hx Hac Hf Hact Hz Hk Ha. unfold process_type3. cbn [f_data_len f_data default]. change (bool_decide (16 < RAND_LEN)) with false. cbv iota.
  rewrite (lift_bind _ a) by (apply (mread_middle [] a [0]); [done|by rewrite Ha]). rewrite gets_bind. cbv zeta.
  unfold draw_random. rewrite bind_bind, gets_bind, bind_bind, modify_bind, ret_bind.
  fold (randB_of s). fold (hash s a). rewrite (get_session_bind i x) by done. rewrite (put_session_bind i x) by done.
  destruct (e_malloc (RAND_LEN + HMAC_LEN)) as (b & -> & _); [unfold RAND_LEN, HMAC_LEN; lia|].
  set (y := with_rands _ _ _ x). set (s1 := session_set i y (add_draws RAND_LEN s)).
  rewrite (bind_step _ _ s1 _ _ (send_run i FRM_SECURITY_TYPE4 0 (randB_of s ++ hash s a) y k s1
    (session_set_get i x y (add_draws RAND_LEN s) Hx) Hac Hf Hact ltac:(cbn; apply zget_inv in Hz; lia)
    ltac:(unfold key_of; cbn; rewrite bool_decide_false by naive_solver; exact Hk)
    ltac:(rewrite zlen_app; unfold randB_of, hash; rewrite tal_sha256_mac_len, zlen_uni_random_string by done; unfold RAND_LEN; lia))).
  unfold s1, mret, prog_ret. rewrite session_set_set. done.
Qed.

(** The key of the session. *)
Definition session_key k x : bytes := take 16 (gcm_seal k (take 12 (randA x)) [] (xor_bytes (randA x) (randB x))).

Lemma type5_run i q t x k s :
  zget (sessions s) i = Some x -> session_wf x -> mread (lan_localkey s) 0 16 = Some k ->
  process_type5 (le_malloc e) i (Frame q t (Some (hash s (randB x) ++ [0])) 32) s = Some (tt,
    session_set i (with_secret_key (session_key k x) (with_rands (randA x) (randB x) (hash s (randB x)) x))
      (add_event (L_proved i (lan_localkey s) (randB x) (hash s (randB x))) s)).
Proof.
  intros Hx Hw Hk. set (h := hash s (randB x)). assert (Hh : zlen h = 32) by apply tal_sha256_mac_len.
  set (y := with_rands (randA x) (randB x) h x). assert (Hxl : zlen (xor_bytes (randA x) (randB x)) = 16) by (rewrite zlen_xor_bytes; destruct Hw; lia).
  unfold process_type5. cbn [f_data_len f_data default]. change (bool_decide (32 < HMAC_LEN)) with false. cbv iota.
  rewrite (get_session_bind i x) by done. rewrite gets_bind. cbv zeta. fold (hash s (randB x)). fold h. fold y. rewrite (put_session_bind i x) by done.
  rewrite (lift_bind _ h) by (apply (mread_middle [] h [0]); [done|by rewrite Hh]). rewrite bool_decide_false by naive_solver.
  unfold log. rewrite modify_bind. set (s1 := add_event _ _).
  assert (Hx1 : zget (sessions s1) i = Some y) by (by apply (session_set_get i x)). rewrite (put_session_bind i y) by done.
  destruct (encrypt_wrapper_ok (le_malloc e) (lan_localkey s) k 4096 (take 12 (randA x)) [] (xor_bytes (randA x) (randB x)) e_malloc Hk ltac:(lia))
    as (c & tag & Hseal & Hc & Ht & Hrun).
  rewrite (lift_bind _ _ _ _ Hrun). rewrite (lift_bind _ c) by (apply mwrite_full; lia).
  rewrite (put_session_bind i (with_secret_key (xor_bytes (randA x) (randB x)) y)) by (by apply (session_set_get i y)).
  change (bool_decide (OPRT_OK <> OPRT_OK)) with false. cbv iota. unfold mret, prog_ret. do 2 f_equal.
  assert (Hck : c = session_key k x).
  { unfold session_key. rewrite Hseal. rewrite take_app_le by (unfold zlen in *; lia). rewrite take_ge by (unfold zlen in *; lia). done. }
  rewrite session_set_set, <- Hck. unfold s1. unfold session_set, add_event, set_sessions. cbn. by rewrite list_insert_insert_eq.
Qed.

(** ** Receiving

    The state in which a received frame is looked at. *)
Definition received i q x (text : bytes) s : lan_mgr_t J :=
  session_set i (with_seq q x) (set_recv 0 (text ++ drop (length text) (recv_buf s)) s).

Notation handle := (frame_handle (le_malloc e) (le_random e) (le_send e) (le_resend e) (le_json e) (le_dump e)).
Lemma handle_run i off key k q t nonce data tail now s s2 :
  frame_key i t s = Some (Some key, s2) -> mread key 0 16 = Some k -> in_u 32 q -> in_u 32 t -> t <> FRM_TP_HB -> zlen nonce = 12 -> zlen data <= 4000 ->
  off + zlen data < 2 ^ 32 - 50 -> 0 <= off ->
  handle i off None (frame_text k nonce q t data ++ tail) (50 + zlen data) now s =
    (lan_session_time_update i now;; process i (Frame q t (Some (data ++ [0])) (zlen data));; mret (Next (off + (50 + zlen data)) None)) s2.
Proof.
  intros Hkey Hk Hq Ht Hhb Hn Hd Ho Ho0. change (2 ^ 32) with 4294967296 in Ho. pose proof (zlen_nonneg data). unfold frame_handle.
  assert (Htp : get32 (frame_text k nonce q t data ++ tail) 10 = Some t).
  { unfold frame_text, additional_data. rewrite <- !app_assoc.
    by apply (get32_middle (LPV35_FRAME_HEAD ++ [0; 0] ++ be32 q)). }
  rewrite (lift_bind _ _ _ _ Htp). rewrite (bind_step _ _ _ _ _ Hkey). rewrite bool_decide_false by done.
  assert (Hi32 : i32 (50 + zlen data) = 50 + zlen data) by (apply swrap_small; unfold in_s; lia).
  rewrite (lift_bind _ (OPRT_OK, Frame q t (Some (data ++ [0])) (zlen data))).
  2: { rewrite Hi32. apply (parse_ok _ key k 4096); try done; lia. }
  change (bool_decide (OPRT_OK <> OPRT_OK)) with false. cbv iota. by rewrite wrap_small by (unfold in_u; lia).
Qed.

Lemma step_run i x key k q t nonce data tail len rest now s s2 :
  zget (sessions s) i = Some x -> recv_buf s = frame_text k nonce q t data ++ tail -> 50 + zlen data <= len < 2 ^ 31 ->
  sequence_in x < q -> in_u 32 q -> in_u 32 t -> t <> FRM_TP_HB -> zlen nonce = 12 -> zlen data <= 4000 -> mread key 0 16 = Some k ->
  frame_key i t (session_set i (with_seq q x) s) = Some (Some key, s2) ->
  step i 0 len rest now s =
    (lan_session_time_update i now;; process i (Frame q t (Some (data ++ [0])) (zlen data));; mret (Next (50 + zlen data) None, len)) s2.
Proof.
  intros Hx Hb Hl Hseq Hq Ht Hhb Hn Hd Hk Hkey. pose proof (zlen_nonneg data). change (2 ^ 31) with 2147483648 in Hl.
  unfold frame_step. rewrite gets_bind, Hb. set (buf := _ ++ tail).
  assert (Hhd : mread buf 0 LPV35_FRAME_HEAD_SIZE = Some LPV35_FRAME_HEAD).
  { unfold buf, frame_text. rewrite <- !app_assoc. by apply (mread_middle [] LPV35_FRAME_HEAD). }
  assert (Hsq : get32 buf (0 + 6) = Some q).
  { unfold buf, frame_text, additional_data. rewrite <- !app_assoc. by apply (get32_middle (LPV35_FRAME_HEAD ++ [0; 0])). }
  assert (Hfl : get32 buf (0 + 14) = Some (zlen data + 28)).
  { unfold buf, frame_text, additional_data. rewrite <- !app_assoc.
    apply (get32_middle (LPV35_FRAME_HEAD ++ [0; 0] ++ be32 q ++ be32 t)); [done|unfold in_u; lia]. }
  rewrite (lift_bind _ _ _ _ Hhd). rewrite bool_decide_false by naive_solver.
  rewrite (lift_bind _ _ _ _ Hsq), (lift_bind _ _ _ _ Hfl), (get_session_bind i x) by done. rewrite bool_decide_false by lia.
  rewrite (put_session_bind i x) by done. cbv zeta. rewrite Z.sub_0_r. rewrite !wrap_small by (unfold in_u; lia). rewrite bool_decide_false by lia.
  change (drop (Z.to_nat 0) buf) with buf. replace (22 + (zlen data + 28)) with (50 + zlen data) by lia.
  unfold buf. rewrite (bind_step_eq _ _ _ _ _ (handle_run i 0 key k q t nonce data tail now _ s2 Hkey Hk Hq Ht Hhb Hn Hd ltac:(lia) ltac:(lia))).
  rewrite !bind_bind. unfold mbind, prog_bind. destruct (lan_session_time_update i now s2) as [[[] s3]|]; [|done]. by destruct (process i _ s3) as [[[] s4]|].
Qed.

Lemma loop_run i x key k q t nonce data tail n rest now s s2 :
  zget (sessions s) i = Some x -> recv_buf s = frame_text k nonce q t data ++ tail ->
  sequence_in x < q -> in_u 32 q -> in_u 32 t -> t <> FRM_TP_HB -> zlen nonce = 12 -> zlen data <= 4000 -> mread key 0 16 = Some k ->
  frame_key i t (session_set i (with_seq q x) s) = Some (Some key, s2) ->
  loop (S (S n)) i 0 (50 + zlen data) None rest now s =
    (lan_session_time_update i now;; process i (Frame q t (Some (data ++ [0])) (zlen data));; mret (50 + zlen data, 50 + zlen data, None)) s2.
Proof.
  intros Hx Hb Hseq Hq Ht Hhb Hn Hd Hk Hkey. pose proof (zlen_nonneg data). cbn [frame_loop].
  rewrite bool_decide_true by (unfold LPV35_FRAME_MINI_SIZE; lia). rewrite bool_decide_false by (by intros [? ?]). cbn [andb negb].
  rewrite (bind_step_eq _ _ _ _ _ (step_run i x key k q t nonce data tail (50 + zlen data) rest now s s2 Hx Hb ltac:(change (2 ^ 31) with 2147483648; lia) Hseq Hq Ht Hhb Hn Hd Hk Hkey)).
  unfold mbind, prog_bind. destruct (lan_session_time_update i now s2) as [[[] s3]|]; [|done]. destruct (process i _ s3) as [[[] s4]|]; [|done].
  unfold mret, prog_ret. by rewrite bool_decide_false by (unfold LPV35_FRAME_MINI_SIZE; lia).
Qed.

Notation read := (lan_tcp_client_sock_read (le_malloc e) (le_random e) (le_send e) (le_resend e) (le_json e) (le_dump e)).
(** The first data of a read, that fills the buffer from its start. *)
Lemma read_into fd rest i x data now s :
  lan_session_get_by_fd fd s = Some (Some i, s) -> zget (sessions s) i = Some x -> active x = true -> zlen (recv_buf s) = RECV_BUF_LMT ->
  0 < zlen data <= RECV_BUF_LMT ->
  read fd [data] rest now s =
    (if bool_decide (zlen data < LPV35_FRAME_MINI_SIZE) then mret tt
     else
       r ← loop (S (S (Z.to_nat (zlen data)))) i 0 (zlen data) None rest now;
       let '(offset, recv_datalen, tmp) := r in
       if bool_decide (is_Some tmp) then mret tt
       else if bool_decide (recv_datalen <> offset) then
         buf ← gets recv_buf;
         left ← lift (mread buf offset (recv_datalen - offset));
         buf ← lift (mwrite buf 0 left);
         modify (set_recv (recv_datalen - offset) buf);;
         lan_recv_loop (le_malloc e) (le_random e) (le_send e) (le_resend e) (le_json e) (le_dump e) i [] rest now
       else mret tt) (set_recv 0 (data ++ drop (length data) (recv_buf s)) s).
Proof.
  intros Hfd Hx Ha Hb Hd. unfold RECV_BUF_LMT in *. unfold lan_tcp_client_sock_read. rewrite (bind_step _ _ _ _ _ Hfd), (get_session_bind i x) by done.
  rewrite Ha. cbn [negb]. rewrite gets_bind, modify_bind. cbn [lan_recv_loop]. rewrite !gets_bind. cbn [recv_offset recv_buf set_recv]. cbv zeta.
  assert (Htk : take (Z.to_nat (RECV_BUF_LMT - 0)) data = data) by (apply take_ge; unfold RECV_BUF_LMT, zlen in *; lia). rewrite Htk.
  rewrite bool_decide_false by (intros E; rewrite E in Hd; change (zlen []) with 0 in Hd; lia).
  rewrite (lift_bind _ (data ++ drop (length data) (recv_buf s))).
  2: { change (recv_buf s) with ([] ++ recv_buf s) at 1. rewrite mwrite_next by (done || lia). by rewrite zlen_to_nat. }
  rewrite modify_bind. by rewrite Z.add_0_r.
Qed.

Lemma read_run fd rest i x key k q t nonce data now s s2 :
  lan_session_get_by_fd fd s = Some (Some i, s) -> zget (sessions s) i = Some x -> active x = true -> zlen (recv_buf s) = RECV_BUF_LMT ->
  sequence_in x < q -> in_u 32 q -> in_u 32 t -> t <> FRM_TP_HB -> zlen nonce = 12 -> zlen data <= 462 -> mread key 0 16 = Some k ->
  let text := frame_text k nonce q t data in
  frame_key i t (received i q x text s) = Some (Some key, s2) ->
  read fd [text] rest now s = (lan_session_time_update i now;; process i (Frame q t (Some (data ++ [0])) (zlen data))) s2.
Proof.
  intros Hfd Hx Ha Hb Hseq Hq Ht Hhb Hn Hd Hk text Hkey. pose proof (zlen_nonneg data).
  assert (Htl : zlen text = 50 + zlen data) by (by apply frame_text_len).
  rewrite (read_into fd rest i x text now s Hfd Hx Ha Hb) by (unfold RECV_BUF_LMT; lia).
  rewrite Htl. rewrite bool_decide_false by (unfold LPV35_FRAME_MINI_SIZE; lia).
  set (s0 := set_recv 0 _ s).
  rewrite (bind_step_eq _ _ _ _ _ (loop_run i x key k q t nonce data _ _ rest now s0 s2 Hx eq_refl Hseq Hq Ht Hhb Hn ltac:(lia) Hk Hkey)).
  unfold mbind, prog_bind. destruct (lan_session_time_update i now s2) as [[[] s3]|]; [|done]. destruct (process i _ s3) as [[[] s4]|]; [|done].
  unfold mret, prog_ret. cbv beta iota. rewrite (bool_decide_false (is_Some None)) by (by intros [? ?]). by rewrite bool_decide_false by naive_solver.
Qed.

Lemma zlen_overlay (d b : bytes) : zlen d <= zlen b -> zlen (d ++ drop (length d) b) = zlen b.
Proof. intros Hd. unfold zlen in *. rewrite length_app, length_drop. lia. Qed.

(** A session that works: [x] is session [i], for the connection [fd]. *)
Record linked (fd i : Z) x s : Prop := {
  ln_find : list_find (fun x => s_fd x = fd) (sessions s) = Some (Z.to_nat i, x); ln_i : 0 <= i;
  ln_active : active x = true; ln_fault : fault x = false; ln_wf : session_wf x;
  ln_num : fd_num s <> 0; ln_act : lan_activated s = true; ln_buf : zlen (recv_buf s) = RECV_BUF_LMT }.

Lemma linked_get fd i x s : linked fd i x s -> zget (sessions s) i = Some x.
Proof. intros []. apply list_find_Some in ln_find0 as (Hl & _ & _). unfold zget. by rewrite bool_decide_true. Qed.

Lemma linked_fd fd i x s : linked fd i x s -> s_fd x = fd.
Proof. intros []. by apply list_find_Some in ln_find0 as (_ & Hf & _). Qed.

Lemma linked_by_fd fd i x s : linked fd i x s -> lan_session_get_by_fd fd s = Some (Some i, s).
Proof. intros []. unfold lan_session_get_by_fd, mbind, prog_bind, gets, mret, prog_ret. rewrite ln_find0. cbn. by rewrite Z2Nat.id. Qed.

Lemma linked_set fd i x y s :
  linked fd i x s -> active y = active x -> fault y = fault x -> s_fd y = s_fd x -> session_wf y -> linked fd i y (session_set i y s).
Proof.
  intros Hl Ha Hf Hfd Hw. pose proof (linked_fd _ _ _ _ Hl) as Hx. destruct Hl. split; try done; [|congruence..]. cbn.
  apply list_find_Some in ln_find0 as (Hl & _ & Hn). apply list_find_Some. split_and!.
  - apply list_lookup_insert_eq. by eapply lookup_lt_Some.
  - congruence.
  - intros j z Hj Hlt. rewrite list_lookup_insert_ne in Hj by lia. by eapply Hn.
Qed.

(** The rest of the state may change. *)
Lemma linked_same fd i x s s' :
  linked fd i x s -> sessions s' = sessions s -> fd_num s' = fd_num s -> lan_activated s' = lan_activated s -> zlen (recv_buf s') = zlen (recv_buf s) ->
  linked fd i x s'.
Proof. intros [] H1' H2' H3' H4'. split; congruence. Qed.

Lemma time_run fd i now x s : linked fd i x s ->
  lan_session_time_update i now s = Some (tt, session_set i (set_time now x) s).
Proof.
  intros Hl. pose proof (linked_get _ _ _ _ Hl) as Hx. unfold lan_session_time_update. rewrite gets_bind, (get_session_bind i x) by done.
  fold (set_time now x). replace (bool_decide (fd_num s = 0) || negb (active x)) with false; [by apply (put_session_eq i x)|].
  rewrite bool_decide_false by apply Hl. by rewrite (ln_active _ _ _ _ Hl).
Qed.

Lemma received_linked fd i q x text s : linked fd i x s -> zlen text <= RECV_BUF_LMT -> linked fd i (with_seq q x) (received i q x text s).
Proof.
  intros Hl Ht. rewrite <- (ln_buf _ _ _ _ Hl) in Ht. pose proof (zlen_overlay text _ Ht) as Hb.
  apply (linked_set fd i x); [|done..|apply with_seq_kept, Hl].
  apply (linked_same fd i x s); try done.
Qed.

Definition handshake_type (t : Z) : Prop := t = FRM_SECURITY_TYPE3 \/ t = FRM_SECURITY_TYPE5.

Lemma handshake_key i t x s : zget (sessions s) i = Some x -> lan_activated s = true -> zget (secret_key x) 0 = Some 0 -> handshake_type t ->
  frame_key i t s = Some (Some (lan_localkey s), set_allow ALLOW_NO_KEY_NUM s).
Proof.
  intros Hx Ha Hz Ht. unfold frame_key. rewrite !gets_bind, (get_session_bind i x) by done. rewrite Ha. cbn [negb].
  rewrite (lift_bind _ _ _ _ Hz). rewrite bool_decide_true by (destruct Ht; tauto). by rewrite modify_bind.
Qed.

Lemma session_frame_key i t x s : zget (sessions s) i = Some x -> lan_activated s = true -> zlen (secret_key x) = 16 ->
  zget (secret_key x) 0 <> Some 0 -> t = FRM_TP_CMD \/ t = FRM_TP_NEW_CMD -> frame_key i t s = Some (Some (secret_key x), s).
Proof.
  intros Hx Ha Hl Hz Ht. unfold frame_key. rewrite !gets_bind, (get_session_bind i x) by done. rewrite Ha. cbn [negb].
  destruct (zget_is_Some (secret_key x) 0) as [k0 Hk0]; [lia|]. rewrite (lift_bind _ _ _ _ Hk0).
  rewrite bool_decide_false by (unfold FRM_SECURITY_TYPE3, FRM_SECURITY_TYPE4, FRM_SECURITY_TYPE5, FRM_TP_CMD, FRM_TP_NEW_CMD in *; lia).
  rewrite bool_decide_false by congruence. done.
Qed.

Lemma next_out_linked fd i x s : linked fd i x s -> linked fd i (next_out x) (session_set i (next_out x) s).
Proof. intros Hl. apply (linked_set fd i x); [done..|apply next_out_kept, Hl]. Qed.

(** A frame for which there is a key reaches its handler. *)
Lemma linked_read fd i x key k n q t data rest now s s2 :
  linked fd i x s -> sequence_in x < q -> in_u 32 q -> in_u 32 t -> t <> FRM_TP_HB -> zlen n = 12 -> zlen data <= 462 -> mread key 0 16 = Some k ->
  let x1 := with_seq q x in let text := frame_text k n q t data in
  (linked fd i x1 (received i q x text s) -> frame_key i t (received i q x text s) = Some (Some key, s2) /\ linked fd i x1 s2) ->
  let s3 := session_set i (set_time now x1) s2 in
  read fd [text] rest now s = process i (Frame q t (Some (data ++ [0])) (zlen data)) s3 /\ linked fd i (set_time now x1) s3.
Proof.
  intros Hl Hseq Hq Ht Hhb Hn Hd Hk x1 text Hkey s3.
  assert (Htl : zlen text <= RECV_BUF_LMT) by (unfold text; rewrite frame_text_len by done; unfold RECV_BUF_LMT; lia).
  destruct (Hkey (received_linked fd i q x text s Hl Htl)) as [Hfk Hl2]. split.
  - etransitivity; [apply (read_run fd rest i x key k q t n data now s s2 (linked_by_fd _ _ _ _ Hl) (linked_get _ _ _ _ Hl) (ln_active _ _ _ _ Hl) (ln_buf _ _ _ _ Hl)
      Hseq Hq Ht Hhb Hn Hd Hk Hfk)|].
    by rewrite (bind_step _ _ _ _ _ (time_run fd i now _ s2 Hl2)).
  - apply (linked_set fd i x1); [done..|]. destruct (ln_wf _ _ _ _ Hl). by split.
Qed.

(** The first frame of the handshake. *)
Lemma read_type3 fd i x k n q a rest now s :
  linked fd i x s -> zget (secret_key x) 0 = Some 0 -> mread (lan_localkey s) 0 16 = Some k ->
  sequence_in x < q -> in_u 32 q -> zlen n = 12 -> zlen a = 16 ->
  let x' := next_out (with_rands a (randB_of s) (hash s a) (set_time now (with_seq q x))) in
  exists s', read fd [frame_text k n q FRM_SECURITY_TYPE3 a] rest now s = Some (tt, s') /\ linked fd i x' s' /\
    lan_trace s' = lan_trace s ++ [L_sent fd (answer k a x s)] /\ lan_localkey s' = lan_localkey s.
Proof.
  intros Hl Hz Hk Hseq Hq Hn Ha x'. set (s1 := received i q x (frame_text k n q FRM_SECURITY_TYPE3 a) s).
  destruct (linked_read fd i x (lan_localkey s) k n q FRM_SECURITY_TYPE3 a rest now s (set_allow ALLOW_NO_KEY_NUM s1)) as [-> Hl3]; try done; [lia| |].
  { intros Hl1. split; [|by apply (linked_same fd i _ s1)]. apply (handshake_key i _ (with_seq q x) s1); [by eapply linked_get|apply Hl1|done|by left]. }
  set (s3 := session_set i _ _) in *. rewrite Ha. change (process i ?f s3) with (type3 i f s3).
  rewrite (type3_run i q _ a _ k s3 (linked_get _ _ _ _ Hl3) (ln_active _ _ _ _ Hl3) (ln_fault _ _ _ _ Hl3) (ln_act _ _ _ _ Hl3) Hz Hk Ha).
  eexists. split; [done|]. split; [|split].
  - apply (linked_same fd i x' (session_set i x' s3)); try done. apply (linked_set fd i _ x' s3 Hl3); [done..|].
    apply next_out_kept. destruct (ln_wf _ _ _ _ Hl). split; try done. apply tal_sha256_mac_len.
  - cbn. by rewrite (linked_fd _ _ _ _ Hl).
  - done.
Qed.

(** The second. *)
Lemma read_type5 fd i x k n q rest now s :
  linked fd i x s -> zget (secret_key x) 0 = Some 0 -> mread (lan_localkey s) 0 16 = Some k ->
  sequence_in x < q -> in_u 32 q -> zlen n = 12 ->
  let x' := with_secret_key (session_key k x) (with_rands (randA x) (randB x) (hash s (randB x)) (set_time now (with_seq q x))) in
  exists s', read fd [frame_text k n q FRM_SECURITY_TYPE5 (hash s (randB x))] rest now s = Some (tt, s') /\ linked fd i x' s' /\
    lan_trace s' = lan_trace s ++ [L_proved i (lan_localkey s) (randB x) (hash s (randB x))] /\ lan_localkey s' = lan_localkey s.
Proof.
  intros Hl Hz Hk Hseq Hq Hn x'. set (s1 := received i q x (frame_text k n q FRM_SECURITY_TYPE5 (hash s (randB x))) s).
  assert (Hh : zlen (hash s (randB x)) = 32) by apply tal_sha256_mac_len.
  destruct (linked_read fd i x (lan_localkey s) k n q FRM_SECURITY_TYPE5 (hash s (randB x)) rest now s (set_allow ALLOW_NO_KEY_NUM s1)) as [-> Hl3]; try done; [lia| |].
  { intros Hl1. split; [|by apply (linked_same fd i _ s1)]. apply (handshake_key i _ (with_seq q x) s1); [by eapply linked_get|apply Hl1|done|by right]. }
  set (s3 := session_set i _ _) in *. rewrite Hh. change (process i ?f s3) with (process_type5 (le_malloc e) i f s3).
  set (x3 := set_time now (with_seq q x)) in *. change (hash s (randB x)) with (hash s3 (randB x3)).
  rewrite (type5_run i q _ x3 k s3 (linked_get _ _ _ _ Hl3) (ln_wf _ _ _ _ Hl3) Hk).
  eexists. split; [done|]. split; [|done].
  apply (linked_set fd i x3 x' (add_event _ s3)); try done; [by apply (linked_same fd i x3 s3)|].
  destruct (ln_wf _ _ _ _ Hl). split; try done. cbn. unfold session_key.
  unfold zlen in *. rewrite length_take. pose proof (gcm_seal_len k (take 12 (randA x)) [] (xor_bytes (randA x) (randB x))) as Hg.
  pose proof (zlen_xor_bytes (randA x) (randB x)) as Hxl. unfold zlen in *. change (randA x3) with (randA x). change (randB x3) with (randB x). lia.
Qed.

(** ** Commands *)
Lemma get32_is_Some l o : 0 <= o -> o + 4 <= zlen l -> exists v, get32 l o = Some v.
Proof.
  intros Ho Hl. assert (Hz : forall j, 0 <= j < 4 -> exists b, zget l (o + j) = Some b) by (intros j Hj; apply zget_is_Some; lia).
  unfold get32. destruct (Hz 0 ltac:(lia)) as [? Hb]. rewrite Z.add_0_r in Hb. rewrite Hb. ub_step.
  destruct (Hz 1 ltac:(lia)) as [? ->]. destruct (Hz 2 ltac:(lia)) as [? ->]. destruct (Hz 3 ltac:(lia)) as [? ->]. eauto.
Qed.

Lemma parse_lan_ok localkey (head text : bytes) :
  zlen head = 15 -> zlen text <= 4000 ->
  tuya_parse_protocol_data (le_malloc e) DP_CMD_LAN (Some ((head ++ text) ++ [0])) (15 + zlen text) localkey = Some (OPRT_OK, Some (text ++ [0])).
Proof.
  intros Hh Ht. pose proof (zlen_nonneg text). unfold tuya_parse_protocol_data, DATA_OFFSET_22_32. rewrite bool_decide_false by lia.
  change (bool_decide (DP_CMD_LAN = DP_CMD_LAN)) with true. cbv iota. unfold __parse_data_with_lpv35.
  set (data := (head ++ text) ++ [0]). assert (Hdl : zlen data = 16 + zlen text) by (unfold data; rewrite !zlen_app, Hh; change (zlen [0]) with 1; lia).
  destruct (mread_is_Some data 0 PV_LEN_22_32) as [v ->]; [unfold PV_LEN_22_32; lia..|]. ub_step.
  unfold SEQ_OFFSET_22_32, CMD_FROM_OFFSET_22_32, DATA_OFFSET_22_32.
  destruct (get32_is_Some data 7) as [? ->]; [lia..|]. destruct (get32_is_Some data 11) as [? ->]; [lia..|]. ub_step.
  replace (15 + zlen text - 15) with (zlen text) by lia. wraps. destruct (e_malloc (zlen text + 1)) as (b & -> & Hb); [lia|].
  rewrite memcpy_mwrite by lia. unfold data. rewrite <- app_assoc.
  replace (drop (Z.to_nat 15) (head ++ text ++ [0])) with (text ++ [0]) by (rewrite <- Hh, zlen_to_nat; by rewrite drop_app_length).
  rewrite zlen_to_nat, take_app_length. change b with ([] ++ b). destruct (mwrite_step [] b text 0) as (r & -> & Hr); [done|lia|]. ub_step. cbn [app].
  rewrite zset_mwrite by (rewrite zlen_app; lia). rewrite mwrite_end by (heads; lia). done.
Qed.

Lemma cmd_run i q t head text d x k s :
  zget (sessions s) i = Some x -> active x = true -> fault x = false -> lan_activated s = true -> session_wf x ->
  zget (secret_key x) 0 <> Some 0 -> mread (secret_key x) 0 16 = Some k ->
  zlen head = 15 -> zlen text <= 4000 -> le_json e (c_string (text ++ [0])) = Dps d ->
  process_cmd (le_malloc e) (le_random e) (le_send e) (le_resend e) (le_json e) i (Frame q t (Some ((head ++ text) ++ [0])) (15 + zlen text)) s = Some (tt,
    add_event (L_sent (s_fd x) (frame_text k (lpv35_nonce (fun j => le_random e (draws s + j))) (sequence_out x) t (le32 1)))
      (add_draws 12 (session_set i (next_out x) (add_event (L_command i d) s)))).
Proof.
  intros Hx Ha Hf Hact Hw Hz Hk Hh Ht Hj. pose proof (zlen_nonneg text). unfold process_cmd. cbn [f_data f_data_len f_type]. rewrite gets_bind.
  rewrite (swrap_small 32) by (unfold in_s; lia). rewrite (lift_bind _ _ _ _ (parse_lan_ok (lan_localkey s) head text Hh Ht)).
  change (bool_decide (OPRT_OK <> OPRT_OK)) with false. cbv iota. rewrite Hj. unfold log. rewrite bind_bind, modify_bind, ret_bind.
  unfold send_text. cbn [default]. set (s1 := add_event _ s). erewrite bind_step; [done|].
  apply (send_run i t 1 [] x k s1); try done; [destruct Hw; lia|]. unfold key_of. by rewrite bool_decide_true.
Qed.

(** C6. An app that has the local key opens a session with two frames: its random number, and, when it
    has the service's number and the hash of its own from the answer, the hash of the service's number.
    The answer that goes out is the frame with these two, both sides can compute the key of the session
    from the two numbers and the local key, and the session stays in order. *)
Theorem lan_handshake fd i x k n1 n2 q1 q2 a rest now1 now2 s :
  linked fd i x s -> zget (secret_key x) 0 = Some 0 -> mread (lan_localkey s) 0 16 = Some k ->
  sequence_in x < q1 < q2 -> in_u 32 q1 -> in_u 32 q2 -> zlen n1 = 12 -> zlen n2 = 12 -> zlen a = 16 ->
  let b := randB_of s in
  exists s' x',
    lan_history [(e, O_read fd [frame_text k n1 q1 FRM_SECURITY_TYPE3 a] rest now1);
                 (e, O_read fd [frame_text k n2 q2 FRM_SECURITY_TYPE5 (hash s b)] rest now2)] s = Some (tt, s') /\
    lan_trace s' = lan_trace s ++
      [L_sent fd (frame_text k (lpv35_nonce (fun j => le_random e (draws s + RAND_LEN + j))) (sequence_out x) FRM_SECURITY_TYPE4
                   (le32 0 ++ b ++ hash s a));
       L_proved i (lan_localkey s) b (hash s b)] /\
    linked fd i x' s' /\ sequence_in x' = q2 /\ secret_key x' = take 16 (gcm_seal k (take 12 a) [] (xor_bytes a b)).
Proof.
  intros Hl Hz Hk Hseq Hq1 Hq2 Hn1 Hn2 Ha b.
  destruct (read_type3 fd i x k n1 q1 a rest now1 s Hl Hz Hk) as (s1 & Hr1 & Hl1 & Ht1 & Hk1); [lia|done..|].
  set (x1 := next_out _) in *. assert (Hh : hash s1 (randB x1) = hash s b) by (unfold hash; by rewrite Hk1).
  destruct (read_type5 fd i x1 k n2 q2 rest now2 s1 Hl1) as (s2 & Hr2 & Hl2 & Ht2 & Hk2); [done|by rewrite Hk1|cbn; lia|done..|].
  rewrite Hh in Hr2, Ht2. eexists s2, _. split; [|split; [|split; [exact Hl2|done]]].
  - unfold lan_history. cbn [for_each lan_run fst snd]. rewrite (bind_step _ _ _ _ _ Hr1), (bind_step _ _ _ _ _ Hr2). done.
  - by rewrite Ht2, Ht1, Hk1, <- app_assoc.
Qed.

(** C19. A frame under the key of the session with a packet whose text is a command delivers this
    command, once, is answered under the same key, and the session stays in order; nothing in the 15 bytes
    before the text matters. *)
Theorem lan_command_delivered fd i x k n q t head text d rest now s :
  linked fd i x s -> zget (secret_key x) 0 <> Some 0 -> mread (secret_key x) 0 16 = Some k ->
  sequence_in x < q -> in_u 32 q -> t = FRM_TP_CMD \/ t = FRM_TP_NEW_CMD -> zlen n = 12 ->
  zlen head = 15 -> zlen text <= 447 -> le_json e (c_string (text ++ [0])) = Dps d ->
  exists s' x',
    lan_run e (O_read fd [frame_text k n q t (head ++ text)] rest now) s = Some (tt, s') /\
    lan_trace s' = lan_trace s ++
      [L_command i d; L_sent fd (frame_text k (lpv35_nonce (fun j => le_random e (draws s + j))) (sequence_out x) t (le32 1))] /\
    linked fd i x' s' /\ sequence_in x' = q /\ secret_key x' = secret_key x.
Proof.
  intros Hl Hz Hk Hseq Hq Ht Hn Hh Htl Hj. pose proof (zlen_nonneg text). set (data := head ++ text).
  assert (Hdl : zlen data = 15 + zlen text) by (unfold data; rewrite zlen_app; lia).
  assert (Htu : in_u 32 t) by (destruct Ht as [-> | ->]; done). assert (Hhb : t <> FRM_TP_HB) by (destruct Ht as [-> | ->]; done).
  set (s1 := received i q x (frame_text k n q t data) s).
  destruct (linked_read fd i x (secret_key x) k n q t data rest now s s1) as [Hr Hl3]; try done; [lia| |].
  { intros Hl1. split; [|done]. by apply (session_frame_key i t (with_seq q x)); [eapply linked_get|apply Hl1|destruct (ln_wf _ _ _ _ Hl1)| |]. }
  set (s3 := session_set i _ _) in *. set (x3 := set_time now (with_seq q x)) in *. rewrite Hdl in Hr.
  cbn [lan_run]. rewrite Hr. unfold lan_protocol_process. cbn [f_type]. rewrite bool_decide_true by done.
  unfold data. rewrite (cmd_run i q t head text d x3 k s3 (linked_get _ _ _ _ Hl3) (ln_active _ _ _ _ Hl3) (ln_fault _ _ _ _ Hl3) (ln_act _ _ _ _ Hl3) (ln_wf _ _ _ _ Hl3) Hz Hk Hh)
    by (done || lia).
  eexists _, (next_out x3). split; [done|]. split; [|split; [|done]].
  - cbn. by rewrite <- app_assoc, (linked_fd _ _ _ _ Hl).
  - apply (linked_same fd i _ (session_set i (next_out x3) s3)); try done. by apply next_out_linked.
Qed.

(** ** Frames that no app sends *)

(** The memory a datagram is in. *)
Lemma udp_buffer key n data addr_of s :
  zlen (recv_buf s) = RECV_BUF_LMT -> zlen data <= RECV_BUF_LMT ->
  let buf := data ++ replicate (Z.to_nat (RECV_BUF_LMT - zlen data)) 0 in
  __udp_serv_is_in_packet_vaild buf (zlen data) = None ->
  lan_udp_serv_sock_read (le_malloc e) (le_random e) key n (Some data) addr_of s = None.
Proof.
  intros Hb Hd buf Hv. pose proof (zlen_nonneg data). unfold RECV_BUF_LMT in *. unfold lan_udp_serv_sock_read. rewrite !gets_bind. cbv zeta.
  assert (Htk : take (Z.to_nat RECV_BUF_LMT) data = data) by (apply take_ge; unfold RECV_BUF_LMT, zlen in *; lia). rewrite Htk.
  rewrite (lift_bind _ buf).
  2: { replace (length (recv_buf s)) with (Z.to_nat 512) by (rewrite <- Hb, zlen_to_nat; done). rewrite mwrite_zeros by lia. done. }
  rewrite modify_bind. unfold mbind, prog_bind, lift. by rewrite Hv.
Qed.

(** One datagram, from anybody, with the head of a frame and a length that leads out of the receive
    buffer makes the service look for the tail outside of it, before any key is used. *)
Theorem lan_datagram_overread key n (v r q t len : Z) y addr_of s :
  lan_reachable s -> 490 < len < 2 ^ 32 -> 32 <= zlen y <= RECV_BUF_LMT - 18 ->
  lan_run e (O_udp_read key n (Some (LPV35_FRAME_HEAD ++ [v; r] ++ be32 q ++ be32 t ++ be32 len ++ y)) addr_of) s = None.
Proof.
  intros Hs%reachable_ok Hlen Hy. change (2 ^ 32) with 4294967296 in Hlen. unfold RECV_BUF_LMT in Hy. set (data := LPV35_FRAME_HEAD ++ _).
  assert (Hd : zlen data = 18 + zlen y) by (unfold data; rewrite !zlen_app; heads; change (zlen [v; r]) with 2; lia).
  cbn [lan_run]. apply udp_buffer; [apply (lo_buf _ Hs)|unfold RECV_BUF_LMT; lia|].
  set (z := replicate _ 0). assert (Hz : zlen z = 512 - zlen data) by (unfold z, RECV_BUF_LMT, zlen at 1; rewrite length_replicate; lia).
  unfold __udp_serv_is_in_packet_vaild. rewrite wrap_small by (unfold in_u; lia).
  rewrite bool_decide_false by (unfold LPV35_FRAME_MINI_SIZE; lia).
  assert (Hhd : mread (data ++ z) 0 LPV35_FRAME_HEAD_SIZE = Some LPV35_FRAME_HEAD) by (unfold data; rewrite <- !app_assoc; by apply (mread_middle [] LPV35_FRAME_HEAD)).
  assert (Hfl : get32 (data ++ z) 14 = Some len).
  { unfold data. rewrite <- !app_assoc. apply (get32_middle (LPV35_FRAME_HEAD ++ [v; r] ++ be32 q ++ be32 t)); [done|unfold in_u; lia]. }
  rewrite Hhd. ub_step. rewrite (bool_decide_false (LPV35_FRAME_HEAD <> LPV35_FRAME_HEAD)) by (intros E; by apply E). rewrite Hfl. ub_step.
  unfold mread, LPV35_FRAME_TAIL_SIZE. rewrite bool_decide_false by (rewrite zlen_app; lia). done.
Qed.

Lemma loop_ub n i len rest now s :
  LPV35_FRAME_MINI_SIZE <= len -> step i 0 len rest now s = None -> loop (S n) i 0 len None rest now s = None.
Proof.
  intros Hlen Hs. cbn [frame_loop]. rewrite bool_decide_true by lia. rewrite bool_decide_false by (by intros [? ?]). cbn [andb negb].
  unfold mbind, prog_bind. by rewrite Hs.
Qed.

(** A frame of the handshake that announces 27 bytes. *)
Definition short_frame (v r q : Z) (y : bytes) : bytes :=
  LPV35_FRAME_HEAD ++ [v; r] ++ be32 q ++ be32 FRM_SECURITY_TYPE3 ++ be32 27 ++ y ++ LPV35_FRAME_TAIL.

Lemma short_step fd i x v r q y tail rest now s :
  linked fd i x s -> zget (secret_key x) 0 = Some 0 -> sequence_in x < q -> in_u 32 q -> zlen y = 27 ->
  recv_buf s = short_frame v r q y ++ tail -> zlen tail < 2 ^ 31 ->
  step i 0 50 rest now s = None.
Proof.
  intros Hl Hz Hseq Hq Hy Hb Ht. pose proof (linked_get _ _ _ _ Hl) as Hx. unfold frame_step. rewrite gets_bind, Hb. unfold short_frame. rewrite <- !app_assoc.
  set (buf := LPV35_FRAME_HEAD ++ _).
  assert (Hhd : mread buf 0 LPV35_FRAME_HEAD_SIZE = Some LPV35_FRAME_HEAD) by (by apply (mread_middle [] LPV35_FRAME_HEAD)).
  assert (Hsq : get32 buf (0 + 6) = Some q) by (by apply (get32_middle (LPV35_FRAME_HEAD ++ [v; r]))).
  assert (Htp : get32 buf 10 = Some FRM_SECURITY_TYPE3) by (by apply (get32_middle (LPV35_FRAME_HEAD ++ [v; r] ++ be32 q))).
  assert (Hfl : get32 buf (0 + 14) = Some 27) by (by apply (get32_middle (LPV35_FRAME_HEAD ++ [v; r] ++ be32 q ++ be32 FRM_SECURITY_TYPE3))).
  rewrite (lift_bind _ _ _ _ Hhd). rewrite bool_decide_false by naive_solver.
  rewrite (lift_bind _ _ _ _ Hsq), (lift_bind _ _ _ _ Hfl), (get_session_bind i x) by done. rewrite bool_decide_false by lia.
  rewrite (put_session_bind i x) by done. cbv zeta. change (bool_decide (u32 (22 + 27) > u32 (50 - 0))) with false. cbv iota.
  change (drop (Z.to_nat 0) buf) with buf. change (u32 (22 + 27)) with 49. unfold frame_handle.
  assert (Hl1 : linked fd i (with_seq q x) (session_set i (with_seq q x) s)) by (apply (linked_set fd i x); [done..|apply with_seq_kept, Hl]).
  set (s1 := session_set _ _ s) in *. unfold mbind at 1, prog_bind at 1.
  rewrite (lift_bind _ _ _ _ Htp). rewrite (bind_step _ _ _ _ _ (handshake_key i _ (with_seq q x) s1 (linked_get _ _ _ _ Hl1) (ln_act _ _ _ _ Hl1) Hz ltac:(by left))).
  change (bool_decide (FRM_SECURITY_TYPE3 = FRM_TP_HB)) with false. cbv iota. unfold mbind at 1, prog_bind at 1, lift at 1.
  change (i32 49) with 49. unfold buf, SESSIONKEY_LEN.
  rewrite (parse_underflow (le_malloc e) _ v r q FRM_SECURITY_TYPE3 y tail) by (try done; destruct (e_malloc 0 ltac:(lia)) as (m & -> & _); by exists m).
  done.
Qed.

(** C38. One segment of 50 bytes on a connection that was just opened, without any knowledge of the local
    key, makes the service read 4 GB of ciphertext outside of its buffer. *)
Theorem lan_segment_overread fd i x (v r z : Z) q y rest now s :
  linked fd i x s -> zget (secret_key x) 0 = Some 0 -> sequence_in x < q -> in_u 32 q -> zlen y = 27 ->
  lan_run e (O_read fd [short_frame v r q y ++ [z]] rest now) s = None.
Proof.
  intros Hl Hz Hseq Hq Hy. set (data := short_frame v r q y ++ [z]). pose proof (ln_buf _ _ _ _ Hl) as Hb. unfold RECV_BUF_LMT in Hb.
  assert (Hd : zlen data = 50) by (unfold data, short_frame; rewrite !zlen_app; heads; change (zlen [v; r]) with 2; lia).
  cbn [lan_run]. rewrite (read_into fd rest i x data now s (linked_by_fd _ _ _ _ Hl) (linked_get _ _ _ _ Hl) (ln_active _ _ _ _ Hl) (ln_buf _ _ _ _ Hl))
    by (rewrite Hd; done). set (s0 := set_recv 0 _ s). rewrite Hd. change (bool_decide (50 < LPV35_FRAME_MINI_SIZE)) with false. cbv iota.
  unfold mbind at 1, prog_bind at 1. rewrite loop_ub; [done|done|].
  apply (short_step fd i x v r q y ([z] ++ drop (length data) (recv_buf s))); try done.
  - apply (linked_same fd i x s); try done. apply zlen_overlay. lia.
  - cbn. unfold data. by rewrite <- app_assoc.
  - change (2 ^ 31) with 2147483648. unfold zlen in *. rewrite length_app, length_drop. cbn. lia.
Qed.

(** A frame, or anything else, that comes in pieces of fewer than 50 bytes, as TCP may deliver it, is
    lost: each piece is taken for a new start, nothing happens and nothing is remembered. *)
Theorem lan_pieces_lost fd i x (pieces : list bytes) rest now s :
  linked fd i x s -> Forall (fun p => 0 < zlen p < LPV35_FRAME_MINI_SIZE) pieces ->
  exists s', lan_history ((fun p => (e, O_read fd [p] rest now)) <$> pieces) s = Some (tt, s') /\
    sessions s' = sessions s /\ lan_trace s' = lan_trace s.
Proof.
  revert s. induction pieces as [|p pieces IH]; intros s Hl Hp; [by eexists|]. apply Forall_cons in Hp as [Hp Hps].
  unfold LPV35_FRAME_MINI_SIZE in Hp. set (s1 := set_recv 0 (p ++ drop (length p) (recv_buf s)) s).
  assert (Hl1 : linked fd i x s1).
  { apply (linked_same fd i x s); try done. apply zlen_overlay. rewrite (ln_buf _ _ _ _ Hl). unfold RECV_BUF_LMT. lia. }
  destruct (IH s1 Hl1 Hps) as (s' & Hr & Hs & Ht). exists s'. split; [|done].
  unfold lan_history in *. cbn [fmap list_fmap for_each fst snd lan_run]. rewrite (bind_step _ _ _ tt s1); [done|].
  rewrite (read_into fd rest i x p now s (linked_by_fd _ _ _ _ Hl) (linked_get _ _ _ _ Hl) (ln_active _ _ _ _ Hl) (ln_buf _ _ _ _ Hl))
    by (unfold RECV_BUF_LMT; lia). by rewrite bool_decide_true by (unfold LPV35_FRAME_MINI_SIZE; lia).
Qed.
End app.

(** ** A run, for the witnesses *)

(** A hash with the right length. *)
#[export] Instance sum_mac : Mac := {
  tal_sha256_mac k m := replicate 32 (foldr Z.add 0 (k ++ m) `mod` 256) }.
#[export] Instance sum_mac_laws : MacLaws.
Proof. split. intros k m. reflexivity. Defined.

Definition demo_env : lan_env bytes := LanEnv bytes demo_malloc (fun j => 37 * j + 11) (fun _ b => (zlen b, false)) (fun _ b => zlen b)
  (fun b => if bool_decide (b = c_str "{}") then Dps b else NotJson) None.
Definition demo_sockets : lan_init_env := InitEnv 0 0 0 true 3 0 4 0.

Definition after (l : list (lan_env bytes * lan_op)) : lan_mgr_t bytes :=
  default (lan_fresh true demo_key)
    (s ← tuya_lan_init None true demo_sockets true demo_key; s ← snd s; r ← lan_history l s; Some (snd r)).
Definition demo_open : list (lan_env bytes * lan_op) := [(demo_env, O_accept 5 100 0)].
Definition demo_nonce : bytes := replicate 12 9.
Definition demo_a : bytes := replicate 16 66.
Definition no_rest (n : Z) : option bytes := None.
Definition demo_handshake : list (lan_env bytes * lan_op) :=
  let s := after demo_open in
  [(demo_env, O_read 5 [frame_text demo_key demo_nonce 1 FRM_SECURITY_TYPE3 demo_a] no_rest 101);
   (demo_env, O_read 5 [frame_text demo_key demo_nonce 2 FRM_SECURITY_TYPE5 (hash s (randB_of demo_env s))] no_rest 102)].
Definition demo_session (l : list (lan_env bytes * lan_op)) : lan_session_t := default (session_zero 0) (zget (sessions (after l)) 0).
Definition demo_command : list (lan_env bytes * lan_op) :=
  let k := secret_key (demo_session (demo_open ++ demo_handshake)) in
  [(demo_env, O_read 5 [frame_text k demo_nonce 3 FRM_TP_NEW_CMD (replicate 15 0 ++ c_str "{}")] no_rest 103)].
Definition demo_all : list (lan_env bytes * lan_op) := demo_open ++ demo_handshake ++ demo_command.

Lemma after_reachable l : is_Some (s ← tuya_lan_init None true demo_sockets true demo_key; s ← snd s; r ← lan_history l s; Some (snd r)) -> lan_reachable (after l).
Proof.
  intros [s Hs]. unfold after. rewrite Hs. cbn [default]. destruct (tuya_lan_init _ _ _ _ _) as [[rt [s0|]]|] eqn:Hi; try done.
  unfold mbind, option_bind in Hs. cbv beta iota in Hs. cbn [snd] in Hs. destruct (lan_history l s0) as [[[] s1]|] eqn:Hr; [|done]. injection Hs as <-.
  by exists demo_sockets, true, demo_key, l, rt, s0.
Qed.

Lemma demo_send fd b : exists again, le_send demo_env fd b = (zlen b, again).
Proof. by eexists. Qed.

Lemma demo_linked : linked 5 0 (demo_session demo_open) (after demo_open).
Proof. split; [vm_compute; reflexivity|lia|done|done|split; try done; by vm_compute|by vm_compute|done|done]. Qed.

Lemma demo_proved : linked 5 0 (demo_session (demo_open ++ demo_handshake)) (after (demo_open ++ demo_handshake)).
Proof. split; [vm_compute; reflexivity|lia|by vm_compute|by vm_compute|split; by vm_compute|by vm_compute|by vm_compute|by vm_compute]. Qed.

Lemma lan_commands_authenticated_witness :
  let s := after demo_all in
  exists pre d post, lan_trace s = pre ++ L_command 0 d :: post /\
    exists a k r b, pre = a ++ L_proved 0 k r (tal_sha256_mac (c_string k) r) :: b /\ forall fd, L_opened 0 fd ∉ b /\ L_closed 0 fd ∉ b.
Proof.
  destruct (lan_commands_authenticated (after demo_all)) as (_ & _ & Hc); [apply after_reachable; eexists; vm_compute; reflexivity|].
  exists (take 3 (lan_trace (after demo_all))), (c_str "{}"), (drop 4 (lan_trace (after demo_all))).
  assert (Ht : lan_trace (after demo_all) = take 3 (lan_trace (after demo_all)) ++ L_command 0 (c_str "{}") :: drop 4 (lan_trace (after demo_all)))
    by (vm_compute; reflexivity).
  split; [exact Ht|exact (Hc _ _ _ _ Ht)].
Defined.

Lemma lan_sessions_expire_witness :
  exists s', lan_tcp_serv_sock_pre_select 130 (after demo_open) = Some (tt, s') /\ sessions s' = expire 130 <$> sessions (after demo_open).
Proof. apply (lan_sessions_expire 130 (after demo_open)); [apply after_reachable; eexists; vm_compute; reflexivity|by vm_compute]. Defined.

Lemma lan_handshake_witness :
  exists s' x', lan_history demo_handshake (after demo_open) = Some (tt, s') /\ linked 5 0 x' s' /\ sequence_in x' = 2.
Proof.
  destruct (lan_handshake demo_env demo_malloc_serves demo_send 5 0 (demo_session demo_open) demo_key demo_nonce demo_nonce 1 2 demo_a no_rest 101 102 (after demo_open))
    as (s' & x' & Hr & _ & Hl & Hq & _); [exact demo_linked|by vm_compute..|].
  exists s', x'. split; [exact Hr|by split].
Defined.

Lemma lan_command_delivered_witness :
  exists s', lan_history demo_command (after (demo_open ++ demo_handshake)) = Some (tt, s') /\ L_command 0 (c_str "{}") ∈ lan_trace s'.
Proof.
  destruct (lan_command_delivered demo_env demo_malloc_serves demo_send 5 0 (demo_session (demo_open ++ demo_handshake))
    (secret_key (demo_session (demo_open ++ demo_handshake))) demo_nonce 3 FRM_TP_NEW_CMD (replicate 15 0) (c_str "{}") (c_str "{}") no_rest 103
    (after (demo_open ++ demo_handshake))) as (s' & x' & Hr & Ht & _);
    [exact demo_proved|by vm_compute|by vm_compute|by vm_compute|by vm_compute|by right|by vm_compute..|].
  exists s'. split; [|rewrite Ht; apply elem_of_app; right; left]. unfold lan_history, demo_command. cbn [for_each fst snd]. by rewrite (bind_step _ _ _ _ _ Hr).
Defined.

Lemma lan_datagram_overread_witness :
  lan_run demo_env (O_udp_read demo_key (Info [] [] [] [] 0) (Some (LPV35_FRAME_HEAD ++ [0; 0] ++ be32 0 ++ be32 0x25 ++ be32 1000 ++ replicate 32 0)) (fun _ => None))
    (after demo_open) = None.
Proof. apply (lan_datagram_overread demo_env); [apply after_reachable; eexists; vm_compute; reflexivity|lia|by vm_compute]. Defined.

Lemma lan_segment_overread_witness :
  lan_run demo_env (O_read 5 [short_frame 0 0 1 (replicate 27 0) ++ [0]] no_rest 101) (after demo_open) = None.
Proof. apply (lan_segment_overread demo_env demo_malloc_serves 5 0 (demo_session demo_open)); [exact demo_linked|by vm_compute..]. Defined.

Lemma lan_pieces_lost_witness :
  exists s', lan_history [(demo_env, O_read 5 [replicate 40 1] no_rest 101); (demo_env, O_read 5 [replicate 30 1] no_rest 101)] (after demo_open) = Some (tt, s') /\
    sessions s' = sessions (after demo_open) /\ lan_trace s' = lan_trace (after demo_open).
Proof.
  apply (lan_pieces_lost demo_env 5 0 (demo_session demo_open) [replicate 40 1; replicate 30 1] no_rest 101); [exact demo_linked|].
  repeat constructor; by vm_compute.
Defined.

Lemma lan_frame_loop_ends_witness :
  let loop fuel := frame_loop demo_malloc (le_random demo_env) (le_send demo_env) (le_resend demo_env) (le_json demo_env) (le_dump demo_env)
    fuel 0 0 60 None no_rest 101 (after demo_open) in
  loop 500%nat = loop 62%nat.
Proof. apply (lan_frame_loop_ends demo_malloc (le_random demo_env)); [by vm_compute|]. change (S (S (Z.to_nat 60))) with 62%nat. lia. Defined.
