(* ===== verification/Mqtt.v ===== *)
(** * The channel to the cloud

    src/src/tuya_cloud_service/cloud/mqtt_service.c on the wrapper of the MQTT client
    (src/src/libmqtt/src/mqtt_client_wrapper.c): the credentials, subscriptions, the handlers of
    protocols, messages that wait for their acknowledgement, the connection and its loop, as programs on
    the context (StateM) with a trace of effects. The MQTT library, the network, the clock, random
    numbers, JSON and the digest are arguments; the packets are those of Protocol. *)
From S2P Require Import Prelude StateM Protocol.

Definition OPRT_TIMEOUT : Z := -20.
Definition OPRT_AUTHENTICATION_FAIL : Z := -34.
Definition TUYA_MQTT_CLIENTID_MAXLEN : Z := 32.
Definition TUYA_MQTT_USERNAME_MAXLEN : Z := 32.
Definition TUYA_MQTT_PASSWORD_MAXLEN : Z := 32.
Definition TUYA_MQTT_CIPHER_KEY_MAXLEN : Z := 32.
Definition TUYA_MQTT_TOPIC_MAXLEN : Z := 64.
Definition PRO_UPGE_PUSH : Z := 16.
Definition MQTT_QOS_0 : Z := 0.
Definition MQTT_QOS_1 : Z := 1.
Inductive mqtt_client_status_t :=
| MQTT_STATUS_SUCCESS | MQTT_STATUS_INVALID_PARAM | MQTT_STATUS_CONNECT_FAILED | MQTT_STATUS_NOT_AUTHORIZED
| MQTT_STATUS_NETWORK_INIT_FAILED | MQTT_STATUS_NETWORK_CONNECT_FAILED | MQTT_STATUS_NETWORK_TIMEOUT.
#[export] Instance mqtt_client_status_dec : EqDecision mqtt_client_status_t.
Proof. solve_decision. Defined.

(** ** Credentials

    The fields are arrays of fixed size. *)
Record tuya_mqtt_access_t := Access {
  a_clientid : bytes; a_username : bytes; a_password : bytes; a_cipherkey : bytes; a_topic_in : bytes; a_topic_out : bytes }.

(** The memory of strings, [None] for NULL. *)
Record tuya_meta_info_t := Meta {
  m_uuid : option bytes; m_authkey : option bytes; m_devid : option bytes; m_seckey : option bytes; m_localkey : option bytes }.

Definition zeros (n : Z) : bytes := replicate (Z.to_nat n) 0.
Definition access_zero : tuya_mqtt_access_t :=
  Access (zeros 33) (zeros 33) (zeros 33) (zeros 33) (zeros 65) (zeros 65).

Definition md5_char (d : Z) : Z := if bool_decide (d < 10) then 48 + d else 87 + d.
(** ["%02x"] of a byte. *)
Definition hex_byte (b : Z) : bytes := [md5_char (b / 16); md5_char (b `mod` 16)].

Section signature.
(** The digest of a text, 16 bytes. *)
Context (tal_md5_ret : bytes -> bytes).

(** The loop that prints the middle of the digest. *)
Fixpoint password_loop (password digest : bytes) (l : list Z) : option bytes :=
  match l with
  | [] => Some password
  | i :: l => b ← zget digest (i + 4); r ← sprintf password (i * 2) (hex_byte b); password_loop (fst r) digest l
  end.

Definition field (size : Z) (text : bytes) : option bytes := r ← sprintf (zeros size) 0 text; Some (fst r).

Definition tuya_mqtt_signature_tool (input : tuya_meta_info_t) : option (Z * tuya_mqtt_access_t) :=
  let make key id user secret topic_in topic_out :=
    k ← mread key 0 16; cipherkey ← mwrite (zeros (TUYA_MQTT_CIPHER_KEY_MAXLEN + 1)) 0 k;
    clientid ← field (TUYA_MQTT_CLIENTID_MAXLEN + 1) id;
    username ← field (TUYA_MQTT_USERNAME_MAXLEN + 1) user;
    password ← password_loop (zeros (TUYA_MQTT_PASSWORD_MAXLEN + 1)) (tal_md5_ret (c_string secret)) (seqZ 0 8);
    topic_in ← field (TUYA_MQTT_TOPIC_MAXLEN + 1) topic_in;
    topic_out ← field (TUYA_MQTT_TOPIC_MAXLEN + 1) topic_out;
    Some (OPRT_OK, Access clientid username password cipherkey topic_in topic_out) in
  match m_devid input, m_seckey input, m_localkey input with
  | Some devid, Some seckey, Some localkey =>
      let id := c_string devid in
      make localkey id id seckey (c_str "smart/device/in/" ++ id) (c_str "smart/device/out/" ++ id)
  | _, _, _ =>
      match m_uuid input, m_authkey input with
      | Some uuid, Some authkey =>
          let id := c_string uuid in
          make authkey (c_str "acon_" ++ id) (c_str "acon_" ++ id ++ c_str "|pv=" ++ TUYA_PV23) authkey (c_str "d/ai/" ++ id) []
      | _, _ => Some (OPRT_INVALID_PARM, access_zero)
      end
  end.
End signature.

(** ** The context *)

(** A callback for messages: that of the protocol, or another. *)
Inductive mqtt_subscribe_message_cb_t := on_subscribe_message_default | SubCb (id : Z).
#[export] Instance mqtt_subscribe_message_cb_dec : EqDecision mqtt_subscribe_message_cb_t.
Proof. solve_decision. Defined.

Record mqtt_subscribe_handle_t := Subscribe { s_topic : bytes; s_cb : mqtt_subscribe_message_cb_t }.
Record tuya_protocol_handle_t := Handle { h_id : Z; h_cb : Z; h_user_data : Z }.
(** [p_user]: the callback with its data. *)
Record mqtt_publish_handle_t := Publish { p_msgid : Z; p_timeout : Z; p_topic : bytes; p_payload : bytes; p_user : Z }.

(** [M_queued]: the message waits for its acknowledgement, [M_notified]: its callback. *)
Inductive mqtt_event {J : Type} :=
| M_subscribe (topic : bytes) | M_unsubscribe (topic : bytes) | M_publish (topic payload : bytes) (qos msgid : Z)
| M_queued (user : Z) | M_notified (user rt : Z)
| M_message (cb : Z) (topic payload : bytes) | M_protocol (cb user_data event_id : Z) (data : J)
| M_connected | M_disconnect | M_unbind | M_sleep (ms : Z).
Arguments mqtt_event : clear implicits.

(** [client]: whether there is a client object. [calls]: of the library that gave a packet identifier. The
    sequence numbers are not read. The callbacks [on_...]: whether they are set. *)
Record tuya_mqtt_context_t {J : Type} := Mqtt {
  client : bool; signature : tuya_mqtt_access_t;
  protocol_list : list tuya_protocol_handle_t; subscribe_list : list mqtt_subscribe_handle_t; publish_list : list mqtt_publish_handle_t;
  manual_disconnect : bool; is_inited : bool; is_connected : bool;
  on_connected : bool; on_disconnect : bool; on_unbind : bool;
  calls : Z; serial_no : Z; mq_trace : list (mqtt_event J) }.
Arguments tuya_mqtt_context_t : clear implicits.

(** What a text is for cJSON: nothing, an object without one of its three parts, or a message. *)
Inductive mqtt_json {J : Type} := BadJson | NoParts | Message (protocol : Z) (data : J).
Arguments mqtt_json : clear implicits.

(** A packet of the broker: the topic in a publish has no terminating 0. *)
Inductive mqtt_packet :=
| PK_PUBLISH (topic payload : bytes) | PK_PUBACK (msgid : Z) | PK_OTHER.

(** What [MQTT_Connect] returns. *)
Inductive mqtt_connect_t := MQTTSuccess | MQTTNotAuthorized | MQTTFailed.

Section setters.
Context {J : Type}.
Implicit Types s : tuya_mqtt_context_t J.

Definition set_lists p u q s : tuya_mqtt_context_t J :=
  Mqtt J (client s) (signature s) p u q (manual_disconnect s) (is_inited s) (is_connected s)
    (on_connected s) (on_disconnect s) (on_unbind s) (calls s) (serial_no s) (mq_trace s).
Definition set_flags c m i k s : tuya_mqtt_context_t J :=
  Mqtt J c (signature s) (protocol_list s) (subscribe_list s) (publish_list s) m i k
    (on_connected s) (on_disconnect s) (on_unbind s) (calls s) (serial_no s) (mq_trace s).
Definition set_calls n serial s : tuya_mqtt_context_t J :=
  Mqtt J (client s) (signature s) (protocol_list s) (subscribe_list s) (publish_list s) (manual_disconnect s) (is_inited s) (is_connected s)
    (on_connected s) (on_disconnect s) (on_unbind s) n serial (mq_trace s).
Definition trace_add (e : mqtt_event J) s : tuya_mqtt_context_t J :=
  Mqtt J (client s) (signature s) (protocol_list s) (subscribe_list s) (publish_list s) (manual_disconnect s) (is_inited s) (is_connected s)
    (on_connected s) (on_disconnect s) (on_unbind s) (calls s) (serial_no s) (mq_trace s ++ [e]).
Definition set_protocols p s := set_lists p (subscribe_list s) (publish_list s) s.
Definition set_subscribes u s := set_lists (protocol_list s) u (publish_list s) s.
Definition set_publishes q s := set_lists (protocol_list s) (subscribe_list s) q s.
Definition set_connected k s := set_flags (client s) (manual_disconnect s) (is_inited s) k s.
Definition set_manual m s := set_flags (client s) m (is_inited s) (is_connected s) s.
End setters.

(** ** Operations *)

Section mqtt.
Context {J : Type} `{Gcm}.
Notation mqtt := (prog (tuya_mqtt_context_t J)).
Context (malloc : Z -> option bytes).
(** The packet identifier that the library takes for its n-th call when that succeeds, and 0 when not. *)
Context (library : Z -> Z).
Context (cJSON_Parse : bytes -> mqtt_json J).

Definition emit (e : mqtt_event J) : mqtt unit := modify (trace_add e).
Definition need_client : mqtt unit := c ← gets client; if (c : bool) then mret tt else ub.
Definition packet_id : mqtt Z := n ← gets calls; k ← gets serial_no; modify (set_calls (n + 1) k);; mret (library n).

(** *** The wrapper of the client *)

Definition mqtt_client_subscribe (topic : bytes) : mqtt Z := need_client;; n ← packet_id; emit (M_subscribe topic);; mret n.
Definition mqtt_client_unsubscribe (topic : bytes) : mqtt Z := need_client;; n ← packet_id; emit (M_unsubscribe topic);; mret n.
Definition mqtt_client_publish (topic payload : bytes) (qos : Z) : mqtt Z :=
  need_client;; n ← packet_id; emit (M_publish topic payload qos n);; mret n.

(** *** Subscriptions *)

(** [memcmp] of the first bytes: it ends at the first difference, at the latest at the terminating 0. *)
Definition starts (t topic : bytes) : bool := bool_decide (t `prefix_of` topic).

Definition tuya_mqtt_subscribe_message_callback_register (topic : bytes) (cb : option mqtt_subscribe_message_cb_t) : mqtt Z :=
  msgid ← mqtt_client_subscribe topic;
  if bool_decide (msgid <= 0) then mret OPRT_COM_ERROR
  else
    l ← gets subscribe_list;
    if existsb (fun t => starts (s_topic t) topic && bool_decide (Some (s_cb t) = cb)) l then mret OPRT_OK
    else match malloc 20 with
         | None => mret OPRT_MALLOC_FAILED
         | Some _ =>
             match malloc (zlen topic + 1) with
             | None => ub
             | Some _ =>
                 modify (set_subscribes (Subscribe topic (default on_subscribe_message_default cb) :: l));;
                 mret OPRT_OK
             end
         end.

Definition tuya_mqtt_subscribe_message_callback_unregister (topic : bytes) : mqtt Z :=
  l ← gets subscribe_list;
  modify (set_subscribes (filter (fun t => s_topic t <> topic) l));;
  msgid ← mqtt_client_unsubscribe topic;
  mret (if bool_decide (msgid <= 0) then OPRT_COM_ERROR else OPRT_OK).

(** *** Messages *)

Definition tuya_protocol_message_parse_process (payload : bytes) : mqtt Z :=
  a ← gets signature;
  r ← lift (tuya_parse_protocol_data malloc DP_CMD_MQ (Some payload) (i32 (zlen payload)) (a_cipherkey a));
  match r with
  | (rt, Some jsonstr) =>
      if bool_decide (OPRT_OK <> rt) then mret OPRT_COM_ERROR
      else match cJSON_Parse (c_string jsonstr) with
           | BadJson => mret OPRT_CJSON_PARSE_ERR
           | NoParts => mret OPRT_CJSON_GET_ERR
           | Message id data =>
               l ← gets protocol_list;
               for_each l (fun t => if bool_decide (h_id t = id) then emit (M_protocol (h_cb t) (h_user_data t) (u16 id) data) else mret tt);;
               mret OPRT_OK
           end
  | (_, None) => mret OPRT_COM_ERROR
  end.

Definition subscribe_cb (cb : mqtt_subscribe_message_cb_t) (topic payload : bytes) : mqtt unit :=
  match cb with
  | on_subscribe_message_default => tuya_protocol_message_parse_process payload;; mret tt
  | SubCb id => emit (M_message id topic payload)
  end.

Definition mqtt_subscribe_message_distribute (topic payload : bytes) : mqtt unit :=
  l ← gets subscribe_list;
  for_each l (fun t => if bool_decide (s_topic t = topic) then subscribe_cb (s_cb t) topic payload else mret tt).

(** *** Events of the client *)

Definition mqtt_client_connected_cb : mqtt unit :=
  a ← gets signature;
  tuya_mqtt_subscribe_message_callback_register (c_string (a_topic_in a)) (Some on_subscribe_message_default);;
  modify (set_connected true);;
  hook ← gets on_connected; if (hook : bool) then emit M_connected else mret tt.

Definition mqtt_client_disconnected_cb : mqtt unit :=
  modify (set_connected false);;
  hook ← gets on_disconnect; if (hook : bool) then emit M_disconnect else mret tt.

(** The list without the first entry of this identifier, and its callback. *)
Fixpoint puback_loop (msgid : Z) (l : list mqtt_publish_handle_t) : option Z * list mqtt_publish_handle_t :=
  match l with
  | [] => (None, [])
  | t :: l => if bool_decide (msgid = p_msgid t) then (Some (p_user t), l)
              else let '(u, l) := puback_loop msgid l in (u, t :: l)
  end.

Definition mqtt_client_puback_cb (msgid : Z) : mqtt unit :=
  l ← gets publish_list;
  let '(u, l) := puback_loop msgid l in
  (match u with Some u => emit (M_notified u OPRT_OK) | None => mret tt end);;
  modify (set_publishes l).

Definition core_mqtt_library_callback (p : mqtt_packet) : mqtt unit :=
  match p with
  | PK_PUBLISH topic payload =>
      match malloc (zlen topic + 1) with
      | None => mret tt
      | Some _ => mqtt_subscribe_message_distribute (c_string (topic ++ [0])) payload
      end
  | PK_PUBACK msgid => mqtt_client_puback_cb msgid
  | PK_OTHER => mret tt
  end.

(** [network]: whether the transport connects. *)
Definition mqtt_client_connect (network : bool) (st : mqtt_connect_t) : mqtt mqtt_client_status_t :=
  need_client;;
  if negb network then mret MQTT_STATUS_NETWORK_CONNECT_FAILED
  else match st with
       | MQTTSuccess => mqtt_client_connected_cb;; mret MQTT_STATUS_SUCCESS
       | MQTTNotAuthorized => mret MQTT_STATUS_NOT_AUTHORIZED
       | MQTTFailed => mret MQTT_STATUS_CONNECT_FAILED
       end.

Definition mqtt_client_disconnect : mqtt mqtt_client_status_t := need_client;; mqtt_client_disconnected_cb;; mret MQTT_STATUS_SUCCESS.

(** The packets that [MQTT_ProcessLoop] hands out, and whether it succeeds. *)
Definition mqtt_client_yield (packets : list mqtt_packet) (ok : bool) : mqtt mqtt_client_status_t :=
  need_client;;
  for_each packets core_mqtt_library_callback;;
  if ok then mret MQTT_STATUS_SUCCESS else mqtt_client_disconnect;; mret MQTT_STATUS_NETWORK_TIMEOUT.

(** *** The handlers of protocols *)

Definition tuya_mqtt_protocol_register (protocol_id : Z) (cb : option Z) (user_data : Z) : mqtt Z :=
  inited ← gets is_inited;
  match cb with
  | None => mret OPRT_INVALID_PARM
  | Some cb =>
      if negb inited then mret OPRT_INVALID_PARM
      else
        l ← gets protocol_list;
        if existsb (fun t => bool_decide (h_id t = protocol_id) && bool_decide (h_cb t = cb)) l then mret OPRT_COM_ERROR
        else match malloc 16 with
             | None => mret OPRT_MALLOC_FAILED
             | Some _ => modify (set_protocols (Handle protocol_id cb user_data :: l));; mret OPRT_OK
             end
  end.

Definition tuya_mqtt_protocol_unregister (protocol_id : Z) (cb : option Z) : mqtt Z :=
  inited ← gets is_inited;
  match cb with
  | None => mret OPRT_INVALID_PARM
  | Some cb =>
      if negb inited then mret OPRT_INVALID_PARM
      else l ← gets protocol_list; modify (set_protocols (filter (fun t => ~ (h_id t = protocol_id /\ h_cb t = cb)) l));; mret OPRT_OK
  end.

Definition tuya_mqtt_protocol_unregister_all : mqtt Z :=
  inited ← gets is_inited;
  if negb inited then mret OPRT_INVALID_PARM else modify (set_protocols []);; mret OPRT_OK.

(** *** Sending *)

(** [user]: [None] for no callback. *)
Definition tuya_mqtt_client_publish_common (topic : option bytes) (payload : option bytes) (user : option Z) (timeout_ms now : Z)
    (async : bool) : mqtt Z :=
  match topic, payload with
  | Some topic, Some payload =>
      match user with
      | None =>
          if async then mret OPRT_INVALID_PARM
          else n ← mqtt_client_publish topic payload MQTT_QOS_0; mret (if bool_decide (n <= 0) then OPRT_COM_ERROR else OPRT_OK)
      | Some user =>
          match malloc 32 with
          | None => mret OPRT_MALLOC_FAILED
          | Some _ =>
              match malloc (zlen payload) with
              | None => mret OPRT_MALLOC_FAILED
              | Some _ =>
                  n ← (if async then mret 0 else mqtt_client_publish topic payload MQTT_QOS_1);
                  l ← gets publish_list;
                  emit (M_queued user);;
                  modify (set_publishes (l ++ [Publish n (i32 (now + timeout_ms)) topic payload user]));;
                  mret OPRT_OK
              end
          end
      end
  | _, _ => mret OPRT_INVALID_PARM
  end.

(** [length] is not used. [drawn], [posix], [random]: what the packing takes. *)
Definition tuya_mqtt_protocol_data_publish_with_topic_common (topic : option bytes) (protocol_id : Z) (data : option bytes) (length : Z)
    (user : option Z) (timeout_ms now : Z) (async : bool) (drawn posix : Z) (random : Z -> Z) : mqtt Z :=
  inited ← gets is_inited; k ← gets is_connected; a ← gets signature; serial ← gets serial_no; n ← gets calls;
  if negb inited then mret OPRT_INVALID_PARM
  else if negb k then mret OPRT_COM_ERROR
  else
    r ← lift (tuya_pack_protocol_data malloc DP_CMD_MQ data protocol_id (a_cipherkey a) serial drawn posix random);
    let '(serial, rt, out) := r in
    modify (set_calls n serial);;
    match out with
    | Some (buffer, len) =>
        if bool_decide (rt <> OPRT_OK) then mret rt
        else
          payload ← lift (mread buffer 0 len);
          tuya_mqtt_client_publish_common topic (Some payload) user timeout_ms now async
    | None => mret rt
    end.

Definition tuya_mqtt_protocol_data_publish_common (protocol_id : Z) (data : option bytes) (length : Z)
    (user : option Z) (timeout_ms now : Z) (async : bool) (drawn posix : Z) (random : Z -> Z) : mqtt Z :=
  a ← gets signature;
  tuya_mqtt_protocol_data_publish_with_topic_common (Some (c_string (a_topic_out a))) protocol_id data length user timeout_ms now async drawn posix random.

Definition tuya_mqtt_protocol_data_publish_with_topic (topic : option bytes) (protocol_id : Z) (data : option bytes) (length : Z)
    (drawn posix : Z) (random : Z -> Z) : mqtt Z :=
  tuya_mqtt_protocol_data_publish_with_topic_common topic protocol_id data length None 0 0 false drawn posix random.

Definition tuya_mqtt_protocol_data_publish (protocol_id : Z) (data : option bytes) (length : Z) (drawn posix : Z) (random : Z -> Z) : mqtt Z :=
  a ← gets signature;
  tuya_mqtt_protocol_data_publish_with_topic (Some (c_string (a_topic_out a))) protocol_id data length drawn posix random.

Definition progress_text (channel percent : Z) : bytes :=
  c_str "{" ++ [34] ++ c_str "progress" ++ [34] ++ c_str ":" ++ [34] ++ dec percent ++ [34] ++ c_str "," ++
  [34] ++ c_str "firmwareType" ++ [34] ++ c_str ":" ++ dec channel ++ c_str "}".

Definition tuya_mqtt_upgrade_progress_report (channel percent : Z) (drawn posix : Z) (random : Z -> Z) : mqtt Z :=
  if bool_decide (percent > 100) then mret OPRT_INVALID_PARM
  else match malloc 128 with
       | None => mret OPRT_MALLOC_FAILED
       | Some data_buf =>
           r ← lift (sprintf data_buf 0 (progress_text channel percent));
           let '(data_buf, buffer_size) := r in
           rt ← tuya_mqtt_protocol_data_publish PRO_UPGE_PUSH (Some (c_string data_buf)) (u16 buffer_size) drawn posix random;
           let msgid := u16 rt in
           mret (if bool_decide (msgid <= 0) then OPRT_COM_ERROR else OPRT_OK)
       end.

(** *** The loop

    The entries that wait, in order: those whose time is over are notified and removed, the others are
    sent when they were not. After a removal the loop goes on behind the following entry, and through
    NULL when there is none. *)
Definition republish (t : mqtt_publish_handle_t) : mqtt mqtt_publish_handle_t :=
  if bool_decide (p_msgid t <= 0) then
    n ← mqtt_client_publish (p_topic t) (p_payload t) 1;
    mret (Publish n (p_timeout t) (p_topic t) (p_payload t) (p_user t))
  else mret t.

Fixpoint publish_loop (now : Z) (l : list mqtt_publish_handle_t) : mqtt (list mqtt_publish_handle_t) :=
  match l with
  | [] => mret []
  | t :: l =>
      if bool_decide (u32 (p_timeout t) <= now) then
        emit (M_notified (p_user t) OPRT_TIMEOUT);;
        match l with
        | [] => ub
        | skipped :: l => l ← publish_loop now l; mret (skipped :: l)
        end
      else t ← republish t; l ← publish_loop now l; mret (t :: l)
  end.

(** What happens around one call: the connection, the delay of the back-off when there is one, the
    packets that come in and whether the connection holds. *)
Record mqtt_world := World { w_network : bool; w_connect : mqtt_connect_t; w_backoff : option Z; w_packets : list mqtt_packet; w_alive : bool }.

Definition unbind : mqtt unit := hook ← gets on_unbind; if (hook : bool) then emit M_unbind else mret tt.

Definition tuya_mqtt_loop (now : Z) (w : mqtt_world) : mqtt Z :=
  inited ← gets is_inited; manual ← gets manual_disconnect;
  if negb inited || manual then mret OPRT_OK
  else
    k ← gets is_connected;
    if negb k then
      st ← mqtt_client_connect (w_network w) (w_connect w);
      if bool_decide (st = MQTT_STATUS_NOT_AUTHORIZED) then unbind;; mret OPRT_OK
      else if bool_decide (st <> MQTT_STATUS_SUCCESS) then
        match w_backoff w with Some ms => emit (M_sleep ms) | None => mret tt end;; mret OPRT_OK
      else mret OPRT_OK
    else
      l ← gets publish_list;
      l ← publish_loop now l;
      modify (set_publishes l);;
      mqtt_client_yield (w_packets w) (w_alive w);;
      mret OPRT_OK.

(** *** Start and end *)

Definition tuya_mqtt_start (w : mqtt_world) : mqtt Z :=
  inited ← gets is_inited;
  if negb inited then mret OPRT_INVALID_PARM
  else
    modify (set_manual false);;
    st ← mqtt_client_connect (w_network w) (w_connect w);
    if bool_decide (st = MQTT_STATUS_NOT_AUTHORIZED) then unbind;; mret OPRT_AUTHENTICATION_FAIL
    else if bool_decide (st <> MQTT_STATUS_SUCCESS) then
      match w_backoff w with Some ms => emit (M_sleep (ms + 10000)) | None => mret tt end;; mret OPRT_COM_ERROR
    else mret OPRT_OK.

Definition tuya_mqtt_stop : mqtt Z :=
  inited ← gets is_inited; a ← gets signature;
  if negb inited then mret OPRT_INVALID_PARM
  else
    tuya_mqtt_subscribe_message_callback_unregister (c_string (a_topic_in a));;
    mqtt_client_disconnect;;
    modify (set_manual true);;
    mret OPRT_OK.

(** [deinit]: what [mqtt_client_deinit] returns, which is success. *)
Definition tuya_mqtt_destory : mqtt Z :=
  inited ← gets is_inited;
  if negb inited then mret OPRT_COM_ERROR
  else
    tuya_mqtt_protocol_unregister_all;;
    c ← gets client; m ← gets manual_disconnect; k ← gets is_connected;
    (if (c : bool) then modify (set_flags false m inited k) else mret tt);;
    mret OPRT_OK.

Definition tuya_mqtt_connected : mqtt bool := gets is_connected.

(** The context that [tuya_mqtt_init] leaves. [client_ok], [init_ok]: whether the client is allocated and set
    up; [connected], [disconnect], [unbind]: whether the callbacks are set; [n], [serial]: of the statics. *)
Definition tuya_mqtt_init (md5 : bytes -> bytes) (meta : tuya_meta_info_t) (client_ok init_ok connected disconnect unbind : bool) (n serial : Z)
    : option (Z * tuya_mqtt_context_t J) :=
  r ← tuya_mqtt_signature_tool md5 meta;
  let '(rt, a) := r in
  let context c init := Mqtt J c a [] [] [] init init false connected disconnect unbind n serial [] in
  if bool_decide (OPRT_OK <> rt) then Some (rt, context false false)
  else if negb client_ok then Some (OPRT_MALLOC_FAILED, context false false)
  else if negb init_ok then Some (OPRT_COM_ERROR, context true false)
  else Some (OPRT_OK, context true true).
End mqtt.

(** ** Messages that wait for their acknowledgement *)

Section waiting.
Context {J : Type} `{Gcm}.
Implicit Types (s : tuya_mqtt_context_t J) (tr : list (mqtt_event J)).

Definition queued tr : list Z := omap (fun e => match e with M_queued u => Some u | _ => None end) tr.
Definition notified tr : list Z := omap (fun e => match e with M_notified u _ => Some u | _ => None end) tr.

(** Every message that was taken is waiting or was notified, once. *)
Definition conserved s : Prop := queued (mq_trace s) ≡ₚ notified (mq_trace s) ++ (p_user <$> publish_list s).

(** What does not touch them. *)
Definition apart s s' : Prop :=
  publish_list s' = publish_list s /\ queued (mq_trace s') = queued (mq_trace s) /\ notified (mq_trace s') = notified (mq_trace s).

#[export] Instance apart_preorder : PreOrder apart.
Proof. split; [by intros s|]. intros s1 s2 s3 (H1 & H2 & H3) (H4 & H5 & H6). split_and!; congruence. Qed.

Lemma apart_conserved s s' : apart s s' -> conserved s -> conserved s'.
Proof. intros (Hp & Hq & Hn). unfold conserved. by rewrite Hp, Hq, Hn. Qed.

Lemma keeps_apart {A} (m : prog (tuya_mqtt_context_t J) A) : keeps apart m -> hoare conserved m (fun _ => conserved).
Proof. intros Hm s x s' Hs Hr. eapply apart_conserved, Hs. by eapply keeps_run. Qed.

Definition plain (e : mqtt_event J) : bool := match e with M_queued _ | M_notified _ _ => false | _ => true end.

Lemma emit_apart e : plain e = true -> keeps apart (emit e).
Proof.
  intros He. apply keeps_modify. intros s. split; [done|]. unfold queued, notified. cbn. rewrite !omap_app.
  destruct e; try done; cbn; by rewrite !app_nil_r.
Qed.

Lemma modify_apart (f : tuya_mqtt_context_t J -> tuya_mqtt_context_t J) :
  (forall s, publish_list (f s) = publish_list s /\ mq_trace (f s) = mq_trace s) -> keeps apart (modify f).
Proof. intros Hf. apply keeps_modify. intros s. destruct (Hf s) as [Hp Ht]. split; [done|]. by rewrite Ht. Qed.

Context (malloc : Z -> option bytes) (library : Z -> Z) (cJSON_Parse : bytes -> mqtt_json J).

#[local] Hint Extern 1 (keeps apart (emit _)) => (apply emit_apart; reflexivity) : prog.
#[local] Hint Extern 1 (keeps apart (modify _)) => (apply modify_apart; done) : prog.
#[local] Hint Extern 1 (keeps apart (for_each _ _)) => (apply keeps_for_each; [apply _|intros ?; keep]) : prog.

Lemma need_client_apart : keeps apart (need_client (J := J)).
Proof. unfold need_client. keep. Qed.
Lemma packet_id_apart : keeps apart (packet_id (J := J) library).
Proof. unfold packet_id. keep. Qed.
Hint Resolve need_client_apart packet_id_apart : prog.

Lemma client_publish_apart topic payload qos : keeps apart (mqtt_client_publish (J := J) library topic payload qos).
Proof. unfold mqtt_client_publish. keep. Qed.
Lemma register_apart topic cb : keeps apart (tuya_mqtt_subscribe_message_callback_register (J := J) malloc library topic cb).
Proof. unfold tuya_mqtt_subscribe_message_callback_register, mqtt_client_subscribe. keep. Qed.
Lemma unregister_apart topic : keeps apart (tuya_mqtt_subscribe_message_callback_unregister (J := J) library topic).
Proof. unfold tuya_mqtt_subscribe_message_callback_unregister, mqtt_client_unsubscribe. keep. Qed.
Hint Resolve client_publish_apart register_apart unregister_apart : prog.

Lemma distribute_apart topic payload : keeps apart (mqtt_subscribe_message_distribute malloc cJSON_Parse topic payload).
Proof. unfold mqtt_subscribe_message_distribute, subscribe_cb, tuya_protocol_message_parse_process. keep. Qed.
Lemma connected_cb_apart : keeps apart (mqtt_client_connected_cb (J := J) malloc library).
Proof. unfold mqtt_client_connected_cb. keep. Qed.
Lemma disconnect_apart : keeps apart (mqtt_client_disconnect (J := J)).
Proof. unfold mqtt_client_disconnect, mqtt_client_disconnected_cb. keep. Qed.
Hint Resolve distribute_apart connected_cb_apart disconnect_apart : prog.
Lemma connect_apart network st : keeps apart (mqtt_client_connect (J := J) malloc library network st).
Proof. unfold mqtt_client_connect. keep. Qed.
Lemma unbind_apart : keeps apart (unbind (J := J)).
Proof. unfold unbind. keep. Qed.
Hint Resolve connect_apart unbind_apart : prog.

(** Balanced with a list in the place of that of the context. *)
Definition balanced (l : list mqtt_publish_handle_t) s : Prop := queued (mq_trace s) ≡ₚ notified (mq_trace s) ++ (p_user <$> l).

Lemma apart_balanced {A} l (m : prog (tuya_mqtt_context_t J) A) : keeps apart m -> hoare (balanced l) m (fun _ => balanced l).
Proof. intros Hm s x s' Hs Hr. apply Hm in Hr as (_ & Hq & Hn). unfold balanced in *. by rewrite Hq, Hn. Qed.

Lemma notify_balanced a t b rt : hoare (balanced (a ++ t :: b)) (emit (M_notified (p_user t) rt)) (fun _ => balanced (a ++ b)).
Proof.
  apply hoare_modify. intros s Hs. unfold balanced, queued, notified in *. cbn. rewrite !omap_app. cbn. rewrite app_nil_r, Hs.
  rewrite <- app_assoc, !fmap_app. cbn. apply Permutation_app_head. by rewrite Permutation_middle.
Qed.

Lemma puback_loop_split msgid l u r : puback_loop msgid l = (u, r) ->
  (u = None /\ r = l) \/ exists a t b, u = Some (p_user t) /\ l = a ++ t :: b /\ r = a ++ b /\ p_msgid t = msgid.
Proof.
  revert u r. induction l as [|t l IH]; intros u r; cbn; [intros [= <- <-]; by left|].
  case_bool_decide; [intros [= <- <-]; right; by exists [], t, l|]. destruct (puback_loop msgid l) as [u' r'].
  intros [= <- <-]. destruct (IH u' r' eq_refl) as [[-> ->]|(a & t' & b & -> & -> & -> & Ht)]; [by left|].
  right. by exists (t :: a), t', b.
Qed.

Lemma set_publishes_conserved l : hoare (balanced l) (modify (set_publishes l)) (fun _ => conserved).
Proof. apply hoare_modify. by intros s Hs. Qed.

Lemma puback_conserved msgid : hoare conserved (mqtt_client_puback_cb (J := J) msgid) (fun _ => conserved).
Proof.
  unfold mqtt_client_puback_cb. eapply hoare_bind; [apply hoare_gets|]. intros l. cbv beta.
  destruct (puback_loop msgid l) as [u r] eqn:Hp. apply puback_loop_split in Hp.
  eapply (hoare_bind _ _ (fun _ => balanced r)); [|intros []; apply set_publishes_conserved].
  apply (hoare_weaken (balanced l) _ _ (fun _ => balanced r)); [|by intros s [Hs ->]|done].
  destruct Hp as [[-> ->]|(a & t & b & -> & -> & -> & _)]; [by apply hoare_ret|apply notify_balanced].
Qed.

Lemma republish_kept t : hoare (fun _ => True) (republish (J := J) library t) (fun r _ => p_user r = p_user t).
Proof.
  unfold republish. case_bool_decide; [|by apply hoare_ret]. eapply (hoare_bind _ _ (fun _ _ => True)); [by intros ?|]. intros n. by apply hoare_ret.
Qed.

Lemma republish_apart t : keeps apart (republish (J := J) library t).
Proof. unfold republish. keep. Qed.

Lemma publish_loop_balanced now n : forall a l, (length l <= n)%nat ->
  hoare (balanced (a ++ l)) (publish_loop (J := J) library now l) (fun r => balanced (a ++ r)).
Proof.
  induction n as [|n IH]; intros a [|t l] Hl; cbn [length] in Hl; try lia; cbn [publish_loop]; [by apply hoare_ret..|]. case_bool_decide.
  - eapply hoare_bind; [apply notify_balanced|]. intros []. destruct l as [|skipped l]; [apply hoare_ub|].
    change (skipped :: l) with ([skipped] ++ l). rewrite app_assoc.
    eapply hoare_bind; [apply IH; cbn in Hl; lia|]. intros r. apply hoare_ret. intros s. by rewrite <- app_assoc.
  - eapply (hoare_bind _ _ (fun r s => balanced (a ++ t :: l) s /\ p_user r = p_user t)).
    + intros s r s' Hs Hr. split; [by eapply (apart_balanced _ _ (republish_apart t))|by eapply (republish_kept t)].
    + intros t'. change (t :: l) with ([t] ++ l). rewrite app_assoc.
      apply hoare_pure. intros Ht. eapply hoare_bind; [apply IH; lia|]. intros r. apply hoare_ret. intros s.
      unfold balanced. rewrite !fmap_app. cbn. by rewrite Ht, <- app_assoc.
Qed.

Lemma yield_conserved packets ok : hoare conserved (mqtt_client_yield malloc cJSON_Parse packets ok) (fun _ => conserved).
Proof.
  unfold mqtt_client_yield. eapply hoare_bind; [apply keeps_apart, need_client_apart|]. intros [].
  eapply (hoare_bind _ _ (fun _ => conserved)).
  - apply hoare_for_each. intros p _. destruct p as [topic payload|msgid|]; cbn [core_mqtt_library_callback].
    + destruct (malloc _); [apply keeps_apart, distribute_apart|by apply hoare_ret].
    + apply puback_conserved.
    + by apply hoare_ret.
  - intros []. destruct ok; [by apply hoare_ret|]. apply keeps_apart. keep.
Qed.

Lemma loop_conserved now w : hoare conserved (tuya_mqtt_loop malloc library cJSON_Parse now w) (fun _ => conserved).
Proof.
  unfold tuya_mqtt_loop. eapply hoare_bind; [apply keeps_apart; keep|]. intros inited.
  eapply hoare_bind; [apply keeps_apart; keep|]. intros manual. destruct (_ || _); [by apply hoare_ret|].
  eapply hoare_bind; [apply keeps_apart; keep|]. intros k. destruct k; cbn [negb]; [|apply keeps_apart; keep].
  eapply hoare_bind; [apply hoare_gets|]. intros l.
  eapply (hoare_bind _ _ (fun r => balanced r)).
  { apply (hoare_weaken (balanced l) _ _ (fun r => balanced r)); [by apply (publish_loop_balanced now (length l) [])|by intros s [Hs ->]|done]. }
  intros r. eapply hoare_bind; [apply set_publishes_conserved|]. intros []. eapply hoare_bind; [apply yield_conserved|]. intros st. by apply hoare_ret.
Qed.

Lemma publish_conserved topic payload user timeout now async :
  hoare conserved (tuya_mqtt_client_publish_common (J := J) malloc library topic payload user timeout now async) (fun _ => conserved).
Proof.
  unfold tuya_mqtt_client_publish_common. destruct topic as [topic|], payload as [payload|]; try by apply hoare_ret.
  destruct user as [user|]; [|destruct async; [by apply hoare_ret|apply keeps_apart; keep]].
  destruct (malloc 32); [|by apply hoare_ret]. destruct (malloc (zlen payload)); [|by apply hoare_ret].
  eapply hoare_bind; [apply keeps_apart; destruct async; keep|]. intros n. eapply hoare_bind; [apply hoare_gets|]. intros waiting.
  intros s r s' [Hs ->] Hr. apply bind_inv in Hr as ([] & s1 & [= <-] & Hr). apply bind_inv in Hr as ([] & s2 & [= <-] & [= <- <-]).
  unfold conserved, queued, notified in *. cbn. rewrite !omap_app. cbn. rewrite Hs, app_nil_r, fmap_app, app_assoc. done.
Qed.

Lemma data_publish_conserved topic id data len user timeout now async drawn posix random :
  hoare conserved (tuya_mqtt_protocol_data_publish_with_topic_common (J := J) malloc library topic id data len user timeout now async drawn posix random)
    (fun _ => conserved).
Proof.
  unfold tuya_mqtt_protocol_data_publish_with_topic_common. do 5 (eapply hoare_bind; [apply keeps_apart; keep|]; intros ?).
  destruct (negb x); [by apply hoare_ret|]. destruct (negb x0); [by apply hoare_ret|].
  eapply hoare_bind; [apply keeps_apart; keep|]. intros [[serial rt] out]. eapply hoare_bind; [apply keeps_apart; keep|]. intros [].
  destruct out as [[buffer len']|]; [|by apply hoare_ret]. case_bool_decide; [by apply hoare_ret|].
  eapply hoare_bind; [apply keeps_apart; keep|]. intros p. apply publish_conserved.
Qed.
End waiting.

(** ** The service as a whole *)

Inductive mqtt_op :=
| O_loop (now : Z) (w : mqtt_world) | O_start (w : mqtt_world) | O_stop | O_destroy
| O_register (id : Z) (cb : option Z) (user_data : Z) | O_unregister (id : Z) (cb : option Z) | O_unregister_all
| O_subscribe (topic : bytes) (cb : option mqtt_subscribe_message_cb_t) | O_unsubscribe (topic : bytes)
| O_publish (topic payload : option bytes) (user : option Z) (timeout_ms now : Z) (async : bool)
| O_data_publish (topic : option bytes) (id : Z) (data : option bytes) (length : Z) (user : option Z) (timeout_ms now : Z) (async : bool)
    (drawn posix : Z) (random : Z -> Z)
| O_progress (channel percent drawn posix : Z) (random : Z -> Z).

Section service.
Context {J : Type} `{Gcm} (library : Z -> Z) (cJSON_Parse : bytes -> mqtt_json J).
Notation mqtt := (prog (tuya_mqtt_context_t J)).

(** Each operation with its memory. *)
Definition mqtt_run (malloc : Z -> option bytes) (op : mqtt_op) : mqtt unit :=
  match op with
  | O_loop now w => tuya_mqtt_loop malloc library cJSON_Parse now w;; mret tt
  | O_start w => tuya_mqtt_start malloc library w;; mret tt
  | O_stop => tuya_mqtt_stop library;; mret tt
  | O_destroy => tuya_mqtt_destory;; mret tt
  | O_register id cb ud => tuya_mqtt_protocol_register malloc id cb ud;; mret tt
  | O_unregister id cb => tuya_mqtt_protocol_unregister id cb;; mret tt
  | O_unregister_all => tuya_mqtt_protocol_unregister_all;; mret tt
  | O_subscribe topic cb => tuya_mqtt_subscribe_message_callback_register malloc library topic cb;; mret tt
  | O_unsubscribe topic => tuya_mqtt_subscribe_message_callback_unregister library topic;; mret tt
  | O_publish topic payload user t now async => tuya_mqtt_client_publish_common malloc library topic payload user t now async;; mret tt
  | O_data_publish topic id data len user t now async drawn posix random =>
      tuya_mqtt_protocol_data_publish_with_topic_common malloc library topic id data len user t now async drawn posix random;; mret tt
  | O_progress channel percent drawn posix random => tuya_mqtt_upgrade_progress_report malloc library channel percent drawn posix random;; mret tt
  end.

Definition mqtt_history (l : list ((Z -> option bytes) * mqtt_op)) : mqtt unit := for_each l (fun p => mqtt_run (fst p) (snd p)).

#[local] Hint Extern 1 (keeps apart (modify _)) => (apply modify_apart; done) : prog.
#[local] Hint Extern 1 (keeps apart (emit _)) => (apply emit_apart; reflexivity) : prog.
#[local] Hint Resolve need_client_apart packet_id_apart client_publish_apart register_apart unregister_apart distribute_apart connected_cb_apart
  disconnect_apart connect_apart unbind_apart : prog.

Lemma then_unit {A} (m : mqtt A) : hoare conserved m (fun _ => conserved) -> hoare conserved (m;; mret tt) (fun _ => conserved).
Proof. intros Hm. eapply hoare_bind; [exact Hm|]. intros ?. by apply hoare_ret. Qed.

Lemma mqtt_run_conserved malloc op : hoare conserved (mqtt_run malloc op) (fun _ => conserved).
Proof.
  destruct op; cbn [mqtt_run]; apply then_unit.
  - apply loop_conserved.
  - apply keeps_apart. unfold tuya_mqtt_start. keep.
  - apply keeps_apart. unfold tuya_mqtt_stop. keep.
  - apply keeps_apart. unfold tuya_mqtt_destory, tuya_mqtt_protocol_unregister_all. keep.
  - apply keeps_apart. unfold tuya_mqtt_protocol_register. keep.
  - apply keeps_apart. unfold tuya_mqtt_protocol_unregister. keep.
  - apply keeps_apart. unfold tuya_mqtt_protocol_unregister_all. keep.
  - apply keeps_apart, register_apart.
  - apply keeps_apart, unregister_apart.
  - apply publish_conserved.
  - apply data_publish_conserved.
  - unfold tuya_mqtt_upgrade_progress_report, tuya_mqtt_protocol_data_publish, tuya_mqtt_protocol_data_publish_with_topic.
    case_bool_decide; [by apply hoare_ret|]. destruct (malloc 128) as [b|]; [|by apply hoare_ret].
    eapply hoare_bind; [apply keeps_apart; keep|]. intros [b' n].
    apply (hoare_bind _ _ (fun _ => conserved)); [|intros rt; by apply hoare_ret]. eapply hoare_bind; [apply keeps_apart; keep|]. intros a. apply data_publish_conserved.
Qed.

(** C9. After any history of the channel, the messages that were taken with a callback are those whose
    callback was called, once, and those that still wait. *)
Theorem mqtt_publish_conserved md5 meta client_ok init_ok a b c n serial rt s0 l s :
  tuya_mqtt_init md5 meta client_ok init_ok a b c n serial = Some (rt, s0) -> mqtt_history l s0 = Some (tt, s) ->
  queued (mq_trace s) ≡ₚ notified (mq_trace s) ++ (p_user <$> publish_list s).
Proof.
  intros Hi Hr. assert (Hs0 : conserved s0).
  { unfold tuya_mqtt_init in Hi. destruct (tuya_mqtt_signature_tool md5 meta) as [[rt' acc]|]; [|done]. revert Hi. ub_step.
    repeat (case_bool_decide || destruct client_ok || destruct init_ok); cbn; intros [= <- <-]; apply Permutation_refl. }
  assert (Hh : hoare conserved (mqtt_history l) (fun _ => conserved)) by (apply hoare_for_each; intros p _; apply mqtt_run_conserved).
  exact (Hh _ _ _ Hs0 Hr).
Qed.
End service.

(** ** What single operations do *)

Section exact.
Context {J : Type} `{GcmLaws}.
Implicit Types s : tuya_mqtt_context_t J.
Context (malloc : Z -> option bytes) (library : Z -> Z) (cJSON_Parse : bytes -> mqtt_json J).

(** Several events at once. *)
Definition trace_app (es : list (mqtt_event J)) s : tuya_mqtt_context_t J :=
  Mqtt J (client s) (signature s) (protocol_list s) (subscribe_list s) (publish_list s) (manual_disconnect s) (is_inited s) (is_connected s)
    (on_connected s) (on_disconnect s) (on_unbind s) (calls s) (serial_no s) (mq_trace s ++ es).

Lemma trace_app_nil s : trace_app [] s = s.
Proof. unfold trace_app. rewrite app_nil_r. by destruct s. Qed.

Lemma trace_app_add e es s : trace_app es (trace_add e s) = trace_app (e :: es) s.
Proof. unfold trace_app, trace_add. cbn. by rewrite <- app_assoc. Qed.

(** The events of a message of protocol [id]. *)
Definition protocol_events (id : Z) (data : J) (l : list tuya_protocol_handle_t) : list (mqtt_event J) :=
  (fun t => M_protocol (h_cb t) (h_user_data t) (u16 id) data) <$> filter (fun t => h_id t = id) l.

Lemma protocol_loop_run id data l : forall s,
  for_each l (fun t => if bool_decide (h_id t = id) then emit (M_protocol (h_cb t) (h_user_data t) (u16 id) data) else mret tt) s =
    Some (tt, trace_app (protocol_events id data l) s).
Proof.
  induction l as [|t l IH]; intros s; cbn [for_each]; [unfold protocol_events; cbn; by rewrite trace_app_nil|].
  unfold protocol_events. rewrite filter_cons. case_bool_decide as Ht.
  - rewrite decide_True by done. unfold emit. rewrite modify_bind, IH. by rewrite trace_app_add.
  - rewrite decide_False by done. rewrite ret_bind, IH. done.
Qed.

Lemma parse_run k num nonce text id data s :
  serves malloc 4096 -> mread (a_cipherkey (signature s)) 0 16 = Some k -> in_u 32 num -> zlen nonce = 12 -> no_nul text -> zlen text <= 4000 ->
  cJSON_Parse text = Message id data ->
  tuya_protocol_message_parse_process malloc cJSON_Parse (pv23_packet k nonce num text) s =
    Some (OPRT_OK, trace_app (protocol_events id data (protocol_list s)) s).
Proof.
  intros Hm Hk Hnum Hn Ht Hl Hj. pose proof (zlen_nonneg text). unfold tuya_protocol_message_parse_process. rewrite gets_bind.
  assert (Hlen : zlen (pv23_packet k nonce num text) = 40 + zlen text).
  { unfold pv23_packet. rewrite !zlen_app, gcm_seal_len, Hn. change (zlen (pv23_head num)) with 12. lia. }
  assert (Hp : tuya_parse_protocol_data malloc DP_CMD_MQ (Some (pv23_packet k nonce num text)) (i32 (zlen (pv23_packet k nonce num text)))
    (a_cipherkey (signature s)) = Some (OPRT_OK, Some (text ++ [0]))).
  { rewrite Hlen, swrap_small by (unfold in_s; lia). unfold tuya_parse_protocol_data. rewrite bool_decide_false by (unfold DATA_OFFSET_22_32; lia).
    change (bool_decide (DP_CMD_MQ = DP_CMD_LAN)) with false. change (bool_decide (DP_CMD_MQ = DP_CMD_MQ)) with true. cbv iota.
    rewrite <- (app_nil_r (pv23_packet k nonce num text)). apply (pv23_parse_ok malloc _ k 4096); try done; [lia|].
    change (2 ^ 31) with 2147483648. lia. }
  rewrite (lift_bind _ _ _ _ Hp). change (bool_decide (OPRT_OK <> OPRT_OK)) with false. cbv iota.
  rewrite (c_string_nul text []) by done. rewrite Hj, gets_bind. by rewrite (bind_step _ _ _ _ _ (protocol_loop_run id data (protocol_list s) s)).
Qed.

(** The subscriptions of other topics. *)
Lemma distribute_other (topic payload : bytes) l s : Forall (fun t => s_topic t <> topic) l ->
  for_each l (fun t => if bool_decide (s_topic t = topic) then subscribe_cb malloc cJSON_Parse (s_cb t) topic payload else mret tt) s = Some (tt, s).
Proof. induction 1 as [|t l Ht _ IH]; [done|]. cbn [for_each]. rewrite bool_decide_false by done. by rewrite ret_bind. Qed.

Lemma distribute_one (topic payload : bytes) a cb b s s' :
  subscribe_list s = a ++ Subscribe topic cb :: b -> Forall (fun t => s_topic t <> topic) (a ++ b) ->
  subscribe_cb malloc cJSON_Parse cb topic payload s = Some (tt, s') ->
  mqtt_subscribe_message_distribute malloc cJSON_Parse topic payload s = Some (tt, s').
Proof.
  intros Hl Ho Hr. apply Forall_app in Ho as [Ha Hb]. unfold mqtt_subscribe_message_distribute. rewrite gets_bind, Hl. clear Hl.
  revert Ha. induction a as [|t a IH]; intros Ha; cbn [app for_each].
  - rewrite bool_decide_true by done. cbn [s_cb]. rewrite (bind_step _ _ _ _ _ Hr). by apply distribute_other.
  - apply Forall_cons in Ha as [Ht Ha]. rewrite bool_decide_false by done. rewrite ret_bind. by apply IH.
Qed.

(** C20. A message of the cloud under the key of the device, on the topic of the device, reaches exactly the
    handlers of its protocol, each once, in the order of the list, and changes nothing else. *)
Theorem mqtt_message_delivered topic a b k num nonce text id data s :
  serves malloc 4096 -> mread (a_cipherkey (signature s)) 0 16 = Some k -> in_u 32 num -> zlen nonce = 12 ->
  no_nul text -> zlen text <= 4000 -> no_nul topic -> zlen topic <= 4000 ->
  subscribe_list s = a ++ Subscribe topic on_subscribe_message_default :: b -> Forall (fun t => s_topic t <> topic) (a ++ b) ->
  cJSON_Parse text = Message id data ->
  core_mqtt_library_callback malloc cJSON_Parse (PK_PUBLISH topic (pv23_packet k nonce num text)) s =
    Some (tt, trace_app ((fun t => M_protocol (h_cb t) (h_user_data t) (u16 id) data) <$> filter (fun t => h_id t = id) (protocol_list s)) s).
Proof.
  intros Hm Hk Hnum Hn Ht Hl Hto Htol Hsub Hoth Hj. pose proof (zlen_nonneg topic). cbn [core_mqtt_library_callback].
  destruct (Hm (zlen topic + 1)) as (m & -> & _); [lia|]. rewrite (c_string_nul topic []) by done.
  apply (distribute_one _ _ a on_subscribe_message_default b); [done|done|]. cbn [subscribe_cb].
  by rewrite (bind_step _ _ _ _ _ (parse_run k num nonce text id data s Hm Hk Hnum Hn Ht Hl Hj)).
Qed.

(** *** The loop over what waits *)

Definition expired (now : Z) (t : mqtt_publish_handle_t) : Prop := u32 (p_timeout t) <= now.

Lemma republish_run t s : client s = true ->
  exists t' s', republish library t s = Some (t', s') /\ client s' = true /\ p_user t' = p_user t /\ publish_list s' = publish_list s.
Proof.
  intros Hc. unfold republish. case_bool_decide; [|by exists t, s].
  unfold mqtt_client_publish, need_client. rewrite !bind_bind, gets_bind, Hc, ret_bind.
  unfold packet_id. rewrite !bind_bind, gets_bind, !bind_bind, gets_bind, !bind_bind, modify_bind, ret_bind.
  unfold emit. rewrite bind_bind, modify_bind, ret_bind. eexists _, _. split; [reflexivity|done].
Qed.

Lemma publish_loop_last now a t : Forall (fun t => ~ expired now t) a -> expired now t -> forall s, client s = true ->
  publish_loop library now (a ++ [t]) s = None.
Proof.
  intros Ha Ht. induction Ha as [|t' a Ht' _ IH]; intros s Hc; cbn [app publish_loop].
  - rewrite bool_decide_true by done. done.
  - rewrite bool_decide_false by done. destruct (republish_run t' s Hc) as (r & s' & Hr & Hc' & _).
    rewrite (bind_step _ _ _ _ _ Hr). unfold mbind, prog_bind. by rewrite IH.
Qed.

Lemma publish_loop_fresh now l : Forall (fun t => ~ expired now t) l -> forall s, client s = true ->
  exists r s', publish_loop library now l s = Some (r, s') /\ client s' = true /\ p_user <$> r = p_user <$> l.
Proof.
  induction 1 as [|t l Ht _ IH]; intros s Hc; cbn [publish_loop]; [by exists [], s|]. rewrite bool_decide_false by done.
  destruct (republish_run t s Hc) as (t' & s1 & Hr & Hc1 & Hu & _). destruct (IH s1 Hc1) as (r & s2 & Hl & Hc2 & Hru).
  exists (t' :: r), s2. rewrite (bind_step _ _ _ _ _ Hr), (bind_step _ _ _ _ _ Hl). split; [done|]. split; [done|]. cbn. by rewrite Hu, Hru.
Qed.

(** C39. When the message that was taken last is not acknowledged in time, the loop of the channel ends
    the device: it follows the removed entry to NULL. *)
Theorem mqtt_timeout_crashes now w a t s :
  is_inited s = true -> manual_disconnect s = false -> is_connected s = true -> client s = true ->
  publish_list s = a ++ [t] -> Forall (fun t => now < u32 (p_timeout t)) a -> u32 (p_timeout t) <= now ->
  tuya_mqtt_loop malloc library cJSON_Parse now w s = None.
Proof.
  intros Hi Hm Hk Hc Hl Ha Ht. unfold tuya_mqtt_loop. rewrite !gets_bind, Hi, Hm. cbn [negb orb]. rewrite gets_bind, Hk. cbn [negb].
  rewrite gets_bind, Hl. unfold mbind, prog_bind. rewrite publish_loop_last; [done| |done|done].
  eapply Forall_impl; [exact Ha|]. intros x Hx Hx2. unfold expired in Hx2. cbv beta in Hx. lia.
Qed.

(** *** Repetition *)

(** A callback that is registered for a topic is not registered for a longer topic that starts like it:
    the answer is success, the broker is asked for the messages, and they are dropped. *)
Theorem mqtt_prefix_lost topic rest cb msgid s payload :
  client s = true -> library (calls s) = msgid -> 0 < msgid -> rest <> [] -> subscribe_list s = [Subscribe topic cb] ->
  exists s', tuya_mqtt_subscribe_message_callback_register malloc library (topic ++ rest) (Some cb) s = Some (OPRT_OK, s') /\
    mq_trace s' = mq_trace s ++ [M_subscribe (topic ++ rest)] /\
    mqtt_subscribe_message_distribute malloc cJSON_Parse (topic ++ rest) payload s' = Some (tt, s').
Proof.
  intros Hc Hid Hpos Hr Hl. unfold tuya_mqtt_subscribe_message_callback_register, mqtt_client_subscribe, need_client.
  rewrite !bind_bind, gets_bind, Hc, ret_bind. unfold packet_id. rewrite !bind_bind, gets_bind, !bind_bind, gets_bind, !bind_bind, modify_bind, ret_bind.
  unfold emit. rewrite bind_bind, modify_bind, ret_bind. rewrite bool_decide_false by lia. rewrite gets_bind. cbn [subscribe_list trace_add set_calls]. rewrite Hl.
  cbn [existsb s_topic s_cb]. unfold starts. rewrite !bool_decide_true by (done || by apply prefix_app_r). cbn [andb orb].
  eexists. split; [reflexivity|]. split; [done|]. unfold mqtt_subscribe_message_distribute. rewrite gets_bind. cbn [subscribe_list trace_add set_calls]. rewrite Hl.
  apply distribute_other. repeat constructor. cbn. intros Heq. apply (f_equal length) in Heq. rewrite length_app in Heq. destruct rest; [done|cbn in Heq; lia].
Qed.

(** While no waiting message is out of time, a round of the loop is defined, keeps all of them in their
    order, and ends with the connection as it was. *)
Theorem mqtt_loop_keeps now w s :
  is_inited s = true -> manual_disconnect s = false -> is_connected s = true -> client s = true ->
  Forall (fun t => now < u32 (p_timeout t)) (publish_list s) -> w_packets w = [] -> w_alive w = true ->
  exists s', tuya_mqtt_loop malloc library cJSON_Parse now w s = Some (OPRT_OK, s') /\
    p_user <$> publish_list s' = p_user <$> publish_list s.
Proof.
  intros Hi Hm Hk Hc Hf Hw Ha. unfold tuya_mqtt_loop. rewrite !gets_bind, Hi, Hm. cbn [negb orb]. rewrite gets_bind, Hk. cbn [negb]. rewrite gets_bind.
  destruct (publish_loop_fresh now (publish_list s)) with (s := s) as (r & s1 & Hr & Hc1 & Hu); [|done|].
  { eapply Forall_impl; [exact Hf|]. intros x Hx Hx2. unfold expired in Hx2. cbv beta in Hx. lia. }
  rewrite (bind_step _ _ _ _ _ Hr), modify_bind. unfold mqtt_client_yield, need_client. rewrite Hw, Ha.
  rewrite !bind_bind, gets_bind. cbn [client set_publishes set_lists]. rewrite Hc1, ret_bind. cbn [for_each]. rewrite bind_bind, ret_bind, ret_bind.
  eexists. split; [reflexivity|done].
Qed.

(** *** Credentials *)

Lemma field_fits size text : 0 <= size -> zlen text < size -> exists f, field size text = Some f /\ (no_nul text -> c_string f = text).
Proof.
  intros Hs Ht. pose proof (zlen_nonneg text). unfold field, sprintf, zeros.
  rewrite mwrite_zeros by (rewrite zlen_snoc; lia). ub_step. cbn [fst]. eexists. split; [reflexivity|]. intros Hn.
  rewrite <- app_assoc. by apply c_string_nul.
Qed.

Lemma field_overflows size text : 0 <= size <= zlen text -> field size text = None.
Proof.
  intros Ht. unfold field, sprintf, mwrite. rewrite bool_decide_false; [done|].
  unfold zeros. rewrite zlen_snoc. unfold zlen at 2. rewrite length_replicate. lia.
Qed.

Definition password_text (digest : bytes) : bytes := concat (hex_byte <$> take 8 (drop 4 digest)).

Lemma password_run digest : zlen digest = 16 ->
  exists p, password_loop (zeros (TUYA_MQTT_PASSWORD_MAXLEN + 1)) digest (seqZ 0 8) = Some p.
Proof.
  intros Hd. change (seqZ 0 8) with [0; 1; 2; 3; 4; 5; 6; 7]. unfold zlen in Hd.
  do 16 (destruct digest as [|? digest]; [done|]). destruct digest; [|cbn in Hd; lia]. eexists. reflexivity.
Qed.

(** A device that is not activated yet gets its credentials when its identifier has at most 20
    characters: the client, the user with the version and the topic are made from it. With more
    characters the name of the user overflows its field. *)
Theorem mqtt_direct_credentials md5 uuid authkey :
  let meta := Meta (Some uuid) (Some authkey) None None None in let id := c_string uuid in
  (forall m, zlen (md5 m) = 16) -> 16 <= zlen authkey -> no_nul id ->
  if bool_decide (zlen id <= 20) then
    exists a, tuya_mqtt_signature_tool md5 meta = Some (OPRT_OK, a) /\ c_string (a_clientid a) = c_str "acon_" ++ id /\
      c_string (a_username a) = c_str "acon_" ++ id ++ c_str "|pv=2.3" /\ c_string (a_topic_in a) = c_str "d/ai/" ++ id
  else tuya_mqtt_signature_tool md5 meta = None.
Proof.
  intros meta id Hmd Ha Hn. pose proof (zlen_nonneg id). unfold tuya_mqtt_signature_tool. cbn [m_devid m_seckey m_localkey m_uuid m_authkey meta]. fold id.
  destruct (mread_is_Some authkey 0 16) as [k Hk]; [lia..|]. rewrite Hk. ub_step. apply mread_inv in Hk as (_ & _ & _ & Hk & _).
  assert (Hck : exists ck, mwrite (zeros (TUYA_MQTT_CIPHER_KEY_MAXLEN + 1)) 0 k = Some ck).
  { unfold zeros. rewrite mwrite_zeros by (unfold TUYA_MQTT_CIPHER_KEY_MAXLEN; lia). by eexists. }
  destruct Hck as [ck ->]. ub_step.
  unfold TUYA_MQTT_CLIENTID_MAXLEN, TUYA_MQTT_USERNAME_MAXLEN, TUYA_MQTT_TOPIC_MAXLEN.
  case_bool_decide as Hl.
  - destruct (field_fits (32 + 1) (c_str "acon_" ++ id)) as (f1 & -> & Hf1); [lia|rewrite zlen_app; change (zlen (c_str "acon_")) with 5; lia|]. ub_step.
    destruct (field_fits (32 + 1) (c_str "acon_" ++ id ++ c_str "|pv=" ++ TUYA_PV23)) as (f2 & -> & Hf2).
    { lia. } { rewrite !zlen_app. change (zlen (c_str "acon_")) with 5. change (zlen (c_str "|pv=")) with 4. change (zlen TUYA_PV23) with 3. lia. } ub_step.
    destruct (password_run (md5 (c_string authkey)) (Hmd _)) as [p ->]. ub_step.
    destruct (field_fits (64 + 1) (c_str "d/ai/" ++ id)) as (f3 & -> & Hf3); [lia|rewrite zlen_app; change (zlen (c_str "d/ai/")) with 5; lia|]. ub_step.
    destruct (field_fits (64 + 1) []) as (f4 & -> & _); [lia|done|]. ub_step. eexists. split; [reflexivity|]. cbn [a_clientid a_username a_topic_in].
    unfold no_nul in *. split_and!; [apply Hf1|rewrite Hf2; [done|]|apply Hf3]; rewrite ?Forall_app; split_and!; try done; by repeat constructor.
  - destruct (decide (zlen id <= 27)) as [Hl2|].
    + destruct (field_fits (32 + 1) (c_str "acon_" ++ id)) as (f1 & -> & Hf1); [lia|rewrite zlen_app; change (zlen (c_str "acon_")) with 5; lia|]. ub_step.
      rewrite field_overflows; [done|]. rewrite !zlen_app. change (zlen (c_str "acon_")) with 5. change (zlen (c_str "|pv=")) with 4. change (zlen TUYA_PV23) with 3. lia.
    + rewrite field_overflows; [done|]. rewrite zlen_app. change (zlen (c_str "acon_")) with 5. lia.
Qed.

(** *** The progress of an upgrade *)

(** The report of the progress of an upgrade has its result inverted: without a connection it answers
    success and sends nothing; when the message was handed to the library it answers an error. *)
Theorem mqtt_progress_inverted channel percent drawn posix random k s :
  serves malloc 4096 -> percent <= 100 -> - 2 ^ 31 <= channel < 2 ^ 31 -> - 2 ^ 31 <= percent ->
  is_inited s = true -> client s = true -> mread (a_cipherkey (signature s)) 0 16 = Some k -> 0 < library (calls s) ->
  exists s', tuya_mqtt_upgrade_progress_report malloc library channel percent drawn posix random s =
      Some (if is_connected s then OPRT_COM_ERROR else OPRT_OK, s') /\
    (if is_connected s then exists payload, mq_trace s' = mq_trace s ++ [M_publish (c_string (a_topic_out (signature s))) payload MQTT_QOS_0 (library (calls s))]
     else s' = s).
Proof.
  intros Hm Hp Hch Hpe Hi Hc Hk Hlib. change (2 ^ 31) with 2147483648 in *. unfold tuya_mqtt_upgrade_progress_report. rewrite bool_decide_false by lia.
  destruct (Hm 128) as (b & -> & Hb); [lia|]. set (text := progress_text channel percent).
  assert (Ht : zlen text <= 100).
  { unfold text, progress_text. rewrite !zlen_app. pose proof (dec_word_len channel ltac:(lia)). pose proof (dec_word_len percent ltac:(lia)).
    change (zlen (c_str "{")) with 1. change (zlen (c_str "progress")) with 8. change (zlen (c_str ":")) with 1. change (zlen (c_str ",")) with 1.
    change (zlen (c_str "firmwareType")) with 12. change (zlen (c_str "}")) with 1. change (zlen [34]) with 1. lia. }
  pose proof (zlen_nonneg text).
  assert (Hs : sprintf b 0 text = Some (text ++ [0] ++ drop (Z.to_nat (zlen text + 1)) b, zlen text)).
  { unfold sprintf. change b with ([] ++ b) at 1. rewrite mwrite_next by (done || (rewrite zlen_snoc; lia)). ub_step. rewrite zlen_snoc.
    cbn [app]. by rewrite <- app_assoc. }
  rewrite (lift_bind _ _ _ _ Hs). cbv iota beta.
  assert (Htn : no_nul text).
  { unfold text, progress_text, no_nul. rewrite !Forall_app. split_and!; try (by repeat constructor); apply no_nul_dec. }
  assert (Hcs : c_string (text ++ [0] ++ drop (Z.to_nat (zlen text + 1)) b) = text).
  { by apply c_string_nul. }
  rewrite Hcs. unfold tuya_mqtt_protocol_data_publish, tuya_mqtt_protocol_data_publish_with_topic. rewrite bind_bind, gets_bind.
  unfold tuya_mqtt_protocol_data_publish_with_topic_common. rewrite !bind_bind, gets_bind, !bind_bind, gets_bind, !bind_bind, gets_bind, !bind_bind, gets_bind, !bind_bind, gets_bind, Hi.
  cbn [negb]. destruct (is_connected s) eqn:Hcon; cbn [negb].
  - set (num := tuya_pack_protocol_serial_no (serial_no s) drawn). set (msg := message_text PRO_UPGE_PUSH posix text).
    assert (Hml : zlen msg <= 146) by (unfold msg, message_text; rewrite zlen_snoc; pose proof (json_text_len PRO_UPGE_PUSH posix text ltac:(done)); lia).
    assert (Hpk : tuya_pack_protocol_data malloc DP_CMD_MQ (Some text) PRO_UPGE_PUSH (a_cipherkey (signature s)) (serial_no s) drawn posix random =
      Some (num, OPRT_OK, Some (pv23_packet k (uni_random_string random 12) num msg, 40 + zlen msg))).
    { unfold tuya_pack_protocol_data. change (bool_decide (DP_CMD_MQ = DP_CMD_LAN)) with false. change (bool_decide (DP_CMD_MQ = DP_CMD_MQ)) with true. cbv iota.
      fold num. rewrite (pv23_pack_ok malloc text PRO_UPGE_PUSH num (a_cipherkey (signature s)) k posix random 4096 Hm Hk) by (done || lia). done. }
    rewrite bind_bind, (lift_bind _ _ _ _ Hpk). rewrite bind_bind, modify_bind. change (bool_decide (OPRT_OK <> OPRT_OK)) with false. cbv iota.
    set (pkt := pv23_packet _ _ _ _). assert (Hpl : zlen pkt = 40 + zlen msg).
    { unfold pkt, pv23_packet. rewrite !zlen_app, gcm_seal_len. change (zlen (pv23_head num)) with 12.
      change (zlen (uni_random_string random 12)) with 12. lia. }
    pose proof (zlen_nonneg msg). destruct (mread_is_Some pkt 0 (40 + zlen msg)) as [payload Hr]; [lia..|].
    rewrite bind_bind, (lift_bind _ _ _ _ Hr). unfold tuya_mqtt_client_publish_common, mqtt_client_publish, need_client.
    rewrite !bind_bind, gets_bind. cbn [client set_calls]. rewrite Hc, ret_bind. unfold packet_id.
    rewrite !bind_bind, gets_bind, !bind_bind, gets_bind, !bind_bind, modify_bind, ret_bind. unfold emit. rewrite bind_bind, modify_bind, ret_bind, ret_bind.
    cbn [calls set_calls]. rewrite (bool_decide_false (library (calls s) <= 0)) by lia.
    eexists. split; [reflexivity|]. by exists payload.
  - rewrite ret_bind. eexists. split; [reflexivity|done].
Qed.
End exact.

(** ** A run, for the witnesses *)
Definition demo_md5 (m : bytes) : bytes := replicate 16 0xAB.
Definition demo_meta : tuya_meta_info_t := Meta (Some (c_str "uuid0123456789ab" ++ [0])) (Some (demo_key ++ demo_key ++ [0])) None None None.
Definition demo_library (n : Z) : Z := n + 1.
Definition demo_json (t : bytes) : mqtt_json Z := if bool_decide (t = c_str "{}") then Message 5 1 else BadJson.
Definition good_world (packets : list mqtt_packet) : mqtt_world := World true MQTTSuccess None packets true.

Definition mqtt_after (l : list ((Z -> option bytes) * mqtt_op)) : tuya_mqtt_context_t Z :=
  default (Mqtt Z false access_zero [] [] [] false false false false false false 0 0 [])
    (r ← tuya_mqtt_init demo_md5 demo_meta true true true true true 0 0; r ← mqtt_history demo_library demo_json l (snd r); Some (snd r)).
Definition demo_ops : list ((Z -> option bytes) * mqtt_op) :=
  [(demo_malloc, O_register 5 (Some 70) 71); (demo_malloc, O_register 5 (Some 80) 81); (demo_malloc, O_start (good_world []));
   (demo_malloc, O_publish (Some (c_str "t")) (Some [1; 2]) (Some 1) 10 100 true);
   (demo_malloc, O_publish (Some (c_str "t")) (Some [3]) (Some 2) 50 100 true);
   (demo_malloc, O_loop 101 (good_world [PK_PUBACK 3]))].

Lemma mqtt_publish_conserved_witness :
  let s := mqtt_after demo_ops in
  queued (mq_trace s) = [1; 2] /\ notified (mq_trace s) = [2] /\ queued (mq_trace s) ≡ₚ notified (mq_trace s) ++ (p_user <$> publish_list s).
Proof.
  split; [by vm_compute|]. split; [by vm_compute|].
  destruct (tuya_mqtt_init (J := Z) demo_md5 demo_meta true true true true true 0 0) as [[rt s0]|] eqn:Hi; [|by vm_compute in Hi].
  eapply (mqtt_publish_conserved demo_library demo_json demo_md5 demo_meta true true true true true 0 0 rt s0 demo_ops); [exact Hi|].
  vm_compute in Hi. injection Hi as <- <-. vm_compute. reflexivity.
Defined.

Definition demo_topic : bytes := c_str "d/ai/uuid0123456789ab".

Lemma mqtt_message_delivered_witness :
  let s := mqtt_after demo_ops in
  core_mqtt_library_callback demo_malloc demo_json (PK_PUBLISH demo_topic (pv23_packet demo_key (replicate 12 9) 7 (c_str "{}"))) s =
    Some (tt, trace_app [M_protocol 80 81 5 1; M_protocol 70 71 5 1] s).
Proof.
  intros s. etransitivity; [apply (mqtt_message_delivered demo_malloc demo_json demo_topic [] [] demo_key 7 (replicate 12 9) (c_str "{}") 5 1 s demo_malloc_serves)|];
    try (by vm_compute); try done; by repeat constructor.
Defined.

Lemma mqtt_timeout_crashes_witness :
  tuya_mqtt_loop demo_malloc demo_library demo_json 200 (good_world []) (mqtt_after demo_ops) = None.
Proof.
  apply (mqtt_timeout_crashes demo_malloc demo_library demo_json 200 (good_world []) [] (Publish 2 110 (c_str "t") [1; 2] 1));
    [by vm_compute..|constructor|by vm_compute].
Defined.

Lemma mqtt_loop_keeps_witness :
  exists s', tuya_mqtt_loop demo_malloc demo_library demo_json 105 (good_world []) (mqtt_after demo_ops) = Some (OPRT_OK, s') /\
    p_user <$> publish_list s' = p_user <$> publish_list (mqtt_after demo_ops).
Proof.
  apply (mqtt_loop_keeps demo_malloc demo_library demo_json 105); [by vm_compute..| |done|done].
  assert (Hl : publish_list (mqtt_after demo_ops) = [Publish 2 110 (c_str "t") [1; 2] 1]) by (vm_compute; reflexivity).
  rewrite Hl. constructor; [by vm_compute|constructor].
Defined.

Lemma mqtt_prefix_lost_witness :
  let s := mqtt_after [(demo_malloc, O_subscribe (c_str "a") (Some (SubCb 9)))] in
  exists s', tuya_mqtt_subscribe_message_callback_register demo_malloc demo_library (c_str "a" ++ c_str "b") (Some (SubCb 9)) s = Some (OPRT_OK, s') /\
    mq_trace s' = mq_trace s ++ [M_subscribe (c_str "a" ++ c_str "b")] /\
    mqtt_subscribe_message_distribute demo_malloc demo_json (c_str "a" ++ c_str "b") [1] s' = Some (tt, s').
Proof. intros s. apply (mqtt_prefix_lost demo_malloc demo_library demo_json (c_str "a") (c_str "b") (SubCb 9) 2 s [1]); by vm_compute. Defined.

Lemma mqtt_direct_credentials_witness :
  tuya_mqtt_signature_tool demo_md5 (Meta (Some (replicate 21 65 ++ [0])) (Some demo_key) None None None) = None.
Proof.
  pose proof (mqtt_direct_credentials demo_md5 (replicate 21 65 ++ [0]) demo_key) as Hd. cbv zeta in Hd.
  rewrite bool_decide_false in Hd by (by vm_compute). apply Hd; [done|by vm_compute|vm_compute; by repeat constructor].
Defined.

Lemma mqtt_progress_inverted_witness :
  exists s', tuya_mqtt_upgrade_progress_report demo_malloc demo_library 0 50 3 100 (fun i => i) (mqtt_after demo_ops) = Some (OPRT_COM_ERROR, s').
Proof.
  destruct (mqtt_progress_inverted demo_malloc demo_library 0 50 3 100 (fun i => i) demo_key (mqtt_after demo_ops) demo_malloc_serves) as (s' & Hr & _);
    [lia|lia|lia|by vm_compute..|]. exists s'. exact Hr.
Defined.
