(* ===== verification/TimeService.v ===== *)
(** * Time service

    src/src/tal_system/src/tal_time_serivce.c: conversion between seconds and calendar dates, the
    clock on the millisecond counter, time zones and summer time. The mutex makes each operation
    atomic; [ms] is the value that [tal_system_get_millisecond] returns. *)
From S2P Require Import Prelude.

Definition SEC_PER_DAY : Z := 86400.
Definition SEC_PER_HOUR : Z := 3600.
Definition SEC_PER_YR : list Z := [31536000; 31622400].
Definition SEC_PER_MT : list (list Z) :=
  [[2678400; 2419200; 2678400; 2592000; 2678400; 2592000; 2678400; 2678400; 2592000; 2678400; 2592000; 2678400];
   [2678400; 2505600; 2678400; 2592000; 2678400; 2592000; 2678400; 2678400; 2592000; 2678400; 2592000; 2678400]].
Definition SUM_ZONE_TAB_LMT : Z := 6.

Record POSIX_TM_S := Tm {
  tm_sec : Z; tm_min : Z; tm_hour : Z; tm_mday : Z; tm_mon : Z; tm_year : Z; tm_wday : Z }.

(** The number of zones and the array. *)
Record SUM_ZONE_TBL_S := ZoneTbl { sz_cnt : Z; sz_zone : list (Z * Z) }.

(** The static variables; [last_ms] and [roll_ms] are those of [tal_time_get_system_time]. *)
Record time_state := Time {
  s_time_last_ms : Z;
  s_time_tz_sync : bool;
  s_time_tz : Z;
  s_time_sz_tbl : SUM_ZONE_TBL_S;
  s_time_cloud_sync : bool;
  s_time_cloud_posix : Z;
  s_time_disable_update : bool;
  last_ms : Z;
  roll_ms : Z }.

Definition no_zones : SUM_ZONE_TBL_S := ZoneTbl 0 (replicate 6 (0, 0)).
Definition time_start : time_state := Time 0 false 0 no_zones false 0 false 0 0.

(** A result of type [int]: overflow is undefined. *)
Definition chk (z : Z) : option Z := if bool_decide (- 2 ^ 31 <= z < 2 ^ 31) then Some z else None.

(** ** Calendar dates *)

Definition is_leap (yr : Z) : Z :=
  if bool_decide (Z.rem yr 100 = 0) then (if bool_decide (Z.rem yr 400 = 0) then 1 else 0)
  else (if bool_decide (Z.rem yr 4 = 0) then 1 else 0).

Definition is_valid_date_time (tm : POSIX_TM_S) : option Z :=
  if bool_decide (tm_sec tm > 59) then Some (-1)
  else if bool_decide (tm_min tm > 59) then Some (-1)
  else if bool_decide (tm_hour tm > 23) then Some (-1)
  else
    y ← chk (tm_year tm + 1900);
    if bool_decide (y < 1970) || bool_decide (y > 2111) then Some (-1)
    else if bool_decide (tm_mon tm >= 12) then Some (-1)
    else if bool_decide (tm_mon tm = 1) &&
            (if bool_decide (is_leap y = 0) then bool_decide (tm_mday tm > 28) else bool_decide (tm_mday tm > 29))
    then Some (-1)
    else if bool_decide (tm_mon tm ∈ [3; 5; 8; 10]) && bool_decide (tm_mday tm > 30) then Some (-1)
    else if bool_decide (tm_mday tm < 1) || bool_decide (tm_mday tm > 31) then Some (-1)
    else Some 0.

Definition dow_table : list Z := [0; 3; 2; 5; 0; 3; 5; 1; 4; 6; 2; 4].

(** [month], [day]: 8 bits; [year]: 16 bits. *)
Definition get_day_of_week (month day year : Z) : option Z :=
  let year := u16 (year - (if bool_decide (month < 3) then 1 else 0)) in
  t ← zget dow_table (month - 1);
  Some (u8 (Z.rem (year + Z.quot year 4 - Z.quot year 100 + Z.quot year 400 + t + day) 7)).

(** The loops of [tal_time_mktime]; [time] has 32 bits. *)
Fixpoint mk_years (n : nat) (i time : Z) : option Z :=
  match n with
  | O => Some time
  | S n => s ← zget SEC_PER_YR (is_leap i); mk_years n (i + 1) (u32 (time + s))
  end.

Fixpoint mk_months (n : nat) (leapyr i time : Z) : option Z :=
  match n with
  | O => Some time
  | S n => row ← zget SEC_PER_MT leapyr; s ← zget row i; mk_months n leapyr (i + 1) (u32 (time + s))
  end.

Definition tal_time_mktime (tm : option POSIX_TM_S) : option Z :=
  match tm with
  | None => Some 0
  | Some tm =>
      y ← chk (tm_year tm + 1900);
      time ← mk_years (Z.to_nat (y - 1970)) 1970 0;
      let leapyr := if bool_decide (is_leap y <> 0) then 1 else 0 in
      time ← mk_months (Z.to_nat (tm_mon tm)) leapyr 0 time;
      d ← chk (tm_mday tm - 1);
      d ← chk (d * SEC_PER_DAY);
      h ← chk (tm_hour tm * SEC_PER_HOUR);
      m ← chk (tm_min tm * 60);
      Some (u32 (u32 (u32 (u32 (time + d) + h) + m) + tm_sec tm))
  end.

(** The loops of [tal_time_gmtime_r], at most [fuel] rounds. *)
Fixpoint gm_years (fuel : nat) (ltm year : Z) : option (Z * Z) :=
  match fuel with
  | O => None
  | S fuel =>
      s ← zget SEC_PER_YR (is_leap year);
      if bool_decide (ltm < s) then Some (ltm, year) else gm_years fuel (u32 (ltm - s)) (year + 1)
  end.

Fixpoint gm_months (fuel : nat) (leapyr ltm mon : Z) : option (Z * Z) :=
  match fuel with
  | O => None
  | S fuel =>
      row ← zget SEC_PER_MT leapyr;
      s ← zget row mon;
      if bool_decide (ltm < s) then Some (ltm, mon) else gm_months fuel leapyr (u32 (ltm - s)) (mon + 1)
  end.

(** A number of 32 bits is less than 137 years, a year has 12 months. *)
Definition tal_time_gmtime_r (tm : Z) : option POSIX_TM_S :=
  r ← gm_years 140 tm 1970;
  let '(ltm, year) := r in
  r ← gm_months 12 (is_leap year) ltm 0;
  let '(ltm, mon) := r in
  let mday := ltm `div` SEC_PER_DAY + 1 in
  let ltm := ltm `mod` SEC_PER_DAY in
  let hour := ltm `div` SEC_PER_HOUR in
  let ltm := ltm `mod` SEC_PER_HOUR in
  wday ← get_day_of_week (u8 (mon + 1)) (u8 mday) (u16 year);
  Some (Tm (ltm `mod` 60) (ltm `div` 60) hour mday mon (year - 1900) wday).

(** ** The clock *)

(** [created]: the mutex exists; [mutex_ret]: the result of creating it. *)
Definition tal_time_service_init (g : time_state) (created : bool) (mutex_ret ms : Z) : Z * time_state :=
  if created then (OPRT_OK, g)
  else if bool_decide (OPRT_OK <> mutex_ret) then (mutex_ret, g)
  else (OPRT_OK, Time ms (s_time_tz_sync g) (s_time_tz g) no_zones (s_time_cloud_sync g) 0
                      (s_time_disable_update g) (last_ms g) (roll_ms g)).

Definition set_clock (g : time_state) (ms posix : Z) : time_state :=
  Time ms (s_time_tz_sync g) (s_time_tz g) (s_time_sz_tbl g) (s_time_cloud_sync g) posix
       (s_time_disable_update g) (last_ms g) (roll_ms g).

Definition set_cloud_sync (g : time_state) : time_state :=
  Time (s_time_last_ms g) (s_time_tz_sync g) (s_time_tz g) (s_time_sz_tbl g) true (s_time_cloud_posix g)
       (s_time_disable_update g) (last_ms g) (roll_ms g).

Definition set_tz (g : time_state) (tz : Z) (sync : bool) : time_state :=
  Time (s_time_last_ms g) sync tz (s_time_sz_tbl g) (s_time_cloud_sync g) (s_time_cloud_posix g)
       (s_time_disable_update g) (last_ms g) (roll_ms g).

Definition set_sz_tbl (g : time_state) (t : SUM_ZONE_TBL_S) : time_state :=
  Time (s_time_last_ms g) (s_time_tz_sync g) (s_time_tz g) t (s_time_cloud_sync g) (s_time_cloud_posix g)
       (s_time_disable_update g) (last_ms g) (roll_ms g).

Definition set_system (g : time_state) (last roll : Z) : time_state :=
  Time (s_time_last_ms g) (s_time_tz_sync g) (s_time_tz g) (s_time_sz_tbl g) (s_time_cloud_sync g)
       (s_time_cloud_posix g) (s_time_disable_update g) last roll.

Definition tal_time_set_posix (g : time_state) (time update_source ms : Z) : Z * time_state :=
  if s_time_disable_update g then (OPRT_OK, g)
  else
    let g := set_clock g ms time in
    (OPRT_OK, if bool_decide (update_source = 1) then set_cloud_sync g else g).

Definition tal_time_set (g : time_state) (tm : POSIX_TM_S) (ms : Z) : option (Z * time_state) :=
  v ← is_valid_date_time tm;
  if bool_decide (v = 0) then time ← tal_time_mktime (Some tm); Some (tal_time_set_posix g time 2 ms)
  else Some (OPRT_COM_ERROR, g).

Definition tal_time_get_cur_posix (g : time_state) : Z := s_time_cloud_posix g.

Definition tal_time_check_time_sync (g : time_state) : Z :=
  if s_time_cloud_sync g then OPRT_OK else OPRT_COM_ERROR.

Definition tal_time_check_time_zone_sync (g : time_state) : Z :=
  if s_time_tz_sync g then OPRT_OK else OPRT_COM_ERROR.

(** The counter started again from 0. *)
Definition recycle (g : time_state) (ms : Z) : time_state :=
  if bool_decide (s_time_last_ms g > ms)
  then set_clock g 0 (u32 (s_time_cloud_posix g + u64 (0x100000000 - s_time_last_ms g) `div` 1000))
  else g.

Definition tal_time_get_posix (g : time_state) (ms : Z) : Z * time_state :=
  let g := recycle g ms in
  (u32 (s_time_cloud_posix g + u64 (ms - s_time_last_ms g) `div` 1000), g).

Definition tal_time_get_posix_ms (g : time_state) (ms : Z) : Z * time_state :=
  let g := recycle g ms in
  (u64 (u64 (s_time_cloud_posix g * 1000) + u64 (ms - s_time_last_ms g)), g).

Definition tal_time_get (g : time_state) (ms : Z) : option (POSIX_TM_S * time_state) :=
  let '(curtime, g) := tal_time_get_posix g ms in
  tm ← tal_time_gmtime_r curtime; Some (tm, g).

(** Seconds and milliseconds, before the conversion to [unsigned long]. *)
Definition tal_time_get_system_time (g : time_state) (ms : Z) : Z * Z * time_state :=
  let roll := if bool_decide (last_ms g > ms) then u64 (roll_ms g + 0x100000000) else roll_ms g in
  let t := u64 (ms + roll) in
  (t `div` 1000, t `mod` 1000, set_system g ms roll).

(** ** Time zones *)

Definition isspace (c : Z) : bool := bool_decide (c = 32) || bool_decide (9 <= c <= 13).
Definition isdigit (c : Z) : bool := bool_decide (48 <= c <= 57).

Fixpoint skip_space (s : bytes) : bytes :=
  match s with c :: s' => if isspace c then skip_space s' else s | [] => [] end.

Fixpoint scan_digits (s : bytes) (acc : Z) : Z * bytes :=
  match s with
  | c :: s' => if isdigit c then scan_digits s' (acc * 10 + (c - 48)) else (acc, s)
  | [] => (acc, [])
  end.

(** The conversion [%d] of sscanf: [Some None] when nothing matches; a number that is no [int] is
    undefined. *)
Definition scan_d (s : bytes) : option (option (Z * bytes)) :=
  let s := skip_space s in
  let '(neg, s) := match s with
                   | c :: s' => if bool_decide (c = 45) then (true, s')
                                else if bool_decide (c = 43) then (false, s') else (false, s)
                   | [] => (false, s) end in
  match s with
  | c :: _ =>
      if isdigit c then
        let '(v, s) := scan_digits s 0 in
        v ← chk (if neg then - v else v); Some (Some (v, s))
      else Some None
  | [] => Some None
  end.

(** The code and the seconds. *)
Definition get_time_zone (time_zone : bytes) : option (Z * option Z) :=
  let has c := bool_decide (c ∈ time_zone) in
  let offset := if has 43 || has 45 then 1%nat else 0%nat in
  let plus := has 43 || negb (has 45) in
  r ← scan_d (drop offset time_zone);
  match r with
  | Some (h, 58 :: s) =>
      r ← scan_d s;
      match r with
      | Some (m, _) =>
          p ← chk (h * 60);
          p ← chk (p + m);
          p ← chk (p * 60);
          Some (OPRT_OK, Some (if plus then p else - p))
      | None => Some (OPRT_INVALID_PARM, None)
      end
  | _ => Some (OPRT_INVALID_PARM, None)
  end.

Definition tal_time_set_time_zone (g : time_state) (time_zone : bytes) : option (Z * time_state) :=
  r ← get_time_zone time_zone;
  match r with
  | (_, Some tz) => Some (OPRT_OK, set_tz g tz true)
  | (op_ret, None) => Some (op_ret, g)
  end.

Definition tal_time_get_time_zone_seconds (g : time_state) : Z * Z := (OPRT_OK, s_time_tz g).

Definition tal_time_set_time_zone_seconds (g : time_state) (tz : Z) : Z * time_state :=
  (OPRT_OK, set_tz g tz true).

(** ** Summer time *)

(** [zone]: [None] for NULL, else the array behind the pointer. *)
Definition tal_time_set_sum_zone_tbl (g : time_state) (zone : option (list (Z * Z))) (cnt : Z)
    : option time_state :=
  let t := s_time_sz_tbl g in
  match zone with
  | None => Some (set_sz_tbl g (ZoneTbl 0 (sz_zone t)))
  | Some zone =>
      if bool_decide (cnt = 0) then Some (set_sz_tbl g (ZoneTbl 0 (sz_zone t)))
      else
        let cnt := if bool_decide (cnt > SUM_ZONE_TAB_LMT) then SUM_ZONE_TAB_LMT else cnt in
        z ← memcpy (sz_zone t) 0 zone 0 cnt;
        Some (set_sz_tbl g (ZoneTbl cnt z))
  end.

Definition tal_time_is_in_sum_zone (g : time_state) (time : Z) : bool :=
  existsb (fun z => bool_decide (fst z <= time <= snd z))
    (take (Z.to_nat (sz_cnt (s_time_sz_tbl g))) (sz_zone (s_time_sz_tbl g))).

(** The time is read twice. *)
Definition is_in_sum_zone (g : time_state) (ms1 ms2 : Z) : bool * time_state :=
  let '(time, g) := tal_time_get_posix g ms1 in
  let '(again, g) := tal_time_get_posix g ms2 in
  (if bool_decide (time > again) then false else tal_time_is_in_sum_zone g time, g).

Definition tal_time_get_local_time_custom (g : time_state) (in_time : Z) (ms0 ms1 ms2 : Z)
    : option (POSIX_TM_S * time_state) :=
  let '(local_time, g) :=
    if bool_decide (in_time = 0) then let '(t, g) := tal_time_get_posix g ms0 in (u32 (t + s_time_tz g), g)
    else (u32 (in_time + s_time_tz g), g) in
  let '(summer, g) := is_in_sum_zone g ms1 ms2 in
  let local_time := if (summer : bool) then u32 (local_time + SEC_PER_HOUR) else local_time in
  tm ← tal_time_gmtime_r local_time; Some (tm, g).

Definition tal_time_get_sum_time_posix (g : time_state) (ms0 ms1 ms2 : Z) : Z * time_state :=
  let '(time, g) := tal_time_get_posix g ms0 in
  let '(summer, g) := is_in_sum_zone g ms1 ms2 in
  (if (summer : bool) then u32 (time + SEC_PER_HOUR) else time, g).

Definition tal_time_get_sum_time (g : time_state) (ms0 ms1 ms2 : Z) : option (POSIX_TM_S * time_state) :=
  let '(time, g) := tal_time_get_sum_time_posix g ms0 ms1 ms2 in
  tm ← tal_time_gmtime_r time; Some (tm, g).

Definition tal_time_get_sum_zone (g : time_state) : SUM_ZONE_TBL_S := s_time_sz_tbl g.

Definition tal_time_config_update (g : time_state) (disable : bool) : Z * time_state :=
  (OPRT_OK, Time (s_time_last_ms g) (s_time_tz_sync g) (s_time_tz g) (s_time_sz_tbl g) (s_time_cloud_sync g)
                 (s_time_cloud_posix g) disable (last_ms g) (roll_ms g)).

(** ** The calendar *)

(** Days since 1970-01-01 of the proleptic Gregorian calendar, without loops. *)
Definition leaps (y : Z) : Z := y `div` 4 - y `div` 100 + y `div` 400.
Definition leap_year (y : Z) : Z :=
  if bool_decide (y `mod` 4 = 0 /\ (y `mod` 100 <> 0 \/ y `mod` 400 = 0)) then 1 else 0.
Definition year_days (y : Z) : Z := 365 * (y - 1970) + (leaps (y - 1) - leaps 1969).
Definition cum_days : list Z := [0; 31; 59; 90; 120; 151; 181; 212; 243; 273; 304; 334; 365].
Definition month_days (y m : Z) : Z := default 0 (zget cum_days m) + (if bool_decide (2 <= m) then leap_year y else 0).
Definition month_len (y m : Z) : Z := month_days y (m + 1) - month_days y m.

(** A date and time of day; [secs]: its distance from the epoch. *)
Definition date_ok (tm : POSIX_TM_S) : Prop :=
  1970 <= tm_year tm + 1900 < 10000 /\ 0 <= tm_mon tm < 12 /\
  1 <= tm_mday tm <= month_len (tm_year tm + 1900) (tm_mon tm) /\
  0 <= tm_hour tm < 24 /\ 0 <= tm_min tm < 60 /\ 0 <= tm_sec tm < 60.
Definition days (tm : POSIX_TM_S) : Z :=
  year_days (tm_year tm + 1900) + month_days (tm_year tm + 1900) (tm_mon tm) + (tm_mday tm - 1).
Definition secs (tm : POSIX_TM_S) : Z :=
  SEC_PER_DAY * days tm + SEC_PER_HOUR * tm_hour tm + 60 * tm_min tm + tm_sec tm.

Lemma is_leap_year y : 0 <= y -> is_leap y = leap_year y.
Proof.
  intros Hy. unfold is_leap, leap_year. rewrite !Z.rem_mod_nonneg by lia.
  repeat case_bool_decide; try done; exfalso; Z.div_mod_to_equations; lia.
Qed.

Lemma leap_year_01 y : leap_year y = 0 \/ leap_year y = 1.
Proof. unfold leap_year. case_bool_decide; auto. Qed.

Lemma year_days_succ y : year_days (y + 1) = year_days y + 365 + leap_year y.
Proof.
  unfold year_days, leaps, leap_year. replace (y + 1 - 1) with y by lia.
  case_bool_decide; Z.div_mod_to_equations; lia.
Qed.

Lemma sec_per_yr y : 0 <= y -> zget SEC_PER_YR (is_leap y) = Some (SEC_PER_DAY * (365 + leap_year y)).
Proof. intros. rewrite is_leap_year by done. by destruct (leap_year_01 y) as [-> | ->]. Qed.

Lemma below_12 m : 0 <= m < 12 ->
  m = 0 \/ m = 1 \/ m = 2 \/ m = 3 \/ m = 4 \/ m = 5 \/ m = 6 \/ m = 7 \/ m = 8 \/ m = 9 \/ m = 10 \/ m = 11.
Proof. lia. Qed.

Lemma sec_per_mt y m : 0 <= m < 12 ->
  exists row, zget SEC_PER_MT (leap_year y) = Some row /\ zget row m = Some (SEC_PER_DAY * month_len y m).
Proof.
  intros Hm. unfold month_len, month_days. destruct (leap_year_01 y) as [-> | ->];
    (eexists; split; [done|]); apply below_12 in Hm; repeat destruct Hm as [-> | Hm]; subst; done.
Qed.

Lemma year_days_mono y n : 0 <= n -> year_days y + 365 * n <= year_days (y + n).
Proof.
  intros Hn. pattern n. apply natlike_ind; [replace (y + 0) with y by lia; lia| |done].
  intros m Hm IH. replace (y + Z.succ m) with (y + m + 1) by lia. rewrite year_days_succ.
  destruct (leap_year_01 (y + m)); lia.
Qed.

Lemma month_len_pos y m : 0 <= m < 12 -> 28 <= month_len y m <= 31.
Proof.
  intros Hm. unfold month_len, month_days. destruct (leap_year_01 y) as [-> | ->];
    apply below_12 in Hm; repeat destruct Hm as [-> | Hm]; subst; by vm_compute.
Qed.

Lemma month_days_mono y m n : 0 <= m -> 0 <= n -> m + n <= 12 -> month_days y m <= month_days y (m + n).
Proof.
  intros Hm Hn. pattern n. apply natlike_ind; [replace (m + 0) with m by lia; lia| |done].
  intros k Hk IH Hle. pose proof (month_len_pos y (m + k) ltac:(lia)) as Hl. unfold month_len in Hl.
  replace (m + Z.succ k) with (m + k + 1) by lia. lia.
Qed.

Lemma month_days_le y m : 0 <= m <= 12 -> 0 <= month_days y m <= 366.
Proof.
  intros Hm. unfold month_days. destruct (decide (m = 12)) as [->|].
  - destruct (leap_year_01 y) as [-> | ->]; by vm_compute.
  - assert (Hm' : 0 <= m < 12) by lia. destruct (leap_year_01 y) as [-> | ->];
      apply below_12 in Hm'; repeat destruct Hm' as [-> | Hm']; subst; by vm_compute.
Qed.

Lemma mk_years_ok n : forall i t, 0 <= i ->
  mk_years n i (u32 t) = Some (u32 (t + SEC_PER_DAY * (year_days (i + Z.of_nat n) - year_days i))).
Proof.
  induction n as [|n IH]; intros i t Hi; cbn [mk_years].
  { replace (i + Z.of_nat 0) with i by lia. do 2 f_equal. lia. }
  rewrite (sec_per_yr i Hi). ub_step. rewrite wrap_add_l, IH by lia. do 2 f_equal.
  replace (i + 1 + Z.of_nat n) with (i + Z.of_nat (S n)) by lia.
  pose proof (year_days_succ i). unfold SEC_PER_DAY. lia.
Qed.

Lemma mk_months_ok y n : forall i t, 0 <= i -> i + Z.of_nat n <= 12 ->
  mk_months n (leap_year y) i (u32 t) =
    Some (u32 (t + SEC_PER_DAY * (month_days y (i + Z.of_nat n) - month_days y i))).
Proof.
  induction n as [|n IH]; intros i t Hi Hn; cbn [mk_months].
  { replace (i + Z.of_nat 0) with i by lia. do 2 f_equal. lia. }
  destruct (sec_per_mt y i ltac:(lia)) as (row & -> & Hs). ub_step. rewrite Hs. rewrite wrap_add_l, IH by lia. do 2 f_equal.
  replace (i + 1 + Z.of_nat n) with (i + Z.of_nat (S n)) by lia. unfold month_len, SEC_PER_DAY. lia.
Qed.

Lemma chk_ok z : - 2 ^ 31 <= z < 2 ^ 31 -> chk z = Some z.
Proof. intros. unfold chk. by rewrite bool_decide_true. Qed.

Lemma mktime_secs tm : date_ok tm -> tal_time_mktime (Some tm) = Some (u32 (secs tm)).
Proof.
  intros (Hy & Hmon & Hd & Hh & Hmin & Hs). unfold tal_time_mktime.
  rewrite (chk_ok (tm_year tm + 1900)) by lia. ub_step.
  set (y := tm_year tm + 1900) in *. pose proof (month_len_pos y (tm_mon tm) Hmon) as Hl.
  pose proof (mk_years_ok (Z.to_nat (y - 1970)) 1970 0 ltac:(lia)) as Hyears. change (u32 0) with 0 in Hyears.
  rewrite Hyears. rewrite is_leap_year by lia.
  assert (Hleap : (if bool_decide (leap_year y <> 0) then 1 else 0) = leap_year y)
    by (destruct (leap_year_01 y) as [-> | ->]; done).
  rewrite Hleap, mk_months_ok by lia. unfold SEC_PER_HOUR, SEC_PER_DAY in *. rewrite !chk_ok by lia.
  repeat (rewrite wrap_add_l; rewrite <- ?Z.add_assoc). rewrite !Z2Nat.id by lia. apply (f_equal Some), (f_equal u32).
  unfold secs, days, SEC_PER_DAY, SEC_PER_HOUR. fold y. replace (1970 + (y - 1970)) with y by lia.
  change (year_days 1970) with 0. change (month_days y 0) with 0. rewrite !Z.add_0_l. lia.
Qed.

Lemma gm_years_ok fuel : forall y n r,
  0 <= y -> 0 <= n < Z.of_nat fuel -> 0 <= r < SEC_PER_DAY * (365 + leap_year (y + n)) ->
  SEC_PER_DAY * (year_days (y + n) - year_days y) + r < 2 ^ 32 ->
  gm_years fuel (SEC_PER_DAY * (year_days (y + n) - year_days y) + r) y = Some (r, y + n).
Proof.
  induction fuel as [|fuel IH]; intros y n r Hy Hn Hr Hmax; [lia|]. cbn [gm_years].
  rewrite (sec_per_yr y Hy). ub_step. destruct (decide (n = 0)) as [->|Hn0].
  - rewrite Z.add_0_r, Z.sub_diag, Z.mul_0_r, Z.add_0_l in *. by rewrite bool_decide_true by lia.
  - pose proof (leap_year_01 y). pose proof (year_days_succ y) as Hs. pose proof (year_days_mono (y + 1) (n - 1) ltac:(lia)) as Hm.
    replace (y + 1 + (n - 1)) with (y + n) in Hm by lia. unfold SEC_PER_DAY in *.
    rewrite bool_decide_false by lia. rewrite wrap_small by (unfold in_u; lia).
    specialize (IH (y + 1) (n - 1) r). replace (y + 1 + (n - 1)) with (y + n) in IH by lia.
    rewrite <- IH by lia. f_equal. lia.
Qed.

Lemma gm_months_ok y fuel : forall m n r,
  0 <= m -> 0 <= n < Z.of_nat fuel -> m + n < 12 -> 0 <= r < SEC_PER_DAY * month_len y (m + n) ->
  gm_months fuel (leap_year y) (SEC_PER_DAY * (month_days y (m + n) - month_days y m) + r) m = Some (r, m + n).
Proof.
  induction fuel as [|fuel IH]; intros m n r Hm Hn H12 Hr; [lia|]. cbn [gm_months].
  destruct (sec_per_mt y m ltac:(lia)) as (row & -> & Hs). ub_step. rewrite Hs. destruct (decide (n = 0)) as [->|Hn0].
  - rewrite Z.add_0_r, Z.sub_diag, Z.mul_0_r, Z.add_0_l in *. by rewrite bool_decide_true by lia.
  - assert (Hmono : month_days y (m + 1) <= month_days y (m + n)).
    { replace (m + n) with (m + 1 + (n - 1)) by lia. apply month_days_mono; lia. }
    pose proof (month_len_pos y (m + n) ltac:(lia)). unfold month_len in *. unfold SEC_PER_DAY in *.
    pose proof (month_days_le y (m + n) ltac:(lia)).
    pose proof (month_days_le y m ltac:(lia)). pose proof (month_days_le y (m + 1) ltac:(lia)).
    rewrite bool_decide_false by lia. rewrite wrap_small by (unfold in_u; lia).
    specialize (IH (m + 1) (n - 1) r). replace (m + 1 + (n - 1)) with (m + n) in IH by lia.
    rewrite <- IH by (unfold month_len; lia). f_equal. lia.
Qed.

(** The day of the week: 1970-01-01 was a Thursday. *)
Lemma get_day_of_week_ok tm : date_ok tm ->
  get_day_of_week (u8 (tm_mon tm + 1)) (u8 (tm_mday tm)) (u16 (tm_year tm + 1900)) = Some ((days tm + 4) `mod` 7).
Proof.
  intros (Hy & Hmon & Hd & _). unfold days. set (y := tm_year tm + 1900) in *.
  pose proof (month_len_pos y (tm_mon tm) Hmon) as Hl. unfold get_day_of_week.
  rewrite !(wrap_small 8) by (unfold in_u; lia). rewrite (wrap_small 16 y) by (unfold in_u; lia).
  rewrite (wrap_small 16) by (unfold in_u; case_bool_decide; lia).
  rewrite (bool_decide_ext (tm_mon tm + 1 < 3) (tm_mon tm < 2)) by lia.
  replace (tm_mon tm + 1 - 1) with (tm_mon tm) by lia.
  assert (Ht : exists t, zget dow_table (tm_mon tm) = Some t /\ 0 <= t <= 6 /\
    (t - default 0 (zget cum_days (tm_mon tm)) - (if bool_decide (tm_mon tm < 2) then 0 else -1)) `mod` 7 = 0).
  { apply below_12 in Hmon. clear -Hmon. repeat destruct Hmon as [-> | Hmon]; try rewrite Hmon;
      (eexists; split; [done|]; split; [lia|done]). }
  destruct Ht as (t & -> & Ht & Hmod). ub_step. set (Y := y - (if bool_decide (tm_mon tm < 2) then 1 else 0)).
  assert (HY : 1969 <= Y <= 10000) by (unfold Y; case_bool_decide; lia).
  rewrite !Z.quot_div_nonneg by lia.
  assert (Hle : leaps Y = Y `div` 4 - Y `div` 100 + Y `div` 400) by done.
  assert (Hl0 : 0 <= leaps Y) by (unfold leaps; Z.div_mod_to_equations; lia).
  replace (Y + Y `div` 4 - Y `div` 100 + Y `div` 400 + t + tm_mday tm) with (Y + leaps Y + t + tm_mday tm) by lia.
  rewrite Z.rem_mod_nonneg by lia. rewrite (wrap_small 8) by (unfold in_u; Z.div_mod_to_equations; lia).
  f_equal. unfold month_days. set (cum := default 0 (zget cum_days (tm_mon tm))) in *. unfold year_days.
  change (leaps 1969) with 477. pose proof (year_days_succ y) as Hs. unfold year_days in Hs.
  replace (y + 1 - 1) with y in Hs by lia. clearbody cum. unfold Y in *. clear Hle Hl0 HY Hd Hl.
  rewrite (bool_decide_ext (2 <= tm_mon tm) (~ tm_mon tm < 2)) by lia. rewrite bool_decide_not.
  case_bool_decide; cbn [negb].
  - replace (y - 1 + leaps (y - 1) + t + tm_mday tm) with
      (365 * (y - 1970) + (leaps (y - 1) - 477) + (cum + 0) + (tm_mday tm - 1) + 4 +
       ((t - cum) - 364 * y + 365 * 1970 + 473)) by lia.
    clear Hs. Z.div_mod_to_equations. lia.
  - rewrite Z.sub_0_r. Z.div_mod_to_equations. lia.
Qed.

Lemma year_days_max y : 1970 <= y -> 365 * (y - 1970) <= year_days y.
Proof.
  intros Hy. pose proof (year_days_mono 1970 (y - 1970) ltac:(lia)) as H. change (year_days 1970) with 0 in H.
  replace (1970 + (y - 1970)) with y in H by lia. lia.
Qed.

(** The date of the seconds of a date is the date, with its day of the week. *)
Lemma gmtime_secs tm : date_ok tm -> secs tm < 2 ^ 32 ->
  tal_time_gmtime_r (secs tm) =
    Some (Tm (tm_sec tm) (tm_min tm) (tm_hour tm) (tm_mday tm) (tm_mon tm) (tm_year tm) ((days tm + 4) `mod` 7)).
Proof.
  intros Hok Hmax. pose proof (get_day_of_week_ok tm Hok) as Hdow. destruct Hok as (Hy & Hmon & Hd & Hh & Hmin & Hs).
  set (y := tm_year tm + 1900) in *. set (mon := tm_mon tm) in *.
  set (tod := 3600 * tm_hour tm + 60 * tm_min tm + tm_sec tm).
  assert (Htod : 0 <= tod < 86400) by (unfold tod; lia).
  set (r := SEC_PER_DAY * (month_days y mon - month_days y 0) + (SEC_PER_DAY * (tm_mday tm - 1) + tod)).
  assert (Hsecs : secs tm = SEC_PER_DAY * (year_days (1970 + (y - 1970)) - year_days 1970) + r).
  { unfold secs, r, days, tod, SEC_PER_DAY, SEC_PER_HOUR. fold y mon. change (year_days 1970) with 0.
    change (month_days y 0) with 0. replace (1970 + (y - 1970)) with y by lia. lia. }
  pose proof (month_days_mono y 0 mon ltac:(lia) ltac:(lia) ltac:(lia)) as Hm0.
  pose proof (month_days_mono y (mon + 1) (12 - (mon + 1)) ltac:(lia) ltac:(lia) ltac:(lia)) as Hm12.
  assert (Hm12' : month_days y 12 = 365 + leap_year y) by done. rewrite Z.add_0_l in Hm0.
  replace (mon + 1 + (12 - (mon + 1))) with 12 in Hm12 by lia. unfold month_len in Hd.
  pose proof (year_days_max y ltac:(lia)) as Hymax.
  assert (Hr : 0 <= r < SEC_PER_DAY * (365 + leap_year y)).
  { unfold r. unfold SEC_PER_DAY in *. change (month_days y 0) with 0 in *. lia. }
  assert (Hyear : y - 1970 < 137).
  { rewrite Hsecs in Hmax. replace (1970 + (y - 1970)) with y in Hmax by lia. change (year_days 1970) with 0 in Hmax.
    unfold SEC_PER_DAY in *. lia. }
  unfold tal_time_gmtime_r. rewrite Hsecs, gm_years_ok.
  2: lia. 2: lia. 2: by replace (1970 + (y - 1970)) with y by lia. 2: by rewrite <- Hsecs.
  ub_step. replace (1970 + (y - 1970)) with y by lia. rewrite is_leap_year by lia.
  pose proof (gm_months_ok y 12 0 mon (SEC_PER_DAY * (tm_mday tm - 1) + tod)) as Hgm.
  rewrite Z.add_0_l in Hgm. fold r in Hgm. rewrite Hgm; [|lia|lia|lia|unfold month_len, SEC_PER_DAY in *; lia].
  assert (Hdiv : (SEC_PER_DAY * (tm_mday tm - 1) + tod) `div` SEC_PER_DAY = tm_mday tm - 1)
    by (unfold SEC_PER_DAY; Z.div_mod_to_equations; lia).
  assert (Hmod : (SEC_PER_DAY * (tm_mday tm - 1) + tod) `mod` SEC_PER_DAY = tod)
    by (unfold SEC_PER_DAY; Z.div_mod_to_equations; lia).
  rewrite Hdiv, Hmod. replace (tm_mday tm - 1 + 1) with (tm_mday tm) by lia. rewrite Hdow. f_equal.
  unfold tod, SEC_PER_HOUR. f_equal; try (Z.div_mod_to_equations; lia).
Qed.

(** A monotone staircase has a step for every value. *)
Lemma staircase (f : Z -> Z) d n :
  0 <= n -> f 0 <= d < f n -> exists m, 0 <= m < n /\ f m <= d < f (m + 1).
Proof.
  intros Hn. revert n Hn. apply (natlike_ind (fun n => f 0 <= d < f n -> exists m, 0 <= m < n /\ f m <= d < f (m + 1)));
    [lia|].
  intros n Hn IH Hd. destruct (decide (d < f n)) as [Hlt|Hge].
  - destruct IH as (m & Hm & Hf); [lia|]. exists m. split; [lia|done].
  - exists n. split; [lia|]. replace (Z.succ n) with (n + 1) in Hd by lia. lia.
Qed.

Lemma date_of_secs t : 0 <= t < 2 ^ 32 -> exists tm, date_ok tm /\ secs tm = t.
Proof.
  intros Ht. set (d := t `div` 86400). assert (Hd : 0 <= d < 50000) by (unfold d; Z.div_mod_to_equations; lia).
  destruct (staircase (fun k => year_days (1970 + k)) d 137) as (k & Hk & Hlo).
  { lia. } { change (year_days (1970 + 0)) with 0. change (year_days (1970 + 137)) with 50038. lia. }
  cbv beta in Hlo. set (y := 1970 + k) in *. replace (1970 + (k + 1)) with (y + 1) in Hlo by lia.
  rewrite year_days_succ in Hlo.
  destruct (staircase (month_days y) (d - year_days y) 12) as (m & Hm & Hml); [lia| |].
  { change (month_days y 0) with 0. assert (month_days y 12 = 365 + leap_year y) by done. lia. }
  set (tod := t `mod` 86400). assert (Htod : 0 <= tod < 86400) by (unfold tod; Z.div_mod_to_equations; lia).
  exists (Tm (tod `mod` 60) (tod `mod` 3600 `div` 60) (tod `div` 3600) (d - year_days y - month_days y m + 1) m (y - 1900) 0).
  assert (Hy1900 : y - 1900 + 1900 = y) by lia.
  split.
  - unfold date_ok. cbn [tm_year tm_mon tm_mday tm_hour tm_min tm_sec]. rewrite Hy1900. unfold month_len.
    repeat split; try lia; Z.div_mod_to_equations; lia.
  - unfold secs, days. cbn [tm_year tm_mon tm_mday tm_hour tm_min tm_sec]. rewrite Hy1900.
    unfold SEC_PER_DAY, SEC_PER_HOUR, tod, d. Z.div_mod_to_equations. lia.
Qed.

(** C27. Seconds and dates are inverse: every number of 32 bits has a date, which is a day of the
    calendar with its day of the week and which [tal_time_mktime] turns back into the number; and
    every date up to the end of the range is the date of its seconds. *)
Theorem calendar_roundtrip :
  (forall t, 0 <= t < 2 ^ 32 ->
    exists tm, tal_time_gmtime_r t = Some tm /\ date_ok tm /\ tal_time_mktime (Some tm) = Some t /\
      tm_wday tm = (t `div` 86400 + 4) `mod` 7) /\
  (forall tm, date_ok tm -> secs tm < 2 ^ 32 ->
    exists t, tal_time_mktime (Some tm) = Some t /\
      tal_time_gmtime_r t =
        Some (Tm (tm_sec tm) (tm_min tm) (tm_hour tm) (tm_mday tm) (tm_mon tm) (tm_year tm) ((days tm + 4) `mod` 7))).
Proof.
  split.
  - intros t Ht. destruct (date_of_secs t Ht) as (tm & Hok & <-). rewrite (gmtime_secs tm Hok) by lia.
    eexists. split; [done|]. split; [exact Hok|]. split.
    + pose proof (mktime_secs tm Hok) as Hm. rewrite (wrap_small 32 _ Ht) in Hm. exact Hm.
    + cbn [tm_wday]. destruct Hok as (_ & _ & _ & Hh & Hm & Hs). do 2 f_equal.
      unfold secs, SEC_PER_DAY, SEC_PER_HOUR. Z.div_mod_to_equations. lia.
  - intros tm Hok Hmax. exists (secs tm). split; [|by apply gmtime_secs]. rewrite (mktime_secs tm Hok).
    f_equal. apply wrap_small. split; [|done]. destruct Hok as (Hy & Hm & Hd & Hh & Hmi & Hs).
    pose proof (year_days_max (tm_year tm + 1900) ltac:(lia)). pose proof (month_days_le (tm_year tm + 1900) (tm_mon tm) ltac:(lia)).
    unfold secs, days, SEC_PER_DAY, SEC_PER_HOUR. lia.
Qed.

(** The next day of the calendar. *)
Definition calendar (y : Z) : list Z :=
  [31; if bool_decide (y `mod` 4 = 0 /\ (y `mod` 100 <> 0 \/ y `mod` 400 = 0)) then 29 else 28;
   31; 30; 31; 30; 31; 31; 30; 31; 30; 31].
Definition next_day (tm : POSIX_TM_S) : POSIX_TM_S :=
  let at_ d m y := Tm (tm_sec tm) (tm_min tm) (tm_hour tm) d m y ((tm_wday tm + 1) `mod` 7) in
  if bool_decide (zget (calendar (tm_year tm + 1900)) (tm_mon tm) = Some (tm_mday tm))
  then if bool_decide (tm_mon tm = 11) then at_ 1 0 (tm_year tm + 1) else at_ 1 (tm_mon tm + 1) (tm_year tm)
  else at_ (tm_mday tm + 1) (tm_mon tm) (tm_year tm).

Lemma calendar_len y m : 0 <= m < 12 -> zget (calendar y) m = Some (month_len y m).
Proof.
  intros Hm. unfold calendar, month_len, month_days, leap_year.
  destruct (bool_decide (y `mod` 4 = 0 /\ _)); apply below_12 in Hm; repeat destruct Hm as [-> | Hm]; subst; done.
Qed.

Lemma next_day_ok tm : date_ok tm -> tm_year tm + 1900 < 9000 ->
  date_ok (next_day tm) /\ secs (next_day tm) = secs tm + 86400 /\ tm_wday (next_day tm) = (tm_wday tm + 1) `mod` 7.
Proof.
  intros (Hy & Hm & Hd & Hh & Hmi & Hs) Hmax. unfold next_day. rewrite (calendar_len _ _ Hm).
  pose proof (month_len_pos (tm_year tm + 1900) (tm_mon tm) Hm) as Hl.
  case_bool_decide as Hlast; [injection Hlast as Hlast; case_bool_decide as Hdec|].
  all: split; [|split; [|done]].
  - unfold date_ok. cbn [tm_year tm_mon tm_mday tm_hour tm_min tm_sec].
    pose proof (month_len_pos (tm_year tm + 1 + 1900) 0 ltac:(lia)). repeat split; lia.
  - unfold secs, days. cbn [tm_year tm_mon tm_mday tm_hour tm_min tm_sec].
    replace (tm_year tm + 1 + 1900) with (tm_year tm + 1900 + 1) by lia. rewrite year_days_succ, <- Hlast, Hdec.
    change (month_days (tm_year tm + 1900 + 1) 0) with 0. unfold month_len.
    assert (month_days (tm_year tm + 1900) (11 + 1) = 365 + leap_year (tm_year tm + 1900)) by done. unfold SEC_PER_DAY. lia.
  - unfold date_ok. cbn [tm_year tm_mon tm_mday tm_hour tm_min tm_sec].
    pose proof (month_len_pos (tm_year tm + 1900) (tm_mon tm + 1) ltac:(lia)). repeat split; lia.
  - unfold secs, days. cbn [tm_year tm_mon tm_mday tm_hour tm_min tm_sec]. rewrite <- Hlast. unfold month_len, SEC_PER_DAY. lia.
  - unfold date_ok. cbn [tm_year tm_mon tm_mday tm_hour tm_min tm_sec].
    assert (month_len (tm_year tm + 1900) (tm_mon tm) <> tm_mday tm) by (intros X; apply Hlast; by rewrite X).
    repeat split; lia.
  - unfold secs, days. cbn [tm_year tm_mon tm_mday tm_hour tm_min tm_sec]. unfold SEC_PER_DAY. lia.
Qed.

(** A day later is the next day of the Gregorian calendar: the loops of [tal_time_gmtime_r]
    agree with the calendar, from day to day and over the whole range. *)
Theorem gmtime_next_day t tm :
  0 <= t -> t + 86400 < 2 ^ 32 -> tal_time_gmtime_r t = Some tm ->
  tal_time_gmtime_r (t + 86400) = Some (next_day tm).
Proof.
  intros H0 Hmax Hg. destruct (date_of_secs t ltac:(lia)) as (tm0 & Hok & <-).
  rewrite (gmtime_secs tm0 Hok) in Hg by lia. injection Hg as Hg.
  set (tm1 := Tm (tm_sec tm0) (tm_min tm0) (tm_hour tm0) (tm_mday tm0) (tm_mon tm0) (tm_year tm0) ((days tm0 + 4) `mod` 7)) in *.
  subst tm. assert (Hok1 : date_ok tm1) by exact Hok. assert (Hs1 : secs tm1 = secs tm0) by done.
  assert (Hy : tm_year tm1 + 1900 < 9000).
  { destruct Hok as (Hy & Hm & Hd & Hh & Hmi & Hs). cbn [tm1 tm_year].
    pose proof (year_days_max (tm_year tm0 + 1900) ltac:(lia)). pose proof (month_days_le (tm_year tm0 + 1900) (tm_mon tm0) ltac:(lia)).
    unfold secs, days, SEC_PER_DAY, SEC_PER_HOUR in Hmax. lia. }
  destruct (next_day_ok tm1 Hok1 Hy) as (Hok2 & Hs2 & Hw2). rewrite <- Hs1, <- Hs2.
  rewrite (gmtime_secs _ Hok2) by lia. f_equal.
  assert (Hw : (days (next_day tm1) + 4) `mod` 7 = tm_wday (next_day tm1)).
  { rewrite Hw2. change (tm_wday tm1) with ((days tm0 + 4) `mod` 7).
    assert (Hdays : days (next_day tm1) = days tm0 + 1).
    { clear -Hs1 Hs2 Hok1 Hok2. destruct Hok1 as (_ & _ & _ & ? & ? & ?). destruct Hok2 as (_ & _ & _ & ? & ? & ?).
      rewrite Hs1 in Hs2. unfold secs, SEC_PER_DAY, SEC_PER_HOUR in Hs2. cbn [tm1 tm_hour tm_min tm_sec] in *. lia. }
    rewrite Hdays. clear. Z.div_mod_to_equations. lia. }
  rewrite Hw. by destruct (next_day tm1).
Qed.

(** ** The clock *)

(** [tal_time_get_system_time] at the times [rs], milliseconds since the start, read from a counter
    of 32 bits. *)
Fixpoint system_times (g : time_state) (rs : list Z) : list (Z * Z) :=
  match rs with
  | [] => []
  | r :: rs => let '(s, ms, g) := tal_time_get_system_time g (u32 r) in (s, ms) :: system_times g rs
  end.

(** Called at least once in each period of the counter. *)
Fixpoint paced (last : Z) (rs : list Z) : Prop :=
  match rs with
  | [] => True
  | r :: rs => last <= r < last + 2 ^ 32 /\ r < 2 ^ 64 /\ paced r rs
  end.

Lemma system_times_ok rs : forall g r0,
  0 <= r0 -> last_ms g = u32 r0 -> roll_ms g = r0 - u32 r0 -> paced r0 rs ->
  system_times g rs = map (fun r => (r `div` 1000, r `mod` 1000)) rs.
Proof.
  induction rs as [|r rs IH]; intros g r0 H0 Hl Hr Hp; [done|]. destruct Hp as (Hr0 & Hmax & Hp).
  cbn [system_times map]. unfold tal_time_get_system_time.
  assert (Hroll : (if bool_decide (last_ms g > u32 r) then u64 (roll_ms g + 0x100000000) else roll_ms g) = r - u32 r).
  { rewrite Hl, Hr. clear -H0 Hr0 Hmax. unfold wrap in *.
    case_bool_decide as Hc; [rewrite Z.mod_small|]; Z.div_mod_to_equations; lia. }
  rewrite Hroll. replace (u32 r + (r - u32 r)) with r by lia. rewrite (wrap_small 64 r) by (unfold in_u; lia).
  f_equal. apply (IH _ r); [lia|done|done|done].
Qed.

(** The running time is exact across the overflows of the 32-bit counter, as long as it is read
    once in each period. *)
Theorem system_time_exact rs g :
  last_ms g = 0 -> roll_ms g = 0 -> paced 0 rs ->
  system_times g rs = map (fun r => (r `div` 1000, r `mod` 1000)) rs.
Proof. intros Hl Hr Hp. by apply (system_times_ok rs g 0). Qed.

(** The calendar clock notices one overflow of the 32-bit counter and then none: after the first
    one the reference is 0, which no reading is below, so at the next overflow the time goes back
    by 49 days. *)
Theorem second_rollover_lost g posix m0 m1 m2 m3 :
  s_time_disable_update g = false -> 0 <= m1 < m0 -> m0 < 2 ^ 32 -> 0 <= m3 <= m2 - 1000 -> m1 <= m2 < 2 ^ 32 ->
  0 <= posix < 2 ^ 31 ->
  let g := snd (tal_time_set_posix g posix 1 m0) in
  let '(t1, g) := tal_time_get_posix g m1 in
  let '(t2, g) := tal_time_get_posix g m2 in
  let '(t3, g) := tal_time_get_posix g m3 in
  t1 = posix + (2 ^ 32 - m0) `div` 1000 + m1 `div` 1000 /\
  t2 = posix + (2 ^ 32 - m0) `div` 1000 + m2 `div` 1000 /\
  t3 = posix + (2 ^ 32 - m0) `div` 1000 + m3 `div` 1000 /\ t3 < t2.
Proof.
  intros Hdis H1 H0 H3 H2 Hp. unfold tal_time_set_posix. rewrite Hdis. change (bool_decide (1 = 1)) with true.
  cbn [snd]. unfold tal_time_get_posix, recycle, set_cloud_sync, set_clock. cbn [s_time_last_ms s_time_cloud_posix].
  rewrite (bool_decide_true (m0 > m1)) by lia. cbn [s_time_last_ms s_time_cloud_posix].
  rewrite (bool_decide_false (0 > m2)) by lia. cbn [s_time_last_ms s_time_cloud_posix].
  rewrite (bool_decide_false (0 > m3)) by lia. cbn [s_time_last_ms s_time_cloud_posix].
  rewrite !Z.sub_0_r. rewrite !(wrap_small 64) by (unfold in_u; lia).
  rewrite (wrap_small 32 (posix + (4294967296 - m0) `div` 1000)) by (unfold in_u; Z.div_mod_to_equations; lia).
  rewrite !(wrap_small 32) by (unfold in_u; Z.div_mod_to_equations; lia).
  repeat split; try done. Z.div_mod_to_equations. lia.
Qed.

(** The local time of another moment uses the summer time of now. *)
Theorem local_time_summer_of_now g in_time ms :
  in_time <> 0 -> s_time_last_ms g <= ms ->
  tal_time_is_in_sum_zone g (fst (tal_time_get_posix g ms)) = true -> tal_time_is_in_sum_zone g in_time = false ->
  forall tm, tal_time_gmtime_r (u32 (u32 (in_time + s_time_tz g) + 3600)) = Some tm ->
  tal_time_get_local_time_custom g in_time ms ms ms = Some (tm, g).
Proof.
  intros Hin Hms Hnow Hthen tm Htm. unfold tal_time_get_local_time_custom. rewrite bool_decide_false by done.
  assert (Hrec : recycle g ms = g) by (unfold recycle; by rewrite bool_decide_false by lia).
  unfold is_in_sum_zone. unfold tal_time_get_posix in *. rewrite Hrec in *. cbn [fst] in Hnow.
  rewrite Hrec, bool_decide_false by lia. rewrite Hnow. unfold SEC_PER_HOUR. by rewrite Htm.
Qed.

(** ** Time zones *)

Definition zone_text (minus : bool) (h m : Z) : bytes :=
  [if minus then 45 else 43; 48 + h `div` 10; 48 + h `mod` 10; 58; 48 + m `div` 10; 48 + m `mod` 10].

(** A zone written with its sign and two digits for hours and minutes is that many seconds. *)
Theorem time_zone_ok g minus h m :
  0 <= h < 100 -> 0 <= m < 100 ->
  tal_time_set_time_zone g (zone_text minus h m) =
    Some (OPRT_OK, set_tz g (if minus then - (3600 * h + 60 * m) else 3600 * h + 60 * m) true).
Proof.
  intros Hh Hm.
  assert (Hall : forall n, 0 <= n < 10000 -> forallb (fun minus : bool =>
      bool_decide (get_time_zone (zone_text minus (n `div` 100) (n `mod` 100)) =
        Some (OPRT_OK, Some (if minus then - (3600 * (n `div` 100) + 60 * (n `mod` 100))
                             else 3600 * (n `div` 100) + 60 * (n `mod` 100))))) [true; false] = true)
    by (apply below_forallb; vm_compute; reflexivity).
  specialize (Hall (100 * h + m) ltac:(lia)).
  replace ((100 * h + m) `div` 100) with h in Hall by (Z.div_mod_to_equations; lia).
  replace ((100 * h + m) `mod` 100) with m in Hall by (Z.div_mod_to_equations; lia).
  cbn [forallb] in Hall. rewrite andb_true_r in Hall. apply andb_true_iff in Hall as [H1%bool_decide_eq_true H2%bool_decide_eq_true].
  unfold tal_time_set_time_zone. destruct minus; [rewrite H1|rewrite H2]; done.
Qed.

(** ** Setting a date *)

Lemma date_valid tm : date_ok tm -> tm_year tm + 1900 <= 2111 -> is_valid_date_time tm = Some 0.
Proof.
  intros (Hy0 & Hm & Hd & Hh & Hmi & Hsec) Hy. unfold is_valid_date_time.
  rewrite (bool_decide_false (tm_sec tm > 59)), (bool_decide_false (tm_min tm > 59)), (bool_decide_false (tm_hour tm > 23)) by lia.
  rewrite chk_ok by lia. ub_step. set (y := tm_year tm + 1900) in *.
  rewrite (bool_decide_false (y < 1970)), (bool_decide_false (y > 2111)), (bool_decide_false (tm_mon tm >= 12)) by lia.
  cbn [orb]. rewrite is_leap_year by lia. unfold month_len, month_days in Hd.
  destruct (leap_year_01 y) as [Hl | Hl]; rewrite Hl in *; apply below_12 in Hm;
    repeat destruct Hm as [Hm | Hm]; rewrite Hm in *;
    repeat match goal with |- context [bool_decide (?a ∈ ?l)] =>
      let b := eval vm_compute in (bool_decide (a ∈ l)) in change (bool_decide (a ∈ l)) with b end;
    match type of Hd with 1 <= _ <= ?e => let v := eval vm_compute in e in change e with v in Hd end;
    guards; done.
Qed.

(** A date of 2106 or later can be set but is stored modulo 2^32 seconds: the clock goes back to
    1970. *)
Theorem time_set_wraps g tm ms :
  date_ok tm -> tm_year tm + 1900 <= 2111 -> 2 ^ 32 <= secs tm -> s_time_disable_update g = false ->
  exists g', tal_time_set g tm ms = Some (OPRT_OK, g') /\ s_time_cloud_posix g' = secs tm - 2 ^ 32.
Proof.
  intros Hok Hy Hs Hdis. pose proof (mktime_secs tm Hok) as Hmk. pose proof Hok as (Hy0 & Hm & Hd & Hh & Hmi & Hsec).
  assert (Hmax : secs tm < 2 * 2 ^ 32).
  { set (y := tm_year tm + 1900) in *. pose proof (month_days_le y (tm_mon tm) ltac:(lia)). pose proof (month_len_pos y _ Hm).
    pose proof (year_days_mono y (2111 - y) ltac:(lia)) as Hmono. replace (y + (2111 - y)) with 2111 in Hmono by lia.
    change (year_days 2111) with 51499 in Hmono. unfold secs, days, SEC_PER_DAY, SEC_PER_HOUR. fold y. lia. }
  assert (Hmod : u32 (secs tm) = secs tm - 2 ^ 32) by (unfold wrap; Z.div_mod_to_equations; lia).
  assert (Hv : is_valid_date_time tm = Some 0) by (by apply date_valid).
  unfold tal_time_set. rewrite Hv. ub_step. change (bool_decide (0 = 0)) with true. cbv beta iota. rewrite Hmk.
  unfold tal_time_set_posix. rewrite Hdis. change (bool_decide (2 = 1)) with false. cbv beta iota.
  eexists. split; [done|]. exact Hmod.
Qed.

(** ** Witnesses *)

Lemma calendar_roundtrip_witness :
  exists tm, tal_time_gmtime_r 951782400 = Some tm /\ tal_time_mktime (Some tm) = Some 951782400 /\
    tm_mon tm = 1 /\ tm_mday tm = 29 /\ tm_wday tm = 2.
Proof.
  destruct (proj1 calendar_roundtrip 951782400 ltac:(lia)) as (tm & Hg & _ & Hm & Hw).
  exists tm. split; [exact Hg|]. split; [exact Hm|]. vm_compute in Hg. injection Hg as <-. split; [done|]. split; [done|exact Hw].
Defined.

Lemma gmtime_next_day_witness :
  tal_time_gmtime_r (951782400 + 86400) = Some (Tm 0 0 0 1 2 100 3).
Proof.
  rewrite (gmtime_next_day 951782400 (Tm 0 0 0 29 1 100 2)); [done|lia|lia|by vm_compute].
Defined.

Lemma system_time_exact_witness :
  system_times time_start [5; 4294967295; 4294967297; 8589934592] =
    [(0, 5); (4294967, 295); (4294967, 297); (8589934, 592)].
Proof. rewrite system_time_exact; [done|done|done|]. repeat split; lia. Defined.

Lemma second_rollover_lost_witness :
  let g := snd (tal_time_set_posix time_start 1700000000 1 4294960000) in
  let '(t1, g) := tal_time_get_posix g 500000 in
  let '(t2, g) := tal_time_get_posix g 4294967000 in
  let '(t3, g) := tal_time_get_posix g 1000 in
  t2 = 1704294974 /\ t3 = 1700000008.
Proof.
  pose proof (second_rollover_lost time_start 1700000000 4294960000 500000 4294967000 1000 eq_refl
    ltac:(lia) ltac:(lia) ltac:(lia) ltac:(lia) ltac:(lia)) as H.
  vm_compute in H. by vm_compute.
Defined.

Lemma local_time_summer_of_now_witness :
  let g := set_sz_tbl (set_clock time_start 0 1720000000) (ZoneTbl 1 ((1711846800, 1729990800) :: replicate 5 (0, 0))) in
  exists tm, tal_time_get_local_time_custom g 1700000000 0 0 0 = Some (tm, g) /\ tm_hour tm = 23.
Proof.
  eexists. split; [|shelve]. apply local_time_summer_of_now; [done|done|by vm_compute|by vm_compute|by vm_compute].
  Unshelve. done.
Defined.

Lemma time_zone_ok_witness :
  tal_time_set_time_zone time_start (c_str "-03:30") = Some (OPRT_OK, set_tz time_start (-12600) true).
Proof. apply (time_zone_ok time_start true 3 30); lia. Defined.

Lemma time_set_wraps_witness :
  exists g', tal_time_set time_start (Tm 0 0 0 1 0 211 0) 0 = Some (OPRT_OK, g') /\ s_time_cloud_posix g' = 154546304.
Proof.
  destruct (time_set_wraps time_start (Tm 0 0 0 1 0 211 0) 0) as (g' & H & Hp);
    [by vm_compute|vm_compute; done|vm_compute; done|done|].
  exists g'. split; [exact H|]. rewrite Hp. by vm_compute.
Defined.
