(* ===== verification/Event.v ===== *)
(** * Events

    src/src/tal_system/src/tal_event.c: named events with ordered subscribers, and a list of
    subscriptions to events that do not exist yet. The circular lists are Rocq lists (TuyaList
    shows that the list functions implement them), an event is its index in the list; the mutexes
    make each operation atomic. A callback is a number, [ret] its result; callbacks do not call the
    manager. *)
From S2P Require Import Prelude.

Definition EVENT_NAME_MAX_LEN : Z := 16.
Definition EVENT_DESC_MAX_LEN : Z := 32.
Definition SUBSCRIBE_TYPE_NORMAL : Z := 0.
Definition SUBSCRIBE_TYPE_EMERGENCY : Z := 1.
Definition SUBSCRIBE_TYPE_ONETIME : Z := 2.
Definition OPRT_BASE_EVENT_INVALID_EVENT_NAME : Z := -0x0f00.
Definition OPRT_BASE_EVENT_INVALID_EVENT_DESC : Z := -0x0f01.

(** [s_cb]: [None] for NULL. *)
Record SUBSCRIBE_NODE_T := Sub { s_name : bytes; s_desc : bytes; s_type : Z; s_cb : option Z }.
Record EVENT_NODE_T := Event { e_name : bytes; subscribe_root : list SUBSCRIBE_NODE_T }.
Record EVENT_MANAGE_T := Manage {
  inited : bool;
  event_cnt : Z;
  event_root : list EVENT_NODE_T;
  free_subscribe_root : list SUBSCRIBE_NODE_T }.

Definition g_event_manager : EVENT_MANAGE_T := Manage false 0 [] [].

#[global] Instance sub_eq_dec : EqDecision SUBSCRIBE_NODE_T.
Proof. solve_decision. Defined.

Definition event_name_is_valid (name : option bytes) : bool :=
  match name with
  | None => false
  | Some name => negb (bool_decide (zlen name > EVENT_NAME_MAX_LEN) || bool_decide (zlen name <= 0))
  end.

Definition event_desc_is_valid (desc : option bytes) : bool :=
  match desc with
  | None => false
  | Some desc => negb (bool_decide (zlen desc > EVENT_DESC_MAX_LEN) || bool_decide (zlen desc <= 0))
  end.

(** [tuya_list_add] or [tuya_list_add_tail]. *)
Definition add_subscribe (s : SUBSCRIBE_NODE_T) (l : list SUBSCRIBE_NODE_T) : list SUBSCRIBE_NODE_T :=
  if bool_decide (s_type s = SUBSCRIBE_TYPE_EMERGENCY) then s :: l else l ++ [s].

(** The loop of [_event_node_create_init]: the free list that remains and the subscribers. *)
Fixpoint adopt (name : bytes) (free subs : list SUBSCRIBE_NODE_T)
    : list SUBSCRIBE_NODE_T * list SUBSCRIBE_NODE_T :=
  match free with
  | [] => ([], subs)
  | s :: free =>
      if bool_decide (s_name s = name) then adopt name free (add_subscribe s subs)
      else let '(free, subs) := adopt name free subs in (s :: free, subs)
  end.

(** The index of the new event, [None] for NULL. *)
Definition event_node_create_init (g : EVENT_MANAGE_T) (name : bytes) (alloc : bool)
    : option nat * EVENT_MANAGE_T :=
  if alloc then
    let '(free, subs) := adopt name (free_subscribe_root g) [] in
    (Some (length (event_root g)),
     Manage (inited g) (i32 (event_cnt g + 1)) (event_root g ++ [Event name subs]) free)
  else (None, g).

Definition event_node_get (g : EVENT_MANAGE_T) (name : bytes) : option nat :=
  fst <$> list_find (fun e => e_name e = name) (event_root g).

Definition event_node_get_free_subscribe (g : EVENT_MANAGE_T) (s : SUBSCRIBE_NODE_T) : option nat :=
  fst <$> list_find (fun e => s_name e = s_name s /\ s_desc e = s_desc s /\ s_cb e = s_cb s) (free_subscribe_root g).

Definition event_node_get_subscribe (e : EVENT_NODE_T) (s : SUBSCRIBE_NODE_T) : option nat :=
  fst <$> list_find (fun e => s_desc e = s_desc s /\ s_cb e = s_cb s) (subscribe_root e).

Definition set_free (g : EVENT_MANAGE_T) (free : list SUBSCRIBE_NODE_T) : EVENT_MANAGE_T :=
  Manage (inited g) (event_cnt g) (event_root g) free.
Definition set_event (g : EVENT_MANAGE_T) (i : nat) (e : EVENT_NODE_T) : EVENT_MANAGE_T :=
  Manage (inited g) (event_cnt g) (<[i := e]> (event_root g)) (free_subscribe_root g).

Definition event_node_add_free_subscribe (g : EVENT_MANAGE_T) (s : SUBSCRIBE_NODE_T) (alloc : bool)
    : Z * EVENT_MANAGE_T :=
  match event_node_get_free_subscribe g s with
  | Some _ => (OPRT_OK, g)
  | None => if alloc then (OPRT_OK, set_free g (free_subscribe_root g ++ [s])) else (OPRT_MALLOC_FAILED, g)
  end.

Definition event_node_add_subscribe (e : EVENT_NODE_T) (s : SUBSCRIBE_NODE_T) (alloc : bool)
    : Z * EVENT_NODE_T :=
  match event_node_get_subscribe e s with
  | Some _ => (OPRT_OK, e)
  | None => if alloc then (OPRT_OK, Event (e_name e) (add_subscribe s (subscribe_root e))) else (OPRT_MALLOC_FAILED, e)
  end.

Definition event_node_del_free_subscribe (g : EVENT_MANAGE_T) (s : SUBSCRIBE_NODE_T) : Z * EVENT_MANAGE_T :=
  match event_node_get_free_subscribe g s with
  | None => (OPRT_OK, g)
  | Some i => (OPRT_OK, set_free g (delete i (free_subscribe_root g)))
  end.

Definition event_node_del_subscribe (e : EVENT_NODE_T) (s : SUBSCRIBE_NODE_T) : Z * EVENT_NODE_T :=
  match event_node_get_subscribe e s with
  | None => (OPRT_OK, e)
  | Some i => (OPRT_OK, Event (e_name e) (delete i (subscribe_root e)))
  end.

Section dispatch.
(** [ret cb data]: the result of a callback. *)
Context (ret : Z -> Z -> Z).

(** The loop of [_event_node_dispatch]: the code, the callbacks that are called and the subscribers
    that remain. *)
Fixpoint dispatch (subs : list SUBSCRIBE_NODE_T) (data rt : Z) : Z * list Z * list SUBSCRIBE_NODE_T :=
  match subs with
  | [] => (rt, [], [])
  | s :: subs =>
      let rt := match s_cb s with Some cb => ret cb data | None => rt end in
      let '(rt, calls, rest) := dispatch subs data rt in
      (rt, match s_cb s with Some cb => cb :: calls | None => calls end,
       if bool_decide (s_type s = SUBSCRIBE_TYPE_ONETIME) then rest else s :: rest)
  end.

Definition event_node_dispatch (e : EVENT_NODE_T) (data : Z) : Z * list Z * EVENT_NODE_T :=
  let '(rt, calls, subs) := dispatch (subscribe_root e) data OPRT_OK in (rt, calls, Event (e_name e) subs).

Definition tal_event_init (g : EVENT_MANAGE_T) : Z * EVENT_MANAGE_T :=
  if inited g then (OPRT_OK, g) else (OPRT_OK, Manage true 0 [] []).

Definition ensure_init (g : EVENT_MANAGE_T) : EVENT_MANAGE_T := if inited g then g else snd (tal_event_init g).

(** The code, the callbacks that are called and the state; [None]: an event that does not exist. *)
Definition tal_event_publish (g : EVENT_MANAGE_T) (name : option bytes) (data : Z) (alloc : bool)
    : option (Z * list Z * EVENT_MANAGE_T) :=
  let g := ensure_init g in
  if negb (event_name_is_valid name) then Some (OPRT_BASE_EVENT_INVALID_EVENT_NAME, [], g)
  else
    name ← name;
    let '(event, g) :=
      match event_node_get g name with Some i => (Some i, g) | None => event_node_create_init g name alloc end in
    match event with
    | None => Some (OPRT_MALLOC_FAILED, [], g)
    | Some i =>
        e ← event_root g !! i;
        let '(rt, calls, e) := event_node_dispatch e data in
        Some (rt, calls, set_event g i e)
    end.

Definition tal_event_subscribe (g : EVENT_MANAGE_T) (name desc : option bytes) (cb : option Z) (type : Z)
    (alloc : bool) : option (Z * EVENT_MANAGE_T) :=
  let g := ensure_init g in
  if negb (event_desc_is_valid desc) then Some (OPRT_BASE_EVENT_INVALID_EVENT_DESC, g)
  else if negb (event_name_is_valid name) then Some (OPRT_BASE_EVENT_INVALID_EVENT_NAME, g)
  else
    name ← name;
    desc ← desc;
    let s := Sub name desc type cb in
    match event_node_get g name with
    | None => Some (event_node_add_free_subscribe g s alloc)
    | Some i =>
        e ← event_root g !! i;
        let '(rt, e) := event_node_add_subscribe e s alloc in Some (rt, set_event g i e)
    end.

Definition tal_event_unsubscribe (g : EVENT_MANAGE_T) (name desc : option bytes) (cb : option Z)
    : option (Z * EVENT_MANAGE_T) :=
  let g := ensure_init g in
  if negb (event_desc_is_valid desc) then Some (OPRT_BASE_EVENT_INVALID_EVENT_DESC, g)
  else if negb (event_name_is_valid name) then Some (OPRT_BASE_EVENT_INVALID_EVENT_NAME, g)
  else
    name ← name;
    desc ← desc;
    let s := Sub name desc SUBSCRIBE_TYPE_NORMAL cb in
    match event_node_get g name with
    | None => Some (event_node_del_free_subscribe g s)
    | Some i =>
        e ← event_root g !! i;
        let '(rt, e) := event_node_del_subscribe e s in Some (rt, set_event g i e)
    end.

(** ** The contract

    Whether an event exists is not visible: for each name there is one ordered list of
    subscriptions, the emergencies first. *)

Definition board := bytes -> list SUBSCRIBE_NODE_T.
Definition board_set (b : board) (name : bytes) (l : list SUBSCRIBE_NODE_T) : board :=
  fun n => if bool_decide (n = name) then l else b n.

Definition same_key (s t : SUBSCRIBE_NODE_T) : Prop := s_desc t = s_desc s /\ s_cb t = s_cb s.
#[local] Instance same_key_dec s t : Decision (same_key s t).
Proof. unfold same_key. apply _. Defined.

(** The operations of the contract. *)
Inductive event_op :=
  | Subscribe (name desc : option bytes) (cb : option Z) (type : Z)
  | Unsubscribe (name desc : option bytes) (cb : option Z)
  | Publish (name : option bytes) (data : Z).

(** The last result of the callbacks. *)
Definition last_ret (calls : list Z) (data : Z) : Z := foldl (fun _ cb => ret cb data) OPRT_OK calls.

Definition board_step (b : board) (op : event_op) : Z * list Z * board :=
  match op with
  | Subscribe name desc cb type =>
      match desc, name with
      | Some d, Some n =>
          if negb (event_desc_is_valid desc) then (OPRT_BASE_EVENT_INVALID_EVENT_DESC, [], b)
          else if negb (event_name_is_valid name) then (OPRT_BASE_EVENT_INVALID_EVENT_NAME, [], b)
          else if bool_decide (Exists (same_key (Sub n d type cb)) (b n)) then (OPRT_OK, [], b)
          else (OPRT_OK, [], board_set b n (add_subscribe (Sub n d type cb) (b n)))
      | None, _ => (OPRT_BASE_EVENT_INVALID_EVENT_DESC, [], b)
      | Some _, None =>
          (if event_desc_is_valid desc then OPRT_BASE_EVENT_INVALID_EVENT_NAME
           else OPRT_BASE_EVENT_INVALID_EVENT_DESC, [], b)
      end
  | Unsubscribe name desc cb =>
      match desc, name with
      | Some d, Some n =>
          if negb (event_desc_is_valid desc) then (OPRT_BASE_EVENT_INVALID_EVENT_DESC, [], b)
          else if negb (event_name_is_valid name) then (OPRT_BASE_EVENT_INVALID_EVENT_NAME, [], b)
          else (OPRT_OK, [], board_set b n (filter (fun t => ~ same_key (Sub n d 0 cb) t) (b n)))
      | None, _ => (OPRT_BASE_EVENT_INVALID_EVENT_DESC, [], b)
      | Some _, None =>
          (if event_desc_is_valid desc then OPRT_BASE_EVENT_INVALID_EVENT_NAME
           else OPRT_BASE_EVENT_INVALID_EVENT_DESC, [], b)
      end
  | Publish name data =>
      match name with
      | Some n =>
          if negb (event_name_is_valid name) then (OPRT_BASE_EVENT_INVALID_EVENT_NAME, [], b)
          else let calls := omap s_cb (b n) in
               (last_ret calls data, calls,
                board_set b n (filter (fun t => s_type t <> SUBSCRIBE_TYPE_ONETIME) (b n)))
      | None => (OPRT_BASE_EVENT_INVALID_EVENT_NAME, [], b)
      end
  end.

(** The manager, when memory is available. *)
Definition event_step (g : EVENT_MANAGE_T) (op : event_op) : option (Z * list Z * EVENT_MANAGE_T) :=
  match op with
  | Subscribe name desc cb type => r ← tal_event_subscribe g name desc cb type true; Some (fst r, [], snd r)
  | Unsubscribe name desc cb => r ← tal_event_unsubscribe g name desc cb; Some (fst r, [], snd r)
  | Publish name data => tal_event_publish g name data true
  end.

Fixpoint event_run (g : EVENT_MANAGE_T) (ops : list event_op) : option (list (Z * list Z)) :=
  match ops with
  | [] => Some []
  | op :: ops => r ← event_step g op; let '(rt, calls, g) := r in out ← event_run g ops; Some ((rt, calls) :: out)
  end.

Fixpoint board_run (b : board) (ops : list event_op) : list (Z * list Z) :=
  match ops with
  | [] => []
  | op :: ops => let '(rt, calls, b) := board_step b op in (rt, calls) :: board_run b ops
  end.
End dispatch.

(** ** Lists of subscribers *)

#[local] Existing Instance same_key_dec.

(** The subscribers in the order in which they were added. *)
Definition order (free : list SUBSCRIBE_NODE_T) : list SUBSCRIBE_NODE_T := foldl (fun l s => add_subscribe s l) [] free.

Definition uniq (l : list SUBSCRIBE_NODE_T) : Prop := forall s, (length (filter (same_key s) l) <= 1)%nat.

Lemma add_subscribe_perm s l : add_subscribe s l ≡ₚ s :: l.
Proof. unfold add_subscribe. case_bool_decide; [done|]. by rewrite Permutation_app_comm. Qed.

Lemma add_subscribe_filter (P : SUBSCRIBE_NODE_T -> Prop) `{forall x, Decision (P x)} s l :
  filter P (add_subscribe s l) = if bool_decide (P s) then add_subscribe s (filter P l) else filter P l.
Proof.
  unfold add_subscribe. case_bool_decide; case_bool_decide.
  - by rewrite filter_cons_True.
  - by rewrite filter_cons_False.
  - by rewrite filter_app, filter_cons_True, filter_nil.
  - by rewrite filter_app, filter_cons_False, filter_nil, app_nil_r.
Qed.

Lemma foldl_add_filter (P : SUBSCRIBE_NODE_T -> Prop) `{forall x, Decision (P x)} free : forall l,
  filter P (foldl (fun l s => add_subscribe s l) l free) =
  foldl (fun l s => add_subscribe s l) (filter P l) (filter P free).
Proof.
  induction free as [|s free IH]; intros l; [done|]. cbn [foldl]. rewrite IH, add_subscribe_filter.
  case_bool_decide; [by rewrite filter_cons_True|by rewrite filter_cons_False].
Qed.

Lemma order_filter (P : SUBSCRIBE_NODE_T -> Prop) `{forall x, Decision (P x)} free :
  filter P (order free) = order (filter P free).
Proof. apply foldl_add_filter. Qed.

Lemma order_snoc free s : order (free ++ [s]) = add_subscribe s (order free).
Proof. unfold order. by rewrite foldl_app. Qed.

Lemma order_perm free : order free ≡ₚ free.
Proof.
  induction free as [|s free IH] using rev_ind; [done|]. by rewrite order_snoc, add_subscribe_perm, IH, Permutation_app_comm.
Qed.

Lemma adopt_ok name free : forall subs,
  adopt name free subs =
    (filter (fun s => s_name s <> name) free,
     foldl (fun l s => add_subscribe s l) subs (filter (fun s => s_name s = name) free)).
Proof.
  induction free as [|s free IH]; intros subs; [done|]. cbn [adopt]. case_bool_decide as Hs.
  - rewrite IH. rewrite filter_cons_False by (intros X; by apply X). by rewrite filter_cons_True.
  - rewrite IH. rewrite filter_cons_True by done. by rewrite filter_cons_False.
Qed.

Lemma uniq_perm l k : l ≡ₚ k -> uniq l -> uniq k.
Proof. intros Hp Hl s. rewrite <- Hp. apply Hl. Qed.

Lemma uniq_filter (P : SUBSCRIBE_NODE_T -> Prop) `{forall x, Decision (P x)} l : uniq l -> uniq (filter P l).
Proof.
  intros Hl s. specialize (Hl s). etrans; [|exact Hl].
  rewrite list_filter_filter, (list_filter_iff _ (fun a => P a /\ same_key s a)) by (intros; tauto).
  rewrite <- list_filter_filter. apply length_filter.
Qed.

Lemma uniq_add s l : ~ Exists (same_key s) l -> uniq l -> uniq (add_subscribe s l).
Proof.
  intros Hn Hl t. rewrite (add_subscribe_perm s l), filter_cons. destruct (decide (same_key t s)) as [[Hd Hc]|]; [|apply Hl].
  assert (He : filter (same_key t) l = []); [|by rewrite He].
  destruct (filter (same_key t) l) as [|x k] eqn:E; [done|].
  assert (Hx : x ∈ filter (same_key t) l) by (rewrite E; left). apply list_elem_of_filter in Hx as [[Hxd Hxc] Hx].
  destruct Hn. apply Exists_exists. exists x. split; [done|]. split; congruence.
Qed.

(** ** The manager as a board *)

Definition board_of (g : EVENT_MANAGE_T) : board := fun n =>
  match event_node_get g n with
  | Some i => match event_root g !! i with Some e => subscribe_root e | None => [] end
  | None => order (filter (fun s => s_name s = n) (free_subscribe_root g))
  end.

Record manager_ok (g : EVENT_MANAGE_T) : Prop := {
  mo_init : inited g = false -> event_root g = [] /\ free_subscribe_root g = [];
  mo_uniq : forall n, uniq (board_of g n) }.

Lemma get_names g n : event_node_get g n = fst <$> list_find (fun m => m = n) (map e_name (event_root g)).
Proof.
  unfold event_node_get. rewrite list_find_fmap. unfold compose. by destruct (list_find _ _) as [[i e]|].
Qed.

Lemma get_Some g n i : event_node_get g n = Some i -> exists e, event_root g !! i = Some e /\ e_name e = n.
Proof.
  unfold event_node_get. destruct (list_find _ _) as [[j e]|] eqn:E; [|done]. intros [= ->].
  apply list_find_Some in E as (Hl & Hn & _). eauto.
Qed.

Lemma get_set g i e e' n :
  event_root g !! i = Some e -> e_name e' = e_name e -> event_node_get (set_event g i e') n = event_node_get g n.
Proof.
  intros Hi He. rewrite !get_names. do 2 f_equal. cbn [set_event event_root]. rewrite list_fmap_insert.
  apply list_insert_id. by rewrite list_lookup_fmap, Hi, He.
Qed.

Lemma board_set_event g i e e' n m :
  event_node_get g n = Some i -> event_root g !! i = Some e -> e_name e' = e_name e ->
  board_of (set_event g i e') m = board_set (board_of g) n (subscribe_root e') m.
Proof.
  intros Hn Hi He. unfold board_of at 1. rewrite (get_set g i e e' m Hi He). unfold board_set. case_bool_decide as Hm.
  - subst m. rewrite Hn. cbn [set_event event_root]. rewrite list_lookup_insert_eq; [done|]. by eapply lookup_lt_Some.
  - unfold board_of. destruct (event_node_get g m) as [j|] eqn:Hj; [|done]. cbn [set_event event_root].
    rewrite list_lookup_insert_ne; [done|]. intros ->. apply get_Some in Hn as (e1 & H1 & <-), Hj as (e2 & H2 & <-). congruence.
Qed.

Lemma board_set_free g free m :
  board_of (set_free g free) m =
    match event_node_get g m with
    | Some _ => board_of g m
    | None => order (filter (fun s => s_name s = m) free)
    end.
Proof.
  unfold board_of. rewrite get_names. cbn [set_free event_root free_subscribe_root]. rewrite <- get_names.
  by destruct (event_node_get g m).
Qed.

(** The new event takes over the subscriptions that wait for it. *)
Lemma event_create_ok g n : event_node_get g n = None ->
  exists g', event_node_create_init g n true = (Some (length (event_root g)), g') /\ inited g' = inited g /\
    event_node_get g' n = Some (length (event_root g)) /\
    event_root g' !! length (event_root g) = Some (Event n (board_of g n)) /\ forall m, board_of g' m = board_of g m.
Proof.
  intros Hn. unfold event_node_create_init. rewrite adopt_ok. eexists. split; [done|].
  set (subs := foldl _ _ _). assert (Hsubs : subs = board_of g n) by (unfold board_of; by rewrite Hn).
  assert (Hget : forall m free c, event_node_get (Manage (inited g) c (event_root g ++ [Event n subs]) free) m =
    match event_node_get g m with
    | Some j => Some j
    | None => if bool_decide (m = n) then Some (length (event_root g)) else None
    end).
  { intros m free c. unfold event_node_get. cbn [event_root]. destruct (list_find (fun e => e_name e = m) (event_root g)) as [[j e]|] eqn:E.
    - by rewrite (list_find_app_l _ _ _ _ _ E).
    - rewrite (list_find_app_r _ _ _ E). cbn [list_find e_name]. destruct (decide (n = m)) as [->|Hm].
      + by rewrite bool_decide_true by done.
      + by rewrite bool_decide_false by congruence. }
  split; [done|]. split; [rewrite Hget, Hn; by rewrite bool_decide_true|]. cbn [event_root].
  split; [rewrite list_lookup_middle by done; by rewrite Hsubs|].
  intros m. unfold board_of at 1. rewrite Hget. cbn [event_root free_subscribe_root].
  destruct (event_node_get g m) as [j|] eqn:Hj.
  - unfold board_of. rewrite Hj. apply get_Some in Hj as (e & He & _).
    by rewrite lookup_app_l by (by eapply lookup_lt_Some).
  - case_bool_decide as Hm; [subst m; by rewrite list_lookup_middle|]. unfold board_of. rewrite Hj. f_equal.
    apply list_filter_filter_l. congruence.
Qed.

Section contract.
Context (ret : Z -> Z -> Z).

Lemma dispatch_ok subs data : forall rt,
  dispatch ret subs data rt =
    (foldl (fun _ cb => ret cb data) rt (omap s_cb subs), omap s_cb subs,
     filter (fun t => s_type t <> SUBSCRIBE_TYPE_ONETIME) subs).
Proof.
  induction subs as [|s subs IH]; intros rt; [done|]. cbn [dispatch]. rewrite IH. cbn [omap list_omap].
  case_bool_decide as Ht; [rewrite filter_cons_False by (intros X; by apply X)|rewrite filter_cons_True by done];
    by destruct (s_cb s).
Qed.

Lemma ensure_ok g : manager_ok g ->
  manager_ok (ensure_init g) /\ inited (ensure_init g) = true /\ forall m, board_of (ensure_init g) m = board_of g m.
Proof.
  intros Hok. pose proof Hok as [Hi Hu]. unfold ensure_init, tal_event_init. destruct (inited g) eqn:E; [done|].
  destruct (Hi eq_refl) as [Hr Hf]. cbn [snd].
  assert (Hb : forall m, board_of (Manage true 0 [] []) m = board_of g m)
    by (intros m; unfold board_of; rewrite !get_names, Hr, Hf; done).
  split; [|split; done]. split; [done|]. intros n. rewrite Hb. apply Hu.
Qed.

Definition related (g : EVENT_MANAGE_T) (b : board) : Prop := manager_ok g /\ forall n, board_of g n = b n.

(** Setting the subscribers of an event, or the free list, sets the list of the name. *)
Lemma related_set g b g' n l :
  related g b -> inited g' = true -> uniq l -> (forall m, board_of g' m = board_set (board_of g) n l m) ->
  related g' (board_set b n l).
Proof.
  intros [Hok Hb] Hi Hl Hg'. assert (He : forall m, board_of g' m = board_set b n l m).
  { intros m. rewrite Hg'. unfold board_set. case_bool_decide; [done|apply Hb]. }
  split; [|exact He]. split; [congruence|]. intros m. rewrite Hg'. unfold board_set. case_bool_decide; [done|apply Hok].
Qed.

Lemma related_same g b g' :
  related g b -> inited g' = true -> (forall m, board_of g' m = board_of g m) -> related g' b.
Proof.
  intros [Hok Hb] Hi Hg'. split; [|intros m; by rewrite Hg'].
  split; [congruence|]. intros m. rewrite Hg'. apply Hok.
Qed.

(** The list of an event, or of the free subscriptions of a name. *)
Lemma board_event g n i e : event_node_get g n = Some i -> event_root g !! i = Some e -> board_of g n = subscribe_root e.
Proof. intros Hn He. unfold board_of. by rewrite Hn, He. Qed.

Lemma free_filter n s (free : list SUBSCRIBE_NODE_T) : s_name s = n ->
  filter (fun e => s_name e = s_name s /\ s_desc e = s_desc s /\ s_cb e = s_cb s) free =
  filter (same_key s) (filter (fun e => s_name e = n) free).
Proof. intros <-. rewrite list_filter_filter. apply list_filter_iff. unfold same_key. tauto. Qed.

Lemma free_found g n s : event_node_get g n = None -> s_name s = n ->
  match event_node_get_free_subscribe g s with Some _ => true | None => false end =
  bool_decide (Exists (same_key s) (board_of g n)).
Proof.
  intros Hn Hs. unfold event_node_get_free_subscribe. rewrite <- find_exists. apply bool_decide_ext.
  unfold board_of. rewrite Hn. rewrite (order_perm _), !Exists_exists. split.
  - intros (x & Hx & H1 & H2 & H3). exists x. split; [apply list_elem_of_filter; split; [congruence|done]|by split].
  - intros (x & [H1 Hx]%list_elem_of_filter & H2 & H3). exists x. split; [done|]. split; [congruence|done].
Qed.

Lemma get_subscribe_key e s : event_node_get_subscribe e s = fst <$> list_find (same_key s) (subscribe_root e).
Proof. reflexivity. Qed.

Lemma subscribe_related g b n s :
  related g b -> inited g = true -> s_name s = n ->
  exists g', (match event_node_get g n with
              | None => Some (event_node_add_free_subscribe g s true)
              | Some i => e ← event_root g !! i;
                          let '(rt, e) := event_node_add_subscribe e s true in Some (rt, set_event g i e)
              end) = Some (OPRT_OK, g') /\
    related g' (if bool_decide (Exists (same_key s) (b n)) then b else board_set b n (add_subscribe s (b n))).
Proof.
  intros HR Hi Hs. pose proof HR as [Hok Hb]. rewrite <- Hb. destruct (event_node_get g n) as [i|] eqn:Hn.
  - pose proof Hn as Hn'. apply get_Some in Hn' as (e & He & Hen). rewrite He. ub_step. unfold event_node_add_subscribe.
    pose proof (board_event g n i e Hn He) as Hbn. rewrite get_subscribe_key.
    pose proof (find_exists (same_key s) (subscribe_root e)) as Hf. rewrite Hbn.
    destruct (fst <$> list_find _ (subscribe_root e)) as [j|]; rewrite Hf; (eexists; split; [done|]).
    + apply (related_same g); [done|done|]. intros m. rewrite (board_set_event g i e e n m Hn He eq_refl). unfold board_set.
      destruct (bool_decide_reflect (m = n)) as [->|]; [by rewrite Hbn|done].
    + apply (related_set g); [done|done| |intros m; by apply (board_set_event g i e)].
      apply uniq_add; [by apply bool_decide_eq_false in Hf|rewrite <- Hbn; apply Hok].
  - unfold event_node_add_free_subscribe. pose proof (free_found g n s Hn Hs) as Hf.
    destruct (event_node_get_free_subscribe g s) as [j|]; rewrite <- Hf; (eexists; split; [done|]); [done|].
    apply (related_set g); [done|done| |].
    + apply uniq_add; [by symmetry in Hf; apply bool_decide_eq_false in Hf|apply Hok].
    + intros m. rewrite board_set_free. unfold board_set.
      destruct (bool_decide_reflect (m = n)) as [->|Hm].
      * rewrite Hn, filter_app, filter_cons_True, filter_nil by done. rewrite order_snoc. unfold board_of. by rewrite Hn.
      * unfold board_of. destruct (event_node_get g m); [done|]. rewrite filter_app, filter_cons_False, filter_nil by congruence.
        by rewrite app_nil_r.
Qed.

Lemma unsubscribe_related g b n s :
  related g b -> inited g = true -> s_name s = n ->
  exists g', (match event_node_get g n with
              | None => Some (event_node_del_free_subscribe g s)
              | Some i => e ← event_root g !! i;
                          let '(rt, e) := event_node_del_subscribe e s in Some (rt, set_event g i e)
              end) = Some (OPRT_OK, g') /\
    related g' (board_set b n (filter (fun t => ~ same_key s t) (b n))).
Proof.
  intros HR Hi Hs. pose proof HR as [Hok Hb]. rewrite <- Hb. destruct (event_node_get g n) as [i|] eqn:Hn.
  - pose proof Hn as Hn'. apply get_Some in Hn' as (e & He & Hen). rewrite He. ub_step. unfold event_node_del_subscribe.
    pose proof (board_event g n i e Hn He) as Hbn. rewrite get_subscribe_key.
    pose proof (delete_found (same_key s) (subscribe_root e)) as Hf. rewrite Hbn.
    rewrite Hf by (rewrite <- Hbn; apply Hok).
    set (e' := match fst <$> list_find (same_key s) (subscribe_root e) with Some i => Event (e_name e) (delete i (subscribe_root e)) | None => e end).
    exists (set_event g i e'). split; [unfold e'; by destruct (fst <$> _)|].
    apply (related_set g); [done|done| |].
    + rewrite <- Hf by (rewrite <- Hbn; apply Hok). rewrite <- Hbn. apply uniq_filter, Hok.
    + intros m. rewrite (board_set_event g i e e' n m Hn He) by (unfold e'; by destruct (fst <$> _)).
      unfold e'. by destruct (fst <$> _).
  - set (P := fun e => s_name e = s_name s /\ s_desc e = s_desc s /\ s_cb e = s_cb s).
    assert (Hlen : (length (filter P (free_subscribe_root g)) <= 1)%nat).
    { unfold P. rewrite (free_filter n s _ Hs). pose proof (mo_uniq _ Hok n s) as Hu. unfold board_of in Hu. rewrite Hn in Hu.
      by rewrite (order_perm _) in Hu. }
    pose proof (delete_found P (free_subscribe_root g) Hlen) as Hf.
    exists (set_free g (filter (fun x => ~ P x) (free_subscribe_root g))). split.
    { rewrite Hf. unfold event_node_del_free_subscribe, event_node_get_free_subscribe. fold P.
      destruct (fst <$> list_find P (free_subscribe_root g)); [done|]. by destruct g. }
    apply (related_set g); [done|done|apply uniq_filter, Hok|]. intros m. rewrite board_set_free. unfold board_set.
    destruct (bool_decide_reflect (m = n)) as [->|Hm].
    + rewrite Hn. unfold board_of. rewrite Hn, order_filter. f_equal. rewrite !list_filter_filter. apply list_filter_iff.
      unfold P, same_key. intros x. rewrite Hs. tauto.
    + unfold board_of. destruct (event_node_get g m); [done|]. f_equal. apply list_filter_filter_l. unfold P. intros x Hx (H1 & _).
      congruence.
Qed.

Lemma publish_related g b n data :
  related g b -> inited g = true ->
  exists g', (let '(event, g) := match event_node_get g n with
                                | Some i => (Some i, g) | None => event_node_create_init g n true end in
              match event with
              | None => Some (OPRT_MALLOC_FAILED, [], g)
              | Some i => e ← event_root g !! i;
                          let '(rt, calls, e) := event_node_dispatch ret e data in Some (rt, calls, set_event g i e)
              end) = Some (last_ret ret (omap s_cb (b n)) data, omap s_cb (b n), g') /\
    related g' (board_set b n (filter (fun t => s_type t <> SUBSCRIBE_TYPE_ONETIME) (b n))).
Proof.
  intros HR Hi. pose proof HR as [Hok Hb].
  assert (Hev : exists i g1 e, (match event_node_get g n with
      | Some i => (Some i, g) | None => event_node_create_init g n true end) = (Some i, g1) /\ related g1 b /\
      inited g1 = true /\ event_node_get g1 n = Some i /\ event_root g1 !! i = Some e /\ subscribe_root e = b n).
  { destruct (event_node_get g n) as [i|] eqn:Hn.
    - pose proof Hn as Hn'. apply get_Some in Hn' as (e & He & _). exists i, g, e. split; [done|]. split; [done|].
      split; [done|]. split; [done|]. split; [done|]. by rewrite <- (board_event g n i e Hn He).
    - destruct (event_create_ok g n Hn) as (g1 & Hc & Hi1 & Hg1 & Hr1 & Hb1). eexists _, g1, _. split; [exact Hc|].
      split; [apply (related_same g); [done|congruence|done]|]. split; [congruence|]. split; [done|]. split; [done|].
      cbn [subscribe_root]. apply Hb. }
  destruct Hev as (i & g1 & e & -> & HR1 & Hi1 & Hn1 & He1 & Hbe). rewrite He1. ub_step.
  unfold event_node_dispatch. rewrite dispatch_ok, Hbe. eexists. split; [done|].
  pose proof HR1 as [Hok1 Hb1]. apply (related_set g1); [done|done|rewrite <- Hb1; apply uniq_filter, Hok1|].
  intros m. rewrite (board_set_event g1 i e _ n m Hn1 He1) by done. done.
Qed.

(** One step of the manager is one step of the board. *)
Lemma event_step_ok g b op : related g b ->
  exists g', event_step ret g op = Some (fst (board_step ret b op), g') /\ related g' (snd (board_step ret b op)).
Proof.
  intros [Hok Hb]. destruct (ensure_ok g Hok) as (Hok0 & Hi0 & Hb0).
  assert (HR : related (ensure_init g) b) by (split; [done|]; intros n; by rewrite Hb0).
  set (g0 := ensure_init g) in *. destruct op as [name desc cb type|name desc cb|name data]; cbn [event_step board_step].
  - unfold tal_event_subscribe. fold g0. destruct desc as [d|]; [|by eexists].
    destruct (event_desc_is_valid (Some d)) eqn:Ed; cbn [negb]; [|by destruct name; eexists].
    destruct name as [n|]; [|by eexists]. destruct (event_name_is_valid (Some n)); cbn [negb]; [|by eexists]. ub_step.
    destruct (subscribe_related g0 b n (Sub n d type cb) HR Hi0 eq_refl) as (g' & Hs & HR').
    unfold mbind, option_bind in Hs. rewrite Hs. exists g'. cbn [fst snd]. by case_bool_decide.
  - unfold tal_event_unsubscribe. fold g0. destruct desc as [d|]; [|by eexists].
    destruct (event_desc_is_valid (Some d)) eqn:Ed; cbn [negb]; [|by destruct name; eexists].
    destruct name as [n|]; [|by eexists]. destruct (event_name_is_valid (Some n)); cbn [negb]; [|by eexists]. ub_step.
    destruct (unsubscribe_related g0 b n (Sub n d SUBSCRIBE_TYPE_NORMAL cb) HR Hi0 eq_refl) as (g' & Hs & HR').
    unfold mbind, option_bind in Hs. rewrite Hs. by exists g'.
  - unfold tal_event_publish. fold g0. destruct name as [n|]; [|by eexists].
    destruct (event_name_is_valid (Some n)); cbn [negb]; [|by eexists]. ub_step.
    destruct (publish_related g0 b n data HR Hi0) as (g' & Hs & HR').
    unfold mbind, option_bind in Hs. rewrite Hs. by exists g'.
Qed.

Lemma event_run_ok ops : forall g b, related g b -> event_run ret g ops = Some (board_run ret b ops).
Proof.
  induction ops as [|op ops IH]; intros g b HR; [done|]. cbn [event_run board_run].
  destruct (event_step_ok g b op HR) as (g' & -> & HR'). ub_step.
  destruct (board_step ret b op) as [[rt calls] b']. cbn [fst snd] in *. by rewrite (IH g' b').
Qed.
End contract.

Lemma manager_start_ok : related g_event_manager (fun _ => []).
Proof. split; [|done]. split; [done|]. intros n s. cbn. lia. Qed.


(** Subscriptions to one name. *)
Definition subs_of (name : bytes) (l : list (bytes * Z * Z)) : list event_op :=
  map (fun '(desc, cb, type) => Subscribe (Some name) (Some desc) (Some cb) type) l.

Definition sub_of (name : bytes) (x : bytes * Z * Z) : SUBSCRIBE_NODE_T :=
  let '(desc, cb, type) := x in Sub name desc type (Some cb).
Definition key_of_sub (x : bytes * Z * Z) : bytes * Z := let '(desc, cb, _) := x in (desc, cb).
Definition emergency (x : bytes * Z * Z) : option Z :=
  let '(_, cb, type) := x in if bool_decide (type = SUBSCRIBE_TYPE_EMERGENCY) then Some cb else None.
Definition ordinary (x : bytes * Z * Z) : option Z :=
  let '(_, cb, type) := x in if bool_decide (type = SUBSCRIBE_TYPE_EMERGENCY) then None else Some cb.

Lemma order_calls name l : omap s_cb (order (map (sub_of name) l)) = rev (omap emergency l) ++ omap ordinary l.
Proof.
  induction l as [|x l IH] using rev_ind; [done|]. rewrite map_app, !omap_app.
  change (map (sub_of name) [x]) with [sub_of name x]. rewrite order_snoc. destruct x as [[desc cb] type].
  cbn [sub_of omap list_omap emergency ordinary]. unfold add_subscribe. cbn [s_type].
  case_bool_decide; cbn [omap list_omap s_cb].
  - rewrite IH, rev_app_distr, app_nil_r. done.
  - rewrite omap_app, IH, app_nil_r, <- app_assoc. done.
Qed.

Lemma last_ret_last ret calls data :
  last_ret ret calls data = match last calls with Some cb => ret cb data | None => OPRT_OK end.
Proof.
  unfold last_ret. destruct calls as [|c calls _] using rev_ind; [done|]. by rewrite foldl_app, last_snoc.
Qed.

Lemma subscribe_all ret name l rest : forall b l0,
  event_name_is_valid (Some name) = true -> Forall (fun x => event_desc_is_valid (Some (fst (key_of_sub x))) = true) l ->
  NoDup (map key_of_sub (l0 ++ l)) -> b name = order (map (sub_of name) l0) ->
  exists out b', board_run ret b (subs_of name l ++ rest) = out ++ board_run ret b' rest /\
    b' name = order (map (sub_of name) (l0 ++ l)).
Proof.
  induction l as [|x l IH]; intros b l0 Hn Hd Hnd Hb; [exists [], b; by rewrite app_nil_r|].
  inversion Hd as [|? ? Hx Hd']; subst. destruct x as [[desc cb] type]. cbn [key_of_sub fst] in Hx.
  cbn [subs_of map app board_run board_step]. rewrite Hx, Hn. cbn [negb].
  rewrite bool_decide_false.
  2:{ rewrite Exists_exists. intros (y & Hy & Hyd & Hyc). rewrite Hb, (order_perm _) in Hy.
      apply list_elem_of_fmap in Hy as ([[d c] t] & -> & Hy). cbn [sub_of s_desc s_cb] in *. injection Hyc as ->. subst d.
      rewrite map_app in Hnd. apply NoDup_app in Hnd as (_ & Hdis & _). apply (Hdis (desc, cb)).
      - apply list_elem_of_fmap. by exists (desc, cb, t).
      - cbn [map key_of_sub]. left. }
  set (s := Sub name desc type (Some cb)). set (b1 := board_set b name (add_subscribe s (b name))).
  destruct (IH b1 (l0 ++ [(desc, cb, type)]) Hn Hd') as (out & b' & Hrun & Hb').
  - by rewrite <- app_assoc.
  - unfold b1, board_set. rewrite bool_decide_true by done. rewrite Hb, map_app. by rewrite <- order_snoc.
  - exists ((OPRT_OK, []) :: out), b'. rewrite <- app_assoc in Hb'. split; [|done].
    cbn [app]. f_equal. exact Hrun.
Qed.

(** A publication calls the emergencies first, the last one first, and then the others in the
    order of their subscriptions; whatever they answer its code is the code of the last callback,
    so that a failure of the others is not reported. *)
Theorem publish_order ret name l data :
  event_name_is_valid (Some name) = true -> Forall (fun x => event_desc_is_valid (Some (fst (key_of_sub x))) = true) l ->
  NoDup (map key_of_sub l) ->
  let calls := rev (omap emergency l) ++ omap ordinary l in
  exists out, event_run ret g_event_manager (subs_of name l ++ [Publish (Some name) data]) =
    Some (out ++ [(match last calls with Some cb => ret cb data | None => OPRT_OK end, calls)]).
Proof.
  intros Hn Hd Hnd calls. rewrite (event_run_ok ret _ _ _ manager_start_ok).
  destruct (subscribe_all ret name l [Publish (Some name) data] (fun _ => []) [] Hn Hd Hnd eq_refl) as (out & b' & -> & Hb').
  exists out. cbn [board_run board_step]. rewrite Hn, Hb', last_ret_last, order_calls. done.
Qed.

(** ** Witnesses *)

Lemma publish_order_witness :
  exists out, event_run (fun cb _ => - cb) g_event_manager
    (subs_of (c_str "mqtt") [(c_str "a", 1, 0); (c_str "b", 2, 1); (c_str "c", 0, 2)] ++ [Publish (Some (c_str "mqtt")) 7]) =
    Some (out ++ [(0, [2; 1; 0])]).
Proof.
  apply (publish_order (fun cb _ => - cb) (c_str "mqtt") [(c_str "a", 1, 0); (c_str "b", 2, 1); (c_str "c", 0, 2)] 7).
  - done.
  - repeat apply Forall_cons_2; done.
  - apply (bool_decide_unpack _). by vm_compute.
Defined.
