(* ===== verification/WorkQueue.v ===== *)
(** * Work queues

    src/src/tal_system/src/tal_workqueue.c and tal_workq_service.c on the queues of Queue and the timers
    of SwTimer. A callback and its data are addresses; a callback of [None] is NULL, data 0 is NULL. The
    semaphore is a counter; the results of the kernel (semaphore, thread) are arguments. The worker thread
    is cut into the steps between which other threads can run: it takes an item, it calls, it is done. *)
From S2P Require Import Prelude TuyaList SwTimer Queue.

Record WORK_ITEM_T := Work { w_cb : option Z; w_data : Z }.

(** [sem]: the count of the semaphore. *)
Record TAL_WORKQUEUE_T := WorkQueue {
  wq_queue : TUYA_QUEUE_T WORK_ITEM_T;
  wq_sem : Z;
  last_cb : option Z }.

(** Two pointers of 32 bits. *)
Definition WORK_ITEM_SIZE : Z := 8.

Section workqueue.
Context (place : gset Z -> Z).

Definition with_queue (w : TAL_WORKQUEUE_T) (q : TUYA_QUEUE_T WORK_ITEM_T) : TAL_WORKQUEUE_T := WorkQueue q (wq_sem w) (last_cb w).

(** [thread_cfg], [handle]: whether the pointers are not NULL; [allocs]: the memory of the work queue and
    of its queue. What is created before a failure is released. *)
Definition tal_workqueue_create (queue_len : Z) (thread_cfg handle : bool) (alloc1 alloc2 : bool) (lock sem thread head : Z)
    : Z * option TAL_WORKQUEUE_T :=
  if bool_decide (0 = queue_len) || negb thread_cfg || negb handle then (OPRT_INVALID_PARM, None)
  else if negb alloc1 then (OPRT_MALLOC_FAILED, None)
  else
    let '(op_ret, q) := tuya_queue_create queue_len WORK_ITEM_SIZE alloc2 lock head in
    match q with
    | Some q =>
        if bool_decide (OPRT_OK <> op_ret) then (op_ret, None)
        else if bool_decide (OPRT_OK <> sem) then (sem, None)
        else if bool_decide (OPRT_OK <> thread) then (thread, None)
        else (thread, Some (WorkQueue q 0 None))
    | None => (op_ret, None)
    end.

(** The two halves of [tal_workqueue_schedule]: the item goes into the queue, then the semaphore is posted. *)
Definition schedule_input (w : TAL_WORKQUEUE_T) (instant : bool) (cb data : Z) (alloc : bool) : option (Z * TAL_WORKQUEUE_T) :=
  let item := Some (Work (Some cb) data) in
  r ← (if instant then tuya_queue_input_instant place (Some (wq_queue w)) item alloc
       else tuya_queue_input place (Some (wq_queue w)) item alloc);
  q ← snd r;
  Some (fst r, with_queue w q).

(** [post]: the result of the semaphore. *)
Definition schedule_post (w : TAL_WORKQUEUE_T) (post : Z) : Z * TAL_WORKQUEUE_T :=
  (post, if bool_decide (post = OPRT_OK) then WorkQueue (wq_queue w) (wq_sem w + 1) (last_cb w) else w).

Definition schedule (handle : option TAL_WORKQUEUE_T) (instant : bool) (cb : option Z) (data : Z) (alloc : bool) (post : Z)
    : option (Z * option TAL_WORKQUEUE_T) :=
  match handle, cb with
  | Some w, Some cb =>
      r ← schedule_input w instant cb data alloc;
      let '(op_ret, w) := r in
      if bool_decide (OPRT_OK = op_ret) then let '(op_ret, w) := schedule_post w post in Some (op_ret, Some w)
      else Some (op_ret, Some w)
  | _, _ => Some (OPRT_INVALID_PARM, handle)
  end.

Definition tal_workqueue_schedule (handle : option TAL_WORKQUEUE_T) := schedule handle false.
Definition tal_workqueue_schedule_instant (handle : option TAL_WORKQUEUE_T) := schedule handle true.

Definition __work_cancel_traverse (item ctx : WORK_ITEM_T) : bool * WORK_ITEM_T * WORK_ITEM_T :=
  let is_same :=
    match w_cb ctx with Some c => bool_decide (w_cb item = Some c) | None => false end ||
    (bool_decide (w_data ctx <> 0) && bool_decide (w_data ctx = w_data item)) in
  (true, if is_same then Work None (w_data item) else item, ctx).

Definition tal_workqueue_cancel (handle : option TAL_WORKQUEUE_T) (cb : option Z) (data : Z)
    : option (Z * option TAL_WORKQUEUE_T) :=
  match handle with
  | None => Some (OPRT_INVALID_PARM, None)
  | Some w =>
      if bool_decide (cb = None) && bool_decide (data = 0) then Some (OPRT_INVALID_PARM, handle)
      else
        r ← tuya_queue_traverse (Some (wq_queue w)) (Some __work_cancel_traverse) (Work cb data);
        let '(rt, q, _) := r in
        q ← q;
        Some (rt, Some (with_queue w q))
  end.

Definition tal_workqueue_traverse {C} (handle : option TAL_WORKQUEUE_T)
    (cb : option (WORK_ITEM_T -> C -> bool * WORK_ITEM_T * C)) (ctx : C) : option (Z * option TAL_WORKQUEUE_T * C) :=
  match handle, cb with
  | Some w, Some _ =>
      r ← tuya_queue_traverse (Some (wq_queue w)) cb ctx;
      let '(rt, q, ctx) := r in
      q ← q;
      Some (rt, Some (with_queue w q), ctx)
  | _, _ => Some (OPRT_INVALID_PARM, handle, ctx)
  end.

(** The result has type [uint16_t]. *)
Definition tal_workqueue_get_num (handle : option TAL_WORKQUEUE_T) : Z :=
  match handle with
  | None => u16 OPRT_INVALID_PARM
  | Some w => u16 (tuya_queue_get_used_num (Some (wq_queue w)))
  end.

(** [thread]: the result of [tal_thread_delete]; the wait for the end of the thread has no model. *)
Definition tal_workqueue_release (handle : option TAL_WORKQUEUE_T) (thread unlock : Z) : option (Z * option TAL_WORKQUEUE_T) :=
  match handle with
  | None => Some (OPRT_INVALID_PARM, None)
  | Some w =>
      if bool_decide (OPRT_OK <> thread) then Some (thread, handle)
      else r ← tuya_queue_release (Some (wq_queue w)) unlock; Some (OPRT_OK, None)
  end.

(** ** The worker *)

(** What the thread does from the semaphore to the call; [wait]: the result of the semaphore, which is
    not OK when it is interrupted. [Idle]: the semaphore blocks, or the thread is inside a callback. *)
Inductive taken := Idle | Failed | Called (cb data : Z) | Cancelled (data : Z).

Definition work_take (w : TAL_WORKQUEUE_T) (wait : Z) : option (taken * TAL_WORKQUEUE_T) :=
  if bool_decide (last_cb w <> None) || bool_decide (wq_sem w <= 0) then Some (Idle, w)
  else if bool_decide (OPRT_OK <> wait) then Some (Failed, w)
  else
    r ← tuya_queue_output (Some (wq_queue w)) true;
    let '(op_ret, item, q) := r in
    q ← q;
    let w := WorkQueue q (wq_sem w - 1) None in
    match item with
    | Some (Work (Some cb) data) =>
        if bool_decide (OPRT_OK <> op_ret) then Some (Failed, w) else Some (Called cb data, WorkQueue q (wq_sem w) (Some cb))
    | Some (Work None data) => if bool_decide (OPRT_OK <> op_ret) then Some (Failed, w) else Some (Cancelled data, w)
    | None => Some (Failed, w)
    end.

Definition work_done (w : TAL_WORKQUEUE_T) : TAL_WORKQUEUE_T := WorkQueue (wq_queue w) (wq_sem w) None.

(** ** All interleavings of the threads

    A thread that schedules is between its two halves while it is in flight. *)
Inductive wq_event :=
  | Enter (instant : bool) (cb data : Z) (alloc : bool)
  | Post
  | Cancel (cb : option Z) (data : Z)
  | Take
  | Done.

Record wq_machine := System { sys_queue : TAL_WORKQUEUE_T; in_flight : Z }.

Inductive wq_obs := Accepted (cb data : Z) | Refused (rt : Z) | Ran (t : taken) | Quiet.

Definition wq_step (ev : wq_event) (s : wq_machine) : option (wq_obs * wq_machine) :=
  let w := sys_queue s in
  match ev with
  | Enter instant cb data alloc =>
      r ← schedule_input w instant cb data alloc;
      Some (if bool_decide (fst r = OPRT_OK) then (Accepted cb data, System (snd r) (in_flight s + 1))
            else (Refused (fst r), System (snd r) (in_flight s)))
  | Post =>
      Some (Quiet, if bool_decide (0 < in_flight s) then System (snd (schedule_post w OPRT_OK)) (in_flight s - 1) else s)
  | Cancel cb data =>
      r ← tal_workqueue_cancel (Some w) cb data; w ← snd r; Some (Quiet, System w (in_flight s))
  | Take => r ← work_take w OPRT_OK; Some (Ran (fst r), System (snd r) (in_flight s))
  | Done => Some (Quiet, System (work_done w) (in_flight s))
  end.

Fixpoint wq_run (evs : list wq_event) (s : wq_machine) : option (list wq_obs * wq_machine) :=
  match evs with
  | [] => Some ([], s)
  | ev :: evs => r ← wq_step ev s; t ← wq_run evs (snd r); Some (fst r :: fst t, snd t)
  end.

(** The data of the items that were accepted, and of those that the worker took. *)
Definition accepted (o : wq_obs) : option Z := match o with Accepted _ data => Some data | _ => None end.
Definition took (o : wq_obs) : option Z :=
  match o with Ran (Called _ data) | Ran (Cancelled data) => Some data | _ => None end.

Definition instant (ev : wq_event) : bool := match ev with Enter true _ _ _ => true | _ => false end.

(** What a cancellation leaves of the waiting items. *)
Definition cancelled (cb : option Z) (data : Z) (item : WORK_ITEM_T) : WORK_ITEM_T :=
  snd (fst (__work_cancel_traverse item (Work cb data))).

Lemma cancel_list cb data l :
  traverse_list __work_cancel_traverse l (Work cb data) = (cancelled cb data <$> l, Work cb data).
Proof. induction l as [|x l IH]; [done|]. cbn [traverse_list]. unfold __work_cancel_traverse at 1. by rewrite IH. Qed.

Lemma cancelled_data cb data item : w_data (cancelled cb data item) = w_data item.
Proof. unfold cancelled, __work_cancel_traverse. cbn. by case_match. Qed.

Lemma workqueue_cancel_ok w l addrs cb data :
  rep (wq_queue w) l addrs -> cb <> None \/ data <> 0 ->
  exists q, tal_workqueue_cancel (Some w) cb data = Some (OPRT_OK, Some (with_queue w q)) /\
    queue_len q = queue_len (wq_queue w) /\ rep q (cancelled cb data <$> l) addrs.
Proof.
  intros Hr Hc. unfold tal_workqueue_cancel.
  replace (bool_decide (cb = None) && bool_decide (data = 0)) with false
    by (symmetry; apply andb_false_iff; rewrite !bool_decide_eq_false; tauto).
  destruct (traverse_ok __work_cancel_traverse (wq_queue w) l addrs (Work cb data) Hr) as (q' & -> & Hl & Hr'). ub_step.
  rewrite cancel_list in Hr'. eauto.
Qed.

(** The state of the system: [l] waits; one post for every item that waits or is being scheduled. *)
Record sys_ok (cap : Z) (s : wq_machine) (l : list WORK_ITEM_T) : Prop := {
  so_rep : exists addrs, rep (wq_queue (sys_queue s)) l addrs;
  so_len : queue_len (wq_queue (sys_queue s)) = cap;
  so_flight : 0 <= in_flight s;
  so_sem : 0 <= wq_sem (sys_queue s);
  so_count : wq_sem (sys_queue s) + in_flight s = zlen l }.

Context (place_fresh : fresh_place place).

Lemma input_ok w l addrs inst cb data alloc :
  rep (wq_queue w) l addrs ->
  exists q', schedule_input w inst cb data alloc =
      Some (if negb alloc then OPRT_MALLOC_FAILED
            else if bool_decide (zlen l = queue_len (wq_queue w)) then OPRT_EXCEED_UPPER_LIMIT else OPRT_OK, with_queue w q') /\
    queue_len q' = queue_len (wq_queue w) /\
    exists addrs', rep q' (if alloc && negb (bool_decide (zlen l = queue_len (wq_queue w)))
      then if inst then Work (Some cb) data :: l else l ++ [Work (Some cb) data] else l) addrs'.
Proof.
  intros Hr. unfold schedule_input, tuya_queue_input, tuya_queue_input_instant.
  destruct inst.
  - destruct (enqueue_ok place _ l addrs (Work (Some cb) data) POLICY_SEND_TO_FRONT alloc place_fresh Hr) as (q' & -> & Hl & Hr');
      [by right|]. ub_step. exists q'. split; [done|]. by split.
  - destruct (enqueue_ok place _ l addrs (Work (Some cb) data) POLICY_SEND_TO_BACK alloc place_fresh Hr) as (q' & -> & Hl & Hr');
      [by left|]. ub_step. exists q'. split; [done|]. by split.
Qed.

(** One step: the items move from accepted to waiting to taken, and the worker never finds the queue empty. *)
Lemma wq_step_ok cap ev s l :
  sys_ok cap s l ->
  exists o s' l', wq_step ev s = Some (o, s') /\ sys_ok cap s' l' /\ o <> Ran Failed /\
    (option_list (accepted o) ++ (w_data <$> l) ≡ₚ option_list (took o) ++ (w_data <$> l')) /\
    (instant ev = false -> (w_data <$> l) ++ option_list (accepted o) = option_list (took o) ++ (w_data <$> l')).
Proof.
  intros [[addrs Hr] Hlen Hfl Hsem Hcount]. pose proof (rep_len _ _ _ Hr) as Hpos. unfold wq_step.
  set (w := sys_queue s) in *. destruct ev as [inst cb data alloc| |cb data| |].
  - destruct (input_ok w l addrs inst cb data alloc Hr) as (q' & -> & Hl & addrs' & Hr'). ub_step. cbn [fst snd].
    destruct alloc; [destruct (bool_decide_reflect (zlen l = queue_len (wq_queue w))) as [Hful|Hful]|]; cbn [negb andb] in *.
    + rewrite bool_decide_false by done. do 2 eexists. exists l. split; [reflexivity|].
      split; [split; cbn; eauto; congruence|]. cbn. rewrite app_nil_r. done.
    + rewrite bool_decide_true by done. do 2 eexists. eexists. split; [reflexivity|].
      split; [split; cbn; [eauto|congruence|lia|done|]|split; [done|]].
      * destruct inst; rewrite ?zlen_cons, ?zlen_snoc; lia.
      * destruct inst; cbn; [done|]. rewrite fmap_app. cbn. split; [|done]. by rewrite Permutation_cons_append.
    + rewrite bool_decide_false by done. do 2 eexists. exists l. split; [reflexivity|].
      split; [split; cbn; eauto; congruence|]. cbn. rewrite app_nil_r. done.
  - do 2 eexists. exists l. split; [reflexivity|]. cbn [accepted took option_list app]. rewrite app_nil_r.
    split; [|done]. case_bool_decide; [|split; eauto]. unfold schedule_post. rewrite bool_decide_true by done.
    split; cbn; eauto; lia.
  - destruct (decide (cb <> None \/ data <> 0)) as [Hc|Hc].
    2: { assert (cb = None /\ data = 0) as [-> ->].
         { destruct cb; [destruct Hc; by left|]. split; [done|]. destruct (decide (data = 0)); [done|]. destruct Hc. by right. }
         unfold tal_workqueue_cancel. rewrite !bool_decide_true by done. ub_step. do 2 eexists. exists l.
         split; [reflexivity|]. cbn. rewrite app_nil_r. split; [split; eauto|done]. }
    destruct (workqueue_cancel_ok w l addrs cb data Hr Hc) as (q' & -> & Hl & Hr').
    ub_step. cbn [fst snd] in *. do 2 eexists. exists (cancelled cb data <$> l).
    split; [reflexivity|]. cbn. rewrite app_nil_r. split.
    + split; cbn; eauto; [congruence|]. unfold zlen in *. by rewrite length_fmap.
    + rewrite <- list_fmap_compose. split; [done|].
      assert (He : w_data ∘ cancelled cb data <$> l = w_data <$> l) by (apply list_fmap_ext; intros; apply cancelled_data).
      by rewrite He.
  - unfold work_take. destruct (bool_decide_reflect (last_cb w <> None)) as [Hb|Hb]; cbn [orb].
    { ub_step. do 2 eexists. exists l. split; [reflexivity|]. cbn. rewrite app_nil_r. split; [split; eauto|done]. }
    destruct (bool_decide_reflect (wq_sem w <= 0)) as [Hz|Hz].
    { ub_step. do 2 eexists. exists l. split; [reflexivity|]. cbn. rewrite app_nil_r. split; [split; eauto|done]. }
    assert (HOK : bool_decide (OPRT_OK <> OPRT_OK) = false) by done. rewrite HOK. destruct l as [|x l]; [rewrite (@zlen_nil WORK_ITEM_T) in Hcount; lia|].
    destruct (output_ok _ _ _ true Hr) as (q' & -> & Hl & addrs' & Hr'). ub_step. cbn [head tail] in *.
    rewrite zlen_cons in Hcount. destruct x as [[c|] dt].
    + rewrite HOK. ub_step. do 2 eexists. exists l. split; [reflexivity|].
      split; [split; cbn; eauto; [congruence|lia|lia]|]. cbn. rewrite app_nil_r. done.
    + rewrite HOK. ub_step. do 2 eexists. exists l. split; [reflexivity|].
      split; [split; cbn; eauto; [congruence|lia|lia]|]. cbn. rewrite app_nil_r. done.
  - do 2 eexists. exists l. split; [reflexivity|]. cbn. rewrite app_nil_r. split; [split; cbn; eauto|done].
Qed.

Lemma wq_run_ok cap evs : forall s l,
  sys_ok cap s l ->
  exists obs s' l', wq_run evs s = Some (obs, s') /\ sys_ok cap s' l' /\ Ran Failed ∉ obs /\
    (omap accepted obs ++ (w_data <$> l) ≡ₚ omap took obs ++ (w_data <$> l')) /\
    (Forall (fun ev => instant ev = false) evs -> (w_data <$> l) ++ omap accepted obs = omap took obs ++ (w_data <$> l')).
Proof.
  induction evs as [|ev evs IH]; intros s l Hs.
  - exists [], s, l. split; [done|]. split; [done|]. split; [set_solver|]. cbn. by rewrite app_nil_r.
  - destruct (wq_step_ok cap ev s l Hs) as (o & s1 & l1 & He & Hs1 & Hf1 & Hp1 & Ho1).
    destruct (IH s1 l1 Hs1) as (obs & s2 & l2 & Hr & Hs2 & Hf2 & Hp2 & Ho2).
    exists (o :: obs), s2, l2. cbn [wq_run]. rewrite He. ub_step. cbn [fst snd]. rewrite Hr. ub_step.
    split; [done|]. split; [done|]. split; [set_solver|].
    replace (omap accepted (o :: obs)) with (option_list (accepted o) ++ omap accepted obs) by (cbn; by destruct (accepted o)).
    replace (omap took (o :: obs)) with (option_list (took o) ++ omap took obs) by (cbn; by destruct (took o)).
    split.
    + rewrite <- !app_assoc, <- Hp2, (Permutation_app_comm (omap accepted obs) (w_data <$> l)), app_assoc, Hp1.
      by rewrite <- app_assoc, (Permutation_app_comm (w_data <$> l1)).
    + intros Hi. apply Forall_cons in Hi as [Hi1 Hi]. rewrite app_assoc, (Ho1 Hi1), <- !app_assoc. f_equal. by apply Ho2.
Qed.
End workqueue.

(** ** Delayed work

    A timer of SwTimer whose callback puts the work into the queue. *)

Record DELAYED_WORK_T := Delayed { dw_timer : Z; dw_cb : option Z; dw_data : Z }.

(** The work queue of the handle, the timers and the memory of the delayed works. *)
Record delayed_system := DelayedSystem {
  ds_queue : TAL_WORKQUEUE_T;
  ds_timers : SW_TIMER_MGR_T;
  ds_works : gmap Z DELAYED_WORK_T }.

Section delayed.
Context (place : gset Z -> Z).
(** The address of the function [__delayed_work_cb]. *)
Context (delayed_work_cb : Z).

Definition __delayed_work_cb (s : delayed_system) (arg : Z) (alloc : bool) (post : Z) : option delayed_system :=
  d ← ds_works s !! arg;
  r ← tal_workqueue_schedule place (Some (ds_queue s)) (dw_cb d) (dw_data d) alloc post;
  w ← snd r;
  Some (DelayedSystem w (ds_timers s) (ds_works s)).

(** [handle], [out]: the pointers are not NULL; [block]: the memory of the delayed work, if any, [timer]
    the one of its timer. The code, the state and the new handle. *)
Definition tal_workqueue_init_delayed (s : delayed_system) (handle out : bool) (cb : option Z) (data : Z) (block timer : option Z)
    : option (Z * delayed_system * option Z) :=
  if negb handle || negb out then Some (OPRT_INVALID_PARM, s, None)
  else
    match block with
    | None => Some (OPRT_MALLOC_FAILED, s, None)
    | Some id =>
        r ← tal_sw_timer_create (ds_timers s) delayed_work_cb id false timer;
        let '(op_ret, m, t) := r in
        if bool_decide (OPRT_OK <> op_ret) then Some (OPRT_COM_ERROR, DelayedSystem (ds_queue s) m (ds_works s), None)
        else
          t ← t;
          Some (OPRT_OK, DelayedSystem (ds_queue s) m (<[id := Delayed t cb data]> (ds_works s)), Some id)
    end.

(** A handle of 0 is NULL. *)
Definition with_work (s : delayed_system) (work : Z) (f : DELAYED_WORK_T -> option (Z * delayed_system)) : option (Z * delayed_system) :=
  if bool_decide (work = 0) then Some (OPRT_INVALID_PARM, s) else d ← ds_works s !! work; f d.

Definition tal_workqueue_start_delayed (s : delayed_system) (work interval : Z) (type : TIMER_TYPE) (nowMS : Z)
    : option (Z * delayed_system) :=
  with_work s work (fun d =>
    r ← tal_sw_timer_start (ds_timers s) (dw_timer d) interval type nowMS;
    Some (fst r, DelayedSystem (ds_queue s) (snd r) (ds_works s))).

Definition tal_workqueue_stop_delayed (s : delayed_system) (work : Z) : option (Z * delayed_system) :=
  with_work s work (fun d =>
    r ← tal_sw_timer_stop (ds_timers s) (dw_timer d);
    Some (fst r, DelayedSystem (ds_queue s) (snd r) (ds_works s))).

Definition tal_workqueue_cancel_delayed (s : delayed_system) (work : Z) : option (Z * delayed_system) :=
  with_work s work (fun d =>
    r ← tal_sw_timer_delete (ds_timers s) (dw_timer d);
    q ← tal_workqueue_cancel (Some (ds_queue s)) (dw_cb d) (dw_data d);
    w ← snd q;
    Some (OPRT_OK, DelayedSystem w (snd r) (delete work (ds_works s)))).

(** One round of the timer thread: the manager is released before the callback runs; [between] is what
    other threads do there. *)
Definition timer_round (s : delayed_system) (nowMS : Z) (between : delayed_system -> option delayed_system) (alloc : bool) (post : Z)
    : option delayed_system :=
  r ← timer_dispatch_round (ds_timers s) nowMS;
  s ← between (DelayedSystem (ds_queue s) (ds_mgr r) (ds_works s));
  match ds_call r with
  | Some (_, _, arg) => __delayed_work_cb s arg alloc post
  | None => Some s
  end.

(** A delayed work that was made and started while no timer runs. *)
Lemma delayed_ready s ls work t cb data interval type now :
  delayed_work_cb <> 0 -> mgr_ok (ds_timers s) [] ls -> timers (ds_timers s) !! t = None -> t ∉ [0; list_active; list_standby] -> work <> 0 ->
  exists s1 s2 ls', tal_workqueue_init_delayed s true true (Some cb) data (Some work) (Some t) = Some (OPRT_OK, s1, Some work) /\
    tal_workqueue_start_delayed s1 work interval type now = Some (OPRT_OK, s2) /\
    mgr_ok (ds_timers s2) [t] ls' /\ ds_queue s2 = ds_queue s /\
    ds_works s2 !! work = Some (Delayed t (Some cb) data) /\
    timers (ds_timers s2) !! t = Some (Timer delayed_work_cb work (u64 (now + interval)) interval true type).
Proof.
  intros Hcb Hm Ht Hne Hw.
  destruct (create_ok (ds_timers s) [] ls delayed_work_cb work t) as (m1 & Hc & Hm1 & Hts1); [done..|set_solver|set_solver|].
  unfold tal_workqueue_init_delayed. cbn [negb orb]. rewrite Hc. ub_step. rewrite bool_decide_false by (intros X; by apply X).
  ub_step. assert (Ht1 : timers m1 !! t = Some (Timer delayed_work_cb work 0 0 false TAL_TIMER_ONCE)) by (by rewrite Hts1, lookup_insert_eq).
  destruct (start_ok m1 [] (ls ++ [t]) t _ interval type now Hm1 Ht1) as (m2 & l1 & l2 & Hst & Hm2 & Hnil & Hts2); [set_solver|].
  change (rm t []) with (@nil Z) in Hnil. symmetry in Hnil. apply app_eq_nil in Hnil as [-> ->].
  do 2 eexists. exists (rm t (ls ++ [t])). split; [reflexivity|]. unfold tal_workqueue_start_delayed, with_work.
  rewrite bool_decide_false by done. cbn [ds_works ds_timers ds_queue]. rewrite lookup_insert_eq. ub_step. cbn [dw_timer]. rewrite Hst. ub_step.
  split; [reflexivity|]. cbn [ds_timers ds_queue ds_works fst snd]. split; [exact Hm2|]. split; [done|]. split; [apply lookup_insert_eq|].
  rewrite Hts2, lookup_insert_eq. cbn [tm_cb tm_data SwTimer.interval]. by case_bool_decide as Hi; [|replace interval with 0 by lia].
Qed.

Lemma delayed_fires s ls work t cb data interval type due now between alloc post :
  mgr_ok (ds_timers s) [t] ls -> ds_works s !! work = Some (Delayed t (Some cb) data) ->
  timers (ds_timers s) !! t = Some (Timer delayed_work_cb work due interval true type) -> due <= now ->
  exists m, (exists la' ls', mgr_ok m la' ls' /\ t ∈ la' ++ ls') /\
    timer_round s now between alloc post =
      (s ← between (DelayedSystem (ds_queue s) m (ds_works s)); __delayed_work_cb s work alloc post).
Proof.
  intros Hm Hw Ht Hdue. destruct (round_fire _ _ _ _ _ _ Hm Ht Hdue) as (m & Hr & Hcase). exists m. split.
  - destruct type; cbn [tm_type] in Hcase.
    + destruct Hcase as [Hok _]. do 2 eexists. split; [exact Hok|set_solver].
    + destruct Hcase as [(l1 & l2 & _ & Hok) _]. do 2 eexists. split; [exact Hok|set_solver].
  - unfold timer_round. rewrite Hr. ub_step. done.
Qed.
End delayed.

(** ** The two queues of the system *)

Definition WORKQ_SYSTEM : Z := 0.
Definition WORKQ_HIGHTPRI : Z := 1.
Definition MAX_NODE_NUM_WORK_QUEUE : Z := 100.
Definition MAX_NODE_NUM_MSG_QUEUE : Z := 100.

Record workq_service := Service { wq_system : option TAL_WORKQUEUE_T; wq_highpri : option TAL_WORKQUEUE_T }.

(** What one creation gets from its environment: memory, mutex, semaphore, thread, the address of the
    list; and the result of the end of the thread when it is released again. *)
Record create_env := CreateEnv { cv_alloc1 : bool; cv_alloc2 : bool; cv_lock : Z; cv_sem : Z; cv_thread : Z; cv_head : Z; cv_end : Z }.

Definition create_in (e : create_env) (len : Z) : Z * option TAL_WORKQUEUE_T :=
  tal_workqueue_create len true true (cv_alloc1 e) (cv_alloc2 e) (cv_lock e) (cv_sem e) (cv_thread e) (cv_head e).

(** A queue that is there is released; the handle becomes NULL whatever the release returns. *)
Definition drop_queue (h : option TAL_WORKQUEUE_T) (e : create_env) : option unit :=
  match h with Some _ => r ← tal_workqueue_release h (cv_end e) OPRT_OK; Some tt | None => Some tt end.

Definition tal_workq_init (s : workq_service) (e1 e2 : create_env) : option (Z * workq_service) :=
  match wq_system s with
  | Some _ => Some (OPRT_OK, s)
  | None =>
      let '(rt, sys) := create_in e1 MAX_NODE_NUM_WORK_QUEUE in
      if bool_decide (OPRT_OK <> rt) then
        drop_queue (wq_highpri s) e2;; Some (rt, Service None None)
      else
        let '(rt, high) := create_in e2 MAX_NODE_NUM_MSG_QUEUE in
        if bool_decide (OPRT_OK <> rt) then
          drop_queue sys e1;; drop_queue (wq_highpri s) e2;; Some (rt, Service None None)
        else Some (OPRT_OK, Service sys high)
  end.

Definition tal_workq_get_handle (s : workq_service) (service : Z) : option TAL_WORKQUEUE_T :=
  if bool_decide (WORKQ_SYSTEM = service) then wq_system s
  else if bool_decide (WORKQ_HIGHTPRI = service) then wq_highpri s
  else None.

(** The queue behind the handle changes in place. *)
Definition with_service (s : workq_service) (service : Z) (w : option TAL_WORKQUEUE_T) : workq_service :=
  if bool_decide (WORKQ_SYSTEM = service) then Service w (wq_highpri s)
  else if bool_decide (WORKQ_HIGHTPRI = service) then Service (wq_system s) w
  else s.

Section service.
Context (place : gset Z -> Z).

Definition tal_workq_schedule (s : workq_service) (service : Z) (cb : option Z) (data : Z) (alloc : bool) (post : Z)
    : option (Z * workq_service) :=
  r ← tal_workqueue_schedule place (tal_workq_get_handle s service) cb data alloc post;
  Some (fst r, with_service s service (snd r)).

Definition tal_workq_schedule_instant (s : workq_service) (service : Z) (cb : option Z) (data : Z) (alloc : bool) (post : Z)
    : option (Z * workq_service) :=
  r ← tal_workqueue_schedule_instant place (tal_workq_get_handle s service) cb data alloc post;
  Some (fst r, with_service s service (snd r)).

Definition tal_workq_cancel (s : workq_service) (service : Z) (cb : option Z) (data : Z) : option (Z * workq_service) :=
  r ← tal_workqueue_cancel (tal_workq_get_handle s service) cb data;
  Some (fst r, with_service s service (snd r)).

Definition tal_workq_get_num (s : workq_service) (service : Z) : Z := tal_workqueue_get_num (tal_workq_get_handle s service).

(** Work on a service is a work item on its queue; the other queue does not change. *)
Lemma workq_schedule_ok s service w l addrs cb data :
  fresh_place place -> service = WORKQ_SYSTEM \/ service = WORKQ_HIGHTPRI ->
  tal_workq_get_handle s service = Some w -> rep (wq_queue w) l addrs -> zlen l < queue_len (wq_queue w) ->
  exists s' w' addrs', tal_workq_schedule s service (Some cb) data true OPRT_OK = Some (OPRT_OK, s') /\
    tal_workq_get_handle s' service = Some w' /\ rep (wq_queue w') (l ++ [Work (Some cb) data]) addrs' /\
    queue_len (wq_queue w') = queue_len (wq_queue w) /\
    forall other, other <> service -> tal_workq_get_handle s' other = tal_workq_get_handle s other.
Proof.
  intros Hp Hs Hw Hr Hful. unfold tal_workq_schedule. rewrite Hw. unfold tal_workqueue_schedule, schedule.
  destruct (input_ok place Hp w l addrs false cb data true Hr) as (q' & -> & Hl & addrs' & Hr'). ub_step.
  rewrite (bool_decide_false (zlen l = _)) in * by lia. cbn [negb andb] in *. rewrite bool_decide_true by done.
  unfold schedule_post. rewrite bool_decide_true by done. ub_step.
  unfold WORKQ_SYSTEM, WORKQ_HIGHTPRI in Hs.
  eexists. exists (WorkQueue q' (wq_sem w + 1) (last_cb w)), addrs'. split; [reflexivity|]. cbn [snd]. unfold tal_workq_get_handle, with_service, WORKQ_SYSTEM, WORKQ_HIGHTPRI.
  split; [|split; [exact Hr'|split; [exact Hl|]]].
  - destruct Hs as [-> | ->]; done.
  - intros other Hne. destruct Hs as [-> | ->]; cbn; repeat case_bool_decide; done || lia.
Qed.
End service.

(** ** Properties *)

(** C7. Work queues under every interleaving of scheduling threads (each between putting its item and
    posting the semaphore), cancellations and the worker: nothing is undefined, the worker that passed the
    semaphore always finds an item, every accepted item is taken exactly once or still waits, there are
    never more items than places, and without instant items they are taken in the order of acceptance. *)
Theorem workqueue_conserves place cap head evs :
  fresh_place place -> 0 < cap < 2 ^ 16 ->
  exists w obs s l, tal_workqueue_create cap true true true true OPRT_OK OPRT_OK OPRT_OK head = (OPRT_OK, Some w) /\
    wq_run place evs (System w 0) = Some (obs, s) /\ sys_ok cap s l /\ zlen l <= cap /\ Ran Failed ∉ obs /\
    (omap accepted obs ≡ₚ omap took obs ++ (w_data <$> l)) /\
    (Forall (fun ev => instant ev = false) evs -> omap accepted obs = omap took obs ++ (w_data <$> l)).
Proof.
  intros Hp Hcap. unfold tal_workqueue_create. rewrite bool_decide_false by lia. cbn [negb orb].
  destruct (create_rep (A := WORK_ITEM_T) cap WORK_ITEM_SIZE head) as (q & -> & Hl & Hr); [lia|done|].
  rewrite bool_decide_false by (intros X; by apply X).
  assert (Hs : sys_ok cap (System (WorkQueue q 0 None) 0) []) by (split; cbn; eauto; lia).
  destruct (wq_run_ok place Hp cap evs _ _ Hs) as (obs & s & l & Hrun & Hs' & Hf & Hperm & Hord).
  exists (WorkQueue q 0 None), obs, s, l. split; [done|]. split; [done|]. split; [done|].
  cbn in Hperm, Hord. rewrite app_nil_r in Hperm. split; [|done].
  destruct Hs' as [[addrs Hr'] Hlen _ _ _]. rewrite <- Hlen. exact (rep_fits _ _ _ Hr').
Qed.


(** The timer thread calls the callback of a delayed work after it has released the manager: a
    cancellation in between frees the work that the callback then reads. *)
Theorem delayed_cancel_race place delayed_cb s ls l addrs work t cb data interval type due now :
  mgr_ok (ds_timers s) [t] ls -> t <> 0 -> work <> 0 -> rep (wq_queue (ds_queue s)) l addrs ->
  ds_works s !! work = Some (Delayed t (Some cb) data) ->
  timers (ds_timers s) !! t = Some (Timer delayed_cb work due interval true type) -> due <= now ->
  timer_round place s now (fun s => r ← tal_workqueue_cancel_delayed s work; Some (snd r)) true OPRT_OK = None.
Proof.
  intros Hm Ht0 Hw0 Hr Hwk Htm Hge.
  destruct (delayed_fires place delayed_cb s ls work t cb data interval type due now
    (fun s => r ← tal_workqueue_cancel_delayed s work; Some (snd r)) true OPRT_OK Hm Hwk Htm Hge) as (m & (la & ls2 & Hm' & Hin) & ->).
  unfold tal_workqueue_cancel_delayed, with_work. rewrite bool_decide_false by done. cbn [ds_works ds_timers ds_queue]. rewrite Hwk. ub_step.
  cbn [dw_timer dw_cb dw_data]. apply (ok_dom _ _ _ Hm') in Hin as [t' Ht'].
  destruct (delete_ok m la ls2 t t' Hm' Ht' Ht0) as (m2 & -> & _). ub_step.
  destruct (workqueue_cancel_ok (ds_queue s) l addrs (Some cb) data Hr ltac:(by left)) as (q' & -> & _). ub_step.
  cbn [snd]. unfold __delayed_work_cb. cbn [ds_works snd]. by rewrite lookup_delete_eq.
Qed.

(** A cancellation disables the waiting items with the callback or, when it is not NULL, with the
    data: also the works of other callbacks with the same data, and all works of the callback. *)
Theorem workqueue_cancel_exact w l addrs cb data :
  rep (wq_queue w) l addrs -> cb <> None \/ data <> 0 ->
  exists w', tal_workqueue_cancel (Some w) cb data = Some (OPRT_OK, Some w') /\ wq_sem w' = wq_sem w /\
    rep (wq_queue w') ((fun item =>
      if bool_decide (is_Some cb /\ w_cb item = cb \/ data <> 0 /\ w_data item = data) then Work None (w_data item) else item) <$> l) addrs.
Proof.
  intros Hr Hc. destruct (workqueue_cancel_ok w l addrs cb data Hr Hc) as (q' & -> & _ & Hr').
  eexists. split; [reflexivity|]. split; [done|]. cbn.
  erewrite list_fmap_ext; [exact Hr'|]. intros _ item _. unfold cancelled, __work_cancel_traverse. cbn.
  destruct cb as [c|]; cbn; repeat case_bool_decide; cbn; try done; naive_solver.
Qed.

(** ** Witnesses *)

Definition demo_events : list wq_event :=
  [Enter false 1 10 true; Enter true 2 20 true; Post; Take; Done; Cancel (Some 1) 0; Enter false 3 30 true; Post; Post; Take; Take].

Lemma workqueue_conserves_witness :
  exists w obs s l, tal_workqueue_create 2 true true true true OPRT_OK OPRT_OK OPRT_OK 50 = (OPRT_OK, Some w) /\
    wq_run fresh demo_events (System w 0) = Some (obs, s) /\ sys_ok 2 s l /\ zlen l <= 2 /\ Ran Failed ∉ obs /\
    (omap accepted obs ≡ₚ omap took obs ++ (w_data <$> l)) /\
    (Forall (fun ev => instant ev = false) demo_events -> omap accepted obs = omap took obs ++ (w_data <$> l)).
Proof.
  exact (workqueue_conserves fresh 2 50 demo_events is_fresh ltac:(lia)).
Defined.

Lemma demo_delayed :
  exists q, rep (A := WORK_ITEM_T) q [] [] /\ queue_len q = 5.
Proof. destruct (create_rep (A := WORK_ITEM_T) 5 8 50) as (q & _ & Hl & Hr); [lia|done|]. by exists q. Qed.


Lemma delayed_cancel_race_witness :
  exists s, ds_works s !! 300 = Some (Delayed 200 (Some 9) 77) /\
    timer_round fresh s 1005 (fun s => r ← tal_workqueue_cancel_delayed s 300; Some (snd r)) true OPRT_OK = None.
Proof.
  destruct demo_delayed as (q & Hr & Hl).
  destruct (delayed_ready 7 (DelayedSystem (WorkQueue q 0 None) (snd (tal_sw_timer_init mgr_start OPRT_OK)) ∅)
    [] 300 200 9 77 1000 TAL_TIMER_ONCE 5 ltac:(done) init_ok eq_refl ltac:(set_solver) ltac:(done))
    as (s1 & s2 & ls & _ & _ & Hm & Hq & Hw & Ht).
  exists s2. split; [exact Hw|].
  apply (delayed_cancel_race fresh 7 s2 ls [] [] 300 200 9 77 1000 TAL_TIMER_ONCE 1005 1005); try done.
  by rewrite Hq.
Defined.

Lemma workqueue_cancel_exact_witness :
  exists q addrs w', rep q [Work (Some 1) 10; Work (Some 2) 20; Work (Some 1) 30] addrs /\
    tal_workqueue_cancel (Some (WorkQueue q 3 None)) (Some 1) 10 = Some (OPRT_OK, Some w') /\
    rep (wq_queue w') [Work None 10; Work (Some 2) 20; Work None 30] addrs.
Proof.
  destruct demo_delayed as (q0 & Hr0 & Hl0).
  destruct (queue_run_ok fresh [Input (Work (Some 1) 10) true; Input (Work (Some 2) 20) true; Input (Work (Some 1) 30) true]
    is_fresh q0 [] [] Hr0 ltac:(repeat constructor)) as (q & _ & addrs & Hr). rewrite Hl0 in Hr.
  destruct (workqueue_cancel_exact (WorkQueue q 3 None) [Work (Some 1) 10; Work (Some 2) 20; Work (Some 1) 30] addrs (Some 1) 10
    Hr ltac:(by left)) as (w' & Hc & _ & Hr').
  exists q, addrs, w'. split; [exact Hr|]. split; [exact Hc|exact Hr'].
Defined.
