(* ===== verification/BleMgr.v ===== *)
(** * The BLE manager

    The connections, the pairing, the sessions, the advertising and the device information of
    src/src/tuya_cloud_service/ble/ble_mgr.c, as programs on the state of the manager (StateM). The
    packets are those of BlePacket. The radio, the cloud client's reset and the timers are effects
    in a trace; their results, random numbers and allocations are arguments. *)
From S2P Require Import Prelude StateM Tools BleTrsmitr Crc BleCrypt BlePacket.

Definition BLE_SCAN_RSP_DATA_LEN : Z := 31.
Definition BLE_ADV_DATA_LEN : Z := 31.
Definition BLE_CONN_MONITOR_TIME : Z := 30000.
Definition BLE_ID_LEN : Z := 16.
Definition TUYA_BLE_NAME_LEN : Z := 5.
Definition TUYA_BLE_DEVICE_COMMUNICATION_ABILITY : Z := Z.lor 0x0000 (Z.lor 0x0004 0x0008).
Definition TUYA_BLE_SECURE_CONNECTION_WITH_AUTH_KEY : Z := 0x00.
Definition TUYA_BLE_PROTOCOL_VERSION_LOW : Z := 0x04.
Definition TUYA_BLE_WIFI_DEVICE_REGISTER_MODE : Z := 1.
Definition TUYA_BLE_TRANS_DATA_SUBPACK_LEN : Z := TUYA_BLE_AIR_FRAME_MAX - 64.
Definition PRODUCT_KEY_LEN : Z := 16.
Definition MAX_LENGTH_PRODUCT_ID : Z := 16.
Definition ADV_FLAG_BOND : Z := Z.shiftl 1 7.
Definition ADV_FLAG_UUID_COMP : Z := Z.shiftl 1 0.
Definition NETMGR_LINK_DOWN : Z := 0.

Definition FRM_QRY_DEV_INFO_REQ : Z := 0x0000.
Definition FRM_PAIR_REQ : Z := 0x0001.
Definition FRM_UNBONDING_REQ : Z := 0x0005.
Definition FRM_DEVICE_RESET : Z := 0x0006.
Definition FRM_RPT_NET_STAT_REQ : Z := 0x001E.

Definition BLE_SESSION_SYSTEM : Z := 0.
Definition BLE_SESSION_DP : Z := 1.
Definition BLE_SESSION_CHANNEL : Z := 2.
Definition BLE_SESSION_MAX : Z := 4.

(** ** State *)

Record TAL_BLE_PEER_INFO_T := Peer { conn_handle : Z; char_handle : list Z; peer_addr : Z * bytes }.
Definition peer_zero : TAL_BLE_PEER_INFO_T := Peer 0 (replicate 6 0) (0, replicate 6 0).

(** What the manager uses of the cloud client. *)
Record tuya_iot_client_t := Client {
  productkey : bytes; c_uuid : bytes; authkey : bytes; seckey : bytes; localkey : bytes; is_activated : bool }.

(** A session function together with its private data: the one of this file, or another. *)
Inductive ble_session_fn_t := ble_session_system | ble_session_other (id : Z).

(** The allocated manager. [pair_timer], [monitor_timer]: [None] for NULL, else whether the timer
    runs. The key parameters are pointers into [id], [pair_rand] and the client. *)
Record tuya_ble_mgr_t := Mgr {
  device_name : bytes;
  id : bytes;
  is_id_comp : bool;
  pair_timer : option bool;
  monitor_timer : option bool;
  mgr_pair_rand : bytes;
  is_paired : bool;
  peer_info : TAL_BLE_PEER_INFO_T;
  adv_len : Z;
  adv_data : bytes;
  rsp_len : Z;
  rsp_data : bytes;
  send_sn : Z;
  recv_sn : Z;
  packet_recv : ble_packet_recv_t;
  session : list (option ble_session_fn_t) }.

(** What the manager does to its environment. *)
Inductive effect :=
| E_adv_data (adv rsp : bytes)
| E_adv_stop
| E_adv_start
| E_disconnect (p : TAL_BLE_PEER_INFO_T)
| E_send (data : bytes)
| E_timer_start (ms : Z)
| E_timer_stop
| E_iot_reset
| E_session (i : Z) (packet : ble_packet_t)
| E_bt_init
| E_bt_deinit.

(** The static variables, the manager ([None]: NULL) and the trace of the effects. *)
Record ble_state := St {
  client : tuya_iot_client_t;
  statics : ble_statics;
  keys : key_statics;
  s_iot_conn_stat : bool;
  s_ble_mgr : option tuya_ble_mgr_t;
  trace : list effect }.

Abbreviation ble := (prog ble_state).

(** The pointer is used: NULL is undefined behaviour. *)
Definition get_mgr : ble tuya_ble_mgr_t := m ← gets s_ble_mgr; lift m.
Definition set_client (c : tuya_iot_client_t) : ble unit :=
  modify (fun s => St c (statics s) (keys s) (s_iot_conn_stat s) (s_ble_mgr s) (trace s)).
Definition set_statics (g : ble_statics) : ble unit :=
  modify (fun s => St (client s) g (keys s) (s_iot_conn_stat s) (s_ble_mgr s) (trace s)).
Definition set_keys (ks : key_statics) : ble unit :=
  modify (fun s => St (client s) (statics s) ks (s_iot_conn_stat s) (s_ble_mgr s) (trace s)).
Definition set_conn_stat (b : bool) : ble unit :=
  modify (fun s => St (client s) (statics s) (keys s) b (s_ble_mgr s) (trace s)).
Definition set_mgr (m : option tuya_ble_mgr_t) : ble unit :=
  modify (fun s => St (client s) (statics s) (keys s) (s_iot_conn_stat s) m (trace s)).
Definition emit (es : list effect) : ble unit :=
  modify (fun s => St (client s) (statics s) (keys s) (s_iot_conn_stat s) (s_ble_mgr s) (trace s ++ es)).
Definition upd_mgr (f : tuya_ble_mgr_t -> tuya_ble_mgr_t) : ble unit := m ← get_mgr; set_mgr (Some (f m)).

Definition with_pair_timer (t : option bool) (m : tuya_ble_mgr_t) : tuya_ble_mgr_t :=
  Mgr (device_name m) (id m) (is_id_comp m) t (monitor_timer m) (mgr_pair_rand m) (is_paired m) (peer_info m)
    (adv_len m) (adv_data m) (rsp_len m) (rsp_data m) (send_sn m) (recv_sn m) (packet_recv m) (session m).
Definition with_timers (t u : option bool) (m : tuya_ble_mgr_t) : tuya_ble_mgr_t :=
  Mgr (device_name m) (id m) (is_id_comp m) t u (mgr_pair_rand m) (is_paired m) (peer_info m)
    (adv_len m) (adv_data m) (rsp_len m) (rsp_data m) (send_sn m) (recv_sn m) (packet_recv m) (session m).
Definition with_pair_rand (r : bytes) (m : tuya_ble_mgr_t) : tuya_ble_mgr_t :=
  Mgr (device_name m) (id m) (is_id_comp m) (pair_timer m) (monitor_timer m) r (is_paired m) (peer_info m)
    (adv_len m) (adv_data m) (rsp_len m) (rsp_data m) (send_sn m) (recv_sn m) (packet_recv m) (session m).
Definition with_paired (b : bool) (m : tuya_ble_mgr_t) : tuya_ble_mgr_t :=
  Mgr (device_name m) (id m) (is_id_comp m) (pair_timer m) (monitor_timer m) (mgr_pair_rand m) b (peer_info m)
    (adv_len m) (adv_data m) (rsp_len m) (rsp_data m) (send_sn m) (recv_sn m) (packet_recv m) (session m).
Definition with_peer (p : TAL_BLE_PEER_INFO_T) (m : tuya_ble_mgr_t) : tuya_ble_mgr_t :=
  Mgr (device_name m) (id m) (is_id_comp m) (pair_timer m) (monitor_timer m) (mgr_pair_rand m) (is_paired m) p
    (adv_len m) (adv_data m) (rsp_len m) (rsp_data m) (send_sn m) (recv_sn m) (packet_recv m) (session m).
Definition with_adv (al : Z) (a : bytes) (rl : Z) (r : bytes) (m : tuya_ble_mgr_t) : tuya_ble_mgr_t :=
  Mgr (device_name m) (id m) (is_id_comp m) (pair_timer m) (monitor_timer m) (mgr_pair_rand m) (is_paired m)
    (peer_info m) al a rl r (send_sn m) (recv_sn m) (packet_recv m) (session m).
Definition with_sn (ss rs : Z) (m : tuya_ble_mgr_t) : tuya_ble_mgr_t :=
  Mgr (device_name m) (id m) (is_id_comp m) (pair_timer m) (monitor_timer m) (mgr_pair_rand m) (is_paired m)
    (peer_info m) (adv_len m) (adv_data m) (rsp_len m) (rsp_data m) ss rs (packet_recv m) (session m).
Definition with_recv (r : ble_packet_recv_t) (m : tuya_ble_mgr_t) : tuya_ble_mgr_t :=
  Mgr (device_name m) (id m) (is_id_comp m) (pair_timer m) (monitor_timer m) (mgr_pair_rand m) (is_paired m)
    (peer_info m) (adv_len m) (adv_data m) (rsp_len m) (rsp_data m) (send_sn m) (recv_sn m) r (session m).
Definition with_session (l : list (option ble_session_fn_t)) (m : tuya_ble_mgr_t) : tuya_ble_mgr_t :=
  Mgr (device_name m) (id m) (is_id_comp m) (pair_timer m) (monitor_timer m) (mgr_pair_rand m) (is_paired m)
    (peer_info m) (adv_len m) (adv_data m) (rsp_len m) (rsp_data m) (send_sn m) (recv_sn m) (packet_recv m) l.

(** [ble->crypto_param], through its pointers. *)
Definition crypto_param (c : tuya_iot_client_t) (m : tuya_ble_mgr_t) : ble_crypto_param_t :=
  Crypto (authkey c) (localkey c) (seckey c) (id m) (mgr_pair_rand m).

(** The timers, when they exist. *)
Definition pair_timer_start : ble unit :=
  upd_mgr (fun m => with_pair_timer (option_map (fun _ => true) (pair_timer m)) m);;
  emit [E_timer_start BLE_CONN_MONITOR_TIME].
Definition pair_timer_stop : ble unit :=
  upd_mgr (fun m => with_pair_timer (option_map (fun _ => false) (pair_timer m)) m);;
  emit [E_timer_stop].
Definition tal_ble_disconnect : ble unit := m ← get_mgr; emit [E_disconnect (peer_info m)].

(** ** Advertising *)

(** [ae_status]: the status that the network manager reports; [ae_aes]: the memory that the
    encryption of the identifier allocates. *)
Record adv_env := AdvEnv { ae_status : Z; ae_aes : option bytes }.

Definition SETBIT (val bit : Z) : Z := Z.lor val (Z.shiftl 1 bit).

(** [strlen], which may run over the array. *)
Fixpoint strlen (s : bytes) : option Z :=
  match s with
  | [] => None
  | c :: s => if bool_decide (c = 0) then Some 0 else n ← strlen s; Some (n + 1)
  end.

Definition adv_frame_ctrl (status : Z) (bound : bool) : Z :=
  let frame_ctrl := SETBIT (SETBIT (SETBIT 0 2) 3) 8 in
  let frame_ctrl := if bool_decide (status = NETMGR_LINK_DOWN) then SETBIT frame_ctrl 9 else frame_ctrl in
  let frame_ctrl := if bound then SETBIT frame_ctrl 11 else frame_ctrl in
  SETBIT frame_ctrl 14.

Section cipher.
Context `{Cipher}.

(** The identifier in the advertising data: encrypted when the device is bound. *)
Definition adv_id (a : adv_env) (c : tuya_iot_client_t) (m : tuya_ble_mgr_t) (adv : bytes) : option bytes :=
  if is_activated c then r ← tuya_ble_adv_id_encrypt (seckey c) (id m) BLE_ID_LEN (ae_aes a) adv 15; Some (snd r)
  else memcpy adv 15 (productkey c) 0 BLE_ID_LEN.

(** The two buffers: the advertising data with its length, the scan response with its length. *)
Definition adv_build (a : adv_env) (c : tuya_iot_client_t) (m : tuya_ble_mgr_t)
    : option (Z * bytes * Z * bytes) :=
  let bound := is_activated c in
  adv ← mwrite (adv_data m) 0 [0x02; 0x01; 0x06; 0x03; 0x02; 0x50; 0xFD; 3 + 2 + 2 + BLE_ID_LEN; 0x16; 0x50; 0xFD];
  let frame_ctrl := adv_frame_ctrl (ae_status a) bound in
  rsp ← mwrite (rsp_data m) 0
    [0x17; 0xFF; 0xD0; 0x07; TUYA_BLE_SECURE_CONNECTION_WITH_AUTH_KEY;
     Z.shiftr TUYA_BLE_DEVICE_COMMUNICATION_ABILITY 8; u8 TUYA_BLE_DEVICE_COMMUNICATION_ABILITY];
  let flag := if is_id_comp m then Z.lor 0x00 ADV_FLAG_UUID_COMP else 0x00 in
  let flag := if bound then Z.lor flag ADV_FLAG_BOND else Z.land flag (Z.lnot ADV_FLAG_BOND) in
  rsp ← zset rsp 7 flag;
  adv ← mwrite adv 11 [Z.land (Z.shiftr frame_ctrl 8) 0xff; Z.land frame_ctrl 0xff; 0x00; BLE_ID_LEN];
  adv ← adv_id a c m adv;
  r ← tuya_ble_rsp_id_encrypt adv 11 (BLE_ID_LEN + 4) (id m) BLE_ID_LEN rsp 8;
  let rsp := snd r in
  let adv_len := u8 (15 + MAX_LENGTH_PRODUCT_ID) in
  let rsp_len := u8 (8 + BLE_ID_LEN) in
  n ← strlen (device_name m);
  let device_name_len := u8 n in
  let device_name_len := if bool_decide (device_name_len > TUYA_BLE_NAME_LEN) then TUYA_BLE_NAME_LEN else device_name_len in
  rsp ← memcpy rsp rsp_len (device_name m) 0 device_name_len;
  rsp ← zset rsp rsp_len (device_name_len + 1);
  rsp ← zset rsp (rsp_len + 1) 0x09;
  Some (adv_len, adv, u8 (rsp_len + 2 + device_name_len), rsp).

Definition ble_adv_set (a : adv_env) : ble Z :=
  m ← get_mgr; c ← gets client;
  r ← lift (adv_build a c m);
  let '(al, adv, rl, rsp) := r in
  upd_mgr (with_adv al adv rl rsp);;
  mret OPRT_OK.

Definition ble_adv_update (a : adv_env) : ble unit :=
  ble ← gets s_ble_mgr;
  match ble with
  | None => mret tt
  | Some _ =>
      ble_adv_set a;;
      m ← get_mgr;
      adv ← lift (mread (adv_data m) 0 (adv_len m));
      rsp ← lift (mread (rsp_data m) 0 (rsp_len m));
      emit (if is_paired m then [E_adv_data adv rsp] else [E_adv_stop; E_adv_data adv rsp; E_adv_start])
  end.

Definition tuya_ble_adv_update (a : adv_env) : ble Z := ble_adv_update a;; mret OPRT_OK.

(** ** Timers *)

(** The callback of the pair timer: the timer runs once. *)
Definition ble_pair_timeout_cb : ble unit := tal_ble_disconnect.

(** [connected]: what [tuya_iot_is_connected] answers. *)
Definition ble_mointor_timer_cb (connected : bool) (a : adv_env) : ble unit :=
  stat ← gets s_iot_conn_stat;
  m ← get_mgr;
  if connected then
    if (stat : bool) then mret tt
    else
      (if is_paired m then tal_ble_disconnect else emit [E_adv_stop]);;
      set_conn_stat true
  else
    if (stat : bool) then
      set_conn_stat false;;
      if is_paired m then mret tt else ble_adv_update a
    else mret tt.

Definition tuya_ble_is_connected : ble bool :=
  s ← gets s_ble_mgr;
  mret (match s with None => false | Some m => is_paired m end).

(** ** Sessions *)

Definition tuya_ble_session_add (type : Z) (fn : option ble_session_fn_t) : ble Z :=
  m ← get_mgr;
  if bool_decide (type < BLE_SESSION_MAX) then
    l ← lift (zset (session m) type fn);
    upd_mgr (with_session l);;
    mret OPRT_OK
  else mret OPRT_INVALID_PARM.

Definition tuya_ble_session_del (type : Z) : ble Z := tuya_ble_session_add type None.

(** ** Sending *)

(** What one call of [ble_packet_resp] takes from outside: the two buffers of the encoder, the
    random vector, the allocations of the subpackage buffer and the transmitter, and the radio. *)
Record resp_env := RespEnv {
  re_frame : option bytes; re_enc : option bytes; re_iv : bytes;
  re_pbuf : bool; re_create1 : bool; re_create2 : bool; re_send : bytes -> Z }.

Definition ble_packet_resp (e : resp_env) (resp : ble_packet_t) : ble Z :=
  m ← get_mgr; c ← gets client; ks ← gets keys;
  r ← lift (ble_packet_encode (crypto_param c m) ks (send_sn m) resp (re_frame e) (re_enc e) (re_iv e));
  let '(rt, out, sn, ks) := r in
  upd_mgr (with_sn sn (recv_sn m));;
  set_keys ks;;
  match out with
  | None => mret rt
  | Some (outbuf, outlen) =>
      g ← gets statics;
      let buf_len := ble_frame_packet_len_get g in
      if negb (re_pbuf e) then mret OPRT_MALLOC_FAILED
      else match ble_frame_trsmitr_create g (re_create1 e) (re_create2 e) with
      | None => mret OPRT_MALLOC_FAILED
      | Some trsmitr =>
          r ← lift (ble_packet_resp_loop (S (Z.to_nat outlen)) (re_send e) g trsmitr
                      (replicate (Z.to_nat buf_len) 0) outbuf outlen []);
          let '(rt, g, sent) := r in
          set_statics g;;
          emit (map E_send sent);;
          mret rt
      end
  end.

Definition tuya_ble_send_packet (e : resp_env) (packet : ble_packet_t) : ble Z :=
  m ← get_mgr; c ← gets client;
  if negb (is_paired m) then mret OPRT_OK
  else
    let mode :=
      if bool_decide (FRM_QRY_DEV_INFO_REQ = p_type packet)
      then if is_activated c then ENCRYPTION_MODE_KEY_14 else ENCRYPTION_MODE_KEY_11
      else if is_activated c then ENCRYPTION_MODE_SESSION_KEY15 else ENCRYPTION_MODE_KEY_12 in
    ble_packet_resp e (Packet (p_sn packet) (p_type packet) (p_len packet) (p_data packet) mode).

Definition tuya_ble_send (e : resp_env) (type ack_sn : Z) (data : option bytes) (len : Z) : ble Z :=
  tuya_ble_send_packet e (Packet ack_sn type (u16 len) data 0).

(** ** Requests *)

(** The answer to a request, with one byte. *)
Definition answer (req : ble_packet_t) (b : Z) : ble_packet_t :=
  Packet (p_sn req) (p_type req) 1 (Some [b]) (p_mode req).

Definition ble_unbind_req (e : nat -> resp_env) (req : ble_packet_t) : ble Z :=
  ble_packet_resp (e 0%nat) (answer req 1);;
  emit [E_iot_reset];;
  c ← gets client;
  set_client (Client (productkey c) (c_uuid c) (authkey c) (seckey c) (localkey c) false);;
  tal_ble_disconnect;;
  mret OPRT_OK.

(** [netstat]: the first byte of the status that the network manager reports. *)
Definition ble_pair_req (e : nat -> resp_env) (netstat : Z) (req : ble_packet_t) : ble Z :=
  m ← get_mgr; c ← gets client;
  d ← lift (d ← p_data req; mread d 0 BLE_ID_LEN);
  i ← lift (mread (id m) 0 BLE_ID_LEN);
  result ← (if bool_decide (d = i) then
              pair_timer_stop;;
              upd_mgr (with_paired true);;
              mret (if is_activated c then 2 else 0)
            else mret 1);
  rt ← ble_packet_resp (e 0%nat) (answer req result);
  rt ← (if bool_decide (OPRT_OK <> rt) then mret rt
        else tuya_ble_send (e 1%nat) FRM_RPT_NET_STAT_REQ 0 (Some [netstat]) 1);
  (if bool_decide (result = 1) then tal_ble_disconnect else mret tt);;
  mret rt.

(** The answer to the query of the device information in the cleared buffer. [rand]: the 6 random
    bytes. *)
Definition dev_info_fill (c : tuya_iot_client_t) (ks : key_statics) (rand pbuf : bytes) : option (Z * bytes) :=
  pbuf ← mwrite pbuf 0 [0x00; 0x00; TUYA_BLE_PROTOCOL_VERSION_HIGN; TUYA_BLE_PROTOCOL_VERSION_LOW;
                        Z.lor (Z.shiftl 1 0) (Z.shiftl 1 2); if is_activated c then 1 else 0];
  pbuf ← memcpy pbuf 6 rand 0 6;
  r ← tuya_ble_register_key_generate ks pbuf 14 (authkey c);
  pbuf ← mwrite (snd r) 52 [Z.shiftr TUYA_BLE_DEVICE_COMMUNICATION_ABILITY 8; u8 TUYA_BLE_DEVICE_COMMUNICATION_ABILITY;
                            Z.lor (Z.shiftl 1 1) (Z.shiftl 1 2)];
  pbuf ← zset pbuf 83 TUYA_BLE_WIFI_DEVICE_REGISTER_MODE;
  pbuf ← zset pbuf 86 (Z.shiftl 1 0);
  pbuf ← mwrite pbuf 95 (PRODUCT_KEY_LEN :: replicate (Z.to_nat PRODUCT_KEY_LEN) 0);
  let payload_len := u8 (96 + PRODUCT_KEY_LEN) in
  let pkg_len := TUYA_BLE_TRANS_DATA_SUBPACK_LEN in
  let tail := [0; 0] ++ (if bool_decide (pkg_len < 256) then [1; pkg_len]
                         else [2; Z.shiftr (Z.land pkg_len 0xFF00) 8; Z.land pkg_len 0x00FF]) ++ [1; 0; 1; 0] in
  pbuf ← mwrite pbuf payload_len tail;
  Some (u8 (payload_len + zlen tail), pbuf).

Definition ble_dev_info_make (rand pbuf : bytes) : ble (Z * bytes) :=
  upd_mgr (with_pair_rand rand);;
  c ← gets client; ks ← gets keys;
  lift (dev_info_fill c ks rand pbuf).

Definition with_subpkg (b : bytes) (r : ble_packet_recv_t) : ble_packet_recv_t :=
  let t := pr_trsmitr r in
  PacketRecv (Trsmitr (tr_total t) (tr_version t) (tr_seq t) (tr_pkg_desc t) (tr_subpkg_num t)
                (tr_pkg_trsmitr_cnt t) (tr_subpkg_len t) b)
    (pr_raw_len r) (pr_raw_buf r) (pr_dec_len r) (pr_dec_buf r).

(** [sub], [buf]: the results of the two allocations. *)
Definition ble_dev_info_req (e : nat -> resp_env) (sub buf : bool) (rand : bytes) (req : ble_packet_t) : ble Z :=
  d ← lift (d ← p_data req; mread d 0 2);
  let pkg_len := match d with [d0; d1] => Z.land (Z.shiftl d0 8) 0xff00 + Z.land d1 0xff | _ => 0 end in
  g ← gets statics;
  set_statics (ble_frame_packet_len_set g pkg_len);;
  if negb sub then upd_mgr (fun m => with_recv (with_subpkg [] (packet_recv m)) m);; mret OPRT_MALLOC_FAILED
  else
    upd_mgr (fun m => with_recv (with_subpkg (replicate (Z.to_nat pkg_len) 0) (packet_recv m)) m);;
    if negb buf then mret OPRT_MALLOC_FAILED
    else
      r ← ble_dev_info_make rand (replicate 128 0);
      ble_packet_resp (e 0%nat) (Packet (p_sn req) (p_type req) (fst r) (Some (snd r)) (p_mode req)).

(** What the system's requests take from outside. *)
Record sys_env := SysEnv { se_resp : nat -> resp_env; se_netstat : Z; se_sub : bool; se_buf : bool; se_rand : bytes }.

Definition ble_session_system_process (e : sys_env) (packet : ble_packet_t) : ble unit :=
  let type := p_type packet in
  if bool_decide (type = FRM_QRY_DEV_INFO_REQ) then
    ble_dev_info_req (se_resp e) (se_sub e) (se_buf e) (se_rand e) packet;; mret tt
  else if bool_decide (type = FRM_PAIR_REQ) then ble_pair_req (se_resp e) (se_netstat e) packet;; mret tt
  else if bool_decide (type = FRM_UNBONDING_REQ) || bool_decide (type = FRM_DEVICE_RESET) then
    ble_unbind_req (se_resp e) packet;; mret tt
  else mret tt.

(** ** Events *)

(** A session of another file acts on the manager through [tuya_ble_send]: [we_other id packet] is
    what it sends (type, acknowledged number, data, length). [we_alloc]: the allocation of the
    packet's data. *)
Record write_env := WriteEnv {
  we_alloc : bool;
  we_sys : sys_env;
  we_other : Z -> ble_packet_t -> list (Z * Z * option bytes * Z);
  we_resp : Z -> nat -> resp_env }.

Fixpoint send_each (e : nat -> resp_env) (k : nat) (l : list (Z * Z * option bytes * Z)) : ble unit :=
  match l with
  | [] => mret tt
  | (type, sn, data, len) :: l => tuya_ble_send (e k) type sn data len;; send_each e (S k) l
  end.

Definition run_session (w : write_env) (packet : ble_packet_t) (i : Z) : ble unit :=
  m ← get_mgr;
  fn ← lift (zget (session m) i);
  match fn with
  | None => mret tt
  | Some fn =>
      emit [E_session i packet];;
      match fn with
      | ble_session_system => ble_session_system_process (we_sys w) packet
      | ble_session_other id => send_each (we_resp w i) 0 (we_other w id packet)
      end
  end.

Definition ble_write_req (w : write_env) (char_handle0 : Z) (data : bytes) : ble unit :=
  m ← get_mgr; c ← gets client; ks ← gets keys;
  h ← lift (zget (char_handle (peer_info m)) 0);
  if bool_decide (char_handle0 = h) then
    r ← lift (ble_packet_recv (crypto_param c m) (Link (packet_recv m) (recv_sn m) ks) data (zlen data) (we_alloc w));
    let '(ret, l, disconnect, packet) := r in
    upd_mgr (with_recv (l_recv l));;
    upd_mgr (fun m => with_sn (send_sn m) (l_recv_sn l) m);;
    set_keys (l_ks l);;
    (if (disconnect : bool) then tal_ble_disconnect else mret tt);;
    match packet with
    | Some packet => for_each [0; 1; 2; 3] (run_session w packet)
    | None => mret tt
    end
  else mret tt.

Inductive TAL_BLE_EVT :=
| TAL_BLE_STACK_INIT (init : Z) (a : adv_env)
| TAL_BLE_EVT_PERIPHERAL_CONNECT (result : Z) (peer : TAL_BLE_PEER_INFO_T)
| TAL_BLE_EVT_DISCONNECT (iot_connected : bool) (a : adv_env)
| TAL_BLE_EVT_WRITE_REQ (char_handle0 : Z) (data : bytes) (w : write_env)
| TAL_BLE_EVT_OTHER.

Definition tal_ble_event_callback (msg : TAL_BLE_EVT) : ble unit :=
  ble ← gets s_ble_mgr;
  match ble with
  | None => mret tt
  | Some _ =>
      match msg with
      | TAL_BLE_STACK_INIT init a => if bool_decide (init = 0) then ble_adv_update a else mret tt
      | TAL_BLE_EVT_PERIPHERAL_CONNECT result peer =>
          if bool_decide (result = 0) then
            upd_mgr (with_peer peer);;
            upd_mgr (with_sn 1 0);;
            pair_timer_start
          else upd_mgr (with_peer peer_zero)
      | TAL_BLE_EVT_DISCONNECT iot_connected a =>
          upd_mgr (with_peer peer_zero);;
          upd_mgr (with_pair_rand (replicate 6 0));;
          pair_timer_stop;;
          upd_mgr (with_paired false);;
          if iot_connected then mret tt else ble_adv_update a
      | TAL_BLE_EVT_WRITE_REQ char_handle0 data w => ble_write_req w char_handle0 data
      | TAL_BLE_EVT_OTHER => mret tt
      end
  end.

(** ** Start and end *)

Definition tuya_ble_deinit : ble Z :=
  ble ← gets s_ble_mgr;
  match ble with
  | None => mret OPRT_OK
  | Some _ =>
      upd_mgr (with_timers None None);;
      tuya_ble_session_del BLE_SESSION_SYSTEM;;
      tuya_ble_session_del BLE_SESSION_CHANNEL;;
      tuya_ble_session_del BLE_SESSION_DP;;
      emit [E_bt_deinit];;
      set_mgr None;;
      mret OPRT_OK
  end.

(** The allocations, the results of the calls, and the uninitialised memory: the receiver's buffers
    and the variables of the compression. *)
Record init_env := InitEnv {
  ie_mgr : bool; ie_recv : bool; ie_tr1 : bool; ie_tr2 : bool;
  ie_pair_timer : Z; ie_monitor_timer : Z; ie_start : Z; ie_bt : Z;
  ie_raw_len : Z; ie_raw_buf : bytes; ie_dec_len : Z; ie_dec_buf : bytes; ie_temp : Z * Z * Z * Z }.

(** The identifier in 17 cleared bytes, and whether it is compressed. *)
Definition mgr_id (e : init_env) (uuid : bytes) : option (bytes * bool) :=
  n ← strlen uuid;
  if bool_decide (n >= 20) then
    b ← tuya_ble_id_compress uuid (replicate 17 0) (ie_temp e); Some (b, true)
  else b ← memcpy (replicate 17 0) 0 uuid 0 16; Some (b, false).

(** The calls that [TUYA_CALL_ERR_GOTO] wraps, in order. *)
Definition init_rest (e : init_env) : ble Z :=
  if bool_decide (OPRT_OK <> ie_pair_timer e) then mret (ie_pair_timer e)
  else
    upd_mgr (with_timers (Some false) None);;
    if bool_decide (OPRT_OK <> ie_monitor_timer e) then mret (ie_monitor_timer e)
    else
      upd_mgr (with_timers (Some false) (Some false));;
      if bool_decide (OPRT_OK <> ie_start e) then mret (ie_start e)
      else
        upd_mgr (with_timers (Some false) (Some true));;
        tuya_ble_session_add BLE_SESSION_SYSTEM (Some ble_session_system);;
        tuya_ble_session_add BLE_SESSION_CHANNEL (Some (ble_session_other BLE_SESSION_CHANNEL));;
        tuya_ble_session_add BLE_SESSION_DP (Some (ble_session_other BLE_SESSION_DP));;
        emit [E_bt_init];;
        mret (ie_bt e).

(** [cfg]: [None] for NULL; its client, which is NULL when [has_client] is false, and its name. *)
Definition tuya_ble_init (e : init_env) (cfg : option bytes) (has_client : bool) : ble Z :=
  match cfg with
  | None => mret OPRT_INVALID_PARM
  | Some name =>
      if negb has_client then mret OPRT_INVALID_PARM
      else
        ble ← gets s_ble_mgr;
        match ble with
        | Some _ => mret OPRT_OK
        | None =>
            if negb (ie_mgr e) then mret OPRT_MALLOC_FAILED
            else if negb (ie_recv e) then mret OPRT_MALLOC_FAILED
            else
              g ← gets statics;
              match ble_frame_trsmitr_create g (ie_tr1 e) (ie_tr2 e) with
              | None => mret OPRT_MALLOC_FAILED
              | Some trsmitr =>
                  c ← gets client;
                  i ← lift (mgr_id e (c_uuid c));
                  set_mgr (Some (Mgr name (fst i) (snd i) None None (replicate 6 0) false peer_zero
                    0 (replicate (Z.to_nat BLE_ADV_DATA_LEN) 0) 0 (replicate (Z.to_nat BLE_SCAN_RSP_DATA_LEN) 0) 0 0
                    (PacketRecv trsmitr (ie_raw_len e) (ie_raw_buf e) (ie_dec_len e) (ie_dec_buf e))
                    (replicate (Z.to_nat BLE_SESSION_MAX) None)));;
                  rt ← init_rest e;
                  (if bool_decide (OPRT_OK <> rt) then tuya_ble_deinit;; mret tt else mret tt);;
                  mret rt
              end
        end
  end.

(** ** Runs

    What can happen, one at a time: an event of the radio, a tick of a timer, a call of the
    application, and the cloud that activates the client with its keys. *)
Inductive ble_event :=
| Ev_radio (msg : TAL_BLE_EVT)
| Ev_pair_timeout
| Ev_monitor (connected : bool) (a : adv_env)
| Ev_send (e : resp_env) (type ack_sn : Z) (data : option bytes) (len : Z)
| Ev_adv_update (a : adv_env)
| Ev_activate (c : tuya_iot_client_t).

(** A timer fires while it runs. *)
Definition ble_step (ev : ble_event) : ble unit :=
  match ev with
  | Ev_radio msg => tal_ble_event_callback msg
  | Ev_pair_timeout =>
      ble ← gets s_ble_mgr;
      match mbind (M := option) pair_timer ble with
      | Some true => upd_mgr (with_pair_timer (Some false));; ble_pair_timeout_cb
      | _ => mret tt
      end
  | Ev_monitor connected a =>
      ble ← gets s_ble_mgr;
      match mbind (M := option) monitor_timer ble with
      | Some true => ble_mointor_timer_cb connected a
      | _ => mret tt
      end
  | Ev_send e type ack_sn data len => tuya_ble_send e type ack_sn data len;; mret tt
  | Ev_adv_update a => tuya_ble_adv_update a;; mret tt
  | Ev_activate c => set_client c
  end.

Definition ble_run (evs : list ble_event) : ble unit := for_each evs ble_step.
End cipher.

(** ** What the operations leave alone *)

(** The parts of the manager that decide who is paired. *)
Definition inert (m m' : tuya_ble_mgr_t) : Prop :=
  id m' = id m /\ is_paired m' = is_paired m /\ pair_timer m' = pair_timer m.

(** A relation that only looks at these parts, and lets the trace grow. *)
Class Observes (R : ble_state -> ble_state -> Prop) : Prop := {
  obs_pre :: PreOrder R;
  obs_rest s c g ks b es : R s (St c g ks b (s_ble_mgr s) (trace s ++ es));
  obs_mgr s m m' : s_ble_mgr s = Some m -> inert m m' ->
    R s (St (client s) (statics s) (keys s) (s_iot_conn_stat s) (Some m') (trace s)) }.

Section observes.
Context (R : ble_state -> ble_state -> Prop) `{Observes R}.

Lemma keeps_upd f :
  (forall s m, s_ble_mgr s = Some m -> R s (St (client s) (statics s) (keys s) (s_iot_conn_stat s) (Some (f m)) (trace s))) ->
  keeps R (upd_mgr f).
Proof.
  intros Hf s x s' Hr. unfold upd_mgr, get_mgr in Hr.
  apply bind_inv in Hr as (m & s1 & Hm & Hr). apply bind_inv in Hm as (o & s2 & [= <- <-] & Hl).
  unfold lift in Hl. destruct (s_ble_mgr s) as [m0|] eqn:Hs; [|done]. injection Hl as <- <-.
  injection Hr as _ <-. by apply Hf.
Qed.

Lemma keeps_inert f : (forall m, inert m (f m)) -> keeps R (upd_mgr f).
Proof. intros Hf. apply keeps_upd. intros s m Hs. by eapply obs_mgr. Qed.

Lemma keeps_rest (f : ble_state -> ble_state) :
  (forall s, exists c g ks b es, f s = St c g ks b (s_ble_mgr s) (trace s ++ es)) -> keeps R (modify f).
Proof. intros Hf. apply keeps_modify. intros s. destruct (Hf s) as (c & g & ks & b & es & ->). apply obs_rest. Qed.

Lemma keeps_set_client c : keeps R (set_client c).
Proof. apply keeps_rest. intros s. do 4 eexists. exists []. by rewrite app_nil_r. Qed.
Lemma keeps_set_statics g : keeps R (set_statics g).
Proof. apply keeps_rest. intros s. do 4 eexists. exists []. by rewrite app_nil_r. Qed.
Lemma keeps_set_keys ks : keeps R (set_keys ks).
Proof. apply keeps_rest. intros s. do 4 eexists. exists []. by rewrite app_nil_r. Qed.
Lemma keeps_set_conn_stat b : keeps R (set_conn_stat b).
Proof. apply keeps_rest. intros s. do 4 eexists. exists []. by rewrite app_nil_r. Qed.
Lemma keeps_emit es : keeps R (emit es).
Proof. apply keeps_rest. intros s. by do 5 eexists. Qed.
Lemma keeps_get_mgr : keeps R get_mgr.
Proof. unfold get_mgr. keep. Qed.
#[local] Hint Resolve keeps_set_client keeps_set_statics keeps_set_keys keeps_set_conn_stat keeps_emit keeps_get_mgr
  keeps_inert : prog.
#[local] Hint Extern 1 (forall _, inert _ _) => by intros ? : prog.

Context `{Cipher}.

Lemma keeps_disconnect : keeps R tal_ble_disconnect.
Proof. unfold tal_ble_disconnect. keep. Qed.
Lemma keeps_adv_update a : keeps R (ble_adv_update a).
Proof. unfold ble_adv_update, ble_adv_set. keep. Qed.
Lemma keeps_resp e resp : keeps R (ble_packet_resp e resp).
Proof. unfold ble_packet_resp. keep. Qed.
#[local] Hint Resolve keeps_disconnect keeps_adv_update keeps_resp : prog.

Lemma keeps_send e type sn data len : keeps R (tuya_ble_send e type sn data len).
Proof. unfold tuya_ble_send, tuya_ble_send_packet. keep. Qed.
#[local] Hint Resolve keeps_send : prog.
Lemma keeps_unbind e req : keeps R (ble_unbind_req e req).
Proof. unfold ble_unbind_req. keep. Qed.
Lemma keeps_dev_info e sub buf rand req : keeps R (ble_dev_info_req e sub buf rand req).
Proof. unfold ble_dev_info_req, ble_dev_info_make. keep. Qed.
Lemma keeps_monitor connected a : keeps R (ble_mointor_timer_cb connected a).
Proof. unfold ble_mointor_timer_cb. keep. Qed.
Lemma keeps_send_each e k l : keeps R (send_each e k l).
Proof. revert k. induction l as [|[[[ty sn] d] n] l IH]; intros k; cbn [send_each]; keep. Qed.
End observes.

#[export] Hint Resolve keeps_set_client keeps_set_statics keeps_set_keys keeps_set_conn_stat keeps_emit keeps_get_mgr
  keeps_inert keeps_disconnect keeps_adv_update keeps_resp keeps_send keeps_unbind keeps_dev_info keeps_monitor
  keeps_send_each : prog.
#[export] Hint Extern 1 (forall _, inert _ _) => by intros ? : prog.

Lemma upd_mgr_inv f s x s' :
  upd_mgr f s = Some (x, s') -> exists m, s_ble_mgr s = Some m /\
    s' = St (client s) (statics s) (keys s) (s_iot_conn_stat s) (Some (f m)) (trace s).
Proof.
  unfold upd_mgr, get_mgr. intros Hr. apply bind_inv in Hr as (m & s1 & Hm & Hr).
  apply bind_inv in Hm as (o & s2 & [= <- <-] & Hl). unfold lift in Hl.
  destruct (s_ble_mgr s) as [m0|]; [|done]. injection Hl as <- <-. injection Hr as _ <-. by exists m0.
Qed.

Lemma upd_mgr_run f s m :
  s_ble_mgr s = Some m ->
  upd_mgr f s = Some (tt, St (client s) (statics s) (keys s) (s_iot_conn_stat s) (Some (f m)) (trace s)).
Proof. intros Hm. unfold upd_mgr, get_mgr, mbind, prog_bind, gets, lift. by rewrite Hm. Qed.

Lemma get_mgr_run s m : s_ble_mgr s = Some m -> get_mgr s = Some (m, s).
Proof. intros Hm. unfold get_mgr, mbind, prog_bind, gets, lift. by rewrite Hm. Qed.

Lemma get_mgr_inv s m s' : get_mgr s = Some (m, s') -> s_ble_mgr s = Some m /\ s' = s.
Proof.
  unfold get_mgr. intros Hr. apply bind_inv in Hr as (o & s2 & [= <- <-] & Hl). unfold lift in Hl.
  destruct (s_ble_mgr s); [|done]. by injection Hl as <- <-.
Qed.

Lemma lift_inv {A} (o : option A) (s : ble_state) x s' : lift o s = Some (x, s') -> o = Some x /\ s' = s.
Proof. unfold lift. destruct o; [|done]. by intros [= <- <-]. Qed.

(** The request asks for the pairing with the identifier of the manager. *)
Definition names_id (m : tuya_ble_mgr_t) (req : ble_packet_t) : Prop :=
  exists d, p_data req = Some d /\ take 16 d = take 16 (id m).

Section cipher.
Context `{Cipher}.

Lemma pair_req_inv R `{Observes R} e netstat req s x s' :
  ble_pair_req e netstat req s = Some (x, s') ->
  R s s' \/ exists m s1, s_ble_mgr s = Some m /\ names_id m req /\
    s_ble_mgr s1 = Some (with_paired true (with_pair_timer (option_map (fun _ => false) (pair_timer m)) m)) /\
    trace s1 = trace s ++ [E_timer_stop] /\ R s1 s'.
Proof.
  unfold ble_pair_req. intros Hr. apply bind_inv in Hr as (m & s1 & Hm & Hr). apply get_mgr_inv in Hm as [Hm ->].
  apply bind_inv in Hr as (c & s1 & [= <- <-] & Hr). apply bind_inv in Hr as (d & s1 & Hd & Hr).
  apply lift_inv in Hd as [Hd ->]. apply bind_inv in Hr as (i & s1 & Hi & Hr). apply lift_inv in Hi as [Hi ->].
  case_bool_decide as Heq.
  - right. exists m. apply bind_inv in Hr as (res & s1 & Hp & Hr). unfold pair_timer_stop in Hp.
    apply bind_inv in Hp as (? & s2 & Hp & Hp3). apply bind_inv in Hp as (? & s3 & Hp1 & Hp2).
    apply upd_mgr_inv in Hp1 as (m0 & Hm0 & ->). assert (m0 = m) as -> by congruence. injection Hp2 as _ <-.
    apply bind_inv in Hp3 as (? & s3 & Hp3 & [= _ <-]). apply upd_mgr_inv in Hp3 as (m1 & [= <-] & ->).
    match type of Hr with _ ?st = _ => exists st end. split; [done|]. split; [|split; [done|split; [done|]]].
    + unfold names_id. destruct (p_data req) as [dd|]; [|done]. exists dd. split; [done|]. cbn in Hd.
      unfold mread in Hd, Hi.
      repeat match goal with H : (if ?b then _ else None) = Some _ |- _ => destruct b; [|discriminate H] end.
      change (Z.to_nat 0) with 0%nat in *. change (Z.to_nat BLE_ID_LEN) with 16%nat in *.
      rewrite drop_0 in Hd, Hi. congruence.
    + revert Hr. apply keeps_run. keep.
  - left. revert Hr. apply keeps_run. keep.
Qed.

(** What a relation has to allow for the handling of packets: the request that pairs. *)
Class Pairing (R : ble_state -> ble_state -> Prop) : Prop :=
  pairing s s1 m k req :
    s_ble_mgr s = Some m -> p_type req = FRM_PAIR_REQ -> names_id m req ->
    s_ble_mgr s1 = Some (with_paired true (with_pair_timer (option_map (fun _ => false) (pair_timer m)) m)) ->
    trace s1 = trace s ++ [E_session k req; E_timer_stop] -> R s s1.

Lemma keeps_session R `{Observes R} `{!Pairing R} w packet i : keeps R (run_session w packet i).
Proof.
  intros s x s' Hr. unfold run_session in Hr. apply bind_inv in Hr as (m & s1 & Hm & Hr).
  apply get_mgr_inv in Hm as [Hm ->]. apply bind_inv in Hr as (fn & s1 & Hf & Hr). apply lift_inv in Hf as [_ ->].
  destruct fn as [[|o]|]; [|revert Hr; apply keeps_run; keep|revert Hr; apply keeps_run; keep].
  apply bind_inv in Hr as (y & s1 & He & Hr).
  assert (H1 : R s s1) by (by eapply keeps_emit).
  unfold ble_session_system_process in Hr.
  destruct (bool_decide (p_type packet = FRM_QRY_DEV_INFO_REQ)); [etrans; [done|]; revert Hr; apply keeps_run; keep|].
  destruct (bool_decide_reflect (p_type packet = FRM_PAIR_REQ)) as [Hp|];
    [|etrans; [done|]; revert Hr; apply keeps_run; destruct (_ || _); keep].
  apply bind_inv in Hr as (z & s2 & Hr & [= _ <-]).
  apply (pair_req_inv R) in Hr as [Hr|(m0 & s3 & Hm0 & Hn & Hs3 & Ht & Hr)]; [by etrans|].
  injection He as _ <-. cbn in Hm0, Ht. assert (m0 = m) as -> by congruence.
  etrans; [|exact Hr]. eapply pairing; [done|done|done|done|]. by rewrite Ht, <- app_assoc.
Qed.
#[local] Hint Resolve keeps_session : prog.

Lemma keeps_write R `{Observes R} `{!Pairing R} w h data : keeps R (ble_write_req w h data).
Proof.
  unfold ble_write_req. keep. apply keeps_for_each; [apply _|]. intros i. keep.
Qed.
#[local] Hint Resolve keeps_write : prog.
End cipher.

(** ** Pairing *)

Definition pair_request (i : bytes) (e : effect) : Prop :=
  match e with
  | E_session _ req => p_type req = FRM_PAIR_REQ /\ exists d, p_data req = Some d /\ take 16 d = take 16 i
  | _ => False
  end.

Definition pairs (s s' : ble_state) : Prop :=
  forall m, s_ble_mgr s = Some m ->
    exists m' tr, s_ble_mgr s' = Some m' /\ id m' = id m /\ trace s' = trace s ++ tr /\
      (is_paired m' = true -> is_paired m = true \/ Exists (pair_request (id m)) tr).

#[export] Instance pairs_observes : Observes pairs.
Proof.
  split.
  - split.
    + intros s m Hm. exists m, []. rewrite app_nil_r. split_and!; auto.
    + intros s1 s2 s3 H12 H23 m Hm. destruct (H12 m Hm) as (m2 & t2 & Hm2 & Hi2 & Ht2 & Hp2).
      destruct (H23 m2 Hm2) as (m3 & t3 & Hm3 & Hi3 & Ht3 & Hp3). exists m3, (t2 ++ t3).
      split_and!; [done|congruence|by rewrite Ht3, Ht2, app_assoc|]. intros Hp.
      destruct (Hp3 Hp) as [Hp'|He]; [destruct (Hp2 Hp') as [|He]; [by left|]|]; right; apply Exists_app;
        [by left|right; by rewrite <- Hi2].
  - intros s c g ks b es m Hm. exists m, es. cbn. split_and!; auto.
  - intros s m m' Hm (Hi & Hp & _) m0 Hm0. assert (m0 = m) as -> by congruence.
    exists m', []. cbn. rewrite app_nil_r. split_and!; try done. rewrite Hp. by left.
Qed.

#[export] Instance pairs_pairing : Pairing pairs.
Proof.
  intros s s1 m k req Hm Hty Hn Hs1 Ht m0 Hm0. assert (m0 = m) as -> by congruence.
  eexists. eexists. split_and!; [exact Hs1|done|exact Ht|]. intros _. right. constructor. by split.
Qed.

Lemma keeps_upd_pairs f :
  (forall m, id (f m) = id m /\ (is_paired (f m) = true -> is_paired m = true)) -> keeps pairs (upd_mgr f).
Proof.
  intros Hf. apply keeps_upd. intros s m Hs m0 Hm0. assert (m0 = m) as -> by congruence.
  destruct (Hf m) as [Hi Hp]. exists (f m), []. cbn. rewrite app_nil_r. split_and!; auto.
Qed.

Section cipher.
Context `{Cipher}.
#[local] Hint Resolve keeps_session keeps_write keeps_upd_pairs : prog.
#[local] Hint Extern 1 (forall _, id _ = id _ /\ _) => by intros ? : prog.

Lemma keeps_step_pairs ev : keeps pairs (ble_step ev).
Proof.
  destruct ev; cbn [ble_step]; unfold tal_ble_event_callback, pair_timer_start, pair_timer_stop, ble_pair_timeout_cb,
    tuya_ble_adv_update; keep.
Qed.

(** C21. A connection is paired only by a pairing request with the identifier of the device: whatever
    happens, from a state that is not paired, the manager becomes paired only if a packet of the
    type FRM_PAIR_REQ that starts with the identifier was handed to the sessions on the way. *)
Theorem ble_pairing_needs_id evs s s' m :
  s_ble_mgr s = Some m -> is_paired m = false -> ble_run evs s = Some (tt, s') ->
  exists m' tr, s_ble_mgr s' = Some m' /\ trace s' = trace s ++ tr /\
    (is_paired m' = true -> Exists (pair_request (id m)) tr).
Proof.
  intros Hm Hp Hr. assert (Hk : keeps pairs (ble_run evs)) by (apply keeps_for_each; [apply _|apply keeps_step_pairs]).
  destruct (Hk _ _ _ Hr m Hm) as (m' & tr & Hm' & _ & Ht & Hp'). exists m', tr. split_and!; [done|done|].
  intros H1. destruct (Hp' H1); [congruence|done].
Qed.
End cipher.

(** ** The pair timer *)

Definition is_disconnect (e : effect) : Prop := match e with E_disconnect _ => True | _ => False end.

(** The connection is paired, or the timer that ends it runs. *)
Definition watched (m : tuya_ble_mgr_t) : Prop := is_paired m = true \/ pair_timer m = Some true.

Definition watches (s s' : ble_state) : Prop :=
  forall m, s_ble_mgr s = Some m ->
    exists m' tr, s_ble_mgr s' = Some m' /\ trace s' = trace s ++ tr /\ (is_Some (pair_timer m) -> is_Some (pair_timer m')) /\
      (watched m -> watched m' \/ Exists is_disconnect tr).

#[export] Instance watches_observes : Observes watches.
Proof.
  split.
  - split.
    + intros s m Hm. exists m, []. rewrite app_nil_r. split_and!; auto.
    + intros s1 s2 s3 H12 H23 m Hm. destruct (H12 m Hm) as (m2 & t2 & Hm2 & Ht2 & Hs2 & Hp2).
      destruct (H23 m2 Hm2) as (m3 & t3 & Hm3 & Ht3 & Hs3 & Hp3). exists m3, (t2 ++ t3).
      split_and!; [done|by rewrite Ht3, Ht2, app_assoc|auto|]. intros Hp. rewrite Exists_app.
      destruct (Hp2 Hp) as [Hp'|]; [|tauto]. destruct (Hp3 Hp'); tauto.
  - intros s c g ks b es m Hm. exists m, es. cbn. split_and!; auto.
  - intros s m m' Hm (_ & Hp & Ht) m0 Hm0. assert (m0 = m) as -> by congruence.
    exists m', []. cbn. rewrite app_nil_r. split_and!; try done; unfold watched; [by rewrite Ht|].
    rewrite Hp, Ht. by left.
Qed.

#[export] Instance watches_pairing : Pairing watches.
Proof.
  intros s s1 m k req Hm Hty Hn Hs1 Ht m0 Hm0. assert (m0 = m) as -> by congruence.
  eexists. eexists. split_and!; [exact Hs1|exact Ht| |intros _; left; by left]. cbn. intros [t ->]. by eexists.
Qed.

(** Events of a connection that goes on. *)
Definition same_link (ev : ble_event) : bool :=
  match ev with
  | Ev_radio (TAL_BLE_EVT_PERIPHERAL_CONNECT _ _) | Ev_radio (TAL_BLE_EVT_DISCONNECT _ _) => false
  | _ => true
  end.

Section cipher.
Context `{Cipher}.
#[local] Hint Resolve keeps_session keeps_write : prog.

(** When the pair timer is due. *)
Lemma timeout_step s m x s' :
  s_ble_mgr s = Some m -> ble_step Ev_pair_timeout s = Some (x, s') ->
  (pair_timer m = Some true /\ s_ble_mgr s' = Some (with_pair_timer (Some false) m) /\
   trace s' = trace s ++ [E_disconnect (peer_info m)]) \/ (pair_timer m <> Some true /\ s' = s).
Proof.
  intros Hm Hr. cbn [ble_step] in Hr. apply bind_inv in Hr as (o & s1 & [= <- <-] & Hr). rewrite Hm in Hr.
  cbn [mbind option_bind] in Hr. destruct (pair_timer m) as [[|]|] eqn:Ht; [|injection Hr as _ <-; by right..].
  left. unfold upd_mgr, get_mgr, ble_pair_timeout_cb, tal_ble_disconnect, get_mgr in Hr.
  unfold mbind, prog_bind, gets, lift, modify, set_mgr, emit in Hr. rewrite Hm in Hr. cbn in Hr.
  by injection Hr as _ <-.
Qed.

Lemma keeps_step_watches ev : same_link ev = true -> keeps watches (ble_step ev).
Proof.
  intros Hl. destruct ev as [msg| | | | |].
  2:{ intros s x s' Hr m Hm. destruct (timeout_step _ _ _ _ Hm Hr) as [(Ht & Hm' & Htr)|[_ ->]].
      - eexists. eexists. split_and!; [done|done|by eexists|]. intros _. right. by constructor.
      - exists m, []. rewrite app_nil_r. split_and!; auto. }
  all: cbn [ble_step].
  all: unfold tal_ble_event_callback, tuya_ble_adv_update; try destruct msg; try discriminate Hl; keep.
Qed.

Lemma connect_watched peer s s' :
  ble_step (Ev_radio (TAL_BLE_EVT_PERIPHERAL_CONNECT 0 peer)) s = Some (tt, s') ->
  forall m, s_ble_mgr s = Some m -> exists m', s_ble_mgr s' = Some m' /\ is_paired m' = is_paired m /\
    peer_info m' = peer /\ recv_sn m' = 0 /\ pair_timer m' = option_map (fun _ => true) (pair_timer m) /\
    trace s' = trace s ++ [E_timer_start BLE_CONN_MONITOR_TIME] /\ client s' = client s /\ id m' = id m.
Proof.
  intros Hr m Hm. cbn [ble_step] in Hr. unfold tal_ble_event_callback, pair_timer_start in Hr.
  unfold mbind at 1, prog_bind at 1, gets at 1 in Hr. rewrite Hm, (bool_decide_true (0 = 0)) in Hr by done.
  rewrite (bind_step _ _ _ _ _ (upd_mgr_run _ _ _ Hm)) in Hr.
  erewrite bind_step in Hr by (by apply upd_mgr_run). erewrite bind_step in Hr by (by apply upd_mgr_run).
  injection Hr as <-. by eexists.
Qed.

(** C28. A connection that does not pair is closed: after a connection, whatever the peer, the
    application and the cloud do while it lasts, at the moment when the pair timer is due the manager is paired
    or it has asked for the disconnection. *)
Theorem ble_pair_deadline peer evs s s1 s2 m :
  s_ble_mgr s = Some m -> is_Some (pair_timer m) -> forallb same_link evs = true ->
  ble_run (Ev_radio (TAL_BLE_EVT_PERIPHERAL_CONNECT 0 peer) :: evs) s = Some (tt, s1) ->
  ble_step Ev_pair_timeout s1 = Some (tt, s2) ->
  exists m2 tr, s_ble_mgr s2 = Some m2 /\ trace s2 = trace s ++ tr /\
    (is_paired m2 = true \/ Exists is_disconnect tr).
Proof.
  intros Hm [t Ht] Hl Hr Hf. unfold ble_run in Hr. cbn [for_each] in Hr.
  apply bind_inv in Hr as ([] & s0 & Hc & Hr). destruct (connect_watched _ _ _ Hc m Hm) as (m0 & Hm0 & _ & _ & _ & Ht0 & Htr0 & _ & _).
  assert (Hk : watches s0 s1).
  { eapply keeps_run; [|exact Hr]. clear -Hl. induction evs as [|ev evs IH]; [cbn; keep|].
    cbn [forallb] in Hl. apply andb_true_iff in Hl as [H1 H2]. cbn [for_each].
    apply keeps_bind; [apply _|by apply keeps_step_watches|intros _; by apply IH]. }
  rewrite Ht in Ht0. destruct (Hk m0 Hm0) as (m1 & t1 & Hm1 & Htr1 & _ & Hw). rewrite Htr0, <- app_assoc in Htr1.
  destruct (timeout_step _ _ _ _ Hm1 Hf) as [(Ht1 & Hm2 & Htr2)|[Ht1 ->]].
  - eexists. eexists. split_and!; [done|rewrite Htr2, Htr1, <- app_assoc; reflexivity|].
    right. rewrite !Exists_app. right. by constructor.
  - eexists. eexists. split_and!; [done|exact Htr1|]. destruct (Hw (or_intror Ht0)) as [[Hp|]|Hd]; [by left|done|].
    right. apply Exists_app. by right.
Qed.
End cipher.

(** ** Advertising *)

Lemma zlen_1 {A} (l : list A) : zlen l = 1 -> exists x, l = [x].
Proof. intros Hl. destruct l as [|x [|y l]]; [done|by exists x|]. rewrite !zlen_cons in Hl. pose proof (zlen_nonneg l). lia. Qed.

(** The structures of advertising data: length, type, content. *)
Fixpoint ad_structures (fuel : nat) (b : bytes) : option (list (Z * bytes)) :=
  match fuel, b with
  | _, [] => Some []
  | S fuel, len :: type :: b =>
      d ← mread b 0 (len - 1);
      r ← ad_structures fuel (drop (Z.to_nat (len - 1)) b);
      Some ((type, d) :: r)
  | _, _ => None
  end.

Lemma ad_structures_cons fuel n type d b :
  n = zlen d + 1 -> ad_structures (S fuel) (n :: type :: d ++ b) = (r ← ad_structures fuel b; Some ((type, d) :: r)).
Proof.
  intros ->. pose proof (zlen_nonneg d). pose proof (zlen_nonneg b). cbn [ad_structures].
  replace (zlen d + 1 - 1) with (zlen d) by lia. rewrite mread_Some by (rewrite ?zlen_app; lia). ub_step.
  by rewrite zlen_to_nat, drop_0, take_app_length, drop_app_length.
Qed.

Lemma to_str_total conv n : (forall b, is_Some (conv b)) -> forall i str hex,
  0 <= i -> i + Z.of_nat n <= zlen hex -> 2 * (i + Z.of_nat n) <= zlen str ->
  exists s, to_str_loop conv n i str hex = Some s /\ zlen s = zlen str.
Proof.
  intros Hc. induction n as [|n IH]; intros i str hex Hi Hh Hs; [by exists str|]. cbn [to_str_loop].
  destruct (zget_is_Some hex i) as [b ->]; [lia|]. ub_step. destruct (Hc b) as [d ->].
  destruct (zset_is_Some str (i * 2) (fst d)) as [s1 H1]; [lia|]. rewrite H1.
  apply zset_inv in H1 as (_ & Hl1 & _). destruct (zset_is_Some s1 (i * 2 + 1) (snd d)) as [s2 H2]; [lia|]. rewrite H2.
  apply zset_inv in H2 as (_ & Hl2 & _). destruct (IH (i + 1) s2 hex) as (s & -> & Hl); [lia..|]. exists s. split; [done|lia].
Qed.

Section laws.
Context `{CL : CipherLaws}.

(** The encrypted identifier replaces 16 bytes or none. *)
Lemma adv_id_encrypt_ok key i aes a b c :
  16 <= zlen key -> 16 <= zlen i -> (forall m, aes = Some m -> zlen m = 114) -> zlen b = 16 ->
  exists rt b', tuya_ble_adv_id_encrypt key i BLE_ID_LEN aes (a ++ b ++ c) (zlen a) = Some (rt, a ++ b' ++ c) /\ zlen b' = 16.
Proof.
  intros Hk Hi Ha Hb. unfold tuya_ble_adv_id_encrypt. rewrite bool_decide_false by (unfold BLE_ID_LEN; lia).
  destruct aes as [m|]; [|by exists OPRT_MALLOC_FAILED, b]. specialize (Ha m eq_refl). unfold BLE_ID_LEN.
  rewrite mread_Some by (unfold MAX_LENGTH_SECKEY; lia). ub_step. unfold hex2str.
  destruct (to_str_total hex2str_byte 16 ltac:(by eexists) 0 m i) as (s1 & H1 & Hl1); [lia..|].
  change (Z.to_nat 16) with 16%nat. rewrite H1. ub_step. destruct (zset_is_Some s1 (16 * 2) 0) as [s2 H2]; [lia|].
  rewrite H2. apply zset_inv in H2 as (_ & Hl2 & _). change (16 * 2 + 1) with 33.
  destruct (ble_add_pkcs_ok s2 33) as (s3 & H3 & Hl3 & _); [lia|change (padded 33) with 48; lia|lia|]. rewrite H3.
  change (padded 33) with 48. rewrite bool_decide_false by lia. unfold tal_aes128_ecb_encode_raw.
  rewrite (mread_Some (md5 _)) by (rewrite ?md5_len; lia). ub_step. rewrite mread_Some by lia. cbv beta iota.
  match goal with |- context [aes_ecb ?k ?d] => destruct (aes_ecb_len k d) as (e & He & Hel) end;
    [rewrite zlen_take by lia; rewrite zlen_drop by lia; rewrite md5_len; done|rewrite zlen_take by lia; rewrite zlen_drop by lia; replace (_ `min` _) with 48 by lia; done|].
  rewrite He. rewrite zlen_take, zlen_drop in Hel by lia.
  destruct (aes_raw_ok e s3 57) as (s4 & -> & H4); [lia|lia|]. rewrite bool_decide_true by done.
  apply mwrite_inv in H4 as (_ & _ & Hl4 & _). unfold MAX_LENGTH_SECKEY.
  rewrite memcpy_mwrite by lia. erewrite mwrite_mid; [eexists _, _; split; [reflexivity|]|done|];
    rewrite zlen_take, zlen_drop by lia; lia.
Qed.

Record adv_ok (c : tuya_iot_client_t) (m : tuya_ble_mgr_t) : Prop := {
  ao_adv : zlen (adv_data m) = BLE_ADV_DATA_LEN;
  ao_rsp : zlen (rsp_data m) = BLE_SCAN_RSP_DATA_LEN;
  ao_id : 16 <= zlen (id m);
  ao_key : 16 <= zlen (productkey c);
  ao_sec : 16 <= zlen (seckey c) }.

Lemma strlen_name name rest : no_nul name -> strlen (name ++ 0 :: rest) = Some (zlen name).
Proof.
  induction 1 as [|b name Hb Hn IH]; [done|]. cbn [app strlen]. rewrite bool_decide_false by done. rewrite IH. ub_step.
  rewrite zlen_cons. f_equal. lia.
Qed.

(** The identifier in the advertising data. *)
Lemma adv_id_ok a c m x y z :
  adv_ok c m -> (forall b, ae_aes a = Some b -> zlen b = 114) -> zlen x = 15 -> zlen y = 16 ->
  exists id16, adv_id a c m (x ++ y ++ z) = Some (x ++ id16 ++ z) /\ zlen id16 = 16 /\ (is_activated c = false -> id16 = take 16 (productkey c)).
Proof.
  intros [Ha Hr Hi Hk Hs] Hb Hx Hy. unfold adv_id. destruct (is_activated c).
  - destruct (adv_id_encrypt_ok (seckey c) (id m) (ae_aes a) x y z) as (rt & b' & Hf & Hl); [done|done|done|done|].
    rewrite Hx in Hf. rewrite Hf. by exists b'.
  - exists (take 16 (productkey c)). unfold BLE_ID_LEN. rewrite memcpy_mwrite by lia. rewrite drop_0.
    assert (Ht : zlen (take 16 (productkey c)) = 16) by (change 16%nat with (Z.to_nat 16); rewrite zlen_take; lia).
    change (Z.to_nat 16) with 16%nat. by rewrite mwrite_mid by lia.
Qed.

Lemma rsp_id_ok key koff i x y z :
  16 <= zlen i -> 0 <= koff -> koff + 20 <= zlen key -> zlen y = 16 ->
  exists enc, tuya_ble_rsp_id_encrypt key koff (BLE_ID_LEN + 4) i BLE_ID_LEN (x ++ y ++ z) (zlen x) = Some (OPRT_OK, x ++ enc ++ z) /\
    zlen enc = 16.
Proof.
  intros Hi Hk Hl Hy. unfold tuya_ble_rsp_id_encrypt, tal_aes128_cbc_encode_raw, BLE_ID_LEN.
  rewrite mread_Some by lia. ub_step. rewrite mread_Some by lia. ub_step. rewrite drop_0.
  assert (Ht : zlen (take (Z.to_nat 16) i) = 16) by (rewrite zlen_take; lia).
  match goal with |- context [aes_cbc true ?k ?v ?d] => destruct (aes_cbc_inv k v d) as (e & He & Hel & _) end;
    [apply md5_len|apply md5_len|by rewrite Ht|]. rewrite He. rewrite Ht in Hel.
  pose proof (zlen_nonneg x). pose proof (zlen_nonneg z).
  destruct (aes_raw_ok e (x ++ y ++ z) (zlen x)) as (o & -> & Hw); [lia|rewrite !zlen_app; lia|].
  rewrite mwrite_mid in Hw by lia. injection Hw as <-. by exists e.
Qed.

Definition adv_head : bytes := [0x02; 0x01; 0x06; 0x03; 0x02; 0x50; 0xFD; 23; 0x16; 0x50; 0xFD].
Definition ctrl_bytes (ctrl : Z) : bytes := [Z.land (Z.shiftr ctrl 8) 0xff; Z.land ctrl 0xff; 0; 16].

(** The buffers as lists. *)
Lemma adv_build_ok a c m name rest :
  let n := zlen name in
  let ctrl := adv_frame_ctrl (ae_status a) (is_activated c) in
  adv_ok c m -> (forall b, ae_aes a = Some b -> zlen b = 114) ->
  device_name m = name ++ 0 :: rest -> no_nul name -> n <= TUYA_BLE_NAME_LEN ->
  exists id16 enc flag,
    adv_build a c m = Some (31, adv_head ++ ctrl_bytes ctrl ++ id16, 26 + n,
      [0x17; 0xFF; 0xD0; 0x07; 0x00; 0x00; 0x0C; flag] ++ enc ++
      (n + 1) :: 0x09 :: drop 2 (name ++ drop (Z.to_nat (24 + n)) (rsp_data m))) /\
    zlen id16 = 16 /\ zlen enc = 16 /\ (is_activated c = false -> id16 = take 16 (productkey c)).
Proof.
  intros n ctrl Hok Haes Hname Hnul Hn. pose proof Hok as [Ha Hr Hi Hk Hs]. pose proof (zlen_nonneg name) as Hn0.
  fold n in Hn0. unfold BLE_ADV_DATA_LEN, BLE_SCAN_RSP_DATA_LEN, TUYA_BLE_NAME_LEN in *.
  destruct (list_cut (adv_data m) 11 4) as (a1 & a2 & a3 & Hadv & Ha1 & Ha2 & Ha3); [lia..|].
  assert (Ha3l : zlen a3 = 16) by (rewrite Ha3, zlen_drop; lia). clear Ha3.
  destruct (list_cut (rsp_data m) 7 1) as (r1 & q & rr & Hrsp & Hr1 & Hq & Hrr); [lia..|].
  assert (Hrrl : zlen rr = 23) by (rewrite Hrr, zlen_drop; lia).
  destruct (list_cut rr 0 16) as (r0 & r2 & r3 & Hrr2 & Hr0 & Hr2 & Hr3); [lia..|].
  destruct r0; [cbn [app] in Hrr2|rewrite zlen_cons in Hr0; pose proof (zlen_nonneg r0); lia].
  assert (Hr3l : zlen r3 = 7) by (rewrite Hr3, zlen_drop; lia).
  replace (drop (Z.to_nat (24 + n)) (rsp_data m)) with (drop (Z.to_nat n) r3)
    by (rewrite Hr3, Hrr, !drop_drop; f_equal; lia). clear Hr3 Hrr.
  destruct (zlen_1 q Hq) as [f ->].
  unfold adv_build. rewrite Hadv, Hrsp, Hrr2. fold ctrl.
  rewrite mwrite_start by done. ub_step. rewrite mwrite_start by done. ub_step.
  set (flag := if is_activated c then _ else _).
  change ([f] ++ r2 ++ r3) with (f :: r2 ++ r3). rewrite zset_at by done. ub_step. fold (ctrl_bytes ctrl).
  rewrite mwrite_mid by done. ub_step.
  destruct (adv_id_ok a c m (adv_head ++ ctrl_bytes ctrl) a3 []) as (id16 & Hid & Hidl & Hidk); [done|done|done|done|].
  rewrite !app_nil_r, <- !app_assoc in Hid. change (adv_id a c m _) with (adv_id a c m (adv_head ++ ctrl_bytes ctrl ++ a3)).
  rewrite Hid. cbv beta iota. set (h7 := [23; 255; 208; 7; _; _; _]).
  destruct (rsp_id_ok (adv_head ++ ctrl_bytes ctrl ++ id16) 11 (id m) (h7 ++ [flag]) r2 r3) as (enc & He & Hel);
    [done|lia|rewrite !zlen_app, Hidl; done|done|].
  rewrite <- !app_assoc in He. change (zlen (h7 ++ [flag])) with 8 in He.
  change (h7 ++ flag :: r2 ++ r3) with (h7 ++ [flag] ++ r2 ++ r3). rewrite He. cbv beta iota. cbn [snd].
  rewrite Hname, strlen_name by done. cbv beta iota. fold n. rewrite (wrap_small 8 n) by (unfold in_u; lia).
  rewrite (bool_decide_false (n > _)) by (unfold TUYA_BLE_NAME_LEN; lia).
  change (u8 (8 + BLE_ID_LEN)) with 24. change (u8 (15 + MAX_LENGTH_PRODUCT_ID)) with 31.
  rewrite memcpy_mwrite by (rewrite ?zlen_app, ?zlen_cons; pose proof (zlen_nonneg rest); lia).
  rewrite drop_0. unfold n at 1. rewrite zlen_to_nat, take_app_length.
  exists id16, enc, flag. split; [|done]. rewrite <- (take_drop (Z.to_nat n) r3) at 1.
  assert (Hpre : zlen (h7 ++ [flag] ++ enc) = 24) by (rewrite !zlen_app, Hel; done).
  assert (Hpe : forall l, h7 ++ [flag] ++ enc ++ l = (h7 ++ [flag] ++ enc) ++ l) by (intros l; by rewrite <- !app_assoc).
  rewrite Hpe, mwrite_mid; [|done|fold n; rewrite zlen_take; lia]. cbv beta iota.
  assert (Hw : 2 <= zlen (name ++ drop (Z.to_nat n) r3)) by (rewrite zlen_app, zlen_drop by lia; fold n; lia).
  destruct (name ++ drop (Z.to_nat n) r3) as [|w0 [|w1 w]]; [done|done|].
  rewrite (zset_at _ w0) by lia. cbv beta iota. rewrite (snoc_cons _ (n + 1)).
  rewrite zset_at by (rewrite zlen_snoc; lia). cbv beta iota. rewrite <- app_assoc, <- !Hpe.
  rewrite (wrap_small 8) by (unfold in_u; lia). cbn [app]. change (drop 2 (w0 :: w1 :: w)) with w. done.
Qed.

(** The advertising data and the scan response are well formed: they fill at most 31 bytes and
    split into the structures of the advertising format, with the identifier (the product key, or
    its encryption when the device is bound) and the flags; but the name is not the configured
    name: its first two characters are overwritten by the header of the structure, and the buffer's old
    contents follow. *)
Theorem ble_adv_wellformed a c m name rest :
  let n := zlen name in
  let ctrl := adv_frame_ctrl (ae_status a) (is_activated c) in
  adv_ok c m -> (forall b, ae_aes a = Some b -> zlen b = 114) ->
  device_name m = name ++ 0 :: rest -> no_nul name -> n <= TUYA_BLE_NAME_LEN ->
  exists adv rsp id16 enc flag,
    adv_build a c m = Some (31, adv, 26 + n, rsp) /\ zlen adv = 31 /\ zlen rsp = 31 /\
    ad_structures 3 adv =
      Some [(0x01, [0x06]); (0x02, [0x50; 0xFD]);
            (0x16, [0x50; 0xFD; Z.land (Z.shiftr ctrl 8) 0xff; Z.land ctrl 0xff; 0; 16] ++ id16)] /\
    ad_structures 2 (take (Z.to_nat (26 + n)) rsp) =
      Some [(0xFF, [0xD0; 0x07; 0x00; 0x00; 0x0C; flag] ++ enc);
            (0x09, take (Z.to_nat n) (drop 2 (name ++ drop (Z.to_nat (24 + n)) (rsp_data m))))] /\
    zlen id16 = 16 /\ zlen enc = 16 /\ (is_activated c = false -> id16 = take 16 (productkey c)).
Proof.
  intros n ctrl Hok Haes Hname Hnul Hn. destruct (adv_build_ok a c m name rest Hok Haes Hname Hnul Hn)
    as (id16 & enc & flag & Hb & Hi & He & Hk). fold n in Hb. fold ctrl in Hb.
  pose proof Hok as [_ Hr _ _ _]. pose proof (zlen_nonneg name). fold n in H0. unfold TUYA_BLE_NAME_LEN, BLE_SCAN_RSP_DATA_LEN in *.
  set (w := drop 2 (name ++ drop (Z.to_nat (24 + n)) (rsp_data m))) in *.
  assert (Hw : zlen w = 5).
  { unfold w. change 2%nat with (Z.to_nat 2). rewrite zlen_drop, zlen_app, zlen_drop by lia. fold n. lia. }
  eexists. eexists. exists id16, enc, flag. split; [exact Hb|].
  split; [rewrite !zlen_app, Hi; done|]. split; [rewrite !zlen_app, !zlen_cons, He, Hw; done|].
  split; [|split; [|done]].
  - transitivity (ad_structures 3 (2 :: 1 :: [6] ++ 3 :: 2 :: [0x50; 0xFD] ++ 23 :: 0x16 ::
      ([0x50; 0xFD; Z.land (Z.shiftr ctrl 8) 0xff; Z.land ctrl 0xff; 0; 16] ++ id16) ++ [])); [by rewrite app_nil_r|].
    rewrite !ad_structures_cons by (rewrite ?zlen_app, ?Hi; done). done.
  - transitivity (ad_structures 2 (0x17 :: 0xFF :: ([0xD0; 0x07; 0x00; 0x00; 0x0C; flag] ++ enc) ++
      (n + 1) :: 0x09 :: take (Z.to_nat n) w ++ [])).
    + f_equal. rewrite app_nil_r. cbn [app]. replace (Z.to_nat (26 + n)) with (8 + (16 + (2 + Z.to_nat n)))%nat by lia.
      cbn [take Nat.add]. do 8 f_equal. rewrite take_app_ge by (unfold zlen in He; lia).
      replace (length enc) with 16%nat by (unfold zlen in He; lia). done.
    + rewrite ad_structures_cons by (rewrite zlen_app, He; done).
      rewrite ad_structures_cons by (rewrite zlen_take by lia; lia). done.
Qed.
End laws.
