(* ===== verification/BlePeer.v ===== *)
(** * What a peer of the BLE manager can do

    The bytes of a write, through reassembly, decryption and dispatch (BleTrsmitr, BlePacket, BleMgr),
    to the effects of the manager; what the manager sends; its start and end. The examples at the end
    are the witnesses of this file and of BleMgr. *)
From S2P Require Import Prelude StateM BleTrsmitr Crc BleCrypt BlePacket BleMgr.

(** ** One subpackage *)

(** Subpackage number 0, the total length 17, the version 4, 17 bytes. *)
Definition one_frame (text : bytes) : bytes := 0 :: 17 :: 0x40 :: text.

Lemma one_frame_recv t rl rb dl db text :
  zlen text = 17 -> 17 <= zlen (tr_subpkg t) -> tr_subpkg_num t < 0x10000000 ->
  exists t', ble_packet_trsmitr (PacketRecv t rl rb dl db) (one_frame text) 20 =
      Some (OPRT_OK, PacketRecv t' 17 (text ++ drop 17 zero_frame) dl db) /\ tr_version t' = 4.
Proof.
  intros Ht Hs Hn. unfold ble_packet_trsmitr, ble_frame_trsmitr_recv_pkg_decode, one_frame. cbn [pr_trsmitr pr_dec_len pr_dec_buf].
  change (u16 20) with 20. set (raw := 0 :: 17 :: 64 :: text).
  assert (H1 : num_decode 4 raw 0 1 0 = Some (0, 1)) by done.
  assert (H2 : num_decode 4 raw 1 1 0 = Some (17, 2)) by done.
  assert (H3 : zget raw 2 = Some 64) by done.
  assert (Hr : recv_number (recv_start t) 0 = Trsmitr 0 0 0 BLE_FRAME_PKG_FIRST (tr_subpkg_num t) 0 (tr_subpkg_len t) (tr_subpkg t))
    by (unfold recv_number, recv_start; rewrite (bool_decide_true (0 = 0)) by done; by case_bool_decide).
  rewrite H1. ub_step. rewrite Hr. cbn [tr_subpkg_num tr_pkg_desc tr_version tr_seq tr_total tr_pkg_trsmitr_cnt tr_subpkg_len tr_subpkg].
  rewrite bool_decide_false by lia. do 3 (rewrite bool_decide_false by (intros [X _]; by apply X)).
  unfold ble_frame_recv_body, header_decode. cbn [tr_subpkg_num tr_total]. rewrite (bool_decide_true (0 = 0)) by done.
  rewrite H2. ub_step. rewrite (bool_decide_false (17 >= _)) by lia. rewrite H3. cbv beta iota.
  cbn [tr_subpkg_num tr_pkg_desc tr_version tr_seq tr_total tr_pkg_trsmitr_cnt tr_subpkg_len tr_subpkg].
  change (u8 (2 + 1)) with 3. change (u16 (20 - 3)) with 17. change (u32 (17 - 0)) with 17.
  rewrite (bool_decide_false (17 < 17)) by lia. pose proof (zlen_nonneg text).
  assert (Hraw : zlen raw = 20) by (unfold raw; rewrite !zlen_cons; lia).
  rewrite memcpy_mwrite by lia. change (drop (Z.to_nat 3) raw) with text. rewrite take_ge by (unfold zlen in Ht; lia).
  destruct (mwrite_is_Some (tr_subpkg t) 0 text) as [sub Hsub]; [lia|lia|]. rewrite Hsub. cbv beta iota.
  change (u32 (0 + 17)) with 17. rewrite (bool_decide_false (17 < 17)) by lia.
  rewrite bool_decide_false by (intros [X _]; by apply X).
  cbn [tr_subpkg_num tr_pkg_desc ble_frame_subpacket_len_get ble_frame_subpacket_get tr_subpkg tr_subpkg_len].
  rewrite (bool_decide_true (_ \/ _)) by (right; done). change (u32 (0 + 17)) with 17.
  rewrite bool_decide_true by (unfold TUYA_BLE_AIR_FRAME_MAX; lia).
  pose proof (mwrite_inv _ _ _ _ Hsub) as (_ & _ & Hsl & _). rewrite memcpy_mwrite by lia. rewrite drop_0.
  apply mwrite_take in Hsub. rewrite Ht in Hsub. rewrite Hsub.
  assert (Hz : mwrite zero_frame 0 text = Some (text ++ drop 17 zero_frame)).
  { rewrite mwrite_0 by (rewrite Ht; done). by rewrite Ht. }
  rewrite Hz. cbv beta iota. eexists. split; [reflexivity|]. done.
Qed.

(** ** A packet without data, in plain text *)

(** The packet that is sent, and the one that the sessions get. *)
Definition bare (ack type : Z) : ble_packet_t := Packet ack type 0 (Some []) ENCRYPTION_MODE_NONE.
Definition bare_in (sn type : Z) : ble_packet_t := Packet sn type 0 None ENCRYPTION_MODE_NONE.

(** A write of 20 bytes: the header of the subpackage, the mode, the frame and two more bytes. *)
Definition bare_write (sn ack type x y : Z) : bytes :=
  one_frame ([ENCRYPTION_MODE_NONE] ++ packet_text sn (bare ack type) ++ [x; y]).

(** The manager can receive on the handle. *)
Record listening (m : tuya_ble_mgr_t) (h : Z) : Prop := {
  li_handle : zget (char_handle (peer_info m)) 0 = Some h;
  li_sub : 17 <= zlen (tr_subpkg (pr_trsmitr (packet_recv m)));
  li_num : tr_subpkg_num (pr_trsmitr (packet_recv m)) < 0x10000000;
  li_dec : zlen (pr_dec_buf (packet_recv m)) = TUYA_BLE_AIR_FRAME_MAX;
  li_sys : zget (session m) BLE_SESSION_SYSTEM = Some (Some ble_session_system) }.

Section cipher.
Context `{Cipher}.

Lemma bare_recv p r rs ks sn ack type x y :
  17 <= zlen (tr_subpkg (pr_trsmitr r)) -> tr_subpkg_num (pr_trsmitr r) < 0x10000000 ->
  zlen (pr_dec_buf r) = TUYA_BLE_AIR_FRAME_MAX ->
  in_u 32 sn -> in_u 32 ack -> in_u 16 type -> rs < sn ->
  exists l', ble_packet_recv p (Link r rs ks) (bare_write sn ack type x y) 20 true =
    Some (OPRT_OK, l', false, Some (bare_in sn type)) /\ l_recv_sn l' = sn.
Proof.
  intros Hs Hn Hd Hsn Hack Hty Hlt. destruct r as [t rl rb dl db]. cbn [pr_trsmitr pr_dec_buf] in *.
  assert (Hp : packet_ok (bare ack type)).
  { split; [done|done|done|]. exists []. split; [done|]. split; [constructor|done]. }
  set (text := [ENCRYPTION_MODE_NONE] ++ packet_text sn (bare ack type) ++ [x; y]).
  assert (Ht : zlen text = 17) by (unfold text; by rewrite !zlen_app, packet_text_len).
  unfold ble_packet_recv, bare_write. cbn [l_recv l_recv_sn l_ks]. fold text.
  destruct (one_frame_recv t rl rb dl db text Ht Hs Hn) as (t' & -> & Hv). ub_step.
  rewrite bool_decide_false by (intros X; by apply X).
  destruct (packet_open_plain p sn (bare ack type) [x; y] (Link (PacketRecv t' 17 (text ++ drop 17 zero_frame) dl db) rs ks))
    as (l' & Ho & Hl); cbn [l_recv l_recv_sn pr_trsmitr pr_raw_len pr_raw_buf pr_dec_buf];
    change ([0] ++ packet_text sn (bare ack type) ++ [x; y]) with text; rewrite ?Hv, ?Ht; try done.
  exists l'. by rewrite Ho.
Qed.

(** The state when the sessions are called. *)
Definition received (s : ble_state) (m : tuya_ble_mgr_t) (l : ble_link) : ble_state :=
  St (client s) (statics s) (l_ks l) (s_iot_conn_stat s)
    (Some (with_sn (send_sn m) (l_recv_sn l) (with_recv (l_recv l) m))) (trace s).

Lemma write_bare w s m h sn ack type x y :
  s_ble_mgr s = Some m -> listening m h -> we_alloc w = true ->
  in_u 32 sn -> in_u 32 ack -> in_u 16 type -> recv_sn m < sn ->
  exists l, l_recv_sn l = sn /\
    ble_step (Ev_radio (TAL_BLE_EVT_WRITE_REQ h (bare_write sn ack type x y) w)) s =
    for_each [0; 1; 2; 3] (run_session w (bare_in sn type)) (received s m l).
Proof.
  intros Hm [Hh Hs Hn Hd _] Ha Hsn Hack Hty Hlt. cbn [ble_step]. unfold tal_ble_event_callback.
  destruct (bare_recv (crypto_param (client s) m) (packet_recv m) (recv_sn m) (keys s) sn ack type x y) as (l & Hl & Hlsn); [done..|].
  exists l. split; [done|]. unfold mbind at 1, prog_bind at 1, gets at 1. rewrite Hm. unfold ble_write_req.
  rewrite (bind_step _ _ _ _ _ (get_mgr_run _ _ Hm)). erewrite bind_step by reflexivity. erewrite bind_step by reflexivity.
  erewrite bind_step by (unfold lift; by rewrite Hh). rewrite bool_decide_true by done.
  erewrite bind_step.
  2:{ unfold lift. rewrite Ha. change (zlen (bare_write sn ack type x y)) with 20. by rewrite Hl. }
  cbv beta iota. do 4 (erewrite bind_step by first [by apply upd_mgr_run | reflexivity]). done.
Qed.

Definition emitted (es : list effect) (s : ble_state) : ble_state :=
  St (client s) (statics s) (keys s) (s_iot_conn_stat s) (s_ble_mgr s) (trace s ++ es).

Lemma run_system w packet s m :
  s_ble_mgr s = Some m -> zget (session m) BLE_SESSION_SYSTEM = Some (Some ble_session_system) ->
  run_session w packet BLE_SESSION_SYSTEM s =
    ble_session_system_process (we_sys w) packet (emitted [E_session BLE_SESSION_SYSTEM packet] s).
Proof.
  intros Hm Hs. unfold run_session. erewrite bind_step by (by apply get_mgr_run).
  by erewrite bind_step by (unfold lift; by rewrite Hs).
Qed.

(** One write of 20 bytes crashes the device: the query of the device information and the
    pairing request read the data of the packet without a check, and the data of a packet of
    length 0 is NULL. Nothing has to be known for it: the packet is in plain text. *)
Theorem ble_one_write_crashes w s m h sn ack type x y :
  s_ble_mgr s = Some m -> listening m h -> we_alloc w = true ->
  in_u 32 sn -> in_u 32 ack -> recv_sn m < sn -> type = FRM_QRY_DEV_INFO_REQ \/ type = FRM_PAIR_REQ ->
  zlen (bare_write sn ack type x y) = 20 /\
  ble_step (Ev_radio (TAL_BLE_EVT_WRITE_REQ h (bare_write sn ack type x y) w)) s = None.
Proof.
  intros Hm Hli Ha Hsn Hack Hlt Hty. split; [done|].
  destruct (write_bare w s m h sn ack type x y) as (l & _ & ->); [done..|by destruct Hty as [->| ->]|done|].
  cbn [for_each]. unfold mbind at 1, prog_bind at 1. change 0 with BLE_SESSION_SYSTEM at 1.
  erewrite run_system by (done || apply Hli). unfold ble_session_system_process. cbn [p_type bare_in].
  destruct Hty as [->| ->].
  - rewrite bool_decide_true by done. done.
  - rewrite bool_decide_false by done. rewrite bool_decide_true by done. done.
Qed.

(** ** Answers *)

(** Buffers and random bytes have their lengths; the radio does not answer with the code that the
    frame transmitter uses for its own loop. *)
Record resp_ok (e : resp_env) : Prop := {
  ro_frame f : re_frame e = Some f -> zlen f = TUYA_BLE_AIR_FRAME_MAX;
  ro_enc f : re_enc e = Some f -> zlen f = TUYA_BLE_AIR_FRAME_MAX;
  ro_iv : zlen (re_iv e) = 16;
  ro_send x : re_send e x <> OPRT_SVC_BT_API_TRSMITR_CONTINUE }.

Lemma resp_shape e resp s m rt s' :
  s_ble_mgr s = Some m -> ble_packet_resp e resp s = Some (rt, s') ->
  exists g ks sn sent, s' = St (client s) g ks (s_iot_conn_stat s) (Some (with_sn sn (recv_sn m) m)) (trace s ++ map E_send sent).
Proof.
  intros Hm Hr. unfold ble_packet_resp in Hr. rewrite (bind_step _ _ _ _ _ (get_mgr_run _ _ Hm)) in Hr.
  erewrite bind_step in Hr by reflexivity. erewrite bind_step in Hr by reflexivity.
  apply bind_inv in Hr as ([[[rt1 out] sn1] ks1] & s1 & Hl & Hr). apply lift_inv in Hl as [_ ->]. cbv beta iota in Hr.
  erewrite bind_step in Hr by (by apply upd_mgr_run). erewrite bind_step in Hr by reflexivity.
  destruct out as [[outbuf outlen]|]; [|injection Hr as _ <-; exists (statics s), ks1, sn1, []; cbn; by rewrite app_nil_r].
  erewrite bind_step in Hr by reflexivity. cbn [statics] in Hr. cbv zeta in Hr.
  destruct (negb (re_pbuf e)); [injection Hr as _ <-; exists (statics s), ks1, sn1, []; cbn; by rewrite app_nil_r|].
  destruct (ble_frame_trsmitr_create _ _ _) as [t|];
    [|injection Hr as _ <-; exists (statics s), ks1, sn1, []; cbn; by rewrite app_nil_r].
  apply bind_inv in Hr as ([[rt2 g2] sent] & s1 & Hl & Hr). apply lift_inv in Hl as [_ ->]. injection Hr as _ <-.
  by exists g2, ks1, sn1, sent.
Qed.

(** A packet in plain text is written out as it is. *)
Lemma encode_plain p ks sn packet f enc iv :
  packet_ok packet -> p_mode packet = ENCRYPTION_MODE_NONE -> zlen iv = 16 ->
  zlen f = TUYA_BLE_AIR_FRAME_MAX -> zlen enc = TUYA_BLE_AIR_FRAME_MAX -> p_len packet <= 900 ->
  exists enc', ble_packet_encode p ks sn packet (Some f) (Some enc) iv =
      Some (OPRT_OK, Some (enc', 31 + p_len packet), u32 (sn + 1), ks) /\ zlen enc' = TUYA_BLE_AIR_FRAME_MAX.
Proof.
  intros Hp Hm Hiv Hf He Hn. pose proof (po_len _ Hp) as Hn0. unfold TUYA_BLE_AIR_FRAME_MAX in *.
  destruct (packet_frame_ok sn packet f Hp) as (f3 & Hf3 & Hl3 & _); [done|unfold TUYA_BLE_AIR_FRAME_MAX; lia|].
  unfold ble_packet_encode. rewrite Hf3. ub_step. unfold BLE_PACKET_DATA_IND.
  destruct (zset_is_Some enc 0 (p_mode packet)) as [e1 He1]; [lia|]. rewrite He1.
  apply zset_inv in He1 as (_ & Hle1 & _).
  set (pad := if bool_decide (_ `mod` 16 <> 0) then _ else _).
  assert (Hpad : 17 <= pad <= 33).
  { unfold pad. pose proof (Z.mod_pos_bound (12 + p_len packet + 2) 16 ltac:(lia)). case_bool_decide; lia. }
  rewrite bool_decide_false by (unfold TUYA_BLE_AIR_FRAME_MAX; lia).
  destruct (memcpy_ok e1 1 iv 0 16) as (e2 & He2 & Hle2 & _); [lia..|]. rewrite He2. cbv beta iota.
  unfold tuya_ble_encryption. rewrite Hm. rewrite bool_decide_false by (intros X; by apply X). rewrite (bool_decide_true (_ = _)) by done.
  destruct (memcpy_ok e2 17 f3 0 (12 + p_len packet + 2)) as (e3 & He3 & Hle3 & _); [lia..|].
  rewrite He3. ub_step. rewrite bool_decide_true by done. exists e3.
  replace (12 + p_len packet + 2 + 17) with (31 + p_len packet) by lia. split; [done|lia].
Qed.

Lemma resp_plain_defined e resp s m :
  s_ble_mgr s = Some m -> resp_ok e -> 6 <= ble_frame_packet_len_get (statics s) < 2 ^ 16 ->
  packet_ok resp -> p_mode resp = ENCRYPTION_MODE_NONE -> p_len resp <= 900 ->
  exists rt s', ble_packet_resp e resp s = Some (rt, s').
Proof.
  intros Hm [Hf He Hiv Hs] HL Hp Hmode Hn. pose proof (po_len _ Hp) as Hn0. unfold ble_packet_resp.
  rewrite (bind_step _ _ _ _ _ (get_mgr_run _ _ Hm)). erewrite bind_step by reflexivity. erewrite bind_step by reflexivity.
  destruct (re_frame e) as [f|]; [destruct (re_enc e) as [enc|]|].
  2,3: erewrite bind_step by reflexivity; cbv beta iota; erewrite bind_step by (by apply upd_mgr_run); by eexists _, _.
  destruct (encode_plain (crypto_param (client s) m) (keys s) (send_sn m) resp f enc (re_iv e)) as (enc' & Henc & Hlen); [by auto..|].
  erewrite bind_step by (unfold lift; by rewrite Henc). cbv beta iota. erewrite bind_step by (by apply upd_mgr_run).
  erewrite bind_step by reflexivity. erewrite bind_step by reflexivity. cbn [statics]. cbv zeta.
  destruct (negb (re_pbuf e)); [by eexists _, _|]. unfold ble_frame_trsmitr_create.
  destruct (re_create1 e && re_create2 e); [|by eexists _, _]. set (L := ble_frame_packet_len_get (statics s)) in *.
  assert (Hz : zlen (replicate (Z.to_nat L) 0) = L) by (unfold zlen; rewrite length_replicate; lia).
  erewrite bind_step; [|unfold lift; rewrite (resp_loop_first _ (re_send e)); [reflexivity|..]; fold L; unfold TUYA_BLE_AIR_FRAME_MAX in *; auto; lia].
  cbv beta iota. by eexists _, _.
Qed.

(** ** The reset *)

Lemma emitted_app es es' s : emitted es' (emitted es s) = emitted (es ++ es') s.
Proof. unfold emitted. cbn. by rewrite app_assoc. Qed.

Lemma send_each_unpaired e k l s m :
  s_ble_mgr s = Some m -> is_paired m = false -> send_each e k l s = Some (tt, s).
Proof.
  intros Hm Hp. revert k. induction l as [|[[[ty sn] d] n] l IH]; intros k; [done|]. cbn [send_each].
  erewrite bind_step; [apply IH|]. unfold tuya_ble_send, tuya_ble_send_packet.
  rewrite (bind_step _ _ _ _ _ (get_mgr_run _ _ Hm)). erewrite bind_step by reflexivity. by rewrite Hp.
Qed.

Lemma run_other w packet i s m o :
  s_ble_mgr s = Some m -> is_paired m = false -> zget (session m) i = Some o -> o <> Some ble_session_system ->
  exists es, run_session w packet i s = Some (tt, emitted es s).
Proof.
  intros Hm Hp Hi Ho. unfold run_session. rewrite (bind_step _ _ _ _ _ (get_mgr_run _ _ Hm)).
  erewrite bind_step by (unfold lift; by rewrite Hi). destruct o as [[|k]|]; [done| |].
  - exists [E_session i packet]. cbv beta iota. erewrite bind_step by reflexivity. by eapply send_each_unpaired.
  - exists []. cbv beta iota. unfold emitted. rewrite app_nil_r. by destruct s.
Qed.

(** The unbinding request, answered in plain text. *)
Lemma unbind_run e req s m :
  s_ble_mgr s = Some m -> resp_ok (e 0%nat) -> 6 <= ble_frame_packet_len_get (statics s) < 2 ^ 16 ->
  in_u 32 (p_sn req) -> in_u 16 (p_type req) -> p_mode req = ENCRYPTION_MODE_NONE ->
  exists s' m' sent, ble_unbind_req e req s = Some (OPRT_OK, s') /\ s_ble_mgr s' = Some m' /\
    is_paired m' = is_paired m /\ session m' = session m /\ is_activated (client s') = false /\
    trace s' = trace s ++ map E_send sent ++ [E_iot_reset; E_disconnect (peer_info m)].
Proof.
  intros Hm He HL Hsn Hty Hmode. unfold ble_unbind_req.
  destruct (resp_plain_defined (e 0%nat) (answer req 1) s m) as (rt & s1 & Hr); [done|done|done| |done|done|].
  { split; [done|done|done|]. exists [1]. split; [done|]. split; [by repeat constructor|done]. }
  rewrite (bind_step _ _ _ _ _ Hr). apply (resp_shape _ _ _ _ _ _ Hm) in Hr as (g & ks & sn & sent & ->).
  do 3 erewrite bind_step by reflexivity. unfold tal_ble_disconnect.
  erewrite bind_step by (erewrite bind_step by (by apply get_mgr_run); reflexivity).
  eexists _, _, sent. split; [reflexivity|]. cbn. split_and!; try done. by rewrite <- !app_assoc.
Qed.

(** C40. One write of 20 bytes resets the device: from a peer that is connected but not paired, in
    plain text and without any key, an unbinding or reset request removes the device from its
    account: the client is reset and no longer activated, and the peer is disconnected. *)
Theorem ble_one_write_resets w s m h sn ack type x y o1 o2 o3 :
  s_ble_mgr s = Some m -> listening m h -> is_paired m = false ->
  session m = [Some ble_session_system; o1; o2; o3] -> Forall (fun o => o <> Some ble_session_system) [o1; o2; o3] ->
  we_alloc w = true -> resp_ok (se_resp (we_sys w) 0%nat) -> 6 <= ble_frame_packet_len_get (statics s) < 2 ^ 16 ->
  in_u 32 sn -> in_u 32 ack -> recv_sn m < sn -> type = FRM_UNBONDING_REQ \/ type = FRM_DEVICE_RESET ->
  exists s' tr1 tr2, ble_step (Ev_radio (TAL_BLE_EVT_WRITE_REQ h (bare_write sn ack type x y) w)) s = Some (tt, s') /\
    is_activated (client s') = false /\
    trace s' = trace s ++ tr1 ++ [E_iot_reset; E_disconnect (peer_info m)] ++ tr2.
Proof.
  intros Hm Hli Hp Hses Hall Ha He HL Hsn Hack Hlt Hty.
  destruct (write_bare w s m h sn ack type x y) as (l & Hl & ->); [done..|by destruct Hty as [->| ->]|done|].
  cbn [for_each]. change 0 with BLE_SESSION_SYSTEM at 1. set (s0 := received s m l).
  destruct (unbind_run (se_resp (we_sys w)) (bare_in sn type) (emitted [E_session BLE_SESSION_SYSTEM (bare_in sn type)] s0)
    (with_sn (send_sn m) (l_recv_sn l) (with_recv (l_recv l) m))) as (s1 & m1 & sent & Hu & Hm1 & Hp1 & Hs1 & Hact & Ht);
    [done|done|done|done|by destruct Hty as [->| ->]|done|]. cbn in Hp1, Hs1, Ht.
  assert (Hor : bool_decide (type = FRM_UNBONDING_REQ) || bool_decide (type = FRM_DEVICE_RESET) = true)
    by (by destruct Hty as [->| ->]).
  assert (Hrun : run_session w (bare_in sn type) BLE_SESSION_SYSTEM s0 = Some (tt, s1)).
  { erewrite run_system by (done || apply Hli). unfold ble_session_system_process. cbn [p_type bare_in].
    rewrite !(bool_decide_false (type = _)) in * by (by destruct Hty as [->| ->]).
    rewrite Hor. by erewrite bind_step by exact Hu. }
  rewrite (bind_step _ _ _ _ _ Hrun). inversion_clear Hall as [|? ? Ho1 Hall1]. inversion_clear Hall1 as [|? ? Ho2 Hall2].
  inversion_clear Hall2 as [|? ? Ho3 _]. rewrite Hses in Hs1.
  destruct (run_other w (bare_in sn type) 1 s1 m1 o1) as [e1 H1]; [done|congruence|by rewrite Hs1|done|].
  destruct (run_other w (bare_in sn type) 2 (emitted e1 s1) m1 o2) as [e2 H2]; [done|congruence|by rewrite Hs1|done|].
  destruct (run_other w (bare_in sn type) 3 (emitted e2 (emitted e1 s1)) m1 o3) as [e3 H3]; [done|congruence|by rewrite Hs1|done|].
  rewrite (bind_step _ _ _ _ _ H1), (bind_step _ _ _ _ _ H2), (bind_step _ _ _ _ _ H3).
  eexists _, (_ :: map E_send sent), (e1 ++ e2 ++ e3). split; [reflexivity|]. rewrite !emitted_app. split; [done|].
  cbn [emitted trace]. rewrite Ht, <- !app_assoc. done.
Qed.
End cipher.

(** ** Packets of earlier connections *)

(** The same device: the stored keys and the identifier, not the random numbers of a connection. *)
Definition same_device (p p' : ble_crypto_param_t) : Prop :=
  auth_key p' = auth_key p /\ login_key p' = login_key p /\ sec_key p' = sec_key p /\ uuid p' = uuid p.

(** The modes whose key has no random number of the connection. *)
Definition static_mode (mode : Z) : Prop :=
  mode = ENCRYPTION_MODE_NONE \/ mode = ENCRYPTION_MODE_KEY_11 \/ mode = ENCRYPTION_MODE_KEY_14 \/ mode = ENCRYPTION_MODE_KEY_16.

Section cipher.
Context `{Cipher}.

Lemma key_generate_static p p' ks ks' mode r :
  same_device p p' -> static_mode mode -> (mode <> ENCRYPTION_MODE_KEY_14 -> service_rand ks' = service_rand ks) ->
  ble_key_generate p ks mode = Some r -> exists ks2, ble_key_generate p' ks' mode = Some (fst (fst r), snd (fst r), ks2).
Proof.
  intros (Ha & Hl & Hs & Hu) Hm Hks Hg. unfold ble_key_generate in *.
  assert (Hparts : mode <> ENCRYPTION_MODE_NONE -> key_parts p' ks' mode = key_parts p ks mode).
  { intros Hn. unfold key_parts. rewrite Ha, Hl, Hs, Hu. destruct Hm as [->|[->|[->| ->]]]; [done|by rewrite Hks|done|by rewrite Hks]. }
  destruct (bool_decide (mode >= ENCRYPTION_MODE_MAX)); [injection Hg as <-; by eexists|].
  destruct (bool_decide_reflect (mode = ENCRYPTION_MODE_NONE)) as [|Hn]; [injection Hg as <-; by eexists|].
  rewrite Ha, Hu, (Hparts Hn). unfold mbind, option_bind in *.
  destruct (memcpy _ 0 (auth_key p) 0 AUTH_KEY_LEN); [|done].
  destruct (if bool_decide (mode = ENCRYPTION_MODE_KEY_16) then _ else _); [|done].
  destruct (key_fill _ 0 (key_parts p ks mode)) as [[b len]|]; [|done].
  destruct (bool_decide (len = 0)); injection Hg as <-; by eexists.
Qed.

Lemma decryption_static p p' ks ks' b n ol out code dl d ks1 mode :
  same_device p p' -> zget b 0 = Some mode -> static_mode mode ->
  tuya_ble_decryption p ks b n ol out = Some (code, dl, d, ks1) ->
  exists ks2, tuya_ble_decryption p' ks' b n ol out = Some (code, dl, d, ks2).
Proof.
  intros Hd Hz Hm Hr. unfold tuya_ble_decryption in *. rewrite Hz in *. unfold mbind, option_bind in *.
  destruct (bool_decide (n < 17)); [injection Hr as <- <- <- _; by eexists|].
  destruct (bool_decide (mode >= ENCRYPTION_MODE_MAX)); [injection Hr as <- <- <- _; by eexists|].
  destruct (bool_decide_reflect (mode = ENCRYPTION_MODE_NONE)) as [|Hn].
  { destruct (memcpy out 0 b 1 _); [|done]. injection Hr as <- <- <- _. by eexists. }
  destruct (mread b 1 16) as [iv|]; [|done].
  set (k1 := if bool_decide (mode = ENCRYPTION_MODE_KEY_11) || _ then KeyStatics iv (key_out_key11 ks) else ks) in *.
  set (k2 := if bool_decide (mode = ENCRYPTION_MODE_KEY_11) || _ then KeyStatics iv (key_out_key11 ks') else ks').
  destruct (ble_key_generate p k1 mode) as [[[ok key] k3]|] eqn:Hg; [|done].
  assert (Hks : mode <> ENCRYPTION_MODE_KEY_14 -> service_rand k2 = service_rand k1)
    by (intros H14; unfold k1, k2; destruct Hm as [->|[->|[->| ->]]]; done).
  destruct (key_generate_static p p' k1 k2 mode _ Hd Hm Hks Hg) as [k4 Hg'].
  rewrite Hg'. cbn [fst snd]. destruct ok; [|injection Hr as <- <- <- _; by eexists].
  destruct (tal_aes128_cbc_decode_raw _ _ _ _ _ _ _) as [r|]; [|done]. injection Hr as <- <- <- _. by eexists.
Qed.

Lemma parse_again dec mode n1 n2 sn x :
  packet_parse dec mode n1 true = Some (OPRT_OK, sn, false, Some x) -> n2 < p_sn x ->
  packet_parse dec mode n2 true = Some (OPRT_OK, sn, false, Some x).
Proof.
  intros Hr Hlt. pose proof (packet_parse_sn _ _ _ _ _ _ _ _ Hr) as [_ Hx]. destruct (Hx x eq_refl) as [Hsn _].
  unfold packet_parse, mbind, option_bind in *.
  destruct (get16 dec BLE_PACKET_DLEN_IND) as [n|]; [|done].
  destruct (bool_decide (n + _ > _)); [done|]. destruct (get16 dec _); [|done]. destruct (get_crc_16 dec _); [|done].
  destruct (bool_decide (_ <> _)); [done|]. destruct (get32 dec BLE_PACKET_SN_IND) as [sn0|]; [|done].
  destruct (bool_decide (sn0 <= n1)); [done|].
  assert (sn0 = sn) as ->.
  { destruct (get16 dec BLE_PACKET_CMD_IND); [|done]. destruct (bool_decide (0 <> n)); [destruct (mread dec _ n); [|done]|]; congruence. }
  by rewrite bool_decide_false by lia.
Qed.

Lemma open_again p p' l l' l1 x :
  packet_open p l true = Some (OPRT_OK, l1, false, Some x) -> static_mode (p_mode x) -> same_device p p' ->
  l_recv l' = l_recv l -> l_recv_sn l' < p_sn x ->
  exists l2, packet_open p' l' true = Some (OPRT_OK, l2, false, Some x).
Proof.
  intros Hr Hm Hd Hl Hlt. unfold packet_open, mbind, option_bind in *. rewrite Hl.
  destruct (bool_decide (pr_raw_len (l_recv l) > _)); [done|]. destruct (bool_decide (tr_version _ < 2)); [done|].
  destruct (tuya_ble_decryption p _ _ _ _ _) as [[[[code dl] dec] ks]|] eqn:Hdec; [|done].
  destruct (bool_decide_reflect (code <> 0)) as [|Hc]; [done|]. cbn [pr_raw_buf] in *.
  destruct (zget (pr_raw_buf (l_recv l)) 0) as [mode|] eqn:Hz; [|done].
  destruct (packet_parse dec mode (l_recv_sn l) true) as [[[[rt sn] b] px]|] eqn:Hp; [|done].
  injection Hr as -> _ -> ->.
  assert (Hmode : p_mode x = mode).
  { clear -Hp. unfold packet_parse, mbind, option_bind in Hp.
    repeat match type of Hp with context [match ?e with _ => _ end] => destruct e; try done end; by injection Hp as _ <-. }
  rewrite Hmode in Hm.
  destruct (decryption_static p p' (l_ks l) (l_ks l') _ _ _ _ _ _ _ _ mode Hd Hz Hm Hdec) as [ks2 ->].
  rewrite bool_decide_false by done. cbn [pr_raw_buf]. rewrite (parse_again _ _ _ _ _ _ Hp) by done. by eexists.
Qed.

(** A recorded packet is accepted again in a later connection: a packet of the peer that was
    delivered once, encrypted with a key of the device (or not at all), is delivered again to the
    manager after any new connection, because the serial numbers start again at 0 and the key does
    not depend on the connection; only the modes with the random number of the pairing are safe. *)
Theorem ble_replay_after_reconnect p l l1 x peer s s' m :
  packet_open p l true = Some (OPRT_OK, l1, false, Some x) -> static_mode (p_mode x) -> 0 < p_sn x ->
  s_ble_mgr s = Some m -> same_device p (crypto_param (client s) m) ->
  ble_step (Ev_radio (TAL_BLE_EVT_PERIPHERAL_CONNECT 0 peer)) s = Some (tt, s') ->
  exists m' l2, s_ble_mgr s' = Some m' /\
    packet_open (crypto_param (client s') m') (Link (l_recv l) (recv_sn m') (keys s')) true =
      Some (OPRT_OK, l2, false, Some x).
Proof.
  intros Ho Hm Hsn Hs Hd Hc. destruct (connect_watched _ _ _ Hc m Hs) as (m' & Hm' & _ & _ & Hz & _ & _ & Hcl & Hid).
  edestruct (open_again p (crypto_param (client s') m') l (Link (l_recv l) (recv_sn m') (keys s')) l1 x)
    as [l2 Hl2]; [done|done| |done|cbn; lia|by exists m', l2].
  unfold same_device, crypto_param in *. cbn in *. by rewrite Hcl, Hid.
Qed.
End cipher.

(** ** What the device sends *)

(** The mode that [tuya_ble_send_packet] chooses. *)
Definition send_mode (type : Z) (bound : bool) : Z :=
  if bool_decide (FRM_QRY_DEV_INFO_REQ = type) then if bound then ENCRYPTION_MODE_KEY_14 else ENCRYPTION_MODE_KEY_11
  else if bound then ENCRYPTION_MODE_SESSION_KEY15 else ENCRYPTION_MODE_KEY_12.

Section laws.
Context `{CL : CipherLaws}.

(** C37. What the application sends never leaves the device in plain text: an unpaired connection gets
    nothing; to a paired one the radio is given the first subpackage of a message with the mode of
    the binding state, whose text decrypts under the key of that mode to the frame with the data. *)
Theorem ble_send_encrypted e type sn data len f enc s m :
  let mode := send_mode type (is_activated (client s)) in
  let p := crypto_param (client s) m in
  let packet := Packet sn type len (Some data) mode in
  let L := ble_frame_packet_len_get (statics s) in
  let n := 17 + padded (14 + len) in
  let vs := version_seq_byte TUYA_BLE_PROTOCOL_VERSION_HIGN (fst (ble_frame_seq_get (statics s))) in
  s_ble_mgr s = Some m -> resp_ok e -> re_frame e = Some f -> re_enc e = Some enc ->
  re_pbuf e = true -> re_create1 e = true -> re_create2 e = true ->
  usable p (keys s) -> in_u 32 sn -> in_u 16 type -> bytes_ok data -> 0 <= len <= zlen data ->
  n <= TUYA_BLE_AIR_FRAME_MAX -> 6 <= L < 2 ^ 16 ->
  if is_paired m then
    exists rt s' out c d, tuya_ble_send e type sn (Some data) len s = Some (rt, s') /\
      trace s' = trace s ++ [E_send (frame L out n vs 0 0)] /\ keyed mode /\
      take (Z.to_nat n) out = [mode] ++ re_iv e ++ c /\
      aes_cbc false (key_of p (keys s) mode) (re_iv e) c = Some d /\
      take (Z.to_nat (14 + len)) d = packet_text (send_sn m) packet
  else tuya_ble_send e type sn (Some data) len s = Some (OPRT_OK, s).
Proof.
  intros mode p packet L n vs Hm He Hf Henc Hpb Hc1 Hc2 Hu Hsn Hty Hdata Hlen Hn HL.
  assert (Hlen16 : u16 len = len).
  { apply wrap_small. pose proof (padded_range (14 + len) ltac:(lia)). unfold n, TUYA_BLE_AIR_FRAME_MAX in Hn. unfold in_u. lia. }
  unfold tuya_ble_send, tuya_ble_send_packet. rewrite (bind_step _ _ _ _ _ (get_mgr_run _ _ Hm)). erewrite bind_step by reflexivity.
  rewrite Hlen16. cbn [p_sn p_type p_len p_data]. destruct (is_paired m); [|done]. cbn [negb].
  change (ble_packet_resp e _) with (ble_packet_resp e packet).
  assert (Hk : keyed mode).
  { unfold mode, send_mode, keyed. destruct (is_activated (client s)); case_bool_decide; auto. }
  assert (Hp : packet_ok packet) by (split; [done|done|cbn; lia|exists data; cbn; split; [done|split; [done|lia]]]).
  unfold ble_packet_resp. rewrite (bind_step _ _ _ _ _ (get_mgr_run _ _ Hm)). do 2 erewrite bind_step by reflexivity.
  destruct (encode_ok p (keys s) (send_sn m) packet f enc (re_iv e)) as (out & c & d & ks' & Ho & Hlo & Ht & Hlc & Hld & Hdec & Htk);
    [done|done|done|by apply ro_iv|by eapply ro_frame|by eapply ro_enc|done|].
  cbn [p_len p_mode packet] in Ho, Ht, Hdec, Htk. fold n in Ho, Ht.
  erewrite bind_step by (unfold lift; rewrite Hf, Henc; fold p; by rewrite Ho). cbv beta iota.
  erewrite bind_step by (by apply upd_mgr_run). do 2 erewrite bind_step by reflexivity. cbn [statics]. fold L. cbv zeta.
  rewrite Hpb, Hc1, Hc2. cbn [negb ble_frame_trsmitr_create andb].
  assert (Hz : zlen (replicate (Z.to_nat L) 0) = L) by (unfold zlen; rewrite length_replicate; lia).
  erewrite bind_step.
  2:{ unfold lift. rewrite (resp_loop_first _ (re_send e)); [reflexivity|..]; fold L; try done; [|rewrite Hlo; unfold n in *; lia|by apply ro_send].
      unfold n, TUYA_BLE_AIR_FRAME_MAX in *. pose proof (padded_range (14 + len) ltac:(lia)). lia. }
  cbv beta iota. eexists _, _, out, c, d. split; [reflexivity|]. done.
Qed.
End laws.

(** ** Start and end *)

(** Everything that can fail in [tuya_ble_init] works. *)
Definition init_works (e : init_env) : bool :=
  ie_mgr e && ie_recv e && ie_tr1 e && ie_tr2 e && 
  (bool_decide (OPRT_OK = ie_pair_timer e) && bool_decide (OPRT_OK = ie_monitor_timer e) &&
   bool_decide (OPRT_OK = ie_start e) && bool_decide (OPRT_OK = ie_bt e)).

(** The manager after a start. *)
Definition started (name i : bytes) (comp : bool) (e : init_env) (g : ble_statics) (t : ble_frame_trsmitr) : tuya_ble_mgr_t :=
  Mgr name i comp (Some false) (Some true) (replicate 6 0) false peer_zero 0 (replicate 31 0) 0 (replicate 31 0) 0 0
    (PacketRecv t (ie_raw_len e) (ie_raw_buf e) (ie_dec_len e) (ie_dec_buf e))
    [Some ble_session_system; Some (ble_session_other BLE_SESSION_DP); Some (ble_session_other BLE_SESSION_CHANNEL); None].

Section cipher.
Context `{Cipher}.

Lemma session_add_run type fn s m l :
  s_ble_mgr s = Some m -> type < BLE_SESSION_MAX -> zset (session m) type fn = Some l ->
  tuya_ble_session_add type fn s =
    Some (OPRT_OK, St (client s) (statics s) (keys s) (s_iot_conn_stat s) (Some (with_session l m)) (trace s)).
Proof.
  intros Hm Ht Hl. unfold tuya_ble_session_add. rewrite (bind_step _ _ _ _ _ (get_mgr_run _ _ Hm)).
  rewrite bool_decide_true by done. erewrite bind_step by (unfold lift; by rewrite Hl).
  by erewrite bind_step by (by apply upd_mgr_run).
Qed.

Lemma deinit_run s m :
  s_ble_mgr s = Some m -> zlen (session m) = BLE_SESSION_MAX ->
  tuya_ble_deinit s =
    Some (OPRT_OK, St (client s) (statics s) (keys s) (s_iot_conn_stat s) None (trace s ++ [E_bt_deinit])).
Proof.
  intros Hm Hl. unfold BLE_SESSION_MAX in Hl. unfold tuya_ble_deinit. unfold mbind at 1, prog_bind at 1, gets at 1. rewrite Hm.
  erewrite bind_step by (by apply upd_mgr_run). unfold tuya_ble_session_del.
  destruct (zset_is_Some (session m) 0 None) as [l1 H1]; [lia|]. pose proof (zset_inv _ _ _ _ H1) as (_ & Hl1 & _).
  destruct (zset_is_Some l1 2 None) as [l2 H2]; [lia|]. pose proof (zset_inv _ _ _ _ H2) as (_ & Hl2 & _).
  destruct (zset_is_Some l2 1 None) as [l3 H3]; [lia|].
  erewrite bind_step by (by apply session_add_run). erewrite bind_step by (by apply session_add_run).
  by erewrite bind_step by (by apply session_add_run).
Qed.

Definition calls_work (e : init_env) : bool :=
  bool_decide (OPRT_OK = ie_pair_timer e) && bool_decide (OPRT_OK = ie_monitor_timer e) &&
  bool_decide (OPRT_OK = ie_start e) && bool_decide (OPRT_OK = ie_bt e).

Lemma init_rest_run e s m :
  s_ble_mgr s = Some m -> session m = replicate 4 None ->
  exists rt m1 tr, init_rest e s =
      Some (rt, St (client s) (statics s) (keys s) (s_iot_conn_stat s) (Some m1) (trace s ++ tr)) /\
    zlen (session m1) = BLE_SESSION_MAX /\ (rt = OPRT_OK <-> calls_work e = true) /\
    (rt = OPRT_OK -> tr = [E_bt_init] /\ m1 = with_session
       [Some ble_session_system; Some (ble_session_other BLE_SESSION_DP); Some (ble_session_other BLE_SESSION_CHANNEL); None]
       (with_timers (Some false) (Some true) m)).
Proof.
  intros Hm Hs. unfold init_rest, calls_work.
  destruct (bool_decide_reflect (OPRT_OK <> ie_pair_timer e)) as [Hn|Hp].
  { rewrite (bool_decide_false (OPRT_OK = ie_pair_timer e)) by done. exists (ie_pair_timer e), m, [].
    rewrite app_nil_r, Hs. destruct s; cbn in *. rewrite Hm. split_and!; try done; by intros X; rewrite X in Hn. }
  rewrite (bool_decide_true (OPRT_OK = ie_pair_timer e)) by (destruct (decide (OPRT_OK = ie_pair_timer e)); tauto). cbn [andb].
  erewrite bind_step by (by apply upd_mgr_run).
  destruct (bool_decide_reflect (OPRT_OK <> ie_monitor_timer e)) as [Hn|Hp2].
  { rewrite (bool_decide_false (OPRT_OK = ie_monitor_timer e)) by done. eexists _, _, [].
    rewrite app_nil_r. split; [reflexivity|]. cbn. rewrite Hs. split_and!; try done; by intros X; rewrite X in Hn. }
  rewrite (bool_decide_true (OPRT_OK = ie_monitor_timer e)) by (destruct (decide (OPRT_OK = ie_monitor_timer e)); tauto). cbn [andb].
  erewrite bind_step by (by apply upd_mgr_run).
  destruct (bool_decide_reflect (OPRT_OK <> ie_start e)) as [Hn|Hp3].
  { rewrite (bool_decide_false (OPRT_OK = ie_start e)) by done. eexists _, _, [].
    rewrite app_nil_r. split; [reflexivity|]. cbn. rewrite Hs. split_and!; try done; by intros X; rewrite X in Hn. }
  rewrite (bool_decide_true (OPRT_OK = ie_start e)) by (destruct (decide (OPRT_OK = ie_start e)); tauto). cbn [andb].
  erewrite bind_step by (by apply upd_mgr_run).
  erewrite bind_step by (eapply session_add_run; [reflexivity|done|cbn; rewrite Hs; reflexivity]).
  erewrite bind_step by (eapply session_add_run; [reflexivity|done|reflexivity]).
  erewrite bind_step by (eapply session_add_run; [reflexivity|done|reflexivity]).
  erewrite bind_step by reflexivity. eexists _, _, [E_bt_init]. split; [reflexivity|]. cbn.
  split; [done|]. split; [rewrite bool_decide_eq_true; split; by intros ->|]. done.
Qed.

(** The start of the manager: it answers OPRT_OK exactly when every allocation and every call
    works, and then there is an unpaired manager with the three sessions, its pair timer stopped and
    its monitor timer running; in every other case nothing is left: the manager is NULL as before. *)
Theorem ble_init_all_or_nothing e name i comp s :
  s_ble_mgr s = None -> mgr_id e (c_uuid (client s)) = Some (i, comp) ->
  exists rt s', tuya_ble_init e (Some name) true s = Some (rt, s') /\
    (rt = OPRT_OK <-> init_works e = true) /\ client s' = client s /\
    (rt = OPRT_OK -> exists t, ble_frame_trsmitr_create (statics s) true true = Some t /\
       s_ble_mgr s' = Some (started name i comp e (statics s) t) /\ trace s' = trace s ++ [E_bt_init]) /\
    (rt <> OPRT_OK -> s_ble_mgr s' = None).
Proof.
  intros Hs Hi. unfold tuya_ble_init, init_works. cbn [negb]. unfold mbind at 1, prog_bind at 1, gets at 1. rewrite Hs.
  destruct (ie_mgr e); [|by eexists _, _]. destruct (ie_recv e); [|by eexists _, _]. cbn [negb].
  erewrite bind_step by reflexivity. unfold ble_frame_trsmitr_create.
  destruct (ie_tr1 e); [|by eexists _, _]. destruct (ie_tr2 e); [|by eexists _, _]. cbn [andb].
  erewrite bind_step by reflexivity. erewrite bind_step by (unfold lift; by rewrite Hi). cbn [fst snd].
  erewrite bind_step by reflexivity. fold (calls_work e).
  match goal with |- context [(init_rest e ≫= _) ?st] =>
    destruct (init_rest_run e st _ eq_refl eq_refl) as (rt & m1 & tr & Hr & Hl & Hrt & Hok) end.
  rewrite (bind_step _ _ _ _ _ Hr). destruct (bool_decide_reflect (OPRT_OK <> rt)) as [Hn|Hn].
  - erewrite bind_step by (by erewrite bind_step by (by eapply deinit_run)). eexists _, _. split; [reflexivity|].
    split; [done|]. split; [done|]. split; [by intros ->|done].
  - assert (Heq : rt = OPRT_OK) by (destruct (decide (OPRT_OK = rt)); [done|tauto]).
    erewrite bind_step by reflexivity. eexists _, _. split; [reflexivity|]. split; [done|]. split; [done|].
    split; [|done]. intros _. destruct (Hok Heq) as [-> ->]. by eexists.
Qed.
End cipher.

(** ** The length of a subpackage that the peer chooses *)

Lemma mwrite_len {A} (l r : list A) off src : mwrite l off src = Some r -> zlen r = zlen l.
Proof. by intros (_ & _ & Hl & _)%mwrite_inv. Qed.

(** A subpackage of less than 4 bytes has no room for its own header. *)
Lemma resp_loop_small fuel send g t pbuf outbuf outlen :
  tr_pkg_desc t = BLE_FRAME_PKG_INIT -> zlen (tr_subpkg t) < 4 -> 128 <= outlen < 0x10000000 ->
  ble_packet_resp_loop (S fuel) send g t pbuf outbuf outlen [] = None.
Proof.
  intros Hd Hs Ho. cbn [ble_packet_resp_loop]. unfold ble_frame_trsmitr_send_pkg_encode. rewrite bool_decide_true by done.
  destruct (ble_frame_seq_get g) as [seq g1]. unfold send_pkg_core. cbn [tr_subpkg_num]. rewrite bool_decide_false by lia.
  assert (Hh : forall t', tr_subpkg t' = tr_subpkg t -> tr_subpkg_num t' = 0 -> header_encode t' outlen = None).
  { intros t' Ht' Hn'. unfold header_encode. rewrite Ht', Hn'. cbn [num_encode]. change (0 `mod` 128) with 0. change (0 `div` 128) with 0.
    rewrite (bool_decide_true (0 = 0)) by done. set (d0 := if bool_decide (0 <> 0) then _ else _).
    destruct (zset (tr_subpkg t) 0 d0) as [s1|] eqn:H1; [|done]. apply zset_inv in H1 as (_ & Hl1 & _). ub_step. cbn [num_encode].
    change (u8 (u8 (0 + 1) + 1)) with 2. change (u8 (0 + 1)) with 1.
    assert (Hq : 1 <= outlen `div` 128) by (apply Z.div_le_lower_bound; lia).
    rewrite (bool_decide_true (outlen `div` 128 <> 0)), (bool_decide_false (outlen `div` 128 = 0)) by lia.
    destruct (zset s1 1 _) as [s2|] eqn:H2; [|done]. apply zset_inv in H2 as (_ & Hl2 & _). ub_step.
    destruct (zset s2 2 _) as [s3|] eqn:H3; [|done]. apply zset_inv in H3 as (_ & Hl3 & _).
    change (u8 (2 + 1)) with 3. change (u8 (3 + 1)) with 4.
    assert (Hz : forall (b : bytes) k x, zlen b < 4 -> 3 <= k -> zset b k x = None).
    { intros b k x Hb Hk. unfold zset. rewrite bool_decide_false by lia. done. }
    destruct (bool_decide (outlen `div` 128 `div` 128 = 0)); [by rewrite Hz by lia|]. by rewrite Hz by lia. }
  by rewrite Hh.
Qed.

Section laws.
Context `{CL : CipherLaws}.

(** The information of the device takes 121 of the 128 bytes. *)
Lemma dev_info_ok c ks rand :
  zlen rand = 6 -> zlen (service_rand ks) = 16 -> 16 <= zlen (authkey c) ->
  exists pbuf, dev_info_fill c ks rand (replicate 128 0) = Some (121, pbuf) /\ zlen pbuf = 128.
Proof.
  intros Hr Hs Ha. unfold dev_info_fill, tuya_ble_register_key_generate, tal_aes128_ecb_encode_raw.
  set (b0 := replicate 128 0). assert (Hb0 : zlen b0 = 128) by done.
  destruct (mwrite_is_Some b0 0 [0; 0; TUYA_BLE_PROTOCOL_VERSION_HIGN; TUYA_BLE_PROTOCOL_VERSION_LOW;
    Z.lor (Z.shiftl 1 0) (Z.shiftl 1 2); if is_activated c then 1 else 0]) as [b1 H1]; [lia|done|]. rewrite H1. ub_step.
  apply mwrite_len in H1. destruct (memcpy_ok b1 6 rand 0 6) as (b2 & -> & H2 & _); [lia..|].
  rewrite (mread_Some (authkey c)) by lia. rewrite (mread_Some (service_rand ks)) by lia. cbv beta iota.
  match goal with |- context [aes_ecb ?k ?d] => destruct (aes_ecb_len k d) as (e & He & Hel) end;
    [rewrite zlen_take by lia; rewrite zlen_drop by lia; lia|
     rewrite zlen_take by lia; rewrite zlen_drop by lia; replace (_ `min` _) with 16 by lia; done|].
  rewrite He. rewrite zlen_take, zlen_drop in Hel by lia. destruct (aes_raw_ok e b2 14) as (b3 & -> & H3); [lia|lia|].
  apply mwrite_len in H3. cbn [fst snd].
  set (w := [Z.shiftr _ 8; _; _]). destruct (mwrite_is_Some b3 52 w) as [b4 H4]; [lia|change (zlen w) with 3; lia|]. rewrite H4.
  apply mwrite_len in H4. destruct (zset_is_Some b4 83 TUYA_BLE_WIFI_DEVICE_REGISTER_MODE) as [b5 H5]; [lia|]. rewrite H5.
  apply zset_inv in H5 as (_ & H5 & _). destruct (zset_is_Some b5 86 (Z.shiftl 1 0)) as [b6 H6]; [lia|]. rewrite H6.
  apply zset_inv in H6 as (_ & H6 & _). set (pk := PRODUCT_KEY_LEN :: _).
  destruct (mwrite_is_Some b6 95 pk) as [b7 H7]; [lia|change (zlen pk) with 17; lia|]. rewrite H7. apply mwrite_len in H7.
  set (tail := [0; 0] ++ _). change (u8 (96 + PRODUCT_KEY_LEN)) with 112.
  destruct (mwrite_is_Some b7 112 tail) as [b8 H8]; [lia|change (zlen tail) with 9; lia|]. rewrite H8. apply mwrite_len in H8.
  change (u8 (112 + zlen tail)) with 121. exists b8. split; [done|lia].
Qed.

(** The peer chooses the length of the subpackages, and a length below 4 makes the device write
    outside its buffer: the answer to the query that sets the length is already written into a
    subpackage of that length, whose header alone has 4 bytes. *)
Theorem ble_dev_info_overflow e rand req k rest f enc s m :
  s_ble_mgr s = Some m -> p_data req = Some (0 :: k :: rest) -> 0 <= k < 4 -> p_mode req = ENCRYPTION_MODE_NONE ->
  in_u 32 (p_sn req) -> in_u 16 (p_type req) -> resp_ok (e 0%nat) -> re_frame (e 0%nat) = Some f -> re_enc (e 0%nat) = Some enc ->
  re_pbuf (e 0%nat) = true -> re_create1 (e 0%nat) = true -> re_create2 (e 0%nat) = true ->
  zlen rand = 6 -> zlen (service_rand (keys s)) = 16 -> 16 <= zlen (authkey (client s)) ->
  (forall b, dev_info_fill (client s) (keys s) rand (replicate 128 0) = Some (121, b) -> bytes_ok b) ->
  ble_dev_info_req e true true rand req s = None.
Proof.
  intros Hm Hd Hk Hmode Hsn Hty He Hf Henc Hpb Hc1 Hc2 Hr Hsr Ha Hb. unfold ble_dev_info_req. rewrite Hd.
  assert (H2 : mread (0 :: k :: rest) 0 2 = Some [0; k]).
  { rewrite mread_Some by (rewrite ?zlen_cons; pose proof (zlen_nonneg rest); lia). done. }
  erewrite bind_step by (unfold lift; cbn [mbind option_bind]; by rewrite H2). erewrite bind_step by reflexivity. cbv zeta.
  assert (Hlen : Z.land (Z.shiftl 0 8) 0xff00 + Z.land k 0xff = k).
  { assert (Hq : k = 0 \/ k = 1 \/ k = 2 \/ k = 3) by lia. by destruct Hq as [->|[->|[->| ->]]]. }
  rewrite Hlen. erewrite bind_step by reflexivity. cbn [negb]. erewrite bind_step by (by apply upd_mgr_run).
  destruct (dev_info_ok (client s) (keys s) rand Hr Hsr Ha) as (pbuf & Hfill & Hl).
  erewrite bind_step.
  2:{ unfold ble_dev_info_make. erewrite bind_step by (by apply upd_mgr_run). do 2 erewrite bind_step by reflexivity.
      unfold lift. cbn [client keys]. by rewrite Hfill. }
  cbn [fst snd]. set (resp := Packet (p_sn req) (p_type req) 121 (Some pbuf) (p_mode req)).
  unfold ble_packet_resp. erewrite bind_step by (by apply get_mgr_run). do 2 erewrite bind_step by reflexivity.
  match goal with |- context [ble_packet_encode ?p ?ks ?sn _ _ _ _] =>
    destruct (encode_plain p ks sn resp f enc (re_iv (e 0%nat))) as (enc' & Ho & Hlo) end.
  { split; [done|done|done|]. exists pbuf. split; [done|]. split; [by apply Hb|]. cbn. lia. }
  { done. } { by apply ro_iv. } { by eapply ro_frame. } { by eapply ro_enc. } { cbn. lia. }
  erewrite bind_step by (unfold lift; rewrite Hf, Henc; by rewrite Ho). cbv beta iota.
  erewrite bind_step by (by apply upd_mgr_run). do 2 erewrite bind_step by reflexivity. cbv zeta.
  rewrite Hpb, Hc1, Hc2. cbn [negb ble_frame_trsmitr_create andb]. unfold mbind at 1, prog_bind at 1, lift.
  rewrite resp_loop_small; [done|done| |cbn; lia]. cbn [tr_subpkg]. unfold zlen. rewrite length_replicate. cbn. lia.
Qed.
End laws.

(** ** Examples *)

#[local] Existing Instance demo_cipher.
#[local] Existing Instance demo_laws.

Definition demo_client : tuya_iot_client_t :=
  Client (replicate 16 7) (c_str "uuid0123456789ab" ++ [0]) (replicate 32 1) (replicate 16 2) (replicate 16 3) false.
Definition demo_init : init_env :=
  InitEnv true true true true 0 0 0 0 9 zero_frame 9 zero_frame (1, 2, 3, 4).
Definition demo_start : ble_state := St demo_client ble_statics_init key_statics_init false None [].
Definition demo_name : bytes := c_str "TYBLE" ++ [0].

Definition after {A} (m : ble A) (s : ble_state) : ble_state := match m s with Some (_, s') => s' | None => s end.
Definition demo_state : ble_state := after (tuya_ble_init demo_init (Some demo_name) true) demo_start.
Definition demo_mgr : tuya_ble_mgr_t :=
  default (started [] [] false demo_init ble_statics_init demo_sender) (s_ble_mgr demo_state).

Definition demo_peer : TAL_BLE_PEER_INFO_T := Peer 1 [42; 0; 0; 0; 0; 0] (0, replicate 6 5).
Definition demo_connect : ble_event := Ev_radio (TAL_BLE_EVT_PERIPHERAL_CONNECT 0 demo_peer).
Definition demo_resp (k : nat) : resp_env :=
  RespEnv (Some zero_frame) (Some zero_frame) (replicate 16 6) true true true (fun _ => OPRT_OK).
Definition demo_write : write_env :=
  WriteEnv true (SysEnv demo_resp 1 true true (replicate 6 8)) (fun _ _ => []) (fun _ => demo_resp).

(** A pairing request with the identifier, in plain text. *)
Definition demo_pair : ble_event :=
  Ev_radio (TAL_BLE_EVT_WRITE_REQ 42
    ([0; 31; 0x40; 0] ++ packet_text 5 (Packet 0 FRM_PAIR_REQ 16 (Some (take 16 (c_uuid demo_client))) 0)) demo_write).

Definition demo_up : ble_state := after (ble_run [demo_connect]) demo_state.
Definition demo_up_mgr : tuya_ble_mgr_t := default demo_mgr (s_ble_mgr demo_up).
Definition demo_paired : ble_state := after (ble_run [demo_connect; demo_pair]) demo_state.

Lemma ble_pairing_needs_id_witness :
  (exists m, s_ble_mgr demo_paired = Some m /\ is_paired m = true) /\
  exists m' tr, s_ble_mgr demo_paired = Some m' /\ trace demo_paired = [E_bt_init] ++ tr /\
    (is_paired m' = true -> Exists (pair_request (id demo_mgr)) tr).
Proof.
  split; [eexists; split; vm_compute; reflexivity|].
  apply (ble_pairing_needs_id [demo_connect; demo_pair] demo_state demo_paired demo_mgr); vm_compute; reflexivity.
Defined.

Lemma ble_pair_deadline_witness :
  exists m2 tr, s_ble_mgr (after (ble_step Ev_pair_timeout) demo_up) = Some m2 /\
    trace (after (ble_step Ev_pair_timeout) demo_up) = [E_bt_init] ++ tr /\
    (is_paired m2 = true \/ Exists is_disconnect tr).
Proof.
  apply (ble_pair_deadline demo_peer [] demo_state demo_up (after (ble_step Ev_pair_timeout) demo_up) demo_mgr);
    try (vm_compute; reflexivity). by eexists.
Defined.

Lemma demo_listening : listening demo_up_mgr 42.
Proof. by split; vm_compute. Qed.

Lemma ble_one_write_crashes_witness :
  zlen (bare_write 5 0 FRM_PAIR_REQ 0 0) = 20 /\
  ble_step (Ev_radio (TAL_BLE_EVT_WRITE_REQ 42 (bare_write 5 0 FRM_PAIR_REQ 0 0) demo_write)) demo_up = None.
Proof.
  apply (ble_one_write_crashes demo_write demo_up demo_up_mgr); first [apply demo_listening | by right | by vm_compute].
Defined.

Lemma demo_resp_ok k : resp_ok (demo_resp k).
Proof. split; [by intros f [= <-]|by intros f [= <-]|done|done]. Qed.

Lemma ble_one_write_resets_witness :
  exists s' tr1 tr2,
    ble_step (Ev_radio (TAL_BLE_EVT_WRITE_REQ 42 (bare_write 5 0 FRM_UNBONDING_REQ 0 0) demo_write)) demo_up = Some (tt, s') /\
    is_activated (client s') = false /\
    trace s' = trace demo_up ++ tr1 ++ [E_iot_reset; E_disconnect (peer_info demo_up_mgr)] ++ tr2.
Proof.
  apply (ble_one_write_resets demo_write demo_up demo_up_mgr 42 5 0 FRM_UNBONDING_REQ 0 0
    (Some (ble_session_other BLE_SESSION_DP)) (Some (ble_session_other BLE_SESSION_CHANNEL)) None).
  2: apply demo_listening. 6: apply demo_resp_ok. 4: by repeat constructor. 9: by left.
  all: by vm_compute.
Defined.

Lemma ble_init_all_or_nothing_witness :
  exists rt s', tuya_ble_init demo_init (Some demo_name) true demo_start = Some (rt, s') /\
    (rt = OPRT_OK <-> init_works demo_init = true) /\ client s' = client demo_start /\
    (rt = OPRT_OK -> exists t, ble_frame_trsmitr_create (statics demo_start) true true = Some t /\
       s_ble_mgr s' = Some (started demo_name (c_str "uuid0123456789ab" ++ [0]) false demo_init (statics demo_start) t) /\
       trace s' = trace demo_start ++ [E_bt_init]) /\
    (rt <> OPRT_OK -> s_ble_mgr s' = None).
Proof. apply (ble_init_all_or_nothing demo_init demo_name _ false demo_start); vm_compute; reflexivity. Defined.

Definition demo_adv : adv_env := AdvEnv NETMGR_LINK_DOWN None.

Lemma ble_adv_wellformed_witness :
  exists adv rsp id16 enc flag,
    adv_build demo_adv demo_client demo_mgr = Some (31, adv, 26 + 5, rsp) /\ zlen adv = 31 /\ zlen rsp = 31 /\
    ad_structures 3 adv =
      Some [(0x01, [0x06]); (0x02, [0x50; 0xFD]); (0x16, [0x50; 0xFD; 0x43; 0x0C; 0; 16] ++ id16)] /\
    ad_structures 2 (take (Z.to_nat (26 + 5)) rsp) =
      Some [(0xFF, [0xD0; 0x07; 0x00; 0x00; 0x0C; flag] ++ enc); (0x09, c_str "BLE" ++ [0; 0])] /\
    zlen id16 = 16 /\ zlen enc = 16 /\ (false = false -> id16 = replicate 16 7).
Proof.
  apply (ble_adv_wellformed demo_adv demo_client demo_mgr (c_str "TYBLE") []);
    first [by vm_compute | by split; vm_compute | by repeat constructor].
Defined.

(** A request encrypted with the key of the device, as the buffers hold it after reassembly. *)
Definition demo_text : bytes := packet_text 5 (bare 0 FRM_UNBONDING_REQ).
Definition demo_raw : bytes := [ENCRYPTION_MODE_KEY_14] ++ replicate 16 6 ++ rev (demo_text ++ [2; 2]).
Definition demo_link : ble_link :=
  Link (PacketRecv (Trsmitr 33 4 0 3 0 33 33 []) 33 (demo_raw ++ drop 33 zero_frame) 0 zero_frame) 0 key_statics_init.
Definition demo_replayed : ble_packet_t := Packet 5 FRM_UNBONDING_REQ 0 None ENCRYPTION_MODE_KEY_14.

Lemma ble_replay_after_reconnect_witness :
  exists m' l2, s_ble_mgr demo_up = Some m' /\
    packet_open (crypto_param (client demo_up) m') (Link (l_recv demo_link) (recv_sn m') (keys demo_up)) true =
      Some (OPRT_OK, l2, false, Some demo_replayed).
Proof.
  eapply (ble_replay_after_reconnect
    (Crypto (authkey demo_client) (localkey demo_client) (seckey demo_client) (id demo_mgr) [9; 9; 9; 9; 9; 9])
    demo_link _ demo_replayed demo_peer demo_state demo_up demo_mgr); try (vm_compute; reflexivity).
  - right. right. by left.
  - split_and!; done.
Defined.

Definition demo_paired_mgr : tuya_ble_mgr_t := default demo_mgr (s_ble_mgr demo_paired).

Lemma ble_send_encrypted_witness :
  exists rt s' out c d vs, tuya_ble_send (demo_resp 0) 0x8006 0 (Some [1; 2; 3]) 3 demo_paired = Some (rt, s') /\
    trace s' = trace demo_paired ++ [E_send (frame (ble_frame_packet_len_get (statics demo_paired)) out 49 vs 0 0)] /\
    take 49 out = [ENCRYPTION_MODE_KEY_12] ++ replicate 16 6 ++ c /\
    take 17 d = packet_text (send_sn demo_paired_mgr) (Packet 0 0x8006 3 (Some [1; 2; 3]) ENCRYPTION_MODE_KEY_12).
Proof.
  assert (Ht : in_u 32 0 /\ in_u 16 0x8006 /\ bytes_ok [1; 2; 3] /\ 0 <= 3 <= zlen [1; 2; 3])
    by (split_and!; try done; by repeat constructor).
  assert (Hn : 17 + padded (14 + 3) <= TUYA_BLE_AIR_FRAME_MAX) by (by vm_compute).
  assert (HL : 6 <= ble_frame_packet_len_get (statics demo_paired) < 2 ^ 16) by (by vm_compute).
  assert (Hp : is_paired demo_paired_mgr = true) by (vm_compute; reflexivity).
  assert (Hmode : send_mode 0x8006 (is_activated (client demo_paired)) = ENCRYPTION_MODE_KEY_12) by (vm_compute; reflexivity).
  assert (Hu : usable (crypto_param (client demo_paired) demo_paired_mgr) (keys demo_paired))
    by (unfold usable; split_and!; vm_compute; done).
  assert (Hm : s_ble_mgr demo_paired = Some demo_paired_mgr) by (vm_compute; reflexivity).
  destruct Ht as (H32 & H16 & Hb & H3).
  pose proof (ble_send_encrypted (demo_resp 0) 0x8006 0 [1; 2; 3] 3 zero_frame zero_frame demo_paired demo_paired_mgr
    Hm (demo_resp_ok 0) eq_refl eq_refl eq_refl eq_refl eq_refl Hu H32 H16 Hb H3 Hn HL) as Hw.
  rewrite Hp, Hmode in Hw. destruct Hw as (rt & s' & out & c & d & H1 & H2 & _ & Ho & _ & Hd).
  exists rt, s', out, c, d. eexists. split; [exact H1|]. split; [exact H2|]. split; [exact Ho|exact Hd].
Defined.

Definition demo_query : ble_packet_t := Packet 5 FRM_QRY_DEV_INFO_REQ 2 (Some [0; 3]) ENCRYPTION_MODE_NONE.

Lemma ble_dev_info_overflow_witness :
  ble_dev_info_req demo_resp true true (replicate 6 8) demo_query demo_up = None.
Proof.
  apply (ble_dev_info_overflow demo_resp (replicate 6 8) demo_query 3 [] zero_frame zero_frame demo_up demo_up_mgr);
    [by vm_compute|reflexivity|lia|reflexivity|done|done|apply demo_resp_ok|reflexivity..|by vm_compute|by vm_compute|].
  intros b Hb. vm_compute in Hb. injection Hb as <-. by repeat constructor.
Defined.
