(* ===== verification/BleChannel.v ===== *)
(** * The BLE channel

    src/src/tuya_cloud_service/ble/ble_channel.c: the transparent channel between the phone and the
    functions of the application, with subpackets in both directions, and its user, the network
    configuration of ble_netcfg.c. What is sent goes to [tuya_ble_send] of BleMgr: type, acknowledged
    number and data. *)
From S2P Require Import Prelude BleTrsmitr BlePacket BleMgr.

Definition SUBPACKET_RECV_ALL_DONE : Z := 0.
Definition SUBPACKET_RECV_ONE_AND_NEXT : Z := 1.
Definition BLE_CHANNLE_NETCFG : Z := 1.
Definition BLE_CHANNEL_MAX : Z := 2.
Definition FRM_DOWNLINK_TRANSPARENT_REQ : Z := 0x801B.
Definition FRM_UPLINK_TRANSPARENT_REQ : Z := 0x801C.
Definition FRM_DOWNLINK_TRANSPARENT_SPEC_REQ : Z := 0x801E.
Definition FRM_UPLINK_TRANSPARENT_SPEC_REQ : Z := 0x801F.

(** The response that is being sent. [rsp_data]: [None] for NULL; [subpack_data] points two bytes into it. *)
Record ble_channel_mgr_t := ChannelMgr { rsp_data : option bytes; subpack_no : Z; subpack_sent : Z; subpack_len : Z }.

Definition channel_mgr_zero : ble_channel_mgr_t := ChannelMgr None 0 0 0.

(** The static variables of the reassembly. *)
Record downlink := Downlink { totalLen : Z; pBuffer : option bytes; receivedLen : Z }.

(** The functions of the channels (with their private data), the response, the reassembly. *)
Record channel_state := Channel {
  channels : list (option Z);
  channel_mgr : ble_channel_mgr_t;
  down : downlink }.

Definition channel_start : channel_state :=
  Channel (replicate (Z.to_nat BLE_CHANNEL_MAX) None) channel_mgr_zero (Downlink 0 None 0).

Definition ble_channel_add (s : channel_state) (type : Z) (fn : option Z) : option (Z * channel_state) :=
  if bool_decide (type < BLE_CHANNEL_MAX) then
    l ← zset (channels s) type fn; Some (OPRT_OK, Channel l (channel_mgr s) (down s))
  else Some (OPRT_INVALID_PARM, s).

Definition ble_channel_del (s : channel_state) (type : Z) : option (Z * channel_state) := ble_channel_add s type None.

(** The calls: the function and the memory from its argument on. *)
Definition ble_channel_process (s : channel_state) (user_data : bytes) : option (list (Z * bytes)) :=
  x ← zget user_data 0;
  y ← zget user_data 1;
  let type := Z.lor (Z.shiftl x 8) y in
  if bool_decide (type < BLE_CHANNEL_MAX) then
    fn ← zget (channels s) type;
    Some (match fn with Some f => [(f, drop 2 user_data)] | None => [] end)
  else Some [].

(** The number and the offset behind it; the loop is the one of the frame transmitter. *)
Definition __extract_packet_len (raw_data : bytes) (off : Z) : option (Z * Z) :=
  r ← num_decode 4 (drop (Z.to_nat off) raw_data) 0 1 0; Some (fst r, off + snd r).

(** ** Responses *)

Definition cmd : Type := Z * Z * bytes.

(** The header of a subpacket in the cleared buffer: flag, number, and in the first one the length (the
    loop of the frame transmitter) and the version. *)
Definition subpack_header (m : ble_channel_mgr_t) (pkg_buff : bytes) : option (bytes * Z) :=
  pkg_buff ← mwrite pkg_buff 0 [0x00; 0x03; u8 (subpack_no m)];
  if bool_decide (0 = subpack_no m) then
    r ← num_encode 4 pkg_buff 3 (subpack_len m);
    let '(pkg_buff, off) := r in
    pkg_buff ← zset pkg_buff off (Z.shiftl TUYA_BLE_PROTOCOL_VERSION_HIGN 4);
    Some (pkg_buff, off + 1)
  else Some (pkg_buff, 3).

Definition __response_to_app_by_subpack (alloc : bool) (type : Z) (m : ble_channel_mgr_t)
    : option (ble_channel_mgr_t * list cmd) :=
  match rsp_data m with
  | None => Some (m, [])
  | Some data =>
      if negb alloc then Some (m, [])
      else if bool_decide (subpack_sent m < subpack_len m) then
        r ← subpack_header m (replicate (Z.to_nat TUYA_BLE_TRANS_DATA_SUBPACK_LEN) 0);
        let '(pkg_buff, pkg_offset) := r in
        let n := u16 (TUYA_BLE_TRANS_DATA_SUBPACK_LEN - pkg_offset) in
        let rest := u32 (subpack_len m - subpack_sent m) in
        let n := if bool_decide (rest < n) then u16 rest else n in
        pkg_buff ← memcpy pkg_buff pkg_offset data (2 + subpack_sent m) n;
        d ← mread pkg_buff 0 (pkg_offset + n);
        Some (ChannelMgr (Some data) (u32 (subpack_no m + 1)) (u32 (subpack_sent m + n)) (subpack_len m), [(type, 0, d)])
      else Some (m, [])
  end.

(** A response is handed over with its memory; one that is not finished is released. The log reads a byte. *)
Definition ble_channle_ack (alloc : bool) (m : ble_channel_mgr_t) (type : Z) (data : bytes) (len : Z)
    : option (ble_channel_mgr_t * list cmd) :=
  _ ← zget data 3;
  __response_to_app_by_subpack alloc type (ChannelMgr (Some data) 0 0 (u32 (len - 2))).

(** ** Requests *)

(** The allocations: the memory of the reassembly, the acknowledgement, the subpacket. *)
Record channel_env := ChannelEnv { ce_buffer : Z -> option bytes; ce_ack : bool; ce_pkg : bool }.

(** The packed acknowledgement in memory order. *)
Definition subpacket_ack (flag status no len received total : Z) : bytes :=
  [u8 flag; u8 (Z.shiftr flag 8); status; u8 no; u8 (Z.shiftr no 8); u8 len; u8 (Z.shiftr len 8)] ++
  [u8 received; u8 (Z.shiftr received 8); u8 (Z.shiftr received 16); u8 (Z.shiftr received 24)] ++
  [u8 total; u8 (Z.shiftr total 8); u8 (Z.shiftr total 16); u8 (Z.shiftr total 24)].

(** One subpacket into the buffer: the reassembly, the number and the length; [None] inside when the
    function returns. *)
Definition downlink_subpack (e : channel_env) (d : downlink) (raw : bytes) (raw_len : Z)
    : option (downlink * option (Z * Z)) :=
  no ← zget raw 2;
  if bool_decide (no = 0) then
    r ← __extract_packet_len raw 3;
    let '(total, offset) := r in
    match ce_buffer e total with
    | None => Some (Downlink total None 0, None)
    | Some buf =>
        let offset := offset + 1 in
        let len := u32 (raw_len - offset) in
        buf ← memcpy buf 0 raw offset len;
        Some (Downlink total (Some buf) (u32 (0 + len)), Some (0, len))
    end
  else
    match pBuffer d with
    | None => Some (d, None)
    | Some buf =>
        r ← __extract_packet_len raw 2;
        let '(no, offset) := r in
        let len := u32 (raw_len - offset) in
        buf ← memcpy buf (receivedLen d) raw offset len;
        Some (Downlink (totalLen d) (Some buf) (u32 (receivedLen d + len)), Some (no, len))
    end.

(** The state, what is sent, and the calls of channel functions. *)
Definition channel_result : Type := channel_state * list cmd * list (Z * bytes).

Definition downlink_req (e : channel_env) (s : channel_state) (req : ble_packet_t) : option channel_result :=
  raw ← p_data req;
  flag ← zget raw 1;
  if bool_decide (Z.land flag 0x02 <> 0) then
    r ← downlink_subpack e (down s) raw (p_len req);
    let '(d, sub) := r in
    let s := Channel (channels s) (channel_mgr s) d in
    match sub with
    | None => Some (s, [], [])
    | Some (no, len) =>
        if negb (ce_ack e) then Some (Channel (channels s) (channel_mgr s) (Downlink (totalLen d) None (receivedLen d)), [], [])
        else
          x ← zget raw 0;
          let ack status := (p_type req, p_sn req,
            subpacket_ack (Z.lor (Z.shiftl flag 8) x) status no len (receivedLen d) (totalLen d)) in
          if bool_decide (receivedLen d < totalLen d) then Some (s, [ack SUBPACKET_RECV_ONE_AND_NEXT], [])
          else
            buf ← pBuffer d;
            calls ← ble_channel_process s buf;
            Some (s, [ack SUBPACKET_RECV_ALL_DONE], calls)
    end
  else
    calls ← ble_channel_process s (drop 2 raw);
    Some (s, [], calls).

Definition uplink_req (e : channel_env) (s : channel_state) (req : ble_packet_t) : option channel_result :=
  raw ← p_data req;
  status ← zget raw 2;
  let with_mgr m := Channel (channels s) m (down s) in
  if bool_decide (status = 0) then Some (with_mgr channel_mgr_zero, [], [])
  else if bool_decide (status = 1) then
    r ← __response_to_app_by_subpack (ce_pkg e) (p_type req) (channel_mgr s);
    Some (with_mgr (fst r), snd r, [])
  else if bool_decide (status = 2) then
    let m := channel_mgr s in
    r ← __response_to_app_by_subpack (ce_pkg e) (p_type req) (ChannelMgr (rsp_data m) 0 0 (subpack_len m));
    Some (with_mgr (fst r), snd r, [])
  else Some (s, [], []).

Definition ble_session_channel_process (e : channel_env) (s : channel_state) (req : ble_packet_t) : option channel_result :=
  let type := p_type req in
  if bool_decide (type = FRM_DOWNLINK_TRANSPARENT_REQ) || bool_decide (type = FRM_DOWNLINK_TRANSPARENT_SPEC_REQ)
  then downlink_req e s req
  else if bool_decide (type = FRM_UPLINK_TRANSPARENT_REQ) || bool_decide (type = FRM_UPLINK_TRANSPARENT_SPEC_REQ)
  then uplink_req e s req
  else Some (s, [], []).

(** ** Subpackets of a response *)

(** The header of subpacket [k] of [L] bytes, and how many bytes follow it. *)
Definition sub_head (k L : Z) : bytes :=
  if bool_decide (k = 0) then [0; 3; 0] ++ num_bytes 4 L ++ [0x40] else [0; 3; k].
Definition sub_size (k L sent : Z) : Z := (960 - zlen (sub_head k L)) `min` (L - sent).

Lemma sub_head_len k L : 3 <= zlen (sub_head k L) <= 8.
Proof.
  unfold sub_head. case_bool_decide; [|done]. rewrite !zlen_app. pose proof (zlen_num_bytes 4 L) as Hb.
  change (zlen [0; 3; 0]) with 3. change (zlen [0x40]) with 1. lia.
Qed.

Lemma subpack_header_ok data k sent L :
  0 <= k < 256 -> exists b,
    subpack_header (ChannelMgr data k sent L) (replicate (Z.to_nat TUYA_BLE_TRANS_DATA_SUBPACK_LEN) 0) =
      Some (b, zlen (sub_head k L)) /\ mwrite (replicate 960 0) 0 (sub_head k L) = Some b.
Proof.
  intros Hk. unfold subpack_header. cbn [subpack_no subpack_len]. change (Z.to_nat TUYA_BLE_TRANS_DATA_SUBPACK_LEN) with 960%nat.
  set (z := replicate 960 0). assert (Hz : zlen z = 960) by done. clearbody z.
  rewrite (wrap_small 8) by (unfold in_u; lia).
  destruct (mwrite_is_Some z 0 [0; 3; k]) as [b1 H1]; [lia|rewrite Hz; done|]. rewrite H1. ub_step.
  pose proof (mwrite_inv _ _ _ _ H1) as (_ & _ & Hl1 & _). unfold sub_head.
  destruct (decide (k = 0)) as [->|Hk0].
  - rewrite !(bool_decide_true (0 = 0)) by done.
    destruct (num_encode_ok 4 b1 3 L) as (b2 & -> & H2); [lia..|]. cbv beta iota.
    pose proof (mwrite_inv _ _ _ _ H2) as (_ & _ & Hl2 & _). pose proof (zlen_num_bytes 4 L).
    change (Z.shiftl TUYA_BLE_PROTOCOL_VERSION_HIGN 4) with 0x40.
    destruct (zset_is_Some b2 (3 + zlen (num_bytes 4 L)) 0x40) as [b3 H3]; [lia|]. rewrite H3. exists b3.
    rewrite !zlen_app. change (zlen [0; 3; 0]) with 3. change (zlen [0x40]) with 1. split; [do 2 f_equal; lia|].
    eapply mwrite_app; [exact H1|]. eapply mwrite_app; [exact H2|]. eapply mwrite_cons; [exact H3|].
    apply mwrite_nil. pose proof (zset_inv _ _ _ _ H3). change (zlen [0; 3; 0]) with 3. lia.
  - rewrite !bool_decide_false by lia. by exists b1.
Qed.

(** The bytes from [a] on, [n] of them. *)
Definition slice (a n : Z) (l : bytes) : bytes := take (Z.to_nat n) (drop (Z.to_nat a) l).

Lemma zlen_slice a n l : 0 <= a -> 0 <= n -> a + n <= zlen l -> zlen (slice a n l) = n.
Proof. intros. unfold slice. rewrite zlen_take, zlen_drop; lia. Qed.

(** One subpacket of a response leaves: its header and its bytes. *)
Lemma response_subpack type data k sent L :
  0 <= k < 256 -> 0 <= sent < L -> zlen data = 2 + L -> L < 2 ^ 28 ->
  let n := sub_size k L sent in
  __response_to_app_by_subpack true type (ChannelMgr (Some data) k sent L) =
    Some (ChannelMgr (Some data) (k + 1) (sent + n) L, [(type, 0, sub_head k L ++ slice (2 + sent) n data)]).
Proof.
  intros Hk Hs Hd HL n. unfold __response_to_app_by_subpack. cbn [rsp_data negb subpack_sent subpack_len subpack_no].
  rewrite bool_decide_true by lia. destruct (subpack_header_ok (Some data) k sent L Hk) as (b & Hb & Hw).
  rewrite Hb. ub_step. pose proof (sub_head_len k L) as Hh. set (h := sub_head k L) in *.
  change TUYA_BLE_TRANS_DATA_SUBPACK_LEN with 960.
  rewrite (wrap_small 16 (960 - _)) by (unfold in_u; lia). rewrite (wrap_small 32 (L - _)) by (unfold in_u; lia).
  assert (Hn : (if bool_decide (L - sent < 960 - zlen h) then u16 (L - sent) else 960 - zlen h) = n).
  { subst n. unfold sub_size. fold h. case_bool_decide; rewrite ?wrap_small by (unfold in_u; lia); lia. }
  rewrite Hn. assert (Hn' : 0 < n <= 960 - zlen h /\ sent + n <= L) by (subst n; unfold sub_size; fold h; lia).
  pose proof (mwrite_inv _ _ _ _ Hw) as (_ & _ & Hl & _). change (zlen (replicate 960 0)) with 960 in Hl.
  unfold memcpy. rewrite (mread_Some data (2 + sent) n) by lia. ub_step. fold (slice (2 + sent) n data).
  pose proof (zlen_slice (2 + sent) n data ltac:(lia) ltac:(lia) ltac:(lia)) as Hsl.
  destruct (mwrite_is_Some b (zlen h) (slice (2 + sent) n data)) as [b2 H2]; [lia..|]. rewrite H2. ub_step.
  assert (Ha : mwrite (replicate 960 0) 0 (h ++ slice (2 + sent) n data) = Some b2) by (by eapply mwrite_app).
  pose proof (mwrite_inv _ _ _ _ Ha) as (_ & _ & Hl2 & _). change (zlen (replicate 960 0)) with 960 in Hl2.
  rewrite mread_Some by lia. ub_step. apply mwrite_take in Ha. rewrite zlen_app, Hsl in Ha.
  rewrite Z2Nat.inj_0, drop_0, Ha, !(wrap_small 32) by (unfold in_u; lia). done.
Qed.

(** ** Subpackets of a request *)

Lemma extract_len raw off v :
  0 <= off <= 200 -> 0 <= v < 2 ^ 28 ->
  (forall i, 0 <= i < zlen (num_bytes 4 v) -> zget raw (off + i) = zget (num_bytes 4 v) i) ->
  __extract_packet_len raw off = Some (v, off + zlen (num_bytes 4 v)).
Proof.
  intros Ho Hv Hr. unfold __extract_packet_len.
  rewrite (num_decode_ok 4 _ 0 1 0 v); try lia; [ub_step; cbn [fst snd]; do 2 f_equal; lia|].
  intros i Hi. rewrite Z.add_0_l, zget_drop by lia. by apply Hr.
Qed.

(** The first subpacket starts the reassembly, whatever was there before; it is copied without a look at
    the length that it announces. *)
Lemma first_subpack e d L chunk buf :
  0 <= L < 2 ^ 28 -> ce_buffer e L = Some buf -> zlen chunk <= 60000 ->
  let raw := sub_head 0 L ++ chunk in
  downlink_subpack e d raw (zlen raw) =
    (b ← mwrite buf 0 chunk; Some (Downlink L (Some b) (zlen chunk), Some (0, zlen chunk))).
Proof.
  intros HL He Hc' raw. unfold downlink_subpack. pose proof (zlen_num_bytes 4 L) as Hn. pose proof (zlen_nonneg chunk).
  assert (Hraw : raw = [0; 3; 0] ++ num_bytes 4 L ++ [0x40] ++ chunk).
  { subst raw. unfold sub_head. rewrite bool_decide_true by done. by rewrite <- !app_assoc. }
  replace (zget raw 2) with (Some 0) by (by rewrite Hraw). ub_step. rewrite bool_decide_true by done.
  rewrite (extract_len _ 3 L); [|lia..|].
  2: { intros i Hi. rewrite Hraw, zget_app_r by (change (zlen [0; 3; 0]) with 3; lia).
       rewrite zget_app_l by (change (zlen [0; 3; 0]) with 3; lia). change (zlen [0; 3; 0]) with 3. f_equal. lia. }
  ub_step. rewrite He. ub_step.
  assert (Hlen : zlen raw = 3 + zlen (num_bytes 4 L) + 1 + zlen chunk).
  { rewrite Hraw, !zlen_app. change (zlen [0; 3; 0]) with 3. change (zlen [0x40]) with 1. lia. }
  rewrite (wrap_small 32 (zlen raw - _)) by (unfold in_u; lia).
  replace (zlen raw - (3 + zlen (num_bytes 4 L) + 1)) with (zlen chunk) by lia.
  rewrite memcpy_mwrite by lia. replace (take _ (drop _ raw)) with chunk; [|rewrite Hraw].
  - by rewrite Z.add_0_l, wrap_small by (unfold in_u; lia).
  - rewrite !app_assoc, drop_app_length'; [by rewrite zlen_to_nat, firstn_all|].
    rewrite !length_app. cbn [length]. unfold zlen. lia.
Qed.

(** A later one continues it. *)
Lemma next_subpack e L k chunk buf got :
  0 < k < 128 -> 0 <= got -> got + zlen chunk < 2 ^ 32 -> zlen chunk <= 60000 ->
  let raw := sub_head k L ++ chunk in
  downlink_subpack e (Downlink L (Some buf) got) raw (zlen raw) =
    (b ← mwrite buf got chunk; Some (Downlink L (Some b) (got + zlen chunk), Some (k, zlen chunk))).
Proof.
  intros Hk Hg0 Hg Hc' raw. unfold downlink_subpack. pose proof (zlen_nonneg chunk).
  assert (Hraw : raw = [0; 3; k] ++ chunk).
  { subst raw. unfold sub_head. by rewrite bool_decide_false by lia. }
  replace (zget raw 2) with (Some k) by (by rewrite Hraw). ub_step. rewrite bool_decide_false by lia.
  cbn [pBuffer totalLen receivedLen].
  assert (Hnb : num_bytes 4 k = [k]).
  { cbn [num_bytes]. rewrite bool_decide_true by (apply Z.div_small; lia). by rewrite Z.mod_small by lia. }
  rewrite (extract_len _ 2 k); rewrite ?Hnb; [|lia..|].
  2: { intros i Hi. rewrite zlen_cons, (@zlen_nil Z) in Hi. assert (i = 0) as -> by lia. by rewrite Hraw. }
  change (zlen [k]) with 1. ub_step.
  assert (Hlen : zlen raw = 3 + zlen chunk) by (by rewrite Hraw, !zlen_app).
  rewrite (wrap_small 32 (zlen raw - _)) by (unfold in_u; lia).
  replace (zlen raw - (2 + 1)) with (zlen chunk) by lia.
  rewrite memcpy_mwrite by lia. replace (take _ (drop _ raw)) with chunk.
  2: { rewrite Hraw. change (drop (Z.to_nat (2 + 1)) ([0; 3; k] ++ chunk)) with chunk. by rewrite zlen_to_nat, firstn_all. }
  by rewrite wrap_small by (unfold in_u; lia).
Qed.

(** ** Two devices *)

(** What the application makes of a subpacket and of its acknowledgement: requests of the other device. *)
Definition downlink_packet (d : bytes) : ble_packet_t := Packet 0 FRM_DOWNLINK_TRANSPARENT_REQ (zlen d) (Some d) 0.
Definition uplink_packet (a : bytes) : ble_packet_t := Packet 0 FRM_UPLINK_TRANSPARENT_REQ (zlen a) (Some a) 0.

(** The subpacket [d] goes to [r], the acknowledgement to [s], the next subpacket to [r] ...; the states
    and the calls at the end, [None] inside when the rounds are used up. *)
Fixpoint transfer (rounds : nat) (es er : channel_env) (s r : channel_state) (d : bytes)
    : option (option channel_state * option channel_state * list (Z * bytes)) :=
  match rounds with
  | O => Some (None, None, [])
  | S rounds =>
      x ← ble_session_channel_process er r (downlink_packet d);
      let '(r, acks, calls) := x in
      match acks with
      | (_, _, a) :: _ =>
          y ← ble_session_channel_process es s (uplink_packet a);
          let '(s, cmds, _) := y in
          match cmds with
          | (_, _, d) :: _ => transfer rounds es er s r d
          | [] => Some (Some s, Some r, calls)
          end
      | [] => Some (Some s, Some r, calls)
      end
  end.

Definition with_down (r : channel_state) (d : downlink) : channel_state := Channel (channels r) (channel_mgr r) d.

(** The reassembly before subpacket [k]: the first [sent] bytes of the payload are there. *)
Definition half_way (r : channel_state) (L k sent : Z) (payload : bytes) : Prop :=
  k = 0 /\ sent = 0 \/
  0 < k /\ exists rest, down r = Downlink L (Some (take (Z.to_nat sent) payload ++ rest)) sent /\ zlen rest = L - sent.

Lemma take_slice (l : bytes) a n : 0 <= a -> 0 <= n -> take (Z.to_nat a) l ++ slice a n l = take (Z.to_nat (a + n)) l.
Proof.
  intros. unfold slice. rewrite Z2Nat.inj_add by lia.
  rewrite <- (take_drop (Z.to_nat a) (take (Z.to_nat a + Z.to_nat n) l)), take_take, take_drop_commute.
  by replace (Z.to_nat a `min` (Z.to_nat a + Z.to_nat n))%nat with (Z.to_nat a) by lia.
Qed.

Lemma subpack_step e r L k sent payload buf :
  ce_buffer e L = Some buf -> zlen buf = L -> zlen payload = L -> L < 2 ^ 28 ->
  0 <= k < 128 -> 0 <= sent < L -> half_way r L k sent payload ->
  let n := sub_size k L sent in
  let raw := sub_head k L ++ slice sent n payload in
  exists rest, zlen rest = L - (sent + n) /\
    downlink_subpack e (down r) raw (zlen raw) =
      Some (Downlink L (Some (take (Z.to_nat (sent + n)) payload ++ rest)) (sent + n), Some (k, n)).
Proof.
  intros He Hb HP HL Hk Hs Hw n raw. pose proof (sub_head_len k L) as Hh.
  assert (Hn : 0 < n <= 957 /\ sent + n <= L) by (subst n; unfold sub_size; lia).
  pose proof (zlen_slice sent n payload ltac:(lia) ltac:(lia) ltac:(lia)) as Hsl.
  rewrite <- take_slice by lia. destruct Hw as [[-> ->]|[Hk0 (rest & Hd & Hr)]].
  - exists (drop (length (slice 0 n payload)) buf). rewrite take_0. rewrite <- zlen_to_nat, zlen_drop by lia. split; [lia|].
    subst raw. rewrite (first_subpack e _ L _ buf) by (done || lia). rewrite mwrite_0 by lia. ub_step. by rewrite Hsl.
  - exists (drop (length (slice sent n payload)) rest). rewrite <- zlen_to_nat, zlen_drop by lia. split; [lia|].
    assert (Hg : zlen (take (Z.to_nat sent) payload) = sent) by (rewrite zlen_take; lia).
    subst raw. rewrite Hd, next_subpack by lia. rewrite <- (take_drop (length (slice sent n payload)) rest) at 1.
    rewrite mwrite_mid; [|done|unfold zlen in *; rewrite length_take; lia].
    ub_step. by rewrite Hsl, <- app_assoc, <- zlen_to_nat, Hsl.
Qed.

Lemma slice_payload data sent n : 0 <= sent -> slice (2 + sent) n data = slice sent n (drop 2 data).
Proof. intros. unfold slice. rewrite drop_drop. do 3 f_equal. lia. Qed.

(** One request of the receiver and its answer. *)
Lemma receiver_step e r L k sent payload buf :
  ce_ack e = true -> ce_buffer e L = Some buf -> zlen buf = L -> zlen payload = L -> L < 2 ^ 28 ->
  0 <= k < 128 -> 0 <= sent < L -> half_way r L k sent payload ->
  let n := sub_size k L sent in
  exists a d rest, d = Downlink L (Some (take (Z.to_nat (sent + n)) payload ++ rest)) (sent + n) /\ zlen rest = L - (sent + n) /\
    zget a 2 = Some (if bool_decide (sent + n < L) then 1 else 0) /\
    ble_session_channel_process e r (downlink_packet (sub_head k L ++ slice sent n payload)) =
      (calls ← (if bool_decide (sent + n < L) then Some [] else ble_channel_process r payload);
       Some (with_down r d, [(FRM_DOWNLINK_TRANSPARENT_REQ, 0, a)], calls)).
Proof.
  intros Ha He Hb HP HL Hk Hs Hw n. destruct (subpack_step e r L k sent payload buf He Hb HP HL Hk Hs Hw) as (rest & Hr & E).
  fold n in Hr, E. unfold ble_session_channel_process, downlink_packet. cbn [p_type].
  change (bool_decide (FRM_DOWNLINK_TRANSPARENT_REQ = FRM_DOWNLINK_TRANSPARENT_REQ)) with true. cbn [orb].
  unfold downlink_req. cbn [p_data p_len p_type p_sn]. ub_step.
  set (raw := sub_head k L ++ slice sent n payload) in *.
  assert (Hh : zget raw 0 = Some 0 /\ zget raw 1 = Some 3).
  { subst raw. unfold sub_head. by destruct (bool_decide (k = 0)). }
  destruct Hh as [H0 H1]. rewrite H1. ub_step. change (bool_decide (Z.land 3 2 <> 0)) with true. cbv iota.
  rewrite E. ub_step. rewrite Ha. cbn [negb]. rewrite H0. ub_step. cbn [receivedLen totalLen pBuffer].
  case_bool_decide as Hm.
  - do 3 eexists. split; [reflexivity|]. split; [done|]. split; [|reflexivity]. done.
  - assert (sent + n = L) as HnL by (pose proof (zlen_nonneg rest); lia).
    assert (rest = []) as -> by (apply nil_length_inv; unfold zlen in Hr; lia).
    do 3 eexists. split; [reflexivity|]. split; [done|]. split; [|].
    2: { rewrite HnL, <- HP, zlen_to_nat, firstn_all, app_nil_r. ub_step. reflexivity. }
    done.
Qed.

Lemma uplink_route e s a : ble_session_channel_process e s (uplink_packet a) = uplink_req e s (uplink_packet a).
Proof. done. Qed.

Lemma transfer_from rounds es er s r k sent data buf :
  let L := zlen data - 2 in
  let payload := drop 2 data in
  let n := sub_size k L sent in
  ce_pkg es = true -> ce_ack er = true -> ce_buffer er L = Some buf -> zlen buf = L ->
  L <= 122491 -> 0 <= sent < L -> (k = 0 /\ sent = 0 \/ 0 < k /\ 952 + (k - 1) * 957 <= sent) ->
  half_way r L k sent payload -> L - sent <= Z.of_nat rounds ->
  channel_mgr s = ChannelMgr (Some data) (k + 1) (sent + n) L ->
  transfer rounds es er s r (sub_head k L ++ slice sent n payload) =
    (calls ← ble_channel_process r payload;
     Some (Some (Channel (channels s) channel_mgr_zero (down s)), Some (with_down r (Downlink L (Some payload) L)), calls)).
Proof.
  intros L payload. revert s r k sent. induction rounds as [|rounds IH];
    intros s r k sent n Hp Ha He Hb HL Hs Hk Hw Hf Hm; [lia|].
  assert (HP : zlen payload = L) by (pose proof (zlen_drop data 2 ltac:(lia)) as E; change (Z.to_nat 2) with 2%nat in E; subst payload L; lia).
  assert (Hk' : 0 <= k < 128) by lia. pose proof (sub_head_len k L) as Hh.
  assert (Hn : 0 < n /\ sent + n <= L) by (subst n; unfold sub_size; lia).
  destruct (receiver_step er r L k sent payload buf Ha He Hb HP ltac:(lia) Hk' Hs Hw) as (a & d & rest & Hd & Hr & Hst & E).
  cbn [transfer]. fold n in Hd, Hr, Hst, E. rewrite E. clear E.
  case_bool_decide as Hlast.
  - ub_step. rewrite uplink_route. unfold uplink_req, uplink_packet. cbn [p_data p_type]. ub_step. rewrite Hst. ub_step.
    rewrite bool_decide_false by lia. rewrite bool_decide_true by lia. rewrite Hm, Hp.
    rewrite response_subpack by lia. cbn [fst snd]. ub_step. rewrite slice_payload by lia.
    assert (Hfull : n = 960 - zlen (sub_head k L)) by (subst n; unfold sub_size in *; lia).
    assert (Hhd : 0 < k -> zlen (sub_head k L) = 3) by (intros; unfold sub_head; by rewrite bool_decide_false by lia).
    rewrite (IH _ (with_down r d) (k + 1) (sent + n)); try done; try lia.
    right. split; [lia|]. exists rest. by subst d.
  - assert (HnL : sent + n = L) by lia.
    assert (Hrest : rest = []) by (apply nil_length_inv; unfold zlen in Hr; lia).
    destruct (ble_channel_process r payload) as [calls|]; [|done]. ub_step.
    rewrite uplink_route. unfold uplink_req, uplink_packet. cbn [p_data p_type]. ub_step. rewrite Hst. ub_step.
    subst d rest. rewrite HnL, <- HP, zlen_to_nat, firstn_all, app_nil_r. done.
Qed.

(** ** Properties *)

(** The two halves of the channel fit together: a response of up to 122491 bytes after its two bytes
    of flags, sent in subpackets by one device and taken as a request by another one that acknowledges
    each of them, arrives complete after a bounded number of rounds, is handled exactly like a request
    that needs no subpackets, and leaves the sender with nothing to send. *)
Theorem channel_transfer type es er s r data buf :
  let L := zlen data - 2 in
  let payload := drop 2 data in
  ce_pkg es = true -> ce_ack er = true -> ce_buffer er L = Some buf -> zlen buf = L -> 2 <= L <= 122491 ->
  exists m d, ble_channle_ack (ce_pkg es) (channel_mgr s) type data (zlen data) = Some (m, [(type, 0, d)]) /\
    forall rounds, L <= Z.of_nat rounds ->
      transfer rounds es er (Channel (channels s) m (down s)) r d =
        (calls ← ble_channel_process r payload;
         Some (Some (Channel (channels s) channel_mgr_zero (down s)), Some (with_down r (Downlink L (Some payload) L)), calls)).
Proof.
  intros L payload Hp Ha He Hb HL. unfold ble_channle_ack.
  destruct (zget_is_Some data 3) as [x Hx]; [lia|]. rewrite Hx, Hp. ub_step. fold L. rewrite wrap_small by (unfold in_u; lia).
  rewrite response_subpack by lia. do 2 eexists. split; [reflexivity|]. intros rounds Hr. rewrite slice_payload by lia.
  match goal with |- transfer _ _ _ ?s' _ _ = _ => pose proof (transfer_from rounds es er s' r 0 0 data buf) as T end.
  cbv zeta in T. fold L payload in T. apply T; try done; try lia; left; lia.
Qed.

(** The reassembly trusts the announced length: a first subpacket that carries more bytes than it
    announces, or a later one that carries more than is left, writes past the allocated memory. *)
Theorem channel_overflow e s sn mode k L chunk buf got :
  0 <= L < 2 ^ 28 -> zlen buf = L -> 0 <= k < 128 -> 0 <= got <= L -> L - got < zlen chunk <= 60000 ->
  (k = 0 -> ce_buffer e L = Some buf /\ got = 0) -> (0 < k -> down s = Downlink L (Some buf) got) ->
  let raw := sub_head k L ++ chunk in
  ble_session_channel_process e s (Packet sn FRM_DOWNLINK_TRANSPARENT_REQ (zlen raw) (Some raw) mode) = None.
Proof.
  intros HL Hb Hk Hg Hc Hfirst Hnext raw. unfold ble_session_channel_process. cbn [p_type].
  change (bool_decide (FRM_DOWNLINK_TRANSPARENT_REQ = FRM_DOWNLINK_TRANSPARENT_REQ)) with true. cbn [orb].
  unfold downlink_req. cbn [p_data p_len]. ub_step.
  assert (H1 : zget raw 1 = Some 3) by (subst raw; unfold sub_head; by destruct (bool_decide (k = 0))).
  rewrite H1. ub_step. change (bool_decide (Z.land 3 2 <> 0)) with true. cbv iota.
  assert (Hw : mwrite buf got chunk = None) by (unfold mwrite; rewrite bool_decide_false by lia; done).
  subst raw. destruct (decide (k = 0)) as [->|].
  - destruct (Hfirst eq_refl) as [He ->]. rewrite (first_subpack e _ L _ buf) by (done || lia). by rewrite Hw.
  - rewrite Hnext, next_subpack by lia. by rewrite Hw.
Qed.

(** ** Witnesses *)

Definition demo_channel_env : channel_env := ChannelEnv (fun n => Some (replicate (Z.to_nat n) 0)) true true.

Definition demo_response : bytes := [0; 0] ++ replicate 3000 7.

Lemma channel_transfer_witness :
  exists m d, ble_channle_ack true channel_mgr_zero FRM_UPLINK_TRANSPARENT_REQ demo_response 3002 =
      Some (m, [(FRM_UPLINK_TRANSPARENT_REQ, 0, d)]) /\
    transfer 3000 demo_channel_env demo_channel_env (Channel (replicate 2 None) m (Downlink 0 None 0)) channel_start d =
      Some (Some channel_start, Some (with_down channel_start (Downlink 3000 (Some (replicate 3000 7)) 3000)), []).
Proof.
  destruct (channel_transfer FRM_UPLINK_TRANSPARENT_REQ demo_channel_env demo_channel_env channel_start channel_start
    demo_response (replicate 3000 0)) as (m & d & Ha & Ht); [done|done|done|done|by vm_compute|].
  exists m, d. split; [exact Ha|]. exact (Ht 3000%nat ltac:(by vm_compute)).
Defined.

Lemma channel_overflow_witness :
  ble_session_channel_process demo_channel_env channel_start
    (Packet 1 FRM_DOWNLINK_TRANSPARENT_REQ 8 (Some [0; 3; 0; 1; 0x40; 10; 20; 30]) 0) = None.
Proof.
  exact (channel_overflow demo_channel_env channel_start 1 0 0 1 [10; 20; 30] [0] 0
    ltac:(lia) eq_refl ltac:(lia) ltac:(lia) ltac:(by vm_compute) ltac:(done) ltac:(lia)).
Defined.
