(* ===== verification/NetCfg.v ===== *)
(** * Network configuration

    src/src/tuya_cloud_service/netcfg/netcfg.c: the registered ways to configure the network, started
    through the high-priority work queue (WorkQueue), and one of them, ble_netcfg.c, on the BLE channel
    (BleChannel). A handler is a node of the list with its address; a callback is its number, what it
    returns is [ret]; callbacks do not call the module. *)
From S2P Require Import Prelude StateM TuyaList Queue WorkQueue BleChannel.

Record netcfg_handler_t := Handler {
  h_addr : Z; h_type : Z; h_start : Z; h_stop : Z;
  h_finish_cb : option Z; h_args : option Z; isStarted : bool }.

Definition set_started (h : netcfg_handler_t) (b : bool) : netcfg_handler_t :=
  Handler (h_addr h) (h_type h) (h_start h) (h_stop h) (h_finish_cb h) (h_args h) b.
Definition set_finish (h : netcfg_handler_t) (cb args : option Z) : netcfg_handler_t :=
  Handler (h_addr h) (h_type h) (h_start h) (h_stop h) cb args (isStarted h).

(** The calls of callbacks, in order. *)
Inductive netcfg_call := StartCall (fn type : Z) (finish args : option Z) | StopCall (fn type : Z).

Record netcfg := Netcfg {
  p_netcfg_session : option (list netcfg_handler_t);
  isInited : bool;
  nc_workq : workq_service;
  nc_calls : list netcfg_call }.

Definition set_session (x : option (list netcfg_handler_t)) (s : netcfg) : netcfg := Netcfg x (isInited s) (nc_workq s) (nc_calls s).
Definition set_workq (w : workq_service) (s : netcfg) : netcfg := Netcfg (p_netcfg_session s) (isInited s) w (nc_calls s).
Definition set_inited (s : netcfg) : netcfg := Netcfg (p_netcfg_session s) true (nc_workq s) (nc_calls s).
Definition add_call (c : netcfg_call) (s : netcfg) : netcfg := Netcfg (p_netcfg_session s) (isInited s) (nc_workq s) (nc_calls s ++ [c]).

Section netcfg.
Context (place : gset Z -> Z) (ret : netcfg_call -> Z).
(** The address of [__netcfg_start_msg_cb]. *)
Context (start_msg_cb : Z).
Notation nc := (prog netcfg).

(** Reading the list through a NULL session is undefined. *)
Definition handlers : nc (list netcfg_handler_t) := s ← gets p_netcfg_session; lift s.

Definition put_handlers (hs : list netcfg_handler_t) : nc unit := modify (set_session (Some hs)).

Definition call (c : netcfg_call) : nc Z := modify (add_call c);; mret (ret c).

(** The handler at an address changes in place; writing to memory that is not a handler is undefined. *)
Definition upd_handler (a : Z) (f : netcfg_handler_t -> netcfg_handler_t) : nc unit :=
  hs ← handlers;
  r ← lift (list_find (fun h => h_addr h = a) hs);
  put_handlers (<[fst r := f (snd r)]> hs).

Definition get_handler (a : Z) : nc netcfg_handler_t :=
  hs ← handlers; r ← lift (list_find (fun h => h_addr h = a) hs); mret (snd r).

Definition find_type (type : Z) (hs : list netcfg_handler_t) : option netcfg_handler_t :=
  snd <$> list_find (fun h => h_type h = type) hs.

Definition __netcfg_start_msg_cb (a : Z) : nc unit :=
  h ← get_handler a;
  rt ← call (StartCall (h_start h) (h_type h) (h_finish_cb h) (h_args h));
  if bool_decide (rt = OPRT_OK) then upd_handler a (fun h => set_started h true) else mret tt.

(** [block]: the address of the new node, if there is memory; its [args] are not set. *)
Definition netcfg_register (type start stop : Z) (block : option Z) : nc Z :=
  hs ← handlers;
  match find_type type hs with
  | Some _ => mret OPRT_INVALID_PARM
  | None =>
      match block with
      | None => mret OPRT_MALLOC_FAILED
      | Some a => put_handlers (Handler a type start stop None None false :: hs);; mret OPRT_OK
      end
  end.

Definition netcfg_unregister (type : Z) : nc Z :=
  s ← gets p_netcfg_session;
  match s with
  | None => mret OPRT_COM_ERROR
  | Some hs =>
      match list_find (fun h => h_type h = type) hs with
      | Some (i, _) => put_handlers (delete i hs);; mret OPRT_OK
      | None => mret OPRT_INVALID_PARM
      end
  end.

Definition netcfg_get_handler (type : Z) : nc (option netcfg_handler_t) :=
  s ← gets p_netcfg_session;
  mret (hs ← s; find_type type hs).

Definition netcfg_init (alloc : bool) : nc Z :=
  s ← gets p_netcfg_session;
  match s with
  | Some _ => mret OPRT_OK
  | None => if alloc then put_handlers [];; mret OPRT_OK else mret OPRT_MALLOC_FAILED
  end.

Definition workq_cancel (cb : Z) : nc unit :=
  w ← gets nc_workq;
  r ← lift (tal_workq_cancel w WORKQ_HIGHTPRI (Some cb) 0);
  modify (set_workq (snd r)).

Definition netcfg_uninit : nc Z :=
  s ← gets p_netcfg_session;
  match s with
  | None => mret OPRT_OK
  | Some _ => workq_cancel start_msg_cb;; modify (set_session None);; mret OPRT_OK
  end.

Definition netcfg_get_register_count : nc Z :=
  s ← gets p_netcfg_session; mret (match s with None => 0 | Some hs => zlen hs end).

Definition netcfg_get_register_started_count : nc Z :=
  s ← gets p_netcfg_session;
  mret (match s with None => 0 | Some hs => zlen (filter (fun h => isStarted h = true) hs) end).

(** Scheduling on the high-priority queue, by this module or another one. *)
Definition schedule_high (cb data : Z) (alloc : bool) (post : Z) : prog netcfg unit :=
  w ← gets nc_workq;
  r ← lift (tal_workq_schedule place w WORKQ_HIGHTPRI (Some cb) data alloc post);
  modify (set_workq (snd r)).

(** The result of the work queue is not looked at; [alloc], [post]: what it meets. *)
Definition netcfg_start (type : Z) (finish args : option Z) (alloc : bool) (post : Z) : nc Z :=
  modify set_inited;;
  h ← netcfg_get_handler type;
  match h with
  | None => mret OPRT_INVALID_PARM
  | Some h =>
      upd_handler (h_addr h) (fun h => set_finish h finish args);;
      schedule_high start_msg_cb (h_addr h) alloc post;;
      mret OPRT_OK
  end.

Definition is_netcfg_inited : nc bool := gets isInited.

Definition stop_handler (h : netcfg_handler_t) : nc Z :=
  upd_handler (h_addr h) (fun h => set_started h false);;
  call (StopCall (h_stop h) (h_type h)).

Definition netcfg_stop (type : Z) : nc Z :=
  if bool_decide (type <> 0) then
    h ← netcfg_get_handler type;
    match h with
    | None => mret OPRT_INVALID_PARM
    | Some h => if isStarted h then stop_handler h else mret OPRT_OK
    end
  else
    s ← gets p_netcfg_session;
    match s with
    | None => mret OPRT_COM_ERROR
    | Some hs =>
        for_each hs (fun h => if isStarted h then stop_handler h;; mret tt else mret tt);;
        netcfg_uninit;;
        mret OPRT_OK
    end.

(** [env]: what the work queue meets when a handler is started. *)
Definition netcfg_start_other_all (type : Z) (env : Z -> bool * Z) : nc Z :=
  s ← gets p_netcfg_session;
  match s with
  | None => mret OPRT_COM_ERROR
  | Some hs =>
      for_each hs (fun h =>
        if bool_decide (h_finish_cb h <> None) && negb (isStarted h) && bool_decide (type <> h_type h) then
          netcfg_start (h_type h) (h_finish_cb h) (h_args h) (fst (env (h_type h))) (snd (env (h_type h)));; mret tt
        else mret tt);;
      mret OPRT_OK
  end.

Definition netcfg_stop_other_all (type : Z) : nc Z :=
  s ← gets p_netcfg_session;
  match s with
  | None => mret OPRT_COM_ERROR
  | Some hs =>
      for_each hs (fun h => if isStarted h && bool_decide (type <> h_type h) then stop_handler h;; mret tt else mret tt);;
      mret OPRT_OK
  end.

(** One round of the high-priority worker; [others]: what callbacks of other modules do is outside. *)
Definition high_round (wait : Z) : nc unit :=
  w ← gets nc_workq;
  match wq_highpri w with
  | None => mret tt
  | Some q =>
      r ← lift (work_take q wait);
      let '(t, q) := r in
      modify (set_workq (Service (wq_system w) (Some q)));;
      match t with
      | Called cb data =>
          (if bool_decide (cb = start_msg_cb) then __netcfg_start_msg_cb data else mret tt);;
          modify (fun s => set_workq (Service (wq_system (nc_workq s)) (work_done <$> wq_highpri (nc_workq s))) s)
      | _ => mret tt
      end
  end.

(** ** The invariant

    The addresses and types of the handlers; what waits in the queue for this module is a handler. *)
Definition shape (s : netcfg) : option (list Z * list Z) :=
  match p_netcfg_session s with Some hs => Some (h_addr <$> hs, h_type <$> hs) | None => None end.

Definition live (sh : option (list Z * list Z)) (a : Z) : Prop := match sh with Some (addrs, _) => a ∈ addrs | None => False end.

Record queue_ok (sh : option (list Z * list Z)) (w : workq_service) : Prop := {
  qo_queue : exists q l addrs, wq_highpri w = Some q /\ rep (wq_queue q) l addrs /\ wq_sem q <= zlen l /\
    Forall (fun i => w_cb i = Some start_msg_cb -> live sh (w_data i)) l }.

Definition nc_ok (s : netcfg) : Prop :=
  match shape s with Some (addrs, types) => NoDup addrs /\ NoDup types | None => True end /\ queue_ok (shape s) (nc_workq s).

(** The state with a given list of handlers, as far as addresses and types go. *)
Definition with_shape (addrs types : list Z) (s : netcfg) : Prop := nc_ok s /\ shape s = Some (addrs, types).

Lemma find_lookup {A} (P : A -> Prop) `{forall x, Decision (P x)} (l : list A) i x : list_find P l = Some (i, x) -> l !! i = Some x /\ P x.
Proof. intros Hf. by apply list_find_Some in Hf as (? & ? & _). Qed.

Lemma insert_same_fmap {A B} (f : A -> B) (l : list A) i x y : l !! i = Some x -> f y = f x -> f <$> <[i := y]> l = f <$> l.
Proof. intros Hl Hf. rewrite list_fmap_insert, Hf. apply list_insert_id. by rewrite list_lookup_fmap, Hl. Qed.

Lemma upd_handler_total addrs types a f :
  a ∈ addrs -> (forall h, h_addr (f h) = h_addr h /\ h_type (f h) = h_type h) ->
  total (with_shape addrs types) (upd_handler a f) (fun _ => with_shape addrs types).
Proof.
  intros Ha Hf s [Hok Hsh]. unfold upd_handler, handlers, put_handlers. unfold shape in Hsh.
  destruct (p_netcfg_session s) as [hs|] eqn:Hs; [|done]. injection Hsh as <- <-.
  unfold mbind, prog_bind, gets, lift. rewrite Hs. cbv beta iota.
  apply list_elem_of_fmap in Ha as (h & -> & Hh).
  destruct (list_find_elem_of (fun h' => h_addr h' = h_addr h) hs h Hh eq_refl) as [[i h'] Hfind]. rewrite Hfind. cbv beta iota.
  eexists _, _. split; [reflexivity|]. apply find_lookup in Hfind as [Hi _]. destruct (Hf h') as [Hfa Hft].
  assert (Hshape : shape (set_session (Some (<[i:=f h']> hs)) s) = shape s).
  { unfold shape. cbn. by rewrite Hs, (insert_same_fmap h_addr hs i h'), (insert_same_fmap h_type hs i h'). }
  cbn [fst snd]. split; [|rewrite Hshape; unfold shape; by rewrite Hs].
  unfold nc_ok in *. rewrite Hshape. exact Hok.
Qed.

(** What does not look at the list, the queue or the callbacks' numbers. *)
Lemma modify_same_total (P : netcfg -> Prop) f :
  (forall s, P s -> P (f s)) -> total P (modify f) (fun _ => P).
Proof. intros Hf. by apply total_modify. Qed.

Lemma same_shape addrs types s s' :
  p_netcfg_session s' = p_netcfg_session s -> nc_workq s' = nc_workq s -> with_shape addrs types s -> with_shape addrs types s'.
Proof. intros Hs Hw. unfold with_shape, nc_ok, shape. by rewrite Hs, Hw. Qed.

Lemma call_total addrs types c : total (with_shape addrs types) (call c) (fun _ => with_shape addrs types).
Proof. eapply total_bind; [apply modify_same_total; intros s; by apply same_shape|]. intros ?. by apply total_ret. Qed.

Hypothesis place_fresh : fresh_place place.

Lemma schedule_queue_ok sh w cb data alloc post :
  queue_ok sh w -> (cb = start_msg_cb -> live sh data) ->
  exists rt w', tal_workq_schedule place w WORKQ_HIGHTPRI (Some cb) data alloc post = Some (rt, w') /\ queue_ok sh w'.
Proof.
  intros [(q & l & addrs & Hq & Hr & Hsem & Hl)] Hcb. unfold tal_workq_schedule.
  assert (Hget : tal_workq_get_handle w WORKQ_HIGHTPRI = Some q) by done. rewrite Hget. unfold tal_workqueue_schedule, schedule.
  destruct (input_ok place place_fresh q l addrs false cb data alloc Hr) as (q' & -> & Hlen & addrs' & Hr'). ub_step.
  set (rt := if negb alloc then _ else _).
  assert (Hnew : forall l', rep q' l' addrs' -> l' = l \/ l' = l ++ [Work (Some cb) data] ->
    Forall (fun i => w_cb i = Some start_msg_cb -> live sh (w_data i)) l').
  { intros l' _ [-> | ->]; [done|]. apply Forall_app. split; [done|]. constructor; [|done]. cbn. intros [= ->]. by apply Hcb. }
  destruct (bool_decide_reflect (OPRT_OK = rt)) as [Hok|Hok].
  - unfold schedule_post. ub_step. do 2 eexists. split; [reflexivity|]. cbn [snd]. destruct alloc; [|done]. cbn [negb andb] in *.
    subst rt. destruct (bool_decide (zlen l = _)); [done|]. cbn [negb] in *.
    split. exists (if bool_decide (post = OPRT_OK) then WorkQueue q' (wq_sem q + 1) (last_cb q) else with_queue q q'), (l ++ [Work (Some cb) data]), addrs'.
    split; [by case_bool_decide|]. case_bool_decide; cbn; rewrite zlen_snoc; split_and!; try done; try lia; apply (Hnew _ Hr'); by right.
  - ub_step. do 2 eexists. split; [reflexivity|]. cbn [snd]. split. exists (with_queue q q'). cbn.
    assert (Hsame : rep q' l addrs').
    { subst rt. destruct alloc; [|done]. cbn [negb andb] in *. by destruct (bool_decide (zlen l = _)). }
    exists l, addrs'. split; [done|]. split_and!; try done.
Qed.

Lemma schedule_total sh cb data alloc post :
  (cb = start_msg_cb -> live sh data) ->
  total (fun s => nc_ok s /\ shape s = sh) (schedule_high cb data alloc post) (fun _ s => nc_ok s /\ shape s = sh).
Proof.
  intros Hcb s [[Hnd Hq] Hsh]. rewrite Hsh in *.
  destruct (schedule_queue_ok sh (nc_workq s) cb data alloc post Hq Hcb) as (rt & w & He & Hq').
  exists tt, (set_workq w s). split; [|split; [|done]].
  - unfold schedule_high. rewrite (bind_step _ _ _ _ _ (eq_refl : gets nc_workq s = Some (nc_workq s, s))).
    unfold lift. rewrite He. done.
  - unfold nc_ok. replace (shape (set_workq w s)) with sh by done. done.
Qed.

Lemma cancel_total P : (forall s, P s -> nc_ok s) ->
  total P (workq_cancel start_msg_cb) (fun _ s => queue_ok None (nc_workq s)).
Proof.
  intros HP s Hs. destruct (HP s Hs) as [_ [(q & l & addrs & Hq & Hr & Hsem & Hl)]].
  unfold workq_cancel. rewrite (bind_step _ _ _ _ _ (eq_refl : gets nc_workq s = Some (nc_workq s, s))).
  unfold tal_workq_cancel. assert (Hget : tal_workq_get_handle (nc_workq s) WORKQ_HIGHTPRI = Some q) by done. rewrite Hget.
  destruct (workqueue_cancel_ok q l addrs (Some start_msg_cb) 0 Hr ltac:(by left)) as (q' & He & _ & Hr'). rewrite He.
  do 2 eexists. split; [reflexivity|]. split. cbn. do 3 eexists. split; [reflexivity|]. split; [exact Hr'|]. cbn.
  split; [unfold zlen in *; by rewrite length_fmap|]. apply Forall_fmap, Forall_forall. intros i _. cbn.
  unfold cancelled, __work_cancel_traverse. cbn. case_bool_decide; cbn; [done|]. by case_match.
Qed.

Lemma uninit_total : total nc_ok netcfg_uninit (fun _ => nc_ok).
Proof.
  eapply total_bind; [apply (total_gets nc_ok _ (fun x s => nc_ok s /\ x = p_netcfg_session s)); done|].
  intros [hs|]; [|apply total_ret; tauto].
  eapply total_bind; [apply cancel_total; tauto|]. intros ?.
  eapply total_bind; [apply (total_modify _ _ (fun _ => nc_ok)); intros s Hs; by split|]. intros ?. by apply total_ret.
Qed.

(** Programs on a list of handlers of which only flags change. *)
Lemma session_total {A} (m : option (list netcfg_handler_t) -> prog netcfg A) :
  total (fun s => nc_ok s /\ p_netcfg_session s = None) (m None) (fun _ => nc_ok) ->
  (forall hs addrs types, addrs = h_addr <$> hs -> types = h_type <$> hs ->
     total (fun s => with_shape addrs types s /\ p_netcfg_session s = Some hs) (m (Some hs)) (fun _ => nc_ok)) ->
  total nc_ok (x ← gets p_netcfg_session; m x) (fun _ => nc_ok).
Proof.
  intros HN HS s Hs. rewrite (bind_step _ _ _ _ _ (eq_refl : gets p_netcfg_session s = Some (p_netcfg_session s, s))).
  destruct (p_netcfg_session s) as [hs|] eqn:E; [|by apply HN].
  apply (HS hs _ _ eq_refl eq_refl). split; [|done]. split; [done|]. unfold shape. by rewrite E.
Qed.

Lemma keep_shape_total {A} addrs types (P : netcfg -> Prop) (m : prog netcfg A) :
  total (with_shape addrs types) m (fun _ => with_shape addrs types) -> (forall s, P s -> with_shape addrs types s) ->
  total P m (fun _ => nc_ok).
Proof. intros Hm HP. eapply total_weaken; [exact Hm|done|]. by intros _ s [? _]. Qed.

Lemma stop_handler_total addrs types h : h_addr h ∈ addrs ->
  total (with_shape addrs types) (stop_handler h) (fun _ => with_shape addrs types).
Proof. intros Hh. eapply total_bind; [by apply upd_handler_total|]. intros ?. apply call_total. Qed.

Lemma find_type_in type hs h : find_type type hs = Some h -> h ∈ hs.
Proof.
  unfold find_type. destruct (list_find _ hs) as [[i x]|] eqn:E; [|done]. intros [= <-].
  apply find_lookup in E as [E _]. by eapply list_elem_of_lookup_2.
Qed.

Lemma get_type_total addrs types type :
  total (with_shape addrs types) (netcfg_get_handler type)
    (fun h s => with_shape addrs types s /\ match h with Some h => h_addr h ∈ addrs | None => True end).
Proof.
  intros s Hs. unfold netcfg_get_handler. rewrite (bind_step _ _ _ _ _ (eq_refl : gets p_netcfg_session s = Some (p_netcfg_session s, s))).
  do 2 eexists. split; [reflexivity|]. split; [done|]. destruct Hs as [_ Hs]. unfold shape in Hs.
  destruct (p_netcfg_session s) as [hs|]; [|done]. injection Hs as <- <-. cbn.
  destruct (find_type type hs) as [h|] eqn:E; [|done]. apply list_elem_of_fmap_2. by eapply find_type_in.
Qed.

Lemma netcfg_start_total addrs types type finish args alloc post :
  total (with_shape addrs types) (netcfg_start type finish args alloc post) (fun _ => with_shape addrs types).
Proof.
  eapply total_bind; [apply modify_same_total; intros s; by apply same_shape|]. intros ?.
  eapply total_bind; [apply get_type_total|]. intros [h|]; apply total_pure; intros Hin; [|by apply total_ret].
  eapply total_bind; [by apply upd_handler_total|]. intros ?.
  eapply total_bind; [apply (schedule_total (Some (addrs, types)) start_msg_cb (h_addr h) alloc post); done|].
  intros ?. by apply total_ret.
Qed.

Lemma start_msg_total addrs types a : a ∈ addrs ->
  total (with_shape addrs types) (__netcfg_start_msg_cb a) (fun _ => with_shape addrs types).
Proof.
  intros Ha. eapply total_bind.
  - intros s Hs. assert (Hget : exists h, get_handler a s = Some (h, s)).
    { destruct Hs as [_ Hs]. unfold get_handler, handlers, mbind, prog_bind, gets, lift. unfold shape in Hs.
      destruct (p_netcfg_session s) as [hs|] eqn:E; [|done]. injection Hs as <- <-. cbv beta iota.
      apply list_elem_of_fmap in Ha as (h & -> & Hh).
      destruct (list_find_elem_of (fun h' => h_addr h' = h_addr h) hs h Hh eq_refl) as [[i h'] ->]. by exists h'. }
    destruct Hget as [h Hget]. exists h, s. split; [done|]. exact Hs.
  - intros h. eapply total_bind; [apply call_total|]. intros rt. case_bool_decide; [|by apply total_ret].
    by apply upd_handler_total.
Qed.

(** The worker takes an item that is still in the queue; what it does not take stays valid. *)
Lemma take_queue_ok sh w q wait :
  queue_ok sh w -> wq_highpri w = Some q ->
  exists t q', work_take q wait = Some (t, q') /\ queue_ok sh (Service (wq_system w) (Some q')) /\
    match t with Called cb data => cb = start_msg_cb -> live sh data | _ => True end.
Proof.
  intros [(q0 & l & addrs & Hq & Hr & Hsem & Hl)] Hw. rewrite Hw in Hq. injection Hq as <-.
  assert (Hsame : queue_ok sh (Service (wq_system w) (Some q))) by (split; cbn; eauto 10).
  unfold work_take. destruct (bool_decide_reflect (last_cb q <> None)); cbn [orb]; [eauto|].
  destruct (bool_decide_reflect (wq_sem q <= 0)) as [Hz|Hz]; [eauto|].
  destruct (bool_decide_reflect (OPRT_OK <> wait)); [eauto|].
  destruct l as [|x l]; [rewrite (@zlen_nil WORK_ITEM_T) in Hsem; lia|].
  destruct (output_ok _ _ _ true Hr) as (q' & -> & _ & addrs' & Hr'). ub_step. cbn [head tail] in *.
  rewrite zlen_cons in Hsem. apply Forall_cons in Hl as [Hx Hl].
  change (bool_decide (OPRT_OK <> OPRT_OK)) with false. destruct x as [[c|] dt]; ub_step; do 2 eexists;
    (split; [reflexivity|]); (split; [split; cbn; do 3 eexists; split; [reflexivity|]; split; [exact Hr'|]; cbn; split_and!; try done; lia|]).
  - cbn in Hx. intros ->. by apply Hx.
  - done.
Qed.

Lemma done_queue_ok sh w : queue_ok sh w -> queue_ok sh (Service (wq_system w) (work_done <$> wq_highpri w)).
Proof. intros [(q & l & addrs & Hq & Hr & Hsem & Hl)]. split. rewrite Hq. cbn. eauto 10. Qed.

Lemma high_round_total wait : total nc_ok (high_round wait) (fun _ => nc_ok).
Proof.
  intros s [Hnd Hq]. pose proof Hq as [(q & l & addrs & Hw & Hrest)].
  destruct (take_queue_ok (shape s) (nc_workq s) q wait Hq Hw) as (t & q' & Ht & Hq' & Hcb).
  unfold high_round. rewrite (bind_step _ _ _ _ _ (eq_refl : gets nc_workq s = Some (nc_workq s, s))), Hw.
  assert (Hl : lift (work_take q wait) s = Some ((t, q'), s)) by (unfold lift; by rewrite Ht).
  rewrite (bind_step _ _ _ _ _ Hl). cbv beta iota.
  set (s1 := set_workq (Service (wq_system (nc_workq s)) (Some q')) s).
  assert (Hs1 : nc_ok s1) by (by split).
  rewrite (bind_step _ _ _ _ _ (eq_refl : modify (set_workq (Service (wq_system (nc_workq s)) (Some q'))) s = Some (tt, s1))).
  assert (Hstart : forall (m : prog netcfg unit), total nc_ok m (fun _ => nc_ok) -> exists x s', m s1 = Some (x, s') /\ nc_ok s')
    by (intros m Hm; by apply Hm).
  destruct t as [| |cb data|]; [apply Hstart; by apply total_ret..| |apply Hstart; by apply total_ret].
  assert (Hrun : total (fun s => s = s1) (if bool_decide (cb = start_msg_cb) then __netcfg_start_msg_cb data else mret tt) (fun _ => nc_ok)).
  { case_bool_decide as Hc; [|apply total_ret; by intros ? ->]. specialize (Hcb Hc).
    change (shape s) with (shape s1) in Hcb. destruct (shape s1) as [[as_ ts]|] eqn:Hsh; [|done].
    apply (keep_shape_total as_ ts _ _ (start_msg_total as_ ts data Hcb)). by intros ? ->. }
  eapply total_run; [eapply total_bind; [exact Hrun|]|reflexivity]. intros ?.
  apply total_modify. intros s2 [Hnd2 Hq2]. split; [done|]. by apply done_queue_ok.
Qed.

(** ** Every operation but [netcfg_unregister] *)

Inductive netcfg_op :=
  | OpInit (alloc : bool)
  | OpUninit
  | OpRegister (type start stop : Z) (block : option Z)
  | OpStart (type : Z) (finish args : option Z) (alloc : bool) (post : Z)
  | OpStop (type : Z)
  | OpStartOthers (type : Z) (env : Z -> bool * Z)
  | OpStopOthers (type : Z)
  | OpWorker (wait : Z)
  | OpForeign (cb data : Z) (alloc : bool) (post : Z).

Definition op_run (op : netcfg_op) : prog netcfg unit :=
  match op with
  | OpInit alloc => netcfg_init alloc;; mret tt
  | OpUninit => netcfg_uninit;; mret tt
  | OpRegister type start stop block => netcfg_register type start stop block;; mret tt
  | OpStart type finish args alloc post => netcfg_start type finish args alloc post;; mret tt
  | OpStop type => netcfg_stop type;; mret tt
  | OpStartOthers type env => netcfg_start_other_all type env;; mret tt
  | OpStopOthers type => netcfg_stop_other_all type;; mret tt
  | OpWorker wait => high_round wait
  | OpForeign cb data alloc post => schedule_high cb data alloc post
  end.

(** A registration needs the session and gets new memory; other modules have other callbacks. *)
Definition op_fine (s : netcfg) (op : netcfg_op) : Prop :=
  match op with
  | OpRegister _ _ _ block =>
      exists addrs types, shape s = Some (addrs, types) /\ match block with Some a => a ∉ addrs | None => True end
  | OpForeign cb _ _ _ => cb <> start_msg_cb
  | _ => True
  end.

Lemma live_mono sh sh' w : (forall a, live sh a -> live sh' a) -> queue_ok sh w -> queue_ok sh' w.
Proof.
  intros Hm [(q & l & addrs & Hq & Hr & Hsem & Hl)]. split. do 3 eexists. split; [exact Hq|]. split; [exact Hr|]. split; [done|].
  eapply Forall_impl; [exact Hl|]. intros i Hi Hc. by apply Hm, Hi.
Qed.

Lemma init_total alloc : total nc_ok (netcfg_init alloc) (fun _ => nc_ok).
Proof.
  apply session_total; [|intros; apply total_ret; by intros s [[? _] _]].
  destruct alloc; [|apply total_ret; tauto]. eapply (total_bind _ _ (fun _ => nc_ok)); [|intros ?; by apply total_ret].
  apply (total_modify _ _ (fun _ => nc_ok)). intros s [[_ Hq] Hs]. split; [split; constructor|].
  eapply live_mono; [|exact Hq]. unfold shape. by rewrite Hs.
Qed.

Lemma register_total s type start stop block :
  nc_ok s -> op_fine s (OpRegister type start stop block) ->
  exists x s', netcfg_register type start stop block s = Some (x, s') /\ nc_ok s'.
Proof.
  intros [Hnd Hq] (addrs & types & Hsh & Hb). rewrite Hsh in *. unfold shape in Hsh.
  destruct (p_netcfg_session s) as [hs|] eqn:Hs; [|done]. injection Hsh as <- <-.
  assert (Hh : handlers s = Some (hs, s)).
  { unfold handlers, mbind, prog_bind, gets, lift. by rewrite Hs. }
  unfold netcfg_register. rewrite (bind_step _ _ _ _ _ Hh).
  assert (Hok : nc_ok s) by (unfold nc_ok, shape; by rewrite Hs).
  destruct (find_type type hs) as [h|] eqn:Hf; [by do 2 eexists|].
  destruct block as [a|]; [|by do 2 eexists]. do 2 eexists. split; [reflexivity|]. unfold nc_ok, shape. cbn.
  destruct Hnd as [Hna Hnt]. split.
  - split; constructor; try done. intros Hin. apply list_elem_of_fmap in Hin as (h & -> & Hin). unfold find_type in Hf.
    destruct (list_find_elem_of (fun h' => h_type h' = h_type h) hs h Hin eq_refl) as [[i h'] E]. by rewrite E in Hf.
  - eapply live_mono; [|exact Hq]. intros b. cbn. by right.
Qed.

(** The loops over the handlers. *)
Lemma each_handler_total hs addrs types (body : netcfg_handler_t -> prog netcfg unit) :
  addrs = h_addr <$> hs ->
  (forall h, h_addr h ∈ addrs -> total (with_shape addrs types) (body h) (fun _ => with_shape addrs types)) ->
  total (with_shape addrs types) (for_each hs body) (fun _ => with_shape addrs types).
Proof. intros -> Hb. apply total_for_each. intros h Hh. by apply Hb, list_elem_of_fmap_2. Qed.

Lemma stop_if_total addrs types (c : bool) h : h_addr h ∈ addrs ->
  total (with_shape addrs types) (if c then stop_handler h;; mret tt else mret tt) (fun _ => with_shape addrs types).
Proof.
  intros Hh. destruct c; [|by apply total_ret]. eapply total_bind; [by apply stop_handler_total|]. intros ?. by apply total_ret.
Qed.

Lemma stop_total type : total nc_ok (netcfg_stop type) (fun _ => nc_ok).
Proof.
  unfold netcfg_stop. case_bool_decide as Ht.
  - intros s Hs. destruct (shape s) as [[as_ ts]|] eqn:Hsh.
    + revert s Hs Hsh. intros s Hs Hsh. eapply (total_run (with_shape as_ ts)); [|by split].
      eapply total_bind; [apply get_type_total|]. intros [h|]; apply total_pure; intros Hin; [|by apply total_ret; intros ? []].
      destruct (isStarted h); [|by apply total_ret; intros ? []].
      by apply (keep_shape_total as_ ts _ _ (stop_handler_total as_ ts h Hin)).
    + unfold shape in Hsh. destruct (p_netcfg_session s) eqn:E; [done|]. exists OPRT_INVALID_PARM, s. split; [|done].
      unfold netcfg_get_handler, mbind, prog_bind, gets. by rewrite E.
  - apply session_total; [apply total_ret; tauto|]. intros hs addrs types Ha Htt.
    eapply (total_bind _ _ (fun _ => nc_ok)).
    + eapply (keep_shape_total addrs types); [|by intros s [? _]]. apply each_handler_total; [done|].
      intros h Hh. by apply stop_if_total.
    + intros ?. eapply total_bind; [apply uninit_total|]. intros ?. by apply total_ret.
Qed.

Lemma stop_others_total type : total nc_ok (netcfg_stop_other_all type) (fun _ => nc_ok).
Proof.
  apply session_total; [apply total_ret; tauto|]. intros hs addrs types Ha Htt.
  eapply (total_bind _ _ (fun _ => nc_ok)); [|intros ?; by apply total_ret].
  eapply (keep_shape_total addrs types); [|by intros s [? _]]. apply each_handler_total; [done|].
  intros h Hh. by apply stop_if_total.
Qed.

Lemma start_others_total type env : total nc_ok (netcfg_start_other_all type env) (fun _ => nc_ok).
Proof.
  apply session_total; [apply total_ret; tauto|]. intros hs addrs types Ha Htt.
  eapply (total_bind _ _ (fun _ => nc_ok)); [|intros ?; by apply total_ret].
  eapply (keep_shape_total addrs types); [|by intros s [? _]]. apply each_handler_total; [done|].
  intros h Hh. destruct (_ && _ && _); [|by apply total_ret].
  eapply total_bind; [apply netcfg_start_total|]. intros ?. by apply total_ret.
Qed.

Lemma op_total s op : nc_ok s -> op_fine s op -> exists s', op_run op s = Some (tt, s') /\ nc_ok s'.
Proof.
  intros Hs Hf.
  assert (Hunit : forall (m : prog netcfg unit), total nc_ok m (fun _ => nc_ok) -> exists s', m s = Some (tt, s') /\ nc_ok s').
  { intros m Hm. destruct (Hm s Hs) as ([] & s' & He & Hs'). eauto. }
  assert (Hbind : forall A (m : prog netcfg A), total nc_ok m (fun _ => nc_ok) -> total nc_ok (m;; mret tt) (fun _ => nc_ok)).
  { intros A m Hm. eapply total_bind; [exact Hm|]. intros ?. by apply total_ret. }
  destruct op as [alloc| |type start stop block|type finish args alloc post|type|type env|type|wait|cb data alloc post]; cbn [op_run].
  - apply Hunit, Hbind, init_total.
  - apply Hunit, Hbind, uninit_total.
  - destruct (register_total s type start stop block Hs Hf) as (x & s' & He & Hs'). exists s'. by rewrite (bind_step _ _ _ _ _ He).
  - apply Hunit, Hbind. intros s1 Hs1. destruct (shape s1) as [[as_ ts]|] eqn:Hsh.
    + by apply (keep_shape_total as_ ts _ _ (netcfg_start_total as_ ts type finish args alloc post) ltac:(done) s1 (conj Hs1 Hsh)).
    + unfold shape in Hsh. destruct (p_netcfg_session s1) eqn:E; [done|].
      exists OPRT_INVALID_PARM, (set_inited s1). split; [|by unfold nc_ok, shape in *; cbn in *; rewrite E in *].
      unfold netcfg_start. rewrite (bind_step _ _ _ _ _ (eq_refl : modify set_inited s1 = Some (tt, set_inited s1))).
      unfold netcfg_get_handler, mbind, prog_bind, gets. cbn. by rewrite E.
  - apply Hunit, Hbind, stop_total.
  - apply Hunit, Hbind, start_others_total.
  - apply Hunit, Hbind, stop_others_total.
  - apply Hunit, high_round_total.
  - apply Hunit. intros s1 Hs1. cbn in Hf.
    destruct (schedule_total (shape s1) cb data alloc post ltac:(done) s1 (conj Hs1 eq_refl)) as (x & s2 & He & Hs2 & _). eauto.
Qed.

(** ** What a start does *)

(** The high-priority queue has exactly the items [l], its worker is idle. *)
Definition queued (w : workq_service) (l : list WORK_ITEM_T) : Prop :=
  exists q addrs, wq_highpri w = Some q /\ rep (wq_queue q) l addrs /\ wq_sem q = zlen l /\ last_cb q = None.

(** The handler at position [i] is the only one with its type and its address. *)
Definition handler_at (hs : list netcfg_handler_t) (i : nat) (h : netcfg_handler_t) : Prop :=
  list_find (fun x => h_type x = h_type h) hs = Some (i, h) /\ list_find (fun x => h_addr x = h_addr h) hs = Some (i, h).

Lemma handler_at_lookup hs i h : handler_at hs i h -> hs !! i = Some h.
Proof. intros [Hf _]. by apply find_lookup in Hf as [? _]. Qed.

Lemma handler_at_insert hs i h h' :
  handler_at hs i h -> h_addr h' = h_addr h -> h_type h' = h_type h -> handler_at (<[i := h']> hs) i h'.
Proof.
  intros [Ht Ha] Hea Het. rewrite list_find_Some in Ht, Ha.
  destruct Ht as (Hi & _ & Ht), Ha as (_ & _ & Ha). pose proof (lookup_lt_Some _ _ _ Hi) as Hlt.
  split; apply list_find_Some; (split; [by apply list_lookup_insert_eq|split; [done|]]);
    intros j y Hj Hlj; rewrite list_lookup_insert_ne in Hj by lia; rewrite ?Hea, ?Het; eauto.
Qed.

Lemma upd_handler_run hs i h f s :
  p_netcfg_session s = Some hs -> handler_at hs i h ->
  upd_handler (h_addr h) f s = Some (tt, set_session (Some (<[i := f h]> hs)) s).
Proof. intros Hs [_ Ha]. unfold upd_handler, handlers, mbind, prog_bind, gets, lift. rewrite Hs. by rewrite Ha. Qed.

Lemma get_handler_run hs i h s :
  p_netcfg_session s = Some hs -> handler_at hs i h -> get_handler (h_addr h) s = Some (h, s).
Proof. intros Hs [_ Ha]. unfold get_handler, handlers, mbind, prog_bind, gets, lift. rewrite Hs. by rewrite Ha. Qed.

Lemma get_type_run hs i h s :
  p_netcfg_session s = Some hs -> handler_at hs i h -> netcfg_get_handler (h_type h) s = Some (Some h, s).
Proof. intros Hs [Ht _]. unfold netcfg_get_handler, mbind, prog_bind, gets. rewrite Hs. cbn. unfold find_type. by rewrite Ht. Qed.

Lemma start_run hs i h s finish args :
  p_netcfg_session s = Some hs -> handler_at hs i h -> queued (nc_workq s) [] ->
  exists w, netcfg_start (h_type h) finish args true OPRT_OK s =
      Some (OPRT_OK, Netcfg (Some (<[i := set_finish h finish args]> hs)) true w (nc_calls s)) /\
    queued w [Work (Some start_msg_cb) (h_addr h)].
Proof.
  intros Hs Hh (q & addrs & Hq & Hr & Hsem & Hlast).
  assert (Hget : tal_workq_get_handle (nc_workq s) WORKQ_HIGHTPRI = Some q) by done.
  pose proof (rep_len _ _ _ Hr) as Hpos.
  destruct (input_ok place place_fresh q [] addrs false start_msg_cb (h_addr h) true Hr) as (q' & Hin & Hlen & addrs' & Hr').
  rewrite (@zlen_nil WORK_ITEM_T), (bool_decide_false (0 = _)) in Hin, Hr' by lia. cbn [negb andb app] in *.
  exists (Service (wq_system (nc_workq s)) (Some (WorkQueue q' (wq_sem q + 1) (last_cb q)))). split.
  - unfold netcfg_start. rewrite (bind_step _ _ _ _ _ (eq_refl : modify set_inited s = Some (tt, set_inited s))).
    rewrite (bind_step _ _ _ _ _ (get_type_run hs i h (set_inited s) Hs Hh)).
    rewrite (bind_step _ _ _ _ _ (upd_handler_run hs i h _ (set_inited s) Hs Hh)).
    unfold schedule_high, mbind, prog_bind, gets, lift, modify. cbn [nc_workq set_session set_inited].
    unfold tal_workq_schedule. rewrite Hget. unfold tal_workqueue_schedule, schedule. rewrite Hin. done.
  - do 2 eexists. split; [reflexivity|]. split; [exact Hr'|]. cbn. by rewrite Hsem.
Qed.

(** The worker with one start message: the handler is started, or memory that is gone is read. *)
Lemma worker_run hs s a :
  p_netcfg_session s = Some hs -> queued (nc_workq s) [Work (Some start_msg_cb) a] ->
  match list_find (fun x => h_addr x = a) hs with
  | None => high_round OPRT_OK s = None
  | Some (i, h) =>
      let c := StartCall (h_start h) (h_type h) (h_finish_cb h) (h_args h) in
      exists w, queued w [] /\
        high_round OPRT_OK s = Some (tt, Netcfg (Some (if bool_decide (ret c = OPRT_OK) then <[i := set_started h true]> hs else hs))
          (isInited s) w (nc_calls s ++ [c]))
  end.
Proof.
  intros Hs (q & addrs & Hq & Hr & Hsem & Hlast).
  destruct (output_ok _ _ _ true Hr) as (q' & Hout & _ & addrs' & Hr'). cbn [head tail] in *.
  change (zlen [Work (Some start_msg_cb) a]) with 1 in Hsem.
  assert (Htake : work_take q OPRT_OK = Some (Called start_msg_cb a, WorkQueue q' (wq_sem q - 1) (Some start_msg_cb))).
  { unfold work_take. rewrite Hlast, Hsem. change (bool_decide (@None Z <> None)) with false. cbn [orb].
    rewrite bool_decide_false by lia. change (bool_decide (OPRT_OK <> OPRT_OK)) with false. by rewrite Hout. }
  assert (Hround : forall rt, high_round OPRT_OK s = rt <->
    (x ← __netcfg_start_msg_cb a (set_workq (Service (wq_system (nc_workq s)) (Some (WorkQueue q' (wq_sem q - 1) (Some start_msg_cb)))) s);
     Some (tt, set_workq (Service (wq_system (nc_workq (snd x))) (work_done <$> wq_highpri (nc_workq (snd x)))) (snd x))) = rt).
  { intros rt. unfold high_round, mbind at 1, prog_bind, gets. rewrite Hq. unfold mbind at 1, lift. rewrite Htake.
    unfold mbind at 1, modify. rewrite bool_decide_true by done. unfold mbind at 1.
    destruct (__netcfg_start_msg_cb a _) as [[[] s']|]; done. }
  destruct (list_find (fun x => h_addr x = a) hs) as [[i h]|] eqn:Hf.
  - set (c := StartCall _ _ _ _). exists (Service (wq_system (nc_workq s)) (Some (WorkQueue q' 0 None))). split.
    { do 2 eexists. split; [reflexivity|]. split; [exact Hr'|]. done. }
    apply Hround. set (s1 := set_workq _ s).
    assert (Hget : get_handler a s1 = Some (h, s1)).
    { unfold get_handler, handlers, mbind, prog_bind, gets, lift. cbn [set_workq p_netcfg_session s1]. by rewrite Hs, Hf. }
    unfold __netcfg_start_msg_cb. rewrite (bind_step _ _ _ _ _ Hget). fold c.
    rewrite (bind_step _ _ _ _ _ (eq_refl : call c s1 = Some (ret c, add_call c s1))).
    destruct (bool_decide (ret c = OPRT_OK)); [|cbn; rewrite Hsem; by destruct s; cbn in *; subst].
    assert (Hupd : upd_handler a (fun h => set_started h true) (add_call c s1) =
      Some (tt, set_session (Some (<[i := set_started h true]> hs)) (add_call c s1))).
    { unfold upd_handler, handlers, mbind, prog_bind, gets, lift. cbn [set_workq add_call p_netcfg_session s1]. by rewrite Hs, Hf. }
    rewrite Hupd. cbn. by rewrite Hsem.
  - apply Hround. unfold __netcfg_start_msg_cb, get_handler, handlers, mbind, prog_bind, gets, lift.
    cbn [set_workq p_netcfg_session]. by rewrite Hs, Hf.
Qed.
End netcfg.

(** The module before its first call, with an empty high-priority queue. *)
Definition netcfg_new (w : workq_service) : netcfg := Netcfg None false w [].

Definition netcfg_step place ret start_msg_cb (s s' : netcfg) : Prop :=
  exists op, op_fine start_msg_cb s op /\ op_run place ret start_msg_cb op s = Some (tt, s').

Lemma reach_ok place ret start_msg_cb w s :
  fresh_place place -> queued w [] -> rtc (netcfg_step place ret start_msg_cb) (netcfg_new w) s -> nc_ok start_msg_cb s.
Proof.
  intros Hp (q & addrs & Hq & Hr & Hsem & _) Hs.
  assert (H0 : nc_ok start_msg_cb (netcfg_new w)).
  { split; [done|]. split. do 3 eexists. split; [exact Hq|]. split; [exact Hr|]. split; [|done]. rewrite Hsem. done. }
  revert H0. induction Hs as [|s s1 s2 (op & Hf & He) _ IH]; [done|]. intros Hok. apply IH.
  destruct (op_total place ret start_msg_cb Hp s op Hok Hf) as (s1' & He' & Hok'). rewrite He in He'. by injection He' as <-.
Qed.


(** A start is carried out by the worker with the callback and the arguments of the caller, and the
    handler counts as started exactly when its function succeeds (or it was started before). *)
Theorem netcfg_start_runs place ret start_msg_cb hs i h s finish args :
  fresh_place place -> p_netcfg_session s = Some hs -> handler_at hs i h -> queued (nc_workq s) [] ->
  let c := StartCall (h_start h) (h_type h) finish args in
  exists s1 s2, netcfg_start place start_msg_cb (h_type h) finish args true OPRT_OK s = Some (OPRT_OK, s1) /\
    high_round ret start_msg_cb OPRT_OK s1 = Some (tt, s2) /\ nc_calls s2 = nc_calls s ++ [c] /\ queued (nc_workq s2) [] /\
    exists hs' h', p_netcfg_session s2 = Some hs' /\ hs' !! i = Some h' /\ h_finish_cb h' = finish /\ h_args h' = args /\
      isStarted h' = bool_decide (ret c = OPRT_OK) || isStarted h.
Proof.
  intros Hp Hs Hh Hq c.
  destruct (start_run place start_msg_cb Hp hs i h s finish args Hs Hh Hq) as (w & He & Hw).
  set (s1 := Netcfg (Some (<[i := set_finish h finish args]> hs)) true w (nc_calls s)) in *. exists s1.
  pose proof (handler_at_insert hs i h (set_finish h finish args) Hh eq_refl eq_refl) as Hh1.
  pose proof (worker_run ret start_msg_cb (<[i := set_finish h finish args]> hs) s1 (h_addr h) eq_refl Hw) as Hrun.
  destruct Hh1 as [_ Ha]. cbn [h_addr set_finish] in Ha. rewrite Ha in Hrun. destruct Hrun as (w2 & Hw2 & Hround).
  eexists. split; [exact He|]. split; [exact Hround|]. split; [done|]. split; [exact Hw2|]. cbn [p_netcfg_session].
  pose proof (lookup_lt_Some _ _ _ (handler_at_lookup _ _ _ Hh)) as Hlt. unfold c. cbn [h_start h_type h_finish_cb h_args set_finish].
  destruct (bool_decide (ret (StartCall (h_start h) (h_type h) finish args) = OPRT_OK)).
  - eexists _, _. split; [reflexivity|]. split; [apply list_lookup_insert_eq; by rewrite length_insert|done].
  - eexists _, _. split; [reflexivity|]. split; [by apply list_lookup_insert_eq|done].
Qed.

(** A stop that comes before the worker has carried out the start is lost: it succeeds without a call
    of the handler's stop function, and the handler is started after it. *)
Theorem netcfg_stop_lost place ret start_msg_cb hs i h s finish args :
  fresh_place place -> p_netcfg_session s = Some hs -> handler_at hs i h -> queued (nc_workq s) [] ->
  isStarted h = false -> h_type h <> 0 ->
  let c := StartCall (h_start h) (h_type h) finish args in
  ret c = OPRT_OK ->
  exists s1 s2, netcfg_start place start_msg_cb (h_type h) finish args true OPRT_OK s = Some (OPRT_OK, s1) /\
    netcfg_stop ret start_msg_cb (h_type h) s1 = Some (OPRT_OK, s1) /\
    high_round ret start_msg_cb OPRT_OK s1 = Some (tt, s2) /\ nc_calls s2 = nc_calls s ++ [c] /\
    exists hs' h', p_netcfg_session s2 = Some hs' /\ hs' !! i = Some h' /\ isStarted h' = true.
Proof.
  intros Hp Hs Hh Hq Hns Ht c Hc.
  destruct (start_run place start_msg_cb Hp hs i h s finish args Hs Hh Hq) as (w & He & Hw).
  set (s1 := Netcfg (Some (<[i := set_finish h finish args]> hs)) true w (nc_calls s)) in *. exists s1.
  pose proof (handler_at_insert hs i h (set_finish h finish args) Hh eq_refl eq_refl) as Hh1.
  pose proof (worker_run ret start_msg_cb (<[i := set_finish h finish args]> hs) s1 (h_addr h) eq_refl Hw) as Hrun.
  pose proof Hh1 as [_ Ha]. cbn [h_addr set_finish] in Ha. rewrite Ha in Hrun. destruct Hrun as (w2 & Hw2 & Hround).
  cbn [h_start h_type h_finish_cb h_args set_finish] in Hround. rewrite bool_decide_true in Hround by done.
  eexists. split; [exact He|]. split.
  { unfold netcfg_stop. rewrite bool_decide_true by done.
    rewrite (bind_step _ _ _ _ _ (get_type_run _ i (set_finish h finish args) s1 eq_refl Hh1)). cbn [isStarted set_finish]. by rewrite Hns. }
  split; [exact Hround|]. split; [done|]. eexists _, _. split; [reflexivity|].
  pose proof (lookup_lt_Some _ _ _ (handler_at_lookup _ _ _ Hh)) as Hlt.
  split; [apply list_lookup_insert_eq; by rewrite length_insert|done].
Qed.

(** Unregistering a handler between its start and the worker frees memory that the worker reads. *)
Theorem netcfg_unregister_dangling place ret start_msg_cb hs i h s finish args :
  fresh_place place -> p_netcfg_session s = Some hs -> handler_at hs i h -> NoDup (h_addr <$> hs) -> queued (nc_workq s) [] ->
  exists s1 s2, netcfg_start place start_msg_cb (h_type h) finish args true OPRT_OK s = Some (OPRT_OK, s1) /\
    netcfg_unregister (h_type h) s1 = Some (OPRT_OK, s2) /\
    high_round ret start_msg_cb OPRT_OK s2 = None.
Proof.
  intros Hp Hs Hh Hnd Hq.
  destruct (start_run place start_msg_cb Hp hs i h s finish args Hs Hh Hq) as (w & He & Hw).
  set (hs1 := <[i := set_finish h finish args]> hs) in *. set (s1 := Netcfg (Some hs1) true w (nc_calls s)) in *.
  pose proof (handler_at_insert hs i h (set_finish h finish args) Hh eq_refl eq_refl) as Hh1. fold hs1 in Hh1.
  set (s2 := set_session (Some (delete i hs1)) s1). exists s1, s2. split; [exact He|]. split.
  { unfold netcfg_unregister. rewrite (bind_step _ _ _ _ _ (eq_refl : gets p_netcfg_session s1 = Some (Some hs1, s1))).
    destruct Hh1 as [Ht _]. cbn [h_type set_finish] in Ht. by rewrite Ht. }
  pose proof (worker_run ret start_msg_cb (delete i hs1) s2 (h_addr h) eq_refl Hw) as Hrun.
  assert (Hnone : list_find (fun x => h_addr x = h_addr h) (delete i hs1) = None).
  { apply list_find_None, Forall_forall. intros x Hx Heq.
    assert (Hnd1 : NoDup (h_addr <$> hs1)) by (subst hs1; by rewrite (insert_same_fmap h_addr hs i h) by (done || by apply handler_at_lookup)).
    rewrite (delete_Permutation hs1 i _ (handler_at_lookup _ _ _ Hh1)) in Hnd1. cbn in Hnd1. apply NoDup_cons in Hnd1 as [Hni _].
    apply Hni. rewrite <- Heq. by apply list_elem_of_fmap_2. }
  by rewrite Hnone in Hrun.
Qed.

(** ** Witnesses *)

Lemma demo_workq : exists w, queued w [].
Proof.
  destruct demo_delayed as (q & Hr & _). exists (Service None (Some (WorkQueue q 0 None))), (WorkQueue q 0 None), [].
  by split_and!.
Qed.

Definition demo_handler : netcfg_handler_t := Handler 1000 2 11 12 None None false.
Definition demo_netcfg (w : workq_service) : netcfg := Netcfg (Some [demo_handler]) false w [].

Lemma demo_netcfg_reach w : rtc (netcfg_step fresh (fun _ => OPRT_OK) 77) (netcfg_new w) (demo_netcfg w).
Proof.
  apply (rtc_l _ _ (Netcfg (Some []) false w [])); [by exists (OpInit true)|].
  apply rtc_once. exists (OpRegister 2 11 12 (Some 1000)). split; [|done].
  exists [], []. split; [done|]. apply not_elem_of_nil.
Qed.


Lemma demo_handler_at : handler_at [demo_handler] 0 demo_handler.
Proof. done. Qed.

Lemma netcfg_start_runs_witness :
  exists w s1 s2, netcfg_start fresh 77 2 (Some 7) None true OPRT_OK (demo_netcfg w) = Some (OPRT_OK, s1) /\
    high_round (fun _ => OPRT_OK) 77 OPRT_OK s1 = Some (tt, s2) /\ nc_calls s2 = [StartCall 11 2 (Some 7) None].
Proof.
  destruct demo_workq as [w Hw].
  destruct (netcfg_start_runs fresh (fun _ => OPRT_OK) 77 [demo_handler] 0 demo_handler (demo_netcfg w) (Some 7) None
    is_fresh eq_refl demo_handler_at Hw) as (s1 & s2 & H1 & H2 & H3 & _).
  exists w, s1, s2. split; [exact H1|]. split; [exact H2|exact H3].
Defined.

Lemma netcfg_stop_lost_witness :
  exists w s1 s2, netcfg_start fresh 77 2 (Some 7) None true OPRT_OK (demo_netcfg w) = Some (OPRT_OK, s1) /\
    netcfg_stop (fun _ => OPRT_OK) 77 2 s1 = Some (OPRT_OK, s1) /\
    high_round (fun _ => OPRT_OK) 77 OPRT_OK s1 = Some (tt, s2) /\ nc_calls s2 = [StartCall 11 2 (Some 7) None].
Proof.
  destruct demo_workq as [w Hw].
  destruct (netcfg_stop_lost fresh (fun _ => OPRT_OK) 77 [demo_handler] 0 demo_handler (demo_netcfg w) (Some 7) None
    is_fresh eq_refl demo_handler_at Hw eq_refl ltac:(done) eq_refl) as (s1 & s2 & H1 & H2 & H3 & H4 & _).
  exists w, s1, s2. split; [exact H1|]. split; [exact H2|]. split; [exact H3|exact H4].
Defined.

Lemma netcfg_unregister_dangling_witness :
  exists w s1 s2, netcfg_start fresh 77 2 (Some 7) None true OPRT_OK (demo_netcfg w) = Some (OPRT_OK, s1) /\
    netcfg_unregister 2 s1 = Some (OPRT_OK, s2) /\ high_round (fun _ => OPRT_OK) 77 OPRT_OK s2 = None.
Proof.
  destruct demo_workq as [w Hw].
  destruct (netcfg_unregister_dangling fresh (fun _ => OPRT_OK) 77 [demo_handler] 0 demo_handler (demo_netcfg w) (Some 7) None
    is_fresh eq_refl demo_handler_at ltac:(apply NoDup_singleton) Hw) as (s1 & s2 & H1 & H2 & H3).
  exists w, s1, s2. split; [exact H1|]. split; [exact H2|exact H3].
Defined.
