(* ===== verification/BleNetcfg.v ===== *)
(** * Network configuration over BLE

    src/src/tuya_cloud_service/ble/ble_netcfg.c: a handler of the network configuration (NetCfg) and the
    function of a BLE channel (BleChannel). The JSON library is a parameter, as in GkUser; what the module
    does to others is a list of effects. *)
From S2P Require Import Prelude StateM Queue WorkQueue BlePacket BleChannel NetCfg.

Definition WIFI_SSID_LEN : Z := 32.
Definition WIFI_PASSWD_LEN : Z := 64.
Definition WL_TOKEN_LEN : Z := 16.
Definition NETCFG_TUYA_BLE : Z := 2.
Definition FRM_DATA_TRANS_SUBCMD_BT_NETCFG : Z := 1.

Record netcfg_info_t := Info { ssid : bytes; s_len : Z; passwd : bytes; p_len : Z; token : bytes; t_len : Z }.

(** The callback of the caller, [None] for NULL; the field [netcfg_args] is never used. *)
Record ble_netcfg_t := BleNetcfg { netcfg_info : netcfg_info_t; netcfg_finish_cb : option Z }.

Definition netcfg_info_zero : netcfg_info_t := Info (replicate 33 0) 0 (replicate 65 0) 0 (replicate 17 0) 0.

(** A string in memory; without a terminator the search leaves the memory. *)
Definition c_text (a : bytes) : option bytes := if bool_decide (0 ∈ a) then Some (c_string a) else None.

Section json.
Context {cJSON : Type}.
Variable cJSON_Parse : bytes -> option cJSON.
Variable cJSON_GetObjectItem : cJSON -> bytes -> option cJSON.
(** The field [valuestring]: [None] for NULL. *)
Variable valuestring : cJSON -> option bytes.

Inductive netcfg_effect :=
  | Finish (cb type : Z) (info : netcfg_info_t)
  | SaveRegister (reg : cJSON)
  | Respond (type sn : Z) (data : bytes)
  | AdvUpdate.

(** [junk]: the first byte of the response is not set. *)
Definition net_cfg_response (junk result : Z) : netcfg_effect :=
  Respond FRM_UPLINK_TRANSPARENT_REQ 0 [junk; 0; 0; FRM_DATA_TRANS_SUBCMD_BT_NETCFG; result].

Definition __handle_net_cfg (g : ble_netcfg_t) (junk : Z) (data : bytes) : option (ble_netcfg_t * list netcfg_effect) :=
  text ← c_text data;
  match cJSON_Parse text with
  | None => Some (g, [net_cfg_response junk (u8 OPRT_CJSON_PARSE_ERR)])
  | Some json =>
      match cJSON_GetObjectItem json (c_str "ssid"), cJSON_GetObjectItem json (c_str "token") with
      | Some s, Some t =>
          match p ← cJSON_GetObjectItem json (c_str "pwd"); valuestring p with
          | None => Some (g, [net_cfg_response junk (u8 OPRT_CJSON_GET_ERR)])
          | Some pw =>
              let i := netcfg_info g in
              s ← valuestring s;
              ssid ← strncpy (ssid i) s (WIFI_SSID_LEN + 1);
              passwd ← strncpy (passwd i) pw (WIFI_PASSWD_LEN + 1);
              t ← valuestring t;
              token ← strncpy (token i) t (WL_TOKEN_LEN + 1);
              let i := Info ssid (u8 (zlen s)) passwd (u8 (zlen pw)) token (u8 (zlen t)) in
              cb ← netcfg_finish_cb g;
              Some (BleNetcfg i (netcfg_finish_cb g),
                    [Finish cb NETCFG_TUYA_BLE i] ++
                    match cJSON_GetObjectItem json (c_str "reg") with Some reg => [SaveRegister reg] | None => [] end ++
                    [net_cfg_response junk 0])
          end
      | _, _ => Some (g, [net_cfg_response junk (u8 OPRT_CJSON_GET_ERR)])
      end
  end.

(** [handle]: the function [__handle_net_cfg] as a channel function. *)
Definition ble_netcfg_start (handle : Z) (g : ble_netcfg_t) (ch : channel_state) (cb : option Z)
    : option (Z * ble_netcfg_t * channel_state * list netcfg_effect) :=
  r ← ble_channel_add ch BLE_CHANNLE_NETCFG (Some handle);
  Some (OPRT_OK, BleNetcfg (netcfg_info g) cb, snd r, [AdvUpdate]).

Definition ble_netcfg_stop (ch : channel_state) : option (Z * channel_state) :=
  r ← ble_channel_del ch BLE_CHANNLE_NETCFG; Some (OPRT_OK, snd r).

(** [start], [stop]: the functions of the handler; [block]: the memory of its node. *)
Definition ble_netcfg_init (start stop : Z) (block : option Z) : prog netcfg (ble_netcfg_t * Z) :=
  rt ← netcfg_register NETCFG_TUYA_BLE start stop block;
  mret (BleNetcfg netcfg_info_zero None, rt).

(** ** Strings in fixed arrays *)

(** An array of [n + 1] bytes holds the text [s] when it is not longer than [n]. *)
Lemma strncpy_fits dst s n :
  0 <= n -> zlen dst = n + 1 -> zlen s <= n -> no_nul s ->
  exists r, strncpy dst s (n + 1) = Some r /\ zlen r = n + 1 /\ c_string r = s.
Proof.
  intros Hn Hd Hs Hnul. unfold strncpy. pose proof (zlen_nonneg s).
  rewrite (take_ge s) by (unfold zlen in *; lia).
  assert (Hl : zlen (s ++ replicate (Z.to_nat (n + 1 - zlen s)) 0) = n + 1).
  { rewrite zlen_app. unfold zlen at 2. rewrite length_replicate. lia. }
  rewrite mwrite_full by lia. eexists. split; [reflexivity|]. split; [done|].
  replace (Z.to_nat (n + 1 - zlen s)) with (S (Z.to_nat (n - zlen s))) by lia. by apply c_string_nul.
Qed.

(** A longer text fills the array to the end. *)
Lemma strncpy_cuts dst s n :
  0 <= n -> zlen dst = n + 1 -> n < zlen s -> no_nul s ->
  exists r, strncpy dst s (n + 1) = Some r /\ zlen r = n + 1 /\ 0 ∉ r.
Proof.
  intros Hn Hd Hs Hnul. unfold strncpy.
  assert (Hl : zlen (take (Z.to_nat (n + 1)) s) = n + 1) by (rewrite zlen_take; lia).
  rewrite Hl, Z.sub_diag. change (Z.to_nat 0) with 0%nat. cbn [replicate]. rewrite app_nil_r.
  rewrite mwrite_full by lia. eexists. split; [reflexivity|]. split; [done|].
  intros Hin. pose proof (no_nul_take (Z.to_nat (n + 1)) s Hnul) as Ht. unfold no_nul in Ht. rewrite Forall_forall in Ht. by apply (Ht 0 Hin).
Qed.

Lemma c_text_nul s rest : no_nul s -> c_text (s ++ 0 :: rest) = Some s.
Proof. intros Hs. unfold c_text. rewrite bool_decide_true by set_solver. by rewrite c_string_nul. Qed.

(** The arrays of the handle keep their sizes. *)
Definition info_ok (i : netcfg_info_t) : Prop :=
  zlen (ssid i) = WIFI_SSID_LEN + 1 /\ zlen (passwd i) = WIFI_PASSWD_LEN + 1 /\ zlen (token i) = WL_TOKEN_LEN + 1.

(** What a text says: the members that the function reads. *)
Definition says (text s pw t : bytes) (reg : option cJSON) : Prop :=
  exists json js jp jt, cJSON_Parse text = Some json /\
    cJSON_GetObjectItem json (c_str "ssid") = Some js /\ valuestring js = Some s /\
    cJSON_GetObjectItem json (c_str "pwd") = Some jp /\ valuestring jp = Some pw /\
    cJSON_GetObjectItem json (c_str "token") = Some jt /\ valuestring jt = Some t /\
    cJSON_GetObjectItem json (c_str "reg") = reg.

(** From the phone to the application: after a start, a packet of the network-configuration channel
    with a terminated JSON text calls the finish callback of the caller once, with exactly the name, the
    password and the token of the text when they fit, then saves the registration data, if any, and
    answers with success. *)
Theorem ble_netcfg_delivers handle cb g ch e f0 f1 sn mode junk text s pw t reg :
  info_ok (netcfg_info g) -> zlen (channels ch) = BLE_CHANNEL_MAX -> Z.land f1 2 = 0 -> no_nul text ->
  says text s pw t reg -> no_nul s -> no_nul pw -> no_nul t ->
  zlen s <= WIFI_SSID_LEN -> zlen pw <= WIFI_PASSWD_LEN -> zlen t <= WL_TOKEN_LEN ->
  let raw := [f0; f1; 0; BLE_CHANNLE_NETCFG] ++ text ++ [0] in
  exists g1 ch1, ble_netcfg_start handle g ch (Some cb) = Some (OPRT_OK, g1, ch1, [AdvUpdate]) /\
    ble_session_channel_process e ch1 (Packet sn FRM_DOWNLINK_TRANSPARENT_REQ (zlen raw) (Some raw) mode) =
      Some (ch1, [], [(handle, text ++ [0])]) /\
    exists g2 i, __handle_net_cfg g1 junk (text ++ [0]) =
        Some (g2, [Finish cb NETCFG_TUYA_BLE i] ++ option_list (SaveRegister <$> reg) ++ [net_cfg_response junk 0]) /\
      info_ok i /\ c_string (ssid i) = s /\ s_len i = zlen s /\ c_string (passwd i) = pw /\ p_len i = zlen pw /\
      c_string (token i) = t /\ t_len i = zlen t.
Proof.
  intros (Hi1 & Hi2 & Hi3) Hch Hf Htext (json & js & jp & jt & Hj & H1 & H2 & H3 & H4 & H5 & H6 & H7) Hns Hnp Hnt Hls Hlp Hlt raw.
  unfold ble_netcfg_start, ble_channel_add. rewrite bool_decide_true by done.
  destruct (zset_is_Some (channels ch) BLE_CHANNLE_NETCFG (Some handle)) as [l Hl]; [rewrite Hch; done|].
  rewrite Hl. ub_step. do 2 eexists. split; [reflexivity|]. split.
  - unfold ble_session_channel_process. cbn [p_type]. rewrite bool_decide_true by done. cbn [orb].
    unfold downlink_req. cbn [p_data]. ub_step. change (zget raw 1) with (Some f1). ub_step.
    rewrite bool_decide_false by (rewrite Hf; tauto). change (drop 2 raw) with ([0; BLE_CHANNLE_NETCFG] ++ text ++ [0]).
    unfold ble_channel_process. change (zget ([0; BLE_CHANNLE_NETCFG] ++ text ++ [0]) 0) with (Some 0).
    change (zget ([0; BLE_CHANNLE_NETCFG] ++ text ++ [0]) 1) with (Some BLE_CHANNLE_NETCFG). ub_step.
    change (Z.lor (Z.shiftl 0 8) BLE_CHANNLE_NETCFG) with BLE_CHANNLE_NETCFG. rewrite bool_decide_true by done.
    cbn [channels snd fst]. apply zset_inv in Hl as (_ & Hlen & Hsame & Hget). rewrite Hsame. done.
  - unfold __handle_net_cfg. rewrite (c_text_nul text []) by done. ub_step. rewrite Hj, H1, H5, H3. ub_step.
    rewrite H4. cbn [netcfg_info netcfg_finish_cb]. rewrite H2. ub_step.
    destruct (strncpy_fits (ssid (netcfg_info g)) s WIFI_SSID_LEN) as (r1 & -> & Hr1 & Hc1); [done..|]. ub_step.
    destruct (strncpy_fits (passwd (netcfg_info g)) pw WIFI_PASSWD_LEN) as (r2 & -> & Hr2 & Hc2); [done..|]. ub_step.
    rewrite H6. ub_step.
    destruct (strncpy_fits (token (netcfg_info g)) t WL_TOKEN_LEN) as (r3 & -> & Hr3 & Hc3); [done..|]. ub_step.
    unfold WIFI_SSID_LEN, WIFI_PASSWD_LEN, WL_TOKEN_LEN in *.
    pose proof (zlen_nonneg s). pose proof (zlen_nonneg pw). pose proof (zlen_nonneg t).
    rewrite H7, !(wrap_small 8) by (unfold in_u; lia). do 2 eexists. split; [by destruct reg|]. by split_and!.
Qed.

(** A network name longer than its array is accepted: the application gets an array without a
    terminator and a length that is greater than the longest name. *)
Theorem ble_netcfg_long_name g cb junk text s pw t reg :
  info_ok (netcfg_info g) -> netcfg_finish_cb g = Some cb -> no_nul text ->
  says text s pw t reg -> no_nul s -> no_nul pw -> no_nul t ->
  WIFI_SSID_LEN < zlen s < 256 -> zlen pw <= WIFI_PASSWD_LEN -> zlen t <= WL_TOKEN_LEN ->
  exists g2 i rest, __handle_net_cfg g junk (text ++ [0]) = Some (g2, Finish cb NETCFG_TUYA_BLE i :: rest) /\
    0 ∉ ssid i /\ zlen (ssid i) = WIFI_SSID_LEN + 1 /\ s_len i = zlen s.
Proof.
  intros (Hi1 & Hi2 & Hi3) Hcb Htext (json & js & jp & jt & Hj & H1 & H2 & H3 & H4 & H5 & H6 & H7) Hns Hnp Hnt Hls Hlp Hlt.
  unfold __handle_net_cfg. rewrite (c_text_nul text []) by done. ub_step. rewrite Hj, H1, H5, H3. ub_step. rewrite H4, H2. ub_step.
  destruct (strncpy_cuts (ssid (netcfg_info g)) s WIFI_SSID_LEN) as (r1 & -> & Hr1 & Hc1); [done|done|lia|done|]. ub_step.
  destruct (strncpy_fits (passwd (netcfg_info g)) pw WIFI_PASSWD_LEN) as (r2 & -> & Hr2 & Hc2); [done..|]. ub_step.
  rewrite H6. ub_step.
  destruct (strncpy_fits (token (netcfg_info g)) t WL_TOKEN_LEN) as (r3 & -> & Hr3 & Hc3); [done..|]. ub_step.
  rewrite Hcb. ub_step. unfold WIFI_SSID_LEN in *. do 3 eexists. split; [reflexivity|]. cbn.
  rewrite (wrap_small 8) by (unfold in_u; lia). done.
Qed.

(** Two ways to read memory that is not there: a text without a terminator (the bytes of the packet
    have none of their own), and a name or a token that is not a string of the JSON text. *)
Theorem ble_netcfg_unchecked g junk :
  (forall data, 0 ∉ data -> __handle_net_cfg g junk data = None) /\
  (forall text json js jp pw jt, no_nul text -> cJSON_Parse text = Some json ->
     cJSON_GetObjectItem json (c_str "ssid") = Some js ->
     cJSON_GetObjectItem json (c_str "pwd") = Some jp -> valuestring jp = Some pw ->
     cJSON_GetObjectItem json (c_str "token") = Some jt -> valuestring js = None \/ valuestring jt = None ->
     __handle_net_cfg g junk (text ++ [0]) = None).
Proof.
  split.
  - intros data Hd. unfold __handle_net_cfg, c_text. by rewrite bool_decide_false.
  - intros text json js jp pw jt Htext Hj H1 H2 H3 H4 Hbad. unfold __handle_net_cfg. rewrite (c_text_nul text []) by done. ub_step.
    rewrite Hj, H1, H4, H2. ub_step. rewrite H3. destruct Hbad as [-> | ->]; [done|].
    destruct (valuestring js) as [s|]; [|done]. ub_step. destruct (strncpy _ s _); [|done]. ub_step. by destruct (strncpy _ pw _).
Qed.
End json.

(** ** Witnesses *)

(** A JSON object of one level, the only text that the demonstration parser knows. *)
Inductive demo_json := DemoObject (members : list (bytes * demo_json)) | DemoValue (text : option bytes).

Definition demo_text : bytes := c_str "{...}".
Definition demo_object (s : option bytes) : demo_json :=
  DemoObject [(c_str "ssid", DemoValue s); (c_str "pwd", DemoValue (Some (c_str "secret")));
              (c_str "token", DemoValue (Some (c_str "AY12")))].
Definition demo_get (j : demo_json) (key : bytes) : option demo_json :=
  match j with DemoObject l => snd <$> List.find (fun p => bool_decide (fst p = key)) l | DemoValue _ => None end.
Definition demo_str (j : demo_json) : option bytes := match j with DemoValue s => s | DemoObject _ => None end.
Definition demo_parse (s : option bytes) (t : bytes) : option demo_json := if bool_decide (t = demo_text) then Some (demo_object s) else None.

Lemma demo_says s : says (demo_parse (Some s)) demo_get demo_str demo_text s (c_str "secret") (c_str "AY12") None.
Proof. do 4 eexists. by split_and!. Qed.

Lemma no_nul_check s : forallb (fun b => negb (b =? 0)) s = true -> no_nul s.
Proof. intros Hs. apply Forall_forall. intros b Hb. rewrite forallb_forall in Hs. specialize (Hs b). rewrite list_elem_of_In in Hb. specialize (Hs Hb). lia. Qed.

Lemma ble_netcfg_delivers_witness :
  let g := BleNetcfg netcfg_info_zero None in
  let raw := [0; 0; 0; 1] ++ demo_text ++ [0] in
  exists g1 ch1, ble_netcfg_start 5 g channel_start (Some 9) = Some (OPRT_OK, g1, ch1, [@AdvUpdate demo_json]) /\
    ble_session_channel_process demo_channel_env ch1 (Packet 1 FRM_DOWNLINK_TRANSPARENT_REQ (zlen raw) (Some raw) 0) =
      Some (ch1, [], [(5, demo_text ++ [0])]) /\
    exists g2 i, __handle_net_cfg (demo_parse (Some (c_str "home"))) demo_get demo_str g1 7 (demo_text ++ [0]) =
        Some (g2, [Finish 9 NETCFG_TUYA_BLE i; net_cfg_response 7 0]) /\ c_string (ssid i) = c_str "home" /\ s_len i = 4.
Proof.
  intros g raw.
  destruct (ble_netcfg_delivers (demo_parse (Some (c_str "home"))) demo_get demo_str 5 9 g channel_start demo_channel_env 0 0 1 0 7 demo_text
    (c_str "home") (c_str "secret") (c_str "AY12") None ltac:(done) ltac:(done) ltac:(done) ltac:(by apply no_nul_check) (demo_says _)
    ltac:(by apply no_nul_check) ltac:(by apply no_nul_check) ltac:(by apply no_nul_check) ltac:(done) ltac:(done) ltac:(done))
    as (g1 & ch1 & H1 & H2 & g2 & i & H3 & _ & H4 & H5 & _).
  exists g1, ch1. split; [exact H1|]. split; [exact H2|]. exists g2, i. split; [exact H3|]. split; [exact H4|exact H5].
Defined.

Lemma ble_netcfg_long_name_witness :
  exists g2 i rest, __handle_net_cfg (demo_parse (Some (replicate 40 65))) demo_get demo_str (BleNetcfg netcfg_info_zero (Some 9)) 7 (demo_text ++ [0]) =
      Some (g2, Finish 9 NETCFG_TUYA_BLE i :: rest) /\ 0 ∉ ssid i /\ zlen (ssid i) = 33 /\ s_len i = 40.
Proof.
  exact (ble_netcfg_long_name (demo_parse (Some (replicate 40 65))) demo_get demo_str (BleNetcfg netcfg_info_zero (Some 9)) 9 7 demo_text
    (replicate 40 65) (c_str "secret") (c_str "AY12") None ltac:(done) eq_refl ltac:(by apply no_nul_check) (demo_says _)
    ltac:(by apply no_nul_check) ltac:(by apply no_nul_check) ltac:(by apply no_nul_check) ltac:(by vm_compute) ltac:(done) ltac:(done)).
Defined.

Lemma ble_netcfg_unchecked_witness :
  __handle_net_cfg (demo_parse None) demo_get demo_str (BleNetcfg netcfg_info_zero (Some 9)) 7 [123; 125] = None /\
  __handle_net_cfg (demo_parse None) demo_get demo_str (BleNetcfg netcfg_info_zero (Some 9)) 7 (demo_text ++ [0]) = None.
Proof.
  destruct (ble_netcfg_unchecked (demo_parse None) demo_get demo_str (BleNetcfg netcfg_info_zero (Some 9)) 7) as [H1 H2]. split.
  - apply H1. set_solver by lia.
  - eapply (H2 demo_text (demo_object None) (DemoValue None) (DemoValue (Some (c_str "secret"))) (c_str "secret") (DemoValue (Some (c_str "AY12"))));
      [by apply no_nul_check|done..|by left].
Defined.
