(* ===== verification/NetMgr.v ===== *)
(** * The network manager

    src/src/tuya_cloud_service/netmgr: the list of connections by priority and the choice of the
    active one (netmgr.c), the Wi-Fi connection with its reconnection (netconn_wifi.c), the wired and
    the cellular one, as programs on the state of the files (StateM) with a trace of effects. *)
From stdpp Require Import functions.
From S2P Require Import Prelude StateM BleNetcfg.

Definition OPRT_RESOURCE_NOT_READY : Z := -23.

(** ** Data

    The types of connections are bits of a set. *)
Definition NETCONN_AUTO : Z := 1.
Definition NETCONN_WIFI : Z := 2.
Definition NETCONN_WIRED : Z := 4.
Definition NETCONN_CELLULAR : Z := 8.

Inductive netmgr_status_e := NETMGR_LINK_DOWN | NETMGR_LINK_UP | NETMGR_LINK_UP_SWITH.
#[export] Instance netmgr_status_dec : EqDecision netmgr_status_e.
Proof. solve_decision. Defined.

Inductive netmgr_conn_config_type_e :=
| NETCONN_CMD_PRI | NETCONN_CMD_IP | NETCONN_CMD_MAC | NETCONN_CMD_STATUS | NETCONN_CMD_SSID_PSWD
| NETCONN_CMD_COUNTRYCODE | NETCONN_CMD_NETCFG | NETCONN_CMD_SET_STATUS_CB | NETCONN_CMD_CLOSE | NETCONN_CMD_RESET.

Inductive netconn_wifi_conn_status_e :=
| NETCONN_WIFI_CONN_REDAY | NETCONN_WIFI_CONN_CHECK | NETCONN_WIFI_CONN_LINKUP | NETCONN_WIFI_CONN_WAIT | NETCONN_WIFI_CONN_STOP.
#[export] Instance netconn_wifi_conn_status_dec : EqDecision netconn_wifi_conn_status_e.
Proof. solve_decision. Defined.

Inductive netmgr_wifi_msg_type_t := NETCONN_WIFI_MSG_CONNECT | NETCONN_WIFI_MSG_DISCONNECT.
#[export] Instance netmgr_wifi_msg_type_dec : EqDecision netmgr_wifi_msg_type_t.
Proof. solve_decision. Defined.

Definition NETCFG_STOP_ALL_CFG_MODULE : Z := 0.
Definition NETCFG_TUYA_WIFI_AP : Z := 1.
Definition TUYA_NETMGR_NETCFG_AP : Z := 1.
Definition TUYA_NETMGR_NETCFG_BLE : Z := 2.
Definition WIFI_CONN_TIMEOUT_MAX : Z := 20.
Definition COUNTRY_CODE_LEN : Z := 8.

(** [event_cb]: whether the callback is set, it is always [__netmgr_event_cb]. *)
Record netmgr_conn_base_t := Base { pri : Z; status : netmgr_status_e; event_cb : bool }.

(** Arrays of 33 and of 65 bytes. *)
Record netconn_wifi_info_t := WifiInfo { wi_ssid : bytes; wi_pswd : bytes }.

(** The fields after [base]. [netcfg]: the type, uuid and pincode. [timer]: [None] before it is created, then
    whether it runs, with its time in milliseconds. *)
Record netmgr_conn_wifi_t := Wifi {
  ccode : bytes; netcfg : Z * (option bytes * option bytes);
  stat : netconn_wifi_conn_status_e; count : Z; table : list Z; timer : option (option Z); wifi_conn_info : netconn_wifi_info_t }.

(** What the files call, besides each other. [N_call]: a function whose result is looked at. *)
Inductive netmgr_call :=
| tal_mutex_create_init | tal_wifi_init | tal_wifi_set_country_code (code : bytes) | tal_sw_timer_create
| tal_event_subscribe_reset | tal_event_subscribe_activate | tal_malloc | tal_workq_schedule
| tal_wifi_set_ip (a : bytes) | tal_wifi_set_mac (a : bytes) | tal_wifi_get_ip | tal_wifi_get_mac
| tal_wired_set_status_cb | tal_wired_set_ip (a : bytes) | tal_wired_set_mac (a : bytes) | tal_wired_get_ip | tal_wired_get_mac
| tal_cellular_set_status_cb | tal_cellular_get_ip
| tal_kv_set (value : bytes) | tal_kv_get | tal_wifi_station_disconnect | netcfg_stop (type : Z).

Inductive netmgr_event :=
| N_link_type (active : Z) | N_link_status (st : netmgr_status_e)
| N_call (c : netmgr_call)
| N_station_connect (ssid pswd : bytes) | N_set_work_mode | N_lp_disable | N_scan
| N_kv_del | N_netcfg_init | N_netcfg_port (type : Z) | N_netcfg_start (type : Z)
| N_unsubscribe_activate | N_link_activate (region token regist_key : bytes)
| N_token_port (type : Z) | N_lan_init | N_ble_init | N_cellular_init.

(** The three static connections are [bases], [conn] is the linked list of those that are registered.
    [kv_netinfo] is the key "netinfo", [is_activated] a field of the client, [msgs] the messages in the
    system's work queue, [calls] the number of calls so far. *)
Record netmgr_t := Netmgr {
  inited : bool; type : Z; active : Z; nm_status : netmgr_status_e; conn : list Z;
  bases : Z -> netmgr_conn_base_t; wifi : netmgr_conn_wifi_t;
  kv_netinfo : option bytes; is_activated : bool; msgs : list netmgr_wifi_msg_type_t; calls : Z; nm_trace : list netmgr_event }.

Definition set_netmgr i t a st s : netmgr_t :=
  Netmgr i t a st (conn s) (bases s) (wifi s) (kv_netinfo s) (is_activated s) (msgs s) (calls s) (nm_trace s).
Definition set_conn l s : netmgr_t :=
  Netmgr (inited s) (type s) (active s) (nm_status s) l (bases s) (wifi s) (kv_netinfo s) (is_activated s) (msgs s) (calls s) (nm_trace s).
Definition set_base t (f : netmgr_conn_base_t -> netmgr_conn_base_t) s : netmgr_t :=
  Netmgr (inited s) (type s) (active s) (nm_status s) (conn s) (<[t := f (bases s t)]> (bases s))
    (wifi s) (kv_netinfo s) (is_activated s) (msgs s) (calls s) (nm_trace s).
Definition set_wifi w s : netmgr_t :=
  Netmgr (inited s) (type s) (active s) (nm_status s) (conn s) (bases s) w (kv_netinfo s) (is_activated s) (msgs s) (calls s) (nm_trace s).
Definition set_netinfo k s : netmgr_t :=
  Netmgr (inited s) (type s) (active s) (nm_status s) (conn s) (bases s) (wifi s) k (is_activated s) (msgs s) (calls s) (nm_trace s).
Definition set_msgs q s : netmgr_t :=
  Netmgr (inited s) (type s) (active s) (nm_status s) (conn s) (bases s) (wifi s) (kv_netinfo s) (is_activated s) q (calls s) (nm_trace s).
Definition count_call s : netmgr_t :=
  Netmgr (inited s) (type s) (active s) (nm_status s) (conn s) (bases s) (wifi s) (kv_netinfo s) (is_activated s) (msgs s) (calls s + 1) (nm_trace s).
Definition trace_event (e : netmgr_event) s : netmgr_t :=
  Netmgr (inited s) (type s) (active s) (nm_status s) (conn s) (bases s) (wifi s) (kv_netinfo s) (is_activated s) (msgs s) (calls s) (nm_trace s ++ [e]).

Definition set_pri p b := Base p (status b) (event_cb b).
Definition set_link st b := Base (pri b) st (event_cb b).
Definition set_event_cb b := Base (pri b) (status b) true.

Definition set_stat st w := Wifi (ccode w) (netcfg w) st (count w) (table w) (timer w) (wifi_conn_info w).
Definition set_count c w := Wifi (ccode w) (netcfg w) (stat w) c (table w) (timer w) (wifi_conn_info w).
Definition set_timer t w := Wifi (ccode w) (netcfg w) (stat w) (count w) (table w) t (wifi_conn_info w).
Definition set_info i w := Wifi (ccode w) (netcfg w) (stat w) (count w) (table w) (timer w) i.
Definition set_netcfg n w := Wifi (ccode w) n (stat w) (count w) (table w) (timer w) (wifi_conn_info w).
Definition set_ccode c w := Wifi c (netcfg w) (stat w) (count w) (table w) (timer w) (wifi_conn_info w).

(** The initial values of the static variables. *)
Definition netconn_info_zero : netconn_wifi_info_t := WifiInfo (replicate 33 0) (replicate 65 0).
Definition s_netmgr_wifi : netmgr_conn_wifi_t :=
  Wifi (c_str "CN" ++ replicate 7 0) (0, (None, None)) NETCONN_WIFI_CONN_REDAY 0 [1; 3; 5; 10; 15; 20] None netconn_info_zero.
Definition s_bases (t : Z) : netmgr_conn_base_t :=
  Base (if bool_decide (t = NETCONN_WIRED) then 2 else if bool_decide (t = NETCONN_WIFI) then 1 else 0) NETMGR_LINK_DOWN false.
Definition s_netmgr (netinfo : option bytes) (activated : bool) : netmgr_t :=
  Netmgr false 0 0 NETMGR_LINK_DOWN [] s_bases s_netmgr_wifi netinfo activated [] 0 [].

(** A parameter of a get or a set: the object behind the pointer, [P_NULL] none. *)
Inductive netmgr_param :=
| P_NULL | P_int (z : Z) | P_status (st : netmgr_status_e) | P_address (a : bytes) | P_wifi_info (i : netconn_wifi_info_t)
| P_code (a : bytes) | P_netcfg (n : Z * (option bytes * option bytes)).

(** What cJSON makes of the key: the items "s" and "p", each with its string when it is one. *)
Definition netinfo_json : Type := option (option (option bytes) * option (option bytes)).

(** ** Operations *)

Section netmgr.
Notation netmgr := (prog netmgr_t).
(** The configuration of the build. *)
Context (ENABLE_WIFI ENABLE_WIRED ENABLE_CELLULAR ENABLE_BLUETOOTH : bool).
(** The result of the n-th call; for [tal_malloc] it is 0 when there is memory. *)
Context (answer : Z -> Z).
(** What the n-th call writes: the address that a driver reports. *)
Context (address : Z -> bytes).
Context (cJSON_Parse : bytes -> netinfo_json).

Definition emit (e : netmgr_event) : netmgr unit := modify (trace_event e).
Definition call (c : netmgr_call) : netmgr Z := n ← gets calls; modify count_call;; emit (N_call c);; mret (answer n).
Definition checked (m k : netmgr Z) : netmgr Z := rt ← m; if bool_decide (rt = OPRT_OK) then k else mret rt.

(** *** netmgr.c *)

(** [get(NETCONN_CMD_STATUS, ...)] of each connection. *)
Definition get_status (t : Z) : netmgr netmgr_status_e := gets (fun s => status (bases s t)).

(** The first connection of the list that is up. *)
Fixpoint active_loop (l : list Z) (active_type : Z) : netmgr Z :=
  match l with
  | [] => mret active_type
  | t :: l => st ← get_status t; if bool_decide (st = NETMGR_LINK_UP) then mret t else active_loop l active_type
  end.

Definition get_active_conn : netmgr Z :=
  l ← gets conn;
  match l with [] => mret NETCONN_AUTO | t :: _ => active_loop l t end.

Definition get_conn_by_type (t : Z) : netmgr (option Z) :=
  l ← gets conn;
  if bool_decide (NETCONN_AUTO = t) then mret None else mret (if bool_decide (t ∈ l) then Some t else None).

Definition get_netmgr_status (t : Z) (st : netmgr_status_e) : netmgr (Z * netmgr_status_e) :=
  if bool_decide (NETCONN_AUTO = t) then mret (OPRT_INVALID_PARM, st)
  else
    supported ← gets type;
    if bool_decide (Z.land supported t = 0) then mret (OPRT_NOT_SUPPORTED, NETMGR_LINK_DOWN)
    else
      l ← gets conn;
      if bool_decide (t ∈ l) then st ← get_status t; mret (OPRT_OK, st) else mret (OPRT_OK, NETMGR_LINK_DOWN).

Definition netmgr_event_cb (t : Z) (_ : netmgr_status_e) : netmgr unit :=
  supported ← gets type;
  if bool_decide (Z.land supported t = 0) then mret tt
  else
    active_conn ← get_active_conn;
    '(_, active_status) ← get_netmgr_status active_conn NETMGR_LINK_DOWN;
    st ← gets nm_status; a ← gets active;
    if bool_decide (active_status <> st /\ active_conn <> a) then
      modify (fun s => set_netmgr (inited s) (type s) active_conn active_status s);;
      emit (N_link_type active_conn);; emit (N_link_status active_status)
    else if bool_decide (active_status <> st) then
      modify (fun s => set_netmgr (inited s) (type s) (active s) active_status s);;
      emit (N_link_status active_status)
    else if bool_decide (active_conn <> a) then
      modify (fun s => set_netmgr (inited s) (type s) active_conn (nm_status s) s);;
      emit (N_link_type active_conn)
    else mret tt.

(** [base.event_cb(type, status)]: a call through a pointer that may be NULL. *)
Definition call_event_cb (t : Z) : netmgr unit :=
  b ← gets (fun s => bases s t); if event_cb b then netmgr_event_cb t (status b) else ub.

(** *** netconn_wifi.c *)

Definition on_wifi (f : netmgr_conn_wifi_t -> netmgr_conn_wifi_t) : netmgr unit := modify (fun s => set_wifi (f (wifi s)) s).

(** A timer that was not created is refused. *)
Definition wifi_timer_start (ms : Z) : netmgr unit :=
  on_wifi (fun w => match timer w with Some _ => set_timer (Some (Some ms)) w | None => w end).
Definition wifi_timer_stop : netmgr unit :=
  on_wifi (fun w => match timer w with Some _ => set_timer (Some None) w | None => w end).

Definition netconn_wifi_connect_process (msg : netmgr_wifi_msg_type_t) : netmgr unit :=
  match msg with
  | NETCONN_WIFI_MSG_CONNECT =>
      call tal_wifi_station_disconnect;;
      wifi_timer_start (WIFI_CONN_TIMEOUT_MAX * 1000);;
      on_wifi (set_stat NETCONN_WIFI_CONN_CHECK);;
      emit N_set_work_mode;;
      w ← gets wifi;
      emit (N_station_connect (c_string (wi_ssid (wifi_conn_info w))) (c_string (wi_pswd (wifi_conn_info w))))
  | NETCONN_WIFI_MSG_DISCONNECT =>
      wifi_timer_stop;;
      on_wifi (set_count 0);;
      on_wifi (set_stat NETCONN_WIFI_CONN_STOP);;
      call tal_wifi_station_disconnect;;
      wifi_timer_start 1500
  end.

Definition wifi_schedule (msg : netmgr_wifi_msg_type_t) : netmgr Z :=
  memory ← call tal_malloc;
  if bool_decide (memory <> OPRT_OK) then mret OPRT_MALLOC_FAILED
  else
    rt ← call tal_workq_schedule;
    (if bool_decide (rt = OPRT_OK) then modify (fun s => set_msgs (msgs s ++ [msg]) s) else mret tt);;
    mret rt.

Definition netconn_wifi_connect : netmgr Z :=
  w ← gets wifi;
  if bool_decide (NETCONN_WIFI_CONN_LINKUP = stat w) then mret OPRT_OK else wifi_schedule NETCONN_WIFI_MSG_CONNECT.

Definition netconn_wifi_disconnect : netmgr Z :=
  w ← gets wifi;
  if bool_decide (NETCONN_WIFI_CONN_STOP = stat w \/ NETCONN_WIFI_CONN_REDAY = stat w) then mret OPRT_OK
  else wifi_schedule NETCONN_WIFI_MSG_DISCONNECT.

(** The wait before the next attempt, which grows along the table. *)
Definition wifi_wait : netmgr unit :=
  w ← gets wifi;
  t ← lift (zget (table w) (count w));
  wifi_timer_start (u32 (t * 1000));;
  (if bool_decide (count w < zlen (table w) - 1) then on_wifi (set_count (count w + 1)) else mret tt);;
  on_wifi (set_stat NETCONN_WIFI_CONN_WAIT).

Definition netconn_wifi_event (connected : bool) : netmgr unit :=
  wifi_timer_stop;;
  (if connected then
     on_wifi (set_count 0);;
     on_wifi (set_stat NETCONN_WIFI_CONN_LINKUP);;
     modify (set_base NETCONN_WIFI (set_link NETMGR_LINK_UP))
   else
     w ← gets wifi;
     (if bool_decide (NETCONN_WIFI_CONN_CHECK = stat w \/ NETCONN_WIFI_CONN_WAIT = stat w) then wifi_wait
      else if bool_decide (NETCONN_WIFI_CONN_LINKUP = stat w) then
        on_wifi (set_stat NETCONN_WIFI_CONN_REDAY);; netconn_wifi_connect;; mret tt
      else mret tt);;
     modify (set_base NETCONN_WIFI (set_link NETMGR_LINK_DOWN)));;
  b ← gets (fun s => bases s NETCONN_WIFI);
  if event_cb b then netmgr_event_cb NETCONN_WIFI (status b) else mret tt.

Definition netconn_wifi_conn_timer : netmgr unit :=
  w ← gets wifi;
  if bool_decide (NETCONN_WIFI_CONN_WAIT = stat w) then
    netconn_wifi_connect;; on_wifi (set_stat NETCONN_WIFI_CONN_CHECK)
  else if bool_decide (NETCONN_WIFI_CONN_STOP = stat w) then on_wifi (set_stat NETCONN_WIFI_CONN_REDAY)
  else if bool_decide (NETCONN_WIFI_CONN_CHECK = stat w) then wifi_wait
  else mret tt.

Definition netinfo_text (ssid pswd : bytes) : bytes :=
  c_str "{" ++ [34] ++ c_str "s" ++ [34; 58; 34] ++ ssid ++ [34; 44; 34] ++ c_str "p" ++ [34; 58; 34] ++ pswd ++ [34] ++ c_str "}".

Definition netconn_wifi_info_set (info : netconn_wifi_info_t) : netmgr Z :=
  ssid ← lift (c_read (wi_ssid info)); pswd ← lift (c_read (wi_pswd info));
  netinfo ← lift (strcpy (replicate 128 0) (netinfo_text ssid pswd));
  rt ← call (tal_kv_set (c_string netinfo));
  (if bool_decide (rt = OPRT_OK) then modify (set_netinfo (Some (c_string netinfo))) else mret tt);;
  mret rt.

Definition netconn_wifi_info_get : netmgr Z :=
  checked (rt ← call tal_kv_get; k ← gets kv_netinfo;
           mret (if bool_decide (rt = OPRT_OK) then match k with Some _ => OPRT_OK | None => OPRT_NOT_FOUND end else rt))
    (k ← gets kv_netinfo;
     match cJSON_Parse (default [] k) with
     | Some (Some s, Some p) =>
         w ← gets wifi;
         text ← lift s; ssid ← lift (strcpy (wi_ssid (wifi_conn_info w)) text);
         text ← lift p; pswd ← lift (strcpy (wi_pswd (wifi_conn_info w)) text);
         on_wifi (set_info (WifiInfo ssid pswd));;
         mret OPRT_OK
     | _ => mret OPRT_CJSON_PARSE_ERR
     end).

Definition wifi_link_activete_cb : netmgr Z := call (netcfg_stop NETCFG_STOP_ALL_CFG_MODULE).

Definition REGION_LEN : Z := 2.
Definition TOKEN_LEN : Z := 8.
Definition REGIST_KEY_LEN : Z := 4.

Definition netconn_wifi_netcfg_finish (info : netcfg_info_t) : netmgr Z :=
  w ← gets wifi;
  ssid ← lift (memcpy (wi_ssid (wifi_conn_info w)) 0 (ssid info) 0 (s_len info));
  pswd ← lift (memcpy (wi_pswd (wifi_conn_info w)) 0 (passwd info) 0 (p_len info));
  on_wifi (set_info (WifiInfo ssid pswd));;
  netconn_wifi_info_set (WifiInfo ssid pswd);;
  call (netcfg_stop NETCFG_STOP_ALL_CFG_MODULE);;
  region ← lift (mread (token info) 0 REGION_LEN);
  tok ← lift (mread (token info) REGION_LEN TOKEN_LEN);
  key ← lift (mread (token info) (REGION_LEN + TOKEN_LEN) REGIST_KEY_LEN);
  emit N_unsubscribe_activate;;
  emit (N_link_activate region tok key);;
  netconn_wifi_connect;;
  mret OPRT_OK.

(** [uuid], [pincode]: of the client's configuration. *)
Definition netconn_activate_token_get (uuid pincode : option bytes) : netmgr Z :=
  on_wifi (fun w => set_netcfg (fst (netcfg w), (uuid, pincode)) w);;
  rt ← call tal_event_subscribe_activate;
  emit N_netcfg_init;;
  w ← gets wifi;
  (if bool_decide (Z.land (fst (netcfg w)) TUYA_NETMGR_NETCFG_AP = 0) then mret tt
   else emit (N_netcfg_port NETCFG_TUYA_WIFI_AP);; emit (N_netcfg_start NETCFG_TUYA_WIFI_AP));;
  (if ENABLE_BLUETOOTH && negb (bool_decide (Z.land (fst (netcfg w)) TUYA_NETMGR_NETCFG_BLE = 0)) then
     emit (N_netcfg_port NETCFG_TUYA_BLE);; emit (N_netcfg_start NETCFG_TUYA_BLE)
   else mret tt);;
  mret rt.

Definition wifi_reset_event_cb : netmgr Z :=
  wifi_timer_stop;;
  on_wifi (set_stat NETCONN_WIFI_CONN_STOP);;
  rt ← call tal_wifi_station_disconnect;
  activated ← gets is_activated;
  if (activated : bool) then
    emit N_kv_del;; modify (set_netinfo None);; on_wifi (set_info netconn_info_zero);; mret rt
  else call (netcfg_stop NETCFG_STOP_ALL_CFG_MODULE).

Definition netconn_wifi_open : netmgr Z :=
  checked (call tal_wifi_init) (
  w ← gets wifi;
  checked (call (tal_wifi_set_country_code (c_string (ccode w)))) (
  checked (rt ← call tal_sw_timer_create; (if bool_decide (rt = OPRT_OK) then on_wifi (set_timer (Some None)) else mret tt);; mret rt) (
  checked (call tal_event_subscribe_reset) (
  activated ← gets is_activated;
  if (activated : bool) then emit N_lp_disable;; netconn_wifi_info_get;; netconn_wifi_connect;; mret OPRT_OK
  else mret OPRT_OK)))).

Definition netconn_wifi_close : netmgr Z := mret OPRT_OK.

Definition netconn_wifi_set (cmd : netmgr_conn_config_type_e) (param : netmgr_param) : netmgr Z :=
  match cmd with
  | NETCONN_CMD_PRI =>
      match param with
      | P_int z => modify (set_base NETCONN_WIFI (set_pri (u8 z)));; call_event_cb NETCONN_WIFI;; mret OPRT_OK
      | _ => ub
      end
  | NETCONN_CMD_IP => match param with P_address a => checked (call (tal_wifi_set_ip a)) (mret OPRT_OK) | _ => ub end
  | NETCONN_CMD_MAC => match param with P_address a => checked (call (tal_wifi_set_mac a)) (mret OPRT_OK) | _ => ub end
  | NETCONN_CMD_SSID_PSWD =>
      match param with P_wifi_info i => on_wifi (set_info i);; netconn_wifi_connect;; mret OPRT_OK | _ => ub end
  | NETCONN_CMD_COUNTRYCODE =>
      match param with
      | P_code a =>
          text ← lift (c_read a); w ← gets wifi;
          code ← lift (mwrite (ccode w) 0 text);
          on_wifi (set_ccode code);;
          code ← lift (c_read code);
          checked (call (tal_wifi_set_country_code code)) (mret OPRT_OK)
      | _ => ub
      end
  | NETCONN_CMD_NETCFG =>
      match param with
      | P_netcfg n =>
          on_wifi (fun w => set_netcfg (fst n, snd (netcfg w)) w);;
          if bool_decide (Z.land (fst n) NETCFG_TUYA_BLE <> 0 \/ Z.land (fst n) NETCFG_TUYA_WIFI_AP <> 0)
          then emit (N_token_port NETCONN_WIFI);; mret OPRT_OK else mret OPRT_OK
      | _ => ub
      end
  | NETCONN_CMD_CLOSE => netconn_wifi_disconnect;; mret OPRT_OK
  | NETCONN_CMD_RESET =>
      emit N_kv_del;; modify (set_netinfo None);;
      on_wifi (set_stat NETCONN_WIFI_CONN_STOP);;
      on_wifi (set_info netconn_info_zero);;
      call tal_wifi_station_disconnect;; mret OPRT_OK
  | _ => mret OPRT_NOT_SUPPORTED
  end.

Definition get_address (c : netmgr_call) (param : netmgr_param) : netmgr (Z * netmgr_param) :=
  match param with
  | P_address _ => n ← gets calls; rt ← call c; mret (rt, if bool_decide (rt = OPRT_OK) then P_address (address n) else param)
  | _ => ub
  end.

(** The object of the parameter is returned as it is afterwards. *)
Definition netconn_wifi_get (cmd : netmgr_conn_config_type_e) (param : netmgr_param) : netmgr (Z * netmgr_param) :=
  match cmd with
  | NETCONN_CMD_PRI =>
      match param with
      | P_int z => modify (set_base NETCONN_WIFI (set_pri (u8 z)));; call_event_cb NETCONN_WIFI;; mret (OPRT_OK, param)
      | _ => ub
      end
  | NETCONN_CMD_MAC => get_address tal_wifi_get_mac param
  | NETCONN_CMD_SSID_PSWD =>
      match param with P_wifi_info _ => w ← gets wifi; mret (OPRT_OK, P_wifi_info (wifi_conn_info w)) | _ => ub end
  | NETCONN_CMD_COUNTRYCODE =>
      match param with
      | P_code a => w ← gets wifi; text ← lift (c_read (ccode w)); a ← lift (mwrite a 0 text); mret (OPRT_OK, P_code a)
      | _ => ub
      end
  | NETCONN_CMD_IP => get_address tal_wifi_get_ip param
  | NETCONN_CMD_NETCFG =>
      match param with P_netcfg _ => w ← gets wifi; mret (OPRT_OK, P_netcfg (netcfg w)) | _ => ub end
  | NETCONN_CMD_STATUS => match param with P_status _ => st ← get_status NETCONN_WIFI; mret (OPRT_OK, P_status st) | _ => ub end
  | _ => mret (OPRT_NOT_SUPPORTED, param)
  end.

(** *** netconn_wired.c *)

Definition netconn_wired_event (up : bool) : netmgr unit :=
  modify (set_base NETCONN_WIRED (set_link (if up then NETMGR_LINK_UP else NETMGR_LINK_DOWN)));;
  b ← gets (fun s => bases s NETCONN_WIRED);
  if event_cb b then netmgr_event_cb NETCONN_WIRED (status b) else mret tt.

Definition netconn_wired_open : netmgr Z :=
  modify (set_base NETCONN_WIRED (set_link NETMGR_LINK_DOWN));;
  checked (call tal_wired_set_status_cb) (emit (N_token_port NETCONN_WIRED);; mret OPRT_OK).

Definition netconn_wired_close : netmgr Z := mret OPRT_OK.

Definition netconn_wired_set (cmd : netmgr_conn_config_type_e) (param : netmgr_param) : netmgr Z :=
  match cmd with
  | NETCONN_CMD_PRI =>
      match param with
      | P_int z => modify (set_base NETCONN_WIRED (set_pri (u8 z)));; call_event_cb NETCONN_WIRED;; mret OPRT_OK
      | _ => ub
      end
  | NETCONN_CMD_IP => match param with P_address a => checked (call (tal_wired_set_ip a)) (mret OPRT_OK) | _ => ub end
  | NETCONN_CMD_MAC => match param with P_address a => checked (call (tal_wired_set_mac a)) (mret OPRT_OK) | _ => ub end
  | _ => mret OPRT_NOT_SUPPORTED
  end.

Definition netconn_wired_get (cmd : netmgr_conn_config_type_e) (param : netmgr_param) : netmgr (Z * netmgr_param) :=
  match cmd with
  | NETCONN_CMD_PRI => match param with P_int _ => b ← gets (fun s => bases s NETCONN_WIRED); mret (OPRT_OK, P_int (pri b)) | _ => ub end
  | NETCONN_CMD_IP => get_address tal_wired_get_ip param
  | NETCONN_CMD_MAC => get_address tal_wired_get_mac param
  | NETCONN_CMD_STATUS => match param with P_status _ => st ← get_status NETCONN_WIRED; mret (OPRT_OK, P_status st) | _ => ub end
  | NETCONN_CMD_CLOSE => mret (OPRT_OK, param)
  | _ => mret (OPRT_NOT_SUPPORTED, param)
  end.

(** *** netconn_cellular.c *)

Definition netconn_cellular_event (up : bool) : netmgr unit :=
  modify (set_base NETCONN_CELLULAR (set_link (if up then NETMGR_LINK_UP else NETMGR_LINK_DOWN)));;
  b ← gets (fun s => bases s NETCONN_CELLULAR);
  if event_cb b then netmgr_event_cb NETCONN_CELLULAR (status b) else mret tt.

Definition netconn_cellular_open : netmgr Z :=
  emit N_cellular_init;;
  modify (set_base NETCONN_CELLULAR (set_link NETMGR_LINK_DOWN));;
  checked (call tal_cellular_set_status_cb) (mret OPRT_OK).

Definition netconn_cellular_close : netmgr Z := mret OPRT_OK.

Definition netconn_cellular_set (cmd : netmgr_conn_config_type_e) (param : netmgr_param) : netmgr Z :=
  match cmd with
  | NETCONN_CMD_PRI =>
      match param with
      | P_int z => modify (set_base NETCONN_CELLULAR (set_pri (u8 z)));; call_event_cb NETCONN_CELLULAR;; mret OPRT_OK
      | _ => ub
      end
  | _ => mret OPRT_NOT_SUPPORTED
  end.

Definition netconn_cellular_get (cmd : netmgr_conn_config_type_e) (param : netmgr_param) : netmgr (Z * netmgr_param) :=
  match cmd with
  | NETCONN_CMD_PRI => match param with P_int _ => b ← gets (fun s => bases s NETCONN_CELLULAR); mret (OPRT_OK, P_int (pri b)) | _ => ub end
  | NETCONN_CMD_STATUS => match param with P_status _ => st ← get_status NETCONN_CELLULAR; mret (OPRT_OK, P_status st) | _ => ub end
  | NETCONN_CMD_IP => get_address tal_cellular_get_ip param
  | _ => mret (OPRT_NOT_SUPPORTED, param)
  end.

(** *** netmgr.c, through the pointers of a connection *)

Definition conn_open (t : Z) : netmgr Z :=
  if bool_decide (t = NETCONN_WIFI) then netconn_wifi_open
  else if bool_decide (t = NETCONN_WIRED) then netconn_wired_open else netconn_cellular_open.
Definition conn_set (t : Z) cmd param : netmgr Z :=
  if bool_decide (t = NETCONN_WIFI) then netconn_wifi_set cmd param
  else if bool_decide (t = NETCONN_WIRED) then netconn_wired_set cmd param else netconn_cellular_set cmd param.
Definition conn_get (t : Z) cmd param : netmgr (Z * netmgr_param) :=
  if bool_decide (t = NETCONN_WIFI) then netconn_wifi_get cmd param
  else if bool_decide (t = NETCONN_WIRED) then netconn_wired_get cmd param else netconn_cellular_get cmd param.

(** The new connection goes before the first one of lower priority. *)
Fixpoint conn_insert (p : Z -> Z) (t : Z) (l : list Z) : list Z :=
  match l with
  | [] => [t]
  | c :: l => if bool_decide (p c < p t) then t :: c :: l else c :: conn_insert p t l
  end.

(** [c]: the type of the connection, [None] for NULL. *)
Definition netmgr_conn_register (t : Z) (c : option Z) : netmgr Z :=
  match c with
  | None => mret OPRT_INVALID_PARM
  | Some c =>
      modify (set_base c set_event_cb);;
      l ← gets conn;
      if bool_decide (t ∈ l) then mret OPRT_INVALID_PARM
      else
        modify (fun s => set_conn (conn_insert (fun t => pri (bases s t)) c l) s);;
        conn_open c
  end.

Definition netmgr_init (t : Z) : netmgr Z :=
  checked (call tal_mutex_create_init) (
  modify (fun s => set_netmgr (inited s) t (active s) NETMGR_LINK_DOWN s);;
  (if ENABLE_WIRED && negb (bool_decide (Z.land t NETCONN_WIRED = 0))
   then netmgr_conn_register NETCONN_WIRED (Some NETCONN_WIRED);; mret tt else mret tt);;
  (if ENABLE_CELLULAR && negb (bool_decide (Z.land t NETCONN_CELLULAR = 0))
   then netmgr_conn_register NETCONN_CELLULAR (Some NETCONN_CELLULAR);; mret tt else mret tt);;
  (if ENABLE_WIFI && negb (bool_decide (Z.land t NETCONN_WIFI = 0))
   then netmgr_conn_register NETCONN_WIFI (Some NETCONN_WIFI);; mret tt else mret tt);;
  a ← get_active_conn;
  modify (fun s => set_netmgr (inited s) (type s) a (nm_status s) s);;
  if bool_decide (a = NETCONN_AUTO) then mret OPRT_INVALID_PARM
  else
    modify (fun s => set_netmgr true (type s) (active s) (nm_status s) s);;
    (if bool_decide (Z.land t NETCONN_WIFI <> 0 \/ Z.land t NETCONN_WIRED <> 0) then emit N_lan_init else mret tt);;
    (if ENABLE_BLUETOOTH then emit N_ble_init else mret tt);;
    mret OPRT_OK).

Definition netmgr_conn_set (t : Z) (cmd : netmgr_conn_config_type_e) (param : netmgr_param) : netmgr Z :=
  ready ← gets inited;
  if negb ready then mret OPRT_RESOURCE_NOT_READY
  else
    a ← gets active; l ← gets conn;
    let t := if bool_decide (NETCONN_AUTO = t) then a else t in
    if bool_decide (t ∈ l) then conn_set t cmd param else mret OPRT_OK.

Definition netmgr_conn_get (t : Z) (cmd : netmgr_conn_config_type_e) (param : netmgr_param) : netmgr (Z * netmgr_param) :=
  ready ← gets inited;
  if negb ready then mret (OPRT_RESOURCE_NOT_READY, param)
  else
    a ← gets active; l ← gets conn;
    let t := if bool_decide (NETCONN_AUTO = t) then a else t in
    if bool_decide (t ∈ l) then conn_get t cmd param else mret (OPRT_OK, param).

(** The command of the terminal; its output is not modelled. The element after the last argument is NULL. *)
Definition netmgr_cmd (argv : list bytes) : netmgr unit :=
  let argc := zlen argv in
  ready ← gets inited;
  if negb ready then mret tt
  else if bool_decide (argc > 5) then mret tt
  else if bool_decide (argc = 1) then mret tt
  else
    arg1 ← lift (zget argv 1);
    if bool_decide (arg1 = c_str "wifi") then
      if negb ENABLE_WIFI then mret tt
      else
        supported ← gets type;
        if bool_decide (Z.land supported NETCONN_WIFI = 0) then mret tt
        else
          arg2 ← lift (zget argv 2);
          if bool_decide (arg2 = c_str "up") then
            if bool_decide (argc < 4) then mret tt
            else
              arg3 ← lift (zget argv 3);
              if bool_decide (zlen arg3 > WIFI_SSID_LEN) then mret tt
              else
                arg4 ← lift (zget argv 4);
                if bool_decide (zlen arg4 > WIFI_PASSWD_LEN) then mret tt
                else
                  ssid ← lift (strcpy (replicate 33 0) arg3); pswd ← lift (strcpy (replicate 65 0) arg4);
                  netmgr_conn_set NETCONN_WIFI NETCONN_CMD_SSID_PSWD (P_wifi_info (WifiInfo ssid pswd));; mret tt
          else if bool_decide (arg2 = c_str "down") then netmgr_conn_set NETCONN_WIFI NETCONN_CMD_CLOSE P_NULL;; mret tt
          else if bool_decide (arg2 = c_str "scan") then emit N_scan
          else mret tt
    else if bool_decide (arg1 = c_str "wired") then
      if negb ENABLE_WIRED then mret tt
      else
        supported ← gets type;
        if bool_decide (Z.land supported NETCONN_WIRED = 0) then mret tt else arg2 ← lift (zget argv 2); mret tt
    else mret tt.

(** ** Steps

    What happens to the manager after it is set up: the drivers' events, the timer that ran off, the next
    message of the work queue, and calls. *)
Inductive netmgr_input :=
| In_wifi (connected : bool) | In_wired (up : bool) | In_cellular (up : bool)
| In_timer | In_work
| In_set (t : Z) (cmd : netmgr_conn_config_type_e) (param : netmgr_param)
| In_get (t : Z) (cmd : netmgr_conn_config_type_e) (param : netmgr_param)
| In_finish (info : netcfg_info_t) | In_reset | In_token (uuid pincode : option bytes) | In_link_activate.

Definition netmgr_step (i : netmgr_input) : netmgr unit :=
  match i with
  | In_wifi connected => netconn_wifi_event connected
  | In_wired up => netconn_wired_event up
  | In_cellular up => netconn_cellular_event up
  | In_timer =>
      w ← gets wifi;
      match timer w with
      | Some (Some _) => on_wifi (set_timer (Some None));; netconn_wifi_conn_timer
      | _ => mret tt
      end
  | In_work =>
      q ← gets msgs;
      match q with
      | m :: q => modify (set_msgs q);; netconn_wifi_connect_process m
      | [] => mret tt
      end
  | In_set t cmd param => netmgr_conn_set t cmd param;; mret tt
  | In_get t cmd param => netmgr_conn_get t cmd param;; mret tt
  | In_finish info => netconn_wifi_netcfg_finish info;; mret tt
  | In_reset => wifi_reset_event_cb;; mret tt
  | In_token uuid pincode => netconn_activate_token_get uuid pincode;; mret tt
  | In_link_activate => wifi_link_activete_cb;; mret tt
  end.

Fixpoint netmgr_run (l : list netmgr_input) : netmgr unit :=
  match l with [] => mret tt | i :: l => netmgr_step i;; netmgr_run l end.
End netmgr.
