(* ===== verification/NetMgrProps.v ===== *)
(** * The network manager: what it keeps

    The active connection is the first one that is up, subscribers of the link events know it, no input
    is undefined; the Wi-Fi connection goes on trying. *)
From stdpp Require Import functions.
From S2P Require Import Prelude StateM BleNetcfg NetMgr.

(** ** The choice of the active connection *)

Definition is_up s (t : Z) : bool := bool_decide (status (bases s t) = NETMGR_LINK_UP).

(** The first connection that is up, or else the first one. *)
Definition elect s : Z :=
  match List.find (is_up s) (conn s) with Some t => t | None => default NETCONN_AUTO (head (conn s)) end.
Definition link s : netmgr_status_e := if existsb (is_up s) (conn s) then NETMGR_LINK_UP else NETMGR_LINK_DOWN.

Definition consistent s : Prop := active s = elect s /\ nm_status s = link s.

Definition wifi_ok (w : netmgr_conn_wifi_t) : Prop :=
  table w = [1; 3; 5; 10; 15; 20] /\ 0 <= count w < 6 /\
  zlen (wi_ssid (wifi_conn_info w)) = 33 /\ zget (wi_ssid (wifi_conn_info w)) 32 = Some 0 /\
  zlen (wi_pswd (wifi_conn_info w)) = 65 /\ zget (wi_pswd (wifi_conn_info w)) 64 = Some 0 /\
  zlen (ccode w) = 9 /\ zget (ccode w) 8 = Some 0.

(** What holds between the steps, and inside of them. *)
Record nm_core s : Prop := Core {
  core_wifi : wifi_ok (wifi s);
  core_conn : forall t, t ∈ conn s -> Z.land (type s) t <> 0 /\ t <> NETCONN_AUTO;
  core_cb : forall t, event_cb (bases s t) = true <-> t ∈ conn s;
  core_status : forall t, status (bases s t) <> NETMGR_LINK_UP_SWITH }.
Definition nm_ok s : Prop := nm_core s /\ consistent s.

Lemma active_loop_run l d s :
  active_loop l d s = Some (match List.find (is_up s) l with Some t => t | None => d end, s).
Proof.
  induction l as [|t l IH]; [done|]. cbn [active_loop List.find]. unfold get_status. rewrite gets_bind.
  unfold is_up at 1. case_bool_decide; [done|apply IH].
Qed.

Lemma get_active_conn_run s : get_active_conn s = Some (elect s, s).
Proof.
  unfold get_active_conn. rewrite gets_bind. unfold elect. destruct (conn s) as [|t l]; [done|]. apply active_loop_run.
Qed.

Lemma find_up_spec s l t : List.find (is_up s) l = Some t -> t ∈ l /\ status (bases s t) = NETMGR_LINK_UP.
Proof.
  intros [Hl Hu]%List.find_some. split; [by apply list_elem_of_In|]. unfold is_up in Hu. by apply bool_decide_eq_true in Hu.
Qed.

Lemma find_up_none s l : List.find (is_up s) l = None -> existsb (is_up s) l = false.
Proof.
  induction l as [|t l IH]; [done|]. cbn. destruct (is_up s t); [done|]. cbn. apply IH.
Qed.

Lemma find_up_some s l t : List.find (is_up s) l = Some t -> existsb (is_up s) l = true.
Proof. intros [Hl Hu]%List.find_some. apply existsb_exists. by exists t. Qed.

(** The elected connection has the status of the link. *)
Lemma get_netmgr_status_elect s : nm_core s ->
  exists rt, get_netmgr_status (elect s) NETMGR_LINK_DOWN s = Some ((rt, link s), s).
Proof.
  intros Hc. unfold get_netmgr_status. case_bool_decide as Ha.
  - exists OPRT_INVALID_PARM. unfold link. destruct (List.find (is_up s) (conn s)) as [t|] eqn:Hf.
    + apply find_up_spec in Hf as Hf'. destruct (core_conn s Hc t) as (_ & Hn); [apply Hf'|].
      unfold elect in Ha. rewrite Hf in Ha. done.
    + by rewrite (find_up_none _ _ Hf).
  - assert (He : elect s ∈ conn s).
    { unfold elect in *. destruct (List.find (is_up s) (conn s)) as [t|] eqn:Hf; [by apply find_up_spec in Hf as [? _]|].
      destruct (conn s) as [|t l]; [done|]. cbn. left. }
    destruct (core_conn s Hc _ He) as (Ht & _). rewrite gets_bind. rewrite bool_decide_false by done.
    rewrite gets_bind. rewrite bool_decide_true by done. unfold get_status. rewrite gets_bind. exists OPRT_OK.
    cut (status (bases s (elect s)) = link s); [by intros ->|]. unfold link, elect.
    destruct (List.find (is_up s) (conn s)) as [t|] eqn:Hf.
    + rewrite (find_up_some _ _ _ Hf). by apply find_up_spec in Hf as [_ ?].
    + rewrite (find_up_none _ _ Hf). destruct (conn s) as [|t l]; [by apply not_elem_of_nil in He|].
      cbn in Hf |- *. pose proof (core_status s Hc t). unfold is_up at 1 in Hf. case_bool_decide; [done|].
      by destruct (status (bases s t)).
Qed.

Definition announce s es : netmgr_t :=
  Netmgr (inited s) (type s) (elect s) (link s) (conn s) (bases s) (wifi s) (kv_netinfo s) (is_activated s) (msgs s) (calls s) (nm_trace s ++ es).

(** The callback makes the state consistent. *)
Lemma netmgr_event_cb_run s t st : nm_core s -> Z.land (type s) t <> 0 ->
  exists es, netmgr_event_cb t st s = Some (tt, announce s es).
Proof.
  intros Hc Ht. unfold netmgr_event_cb. rewrite gets_bind, bool_decide_false by done.
  rewrite (bind_step _ _ _ _ _ (get_active_conn_run s)).
  destruct (get_netmgr_status_elect s Hc) as [rt Hr]. rewrite (bind_step _ _ _ _ _ Hr). cbn [fst snd]. rewrite !gets_bind.
  case_bool_decide as H1; [|case_bool_decide as H2; [|case_bool_decide as H3]].
  - eexists. unfold emit. rewrite !modify_bind. unfold modify, trace_event, announce. cbn. by rewrite <- app_assoc.
  - eexists. unfold emit. rewrite !modify_bind. unfold modify, trace_event, announce. cbn.
    replace (active s) with (elect s); [done|]. destruct (decide (elect s = active s)); [done|tauto].
  - eexists. unfold emit. rewrite !modify_bind. unfold modify, trace_event, announce. cbn.
    by rewrite H2.
  - exists []. unfold mret, prog_ret, announce. rewrite app_nil_r.
    rewrite H2, H3. by destruct s.
Qed.

Lemma announce_ok s es : nm_core s -> nm_ok (announce s es).
Proof. intros [Hw Hc Hb Hs]. by repeat split; cbn; try apply Hw; try apply Hs; try apply Hb; try apply Hc. Qed.

(** ** Parts that do not touch the list of connections *)

Definition told (e : netmgr_event) : bool := match e with N_link_type _ | N_link_status _ => false | _ => true end.

Record quiet s s' : Prop := Quiet {
  q_type : type s' = type s; q_conn : conn s' = conn s; q_bases : bases s' = bases s; q_active : active s' = active s;
  q_status : nm_status s' = nm_status s; q_inited : inited s' = inited s;
  q_trace : exists es, nm_trace s' = nm_trace s ++ es /\ forallb told es = true }.

#[export] Instance quiet_preorder : PreOrder quiet.
Proof.
  split.
  - intros s. split; [done..|]. exists []. by rewrite app_nil_r.
  - intros s1 s2 s3 [] [].  split; [congruence..|].
    destruct q_trace0 as (es & H1 & H2), q_trace1 as (es' & H3 & H4). exists (es ++ es').
    rewrite H3, H1, forallb_app, H2, H4. split; [by rewrite <- app_assoc|done].
Qed.

Lemma quiet_frame f :
  (forall s, type (f s) = type s /\ conn (f s) = conn s /\ bases (f s) = bases s /\ active (f s) = active s /\
     nm_status (f s) = nm_status s /\ inited (f s) = inited s /\ nm_trace (f s) = nm_trace s) -> keeps quiet (modify f).
Proof.
  intros Hf. apply keeps_modify. intros s. destruct (Hf s) as (? & ? & ? & ? & ? & ? & ?). split; [done..|].
  exists []. by rewrite app_nil_r.
Qed.

Lemma quiet_emit e : told e = true -> keeps quiet (emit e).
Proof. intros He. apply keeps_modify. intros s. split; [done..|]. exists [e]. cbn. by rewrite He. Qed.

Lemma quiet_on_wifi f : keeps quiet (on_wifi f).
Proof. by apply quiet_frame. Qed.

Lemma quiet_call answer c : keeps quiet (call answer c).
Proof.
  unfold call. keep; [by apply quiet_frame|by apply quiet_emit].
Qed.

#[export] Hint Resolve quiet_on_wifi quiet_call : prog.
Ltac quiet_step := first [by apply quiet_frame | by apply quiet_emit].

(** *** The Wi-Fi connection is well formed *)

Definition safe {A} (m : prog netmgr_t A) : Prop :=
  total (fun s => wifi_ok (wifi s)) m (fun _ s => wifi_ok (wifi s)).

Section safe.
Context {A B : Type}.
Implicit Types m : prog netmgr_t A.

Lemma safe_bind m (k : A -> prog netmgr_t B) : safe m -> (forall x, safe (k x)) -> safe (m ≫= k).
Proof. intros Hm Hk. eapply total_bind; [apply Hm|apply Hk]. Qed.

Lemma safe_ret (x : A) : safe (mret x).
Proof. by apply total_ret. Qed.

Lemma safe_gets (f : netmgr_t -> A) : safe (gets f).
Proof. by apply total_gets. Qed.

Lemma safe_gets_wifi (k : netmgr_conn_wifi_t -> prog netmgr_t B) : (forall w, wifi_ok w -> safe (k w)) -> safe (gets wifi ≫= k).
Proof. intros Hk s Hs. rewrite gets_bind. by apply Hk. Qed.

Lemma safe_lift (o : option A) x (k : A -> prog netmgr_t B) : o = Some x -> safe (k x) -> safe (lift o ≫= k).
Proof. intros -> Hk s Hs. by apply Hk. Qed.
End safe.

Lemma safe_modify f : (forall s, wifi (f s) = wifi s) -> safe (modify f).
Proof. intros Hf. apply total_modify. intros s Hs. by rewrite Hf. Qed.

Lemma safe_on_wifi f : (forall w, wifi_ok w -> wifi_ok (f w)) -> safe (on_wifi f).
Proof. intros Hf. apply total_modify. intros s Hs. by apply Hf. Qed.

Lemma safe_emit e : safe (emit e).
Proof. by apply safe_modify. Qed.

Lemma safe_call answer c : safe (call answer c).
Proof.
  apply safe_bind; [apply safe_gets|intros ?]. apply safe_bind; [by apply safe_modify|intros ?].
  apply safe_bind; [apply safe_emit|intros ?]. apply safe_ret.
Qed.

Create HintDb netmgr.
#[export] Hint Resolve safe_ret safe_gets safe_emit safe_call : netmgr.

Ltac safe_step :=
  match goal with
  | |- safe (gets wifi ≫= _) => apply safe_gets_wifi; intros ? ?
  | |- safe (lift _ ≫= _) => fail 1
  | |- safe (_ ≫= _) => apply safe_bind; [|intros ?]
  | |- safe (if bool_decide _ then _ else _) => case_bool_decide
  | |- safe (match ?x with _ => _ end) => destruct x
  | |- safe (let _ := _ in _) => cbv zeta
  | |- safe (on_wifi _) => by apply safe_on_wifi
  | |- safe (modify _) => by apply safe_modify
  end.
Ltac safe := repeat first [safe_step | solve [eauto with netmgr]].

Section parts.
Context (ENABLE_BLUETOOTH : bool) (answer : Z -> Z) (address : Z -> bytes).

Lemma quiet_timer_start ms : keeps quiet (wifi_timer_start ms).
Proof. apply quiet_on_wifi. Qed.
Lemma quiet_timer_stop : keeps quiet wifi_timer_stop.
Proof. apply quiet_on_wifi. Qed.
Lemma safe_timer_start ms : safe (wifi_timer_start ms).
Proof. apply safe_on_wifi. intros w Hw. by destruct (timer w). Qed.
Lemma safe_timer_stop : safe wifi_timer_stop.
Proof. apply safe_on_wifi. intros w Hw. by destruct (timer w). Qed.
#[local] Hint Resolve quiet_timer_start quiet_timer_stop : prog.
#[local] Hint Resolve safe_timer_start safe_timer_stop : netmgr.

Lemma quiet_schedule m : keeps quiet (wifi_schedule answer m).
Proof. unfold wifi_schedule. keep; quiet_step. Qed.
Lemma safe_schedule m : safe (wifi_schedule answer m).
Proof. unfold wifi_schedule. safe. Qed.
#[local] Hint Resolve quiet_schedule : prog.
#[local] Hint Resolve safe_schedule : netmgr.

Lemma quiet_connect : keeps quiet (netconn_wifi_connect answer).
Proof. unfold netconn_wifi_connect. keep. Qed.
Lemma safe_connect : safe (netconn_wifi_connect answer).
Proof. unfold netconn_wifi_connect. safe. Qed.
#[local] Hint Resolve quiet_connect : prog.
#[local] Hint Resolve safe_connect : netmgr.

Lemma quiet_disconnect : keeps quiet (netconn_wifi_disconnect answer).
Proof. unfold netconn_wifi_disconnect. keep. Qed.
Lemma safe_disconnect : safe (netconn_wifi_disconnect answer).
Proof. unfold netconn_wifi_disconnect. safe. Qed.
#[local] Hint Resolve quiet_disconnect : prog.
#[local] Hint Resolve safe_disconnect : netmgr.

Lemma safe_info_zero : safe (on_wifi (set_info netconn_info_zero)).
Proof. apply safe_on_wifi. by intros w (? & ? & ? & ? & ? & ? & ?). Qed.
#[local] Hint Resolve safe_info_zero : netmgr.

Lemma quiet_process m : keeps quiet (netconn_wifi_connect_process answer m).
Proof. unfold netconn_wifi_connect_process. keep; quiet_step. Qed.
Lemma safe_process m : safe (netconn_wifi_connect_process answer m).
Proof.
  unfold netconn_wifi_connect_process. safe. apply safe_on_wifi. intros w (? & ? & ?). repeat split; cbn; done || lia || tauto.
Qed.

Lemma quiet_wait : keeps quiet wifi_wait.
Proof. unfold wifi_wait. keep. Qed.
Lemma safe_wait : safe wifi_wait.
Proof.
  unfold wifi_wait. apply safe_gets_wifi. intros w (Ht & Hc & _).
  destruct (zget_is_Some (table w) (count w)) as [x Hx]; [by rewrite Ht|]. eapply safe_lift; [done|]. rewrite Ht.
  safe. apply safe_on_wifi. intros w' (? & ? & ?). repeat split; cbn; try done; try tauto; change (zlen [1; 3; 5; 10; 15; 20]) with 6 in *; lia.
Qed.
#[local] Hint Resolve quiet_wait : prog.
#[local] Hint Resolve safe_wait : netmgr.

Lemma quiet_timer : keeps quiet (netconn_wifi_conn_timer answer).
Proof. unfold netconn_wifi_conn_timer. keep. Qed.
Lemma safe_timer : safe (netconn_wifi_conn_timer answer).
Proof. unfold netconn_wifi_conn_timer. safe. Qed.

(** *** Strings of the configuration *)

Definition info_array_ok (i : netconn_wifi_info_t) : Prop :=
  zlen (wi_ssid i) = 33 /\ zget (wi_ssid i) 32 = Some 0 /\ zlen (wi_pswd i) = 65 /\ zget (wi_pswd i) 64 = Some 0.

(** The text of the key fits its 128 bytes. *)
Lemma safe_info_set i : info_array_ok i -> safe (netconn_wifi_info_set answer i).
Proof.
  intros (Hs & Hs0 & Hp & Hp0). unfold netconn_wifi_info_set.
  destruct (c_read_last (wi_ssid i) 32) as (t & Ht & Htl & _); [done|done|]. eapply safe_lift; [done|].
  destruct (c_read_last (wi_pswd i) 64) as (u & Hu & Hul & _); [done|done|]. eapply safe_lift; [done|].
  eapply safe_lift.
  { unfold strcpy. apply mwrite_0. unfold netinfo_text. rewrite !zlen_app. change (zlen (replicate 128 0)) with 128.
    change (zlen (c_str "{")) with 1. change (zlen (c_str "s")) with 1. change (zlen (c_str "p")) with 1. change (zlen (c_str "}")) with 1.
    change (zlen [34; 58; 34]) with 3. change (zlen [34; 44; 34]) with 3. change (zlen [34]) with 1. change (zlen [0]) with 1. lia. }
  safe.
Qed.

Lemma quiet_info_set i : keeps quiet (netconn_wifi_info_set answer i).
Proof. unfold netconn_wifi_info_set. keep. by apply quiet_frame. Qed.
#[local] Hint Resolve quiet_info_set : prog.

Definition netcfg_info_ok (i : netcfg_info_t) : Prop :=
  zlen (ssid i) = 33 /\ 0 <= s_len i <= 32 /\ zlen (passwd i) = 65 /\ 0 <= p_len i <= 64 /\ zlen (token i) = 17.

Lemma safe_finish i : netcfg_info_ok i -> safe (netconn_wifi_netcfg_finish answer i).
Proof.
  intros (Hs & Hsl & Hp & Hpl & Ht). unfold netconn_wifi_netcfg_finish. apply safe_gets_wifi. intros w (? & ? & H1 & H2 & H3 & H4 & ?).
  destruct (memcpy_last (wi_ssid (wifi_conn_info w)) (ssid i) 32 (s_len i)) as (a & Ha & Hal & Haz); [done..|].
  destruct (memcpy_last (wi_pswd (wifi_conn_info w)) (passwd i) 64 (p_len i)) as (b & Hb & Hbl & Hbz); [done..|].
  eapply safe_lift; [done|]. eapply safe_lift; [done|].
  apply safe_bind; [apply safe_on_wifi; intros w' (? & ? & ? & ? & ? & ? & ?); repeat split; cbn; tauto|intros ?].
  apply safe_bind; [by apply safe_info_set|intros ?]. apply safe_bind; [safe|intros ?].
  do 3 (eapply safe_lift; [unfold mread; rewrite bool_decide_true by (unfold REGION_LEN, TOKEN_LEN, REGIST_KEY_LEN; lia); done|]). safe.
Qed.

Lemma quiet_finish i : keeps quiet (netconn_wifi_netcfg_finish answer i).
Proof. unfold netconn_wifi_netcfg_finish. keep; by apply quiet_emit. Qed.

Lemma quiet_token uuid pincode : keeps quiet (netconn_activate_token_get ENABLE_BLUETOOTH answer uuid pincode).
Proof. unfold netconn_activate_token_get. keep; by apply quiet_emit. Qed.
Lemma safe_token uuid pincode : safe (netconn_activate_token_get ENABLE_BLUETOOTH answer uuid pincode).
Proof. unfold netconn_activate_token_get. safe. Qed.

Lemma quiet_reset : keeps quiet (wifi_reset_event_cb answer).
Proof. unfold wifi_reset_event_cb. keep; quiet_step. Qed.
Lemma safe_reset : safe (wifi_reset_event_cb answer).
Proof.
  unfold wifi_reset_event_cb. safe.
Qed.

(** ** The steps *)

Lemma quiet_safe_ok {A} (m : prog netmgr_t A) : keeps quiet m -> safe m -> total nm_ok m (fun _ => nm_ok).
Proof.
  intros Hq Hs s [Hc [Ha Hl]]. destruct (Hs s (core_wifi s Hc)) as (x & s' & Hr & Hw). exists x, s'. split; [done|].
  destruct (Hq s x s' Hr). destruct Hc as [_ Hconn Hcb Hst]. unfold nm_ok, consistent, elect, link, is_up.
  assert (Hu : is_up s' = is_up s) by (unfold is_up; by rewrite q_bases0). change (is_up s') with (is_up s') in *.
  split; [split; [done|..]|].
  - by rewrite q_conn0, q_type0.
  - by rewrite q_conn0, q_bases0.
  - by rewrite q_bases0.
  - rewrite q_active0, q_status0, q_conn0, Ha, Hl. unfold elect, link, is_up. by rewrite q_bases0.
Qed.

(** A connection whose base has changed, before its callback. *)
Definition half t s : Prop := nm_core s /\ (event_cb (bases s t) = false -> consistent s).

Lemma half_base t f : (forall b, event_cb (f b) = event_cb b) -> (forall b, status b <> NETMGR_LINK_UP_SWITH -> status (f b) <> NETMGR_LINK_UP_SWITH) ->
  total nm_ok (modify (set_base t f)) (fun _ => half t).
Proof.
  intros Hf Hg. apply total_modify. intros s [Hc [Ha Hl]].
  assert (Hcb : forall u, event_cb (bases (set_base t f s) u) = event_cb (bases s u)).
  { intros u. cbn. destruct (decide (t = u)) as [->|]; [by rewrite fn_lookup_insert|by rewrite fn_lookup_insert_ne]. }
  split; [split|].
  - apply Hc.
  - apply Hc.
  - intros u. rewrite Hcb. apply Hc.
  - intros u. cbn. pose proof (core_status s Hc u).
    destruct (decide (t = u)) as [->|]; [rewrite fn_lookup_insert; by apply Hg|by rewrite fn_lookup_insert_ne].
  - rewrite Hcb. intros Hn. unfold consistent.
    assert (Hu : forall u, u ∈ conn s -> is_up (set_base t f s) u = is_up s u).
    { intros u Hu%(core_cb s Hc). unfold is_up. cbn. rewrite fn_lookup_insert_ne; [done|]. congruence. }
    assert (He : elect (set_base t f s) = elect s /\ link (set_base t f s) = link s); [|destruct He as [-> ->]; done].
    unfold elect, link. cbn [conn set_base].
    assert (List.find (is_up (set_base t f s)) (conn s) = List.find (is_up s) (conn s) /\
            existsb (is_up (set_base t f s)) (conn s) = existsb (is_up s) (conn s)) as [-> ->]; [|done].
    revert Hu. generalize (conn s). intros l. induction l as [|u l IH]; intros Hu; [done|].
    destruct IH as [H1 H2]; [intros v Hv; apply Hu; by right|]. cbn. rewrite Hu by left. by rewrite H1, H2.
Qed.

Lemma half_notify t : total (half t) (b ← gets (fun s => bases s t); if event_cb b then netmgr_event_cb t (status b) else mret tt) (fun _ => nm_ok).
Proof.
  intros s [Hc Hn]. rewrite gets_bind. destruct (event_cb (bases s t)) eqn:He.
  - destruct (netmgr_event_cb_run s t (status (bases s t)) Hc) as [es ->]; [by apply core_conn, core_cb|].
    eexists _, _. split; [done|by apply announce_ok].
  - eexists _, _. split; [done|]. split; [done|by apply Hn].
Qed.

Lemma half_call t : total (fun s => half t s /\ t ∈ conn s) (call_event_cb t) (fun _ => nm_ok).
Proof.
  intros s [Hh Ht]. destruct (half_notify t s Hh) as (x & s' & Hr & Hok). exists x, s'. split; [|done].
  rewrite <- Hr. unfold call_event_cb. rewrite !gets_bind. by rewrite (proj2 (core_cb s (proj1 Hh) t) Ht).
Qed.

Lemma set_pri_call t p : total (fun s => nm_ok s /\ t ∈ conn s) (modify (set_base t (set_pri p));; call_event_cb t) (fun _ => nm_ok).
Proof.
  eapply total_bind; [|intros ?; apply half_call]. intros s [Hok Ht].
  destruct (half_base t (set_pri p)) with (s := s) as (x & s' & [= <- <-] & Hh); [done..|].
  eexists _, _. split; [done|]. by split.
Qed.

Definition set_param_ok (cmd : netmgr_conn_config_type_e) (p : netmgr_param) : Prop :=
  match cmd, p with
  | NETCONN_CMD_PRI, P_int _ | (NETCONN_CMD_IP | NETCONN_CMD_MAC), P_address _ | NETCONN_CMD_NETCFG, P_netcfg _ => True
  | NETCONN_CMD_SSID_PSWD, P_wifi_info i => info_array_ok i
  | NETCONN_CMD_COUNTRYCODE, P_code a => exists t, c_read a = Some t /\ zlen t <= COUNTRY_CODE_LEN
  | (NETCONN_CMD_PRI | NETCONN_CMD_IP | NETCONN_CMD_MAC | NETCONN_CMD_NETCFG | NETCONN_CMD_SSID_PSWD | NETCONN_CMD_COUNTRYCODE), _ => False
  | _, _ => True
  end.

Definition get_param_ok (cmd : netmgr_conn_config_type_e) (p : netmgr_param) : Prop :=
  match cmd, p with
  | NETCONN_CMD_PRI, P_int _ | (NETCONN_CMD_IP | NETCONN_CMD_MAC), P_address _ | NETCONN_CMD_NETCFG, P_netcfg _
  | NETCONN_CMD_SSID_PSWD, P_wifi_info _ | NETCONN_CMD_STATUS, P_status _ => True
  | NETCONN_CMD_COUNTRYCODE, P_code a => COUNTRY_CODE_LEN <= zlen a
  | (NETCONN_CMD_PRI | NETCONN_CMD_IP | NETCONN_CMD_MAC | NETCONN_CMD_NETCFG | NETCONN_CMD_SSID_PSWD | NETCONN_CMD_COUNTRYCODE | NETCONN_CMD_STATUS), _ => False
  | _, _ => True
  end.

Definition input_ok (i : netmgr_input) : Prop :=
  match i with
  | In_set _ cmd p => set_param_ok cmd p
  | In_get _ cmd p => get_param_ok cmd p
  | In_finish i => netcfg_info_ok i
  | _ => True
  end.

Lemma ok_ret {A} (x : A) : total nm_ok (mret x) (fun _ => nm_ok).
Proof. by apply total_ret. Qed.

Lemma ok_then {A B} P (m : prog netmgr_t A) (y : B) : total P m (fun _ => nm_ok) -> total P (m;; mret y) (fun _ => nm_ok).
Proof. intros Hm. eapply total_bind; [apply Hm|intros ?; apply ok_ret]. Qed.

Lemma ok_in_conn {A} t (m : prog netmgr_t A) : total nm_ok m (fun _ => nm_ok) -> total (fun s => nm_ok s /\ t ∈ conn s) m (fun _ => nm_ok).
Proof. intros Hm. eapply total_weaken; [done| |done]. by intros s [? ?]. Qed.

Ltac quiet_safe := unfold checked; apply ok_in_conn, quiet_safe_ok; [by keep; quiet_step | by safe].

Lemma safe_country w a t : wifi_ok w -> c_read a = Some t -> zlen t <= 8 ->
  exists code text, mwrite (ccode w) 0 t = Some code /\ c_read code = Some text /\ zlen code = 9 /\ zget code 8 = Some 0.
Proof.
  intros (? & ? & ? & ? & ? & ? & Hl & Hz) Ht Hn. pose proof (zlen_nonneg t). rewrite mwrite_0 by lia.
  set (code := t ++ drop (Z.to_nat (zlen t)) (ccode w)).
  assert (Hcl : zlen code = 9) by (unfold code; rewrite zlen_app, zlen_drop by lia; lia).
  assert (Hcz : zget code 8 = Some 0).
  { unfold code. rewrite zget_app_r by lia. unfold zget in Hz |- *. rewrite bool_decide_true in Hz by lia. rewrite bool_decide_true by lia.
    rewrite lookup_drop. by replace (Z.to_nat (zlen t) + Z.to_nat (8 - zlen t))%nat with (Z.to_nat 8) by lia. }
  destruct (c_read_last code 8) as (x & Hx & _); [lia|done|]. by exists code, x.
Qed.

(** The parameters of a command: what is left are the commands that are not quiet. *)
Ltac commands cmd p := destruct cmd; first [by destruct p | destruct p; try done; cbv beta iota in *; try solve [quiet_safe]].
Ltac set_pri_case := intros s Hs; rewrite <- bind_bind; revert s Hs; apply ok_then, set_pri_call.

Lemma wifi_set_ok cmd p : set_param_ok cmd p ->
  total (fun s => nm_ok s /\ NETCONN_WIFI ∈ conn s) (netconn_wifi_set answer cmd p) (fun _ => nm_ok).
Proof.
  intros Hp. unfold netconn_wifi_set, set_param_ok, get_status in *. commands cmd p.
  - set_pri_case.
  - apply ok_in_conn, quiet_safe_ok; [keep|]. safe. apply safe_on_wifi.
    intros w (? & ? & ? & ? & ? & ? & ? & ?). destruct Hp as (? & ? & ? & ?). repeat split; cbn; done || lia.
  - apply ok_in_conn, quiet_safe_ok; unfold checked; [keep|]. destruct Hp as (t & Ht & Hl). eapply safe_lift; [done|].
    apply safe_gets_wifi. intros w Hw. destruct (safe_country w a t) as (code & text & Hc & Hx & Hcl & Hcz); [done..|].
    eapply safe_lift; [done|]. apply safe_bind; [|intros ?; eapply safe_lift; [done|safe]].
    apply safe_on_wifi. intros w' (? & ? & ? & ? & ? & ? & ? & ?). repeat split; cbn; done || lia.
Qed.

Lemma wired_set_ok cmd p : set_param_ok cmd p ->
  total (fun s => nm_ok s /\ NETCONN_WIRED ∈ conn s) (netconn_wired_set answer cmd p) (fun _ => nm_ok).
Proof. intros Hp. unfold netconn_wired_set, set_param_ok, get_status in *. commands cmd p. set_pri_case. Qed.

Lemma cellular_set_ok cmd p : set_param_ok cmd p ->
  total (fun s => nm_ok s /\ NETCONN_CELLULAR ∈ conn s) (netconn_cellular_set cmd p) (fun _ => nm_ok).
Proof. intros Hp. unfold netconn_cellular_set, set_param_ok, get_status in *. commands cmd p. set_pri_case. Qed.

Lemma quiet_get_address c p : keeps quiet (get_address answer address c p).
Proof. unfold get_address. keep. Qed.
#[local] Hint Resolve quiet_get_address : prog.

Lemma safe_get_address c a : safe (get_address answer address c (P_address a)).
Proof. unfold get_address. safe. Qed.
#[local] Hint Resolve safe_get_address : netmgr.

Lemma wifi_get_ok cmd p : get_param_ok cmd p ->
  total (fun s => nm_ok s /\ NETCONN_WIFI ∈ conn s) (netconn_wifi_get answer address cmd p) (fun _ => nm_ok).
Proof.
  intros Hp. unfold netconn_wifi_get, get_param_ok, get_status in *. commands cmd p.
  - set_pri_case.
  - apply ok_in_conn, quiet_safe_ok; [keep|]. apply safe_gets_wifi. intros w (? & ? & ? & ? & ? & ? & Hl & Hz).
    destruct (c_read_last (ccode w) 8) as (t & Ht & Htl & _); [lia|done|]. eapply safe_lift; [done|].
    eapply safe_lift; [apply mwrite_0; unfold COUNTRY_CODE_LEN in *; lia|safe].
Qed.

Lemma wired_get_ok cmd p : get_param_ok cmd p ->
  total (fun s => nm_ok s /\ NETCONN_WIRED ∈ conn s) (netconn_wired_get answer address cmd p) (fun _ => nm_ok).
Proof. intros Hp. unfold netconn_wired_get, get_param_ok, get_status in *. commands cmd p. Qed.

Lemma cellular_get_ok cmd p : get_param_ok cmd p ->
  total (fun s => nm_ok s /\ NETCONN_CELLULAR ∈ conn s) (netconn_cellular_get answer address cmd p) (fun _ => nm_ok).
Proof. intros Hp. unfold netconn_cellular_get, get_param_ok, get_status in *. commands cmd p. Qed.

Lemma step_base t f (m : prog netmgr_t unit) :
  (forall b, event_cb (f b) = event_cb b) -> (forall b, status b <> NETMGR_LINK_UP_SWITH -> status (f b) <> NETMGR_LINK_UP_SWITH) ->
  total (half t) m (fun _ => nm_ok) -> total nm_ok (modify (set_base t f);; m) (fun _ => nm_ok).
Proof. intros Hf Hg Hm. eapply total_bind; [by apply half_base|done]. Qed.

Lemma wifi_event_ok connected : total nm_ok (netconn_wifi_event answer connected) (fun _ => nm_ok).
Proof.
  unfold netconn_wifi_event. eapply total_bind; [apply quiet_safe_ok; [apply quiet_timer_stop|apply safe_timer_stop]|intros ?].
  eapply total_bind; [|intros ?; apply half_notify]. destruct connected.
  - eapply total_bind; [apply quiet_safe_ok; [keep|]|intros ?].
    { apply safe_on_wifi. intros w (? & ? & ?). repeat split; cbn; done || lia || tauto. }
    eapply total_bind; [apply quiet_safe_ok; [keep|safe]|intros ?]. by apply half_base.
  - set (part := fun w => if bool_decide (NETCONN_WIFI_CONN_CHECK = stat w \/ NETCONN_WIFI_CONN_WAIT = stat w) then wifi_wait
      else if bool_decide (NETCONN_WIFI_CONN_LINKUP = stat w) then on_wifi (set_stat NETCONN_WIFI_CONN_REDAY);; netconn_wifi_connect answer;; mret tt
      else mret tt).
    intros s Hs. rewrite gets_bind. revert s Hs.
    cut (forall w, total nm_ok (part w;; modify (set_base NETCONN_WIFI (set_link NETMGR_LINK_DOWN))) (fun _ => half NETCONN_WIFI)).
    { intros Hc s Hs. by apply Hc. }
    intros w. eapply total_bind; [apply quiet_safe_ok; unfold part; [keep|safe]|intros ?]. by apply half_base.
Qed.

Lemma wired_event_ok up : total nm_ok (netconn_wired_event up) (fun _ => nm_ok).
Proof. apply step_base; [done|by intros; destruct up|apply half_notify]. Qed.

Lemma cellular_event_ok up : total nm_ok (netconn_cellular_event up) (fun _ => nm_ok).
Proof. apply step_base; [done|by intros; destruct up|apply half_notify]. Qed.

Definition conns_known s : Prop := forall t, t ∈ conn s -> t = NETCONN_WIFI \/ t = NETCONN_WIRED \/ t = NETCONN_CELLULAR.

Lemma conn_set_ok t cmd p : set_param_ok cmd p ->
  total (fun s => nm_ok s /\ t ∈ conn s /\ conns_known s) (conn_set answer t cmd p) (fun _ => nm_ok).
Proof.
  intros Hp s (Hok & Ht & Hk). destruct (Hk t Ht) as [->|[->| ->]]; [by apply wifi_set_ok|by apply wired_set_ok|by apply cellular_set_ok].
Qed.

Lemma conn_get_ok t cmd p : get_param_ok cmd p ->
  total (fun s => nm_ok s /\ t ∈ conn s /\ conns_known s) (conn_get answer address t cmd p) (fun _ => nm_ok).
Proof.
  intros Hp s (Hok & Ht & Hk). destruct (Hk t Ht) as [->|[->| ->]]; [by apply wifi_get_ok|by apply wired_get_ok|by apply cellular_get_ok].
Qed.

Lemma netmgr_set_ok t cmd p : set_param_ok cmd p -> total (fun s => nm_ok s /\ conns_known s) (netmgr_conn_set answer t cmd p) (fun _ => nm_ok).
Proof.
  intros Hp s [Hok Hk]. unfold netmgr_conn_set. rewrite gets_bind. destruct (inited s); [|by apply ok_ret].
  cbn [negb]. rewrite !gets_bind. cbv zeta. case_bool_decide; [by apply conn_set_ok|by apply ok_ret].
Qed.

Lemma netmgr_get_ok t cmd p : get_param_ok cmd p -> total (fun s => nm_ok s /\ conns_known s) (netmgr_conn_get answer address t cmd p) (fun _ => nm_ok).
Proof.
  intros Hp s [Hok Hk]. unfold netmgr_conn_get. rewrite gets_bind. destruct (inited s); [|by apply ok_ret].
  cbn [negb]. rewrite !gets_bind. cbv zeta. case_bool_decide; [by apply conn_get_ok|by apply ok_ret].
Qed.

Lemma netmgr_step_ok i : input_ok i -> total (fun s => nm_ok s /\ conns_known s) (netmgr_step ENABLE_BLUETOOTH answer address i) (fun _ => nm_ok).
Proof.
  intros Hi. assert (Hw : forall m : prog netmgr_t unit, total nm_ok m (fun _ => nm_ok) -> total (fun s => nm_ok s /\ conns_known s) m (fun _ => nm_ok)).
  { intros m Hm s [Hs _]. by apply Hm. }
  destruct i; cbn [netmgr_step input_ok] in *.
  - apply Hw, wifi_event_ok.
  - apply Hw, wired_event_ok.
  - apply Hw, cellular_event_ok.
  - apply Hw, quiet_safe_ok; [keep; apply quiet_timer|safe; apply safe_timer].
  - apply Hw, quiet_safe_ok; [keep; [by apply quiet_frame|apply quiet_process]|safe; apply safe_process].
  - by apply ok_then, netmgr_set_ok.
  - by apply ok_then, netmgr_get_ok.
  - apply Hw, ok_then, quiet_safe_ok; [apply quiet_finish|by apply safe_finish].
  - apply Hw, ok_then, quiet_safe_ok; [apply quiet_reset|apply safe_reset].
  - apply Hw, ok_then, quiet_safe_ok; [apply quiet_token|apply safe_token].
  - apply Hw, ok_then, quiet_safe_ok; unfold wifi_link_activete_cb; [keep|safe].
Qed.

(** ** What a subscriber of the link events knows

    It takes over what an event says; an event that says nothing new is [None]. *)
Definition hear (k : option (Z * netmgr_status_e)) (e : netmgr_event) : option (Z * netmgr_status_e) :=
  match k, e with
  | Some (a, st), N_link_type a' => if bool_decide (a = a') then None else Some (a', st)
  | Some (a, st), N_link_status st' => if bool_decide (st = st') then None else Some (a, st')
  | k, _ => k
  end.

(** The list of connections stays, and the events tell the changes. *)
Record heard s s' : Prop := Heard {
  h_conn : conn s' = conn s; h_type : type s' = type s; h_inited : inited s' = inited s;
  h_trace : exists es, nm_trace s' = nm_trace s ++ es /\ fold_left hear es (Some (active s, nm_status s)) = Some (active s', nm_status s') }.

#[local] Instance heard_preorder : PreOrder heard.
Proof.
  split.
  - intros s. split; [done..|]. exists []. by rewrite app_nil_r.
  - intros s1 s2 s3 [] []. split; [congruence..|]. destruct h_trace0 as (es & H1 & H2), h_trace1 as (es' & H3 & H4).
    exists (es ++ es'). split; [by rewrite H3, H1, <- app_assoc|by rewrite fold_left_app, H2].
Qed.

Lemma hear_told es k : forallb told es = true -> fold_left hear es k = k.
Proof.
  revert k. induction es as [|e es IH]; intros k; [done|]. cbn. intros [He Hes]%andb_prop.
  rewrite IH by done. by destruct e, k as [[? ?]|].
Qed.

Lemma quiet_heard {A} (m : prog netmgr_t A) : keeps quiet m -> keeps heard m.
Proof.
  apply keeps_weaken. intros s s' []. split; [done..|]. destruct q_trace0 as (es & H1 & H2). exists es.
  split; [done|]. rewrite hear_told by done. by rewrite q_active0, q_status0.
Qed.

Lemma get_netmgr_status_run t st s : exists r, get_netmgr_status t st s = Some (r, s).
Proof.
  unfold get_netmgr_status, get_status. case_bool_decide; [by eexists|]. rewrite gets_bind.
  case_bool_decide; [by eexists|]. rewrite gets_bind. case_bool_decide; [rewrite gets_bind|]; by eexists.
Qed.

Lemma heard_event_cb t st : keeps heard (netmgr_event_cb t st).
Proof.
  intros s x s'. unfold netmgr_event_cb, emit. rewrite gets_bind. case_bool_decide; [by intros [= <- <-]|].
  rewrite (bind_step _ _ _ _ _ (get_active_conn_run s)).
  destruct (get_netmgr_status_run (elect s) NETMGR_LINK_DOWN s) as ([rt st'] & Hr). rewrite (bind_step _ _ _ _ _ Hr). rewrite !gets_bind.
  case_bool_decide as H1; [|case_bool_decide as H2; [|case_bool_decide as H3; [|by intros [= <- <-]]]];
    rewrite ?modify_bind; intros [= <- <-]; (split; [done..|]).
  - exists [N_link_type (elect s); N_link_status st']. cbn. rewrite <- app_assoc. split; [done|].
    destruct H1. rewrite bool_decide_false by congruence. cbn. by rewrite bool_decide_false by congruence.
  - exists [N_link_status st']. cbn. split; [done|]. by rewrite bool_decide_false.
  - exists [N_link_type (elect s)]. cbn. split; [done|]. by rewrite bool_decide_false.
Qed.

Lemma heard_base t f : keeps heard (modify (set_base t f)).
Proof. apply keeps_modify. intros s. split; [done..|]. exists []. by rewrite app_nil_r. Qed.

Create HintDb heard.
#[local] Hint Resolve heard_event_cb heard_base : heard.
Ltac heard := repeat first [solve [apply quiet_heard; keep; quiet_step] | solve [eauto with heard typeclass_instances] | keep_step].

Lemma heard_call_cb t : keeps heard (call_event_cb t).
Proof. unfold call_event_cb. heard. Qed.
#[local] Hint Resolve heard_call_cb : heard.

Lemma heard_conn_set t cmd p : keeps heard (conn_set answer t cmd p).
Proof. unfold conn_set, netconn_wifi_set, netconn_wired_set, netconn_cellular_set, checked. heard. Qed.

Lemma heard_conn_get t cmd p : keeps heard (conn_get answer address t cmd p).
Proof. unfold conn_get, netconn_wifi_get, netconn_wired_get, netconn_cellular_get, get_status. heard. Qed.
#[local] Hint Resolve heard_conn_set heard_conn_get : heard.

Lemma heard_step i : keeps heard (netmgr_step ENABLE_BLUETOOTH answer address i).
Proof.
  destruct i; cbn [netmgr_step].
  - unfold netconn_wifi_event. heard.
  - unfold netconn_wired_event. heard.
  - unfold netconn_cellular_event. heard.
  - apply quiet_heard. keep. apply quiet_timer.
  - apply quiet_heard. keep; [by apply quiet_frame|apply quiet_process].
  - unfold netmgr_conn_set. heard.
  - unfold netmgr_conn_get. heard.
  - apply quiet_heard. keep. apply quiet_finish.
  - apply quiet_heard. keep. apply quiet_reset.
  - apply quiet_heard. keep. apply quiet_token.
  - apply quiet_heard. unfold wifi_link_activete_cb. keep.
Qed.

Lemma netmgr_run_ok l : Forall input_ok l -> forall s, nm_ok s -> conns_known s ->
  exists s', netmgr_run ENABLE_BLUETOOTH answer address l s = Some (tt, s') /\ nm_ok s' /\ conns_known s' /\ heard s s'.
Proof.
  induction 1 as [|i l Hi _ IH]; intros s Hok Hk; [by exists s|]. cbn [netmgr_run].
  destruct (netmgr_step_ok i Hi s) as ([] & s1 & Hr & Hok1); [done|]. pose proof (heard_step i s tt s1 Hr) as Hh.
  rewrite (bind_step _ _ _ _ _ Hr). destruct (IH s1 Hok1) as (s2 & Hr2 & Hok2 & Hk2 & Hh2).
  { intros t. rewrite (h_conn _ _ Hh). apply Hk. }
  exists s2. split; [done|]. split; [done|]. split; [done|]. by transitivity s1.
Qed.
End parts.

(** ** The start *)

Section start.
Context (ENABLE_WIFI ENABLE_WIRED ENABLE_CELLULAR ENABLE_BLUETOOTH : bool).
Context (answer : Z -> Z) (cJSON_Parse : bytes -> netinfo_json).

(** The key is written by this program: the strings fit. *)
Definition netinfo_ok : Prop :=
  forall text s p, cJSON_Parse text = Some (Some s, Some p) ->
    exists ssid pswd, s = Some ssid /\ p = Some pswd /\ zlen ssid <= 32 /\ zlen pswd <= 64.
Context (Hparse : netinfo_ok).

(** While the connections are registered: all down, with the priorities of the program. *)
Record starting (t : Z) (l : list Z) s : Prop := Starting {
  st_wifi : wifi_ok (wifi s); st_type : type s = t; st_conn : conn s = l;
  st_cb : forall u, event_cb (bases s u) = true <-> u ∈ l;
  st_down : forall u, status (bases s u) = NETMGR_LINK_DOWN; st_pri : forall u, pri (bases s u) = pri (s_bases u);
  st_status : nm_status s = NETMGR_LINK_DOWN }.

Lemma quiet_starting {A} t l (m : prog netmgr_t A) : keeps quiet m -> safe m -> total (starting t l) m (fun _ => starting t l).
Proof.
  intros Hq Hs s []. destruct (Hs s st_wifi0) as (x & s' & Hr & Hw). exists x, s'. split; [done|].
  destruct (Hq s x s' Hr). split; [done|congruence|congruence|by rewrite q_bases0..|congruence].
Qed.

Lemma quiet_info_get : keeps quiet (netconn_wifi_info_get answer cJSON_Parse).
Proof. unfold netconn_wifi_info_get, checked. keep. Qed.

Lemma safe_info_get : safe (netconn_wifi_info_get answer cJSON_Parse).
Proof.
  unfold netconn_wifi_info_get, checked. apply safe_bind; [safe|intros rt]. case_bool_decide; [|safe].
  apply safe_bind; [safe|intros k]. destruct (cJSON_Parse (default [] k)) as [[[s|] [q|]]|] eqn:Hc; [|safe..].
  destruct (Hparse _ _ _ Hc) as (a & b & -> & -> & Ha & Hb). apply safe_gets_wifi. intros w (? & ? & H1 & H2 & H3 & H4 & ?).
  destruct (strcpy_last (wi_ssid (wifi_conn_info w)) a 32) as (x & Hx & Hxl & Hxz); [done..|].
  destruct (strcpy_last (wi_pswd (wifi_conn_info w)) b 64) as (y & Hy & Hyl & Hyz); [done..|].
  eapply safe_lift; [done|]. eapply safe_lift; [done|]. eapply safe_lift; [done|]. eapply safe_lift; [done|].
  apply safe_bind; [|intros ?; safe]. apply safe_on_wifi. intros w' (? & ? & ? & ? & ? & ? & ?). repeat split; cbn; tauto.
Qed.

Lemma starting_set_base t l u f :
  (forall b, status (f b) = NETMGR_LINK_DOWN) -> (forall b, pri (f b) = pri b) -> (forall b, event_cb (f b) = event_cb b) ->
  total (starting t l) (modify (set_base u f)) (fun _ => starting t l).
Proof.
  intros Hs Hp Hc. apply total_modify. intros s []. split; [done..| | | |done]; intros v; cbn;
    (destruct (decide (u = v)) as [->|]; [rewrite fn_lookup_insert|by rewrite fn_lookup_insert_ne]).
  - by rewrite Hc.
  - by rewrite Hs.
  - by rewrite Hp.
Qed.

Lemma conn_open_ok t l u : total (starting t l) (conn_open answer cJSON_Parse u) (fun _ => starting t l).
Proof.
  unfold conn_open. case_bool_decide; [|case_bool_decide].
  - apply quiet_starting; unfold netconn_wifi_open, checked.
    + keep; try quiet_step; [apply quiet_info_get|apply quiet_connect].
    + safe; [apply safe_info_get|apply safe_connect].
  - eapply total_bind; [by apply starting_set_base|intros ?]. apply quiet_starting; unfold checked; [keep; quiet_step|safe].
  - eapply total_bind; [apply quiet_starting; [quiet_step|safe]|intros ?]. eapply total_bind; [by apply starting_set_base|intros ?].
    apply quiet_starting; unfold checked; [keep|safe].
Qed.

Lemma conn_insert_elem (q : Z -> Z) t l u : u ∈ conn_insert q t l <-> u = t \/ u ∈ l.
Proof.
  induction l as [|v l IH]; cbn; [set_solver|]. case_bool_decide; [set_solver|]. rewrite elem_of_cons, IH. set_solver.
Qed.

Lemma register_ok t l u : u ∉ l ->
  total (starting t l) (netmgr_conn_register answer cJSON_Parse u (Some u)) (fun _ => starting t (conn_insert (fun v => pri (s_bases v)) u l)).
Proof.
  intros Hu. unfold netmgr_conn_register. intros s []. rewrite modify_bind, gets_bind. cbn [conn set_base].
  rewrite st_conn0, bool_decide_false by done. rewrite modify_bind.
  apply (conn_open_ok t (conn_insert (fun v => pri (s_bases v)) u l)).
  assert (Hpri : forall v, pri (bases (set_base u set_event_cb s) v) = pri (s_bases v)).
  { intros v. cbn. destruct (decide (u = v)) as [->|]; [rewrite fn_lookup_insert|rewrite fn_lookup_insert_ne by done]; apply st_pri0. }
  split; [done|done| | | |done|done].
  - cbn [conn set_conn]. clear -Hpri. induction l as [|v l IH]; [done|]. cbn [conn_insert]. by rewrite !Hpri, IH.
  - intros v. rewrite conn_insert_elem. cbn. destruct (decide (u = v)) as [->|]; [rewrite fn_lookup_insert; set_solver|].
    rewrite fn_lookup_insert_ne by done. rewrite st_cb0. set_solver.
  - intros v. cbn. destruct (decide (u = v)) as [->|]; [rewrite fn_lookup_insert|rewrite fn_lookup_insert_ne by done]; apply st_down0.
Qed.

Definition has (enabled : bool) (t u : Z) : bool := enabled && negb (bool_decide (Z.land t u = 0)).

(** The connections of the configuration, by their priorities. *)
Definition configured t : list Z :=
  (if has ENABLE_WIRED t NETCONN_WIRED then [NETCONN_WIRED] else []) ++
  (if has ENABLE_WIFI t NETCONN_WIFI then [NETCONN_WIFI] else []) ++
  (if has ENABLE_CELLULAR t NETCONN_CELLULAR then [NETCONN_CELLULAR] else []).

Lemma maybe_register t l u (b : bool) : u ∉ l ->
  total (starting t l) (if b then netmgr_conn_register answer cJSON_Parse u (Some u);; mret tt else mret tt)
    (fun _ => starting t (if b then conn_insert (fun v => pri (s_bases v)) u l else l)).
Proof.
  intros Hu. destruct b; [|by apply total_ret]. eapply total_bind; [by apply register_ok|intros ?; by apply total_ret].
Qed.

Lemma starting_ok t l s : starting t l s -> active s = elect s -> (forall u, u ∈ l -> Z.land t u <> 0 /\ u <> NETCONN_AUTO) -> nm_ok s.
Proof.
  intros [] Ha Hl. split; [split|].
  - done.
  - rewrite st_conn0, st_type0. apply Hl.
  - by rewrite st_conn0.
  - intros u. by rewrite st_down0.
  - split; [done|]. rewrite st_status0. unfold link. destruct (existsb (is_up s) (conn s)) eqn:He; [|done].
    apply existsb_exists in He as (u & _ & Hu). unfold is_up in Hu. by rewrite st_down0 in Hu.
Qed.

Lemma configured_spec t u : u ∈ configured t ->
  Z.land t u <> 0 /\ u <> NETCONN_AUTO /\ (u = NETCONN_WIFI \/ u = NETCONN_WIRED \/ u = NETCONN_CELLULAR).
Proof.
  unfold configured, has. rewrite !elem_of_app. intros [Hu|[Hu|Hu]].
  all: destruct (_ && _) eqn:Hb; [|by apply not_elem_of_nil in Hu]; apply list_elem_of_singleton in Hu as ->.
  all: apply andb_prop in Hb as [_ Hb%negb_true_iff%bool_decide_eq_false]; split; [done|split; [done|tauto]].
Qed.

Definition register_if (b : bool) (u : Z) : prog netmgr_t unit :=
  if b then netmgr_conn_register answer cJSON_Parse u (Some u);; mret tt else mret tt.

Lemma register_all t s : starting t [] s ->
  exists s', starting t (configured t) s' /\ forall k : prog netmgr_t Z,
    (register_if (has ENABLE_WIRED t NETCONN_WIRED) NETCONN_WIRED;;
     register_if (has ENABLE_CELLULAR t NETCONN_CELLULAR) NETCONN_CELLULAR;;
     register_if (has ENABLE_WIFI t NETCONN_WIFI) NETCONN_WIFI;; k) s = k s'.
Proof.
  intros Hs.
  destruct (maybe_register t [] NETCONN_WIRED (has ENABLE_WIRED t NETCONN_WIRED) ltac:(set_solver) _ Hs) as ([] & s1 & Hr1 & Hs1).
  eassert (Hn : NETCONN_CELLULAR ∉ _); [|destruct (maybe_register t _ NETCONN_CELLULAR (has ENABLE_CELLULAR t NETCONN_CELLULAR) Hn _ Hs1) as ([] & s2 & Hr2 & Hs2)].
  { by destruct (has ENABLE_WIRED _ _); set_solver. }
  eassert (Hn' : NETCONN_WIFI ∉ _); [|destruct (maybe_register t _ NETCONN_WIFI (has ENABLE_WIFI t NETCONN_WIFI) Hn' _ Hs2) as ([] & s3 & Hr3 & Hs3)].
  { by destruct (has ENABLE_WIRED _ _), (has ENABLE_CELLULAR _ _); set_solver. }
  exists s3. split; [|intros k; by rewrite (bind_step _ _ _ _ _ Hr1), (bind_step _ _ _ _ _ Hr2), (bind_step _ _ _ _ _ Hr3)].
  revert Hs3. unfold configured.
  destruct (has ENABLE_WIRED _ _), (has ENABLE_CELLULAR _ _), (has ENABLE_WIFI _ _); exact (fun x => x).
Qed.

Lemma netmgr_init_ok t netinfo activated : answer 0 = OPRT_OK ->
  exists rt s, netmgr_init ENABLE_WIFI ENABLE_WIRED ENABLE_CELLULAR ENABLE_BLUETOOTH answer cJSON_Parse t (s_netmgr netinfo activated) = Some (rt, s) /\
    nm_ok s /\ conns_known s /\ conn s = configured t /\ (rt = OPRT_OK <-> configured t <> []).
Proof.
  intros H0. unfold netmgr_init, checked.
  rewrite (bind_step _ _ _ OPRT_OK (trace_event (N_call tal_mutex_create_init) (count_call (s_netmgr netinfo activated)))).
  2:{ unfold call, emit. rewrite gets_bind, !modify_bind. cbn [calls s_netmgr]. by rewrite H0. }
  rewrite bool_decide_true by done. rewrite modify_bind.
  match goal with |- exists rt s, (_ ≫= _) ?s0 = _ /\ _ => set (start := s0) end.
  assert (Hs : starting t [] start) by (split; try done; intros u; split; [done|]; by intros Hu%not_elem_of_nil).
  clearbody start. destruct (register_all t _ Hs) as (s3 & Hs3' & Hr). unfold register_if, has in Hr. rewrite Hr. clear Hr.
  rewrite (bind_step _ _ _ _ _ (get_active_conn_run s3)). rewrite modify_bind.
  set (s4 := set_netmgr (inited s3) (type s3) (elect s3) (nm_status s3) s3).
  assert (He : elect s4 = elect s3) by done.
  assert (Hok : nm_ok s4).
  { apply (starting_ok t (configured t)); [by destruct Hs3'; split|done|]. intros u Hu. by destruct (configured_spec t u Hu) as (? & ? & ?). }
  assert (Hk : forall s, conn s = conn s3 -> conns_known s).
  { intros s Hc u. rewrite Hc, (st_conn _ _ _ Hs3'). intros Hu. by destruct (configured_spec t u Hu) as (? & ? & ?). }
  assert (Hn : elect s3 = NETCONN_AUTO <-> configured t = []).
  { rewrite <- (st_conn _ _ _ Hs3'). unfold elect. split; [|by intros ->]. destruct (conn s3) as [|u l] eqn:Hc; [done|].
    assert (Hf : List.find (is_up s3) (u :: l) = None).
    { destruct (List.find _ _) as [v|] eqn:Hf; [|done]. apply find_up_spec in Hf as [_ Hf]. by rewrite (st_down _ _ _ Hs3') in Hf. }
    rewrite Hf. cbn. intros ->. destruct (configured_spec t NETCONN_AUTO) as (_ & ? & _); [rewrite <- (st_conn _ _ _ Hs3'), Hc; left|done]. }
  case_bool_decide as Ha.
  - eexists _, _. split; [done|]. split; [done|]. split; [by apply Hk|]. split; [apply Hs3'|]. split; [done|]. intros Hc. by apply Hn in Ha.
  - rewrite modify_bind. destruct Hok as [[? ? ? ?] ?].
    destruct (bool_decide (Z.land t NETCONN_WIFI <> 0 \/ _)), ENABLE_BLUETOOTH; eexists OPRT_OK, _; (split; [done|]);
      (split; [split; [by split|done]|]); (split; [by apply Hk|]); (split; [apply Hs3'|]); (split; [|done]); intros _ Hc; by apply Ha, Hn.
Qed.
End start.

(** ** The Wi-Fi connection goes on trying *)

Section trying.
Context (ENABLE_BLUETOOTH : bool) (answer : Z -> Z) (address : Z -> bytes).
(** There is memory and the work queue takes the messages. *)
Context (Hanswer : forall n, answer n = OPRT_OK).

Definition ticking w : Prop := table w = [1; 3; 5; 10; 15; 20] /\ 0 <= count w < 6 /\ timer w <> None.
Definition armed w : Prop := exists ms, timer w = Some (Some ms) /\ 0 < ms <= WIFI_CONN_TIMEOUT_MAX * 1000.

(** Who waits, waits for a timer; who checks, checks until a timer, or else is about to connect. *)
Record trying s : Prop := Trying {
  tr_tick : ticking (wifi s);
  tr_wait : stat (wifi s) = NETCONN_WIFI_CONN_WAIT -> armed (wifi s);
  tr_check : stat (wifi s) = NETCONN_WIFI_CONN_CHECK -> armed (wifi s) \/ NETCONN_WIFI_MSG_CONNECT ∈ msgs s }.

(** Steps that leave the attempts alone. *)
Record mild s s' : Prop := Mild {
  m_stat : stat (wifi s') = stat (wifi s); m_timer : timer (wifi s') = timer (wifi s);
  m_count : count (wifi s') = count (wifi s); m_table : table (wifi s') = table (wifi s);
  m_msgs : exists q, msgs s' = msgs s ++ q }.

#[local] Instance mild_preorder : PreOrder mild.
Proof.
  split.
  - intros s. split; [done..|]. exists []. by rewrite app_nil_r.
  - intros s1 s2 s3 [] []. split; [congruence..|]. destruct m_msgs0 as [q H1], m_msgs1 as [q' H2]. exists (q ++ q').
    by rewrite H2, H1, <- app_assoc.
Qed.

Lemma mild_ticking s s' : mild s s' -> ticking (wifi s) -> ticking (wifi s').
Proof. intros [] (? & ? & ?). repeat split; congruence || lia. Qed.

Lemma mild_trying s s' : mild s s' -> trying s -> trying s'.
Proof.
  intros Hm [Ht Hw Hc]. split; [by eapply mild_ticking|..]; destruct Hm; unfold armed in *; rewrite m_stat0, m_timer0; [done|].
  intros H. destruct (Hc H) as [|Hq]; [by left|right]. destruct m_msgs0 as [q ->]. set_solver.
Qed.

Lemma mild_hoare {A} (m : prog netmgr_t A) : keeps mild m -> hoare trying m (fun _ => trying).
Proof. intros Hm s x s' Hs Hr. eapply mild_trying; [by eapply Hm|done]. Qed.

Lemma mild_modify f : (forall s, wifi (f s) = wifi s /\ msgs (f s) = msgs s) -> keeps mild (modify f).
Proof. intros Hf. apply keeps_modify. intros s. destruct (Hf s) as [Hw Hq]. split; [by rewrite Hw..|]. exists []. by rewrite app_nil_r. Qed.

Lemma mild_on_wifi f : (forall w, stat (f w) = stat w /\ timer (f w) = timer w /\ count (f w) = count w /\ table (f w) = table w) -> keeps mild (on_wifi f).
Proof. intros Hf. apply keeps_modify. intros s. destruct (Hf (wifi s)) as (? & ? & ? & ?). split; [done..|]. exists []. by rewrite app_nil_r. Qed.

Lemma mild_emit e : keeps mild (emit e).
Proof. by apply mild_modify. Qed.

Lemma mild_call an c : keeps mild (call an c).
Proof. unfold call. keep; [by apply mild_modify|apply mild_emit]. Qed.
#[local] Hint Resolve mild_emit mild_call : prog.

Ltac mild := keep; first [by apply mild_modify | by apply mild_on_wifi].

Lemma mild_schedule an m : keeps mild (wifi_schedule an m).
Proof.
  unfold wifi_schedule. keep. apply keeps_modify. intros s. split; [done..|]. by exists [m].
Qed.
#[local] Hint Resolve mild_schedule : prog.

Lemma mild_connect an : keeps mild (netconn_wifi_connect an).
Proof. unfold netconn_wifi_connect. keep. Qed.
Lemma mild_disconnect an : keeps mild (netconn_wifi_disconnect an).
Proof. unfold netconn_wifi_disconnect. keep. Qed.
#[local] Hint Resolve mild_connect mild_disconnect : prog.

Lemma mild_active : keeps mild get_active_conn.
Proof. intros s x s'. rewrite get_active_conn_run. intros [= <- <-]. done. Qed.
#[local] Hint Resolve mild_active : prog.

Lemma mild_event_cb t st : keeps mild (netmgr_event_cb t st).
Proof. unfold netmgr_event_cb, get_netmgr_status, get_status. mild. Qed.
#[local] Hint Resolve mild_event_cb : prog.

Lemma mild_info_set i : keeps mild (netconn_wifi_info_set answer i).
Proof. unfold netconn_wifi_info_set. mild. Qed.
#[local] Hint Resolve mild_info_set : prog.
Lemma mild_finish i : keeps mild (netconn_wifi_netcfg_finish answer i).
Proof. unfold netconn_wifi_netcfg_finish. mild. Qed.
Lemma mild_token uuid pincode : keeps mild (netconn_activate_token_get ENABLE_BLUETOOTH answer uuid pincode).
Proof. unfold netconn_activate_token_get. mild. Qed.

Lemma mild_get t cmd p : keeps mild (netmgr_conn_get answer address t cmd p).
Proof.
  unfold netmgr_conn_get, conn_get, netconn_wifi_get, netconn_wired_get, netconn_cellular_get, get_address, get_status, call_event_cb. mild.
Qed.

(** *** Its own steps *)

Lemma schedule_run m s : exists s', wifi_schedule answer m s = Some (OPRT_OK, s') /\ mild s s' /\ msgs s' = msgs s ++ [m] /\ wifi s' = wifi s.
Proof.
  unfold wifi_schedule, call, emit. rewrite !bind_bind, gets_bind, !bind_bind, !modify_bind, !bind_bind, modify_bind, ret_bind, Hanswer.
  rewrite bool_decide_false by (intros ?; done). rewrite !bind_bind, gets_bind, !bind_bind, !modify_bind, !bind_bind, modify_bind, ret_bind, Hanswer.
  rewrite bool_decide_true by done. rewrite modify_bind. eexists. split; [done|]. split; [|done]. split; [done..|]. by exists [m].
Qed.

Lemma table_wait w : ticking w -> exists t, zget (table w) (count w) = Some t /\ 0 < u32 (t * 1000) <= WIFI_CONN_TIMEOUT_MAX * 1000.
Proof.
  intros (-> & Hc & _).
  assert (count w = 0 \/ count w = 1 \/ count w = 2 \/ count w = 3 \/ count w = 4 \/ count w = 5) as Hn by lia.
  destruct Hn as [->|[->|[->|[->|[->| ->]]]]]; eexists; (split; [reflexivity|vm_compute; split; congruence]).
Qed.

Lemma wait_run s : ticking (wifi s) -> exists s', wifi_wait s = Some (tt, s') /\ trying s' /\
  stat (wifi s') = NETCONN_WIFI_CONN_WAIT /\ msgs s' = msgs s /\ wifi_conn_info (wifi s') = wifi_conn_info (wifi s).
Proof.
  intros Ht. destruct (table_wait _ Ht) as (t & Hg & Hms). unfold wifi_wait. rewrite gets_bind.
  rewrite (lift_bind _ _ _ _ Hg). unfold wifi_timer_start, on_wifi. rewrite modify_bind.
  destruct Ht as (Htab & Hc & Htm). destruct (timer (wifi s)) as [o|] eqn:Ho; [|done]. rewrite Htab.
  change (zlen [1; 3; 5; 10; 15; 20]) with 6.
  case_bool_decide; [rewrite modify_bind|rewrite ret_bind]; eexists; (split; [done|]); (split; [|done]);
    (split; [|intros _; by eexists|by intros ?]); repeat split; cbn; done || lia.
Qed.

Lemma process_run m s : ticking (wifi s) -> exists s', netconn_wifi_connect_process answer m s = Some (tt, s') /\ trying s' /\
  msgs s' = msgs s /\ wifi_conn_info (wifi s') = wifi_conn_info (wifi s) /\
  (m = NETCONN_WIFI_MSG_CONNECT -> last (nm_trace s') =
     Some (N_station_connect (c_string (wi_ssid (wifi_conn_info (wifi s)))) (c_string (wi_pswd (wifi_conn_info (wifi s)))))).
Proof.
  intros (Htab & Hc & Htm). destruct (timer (wifi s)) as [o|] eqn:Ho; [|done].
  destruct m; cbn [netconn_wifi_connect_process]; unfold call, emit, wifi_timer_start, wifi_timer_stop, on_wifi.
  - rewrite !bind_bind, gets_bind, !bind_bind, modify_bind, !bind_bind, modify_bind, ret_bind, !modify_bind, gets_bind.
    eexists. split; [done|]. cbn [wifi set_wifi count_call trace_event]. rewrite Ho. split; [|split; [done|split; [done|intros _; cbn; by rewrite !last_snoc]]].
    split; [repeat split; cbn; done || lia|by intros ?|]. intros _. left. eexists. split; [done|]. vm_compute. by split.
  - rewrite !modify_bind, !bind_bind, gets_bind, !bind_bind, modify_bind, !bind_bind, modify_bind, ret_bind.
    eexists. split; [done|]. cbn [wifi set_wifi count_call trace_event]. rewrite Ho. split; [|done].
    split; [|by intros ?..]. repeat split; cbn; done || lia.
Qed.

(** The timer runs off. *)
Lemma timer_run s : trying s -> exists s', netmgr_step ENABLE_BLUETOOTH answer address In_timer s = Some (tt, s') /\ trying s' /\
  wifi_conn_info (wifi s') = wifi_conn_info (wifi s) /\
  (armed (wifi s) ->
     (stat (wifi s) = NETCONN_WIFI_CONN_WAIT -> msgs s' = msgs s ++ [NETCONN_WIFI_MSG_CONNECT]) /\
     (stat (wifi s) = NETCONN_WIFI_CONN_CHECK -> msgs s' = msgs s /\ stat (wifi s') = NETCONN_WIFI_CONN_WAIT)).
Proof.
  intros [Ht Hw Hc]. cbn [netmgr_step]. rewrite gets_bind. destruct (timer (wifi s)) as [[ms|]|] eqn:Ho.
  2,3: exists s; split; [done|]; split; [by split|]; split; [done|]; intros (ms & Hms & _); congruence.
  unfold on_wifi at 1. rewrite modify_bind. set (s1 := set_wifi _ s). unfold netconn_wifi_conn_timer. rewrite gets_bind.
  assert (Ht1 : ticking (wifi s1)) by (destruct Ht as (? & ? & ?); split; [done|by split]).
  change (stat (wifi s1)) with (stat (wifi s)).
  destruct (stat (wifi s)) eqn:Hst; (repeat (rewrite bool_decide_false by done)); try rewrite bool_decide_true by done.
  - exists s1. split; [done|]. split; [split; cbn; [done|congruence..]|]. done.
  - destruct (wait_run s1 Ht1) as (s2 & Hr & Htr & Hs2 & Hm & Hi). exists s2. split; [by rewrite ?bool_decide_false, ?bool_decide_true by done|].
    split; [done|]. split; [done|]. done.
  - exists s1. split; [done|]. split; [split; cbn; [done|congruence..]|]. done.
  - unfold netconn_wifi_connect. rewrite bind_bind, gets_bind. change (stat (wifi s1)) with (stat (wifi s)). rewrite Hst, bool_decide_false by done.
    destruct (schedule_run NETCONN_WIFI_MSG_CONNECT s1) as (s2 & Hr & _ & Hm & Hwf). rewrite (bind_step _ _ _ _ _ Hr). unfold on_wifi, modify.
    eexists. split; [done|]. split; [|split; [by cbn; rewrite Hwf|done]]. split; cbn; rewrite Hwf; [done|done|]. intros _. right. rewrite Hm. set_solver.
  - eexists. split; [done|]. split; [|done]. split; cbn; [done|done..].
Qed.

Lemma from_ticking {A} (m : prog netmgr_t A) Q : hoare (fun s => ticking (wifi s)) m Q -> hoare trying m Q.
Proof. intros Hm. eapply hoare_pre; [done|]. by intros s []. Qed.

(** The connection stops trying: it stays well formed. *)
Lemma settle_trying f : (forall w, ticking w -> ticking (f w)) ->
  (forall w, stat (f w) <> NETCONN_WIFI_CONN_WAIT /\ stat (f w) <> NETCONN_WIFI_CONN_CHECK) ->
  hoare (fun s => ticking (wifi s)) (on_wifi f) (fun _ => trying).
Proof. intros Hf Hs. apply hoare_modify. intros s Ht. destruct (Hs (wifi s)). split; cbn; [by apply Hf|done..]. Qed.

Lemma ticking_on_wifi f : (forall w, ticking w -> ticking (f w)) -> hoare (fun s => ticking (wifi s)) (on_wifi f) (fun _ s => ticking (wifi s)).
Proof. intros Hf. apply hoare_modify. intros s. apply Hf. Qed.

Lemma ticking_timer t w : ticking w -> ticking (match timer w with Some _ => set_timer (Some t) w | None => w end).
Proof. intros (? & ? & ?). destruct (timer w); [|done]. split; [done|by split]. Qed.

Lemma ticking_reset w st : ticking w -> ticking (set_stat st (set_count 0 w)).
Proof. intros (? & ? & ?). split; [done|split; [cbn; lia|done]]. Qed.

Lemma trying_then {A B} P (m : prog netmgr_t A) (k : A -> prog netmgr_t B) :
  hoare P m (fun _ => trying) -> (forall x, keeps mild (k x)) -> hoare P (m ≫= k) (fun _ => trying).
Proof. intros Hm Hk. eapply hoare_bind; [done|]. intros x. by apply mild_hoare. Qed.

Lemma trying_event connected : hoare trying (netconn_wifi_event answer connected) (fun _ => trying).
Proof.
  apply from_ticking.
  unfold netconn_wifi_event. eapply hoare_bind; [apply ticking_on_wifi, ticking_timer|intros ?].
  apply trying_then; [|intros ?; mild]. destruct connected.
  - eapply hoare_bind; [apply (ticking_on_wifi (set_count 0)); intros w (? & ? & ?); split; [done|split; [cbn; lia|done]]|intros ?].
    apply trying_then; [by apply settle_trying|intros ?]. by apply mild_modify.
  - eapply hoare_bind; [apply hoare_gets|]. intros w. cbv beta. apply trying_then; [|intros ?; by apply mild_modify].
    case_bool_decide as H1.
    { apply hoare_run. intros s [Ht _]. destruct (wait_run s Ht) as (s' & Hr & Htr & _). by exists tt, s'. }
    case_bool_decide as H2.
    { eapply hoare_pre; [|by intros s [Ht _]; apply Ht]. apply trying_then; [by apply settle_trying|intros ?; mild]. }
    apply hoare_ret. intros s [Ht ->]. split; [done|..]; intros H; tauto || (exfalso; apply H1; rewrite H; tauto).
Qed.

Lemma trying_reset : hoare trying (wifi_reset_event_cb answer) (fun _ => trying).
Proof.
  apply from_ticking.
  unfold wifi_reset_event_cb. eapply hoare_bind; [apply ticking_on_wifi, ticking_timer|intros ?].
  apply trying_then; [by apply settle_trying|intros ?; mild].
Qed.

Lemma trying_set t cmd p : hoare trying (netmgr_conn_set answer t cmd p) (fun _ => trying).
Proof.
  assert (Hreset : hoare trying (emit N_kv_del;; modify (set_netinfo None);; on_wifi (set_stat NETCONN_WIFI_CONN_STOP);;
            on_wifi (set_info netconn_info_zero);; call answer tal_wifi_station_disconnect;; mret OPRT_OK) (fun _ => trying)).
  { eapply hoare_bind; [apply mild_hoare; mild|intros ?]. eapply hoare_bind; [by apply mild_hoare, mild_modify|intros ?].
    apply from_ticking.
    apply trying_then; [by apply settle_trying|intros ?; mild]. }
  unfold netmgr_conn_set. eapply hoare_bind; [apply mild_hoare; mild|intros r]. destruct r; cbn [negb]; [|apply mild_hoare; mild].
  eapply hoare_bind; [apply mild_hoare; mild|intros a]. eapply hoare_bind; [apply mild_hoare; mild|intros l]. cbv zeta.
  destruct (bool_decide (_ ∈ l)); [|apply mild_hoare; mild]. unfold conn_set. destruct (bool_decide _).
  - unfold netconn_wifi_set, checked, call_event_cb. destruct cmd; try done; apply mild_hoare; mild.
  - apply mild_hoare. unfold netconn_wired_set, netconn_cellular_set, checked, call_event_cb. mild.
Qed.

Lemma trying_step i : hoare trying (netmgr_step ENABLE_BLUETOOTH answer address i) (fun _ => trying).
Proof.
  destruct i.
  - apply trying_event.
  - apply mild_hoare. cbn [netmgr_step]. unfold netconn_wired_event. mild.
  - apply mild_hoare. cbn [netmgr_step]. unfold netconn_cellular_event. mild.
  - apply hoare_run. intros s Hs. destruct (timer_run s Hs) as (s' & Hr & Ht & _). by exists tt, s'.
  - apply hoare_run. intros s Hs. cbn [netmgr_step]. rewrite gets_bind. destruct (msgs s) as [|m q]; [by exists tt, s|].
    rewrite modify_bind. destruct (process_run m (set_msgs q s) (tr_tick s Hs)) as (s' & Hr & Ht & _). by exists tt, s'.
  - cbn [netmgr_step]. apply trying_then; [apply trying_set|intros ?; mild].
  - apply mild_hoare. cbn [netmgr_step]. apply keeps_bind; [apply _|apply mild_get|intros ?; mild].
  - apply mild_hoare. cbn [netmgr_step]. apply keeps_bind; [apply _|apply mild_finish|intros ?; mild].
  - cbn [netmgr_step]. apply trying_then; [apply trying_reset|intros ?; mild].
  - apply mild_hoare. cbn [netmgr_step]. apply keeps_bind; [apply _|apply mild_token|intros ?; mild].
  - apply mild_hoare. cbn [netmgr_step]. unfold wifi_link_activete_cb. mild.
Qed.

Lemma trying_run l : hoare trying (netmgr_run ENABLE_BLUETOOTH answer address l) (fun _ => trying).
Proof.
  induction l as [|i l IH]; [by apply hoare_ret|]. cbn [netmgr_run]. eapply hoare_bind; [apply trying_step|]. intros ?. apply IH.
Qed.

(** *** The next attempt *)

Definition attempt s : netmgr_event := N_station_connect (c_string (wi_ssid (wifi_conn_info (wifi s)))) (c_string (wi_pswd (wifi_conn_info (wifi s)))).

Lemma works_run q1 q2 : forall s, trying s -> msgs s = q1 ++ NETCONN_WIFI_MSG_CONNECT :: q2 ->
  exists s', netmgr_run ENABLE_BLUETOOTH answer address (replicate (S (length q1)) In_work) s = Some (tt, s') /\ last (nm_trace s') = Some (attempt s).
Proof.
  induction q1 as [|m q1 IH]; intros s Hs Hq.
  - cbn [app length replicate netmgr_run netmgr_step] in *. rewrite bind_bind, gets_bind, Hq, bind_bind, modify_bind.
    destruct (process_run NETCONN_WIFI_MSG_CONNECT (set_msgs q2 s) (tr_tick s Hs)) as (s' & Hr & _ & _ & _ & Hl).
    rewrite (bind_step _ _ _ _ _ Hr). exists s'. split; [done|]. by apply Hl.
  - rewrite <- app_comm_cons in Hq. cbn [length replicate netmgr_run netmgr_step]. rewrite bind_bind, gets_bind, Hq, bind_bind, modify_bind.
    destruct (process_run m (set_msgs (q1 ++ NETCONN_WIFI_MSG_CONNECT :: q2) s) (tr_tick s Hs)) as (s1 & Hr & Ht & Hm & Hi & _).
    rewrite (bind_step _ _ _ _ _ Hr). destruct (IH s1 Ht) as (s' & Hr' & Hl); [by rewrite Hm|]. exists s'. split; [done|].
    rewrite Hl. unfold attempt. by rewrite Hi.
Qed.

Lemma wait_attempt s : trying s -> stat (wifi s) = NETCONN_WIFI_CONN_WAIT ->
  exists s', netmgr_run ENABLE_BLUETOOTH answer address (In_timer :: replicate (S (length (msgs s))) In_work) s = Some (tt, s') /\
    last (nm_trace s') = Some (attempt s).
Proof.
  intros Hs Hst. destruct (timer_run s Hs) as (s1 & Hr & Ht & Hi & Hm). destruct (Hm (tr_wait s Hs Hst)) as [Hm1 _].
  destruct (works_run (msgs s) [] s1 Ht (Hm1 Hst)) as (s' & Hr' & Hl). exists s'. cbn [netmgr_run].
  rewrite (bind_step _ _ _ _ _ Hr). split; [done|]. rewrite Hl. unfold attempt. by rewrite Hi.
Qed.

Definition own (i : netmgr_input) : Prop := i = In_timer \/ i = In_work.

Lemma own_works n : Forall own (replicate n In_work).
Proof. apply Forall_replicate. by right. Qed.

Lemma next_attempt s : trying s -> stat (wifi s) = NETCONN_WIFI_CONN_WAIT \/ stat (wifi s) = NETCONN_WIFI_CONN_CHECK ->
  exists l s', Forall own l /\ (length l <= length (msgs s) + 3)%nat /\
    netmgr_run ENABLE_BLUETOOTH answer address l s = Some (tt, s') /\ last (nm_trace s') = Some (attempt s).
Proof.
  intros Hs [Hst|Hst].
  - destruct (wait_attempt s Hs Hst) as (s' & Hr & Hl). eexists _, s'. split; [|split; [|by split]].
    + constructor; [by left|apply own_works].
    + cbn. rewrite length_replicate. lia.
  - destruct (tr_check s Hs Hst) as [Ha|Hq].
    + destruct (timer_run s Hs) as (s1 & Hr & Ht & Hi & Hm). destruct (Hm Ha) as [_ Hm1]. destruct (Hm1 Hst) as [Hq Hw].
      destruct (wait_attempt s1 Ht Hw) as (s' & Hr' & Hl). exists (In_timer :: In_timer :: replicate (S (length (msgs s1))) In_work), s'.
      split; [|split; [|split]].
      * constructor; [by left|]. constructor; [by left|apply own_works].
      * cbn. rewrite length_replicate, Hq. lia.
      * cbn [netmgr_run]. rewrite (bind_step _ _ _ _ _ Hr). exact Hr'.
      * rewrite Hl. unfold attempt. by rewrite Hi.
    + apply list_elem_of_split in Hq as (q1 & q2 & Hq). destruct (works_run q1 q2 s Hs Hq) as (s' & Hr & Hl).
      eexists _, s'. split; [apply own_works|]. split; [|by split]. rewrite length_replicate, Hq, length_app. cbn. lia.
Qed.
Lemma call_run c s : exists s', call answer c s = Some (OPRT_OK, s') /\ wifi s' = wifi s.
Proof. unfold call, emit. rewrite gets_bind, !modify_bind, Hanswer. by eexists. Qed.

Lemma open_trying cJSON_Parse : hoare (fun s => wifi s = s_netmgr_wifi) (netconn_wifi_open answer cJSON_Parse) (fun _ => trying).
Proof.
  intros s rt s' Hw Hr. unfold netconn_wifi_open, checked in Hr.
  destruct (call_run tal_wifi_init s) as (s1 & H1 & Hw1). rewrite (bind_step _ _ _ _ _ H1), bool_decide_true, gets_bind in Hr by done.
  destruct (call_run (tal_wifi_set_country_code (c_string (ccode (wifi s1)))) s1) as (s2 & H2 & Hw2).
  rewrite (bind_step _ _ _ _ _ H2), bool_decide_true in Hr by done.
  destruct (call_run tal_sw_timer_create s2) as (s3 & H3 & Hw3). rewrite bind_bind, (bind_step _ _ _ _ _ H3), bool_decide_true in Hr by done.
  unfold on_wifi in Hr at 1. rewrite bind_bind, modify_bind, ret_bind, bool_decide_true in Hr by done.
  assert (Ht : trying (set_wifi (set_timer (Some None) (wifi s3)) s3)).
  { split; cbn; rewrite Hw3, Hw2, Hw1, Hw; [|done..]. split; [done|split; [cbn; lia|done]]. }
  revert Hr. apply mild_hoare; [|done]. unfold netconn_wifi_info_get, checked. mild.
Qed.
End trying.

(** ** Properties *)


(** C22. The Wi-Fi connection never gives up: from its opening, after any steps, when it waits or checks then at most
    the timer (twice) and the messages of the work queue lie before the next attempt to connect with the stored
    credentials. There must be memory, and the queue must take the messages ([wifi_retry_lost] is the other case). *)
Theorem wifi_keeps_trying (ENABLE_BLUETOOTH : bool) (answer : Z -> Z) (address : Z -> bytes) (cJSON_Parse : bytes -> netinfo_json)
    (l : list netmgr_input) (s0 s1 s : netmgr_t) (rt : Z) :
  (forall n, answer n = OPRT_OK) -> wifi s0 = s_netmgr_wifi ->
  netconn_wifi_open answer cJSON_Parse s0 = Some (rt, s1) -> netmgr_run ENABLE_BLUETOOTH answer address l s1 = Some (tt, s) ->
  stat (wifi s) = NETCONN_WIFI_CONN_WAIT \/ stat (wifi s) = NETCONN_WIFI_CONN_CHECK ->
  exists k s', Forall own k /\ (length k <= length (msgs s) + 3)%nat /\
    netmgr_run ENABLE_BLUETOOTH answer address k s = Some (tt, s') /\ last (nm_trace s') = Some (attempt s).
Proof.
  intros Ha Hw Ho Hr Hs. apply next_attempt; [done| |done].
  eapply (trying_run ENABLE_BLUETOOTH answer address Ha l); [|done]. by eapply open_trying.
Qed.

(** Without memory when the wait is over, the Wi-Fi connection stays down for good: the message is not sent but
    the state says that a check is on, no timer runs, and neither the timer nor the work queue does anything
    any more. *)
Theorem wifi_retry_lost (ENABLE_BLUETOOTH : bool) (answer : Z -> Z) (address : Z -> bytes) (s : netmgr_t) :
  stat (wifi s) = NETCONN_WIFI_CONN_WAIT -> armed (wifi s) -> msgs s = [] -> answer (calls s) <> OPRT_OK ->
  exists s', netmgr_step ENABLE_BLUETOOTH answer address In_timer s = Some (tt, s') /\
    stat (wifi s') = NETCONN_WIFI_CONN_CHECK /\
    forall l, Forall own l -> netmgr_run ENABLE_BLUETOOTH answer address l s' = Some (tt, s').
Proof.
  intros Hst (ms & Hms & _) Hq Ha. cbn [netmgr_step]. rewrite gets_bind, Hms. unfold on_wifi at 1. rewrite modify_bind.
  set (s1 := set_wifi _ s). unfold netconn_wifi_conn_timer. rewrite gets_bind. change (stat (wifi s1)) with (stat (wifi s)).
  rewrite Hst, bool_decide_true by done. unfold netconn_wifi_connect. rewrite bind_bind, gets_bind. change (stat (wifi s1)) with (stat (wifi s)).
  rewrite Hst, bool_decide_false by done. unfold wifi_schedule, call, emit. rewrite !bind_bind, gets_bind, !bind_bind, !modify_bind, !bind_bind, modify_bind, ret_bind.
  change (calls s1) with (calls s). rewrite bool_decide_true by done. rewrite ret_bind. unfold on_wifi, modify.
  eexists. split; [done|]. split; [done|]. intros l. induction 1 as [|i l [-> | ->] _ IH]; [done|..]; cbn [netmgr_run netmgr_step]; rewrite bind_bind, gets_bind; cbn in Hq |- *.
  - rewrite ret_bind. apply IH.
  - rewrite Hq, ret_bind. apply IH.
Qed.

(** A request to close the Wi-Fi connection is lost while the message of a reconnection waits in the work queue:
    it returns OPRT_OK, changes nothing, and the device connects. *)
Theorem wifi_close_lost (ENABLE_BLUETOOTH : bool) (answer : Z -> Z) (address : Z -> bytes) (s : netmgr_t) (q1 q2 : list netmgr_wifi_msg_type_t) :
  trying s -> inited s = true -> NETCONN_WIFI ∈ conn s -> stat (wifi s) = NETCONN_WIFI_CONN_REDAY ->
  msgs s = q1 ++ NETCONN_WIFI_MSG_CONNECT :: q2 ->
  netmgr_conn_set answer NETCONN_WIFI NETCONN_CMD_CLOSE P_NULL s = Some (OPRT_OK, s) /\
  exists s', netmgr_run ENABLE_BLUETOOTH answer address (replicate (S (length q1)) In_work) s = Some (tt, s') /\
    last (nm_trace s') = Some (attempt s).
Proof.
  intros Ht Hi Hc Hst Hq. split; [|by apply works_run with (q2 := q2)]. unfold netmgr_conn_set. rewrite gets_bind, Hi. cbn [negb].
  rewrite !gets_bind. cbv zeta. rewrite (bool_decide_false (NETCONN_AUTO = NETCONN_WIFI)) by done. rewrite bool_decide_true by done.
  unfold conn_set. rewrite bool_decide_true by done. cbn [netconn_wifi_set]. unfold netconn_wifi_disconnect.
  rewrite bind_bind, gets_bind, Hst, bool_decide_true by tauto. done.
Qed.

(** The priority of a connection cannot be changed: the command stores it and returns OPRT_OK, but neither the
    order of the list nor the active connection nor the status changes, and nothing is announced. *)
Theorem netmgr_priority_ignored (answer : Z -> Z) (s : netmgr_t) (t z : Z) :
  nm_ok s -> conns_known s -> inited s = true -> t ∈ conn s ->
  exists s', netmgr_conn_set answer t NETCONN_CMD_PRI (P_int z) s = Some (OPRT_OK, s') /\
    pri (bases s' t) = u8 z /\ conn s' = conn s /\ active s' = active s /\ nm_status s' = nm_status s /\ nm_trace s' = nm_trace s.
Proof.
  intros [Hc [Ha Hl]] Hk Hi Ht. destruct (core_conn s Hc t Ht) as [Hty Hn]. unfold netmgr_conn_set. rewrite gets_bind, Hi. cbn [negb].
  rewrite !gets_bind. cbv zeta. rewrite (bool_decide_false (NETCONN_AUTO = t)) by done. rewrite bool_decide_true by done.
  assert (Hset : conn_set answer t NETCONN_CMD_PRI (P_int z) = (modify (set_base t (set_pri (u8 z)));; call_event_cb t;; mret OPRT_OK)).
  { by destruct (Hk t Ht) as [->|[->| ->]]. }
  rewrite Hset, modify_bind. set (s1 := set_base t (set_pri (u8 z)) s).
  assert (Hb : forall u, status (bases s1 u) = status (bases s u) /\ event_cb (bases s1 u) = event_cb (bases s u)).
  { intros u. cbn. destruct (decide (t = u)) as [->|]; [by rewrite fn_lookup_insert|by rewrite fn_lookup_insert_ne]. }
  assert (Hc1 : nm_core s1).
  { split; [apply Hc|apply Hc| |]; intros u; destruct (Hb u) as [Hb1 Hb2]; [rewrite Hb2|rewrite Hb1]; apply Hc. }
  assert (Hel : elect s1 = elect s /\ link s1 = link s).
  { unfold elect, link. cbn [conn s1 set_base]. assert (Hu : forall u, is_up s1 u = is_up s u) by (intros u; unfold is_up; by destruct (Hb u) as [-> _]).
    assert (List.find (is_up s1) (conn s) = List.find (is_up s) (conn s) /\ existsb (is_up s1) (conn s) = existsb (is_up s) (conn s)) as [-> ->]; [|done].
    generalize (conn s). intros l. induction l as [|u l [IH1 IH2]]; [done|]. cbn. by rewrite Hu, IH1, IH2. }
  destruct Hel as [He1 Hl1]. unfold call_event_cb. rewrite bind_bind, gets_bind, (proj2 (core_cb s1 Hc1 t) Ht).
  unfold netmgr_event_cb. rewrite bind_bind, gets_bind, bool_decide_false by done.
  rewrite bind_bind, (bind_step _ _ _ _ _ (get_active_conn_run s1)). destruct (get_netmgr_status_elect s1 Hc1) as [rt Hr].
  rewrite bind_bind, (bind_step _ _ _ _ _ Hr). cbn [fst snd]. rewrite bind_bind, gets_bind, bind_bind, gets_bind.
  rewrite He1, Hl1. change (nm_status s1) with (nm_status s). change (active s1) with (active s). rewrite <- Ha, <- Hl.
  rewrite !bool_decide_false by tauto. rewrite ret_bind. exists s1. split; [done|]. split; [|done].
  cbn. by rewrite fn_lookup_insert.
Qed.

(** *** Smaller facts *)

(** Asking the Wi-Fi connection for its priority sets it. *)
Lemma wifi_get_sets_priority (answer : Z -> Z) (address : Z -> bytes) (z : Z) (s : netmgr_t) :
  nm_ok s -> conns_known s -> inited s = true -> NETCONN_WIFI ∈ conn s ->
  exists s', netmgr_conn_get answer address NETCONN_WIFI NETCONN_CMD_PRI (P_int z) s = Some ((OPRT_OK, P_int z), s') /\ pri (bases s' NETCONN_WIFI) = u8 z.
Proof.
  intros Hok Hk Hi Ht. destruct (netmgr_priority_ignored answer s NETCONN_WIFI z Hok Hk Hi Ht) as (s' & Hr & Hp & _).
  exists s'. split; [|done]. revert Hr. unfold netmgr_conn_set, netmgr_conn_get. rewrite !gets_bind, Hi. cbn [negb]. rewrite !gets_bind. cbv zeta.
  rewrite (bool_decide_false (NETCONN_AUTO = NETCONN_WIFI)) by done. rewrite !(bool_decide_true (NETCONN_WIFI ∈ conn s)) by done.
  unfold conn_set, conn_get. rewrite !bool_decide_true by done. cbn [netconn_wifi_set netconn_wifi_get]. rewrite !modify_bind.
  intros (x & s1 & Hr & Hq)%bind_inv. rewrite (bind_step _ _ _ _ _ Hr). by injection Hq as ->.
Qed.

(** New credentials are stored, but a connection that is up is not changed. *)
Lemma wifi_new_credentials_ignored (answer : Z -> Z) (i : netconn_wifi_info_t) (s : netmgr_t) :
  stat (wifi s) = NETCONN_WIFI_CONN_LINKUP ->
  netconn_wifi_set answer NETCONN_CMD_SSID_PSWD (P_wifi_info i) s = Some (OPRT_OK, set_wifi (set_info i (wifi s)) s).
Proof.
  intros Hs. cbn [netconn_wifi_set]. unfold on_wifi, netconn_wifi_connect. rewrite modify_bind, bind_bind, gets_bind.
  change (stat _) with (stat (wifi s)). by rewrite Hs, bool_decide_true by done.
Qed.

(** The name of a network that replaces a longer one keeps the end of the longer one. *)
Lemma wifi_name_tail_kept (old new : bytes) pad pad' : no_nul old -> no_nul new -> zlen new <= zlen old ->
  exists r, memcpy (old ++ 0 :: pad) 0 (new ++ pad') 0 (zlen new) = Some r /\ c_string r = new ++ drop (length new) old.
Proof.
  intros Ho Hn Hl. unfold memcpy, mread. pose proof (zlen_nonneg new). pose proof (zlen_nonneg pad). pose proof (zlen_nonneg pad').
  rewrite bool_decide_true by (rewrite zlen_app; lia). ub_step. unfold zlen at 1. rewrite Nat2Z.id. change (Z.to_nat 0) with 0%nat. rewrite drop_0, take_app_length.
  rewrite mwrite_0 by (rewrite zlen_app, zlen_cons; lia). eexists. split; [done|]. unfold zlen. rewrite Nat2Z.id.
  rewrite drop_app_le by (unfold zlen in Hl; lia). rewrite app_assoc. apply c_string_nul. apply Forall_app. split; [done|by apply Forall_drop].
Qed.

(** The command without its second argument compares with NULL, and with a name but without a password it measures NULL. *)
Lemma netmgr_cmd_crash ENABLE_WIRED (answer : Z -> Z) (ssid : bytes) (s : netmgr_t) :
  inited s = true -> Z.land (type s) NETCONN_WIFI <> 0 -> zlen ssid <= WIFI_SSID_LEN ->
  netmgr_cmd true ENABLE_WIRED answer [c_str "netmgr"; c_str "wifi"] s = None /\
  netmgr_cmd true ENABLE_WIRED answer [c_str "netmgr"; c_str "wifi"; c_str "up"; ssid] s = None.
Proof.
  intros Hi Ht Hl.
  assert (Hc : forall argv, zlen argv = 2 \/ zlen argv = 4 -> zget argv 1 = Some (c_str "wifi") ->
    netmgr_cmd true ENABLE_WIRED answer argv s = (arg2 ← lift (zget argv 2);
      if bool_decide (arg2 = c_str "up") then
        if bool_decide (zlen argv < 4) then mret tt
        else arg3 ← lift (zget argv 3);
          if bool_decide (zlen arg3 > WIFI_SSID_LEN) then mret tt
          else arg4 ← lift (zget argv 4);
            if bool_decide (zlen arg4 > WIFI_PASSWD_LEN) then mret tt
            else ssid ← lift (strcpy (replicate 33 0) arg3); pswd ← lift (strcpy (replicate 65 0) arg4);
              netmgr_conn_set answer NETCONN_WIFI NETCONN_CMD_SSID_PSWD (P_wifi_info (WifiInfo ssid pswd));; mret tt
      else if bool_decide (arg2 = c_str "down") then netmgr_conn_set answer NETCONN_WIFI NETCONN_CMD_CLOSE P_NULL;; mret tt
      else if bool_decide (arg2 = c_str "scan") then emit N_scan else mret tt) s).
  { intros argv Hn H1. unfold netmgr_cmd. cbv zeta. rewrite gets_bind, Hi. cbn [negb]. rewrite !(bool_decide_false (zlen argv > 5)), !(bool_decide_false (zlen argv = 1)) by lia.
    rewrite (lift_bind _ _ _ _ H1), (bool_decide_true (c_str "wifi" = c_str "wifi")) by done. cbn [negb]. by rewrite gets_bind, bool_decide_false by done. }
  split; (rewrite Hc; [|vm_compute; tauto|done]); [done|]. rewrite (lift_bind _ (c_str "up")) by done. rewrite bool_decide_true by done.
  rewrite (bool_decide_false (zlen _ < 4)) by done. rewrite (lift_bind _ ssid) by done. by rewrite bool_decide_false by lia.
Qed.

(** ** Witnesses *)

Definition all_ok (_ : Z) : Z := 0.
Definition no_json (_ : bytes) : netinfo_json := None.
Definition no_address (_ : Z) : bytes := [].
Definition state_of {A} (r : option (A * netmgr_t)) : netmgr_t := match r with Some (_, s) => s | None => s_netmgr None false end.

(** Wired and Wi-Fi, the device is activated. *)
Definition start_state : netmgr_t := state_of (netmgr_init true true false false all_ok no_json 6 (s_netmgr None true)).
Definition after (l : list netmgr_input) : netmgr_t := state_of (netmgr_run false all_ok no_address l start_state).

Lemma after_ok l : Forall input_ok l -> nm_ok (after l) /\ conns_known (after l).
Proof.
  intros Hl. destruct (netmgr_init_ok true true false false all_ok no_json ltac:(by intros ? ? ? [=]) 6 None true eq_refl)
    as (rt & s0 & Hr0 & Hok & Hk & _).
  destruct (netmgr_run_ok false all_ok no_address l Hl s0 Hok Hk) as (s & Hr & Hok' & Hk' & _).
  unfold after, start_state. rewrite Hr0. cbn [state_of]. by rewrite Hr.
Qed.


Definition opened : netmgr_t := state_of (netconn_wifi_open all_ok no_json (s_netmgr None true)).
Definition retrying : netmgr_t := state_of (netmgr_run false all_ok no_address [In_work; In_wifi false] opened).

Lemma wifi_keeps_trying_witness :
  exists k s', Forall own k /\ (length k <= length (msgs retrying) + 3)%nat /\
    netmgr_run false all_ok no_address k retrying = Some (tt, s') /\ last (nm_trace s') = Some (attempt retrying).
Proof.
  exact (wifi_keeps_trying false all_ok no_address no_json [In_work; In_wifi false] (s_netmgr None true) opened retrying 0
    (fun _ => eq_refl) eq_refl ltac:(vm_compute; reflexivity) ltac:(vm_compute; reflexivity) ltac:(left; vm_compute; reflexivity)).
Defined.

Lemma wifi_retry_lost_witness :
  let s := after [In_work; In_wifi false] in
  exists s', netmgr_step false (fun _ => OPRT_MALLOC_FAILED) no_address In_timer s = Some (tt, s') /\
    stat (wifi s') = NETCONN_WIFI_CONN_CHECK /\
    forall l, Forall own l -> netmgr_run false (fun _ => OPRT_MALLOC_FAILED) no_address l s' = Some (tt, s').
Proof.
  apply wifi_retry_lost; [reflexivity| |reflexivity|discriminate]. exists 1000. split; [reflexivity|]. vm_compute. split; congruence.
Defined.

Lemma wifi_close_lost_witness :
  let s := after [In_work; In_wifi true; In_wifi false] in
  netmgr_conn_set all_ok NETCONN_WIFI NETCONN_CMD_CLOSE P_NULL s = Some (OPRT_OK, s) /\
  exists s', netmgr_run false all_ok no_address [In_work] s = Some (tt, s') /\ last (nm_trace s') = Some (attempt s).
Proof.
  apply (wifi_close_lost false all_ok no_address _ [] []); [|reflexivity|vm_compute; right; left|reflexivity|reflexivity].
  split; [|discriminate..]. split; [reflexivity|]. split; [vm_compute; split; congruence|discriminate].
Defined.

Lemma netmgr_priority_ignored_witness :
  let s := after [In_wired true; In_wifi true] in
  exists s', netmgr_conn_set all_ok NETCONN_WIFI NETCONN_CMD_PRI (P_int 200) s = Some (OPRT_OK, s') /\
    pri (bases s' NETCONN_WIFI) = 200 /\ conn s' = [NETCONN_WIRED; NETCONN_WIFI] /\ active s' = NETCONN_WIRED /\
    nm_status s' = NETMGR_LINK_UP /\ nm_trace s' = nm_trace s.
Proof.
  destruct (after_ok [In_wired true; In_wifi true]) as [Hok Hk]; [repeat constructor|].
  exact (netmgr_priority_ignored all_ok (after [In_wired true; In_wifi true]) NETCONN_WIFI 200 Hok Hk
    ltac:(vm_compute; reflexivity) ltac:(vm_compute; right; left)).
Defined.
